(* ===== verification/_CoqProject ===== *)
-Q . S2P
Prelude.v
ByteOrder.v
ConstBuffer.v
ByteBuffer.v
FifoBuffer.v
TcpState.v
PseudoTcp.v
TcpWire.v
TcpQueue.v
TcpSend.v
TcpOps.v
TcpRecv.v
TcpOptions.v
TcpSafe.v
TcpProcess.v
TcpApi.v
TcpRun.v
TcpEdge.v
BitBuffer.v
BitCodes.v
BitStream.v
CrcTables.v
Crc.v
Blocks.v
Sha1.v
Sha1Ok.v
Md5.v
Md5Ok.v
StringEncode.v
Digest.v
IpAddress.v
SocketAddress.v
StunAttr.v
StunCodec.v
StunMessage.v
StunRead.v
StunProps.v
StunNames.v
StunAuth.v
AsyncTcpSocket.v
AsyncFraming.v
AsyncTcpProps.v
SocketAdapters.v
SocksProps.v
ProxyProps.v
HeapTimer.v
StunSafe.v
StunServer.v
StunRequest.v
IceCandidate.v
IcePort.v
IceConnState.v
IceConnection.v
IceCheck.v
IceController.v
IceOrder.v
IcePing.v
TurnServer.v
TurnNonce.v
TurnProps.v
TurnRun.v
TurnSafe.v
TurnSession.v
