(* ===== verification/Prelude.v ===== *)
(** * libmsf: a machine-checked model of the networking core

    libmsf is a C++ library of network components.  This development models
    the part of it that carries its own protocol logic: the STUN library
    under src/lib/network/stun (byte and bit buffers, addresses, STUN messages
    and their authentication, requests with retransmission, the STUN and the
    TURN server, packets and proxies over TCP, the ports, connections and
    controller of ICE, and PseudoTcp, a TCP over datagrams), the digests and
    checksums under src/lib/base on which it rests, and the timer queue of
    src/lib/network/event that drives the requests.

    How the parts interact: byte buffers carry the messages; messages are
    signed with the digests and the checksum; requests, the two servers and
    ICE exchange such messages and are driven by the timers; PseudoTcp keeps
    its data in two ring buffers and the proxies theirs in two more.

    ** How the code is modelled

    A call is a function into [outcome]: it returns ([Ret]) or stops the
    process ([Crash] with the reason: a failed [assert], an access outside an
    array, a division by zero, undefined behaviour such as a shift by the
    width).  Assertions are compiled in, as the build has them, except in
    AsyncTcpSocket and SocketAdapters, where [NDEBUG] is a parameter.  Members
    of a class are the fields of a record and every member function takes and
    returns that record; where a component sends datagrams, raises signals or
    shares objects, its operations run in a monad of their own file over such
    a state.  Integers are [Z] with [wrap8] to [wrap64] and [to_int32] where
    the code has that width; memory is a list of bytes, read and written with
    [mem_read] and [mem_write], which check the bounds; what [new] returns is
    given by the class [Heap], so that no theorem depends on the contents of
    fresh memory.  Byte order of the host is a parameter where the code
    branches on it.  Loops that are not structural take fuel: the definitions
    pass a bound computed from the sizes (the length of the data, of a queue,
    of a list), and the theorems show a [Ret], so the bound is enough.

    ** The files

    Buffers.
    - Prelude: outcomes, machine integers, memory, tactics and hints.
    - ByteOrder (base/byte_order.h), ConstBuffer (stun/const_buffer.h),
      ByteBuffer (stun/byte_buffer): integers in memory, the growable array,
      the writer and the reader.  The writer is written against the interface
      [BufferClass].  Every width and the variable-length integers are read
      back as written.
    - FifoBuffer (stun/fifo_buffer): the ring buffer; it refines a bounded
      queue of bytes.
    - BitBuffer, BitCodes, BitStream (stun/bit_buffer): bits, Exponential-
      Golomb and non-symmetric codes; what is written is read back, and
      reading bits that nobody wrote stays inside the memory.

    PseudoTcp.
    - TcpState, PseudoTcp (stun/pseudo_tcp): the members and all member
      functions.  TcpWire, TcpQueue, TcpSend, TcpOps, TcpRecv, TcpOptions,
      TcpSafe, TcpProcess, TcpApi prove the invariant of each part; TcpRun
      joins them for arbitrary executions: what the application receives is a
      front part of what the peer sent, the calls that respect [call_ok] do
      not crash, every packet carries the bytes its number claims, and those
      bytes are what [Send] accepted.  TcpEdge shows what happens when the
      assumptions about the peer and the owner are dropped.

    Checksums and digests.
    - CrcTables, Crc (base/crc32_sw.cc, crc32-x86.cc, crc.cc): table-driven
      and hardware checksums are the bit-serial CRC-32C.
    - Blocks, Sha1, Sha1Ok, Md5, Md5Ok (base/sha1.cc, base/md5.cc): streaming
      digests equal the definitions of FIPS 180 and RFC 1321 on the
      concatenation of the updates.
    - StringEncode (stun/string_encode.cc): hexadecimal text, tokenizers.
    - Digest (stun/message_digest.cc, sha1_digest.cc, md5_digest.cc): the
      abstract class as a type class with laws, discharged by both digests;
      HMAC proved against the laws only.

    STUN.
    - IpAddress, SocketAddress (stun/ip_address, stun/socket_address):
      comparisons, prefixes, classification, text and kernel structures.
      [inet_pton] and [inet_ntop] are parameters with their documented laws.
    - StunAttr, StunCodec, StunMessage, StunRead, StunProps, StunNames
      (stun/stun.h, stun.cc): attributes, messages, reading and writing.
      What is written is read back; reading arbitrary bytes ends and stays in
      the buffer; the length of the header follows the attributes.
    - StunAuth (stun/stun.cc): MESSAGE-INTEGRITY, FINGERPRINT, credentials,
      composed from the digests, the checksum and the message writer.
      StunSafe: the same operations on messages under construction and on
      arbitrary packets.
    - StunServer (stun/stun_server.cc, async_udp_socket.cc): what the server
      answers to any datagram.
    - HeapTimer (event/timer), StunRequest (stun/stun_request): the timer queue
      over an interface for [std::priority_queue]; requests as objects in
      memory, their retransmission through the timers, and responses.

    Streams and proxies.
    - AsyncTcpSocket, AsyncFraming, AsyncTcpProps (stun/async_tcp_socket,
      async_stun_tcp_socket): packets over TCP.  The interface [Framing] says
      that a subclass follows a parser; accepted packets survive any cutting.
    - SocketAdapters, SocksProps, ProxyProps (stun/socket_adapters,
      server_socket_adapters, proxy_server): the fake SSL and SOCKS 5
      handshakes and the proxied connection.

    TURN.
    - TurnServer (stun/turn_server), TurnNonce, TurnProps, TurnRun, TurnSafe,
      TurnSession: the server with its allocations, permissions and channels.
      It relays only for authorised requests (TurnRun, TurnSession), its
      handlers never crash (TurnSafe, TurnSession) and it serves a client that
      has the key (TurnSession).

    ICE.
    - IceCandidate (stun/candidate, p2p_constants.cc), IcePort (stun/port),
      IceConnState, IceConnection, IceCheck (stun/connection), IceController
      (stun/basic_ice_controller, ice_transport_internal): definitions.
    - IceOrder: connections are ranked by a lexicographic order, and switches
      follow it.  IcePing: pruning and the rounds of pings.

    ** Assumptions

    PseudoTcp is run against a network that may lose, repeat and reorder
    packets and may refuse to send them, and against a peer that only sends
    packets that belong to one stream; the stream stays below 4 GiB, and the
    owner's calls respect [call_ok] of TcpRun.  The application may call back
    from its notifications; [TcpWritePacket] itself does not call back.

    The TURN server is run with arbitrary authentication and redirect hooks
    and an arbitrary clock; the socket factory gives out sockets that are not
    in use, and where a theorem speaks of a nonce of the server, it says which
    nonces a client could not have forged.  Sending a datagram is an output of
    the server; what a socket does with it is not part of the model, and the
    theorem about crashes is for clients over UDP.

    For ICE, one value of the clock is read per handler; pointers to networks
    identify networks; the sums of generations that the comparison subtracts
    stay in 31 bits.  The theorems that need one of these state it as a
    hypothesis.

    Calls of the C library and of the processor ([inet_pton], the crc32
    instruction, clocks, random numbers, fresh memory) are parameters.
    Locks are held for whole operations, so operations are atomic; the classes
    modelled here run on one event loop.

    ** Not modelled

    Logging, signal listeners, the observer of STUN messages in the TURN
    server, and statistics; of the configuration of ICE only the fields that
    the modelled code reads.  Above the modelled parts of ICE: the channel
    (p2p_transport_channel.cc), the TURN, STUN and TCP ports and port
    allocation, which tie them to sockets.  The event loop, pollers, sockets,
    threads, directories and interfaces of the host, which are system calls;
    the other containers, rates, dates and logs of src/lib/base; RPC
    (network/frpc) and the replication library (network/fraft), which work on
    generated classes; UPnP and dynamic DNS; printing of floating-point and
    anonymised addresses; code that the build leaves out (OpenSSL branches,
    .bak files, keep-alive of PseudoTcp). *)

From Stdlib Require Import ZArith Lia.
From stdpp Require Export base list list_numbers option numbers.
From coqutil Require Export Byte Word.LittleEndianList.

#[global] Open Scope Z_scope.

(** ** Outcomes of C++ code

    A call either returns a value or stops the process: an [assert] that
    fails, an access outside an allocated array, a division by zero, an
    operation the language leaves undefined (a shift by the width or more).
    [FuelExhausted] is the model's own answer when a loop was given too
    little fuel; the termination theorems show that it is never the answer. *)
Inductive fault : Type :=
| AssertionFailed
| OutOfBounds
| DivideByZero
| UndefinedBehaviour
| FuelExhausted.

Inductive outcome (A : Type) : Type :=
| Ret (a : A)
| Crash (f : fault).
Arguments Ret {A} a.
Arguments Crash {A} f.

#[global] Instance fault_eq_dec : EqDecision fault.
Proof. solve_decision. Defined.
#[global] Instance outcome_eq_dec {A} `{EqDecision A} : EqDecision (outcome A).
Proof. solve_decision. Defined.

#[global] Instance outcome_ret : MRet outcome := @Ret.
#[global] Instance outcome_bind : MBind outcome := fun A B k m =>
  match m with Ret a => k a | Crash f => Crash f end.

(** [assert(b)]: the build leaves assertions on. *)
Definition assert_that (b : bool) : outcome unit :=
  if b then Ret tt else Crash AssertionFailed.

(** [post o Q]: the call returns, and its result satisfies [Q]. *)
Definition post {A} (o : outcome A) (Q : A -> Prop) : Prop :=
  match o with Ret a => Q a | Crash _ => False end.

Lemma post_ret {A} (a : A) (Q : A -> Prop) : Q a -> post (Ret a) Q.
Proof. done. Qed.

Lemma post_bind {A B} (o : outcome A) (k : A -> outcome B) (Q : B -> Prop) :
  post o (fun a => post (k a) Q) -> post (o ≫= k) Q.
Proof. by destruct o. Qed.

Lemma post_mono {A} (o : outcome A) (P Q : A -> Prop) :
  post o P -> (forall a, P a -> Q a) -> post o Q.
Proof. destruct o; simpl; auto. Qed.

Lemma post_inv {A} (o : outcome A) (Q : A -> Prop) :
  post o Q -> exists a, o = Ret a /\ Q a.
Proof. destruct o; simpl; [eauto | done]. Qed.

Lemma assert_that_post (b : bool) (Q : unit -> Prop) :
  b = true -> Q tt -> post (assert_that b) Q.
Proof. by intros -> H. Qed.

(** ** Machine integers *)

(** Unsigned arithmetic wraps at the width of the type. *)
Definition wrap8 (z : Z) : Z := z mod 2 ^ 8.
Definition wrap16 (z : Z) : Z := z mod 2 ^ 16.
Definition wrap32 (z : Z) : Z := z mod 2 ^ 32.
Definition wrap64 (z : Z) : Z := z mod 2 ^ 64.

(** Conversion of an unsigned 32-bit value to [int32_t] (two's complement). *)
Definition to_int32 (z : Z) : Z :=
  let u := wrap32 z in if u <? 2 ^ 31 then u else u - 2 ^ 32.

Lemma wrap16_small z : 0 <= z < 2 ^ 16 -> wrap16 z = z.
Proof. apply Z.mod_small. Qed.
Lemma wrap32_small z : 0 <= z < 2 ^ 32 -> wrap32 z = z.
Proof. apply Z.mod_small. Qed.
Lemma wrap64_small z : 0 <= z < 2 ^ 64 -> wrap64 z = z.
Proof. apply Z.mod_small. Qed.
Lemma wrap8_small z : 0 <= z < 2 ^ 8 -> wrap8 z = z.
Proof. apply Z.mod_small. Qed.

Lemma wrap8_range z : 0 <= wrap8 z < 2 ^ 8.
Proof. apply Z.mod_pos_bound; lia. Qed.
Lemma wrap16_range z : 0 <= wrap16 z < 2 ^ 16.
Proof. apply Z.mod_pos_bound; lia. Qed.
Lemma wrap32_range z : 0 <= wrap32 z < 2 ^ 32.
Proof. apply Z.mod_pos_bound; lia. Qed.
Lemma wrap64_range z : 0 <= wrap64 z < 2 ^ 64.
Proof. apply Z.mod_pos_bound; lia. Qed.

Lemma to_int32_range z : - 2 ^ 31 <= to_int32 z < 2 ^ 31.
Proof.
  unfold to_int32. pose proof (wrap32_range z).
  destruct (Z.ltb_spec (wrap32 z) (2 ^ 31)); lia.
Qed.

Lemma to_int32_small z : - 2 ^ 31 <= z < 2 ^ 31 -> to_int32 z = z.
Proof.
  intros Hz. unfold to_int32, wrap32. destruct (Z.lt_ge_cases z 0) as [Hn|Hn].
  - replace (z mod 2 ^ 32) with (z + 2 ^ 32) by (symmetry; rewrite <- (Z_mod_plus_full z 1), Z.mod_small by lia; lia).
    rewrite (proj2 (Z.ltb_ge _ _)) by lia. lia.
  - rewrite Z.mod_small by lia. by rewrite (proj2 (Z.ltb_lt _ _)) by lia.
Qed.

Create Rewrite HintDb width.
#[export] Hint Rewrite wrap8_small wrap16_small wrap32_small wrap64_small
  using lia : width.

(** Removes every wrap-around whose argument [lia] shows to be in range. *)
Ltac unwrap := autorewrite with width in *.

(** *** Bitwise operations *)

Lemma land_lxor a b c : Z.land (Z.lxor a b) c = Z.lxor (Z.land a c) (Z.land b c).
Proof.
  apply Z.bits_inj'. intros i Hi. rewrite Z.land_spec, !Z.lxor_spec, !Z.land_spec.
  by destruct (Z.testbit a i), (Z.testbit b i), (Z.testbit c i).
Qed.

Lemma lxor_mod x y n : 0 <= n -> Z.lxor (x mod 2 ^ n) (y mod 2 ^ n) = Z.lxor x y mod 2 ^ n.
Proof. intros Hn. by rewrite <- !Z.land_ones, land_lxor by done. Qed.

Lemma lxor_range x y n : 0 <= n -> 0 <= x < 2 ^ n -> 0 <= y < 2 ^ n -> 0 <= Z.lxor x y < 2 ^ n.
Proof.
  intros Hn Hx Hy. rewrite <- (Z.mod_small x (2 ^ n)), <- (Z.mod_small y (2 ^ n)), lxor_mod by done.
  apply Z.mod_pos_bound. lia.
Qed.

Lemma lxor_cancel x y : Z.lxor (Z.lxor x y) y = x.
Proof. by rewrite Z.lxor_assoc, Z.lxor_nilpotent, Z.lxor_0_r. Qed.

(** ** Boolean tests *)
Ltac zbool :=
  repeat match goal with
  | H : (_ <=? _) = true |- _ => apply Z.leb_le in H
  | H : (_ <=? _) = false |- _ => apply Z.leb_gt in H
  | H : (_ <? _) = true |- _ => apply Z.ltb_lt in H
  | H : (_ <? _) = false |- _ => apply Z.ltb_ge in H
  | H : (_ =? _) = true |- _ => apply Z.eqb_eq in H
  | H : (_ =? _) = false |- _ => apply Z.eqb_neq in H
  | H : (_ >=? _) = _ |- _ => rewrite Z.geb_leb in H
  | H : (_ >? _) = _ |- _ => rewrite Z.gtb_ltb in H
  | H : (_ && _) = true |- _ => apply andb_true_iff in H as [? ?]
  | H : (_ || _) = false |- _ => apply orb_false_iff in H as [? ?]
  | H : negb _ = true |- _ => apply negb_true_iff in H
  | H : negb _ = false |- _ => apply negb_false_iff in H
  end.

(** Splits on the scrutinee of the first [if] or [match] of the goal. *)
Ltac case_step :=
  match goal with
  | |- context [if ?b then _ else _] =>
      let E := fresh "E" in destruct b eqn:E
  | |- context [match ?x with _ => _ end] =>
      let E := fresh "E" in destruct x eqn:E
  end.

(** ** Bytes and memory *)

#[global] Instance byte_eq_decision : EqDecision byte.
Proof. intros a b; destruct (Byte.byte_eq_dec a b); [left | right]; done. Defined.
#[global] Instance byte_inhabited : Inhabited byte := populate Byte.x00.

(** Sizes of C arrays are [size_t] values; lists are indexed by [nat]. *)
Definition zlen {A} (l : list A) : Z := Z.of_nat (length l).

Lemma zlen_nonneg {A} (l : list A) : 0 <= zlen l.
Proof. unfold zlen; lia. Qed.
Lemma zlen_app {A} (l k : list A) : zlen (l ++ k) = zlen l + zlen k.
Proof. unfold zlen. rewrite length_app. lia. Qed.
Lemma zlen_nil {A} : zlen (@nil A) = 0.
Proof. done. Qed.
Lemma zlen_cons {A} (x : A) l : zlen (x :: l) = 1 + zlen l.
Proof. unfold zlen. simpl length. lia. Qed.

(** [ztake n l] and [zdrop n l] are the prefix and suffix at a [size_t] index. *)
Definition ztake {A} (n : Z) (l : list A) : list A := take (Z.to_nat n) l.
Definition zdrop {A} (n : Z) (l : list A) : list A := drop (Z.to_nat n) l.

#[global] Arguments ztake : simpl never.
#[global] Arguments zdrop : simpl never.
#[global] Arguments zlen : simpl never.

Lemma zlen_ztake {A} n (l : list A) : 0 <= n <= zlen l -> zlen (ztake n l) = n.
Proof. unfold zlen, ztake. intros. rewrite length_take. lia. Qed.
Lemma zlen_zdrop {A} n (l : list A) : 0 <= n <= zlen l -> zlen (zdrop n l) = zlen l - n.
Proof. unfold zlen, zdrop. intros. rewrite length_drop. lia. Qed.
Lemma ztake_zdrop {A} n (l : list A) : ztake n l ++ zdrop n l = l.
Proof. apply take_drop. Qed.
Lemma ztake_all {A} n (l : list A) : zlen l <= n -> ztake n l = l.
Proof. unfold zlen, ztake. intros. apply take_ge. lia. Qed.
Lemma zdrop_all {A} n (l : list A) : zlen l <= n -> zdrop n l = [].
Proof. unfold zlen, zdrop. intros. apply drop_ge. lia. Qed.
Lemma ztake_0 {A} (l : list A) : ztake 0 l = [].
Proof. done. Qed.
Lemma zdrop_0 {A} (l : list A) : zdrop 0 l = l.
Proof. done. Qed.
Lemma ztake_app {A} (l k : list A) : ztake (zlen l) (l ++ k) = l.
Proof. unfold ztake, zlen. rewrite Nat2Z.id. apply take_app_length. Qed.
Lemma zdrop_app {A} (l k : list A) : zdrop (zlen l) (l ++ k) = k.
Proof. unfold zdrop, zlen. rewrite Nat2Z.id. apply drop_app_length. Qed.
Lemma zdrop_zdrop {A} n m (l : list A) :
  0 <= n -> 0 <= m -> zdrop n (zdrop m l) = zdrop (m + n) l.
Proof. unfold zdrop. intros. rewrite drop_drop. f_equal. lia. Qed.

(** [memcpy] out of and into an array: the copied range must lie inside. *)
Definition mem_read {A} (buf : list A) (off n : Z) : outcome (list A) :=
  if (0 <=? off) && (0 <=? n) && (off + n <=? zlen buf)
  then Ret (ztake n (zdrop off buf)) else Crash OutOfBounds.

Definition splice {A} (buf : list A) (off : Z) (data : list A) : list A :=
  ztake off buf ++ data ++ zdrop (off + zlen data) buf.

Definition mem_write {A} (buf : list A) (off : Z) (data : list A) : outcome (list A) :=
  if (0 <=? off) && (off + zlen data <=? zlen buf)
  then Ret (splice buf off data) else Crash OutOfBounds.

#[global] Arguments mem_read : simpl never.
#[global] Arguments mem_write : simpl never.

Lemma mem_read_ok {A} (buf : list A) off n :
  0 <= off -> 0 <= n -> off + n <= zlen buf ->
  mem_read buf off n = Ret (ztake n (zdrop off buf)).
Proof.
  intros. unfold mem_read.
  rewrite (proj2 (Z.leb_le 0 off)), (proj2 (Z.leb_le 0 n)),
    (proj2 (Z.leb_le (off + n) (zlen buf))) by lia. done.
Qed.

Lemma mem_write_ok {A} (buf : list A) off data :
  0 <= off -> off + zlen data <= zlen buf ->
  mem_write buf off data = Ret (splice buf off data).
Proof.
  intros. unfold mem_write.
  rewrite (proj2 (Z.leb_le 0 off)),
    (proj2 (Z.leb_le (off + zlen data) (zlen buf))) by lia. done.
Qed.

Lemma zlen_splice {A} (buf : list A) off data :
  0 <= off -> off + zlen data <= zlen buf -> zlen (splice buf off data) = zlen buf.
Proof.
  intros. pose proof (zlen_nonneg data). unfold splice.
  rewrite !zlen_app, zlen_ztake, zlen_zdrop; lia.
Qed.

Lemma ztake_app_le {A} n (l k : list A) : n <= zlen l -> ztake n (l ++ k) = ztake n l.
Proof. unfold zlen, ztake. intros. apply take_app_le. lia. Qed.

Lemma ztake_ztake {A} n m (l : list A) : n <= m -> ztake n (ztake m l) = ztake n l.
Proof. unfold ztake. intros. rewrite take_take. f_equal. lia. Qed.

(** Reading back what [memcpy] wrote, and what it left alone. *)
Lemma ztake_splice {A} (buf : list A) off data :
  0 <= off <= zlen buf ->
  ztake (off + zlen data) (splice buf off data) = ztake off buf ++ data.
Proof.
  intros. unfold splice. rewrite app_assoc.
  assert (E : zlen (ztake off buf ++ data) = off + zlen data)
    by (rewrite zlen_app, zlen_ztake; lia).
  rewrite <- E. apply ztake_app.
Qed.

Lemma ztake_splice_before {A} (buf : list A) off data n :
  n <= off <= zlen buf -> ztake n (splice buf off data) = ztake n buf.
Proof.
  intros. unfold splice. destruct (Z.le_gt_cases 0 off).
  - rewrite ztake_app_le by (rewrite zlen_ztake; lia). apply ztake_ztake; lia.
  - unfold ztake. by replace (Z.to_nat n) with O by lia.
Qed.

(** Element access by a [size_t] index. *)
Definition zget {A} (l : list A) (i : Z) : option A := l !! Z.to_nat i.

Lemma zlist_eq {A} (l k : list A) :
  zlen l = zlen k -> (forall i, 0 <= i < zlen l -> zget l i = zget k i) -> l = k.
Proof.
  unfold zlen, zget. intros Hl He. apply list_eq. intros i.
  destruct (decide (i < length l)%nat).
  - rewrite <- (Nat2Z.id i). apply He. lia.
  - by rewrite !lookup_ge_None_2 by lia.
Qed.

Lemma zget_app {A} (l k : list A) i :
  0 <= i -> zget (l ++ k) i = if i <? zlen l then zget l i else zget k (i - zlen l).
Proof.
  unfold zget, zlen. intros. destruct (Z.ltb_spec i (Z.of_nat (length l))).
  - apply lookup_app_l. lia.
  - rewrite lookup_app_r by lia. f_equal. lia.
Qed.

Lemma zget_ztake {A} (l : list A) n i : 0 <= i < n -> zget (ztake n l) i = zget l i.
Proof. unfold zget, ztake. intros. apply lookup_take_lt. lia. Qed.

Lemma zget_zdrop {A} (l : list A) n i :
  0 <= i -> 0 <= n -> zget (zdrop n l) i = zget l (n + i).
Proof. unfold zget, zdrop. intros. rewrite lookup_drop. f_equal. lia. Qed.

Lemma zget_splice {A} (buf : list A) off data i :
  0 <= off -> off + zlen data <= zlen buf -> 0 <= i ->
  zget (splice buf off data) i =
    if (off <=? i) && (i <? off + zlen data) then zget data (i - off) else zget buf i.
Proof.
  intros Ho Hd Hi. pose proof (zlen_nonneg data). unfold splice.
  rewrite zget_app, zlen_ztake by lia.
  destruct (Z.ltb_spec i off), (Z.leb_spec off i); try lia; cbn [andb].
  - apply zget_ztake; lia.
  - rewrite zget_app by lia.
    destruct (Z.ltb_spec (i - off) (zlen data)), (Z.ltb_spec i (off + zlen data)); try lia; [done|].
    rewrite zget_zdrop by lia. f_equal. lia.
Qed.

Create Rewrite HintDb zlen.
#[export] Hint Rewrite @zlen_app @zlen_nil @zlen_cons : zlen.
#[export] Hint Rewrite @zlen_ztake @zlen_zdrop @zlen_splice using lia : zlen.

(** Filling an array from the front, and reading a stretch of a
    concatenation. *)
Lemma mem_write_append {A} (buf h d : list A) off :
  ztake off buf = h -> zlen h = off -> off + zlen d <= zlen buf ->
  exists buf', mem_write buf off d = Ret buf' /\ zlen buf' = zlen buf /\
    ztake (off + zlen d) buf' = h ++ d.
Proof.
  intros <- Ho Hd. pose proof (zlen_nonneg (ztake off buf)). pose proof (zlen_nonneg d).
  exists (splice buf off d). split; [apply mem_write_ok; lia|].
  split; [apply zlen_splice; lia | apply ztake_splice; lia].
Qed.

Lemma mem_read_mid {A} (buf l d k : list A) off n :
  buf = l ++ d ++ k -> off = zlen l -> n = zlen d -> mem_read buf off n = Ret d.
Proof.
  intros -> -> ->. pose proof (zlen_nonneg l). pose proof (zlen_nonneg d).
  pose proof (zlen_nonneg k). rewrite mem_read_ok by (rewrite ?zlen_app; lia).
  by rewrite zdrop_app, ztake_app.
Qed.

(** [new char[n]]: a fresh array of [n] bytes whose contents the program
    does not control. *)
Class Heap : Type := {
  fresh : Z -> list byte;
  fresh_length n : 0 <= n -> zlen (fresh n) = n
}.

Lemma zlen_replicate {A} (n : Z) (x : A) : 0 <= n -> zlen (replicate (Z.to_nat n) x) = n.
Proof. unfold zlen. rewrite length_replicate. lia. Qed.

(** A heap whose fresh arrays hold a fixed byte, for concrete evaluations. *)
Definition filled_heap (b : byte) : Heap :=
  {| fresh n := replicate (Z.to_nat n) b; fresh_length n := zlen_replicate n b |}.
