(* ===== verification/ByteOrder.v ===== *)
(** * base/byte_order.h: byte order of integers in memory

    [store e n v] is the memory image of an [n]-byte unsigned integer on a
    host of byte order [e], [load e bs] the integer a host reads from it.
    The header's conversions ([htobe16] ...) and accessors ([SetBE16],
    [GetBE32], [SetLE64] ...) are written as the header writes them, for
    either host, and are shown to produce the same bytes on both. *)

From Stdlib Require Import ZArith Lia.
From S2P Require Import Prelude.

Inductive endian : Type := LittleEndian | BigEndian.

(** The host of the build ([__BYTE_ORDER] on x86-64 Linux). *)
Definition host_order : endian := LittleEndian.

(** The bytes of an integer in memory, lowest address first. *)
Definition store (e : endian) (n : nat) (v : Z) : list byte :=
  match e with LittleEndian => le_split n v | BigEndian => rev (le_split n v) end.

Definition load (e : endian) (bs : list byte) : Z :=
  match e with LittleEndian => le_combine bs | BigEndian => le_combine (rev bs) end.

(** [bswap_16], [bswap_32], [bswap_64]: exchange of the bytes of a value. *)
Definition bswap (n : nat) (v : Z) : Z := le_combine (rev (le_split n v)).

Definition to_be (e : endian) (n : nat) (v : Z) : Z :=
  match e with LittleEndian => bswap n v | BigEndian => v end.
Definition to_le (e : endian) (n : nat) (v : Z) : Z :=
  match e with LittleEndian => v | BigEndian => bswap n v end.

Definition IsHostBigEndian (e : endian) : bool :=
  match e with BigEndian => true | LittleEndian => false end.

Definition HostToNetwork16 (e : endian) (v : Z) : Z := to_be e 2 v.
Definition HostToNetwork32 (e : endian) (v : Z) : Z := to_be e 4 v.
Definition HostToNetwork64 (e : endian) (v : Z) : Z := to_be e 8 v.
Definition NetworkToHost16 (e : endian) (v : Z) : Z := to_be e 2 v.
Definition NetworkToHost32 (e : endian) (v : Z) : Z := to_be e 4 v.
Definition NetworkToHost64 (e : endian) (v : Z) : Z := to_be e 8 v.

(** The [Set*] accessors overwrite the first bytes of the memory, the [Get*]
    accessors read them. *)
Definition Set8 (memory : list byte) (offset v : Z) : outcome (list byte) :=
  mem_write memory offset [byte.of_Z v].
Definition Get8 (memory : list byte) (offset : Z) : outcome Z :=
  bs ← mem_read memory offset 1; mret (load LittleEndian bs).

Definition SetBE16 (e : endian) (memory : list byte) (v : Z) : outcome (list byte) :=
  mem_write memory 0 (store e 2 (to_be e 2 v)).
Definition SetBE32 (e : endian) (memory : list byte) (v : Z) : outcome (list byte) :=
  mem_write memory 0 (store e 4 (to_be e 4 v)).
Definition SetBE64 (e : endian) (memory : list byte) (v : Z) : outcome (list byte) :=
  mem_write memory 0 (store e 8 (to_be e 8 v)).
Definition GetBE16 (e : endian) (memory : list byte) : outcome Z :=
  bs ← mem_read memory 0 2; mret (to_be e 2 (load e bs)).
Definition GetBE32 (e : endian) (memory : list byte) : outcome Z :=
  bs ← mem_read memory 0 4; mret (to_be e 4 (load e bs)).
Definition GetBE64 (e : endian) (memory : list byte) : outcome Z :=
  bs ← mem_read memory 0 8; mret (to_be e 8 (load e bs)).
Definition SetLE16 (e : endian) (memory : list byte) (v : Z) : outcome (list byte) :=
  mem_write memory 0 (store e 2 (to_le e 2 v)).
Definition SetLE32 (e : endian) (memory : list byte) (v : Z) : outcome (list byte) :=
  mem_write memory 0 (store e 4 (to_le e 4 v)).
Definition SetLE64 (e : endian) (memory : list byte) (v : Z) : outcome (list byte) :=
  mem_write memory 0 (store e 8 (to_le e 8 v)).
Definition GetLE16 (e : endian) (memory : list byte) : outcome Z :=
  bs ← mem_read memory 0 2; mret (to_le e 2 (load e bs)).
Definition GetLE32 (e : endian) (memory : list byte) : outcome Z :=
  bs ← mem_read memory 0 4; mret (to_le e 4 (load e bs)).
Definition GetLE64 (e : endian) (memory : list byte) : outcome Z :=
  bs ← mem_read memory 0 8; mret (to_le e 8 (load e bs)).

(** ** Network byte order, independent of the host *)

(** The reference encoding: most significant byte first. *)
Definition be_bytes (n : nat) (v : Z) : list byte := rev (le_split n v).
Definition be_value (bs : list byte) : Z := le_combine (rev bs).

Lemma length_be_bytes n v : length (be_bytes n v) = n.
Proof. unfold be_bytes. by rewrite length_rev, length_le_split. Qed.

Lemma zlen_be_bytes n v : zlen (be_bytes n v) = Z.of_nat n.
Proof. unfold zlen. by rewrite length_be_bytes. Qed.

Lemma be_value_be_bytes n v :
  0 <= v < 2 ^ (Z.of_nat n * 8) -> be_value (be_bytes n v) = v.
Proof.
  intros. unfold be_value, be_bytes.
  rewrite rev_involutive, le_combine_split. by apply Z.mod_small.
Qed.

Lemma be_bytes_be_value bs : be_bytes (length bs) (be_value bs) = bs.
Proof.
  unfold be_bytes, be_value. rewrite <- (length_rev bs), split_le_combine.
  apply rev_involutive.
Qed.

Lemma be_value_range bs : 0 <= be_value bs < 2 ^ (8 * zlen bs).
Proof.
  unfold be_value, zlen. pose proof (le_combine_bound (rev bs)) as H.
  by rewrite length_rev in H.
Qed.

Lemma store_to_be e n v : store e n (to_be e n v) = be_bytes n v.
Proof.
  destruct e; unfold store, to_be, bswap, be_bytes; [|done].
  apply split_le_combine'. by rewrite length_rev, length_le_split.
Qed.

Lemma to_be_load e n bs : length bs = n -> to_be e n (load e bs) = be_value bs.
Proof.
  intros H. destruct e; unfold to_be, load, bswap, be_value; [|done].
  by rewrite split_le_combine'.
Qed.

Lemma lor_shiftl_add x y k : 0 <= k -> 0 <= x < 2 ^ k -> Z.lor x (Z.shiftl y k) = x + y * 2 ^ k.
Proof.
  intros Hk Hx. rewrite <- Z.shiftl_mul_pow2 by done. symmetry.
  assert (Hz : Z.land x (Z.shiftl y k) = 0).
  { apply Z.bits_inj'. intros i Hi. rewrite Z.land_spec, Z.bits_0.
    destruct (Z.lt_ge_cases i k) as [Hlt|Hge].
    - by rewrite Z.shiftl_spec_low, andb_false_r by lia.
    - rewrite <- (Z.mod_small x (2 ^ k)), Z.mod_pow2_bits_high by lia. done. }
  rewrite Z.add_nocarry_lxor by done. by apply Z.lxor_lor.
Qed.

Lemma be_value_app a b : be_value (a ++ b) = be_value a * 2 ^ (8 * zlen b) + be_value b.
Proof.
  unfold be_value. rewrite rev_app_distr, le_combine_app, length_rev.
  pose proof (le_combine_bound (rev b)) as Hb. rewrite length_rev in Hb. unfold zlen.
  rewrite (Z.mul_comm _ 8), lor_shiftl_add by lia. lia.
Qed.

Lemma be_value_cons x l : be_value (x :: l) = byte.unsigned x * 2 ^ (8 * zlen l) + be_value l.
Proof.
  change (x :: l) with ([x] ++ l). rewrite be_value_app. do 2 f_equal.
  unfold be_value. cbn. apply le_combine_1.
Qed.

Lemma be_value_inj a b : length a = length b -> be_value a = be_value b -> a = b.
Proof.
  intros Hl Hv. rewrite <- (be_bytes_be_value a), <- (be_bytes_be_value b). by rewrite Hl, Hv.
Qed.

Lemma to_be_involutive e n v : 0 <= v < 2 ^ (Z.of_nat n * 8) -> to_be e n (to_be e n v) = v.
Proof.
  intros Hv. destruct e; unfold to_be; [|done]. unfold bswap.
  rewrite split_le_combine' by by rewrite length_rev, length_le_split.
  rewrite rev_involutive, le_combine_split. by apply Z.mod_small.
Qed.

(** ** The bytes of a 32-bit value *)

Lemma land_255 x : Z.land x 0xFF = x mod 256.
Proof. change 0xFF with (Z.ones 8). by apply Z.land_ones. Qed.
Lemma land_255_range x : 0 <= Z.land x 0xFF < 256.
Proof. rewrite land_255. apply Z.mod_pos_bound. lia. Qed.

Lemma land_mask x k : 0 <= k -> Z.land x (Z.shiftl 0xFF k) = (x / 2 ^ k) mod 256 * 2 ^ k.
Proof.
  intros Hk. rewrite <- Z.shiftr_div_pow2, <- land_255, <- Z.shiftl_mul_pow2 by done.
  apply Z.bits_inj'. intros i Hi. rewrite Z.land_spec.
  destruct (Z.lt_ge_cases i k).
  - by rewrite !Z.shiftl_spec_low, andb_false_r by done.
  - rewrite !Z.shiftl_spec_high, Z.land_spec, Z.shiftr_spec by lia. f_equal. f_equal. lia.
Qed.

Lemma lor_disjoint a b : Z.land a b = 0 -> Z.lor a b = Z.lxor a b.
Proof. intros H. symmetry. by apply Z.lxor_lor. Qed.

Lemma masked_disjoint x y m n : Z.land m n = 0 -> Z.land (Z.land x m) (Z.land y n) = 0.
Proof.
  intros H. rewrite Z.land_assoc, <- (Z.land_assoc x m y), (Z.land_comm m y), Z.land_assoc, <- Z.land_assoc, H.
  apply Z.land_0_r.
Qed.

Lemma lxor_high_low y x k : 0 <= k -> 0 <= x < 2 ^ k -> Z.lxor (y * 2 ^ k) x = y * 2 ^ k + x.
Proof.
  intros Hk Hx. rewrite Z.lxor_comm, <- Z.shiftl_mul_pow2 by done. rewrite <- lor_disjoint.
  - rewrite lor_shiftl_add, Z.shiftl_mul_pow2 by done. lia.
  - apply Z.bits_inj'. intros i Hi. rewrite Z.land_spec, Z.bits_0.
    destruct (Z.lt_ge_cases i k); [by rewrite Z.shiftl_spec_low, andb_false_r by lia|].
    rewrite <- (Z.mod_small x (2 ^ k)), Z.mod_pow2_bits_high by lia. done.
Qed.

Lemma bytes_of v : 0 <= v < 2 ^ 32 -> exists a b c d,
  0 <= a < 256 /\ 0 <= b < 256 /\ 0 <= c < 256 /\ 0 <= d < 256 /\
  v = a + 2 ^ 8 * b + 2 ^ 16 * c + 2 ^ 24 * d.
Proof.
  intros Hv. exists (v mod 256), (v / 2 ^ 8 mod 256), (v / 2 ^ 16 mod 256), (v / 2 ^ 24).
  Z.div_mod_to_equations; lia.
Qed.

Lemma le_combine4 w x y z : le_combine [w; x; y; z] = byte.unsigned w + 2 ^ 8 * byte.unsigned x +
  2 ^ 16 * byte.unsigned y + 2 ^ 24 * byte.unsigned z.
Proof.
  change (le_combine [w; x; y; z]) with (Z.lor (byte.unsigned w) (Z.shiftl (Z.lor (byte.unsigned x)
    (Z.shiftl (Z.lor (byte.unsigned y) (Z.shiftl (Z.lor (byte.unsigned z) (Z.shiftl 0 8)) 8)) 8)) 8)).
  pose proof (byte.unsigned_range w). pose proof (byte.unsigned_range x).
  pose proof (byte.unsigned_range y). pose proof (byte.unsigned_range z).
  change (Z.shiftl 0 8) with 0. rewrite Z.lor_0_r, !lor_shiftl_add by lia. lia.
Qed.
