(* ===== verification/ConstBuffer.v ===== *)
(** * network/stun/const_buffer.h: the growable array [BufferT<char, ZeroOnFree>]

    The record has the class's three members; [data_] is [None] for the null
    pointer and otherwise the whole allocated block, so that the part of it
    beyond [size_] (uninitialised, or zeroed when [ZeroOnFree]) is modelled
    too.  [size_] and [capacity_] are sizes of live allocations of one
    64-bit address space; their sums do not wrap.

    [BufferClass] states what the template argument of [ByteBufferWriterT]
    promises to the writer, and [BufferT] is shown to be one. *)

From Stdlib Require Import ZArith Lia.
From S2P Require Import Prelude.

Record BufferT : Type := mkBufferT {
  size_ : Z;
  capacity_ : Z;
  data_ : option (list byte)
}.

Section Operations.
Context `{Heap}.
(** The template argument [ZeroOnFree]. *)
Variable ZeroOnFree : bool.

Definition IsConsistent (b : BufferT) : bool :=
  (bool_decide (is_Some (data_ b)) || (capacity_ b =? 0)) && (size_ b <=? capacity_ b).

#[local] Arguments IsConsistent : simpl never.

(** [data_.get()]: the null pointer has no bytes to copy from or to. *)
Definition block (b : BufferT) : list byte := default [] (data_ b).

Definition BufferT_empty : BufferT := mkBufferT 0 0 None.

(** [BufferT(size_t size, size_t capacity)] *)
Definition BufferT_sized (size capacity : Z) : outcome BufferT :=
  let cap := Z.max size capacity in
  let b := mkBufferT size cap (if 0 <? cap then Some (fresh cap) else None) in
  assert_that (IsConsistent b);; mret b.

(** [BufferT(U* data, size_t size, size_t capacity)] *)
Definition BufferT_copy (data : list byte) (capacity : Z) : outcome BufferT :=
  b ← BufferT_sized (zlen data) capacity;
  d ← mem_write (block b) 0 data;
  mret (mkBufferT (size_ b) (capacity_ b) ((fun _ => d) <$> data_ b)).

Definition ExplicitZeroMemory (buf : list byte) (off count : Z) : outcome (list byte) :=
  mem_write buf off (replicate (Z.to_nat count) Byte.x00).

Definition MaybeZeroCompleteBuffer (b : BufferT) : outcome BufferT :=
  if ZeroOnFree && (0 <? capacity_ b) then
    d ← ExplicitZeroMemory (block b) 0 (capacity_ b);
    mret (mkBufferT (size_ b) (capacity_ b) (Some d))
  else mret b.

Definition ZeroTrailingData (b : BufferT) (count : Z) : outcome BufferT :=
  assert_that (IsConsistent b);;
  assert_that (count <=? capacity_ b - size_ b);;
  d ← ExplicitZeroMemory (block b) (size_ b) count;
  mret (mkBufferT (size_ b) (capacity_ b) (Some d)).

Definition EnsureCapacityWithHeadroom (b : BufferT) (capacity : Z)
    (extra_headroom : bool) : outcome BufferT :=
  assert_that (IsConsistent b);;
  if capacity <=? capacity_ b then mret b else
  let new_capacity := if extra_headroom
                      then Z.max capacity (capacity_ b + capacity_ b / 2)
                      else capacity in
  new_data ← match data_ b with
             | Some d => old ← mem_read d 0 (size_ b); mem_write (fresh new_capacity) 0 old
             | None => mret (fresh new_capacity)
             end;
  b ← MaybeZeroCompleteBuffer b;
  let b := mkBufferT (size_ b) new_capacity (Some new_data) in
  assert_that (IsConsistent b);; mret b.

Definition EnsureCapacity (b : BufferT) (capacity : Z) : outcome BufferT :=
  EnsureCapacityWithHeadroom b capacity false.

Definition BufferT_AppendData (b : BufferT) (data : list byte) : outcome BufferT :=
  assert_that (IsConsistent b);;
  let new_size := size_ b + zlen data in
  b ← EnsureCapacityWithHeadroom b new_size true;
  d ← mem_write (block b) (size_ b) data;
  let b := mkBufferT new_size (capacity_ b) ((fun _ => d) <$> data_ b) in
  assert_that (IsConsistent b);; mret b.

Definition BufferT_SetSize (b : BufferT) (size : Z) : outcome BufferT :=
  let old_size := size_ b in
  b ← EnsureCapacityWithHeadroom b size true;
  let b := mkBufferT size (capacity_ b) (data_ b) in
  if ZeroOnFree && (size_ b <? old_size) then ZeroTrailingData b (old_size - size_ b)
  else mret b.

Definition BufferT_SetData (b : BufferT) (data : list byte) : outcome BufferT :=
  assert_that (IsConsistent b);;
  let old_size := size_ b in
  b ← BufferT_AppendData (mkBufferT 0 (capacity_ b) (data_ b)) data;
  if ZeroOnFree && (size_ b <? old_size) then ZeroTrailingData b (old_size - size_ b)
  else mret b.

(** [ArrayView(U* data, size_t size)] (array_view.h): the comment says "data is
    null iff size == 0", the assertion demands that the view is empty. *)
Definition ArrayView_new (size : Z) : outcome unit := assert_that (size =? 0).

(** [AppendData(size_t max_elements, F&& setter)]: the setter is given the
    view of [max_elements] elements and answers the view's new contents and
    the number of elements it wrote. *)
Definition BufferT_AppendWith (b : BufferT) (max_elements : Z)
    (setter : list byte -> list byte * Z) : outcome (BufferT * Z) :=
  assert_that (IsConsistent b);;
  let old_size := size_ b in
  b ← BufferT_SetSize b (old_size + max_elements);
  ArrayView_new max_elements;;
  view ← mem_read (block b) old_size max_elements;
  let '(view', written) := setter view in
  d ← mem_write (block b) old_size view';
  assert_that (written <=? max_elements);;
  let b := mkBufferT (old_size + written) (capacity_ b) ((fun _ => d) <$> data_ b) in
  assert_that (IsConsistent b);; mret (b, written).

Definition BufferT_Clear (b : BufferT) : outcome BufferT :=
  b ← MaybeZeroCompleteBuffer b;
  let b := mkBufferT 0 (capacity_ b) (data_ b) in
  assert_that (IsConsistent b);; mret b.

(** [operator[]] (reading) *)
Definition BufferT_at (b : BufferT) (index : Z) : outcome byte :=
  assert_that (index <? size_ b);;
  bs ← mem_read (block b) index 1;
  mret (hd Byte.x00 bs).

(** [operator==]: [memcmp] over [size_] bytes. *)
Definition BufferT_eqb (a b : BufferT) : outcome bool :=
  assert_that (IsConsistent a);;
  if negb (size_ a =? size_ b) then mret false else
  x ← mem_read (block a) 0 (size_ a);
  y ← mem_read (block b) 0 (size_ a);
  mret (bool_decide (x = y)).

(** [BufferT(BufferT&& buf)]: the new buffer and what is left of the old one
    (release build of [OnMovedFrom]). *)
Definition BufferT_move (buf : BufferT) : outcome (BufferT * BufferT) :=
  assert_that (IsConsistent buf);; mret (buf, mkBufferT 0 0 None).

Definition BufferT_swap (a b : BufferT) : BufferT * BufferT := (b, a).

(** ** Contents and invariant *)

Definition BufferT_contents (b : BufferT) : list byte := ztake (size_ b) (block b).

(** The class invariant, with the fact [IsConsistent] cannot test: the block
    has [capacity_] bytes. *)
Definition BufferT_ok (b : BufferT) : Prop :=
  0 <= size_ b <= capacity_ b /\ zlen (block b) = capacity_ b /\
  (data_ b = None -> capacity_ b = 0).

Lemma ok_consistent b : BufferT_ok b -> IsConsistent b = true.
Proof.
  intros (Hs & Hl & Hn). unfold IsConsistent.
  apply andb_true_iff. split; [|apply Z.leb_le; lia].
  destruct (data_ b) eqn:E; [done|]. rewrite Hn by done.
  by rewrite orb_true_r.
Qed.

Lemma MaybeZeroCompleteBuffer_ok b :
  BufferT_ok b -> post (MaybeZeroCompleteBuffer b)
    (fun b' => BufferT_ok b' /\ size_ b' = size_ b /\ capacity_ b' = capacity_ b).
Proof.
  intros Hok. unfold MaybeZeroCompleteBuffer. case_step; [|done].
  zbool. destruct Hok as (Hs & Hl & Hn). unfold ExplicitZeroMemory.
  rewrite mem_write_ok by (rewrite ?zlen_replicate; lia).
  cbn. split; [|done]. unfold BufferT_ok; cbn. split; [done|]. split; [|done].
  rewrite zlen_splice; rewrite ?zlen_replicate; lia.
Qed.

Lemma block_map b (d : list byte) :
  data_ b <> None -> default [] ((fun _ => d) <$> data_ b) = d.
Proof. by destruct (data_ b). Qed.

Lemma EnsureCapacityWithHeadroom_ok b capacity extra :
  BufferT_ok b -> post (EnsureCapacityWithHeadroom b capacity extra)
    (fun b' => BufferT_ok b' /\ size_ b' = size_ b /\
       BufferT_contents b' = BufferT_contents b /\
       capacity <= capacity_ b' /\ capacity_ b <= capacity_ b').
Proof.
  intros Hok. unfold EnsureCapacityWithHeadroom.
  rewrite ok_consistent by done. cbn. case_step; [zbool; done|]. zbool.
  set (n := if extra then _ else _).
  pose proof (Z.div_pos (capacity_ b) 2) as Hdiv.
  assert (Hn : capacity <= n) by (subst n; destruct extra; lia).
  destruct Hok as (Hs & Hl & Hnull).
  pose proof (fresh_length n ltac:(lia)) as Hf.
  assert (Hnew : post (match data_ b with
      | Some d => old ← mem_read d 0 (size_ b); mem_write (fresh n) 0 old
      | None => mret (fresh n) end)
      (fun d => zlen d = n /\ ztake (size_ b) d = BufferT_contents b)).
  { unfold BufferT_contents, block in *. destruct (data_ b) as [d|]; cbn in Hl |- *.
    - rewrite mem_read_ok by lia. cbn. rewrite zdrop_0.
      assert (Hz : zlen (ztake (size_ b) d) = size_ b) by (rewrite zlen_ztake; lia).
      rewrite mem_write_ok by lia. cbn. split; [rewrite zlen_splice; lia|].
      rewrite <- Hz at 1. by rewrite <- (Z.add_0_l (zlen _)), ztake_splice by lia.
    - split; [done|]. replace (size_ b) with 0 by (specialize (Hnull eq_refl); lia).
      by rewrite !ztake_0. }
  apply post_inv in Hnew as (d & -> & Hd & Hc). apply post_bind. cbn.
  eapply post_bind, post_mono; [by apply MaybeZeroCompleteBuffer_ok|].
  intros b' (_ & Hs' & _). cbn.
  assert (Hb : BufferT_ok (mkBufferT (size_ b') n (Some d))).
  { unfold BufferT_ok; cbn. rewrite Hs'. repeat split; try done; lia. }
  rewrite ok_consistent by done. cbn.
  split; [done|]. unfold BufferT_contents at 1; cbn. rewrite Hs'.
  repeat split; try done; lia.
Qed.

(** A write that stays inside the block, at the level of the whole buffer. *)
Lemma write_block_ok b off data n :
  BufferT_ok b -> 0 <= off -> off + zlen data <= capacity_ b -> 0 <= n <= capacity_ b ->
  mem_write (block b) off data = Ret (splice (block b) off data) /\
  let b' := mkBufferT n (capacity_ b) ((fun _ => splice (block b) off data) <$> data_ b) in
  BufferT_ok b' /\ BufferT_contents b' = ztake n (splice (block b) off data).
Proof.
  intros (Hs & Hl & Hn) Ho Hd Hsz. split; [apply mem_write_ok; lia|].
  assert (Hz : zlen (splice (block b) off data) = capacity_ b) by (rewrite zlen_splice; lia).
  revert Hz. generalize (splice (block b) off data) as d. intros d Hz.
  cbn. unfold BufferT_ok, BufferT_contents, block; cbn.
  destruct (data_ b); cbn; [by rewrite Hz|].
  specialize (Hn eq_refl). replace n with 0 by lia.
  rewrite Hn, !ztake_0. by repeat split.
Qed.

Lemma AppendData_ok b data :
  BufferT_ok b -> post (BufferT_AppendData b data)
    (fun b' => BufferT_ok b' /\ BufferT_contents b' = BufferT_contents b ++ data).
Proof.
  intros Hok. unfold BufferT_AppendData. rewrite ok_consistent by done. cbn.
  eapply post_bind, post_mono; [by apply EnsureCapacityWithHeadroom_ok|].
  intros b' (Hok' & Hs & Hc & Hcap & _). cbn beta.
  pose proof Hok as (? & _). pose proof (zlen_nonneg data).
  destruct (write_block_ok b' (size_ b') data (size_ b + zlen data)) as (-> & Hb & Hcont);
    try done; try lia.
  cbn. rewrite ok_consistent by done. cbn. split; [done|].
  rewrite Hcont, <- Hc, Hs. unfold BufferT_contents.
  rewrite Hs. apply ztake_splice. destruct Hok' as (? & ? & ?). lia.
Qed.

Lemma Clear_ok b :
  BufferT_ok b -> post (BufferT_Clear b)
    (fun b' => BufferT_ok b' /\ BufferT_contents b' = [] /\ capacity_ b' = capacity_ b).
Proof.
  intros Hok. unfold BufferT_Clear.
  eapply post_bind, post_mono; [by apply MaybeZeroCompleteBuffer_ok|].
  intros b' ((Hs & Hl & Hn) & _ & Hcap). cbn beta.
  assert (Hb : BufferT_ok (mkBufferT 0 (capacity_ b') (data_ b'))).
  { unfold BufferT_ok; cbn. repeat split; try done; lia. }
  cbn zeta. rewrite ok_consistent by done. done.
Qed.

Lemma ZeroTrailingData_ok b count :
  BufferT_ok b -> 0 <= count <= capacity_ b - size_ b ->
  post (ZeroTrailingData b count)
    (fun b' => BufferT_ok b' /\ size_ b' = size_ b /\ BufferT_contents b' = BufferT_contents b).
Proof.
  intros Hok Hc. pose proof Hok as (Hs & Hl & Hn).
  unfold ZeroTrailingData. rewrite ok_consistent by done. cbn.
  rewrite (proj2 (Z.leb_le _ _)) by lia. cbn. unfold ExplicitZeroMemory.
  pose proof (zlen_replicate count Byte.x00 ltac:(lia)) as Hr.
  rewrite mem_write_ok by lia. cbn. split; [|split; [done|]].
  - unfold BufferT_ok; cbn. rewrite zlen_splice by lia. by repeat split; try lia.
  - unfold BufferT_contents at 1; cbn. rewrite ztake_splice_before by lia. done.
Qed.

(** [SetSize] keeps the elements below both sizes. *)
Lemma SetSize_ok b size :
  BufferT_ok b -> 0 <= size -> post (BufferT_SetSize b size)
    (fun b' => BufferT_ok b' /\ size_ b' = size /\
       ztake (size_ b) (BufferT_contents b') = ztake size (BufferT_contents b)).
Proof.
  intros Hok Hsz. unfold BufferT_SetSize.
  eapply post_bind, post_mono; [by apply EnsureCapacityWithHeadroom_ok|].
  intros b' (Hok' & Hs & Hc & Hcap & _). cbn beta zeta. cbn [size_].
  assert (Hb : BufferT_ok (mkBufferT size (capacity_ b') (data_ b'))).
  { destruct Hok' as (? & ? & ?). unfold BufferT_ok; cbn. repeat split; try done; lia. }
  assert (Htr : ztake (size_ b) (ztake size (block b')) = ztake size (BufferT_contents b)).
  { rewrite <- Hc. unfold BufferT_contents, ztake. rewrite Hs, !take_take.
    f_equal. lia. }
  case_step; [|by repeat split; cbn; try apply Hb; try lia].
  zbool. pose proof Hok as (? & _). pose proof Hok' as (? & Hl & Hnull).
  eapply post_mono; [apply ZeroTrailingData_ok; [done | cbn; lia]|].
  intros b2 (Hok2 & Hs2 & Hc2). rewrite Hc2. done.
Qed.

End Operations.

(** ** What a writer needs of its buffer class *)

(** [wrote b l]: the buffer is in a legal state and holds exactly [l]. *)
Class BufferClass (B : Type) : Type := {
  wrote : B -> list byte -> Prop;
  size : B -> Z;
  AppendData : B -> list byte -> outcome B;
  SetSize : B -> Z -> outcome B;
  Clear : B -> outcome B;
  size_wrote b l : wrote b l -> size b = zlen l;
  AppendData_wrote b l d :
    wrote b l -> post (AppendData b d) (fun b' => wrote b' (l ++ d));
  SetSize_wrote b l n :
    wrote b l -> 0 <= n <= zlen l -> post (SetSize b n) (fun b' => wrote b' (ztake n l));
  Clear_wrote b l : wrote b l -> post (Clear b) (fun b' => wrote b' [])
}.

Lemma BufferT_shrink `{Heap} z b l n :
  BufferT_ok b /\ BufferT_contents b = l -> 0 <= n <= zlen l ->
  post (BufferT_SetSize z b n) (fun b' => BufferT_ok b' /\ BufferT_contents b' = ztake n l).
Proof.
  intros [Hok <-] Hn. eapply post_mono; [apply SetSize_ok; [done|lia]|].
  intros b' (Hok' & Hs & Hc). split; [done|]. rewrite <- Hc.
  pose proof Hok as (? & ? & _). unfold BufferT_contents in Hn.
  rewrite zlen_ztake in Hn by lia.
  unfold BufferT_contents. rewrite Hs. symmetry. unfold ztake.
  rewrite take_take. f_equal. lia.
Qed.

#[export] Instance BufferT_class `{Heap} (ZeroOnFree : bool) : BufferClass BufferT.
Proof.
  refine {| wrote b l := BufferT_ok b /\ BufferT_contents b = l;
            size := size_;
            AppendData := BufferT_AppendData ZeroOnFree;
            SetSize := BufferT_SetSize ZeroOnFree;
            Clear := BufferT_Clear ZeroOnFree |}.
  - intros b l [(? & ? & ?) <-]. unfold BufferT_contents. rewrite zlen_ztake; lia.
  - intros b l d [Hok <-]. by apply AppendData_ok.
  - intros b l n. apply BufferT_shrink.
  - intros b l [Hok _]. eapply post_mono; [by apply Clear_ok|]. naive_solver.
Defined.
