(* ===== verification/ByteBuffer.v ===== *)
(** * network/stun/byte_buffer.{h,cc}: serialisation of integers and strings

    [ByteBufferWriterT] is a template over the class of its buffer; its
    operations are written here against the interface [BufferClass], of which
    [BufferT] is the instance the program uses.  [ByteBufferReader] walks over
    an array that it does not own.  Reading operations return [None] where the
    code returns [false]; a copy from outside the array is an [OutOfBounds]
    crash, which the invariant of the reader excludes. *)

From Stdlib Require Import ZArith Lia.
From S2P Require Import Prelude ByteOrder ConstBuffer.

(** ** The writer *)
Section Writer.
Context `{BufferClass B}.

Definition WriteBytes (w : B) (val : list byte) : outcome B := AppendData w val.
Definition WriteUInt8 (w : B) (val : Z) : outcome B := WriteBytes w [byte.of_Z val].
Definition WriteUInt16 (w : B) (val : Z) : outcome B :=
  let v := HostToNetwork16 host_order val in WriteBytes w (store host_order 2 v).
Definition WriteUInt24 (w : B) (val : Z) : outcome B :=
  let v := HostToNetwork32 host_order val in WriteBytes w (zdrop 1 (store host_order 4 v)).
Definition WriteUInt32 (w : B) (val : Z) : outcome B :=
  let v := HostToNetwork32 host_order val in WriteBytes w (store host_order 4 v).
Definition WriteUInt64 (w : B) (val : Z) : outcome B :=
  let v := HostToNetwork64 host_order val in WriteBytes w (store host_order 8 v).

(** The loop of [WriteUVarint]: ten rounds are enough for 64 bits. *)
Fixpoint WriteUVarint_loop (fuel : nat) (w : B) (val : Z) : outcome B :=
  match fuel with
  | O => Crash FuelExhausted
  | S fuel =>
      if val >=? 0x80 then
        w ← WriteBytes w [byte.of_Z (Z.lor val 0x80)];
        WriteUVarint_loop fuel w (Z.shiftr val 7)
      else WriteBytes w [byte.of_Z val]
  end.
Definition WriteUVarint (w : B) (val : Z) : outcome B := WriteUVarint_loop 10 w val.

Definition WriteString (w : B) (val : list byte) : outcome B := WriteBytes w val.

(** [ReserveWriteBuffer] grows the buffer by uninitialised bytes. *)
Definition ReserveWriteBuffer (w : B) (len : Z) : outcome B :=
  SetSize w (size w + len).
Definition Resize (w : B) (size : Z) : outcome B := SetSize w size.

(** *** What each operation appends *)

(** [writes m d]: started on any buffer, [m] succeeds and appends [d]. *)
Definition writes (m : B -> outcome B) (d : list byte) : Prop :=
  forall w l, wrote w l -> post (m w) (fun w' => wrote w' (l ++ d)).

Lemma WriteBytes_writes d : writes (fun w => WriteBytes w d) d.
Proof. intros w l. apply AppendData_wrote. Qed.

Lemma writes_bind m k d1 d2 :
  writes m d1 -> writes k d2 -> writes (fun w => m w ≫= k) (d1 ++ d2).
Proof.
  intros Hm Hk w l Hw. eapply post_bind, post_mono; [by apply Hm|].
  intros w' Hw'. rewrite app_assoc. by apply Hk.
Qed.

Lemma writes_nil : writes mret [].
Proof. intros w l Hw. cbn. by rewrite app_nil_r. Qed.

Lemma WriteUInt8_writes v : writes (fun w => WriteUInt8 w v) [byte.of_Z v].
Proof. apply WriteBytes_writes. Qed.
Lemma WriteUInt16_writes v : writes (fun w => WriteUInt16 w v) (be_bytes 2 v).
Proof. rewrite <- (store_to_be host_order). apply WriteBytes_writes. Qed.
Lemma WriteUInt32_writes v : writes (fun w => WriteUInt32 w v) (be_bytes 4 v).
Proof. rewrite <- (store_to_be host_order). apply WriteBytes_writes. Qed.
Lemma WriteUInt64_writes v : writes (fun w => WriteUInt64 w v) (be_bytes 8 v).
Proof. rewrite <- (store_to_be host_order). apply WriteBytes_writes. Qed.

Lemma be_bytes_tail n v : zdrop 1 (be_bytes (S n) v) = be_bytes n v.
Proof.
  unfold be_bytes, zdrop. change (Z.to_nat 1) with 1%nat.
  rewrite skipn_rev, length_le_split. f_equal.
  replace (S n - 1)%nat with n by lia.
  revert v. induction n as [|n IH]; intros v; [done|].
  change (le_split (S (S n)) v) with (byte.of_Z v :: le_split (S n) (Z.shiftr v 8)).
  change (le_split (S n) v) with (byte.of_Z v :: le_split n (Z.shiftr v 8)).
  cbn [firstn]. by rewrite IH.
Qed.

Lemma WriteUInt24_writes v : writes (fun w => WriteUInt24 w v) (be_bytes 3 v).
Proof.
  rewrite <- (be_bytes_tail 3), <- (store_to_be host_order). apply WriteBytes_writes.
Qed.

(** The reference encoding of a varint: seven bits per byte, low bits first. *)
Fixpoint uvarint (fuel : nat) (val : Z) : list byte :=
  match fuel with
  | O => []
  | S fuel => if val <? 128 then [byte.of_Z val]
              else byte.of_Z (val mod 128 + 128) :: uvarint fuel (val / 128)
  end.

Lemma lor_0x80 v : byte.of_Z (Z.lor v 0x80) = byte.of_Z (v mod 128 + 128).
Proof.
  apply byte.unsigned_inj. rewrite !byte.unsigned_of_Z. unfold byte.wrap.
  change (v mod 128) with (v mod 2 ^ 7). rewrite <- (Z.land_ones v 7) by lia.
  assert (Hd : Z.land (Z.land v (Z.ones 7)) 128 = 0).
  { rewrite <- Z.land_assoc. apply Z.land_0_r. }
  replace (Z.land v (Z.ones 7) + 128) with (Z.lor (Z.land v (Z.ones 7)) 128)
    by (rewrite Z.add_nocarry_lxor, Z.lxor_lor by done; done).
  rewrite <- !Z.land_ones by lia.
  apply Z.bits_inj'. intros i Hi. rewrite !Z.land_spec, !Z.lor_spec, Z.land_spec.
  change 128 with (2 ^ 7). rewrite Z.pow2_bits_eqb by lia.
  destruct (Z.testbit v i); [|done]. rewrite !andb_true_l, ?orb_true_l, ?andb_true_l.
  rewrite !Z.testbit_ones_nonneg by lia.
  destruct (Z.ltb_spec i 8), (Z.ltb_spec i 7), (Z.eqb_spec 7 i); try done; lia.
Qed.

Lemma WriteUVarint_loop_writes fuel v :
  0 <= v < 2 ^ (7 * Z.of_nat fuel) -> (0 < fuel)%nat ->
  writes (fun w => WriteUVarint_loop fuel w v) (uvarint fuel v).
Proof.
  revert v. induction fuel as [|fuel IH]; intros v Hv Hf; [lia|].
  cbn [WriteUVarint_loop uvarint]. rewrite Z.geb_leb, Z.leb_antisym.
  destruct (Z.ltb_spec v 0x80) as [Hlt|Hge]; cbn [negb]; [apply WriteBytes_writes|].
  rewrite lor_0x80, Z.shiftr_div_pow2 by lia. change (2 ^ 7) with 128.
  change (?x :: ?l) with ([x] ++ l). apply writes_bind; [apply WriteBytes_writes|].
  assert (0 < fuel)%nat by (destruct fuel; [cbn in Hv; lia | lia]).
  apply IH; [|done]. replace (7 * Z.of_nat (S fuel)) with (7 + 7 * Z.of_nat fuel) in Hv by lia.
  rewrite Z.pow_add_r in Hv by lia. change (2 ^ 7) with 128 in Hv.
  split; [apply Z.div_pos; lia | apply Z.div_lt_upper_bound; lia].
Qed.

Lemma WriteUVarint_writes v :
  0 <= v < 2 ^ 64 -> writes (fun w => WriteUVarint w v) (uvarint 10 v).
Proof. intros. apply WriteUVarint_loop_writes; lia. Qed.

End Writer.

(** [ByteBufferWriterT::Construct] over [BufferT<char>]: [None] is [nullptr]. *)
Definition kDefaultCapacity : Z := 4096.
Definition Construct `{Heap} (bytes : option (list byte)) (size : Z) : outcome BufferT :=
  match bytes with
  | Some d => BufferT_AppendData false BufferT_empty (ztake size d)
  | None => EnsureCapacity false BufferT_empty size
  end.
Definition ByteBufferWriter `{Heap} : outcome BufferT := Construct None kDefaultCapacity.

(** A new writer holds nothing, or the bytes it was given. *)
Lemma BufferT_empty_ok : BufferT_ok BufferT_empty.
Proof. repeat split; cbn; lia. Qed.

Lemma ByteBufferWriter_ok `{Heap} :
  post ByteBufferWriter (fun b => BufferT_ok b /\ BufferT_contents b = []).
Proof.
  unfold ByteBufferWriter, Construct, EnsureCapacity.
  eapply post_mono; [apply EnsureCapacityWithHeadroom_ok, BufferT_empty_ok|].
  intros b (Hok & _ & Hc & _). by rewrite Hc.
Qed.

(** ** The reader *)

Record ByteBufferReader : Type := mkReader {
  bytes_ : list byte;
  rsize_ : Z;
  start_ : Z;
  end_ : Z
}.

(** [Construct(bytes, len)] *)
Definition Reader (bytes : list byte) (len : Z) : ByteBufferReader :=
  mkReader bytes len 0 len.

(** The constructor from a C string: up to the terminating zero. *)
Fixpoint strlen (bytes : list byte) : Z :=
  match bytes with
  | [] => 0
  | b :: bytes => if decide (b = Byte.x00) then 0 else 1 + strlen bytes
  end.
Definition Reader_cstr (bytes : list byte) : ByteBufferReader := Reader bytes (strlen bytes).

Definition Length (r : ByteBufferReader) : Z := wrap64 (end_ r - start_ r).

(** A reading operation: [None] is the answer [false]. *)
Definition reader (A : Type) : Type :=
  ByteBufferReader -> outcome (option A * ByteBufferReader).

(** [return true] after storing a value, and [if (!m) return false; k]. *)
#[export] Instance reader_ret : MRet reader := fun A a r => Ret (Some a, r).
#[export] Instance reader_bind : MBind reader := fun A B k m r =>
  match m r with
  | Ret (Some a, r') => k a r'
  | Ret (None, r') => Ret (None, r')
  | Crash f => Crash f
  end.
Definition return_false {A} : reader A := fun r => Ret (None, r).

Definition advance (n : Z) (r : ByteBufferReader) : ByteBufferReader :=
  mkReader (bytes_ r) (rsize_ r) (wrap64 (start_ r + n)) (end_ r).

Definition ReadBytes (len : Z) : reader (list byte) := fun r =>
  if len >? Length r then Ret (None, r) else
  d ← mem_read (bytes_ r) (start_ r) len;
  Ret (Some d, advance len r).

(** [ReadString] appends to the string [val]. *)
Definition ReadString (val : list byte) (len : Z) : reader (list byte) := fun r =>
  if len >? Length r then Ret (None, r) else
  d ← mem_read (bytes_ r) (start_ r) len;
  Ret (Some (val ++ d), advance len r).

Definition Consume (size : Z) : reader unit := fun r =>
  if size >? Length r then Ret (None, r) else Ret (Some tt, advance size r).

Definition ReadUInt8 : reader Z :=
  d ← ReadBytes 1; mret (load host_order d).
Definition ReadUInt16 : reader Z :=
  d ← ReadBytes 2; mret (NetworkToHost16 host_order (load host_order d)).
(** [ReadUInt24] reads behind the first byte of a zeroed 32-bit integer. *)
Definition ReadUInt24 : reader Z :=
  d ← ReadBytes 3;
  mret (NetworkToHost32 host_order (load host_order (splice (store host_order 4 0) 1 d))).
Definition ReadUInt32 : reader Z :=
  d ← ReadBytes 4; mret (NetworkToHost32 host_order (load host_order d)).
Definition ReadUInt64 : reader Z :=
  d ← ReadBytes 8; mret (NetworkToHost64 host_order (load host_order d)).

(** [static_cast<uint64_t>(byte)] of a (signed) [char]. *)
Definition char_to_uint64 (b : byte) : Z :=
  let u := byte.unsigned b in if u <? 128 then u else u - 256 + 2 ^ 64.

Fixpoint ReadUVarint_loop (fuel : nat) (i v : Z) : reader Z :=
  match fuel with
  | O => fun _ => Crash FuelExhausted
  | S fuel =>
      if i <? 64 then
        d ← ReadBytes 1;
        let c := char_to_uint64 (hd Byte.x00 d) in
        let v := Z.lor v (wrap64 (Z.shiftl (Z.land c 0x7F) i)) in
        if c <? 0x80 then mret v else ReadUVarint_loop fuel (i + 7) v
      else return_false
  end.
Definition ReadUVarint : reader Z := ReadUVarint_loop 11 0 0.

(** *** The reader's position *)

(** [unread r l]: the reader is in a legal state and [l] is what it has not
    read yet. *)
Definition unread (r : ByteBufferReader) (l : list byte) : Prop :=
  0 <= start_ r <= end_ r /\ end_ r <= zlen (bytes_ r) < 2 ^ 64 /\
  l = ztake (end_ r - start_ r) (zdrop (start_ r) (bytes_ r)).

Lemma unread_Reader bytes len :
  0 <= len <= zlen bytes -> zlen bytes < 2 ^ 64 -> unread (Reader bytes len) (ztake len bytes).
Proof.
  intros. unfold unread; cbn. rewrite zdrop_0, Z.sub_0_r. repeat split; lia.
Qed.

Lemma unread_whole bytes : zlen bytes < 2 ^ 64 -> unread (Reader bytes (zlen bytes)) bytes.
Proof.
  intros. pose proof (zlen_nonneg bytes).
  rewrite <- (ztake_all (zlen bytes) bytes) at 3 by lia. apply unread_Reader; lia.
Qed.

Lemma unread_Length r l : unread r l -> Length r = zlen l.
Proof.
  intros (H1 & H2 & ->). unfold Length. rewrite zlen_ztake; rewrite ?zlen_zdrop by lia; [|lia].
  apply wrap64_small; lia.
Qed.

Lemma unread_range r l : unread r l -> 0 <= zlen l < 2 ^ 64.
Proof. intros H. rewrite <- (unread_Length r l H). apply wrap64_range. Qed.

Lemma unread_advance r l n :
  unread r l -> 0 <= n <= zlen l -> unread (advance n r) (zdrop n l).
Proof.
  intros Hr Hn. pose proof (unread_Length r l Hr) as Hl.
  destruct Hr as (H1 & H2 & ->). unfold Length in Hl. rewrite wrap64_small in Hl by lia.
  unfold unread, advance; cbn. rewrite wrap64_small by lia.
  repeat split; try lia. rewrite <- zdrop_zdrop by lia.
  unfold ztake, zdrop. rewrite skipn_firstn_comm. f_equal. lia.
Qed.

Lemma unread_mem r l n :
  unread r l -> 0 <= n <= zlen l -> mem_read (bytes_ r) (start_ r) n = Ret (ztake n l).
Proof.
  intros Hr Hn. pose proof (unread_Length r l Hr) as Hl.
  destruct Hr as (H1 & H2 & ->). unfold Length in Hl. rewrite wrap64_small in Hl by lia.
  rewrite mem_read_ok by lia. rewrite ztake_ztake by lia. done.
Qed.

(** *** Success: each operation takes its bytes off the front *)

(** [reads m d a]: on an input that starts with [d], [m] succeeds with [a]
    and stops behind [d]. *)
Definition reads {A} (m : reader A) (d : list byte) (a : A) : Prop :=
  forall r rest, unread r (d ++ rest) ->
  exists r', m r = Ret (Some a, r') /\ unread r' rest.

Lemma reads_ret {A} (a : A) : reads (mret a) [] a.
Proof. intros r rest H. by exists r. Qed.

Lemma reads_bind {A B} (m : reader A) (k : A -> reader B) d1 d2 a b :
  reads m d1 a -> reads (k a) d2 b -> reads (m ≫= k) (d1 ++ d2) b.
Proof.
  intros Hm Hk r rest Hr. rewrite <- app_assoc in Hr.
  destruct (Hm r _ Hr) as (r1 & E1 & H1). destruct (Hk r1 rest H1) as (r2 & E2 & H2).
  exists r2. split; [|done]. unfold mbind, reader_bind. by rewrite E1.
Qed.

Lemma reads_map {A B} (m : reader A) (f : A -> B) d a b :
  reads m d a -> f a = b -> reads (x ← m; mret (f x)) d b.
Proof.
  intros Hm <-. rewrite <- (app_nil_r d). eapply reads_bind; [done|]. apply reads_ret.
Qed.

Lemma ReadBytes_reads d : reads (ReadBytes (zlen d)) d d.
Proof.
  intros r rest Hr. pose proof (unread_Length _ _ Hr) as HL.
  pose proof (zlen_nonneg d). pose proof (zlen_nonneg rest).
  rewrite zlen_app in HL. unfold ReadBytes. rewrite Z.gtb_ltb.
  rewrite (proj2 (Z.ltb_ge _ _)) by lia.
  rewrite (unread_mem r (d ++ rest)) by (rewrite ?zlen_app; try done; lia). cbn.
  rewrite ztake_app. eexists. split; [done|].
  rewrite <- (zdrop_app d rest) at 1. apply unread_advance; [done|]. rewrite zlen_app; lia.
Qed.

Lemma ReadBytes_reads' n d : zlen d = n -> reads (ReadBytes n) d d.
Proof. intros <-. apply ReadBytes_reads. Qed.

Lemma ReadString_reads val d : reads (ReadString val (zlen d)) d (val ++ d).
Proof.
  intros r rest Hr. destruct (ReadBytes_reads d r rest Hr) as (r' & E & Hr').
  exists r'. split; [|done]. unfold ReadBytes, ReadString in *.
  destruct (_ >? _); [done|]. destruct (mem_read _ _ _); cbn in *; congruence.
Qed.

Lemma Consume_reads d : reads (Consume (zlen d)) d tt.
Proof.
  intros r rest Hr. destruct (ReadBytes_reads d r rest Hr) as (r' & E & Hr').
  exists r'. split; [|done]. unfold ReadBytes, Consume in *.
  destruct (_ >? _); [done|]. destruct (mem_read _ _ _); cbn in *; congruence.
Qed.

Lemma ReadUInt8_reads v : 0 <= v < 2 ^ 8 -> reads ReadUInt8 [byte.of_Z v] v.
Proof.
  intros. eapply reads_map; [by apply ReadBytes_reads'|]. cbn [load host_order].
  rewrite le_combine_1, byte.unsigned_of_Z. by apply Z.mod_small.
Qed.

Lemma ReadUInt8_reads_byte b : reads ReadUInt8 [b] (byte.unsigned b).
Proof.
  rewrite <- (byte.of_Z_unsigned b) at 1. apply ReadUInt8_reads, byte.unsigned_range.
Qed.

Lemma ReadUInt16_reads v : 0 <= v < 2 ^ 16 -> reads ReadUInt16 (be_bytes 2 v) v.
Proof.
  intros. eapply reads_map; [by apply ReadBytes_reads', zlen_be_bytes|].
  unfold NetworkToHost16. rewrite to_be_load by apply length_be_bytes.
  by apply be_value_be_bytes.
Qed.

Lemma ReadUInt32_reads v : 0 <= v < 2 ^ 32 -> reads ReadUInt32 (be_bytes 4 v) v.
Proof.
  intros. eapply reads_map; [by apply ReadBytes_reads', zlen_be_bytes|].
  unfold NetworkToHost32. rewrite to_be_load by apply length_be_bytes.
  by apply be_value_be_bytes.
Qed.

Lemma ReadUInt64_reads v : 0 <= v < 2 ^ 64 -> reads ReadUInt64 (be_bytes 8 v) v.
Proof.
  intros. eapply reads_map; [by apply ReadBytes_reads', zlen_be_bytes|].
  unfold NetworkToHost64. rewrite to_be_load by apply length_be_bytes.
  by apply be_value_be_bytes.
Qed.

Lemma splice_uint24 v :
  0 <= v < 2 ^ 24 -> splice (store host_order 4 0) 1 (be_bytes 3 v) = be_bytes 4 v.
Proof.
  intros Hv. rewrite <- (be_bytes_tail 3) at 1.
  assert (Hh : ztake 1 (be_bytes 4 v) = [Byte.x00]).
  { unfold be_bytes.
    change (le_split 4 v) with ([byte.of_Z v; byte.of_Z (Z.shiftr v 8);
      byte.of_Z (Z.shiftr (Z.shiftr v 8) 8);
      byte.of_Z (Z.shiftr (Z.shiftr (Z.shiftr v 8) 8) 8)]).
    cbn -[Z.shiftr byte.of_Z]. rewrite !Z.shiftr_shiftr by lia. cbn -[Z.shiftr byte.of_Z].
    rewrite Z.shiftr_div_pow2, Z.div_small by lia. done. }
  unfold splice. rewrite zlen_zdrop; rewrite zlen_be_bytes; [|lia].
  cbn [host_order store]. change (ztake 1 (le_split 4 0)) with [Byte.x00].
  rewrite (zdrop_all (1 + _) (le_split 4 0)) by (vm_compute; discriminate).
  rewrite app_nil_r, <- Hh. apply ztake_zdrop.
Qed.

Lemma ReadUInt24_reads v : 0 <= v < 2 ^ 24 -> reads ReadUInt24 (be_bytes 3 v) v.
Proof.
  intros. eapply reads_map; [by apply ReadBytes_reads', zlen_be_bytes|].
  rewrite splice_uint24 by done.
  unfold NetworkToHost32. rewrite to_be_load by apply length_be_bytes.
  apply be_value_be_bytes. cbn. lia.
Qed.

(** *** Varints *)

Lemma char_low7 v : 0 <= v < 128 -> char_to_uint64 (byte.of_Z v) = v.
Proof.
  intros. unfold char_to_uint64. rewrite byte.unsigned_of_Z. unfold byte.wrap.
  rewrite Z.mod_small by lia. rewrite (proj2 (Z.ltb_lt _ _)) by lia. done.
Qed.

Lemma char_continuation v : 0 <= v < 128 ->
  char_to_uint64 (byte.of_Z (v + 128)) = 2 ^ 64 - 128 + v.
Proof.
  intros. unfold char_to_uint64. rewrite byte.unsigned_of_Z. unfold byte.wrap.
  rewrite Z.mod_small by lia. rewrite (proj2 (Z.ltb_ge _ _)) by lia. lia.
Qed.

(** Seven more bits: [v] holds the low [i] bits of [v + 2^i * val]. *)
Lemma varint_accumulate v val i :
  0 <= i -> 0 <= v < 2 ^ i -> 0 <= val -> val * 2 ^ i < 2 ^ 64 ->
  Z.lor v (wrap64 (Z.shiftl (Z.land val 0x7F) i)) = v + 2 ^ i * (val mod 128).
Proof.
  intros Hi Hv Hval Hb. change 0x7F with (Z.ones 7). rewrite Z.land_ones by lia.
  change (2 ^ 7) with 128. pose proof (Z.mod_pos_bound val 128 ltac:(lia)).
  pose proof (Z.mod_le val 128 ltac:(lia) ltac:(lia)).
  rewrite Z.shiftl_mul_pow2 by lia. rewrite wrap64_small by nia.
  rewrite <- Z.lxor_lor, <- Z.add_nocarry_lxor; [lia| |].
  all: rewrite <- Z.shiftl_mul_pow2 by lia; apply Z.bits_inj'; intros k Hk;
    rewrite Z.land_spec, Z.bits_0;
    destruct (Z.lt_ge_cases k i); [rewrite Z.shiftl_spec_low by lia; apply andb_false_r|];
    rewrite <- (Z.mod_small v (2 ^ i)), Z.mod_pow2_bits_high by lia; done.
Qed.

Lemma land_continuation val :
  Z.land (2 ^ 64 - 128 + val mod 128) 0x7F = Z.land val 0x7F.
Proof.
  change 0x7F with (Z.ones 7). rewrite !Z.land_ones by lia. change (2 ^ 7) with 128.
  replace (2 ^ 64 - 128 + val mod 128) with (val mod 128 + (2 ^ 57 - 1) * 128) by lia.
  rewrite Z.mod_add by lia. by apply Z.mod_mod.
Qed.

Lemma ReadUVarint_loop_reads n fuel i v val :
  0 <= i < 64 -> 0 <= v < 2 ^ i -> 0 <= val -> val * 2 ^ i < 2 ^ 64 ->
  val < 2 ^ (7 * Z.of_nat n) -> (0 < n < fuel)%nat ->
  reads (ReadUVarint_loop fuel i v) (uvarint n val) (v + 2 ^ i * val).
Proof.
  revert fuel i v val. induction n as [|n IH]; intros fuel i v val Hi Hv Hval Hb Hn Hf; [lia|].
  destruct fuel as [|fuel]; [lia|]. cbn [ReadUVarint_loop uvarint].
  rewrite (proj2 (Z.ltb_lt i 64)) by lia.
  destruct (Z.ltb_spec val 128) as [Hlt|Hge].
  - rewrite <- (app_nil_r [_]). eapply reads_bind; [by apply ReadBytes_reads'|].
    cbn [hd]. rewrite char_low7, varint_accumulate by lia.
    rewrite (proj2 (Z.ltb_lt val _)) by lia. rewrite Z.mod_small by lia. apply reads_ret.
  - change (?x :: ?l) with ([x] ++ l). eapply reads_bind; [by apply ReadBytes_reads'|].
    pose proof (Z.mod_pos_bound val 128 ltac:(lia)).
    cbn [hd]. rewrite char_continuation, land_continuation, varint_accumulate by lia.
    rewrite (proj2 (Z.ltb_ge _ 0x80)) by lia.
    pose proof (Z.div_mod val 128 ltac:(lia)) as Hdm.
    assert (Hq : 1 <= val / 128) by (apply Z.div_le_lower_bound; lia).
    assert (Hp : 2 ^ (i + 7) = 2 ^ i * 128) by (rewrite Z.pow_add_r by lia; done).
    assert (Hp0 : 0 < 2 ^ i) by (apply Z.pow_pos_nonneg; lia).
    assert (Hpn : 2 ^ (7 * Z.of_nat (S n)) = 2 ^ (7 * Z.of_nat n) * 128).
    { replace (7 * Z.of_nat (S n)) with (7 * Z.of_nat n + 7) by lia.
      rewrite Z.pow_add_r by lia. done. }
    replace (v + 2 ^ i * val) with (v + 2 ^ i * (val mod 128) + 2 ^ (i + 7) * (val / 128)) by nia.
    assert (val / 128 * 2 ^ (i + 7) < 2 ^ 64) by (rewrite Hp; nia).
    assert (i + 7 < 64) by (apply (Z.pow_lt_mono_r_iff 2); nia).
    assert (0 < n)%nat by (destruct n; [cbn in Hpn; lia | lia]).
    apply IH; try nia.
Qed.

Lemma ReadUVarint_reads v : 0 <= v < 2 ^ 64 -> reads ReadUVarint (uvarint 10 v) v.
Proof.
  intros. replace v with (0 + 2 ^ 0 * v) at 2 by lia.
  apply ReadUVarint_loop_reads; lia.
Qed.

(** *** Safety: a reading operation stays inside the array *)

(** [safe m]: from a legal state [m] does not crash and leaves a legal state
    whose unread bytes are a suffix of those before. *)
Definition safe {A} (m : reader A) : Prop :=
  forall r l, unread r l ->
  exists o r' n, m r = Ret (o, r') /\ 0 <= n <= zlen l /\ unread r' (zdrop n l).

Lemma safe_ret {A} (a : A) : safe (mret a).
Proof.
  intros r l H. pose proof (zlen_nonneg l).
  exists (Some a), r, 0. by split; [|split; [lia|rewrite zdrop_0]].
Qed.

Lemma safe_false {A} : safe (@return_false A).
Proof.
  intros r l H. pose proof (zlen_nonneg l).
  exists None, r, 0. by split; [|split; [lia|rewrite zdrop_0]].
Qed.

Lemma safe_bind {A B} (m : reader A) (k : A -> reader B) :
  safe m -> (forall a, safe (k a)) -> safe (m ≫= k).
Proof.
  intros Hm Hk r l Hr. destruct (Hm r l Hr) as (o & r1 & n1 & E1 & Hn1 & H1).
  unfold mbind, reader_bind. rewrite E1. destruct o as [a|].
  - destruct (Hk a r1 _ H1) as (o & r2 & n2 & E2 & Hn2 & H2).
    rewrite zlen_zdrop in Hn2 by lia. rewrite zdrop_zdrop in H2 by lia.
    exists o, r2, (n1 + n2). by split; [|split; [lia|]].
  - exists None, r1, n1. done.
Qed.

Lemma ReadBytes_safe n : 0 <= n -> safe (ReadBytes n).
Proof.
  intros Hn r l Hr. unfold ReadBytes. rewrite Z.gtb_ltb, (unread_Length _ _ Hr).
  pose proof (zlen_nonneg l). destruct (Z.ltb_spec (zlen l) n).
  - exists None, r, 0. by split; [|split; [lia|rewrite zdrop_0]].
  - rewrite (unread_mem r l) by (done || lia). cbn.
    eexists _, _, n. split; [done|]. split; [lia|]. by apply unread_advance.
Qed.

Lemma ReadString_safe val n : 0 <= n -> safe (ReadString val n).
Proof.
  intros Hn r l Hr. destruct (ReadBytes_safe n Hn r l Hr) as (o & r' & k & E & Hk & H).
  unfold ReadBytes, ReadString in *. destruct (_ >? _); [by exists None, r, k; simplify_eq|].
  destruct (mem_read _ _ _); cbn in *; simplify_eq. eauto 8.
Qed.

Lemma Consume_safe n : 0 <= n -> safe (Consume n).
Proof.
  intros Hn r l Hr. destruct (ReadBytes_safe n Hn r l Hr) as (o & r' & k & E & Hk & H).
  unfold ReadBytes, Consume in *. destruct (_ >? _); [by exists None, r, k; simplify_eq|].
  destruct (mem_read _ _ _); cbn in *; simplify_eq. eauto 8.
Qed.

Lemma ReadUInt8_safe : safe ReadUInt8.
Proof. apply safe_bind; [by apply ReadBytes_safe | intros; apply safe_ret]. Qed.
Lemma ReadUInt16_safe : safe ReadUInt16.
Proof. apply safe_bind; [by apply ReadBytes_safe | intros; apply safe_ret]. Qed.
Lemma ReadUInt24_safe : safe ReadUInt24.
Proof. apply safe_bind; [by apply ReadBytes_safe | intros; apply safe_ret]. Qed.
Lemma ReadUInt32_safe : safe ReadUInt32.
Proof. apply safe_bind; [by apply ReadBytes_safe | intros; apply safe_ret]. Qed.
Lemma ReadUInt64_safe : safe ReadUInt64.
Proof. apply safe_bind; [by apply ReadBytes_safe | intros; apply safe_ret]. Qed.

Lemma ReadUVarint_loop_safe fuel i v :
  0 <= i -> (0 < fuel)%nat -> 64 <= i + 7 * (Z.of_nat fuel - 1) -> safe (ReadUVarint_loop fuel i v).
Proof.
  revert i v. induction fuel as [|fuel IH]; intros i v Hi H0 Hf; [lia|].
  cbn [ReadUVarint_loop]. destruct (Z.ltb_spec i 64); [|apply safe_false].
  apply safe_bind; [by apply ReadBytes_safe|]. intros d. cbn zeta.
  case_step; [apply safe_ret|]. apply IH; lia.
Qed.

Lemma ReadUVarint_safe : safe ReadUVarint.
Proof. apply ReadUVarint_loop_safe; lia. Qed.

Create HintDb reader.
#[export] Hint Resolve safe_ret safe_false safe_bind ReadUInt8_safe ReadUInt16_safe
  ReadUInt24_safe ReadUInt32_safe ReadUInt64_safe ReadUVarint_safe : reader.

(** ** Round trips *)

Lemma uvarint_length n v : (0 < n)%nat -> 1 <= zlen (uvarint n v) <= Z.of_nat n.
Proof.
  revert v. induction n as [|n IH]; intros v Hn; [lia|]. cbn [uvarint].
  case_step; rewrite zlen_cons; [rewrite zlen_nil; lia|].
  destruct n as [|n]; [cbn; rewrite zlen_nil; lia|]. specialize (IH (v / 128)). lia.
Qed.

(** C35: A 64-bit value written with [WriteUVarint] into any buffer
    that keeps the contract of its class takes one to ten bytes, and
    [ReadUVarint] gives back that value and stops right behind those bytes,
    whatever follows them; neither loop runs out. *)
Theorem varint_roundtrip `{BufferClass B} (w : B) (l : list byte) (v : Z) :
  wrote w l -> 0 <= v < 2 ^ 64 ->
  exists w' d, WriteUVarint w v = Ret w' /\ wrote w' (l ++ d) /\ 1 <= zlen d <= 10 /\
    forall r rest, unread r (d ++ rest) ->
      exists r', ReadUVarint r = Ret (Some v, r') /\ unread r' rest.
Proof.
  intros Hw Hv. destruct (post_inv _ _ (WriteUVarint_writes v Hv w l Hw)) as (w' & E & Hw').
  exists w', (uvarint 10 v). split; [done|]. split; [done|].
  split; [apply uvarint_length; lia|]. by apply ReadUVarint_reads.
Qed.

Definition example_heap : Heap := filled_heap Byte.xa5.

Lemma varint_roundtrip_witness :
  exists w' d,
    WriteUVarint (H := @BufferT_class example_heap false) BufferT_empty 300 = Ret w' /\
    wrote (BufferClass := @BufferT_class example_heap false) w' ([] ++ d) /\
    1 <= zlen d <= 10 /\
    forall r rest, unread r (d ++ rest) ->
      exists r', ReadUVarint r = Ret (Some 300, r') /\ unread r' rest.
Proof.
  apply (varint_roundtrip (H := @BufferT_class example_heap false) BufferT_empty [] 300).
  - split; [repeat split; cbn; lia | reflexivity].
  - lia.
Defined.

(** For each fixed width (8, 16, 24, 32 and 64 bits) the writer
    appends the value's big-endian bytes and the reader takes exactly these
    bytes off its input and answers the value. *)
Theorem integer_roundtrip `{BufferClass B} (bits : Z) (wr : B -> Z -> outcome B) (rd : reader Z) :
  In (bits, wr, rd) [(8, WriteUInt8, ReadUInt8); (16, WriteUInt16, ReadUInt16);
    (24, WriteUInt24, ReadUInt24); (32, WriteUInt32, ReadUInt32); (64, WriteUInt64, ReadUInt64)] ->
  forall v w l, 0 <= v < 2 ^ bits -> wrote w l ->
  exists w' d, wr w v = Ret w' /\ wrote w' (l ++ d) /\
    zlen d * 8 = bits /\ be_value d = v /\ reads rd d v.
Proof.
  intros Hin v w l Hv Hw.
  assert (Hgo : forall d, writes (fun w => wr w v) d -> zlen d * 8 = bits -> be_value d = v ->
    reads rd d v -> exists w' d, wr w v = Ret w' /\ wrote w' (l ++ d) /\
    zlen d * 8 = bits /\ be_value d = v /\ reads rd d v).
  { intros d Hwr Hl Hbe Hrd. destruct (post_inv _ _ (Hwr w l Hw)) as (w' & E & Hw').
    by exists w', d. }
  destruct Hin as [E|[E|[E|[E|[E|[]]]]]]; injection E as <- <- <-.
  - apply (Hgo [byte.of_Z v]); [apply WriteUInt8_writes|done| |by apply ReadUInt8_reads].
    apply (be_value_be_bytes 1). done.
  - apply (Hgo (be_bytes 2 v)); [apply WriteUInt16_writes|by rewrite zlen_be_bytes| |
      by apply ReadUInt16_reads]. by apply be_value_be_bytes.
  - apply (Hgo (be_bytes 3 v)); [apply WriteUInt24_writes|by rewrite zlen_be_bytes| |
      by apply ReadUInt24_reads]. by apply be_value_be_bytes.
  - apply (Hgo (be_bytes 4 v)); [apply WriteUInt32_writes|by rewrite zlen_be_bytes| |
      by apply ReadUInt32_reads]. by apply be_value_be_bytes.
  - apply (Hgo (be_bytes 8 v)); [apply WriteUInt64_writes|by rewrite zlen_be_bytes| |
      by apply ReadUInt64_reads]. by apply be_value_be_bytes.
Qed.

Lemma integer_roundtrip_witness :
  exists w' d,
    WriteUInt24 (H := @BufferT_class example_heap false) BufferT_empty 0x10203 = Ret w' /\
    wrote (BufferClass := @BufferT_class example_heap false) w' ([] ++ d) /\
    zlen d * 8 = 24 /\ be_value d = 0x10203 /\ reads ReadUInt24 d 0x10203.
Proof.
  apply (integer_roundtrip (H := @BufferT_class example_heap false) 24 WriteUInt24 ReadUInt24).
  - right; right; left; reflexivity.
  - lia.
  - split; [repeat split; cbn; lia | reflexivity].
Defined.
