(* ===== verification/FifoBuffer.v ===== *)
(** * network/stun/fifo_buffer.{h,cc}: the ring buffer of the stream layer

    The record has the members of the class ([loop_] and the mutex, which
    every operation holds for its whole duration, have no effect on the
    data).  Sizes are [size_t]: additions and subtractions wrap at 64 bits as
    in the code.  Copies outside [buffer_] and divisions by zero are crashes.

    The abstract view of the ring ([view]) is the list of its [buffer_length_]
    bytes in reading order; [data_length_] of them are readable and the rest
    is free space, into which [WriteOffset] may write ahead of the readable
    part (the receive window of PseudoTcp does).  Every operation is shown to
    be the obvious operation on that view. *)

From Stdlib Require Import ZArith Lia.
From S2P Require Import Prelude.

Inductive StreamState : Type := SS_CLOSED | SS_OPENING | SS_OPEN.
Inductive StreamResult : Type := SR_ERROR | SR_SUCCESS | SR_BLOCK | SR_EOS.

#[export] Instance StreamState_eq_dec : EqDecision StreamState.
Proof. solve_decision. Defined.
#[export] Instance StreamResult_eq_dec : EqDecision StreamResult.
Proof. solve_decision. Defined.

Record FifoBuffer : Type := mkFifo {
  state_ : StreamState;
  buffer_ : list byte;
  buffer_length_ : Z;
  data_length_ : Z;
  read_position_ : Z
}.

(** [a % b] on [size_t]: dividing by zero stops the process. *)
Definition size_mod (a b : Z) : outcome Z :=
  if b =? 0 then Crash DivideByZero else Ret (wrap64 a mod b).

Section Operations.
Context `{Heap}.

Definition FifoBuffer_new (size : Z) : FifoBuffer := mkFifo SS_OPEN (fresh size) size 0 0.

Definition GetBuffered (f : FifoBuffer) : Z := data_length_ f.
Definition GetState (f : FifoBuffer) : StreamState := state_ f.

Definition SetCapacity (f : FifoBuffer) (size : Z) : outcome (bool * FifoBuffer) :=
  if data_length_ f >? size then mret (false, f) else
  if negb (size =? buffer_length_ f) then
    let buffer := fresh size in
    let copy := data_length_ f in
    let tail_copy := Z.min copy (wrap64 (buffer_length_ f - read_position_ f)) in
    head ← mem_read (buffer_ f) (read_position_ f) tail_copy;
    buffer ← mem_write buffer 0 head;
    rest ← mem_read (buffer_ f) 0 (wrap64 (copy - tail_copy));
    buffer ← mem_write buffer tail_copy rest;
    mret (true, mkFifo (state_ f) buffer size (data_length_ f) 0)
  else mret (true, f).

(** [ReadOffsetLocked]: the result and the bytes copied to the caller. *)
Definition ReadOffsetLocked (f : FifoBuffer) (bytes offset : Z)
    : outcome (StreamResult * list byte) :=
  if offset >=? data_length_ f then
    mret (if decide (state_ f = SS_CLOSED) then SR_EOS else SR_BLOCK, []) else
  let available := wrap64 (data_length_ f - offset) in
  read_position ← size_mod (read_position_ f + offset) (buffer_length_ f);
  let copy := Z.min bytes available in
  let tail_copy := Z.min copy (wrap64 (buffer_length_ f - read_position)) in
  head ← mem_read (buffer_ f) read_position tail_copy;
  rest ← mem_read (buffer_ f) 0 (wrap64 (copy - tail_copy));
  mret (SR_SUCCESS, head ++ rest).

(** [WriteOffsetLocked]: the result, the count written and the new state. *)
Definition WriteOffsetLocked (f : FifoBuffer) (data : list byte) (offset : Z)
    : outcome (StreamResult * Z * FifoBuffer) :=
  if decide (state_ f = SS_CLOSED) then mret (SR_EOS, 0, f) else
  if wrap64 (data_length_ f + offset) >=? buffer_length_ f then mret (SR_BLOCK, 0, f) else
  let available := wrap64 (buffer_length_ f - data_length_ f - offset) in
  write_position ← size_mod (read_position_ f + data_length_ f + offset) (buffer_length_ f);
  let copy := Z.min (zlen data) available in
  let tail_copy := Z.min copy (wrap64 (buffer_length_ f - write_position)) in
  head ← mem_read data 0 tail_copy;
  buffer ← mem_write (buffer_ f) write_position head;
  rest ← mem_read data tail_copy (wrap64 (copy - tail_copy));
  buffer ← mem_write buffer 0 rest;
  mret (SR_SUCCESS, copy,
        mkFifo (state_ f) buffer (buffer_length_ f) (data_length_ f) (read_position_ f)).

Definition ReadOffset (f : FifoBuffer) (bytes offset : Z) : outcome (StreamResult * list byte) :=
  ReadOffsetLocked f bytes offset.
Definition WriteOffset (f : FifoBuffer) (data : list byte) (offset : Z)
    : outcome (StreamResult * Z * FifoBuffer) :=
  WriteOffsetLocked f data offset.

Definition Read (f : FifoBuffer) (bytes : Z) : outcome (StreamResult * list byte * FifoBuffer) :=
  '(result, d) ← ReadOffsetLocked f bytes 0;
  let copy := zlen d in
  if decide (result = SR_SUCCESS) then
    pos ← size_mod (read_position_ f + copy) (buffer_length_ f);
    mret (result, d, mkFifo (state_ f) (buffer_ f) (buffer_length_ f)
                       (wrap64 (data_length_ f - copy)) pos)
  else mret (result, d, f).

Definition Write (f : FifoBuffer) (data : list byte) : outcome (StreamResult * Z * FifoBuffer) :=
  '(result, copy, f) ← WriteOffsetLocked f data 0;
  if decide (result = SR_SUCCESS) then
    mret (result, copy, mkFifo (state_ f) (buffer_ f) (buffer_length_ f)
                          (wrap64 (data_length_ f + copy)) (read_position_ f))
  else mret (result, copy, f).

Definition Close (f : FifoBuffer) : FifoBuffer :=
  mkFifo SS_CLOSED (buffer_ f) (buffer_length_ f) (data_length_ f) (read_position_ f).

(** [GetReadData]: the index of the block it points to and its size. *)
Definition GetReadData (f : FifoBuffer) : Z * Z :=
  (read_position_ f,
   if wrap64 (read_position_ f + data_length_ f) <=? buffer_length_ f then data_length_ f
   else wrap64 (buffer_length_ f - read_position_ f)).

Definition ConsumeReadData (f : FifoBuffer) (size : Z) : outcome FifoBuffer :=
  assert_that (size <=? data_length_ f);;
  pos ← size_mod (read_position_ f + size) (buffer_length_ f);
  mret (mkFifo (state_ f) (buffer_ f) (buffer_length_ f) (wrap64 (data_length_ f - size)) pos).

(** [GetWriteBuffer]: [None] for the null pointer, otherwise the index of the
    block the caller may fill and its size. *)
Definition GetWriteBuffer (f : FifoBuffer) : outcome (option (Z * Z) * FifoBuffer) :=
  if decide (state_ f = SS_CLOSED) then mret (None, f) else
  let f := if data_length_ f =? 0
           then mkFifo (state_ f) (buffer_ f) (buffer_length_ f) (data_length_ f) 0 else f in
  write_position ← size_mod (read_position_ f + data_length_ f) (buffer_length_ f);
  mret (Some (write_position,
              if (write_position >? read_position_ f) || (data_length_ f =? 0)
              then wrap64 (buffer_length_ f - write_position)
              else wrap64 (read_position_ f - write_position)), f).

Definition ConsumeWriteBuffer (f : FifoBuffer) (size : Z) : outcome FifoBuffer :=
  assert_that (size <=? wrap64 (buffer_length_ f - data_length_ f));;
  mret (mkFifo (state_ f) (buffer_ f) (buffer_length_ f) (wrap64 (data_length_ f + size))
          (read_position_ f)).

Definition GetWriteRemaining (f : FifoBuffer) : Z := wrap64 (buffer_length_ f - data_length_ f).

End Operations.

(** ** The abstract view of the ring *)

Definition view (f : FifoBuffer) : list byte :=
  zdrop (read_position_ f) (buffer_ f) ++ ztake (read_position_ f) (buffer_ f).

(** What a reader gets: the readable prefix of the view. *)
Definition readable (f : FifoBuffer) : list byte := ztake (data_length_ f) (view f).

Record fifo_ok (f : FifoBuffer) : Prop := {
  ok_data : 0 <= data_length_ f <= buffer_length_ f;
  ok_pos : 0 <= read_position_ f < Z.max 1 (buffer_length_ f);
  ok_block : zlen (buffer_ f) = buffer_length_ f;
  ok_cap : buffer_length_ f < 2 ^ 63
}.

(** *** The ring arithmetic *)

(** Two memory copies read a stretch of the view that may wrap around. *)
Lemma ring_read (buf : list byte) rp off n p t :
  0 <= rp < zlen buf -> 0 <= off < zlen buf -> 0 <= n <= zlen buf - off ->
  p = (rp + off) mod zlen buf -> t = Z.min n (zlen buf - p) ->
  ztake t (zdrop p buf) ++ ztake (n - t) buf =
  ztake n (zdrop off (zdrop rp buf ++ ztake rp buf)).
Proof.
  intros Hrp Hoff Hn Hp Ht.
  assert (Hpc : p = rp + off \/ p = rp + off - zlen buf).
  { destruct (Z.lt_ge_cases (rp + off) (zlen buf)).
    - left. rewrite Hp. apply Z.mod_small; lia.
    - right. rewrite Hp. symmetry. apply (Z.mod_unique_pos _ _ 1); lia. }
  assert (Hpr : 0 <= p < zlen buf) by (rewrite Hp; apply Z.mod_pos_bound; lia).
  assert (Hv : zlen (zdrop rp buf ++ ztake rp buf) = zlen buf).
  { rewrite zlen_app, zlen_zdrop, zlen_ztake; lia. }
  apply zlist_eq.
  { rewrite zlen_app, !zlen_ztake; rewrite ?zlen_zdrop, ?Hv; lia. }
  intros i Hi. rewrite zlen_app, !zlen_ztake in Hi by (rewrite ?zlen_zdrop; lia).
  rewrite zget_ztake, zget_zdrop, !zget_app by lia.
  rewrite zlen_zdrop, zlen_ztake by (rewrite ?zlen_zdrop; lia).
  destruct (Z.ltb_spec i t), (Z.ltb_spec (off + i) (zlen buf - rp));
    rewrite ?zget_ztake, ?zget_zdrop by lia; rewrite ?zget_ztake by lia; try f_equal; lia.
Qed.

(** Two memory copies write a stretch of the view that may wrap around. *)
Lemma ring_write (buf : list byte) rp i0 data p t :
  0 <= rp < zlen buf -> 0 <= i0 < zlen buf -> zlen data <= zlen buf - i0 ->
  p = (rp + i0) mod zlen buf -> t = Z.min (zlen data) (zlen buf - p) ->
  let buf' := splice (splice buf p (ztake t data)) 0 (zdrop t data) in
  zlen buf' = zlen buf /\
  zdrop rp buf' ++ ztake rp buf' = splice (zdrop rp buf ++ ztake rp buf) i0 data.
Proof.
  intros Hrp Hi0 Hn Hp Ht. pose proof (zlen_nonneg data) as Hnn.
  assert (Hpc : p = rp + i0 \/ p = rp + i0 - zlen buf).
  { destruct (Z.lt_ge_cases (rp + i0) (zlen buf)).
    - left. rewrite Hp. apply Z.mod_small; lia.
    - right. rewrite Hp. symmetry. apply (Z.mod_unique_pos _ _ 1); lia. }
  assert (Hpr : 0 <= p < zlen buf) by (rewrite Hp; apply Z.mod_pos_bound; lia).
  assert (Ha : zlen (ztake t data) = t) by (rewrite zlen_ztake; lia).
  assert (Hb : zlen (zdrop t data) = zlen data - t) by (rewrite zlen_zdrop; lia).
  assert (H1 : zlen (splice buf p (ztake t data)) = zlen buf) by (rewrite zlen_splice; lia).
  intros buf'.
  assert (H2 : zlen buf' = zlen buf) by (subst buf'; rewrite zlen_splice; lia).
  split; [done|].
  assert (Hv : zlen (zdrop rp buf ++ ztake rp buf) = zlen buf).
  { rewrite zlen_app, zlen_zdrop, zlen_ztake; lia. }
  apply zlist_eq.
  { rewrite zlen_splice, Hv, zlen_app, zlen_zdrop, zlen_ztake; lia. }
  intros i Hi. rewrite zlen_app, zlen_zdrop, zlen_ztake in Hi by lia.
  rewrite zget_splice, !zget_app, !zlen_zdrop, H2 by lia.
  destruct (Z.ltb_spec i (zlen buf - rp)).
  all: rewrite ?(zget_ztake _ rp), ?(zget_zdrop _ rp) by lia.
  all: subst buf'; rewrite !zget_splice, Ha, Hb by lia.
  all: repeat match goal with |- context [?a <=? ?b] => destruct (Z.leb_spec a b) end;
       repeat match goal with |- context [?a <? ?b] => destruct (Z.ltb_spec a b) end;
       cbn [andb]; try lia; try done.
  all: rewrite ?zget_ztake, ?zget_zdrop by lia; f_equal; lia.
Qed.

Lemma size_mod_ok a b : 0 <= a < 2 ^ 64 -> 0 < b -> size_mod a b = Ret (a mod b).
Proof.
  intros. unfold size_mod. rewrite wrap64_small by lia.
  rewrite (proj2 (Z.eqb_neq b 0)) by lia. done.
Qed.

Lemma zlen_view f : fifo_ok f -> zlen (view f) = buffer_length_ f.
Proof.
  intros [Hd Hp Hb Hc]. unfold view.
  rewrite zlen_app, zlen_zdrop, zlen_ztake; lia.
Qed.

Lemma zlen_readable f : fifo_ok f -> zlen (readable f) = data_length_ f.
Proof.
  intros Hok. pose proof Hok as [Hd _ _ _]. unfold readable.
  rewrite zlen_ztake; rewrite ?zlen_view; lia || done.
Qed.

(** *** The operations on the view *)

Lemma ReadOffset_spec f bytes offset :
  fifo_ok f -> 0 <= bytes -> 0 <= offset ->
  ReadOffset f bytes offset =
    Ret (if offset <? data_length_ f
         then (SR_SUCCESS, ztake (Z.min bytes (data_length_ f - offset)) (zdrop offset (view f)))
         else (if decide (state_ f = SS_CLOSED) then SR_EOS else SR_BLOCK, [])).
Proof.
  intros [Hd Hp Hb Hc] Hby Hoff. unfold ReadOffset, ReadOffsetLocked.
  rewrite Z.geb_leb, Z.leb_antisym. destruct (Z.ltb_spec offset (data_length_ f)); [|done].
  cbn [negb]. rewrite size_mod_ok by lia. cbn.
  pose proof (Z.mod_pos_bound (read_position_ f + offset) (buffer_length_ f) ltac:(lia)) as Hm.
  rewrite (wrap64_small (data_length_ f - offset)) by lia.
  rewrite (wrap64_small (buffer_length_ f - _)) by lia. rewrite wrap64_small by lia.
  rewrite !mem_read_ok by lia. cbn. rewrite zdrop_0. do 2 f_equal.
  apply ring_read; rewrite ?Hb; try done; lia.
Qed.

Lemma ring_empty_pos f : fifo_ok f -> buffer_length_ f = 0 -> read_position_ f = 0.
Proof. intros [Hd Hp Hb Hc] H0. lia. Qed.

Lemma WriteOffset_spec f data offset :
  fifo_ok f -> 0 <= offset < 2 ^ 63 ->
  post (WriteOffset f data offset) (fun '(res, n, f') =>
    fifo_ok f' /\ state_ f' = state_ f /\ data_length_ f' = data_length_ f /\
    buffer_length_ f' = buffer_length_ f /\ read_position_ f' = read_position_ f /\
    if decide (state_ f = SS_CLOSED) then res = SR_EOS /\ n = 0 /\ f' = f else
    if data_length_ f + offset <? buffer_length_ f then
      res = SR_SUCCESS /\
      n = Z.min (zlen data) (buffer_length_ f - data_length_ f - offset) /\
      view f' = splice (view f) (data_length_ f + offset) (ztake n data)
    else res = SR_BLOCK /\ n = 0 /\ f' = f).
Proof.
  intros Hok Hoff. pose proof Hok as [Hd Hp Hb Hc]. unfold WriteOffset, WriteOffsetLocked.
  case_decide; [done|]. rewrite (wrap64_small (data_length_ f + offset)) by lia.
  rewrite Z.geb_leb, Z.leb_antisym.
  destruct (Z.ltb_spec (data_length_ f + offset) (buffer_length_ f)); [|done].
  cbn [negb]. pose proof (zlen_nonneg data).
  rewrite size_mod_ok by lia. cbn.
  set (p := _ mod _). assert (Hpr : 0 <= p < buffer_length_ f) by (apply Z.mod_pos_bound; lia).
  rewrite (wrap64_small (buffer_length_ f - data_length_ f - offset)) by lia.
  rewrite (wrap64_small (buffer_length_ f - p)) by lia.
  set (n := Z.min _ (_ - offset)). set (t := Z.min n _). rewrite wrap64_small by lia.
  rewrite (mem_read_ok data 0 t) by lia. cbn. rewrite zdrop_0.
  rewrite mem_write_ok by (rewrite ?zlen_ztake; lia). cbn.
  rewrite mem_read_ok by lia. cbn.
  pose proof (ring_write (buffer_ f) (read_position_ f) (data_length_ f + offset)
    (ztake n data) p t) as Hring.
  assert (Hz : zlen (ztake n data) = n) by (rewrite zlen_ztake; lia).
  rewrite Hz, Hb, Z.add_assoc in Hring.
  destruct Hring as [Hl Hv]; try done; try lia.
  rewrite ztake_ztake in Hl, Hv by lia.
  assert (Hrest : zdrop t (ztake n data) = ztake (n - t) (zdrop t data)).
  { unfold ztake, zdrop. rewrite skipn_firstn_comm. f_equal. lia. }
  rewrite Hrest in Hl, Hv.
  rewrite mem_write_ok; [|lia|].
  2:{ rewrite zlen_splice by (rewrite ?zlen_ztake; lia).
      rewrite zlen_ztake; [lia|]. rewrite zlen_zdrop; lia. }
  cbn. repeat split; cbn; try done; try lia.
Qed.

(** Moving the read position rotates the view. *)
Lemma ring_rotate (buf : list byte) rp n p :
  0 <= rp < zlen buf -> 0 <= n <= zlen buf -> p = (rp + n) mod zlen buf ->
  zdrop p buf ++ ztake p buf =
  zdrop n (zdrop rp buf ++ ztake rp buf) ++ ztake n (zdrop rp buf ++ ztake rp buf).
Proof.
  intros Hrp Hn Hp.
  assert (Hpr : 0 <= p < zlen buf) by (rewrite Hp; apply Z.mod_pos_bound; lia).
  assert (Hpc : p = rp + n \/ p = rp + n - zlen buf).
  { destruct (Z.lt_ge_cases (rp + n) (zlen buf)).
    - left. rewrite Hp. apply Z.mod_small; lia.
    - right. rewrite Hp. symmetry. apply (Z.mod_unique_pos _ _ 1); lia. }
  assert (Hv : zlen (zdrop rp buf ++ ztake rp buf) = zlen buf)
    by (rewrite zlen_app, zlen_zdrop, zlen_ztake; lia).
  apply zlist_eq.
  { rewrite !zlen_app, !zlen_zdrop, !zlen_ztake; rewrite ?Hv; lia. }
  intros i Hi. rewrite zlen_app, zlen_zdrop, zlen_ztake in Hi by lia.
  rewrite !(zget_app (zdrop _ _)), !zlen_zdrop, Hv by (rewrite ?Hv; lia).
  destruct (Z.ltb_spec i (zlen buf - p)), (Z.ltb_spec i (zlen buf - n));
    rewrite ?zget_ztake, ?zget_zdrop by lia;
    rewrite ?zget_ztake by lia;
    rewrite (zget_app (zdrop _ _)), zlen_zdrop by lia;
    match goal with |- context [if ?b then _ else _] => destruct b eqn:E; zbool end;
    rewrite ?zget_ztake, ?zget_zdrop by lia; f_equal; lia.
Qed.

Lemma ConsumeReadData_spec f n :
  fifo_ok f -> 0 <= n <= data_length_ f -> 0 < buffer_length_ f ->
  exists f', ConsumeReadData f n = Ret f' /\ fifo_ok f' /\ state_ f' = state_ f /\
    buffer_length_ f' = buffer_length_ f /\ data_length_ f' = data_length_ f - n /\
    view f' = zdrop n (view f) ++ ztake n (view f).
Proof.
  intros [Hd Hp Hb Hc] Hn H0. unfold ConsumeReadData.
  rewrite (proj2 (Z.leb_le n _)) by lia. cbn.
  rewrite size_mod_ok by lia. cbn.
  pose proof (Z.mod_pos_bound (read_position_ f + n) (buffer_length_ f) ltac:(lia)).
  rewrite wrap64_small by lia. eexists. split; [done|].
  split; [constructor; cbn; try done; lia|]. do 3 (split; [done|]).
  unfold view; cbn. apply ring_rotate; rewrite ?Hb; done || lia.
Qed.

Lemma ConsumeWriteBuffer_spec f n :
  fifo_ok f -> 0 <= n <= buffer_length_ f - data_length_ f ->
  exists f', ConsumeWriteBuffer f n = Ret f' /\ fifo_ok f' /\ state_ f' = state_ f /\
    buffer_length_ f' = buffer_length_ f /\ data_length_ f' = data_length_ f + n /\
    view f' = view f.
Proof.
  intros [Hd Hp Hb Hc] Hn. unfold ConsumeWriteBuffer.
  rewrite (wrap64_small (_ - _)) by lia. rewrite (proj2 (Z.leb_le n _)) by lia. cbn.
  rewrite wrap64_small by lia. eexists. split; [done|].
  split; [constructor; cbn; try done; lia|]. done.
Qed.

Lemma ReadOffset_length f bytes offset :
  fifo_ok f -> 0 <= bytes -> 0 <= offset < data_length_ f ->
  zlen (ztake (Z.min bytes (data_length_ f - offset)) (zdrop offset (view f))) =
  Z.min bytes (data_length_ f - offset).
Proof.
  intros Hok Hb Ho. pose proof (zlen_view f Hok). pose proof Hok as [Hd _ _ _].
  rewrite zlen_ztake; [lia|]. rewrite zlen_zdrop; lia.
Qed.

Lemma Read_spec f bytes :
  fifo_ok f -> 0 <= bytes ->
  exists f', fifo_ok f' /\ state_ f' = state_ f /\ buffer_length_ f' = buffer_length_ f /\
    if 0 <? data_length_ f then
      let n := Z.min bytes (data_length_ f) in
      Read f bytes = Ret (SR_SUCCESS, ztake n (view f), f') /\
      data_length_ f' = data_length_ f - n /\ view f' = zdrop n (view f) ++ ztake n (view f)
    else Read f bytes = Ret (if decide (state_ f = SS_CLOSED) then SR_EOS else SR_BLOCK, [], f')
         /\ f' = f.
Proof.
  intros Hok Hb. pose proof Hok as [Hd Hp Hbl Hc]. unfold Read.
  change (ReadOffsetLocked f bytes 0) with (ReadOffset f bytes 0).
  rewrite ReadOffset_spec by done || lia.
  destruct (Z.ltb_spec 0 (data_length_ f)) as [Hpos|Hz].
  - cbn. rewrite Z.sub_0_r, zdrop_0.
    pose proof (ReadOffset_length f bytes 0 Hok Hb ltac:(lia)) as Hl.
    rewrite Z.sub_0_r, zdrop_0 in Hl. rewrite Hl.
    destruct (ConsumeReadData_spec f (Z.min bytes (data_length_ f)) Hok) as
      (f' & E & Hf'); [lia|lia|].
    unfold ConsumeReadData in E. rewrite (proj2 (Z.leb_le _ (data_length_ f))) in E by lia.
    cbn in E. destruct (size_mod _ _); cbn in E |- *; [|done].
    injection E as E. rewrite E. exists f'. by destruct Hf' as (? & ? & ? & ? & ?).
  - exists f. by destruct (decide (state_ f = SS_CLOSED)).
Qed.

Lemma Write_spec f data :
  fifo_ok f ->
  exists f', fifo_ok f' /\ state_ f' = state_ f /\ buffer_length_ f' = buffer_length_ f /\
    if decide (state_ f = SS_CLOSED) then Write f data = Ret (SR_EOS, 0, f') /\ f' = f else
    if data_length_ f <? buffer_length_ f then
      let n := Z.min (zlen data) (buffer_length_ f - data_length_ f) in
      Write f data = Ret (SR_SUCCESS, n, f') /\ data_length_ f' = data_length_ f + n /\
      view f' = splice (view f) (data_length_ f) (ztake n data)
    else Write f data = Ret (SR_BLOCK, 0, f') /\ f' = f.
Proof.
  intros Hok. pose proof Hok as [Hd Hp Hbl Hc]. unfold Write.
  destruct (post_inv _ _ (WriteOffset_spec f data 0 Hok ltac:(lia))) as
    ([[res n] f1] & E & Hok1 & Hs & Hdl & Hcap & Hrp & Hcase).
  unfold WriteOffset in E. rewrite E. cbn. rewrite Z.add_0_r, Z.sub_0_r in Hcase.
  destruct (decide (state_ f = SS_CLOSED)).
  { destruct Hcase as (-> & -> & ->). by exists f. }
  destruct (Z.ltb_spec (data_length_ f) (buffer_length_ f)).
  2:{ destruct Hcase as (-> & -> & ->). by exists f. }
  destruct Hcase as (-> & -> & Hv). cbn. pose proof (zlen_nonneg data).
  rewrite wrap64_small by lia. rewrite Hdl.
  exists (mkFifo (state_ f1) (buffer_ f1) (buffer_length_ f1)
    (data_length_ f + Z.min (zlen data) (buffer_length_ f - data_length_ f)) (read_position_ f1)).
  split; [destruct Hok1; constructor; cbn; try done; lia|].
  do 4 (split; [done|]). rewrite <- Hv. done.
Qed.

Lemma SetCapacity_spec `{Heap} f n :
  fifo_ok f -> 0 <= n < 2 ^ 63 ->
  exists f', fifo_ok f' /\ state_ f' = state_ f /\ data_length_ f' = data_length_ f /\
    readable f' = readable f /\
    if data_length_ f <=? n then SetCapacity f n = Ret (true, f') /\ buffer_length_ f' = n
    else SetCapacity f n = Ret (false, f') /\ f' = f.
Proof.
  intros Hok Hn. pose proof Hok as [Hd Hp Hbl Hc]. unfold SetCapacity.
  rewrite Z.gtb_ltb, Z.ltb_antisym. destruct (Z.leb_spec (data_length_ f) n); cbn [negb].
  2:{ by exists f. }
  destruct (Z.eqb_spec n (buffer_length_ f)) as [->|Hne]; cbn [negb]; [by exists f|].
  rewrite (wrap64_small (buffer_length_ f - _)) by lia. set (t := Z.min _ _).
  rewrite wrap64_small by lia. pose proof (fresh_length n ltac:(lia)) as Hf.
  rewrite (mem_read_ok (buffer_ f) (read_position_ f) t) by lia. cbn.
  assert (H1 : zlen (ztake t (zdrop (read_position_ f) (buffer_ f))) = t).
  { rewrite zlen_ztake; [lia|]. rewrite zlen_zdrop; lia. }
  rewrite mem_write_ok by lia. cbn. rewrite mem_read_ok by lia. cbn. rewrite zdrop_0.
  assert (H2 : zlen (ztake (data_length_ f - t) (buffer_ f)) = data_length_ f - t)
    by (rewrite zlen_ztake; lia).
  assert (H3 : zlen (splice (fresh n) 0 (ztake t (zdrop (read_position_ f) (buffer_ f)))) = n)
    by (rewrite zlen_splice; lia).
  rewrite mem_write_ok by lia. cbn.
  exists (mkFifo (state_ f) (splice (splice (fresh n) 0
    (ztake t (zdrop (read_position_ f) (buffer_ f)))) t
    (ztake (data_length_ f - t) (buffer_ f))) n (data_length_ f) 0).
  split; [|do 2 (split; [done|]); split; [|done]].
  - constructor; cbn; try done; try lia. rewrite zlen_splice; lia.
  - unfold readable, view at 1; cbn. rewrite zdrop_0, ztake_0, app_nil_r.
    pose proof (ztake_splice (splice (fresh n) 0
      (ztake t (zdrop (read_position_ f) (buffer_ f)))) t
      (ztake (data_length_ f - t) (buffer_ f))) as Hw.
    rewrite H2, Zplus_minus in Hw. rewrite Hw by lia.
    pose proof (ztake_splice (fresh n) 0
      (ztake t (zdrop (read_position_ f) (buffer_ f)))) as Hw2.
    rewrite H1, Z.add_0_l in Hw2. rewrite Hw2, ztake_0, app_nil_l by lia.
    destruct (Z.eq_dec (buffer_length_ f) 0).
    { assert (Hd0 : data_length_ f = 0) by lia. assert (Ht : t = 0) by (subst t; lia).
      rewrite Ht, Hd0, !ztake_0. done. }
    apply (ring_read (buffer_ f) (read_position_ f) 0); try lia.
    rewrite Z.add_0_r, Z.mod_small; lia.
Qed.

(** ** The queue that a FifoBuffer implements *)
Module Queue.

(** A bounded byte queue: what the header promises. *)
Record queue : Type := mkQueue { closed : bool; capacity : Z; items : list byte }.

(** The operations of the stream interface, with their arguments. *)
Inductive op : Type :=
| OpRead (bytes : Z)
| OpReadOffset (bytes offset : Z)
| OpWrite (data : list byte)
| OpSetCapacity (size : Z)
| OpGetBuffered
| OpGetWriteRemaining
| OpClose.

(** Arguments are [size_t] values of objects that fit in memory. *)
Definition legal (o : op) : Prop :=
  match o with
  | OpRead n => 0 <= n
  | OpReadOffset n off => 0 <= n /\ 0 <= off
  | OpSetCapacity n => 0 <= n < 2 ^ 63
  | _ => True
  end.

(** What the caller sees. *)
Inductive answer : Type :=
| AnsRead (res : StreamResult) (data : list byte)
| AnsWrite (res : StreamResult) (count : Z)
| AnsBool (b : bool)
| AnsSize (n : Z)
| AnsVoid.

Definition end_of_data (q : queue) : StreamResult := if closed q then SR_EOS else SR_BLOCK.

Definition spec_step (o : op) (q : queue) : answer * queue :=
  match o with
  | OpRead n =>
      if items q is [] then (AnsRead (end_of_data q) [], q)
      else (AnsRead SR_SUCCESS (ztake n (items q)),
            mkQueue (closed q) (capacity q) (zdrop n (items q)))
  | OpReadOffset n off =>
      if zdrop off (items q) is [] then (AnsRead (end_of_data q) [], q)
      else (AnsRead SR_SUCCESS (ztake n (zdrop off (items q))), q)
  | OpWrite d =>
      if closed q then (AnsWrite SR_EOS 0, q)
      else if zlen (items q) <? capacity q then
        let n := Z.min (zlen d) (capacity q - zlen (items q)) in
        (AnsWrite SR_SUCCESS n, mkQueue false (capacity q) (items q ++ ztake n d))
      else (AnsWrite SR_BLOCK 0, q)
  | OpSetCapacity n =>
      if zlen (items q) <=? n then (AnsBool true, mkQueue (closed q) n (items q))
      else (AnsBool false, q)
  | OpGetBuffered => (AnsSize (zlen (items q)), q)
  | OpGetWriteRemaining => (AnsSize (capacity q - zlen (items q)), q)
  | OpClose => (AnsVoid, mkQueue true (capacity q) (items q))
  end.

Definition impl_step `{Heap} (o : op) (f : FifoBuffer) : outcome (answer * FifoBuffer) :=
  match o with
  | OpRead n => '(res, d, f) ← Read f n; mret (AnsRead res d, f)
  | OpReadOffset n off => '(res, d) ← ReadOffset f n off; mret (AnsRead res d, f)
  | OpWrite d => '(res, n, f) ← Write f d; mret (AnsWrite res n, f)
  | OpSetCapacity n => '(b, f) ← SetCapacity f n; mret (AnsBool b, f)
  | OpGetBuffered => mret (AnsSize (GetBuffered f), f)
  | OpGetWriteRemaining => mret (AnsSize (GetWriteRemaining f), f)
  | OpClose => mret (AnsVoid, Close f)
  end.

Fixpoint spec_run (os : list op) (q : queue) : list answer * queue :=
  match os with
  | [] => ([], q)
  | o :: os => let '(a, q) := spec_step o q in
               let '(l, q) := spec_run os q in (a :: l, q)
  end.

Fixpoint impl_run `{Heap} (os : list op) (f : FifoBuffer) : outcome (list answer * FifoBuffer) :=
  match os with
  | [] => mret ([], f)
  | o :: os => '(a, f) ← impl_step o f; '(l, f) ← impl_run os f; mret (a :: l, f)
  end.

(** The queue a ring stands for. *)
Definition abs (f : FifoBuffer) : queue :=
  mkQueue (bool_decide (state_ f = SS_CLOSED)) (buffer_length_ f) (readable f).

Definition simulates (f : FifoBuffer) (q : queue) : Prop := fifo_ok f /\ abs f = q.

Lemma readable_nil f : fifo_ok f -> readable f = [] <-> data_length_ f = 0.
Proof.
  intros Hok. rewrite <- (zlen_readable f Hok). split; [by intros ->|].
  destruct (readable f); [done|]. rewrite zlen_cons. pose proof (zlen_nonneg l). lia.
Qed.

Lemma readable_rotate f f' n :
  fifo_ok f -> 0 <= n <= data_length_ f -> data_length_ f' = data_length_ f - n ->
  view f' = zdrop n (view f) ++ ztake n (view f) -> readable f' = zdrop n (readable f).
Proof.
  intros Hok Hn Hd Hv. pose proof (zlen_view f Hok) as Hl. pose proof Hok as [Hdl _ _ _].
  unfold readable. rewrite Hd, Hv, ztake_app_le by (rewrite zlen_zdrop; lia).
  unfold ztake, zdrop. rewrite skipn_firstn_comm. f_equal. lia.
Qed.

Lemma readable_append f f' d :
  fifo_ok f -> data_length_ f' = data_length_ f + zlen d ->
  view f' = splice (view f) (data_length_ f) d -> readable f' = readable f ++ d.
Proof.
  intros Hok Hd Hv. pose proof (zlen_view f Hok). pose proof Hok as [Hdl _ _ _].
  unfold readable. rewrite Hd, Hv. apply ztake_splice. lia.
Qed.

(** Both readers of the readable part, in terms of the queue's items. *)
Lemma readable_slice f n off :
  fifo_ok f -> 0 <= n -> 0 <= off ->
  ztake (Z.min n (data_length_ f - off)) (zdrop off (view f)) = ztake n (zdrop off (readable f)).
Proof.
  intros Hok Hn Hoff. unfold readable, ztake, zdrop.
  rewrite skipn_firstn_comm, take_take. f_equal. lia.
Qed.

Lemma end_of_data_abs f :
  end_of_data (abs f) = if decide (state_ f = SS_CLOSED) then SR_EOS else SR_BLOCK.
Proof. unfold end_of_data, abs; cbn. by case_decide; case_bool_decide. Qed.

(** [simulated o f]: one call on the ring answers like the queue. *)
Definition simulated `{Heap} (o : op) (f : FifoBuffer) : Prop :=
  exists f', impl_step o f = Ret (fst (spec_step o (abs f)), f') /\ fifo_ok f' /\
    abs f' = snd (spec_step o (abs f)).

Lemma simulated_read `{Heap} f n : fifo_ok f -> 0 <= n -> simulated (OpRead n) f.
Proof.
  intros Hok Hn. destruct (Read_spec f n Hok Hn) as (f' & Hok' & Hs & Hc & Hcase).
  exists f'. unfold impl_step, spec_step. pose proof (readable_nil f Hok) as Hnil.
  pose proof Hok as [Hd _ _ _]. change (items (abs f)) with (readable f).
  destruct (Z.ltb_spec 0 (data_length_ f)).
  - destruct Hcase as (E & Hd' & Hv). cbv zeta in E. rewrite E. cbn.
    assert (Hr : ztake (Z.min n (data_length_ f)) (view f) = ztake n (readable f)).
    { pose proof (readable_slice f n 0 Hok Hn ltac:(lia)) as Hsl.
      by rewrite !zdrop_0, Z.sub_0_r in Hsl. }
    assert (Hrd : readable f' = zdrop n (readable f)).
    { rewrite (readable_rotate f f' (Z.min n (data_length_ f))) by (done || lia).
      destruct (Z.le_gt_cases n (data_length_ f)); [by rewrite Z.min_l by lia|].
      rewrite !zdrop_all by (rewrite zlen_readable by done; lia). done. }
    rewrite Hr. destruct (readable f) as [|b l] eqn:Er.
    { pose proof (proj1 Hnil eq_refl). lia. }
    cbn. split; [done|]. split; [done|]. unfold abs. by rewrite Hs, Hc, Hrd.
  - destruct Hcase as (E & ->). rewrite E. cbn.
    assert (Er : readable f = []) by (apply Hnil; lia). rewrite Er. cbn.
    rewrite end_of_data_abs. done.
Qed.

Lemma simulated_read_offset `{Heap} f n off :
  fifo_ok f -> 0 <= n -> 0 <= off -> simulated (OpReadOffset n off) f.
Proof.
  intros Hok Hn Hoff. exists f. unfold impl_step, spec_step.
  rewrite ReadOffset_spec by done. change (items (abs f)) with (readable f).
  destruct (Z.ltb_spec off (data_length_ f)).
  - rewrite readable_slice by done. cbn.
    destruct (zdrop off (readable f)) as [|b l] eqn:E; [|done].
    apply (f_equal zlen) in E. rewrite zlen_zdrop, zlen_readable, zlen_nil in E; try done; [lia|].
    rewrite zlen_readable by done; lia.
  - cbn. rewrite zdrop_all by (rewrite zlen_readable by done; lia). cbn.
    by rewrite end_of_data_abs.
Qed.

Lemma simulated_write `{Heap} f d : fifo_ok f -> simulated (OpWrite d) f.
Proof.
  intros Hok. destruct (Write_spec f d Hok) as (f' & Hok' & Hs & Hc & Hcase).
  exists f'. unfold impl_step, spec_step. pose proof Hok as [Hd _ _ _].
  change (items (abs f)) with (readable f). change (capacity (abs f)) with (buffer_length_ f).
  change (closed (abs f)) with (bool_decide (state_ f = SS_CLOSED)).
  rewrite zlen_readable by done. destruct (decide (state_ f = SS_CLOSED)) as [Hcl|Hcl].
  - rewrite bool_decide_true by done. destruct Hcase as [-> ->]. done.
  - rewrite bool_decide_false by done. destruct (Z.ltb_spec (data_length_ f) (buffer_length_ f)).
    + destruct Hcase as (E & Hd' & Hv). cbv zeta in E. rewrite E. cbn.
      split; [done|]. split; [done|]. unfold abs. rewrite Hs, Hc, bool_decide_false by done.
      f_equal. pose proof (zlen_nonneg d).
      apply readable_append; [done| |done]. rewrite zlen_ztake; lia.
    + destruct Hcase as [-> ->]. done.
Qed.

Lemma simulated_set_capacity `{Heap} f n :
  fifo_ok f -> 0 <= n < 2 ^ 63 -> simulated (OpSetCapacity n) f.
Proof.
  intros Hok Hn. destruct (SetCapacity_spec f n Hok Hn) as (f' & Hok' & Hs & Hd & Hr & Hcase).
  exists f'. unfold impl_step, spec_step. change (items (abs f)) with (readable f).
  rewrite zlen_readable by done. destruct (Z.leb_spec (data_length_ f) n).
  - destruct Hcase as [-> Hc]. cbn. split; [done|]. split; [done|].
    unfold abs. by rewrite Hs, Hc, Hr.
  - destruct Hcase as [-> ->]. done.
Qed.

Lemma step_simulates `{Heap} o f : fifo_ok f -> legal o -> simulated o f.
Proof.
  intros Hok Hl. destruct o; cbn in Hl.
  - by apply simulated_read.
  - destruct Hl. by apply simulated_read_offset.
  - by apply simulated_write.
  - by apply simulated_set_capacity.
  - exists f. cbn. by rewrite zlen_readable.
  - exists f. cbn. rewrite zlen_readable by done. pose proof Hok as [? ? ? ?].
    unfold GetWriteRemaining. by rewrite wrap64_small by lia.
  - exists (Close f). cbn. split; [done|]. split; [by destruct Hok; constructor|].
    unfold abs; cbn. f_equal; by apply bool_decide_true.
Qed.

Lemma fresh_ok `{Heap} size :
  0 <= size < 2 ^ 63 -> fifo_ok (FifoBuffer_new size) /\
  abs (FifoBuffer_new size) = mkQueue false size [].
Proof. intros. split; [|done]. constructor; cbn; try lia. by apply fresh_length; lia. Qed.

(** C7: FifoBuffer refines a bounded byte queue: any sequence of calls
    on a new ring of any capacity answers exactly what the queue answers, none of
    them crashes (no copy leaves the array, no division by zero), and the
    ring ends in a legal state that stands for the queue's final state. *)
Theorem fifo_refines_queue `{Heap} (size : Z) (os : list op) :
  0 <= size < 2 ^ 63 -> Forall legal os ->
  exists f', impl_run os (FifoBuffer_new size) =
               Ret (fst (spec_run os (mkQueue false size [])), f') /\
    simulates f' (snd (spec_run os (mkQueue false size []))).
Proof.
  intros Hs Hl. destruct (fresh_ok size Hs) as [Hok <-].
  revert Hok. generalize (FifoBuffer_new size) as f.
  induction Hl as [|o os Ho Hos IH]; intros f Hok; [by exists f|].
  destruct (step_simulates o f Hok Ho) as (f1 & E & Hok1 & Ha). cbn. rewrite E. cbn.
  destruct (spec_step o (abs f)) as [a q]; cbn in *. subst q.
  destruct (IH f1 Hok1) as (f' & E' & Hsim). rewrite E'. cbn.
  destruct (spec_run os (abs f1)); cbn in *. by exists f'.
Qed.

Definition example_ops : list op :=
  [OpWrite [Byte.x01; Byte.x02; Byte.x03]; OpRead 2; OpWrite [Byte.x04; Byte.x05; Byte.x06];
   OpSetCapacity 8; OpReadOffset 2 1; OpClose; OpRead 9; OpRead 1].

Lemma fifo_refines_queue_witness :
  let H := filled_heap Byte.xff in
  exists f', impl_run example_ops (FifoBuffer_new 4) =
               Ret (fst (spec_run example_ops (mkQueue false 4 [])), f') /\
    simulates f' (snd (spec_run example_ops (mkQueue false 4 []))).
Proof.
  intros H. apply (fifo_refines_queue 4 example_ops); [lia|].
  repeat constructor; cbn; lia.
Defined.

End Queue.
