(* ===== verification/TcpState.v ===== *)
(** * network/stun/pseudo_tcp.{h,cc}: constants, state and environment

    The record [PseudoTcp] has the members of the class (all but [m_notify],
    which is the environment below); every [uint32_t] is a [Z] and wraps where
    the code lets it wrap.  The operations run in a monad [M] whose state is
    the object and its environment and which may crash ([outcome]).

    The environment is the interface [IPseudoTcpNotify] of the header together
    with the clock [Now]: what the network and the application do in
    [TcpWritePacket] and in the [OnTcp...] notifications is not under src/,
    so it is an instance of the class [IPseudoTcpNotify].  A notification may
    call back into the object. *)

From Stdlib Require Import ZArith Lia.
From S2P Require Import Prelude ByteOrder FifoBuffer.

(** ** Constants *)

(** Standard MTUs, with the end-of-list marker. *)
Definition PACKET_MAXIMUMS : list Z :=
  [65535; 32000; 17914; 8166; 4352; 2002; 1492; 1006; 508; 296; 0].

Definition MAX_PACKET : Z := 65535.
Definition MIN_PACKET : Z := 296.
Definition IP_HEADER_SIZE : Z := 20.
Definition UDP_HEADER_SIZE : Z := 8.
Definition JINGLE_HEADER_SIZE : Z := 64.
Definition DEFAULT_RCV_BUF_SIZE : Z := 60 * 1024.
Definition DEFAULT_SND_BUF_SIZE : Z := 90 * 1024.
Definition HEADER_SIZE : Z := 24.
Definition PACKET_OVERHEAD : Z :=
  HEADER_SIZE + UDP_HEADER_SIZE + IP_HEADER_SIZE + JINGLE_HEADER_SIZE.
Definition MIN_RTO : Z := 250.
Definition DEF_RTO : Z := 3000.
Definition MAX_RTO : Z := 60000.
Definition DEF_ACK_DELAY : Z := 100.
Definition FLAG_CTL : Z := 0x02.
Definition FLAG_RST : Z := 0x04.
Definition CTL_CONNECT : Z := 0.
Definition TCP_OPT_EOL : Z := 0.
Definition TCP_OPT_NOOP : Z := 1.
Definition TCP_OPT_MSS : Z := 2.
Definition TCP_OPT_WND_SCALE : Z := 3.
Definition DEFAULT_TIMEOUT : Z := 4000.
Definition CLOSED_TIMEOUT : Z := 60 * 1000.

(** The numbers behind the names, for [lia]. *)
Ltac consts :=
  unfold PACKET_OVERHEAD, MAX_PACKET, MIN_PACKET, HEADER_SIZE, UDP_HEADER_SIZE, IP_HEADER_SIZE,
    JINGLE_HEADER_SIZE, MIN_RTO, MAX_RTO, DEF_RTO, DEFAULT_RCV_BUF_SIZE,
    DEFAULT_SND_BUF_SIZE in *.

(** <errno.h> *)
Definition EWOULDBLOCK : Z := 11.
Definition EINVAL : Z := 22.
Definition ECONNABORTED : Z := 103.
Definition ECONNRESET : Z := 104.
Definition ENOTCONN : Z := 107.

(** ** Types of the header *)

Inductive WriteResult : Type := WR_SUCCESS | WR_TOO_LARGE | WR_FAIL.
Inductive TcpState : Type :=
  TCP_LISTEN | TCP_SYN_SENT | TCP_SYN_RECEIVED | TCP_ESTABLISHED | TCP_CLOSED.
Inductive TcpOption : Type := OPT_NODELAY | OPT_ACKDELAY | OPT_RCVBUF | OPT_SNDBUF.
Inductive SendFlags : Type := sfNone | sfDelayedAck | sfImmediateAck.
Inductive Shutdown : Type := SD_NONE | SD_GRACEFUL | SD_FORCEFUL.

#[export] Instance WriteResult_eq_dec : EqDecision WriteResult.
Proof. solve_decision. Defined.
#[export] Instance TcpState_eq_dec : EqDecision TcpState.
Proof. solve_decision. Defined.
#[export] Instance SendFlags_eq_dec : EqDecision SendFlags.
Proof. solve_decision. Defined.
#[export] Instance Shutdown_eq_dec : EqDecision Shutdown.
Proof. solve_decision. Defined.

(** The order of the enumerators ([m_state < TCP_ESTABLISHED]). *)
Definition TcpState_num (s : TcpState) : Z :=
  match s with
  | TCP_LISTEN => 0 | TCP_SYN_SENT => 1 | TCP_SYN_RECEIVED => 2
  | TCP_ESTABLISHED => 3 | TCP_CLOSED => 4
  end.

(** A received segment; [seg_data] is what the pointer [data] points to. *)
Record Segment : Type := mkSegment {
  seg_conv : Z; seg_seq : Z; seg_ack : Z; seg_flags : Z; seg_wnd : Z;
  seg_data : list byte; seg_len : Z; seg_tsval : Z; seg_tsecr : Z
}.

(** A segment of the send queue and one of the out-of-order receive list. *)
Record SSegment : Type := mkSSegment {
  s_seq : Z; s_len : Z; s_xmit : Z; s_bCtrl : bool
}.
Record RSegment : Type := mkRSegment { r_seq : Z; r_len : Z }.

Record PseudoTcp : Type := mkPseudoTcp {
  m_shutdown : Shutdown;
  m_error : Z;
  m_state : TcpState;
  m_conv : Z;
  m_bReadEnable : bool;
  m_bWriteEnable : bool;
  m_bOutgoing : bool;
  m_lasttraffic : Z;
  m_rlist : list RSegment;
  m_rbuf_len : Z;
  m_rcv_nxt : Z;
  m_rcv_wnd : Z;
  m_lastrecv : Z;
  m_rwnd_scale : Z;
  m_rbuf : FifoBuffer;
  m_slist : list SSegment;
  m_sbuf_len : Z;
  m_snd_nxt : Z;
  m_snd_wnd : Z;
  m_lastsend : Z;
  m_snd_una : Z;
  m_swnd_scale : Z;
  m_sbuf : FifoBuffer;
  m_mss : Z;
  m_msslevel : Z;
  m_largest : Z;
  m_mtu_advise : Z;
  m_rto_base : Z;
  m_ts_recent : Z;
  m_ts_lastack : Z;
  m_rx_rttvar : Z;
  m_rx_srtt : Z;
  m_rx_rto : Z;
  m_ssthresh : Z;
  m_cwnd : Z;
  m_dup_acks : Z;
  m_recover : Z;
  m_t_ack : Z;
  m_use_nagling : bool;
  m_ack_delay : Z;
  m_support_wnd_scale : bool
}.

(** Assignment to a member: [set_m_cwnd v t] is [t] after [m_cwnd = v]. *)
Definition members (t : PseudoTcp) : PseudoTcp :=
  mkPseudoTcp
    (m_shutdown t) (m_error t) (m_state t) (m_conv t) (m_bReadEnable t) (m_bWriteEnable t)
    (m_bOutgoing t) (m_lasttraffic t) (m_rlist t) (m_rbuf_len t) (m_rcv_nxt t) (m_rcv_wnd t)
    (m_lastrecv t) (m_rwnd_scale t) (m_rbuf t) (m_slist t) (m_sbuf_len t) (m_snd_nxt t)
    (m_snd_wnd t) (m_lastsend t) (m_snd_una t) (m_swnd_scale t) (m_sbuf t) (m_mss t)
    (m_msslevel t) (m_largest t) (m_mtu_advise t) (m_rto_base t) (m_ts_recent t)
    (m_ts_lastack t) (m_rx_rttvar t) (m_rx_srtt t) (m_rx_rto t) (m_ssthresh t) (m_cwnd t)
    (m_dup_acks t) (m_recover t) (m_t_ack t) (m_use_nagling t) (m_ack_delay t)
    (m_support_wnd_scale t).

Ltac assign t member v :=
  let e := eval cbv beta delta [members] in (members t) in
  match e with
  | context C [member t] => let e' := context C [v] in exact e'
  end.

Definition set_m_shutdown (v : Shutdown) (t : PseudoTcp) : PseudoTcp := ltac:(assign t m_shutdown v).
Definition set_m_error (v : Z) (t : PseudoTcp) : PseudoTcp := ltac:(assign t m_error v).
Definition set_m_state (v : TcpState) (t : PseudoTcp) : PseudoTcp := ltac:(assign t m_state v).
Definition set_m_conv (v : Z) (t : PseudoTcp) : PseudoTcp := ltac:(assign t m_conv v).
Definition set_m_bReadEnable (v : bool) (t : PseudoTcp) : PseudoTcp := ltac:(assign t m_bReadEnable v).
Definition set_m_bWriteEnable (v : bool) (t : PseudoTcp) : PseudoTcp := ltac:(assign t m_bWriteEnable v).
Definition set_m_bOutgoing (v : bool) (t : PseudoTcp) : PseudoTcp := ltac:(assign t m_bOutgoing v).
Definition set_m_lasttraffic (v : Z) (t : PseudoTcp) : PseudoTcp := ltac:(assign t m_lasttraffic v).
Definition set_m_rlist (v : list RSegment) (t : PseudoTcp) : PseudoTcp := ltac:(assign t m_rlist v).
Definition set_m_rbuf_len (v : Z) (t : PseudoTcp) : PseudoTcp := ltac:(assign t m_rbuf_len v).
Definition set_m_rcv_nxt (v : Z) (t : PseudoTcp) : PseudoTcp := ltac:(assign t m_rcv_nxt v).
Definition set_m_rcv_wnd (v : Z) (t : PseudoTcp) : PseudoTcp := ltac:(assign t m_rcv_wnd v).
Definition set_m_lastrecv (v : Z) (t : PseudoTcp) : PseudoTcp := ltac:(assign t m_lastrecv v).
Definition set_m_rwnd_scale (v : Z) (t : PseudoTcp) : PseudoTcp := ltac:(assign t m_rwnd_scale v).
Definition set_m_rbuf (v : FifoBuffer) (t : PseudoTcp) : PseudoTcp := ltac:(assign t m_rbuf v).
Definition set_m_slist (v : list SSegment) (t : PseudoTcp) : PseudoTcp := ltac:(assign t m_slist v).
Definition set_m_sbuf_len (v : Z) (t : PseudoTcp) : PseudoTcp := ltac:(assign t m_sbuf_len v).
Definition set_m_snd_nxt (v : Z) (t : PseudoTcp) : PseudoTcp := ltac:(assign t m_snd_nxt v).
Definition set_m_snd_wnd (v : Z) (t : PseudoTcp) : PseudoTcp := ltac:(assign t m_snd_wnd v).
Definition set_m_lastsend (v : Z) (t : PseudoTcp) : PseudoTcp := ltac:(assign t m_lastsend v).
Definition set_m_snd_una (v : Z) (t : PseudoTcp) : PseudoTcp := ltac:(assign t m_snd_una v).
Definition set_m_swnd_scale (v : Z) (t : PseudoTcp) : PseudoTcp := ltac:(assign t m_swnd_scale v).
Definition set_m_sbuf (v : FifoBuffer) (t : PseudoTcp) : PseudoTcp := ltac:(assign t m_sbuf v).
Definition set_m_mss (v : Z) (t : PseudoTcp) : PseudoTcp := ltac:(assign t m_mss v).
Definition set_m_msslevel (v : Z) (t : PseudoTcp) : PseudoTcp := ltac:(assign t m_msslevel v).
Definition set_m_largest (v : Z) (t : PseudoTcp) : PseudoTcp := ltac:(assign t m_largest v).
Definition set_m_mtu_advise (v : Z) (t : PseudoTcp) : PseudoTcp := ltac:(assign t m_mtu_advise v).
Definition set_m_rto_base (v : Z) (t : PseudoTcp) : PseudoTcp := ltac:(assign t m_rto_base v).
Definition set_m_ts_recent (v : Z) (t : PseudoTcp) : PseudoTcp := ltac:(assign t m_ts_recent v).
Definition set_m_ts_lastack (v : Z) (t : PseudoTcp) : PseudoTcp := ltac:(assign t m_ts_lastack v).
Definition set_m_rx_rttvar (v : Z) (t : PseudoTcp) : PseudoTcp := ltac:(assign t m_rx_rttvar v).
Definition set_m_rx_srtt (v : Z) (t : PseudoTcp) : PseudoTcp := ltac:(assign t m_rx_srtt v).
Definition set_m_rx_rto (v : Z) (t : PseudoTcp) : PseudoTcp := ltac:(assign t m_rx_rto v).
Definition set_m_ssthresh (v : Z) (t : PseudoTcp) : PseudoTcp := ltac:(assign t m_ssthresh v).
Definition set_m_cwnd (v : Z) (t : PseudoTcp) : PseudoTcp := ltac:(assign t m_cwnd v).
Definition set_m_dup_acks (v : Z) (t : PseudoTcp) : PseudoTcp := ltac:(assign t m_dup_acks v).
Definition set_m_recover (v : Z) (t : PseudoTcp) : PseudoTcp := ltac:(assign t m_recover v).
Definition set_m_t_ack (v : Z) (t : PseudoTcp) : PseudoTcp := ltac:(assign t m_t_ack v).
Definition set_m_use_nagling (v : bool) (t : PseudoTcp) : PseudoTcp := ltac:(assign t m_use_nagling v).
Definition set_m_ack_delay (v : Z) (t : PseudoTcp) : PseudoTcp := ltac:(assign t m_ack_delay v).
Definition set_m_support_wnd_scale (v : bool) (t : PseudoTcp) : PseudoTcp := ltac:(assign t m_support_wnd_scale v).

(** ** The environment *)

Class IPseudoTcpNotify (E : Type) : Type := {
  (** [Time32()]: milliseconds, 32 bits *)
  env_Now : E -> Z * E;
  env_TcpWritePacket : list byte -> E -> WriteResult * E;
  env_OnTcpOpen : E * PseudoTcp -> outcome (E * PseudoTcp);
  env_OnTcpReadable : E * PseudoTcp -> outcome (E * PseudoTcp);
  env_OnTcpWriteable : E * PseudoTcp -> outcome (E * PseudoTcp);
  env_OnTcpClosed : Z -> E * PseudoTcp -> outcome (E * PseudoTcp);
  env_Now_range e : 0 <= fst (env_Now e) < 2 ^ 32
}.

(** ** The monad of the operations *)

Definition M (E A : Type) : Type := E * PseudoTcp -> outcome (A * (E * PseudoTcp)).

#[export] Instance M_ret {E} : MRet (M E) := fun A a s => Ret (a, s).
#[export] Instance M_bind {E} : MBind (M E) := fun A B k m s =>
  match m s with Ret (a, s') => k a s' | Crash f => Crash f end.

Definition get {E} : M E PseudoTcp := fun s => Ret (snd s, s).
Definition upd {E} (f : PseudoTcp -> PseudoTcp) : M E unit := fun '(e, t) => Ret (tt, (e, f t)).
Definition lift {E A} (o : outcome A) : M E A := fun s =>
  match o with Ret a => Ret (a, s) | Crash f => Crash f end.
Definition assertM {E} (b : bool) : M E unit := lift (assert_that b).
Definition when {E} (b : bool) (m : M E unit) : M E unit := if b then m else mret tt.

Section Environment.
Context {E : Type} `{IPseudoTcpNotify E}.
Definition Now : M E Z := fun '(e, t) => let '(n, e) := env_Now e in Ret (n, (e, t)).
Definition TcpWritePacket (buffer : list byte) : M E WriteResult := fun '(e, t) =>
  let '(r, e) := env_TcpWritePacket buffer e in Ret (r, (e, t)).
Definition notify (f : E * PseudoTcp -> outcome (E * PseudoTcp)) : M E unit := fun s =>
  match f s with Ret s' => Ret (tt, s') | Crash f => Crash f end.
Definition OnTcpOpen : M E unit := notify env_OnTcpOpen.
Definition OnTcpReadable : M E unit := notify env_OnTcpReadable.
Definition OnTcpWriteable : M E unit := notify env_OnTcpWriteable.
Definition OnTcpClosed (err : Z) : M E unit := notify (env_OnTcpClosed err).
End Environment.

(** *** Reasoning about operations: [wp m s Q] says that [m], started in [s],
    returns and that its result and final state satisfy [Q]. *)
Definition wp {E A} (m : M E A) (s : E * PseudoTcp) (Q : A -> E * PseudoTcp -> Prop) : Prop :=
  post (m s) (fun '(a, s') => Q a s').

Section Wp.
Context {E : Type}.
Implicit Types s : E * PseudoTcp.

Lemma wp_ret {A} (a : A) s Q : Q a s -> wp (mret a) s Q.
Proof. done. Qed.

Lemma wp_bind {A B} (m : M E A) (k : A -> M E B) s Q :
  wp m s (fun a s' => wp (k a) s' Q) -> wp (m ≫= k) s Q.
Proof. unfold wp, mbind, M_bind. by destruct (m s) as [[a s']|f]. Qed.

Lemma wp_mono {A} (m : M E A) s (P Q : A -> E * PseudoTcp -> Prop) :
  wp m s P -> (forall a s', P a s' -> Q a s') -> wp m s Q.
Proof. unfold wp. intros H HPQ. eapply post_mono; [done|]. intros [a s']. apply HPQ. Qed.

Lemma wp_and {A} (m : M E A) s (P Q : A -> E * PseudoTcp -> Prop) :
  wp m s P -> wp m s Q -> wp m s (fun a s' => P a s' /\ Q a s').
Proof. unfold wp. by destruct (m s) as [[a s']|]. Qed.

Lemma wp_get s Q : Q (snd s) s -> wp get s Q.
Proof. done. Qed.

Lemma wp_upd f (e : E) t Q : Q tt (e, f t) -> wp (upd f) (e, t) Q.
Proof. done. Qed.

Lemma wp_lift {A} (o : outcome A) s Q : post o (fun a => Q a s) -> wp (lift o) s Q.
Proof. by destruct o. Qed.

Lemma wp_lift_ret {A} (o : outcome A) a s Q : o = Ret a -> Q a s -> wp (lift o) s Q.
Proof. by intros ->. Qed.

Lemma wp_assert b s Q : b = true -> Q tt s -> wp (assertM b) s Q.
Proof. by intros ->. Qed.

Lemma wp_when b (m : M E unit) s Q :
  (b = true -> wp m s Q) -> (b = false -> Q tt s) -> wp (when b m) s Q.
Proof. destruct b; cbn; auto. Qed.

Lemma wp_if {A} (b : bool) (m1 m2 : M E A) s Q :
  (b = true -> wp m1 s Q) -> (b = false -> wp m2 s Q) -> wp (if b then m1 else m2) s Q.
Proof. destruct b; auto. Qed.
End Wp.

(** One step of symbolic execution: sequencing, state access, assignment. *)
Ltac wp_step :=
  match goal with
  | |- wp (mbind _ _) _ _ => apply wp_bind
  | |- wp get _ _ => apply wp_get; cbn [snd]
  | |- wp (upd _) (_, _) _ => apply wp_upd
  | |- wp (mret _) _ _ => apply wp_ret
  end.
Ltac wp_run := repeat (wp_step; cbv beta).

(** ** Arithmetic of the code *)

(** base/time_utils.cc *)
Definition TimeDiff32 (later earlier : Z) : Z := to_int32 (later - earlier).

(** [x << n] on [uint32_t]: a shift by 32 or more is undefined. *)
Definition shl32 (x n : Z) : outcome Z :=
  if n <? 32 then Ret (wrap32 (Z.shiftl x n)) else Crash UndefinedBehaviour.

Definition long_to_bytes (val : Z) (buf : list byte) (off : Z) : outcome (list byte) :=
  mem_write buf off (store host_order 4 (HostToNetwork32 host_order val)).
Definition short_to_bytes (val : Z) (buf : list byte) (off : Z) : outcome (list byte) :=
  mem_write buf off (store host_order 2 (HostToNetwork16 host_order val)).
Definition bytes_to_long (buf : list byte) (off : Z) : outcome Z :=
  d ← mem_read buf off 4; mret (NetworkToHost32 host_order (load host_order d)).
Definition bytes_to_short (buf : list byte) (off : Z) : outcome Z :=
  d ← mem_read buf off 2; mret (NetworkToHost16 host_order (load host_order d)).

(** ** An environment to run examples in *)

(** The time, the packets sent, and what the application has received. *)
Record recorder : Type := mkRecorder {
  rec_time : Z; rec_sent : list (list byte); rec_taken : list byte
}.

#[export] Instance recorder_notify : IPseudoTcpNotify recorder := {|
  env_Now e := (wrap32 (rec_time e), e);
  env_TcpWritePacket p e :=
    (WR_SUCCESS, mkRecorder (rec_time e) (rec_sent e ++ [p]) (rec_taken e));
  env_OnTcpOpen s := Ret s;
  env_OnTcpReadable s := Ret s;
  env_OnTcpWriteable s := Ret s;
  env_OnTcpClosed _ s := Ret s;
  env_Now_range e := wrap32_range (rec_time e) |}.
