(* ===== verification/PseudoTcp.v ===== *)
(** * network/stun/pseudo_tcp.cc: the operations of PseudoTcp

    One definition per member function.  The long functions ([process],
    [NotifyClock], [attemptSend], [transmit]) are cut at their comment
    boundaries and composed as the code composes them; an early
    [return false] of [process] is the answer [false] (or [None]) of its
    block.  An iterator into [m_slist] is an index into the list.

    Loops that are not structural take fuel: [transmit] lowers [m_msslevel]
    in every round that repeats, so [MSS_LEVELS] rounds are enough, and every
    round of [attemptSend] puts unsent bytes in flight or sends an empty
    segment, so one round more than the bytes buffered and the segments
    queued is enough; the option parser consumes a byte in every round and
    the scale loop halves a 32-bit number. *)

From Stdlib Require Import ZArith Lia.
From S2P Require Import Prelude ByteOrder ConstBuffer ByteBuffer FifoBuffer TcpState.

Definition MSS_LEVELS : nat := 12.

Section Operations.
Context {E : Type} `{IPseudoTcpNotify E} `{Heap}.

(** The buffer class of the [ByteBufferWriter] in [queueConnectMessage]. *)
#[local] Instance writer_class : BufferClass BufferT := BufferT_class false.

(** ** Construction and accessors *)

(** The members as the constructor sets them. *)
Definition PseudoTcp_init (conv now : Z) : PseudoTcp :=
  let m_rbuf_len := DEFAULT_RCV_BUF_SIZE in
  let m_sbuf_len := DEFAULT_SND_BUF_SIZE in
  let mss := MIN_PACKET - PACKET_OVERHEAD in
  {|
    m_shutdown := SD_NONE; m_error := 0; m_state := TCP_LISTEN; m_conv := conv;
    m_bReadEnable := true; m_bWriteEnable := false; m_bOutgoing := false;
    m_lasttraffic := now;
    m_rlist := []; m_rbuf_len := m_rbuf_len; m_rcv_nxt := 0; m_rcv_wnd := m_rbuf_len;
    m_lastrecv := now; m_rwnd_scale := 0; m_rbuf := FifoBuffer_new m_rbuf_len;
    m_slist := []; m_sbuf_len := m_sbuf_len; m_snd_nxt := 0; m_snd_wnd := 1;
    m_lastsend := now; m_snd_una := 0; m_swnd_scale := 0; m_sbuf := FifoBuffer_new m_sbuf_len;
    m_mss := mss; m_msslevel := 0; m_largest := 0; m_mtu_advise := MAX_PACKET;
    m_rto_base := 0; m_ts_recent := 0; m_ts_lastack := 0;
    m_rx_rttvar := 0; m_rx_srtt := 0; m_rx_rto := DEF_RTO;
    m_ssthresh := m_rbuf_len; m_cwnd := wrap32 (2 * mss);
    m_dup_acks := 0; m_recover := 0; m_t_ack := 0;
    m_use_nagling := true; m_ack_delay := DEF_ACK_DELAY; m_support_wnd_scale := true |}.

(** The constructor, with its two assertions. *)
Definition PseudoTcp_new (conv now : Z) : outcome PseudoTcp :=
  assert_that (DEFAULT_RCV_BUF_SIZE + MIN_PACKET <? DEFAULT_SND_BUF_SIZE);;
  assert_that (PACKET_OVERHEAD <? MIN_PACKET);;
  mret (PseudoTcp_init conv now).

Definition GetCongestionWindow (t : PseudoTcp) : Z := m_cwnd t.
Definition GetBytesInFlight (t : PseudoTcp) : Z := wrap32 (m_snd_nxt t - m_snd_una t).
Definition GetBytesBufferedNotSent (t : PseudoTcp) : Z :=
  wrap32 (m_snd_una t + GetBuffered (m_sbuf t) - m_snd_nxt t).
Definition GetRoundTripTimeEstimateMs (t : PseudoTcp) : Z := m_rx_srtt t.
Definition GetError (t : PseudoTcp) : Z := m_error t.
Definition isReceiveBufferFull (t : PseudoTcp) : bool := GetWriteRemaining (m_rbuf t) =? 0.
Definition disableWindowScale : M E unit := upd (set_m_support_wnd_scale false).

Definition GetOption (opt : TcpOption) (t : PseudoTcp) : Z :=
  match opt with
  | OPT_NODELAY => if m_use_nagling t then 0 else 1
  | OPT_ACKDELAY => to_int32 (m_ack_delay t)
  | OPT_SNDBUF => to_int32 (m_sbuf_len t)
  | OPT_RCVBUF => to_int32 (m_rbuf_len t)
  end.

(** ** Sending packets *)

Definition queue (data : list byte) (len : Z) (bCtrl : bool) : M E Z :=
  t ← get;
  let available_space := GetWriteRemaining (m_sbuf t) in
  len ← (if len >? wrap32 available_space
         then assertM (negb bCtrl);; mret (wrap32 available_space) else mret len);
  (match m_slist t !! pred (length (m_slist t)) with
   | Some b =>
       if bool_decide (s_bCtrl b = bCtrl) && (s_xmit b =? 0) then
         upd (set_m_slist (removelast (m_slist t) ++
           [mkSSegment (s_seq b) (wrap32 (s_len b + len)) (s_xmit b) (s_bCtrl b)]))
       else upd (set_m_slist (m_slist t ++
           [mkSSegment (wrap32 (m_snd_una t + GetBuffered (m_sbuf t))) len 0 bCtrl]))
   | None => upd (set_m_slist (m_slist t ++
           [mkSSegment (wrap32 (m_snd_una t + GetBuffered (m_sbuf t))) len 0 bCtrl]))
   end);;
  d ← lift (mem_read data 0 len);
  '(_, written, sbuf) ← lift (FifoBuffer.Write (m_sbuf t) d);
  upd (set_m_sbuf sbuf);;
  mret (wrap32 written).

(** The header of a packet, written into a fresh block of [MAX_PACKET] bytes. *)
Definition packet_header (t : PseudoTcp) (now seq flags : Z) : outcome (list byte) :=
  let buffer := fresh MAX_PACKET in
  buffer ← long_to_bytes (m_conv t) buffer 0;
  buffer ← long_to_bytes seq buffer 4;
  buffer ← long_to_bytes (m_rcv_nxt t) buffer 8;
  buffer ← mem_write buffer 12 [Byte.x00];
  buffer ← mem_write buffer 13 [byte.of_Z flags];
  buffer ← short_to_bytes (wrap16 (Z.shiftr (m_rcv_wnd t) (m_rwnd_scale t))) buffer 14;
  buffer ← long_to_bytes now buffer 16;
  long_to_bytes (m_ts_recent t) buffer 20.

(** The payload is read from [m_sbuf] behind the header. *)
Definition packet_payload (t : PseudoTcp) (buffer : list byte) (offset len : Z)
    : outcome (list byte) :=
  if len =? 0 then mret buffer else
  '(result, d) ← ReadOffset (m_sbuf t) len offset;
  buffer ← mem_write buffer HEADER_SIZE d;
  assert_that (bool_decide (result = SR_SUCCESS));;
  assert_that (wrap32 (zlen d) =? len);;
  mret buffer.

Definition packet (seq flags offset len : Z) : M E WriteResult :=
  assertM (wrap32 (HEADER_SIZE + len) <=? MAX_PACKET);;
  now ← Now;
  t ← get;
  buffer ← lift (packet_header t now seq flags);
  upd (set_m_ts_lastack (m_rcv_nxt t));;
  buffer ← lift (packet_payload t buffer offset len);
  out ← lift (mem_read buffer 0 (wrap32 (len + HEADER_SIZE)));
  wres ← TcpWritePacket out;
  if bool_decide (wres <> WR_SUCCESS) && negb (len =? 0) then mret wres else
  upd (set_m_t_ack 0);;
  when (0 <? len) (upd (set_m_lastsend now));;
  upd (set_m_lasttraffic now);;
  upd (set_m_bOutgoing true);;
  mret WR_SUCCESS.

Definition closedown (err : Z) : M E unit :=
  upd (set_m_state TCP_CLOSED);;
  OnTcpClosed err.

(** ** [transmit] *)

(** Dereferencing an iterator. *)
Definition slist_at (t : PseudoTcp) (seg : nat) : M E SSegment :=
  lift (match m_slist t !! seg with Some s => Ret s | None => Crash OutOfBounds end).

Definition PACKET_MAXIMUM (i : Z) : outcome Z :=
  match zget PACKET_MAXIMUMS i with Some p => Ret p | None => Crash OutOfBounds end.

(** The inner loop: lower the MTU level until the segment size shrinks.
    [None] is [return false] ("MTU too small"). *)
Fixpoint lower_mss (fuel : nat) (nTransmit : Z) : M E (option Z) :=
  match fuel with
  | O => lift (Crash FuelExhausted)
  | S fuel =>
      t ← get;
      next ← lift (PACKET_MAXIMUM (m_msslevel t + 1));
      if next =? 0 then mret None else
      upd (set_m_msslevel (m_msslevel t + 1));;
      let mss := wrap32 (next - PACKET_OVERHEAD) in
      upd (set_m_mss mss);;
      upd (set_m_cwnd (wrap32 (2 * mss)));;
      if mss <? nTransmit then mret (Some mss) else lower_mss fuel nTransmit
  end.

(** The outer loop: [Some n] when [n] bytes of the segment went out. *)
Fixpoint transmit_loop (fuel : nat) (seg : nat) (nTransmit : Z) : M E (option Z) :=
  match fuel with
  | O => lift (Crash FuelExhausted)
  | S fuel =>
      t ← get;
      s ← slist_at t seg;
      let flags := if s_bCtrl s then FLAG_CTL else 0 in
      wres ← packet (s_seq s) flags (wrap32 (s_seq s - m_snd_una t)) nTransmit;
      match wres with
      | WR_SUCCESS => mret (Some nTransmit)
      | WR_FAIL => mret None
      | WR_TOO_LARGE =>
          n ← lower_mss MSS_LEVELS nTransmit;
          match n with
          | None => mret None
          | Some n => transmit_loop fuel seg n
          end
      end
  end.

Definition set_at (seg : nat) (s : SSegment) (l : list SSegment) : list SSegment := <[seg := s]> l.
Definition insert_after (seg : nat) (s : SSegment) (l : list SSegment) : list SSegment :=
  take (S seg) l ++ [s] ++ drop (S seg) l.

(** The parts after the loop: split the segment where the packet ended, ... *)
Definition transmit_split (seg : nat) (nTransmit : Z) : M E unit :=
  t ← get;
  s ← slist_at t seg;
  if nTransmit <? s_len s then
    let subseg := mkSSegment (wrap32 (s_seq s + nTransmit)) (wrap32 (s_len s - nTransmit))
                    (s_xmit s) (s_bCtrl s) in
    upd (set_m_slist (insert_after seg subseg
      (set_at seg (mkSSegment (s_seq s) nTransmit (s_xmit s) (s_bCtrl s)) (m_slist t))))
  else mret tt.

(** ... count the transmission and start the timer. *)
Definition transmit_count (seg : nat) (now : Z) : M E unit :=
  t ← get;
  s ← slist_at t seg;
  when (s_xmit s =? 0) (upd (set_m_snd_nxt (wrap32 (m_snd_nxt t + s_len s))));;
  upd (set_m_slist (set_at seg
    (mkSSegment (s_seq s) (s_len s) (wrap8 (s_xmit s + 1)) (s_bCtrl s)) (m_slist t)));;
  when (m_rto_base t =? 0) (upd (set_m_rto_base now)).

Definition transmit (seg : nat) (now : Z) : M E bool :=
  t ← get;
  s ← slist_at t seg;
  if s_xmit s >=? (if decide (m_state t = TCP_ESTABLISHED) then 15 else 30) then mret false else
  n ← transmit_loop MSS_LEVELS seg (Z.min (s_len s) (m_mss t));
  match n with
  | None => mret false
  | Some n => transmit_split seg n;; transmit_count seg now;; mret true
  end.

(** ** [attemptSend] *)

(** Find the next segment to transmit: the first with [xmit] zero.  The
    iterator is dereferenced before the [assert] sees the end of the list. *)
Fixpoint find_unsent (l : list SSegment) (i : nat) : outcome nat :=
  match l with
  | [] => Crash OutOfBounds
  | s :: l =>
      if 0 <? s_xmit s
      then match l with [] => Crash AssertionFailed | _ => find_unsent l (S i) end
      else Ret i
  end.

(** How many bytes may be sent now. *)
Definition send_available (t : PseudoTcp) : Z :=
  let cwnd := if (m_dup_acks t =? 1) || (m_dup_acks t =? 2)
              then wrap32 (m_cwnd t + m_dup_acks t * m_mss t) else m_cwnd t in
  let nWindow := Z.min (m_snd_wnd t) cwnd in
  let nInFlight := wrap32 (m_snd_nxt t - m_snd_una t) in
  let nUseable := if nInFlight <? nWindow then nWindow - nInFlight else 0 in
  let nAvailable := Z.min (wrap32 (wrap32 (GetBuffered (m_sbuf t)) - nInFlight)) (m_mss t) in
  if nAvailable >? nUseable
  then if wrap32 (nUseable * 4) <? nWindow then 0 else nUseable
  else nAvailable.

Fixpoint attemptSend_loop (fuel : nat) (now : Z) (sflags : SendFlags) : M E unit :=
  match fuel with
  | O => lift (Crash FuelExhausted)
  | S fuel =>
      t ← get;
      let nAvailable := send_available t in
      if nAvailable =? 0 then
        match sflags with
        | sfNone => mret tt
        | _ =>
            if bool_decide (sflags = sfImmediateAck) || negb (m_t_ack t =? 0)
            then packet (m_snd_nxt t) 0 0 0;; mret tt
            else n ← Now; upd (set_m_t_ack n)
        end
      else if m_use_nagling t && (m_snd_nxt t >? m_snd_una t) && (nAvailable <? m_mss t)
      then mret tt
      else
        seg ← lift (find_unsent (m_slist t) 0);
        s ← slist_at t seg;
        (if s_len s >? nAvailable then
           let subseg := mkSSegment (wrap32 (s_seq s + nAvailable))
                           (wrap32 (s_len s - nAvailable)) 0 (s_bCtrl s) in
           upd (set_m_slist (insert_after seg subseg
             (set_at seg (mkSSegment (s_seq s) nAvailable (s_xmit s) (s_bCtrl s)) (m_slist t))))
         else mret tt);;
        ok ← transmit seg now;
        if (ok : bool) then attemptSend_loop fuel now sfNone else mret tt
  end.

Definition attemptSend (sflags : SendFlags) : M E unit :=
  now ← Now;
  t ← get;
  when (TimeDiff32 now (m_lastsend t) >? m_rx_rto t) (upd (set_m_cwnd (m_mss t)));;
  attemptSend_loop (S (Z.to_nat (GetBuffered (m_sbuf t)) + length (m_slist t))) now sflags.

(** ** MTU and window size *)

(** The loop of [adjustMTU]: the first level whose MTU is not above the advice. *)
Fixpoint mtu_level (fuel : nat) (level mtu_advise : Z) : outcome Z :=
  match fuel with
  | O => Crash FuelExhausted
  | S fuel =>
      next ← PACKET_MAXIMUM (level + 1);
      if 0 <? next then
        cur ← PACKET_MAXIMUM level;
        if cur <=? mtu_advise then mret level else mtu_level fuel (level + 1) mtu_advise
      else mret level
  end.

Definition adjustMTU : M E unit :=
  t ← get;
  level ← lift (mtu_level MSS_LEVELS 0 (m_mtu_advise t));
  upd (set_m_msslevel level);;
  let mss := wrap32 (m_mtu_advise t - PACKET_OVERHEAD) in
  upd (set_m_mss mss);;
  upd (set_m_ssthresh (Z.max (m_ssthresh t) (wrap32 (2 * mss))));;
  upd (set_m_cwnd (Z.max (m_cwnd t) mss)).

Definition resizeSendBuffer (new_size : Z) : M E unit :=
  upd (set_m_sbuf_len new_size);;
  t ← get;
  '(_, sbuf) ← lift (SetCapacity (m_sbuf t) new_size);
  upd (set_m_sbuf sbuf).

(** Halve until the size fits 16 bits; the result is the factor and the size. *)
Fixpoint scale_loop (fuel : nat) (scale_factor new_size : Z) : outcome (Z * Z) :=
  match fuel with
  | O => Crash FuelExhausted
  | S fuel =>
      if new_size >? 0xFFFF
      then scale_loop fuel (wrap8 (scale_factor + 1)) (Z.shiftr new_size 1)
      else mret (scale_factor, new_size)
  end.

Definition resizeReceiveBuffer (new_size : Z) : M E unit :=
  '(scale_factor, new_size) ← lift (scale_loop 18 0 new_size);
  new_size ← lift (shl32 new_size scale_factor);
  t ← get;
  '(result, rbuf) ← lift (SetCapacity (m_rbuf t) new_size);
  upd (set_m_rbuf rbuf);;
  assertM result;;
  upd (set_m_rbuf_len new_size);;
  upd (set_m_rwnd_scale scale_factor);;
  upd (set_m_ssthresh new_size);;
  upd (set_m_rcv_wnd (wrap32 (GetWriteRemaining rbuf))).

(** ** TCP options of the connect message *)

Definition applyWindowScaleOption (scale_factor : Z) : M E unit :=
  upd (set_m_swnd_scale scale_factor).

(** [data] is the memory from the pointer on, [len] the option's length. *)
Definition applyOption (kind : Z) (data : list byte) (len : Z) : M E unit :=
  if kind =? TCP_OPT_MSS then mret tt
  else if kind =? TCP_OPT_WND_SCALE then
    if negb (len =? 1) then mret tt else
    d ← lift (mem_read data 0 1);
    applyWindowScaleOption (byte.unsigned (hd Byte.x00 d))
  else mret tt.

(** [buf.ReadUInt8(&v)] with the answer ignored: [v] keeps its value on failure. *)
Definition read_or (default_value : Z) (buf : ByteBufferReader) : M E (Z * ByteBufferReader) :=
  '(o, buf) ← lift (ReadUInt8 buf);
  mret (default default_value o, buf).

(** The loop; [None] is the [return] on a bad length, otherwise the kinds seen. *)
Fixpoint parseOptions_loop (fuel : nat) (len : Z) (buf : ByteBufferReader)
    (options_specified : list Z) : M E (option (list Z)) :=
  match fuel with
  | O => lift (Crash FuelExhausted)
  | S fuel =>
      if Length buf =? 0 then mret (Some options_specified) else
      '(kind, buf) ← read_or TCP_OPT_EOL buf;
      if kind =? TCP_OPT_EOL then mret (Some options_specified)
      else if kind =? TCP_OPT_NOOP then parseOptions_loop fuel len buf options_specified
      else
        assertM (negb (len =? 0));;
        '(opt_len, buf) ← read_or 0 buf;
        if opt_len <=? Length buf then
          applyOption kind (zdrop (start_ buf) (bytes_ buf)) opt_len;;
          '(_, buf) ← lift (Consume opt_len buf);
          parseOptions_loop fuel len buf (kind :: options_specified)
        else mret None
  end.

Definition parseOptions (data : list byte) (len : Z) : M E unit :=
  o ← parseOptions_loop (S (Z.to_nat len)) len (Reader data len) [];
  match o with
  | None => mret tt
  | Some options_specified =>
      if bool_decide (TCP_OPT_WND_SCALE ∈ options_specified) then mret tt else
      t ← get;
      when (0 <? m_rwnd_scale t)
        (resizeReceiveBuffer DEFAULT_RCV_BUF_SIZE;; upd (set_m_swnd_scale 0))
  end.

Definition queueConnectMessage : M E unit :=
  t ← get;
  buf ← lift ByteBufferWriter;
  buf ← lift (WriteUInt8 buf CTL_CONNECT);
  buf ← (if m_support_wnd_scale t then
           buf ← lift (WriteUInt8 buf TCP_OPT_WND_SCALE);
           buf ← lift (WriteUInt8 buf 1);
           lift (WriteUInt8 buf (m_rwnd_scale t))
         else mret buf);
  upd (set_m_snd_wnd (wrap32 (size_ buf)));;
  queue (BufferT_contents buf) (wrap32 (size_ buf)) true;;
  mret tt.


(** ** [process], block by block *)

(** Wrong conversation, closed connection, reset: [None] is [return false]. *)
Definition process_check (seg : Segment) : M E (option Z) :=
  t ← get;
  if negb (seg_conv seg =? m_conv t) then mret None else
  now ← Now;
  upd (set_m_lastrecv now);;
  upd (set_m_lasttraffic now);;
  upd (set_m_bOutgoing false);;
  if decide (m_state t = TCP_CLOSED) then mret None else
  if negb (Z.land (seg_flags seg) FLAG_RST =? 0) then closedown ECONNRESET;; mret None else
  mret (Some now).

(** The state machine of the handshake, on a connect message. *)
Definition process_connect : M E unit :=
  t ← get;
  match m_state t with
  | TCP_LISTEN => upd (set_m_state TCP_SYN_RECEIVED);; queueConnectMessage
  | TCP_SYN_SENT => upd (set_m_state TCP_ESTABLISHED);; adjustMTU;; OnTcpOpen
  | _ => mret tt
  end.

(** Control data: [Some bConnect], or [None] for [return false]. *)
Definition process_control (seg : Segment) : M E (option bool) :=
  if Z.land (seg_flags seg) FLAG_CTL =? 0 then mret (Some false) else
  if seg_len seg =? 0 then mret None else
  code ← lift (mem_read (seg_data seg) 0 1);
  if byte.unsigned (hd Byte.x00 code) =? CTL_CONNECT then
    parseOptions (zdrop 1 (seg_data seg)) (seg_len seg - 1);;
    process_connect;;
    mret (Some true)
  else mret None.

Definition process_timestamp (seg : Segment) : M E unit :=
  t ← get;
  when ((seg_seq seg <=? m_ts_lastack t) &&
        (m_ts_lastack t <? wrap32 (seg_seq seg + seg_len seg)))
    (upd (set_m_ts_recent (seg_tsval seg))).

(** Round-trip time and retransmission timeout. *)
Definition update_rtt (now tsecr : Z) : M E unit :=
  if tsecr =? 0 then mret tt else
  t ← get;
  let rtt := TimeDiff32 now tsecr in
  if rtt >=? 0 then
    (if m_rx_srtt t =? 0 then
       upd (set_m_rx_srtt rtt);; upd (set_m_rx_rttvar (rtt / 2))
     else
       let abs_err := if rtt >? m_rx_srtt t then rtt - m_rx_srtt t else m_rx_srtt t - rtt in
       upd (set_m_rx_rttvar (wrap32 (wrap32 (3 * m_rx_rttvar t) + abs_err) / 4));;
       upd (set_m_rx_srtt (wrap32 (wrap32 (7 * m_rx_srtt t) + rtt) / 8)));;
    t ← get;
    let tmp_rto := Z.max 1 (wrap32 (4 * m_rx_rttvar t)) in
    upd (set_m_rx_rto (if tmp_rto <? MIN_RTO then MIN_RTO
                       else if tmp_rto >=? MAX_RTO then MAX_RTO else tmp_rto))
  else mret tt.

(** The loop that takes acknowledged segments off the send queue: the queue
    left and the new [m_largest]. *)
Fixpoint free_segments (l : list SSegment) (nFree largest : Z) : outcome (list SSegment * Z) :=
  if 0 <? nFree then
    match l with
    | [] => Crash AssertionFailed
    | s :: l =>
        if nFree <? s_len s
        then mret (mkSSegment (s_seq s) (s_len s - nFree) (s_xmit s) (s_bCtrl s) :: l, largest)
        else free_segments l (nFree - s_len s)
               (if s_len s >? largest then s_len s else largest)
    end
  else mret (l, largest).

(** A valuable ack: the window, the send buffer and the send queue. *)
Definition process_acked (seg : Segment) (now : Z) : M E Z :=
  t ← get;
  wnd ← lift (shl32 (seg_wnd seg) (m_swnd_scale t));
  upd (set_m_snd_wnd wnd);;
  let nAcked := wrap32 (seg_ack seg - m_snd_una t) in
  upd (set_m_snd_una (seg_ack seg));;
  upd (set_m_rto_base (if seg_ack seg =? m_snd_nxt t then 0 else now));;
  sbuf ← lift (ConsumeReadData (m_sbuf t) nAcked);
  upd (set_m_sbuf sbuf);;
  '(slist, largest) ← lift (free_segments (m_slist t) nAcked (m_largest t));
  upd (set_m_slist slist);;
  upd (set_m_largest largest);;
  mret nAcked.

(** Congestion control after a valuable ack. *)
Definition process_congestion (nAcked now : Z) : M E bool :=
  t ← get;
  if m_dup_acks t >=? 3 then
    if m_snd_una t >=? m_recover t then
      let nInFlight := wrap32 (m_snd_nxt t - m_snd_una t) in
      upd (set_m_cwnd (Z.min (m_ssthresh t) (wrap32 (nInFlight + m_mss t))));;
      upd (set_m_dup_acks 0);; mret true
    else
      ok ← transmit 0 now;
      if (ok : bool) then
        t ← get;
        upd (set_m_cwnd (wrap32 (m_cwnd t + (m_mss t - Z.min nAcked (m_cwnd t)))));; mret true
      else closedown ECONNABORTED;; mret false
  else
    upd (set_m_dup_acks 0);;
    if m_cwnd t <? m_ssthresh t then
      upd (set_m_cwnd (wrap32 (m_cwnd t + m_mss t)));; mret true
    else
      q ← lift (if m_cwnd t =? 0 then Crash DivideByZero
                else Ret (wrap32 (m_mss t * m_mss t) / m_cwnd t));
      upd (set_m_cwnd (wrap32 (m_cwnd t + Z.max 1 q)));; mret true.

(** A duplicate ack (or one that only moves the window). *)
Definition process_dup_ack (seg : Segment) (now : Z) : M E bool :=
  t ← get;
  wnd ← lift (shl32 (seg_wnd seg) (m_swnd_scale t));
  upd (set_m_snd_wnd wnd);;
  if 0 <? seg_len seg then mret true
  else if negb (m_snd_una t =? m_snd_nxt t) then
    let dup_acks := wrap8 (m_dup_acks t + 1) in
    upd (set_m_dup_acks dup_acks);;
    if dup_acks =? 3 then
      ok ← transmit 0 now;
      if (ok : bool) then
        t ← get;
        upd (set_m_recover (m_snd_nxt t));;
        let nInFlight := wrap32 (m_snd_nxt t - m_snd_una t) in
        let ssthresh := Z.max (nInFlight / 2) (wrap32 (2 * m_mss t)) in
        upd (set_m_ssthresh ssthresh);;
        upd (set_m_cwnd (wrap32 (ssthresh + 3 * m_mss t)));; mret true
      else closedown ECONNABORTED;; mret false
    else if dup_acks >? 3 then
      upd (set_m_cwnd (wrap32 (m_cwnd t + m_mss t)));; mret true
    else mret true
  else upd (set_m_dup_acks 0);; mret true.

Definition process_ack (seg : Segment) (now : Z) : M E bool :=
  t ← get;
  if (seg_ack seg >? m_snd_una t) && (seg_ack seg <=? m_snd_nxt t) then
    update_rtt now (seg_tsecr seg);;
    nAcked ← process_acked seg now;
    process_congestion nAcked now
  else if seg_ack seg =? m_snd_una t then process_dup_ack seg now
  else mret true.

Definition process_established (bConnect : bool) : M E unit :=
  t ← get;
  when (bool_decide (m_state t = TCP_SYN_RECEIVED) && negb bConnect)
    (upd (set_m_state TCP_ESTABLISHED);; adjustMTU;; OnTcpOpen).

Definition process_writeable : M E unit :=
  t ← get;
  let kIdealRefillSize := wrap32 (m_sbuf_len t + m_rbuf_len t) / 2 in
  when (m_bWriteEnable t && (wrap32 (GetBuffered (m_sbuf t)) <? kIdealRefillSize))
    (upd (set_m_bWriteEnable false);; OnTcpWriteable).

(** Which ack the segment asks for. *)
Definition ack_flags (t : PseudoTcp) (seg : Segment) : SendFlags :=
  if negb (seg_seq seg =? m_rcv_nxt t) then sfImmediateAck
  else if negb (seg_len seg =? 0)
       then if m_ack_delay t =? 0 then sfImmediateAck else sfDelayedAck
       else sfNone.

Definition set_seg (seq : Z) (data : list byte) (len : Z) (seg : Segment) : Segment :=
  mkSegment (seg_conv seg) seq (seg_ack seg) (seg_flags seg) (seg_wnd seg) data len
    (seg_tsval seg) (seg_tsecr seg).

(** Drop the part of the segment that was received before. *)
Definition trim_old (t : PseudoTcp) (seg : Segment) : Segment :=
  if seg_seq seg <? m_rcv_nxt t then
    let nAdjust := m_rcv_nxt t - seg_seq seg in
    if nAdjust <? seg_len seg
    then set_seg (wrap32 (seg_seq seg + nAdjust)) (zdrop nAdjust (seg_data seg))
           (seg_len seg - nAdjust) seg
    else set_seg (seg_seq seg) (seg_data seg) 0 seg
  else seg.

(** Drop the part that does not fit the receive buffer. *)
Definition trim_window (t : PseudoTcp) (seg : Segment) : Segment :=
  let available_space := wrap32 (GetWriteRemaining (m_rbuf t)) in
  let ahead := wrap32 (seg_seq seg + seg_len seg - m_rcv_nxt t) in
  if ahead >? available_space then
    let nAdjust := ahead - available_space in
    if nAdjust <? seg_len seg
    then set_seg (seg_seq seg) (seg_data seg) (seg_len seg - nAdjust) seg
    else set_seg (seg_seq seg) (seg_data seg) 0 seg
  else seg.

(** Insert behind the segments that start earlier. *)
Fixpoint insert_rseg (r : RSegment) (l : list RSegment) : list RSegment :=
  match l with
  | [] => [r]
  | x :: l' => if r_seq x <? r_seq r then x :: insert_rseg r l' else r :: l
  end.

(** Recover segments received out of order, from the front of [m_rlist]. *)
Fixpoint recover (l : list RSegment) (sflags : SendFlags) (bNewData : bool)
    : M E (SendFlags * bool) :=
  match l with
  | [] => mret (sflags, bNewData)
  | r :: l =>
      t ← get;
      if r_seq r <=? m_rcv_nxt t then
        let nAdjust := wrap32 (wrap32 (r_seq r + r_len r) - m_rcv_nxt t) in
        if wrap32 (r_seq r + r_len r) >? m_rcv_nxt t then
          rbuf ← lift (ConsumeWriteBuffer (m_rbuf t) nAdjust);
          upd (set_m_rbuf rbuf);;
          upd (set_m_rcv_nxt (wrap32 (m_rcv_nxt t + nAdjust)));;
          upd (set_m_rcv_wnd (wrap32 (m_rcv_wnd t - nAdjust)));;
          upd (set_m_rlist l);;
          recover l sfImmediateAck true
        else
          upd (set_m_rlist l);;
          recover l sflags bNewData
      else mret (sflags, bNewData)
  end.

(** Data that is not stored (control data, or after [Close]): does it make
    room for recovery? *)
Definition skip_data (seg : Segment) : M E bool :=
  t ← get;
  if seg_seq seg =? m_rcv_nxt t then
    upd (set_m_rcv_nxt (wrap32 (m_rcv_nxt t + seg_len seg)));;
    if GetBuffered (m_rbuf t) =? 0 then
      rbuf ← lift (ConsumeWriteBuffer (m_rbuf t) (seg_len seg));
      rbuf ← lift (ConsumeReadData rbuf (seg_len seg));
      upd (set_m_rbuf rbuf);;
      mret true
    else mret false
  else mret false.

(** Data that is stored: [None] is [return false] (outside the window),
    otherwise whether it arrived in order. *)
Definition store_data (seg : Segment) : M E (option bool) :=
  t ← get;
  let nOffset := wrap32 (seg_seq seg - m_rcv_nxt t) in
  d ← lift (mem_read (seg_data seg) 0 (seg_len seg));
  '(result, _, rbuf) ← lift (WriteOffset (m_rbuf t) d nOffset);
  upd (set_m_rbuf rbuf);;
  if decide (result = SR_BLOCK) then mret None else
  assertM (bool_decide (result = SR_SUCCESS));;
  if seg_seq seg =? m_rcv_nxt t then
    rbuf ← lift (ConsumeWriteBuffer rbuf (seg_len seg));
    upd (set_m_rbuf rbuf);;
    upd (set_m_rcv_nxt (wrap32 (m_rcv_nxt t + seg_len seg)));;
    upd (set_m_rcv_wnd (wrap32 (m_rcv_wnd t - seg_len seg)));;
    mret (Some true)
  else
    upd (set_m_rlist (insert_rseg (mkRSegment (seg_seq seg) (seg_len seg)) (m_rlist t)));;
    mret (Some false).

(** The receive part of [process]: the flags for the ack and whether there
    is new data, or [None] for [return false]. *)
Definition receive_data (seg : Segment) (sflags : SendFlags) : M E (option (SendFlags * bool)) :=
  t ← get;
  let bIgnoreData := negb (Z.land (seg_flags seg) FLAG_CTL =? 0) ||
                     bool_decide (m_shutdown t <> SD_NONE) in
  if 0 <? seg_len seg then
    o ← (if bIgnoreData then b ← skip_data seg; mret (Some (b, false))
         else o ← store_data seg; mret (o ≫= fun b => Some (b, b)));
    match o with
    | None => mret None
    | Some (bRecover, bNewData) =>
        if (bRecover : bool) then
          t ← get;
          r ← recover (m_rlist t) sflags bNewData;
          mret (Some r)
        else mret (Some (sflags, bNewData))
    end
  else mret (Some (sflags, false)).

(** The last part: answer and tell the user. *)
Definition process_finish (sflags : SendFlags) (bNewData : bool) : M E bool :=
  attemptSend sflags;;
  t ← get;
  when (bNewData && m_bReadEnable t)
    (upd (set_m_bReadEnable false);; OnTcpReadable);;
  mret true.

Definition process (seg : Segment) : M E bool :=
  o ← process_check seg;
  match o with
  | None => mret false
  | Some now =>
      o ← process_control seg;
      match o with
      | None => mret false
      | Some bConnect =>
          process_timestamp seg;;
          ok ← process_ack seg now;
          if negb ok then mret false else
          process_established bConnect;;
          process_writeable;;
          t ← get;
          let sflags := ack_flags t seg in
          let seg := trim_window t (trim_old t seg) in
          o ← receive_data seg sflags;
          match o with
          | None => mret false
          | Some (sflags, bNewData) => process_finish sflags bNewData
          end
      end
  end.

Definition parse (buffer : list byte) (size : Z) : M E bool :=
  if size <? HEADER_SIZE then mret false else
  conv ← lift (bytes_to_long buffer 0);
  seq ← lift (bytes_to_long buffer 4);
  ack ← lift (bytes_to_long buffer 8);
  flags ← lift (mem_read buffer 13 1);
  wnd ← lift (bytes_to_short buffer 14);
  tsval ← lift (bytes_to_long buffer 16);
  tsecr ← lift (bytes_to_long buffer 20);
  process (mkSegment conv seq ack (byte.unsigned (hd Byte.x00 flags)) wnd
             (zdrop HEADER_SIZE buffer) (size - HEADER_SIZE) tsval tsecr).

(** ** The interface of the class *)

Definition NotifyPacket (buffer : list byte) : M E bool :=
  if zlen buffer >? MAX_PACKET then mret false
  else parse buffer (wrap32 (zlen buffer)).

Definition Connect : M E Z :=
  t ← get;
  if negb (bool_decide (m_state t = TCP_LISTEN))
  then upd (set_m_error EINVAL);; mret (-1) else
  upd (set_m_state TCP_SYN_SENT);;
  queueConnectMessage;;
  attemptSend sfNone;;
  mret 0.

Definition NotifyMTU (mtu : Z) : M E unit :=
  upd (set_m_mtu_advise mtu);;
  t ← get;
  when (bool_decide (m_state t = TCP_ESTABLISHED)) adjustMTU.

(** Retransmission: [false] when the connection was closed down. *)
Definition clock_retransmit (now : Z) : M E bool :=
  t ← get;
  if negb (m_rto_base t =? 0) && (TimeDiff32 (m_rto_base t + m_rx_rto t) now <=? 0) then
    match m_slist t with
    | [] => mret true
    | _ =>
        ok ← transmit 0 now;
        if (ok : bool) then
          t ← get;
          let nInFlight := wrap32 (m_snd_nxt t - m_snd_una t) in
          upd (set_m_ssthresh (Z.max (nInFlight / 2) (wrap32 (2 * m_mss t))));;
          upd (set_m_cwnd (m_mss t));;
          let rto_limit := if TcpState_num (m_state t) <? TcpState_num TCP_ESTABLISHED
                           then DEF_RTO else MAX_RTO in
          upd (set_m_rx_rto (Z.min rto_limit (wrap32 (m_rx_rto t * 2))));;
          upd (set_m_rto_base now);; mret true
        else closedown ECONNABORTED;; mret false
    end
  else mret true.

(** Probing a closed window. *)
Definition clock_probe (now : Z) : M E bool :=
  t ← get;
  if (m_snd_wnd t =? 0) && (TimeDiff32 (m_lastsend t + m_rx_rto t) now <=? 0) then
    if TimeDiff32 now (m_lastrecv t) >=? 15000 then closedown ECONNABORTED;; mret false else
    packet (wrap32 (m_snd_nxt t - 1)) 0 0 0;;
    upd (set_m_lastsend now);;
    upd (set_m_rx_rto (Z.min MAX_RTO (wrap32 (m_rx_rto t * 2))));; mret true
  else mret true.

Definition clock_delayed_ack (now : Z) : M E unit :=
  t ← get;
  when (negb (m_t_ack t =? 0) && (TimeDiff32 (m_t_ack t + m_ack_delay t) now <=? 0))
    (packet (m_snd_nxt t) 0 0 0;; mret tt).

Definition NotifyClock (now : Z) : M E unit :=
  t ← get;
  if decide (m_state t = TCP_CLOSED) then mret tt else
  ok ← clock_retransmit now;
  if negb ok then mret tt else
  ok ← clock_probe now;
  if negb ok then mret tt else
  clock_delayed_ack now.

(** [clock_check] ([GetNextClock]): [None] is [false], otherwise the timeout. *)
Definition clock_check (now : Z) (t : PseudoTcp) : option Z :=
  if decide (m_shutdown t = SD_FORCEFUL) then None else
  if bool_decide (m_shutdown t = SD_GRACEFUL) &&
     (bool_decide (m_state t <> TCP_ESTABLISHED) ||
      ((GetBuffered (m_sbuf t) =? 0) && (m_t_ack t =? 0))) then None else
  if decide (m_state t = TCP_CLOSED) then Some CLOSED_TIMEOUT else
  let nTimeout := DEFAULT_TIMEOUT in
  let nTimeout := if negb (m_t_ack t =? 0)
                  then Z.min nTimeout (TimeDiff32 (m_t_ack t + m_ack_delay t) now)
                  else nTimeout in
  let nTimeout := if negb (m_rto_base t =? 0)
                  then Z.min nTimeout (TimeDiff32 (m_rto_base t + m_rx_rto t) now)
                  else nTimeout in
  let nTimeout := if m_snd_wnd t =? 0
                  then Z.min nTimeout (TimeDiff32 (m_lastsend t + m_rx_rto t) now)
                  else nTimeout in
  Some nTimeout.
Definition GetNextClock (now : Z) (t : PseudoTcp) : option Z := clock_check now t.

Definition SetOption (opt : TcpOption) (value : Z) : M E unit :=
  t ← get;
  match opt with
  | OPT_NODELAY => upd (set_m_use_nagling (value =? 0))
  | OPT_ACKDELAY => upd (set_m_ack_delay (wrap32 value))
  | OPT_SNDBUF =>
      assertM (bool_decide (m_state t = TCP_LISTEN));; resizeSendBuffer (wrap32 value)
  | OPT_RCVBUF =>
      assertM (bool_decide (m_state t = TCP_LISTEN));; resizeReceiveBuffer (wrap32 value)
  end.

(** [Recv]: the answer and the bytes copied to the caller's buffer. *)
Definition Recv (len : Z) : M E (Z * list byte) :=
  t ← get;
  if negb (bool_decide (m_state t = TCP_ESTABLISHED))
  then upd (set_m_error ENOTCONN);; mret (-1, []) else
  '(result, d, rbuf) ← lift (FifoBuffer.Read (m_rbuf t) len);
  upd (set_m_rbuf rbuf);;
  if decide (result = SR_BLOCK) then
    upd (set_m_bReadEnable true);; upd (set_m_error EWOULDBLOCK);; mret (-1, [])
  else
    assertM (bool_decide (result = SR_SUCCESS));;
    let available_space := wrap32 (GetWriteRemaining rbuf) in
    (if wrap32 (available_space - m_rcv_wnd t) >=? Z.min (m_rbuf_len t / 2) (m_mss t) then
       upd (set_m_rcv_wnd available_space);;
       when (m_rcv_wnd t =? 0) (attemptSend sfImmediateAck)
     else mret tt);;
    mret (to_int32 (zlen d), d).

Definition Send (data : list byte) : M E Z :=
  t ← get;
  if negb (bool_decide (m_state t = TCP_ESTABLISHED))
  then upd (set_m_error ENOTCONN);; mret (-1) else
  if GetWriteRemaining (m_sbuf t) =? 0 then
    upd (set_m_bWriteEnable true);; upd (set_m_error EWOULDBLOCK);; mret (-1)
  else
    written ← queue data (wrap32 (zlen data)) false;
    attemptSend sfNone;;
    mret (to_int32 written).

Definition Close (force : bool) : M E unit :=
  upd (set_m_shutdown (if force then SD_FORCEFUL else SD_GRACEFUL)).

End Operations.
