(* ===== verification/TcpWire.v ===== *)
(** * The wire format of PseudoTcp

    [encode] is the 24-byte header of the diagram in pseudo_tcp.cc followed by
    the payload.  [packet] is shown to hand exactly these bytes to the
    network, and [parse] to take them apart again. *)

From Stdlib Require Import ZArith Lia.
From S2P Require Import Prelude ByteOrder ConstBuffer ByteBuffer FifoBuffer TcpState PseudoTcp.

Definition encode_header (conv seq ack flags wnd tsval tsecr : Z) : list byte :=
  be_bytes 4 conv ++ be_bytes 4 seq ++ be_bytes 4 ack ++ [Byte.x00] ++ [byte.of_Z flags] ++
  be_bytes 2 wnd ++ be_bytes 4 tsval ++ be_bytes 4 tsecr.

Definition encode (conv seq ack flags wnd tsval tsecr : Z) (payload : list byte) : list byte :=
  encode_header conv seq ack flags wnd tsval tsecr ++ payload.

Lemma zlen_header conv seq ack flags wnd tsval tsecr :
  zlen (encode_header conv seq ack flags wnd tsval tsecr) = HEADER_SIZE.
Proof. unfold encode_header. by rewrite !zlen_app, !zlen_be_bytes. Qed.

(** The header of a packet sent from state [t] at time [now]. *)
Definition header_of (t : PseudoTcp) (now seq flags : Z) : list byte :=
  encode_header (m_conv t) seq (m_rcv_nxt t) flags
    (wrap16 (Z.shiftr (m_rcv_wnd t) (m_rwnd_scale t))) now (m_ts_recent t).

Section Wire.
Context {E : Type} `{IPseudoTcpNotify E} `{Heap}.

(** [filled b h]: the packet block starts with the bytes [h]. *)
Definition filled (b h : list byte) : Prop := zlen b = MAX_PACKET /\ ztake (zlen h) b = h.

Lemma filled_next b h d off k (Q : list byte -> Prop) :
  filled b h -> off = zlen h -> zlen h + zlen d <= MAX_PACKET ->
  (forall b', filled b' (h ++ d) -> post (k b') Q) -> post (mem_write b off d ≫= k) Q.
Proof.
  intros [Hl Hh] -> Hd Hk. destruct (mem_write_append b h d (zlen h) Hh) as (b' & -> & Hl' & Hh');
    [done|lia|]. apply Hk. split; [lia|]. by rewrite zlen_app.
Qed.

Lemma filled_last b h d off :
  filled b h -> off = zlen h -> zlen h + zlen d <= MAX_PACKET ->
  post (mem_write b off d) (fun b' => filled b' (h ++ d)).
Proof.
  intros Hb Ho Hd. pose proof (filled_next b h d off mret (fun b' => filled b' (h ++ d)) Hb Ho Hd) as Hk.
  destruct (mem_write b off d); [by apply Hk|]. apply Hk. done.
Qed.

Lemma packet_header_filled t now seq flags :
  post (packet_header t now seq flags) (fun b => filled b (header_of t now seq flags)).
Proof.
  unfold packet_header, long_to_bytes, short_to_bytes, HostToNetwork32, HostToNetwork16.
  rewrite !store_to_be.
  assert (Hb : filled (fresh MAX_PACKET) []) by (split; [by apply fresh_length|done]).
  revert Hb. generalize (fresh MAX_PACKET) as b. intros b Hb.
  repeat (eapply filled_next; [exact Hb | by rewrite ?zlen_app, ?zlen_be_bytes
    | by rewrite ?zlen_app, ?zlen_be_bytes |]; clear b Hb; intros b Hb).
  eapply post_mono; [eapply filled_last; [exact Hb | by rewrite ?zlen_app, ?zlen_be_bytes
    | by rewrite ?zlen_app, ?zlen_be_bytes]|].
  clear b Hb. intros b Hb. rewrite <- !app_assoc in Hb. exact Hb.
Qed.

(** The payload is what the send buffer holds at the offset. *)
Lemma packet_payload_filled t b h offset len :
  filled b h -> zlen h = HEADER_SIZE -> fifo_ok (m_sbuf t) ->
  0 <= len -> HEADER_SIZE + len <= MAX_PACKET ->
  0 <= offset -> (len <> 0 -> offset + len <= data_length_ (m_sbuf t)) ->
  post (packet_payload t b offset len) (fun b' =>
    filled b' (h ++ ztake len (zdrop offset (view (m_sbuf t))))).
Proof.
  intros Hb Hh Hok Hlen Hmax Hoff Hfit. unfold packet_payload.
  destruct (Z.eqb_spec len 0) as [->|Hne]; [by rewrite ztake_0, app_nil_r|].
  pose proof (ReadOffset_length (m_sbuf t) len offset Hok Hlen ltac:(lia)) as Hd.
  rewrite ReadOffset_spec by done. rewrite (proj2 (Z.ltb_lt offset _)) by lia. cbn [mbind outcome_bind].
  rewrite Z.min_l in Hd |- * by lia.
  eapply filled_next; [exact Hb|done|rewrite Hd; lia|]. intros b' Hb'.
  rewrite bool_decide_true by done. rewrite Hd, wrap32_small by (unfold MAX_PACKET, HEADER_SIZE in *; lia).
  rewrite Z.eqb_refl. exact Hb'.
Qed.

Lemma bytes_to_long_mid buf l v k off :
  buf = l ++ be_bytes 4 v ++ k -> off = zlen l -> 0 <= v < 2 ^ 32 ->
  bytes_to_long buf off = Ret v.
Proof.
  intros Hb Ho Hv. unfold bytes_to_long.
  rewrite (mem_read_mid buf l (be_bytes 4 v) k off 4 Hb Ho) by (by rewrite zlen_be_bytes). cbn.
  unfold NetworkToHost32. rewrite (to_be_load host_order) by apply length_be_bytes.
  f_equal. by apply be_value_be_bytes.
Qed.

Lemma bytes_to_short_mid buf l v k off :
  buf = l ++ be_bytes 2 v ++ k -> off = zlen l -> 0 <= v < 2 ^ 16 ->
  bytes_to_short buf off = Ret v.
Proof.
  intros Hb Ho Hv. unfold bytes_to_short.
  rewrite (mem_read_mid buf l (be_bytes 2 v) k off 2 Hb Ho) by (by rewrite zlen_be_bytes). cbn.
  unfold NetworkToHost16. rewrite (to_be_load host_order) by apply length_be_bytes.
  f_equal. by apply be_value_be_bytes.
Qed.

Lemma lift_bind {A B} (a : A) (k : A -> M E B) s : (lift (Ret a) ≫= k) s = k a s.
Proof. done. Qed.

(** [parse] hands the fields of an encoded packet to [process]. *)
Lemma parse_encode conv seq ack flags wnd tsval tsecr payload s :
  0 <= conv < 2 ^ 32 -> 0 <= seq < 2 ^ 32 -> 0 <= ack < 2 ^ 32 -> 0 <= flags < 2 ^ 8 ->
  0 <= wnd < 2 ^ 16 -> 0 <= tsval < 2 ^ 32 -> 0 <= tsecr < 2 ^ 32 ->
  parse (encode conv seq ack flags wnd tsval tsecr payload) (HEADER_SIZE + zlen payload) s =
  process (mkSegment conv seq ack flags wnd payload (zlen payload) tsval tsecr) s.
Proof.
  intros. pose proof (zlen_nonneg payload). unfold parse.
  rewrite (proj2 (Z.ltb_ge _ _)) by lia.
  set (b := encode _ _ _ _ _ _ _ _).
  assert (Hb : b = be_bytes 4 conv ++ be_bytes 4 seq ++ be_bytes 4 ack ++ [Byte.x00] ++
    [byte.of_Z flags] ++ be_bytes 2 wnd ++ be_bytes 4 tsval ++ be_bytes 4 tsecr ++ payload)
    by (subst b; unfold encode, encode_header; by rewrite <- !app_assoc).
  clearbody b.
  rewrite (bytes_to_long_mid b [] conv _ 0 Hb), lift_bind by done.
  rewrite (bytes_to_long_mid b (be_bytes 4 conv) seq _ 4), lift_bind
    by (done || by rewrite zlen_be_bytes).
  rewrite (bytes_to_long_mid b (be_bytes 4 conv ++ be_bytes 4 seq) ack
    ([Byte.x00] ++ [byte.of_Z flags] ++ be_bytes 2 wnd ++ be_bytes 4 tsval ++ be_bytes 4 tsecr
     ++ payload) 8), lift_bind
    by (rewrite ?Hb, <- ?app_assoc; done || by rewrite zlen_app, !zlen_be_bytes).
  rewrite (mem_read_mid b (be_bytes 4 conv ++ be_bytes 4 seq ++ be_bytes 4 ack ++ [Byte.x00])
    [byte.of_Z flags] (be_bytes 2 wnd ++ be_bytes 4 tsval ++ be_bytes 4 tsecr ++ payload) 13 1),
    lift_bind by (rewrite ?Hb, <- ?app_assoc; done || by rewrite !zlen_app, !zlen_be_bytes).
  rewrite (bytes_to_short_mid b (be_bytes 4 conv ++ be_bytes 4 seq ++ be_bytes 4 ack ++
    [Byte.x00] ++ [byte.of_Z flags]) wnd (be_bytes 4 tsval ++ be_bytes 4 tsecr ++ payload) 14),
    lift_bind by (rewrite ?Hb, <- ?app_assoc; done || by rewrite !zlen_app, !zlen_be_bytes).
  rewrite (bytes_to_long_mid b (be_bytes 4 conv ++ be_bytes 4 seq ++ be_bytes 4 ack ++
    [Byte.x00] ++ [byte.of_Z flags] ++ be_bytes 2 wnd) tsval (be_bytes 4 tsecr ++ payload) 16),
    lift_bind by (rewrite ?Hb, <- ?app_assoc; done || by rewrite !zlen_app, !zlen_be_bytes).
  rewrite (bytes_to_long_mid b (be_bytes 4 conv ++ be_bytes 4 seq ++ be_bytes 4 ack ++
    [Byte.x00] ++ [byte.of_Z flags] ++ be_bytes 2 wnd ++ be_bytes 4 tsval) tsecr payload 20),
    lift_bind by (rewrite ?Hb, <- ?app_assoc; done || by rewrite !zlen_app, !zlen_be_bytes).
  cbn [hd]. rewrite byte.unsigned_of_Z. unfold byte.wrap. rewrite (Z.mod_small flags) by lia.
  do 2 f_equal; [|lia]. subst b.
  change payload with ([] ++ payload) at 2. rewrite !app_assoc.
  assert (Hl : zlen (((((((be_bytes 4 conv ++ be_bytes 4 seq) ++ be_bytes 4 ack) ++ [Byte.x00]) ++
    [byte.of_Z flags]) ++ be_bytes 2 wnd) ++ be_bytes 4 tsval) ++ be_bytes 4 tsecr) = HEADER_SIZE)
    by (by rewrite !zlen_app, !zlen_be_bytes).
  rewrite <- Hl. apply zdrop_app.
Qed.

(** *** [packet] as a whole *)

(** [timers_only t t']: [t'] is [t] up to the members that [packet] sets. *)
Definition timers_only (t t' : PseudoTcp) : Prop :=
  exists lastack tack lastsend lasttraffic outgoing,
    t' = set_m_ts_lastack lastack (set_m_t_ack tack (set_m_lastsend lastsend
           (set_m_lasttraffic lasttraffic (set_m_bOutgoing outgoing t)))).

(** The packet that goes out for [packet seq flags offset len] at time [now]. *)
Definition packet_bytes (t : PseudoTcp) (now seq flags offset len : Z) : list byte :=
  header_of t now seq flags ++ ztake len (zdrop offset (view (m_sbuf t))).

Lemma wp_packet seq flags offset len e t (Q : WriteResult -> E * PseudoTcp -> Prop) :
  fifo_ok (m_sbuf t) -> 0 <= len -> HEADER_SIZE + len <= MAX_PACKET -> 0 <= offset ->
  (len <> 0 -> offset + len <= data_length_ (m_sbuf t)) ->
  (forall t' r, timers_only t t' ->
     let e1 := snd (env_Now e) in
     let w := env_TcpWritePacket (packet_bytes t (fst (env_Now e)) seq flags offset len) e1 in
     r = (if decide (len = 0) then WR_SUCCESS else fst w) -> Q r (snd w, t')) ->
  wp (packet seq flags offset len) (e, t) Q.
Proof.
  intros Hok Hlen Hmax Hoff Hfit HQ. unfold packet.
  pose proof Hmax as Hmax'. unfold MAX_PACKET, HEADER_SIZE in Hmax'.
  apply wp_bind, wp_assert; [apply Z.leb_le; unfold MAX_PACKET, HEADER_SIZE; rewrite wrap32_small; lia|].
  apply wp_bind. unfold Now, wp at 1. destruct (env_Now e) as [now e1] eqn:En. cbn [post].
  cbv zeta in HQ. cbn [fst snd] in HQ. wp_run.
  apply wp_lift. eapply post_mono; [apply packet_header_filled|]. intros b Hb. wp_run.
  apply wp_lift. eapply post_mono.
  { exact (packet_payload_filled t b (header_of t now seq flags) offset len Hb
      (zlen_header _ _ _ _ _ _ _) Hok Hlen Hmax Hoff Hfit). }
  clear b Hb. intros b [Hbl Hb]. wp_run. apply wp_lift.
  change (header_of t now seq flags ++ _) with (packet_bytes t now seq flags offset len) in Hb.
  assert (Hz : zlen (packet_bytes t now seq flags offset len) = len + HEADER_SIZE).
  { unfold packet_bytes, header_of. rewrite zlen_app, zlen_header.
    destruct (Z.eq_dec len 0) as [->|]; [by rewrite ztake_0, zlen_nil|].
    pose proof (ReadOffset_length (m_sbuf t) len offset Hok Hlen) as Hr.
    rewrite Z.min_l in Hr by lia. rewrite Hr by lia. lia. }
  rewrite wrap32_small by (unfold HEADER_SIZE; lia). rewrite <- Hz.
  unfold MAX_PACKET in Hbl. unfold HEADER_SIZE in Hz.
  rewrite mem_read_ok by (rewrite ?Hz; lia). rewrite zdrop_0, Hb. cbn [post].
  unfold wp at 1, mbind, M_bind, TcpWritePacket.
  destruct (env_TcpWritePacket _ e1) as [r e2] eqn:Ew. cbn [post].
  cbn [fst snd] in HQ.
  destruct (Z.eqb_spec len 0) as [->|Hne].
  - rewrite andb_false_r. apply HQ; [|done].
    exists (m_rcv_nxt t), 0, (m_lastsend t), now, true. reflexivity.
  - rewrite andb_true_r. rewrite (proj2 (Z.ltb_lt 0 len)) by lia.
    case_bool_decide as Hr; (apply HQ; [|rewrite decide_False by done]).
    + exists (m_rcv_nxt t), (m_t_ack t), (m_lastsend t), (m_lasttraffic t), (m_bOutgoing t).
      reflexivity.
    + done.
    + exists (m_rcv_nxt t), 0, now, now, true. reflexivity.
    + done.
Qed.
End Wire.

(** C20: what [packet] puts on the wire is what the peer's [NotifyPacket]
    processes: the packet is a header and the requested stretch of the send
    buffer, and every field of the segment that [process] gets (conversation,
    sequence number, acknowledgement, flags, window, time stamps, payload) is
    the sender's. *)
Theorem packet_wire_roundtrip `{Heap} (seq flags offset len : Z) (e : recorder) (t : PseudoTcp) :
  fifo_ok (m_sbuf t) -> 0 <= len -> HEADER_SIZE + len <= MAX_PACKET -> 0 <= offset ->
  offset + len <= data_length_ (m_sbuf t) ->
  0 <= seq < 2 ^ 32 -> 0 <= flags < 2 ^ 8 -> 0 <= m_conv t < 2 ^ 32 ->
  0 <= m_rcv_nxt t < 2 ^ 32 -> 0 <= m_ts_recent t < 2 ^ 32 ->
  wp (packet seq flags offset len) (e, t) (fun r '(e', _) =>
    r = WR_SUCCESS /\
    exists p, rec_sent e' = rec_sent e ++ [p] /\
    forall (E : Type) (env : IPseudoTcpNotify E) (s : E * PseudoTcp),
      NotifyPacket p s =
      process (mkSegment (m_conv t) seq (m_rcv_nxt t) flags
        (wrap16 (Z.shiftr (m_rcv_wnd t) (m_rwnd_scale t)))
        (ztake len (zdrop offset (view (m_sbuf t)))) len
        (wrap32 (rec_time e)) (m_ts_recent t)) s).
Proof.
  intros Hok Hlen Hmax Hoff Hfit Hseq Hfl Hconv Hnxt Hts.
  apply wp_packet; try done. intros t' r _ e1 w Hr.
  split; [by subst r; case_decide|].
  exists (packet_bytes t (wrap32 (rec_time e)) seq flags offset len). split; [done|].
  intros E env s. unfold packet_bytes, header_of.
  set (d := ztake len (zdrop offset (view (m_sbuf t)))).
  assert (Hd : zlen d = len).
  { pose proof (zlen_view _ Hok). pose proof (ok_data _ Hok). subst d.
    rewrite zlen_ztake; [done|]. rewrite zlen_zdrop; lia. }
  change (encode_header ?a ?b ?c ?d ?w ?x ?y ++ ?p) with (encode a b c d w x y p).
  assert (Hz : forall a b c f w x y, zlen (encode a b c f w x y d) = HEADER_SIZE + len)
    by (intros; unfold encode; by rewrite zlen_app, zlen_header, Hd).
  unfold NotifyPacket. rewrite Hz. rewrite Z.gtb_ltb, (proj2 (Z.ltb_ge _ _)) by lia.
  unfold MAX_PACKET, HEADER_SIZE in *. rewrite (wrap32_small (24 + len)) by lia.
  replace (24 + len) with (HEADER_SIZE + zlen d) by (unfold HEADER_SIZE; lia).
  rewrite parse_encode; try done; try apply wrap16_range; try apply wrap32_range. by rewrite Hd.
Qed.

(** Two bytes from the middle of a ring that wraps around. *)
Lemma packet_wire_roundtrip_witness :
  let heap := filled_heap Byte.x00 in
  let ring := mkFifo SS_OPEN [Byte.x0a; Byte.x0b; Byte.x0c; Byte.x0d] 4 3 2 in
  let t := set_m_sbuf ring (@PseudoTcp_init heap 7 1000) in
  wp (@packet recorder _ heap 5 FLAG_CTL 1 2) (mkRecorder 1000 [] [], t) (fun r '(e', _) =>
    r = WR_SUCCESS /\
    exists p, rec_sent e' = [] ++ [p] /\
    forall (E : Type) (env : IPseudoTcpNotify E) (s : E * PseudoTcp),
      NotifyPacket p s =
      process (mkSegment 7 5 0 FLAG_CTL (wrap16 (Z.shiftr (m_rcv_wnd t) (m_rwnd_scale t)))
        (ztake 2 (zdrop 1 (view ring))) 2 (wrap32 1000) 0) s).
Proof.
  intros heap ring t.
  apply (@packet_wire_roundtrip heap 5 FLAG_CTL 1 2 (mkRecorder 1000 [] []) t);
    [|vm_compute; done..]. constructor; unfold zlen; cbn; lia.
Defined.
