(* ===== verification/TcpQueue.v ===== *)
(** * The send queue of PseudoTcp

    [m_slist] cuts the bytes between [m_snd_una] and the end of the send
    buffer into segments; those sent at least once come first and end at
    [m_snd_nxt].  [queue_ok] states this for a queue as a value, and the lemmas
    show that what the code does to the list (split a segment, send one,
    take acknowledged ones off, append new data) keeps it. *)

From Stdlib Require Import ZArith Lia.
From S2P Require Import Prelude FifoBuffer TcpState PseudoTcp.

Fixpoint seg_sum (l : list SSegment) : Z :=
  match l with [] => 0 | s :: l => s_len s + seg_sum l end.

(** The segments follow each other without gaps from sequence number [seq]. *)
Fixpoint chain (seq : Z) (l : list SSegment) : Prop :=
  match l with
  | [] => True
  | s :: l => s_seq s = seq /\ 0 <= s_len s /\ chain (seq + s_len s) l
  end.

Definition sent (s : SSegment) : Prop := 0 < s_xmit s <= 30.
Definition unsent (s : SSegment) : Prop := s_xmit s = 0.

(** Control segments carry the bytes below [c], data segments those above. *)
Definition in_part (c : Z) (s : SSegment) : Prop :=
  if s_bCtrl s then s_seq s + s_len s <= c else c <= s_seq s.

Record queue_ok (una nxt total c : Z) (l : list SSegment) : Prop := {
  qo_chain : chain una l;
  qo_total : una + seg_sum l = total;
  qo_split : exists pre post, l = pre ++ post /\ Forall sent pre /\ Forall unsent post /\
               una + seg_sum pre = nxt;
  qo_part : Forall (in_part c) l
}.

Lemma seg_sum_app l k : seg_sum (l ++ k) = seg_sum l + seg_sum k.
Proof. induction l; cbn; lia. Qed.

Lemma chain_app seq l k : chain seq (l ++ k) <-> chain seq l /\ chain (seq + seg_sum l) k.
Proof.
  revert seq. induction l as [|s l IH]; intros seq; cbn.
  - rewrite Z.add_0_r. tauto.
  - rewrite IH, Z.add_assoc. tauto.
Qed.

Lemma chain_nonneg seq l : chain seq l -> 0 <= seg_sum l.
Proof.
  revert seq. induction l as [|s l IH]; intros seq; cbn; [lia|].
  intros (_ & H & Hc). specialize (IH _ Hc). lia.
Qed.

Lemma sent_unsent s : sent s -> unsent s -> False.
Proof. unfold sent, unsent. lia. Qed.

(** A queue determines which of its segments are sent. *)
Lemma split_at l1 s l2 pre post :
  l1 ++ s :: l2 = pre ++ post -> Forall sent l1 -> Forall sent pre -> Forall unsent post ->
  (sent s /\ exists k, pre = l1 ++ s :: k /\ l2 = k ++ post) \/
  (unsent s /\ pre = l1 /\ post = s :: l2).
Proof.
  revert pre. induction l1 as [|x l1 IH]; intros pre E Hl1 Hpre Hpost; cbn in *.
  - destruct pre as [|y pre]; cbn in E.
    + subst post. inversion Hpost; subst. by right.
    + injection E as <- ->. inversion Hpre; subst. left. split; [done|]. by exists pre.
  - inversion Hl1 as [|? ? Hx Hl1']; subst. destruct pre as [|y pre]; cbn in E.
    + subst post. inversion Hpost; subst. by destruct (sent_unsent x).
    + injection E as <- E. inversion Hpre; subst.
      destruct (IH pre E) as [(Hs & k & -> & ->)|(Hs & -> & ->)]; try done.
      * left. split; [done|]. by exists k.
      * by right.
Qed.

(** ** Splitting a segment in two *)

Definition cut (s : SSegment) (n : Z) : list SSegment :=
  [mkSSegment (s_seq s) n (s_xmit s) (s_bCtrl s);
   mkSSegment (s_seq s + n) (s_len s - n) (s_xmit s) (s_bCtrl s)].

Lemma cut_sum s n : seg_sum (cut s n) = s_len s.
Proof. cbn. lia. Qed.

Lemma queue_ok_cut una nxt total c l1 s l2 n :
  queue_ok una nxt total c (l1 ++ s :: l2) -> Forall sent l1 -> 0 <= n <= s_len s ->
  queue_ok una nxt total c (l1 ++ cut s n ++ l2).
Proof.
  intros [Hc Ht (pre & post & E & Hpre & Hpost & Hn) Hp] Hl1 Hle.
  apply chain_app in Hc as [Hc1 (Hseq & Hlen & Hc2)].
  assert (Hsum : forall k, seg_sum (cut s n ++ k) = seg_sum (s :: k))
    by (intros k; rewrite seg_sum_app, cut_sum; done).
  constructor.
  - apply chain_app. split; [done|]. cbn. rewrite Hseq.
    repeat split; try lia. by rewrite <- Z.add_assoc, Zplus_minus.
  - rewrite seg_sum_app, Hsum, <- seg_sum_app. done.
  - destruct (split_at l1 s l2 pre post E) as [(Hs & k & -> & ->)|(Hs & -> & ->)]; try done.
    + exists (l1 ++ cut s n ++ k), post. rewrite <- !app_assoc. split; [done|].
      apply Forall_app in Hpre as [_ Hk]. apply Forall_cons_1 in Hk as [_ Hk].
      split; [apply Forall_app; split; [done|];
             by constructor; [|constructor]|].
      split; [done|]. by rewrite seg_sum_app, Hsum, <- seg_sum_app.
    + exists l1, (cut s n ++ l2). apply Forall_cons_1 in Hpost as [_ Hpost].
      repeat split; try done. by constructor; [|constructor].
  - apply Forall_app in Hp as [Hp1 Hp2]. apply Forall_cons_1 in Hp2 as [Hs Hp3].
    apply Forall_app. split; [done|]. unfold cut, in_part in *. cbn.
    constructor; [|constructor; [|done]]; cbn; destruct (s_bCtrl s); lia.
Qed.

(** ** Sending (again) the first segment or the first unsent one *)

Definition bump (s : SSegment) : SSegment :=
  mkSSegment (s_seq s) (s_len s) (s_xmit s + 1) (s_bCtrl s).

Lemma queue_ok_bump una nxt total c l1 s l2 :
  queue_ok una nxt total c (l1 ++ s :: l2) -> Forall sent l1 -> s_xmit s < 30 ->
  queue_ok una (if s_xmit s =? 0 then nxt + s_len s else nxt) total c (l1 ++ bump s :: l2).
Proof.
  intros [Hc Ht (pre & post & E & Hpre & Hpost & Hn) Hp] Hl1 Hx.
  constructor.
  - apply chain_app in Hc. apply chain_app. done.
  - rewrite seg_sum_app in Ht |- *. done.
  - destruct (split_at l1 s l2 pre post E) as [(Hs & k & -> & ->)|(Hs & -> & ->)]; try done.
    + unfold sent in Hs. rewrite (proj2 (Z.eqb_neq _ 0)) by lia.
      exists (l1 ++ bump s :: k), post. rewrite <- app_assoc. split; [done|].
      apply Forall_app in Hpre as [_ Hk]. apply Forall_cons_1 in Hk as [_ Hk].
      split; [apply Forall_app; split; [done|]; constructor; [|done]; unfold sent; cbn; lia|].
      split; [done|]. by rewrite seg_sum_app in Hn |- *.
    + unfold unsent in Hs. rewrite Hs. cbn [Z.eqb].
      exists (l1 ++ [bump s]), l2. rewrite <- app_assoc. split; [done|].
      apply Forall_cons_1 in Hpost as [_ Hpost].
      split; [apply Forall_app; split; [done|]; constructor; [|done]; unfold sent; cbn; lia|].
      split; [done|]. rewrite seg_sum_app in *. cbn. lia.
  - apply Forall_app in Hp as [Hp1 Hp2]. apply Forall_cons_1 in Hp2 as [? ?].
    apply Forall_app. split; [done|]. by constructor.
Qed.

(** ** Taking acknowledged segments off *)

(** [boundary l n]: a segment boundary lies [n] bytes into the queue. *)
Definition boundary (l : list SSegment) (n : Z) : Prop :=
  exists l1 l2, l = l1 ++ l2 /\ seg_sum l1 = n.

Lemma free_segments_spec pre post n largest seq :
  chain seq (pre ++ post) -> 0 <= n <= seg_sum pre -> boundary (pre ++ post) n ->
  exists pre1 pre2 largest', pre = pre1 ++ pre2 /\ seg_sum pre1 = n /\
    free_segments (pre ++ post) n largest = Ret (pre2 ++ post, largest').
Proof.
  revert n largest seq. induction pre as [|s pre IH]; intros n largest seq Hc Hn Hb; cbn in Hn.
  - exists [], [], largest. assert (n = 0) as -> by lia. by destruct post.
  - cbn [app] in *. destruct (Z.eq_dec n 0) as [->|Hne]; [by exists [], (s :: pre), largest|].
    destruct Hc as (Hseq & Hlen & Hc). destruct Hb as (l1 & l2 & El & Esum).
    destruct l1 as [|s' l1]; cbn in Esum; [lia|]. injection El as <- El.
    pose proof Hc as Hc'. rewrite El in Hc'. apply chain_app in Hc' as [Hc1 _].
    pose proof (chain_nonneg _ _ Hc1).
    cbn [free_segments]. rewrite (proj2 (Z.ltb_lt 0 n)) by lia.
    rewrite (proj2 (Z.ltb_ge n (s_len s))) by lia.
    destruct (IH (n - s_len s) (if s_len s >? largest then s_len s else largest) _ Hc)
      as (pre1 & pre2 & lg & -> & Hs & Hf); [lia| |].
    { exists l1, l2. split; [done|lia]. }
    exists (s :: pre1), pre2, lg. cbn. split; [done|]. split; [lia|done].
Qed.

Lemma queue_ok_ack una nxt total c l n largest :
  queue_ok una nxt total c l -> 0 <= n <= nxt - una -> boundary l n ->
  exists l' largest', free_segments l n largest = Ret (l', largest') /\
    queue_ok (una + n) nxt total c l' /\ exists l1, l = l1 ++ l'.
Proof.
  intros [Hc Ht (pre & post & -> & Hpre & Hpost & Hn) Hp] Hle Hb.
  destruct (free_segments_spec pre post n largest una Hc ltac:(lia) Hb)
    as (pre1 & pre2 & lg & -> & Hs & Hf).
  exists (pre2 ++ post), lg. split; [done|]. rewrite <- app_assoc in *.
  split; [|by exists pre1]. apply Forall_app in Hpre as [_ Hpre]. apply Forall_app in Hp as [_ Hp].
  apply chain_app in Hc as [_ Hc]. rewrite seg_sum_app in Ht, Hn. rewrite Hs in *.
  constructor; [done|lia| |done]. exists pre2, post. repeat split; try done. lia.
Qed.

(** ** Appending data *)

Lemma queue_ok_push una nxt total c l n ctrl :
  queue_ok una nxt total c l -> 0 <= n ->
  in_part c (mkSSegment total n 0 ctrl) ->
  queue_ok una nxt (total + n) c (l ++ [mkSSegment total n 0 ctrl]).
Proof.
  intros [Hc Ht (pre & post & -> & Hpre & Hpost & Hn) Hp] Hle Hi. constructor.
  - apply chain_app. split; [done|]. cbn. split; [lia|done].
  - rewrite seg_sum_app. cbn. lia.
  - exists pre, (post ++ [mkSSegment total n 0 ctrl]). rewrite app_assoc.
    repeat split; try done. apply Forall_app. split; [done|]. by constructor.
  - apply Forall_app. split; [done|]. by constructor.
Qed.

Lemma queue_ok_extend una nxt total c l s n :
  queue_ok una nxt total c (l ++ [s]) -> 0 <= n -> unsent s ->
  in_part c (mkSSegment (s_seq s) (s_len s + n) (s_xmit s) (s_bCtrl s)) ->
  queue_ok una nxt (total + n) c (l ++ [mkSSegment (s_seq s) (s_len s + n) (s_xmit s) (s_bCtrl s)]).
Proof.
  intros [Hc Ht (pre & post & E & Hpre & Hpost & Hn) Hp] Hle Hx Hi. constructor.
  - apply chain_app in Hc as [Hc (Hseq & Hlen & _)]. apply chain_app. cbn. repeat split; try done. lia.
  - rewrite seg_sum_app in Ht |- *. cbn in *. lia.
  - destruct post as [|p post _] using rev_ind.
    + rewrite app_nil_r in E. subst pre. apply Forall_app in Hpre as [_ Hs].
      apply Forall_cons_1 in Hs as [Hs _]. by destruct (sent_unsent s).
    + rewrite app_assoc in E. apply app_inj_tail in E as [-> ->].
      apply Forall_app in Hpost as [Hpost _].
      exists pre, (post ++ [mkSSegment (s_seq p) (s_len p + n) (s_xmit p) (s_bCtrl p)]).
      rewrite app_assoc. repeat split; try done.
      apply Forall_app. split; [done|]. by constructor.
  - apply Forall_app in Hp as [Hp _]. apply Forall_app. split; [done|]. by constructor.
Qed.

(** ** The list operations of the code *)

Lemma set_at_middle l1 s s' l2 : set_at (length l1) s' (l1 ++ s :: l2) = l1 ++ s' :: l2.
Proof.
  unfold set_at. rewrite insert_app_r_alt by done. by rewrite Nat.sub_diag.
Qed.

Lemma insert_after_middle l1 s s' l2 :
  insert_after (length l1) s' (l1 ++ s :: l2) = l1 ++ s :: s' :: l2.
Proof.
  unfold insert_after. induction l1 as [|x l1 IH]; [done|]. cbn in *. by rewrite IH.
Qed.

Lemma lookup_middle (l1 : list SSegment) s l2 : (l1 ++ s :: l2) !! length l1 = Some s.
Proof. apply list_lookup_middle. done. Qed.

(** The search finds the first unsent segment when there is one. *)
Lemma find_unsent_spec pre s post i :
  Forall sent pre -> unsent s -> find_unsent (pre ++ s :: post) i = Ret (i + length pre)%nat.
Proof.
  revert i. induction pre as [|x pre IH]; intros i Hpre Hs.
  - cbn. unfold unsent in Hs. rewrite Hs. cbn. f_equal. lia.
  - apply Forall_cons_1 in Hpre as [Hx Hpre]. unfold sent in Hx. cbn [app].
    specialize (IH (S i) Hpre Hs). destruct (pre ++ s :: post) as [|y l] eqn:E; [by destruct pre|].
    transitivity (find_unsent (y :: l) (S i)).
    + cbn. by rewrite (proj2 (Z.ltb_lt 0 (s_xmit x))) by lia.
    + rewrite IH. f_equal. cbn. lia.
Qed.

(** Unsent bytes are in an unsent segment. *)
Lemma queue_first_unsent una nxt total c l :
  queue_ok una nxt total c l -> nxt < total ->
  exists pre s post, l = pre ++ s :: post /\ Forall sent pre /\ unsent s.
Proof.
  intros [Hc Ht (pre & post & -> & Hpre & Hpost & Hn) Hp] Hlt.
  destruct post as [|s post]; [rewrite app_nil_r in Ht; lia|].
  apply Forall_cons_1 in Hpost as [Hs _]. by exists pre, s, post.
Qed.

Lemma queue_ok_range una nxt total c l :
  queue_ok una nxt total c l -> una <= nxt <= total.
Proof.
  intros [Hc Ht (pre & post & -> & Hpre & Hpost & Hn) Hp].
  rewrite seg_sum_app in Ht. apply chain_app in Hc as [H1 H2].
  apply chain_nonneg in H1, H2. lia.
Qed.

(** A segment of the queue: its bytes lie between [una] and [total]. *)
Lemma queue_ok_segment una nxt total c l1 s l2 :
  queue_ok una nxt total c (l1 ++ s :: l2) ->
  una <= s_seq s /\ 0 <= s_len s /\ s_seq s + s_len s <= total /\ in_part c s.
Proof.
  intros [Hc Ht _ Hp]. rewrite seg_sum_app in Ht.
  apply chain_app in Hc as [H1 (Hseq & Hlen & H2)]. apply chain_nonneg in H1, H2.
  apply Forall_app in Hp as [_ Hp]. apply Forall_cons_1 in Hp as [Hp _].
  cbn in Ht. repeat split; try done; lia.
Qed.

(** ** Acknowledgement points

    An honest peer acknowledges what it received in whole segments: an
    acknowledgement is old, or the end of a sent segment of the queue. *)
Definition ack_point (una : Z) (l : list SSegment) (a : Z) : Prop :=
  a <= una \/ exists l1 l2, l = l1 ++ l2 /\ Forall sent l1 /\ una + seg_sum l1 = a.

Lemma app_middle {A} (l1 : list A) s l2 p q :
  l1 ++ s :: l2 = p ++ q ->
  (exists k, l1 = p ++ k /\ q = k ++ s :: l2) \/ (exists k, p = l1 ++ s :: k /\ l2 = k ++ q).
Proof.
  revert p. induction l1 as [|x l1 IH]; intros p Eq; cbn in Eq.
  - destruct p as [|y p]; cbn in Eq; [left; by exists []|].
    injection Eq as <- ->. right. by exists p.
  - destruct p as [|y p]; cbn in Eq; [left; by exists (x :: l1)|].
    injection Eq as <- Eq. destruct (IH p Eq) as [(k & -> & ->)|(k & -> & ->)];
      [left|right]; by exists k.
Qed.

(** Replacing a segment by pieces of the same length keeps the points. *)
Lemma ack_point_replace una l1 s l2 c a :
  seg_sum c = s_len s -> (sent s -> Forall sent c) ->
  ack_point una (l1 ++ s :: l2) a -> ack_point una (l1 ++ c ++ l2) a.
Proof.
  intros Hc Hs [Ha|(p & q & Eq & Hp & Ha)]; [by left|]. right.
  destruct (app_middle l1 s l2 p q Eq) as [(k & -> & ->)|(k & -> & ->)].
  - exists p, (k ++ c ++ l2). by rewrite <- app_assoc.
  - exists (l1 ++ c ++ k), q. rewrite <- !app_assoc. split; [done|].
    apply Forall_app in Hp as [Hp1 Hp2]. apply Forall_cons_1 in Hp2 as [Hps Hp2].
    split; [apply Forall_app; split; [done|]; apply Forall_app; auto|].
    rewrite !seg_sum_app, Hc in *. cbn in Ha. lia.
Qed.

(** Appending, and extending a last segment that was not sent, keep them. *)
Lemma ack_point_push una l k a : ack_point una l a -> ack_point una (l ++ k) a.
Proof.
  intros [Ha|(p & q & -> & Hp & Ha)]; [by left|]. right. exists p, (q ++ k). by rewrite <- app_assoc.
Qed.

Lemma ack_point_extend una l s s' a :
  unsent s -> ack_point una (l ++ [s]) a -> ack_point una (l ++ [s']) a.
Proof.
  intros Hs [Ha|(p & q & Eq & Hp & Ha)]; [by left|]. right.
  destruct (app_middle l s [] p q Eq) as [(k & -> & ->)|(k & -> & Ek)].
  - exists p, (k ++ [s']). by rewrite <- app_assoc.
  - apply Forall_app in Hp as [_ Hp]. apply Forall_cons_1 in Hp as [Hp _]. by destruct (sent_unsent s).
Qed.

(** A valuable ack at a point cuts the queue at a segment boundary, and the
    points beyond it stay. *)
Lemma ack_point_boundary una l a : ack_point una l a -> una <= a -> boundary l (a - una).
Proof.
  intros [Ha|(p & q & -> & Hp & Ha)] Hle.
  - exists [], l. cbn. split; [done|lia].
  - exists p, q. split; [done|lia].
Qed.

Lemma ack_point_ack una nxt total c l1 l' a b :
  queue_ok una nxt total c (l1 ++ l') -> una + seg_sum l1 = a ->
  ack_point una (l1 ++ l') b -> ack_point a l' b.
Proof.
  intros Hq Hs [Hb|(p & q & Eq & Hp & Hb)].
  { left. destruct Hq as [Hc _ _ _]. apply chain_app in Hc as [Hc _]. apply chain_nonneg in Hc. lia. }
  destruct (Z.le_gt_cases b a); [by left|]. right.
  assert (Hk : exists k, p = l1 ++ k /\ l' = k ++ q).
  { destruct (decide (length l1 <= length p)%nat) as [Hle|Hgt].
    - exists (drop (length l1) p). split.
      + rewrite <- (take_drop (length l1) p) at 1. f_equal.
        apply (f_equal (take (length l1))) in Eq.
        rewrite take_app_length, take_app_le in Eq by done. done.
      + apply (f_equal (drop (length l1))) in Eq.
        rewrite drop_app_length, drop_app_le in Eq by done. done.
    - exfalso. assert (Hl : l1 = p ++ drop (length p) l1).
      { rewrite <- (take_drop (length p) l1) at 1. f_equal.
        apply (f_equal (take (length p))) in Eq.
        rewrite take_app_length, take_app_le in Eq by lia. done. }
      rewrite Hl, seg_sum_app in Hs. destruct Hq as [Hc _ _ _]. rewrite Hl in Hc.
      apply chain_app in Hc as [Hc _]. apply chain_app in Hc as [_ Hc]. apply chain_nonneg in Hc. lia. }
  destruct Hk as (k & -> & ->). exists k, q. split; [done|].
  apply Forall_app in Hp as [_ Hp]. split; [done|]. rewrite seg_sum_app in Hb. lia.
Qed.
