(* ===== verification/TcpSend.v ===== *)
(** * The sender of PseudoTcp

    A ghost value records every byte that was ever queued for sending and how
    many of them, at the front, are control bytes.  The invariant [snd_inv]
    ties the send buffer, the send queue and the counters to it, and says
    that every packet handed to the network is a good one: its payload is the
    stretch of that byte stream which its sequence number claims.  The
    network's own state is only known through an invariant [net] that good
    packets keep.  The sequence numbers of the code do not wrap (they are
    compared as plain integers), so the stream is shorter than 4 GiB. *)

From Stdlib Require Import ZArith Lia.
From S2P Require Import Prelude ByteOrder ConstBuffer ByteBuffer FifoBuffer.
From S2P Require Import TcpState PseudoTcp TcpWire TcpQueue.

(** ** The stream and the packets that carry it *)

Record stream : Type := mkStream { g_bytes : list byte; g_ctl : Z }.

(** The stream grows at its end; the control part is fixed by the first bytes. *)
Definition stream_le (g g' : stream) : Prop :=
  (exists d, g_bytes g' = g_bytes g ++ d) /\ (g_ctl g' = g_ctl g \/ g_bytes g = []).

Definition slice (g : list byte) (seq : Z) (d : list byte) : Prop :=
  0 <= seq /\ seq + zlen d <= zlen g /\ d = ztake (zlen d) (zdrop seq g).

Definition good_payload (g : stream) (seq flags : Z) (d : list byte) : Prop :=
  d = [] \/ (slice (g_bytes g) seq d /\
             if flags =? 0 then g_ctl g <= seq else seq + zlen d <= g_ctl g).

Definition good_packet (g : stream) (conv : Z) (p : list byte) : Prop :=
  exists seq ack flags wnd tsval tsecr d,
    p = encode conv seq ack flags wnd tsval tsecr d /\
    0 <= seq < 2 ^ 32 /\ 0 <= ack < 2 ^ 32 /\ (flags = 0 \/ flags = FLAG_CTL) /\
    0 <= wnd < 2 ^ 16 /\ 0 <= tsval < 2 ^ 32 /\ 0 <= tsecr < 2 ^ 32 /\
    HEADER_SIZE + zlen d <= MAX_PACKET /\ good_payload g seq flags d.

(** What is known about the network: it keeps [net] while it reads the clock
    and is given good packets, and [net] outlives the growth of the stream. *)
Class Network (E : Type) `{IPseudoTcpNotify E} : Type := {
  net : stream -> Z -> E -> Prop;
  net_now g conv e : net g conv e -> net g conv (snd (env_Now e));
  net_write g conv e p :
    net g conv e -> good_packet g conv p -> net g conv (snd (env_TcpWritePacket p e));
  net_grow g g' conv e : net g conv e -> stream_le g g' -> net g' conv e
}.

(** ** The invariant *)

Record snd_ok (g : stream) (t : PseudoTcp) : Prop := {
  so_fifo : fifo_ok (m_sbuf t);
  so_open : state_ (m_sbuf t) <> SS_CLOSED;
  so_cap : 4 <= buffer_length_ (m_sbuf t) < 2 ^ 31;
  so_size : zlen (g_bytes g) < 2 ^ 32;
  so_una : 0 <= m_snd_una t;
  so_data : zlen (g_bytes g) = m_snd_una t + data_length_ (m_sbuf t);
  so_bytes : readable (m_sbuf t) = zdrop (m_snd_una t) (g_bytes g);
  so_queue : queue_ok (m_snd_una t) (m_snd_nxt t) (zlen (g_bytes g)) (g_ctl g) (m_slist t);
  so_recover : m_recover t <= m_snd_nxt t
}.

(** Ranges of the counters: the segment size is positive and fits a packet,
    the retransmission timeout stays between its limits, window and
    congestion window are 32-bit values. *)
Record num_ok (t : PseudoTcp) : Prop := {
  no_mss : 0 < m_mss t <= MAX_PACKET - PACKET_OVERHEAD;
  no_level : 0 <= m_msslevel t <= 9;
  no_ssthresh : 0 < m_ssthresh t < 2 ^ 32;
  no_cwnd : 0 <= m_cwnd t < 2 ^ 32;
  no_wnd : 0 <= m_snd_wnd t < 2 ^ 32;
  no_rto : MIN_RTO <= m_rx_rto t <= MAX_RTO;
  no_scale : 0 <= m_swnd_scale t < 32;
  no_mtu : PACKET_OVERHEAD < m_mtu_advise t <= MAX_PACKET;
  no_dup : 0 <= m_dup_acks t < 2 ^ 8
}.

(** What goes into a header is in range. *)
Record wire_ok (t : PseudoTcp) : Prop := {
  wo_nxt : 0 <= m_rcv_nxt t < 2 ^ 32;
  wo_ts : 0 <= m_ts_recent t < 2 ^ 32
}.

(** What the sending side does not touch. *)
Definition recv_part (t : PseudoTcp) :=
  (m_rlist t, m_rbuf t, m_rbuf_len t, m_rcv_nxt t, m_rcv_wnd t, m_rwnd_scale t,
   (m_shutdown t, m_state t, m_conv t, m_ts_recent t, m_mtu_advise t, m_swnd_scale t)).

(** [same_queue t t']: neither the receiving side nor the send queue moved. *)
Definition same_queue (t t' : PseudoTcp) : Prop :=
  recv_part t' = recv_part t /\ m_slist t' = m_slist t /\ m_snd_una t' = m_snd_una t /\
  m_snd_nxt t' = m_snd_nxt t /\ m_sbuf t' = m_sbuf t.

#[export] Instance same_queue_preorder : PreOrder same_queue.
Proof.
  split; [by repeat split|]. intros t1 t2 t3 (? & ? & ? & ? & ?) (? & ? & ? & ? & ?).
  repeat split; by etransitivity.
Qed.

Fixpoint empty_count (l : list SSegment) : Z :=
  match l with
  | [] => 0
  | s :: l => (if (s_xmit s =? 0) && (s_len s =? 0) then 1 else 0) + empty_count l
  end.

(** Unsent bytes plus unsent segments that are empty: what is left to do. *)
Definition backlog (g : stream) (t : PseudoTcp) : Z :=
  zlen (g_bytes g) - m_snd_nxt t + empty_count (m_slist t).

(** Assigning members that the invariant does not mention, or (where [lia]
    sees it) in range. *)
Ltac frame H :=
  destruct H as [[] [] [] ?]; constructor; cbn [fst snd] in *;
  [constructor; try assumption; cbn; try lia
  |constructor; try assumption; cbn; consts; try lia
  |constructor; try assumption; cbn; try lia
  |assumption].

(** What sending a segment leaves alone: the receiver, the stream, and the
    points that a peer may acknowledge. *)
Definition keeps_acks (t t' : PseudoTcp) : Prop :=
  forall a, ack_point (m_snd_una t) (m_slist t) a -> ack_point (m_snd_una t') (m_slist t') a.

Definition same_stream (t t' : PseudoTcp) : Prop :=
  recv_part t' = recv_part t /\ m_snd_una t' = m_snd_una t /\ m_sbuf t' = m_sbuf t /\
  keeps_acks t t' /\ (m_slist t = [] -> m_slist t' = []).

#[export] Instance same_stream_preorder : PreOrder same_stream.
Proof.
  split; [intros t; repeat split; [by intros a|done]|].
  intros t1 t2 t3 (? & ? & ? & Hk & ?) (? & ? & ? & Hk' & ?).
  repeat split; [by etransitivity..| |auto]. intros a Ha. by apply Hk', Hk.
Qed.

Lemma same_queue_stream t t' : same_queue t t' -> same_stream t t'.
Proof.
  intros (? & Hl & Hu & ? & ?). repeat split; try done; [|congruence]. intros a. by rewrite Hl, Hu.
Qed.

Section Sender.
Context {E : Type} `{Network E} `{Heap}.

Record snd_inv (g : stream) (s : E * PseudoTcp) : Prop := {
  si_snd : snd_ok g (snd s);
  si_num : num_ok (snd s);
  si_wire : wire_ok (snd s);
  si_net : net g (m_conv (snd s)) (fst s)
}.

(** *** [packet] keeps the invariant *)

Lemma timers_only_inv g t t' :
  timers_only t t' -> snd_ok g t -> num_ok t -> wire_ok t ->
  snd_ok g t' /\ num_ok t' /\ wire_ok t' /\ same_queue t t' /\ m_msslevel t' = m_msslevel t.
Proof.
  intros (a & b & c & d & f & ->) [] [] []. do 3 (split; [constructor; assumption|]).
  repeat split.
Qed.

Lemma header_good t now seq flags d :
  wire_ok t -> 0 <= now < 2 ^ 32 -> 0 <= seq < 2 ^ 32 -> flags = 0 \/ flags = FLAG_CTL ->
  forall g, HEADER_SIZE + zlen d <= MAX_PACKET -> good_payload g seq flags d ->
  good_packet g (m_conv t) (header_of t now seq flags ++ d).
Proof.
  intros [Hn Ht] Hnow Hseq Hf g Hd Hg.
  exists seq, (m_rcv_nxt t), flags, (wrap16 (Z.shiftr (m_rcv_wnd t) (m_rwnd_scale t))),
    now, (m_ts_recent t), d.
  split; [done|]. repeat (split; [done|]).
  split; [apply wrap16_range|]. done.
Qed.

(** The answer of [packet] to a request that the invariant justifies. *)
Lemma wp_packet_inv g e t seq flags offset len :
  snd_inv g (e, t) -> 0 <= seq < 2 ^ 32 -> flags = 0 \/ flags = FLAG_CTL ->
  0 <= len -> HEADER_SIZE + len <= MAX_PACKET -> 0 <= offset ->
  (len <> 0 -> offset + len <= data_length_ (m_sbuf t) /\ seq = m_snd_una t + offset /\
     if flags =? 0 then g_ctl g <= seq else seq + len <= g_ctl g) ->
  wp (packet seq flags offset len) (e, t) (fun r '(e', t') =>
    snd_inv g (e', t') /\ timers_only t t' /\ (len = 0 -> r = WR_SUCCESS)).
Proof.
  intros [Hs Hn Hw He] Hseq Hf Hlen Hmax Hoff Hfit. cbn [fst snd] in *.
  apply wp_packet; try done; [apply Hs|intros Hne; by apply Hfit|].
  intros t' r Ht e1 w Hr. destruct (timers_only_inv g t t' Ht Hs Hn Hw) as (? & ? & ? & (Hrp & _) & _).
  assert (Hconv : m_conv t' = m_conv t) by (unfold recv_part in Hrp; congruence).
  split; [|split; [done|]; intros ->; by rewrite decide_True in Hr].
  constructor; cbn [fst snd]; try done. rewrite Hconv. subst w. apply net_write.
  { subst e1. by apply net_now. }
  pose proof (env_Now_range e). unfold packet_bytes.
  destruct (Z.eq_dec len 0) as [->|Hne].
  { rewrite ztake_0. apply header_good; try done. by left. }
  destruct (Hfit Hne) as (Hfits & Hsq & Hpart).
  destruct Hs as [Hfifo _ _ _ Huna Hdata Hbytes _ _].
  assert (Hd : ztake len (zdrop offset (view (m_sbuf t))) = ztake len (zdrop seq (g_bytes g))).
  { rewrite Hsq, <- zdrop_zdrop by lia. rewrite <- Hbytes.
    unfold readable, ztake, zdrop. rewrite skipn_firstn_comm, take_take. f_equal. lia. }
  assert (Hz : zlen (ztake len (zdrop seq (g_bytes g))) = len).
  { rewrite zlen_ztake; [done|]. rewrite zlen_zdrop; lia. }
  rewrite Hd. apply header_good; try done; [by rewrite Hz|].
  right. unfold slice. rewrite Hz. repeat split; try done; lia.
Qed.

(** *** The segment size *)

(** [mss_only t t']: [t'] is [t] up to the segment size and the window it resets. *)
Definition mss_only (t t' : PseudoTcp) : Prop :=
  exists level mss cwnd, t' = set_m_cwnd cwnd (set_m_mss mss (set_m_msslevel level t)) /\
    m_msslevel t <= level /\ (level <= 9) /\ 0 < mss <= MAX_PACKET - PACKET_OVERHEAD /\
    0 <= cwnd < 2 ^ 32.

Lemma mss_only_refl t : num_ok t -> mss_only t t.
Proof.
  intros []. exists (m_msslevel t), (m_mss t), (m_cwnd t).
  split; [by destruct t|]. repeat split; lia.
Qed.

Lemma mss_only_inv g e t t' :
  mss_only t t' -> snd_inv g (e, t) ->
  snd_inv g (e, t') /\ same_queue t t'.
Proof.
  intros (level & mss & cwnd & -> & Hl1 & Hl2 & Hm & Hc) [[] [] [] ?].
  split; [|by repeat split]. constructor; cbn [fst snd] in *; [| | |assumption].
  - constructor; assumption.
  - constructor; try assumption; cbn; lia.
  - constructor; assumption.
Qed.

(** The next smaller packet size: either the end of the list or at least the
    smallest packet. *)
Lemma PACKET_MAXIMUM_next level :
  0 <= level <= 9 ->
  exists p, PACKET_MAXIMUM (level + 1) = Ret p /\
    ((level = 9 /\ p = 0) \/ (level < 9 /\ MIN_PACKET <= p <= MAX_PACKET)).
Proof.
  intros Hl. assert (level = 0 \/ level = 1 \/ level = 2 \/ level = 3 \/ level = 4 \/
    level = 5 \/ level = 6 \/ level = 7 \/ level = 8 \/ level = 9) as Hc by lia.
  unfold MIN_PACKET, MAX_PACKET.
  repeat destruct Hc as [->|Hc]; [..|subst level]; eexists; (split; [reflexivity|]); lia.
Qed.

Lemma wp_lower_mss fuel n (e : E) t :
  num_ok t -> 10 - m_msslevel t <= Z.of_nat fuel ->
  wp (lower_mss fuel n) (e, t) (fun o '(e', t') =>
    e' = e /\ mss_only t t' /\
    match o with Some k => 0 < k < n /\ m_msslevel t < m_msslevel t' | None => True end).
Proof.
  revert t. induction fuel as [|fuel IH]; intros t Hn Hf.
  { destruct Hn; lia. }
  cbn [lower_mss]. wp_run. destruct (PACKET_MAXIMUM_next (m_msslevel t)) as (p & Hp & Hcase);
    [by destruct Hn|].
  apply (wp_lift_ret _ p); [done|].
  destruct Hcase as [[Hl ->]|[Hl Hrange]].
  { cbn [Z.eqb]. wp_run. split; [done|]. split; [by apply mss_only_refl|done]. }
  unfold MIN_PACKET, MAX_PACKET in Hrange.
  rewrite (proj2 (Z.eqb_neq p 0)) by lia. wp_run.
  assert (Hmss : wrap32 (p - PACKET_OVERHEAD) = p - PACKET_OVERHEAD)
    by (apply wrap32_small; unfold PACKET_OVERHEAD, HEADER_SIZE, UDP_HEADER_SIZE,
          IP_HEADER_SIZE, JINGLE_HEADER_SIZE; lia).
  rewrite Hmss. set (mss := p - PACKET_OVERHEAD).
  assert (Hb : 0 < mss <= MAX_PACKET - PACKET_OVERHEAD)
    by (subst mss; unfold MAX_PACKET, PACKET_OVERHEAD, HEADER_SIZE, UDP_HEADER_SIZE,
          IP_HEADER_SIZE, JINGLE_HEADER_SIZE; lia).
  set (t1 := set_m_cwnd _ _).
  assert (Hm1 : mss_only t t1).
  { exists (m_msslevel t + 1), mss, (wrap32 (2 * mss)). pose proof (wrap32_range (2 * mss)).
    split; [done|]. repeat split; lia. }
  apply wp_if; intros Hlt; zbool.
  - wp_run. split; [done|]. split; [done|]. cbn. lia.
  - assert (Hn1 : num_ok t1).
    { destruct Hn. pose proof (wrap32_range (2 * mss)). constructor; try assumption; cbn; lia. }
    eapply wp_mono; [apply IH; [done|cbn; lia]|]. intros o [e' t'] (-> & Hm2 & Ho).
    split; [done|]. destruct Hm2 as (l2 & m2 & c2 & -> & Hl2 & ?).
    split; [|destruct o; [|done]; cbn in *; lia].
    exists l2, m2, c2. split; [done|]. split; [cbn in Hl2; lia|done].
Qed.

(** *** [transmit] *)

Lemma wp_transmit_loop g fuel l1 s l2 n e t :
  snd_inv g (e, t) -> m_slist t = l1 ++ s :: l2 ->
  0 <= n <= s_len s -> n <= MAX_PACKET - PACKET_OVERHEAD -> (0 < s_len s -> 0 < n) ->
  10 - m_msslevel t <= Z.of_nat fuel ->
  wp (transmit_loop fuel (length l1) n) (e, t) (fun o '(e', t') =>
    snd_inv g (e', t') /\ same_queue t t' /\
    match o with Some k => 0 <= k <= n /\ (0 < s_len s -> 0 < k) | None => True end).
Proof.
  revert n e t. induction fuel as [|fuel IH]; intros n e t Hinv Hl Hn Hmax Hpos Hf.
  { destruct Hinv as [_ [] _ _]. cbn in *. lia. }
  cbn [transmit_loop]. wp_run. unfold slist_at. rewrite Hl.
  apply (wp_lift_ret _ s); [by rewrite lookup_middle|].
  pose proof (si_snd _ _ Hinv) as Hs. cbn [snd] in Hs. destruct Hs as [Hfifo Hop Hcap Hsz Hu Hd Hb Hq _].
  pose proof Hq as Hq'. rewrite Hl in Hq'. apply queue_ok_segment in Hq' as (Hseq & Hlen & Hend & Hpart).
  rewrite wrap32_small by lia. apply wp_bind. eapply wp_mono.
  { apply (wp_packet_inv g); try done; try lia.
    - destruct (s_bCtrl s); [by right|by left].
    - unfold MAX_PACKET, PACKET_OVERHEAD, HEADER_SIZE, UDP_HEADER_SIZE, IP_HEADER_SIZE,
        JINGLE_HEADER_SIZE in *. lia.
    - intros _. split; [lia|]. split; [lia|]. unfold in_part in Hpart.
      destruct (s_bCtrl s); cbn; lia. }
  intros r [e1 t1] (Hinv1 & Ht1 & _).
  destruct Hinv as [Hs Hnum Hw He]. cbn [fst snd] in *.
  destruct (timers_only_inv g t t1 Ht1 Hs Hnum Hw) as (_ & _ & _ & Hsame & Hlev).
  destruct r.
  - wp_run. split; [done|]. split; [done|]. split; [lia|done].
  - apply wp_bind. eapply wp_mono.
    { apply wp_lower_mss; [apply Hinv1|]. destruct Hnum. rewrite Hlev. unfold MSS_LEVELS. lia. }
    intros o [e2 t2] (-> & Hm & Ho).
    destruct (mss_only_inv g e1 t1 t2 Hm Hinv1) as [Hinv2 Hsame2].
    destruct o as [k|].
    + eapply wp_mono.
      * apply IH; try done; try lia.
        destruct Hsame as (_ & H1' & _), Hsame2 as (_ & H2' & _). congruence.
      * cbn beta. intros o' [e' t'] (? & Hsame3 & Ho').
        split; [done|]. split; [by rewrite Hsame, Hsame2|].
        destruct o'; [|done]. destruct Ho'. split; [lia|done].
    + wp_run. split; [done|]. split; [|done]. by rewrite Hsame.
  - wp_run. by split.
Qed.

Lemma snd_ok_queue g t t' :
  snd_ok g t -> m_sbuf t' = m_sbuf t -> m_snd_una t' = m_snd_una t ->
  m_recover t' = m_recover t -> m_snd_nxt t <= m_snd_nxt t' ->
  queue_ok (m_snd_una t) (m_snd_nxt t') (zlen (g_bytes g)) (g_ctl g) (m_slist t') ->
  snd_ok g t'.
Proof.
  intros [] Hb Hu Hr Hn Hq. constructor; rewrite ?Hb, ?Hu, ?Hr; try assumption. lia.
Qed.

(** A new queue in an otherwise unchanged object. *)
Lemma snd_inv_queue g e t t' :
  snd_inv g (e, t) -> num_ok t' -> recv_part t' = recv_part t ->
  m_sbuf t' = m_sbuf t -> m_snd_una t' = m_snd_una t ->
  m_recover t' = m_recover t -> m_snd_nxt t <= m_snd_nxt t' ->
  queue_ok (m_snd_una t) (m_snd_nxt t') (zlen (g_bytes g)) (g_ctl g) (m_slist t') ->
  snd_inv g (e, t').
Proof.
  intros [Hs Hn [] He] Hn' Hr Hb Hu Hrec Hnx Hq. unfold recv_part in Hr. cbn [fst snd] in *.
  constructor; cbn [fst snd]; [by eapply snd_ok_queue|done| |].
  - injection Hr as ? ? ? Hrn ? ? ? ? ? Hts ? ?. constructor; rewrite ?Hrn, ?Hts; assumption.
  - injection Hr as ? ? ? ? ? ? ? ? Hc ? ? ?. by rewrite Hc.
Qed.

(** Where a segment stands in the queue of a state that keeps the invariant. *)
Lemma snd_inv_segment g e t l1 s l2 :
  snd_inv g (e, t) -> m_slist t = l1 ++ s :: l2 ->
  0 <= m_snd_una t <= s_seq s /\ 0 <= s_len s /\ s_seq s + s_len s <= zlen (g_bytes g) < 2 ^ 32.
Proof.
  intros [[] _ _ _] Hl. cbn [snd] in *. rewrite Hl in *.
  destruct (queue_ok_segment _ _ _ _ _ _ _ so_queue0) as (? & ? & ? & _). lia.
Qed.

Lemma wp_transmit_split g l1 s l2 n e t :
  snd_inv g (e, t) -> m_slist t = l1 ++ s :: l2 -> Forall sent l1 -> 0 <= n <= s_len s ->
  wp (transmit_split (length l1) n) (e, t) (fun _ '(e', t') =>
    e' = e /\ snd_inv g (e, t') /\ recv_part t' = recv_part t /\
    m_snd_una t' = m_snd_una t /\ m_snd_nxt t' = m_snd_nxt t /\ m_sbuf t' = m_sbuf t /\
    keeps_acks t t' /\
    exists k, m_slist t' = l1 ++ mkSSegment (s_seq s) n (s_xmit s) (s_bCtrl s) :: k ++ l2 /\
      (k = [] \/ n < s_len s /\ exists x, k = [x] /\ 0 < s_len x)).
Proof.
  intros Hinv Hl Hsent Hn. unfold transmit_split. wp_run. unfold slist_at. rewrite Hl.
  apply (wp_lift_ret _ s); [by rewrite lookup_middle|].
  destruct (snd_inv_segment g e t l1 s l2 Hinv Hl) as (Hseq & Hlen & Hend).
  apply wp_if; intros Hlt; zbool; wp_run.
  - rewrite set_at_middle, insert_after_middle, !wrap32_small by lia.
    split; [done|]. split.
    { apply (snd_inv_queue g e t); try done.
      { destruct Hinv as [_ [] _ _]. constructor; assumption. }
      pose proof (si_snd _ _ Hinv) as [_ _ _ _ _ _ _ Hq _]. cbn [snd] in Hq. rewrite Hl in Hq.
      apply (queue_ok_cut _ _ _ _ l1 s l2 n Hq Hsent Hn). }
    do 4 (split; [done|]). split.
    { intros a. cbn. rewrite Hl. apply (ack_point_replace _ l1 s l2 (cut s n)); [apply cut_sum|].
      intros Hs. by constructor; [|constructor]. }
    exists [mkSSegment (s_seq s + n) (s_len s - n) (s_xmit s) (s_bCtrl s)].
    split; [done|]. right. split; [done|]. eexists. split; [done|]. cbn. lia.
  - split; [done|]. split; [done|]. do 4 (split; [done|]). split; [by intros a|].
    exists []. split; [|by left]. rewrite Hl. replace n with (s_len s) by lia. by destruct s.
Qed.

Lemma wp_transmit_count g l1 s l2 now e t :
  snd_inv g (e, t) -> m_slist t = l1 ++ s :: l2 -> Forall sent l1 -> s_xmit s < 30 ->
  wp (transmit_count (length l1) now) (e, t) (fun _ '(e', t') =>
    e' = e /\ snd_inv g (e, t') /\ recv_part t' = recv_part t /\
    m_snd_una t' = m_snd_una t /\ m_sbuf t' = m_sbuf t /\ keeps_acks t t' /\
    m_snd_nxt t' = (if s_xmit s =? 0 then m_snd_nxt t + s_len s else m_snd_nxt t) /\
    m_slist t' = l1 ++ bump s :: l2).
Proof.
  intros Hinv Hl Hsent Hx. unfold transmit_count. wp_run. unfold slist_at. rewrite Hl.
  apply (wp_lift_ret _ s); [by rewrite lookup_middle|]. apply wp_bind.
  pose proof (si_snd _ _ Hinv) as [_ _ _ Hsz Hu _ _ Hq _]. cbn [snd] in *.
  pose proof Hq as Hq0. rewrite Hl in Hq0.
  pose proof (queue_ok_bump _ _ _ _ l1 s l2 Hq0 Hsent Hx) as Hq1.
  assert (Hxs : 0 <= s_xmit s).
  { destruct Hq0 as [_ _ (pre & post & E0 & Hpre & Hpost & _) _].
    destruct (split_at l1 s l2 pre post E0) as [(Hs & _)|(Hs & _)]; try done;
      unfold sent, unsent in Hs; lia. }
  set (nxt := if s_xmit s =? 0 then m_snd_nxt t + s_len s else m_snd_nxt t) in *.
  pose proof (queue_ok_range _ _ _ _ _ Hq1).
  assert (Hgo : forall t1, t1 = set_m_snd_nxt nxt t ->
    wp (upd (set_m_slist (set_at (length l1)
      (mkSSegment (s_seq s) (s_len s) (wrap8 (s_xmit s + 1)) (s_bCtrl s)) (l1 ++ s :: l2)));;
      when (m_rto_base t =? 0) (upd (set_m_rto_base now))) (e, t1) (fun _ '(e', t') =>
    e' = e /\ snd_inv g (e, t') /\ recv_part t' = recv_part t /\
    m_snd_una t' = m_snd_una t /\ m_sbuf t' = m_sbuf t /\ keeps_acks t t' /\
    m_snd_nxt t' = nxt /\ m_slist t' = l1 ++ bump s :: l2)).
  { intros t1 ->. wp_run. rewrite set_at_middle, wrap8_small by lia.
    assert (Hk : forall a, ack_point (m_snd_una t) (m_slist t) a ->
      ack_point (m_snd_una t) (l1 ++ bump s :: l2) a).
    { intros a. rewrite Hl. apply (ack_point_replace _ l1 s l2 [bump s]); [cbn; lia|].
      intros Hs. constructor; [|done]. unfold sent in *. cbn. lia. }
    assert (Hnx : m_snd_nxt t <= nxt)
      by (subst nxt; destruct (queue_ok_segment _ _ _ _ _ _ _ Hq0) as (_ & ? & _); case_step; lia).
    apply wp_when; intros _; wp_run; (split; [done|]; split; [|by repeat split]);
      (apply (snd_inv_queue g e t); try done;
       destruct Hinv as [_ [] _ _]; constructor; assumption). }
  apply wp_when; intros Hx0; zbool.
  - apply wp_upd. apply Hgo. subst nxt. rewrite Hx0. cbn [Z.eqb].
    rewrite wrap32_small; [done|]. rewrite Hx0 in *. cbn [Z.eqb] in *.
    pose proof (queue_ok_range _ _ _ _ _ Hq0). lia.
  - apply Hgo. subst nxt. rewrite (proj2 (Z.eqb_neq _ 0)) by done. by destruct t.
Qed.

Lemma empty_count_app l k : empty_count (l ++ k) = empty_count l + empty_count k.
Proof. induction l as [|s l IH]; cbn; lia. Qed.

(** [transmit] on the first segment or on the first unsent one: it returns,
    keeps the invariant, and a success on an unsent segment shortens the
    backlog. *)
Lemma wp_transmit g l1 s l2 now e t :
  snd_inv g (e, t) -> m_slist t = l1 ++ s :: l2 -> Forall sent l1 ->
  wp (transmit (length l1) now) (e, t) (fun ok '(e', t') =>
    snd_inv g (e', t') /\ same_stream t t' /\
    (ok = true -> unsent s -> backlog g t' < backlog g t)).
Proof.
  intros Hinv Hl Hsent. unfold transmit. wp_run. unfold slist_at at 1. rewrite Hl.
  apply (wp_lift_ret _ s); [by rewrite lookup_middle|].
  destruct (snd_inv_segment g e t l1 s l2 Hinv Hl) as (Hseq & Hlen & Hend).
  apply wp_if; intros Hx; [wp_run; split; [done|]; split; [reflexivity|done]|]. zbool.
  assert (Hx30 : s_xmit s < 30) by (case_decide; lia). clear Hx.
  pose proof (si_num _ _ Hinv) as [Hmss Hlev _ _ _ _ _ _ _]. cbn [snd] in *.
  apply wp_bind. eapply wp_mono.
  { apply (wp_transmit_loop g _ l1 s l2); try done; try lia. unfold MSS_LEVELS. lia. }
  intros o [e1 t1] (Hinv1 & (Hr1 & Hl1 & Hu1 & Hn1 & Hb1) & Ho).
  destruct o as [k|]; [|wp_run; split; [done|]; split; [by apply same_queue_stream|done]]. destruct Ho as [Hk Hkpos].
  apply wp_bind. eapply wp_mono.
  { apply (wp_transmit_split g l1 s l2 k); try done; [congruence|lia]. }
  intros _ [e2 t2] (-> & Hinv2 & Hr2 & Hu2 & Hn2 & Hb2 & Hk2 & m & Hl2 & Hm).
  apply wp_bind. eapply wp_mono; [exact (wp_transmit_count g l1 _ (m ++ l2) now e1 t2 Hinv2 Hl2 Hsent Hx30)|].
  intros _ [e3 t3] (-> & Hinv3 & Hr3 & Hu3 & Hb3 & Hk3 & Hn3 & Hl3). wp_run.
  split; [done|]. split.
  { repeat split; try congruence; [|intros H0'; rewrite Hl in H0'; by destruct l1].
    intros a Ha. apply Hk3, Hk2. by rewrite Hu1, Hl1. }
  intros _ Hun. unfold unsent in Hun. cbn [s_xmit s_len] in Hn3. rewrite Hun in Hn3. cbn [Z.eqb] in Hn3.
  unfold backlog. rewrite Hl3, Hl, Hn3, Hn2, Hn1, !empty_count_app.
  cbn [empty_count bump s_xmit s_len]. rewrite empty_count_app, Hun.
  change (0 + 1 =? 0) with false. change (0 =? 0) with true. cbn [andb].
  destruct Hm as [->|(Hk' & x & -> & Hx)]; cbn [empty_count].
  - destruct (Z.eqb_spec (s_len s) 0); lia.
  - rewrite (proj2 (Z.eqb_neq (s_len x) 0)), (proj2 (Z.eqb_neq (s_len s) 0)) by lia.
    rewrite andb_false_r. lia.
Qed.

(** *** [attemptSend] *)

(** The amount to send now is between zero and what is unsent, and at most
    one segment. *)
Lemma send_available_range g t :
  snd_ok g t -> num_ok t ->
  0 <= send_available t <= Z.min (zlen (g_bytes g) - m_snd_nxt t) (m_mss t).
Proof.
  intros [Hf _ Hcap Hsz Hu Hd _ Hq _] [Hmss _ _ Hcw Hw _ _ _ _]. unfold send_available, GetBuffered.
  pose proof (queue_ok_range _ _ _ _ _ Hq). pose proof (ok_data _ Hf).
  rewrite (wrap32_small (m_snd_nxt t - m_snd_una t)) by lia.
  rewrite (wrap32_small (data_length_ _)) by lia. rewrite wrap32_small by lia.
  set (cwnd := if _ || _ then _ else _). set (W := Z.min (m_snd_wnd t) cwnd).
  assert (0 <= cwnd) by (subst cwnd; case_step; [apply wrap32_range|lia]).
  destruct (Z.ltb_spec (m_snd_nxt t - m_snd_una t) W);
    rewrite Z.gtb_ltb; repeat case_step; zbool; lia.
Qed.

(** Splitting the first unsent segment to the amount that may be sent. *)
Lemma wp_split_available g pre s post n e t :
  snd_inv g (e, t) -> m_slist t = pre ++ s :: post -> Forall sent pre -> unsent s -> 0 < n ->
  wp (if s_len s >? n then
        upd (set_m_slist (insert_after (length pre)
          (mkSSegment (wrap32 (s_seq s + n)) (wrap32 (s_len s - n)) 0 (s_bCtrl s))
          (set_at (length pre) (mkSSegment (s_seq s) n (s_xmit s) (s_bCtrl s)) (m_slist t))))
      else mret tt) (e, t) (fun _ '(e', t') =>
    e' = e /\ snd_inv g (e, t') /\ same_stream t t' /\ m_snd_nxt t' = m_snd_nxt t /\
    exists s' post', m_slist t' = pre ++ s' :: post' /\ unsent s' /\ s_len s' = Z.min n (s_len s) /\
      empty_count (m_slist t') = empty_count (m_slist t)).
Proof.
  intros Hinv Hl Hpre Hs Hn. destruct (snd_inv_segment g e t pre s post Hinv Hl) as (Hseq & Hlen & Hend).
  apply wp_if; intros Hlt; zbool; wp_run; (split; [done|]).
  - rewrite Hl, set_at_middle, insert_after_middle, !wrap32_small by lia.
    unfold unsent in Hs. split.
    { apply (snd_inv_queue g e t); try done.
      { destruct Hinv as [_ [] _ _]. constructor; assumption. }
      pose proof (si_snd _ _ Hinv) as [_ _ _ _ _ _ _ Hq _]. cbn [snd] in Hq. rewrite Hl in Hq.
      pose proof (queue_ok_cut _ _ _ _ pre s post n Hq Hpre ltac:(lia)) as Hc.
      unfold cut in Hc. rewrite Hs in Hc. cbn. by rewrite Hs. }
    split.
    { repeat split; [|intros H0'; rewrite Hl in H0'; by destruct pre].
      intros a. cbn. rewrite Hl. apply (ack_point_replace _ pre s post [_; _]); [cbn; lia|].
      intros Hs'. by destruct (sent_unsent s). }
    split; [done|].
    eexists _, _. split; [reflexivity|]. split; [done|]. split; [cbn; lia|].
    cbn [m_slist set_m_slist]. rewrite !empty_count_app. cbn [empty_count s_xmit s_len].
    rewrite (proj2 (Z.eqb_neq n 0)), (proj2 (Z.eqb_neq (s_len s - n) 0)),
      (proj2 (Z.eqb_neq (s_len s) 0)), !andb_false_r by lia. lia.
  - split; [done|]. split; [reflexivity|]. split; [done|].
    exists s, post. repeat split; try done; lia.
Qed.

Lemma wp_Now g e t (Q : Z -> E * PseudoTcp -> Prop) :
  snd_inv g (e, t) ->
  (forall now e', 0 <= now < 2 ^ 32 -> snd_inv g (e', t) -> Q now (e', t)) -> wp Now (e, t) Q.
Proof.
  intros Hinv HQ. unfold wp, Now. pose proof (env_Now_range e).
  pose proof (net_now g (m_conv t) e (si_net _ _ Hinv)) as Hnet.
  destruct (env_Now e) as [now e']. cbn in *. apply HQ; [done|].
  destruct Hinv as [[] [] [] ?]. constructor; [constructor; assumption..|assumption].
Qed.

(** An acknowledgement (no payload) may always be sent. *)
Lemma wp_packet_ack g e t seq :
  snd_inv g (e, t) -> 0 <= seq < 2 ^ 32 ->
  wp (packet seq 0 0 0) (e, t) (fun _ '(e', t') => snd_inv g (e', t') /\ timers_only t t').
Proof.
  intros Hinv Hseq. eapply wp_mono.
  - apply (wp_packet_inv g); try done. by left.
  - intros r [e' t'] (? & ? & _). done.
Qed.

Lemma timers_only_same_stream t t' : timers_only t t' -> same_stream t t'.
Proof. intros (a & b & c & d & f & ->). repeat split; [by intros x|done]. Qed.

Lemma snd_nxt_range g e t : snd_inv g (e, t) -> 0 <= m_snd_nxt t < 2 ^ 32.
Proof.
  intros [[] _ _ _]. cbn [snd] in *. pose proof (queue_ok_range _ _ _ _ _ so_queue0). lia.
Qed.

Lemma empty_count_nonneg l : 0 <= empty_count l <= zlen l.
Proof.
  induction l as [|s l IH]; cbn [empty_count]; [done|].
  rewrite zlen_cons. destruct (_ && _); lia.
Qed.

Lemma wp_attemptSend_loop g fuel now sflags e t :
  snd_inv g (e, t) -> backlog g t < Z.of_nat fuel ->
  wp (attemptSend_loop fuel now sflags) (e, t) (fun _ '(e', t') =>
    snd_inv g (e', t') /\ same_stream t t').
Proof.
  revert sflags e t. induction fuel as [|fuel IH]; intros sflags e t Hinv Hf.
  { unfold backlog in Hf. pose proof (empty_count_nonneg (m_slist t)).
    destruct Hinv as [[] _ _ _]. cbn [snd] in *. pose proof (queue_ok_range _ _ _ _ _ so_queue0). lia. }
  cbn [attemptSend_loop]. wp_run.
  pose proof (send_available_range g t (si_snd _ _ Hinv) (si_num _ _ Hinv)) as Hav.
  apply wp_if; intros Hz; zbool.
  { assert (Hack : wp (packet (m_snd_nxt t) 0 0 0;; mret tt) (e, t) (fun _ '(e', t') =>
      snd_inv g (e', t') /\ same_stream t t')).
    { apply wp_bind. eapply wp_mono; [by eapply wp_packet_ack, snd_nxt_range|].
      intros r [e' t'] [? Ht]. wp_run. split; [done|]. by apply timers_only_same_stream. }
    destruct sflags; [by wp_run|..];
      (apply wp_if; intros _; [exact Hack|]; apply wp_bind; apply (wp_Now g); [done|];
       intros n e' _ Hinv'; wp_run; split; [frame Hinv'|repeat split; [by intros a|done]]). }
  apply wp_if; intros Hnagle; [by wp_run|].
  destruct (queue_first_unsent _ _ _ _ _ (so_queue _ _ (si_snd _ _ Hinv))) as
    (pre & s & post & Hl & Hpre & Hs); [cbn [snd]; lia|]. cbn [snd] in Hl.
  apply wp_bind. apply (wp_lift_ret _ (length pre)).
  { rewrite Hl. by apply (find_unsent_spec pre s post 0). }
  apply wp_bind. unfold slist_at. apply (wp_lift_ret _ s); [by rewrite Hl, lookup_middle|].
  apply wp_bind. eapply wp_mono; [apply (wp_split_available g pre s post); try done; lia|].
  intros _ [e1 t1] (-> & Hinv1 & Hss1 & Hn1 & s1 & post1 & Hl1 & Hs1 & Hlen1 & Hec).
  apply wp_bind. eapply wp_mono; [by apply (wp_transmit g pre s1 post1)|].
  intros ok [e2 t2] (Hinv2 & Hss2 & Hdec).
  assert (Hss : same_stream t t2) by (by etransitivity).
  destruct ok; [|by wp_run].
  eapply wp_mono; [apply IH; [done|]|].
  - specialize (Hdec eq_refl Hs1). unfold backlog in *. lia.
  - intros _ [e3 t3] [Hinv3 Hss3]. split; [done|]. by etransitivity.
Qed.

Lemma wp_attemptSend g sflags e t :
  snd_inv g (e, t) ->
  wp (attemptSend sflags) (e, t) (fun _ '(e', t') => snd_inv g (e', t') /\ same_stream t t').
Proof.
  intros Hinv. unfold attemptSend. apply wp_bind, (wp_Now g); [done|]. intros now e1 _ Hinv1.
  wp_run.
  assert (Hfuel : forall t', m_slist t' = m_slist t -> m_snd_nxt t' = m_snd_nxt t ->
    backlog g t' < Z.of_nat (S (Z.to_nat (GetBuffered (m_sbuf t)) + length (m_slist t)))).
  { intros t' El En. unfold backlog, GetBuffered. rewrite El, En.
    pose proof (empty_count_nonneg (m_slist t)) as [_ Hec]. unfold zlen in Hec.
    destruct Hinv as [[] _ _ _]. cbn [snd] in *. pose proof (queue_ok_range _ _ _ _ _ so_queue0). lia. }
  apply wp_when; intros _; wp_run.
  - eapply wp_mono; [apply wp_attemptSend_loop; [|by apply Hfuel]; frame Hinv1|].
    intros _ [e2 t2] (? & ? & ? & ? & ? & ?). split; [done|]. repeat split; assumption.
  - apply wp_attemptSend_loop; [done|by apply Hfuel].
Qed.

End Sender.
