(* ===== verification/TcpOps.v ===== *)
(** * Queueing, acknowledgements and timers on the sending side

    The operations that change the send queue from outside [attemptSend]:
    [queue] appends to the stream, a valuable ack takes bytes off its front,
    [adjustMTU] and the round-trip estimation change the counters.  Each keeps
    the invariant of the sender, for the stream it leaves behind. *)

From Stdlib Require Import ZArith Lia.
From S2P Require Import Prelude ByteOrder ConstBuffer ByteBuffer FifoBuffer.
From S2P Require Import TcpState PseudoTcp TcpWire TcpQueue TcpSend.

Section Ops.
Context {E : Type} `{Network E} `{Heap}.

(** ** [queue] *)

(** What a write of [d] appends to the ring, whether it succeeds or blocks. *)
Lemma Write_appends f d :
  fifo_ok f -> state_ f <> SS_CLOSED -> zlen d <= buffer_length_ f - data_length_ f ->
  exists res f', FifoBuffer.Write f d = Ret (res, zlen d, f') /\ fifo_ok f' /\
    state_ f' = state_ f /\ buffer_length_ f' = buffer_length_ f /\
    data_length_ f' = data_length_ f + zlen d /\ readable f' = readable f ++ d.
Proof.
  intros Hok Hopen Hd. destruct (Write_spec f d Hok) as (f' & Hok' & Hs & Hc & Hcase).
  pose proof (zlen_nonneg d). rewrite decide_False in Hcase by done.
  destruct (Z.ltb_spec (data_length_ f) (buffer_length_ f)).
  - cbv zeta in Hcase. rewrite Z.min_l, ztake_all in Hcase by lia.
    destruct Hcase as (E1 & Hdl & Hv). exists SR_SUCCESS, f'.
    repeat (split; [done|]). by apply Queue.readable_append.
  - destruct Hcase as [E1 ->]. assert (Hz : zlen d = 0) by lia.
    assert (d = []) as -> by (destruct d; [done|rewrite zlen_cons in Hz; pose proof (zlen_nonneg d); lia]).
    exists SR_BLOCK, f. rewrite Hz, Z.add_0_r, app_nil_r. by repeat (split; [done|]).
Qed.

(** The list part of [queue]. *)
Lemma queue_list_ok una nxt total c l n ctrl :
  queue_ok una nxt total c l -> 0 <= n -> total + n < 2 ^ 32 -> 0 <= una ->
  (if ctrl : bool then l = [] /\ total + n <= c else c <= total) ->
  exists l', queue_ok una nxt (total + n) c l' /\
    (forall a, ack_point una l a -> ack_point una l' a) /\
    forall t, m_slist t = l -> m_snd_una t + data_length_ (m_sbuf t) = total ->
    (match m_slist t !! pred (length (m_slist t)) with
     | Some b =>
         if bool_decide (s_bCtrl b = ctrl) && (s_xmit b =? 0) then
           set_m_slist (removelast (m_slist t) ++
             [mkSSegment (s_seq b) (wrap32 (s_len b + n)) (s_xmit b) (s_bCtrl b)]) t
         else set_m_slist (m_slist t ++
             [mkSSegment (wrap32 (m_snd_una t + GetBuffered (m_sbuf t))) n 0 ctrl]) t
     | None => set_m_slist (m_slist t ++
             [mkSSegment (wrap32 (m_snd_una t + GetBuffered (m_sbuf t))) n 0 ctrl]) t
     end) = set_m_slist l' t.
Proof.
  intros Hq Hn Hsz Hu Hp. pose proof (queue_ok_range _ _ _ _ _ Hq) as Hr.
  assert (Hpush : exists l', queue_ok una nxt (total + n) c l' /\
    l' = l ++ [mkSSegment total n 0 ctrl]).
  { eexists. split; [|done]. apply queue_ok_push; try done. unfold in_part; cbn. destruct ctrl; lia. }
  destruct l as [|b l _] using rev_ind.
  { destruct Hpush as (l' & Hl' & ->). eexists. split; [exact Hl'|].
    split; [intros a; apply ack_point_push|].
    intros t El Et. rewrite El. cbn. unfold GetBuffered. by rewrite Et, wrap32_small by lia. }
  assert (Hlast : (l ++ [b]) !! pred (length (l ++ [b])) = Some b).
  { rewrite length_app. cbn. rewrite Nat.add_1_r. cbn. by apply list_lookup_middle. }
  destruct (bool_decide (s_bCtrl b = ctrl) && (s_xmit b =? 0)) eqn:Eb.
  - apply andb_true_iff in Eb as [Ec Ex]. apply bool_decide_eq_true in Ec. zbool.
    destruct ctrl; [by destruct Hp as [[]%app_nil _]; destruct l|].
    destruct (queue_ok_segment _ _ _ _ _ _ _ Hq) as (? & ? & ? & Hpart).
    eexists. split.
    { apply (queue_ok_extend _ _ _ _ l b n Hq Hn Ex). unfold in_part in *. cbn.
      rewrite Ec in *. done. }
    split; [intros a; by apply ack_point_extend|].
    intros t El Et. rewrite El, Hlast. rewrite bool_decide_true, Ex by done. cbn [andb Z.eqb].
    rewrite removelast_last, wrap32_small by lia. done.
  - destruct Hpush as (l' & Hl' & ->). eexists. split; [exact Hl'|].
    split; [intros a; apply ack_point_push|].
    intros t El Et. rewrite El, Hlast, Eb. unfold GetBuffered. by rewrite Et, wrap32_small by lia.
Qed.

Lemma wp_queue g c d ctrl e t :
  snd_inv g (e, t) -> zlen d < 2 ^ 32 ->
  let n := Z.min (zlen d) (buffer_length_ (m_sbuf t) - data_length_ (m_sbuf t)) in
  zlen (g_bytes g) + n < 2 ^ 32 ->
  (if ctrl : bool then m_slist t = [] /\ g_bytes g = [] /\ n = zlen d /\ c = n
   else c = g_ctl g /\ c <= zlen (g_bytes g)) ->
  wp (queue d (zlen d) ctrl) (e, t) (fun r '(e', t') =>
    r = n /\ e' = e /\ snd_inv (mkStream (g_bytes g ++ ztake n d) c) (e, t') /\
    recv_part t' = recv_part t /\ keeps_acks t t').
Proof.
  intros Hinv Hd n Hsz Hp. pose proof (si_snd _ _ Hinv) as [Hf Hop Hcap Hs Hu Hdata Hbytes Hq].
  cbn [snd] in *. pose proof (ok_data _ Hf). pose proof (zlen_nonneg d).
  unfold queue. wp_run. unfold GetWriteRemaining. rewrite (wrap64_small (_ - _)) by lia.
  rewrite !(wrap32_small (_ - data_length_ _)) by lia.
  assert (Hlen : wp (if zlen d >? buffer_length_ (m_sbuf t) - data_length_ (m_sbuf t)
      then assertM (negb ctrl);; mret (buffer_length_ (m_sbuf t) - data_length_ (m_sbuf t))
      else mret (zlen d)) (e, t) (fun r s => r = n /\ s = (e, t))).
  { apply wp_if; intros Hlt; zbool; [|by wp_run; split; [lia|]].
    apply wp_bind, wp_assert; [destruct ctrl; [lia|done]|]. wp_run. split; [lia|done]. }
  eapply wp_mono; [exact Hlen|]. intros r s [-> ->]. clear Hlen.
  assert (Hq' : queue_ok (m_snd_una t) (m_snd_nxt t) (zlen (g_bytes g)) c (m_slist t)).
  { destruct ctrl; [|by destruct Hp as [-> _]]. destruct Hp as (El & Eg & _).
    rewrite El in Hq |- *. destruct Hq. by constructor. }
  destruct (queue_list_ok _ _ _ _ _ n ctrl Hq') as (l' & Hl' & Hacks & Heq); try lia.
  { destruct ctrl; [|lia]. destruct Hp as (El & Eg & ? & ->). split; [done|].
    rewrite Eg, zlen_nil. lia. }
  specialize (Heq t eq_refl ltac:(lia)).
  assert (Hz : zlen (ztake n d) = n) by (rewrite zlen_ztake; lia).
  destruct (Write_appends (m_sbuf t) (ztake n d) Hf Hop ltac:(lia)) as
    (res & f' & Ew & Hf' & Hst & Hbl & Hdl & Hrd). rewrite Hz in Ew, Hdl.
  assert (Hrest : wp (x ← lift (mem_read d 0 n);
      '(_, written, sbuf) ← lift (FifoBuffer.Write (m_sbuf t) x);
      upd (set_m_sbuf sbuf);; mret (wrap32 written)) (e, set_m_slist l' t) (fun r '(e', t') =>
    r = n /\ e' = e /\ snd_inv (mkStream (g_bytes g ++ ztake n d) c) (e, t') /\
    recv_part t' = recv_part t /\ keeps_acks t t')).
  { wp_run. apply (wp_lift_ret _ (ztake n d)); [rewrite mem_read_ok by lia; by rewrite zdrop_0|].
    wp_run. apply (wp_lift_ret _ (res, n, f')); [done|]. wp_run.
    split; [apply wrap32_small; lia|]. split; [done|]. split; [|by split].
    destruct Hinv as [_ Hnum Hwire Hnet]. cbn [fst snd] in *. constructor; cbn [fst snd].
    - assert (Hg : zlen (g_bytes g ++ ztake n d) = zlen (g_bytes g) + n) by (rewrite zlen_app; lia).
      constructor; cbn [m_sbuf set_m_sbuf m_snd_una m_snd_nxt m_slist set_m_slist g_bytes g_ctl];
        rewrite ?Hg, ?Hst, ?Hbl, ?Hdl; try done; try lia.
      rewrite Hrd, Hbytes. unfold zdrop. rewrite drop_app_le; [done|]. unfold zlen in *. lia.
    - destruct Hnum. constructor; assumption.
    - destruct Hwire. constructor; assumption.
    - eapply net_grow; [exact Hnet|]. split; [by eexists|]. cbn.
      destruct ctrl; [right|left]; destruct Hp; naive_solver. }
  apply wp_bind. destruct (m_slist t !! _) as [b|]; [case_step|]; apply wp_upd; rewrite Heq;
    exact Hrest.
Qed.

(** ** The segment size after a change of the MTU *)

Lemma mtu_level_ok fuel level mtu :
  0 <= level <= 9 -> 10 - level <= Z.of_nat fuel ->
  post (mtu_level fuel level mtu) (fun l => 0 <= l <= 9).
Proof.
  revert level. induction fuel as [|fuel IH]; intros level Hl Hf; [lia|].
  cbn [mtu_level]. destruct (PACKET_MAXIMUM_next level Hl) as (p & -> & Hcase). cbn.
  destruct Hcase as [[-> ->]|[Hlt Hr]]; [done|]. unfold MIN_PACKET in Hr.
  rewrite (proj2 (Z.ltb_lt 0 p)) by lia.
  assert (exists q, PACKET_MAXIMUM level = Ret q) as [q ->].
  { destruct (Z.eq_dec level 0) as [->|]; [by eexists|].
    destruct (PACKET_MAXIMUM_next (level - 1)) as (q & Hq & _); [lia|].
    rewrite Z.sub_add in Hq. by exists q. }
  cbn. case_step; [cbn; lia|]. apply IH; lia.
Qed.

Lemma wp_adjustMTU g e t :
  snd_inv g (e, t) ->
  wp adjustMTU (e, t) (fun _ '(e', t') =>
    e' = e /\ snd_inv g (e, t') /\ same_queue t t').
Proof.
  intros Hinv. unfold adjustMTU. wp_run. apply wp_lift. eapply post_mono.
  { apply mtu_level_ok; [lia|]. unfold MSS_LEVELS. lia. }
  intros level Hl. wp_run. split; [done|]. split; [|by repeat split].
  pose proof (si_num _ _ Hinv) as [_ _ _ _ _ _ _ Hmtu _]. cbn [snd] in Hmtu. consts.
  rewrite !(wrap32_small (m_mtu_advise t - _)) by lia. rewrite wrap32_small by lia.
  frame Hinv.
Qed.

(** ** Round-trip estimation keeps the timeout between its limits *)

Lemma wp_update_rtt g now tsecr e t :
  snd_inv g (e, t) ->
  wp (update_rtt now tsecr) (e, t) (fun _ '(e', t') =>
    e' = e /\ snd_inv g (e, t') /\ same_queue t t').
Proof.
  intros Hinv. unfold update_rtt. apply wp_if; intros _; [by wp_run|]. wp_run.
  apply wp_if; intros _; [|by wp_run].
  assert (Hgo : forall t1 rto, snd_inv g (e, t1) -> same_queue t t1 -> MIN_RTO <= rto <= MAX_RTO ->
    snd_inv g (e, set_m_rx_rto rto t1) /\ same_queue t (set_m_rx_rto rto t1)).
  { intros t1 rto Hi Hs Hr. split; [frame Hi|exact Hs]. }
  assert (Hrto : forall x, MIN_RTO <= (if x <? MIN_RTO then MIN_RTO
    else if x >=? MAX_RTO then MAX_RTO else x) <= MAX_RTO).
  { intros x. repeat case_step; zbool; consts; lia. }
  wp_run. apply wp_if; intros _; wp_run; (split; [done|]); (apply Hgo; [|by repeat split|apply Hrto]);
    frame Hinv.
Qed.
(** ** A valuable acknowledgement *)

Lemma shl32_ok x n : 0 <= n < 32 -> exists y, shl32 x n = Ret y /\ 0 <= y < 2 ^ 32.
Proof.
  intros Hn. unfold shl32. rewrite (proj2 (Z.ltb_lt n 32)) by lia.
  eexists. split; [done|apply wrap32_range].
Qed.

Lemma wp_process_acked g seg now e t :
  snd_inv g (e, t) -> m_snd_una t < seg_ack seg <= m_snd_nxt t ->
  ack_point (m_snd_una t) (m_slist t) (seg_ack seg) ->
  wp (process_acked seg now) (e, t) (fun n '(e', t') =>
    e' = e /\ snd_inv g (e, t') /\ recv_part t' = recv_part t /\ keeps_acks t t' /\
    m_snd_una t' = seg_ack seg /\ m_snd_nxt t' = m_snd_nxt t /\ 0 <= n < 2 ^ 32).
Proof.
  intros Hinv Hack Hpt.
  pose proof (si_snd _ _ Hinv) as [Hf Hop Hcap Hs Hu Hdata Hbytes Hq Hrec].
  pose proof (si_num _ _ Hinv) as [_ _ _ _ _ _ Hsc _ _]. cbn [snd] in *.
  pose proof (queue_ok_range _ _ _ _ _ Hq) as Hr. pose proof (ok_data _ Hf).
  unfold process_acked. wp_run. destruct (shl32_ok (seg_wnd seg) (m_swnd_scale t) Hsc) as (y & Ey & Hy).
  apply (wp_lift_ret _ y); [done|]. wp_run. rewrite wrap32_small by lia.
  set (n := seg_ack seg - m_snd_una t).
  destruct (ConsumeReadData_spec (m_sbuf t) n Hf) as (f & Ef & Hf' & Hsf & Hbf & Hdf & Hvf); [lia|lia|].
  apply (wp_lift_ret _ f); [done|]. wp_run.
  destruct (queue_ok_ack _ _ _ _ (m_slist t) n (m_largest t) Hq) as
    (l' & lg & El & Hq' & l1 & Hl1); [lia|apply ack_point_boundary; [done|lia]|].
  apply (wp_lift_ret _ (l', lg)); [done|]. wp_run. split; [done|].
  replace (m_snd_una t + n) with (seg_ack seg) in Hq' by lia.
  split; [|split; [done|]; split; [|by repeat split; lia]].
  - destruct Hinv as [_ Hnum Hwire Hnet]. cbn [fst snd] in *. constructor; cbn [fst snd].
    + constructor; cbn; rewrite ?Hsf, ?Hbf, ?Hdf; try done; try lia.
      rewrite (Queue.readable_rotate (m_sbuf t) f n) by (done || lia).
      rewrite Hbytes, zdrop_zdrop by lia. f_equal. lia.
    + destruct Hnum. constructor; assumption.
    + destruct Hwire. constructor; assumption.
    + exact Hnet.
  - intros a. cbn. rewrite Hl1. rewrite Hl1 in Hq. apply (ack_point_ack _ _ _ _ l1 l' _ _ Hq).
    destruct Hq' as [_ Ht' _ _]. destruct Hq as [_ Ht _ _]. rewrite seg_sum_app in Ht. lia.
Qed.

End Ops.
