(* ===== verification/TcpRecv.v ===== *)
(** * The receiver of PseudoTcp

    The receive buffer is a window onto the peer's stream: its readable part
    holds the bytes before [m_rcv_nxt], and the free part ahead of it already
    holds the segments of [m_rlist] that arrived out of order, at the place
    where they belong.  [rcv_ok] states this against the peer's stream, byte
    by byte, and every step of the receive path is shown to keep it.

    The theorems are about connections whose own receive window needs no
    scaling ([m_rwnd_scale] zero, the default), and about the first 4 GiB of
    the stream, since the code compares sequence numbers as plain integers. *)

From Stdlib Require Import ZArith Lia Sorting.Sorted.
From S2P Require Import Prelude ByteOrder ConstBuffer ByteBuffer FifoBuffer.
From S2P Require Import TcpState PseudoTcp TcpWire TcpQueue TcpSend.

(** The byte that the receive buffer holds for position [p] of the stream. *)
Definition byte_at (t : PseudoTcp) (p : Z) : option byte :=
  zget (view (m_rbuf t)) (data_length_ (m_rbuf t) + (p - m_rcv_nxt t)).

(** The buffer holds the stream [R] from [lo] to [hi]. *)
Definition holds (R : list byte) (t : PseudoTcp) (lo hi : Z) : Prop :=
  forall p, lo <= p < hi -> byte_at t p = zget R p.

(** The end of the receive window. *)
Definition window_end (t : PseudoTcp) : Z :=
  m_rcv_nxt t + (buffer_length_ (m_rbuf t) - data_length_ (m_rbuf t)).

Definition rseg_ok (R : stream) (t : PseudoTcp) (r : RSegment) : Prop :=
  0 <= r_seq r /\ 0 < r_len r /\ r_seq r + r_len r <= window_end t /\
  r_seq r + r_len r <= zlen (g_bytes R) /\ g_ctl R <= r_seq r.

(** Bounds of the buffer, the window and the out-of-order list. *)
Record rcv_base (R : stream) (t : PseudoTcp) : Prop := {
  ro_fifo : fifo_ok (m_rbuf t);
  ro_open : state_ (m_rbuf t) <> SS_CLOSED;
  ro_cap : buffer_length_ (m_rbuf t) = m_rbuf_len t;
  ro_pos : 0 < m_rbuf_len t;
  ro_room : zlen (g_bytes R) + m_rbuf_len t < 2 ^ 32;
  ro_nxt : data_length_ (m_rbuf t) <= m_rcv_nxt t <= zlen (g_bytes R);
  ro_rlist : Forall (rseg_ok R t) (m_rlist t);
  ro_scale : m_rwnd_scale t = 0
}.

(** The contents: what is readable, what was stored ahead, and in which order
    the list keeps it.  While segments are being recovered the front of the
    list may lie behind [m_rcv_nxt]. *)
Record data_ok (R : stream) (t : PseudoTcp) : Prop := {
  do_read : holds (g_bytes R) t (m_rcv_nxt t - data_length_ (m_rbuf t)) (m_rcv_nxt t);
  do_ctl : data_length_ (m_rbuf t) = 0 \/ g_ctl R <= m_rcv_nxt t - data_length_ (m_rbuf t);
  do_stored : Forall (fun r =>
    holds (g_bytes R) t (Z.max (m_rcv_nxt t) (r_seq r)) (r_seq r + r_len r)) (m_rlist t);
  do_sorted : StronglySorted (fun a b => r_seq a <= r_seq b) (m_rlist t)
}.

(** No stored segment is reachable from the data before [m_rcv_nxt]: whatever
    could be delivered was delivered. *)
Definition all_ahead (t : PseudoTcp) : Prop :=
  Forall (fun r => m_rcv_nxt t < r_seq r) (m_rlist t).

(** The invariant between two packets; the contents count as long as the
    connection is not being shut down. *)
Record rcv_ok (R : stream) (t : PseudoTcp) : Prop := {
  rk_base : rcv_base R t;
  rk_data : m_shutdown t = SD_NONE -> data_ok R t /\ all_ahead t
}.

(** The invariant depends on these members only. *)
Definition rcv_fields (t : PseudoTcp) :=
  (m_rlist t, m_rbuf t, m_rbuf_len t, m_rcv_nxt t, m_rwnd_scale t, m_shutdown t).

Lemma rcv_ok_fields R t t' : rcv_fields t' = rcv_fields t -> rcv_ok R t -> rcv_ok R t'.
Proof.
  intros Hp. unfold rcv_fields in Hp. injection Hp as E1 E2 E3 E4 E6 E7.
  assert (Hh : forall g lo hi, holds g t lo hi -> holds g t' lo hi)
    by (unfold holds, byte_at; intros g lo hi Hh; by rewrite E2, E4).
  assert (Hw : window_end t' = window_end t) by (unfold window_end; by rewrite E2, E4).
  intros [[] Hdata]. constructor.
  - constructor; rewrite ?E1, ?E2, ?E3, ?E4, ?E6; try assumption.
    eapply Forall_impl; [|exact ro_rlist0]. unfold rseg_ok. by rewrite Hw.
  - rewrite E7. intros Hs. destruct (Hdata Hs) as [[] Ha].
    split; [|unfold all_ahead in *; by rewrite E1, E4].
    constructor; rewrite ?E1, ?E2, ?E4; try assumption.
    + by apply Hh.
    + eapply Forall_impl; [|exact do_stored0]. intros r. apply Hh.
Qed.

Lemma rcv_ok_part R t t' : recv_part t' = recv_part t -> rcv_ok R t -> rcv_ok R t'.
Proof.
  intros Hp. apply rcv_ok_fields. unfold recv_part in Hp. unfold rcv_fields. congruence.
Qed.

Lemma zget_app_l {A} (l k : list A) i : 0 <= i < zlen l -> zget (l ++ k) i = zget l i.
Proof. intros. rewrite zget_app by lia. by rewrite (proj2 (Z.ltb_lt i _)) by lia. Qed.

(** The peer's stream may grow. *)
Lemma rcv_ok_grow R R' t :
  stream_le R R' -> zlen (g_bytes R') + m_rbuf_len t < 2 ^ 32 -> rcv_ok R t -> rcv_ok R' t.
Proof.
  intros [[d Hd] Hc] Hroom [[] Hdata]. pose proof (zlen_nonneg d).
  assert (Hz : zlen (g_bytes R') = zlen (g_bytes R) + zlen d) by (rewrite Hd; apply zlen_app).
  assert (Hh : forall lo hi, 0 <= lo -> hi <= zlen (g_bytes R) ->
    holds (g_bytes R) t lo hi -> holds (g_bytes R') t lo hi).
  { intros lo hi Hlo Hhi Hh p Hp. rewrite Hd, zget_app_l by lia. by apply Hh. }
  pose proof (ok_data _ ro_fifo0). constructor; [constructor; try assumption; try lia|].
  - eapply Forall_impl; [|exact ro_rlist0]. unfold rseg_ok. intros r (? & ? & ? & ? & ?).
    destruct Hc as [->|Hnil]; [lia|]. rewrite Hnil, zlen_nil in *. lia.
  - intros Hs. destruct (Hdata Hs) as [[] Ha]. split; [|done]. constructor; try assumption.
    + apply Hh; [lia|lia|done].
    + destruct Hc as [->|Hnil]; [done|]. rewrite Hnil, zlen_nil in *. lia.
    + rewrite Forall_forall in *. intros r Hr. destruct (ro_rlist0 r Hr) as (? & ? & ? & ? & ?).
      apply Hh; [lia|lia|]. by apply do_stored0.
Qed.

(** The position of the next byte that [Recv] will return, and the part of
    the peer's data (behind its control bytes) that lies before it. *)
Definition read_pos (t : PseudoTcp) : Z := m_rcv_nxt t - data_length_ (m_rbuf t).
Definition delivered (R : stream) (t : PseudoTcp) : list byte :=
  ztake (read_pos t - g_ctl R) (zdrop (g_ctl R) (g_bytes R)).

Section Receiver.
Context {E : Type} `{IPseudoTcpNotify E}.

(** *** Moving the window forward keeps the bytes where they are *)

Lemma byte_at_advance t f n :
  view f = view (m_rbuf t) -> data_length_ f = data_length_ (m_rbuf t) + n ->
  forall p, byte_at (set_m_rcv_nxt (m_rcv_nxt t + n) (set_m_rbuf f t)) p = byte_at t p.
Proof.
  intros Hv Hd p. unfold byte_at; cbn. rewrite Hv, Hd. f_equal. lia.
Qed.

(** [recv_step R t t']: only the receive buffer and its counters changed, and
    the application's position in the peer's data did not move. *)
Definition recv_step (R : stream) (t t' : PseudoTcp) : Prop :=
  (exists rbuf nxt wnd rl,
     t' = set_m_rlist rl (set_m_rcv_wnd wnd (set_m_rcv_nxt nxt (set_m_rbuf rbuf t)))) /\
  (m_shutdown t = SD_NONE -> delivered R t' = delivered R t).

Lemma recv_step_refl R t : recv_step R t t.
Proof. split; [|done]. exists (m_rbuf t), (m_rcv_nxt t), (m_rcv_wnd t), (m_rlist t). by destruct t. Qed.

Lemma recv_step_trans R t1 t2 t3 : recv_step R t1 t2 -> recv_step R t2 t3 -> recv_step R t1 t3.
Proof.
  intros [(a & b & c & d & ->) H1] [(a' & b' & c' & d' & ->) H2].
  split; [by exists a', b', c', d'|]. intros Hs. by rewrite H2, H1.
Qed.

Lemma delivered_before R t : read_pos t <= g_ctl R -> delivered R t = [].
Proof. intros Hp. unfold delivered, ztake. by rewrite Z2Nat.nonpos by lia. Qed.

Lemma recv_step_intro R t t' rbuf nxt wnd rl :
  t' = set_m_rlist rl (set_m_rcv_wnd wnd (set_m_rcv_nxt nxt (set_m_rbuf rbuf t))) ->
  (m_shutdown t = SD_NONE ->
     read_pos t' = read_pos t \/ (read_pos t' <= g_ctl R /\ read_pos t <= g_ctl R)) ->
  recv_step R t t'.
Proof.
  intros -> Hp. split; [by exists rbuf, nxt, wnd, rl|]. intros Hs.
  destruct (Hp Hs) as [Eq|[? ?]]; [|by rewrite !delivered_before].
  unfold delivered. by rewrite Eq.
Qed.

(** Counting [n] more bytes as received, when the buffer holds them. *)
Lemma advance_ok R t n f wnd :
  rcv_base R t -> (m_shutdown t = SD_NONE -> data_ok R t) ->
  0 <= n -> m_rcv_nxt t + n <= window_end t -> m_rcv_nxt t + n <= zlen (g_bytes R) ->
  (m_shutdown t = SD_NONE -> g_ctl R <= m_rcv_nxt t /\
     holds (g_bytes R) t (m_rcv_nxt t) (m_rcv_nxt t + n)) ->
  fifo_ok f -> state_ f = state_ (m_rbuf t) -> buffer_length_ f = buffer_length_ (m_rbuf t) ->
  data_length_ f = data_length_ (m_rbuf t) + n -> view f = view (m_rbuf t) ->
  let t' := set_m_rcv_wnd wnd (set_m_rcv_nxt (m_rcv_nxt t + n) (set_m_rbuf f t)) in
  rcv_base R t' /\ (m_shutdown t' = SD_NONE -> data_ok R t').
Proof.
  intros [] Hdata Hn Hwe Hend Hnew Hf Hst Hbl Hdl Hv t'.
  assert (Hw : window_end t' = window_end t) by (unfold window_end; cbn; lia).
  assert (Hb : forall p, byte_at t' p = byte_at t p) by (apply byte_at_advance; done).
  split.
  - constructor; cbn; rewrite ?Hst, ?Hbl; try assumption; try lia.
    eapply Forall_impl; [|exact ro_rlist0]. unfold rseg_ok. by rewrite Hw.
  - intros Hs. destruct (Hdata Hs) as [Hrd Hc Hsto Hsort]. destruct (Hnew Hs) as [Hctl Hh].
    constructor; cbn; rewrite ?Hdl; try assumption.
    + intros p Hp. rewrite Hb.
      destruct (Z.lt_ge_cases p (m_rcv_nxt t)); [apply Hrd|apply Hh]; lia.
    + right. destruct Hc; lia.
    + eapply Forall_impl; [|exact Hsto]. intros x Hx p Hp. rewrite Hb. apply Hx. lia.
Qed.

Lemma rcv_base_drop R t r l :
  rcv_base R t -> m_rlist t = r :: l -> rcv_base R (set_m_rlist l t).
Proof.
  intros [] Hl. rewrite Hl in ro_rlist0. apply Forall_cons_1 in ro_rlist0 as [_ ?].
  constructor; assumption.
Qed.

Lemma data_ok_drop R t r l :
  data_ok R t -> m_rlist t = r :: l -> data_ok R (set_m_rlist l t).
Proof.
  intros [] Hl. rewrite Hl in do_stored0, do_sorted0.
  apply Forall_cons_1 in do_stored0 as [_ ?]. apply StronglySorted_inv in do_sorted0 as [? _].
  constructor; assumption.
Qed.

(** Recovering one segment: [m_rcv_nxt] moves to its end. *)
Lemma recover_one R t r l f wnd :
  rcv_base R t -> (m_shutdown t = SD_NONE -> data_ok R t) -> m_rlist t = r :: l ->
  r_seq r <= m_rcv_nxt t < r_seq r + r_len r ->
  let n := r_seq r + r_len r - m_rcv_nxt t in
  fifo_ok f -> state_ f = state_ (m_rbuf t) -> buffer_length_ f = buffer_length_ (m_rbuf t) ->
  data_length_ f = data_length_ (m_rbuf t) + n -> view f = view (m_rbuf t) ->
  let t' := set_m_rlist l (set_m_rcv_wnd wnd (set_m_rcv_nxt (m_rcv_nxt t + n) (set_m_rbuf f t))) in
  rcv_base R t' /\ (m_shutdown t' = SD_NONE -> data_ok R t').
Proof.
  intros Hb Hdata Hl Hr n Hf Hst Hbl Hdl Hv t'.
  pose proof (ro_rlist _ _ Hb) as Hrl. rewrite Hl in Hrl. apply Forall_cons_1 in Hrl as [Hr0 _].
  destruct Hr0 as (? & ? & ? & ? & ?).
  destruct (advance_ok R t n f wnd Hb Hdata) as [Hb' Hd']; try done; try lia.
  { intros Hs. split; [lia|]. pose proof (do_stored _ _ (Hdata Hs)) as Hsto.
    rewrite Hl in Hsto. apply Forall_cons_1 in Hsto as [Hh _]. intros p Hp. apply Hh. lia. }
  split; [by eapply rcv_base_drop|]. intros Hs. by eapply data_ok_drop; [apply Hd'|].
Qed.

(** The whole recovery loop: it returns, keeps the contents, and leaves only
    segments that are not reachable yet. *)
Lemma wp_recover R l sflags b (e : E) t :
  m_rlist t = l -> rcv_base R t -> (m_shutdown t = SD_NONE -> data_ok R t) ->
  wp (recover l sflags b) (e, t) (fun _ '(e', t') =>
    e' = e /\ rcv_ok R t' /\ recv_step R t t').
Proof.
  revert sflags b t. induction l as [|r l IH]; intros sflags b t Hl Hbase Hdata; cbn [recover]; wp_run.
  - split; [done|]. split; [|apply recv_step_refl].
    constructor; [done|]. intros Hs. split; [by apply Hdata|]. unfold all_ahead. by rewrite Hl.
  - pose proof (ro_rlist _ _ Hbase) as Hr. rewrite Hl in Hr. apply Forall_cons_1 in Hr as [Hr _].
    destruct Hr as (Hr1 & Hr2 & Hr3 & Hr4 & Hr5).
    pose proof (ro_room _ _ Hbase). pose proof (ro_pos _ _ Hbase). pose proof (ro_nxt _ _ Hbase).
    pose proof (ok_data _ (ro_fifo _ _ Hbase)).
    rewrite (wrap32_small (r_seq r + r_len r)) by lia.
    apply wp_if; intros Hle; zbool.
    2:{ wp_run. split; [done|].
        split; [|apply recv_step_refl].
        constructor; [done|]. intros Hs. specialize (Hdata Hs). split; [done|].
        unfold all_ahead. rewrite Hl. pose proof (do_sorted _ _ Hdata) as Hsort. rewrite Hl in Hsort.
        apply StronglySorted_inv in Hsort as [_ Hsort]. constructor; [done|].
        eapply Forall_impl; [|exact Hsort]. cbn. lia. }
    apply wp_if; intros Hgt; zbool.
    + rewrite (wrap32_small (_ - m_rcv_nxt t)) by lia. wp_run.
      unfold window_end in Hr3.
      destruct (ConsumeWriteBuffer_spec (m_rbuf t) (r_seq r + r_len r - m_rcv_nxt t)
        (ro_fifo _ _ Hbase)) as (f & Ef & Hf & Hst & Hbl & Hdl & Hv); [lia|].
      apply (wp_lift_ret _ f); [done|]. wp_run. rewrite (wrap32_small (m_rcv_nxt t + _)) by lia.
      destruct (recover_one R t r l f (wrap32 (m_rcv_wnd t - (r_seq r + r_len r - m_rcv_nxt t)))
        Hbase Hdata Hl ltac:(lia) Hf Hst Hbl Hdl Hv) as [Hbase' Hdata'].
      eapply wp_mono; [by apply IH|]. intros _ [e' t'] (-> & Hok & Hstep). split; [done|].
      split; [done|]. eapply recv_step_trans; [|exact Hstep].
      eapply recv_step_intro; [reflexivity|]. left. unfold read_pos; cbn. lia.
    + wp_run. eapply wp_mono.
      { apply IH; [done|by eapply rcv_base_drop|]. intros Hs. eapply data_ok_drop; [|done]. by apply Hdata. }
      intros _ [e' t'] (-> & Hok & Hstep). split; [done|]. split; [done|].
      eapply recv_step_trans; [|exact Hstep].
      by apply (recv_step_intro R t _ (m_rbuf t) (m_rcv_nxt t) (m_rcv_wnd t) l); [destruct t|left].
Qed.

(** ** Segments that carry the peer's stream *)

Record seg_ok (R : stream) (seg : Segment) : Prop := {
  sg_len : 0 <= seg_len seg <= zlen (seg_data seg);
  sg_seq : 0 <= seg_seq seg < 2 ^ 32;
  sg_flags : seg_flags seg = 0 \/ seg_flags seg = FLAG_CTL;
  sg_data : seg_len seg = 0 \/
    (seg_seq seg + seg_len seg <= zlen (g_bytes R) /\
     (forall i, 0 <= i < seg_len seg ->
        zget (seg_data seg) i = zget (g_bytes R) (seg_seq seg + i)) /\
     if seg_flags seg =? 0 then g_ctl R <= seg_seq seg
     else seg_seq seg + seg_len seg <= g_ctl R)
}.

(** Both trims keep a segment good; what is left lies inside the window. *)
Lemma trim_old_ok R t seg :
  seg_ok R seg -> rcv_base R t ->
  let seg' := trim_old t seg in
  seg_ok R seg' /\ (seg_len seg' = 0 \/ m_rcv_nxt t <= seg_seq seg') /\
  seg_flags seg' = seg_flags seg.
Proof.
  intros [Hl Hs Hf Hd] Hb. pose proof (ro_nxt _ _ Hb). pose proof (ro_room _ _ Hb).
  pose proof (ro_pos _ _ Hb). pose proof (ok_data _ (ro_fifo _ _ Hb)).
  unfold trim_old. destruct (Z.ltb_spec (seg_seq seg) (m_rcv_nxt t)).
  2:{ split; [by constructor|]. split; [by right|done]. }
  destruct (Z.ltb_spec (m_rcv_nxt t - seg_seq seg) (seg_len seg)).
  2:{ split; [constructor; cbn; try done; [lia|by left]|]. split; [by left|done]. }
  rewrite Zplus_minus, wrap32_small by lia. set (n := m_rcv_nxt t - seg_seq seg).
  split; [|by split; [right|]]. destruct Hd as [?|(Hend & Hdata & Hp)]; [lia|].
  constructor; cbn; [rewrite zlen_zdrop; lia|lia|done|right].
  split; [lia|]. split.
  - intros i Hi. rewrite zget_zdrop by lia. rewrite Hdata by lia. f_equal. lia.
  - destruct (seg_flags seg =? 0); lia.
Qed.

Lemma trim_window_ok R t seg :
  seg_ok R seg -> rcv_base R t -> seg_len seg = 0 \/ m_rcv_nxt t <= seg_seq seg ->
  let seg' := trim_window t seg in
  seg_ok R seg' /\ seg_flags seg' = seg_flags seg /\
  (seg_len seg' = 0 \/
   (m_rcv_nxt t <= seg_seq seg' /\ seg_seq seg' + seg_len seg' <= window_end t)).
Proof.
  intros [Hl Hs Hf Hd] Hb Hlo. pose proof (ro_nxt _ _ Hb). pose proof (ro_room _ _ Hb).
  pose proof (ro_pos _ _ Hb). pose proof (ro_cap _ _ Hb).
  pose proof (ok_data _ (ro_fifo _ _ Hb)) as Hfd.
  unfold trim_window, GetWriteRemaining, window_end. rewrite wrap64_small by lia.
  rewrite (wrap32_small (_ - data_length_ _)) by lia.
  rewrite Z.gtb_ltb. set (A := buffer_length_ (m_rbuf t) - data_length_ (m_rbuf t)).
  destruct (Z.eq_dec (seg_len seg) 0) as [Hz|Hnz].
  { set (a := wrap32 _). destruct (Z.ltb_spec A a); [|split; [by constructor|]; by split; [|left]].
    rewrite (proj2 (Z.ltb_ge _ (seg_len seg))) by lia.
    split; [constructor; cbn; try done; [lia|by left]|]. split; [done|]. by left. }
  destruct Hd as [?|(Hend & Hdata & Hp)]; [lia|]. destruct Hlo as [?|Hlo]; [lia|].
  rewrite wrap32_small by lia.
  destruct (Z.ltb_spec A (seg_seq seg + seg_len seg - m_rcv_nxt t)).
  2:{ split; [constructor; try done; by right|]. split; [done|]. right. lia. }
  destruct (Z.ltb_spec (seg_seq seg + seg_len seg - m_rcv_nxt t - A) (seg_len seg)).
  2:{ split; [constructor; cbn; try done; [lia|by left]|]. split; [done|]. by left. }
  split; [|split; [done|right; cbn; lia]].
  constructor; cbn; try done; [lia|right]. split; [lia|]. split; [|destruct (seg_flags seg =? 0); lia].
  intros i Hi. apply Hdata. lia.
Qed.

(** ** Storing a segment *)

Lemma Forall_insert_rseg (P : RSegment -> Prop) r l : P r -> Forall P l -> Forall P (insert_rseg r l).
Proof.
  intros Hr. induction 1 as [|x l Hx Hl IH]; cbn; [by constructor|]. case_step; by repeat constructor.
Qed.

Lemma sorted_insert_rseg r l :
  StronglySorted (fun a b => r_seq a <= r_seq b) l ->
  StronglySorted (fun a b => r_seq a <= r_seq b) (insert_rseg r l).
Proof.
  induction 1 as [|x l Hs IH Hx]; cbn; [by repeat constructor|].
  destruct (Z.ltb_spec (r_seq x) (r_seq r)).
  - constructor; [done|]. apply Forall_insert_rseg; [lia|done].
  - constructor; [by constructor|]. constructor; [lia|].
    eapply Forall_impl; [|exact Hx]. cbn. lia.
Qed.

(** Writing a piece of the stream at its place keeps everything that the
    buffer holds of the stream, and adds the piece. *)
Lemma holds_store R t seg f d :
  fifo_ok (m_rbuf t) -> seg_seq seg + seg_len seg <= window_end t -> m_rcv_nxt t <= seg_seq seg ->
  zlen d = seg_len seg -> (forall i, 0 <= i < seg_len seg -> zget d i = zget R (seg_seq seg + i)) ->
  data_length_ f = data_length_ (m_rbuf t) ->
  view f = splice (view (m_rbuf t)) (data_length_ (m_rbuf t) + (seg_seq seg - m_rcv_nxt t)) d ->
  forall lo hi, m_rcv_nxt t - data_length_ (m_rbuf t) <= lo ->
  (forall p, lo <= p < hi -> seg_seq seg <= p < seg_seq seg + seg_len seg \/ byte_at t p = zget R p) ->
  holds R (set_m_rbuf f t) lo hi.
Proof.
  intros Hf Hw Hlo Hd Hdata Hdl Hv lo hi Hl Hall p Hp. unfold byte_at; cbn. rewrite Hdl, Hv.
  unfold window_end in Hw. pose proof (ok_data _ Hf). pose proof (zlen_view _ Hf) as Hzv.
  rewrite zget_splice by lia. rewrite Hd.
  destruct (Z.leb_spec (data_length_ (m_rbuf t) + (seg_seq seg - m_rcv_nxt t))
              (data_length_ (m_rbuf t) + (p - m_rcv_nxt t)));
  destruct (Z.ltb_spec (data_length_ (m_rbuf t) + (p - m_rcv_nxt t))
              (data_length_ (m_rbuf t) + (seg_seq seg - m_rcv_nxt t) + seg_len seg)); cbn [andb].
  - rewrite Hdata by lia. f_equal. lia.
  - destruct (Hall p Hp) as [?|Hb]; [lia|exact Hb].
  - destruct (Hall p Hp) as [?|Hb]; [lia|exact Hb].
  - destruct (Hall p Hp) as [?|Hb]; [lia|exact Hb].
Qed.

Lemma store_data_keeps R t seg f d :
  rcv_base R t -> data_ok R t -> seg_seq seg + seg_len seg <= window_end t ->
  m_rcv_nxt t <= seg_seq seg -> 0 < seg_len seg -> zlen d = seg_len seg ->
  (forall i, 0 <= i < seg_len seg -> zget d i = zget (g_bytes R) (seg_seq seg + i)) ->
  fifo_ok f -> state_ f = state_ (m_rbuf t) -> buffer_length_ f = buffer_length_ (m_rbuf t) ->
  data_length_ f = data_length_ (m_rbuf t) ->
  view f = splice (view (m_rbuf t)) (data_length_ (m_rbuf t) + (seg_seq seg - m_rcv_nxt t)) d ->
  let t' := set_m_rbuf f t in
  rcv_base R t' /\ data_ok R t' /\
  holds (g_bytes R) t' (seg_seq seg) (seg_seq seg + seg_len seg).
Proof.
  intros Hb [Hrd Hc Hst Hso] Hw Hlo Hlen Hd Hdata Hf Hsf Hbf Hdf Hv t'.
  pose proof Hb as []. pose proof (ok_data _ ro_fifo0).
  pose proof (holds_store (g_bytes R) t seg f d ro_fifo0 Hw Hlo Hd Hdata Hdf Hv) as Hholds.
  split; [|split].
  - constructor; cbn; rewrite ?Hsf, ?Hbf, ?Hdf; try assumption.
    eapply Forall_impl; [|exact ro_rlist0]. unfold rseg_ok, window_end; cbn. by rewrite Hbf, Hdf.
  - constructor; cbn; rewrite ?Hdf; try assumption.
    + apply Hholds; [lia|]. intros p Hp. right. by apply Hrd.
    + eapply Forall_impl; [|exact Hst]. cbn. intros r Hr. apply Hholds; [lia|].
      intros p Hp. right. by apply Hr.
  - apply Hholds; [lia|]. intros p Hp. by left.
Qed.

Lemma wp_store_data R seg (e : E) t :
  rcv_ok R t -> m_shutdown t = SD_NONE -> seg_ok R seg -> 0 < seg_len seg ->
  seg_flags seg = 0 -> m_rcv_nxt t <= seg_seq seg -> seg_seq seg + seg_len seg <= window_end t ->
  wp (store_data seg) (e, t) (fun o '(e', t') =>
    e' = e /\ recv_step R t t' /\ rcv_base R t' /\ data_ok R t' /\
    match o with
    | Some true => True
    | Some false => all_ahead t'
    | None => False
    end).
Proof.
  intros [Hb Hdata] Hs [Hl Hsq Hfl Hsd] Hlen Hflags Hlo Hw.
  destruct (Hdata Hs) as [Hd Ha]. pose proof Hb as []. pose proof (ok_data _ ro_fifo0).
  destruct Hsd as [?|(Hend & Hbytes & Hpart)]; [lia|].
  rewrite Hflags in Hpart. cbn [Z.eqb] in Hpart.
  unfold store_data. wp_run. rewrite (wrap32_small (seg_seq seg - m_rcv_nxt t)) by lia.
  apply (wp_lift_ret _ (ztake (seg_len seg) (seg_data seg)));
    [rewrite mem_read_ok by lia; by rewrite zdrop_0|]. wp_run.
  set (d := ztake _ _). assert (Hdz : zlen d = seg_len seg) by (subst d; rewrite zlen_ztake; lia).
  apply wp_lift. eapply post_mono; [apply WriteOffset_spec; [done|lia]|].
  intros [[res n] f] (Hf & Hsf & Hdf & Hbf & _ & Hcase). cbn beta iota zeta.
  rewrite decide_False in Hcase by done. unfold window_end in Hw.
  rewrite (proj2 (Z.ltb_lt _ _)) in Hcase by lia. destruct Hcase as (-> & -> & Hv).
  rewrite Hdz, Z.min_l, (ztake_all (seg_len seg) d) in Hv by lia.
  destruct (store_data_keeps R t seg f d Hb Hd Hw Hlo Hlen Hdz) as (Hb1 & Hd1 & Hh1); try done.
  { intros i Hi. subst d. rewrite zget_ztake by lia. by apply Hbytes. }
  wp_run. rewrite decide_False by done. wp_run. apply wp_assert; [by rewrite bool_decide_true|].
  apply wp_if; intros Heq; zbool; wp_run.
  - destruct (ConsumeWriteBuffer_spec f (seg_len seg) Hf) as (f2 & Ef2 & Hf2 & Hs2 & Hbl2 & Hdl2 & Hv2); [lia|].
    apply (wp_lift_ret _ f2); [done|]. wp_run. rewrite (wrap32_small (m_rcv_nxt t + _)) by lia.
    split; [done|]. split.
    { apply (recv_step_intro R t _ f2 (m_rcv_nxt t + seg_len seg)
        (wrap32 (m_rcv_wnd t - seg_len seg)) (m_rlist t)); [done|].
      intros _. left. unfold read_pos; cbn. lia. }
    destruct (advance_ok R (set_m_rbuf f t) (seg_len seg) f2
      (wrap32 (m_rcv_wnd t - seg_len seg)) Hb1 (fun _ => Hd1)) as [Hb2 Hd2]; cbn; try lia; try done.
    { unfold window_end; cbn. lia. }
    { intros _. split; [lia|]. rewrite <- Heq. exact Hh1. }
    split; [exact Hb2|]. split; [by apply Hd2|done].
  - split; [done|]. split.
    { eapply (recv_step_intro R t _ f (m_rcv_nxt t) (m_rcv_wnd t)); [by destruct t|].
      intros _. left. unfold read_pos; cbn. lia. }
    set (r := mkRSegment _ _).
    assert (Hrs : rseg_ok R (set_m_rbuf f t) r).
    { unfold rseg_ok, window_end; cbn. rewrite Hbf, Hdf. repeat split; lia. }
    split; [|split].
    + destruct Hb1. constructor; try assumption. by apply Forall_insert_rseg.
    + destruct Hd1 as [Hrd Hc Hst Hso]. constructor; try assumption; [|by apply sorted_insert_rseg].
      apply Forall_insert_rseg; [|exact Hst]. cbn. intros p Hp. apply Hh1. lia.
    + unfold all_ahead. apply Forall_insert_rseg; [cbn; lia|exact Ha].
Qed.

(** ** Skipping data: control bytes, and everything after [Close] *)

(** Moving [m_rcv_nxt] without a byte in the buffer. *)
Lemma skip_base R t n f :
  rcv_base R t -> 0 <= n -> m_rcv_nxt t + n <= zlen (g_bytes R) ->
  fifo_ok f -> state_ f = state_ (m_rbuf t) -> buffer_length_ f = buffer_length_ (m_rbuf t) ->
  data_length_ f = data_length_ (m_rbuf t) ->
  rcv_base R (set_m_rbuf f (set_m_rcv_nxt (m_rcv_nxt t + n) t)).
Proof.
  intros [] Hn Hend Hf Hst Hbl Hdl. constructor; cbn; rewrite ?Hst, ?Hbl, ?Hdl; try assumption; try lia.
  eapply Forall_impl; [|exact ro_rlist0]. unfold rseg_ok, window_end; cbn. intros r (? & ? & ? & ? & ?).
  rewrite Hbl, Hdl. repeat split; lia.
Qed.

(** Shifting an empty buffer by [n] keeps what was stored ahead. *)
Lemma skip_data_ok R t n f :
  rcv_base R t -> data_ok R t -> data_length_ (m_rbuf t) = 0 -> 0 <= n ->
  m_rcv_nxt t + n <= window_end t -> data_length_ f = 0 ->
  view f = zdrop n (view (m_rbuf t)) ++ ztake n (view (m_rbuf t)) ->
  data_ok R (set_m_rbuf f (set_m_rcv_nxt (m_rcv_nxt t + n) t)).
Proof.
  intros Hb [Hrd Hc Hst Hso] H0 Hn Hw Hf0 Hv. pose proof (zlen_view _ (ro_fifo _ _ Hb)) as Hzv.
  unfold window_end in Hw. constructor; cbn; rewrite ?Hf0.
  - intros p Hp. lia.
  - by left.
  - pose proof (ro_rlist _ _ Hb) as Hrl. rewrite Forall_forall in *. intros r Hr p Hp.
    destruct (Hrl r Hr) as (? & ? & Hwe & _). unfold window_end in Hwe.
    unfold byte_at; cbn. rewrite Hf0, Hv, zget_app_l by (rewrite zlen_zdrop; lia).
    rewrite zget_zdrop by lia. rewrite <- (Hst r Hr p) by lia. unfold byte_at. f_equal. lia.
  - exact Hso.
Qed.

Lemma wp_skip_data R seg (e : E) t :
  rcv_ok R t -> seg_ok R seg -> 0 < seg_len seg ->
  (m_shutdown t = SD_NONE -> seg_flags seg = FLAG_CTL) ->
  m_rcv_nxt t <= seg_seq seg -> seg_seq seg + seg_len seg <= window_end t ->
  wp (skip_data seg) (e, t) (fun b '(e', t') =>
    e' = e /\ recv_step R t t' /\ rcv_base R t' /\
    (m_shutdown t = SD_NONE -> data_ok R t' /\ (b = false -> all_ahead t'))).
Proof.
  intros [Hb Hdata] [Hl Hsq Hfl Hsd] Hlen Hctl Hlo Hw.
  pose proof Hb as []. pose proof (ok_data _ ro_fifo0).
  destruct Hsd as [?|(Hend & _ & Hpart)]; [lia|].
  unfold skip_data. wp_run. apply wp_if; intros Heq; zbool.
  2:{ wp_run. split; [done|]. split; [apply recv_step_refl|].
      split; [done|]. intros Hs. by destruct (Hdata Hs). }
  wp_run. rewrite wrap32_small by lia.
  apply wp_if; intros Hdl; unfold GetBuffered in Hdl; zbool.
  - unfold window_end in Hw.
    destruct (ConsumeWriteBuffer_spec (m_rbuf t) (seg_len seg) ro_fifo0) as
      (f1 & Ef1 & Hf1 & Hs1 & Hbl1 & Hdl1 & Hv1); [lia|].
    destruct (ConsumeReadData_spec f1 (seg_len seg) Hf1) as
      (f2 & Ef2 & Hf2 & Hs2 & Hbl2 & Hdl2 & Hv2); [lia|lia|].
    wp_run. apply (wp_lift_ret _ f1); [done|]. wp_run. apply (wp_lift_ret _ f2); [done|]. wp_run.
    split; [done|].
    split.
    { apply (recv_step_intro R t _ f2 (m_rcv_nxt t + seg_len seg) (m_rcv_wnd t) (m_rlist t)); [done|].
      intros Hs. right. rewrite (Hctl Hs) in Hpart. cbn in Hpart. unfold read_pos; cbn. lia. }
    split; [apply skip_base; try done; try lia; congruence|].
    intros Hs. destruct (Hdata Hs) as [Hd _]. split; [|done].
    apply skip_data_ok; try done; [lia|unfold window_end; lia|lia|congruence].
  - wp_run. split; [done|].
    split.
    { apply (recv_step_intro R t _ (m_rbuf t) (m_rcv_nxt t + seg_len seg) (m_rcv_wnd t) (m_rlist t)); [done|].
      intros Hs. right. rewrite (Hctl Hs) in Hpart. cbn in Hpart. unfold read_pos; cbn. lia. }
    split; [apply (skip_base R t (seg_len seg) (m_rbuf t)); try done; lia|].
    intros Hs. destruct (Hdata Hs) as [[_ Hc _ _] _]. rewrite (Hctl Hs) in Hpart. cbn in Hpart. lia.
Qed.

(** ** The receive part of [process] *)

Lemma wp_receive_data R seg sflags (e : E) t :
  rcv_ok R t -> seg_ok R seg ->
  (seg_len seg = 0 \/ (m_rcv_nxt t <= seg_seq seg /\ seg_seq seg + seg_len seg <= window_end t)) ->
  wp (receive_data seg sflags) (e, t) (fun o '(e', t') =>
    e' = e /\ recv_step R t t' /\ rcv_ok R t' /\ o <> None).
Proof.
  intros Hok Hseg Hwin. pose proof Hseg as [Hl _ Hfl _]. unfold receive_data. wp_run.
  apply wp_if; intros Hlen; zbool.
  2:{ wp_run. split; [done|].
      split; [apply recv_step_refl|]. done. }
  destruct Hwin as [?|[Hlo Hw]]; [lia|]. apply wp_bind.
  assert (Hrec : forall sf b t1, recv_step R t t1 -> rcv_base R t1 ->
    (m_shutdown t1 = SD_NONE -> data_ok R t1) ->
    wp (recover (m_rlist t1) sf b) (e, t1) (fun r s => wp (mret (Some r)) s (fun o '(e', t') =>
      e' = e /\ recv_step R t t' /\ rcv_ok R t' /\ o <> None))).
  { intros sf b t1 Hs1 Hb1 Hd1. eapply wp_mono; [by apply (wp_recover R)|].
    intros r [e' t'] (-> & ? & ?). wp_run. split; [done|]. split; [by eapply recv_step_trans|done]. }
  apply wp_if; intros Hign.
  - apply wp_bind. eapply wp_mono; [apply (wp_skip_data R); try done|].
    { intros Hs. destruct Hfl as [Hf0|]; [|done]. rewrite Hf0, Hs in Hign.
      by rewrite bool_decide_false in Hign by auto. }
    intros b [e1 t1] (-> & Hstep & Hb1 & Hd1). wp_run.
    assert (Hsd : m_shutdown t1 = m_shutdown t) by (by destruct Hstep as [(? & ? & ? & ? & ->) _]).
    destruct b; wp_run.
    + apply Hrec; try done. rewrite Hsd. intros Hs. by apply Hd1.
    + split; [done|]. split; [done|]. split; [|done]. constructor; [done|].
      rewrite Hsd. intros Hs. destruct (Hd1 Hs) as [? Ha]. split; [done|by apply Ha].
  - apply orb_false_iff in Hign as [Hf Hs]. apply bool_decide_eq_false in Hs. zbool.
    assert (Hs' : m_shutdown t = SD_NONE) by (destruct (m_shutdown t); try done; exfalso; apply Hs; done).
    assert (Hf0 : seg_flags seg = 0) by (destruct Hfl as [|Hc]; [done|rewrite Hc in Hf; done]).
    apply wp_bind. eapply wp_mono; [by apply (wp_store_data R)|].
    intros o [e1 t1] (-> & Hstep & Hb1 & Hd1 & Ho). wp_run.
    destruct o as [[]|]; cbn [mbind option_bind]; wp_run.
    + apply Hrec; done.
    + split; [done|]. split; [done|]. split; [by constructor|done].
    + done.
Qed.

(** ** Reading *)

(** Taking [n] bytes off the front moves no byte of the stream. *)
Lemma byte_at_read t f n p :
  fifo_ok (m_rbuf t) -> 0 <= n <= data_length_ (m_rbuf t) ->
  data_length_ f = data_length_ (m_rbuf t) - n ->
  view f = zdrop n (view (m_rbuf t)) ++ ztake n (view (m_rbuf t)) ->
  read_pos t + n <= p < window_end t -> byte_at (set_m_rbuf f t) p = byte_at t p.
Proof.
  intros Hf Hn Hd Hv Hp. unfold read_pos, window_end in Hp. pose proof (zlen_view _ Hf) as Hz.
  pose proof (ok_data _ Hf). unfold byte_at; cbn.
  rewrite Hv, Hd, zget_app_l by (rewrite zlen_zdrop; lia). rewrite zget_zdrop by lia. f_equal. lia.
Qed.

Lemma rcv_ok_read R t f n :
  rcv_ok R t -> 0 <= n <= data_length_ (m_rbuf t) ->
  fifo_ok f -> state_ f = state_ (m_rbuf t) -> buffer_length_ f = buffer_length_ (m_rbuf t) ->
  data_length_ f = data_length_ (m_rbuf t) - n ->
  view f = zdrop n (view (m_rbuf t)) ++ ztake n (view (m_rbuf t)) ->
  rcv_ok R (set_m_rbuf f t).
Proof.
  intros [Hb Hdata] Hn Hf Hst Hbl Hdl Hv. pose proof Hb as [].
  pose proof (ok_data _ ro_fifo0). pose proof (byte_at_read t f n) as Hbyte. unfold read_pos in Hbyte.
  constructor.
  - constructor; cbn; rewrite ?Hst, ?Hbl, ?Hdl; try assumption; try lia.
    eapply Forall_impl; [|exact ro_rlist0]. unfold rseg_ok, window_end; cbn. intros r (? & ? & ? & ? & ?).
    rewrite Hbl, Hdl. repeat split; lia.
  - intros Hs. destruct (Hdata Hs) as [[Hrd Hc Hsto Hso] Ha]. split; [|exact Ha].
    constructor; cbn; rewrite ?Hdl; try assumption.
    + intros p Hp. rewrite Hbyte by (unfold window_end; done || lia). apply Hrd. lia.
    + destruct Hc; [left|right]; lia.
    + rewrite Forall_forall in *. intros r Hr p Hp. destruct (ro_rlist0 r Hr) as (? & ? & ? & _).
      cbn in Hp. rewrite Hbyte by (done || lia). by apply (Hsto r Hr).
Qed.

(** The bytes read are the next bytes of the peer's data. *)
Lemma read_is_stream R t n :
  rcv_ok R t -> m_shutdown t = SD_NONE -> 0 <= n <= data_length_ (m_rbuf t) ->
  ztake n (view (m_rbuf t)) = ztake n (zdrop (read_pos t) (g_bytes R)).
Proof.
  intros [[] Hdata] Hs Hn. destruct (Hdata Hs) as [[Hrd _ _ _] _].
  pose proof (zlen_view _ ro_fifo0) as Hz. pose proof (ok_data _ ro_fifo0). unfold read_pos.
  apply zlist_eq; [rewrite !zlen_ztake; rewrite ?zlen_zdrop; lia|].
  rewrite zlen_ztake by lia. intros i Hi. rewrite !zget_ztake by lia. rewrite zget_zdrop by lia.
  rewrite <- Hrd by lia. unfold byte_at. f_equal. lia.
Qed.

Lemma delivered_read R t f n :
  rcv_ok R t -> m_shutdown t = SD_NONE -> 0 <= g_ctl R -> 0 <= n <= data_length_ (m_rbuf t) ->
  data_length_ f = data_length_ (m_rbuf t) - n ->
  delivered R (set_m_rbuf f t) = delivered R t ++ ztake n (view (m_rbuf t)).
Proof.
  intros Hr Hs Hc Hn Hd. rewrite (read_is_stream R t n Hr Hs Hn).
  assert (Hp : read_pos (set_m_rbuf f t) = read_pos t + n) by (unfold read_pos; cbn; lia).
  destruct (Z.eq_dec n 0) as [->|Hnz].
  { rewrite ztake_0, app_nil_r. unfold delivered. by rewrite Hp, Z.add_0_r. }
  destruct (rk_data _ _ Hr Hs) as [[_ Hctl _ _] _]. destruct Hctl as [?|Hctl]; [lia|].
  unfold delivered. rewrite Hp. unfold read_pos in *. set (r := m_rcv_nxt t - _) in *.
  replace (r + n - g_ctl R) with ((r - g_ctl R) + n) by lia.
  unfold ztake, zdrop. rewrite Z2Nat.inj_add by lia. rewrite <- take_take_drop, drop_drop.
  do 3 f_equal. lia.
Qed.

End Receiver.
