(* ===== verification/TcpOptions.v ===== *)
(** * The connect message of PseudoTcp and the window scale

    [queueConnectMessage] writes a control code and the window-scale option,
    [parseOptions] reads the options of the peer's message.  The option parser
    returns on every input, well formed or not; the receive buffer's size is
    chosen so that the window it advertises fits 16 bits. *)

From Stdlib Require Import ZArith Lia.
From S2P Require Import Prelude ByteOrder ConstBuffer ByteBuffer FifoBuffer.
From S2P Require Import TcpState PseudoTcp TcpWire TcpQueue TcpSend TcpOps.

Section Options.
Context {E : Type} `{IPseudoTcpNotify E} `{Heap}.

Definition small (b : byte) : Prop := byte.unsigned b < 32.

Lemma unread_nil_fail r : unread r [] -> ReadUInt8 r = Ret (None, r).
Proof.
  intros Hr. pose proof (unread_Length _ _ Hr) as HL.
  unfold ReadUInt8, mbind, reader_bind, ReadBytes. by rewrite HL.
Qed.

(** [buf.ReadUInt8(&v)] on what is left: the byte, or the old value at the end. *)
Lemma wp_read_or d r l (e : E) t Q :
  unread r l ->
  (forall r', unread r' (tail l) ->
     Q (match l with b :: _ => byte.unsigned b | [] => d end, r') (e, t)) ->
  wp (read_or d r) (e, t) Q.
Proof.
  intros Hr HQ. unfold read_or. apply wp_bind. destruct l as [|b l].
  - apply (wp_lift_ret _ (None, r)); [by apply unread_nil_fail|]. wp_run. by apply HQ.
  - destruct (ReadUInt8_reads_byte b r l Hr) as (r' & E1 & Hr').
    apply (wp_lift_ret _ (Some (byte.unsigned b), r')); [done|]. wp_run. by apply HQ.
Qed.

(** The memory at the reader's position starts with what it has not read. *)
Lemma unread_memory r b l : unread r (b :: l) -> mem_read (zdrop (start_ r) (bytes_ r)) 0 1 = Ret [b].
Proof.
  intros Hr. pose proof (zlen_nonneg l).
  pose proof (unread_mem r (b :: l) 1 Hr) as Hm. rewrite zlen_cons in Hm.
  specialize (Hm ltac:(lia)). destruct Hr as (? & ? & Hl).
  assert (Hz : zlen (b :: l) <= zlen (zdrop (start_ r) (bytes_ r))).
  { rewrite Hl, zlen_ztake, zlen_zdrop; [lia|lia|]. rewrite zlen_zdrop; lia. }
  rewrite zlen_cons in Hz. rewrite mem_read_ok by lia. rewrite zdrop_0. f_equal.
  rewrite zlen_zdrop in Hz by lia. rewrite mem_read_ok in Hm by lia. by injection Hm.
Qed.

(** Applying an option changes the window scale to a byte of the option, if anything. *)
Lemma wp_applyOption kind r l len (e : E) t :
  unread r l -> 0 <= len <= zlen l -> Forall small l -> 0 <= m_swnd_scale t < 32 ->
  wp (applyOption kind (zdrop (start_ r) (bytes_ r)) len) (e, t) (fun _ s' =>
    exists sc, 0 <= sc < 32 /\ s' = (e, set_m_swnd_scale sc t)).
Proof.
  intros Hr Hlen Hl Hsc. unfold applyOption.
  assert (Hid : exists sc, 0 <= sc < 32 /\ (e, t) = (e, set_m_swnd_scale sc t))
    by (exists (m_swnd_scale t); split; [done|by destruct t]).
  repeat (apply wp_if; intros ?; zbool; [try by wp_run|try by wp_run]).
  destruct l as [|b l]; [unfold zlen in Hlen; cbn in Hlen; lia|]. apply wp_bind.
  apply (wp_lift_ret _ [b]); [by apply (unread_memory r b l)|].
  unfold applyWindowScaleOption. wp_run. apply Forall_cons_1 in Hl as [Hb _].
  unfold small in Hb. pose proof (byte.unsigned_range b). exists (byte.unsigned b). cbn [hd].
  split; [lia|done].
Qed.

Lemma wp_parseOptions_loop fuel len r l seen (e : E) t :
  unread r l -> zlen l < Z.of_nat fuel -> zlen l <= len -> Forall small l ->
  0 <= m_swnd_scale t < 32 ->
  wp (parseOptions_loop fuel len r seen) (e, t) (fun _ s' =>
    exists sc, 0 <= sc < 32 /\ s' = (e, set_m_swnd_scale sc t)).
Proof.
  revert r l seen t. induction fuel as [|fuel IH]; intros r l seen t Hr Hf Hlen Hl Hsc.
  { pose proof (zlen_nonneg l). lia. }
  assert (Hid : exists sc, 0 <= sc < 32 /\ (e, t) = (e, set_m_swnd_scale sc t))
    by (exists (m_swnd_scale t); split; [done|by destruct t]).
  cbn [parseOptions_loop]. rewrite (unread_Length _ _ Hr).
  apply wp_if; intros Hz; zbool; [by wp_run|]. apply wp_bind. apply (wp_read_or _ r l); [done|].
  intros r1 Hr1. destruct l as [|b l]; [by unfold zlen in Hz|]. cbn [tail] in Hr1.
  apply Forall_cons_1 in Hl as [Hb Hl]. rewrite zlen_cons in Hf, Hlen. pose proof (zlen_nonneg l).
  apply wp_if; intros _; [by wp_run|]. apply wp_if; intros _; [apply (IH r1 l); try done; lia|].
  apply wp_bind, wp_assert; [apply negb_true_iff, Z.eqb_neq; lia|].
  apply wp_bind. apply (wp_read_or _ r1 l); [done|]. intros r2 Hr2.
  assert (Hl2 : Forall small (tail l)) by (destruct l; [done|by apply Forall_cons_1 in Hl as [_ ?]]).
  assert (Hzt : zlen (tail l) <= zlen l) by (destruct l; cbn; rewrite ?zlen_cons; lia).
  set (olen := match l with b :: _ => byte.unsigned b | [] => 0 end).
  assert (Hol : 0 <= olen) by (subst olen; destruct l; [lia|apply byte.unsigned_range]).
  rewrite (unread_Length _ _ Hr2). apply wp_if; intros Hfit; zbool; [|by wp_run].
  apply wp_bind. eapply wp_mono; [by apply (wp_applyOption _ r2 (tail l))|].
  intros _ s' (sc & Hsc' & ->). apply wp_bind.
  assert (Hc : Consume olen r2 = Ret (Some tt, advance olen r2)).
  { unfold Consume. rewrite (unread_Length _ _ Hr2), Z.gtb_ltb. by rewrite (proj2 (Z.ltb_ge _ _)) by lia. }
  apply (wp_lift_ret _ (Some tt, advance olen r2)); [done|].
  eapply wp_mono; [apply (IH _ (zdrop olen (tail l)))|].
  - by apply unread_advance.
  - rewrite zlen_zdrop; lia.
  - rewrite zlen_zdrop; lia.
  - by apply Forall_drop.
  - done.
  - intros _ s'' (sc' & Hsc'' & ->). by exists sc'.
Qed.

Lemma wp_parseOptions data len (e : E) t :
  0 <= len <= zlen data -> zlen data < 2 ^ 64 -> Forall small data ->
  0 <= m_swnd_scale t < 32 -> m_rwnd_scale t = 0 ->
  wp (parseOptions data len) (e, t) (fun _ s' =>
    exists sc, 0 <= sc < 32 /\ s' = (e, set_m_swnd_scale sc t)).
Proof.
  intros Hlen Hd Hs Hsc Hrw. unfold parseOptions. apply wp_bind.
  eapply wp_mono; [apply (wp_parseOptions_loop _ _ _ (ztake len data)); try done|].
  - by apply unread_Reader.
  - rewrite zlen_ztake; lia.
  - rewrite zlen_ztake; lia.
  - by apply Forall_take.
  - intros o s' (sc & Hsc' & ->). destruct o as [seen|]; [|wp_run; by exists sc].
    apply wp_if; intros _; [wp_run; by exists sc|]. wp_run.
    apply wp_when; intros Hw; zbool; [cbn in Hw; lia|]. by exists sc.
Qed.

(** ** The size of the receive buffer *)

(** The loop finds the least factor that brings the size down to 16 bits. *)
Lemma scale_loop_ok fuel k n :
  0 <= k -> k + Z.of_nat fuel <= 2 ^ 8 -> 0 <= n < 2 ^ (15 + Z.of_nat fuel) -> (0 < fuel)%nat ->
  post (scale_loop fuel k n) (fun '(k', n') =>
    k <= k' < k + Z.of_nat fuel /\ n' = n / 2 ^ (k' - k) /\ 0 <= n' <= 0xFFFF /\
    (k < k' -> 0xFFFF < n / 2 ^ (k' - 1 - k))).
Proof.
  revert k n. induction fuel as [|fuel IH]; intros k n Hk Hkf Hn Hf; [lia|].
  cbn [scale_loop]. case_step; zbool.
  - destruct fuel as [|fuel']; [cbn in Hn; lia|]. set (f := S fuel') in *.
    rewrite wrap8_small by lia. rewrite Z.shiftr_div_pow2 by lia. change (2 ^ 1) with 2.
    replace (15 + Z.of_nat (S f)) with (1 + (15 + Z.of_nat f)) in Hn by lia.
    rewrite Z.pow_add_r in Hn by lia.
    pose proof (Z.div_lt_upper_bound n 2 (2 ^ (15 + Z.of_nat f)) ltac:(lia) ltac:(lia)).
    pose proof (Z.div_pos n 2 ltac:(lia) ltac:(lia)).
    eapply post_mono; [apply IH; lia|]. intros [k' n'] (Hk' & -> & Hr & Hmin).
    split; [lia|]. rewrite Z.div_div in * by lia.
    replace (2 * 2 ^ (k' - (k + 1))) with (2 ^ (k' - k)) in *
      by (rewrite <- Z.pow_succ_r by lia; f_equal; lia).
    split; [done|]. split; [done|]. intros _.
    destruct (Z.eq_dec k' (k + 1)) as [->|Hne].
    + replace (k + 1 - 1 - k) with 0 by lia. rewrite Z.pow_0_r, Z.div_1_r. lia.
    + specialize (Hmin ltac:(lia)). rewrite Z.div_div in Hmin by lia.
      replace (2 * 2 ^ (k' - 1 - (k + 1))) with (2 ^ (k' - 1 - k)) in Hmin; [done|].
      rewrite <- Z.pow_succ_r by lia. f_equal. lia.
  - cbn. rewrite Z.sub_diag, Z.pow_0_r, Z.div_1_r. repeat split; lia.
Qed.

(** The buffer keeps its contents; its new size is the request rounded down
    to a multiple of the scale, and every window it can advertise fits the
    16-bit field of the header. *)
Definition resized (n : Z) (t t' : PseudoTcp) : Prop :=
  let k := m_rwnd_scale t' in
  0 <= k <= 16 /\ (0 < k -> 0xFFFF < n / 2 ^ (k - 1)) /\
  m_rbuf_len t' = n / 2 ^ k * 2 ^ k /\ buffer_length_ (m_rbuf t') = m_rbuf_len t' /\
  fifo_ok (m_rbuf t') /\ readable (m_rbuf t') = readable (m_rbuf t) /\
  m_rcv_wnd t' = m_rbuf_len t' - data_length_ (m_rbuf t) /\
  forall w, 0 <= w <= m_rbuf_len t' ->
    wrap16 (Z.shiftr w k) = Z.shiftr w k /\ Z.shiftl (Z.shiftr w k) k <= w.

Lemma scaled_fits n k w :
  0 <= k -> n / 2 ^ k <= 0xFFFF -> 0 <= w <= n / 2 ^ k * 2 ^ k ->
  wrap16 (Z.shiftr w k) = Z.shiftr w k /\ Z.shiftl (Z.shiftr w k) k <= w.
Proof.
  intros Hk Hn Hw. pose proof (Z.pow_pos_nonneg 2 k ltac:(lia) Hk).
  rewrite Z.shiftl_mul_pow2, !Z.shiftr_div_pow2 by lia.
  pose proof (Z.div_mod w (2 ^ k)). pose proof (Z.mod_pos_bound w (2 ^ k)).
  split; [|nia]. apply wrap16_small. pose proof (Z.div_pos w (2 ^ k)).
  pose proof (Z.div_le_mono w (n / 2 ^ k * 2 ^ k) (2 ^ k)). rewrite Z.div_mul in * by lia. lia.
Qed.

(** A request that holds what is buffered is granted. *)
Lemma wp_resizeReceiveBuffer n (e : E) t :
  0 <= n < 2 ^ 32 -> fifo_ok (m_rbuf t) -> data_length_ (m_rbuf t) = 0 ->
  wp (resizeReceiveBuffer n) (e, t) (fun _ '(e', t') => e' = e /\ resized n t t').
Proof.
  intros Hn Hf Hd. unfold resizeReceiveBuffer. apply wp_bind, wp_lift.
  eapply post_mono; [apply (scale_loop_ok 18 0 n); lia|].
  intros [k n'] (Hk & -> & Hr & Hmin). rewrite Z.sub_0_r in *. cbn beta iota.
  assert (Hk16 : k <= 16).
  { destruct (Z.le_gt_cases k 16); [done|]. specialize (Hmin ltac:(lia)).
    replace (k - 1) with 16 in Hmin by lia.
    pose proof (Z.div_lt_upper_bound n (2 ^ 16) (2 ^ 16) ltac:(lia) ltac:(lia)). lia. }
  pose proof (Z.pow_pos_nonneg 2 k ltac:(lia) ltac:(lia)).
  pose proof (Z.mul_div_le n (2 ^ k) ltac:(lia)).
  assert (Hz : 0 <= n / 2 ^ k * 2 ^ k < 2 ^ 32) by nia.
  apply wp_bind, (wp_lift_ret _ (n / 2 ^ k * 2 ^ k)).
  { unfold shl32. rewrite (proj2 (Z.ltb_lt k 32)) by lia.
    by rewrite Z.shiftl_mul_pow2, wrap32_small by lia. }
  wp_run. set (c := n / 2 ^ k * 2 ^ k) in *.
  destruct (SetCapacity_spec (m_rbuf t) c Hf ltac:(lia)) as (f & Hf' & Hst & Hdl & Hrd & Hset).
  rewrite (proj2 (Z.leb_le _ _)) in Hset by lia. destruct Hset as [Eset Hbl].
  apply (wp_lift_ret _ (true, f)); [done|]. wp_run. apply wp_assert; [done|]. wp_run.
  split; [done|]. unfold resized; cbn.
  split; [lia|]. split; [exact Hmin|].
  do 4 (split; [done|]).
  split.
  - unfold GetWriteRemaining. rewrite wrap64_small, wrap32_small by lia. lia.
  - intros w Hw. apply (scaled_fits n); [lia|lia|done].
Qed.

(** ** The connect message *)

Definition connect_message (t : PseudoTcp) : list byte :=
  byte.of_Z CTL_CONNECT ::
  if m_support_wnd_scale t
  then [byte.of_Z TCP_OPT_WND_SCALE; byte.of_Z 1; byte.of_Z (m_rwnd_scale t)] else [].

Lemma zlen_connect_message t : 1 <= zlen (connect_message t) <= 4.
Proof. unfold connect_message, zlen. destruct (m_support_wnd_scale t); cbn; lia. Qed.

#[local] Existing Instance writer_class.

(** One byte appended to the message under construction. *)
Lemma wp_WriteUInt8 (buf : BufferT) l v (e : E) t Q :
  wrote buf l -> (forall buf', wrote buf' (l ++ [byte.of_Z v]) -> Q buf' (e, t)) ->
  wp (lift (WriteUInt8 buf v)) (e, t) Q.
Proof.
  intros Hw HQ. apply wp_lift. eapply post_mono; [exact (WriteUInt8_writes v buf l Hw)|].
  exact HQ.
Qed.

(** The message is the code, then the window scale if it is supported. *)
Lemma wp_queueConnectMessage (e : E) t Q :
  wp (queue (connect_message t) (zlen (connect_message t)) true)
    (e, set_m_snd_wnd (zlen (connect_message t)) t) (fun _ s => Q tt s) ->
  wp queueConnectMessage (e, t) Q.
Proof.
  intros HQ. unfold queueConnectMessage. wp_run. apply wp_lift.
  eapply post_mono; [apply ByteBufferWriter_ok|]. intros b0 Hb0. wp_run.
  apply (wp_WriteUInt8 b0 []); [exact Hb0|]. intros b1 Hb1. cbn [app] in Hb1. wp_run.
  pose proof (zlen_connect_message t) as Hz.
  assert (Hfin : forall b, wrote b (connect_message t) ->
    wp (upd (set_m_snd_wnd (wrap32 (size_ b)));;
        queue (BufferT_contents b) (wrap32 (size_ b)) true;; mret tt) (e, t) Q).
  { intros b [Hok Hc]. pose proof (size_wrote b _ (conj Hok Hc)) as Hs. cbn [size writer_class BufferT_class] in Hs.
    rewrite Hs, Hc, wrap32_small by lia. wp_run. eapply wp_mono; [exact HQ|]. intros r s' Hr. by wp_run. }
  unfold connect_message in Hfin. destruct (m_support_wnd_scale t).
  - wp_run. apply (wp_WriteUInt8 b1 _ _ _ _ _ Hb1). intros b2 Hb2. wp_run.
    apply (wp_WriteUInt8 b2 _ _ _ _ _ Hb2). intros b3 Hb3. wp_run.
    apply (wp_WriteUInt8 b3 _ _ _ _ _ Hb3). intros b4 Hb4. by apply Hfin.
  - apply wp_ret. by apply Hfin.
Qed.

End Options.

(** Whatever receive buffer size the user asks for before the connection
    starts, [SetOption(OPT_RCVBUF)] returns; the buffer gets the largest
    multiple of [2^k] not above the request for the least scale [k] whose
    windows fit, and every window the object can then advertise survives the
    16-bit field of the header, never announcing more room than there is. *)
Theorem receive_buffer_scaled {E} `{IPseudoTcpNotify E} `{Heap} (size : Z) (e : E) t :
  0 <= size < 2 ^ 31 -> m_state t = TCP_LISTEN -> fifo_ok (m_rbuf t) ->
  data_length_ (m_rbuf t) = 0 ->
  wp (SetOption OPT_RCVBUF size) (e, t) (fun _ '(e', t') => e' = e /\ resized size t t').
Proof.
  intros Hs Hst Hf Hd. unfold SetOption. wp_run.
  apply wp_assert; [by apply bool_decide_eq_true|]. rewrite wrap32_small by lia.
  apply wp_resizeReceiveBuffer; [lia|done|done].
Qed.

(** 100000 bytes need one bit of scaling. *)
Lemma receive_buffer_scaled_witness :
  let heap := filled_heap Byte.x00 in
  exists t, @PseudoTcp_new heap 7 1000 = Ret t /\
  wp (@SetOption recorder heap OPT_RCVBUF 100000) (mkRecorder 1000 [] [], t) (fun _ '(e', t') =>
    e' = mkRecorder 1000 [] [] /\ resized 100000 t t').
Proof.
  intros heap. eexists. split; [reflexivity|].
  apply (@receive_buffer_scaled recorder _ heap 100000); [lia|reflexivity| |reflexivity].
  apply (@Queue.fresh_ok heap). consts. lia.
Defined.
