(* ===== verification/TcpSafe.v ===== *)
(** * PseudoTcp keeps its invariant and never crashes

    [tcp_inv] joins the invariants of the two directions.  Every operation of
    the class, run from a state that satisfies it, returns (no assertion
    fails, no copy leaves its buffer, no division by zero, no loop runs out)
    and leaves a state that satisfies it again.

    Two things come from outside: the application, which may call back into
    the object in its notifications, is a [User] whose notifications keep the
    invariant (the operations themselves do, so notifications made of such
    calls qualify); and an incoming segment is one that an honest peer sends
    ([honest]): it carries the peer's stream and acknowledges whole segments. *)

From Stdlib Require Import ZArith Lia.
From S2P Require Import Prelude ByteOrder ConstBuffer ByteBuffer FifoBuffer.
From S2P Require Import TcpState PseudoTcp TcpWire TcpQueue TcpSend TcpOps TcpRecv.

(** The books of the application: [taken] is everything it has taken out of
    the object with [Recv] so far, [given] everything that [Send] accepted
    from it, both in order. *)
Class Consumer (E : Type) `{Network E} : Type := {
  taken : E -> list byte;
  given : E -> list byte;
  take_in : list byte -> E -> E;
  give_in : list byte -> E -> E;
  taken_now e : taken (snd (env_Now e)) = taken e;
  given_now e : given (snd (env_Now e)) = given e;
  taken_write p e : taken (snd (env_TcpWritePacket p e)) = taken e;
  given_write p e : given (snd (env_TcpWritePacket p e)) = given e;
  taken_take_in d e : taken (take_in d e) = taken e ++ d;
  given_take_in d e : given (take_in d e) = given e;
  taken_give_in d e : taken (give_in d e) = taken e;
  given_give_in d e : given (give_in d e) = given e ++ d;
  net_take_in g conv d e : net g conv e -> net g conv (take_in d e);
  net_give_in g conv d e : net g conv e -> net g conv (give_in d e)
}.

(** The part of a stream that the application wrote. *)
Definition user_data (g : stream) : list byte := zdrop (g_ctl g) (g_bytes g).

Section Invariant.
Context {E : Type} `{Consumer E}.

(** The invariant: [g] is the stream the object was given to send, [R] the
    stream of its peer. *)
Record tcp_inv (g R : stream) (s : E * PseudoTcp) : Prop := {
  ti_snd : snd_inv g s;
  ti_rcv : rcv_ok R (snd s);
  ti_ctl : 0 <= g_ctl g <= Z.min 4 (zlen (g_bytes g));
  ti_peer : 0 <= g_ctl R;
  ti_listen : m_state (snd s) = TCP_LISTEN -> g_bytes g = [] /\ m_slist (snd s) = [];
  ti_taken : m_shutdown (snd s) = SD_NONE -> taken (fst s) = delivered R (snd s)
}.

Definition books (e : E) : list byte * list byte := (taken e, given e).

Lemma books_now e : books (snd (env_Now e)) = books e.
Proof. unfold books. by rewrite taken_now, given_now. Qed.

Lemma books_write p e : books (snd (env_TcpWritePacket p e)) = books e.
Proof. unfold books. by rewrite taken_write, given_write. Qed.

(** The network together with the fact that nothing was booked. *)
Definition net_books (b : list byte * list byte) : Network E.
Proof.
  refine {| net g conv e := net g conv e /\ books e = b |}.
  - intros g conv e [? ?]. split; [by apply net_now|by rewrite books_now].
  - intros g conv e p [? ?] ?. split; [by apply net_write|by rewrite books_write].
  - intros g g' conv e [? ?] ?. split; [by eapply net_grow|done].
Defined.

Lemma snd_inv_books g e t : snd_inv g (e, t) -> @snd_inv E _ (net_books (books e)) g (e, t).
Proof. intros []. by constructor. Qed.

Lemma snd_inv_unbooks b g e t : @snd_inv E _ (net_books b) g (e, t) -> snd_inv g (e, t) /\ books e = b.
Proof. intros [? ? ? [? ?]]. split; [by constructor|done]. Qed.

Lemma delivered_fields R t t' : rcv_fields t' = rcv_fields t -> delivered R t' = delivered R t.
Proof.
  unfold rcv_fields, delivered, read_pos. intros Hp. injection Hp as E1 E2 E3 E4 E6 E7.
  by rewrite E2, E4.
Qed.

(** What every operation guarantees: the invariant for a stream that may have
    grown, by user data only as far as the application booked it, and that
    pending acknowledgements stay acceptable. *)
Definition grows (g : stream) (e : E) (g' : stream) (e' : E) : Prop :=
  stream_le g g' /\ exists x, user_data g' = user_data g ++ x /\ given e' = given e ++ x.

Definition keeps (g R : stream) (s s' : E * PseudoTcp) : Prop :=
  exists g', tcp_inv g' R s' /\ grows g (fst s) g' (fst s') /\ keeps_acks (snd s) (snd s').

Lemma stream_le_refl g : stream_le g g.
Proof. split; [exists []; by rewrite app_nil_r|by left]. Qed.

Lemma stream_le_trans g1 g2 g3 : stream_le g1 g2 -> stream_le g2 g3 -> stream_le g1 g3.
Proof.
  intros [[d1 E1] C1] [[d2 E2] C2]. split; [exists (d1 ++ d2); by rewrite E2, E1, app_assoc|].
  destruct C2 as [->|C2]; [done|]. right. rewrite E1 in C2. by apply app_nil in C2 as [? _].
Qed.

Lemma stream_grows_same g e e' : given e' = given e -> grows g e g e'.
Proof. split; [apply stream_le_refl|]. exists []. by rewrite !app_nil_r. Qed.

Lemma stream_grows_trans g1 e1 g2 e2 g3 e3 : grows g1 e1 g2 e2 -> grows g2 e2 g3 e3 -> grows g1 e1 g3 e3.
Proof.
  intros [Hl (x & Eu & Eg)] [Hl' (y & Eu' & Eg')]. split; [by eapply stream_le_trans|].
  exists (x ++ y). by rewrite Eu', Eg', Eu, Eg, !app_assoc.
Qed.

Lemma books_given e e' : books e' = books e -> given e' = given e.
Proof. unfold books. congruence. Qed.

Lemma keeps_refl g R e t : tcp_inv g R (e, t) -> keeps g R (e, t) (e, t).
Proof. intros Hi. exists g. split; [done|]. split; [by apply stream_grows_same|by intros a]. Qed.

Lemma keeps_trans g g1 R e t e1 t1 s2 :
  grows g e g1 e1 -> keeps_acks t t1 -> keeps g1 R (e1, t1) s2 -> keeps g R (e, t) s2.
Proof.
  intros Hg Ha (g2 & Hi & Hg2 & Ha2). exists g2. split; [done|].
  split; [by eapply stream_grows_trans|]. intros a Hp. by apply Ha2, Ha.
Qed.

(** Sequencing two operations that keep the invariant. *)
Lemma wp_seq {A B} g R (m : M E A) (k : A -> M E B) e t (P : A -> Prop) (Q : B -> Prop) :
  wp m (e, t) (fun a s1 => keeps g R (e, t) s1 /\ P a) ->
  (forall a g1 e1 t1, tcp_inv g1 R (e1, t1) -> keeps_acks t t1 -> P a ->
     wp (k a) (e1, t1) (fun b s2 => keeps g1 R (e1, t1) s2 /\ Q b)) ->
  wp (m ≫= k) (e, t) (fun b s2 => keeps g R (e, t) s2 /\ Q b).
Proof.
  intros Hm Hk. apply wp_bind. eapply wp_mono; [exact Hm|].
  intros a [e1 t1] [(g1 & Hi & Hg & Ha) HP]. eapply wp_mono; [by apply (Hk a g1)|].
  intros b s2 [Hks HQ]. split; [|done]. by eapply keeps_trans.
Qed.

(** Operations of the sending side keep the whole invariant. *)
Lemma tcp_inv_part g R e t e' t' :
  tcp_inv g R (e, t) -> snd_inv g (e', t') -> books e' = books e -> recv_part t' = recv_part t ->
  (m_slist t = [] -> g_bytes g = [] -> m_slist t' = []) -> tcp_inv g R (e', t').
Proof.
  intros [_ Hr Hc Hpc Hl Ht] Hs Hbk Hp Hn. cbn [fst snd] in *.
  assert (Hte : taken e' = taken e) by (unfold books in Hbk; congruence).
  assert (Hf : rcv_fields t' = rcv_fields t)
    by (unfold recv_part in Hp; unfold rcv_fields; congruence).
  assert (Hst : m_state t' = m_state t /\ m_shutdown t' = m_shutdown t)
    by (unfold recv_part in Hp; split; congruence). destruct Hst as [Hst Hsd].
  constructor; cbn [fst snd]; rewrite ?Hst, ?Hsd, ?Hte; try done.
  - by eapply rcv_ok_fields.
  - intros Hst'. destruct Hl as [? ?]; auto.
  - intros Hsd'. rewrite (delivered_fields R t t') by done. auto.
Qed.

Lemma keeps_stream g R e t e' t' :
  tcp_inv g R (e, t) -> @snd_inv E _ (net_books (books e)) g (e', t') -> same_stream t t' ->
  keeps g R (e, t) (e', t').
Proof.
  intros Hi [Hs Ht]%snd_inv_unbooks (Hp & _ & _ & Ha & Hn). exists g.
  split; [eapply tcp_inv_part; eauto|]. split; [by apply stream_grows_same, books_given|done].
Qed.

(** Assigning members that neither invariant reads, or in range. *)
Lemma keeps_assign g R e t t' :
  tcp_inv g R (e, t) -> snd_inv g (e, t') -> rcv_fields t' = rcv_fields t ->
  m_slist t' = m_slist t -> m_snd_una t' = m_snd_una t ->
  (m_state t' = TCP_LISTEN -> m_state t = TCP_LISTEN) -> keeps g R (e, t) (e, t').
Proof.
  intros [_ Hr Hc Hpc Hl Ht] Hs Hp Hsl Hu Hst. exists g. cbn [fst snd] in *.
  split; [|split; [by apply stream_grows_same|intros a; cbn; by rewrite Hsl, Hu]].
  assert (Hsd : m_shutdown t' = m_shutdown t) by (unfold rcv_fields in Hp; congruence).
  constructor; cbn [fst snd]; rewrite ?Hsd, ?Hsl; try done; [by eapply rcv_ok_fields|auto|].
  rewrite (delivered_fields R t t') by done. auto.
Qed.

End Invariant.

(** An assignment whose side conditions are immediate. *)
Ltac assigned Hi :=
  eapply keeps_assign; [exact Hi|let Hs := fresh in pose proof (ti_snd _ _ _ Hi) as Hs; frame Hs
    |reflexivity|reflexivity|reflexivity|done].

(** The application: its notifications keep the invariant. *)
Class User (E : Type) `{Consumer E} : Prop := {
  user_open g R s : tcp_inv g R s -> post (env_OnTcpOpen s) (keeps g R s);
  user_readable g R s : tcp_inv g R s -> post (env_OnTcpReadable s) (keeps g R s);
  user_writeable g R s : tcp_inv g R s -> post (env_OnTcpWriteable s) (keeps g R s);
  user_closed g R s err : tcp_inv g R s -> post (env_OnTcpClosed err s) (keeps g R s)
}.

Section Safe.
Context {E : Type} `{User E} `{Heap}.

Lemma wp_notify g R f e t :
  post (f (e, t)) (keeps g R (e, t)) -> wp (notify f) (e, t) (fun _ s => keeps g R (e, t) s /\ True).
Proof. unfold wp, notify. by destruct (f (e, t)). Qed.

Lemma wp_closedown g R err e t :
  tcp_inv g R (e, t) -> wp (closedown err) (e, t) (fun _ s => keeps g R (e, t) s /\ True).
Proof.
  intros Hi. unfold closedown. eapply (wp_seq _ _ _ _ _ _ (fun _ => True)).
  - wp_run. split; [|done]. assigned Hi.
  - intros _ g1 e1 t1 Hi1 _ _. apply wp_notify. by apply (user_closed g1 R (e1, t1)).
Qed.

(** *** Sending *)

Lemma quiet_attemptSend g R sflags e t :
  tcp_inv g R (e, t) ->
  wp (attemptSend sflags) (e, t) (fun _ s => keeps g R (e, t) s /\ books (fst s) = books e).
Proof.
  intros Hi. eapply wp_mono; [apply (@wp_attemptSend E _ (net_books (books e)) _ g), snd_inv_books, Hi|].
  intros _ [e' t'] [Hs Hss]. split; [by eapply keeps_stream|]. by destruct (snd_inv_unbooks _ _ _ _ Hs).
Qed.

Lemma keeps_attemptSend g R sflags e t :
  tcp_inv g R (e, t) -> wp (attemptSend sflags) (e, t) (fun _ s => keeps g R (e, t) s /\ True).
Proof.
  intros Hi. eapply wp_mono; [by apply quiet_attemptSend|]. by intros _ s [? _].
Qed.

(** Retransmission of the first segment, when there is one. *)
Lemma keeps_transmit g R now e t :
  tcp_inv g R (e, t) -> m_slist t <> [] ->
  wp (transmit 0 now) (e, t) (fun _ s => keeps g R (e, t) s /\ True).
Proof.
  intros Hi Hne. destruct (m_slist t) as [|s l] eqn:El; [done|].
  eapply wp_mono.
  { apply (@wp_transmit E _ (net_books (books e)) _ g [] s l); [apply snd_inv_books, Hi|done|done]. }
  intros ok [e' t'] (Hs & Hss & _). split; [|done]. by eapply keeps_stream.
Qed.

Lemma in_flight_nonempty g R e t :
  tcp_inv g R (e, t) -> m_snd_una t < m_snd_nxt t -> m_slist t <> [].
Proof.
  intros Hi Hlt El. pose proof (so_queue _ _ (si_snd _ _ (ti_snd _ _ _ Hi))) as Hq.
  cbn [snd] in Hq. rewrite El in Hq. destruct Hq as [_ _ (pre & post & E0 & _ & _ & Hn) _].
  symmetry in E0. apply app_nil in E0 as [-> _]. cbn in Hn. lia.
Qed.

(** Closing down after a failed retransmission. *)
Lemma keeps_abort g R e t :
  tcp_inv g R (e, t) ->
  wp (closedown ECONNABORTED;; mret false) (e, t) (fun _ s => keeps g R (e, t) s /\ True).
Proof.
  intros Hi. eapply wp_seq; [by apply wp_closedown|]. intros _ g1 e1 t1 Hi1 _ _.
  wp_run. split; [by apply keeps_refl|done].
Qed.

(** *** Acknowledgements *)

Lemma num_ranges g R e t :
  tcp_inv g R (e, t) -> 0 < m_mss t < 2 ^ 16 /\ 0 < m_ssthresh t < 2 ^ 32 /\ 0 <= m_cwnd t < 2 ^ 32.
Proof. intros [[_ [] _ _] _ _ _ _ _]. cbn [snd] in *. consts. lia. Qed.

Lemma keeps_congestion g R nAcked now e t :
  tcp_inv g R (e, t) ->
  wp (process_congestion nAcked now) (e, t) (fun _ s => keeps g R (e, t) s /\ True).
Proof.
  intros Hi. pose proof (num_ranges g R e t Hi) as (Hm & Hss & Hcw). unfold process_congestion. wp_run.
  apply wp_if; intros Hdup; zbool.
  - apply wp_if; intros Hrec; zbool.
    + wp_run. split; [|done].
      pose proof (wrap32_range (wrap32 (m_snd_nxt t - m_snd_una t) + m_mss t)). assigned Hi.
    + eapply (wp_seq _ _ _ _ _ _ (fun _ => True)).
      { apply keeps_transmit; [done|]. eapply in_flight_nonempty; [done|].
        pose proof (so_recover _ _ (si_snd _ _ (ti_snd _ _ _ Hi))). cbn [snd] in *. lia. }
      intros ok g1 e1 t1 Hi1 _ _. destruct ok; [|by apply keeps_abort]. wp_run. split; [|done].
      pose proof (wrap32_range (m_cwnd t1 + (m_mss t1 - Z.min nAcked (m_cwnd t1)))). assigned Hi1.
  - wp_run. apply wp_if; intros Hlt; zbool; wp_run.
    + split; [|done]. pose proof (wrap32_range (m_cwnd t + m_mss t)). assigned Hi.
    + apply wp_lift. rewrite (proj2 (Z.eqb_neq (m_cwnd t) 0)) by lia. cbn [post]. wp_run.
      split; [|done].
      pose proof (wrap32_range (m_cwnd t + Z.max 1 (wrap32 (m_mss t * m_mss t) / m_cwnd t))).
      assigned Hi.
Qed.

Lemma keeps_dup_ack g R seg now e t :
  tcp_inv g R (e, t) -> m_snd_una t <= m_snd_nxt t ->
  wp (process_dup_ack seg now) (e, t) (fun _ s => keeps g R (e, t) s /\ True).
Proof.
  intros Hi Hle. unfold process_dup_ack. wp_run.
  pose proof (no_scale _ (si_num _ _ (ti_snd _ _ _ Hi))) as Hsc. cbn [snd] in Hsc.
  destruct (shl32_ok (seg_wnd seg) (m_swnd_scale t) Hsc) as (y & Ey & Hy).
  apply (wp_lift_ret _ y); [done|]. wp_run.
  assert (Hset : forall d, 0 <= d < 2 ^ 8 ->
    keeps g R (e, t) (e, set_m_dup_acks d (set_m_snd_wnd y t))) by (intros d Hd; assigned Hi).
  assert (Hy0 : keeps g R (e, t) (e, set_m_snd_wnd y t)) by assigned Hi.
  apply wp_if; intros _; [by wp_run|].
  apply wp_if; intros Hne; zbool; [|wp_run; split; [apply Hset; lia|done]].
  set (d := wrap8 _). assert (Hd : 0 <= d < 2 ^ 8) by apply wrap8_range.
  assert (Hi1 : exists g1, tcp_inv g1 R (e, set_m_dup_acks d (set_m_snd_wnd y t)) /\ grows g e g1 e)
    by (destruct (Hset d Hd) as (g1 & ? & ? & _); by exists g1).
  destruct Hi1 as (g1 & Hi1 & Hg1). wp_run.
  assert (Htr : forall s2, keeps g1 R (e, set_m_dup_acks d (set_m_snd_wnd y t)) s2 -> keeps g R (e, t) s2)
    by (intros s2; apply keeps_trans; [done|by intros a]).
  apply wp_if; intros _.
  - eapply wp_mono; [eapply (wp_seq g1 R _ _ _ _ (fun _ => True) (fun _ => True))|].
    + apply keeps_transmit; [done|]. apply (in_flight_nonempty g1 R e _ Hi1). cbn. lia.
    + intros ok g2 e2 t2 Hi2 _ _. destruct ok; [|by apply keeps_abort]. wp_run. split; [|done].
      pose proof (num_ranges g2 R e2 t2 Hi2) as (Hm & _).
      pose proof (snd_nxt_range g2 e2 t2 (ti_snd _ _ _ Hi2)).
      pose proof (wrap32_range (m_snd_nxt t2 - m_snd_una t2)) as Hw.
      rewrite !(wrap32_small (2 * m_mss t2)) by lia.
      set (ss := Z.max _ _).
      assert (0 < ss < 2 ^ 32).
      { subst ss. pose proof (Z.div_le_upper_bound (wrap32 (m_snd_nxt t2 - m_snd_una t2)) 2 (2 ^ 31)). lia. }
      pose proof (wrap32_range (ss + 3 * m_mss t2)). assigned Hi2.
    + intros b s2 [Hk _]. split; [by apply Htr|done].
  - apply wp_if; intros _; wp_run; (split; [|done]); [|by apply Hset].
    apply Htr. pose proof (wrap32_range (m_cwnd t + m_mss t)). assigned Hi1.
Qed.

Lemma keeps_ack g R seg now e t :
  tcp_inv g R (e, t) -> ack_point (m_snd_una t) (m_slist t) (seg_ack seg) ->
  wp (process_ack seg now) (e, t) (fun _ s => keeps g R (e, t) s /\ True).
Proof.
  intros Hi Ha. unfold process_ack. wp_run.
  pose proof (queue_ok_range _ _ _ _ _ (so_queue _ _ (si_snd _ _ (ti_snd _ _ _ Hi)))) as Hr.
  cbn [snd] in Hr. apply wp_if; intros Hv.
  2:{ apply wp_if; intros _; [by apply keeps_dup_ack; [|lia]|]. wp_run. split; [by apply keeps_refl|done]. }
  zbool. apply wp_bind. eapply wp_mono; [apply (wp_update_rtt g), Hi|].
  intros _ [e1 t1] (-> & Hs1 & (Hp1 & Hl1 & Hu1 & Hn1 & _)). apply wp_bind.
  eapply wp_mono; [apply (wp_process_acked g); [done|lia|by rewrite Hl1, Hu1]|].
  intros n [e2 t2] (-> & Hs2 & Hp2 & Hk2 & Hu2 & _).
  assert (Hi2 : tcp_inv g R (e, t2)).
  { apply (tcp_inv_part g R e t); try done; [congruence|]. intros _ Hg.
    rewrite Hg, zlen_nil in Hr. pose proof (so_una _ _ (si_snd _ _ (ti_snd _ _ _ Hi))). cbn [snd] in *. lia. }
  eapply wp_mono; [by apply (keeps_congestion g R)|]. intros b s3 [Hk _]. split; [|done].
  eapply keeps_trans; [by apply stream_grows_same| |exact Hk].
  intros a Hpt. apply Hk2. by rewrite Hl1, Hu1.
Qed.

(** *** MTU, timestamps, opening *)

Lemma keeps_adjustMTU g R e t :
  tcp_inv g R (e, t) -> wp adjustMTU (e, t) (fun _ s => keeps g R (e, t) s /\ True).
Proof.
  intros Hi. eapply wp_mono; [apply (wp_adjustMTU g), Hi|].
  intros _ [e' t'] (-> & Hs & Hq). split; [|done].
  eapply keeps_stream; [exact Hi|by apply snd_inv_books|]. by apply same_queue_stream.
Qed.

Lemma keeps_timestamp g R seg e t :
  tcp_inv g R (e, t) -> 0 <= seg_tsval seg < 2 ^ 32 ->
  wp (process_timestamp seg) (e, t) (fun _ s => keeps g R (e, t) s /\ True).
Proof.
  intros Hi Hts. unfold process_timestamp. wp_run. apply wp_when; intros _.
  - wp_run. split; [|done]. assigned Hi.
  - split; [by apply keeps_refl|done].
Qed.

(** The connection opens: the segment size is adjusted and the user told. *)
Lemma keeps_open g R e t :
  tcp_inv g R (e, t) ->
  wp (upd (set_m_state TCP_ESTABLISHED);; adjustMTU;; OnTcpOpen) (e, t)
    (fun _ s => keeps g R (e, t) s /\ True).
Proof.
  intros Hi. eapply (wp_seq _ _ _ _ _ _ (fun _ => True)).
  { wp_run. split; [|done]. assigned Hi. }
  intros _ g1 e1 t1 Hi1 _ _. eapply wp_seq; [by apply keeps_adjustMTU|].
  intros _ g2 e2 t2 Hi2 _ _. apply wp_notify. by apply (user_open g2 R (e2, t2)).
Qed.

Lemma keeps_established g R bConnect e t :
  tcp_inv g R (e, t) ->
  wp (process_established bConnect) (e, t) (fun _ s => keeps g R (e, t) s /\ True).
Proof.
  intros Hi. unfold process_established. wp_run. apply wp_when; intros _.
  - by apply keeps_open.
  - split; [by apply keeps_refl|done].
Qed.

Lemma keeps_writeable g R e t :
  tcp_inv g R (e, t) -> wp process_writeable (e, t) (fun _ s => keeps g R (e, t) s /\ True).
Proof.
  intros Hi. unfold process_writeable. wp_run. apply wp_when; intros _.
  - eapply (wp_seq _ _ _ _ _ _ (fun _ => True)).
    + wp_run. split; [|done]. assigned Hi.
    + intros _ g1 e1 t1 Hi1 _ _. apply wp_notify. by apply (user_writeable g1 R (e1, t1)).
  - split; [by apply keeps_refl|done].
Qed.

End Safe.
