(* ===== verification/TcpProcess.v ===== *)
(** * Processing an incoming packet

    [process] and [NotifyPacket] on a segment that an honest peer sends: they
    return, and keep the invariant of both directions.  In particular what
    the application has taken stays the front part of the peer's stream,
    whatever the order, duplication and overlap of the segments. *)

From Stdlib Require Import ZArith Lia.
From S2P Require Import Prelude ByteOrder ConstBuffer ByteBuffer FifoBuffer.
From S2P Require Import TcpState PseudoTcp TcpWire TcpQueue TcpSend TcpOps TcpRecv TcpOptions TcpSafe.

(** What an honest peer with stream [R] sends to [t]: its data is a stretch of
    [R], control and user data are not mixed, the acknowledgement lies between
    two segments of [t]'s queue, and the options of a connect message are
    small numbers (an honest scale is at most 16). *)
Record honest (R : stream) (t : PseudoTcp) (seg : Segment) : Prop := {
  hn_seg : seg_ok R seg;
  hn_ack : ack_point (m_snd_una t) (m_slist t) (seg_ack seg);
  hn_ctl : seg_flags seg = FLAG_CTL -> Forall small (seg_data seg);
  hn_size : zlen (seg_data seg) < 2 ^ 32;
  hn_ts : 0 <= seg_tsval seg < 2 ^ 32
}.

Section Process.
Context {E : Type} `{User E} `{Heap}.

(** ** The connect message *)

Lemma keeps_queueConnect g R e t :
  tcp_inv g R (e, t) -> g_bytes g = [] -> m_slist t = [] -> m_state t <> TCP_LISTEN ->
  wp queueConnectMessage (e, t) (fun _ s => keeps g R (e, t) s /\ True).
Proof.
  intros Hi Hg Hl Hst. apply wp_queueConnectMessage. pose proof (zlen_connect_message t) as Hz.
  set (d := connect_message t) in *.
  assert (Hs1 : snd_inv g (e, set_m_snd_wnd (zlen d) t))
    by (pose proof (ti_snd _ _ _ Hi) as Hs; frame Hs).
  pose proof (si_snd _ _ Hs1) as [Hf _ Hcap _ Hu Hdata _ _ _]. cbn [snd] in *.
  rewrite Hg, zlen_nil in Hdata. cbn in Hcap, Hu, Hdata, Hf. pose proof (ok_data _ Hf).
  assert (Hn : Z.min (zlen d) (buffer_length_ (m_sbuf t) - data_length_ (m_sbuf t)) = zlen d) by lia.
  eapply wp_mono.
  { apply (wp_queue g (zlen d) d true); [exact Hs1|lia| |].
    - rewrite Hg, zlen_nil. cbn [m_sbuf set_m_snd_wnd]. lia.
    - cbn [m_sbuf m_slist set_m_snd_wnd]. repeat split; [done|done|lia|lia]. }
  cbn beta. cbn [m_sbuf set_m_snd_wnd]. rewrite Hn, Hg, ztake_all by lia. cbn [app].
  intros r [e' t'] (-> & -> & Hs2 & Hp & Hk). split; [|done]. exists (mkStream d (zlen d)).
  split; [|split; [|exact Hk]].
  - destruct Hi as [_ Hr _ Hpc _ Ht].
    cbn [fst snd] in *. constructor; cbn [fst snd g_ctl g_bytes]; try done.
    + by apply (rcv_ok_part R t).
    + lia.
    + intros E0. unfold recv_part in Hp. cbn in Hp. congruence.
    + intros Hsd. rewrite (delivered_fields R t t') by (unfold recv_part in Hp; cbn in Hp; unfold rcv_fields; congruence).
      apply Ht. unfold recv_part in Hp. cbn in Hp. congruence.
  - cbn [fst]. split; [split; cbn; [exists d; by rewrite Hg|by right]|]. exists []. unfold user_data.
    cbn [g_ctl g_bytes]. pose proof (ti_ctl _ _ _ Hi). rewrite Hg, !zdrop_all by (rewrite ?zlen_nil; lia).
    by rewrite !app_nil_r.
Qed.

(** ** The checks and the control part *)

Lemma tcp_inv_now g R e t :
  tcp_inv g R (e, t) -> tcp_inv g R (snd (env_Now e), t).
Proof.
  intros Hi. apply (tcp_inv_part g R e t); try done; [|apply books_now].
  destruct Hi as [[? ? ? ?] _ _ _ _ _]. constructor; try done. by apply net_now.
Qed.

Lemma keeps_now g R e t :
  tcp_inv g R (e, t) -> wp Now (e, t) (fun now s => keeps g R (e, t) s /\ 0 <= now < 2 ^ 32).
Proof.
  intros Hi. pose proof (tcp_inv_now g R e t Hi) as Hi'. unfold wp, Now.
  pose proof (env_Now_range e). pose proof (given_now e). destruct (env_Now e) as [now e']. cbn in *.
  split; [|done]. exists g. split; [done|]. split; [by apply stream_grows_same|by intros a].
Qed.

Lemma keeps_check g R seg e t :
  tcp_inv g R (e, t) -> wp (process_check seg) (e, t) (fun _ s => keeps g R (e, t) s /\ True).
Proof.
  intros Hi. unfold process_check. wp_run.
  apply wp_if; intros _; [wp_run; split; [by apply keeps_refl|done]|].
  eapply wp_seq; [by apply keeps_now|]. intros now g1 e1 t1 Hi1 _ Hnow.
  eapply (wp_seq _ _ _ _ _ _ (fun _ => True)).
  { wp_run. split; [|done]. assigned Hi1. }
  intros _ g2 e2 t2 Hi2 _ _. eapply (wp_seq _ _ _ _ _ _ (fun _ => True)).
  { wp_run. split; [|done]. assigned Hi2. }
  intros _ g3 e3 t3 Hi3 _ _. eapply (wp_seq _ _ _ _ _ _ (fun _ => True)).
  { wp_run. split; [|done]. assigned Hi3. }
  intros _ g4 e4 t4 Hi4 _ _. case_decide; [wp_run; split; [by apply keeps_refl|done]|].
  apply wp_if; intros _.
  - eapply wp_seq; [by apply wp_closedown|]. intros _ g5 e5 t5 Hi5 _ _.
    wp_run. split; [by apply keeps_refl|done].
  - wp_run. split; [by apply keeps_refl|done].
Qed.

(** The state machine of the handshake. *)
Lemma keeps_connect g R e t :
  tcp_inv g R (e, t) ->
  wp process_connect (e, t) (fun _ s => keeps g R (e, t) s /\ True).
Proof.
  intros Hi. unfold process_connect. wp_run.
  destruct (m_state t) eqn:Es; try (wp_run; split; [by apply keeps_refl|done]).
  - destruct (ti_listen _ _ _ Hi Es) as [Hg Hl].
    wp_run. eapply wp_mono; [apply (keeps_queueConnect g R)|]; try done.
    destruct Hi as [Hs Hr Hc Hpc _ Ht]. constructor; cbn [fst snd]; try done.
    + frame Hs.
    + by apply (rcv_ok_fields R t).
  - by apply keeps_open.
Qed.

Lemma keeps_control g R seg e t :
  tcp_inv g R (e, t) -> seg_ok R seg -> (seg_flags seg = FLAG_CTL -> Forall small (seg_data seg)) ->
  zlen (seg_data seg) < 2 ^ 32 ->
  wp (process_control seg) (e, t) (fun _ s => keeps g R (e, t) s /\ True).
Proof.
  intros Hi [Hlen _ Hfl _] Hsm Hd. unfold process_control.
  assert (Hstop : forall o, wp (mret o) (e, t) (fun (_ : option bool) s => keeps g R (e, t) s /\ True))
    by (intros o; wp_run; split; [by apply keeps_refl|done]).
  apply wp_if; intros Hc; [apply Hstop|]. apply wp_if; intros Hz; [apply Hstop|]. zbool.
  destruct Hfl as [Hf0|Hf1]; [by rewrite Hf0 in Hc|]. specialize (Hsm Hf1).
  destruct (seg_data seg) as [|c d] eqn:Ed; [unfold zlen in Hlen; cbn in Hlen; lia|].
  apply wp_bind, (wp_lift_ret _ [c]).
  { rewrite zlen_cons in *. pose proof (zlen_nonneg d).
    rewrite mem_read_ok by (rewrite ?zlen_cons; lia). done. }
  apply wp_if; intros _; [|apply Hstop]. apply Forall_cons_1 in Hsm as [_ Hsm].
  rewrite zlen_cons in *.
  eapply (wp_seq _ _ _ _ _ _ (fun _ => True)).
  { eapply wp_mono.
    - apply (wp_parseOptions d); [lia|lia|done| |].
      + exact (no_scale _ (si_num _ _ (ti_snd _ _ _ Hi))).
      + exact (ro_scale _ _ (rk_base _ _ (ti_rcv _ _ _ Hi))).
    - intros _ s (sc & Hsc & ->). split; [|done]. assigned Hi. }
  intros _ g1 e1 t1 Hi1 _ _.
  eapply wp_seq; [by apply keeps_connect|]. intros _ g2 e2 t2 Hi2 _ _.
  wp_run. split; [by apply keeps_refl|done].
Qed.
(** ** The data *)

Lemma keeps_recv_step g R e t t' :
  tcp_inv g R (e, t) -> recv_step R t t' -> rcv_ok R t' -> keeps g R (e, t) (e, t').
Proof.
  intros Hi Hstep Hr. exists g. pose proof (rk_base _ _ Hr) as Hb.
  pose proof (ro_nxt _ _ Hb). pose proof (ro_room _ _ Hb). pose proof (ro_pos _ _ Hb).
  pose proof (ok_data _ (ro_fifo _ _ Hb)).
  destruct Hstep as [(f & n & w & rl & ->) Hdel]. destruct Hi as [Hs _ Hc Hpc Hl Ht]. cbn [fst snd] in *.
  split; [|split; [by apply stream_grows_same|by intros a]]. constructor; cbn [fst snd]; try done.
  - cbn in *. frame Hs.
  - intros Hsd. rewrite Hdel by exact Hsd. by apply Ht.
Qed.

Lemma trims_ok R t seg :
  seg_ok R seg -> rcv_base R t ->
  let seg' := trim_window t (trim_old t seg) in
  seg_ok R seg' /\ (seg_len seg' = 0 \/
    (m_rcv_nxt t <= seg_seq seg' /\ seg_seq seg' + seg_len seg' <= window_end t)).
Proof.
  intros Hs Hb. destruct (trim_old_ok R t seg Hs Hb) as (Hs1 & Hlo & _).
  by destruct (trim_window_ok R t (trim_old t seg) Hs1 Hb Hlo) as (? & _ & ?).
Qed.

Lemma keeps_receive g R seg sflags e t :
  tcp_inv g R (e, t) -> seg_ok R seg ->
  wp (receive_data (trim_window t (trim_old t seg)) sflags) (e, t)
    (fun o s => keeps g R (e, t) s /\ o <> None).
Proof.
  intros Hi Hseg. pose proof (ti_rcv _ _ _ Hi) as Hr.
  destruct (trims_ok R t seg Hseg (rk_base _ _ Hr)) as [Hseg' Hwin].
  eapply wp_mono; [by apply (wp_receive_data R)|].
  intros o [e' t'] (-> & Hstep & Hr' & Ho). split; [|done]. by apply keeps_recv_step.
Qed.

Lemma keeps_finish g R sflags b e t :
  tcp_inv g R (e, t) ->
  wp (process_finish sflags b) (e, t) (fun ok s => keeps g R (e, t) s /\ ok = true).
Proof.
  intros Hi. unfold process_finish. eapply wp_seq; [by apply keeps_attemptSend|].
  intros _ g1 e1 t1 Hi1 _ _. apply wp_bind, wp_get. cbn [snd].
  eapply (wp_seq _ _ _ _ _ _ (fun _ => True)).
  - apply wp_when; intros _; [|split; [by apply keeps_refl|done]].
    eapply (wp_seq _ _ _ _ _ _ (fun _ => True)).
    + wp_run. split; [|done]. assigned Hi1.
    + intros _ g2 e2 t2 Hi2 _ _. apply wp_notify. by apply (user_readable g2 R (e2, t2)).
  - intros _ g2 e2 t2 Hi2 _ _. wp_run. split; [by apply keeps_refl|done].
Qed.

(** ** [process] *)

Lemma keeps_process g R seg e t :
  tcp_inv g R (e, t) -> honest R t seg ->
  wp (process seg) (e, t) (fun _ s => keeps g R (e, t) s /\ True).
Proof.
  intros Hi [Hseg Hack Hctl Hsz Hts]. unfold process.
  assert (Hstop : forall ok g0 e0 t0, tcp_inv g0 R (e0, t0) ->
    wp (mret ok) (e0, t0) (fun (_ : bool) s => keeps g0 R (e0, t0) s /\ True))
    by (intros; wp_run; split; [by apply keeps_refl|done]).
  eapply wp_seq; [by apply keeps_check|]. intros [now|] g1 e1 t1 Hi1 Hk1 _; [|by apply Hstop].
  eapply wp_seq; [by apply keeps_control|]. intros [bC|] g2 e2 t2 Hi2 Hk2 _; [|by apply Hstop].
  eapply wp_seq; [by apply keeps_timestamp|]. intros _ g3 e3 t3 Hi3 Hk3 _.
  eapply wp_seq; [apply keeps_ack; [done|by apply Hk3, Hk2, Hk1]|].
  intros ok g4 e4 t4 Hi4 _ _. apply wp_if; intros _; [by apply Hstop|].
  eapply wp_seq; [by apply keeps_established|]. intros _ g5 e5 t5 Hi5 _ _.
  eapply wp_seq; [by apply keeps_writeable|]. intros _ g6 e6 t6 Hi6 _ _.
  apply wp_bind, wp_get. cbn [snd]. cbv zeta.
  eapply wp_seq; [by apply keeps_receive|]. intros [[fl b]|] g7 e7 t7 Hi7 _ Ho; [|done].
  eapply wp_mono; [by apply keeps_finish|]. intros ok' s [Hk _]. done.
Qed.

(** A packet is honest when its fields are. *)
Definition honest_packet (R : stream) (t : PseudoTcp) (p : list byte) : Prop :=
  exists conv seq ack flags wnd tsval tsecr d,
    p = encode conv seq ack flags wnd tsval tsecr d /\
    0 <= conv < 2 ^ 32 /\ 0 <= ack < 2 ^ 32 /\ 0 <= wnd < 2 ^ 16 /\ 0 <= tsecr < 2 ^ 32 /\
    honest R t (mkSegment conv seq ack flags wnd d (zlen d) tsval tsecr).

Lemma keeps_NotifyPacket g R p e t :
  tcp_inv g R (e, t) -> honest_packet R t p ->
  wp (NotifyPacket p) (e, t) (fun _ s => keeps g R (e, t) s /\ True).
Proof.
  intros Hi (conv & seq & ack & flags & wnd & tsval & tsecr & d & -> & Hc & Ha & Hw & Hte & Hh).
  unfold NotifyPacket. apply wp_if; intros Hmax; zbool.
  - wp_run. split; [by apply keeps_refl|done].
  - pose proof Hh as [[_ Hsq Hfl _] _ _ Hsz Hts]. cbn in Hsq, Hfl, Hts. unfold wp.
    pose proof (zlen_nonneg (encode conv seq ack flags wnd tsval tsecr d)).
    unfold MAX_PACKET in Hmax. rewrite wrap32_small by lia.
    unfold encode at 2. rewrite zlen_app, zlen_header, parse_encode; try lia.
    + by apply keeps_process.
    + destruct Hfl as [->| ->]; unfold FLAG_CTL; lia.
Qed.
End Process.
