(* ===== verification/TcpApi.v ===== *)
(** * The interface of PseudoTcp

    The calls that the owner of the object makes: [Connect], [Send], [Recv],
    [NotifyClock], [NotifyMTU], [Close] and the options.  Each returns and
    keeps the invariant; with the packets of [TcpProcess] this gives the
    theorem about whole executions at the end of the file. *)

From Stdlib Require Import ZArith Lia.
From S2P Require Import Prelude ByteOrder ConstBuffer ByteBuffer FifoBuffer.
From S2P Require Import TcpState PseudoTcp TcpWire TcpQueue TcpSend TcpOps TcpRecv TcpOptions.
From S2P Require Import TcpSafe TcpProcess.

Section Api.
Context {E : Type} `{User E} `{Heap}.

(** ** [Connect] *)

Lemma keeps_Connect g R e t :
  tcp_inv g R (e, t) -> wp Connect (e, t) (fun _ s => keeps g R (e, t) s /\ True).
Proof.
  intros Hi. unfold Connect. wp_run. apply wp_if; intros Hst.
  { wp_run. split; [|done]. assigned Hi. }
  apply negb_false_iff, bool_decide_eq_true in Hst.
  destruct (ti_listen _ _ _ Hi Hst) as [Hg Hl].
  assert (Hi1 : tcp_inv g R (e, set_m_state TCP_SYN_SENT t)).
  { destruct Hi as [Hs Hr Hc Hpc _ Ht]. constructor; cbn [fst snd]; try done.
    - frame Hs.
    - by apply (rcv_ok_fields R t). }
  wp_run. eapply wp_mono.
  - apply (keeps_queueConnect g R); try done.
  - intros _ [e2 t2] [(g2 & Hi2 & Hg2 & Hk2) _]. wp_run.
    eapply wp_mono; [by apply (keeps_attemptSend g2 R)|]. intros _ s3 [Hk3 _]. wp_run.
    split; [|done]. by eapply keeps_trans.
Qed.

(** ** [Send] *)

(** What [Send] answers, and what it appends to the stream. *)
Lemma wp_Send g R d e t :
  tcp_inv g R (e, t) -> zlen (g_bytes g) + zlen d < 2 ^ 32 ->
  wp (Send d) (e, t) (fun r s =>
    if decide (m_state t = TCP_ESTABLISHED) then
      let n := Z.min (zlen d) (buffer_length_ (m_sbuf t) - data_length_ (m_sbuf t)) in
      if data_length_ (m_sbuf t) =? buffer_length_ (m_sbuf t)
      then r = -1 /\ m_error (snd s) = EWOULDBLOCK /\ keeps g R (e, t) s
      else r = to_int32 n /\ keeps (mkStream (g_bytes g ++ ztake n d) (g_ctl g)) R (e, t) s /\
           books (fst s) = books e
    else r = -1 /\ m_error (snd s) = ENOTCONN /\ keeps g R (e, t) s).
Proof.
  intros Hi Hsz. pose proof (zlen_nonneg d). pose proof (zlen_nonneg (g_bytes g)).
  pose proof (si_snd _ _ (ti_snd _ _ _ Hi)) as [Hf _ Hcap _ _ _ _ _ _]. cbn [snd] in *.
  pose proof (ok_data _ Hf). unfold Send. wp_run. case_decide as Hst.
  2:{ rewrite bool_decide_false by done. cbn [negb]. wp_run. do 2 (split; [done|]). assigned Hi. }
  rewrite bool_decide_true by done. cbn [negb]. unfold GetWriteRemaining. rewrite wrap64_small by lia.
  destruct (Z.eqb_spec (data_length_ (m_sbuf t)) (buffer_length_ (m_sbuf t))) as [Heq|Hne].
  { rewrite (proj2 (Z.eqb_eq _ _)) by lia. wp_run. do 2 (split; [done|]). assigned Hi. }
  rewrite (proj2 (Z.eqb_neq _ _)) by lia. rewrite wrap32_small by lia. apply wp_bind.
  set (n := Z.min _ _). eapply wp_mono.
  { apply (wp_queue g (g_ctl g) d false); [apply Hi|lia| |]; [fold n; lia|].
    split; [done|pose proof (ti_ctl _ _ _ Hi); lia]. }
  intros r [e1 t1] (-> & -> & Hs1 & Hp & Hk). fold n in Hs1 |- *. set (g1 := mkStream _ _) in *.
  assert (Hi1 : tcp_inv g1 R (e, t1)).
  { destruct Hi as [_ Hr Hc Hpc _ Ht]. cbn [fst snd] in *.
    assert (Hsd : m_shutdown t1 = m_shutdown t /\ m_state t1 = m_state t)
      by (unfold recv_part in Hp; split; congruence). destruct Hsd as [Hsd Hst1].
    assert (Hpf : rcv_fields t1 = rcv_fields t)
      by (unfold recv_part in Hp; unfold rcv_fields; congruence).
    constructor; cbn [fst snd]; try done.
    - by apply (rcv_ok_fields R t).
    - subst g1; cbn. rewrite zlen_app. pose proof (zlen_nonneg (ztake n d)). lia.
    - rewrite Hst1, Hst. done.
    - rewrite Hsd. intros. rewrite (delivered_fields R t t1) by done. auto. }
  apply wp_bind. eapply wp_mono; [by apply (quiet_attemptSend g1 R)|]. intros _ s2 [Hk2 Hb2]. wp_run.
  split; [done|]. split; [|done]. eapply keeps_trans; [by apply stream_grows_same|exact Hk|exact Hk2].
Qed.

(** The application calls [Send] and books the bytes it accepted: as many as
    the answer says. *)
Definition book_sent (d : list byte) : M E unit := fun '(e, t) => Ret (tt, (give_in d e, t)).
Definition Offer (d : list byte) : M E Z :=
  r ← Send d;
  book_sent (if r <? 0 then [] else ztake r d);;
  mret r.

Lemma tcp_inv_give g R d e t : tcp_inv g R (e, t) -> tcp_inv g R (give_in d e, t).
Proof.
  intros [[? ? ? ?] ? ? ? ? ?]. cbn [fst snd] in *.
  constructor; cbn [fst snd]; try done; [|by rewrite taken_give_in].
  constructor; cbn [fst snd]; try done. by apply net_give_in.
Qed.

Lemma user_data_app g d :
  0 <= g_ctl g <= zlen (g_bytes g) ->
  user_data (mkStream (g_bytes g ++ d) (g_ctl g)) = user_data g ++ d.
Proof.
  intros Hc. unfold user_data, zdrop. cbn [g_ctl g_bytes]. rewrite drop_app_le; [done|].
  unfold zlen in Hc. lia.
Qed.

Lemma keeps_Offer g R d e t :
  tcp_inv g R (e, t) -> zlen (g_bytes g) + zlen d < 2 ^ 32 ->
  wp (Offer d) (e, t) (fun _ s => keeps g R (e, t) s /\ True).
Proof.
  intros Hi Hsz. unfold Offer. apply wp_bind. eapply wp_mono; [by apply (wp_Send g R d)|].
  cbn beta. intros r [e' t'] Hr. split; [|done]. cbn [fst snd] in *.
  assert (Hno : r = -1 -> keeps g R (e, t) (e', t') ->
    keeps g R (e, t) (give_in (if r <? 0 then [] else ztake r d) e', t')).
  { intros -> (g' & Hi' & [Hle (x & Eu & Eg)] & Hk). exists g'. cbn [Z.ltb Z.compare fst snd] in *.
    split; [by apply tcp_inv_give|]. split; [|done]. split; [done|]. exists x.
    by rewrite given_give_in, app_nil_r. }
  case_decide; [|destruct Hr as (? & _ & ?); by apply Hno]. cbv zeta in Hr.
  destruct (_ =? _); [destruct Hr as (? & _ & ?); by apply Hno|].
  destruct Hr as (-> & (g' & Hi' & [Hle (x & Eu & Eg)] & Hk) & Hb). cbn [fst snd] in *.
  pose proof (ti_ctl _ _ _ Hi). pose proof (si_snd _ _ (ti_snd _ _ _ Hi)) as [Hf _ Hcap _ _ _ _ _ _].
  cbn [snd] in *. pose proof (ok_data _ Hf). pose proof (zlen_nonneg d). set (n := Z.min _ _) in *.
  rewrite (to_int32_small n) by lia. rewrite (proj2 (Z.ltb_ge n 0)) by lia.
  apply books_given in Hb. rewrite Hb in Eg. apply (f_equal length) in Eg as El.
  rewrite length_app in El. destruct x; [|cbn in El; lia]. rewrite app_nil_r in Eu.
  rewrite user_data_app in Eu by lia. exists g'. split; [by apply tcp_inv_give|]. split; [|done].
  cbn [fst]. split; [|exists (ztake n d); by rewrite given_give_in, Hb].
  eapply stream_le_trans; [|exact Hle]. split; [by exists (ztake n d)|by left].
Qed.

(** ** [Recv] *)

Lemma tcp_inv_take g R e t e' t' d :
  tcp_inv g R (e, t) -> snd_inv g (e', t') -> books e' = books e -> rcv_ok R t' ->
  (m_shutdown t = SD_NONE -> delivered R t' = delivered R t ++ d) ->
  m_shutdown t' = m_shutdown t -> m_state t' = m_state t -> (m_slist t = [] -> m_slist t' = []) ->
  tcp_inv g R (take_in d e', t').
Proof.
  intros [_ _ Hc Hpc Hl Ht] [? ? ? Hnet] Hbk Hr Hd Hsd Hst Hn. cbn [fst snd] in *.
  assert (Hte : taken e' = taken e) by (unfold books in Hbk; congruence).
  constructor; cbn [fst snd]; rewrite ?Hst; try done.
  - constructor; cbn [fst snd]; try done. by apply net_take_in.
  - intros Hlis. destruct (Hl Hlis). auto.
  - rewrite Hsd, taken_take_in, Hte. intros Hs. by rewrite Hd, Ht.
Qed.

(** The window update after a read: at most an acknowledgement goes out. *)
Lemma wp_window_update g R avail b e t :
  tcp_inv g R (e, t) ->
  forall t1, snd_inv g (e, t1) ->
  wp (if b : bool then upd (set_m_rcv_wnd avail);; when (m_rcv_wnd t =? 0) (attemptSend sfImmediateAck)
      else mret tt) (e, t1) (fun _ '(e', t') =>
    snd_inv g (e', t') /\ books e' = books e /\ rcv_fields t' = rcv_fields t1 /\
    m_state t' = m_state t1 /\ keeps_acks t1 t' /\ (m_slist t1 = [] -> m_slist t' = [])).
Proof.
  intros Hi t1 Hs1. destruct b; [|wp_run; split; [done|]; repeat split; by intros ?]. wp_run.
  assert (Hs2 : snd_inv g (e, set_m_rcv_wnd avail t1)) by frame Hs1.
  apply wp_when; intros _; [|split; [done|]; repeat split; by intros ?].
  eapply wp_mono; [apply (@wp_attemptSend E _ (net_books (books e)) _ g), snd_inv_books, Hs2|].
  intros _ [e' t'] [[Hs' Ht']%snd_inv_unbooks (Hp & _ & _ & Hk & Hn)]. split; [done|]. split; [done|].
  unfold recv_part in Hp. cbn in Hp. split; [unfold rcv_fields; congruence|].
  split; [congruence|]. by split.
Qed.

(** The bytes returned are the next bytes of the peer's data: taking them in
    keeps the invariant. *)
Lemma wp_Recv g R len e t :
  tcp_inv g R (e, t) -> 0 <= len ->
  wp (Recv len) (e, t) (fun '(r, d) '(e', t') =>
    tcp_inv g R (take_in d e', t') /\ keeps_acks t t' /\ given e' = given e /\
    if decide (m_state t = TCP_ESTABLISHED) then
      if data_length_ (m_rbuf t) =? 0 then r = -1 /\ d = [] /\ m_error t' = EWOULDBLOCK
      else r = to_int32 (zlen d) /\ d = ztake (Z.min len (data_length_ (m_rbuf t))) (view (m_rbuf t))
    else r = -1 /\ d = [] /\ m_error t' = ENOTCONN).
Proof.
  intros Hi Hlen. pose proof (ti_rcv _ _ _ Hi) as Hr. pose proof (rk_base _ _ Hr) as [Hfi Hopen _ _ _ _ _ _].
  cbn [snd] in *. pose proof (ok_data _ Hfi). pose proof (ti_snd _ _ _ Hi) as Hs.
  assert (Hidle : forall t', snd_inv g (e, t') -> rcv_fields t' = rcv_fields t ->
    m_state t' = m_state t -> m_slist t' = m_slist t -> tcp_inv g R (take_in [] e, t')).
  { intros t' Hs' Hf Hst Hsl. apply (tcp_inv_take g R e t); try done.
    - by apply (rcv_ok_fields R t).
    - intros _. by rewrite app_nil_r, (delivered_fields R t t').
    - unfold rcv_fields in Hf. congruence.
    - congruence. }
  unfold Recv. wp_run. case_decide as Hst.
  2:{ rewrite bool_decide_false by done. cbn [negb]. wp_run. split; [|split; [by intros ?|by split]].
      apply Hidle; try done. frame Hs. }
  rewrite bool_decide_true by done. cbn [negb]. wp_run.
  destruct (Read_spec (m_rbuf t) len Hfi Hlen) as (f & Hf & Hsf & Hbf & Hcase).
  destruct (Z.ltb_spec 0 (data_length_ (m_rbuf t))) as [Hpos|Hz].
  - cbv zeta in Hcase. set (n := Z.min _ _) in *. destruct Hcase as (Er & Hdl & Hv).
    rewrite (proj2 (Z.eqb_neq (data_length_ (m_rbuf t)) 0)) by lia. apply (wp_lift_ret _ _ _ _ Er). wp_run.
    rewrite decide_False by done. wp_run. apply wp_assert; [by rewrite bool_decide_true|].
    assert (Hs1 : snd_inv g (e, set_m_rbuf f t)) by frame Hs.
    apply wp_bind. eapply wp_mono; [apply (wp_window_update g R _ _ e t Hi _ Hs1)|].
    intros _ [e' t'] (Hs' & Ht' & Hf' & Hst' & Hk' & Hn'). wp_run.
    assert (Hr1 : rcv_ok R (set_m_rbuf f t)) by (apply (rcv_ok_read R t f n); try done; lia).
    split; [|split; [exact Hk'|split; [by apply books_given|done]]]. apply (tcp_inv_take g R e t); try done.
    + by apply (rcv_ok_fields R (set_m_rbuf f t)).
    + intros Hsd. rewrite (delivered_fields R (set_m_rbuf f t) t') by done.
      apply delivered_read; try done; [apply Hi|lia].
    + unfold rcv_fields in Hf'. cbn in Hf'. congruence.
  - destruct Hcase as [Er ->]. rewrite (proj2 (Z.eqb_eq (data_length_ (m_rbuf t)) 0)) by lia.
    apply (wp_lift_ret _ _ _ _ Er). wp_run. rewrite (decide_False (P := state_ _ = _)) by done.
    rewrite decide_True by done. wp_run. split; [|split; [by intros ?|by split]].
    apply Hidle; try done; destruct t; [frame Hs|done..].
Qed.

(** The application calls [Recv] and keeps what it got. *)
Definition keep_bytes (d : list byte) : M E unit := fun '(e, t) => Ret (tt, (take_in d e, t)).
Definition Receive (len : Z) : M E (Z * list byte) :=
  '(r, d) ← Recv len;
  keep_bytes d;;
  mret (r, d).

Lemma keeps_Receive g R len e t :
  tcp_inv g R (e, t) -> 0 <= len -> wp (Receive len) (e, t) (fun _ s => keeps g R (e, t) s /\ True).
Proof.
  intros Hi Hl. unfold Receive. apply wp_bind. eapply wp_mono; [by apply (wp_Recv g R)|].
  intros [r d] [e' t'] (Hi' & Hk & Hgv & _). split; [|done]. exists g.
  split; [done|]. split; [|done]. apply stream_grows_same. cbn [fst]. by rewrite given_take_in.
Qed.

(** ** [NotifyClock] *)

(** A packet without payload. *)
Lemma keeps_packet_ack g R seq e t :
  tcp_inv g R (e, t) -> 0 <= seq < 2 ^ 32 ->
  wp (packet seq 0 0 0) (e, t) (fun _ s => keeps g R (e, t) s /\ True).
Proof.
  intros Hi Hseq. eapply wp_mono.
  { apply (@wp_packet_ack E _ (net_books (books e)) _ g); [apply snd_inv_books, Hi|done]. }
  intros _ [e' t'] [Hs Ht]. split; [|done].
  eapply keeps_stream; [exact Hi|done|by apply timers_only_same_stream].
Qed.

Lemma rto_range g R e t : tcp_inv g R (e, t) -> MIN_RTO <= m_rx_rto t <= MAX_RTO.
Proof. intros Hi. exact (no_rto _ (si_num _ _ (ti_snd _ _ _ Hi))). Qed.

Lemma keeps_clock_retransmit g R now e t :
  tcp_inv g R (e, t) -> wp (clock_retransmit now) (e, t) (fun _ s => keeps g R (e, t) s /\ True).
Proof.
  intros Hi. unfold clock_retransmit. wp_run.
  assert (Hstop : wp (mret true) (e, t) (fun (_ : bool) s => keeps g R (e, t) s /\ True))
    by (wp_run; split; [by apply keeps_refl|done]).
  apply wp_if; intros _; [|done]. destruct (m_slist t) as [|s l] eqn:El; [done|].
  eapply wp_seq; [by apply keeps_transmit; [|by rewrite El]|].
  intros ok g1 e1 t1 Hi1 _ _. destruct ok; [|by apply keeps_abort]. wp_run. split; [|done].
  pose proof (num_ranges g1 R e1 t1 Hi1) as (Hm & _).
  pose proof (rto_range g1 R e1 t1 Hi1) as Hrto.
  pose proof (wrap32_range (m_snd_nxt t1 - m_snd_una t1)) as Hw.
  rewrite !(wrap32_small (2 * m_mss t1)) by lia.
  rewrite (wrap32_small (m_rx_rto t1 * 2)) by (consts; lia).
  set (ss := Z.max _ _). set (rto := Z.min _ _).
  assert (0 < ss < 2 ^ 32).
  { subst ss. pose proof (Z.div_le_upper_bound (wrap32 (m_snd_nxt t1 - m_snd_una t1)) 2 (2 ^ 31)). lia. }
  assert (MIN_RTO <= rto <= MAX_RTO) by (subst rto; case_step; consts; lia).
  assigned Hi1.
Qed.

Lemma keeps_clock_probe g R now e t :
  tcp_inv g R (e, t) -> wp (clock_probe now) (e, t) (fun _ s => keeps g R (e, t) s /\ True).
Proof.
  intros Hi. unfold clock_probe. wp_run.
  apply wp_if; intros _; [|wp_run; split; [by apply keeps_refl|done]].
  apply wp_if; intros _; [by apply keeps_abort|].
  eapply wp_seq; [apply keeps_packet_ack; [done|apply wrap32_range]|].
  intros _ g1 e1 t1 Hi1 _ _. wp_run. split; [|done].
  pose proof (rto_range g R e t Hi) as Hrto. rewrite wrap32_small by (consts; lia).
  assert (MIN_RTO <= Z.min MAX_RTO (m_rx_rto t * 2) <= MAX_RTO) by (consts; lia).
  assigned Hi1.
Qed.

Lemma keeps_clock_delayed_ack g R now e t :
  tcp_inv g R (e, t) -> wp (clock_delayed_ack now) (e, t) (fun _ s => keeps g R (e, t) s /\ True).
Proof.
  intros Hi. unfold clock_delayed_ack. wp_run.
  apply wp_when; intros _; [|split; [by apply keeps_refl|done]].
  eapply wp_seq; [apply keeps_packet_ack; [done|exact (snd_nxt_range g e t (ti_snd _ _ _ Hi))]|].
  intros _ g1 e1 t1 Hi1 _ _. wp_run. split; [by apply keeps_refl|done].
Qed.

Lemma keeps_NotifyClock g R now e t :
  tcp_inv g R (e, t) -> wp (NotifyClock now) (e, t) (fun _ s => keeps g R (e, t) s /\ True).
Proof.
  intros Hi. unfold NotifyClock. wp_run.
  case_decide; [wp_run; split; [by apply keeps_refl|done]|].
  eapply wp_seq; [by apply keeps_clock_retransmit|]. intros ok g1 e1 t1 Hi1 _ _.
  apply wp_if; intros _; [wp_run; split; [by apply keeps_refl|done]|].
  eapply wp_seq; [by apply keeps_clock_probe|]. intros ok2 g2 e2 t2 Hi2 _ _.
  apply wp_if; intros _; [wp_run; split; [by apply keeps_refl|done]|].
  by apply keeps_clock_delayed_ack.
Qed.

(** ** MTU, options, closing *)

Lemma keeps_NotifyMTU g R mtu e t :
  tcp_inv g R (e, t) -> PACKET_OVERHEAD < mtu <= MAX_PACKET ->
  wp (NotifyMTU mtu) (e, t) (fun _ s => keeps g R (e, t) s /\ True).
Proof.
  intros Hi Hm. unfold NotifyMTU. eapply (wp_seq _ _ _ _ _ _ (fun _ => True)).
  { wp_run. split; [|done]. assigned Hi. }
  intros _ g1 e1 t1 Hi1 _ _. wp_run.
  apply wp_when; intros _; [by apply keeps_adjustMTU|split; [by apply keeps_refl|done]].
Qed.

Lemma keeps_Close g R force e t :
  tcp_inv g R (e, t) -> wp (Close force) (e, t) (fun _ s => keeps g R (e, t) s /\ True).
Proof.
  intros Hi. unfold Close. wp_run. split; [|done]. exists g. destruct Hi as [Hs Hr Hc Hpc Hl Ht].
  split; [|split; [by apply stream_grows_same|by intros a]]. cbn [fst snd] in *.
  assert (Hne : (if force then SD_FORCEFUL else SD_GRACEFUL) <> SD_NONE) by (by destruct force).
  constructor; cbn [fst snd]; try done.
  - frame Hs.
  - destruct Hr as [[] _]. constructor; [constructor; assumption|]. by intros Hsd.
Qed.

(** What the owner may set: the flags at any time; the buffer sizes only
    before the connection starts, which the code asserts.  A send buffer has to
    hold the connect message (4 bytes).  A receive buffer is set before the
    first packet arrives and below 64 KiB: a larger one needs a window scale,
    and a peer without that option then resizes the buffer in mid-connection. *)
Definition option_legal (R : stream) (opt : TcpOption) (value : Z) (t : PseudoTcp) : Prop :=
  match opt with
  | OPT_NODELAY | OPT_ACKDELAY => True
  | OPT_SNDBUF => m_state t = TCP_LISTEN /\ 4 <= value < 2 ^ 31
  | OPT_RCVBUF => m_state t = TCP_LISTEN /\ 0 < value < 2 ^ 16 /\ m_rcv_nxt t = 0 /\
      m_rlist t = [] /\ zlen (g_bytes R) + value < 2 ^ 32
  end.

(** A new, empty receive buffer of an object that has received nothing. *)
Lemma rcv_ok_resized R t f value wnd :
  rcv_ok R t -> fifo_ok f -> state_ f = state_ (m_rbuf t) -> data_length_ f = data_length_ (m_rbuf t) ->
  buffer_length_ f = value -> 0 < value -> m_rcv_nxt t = 0 -> m_rlist t = [] -> m_rwnd_scale t = 0 ->
  zlen (g_bytes R) + value < 2 ^ 32 ->
  rcv_ok R (set_m_rcv_wnd wnd (set_m_ssthresh value (set_m_rwnd_scale 0 (set_m_rbuf_len value
    (set_m_rbuf f t))))).
Proof.
  intros [[] Hd] Hf Hsf Hdf Hbf Hv Hnx Hl Hsc Hroom.
  assert (Hz : data_length_ f = 0) by (pose proof (ok_data _ Hf); lia).
  constructor; [constructor; cbn; rewrite ?Hsf, ?Hdf; try assumption; rewrite ?Hl; try done; lia|].
  intros Hs. split; [|unfold all_ahead; cbn; by rewrite Hl]. constructor; cbn; rewrite ?Hl; try done.
  - intros p Hp. cbn in Hp. lia.
  - by left.
  - constructor.
Qed.

Lemma wp_resize_small n (e : E) t Q :
  0 < n < 2 ^ 16 -> fifo_ok (m_rbuf t) -> data_length_ (m_rbuf t) = 0 ->
  (forall f wnd, fifo_ok f -> state_ f = state_ (m_rbuf t) -> data_length_ f = 0 ->
     buffer_length_ f = n ->
     Q tt (e, set_m_rcv_wnd wnd (set_m_ssthresh n (set_m_rwnd_scale 0 (set_m_rbuf_len n
       (set_m_rbuf f t)))))) ->
  wp (resizeReceiveBuffer n) (e, t) Q.
Proof.
  intros Hn Hf Hd HQ. unfold resizeReceiveBuffer. apply wp_bind, (wp_lift_ret _ (0, n)).
  { cbn [scale_loop]. by rewrite Z.gtb_ltb, (proj2 (Z.ltb_ge _ _)) by lia. }
  apply wp_bind, (wp_lift_ret _ n).
  { unfold shl32. cbn [Z.ltb]. rewrite Z.shiftl_0_r, wrap32_small by lia. done. }
  wp_run. destruct (SetCapacity_spec (m_rbuf t) n Hf ltac:(lia)) as (f & Hf' & Hst & Hdl & _ & Hset).
  rewrite (proj2 (Z.leb_le _ _)) in Hset by lia. destruct Hset as [Eset Hbl].
  apply (wp_lift_ret _ (true, f)); [done|]. wp_run. apply wp_assert; [done|]. wp_run.
  apply HQ; try done. by rewrite Hdl.
Qed.

Lemma keeps_SetOption g R opt value e t :
  tcp_inv g R (e, t) -> option_legal R opt value t ->
  wp (SetOption opt value) (e, t) (fun _ s => keeps g R (e, t) s /\ True).
Proof.
  intros Hi Hv. unfold SetOption. wp_run. destruct opt; try done.
  - wp_run. split; [|done]. assigned Hi.
  - wp_run. split; [|done]. assigned Hi.
  - destruct Hv as (Hst & Hv & Hnx & Hrl & Hroom). destruct (ti_listen _ _ _ Hi Hst) as [Hg Hl].
    wp_run. apply wp_assert; [by rewrite bool_decide_true|]. rewrite wrap32_small by lia.
    pose proof (ti_rcv _ _ _ Hi) as Hr. pose proof (rk_base _ _ Hr) as [Hf _ _ _ _ Hle _ Hsc].
    cbn [snd] in *. pose proof (ok_data _ Hf). assert (Hz : data_length_ (m_rbuf t) = 0) by lia.
    apply wp_resize_small; [done|done|done|]. intros f wnd Hf' Hsf Hdf Hbf. split; [|done].
    pose proof (rcv_ok_resized R t f value wnd Hr Hf' Hsf ltac:(lia) Hbf ltac:(lia) Hnx Hrl Hsc Hroom) as Hr'.
    exists g. destruct Hi as [Hs _ Hc Hpc _ Ht]. cbn [fst snd] in *.
    split; [|split; [by apply stream_grows_same|by intros a]].
    constructor; cbn [fst snd]; try done.
    + frame Hs.
    + intros Hsd. rewrite (Ht Hsd). unfold delivered, read_pos. cbn. by rewrite Hdf, Hz.
  - destruct Hv as [Hst Hv]. destruct (ti_listen _ _ _ Hi Hst) as [Hg Hl].
    wp_run. apply wp_assert; [by rewrite bool_decide_true|].
    rewrite wrap32_small by lia. unfold resizeSendBuffer. wp_run.
    pose proof (si_snd _ _ (ti_snd _ _ _ Hi)) as [Hf _ _ _ Hu Hd _ _ _]. cbn [snd] in *.
    rewrite Hg, zlen_nil in Hd. pose proof (ok_data _ Hf).
    destruct (SetCapacity_spec (m_sbuf t) value Hf ltac:(lia)) as (f & Hf' & Hsf & Hdf & Hrf & Hc).
    rewrite (proj2 (Z.leb_le _ _)) in Hc by lia. destruct Hc as [Ec Hbf]. cbn [m_sbuf set_m_sbuf_len].
    apply (wp_lift_ret _ _ _ _ Ec). wp_run. split; [|done].
    eapply keeps_assign; [exact Hi| |reflexivity|reflexivity|reflexivity|done].
    pose proof (ti_snd _ _ _ Hi) as Hs. destruct Hs as [[] [] [] ?].
    constructor; cbn [fst snd] in *; [constructor|constructor|constructor|assumption];
      cbn; rewrite ?Hsf, ?Hbf, ?Hdf, ?Hrf; try assumption; lia.
Qed.

(** ** A new object *)

Lemma tcp_inv_new R conv now e :
  net (mkStream [] 0) conv e -> taken e = [] -> 0 <= g_ctl R ->
  zlen (g_bytes R) + DEFAULT_RCV_BUF_SIZE < 2 ^ 32 ->
  post (PseudoTcp_new conv now) (fun t => tcp_inv (mkStream [] 0) R (e, t)).
Proof.
  intros Hn Ht Hc Hroom. cbn.
  pose proof (Queue.fresh_ok DEFAULT_RCV_BUF_SIZE ltac:(consts; lia)) as [Hrf _].
  pose proof (Queue.fresh_ok DEFAULT_SND_BUF_SIZE ltac:(consts; lia)) as [Hsf _].
  pose proof (zlen_nonneg (g_bytes R)).
  constructor; cbn [fst snd].
  - constructor; cbn [fst snd]; [| |constructor; cbn; lia|done].
    + constructor; cbn; try done; try (consts; lia).
      constructor; cbn; try done. by exists [], [].
    + constructor; cbn; consts; rewrite ?wrap32_small; lia.
  - constructor; [constructor; cbn; try done; try (consts; lia)|].
    intros _. split; [|by apply Forall_nil]. constructor; [|by left|by apply Forall_nil|apply Sorted.SSorted_nil].
    intros p Hp. cbn in Hp. lia.
  - unfold zlen; cbn; lia.
  - done.
  - done.
  - intros _. rewrite delivered_before; [done|]. unfold read_pos; cbn. lia.
Qed.

End Api.
