(* ===== verification/TcpRun.v ===== *)
(** * Executions of PseudoTcp

    An execution is any sequence of calls of the interface on a new object:
    the owner connects, sends, receives, reports the clock and the MTU, sets
    options, closes, and hands over packets of an honest peer in any order
    and any number of times.  [reach] is the set of states such sequences
    lead to.  The theorems at the end are about all of them. *)

From Stdlib Require Import ZArith Lia.
From S2P Require Import Prelude ByteOrder ConstBuffer ByteBuffer FifoBuffer.
From S2P Require Import TcpState PseudoTcp TcpWire TcpQueue TcpSend TcpOps TcpRecv TcpOptions.
From S2P Require Import TcpSafe TcpProcess TcpApi.

Inductive call : Type :=
| CallConnect
| CallSend (data : list byte)
| CallReceive (len : Z)
| CallPacket (packet : list byte)
| CallClock (now : Z)
| CallMTU (mtu : Z)
| CallOption (opt : TcpOption) (value : Z)
| CallClose (force : bool).

Section Run.
Context {E : Type} `{User E} `{Heap}.

Definition perform (c : call) : M E unit :=
  match c with
  | CallConnect => Connect;; mret tt
  | CallSend d => Offer d;; mret tt
  | CallReceive n => Receive n;; mret tt
  | CallPacket p => NotifyPacket p;; mret tt
  | CallClock now => NotifyClock now
  | CallMTU mtu => NotifyMTU mtu
  | CallOption opt v => SetOption opt v
  | CallClose force => Close force
  end.

(** What the caller has to respect, the hypothesis of the theorems about
    executions: packets come from an honest peer with stream [R], the stream
    sent stays below 4 GiB, an MTU leaves room for a byte of payload (it is
    above the 116 bytes of [PACKET_OVERHEAD]; a [uint16_t] is never above
    [MAX_PACKET]), and buffer sizes are set as [option_legal] says. *)
Definition call_ok (R : stream) (t : PseudoTcp) (c : call) : Prop :=
  match c with
  | CallConnect | CallClock _ | CallClose _ => True
  | CallSend d => m_snd_una t + data_length_ (m_sbuf t) + zlen d < 2 ^ 32
  | CallReceive n => 0 <= n
  | CallPacket p => honest_packet R t p
  | CallMTU mtu => PACKET_OVERHEAD < mtu <= MAX_PACKET
  | CallOption opt v => option_legal R opt v t
  end.

Inductive reach (R : stream) (conv : Z) : E * PseudoTcp -> Prop :=
| reach_new now e t :
    PseudoTcp_new conv now = Ret t -> net (mkStream [] 0) conv e -> taken e = [] -> given e = [] ->
    reach R conv (e, t)
| reach_call c s s' :
    reach R conv s -> call_ok R (snd s) c -> perform c s = Ret (tt, s') -> reach R conv s'.

(** Every call keeps the invariant. *)
Lemma keeps_perform g R c e t :
  tcp_inv g R (e, t) -> call_ok R t c ->
  wp (perform c) (e, t) (fun _ s => keeps g R (e, t) s /\ True).
Proof.
  intros Hi Hc.
  assert (Hdone : forall A (m : M E A), wp m (e, t) (fun _ s => keeps g R (e, t) s /\ True) ->
    wp (m;; mret tt) (e, t) (fun _ s => keeps g R (e, t) s /\ True)).
  { intros A m Hm. apply wp_bind. eapply wp_mono; [exact Hm|]. intros a s Hk. by wp_run. }
  destruct c as [|d|n|p|now|mtu|opt v|force]; cbn [perform call_ok] in *; try apply Hdone.
  - by apply keeps_Connect.
  - pose proof (so_data _ _ (si_snd _ _ (ti_snd _ _ _ Hi))) as Hd. cbn [snd] in Hd.
    apply keeps_Offer; [done|lia].
  - by apply keeps_Receive.
  - by apply keeps_NotifyPacket.
  - by apply keeps_NotifyClock.
  - by apply keeps_NotifyMTU.
  - by apply keeps_SetOption.
  - by apply keeps_Close.
Qed.

Section Reach.
Variables (R : stream) (conv : Z).
Hypothesis peer_ctl : 0 <= g_ctl R.
Hypothesis peer_size : zlen (g_bytes R) + DEFAULT_RCV_BUF_SIZE < 2 ^ 32.

(** The stream is what [Send] accepted, behind at most four control bytes. *)
Lemma reach_books s : reach R conv s -> exists g, tcp_inv g R s /\ user_data g = given (fst s).
Proof.
  induction 1 as [now e t Hnew Hn Ht Hg|c [e t] s' _ (g & Hi & Hu) Hc Hp].
  - pose proof (tcp_inv_new R conv now e Hn Ht peer_ctl peer_size) as Hi. rewrite Hnew in Hi.
    eexists. split; [exact Hi|done].
  - pose proof (keeps_perform g R c e t Hi Hc) as Hw. unfold wp in Hw. rewrite Hp in Hw.
    destruct Hw as [(g' & Hi' & [_ (x & Eu & Eg)] & _) _]. exists g'. split; [done|].
    cbn [fst] in *. by rewrite Eu, Eg, Hu.
Qed.

Lemma reach_inv s : reach R conv s -> exists g, tcp_inv g R s.
Proof. intros Hr. destruct (reach_books s Hr) as (g & Hi & _). by exists g. Qed.

Lemma reach_returns s c :
  reach R conv s -> call_ok R (snd s) c -> exists s', perform c s = Ret (tt, s').
Proof.
  intros Hr Hc. destruct (reach_inv s Hr) as (g & Hi). destruct s as [e t].
  pose proof (keeps_perform g R c e t Hi Hc) as Hw. unfold wp in Hw.
  destruct (perform c (e, t)) as [[[] s']|f]; [by exists s'|done].
Qed.
End Reach.

(** The state after a call, for examples. *)
Definition after (c : call) (s : E * PseudoTcp) : E * PseudoTcp :=
  match perform c s with Ret (_, s') => s' | Crash _ => s end.

Lemma reach_after R conv s c :
  0 <= g_ctl R -> zlen (g_bytes R) + DEFAULT_RCV_BUF_SIZE < 2 ^ 32 ->
  reach R conv s -> call_ok R (snd s) c -> reach R conv (after c s).
Proof.
  intros Hc Hz Hr Hok. destruct (reach_returns R conv Hc Hz s c Hr Hok) as [s' Es].
  unfold after. rewrite Es. by eapply reach_call.
Qed.
End Run.

(** ** Environments *)

Lemma good_packet_grow g g' conv p : stream_le g g' -> good_packet g conv p -> good_packet g' conv p.
Proof.
  intros [[d Hd] Hc] (seq & ack & flags & wnd & tsval & tsecr & x & -> & ? & ? & ? & ? & ? & ? & ? & Hp).
  exists seq, ack, flags, wnd, tsval, tsecr, x. do 8 (split; [done|]).
  destruct Hp as [?|[(Hx0 & Hx1 & Hx2) Hctl]]; [by left|].
  destruct Hc as [Hc|Hn].
  - right. split; [|by rewrite Hc]. unfold slice. rewrite Hd, zlen_app. pose proof (zlen_nonneg d).
    split; [done|]. split; [lia|]. rewrite Hx2 at 1. pose proof (zlen_nonneg x).
    unfold ztake, zdrop. rewrite drop_app_le by (unfold zlen in *; lia).
    rewrite take_app_le; [done|]. rewrite length_drop. unfold zlen in *. lia.
  - left. rewrite Hn, zlen_nil in Hx1. destruct x; [done|]. rewrite zlen_cons in Hx1.
    pose proof (zlen_nonneg x). lia.
Qed.

(** *** Environments that log

    An environment with a log of the packets handed to it is a network whose
    invariant is that all of them are good; what [TcpWritePacket] answers and
    what the notifications do stays open. *)
Class Log (E : Type) `{IPseudoTcpNotify E} : Type := {
  handed : E -> list (list byte);
  handed_now e : handed (snd (env_Now e)) = handed e;
  handed_write p e : handed (snd (env_TcpWritePacket p e)) = handed e ++ [p]
}.

#[export] Instance log_network {E} `{Log E} : Network E.
Proof.
  refine {| net g conv e := Forall (good_packet g conv) (handed e) |}.
  - intros g conv e He. by rewrite handed_now.
  - intros g conv e p He Hp. rewrite handed_write. apply Forall_app. split; [done|]. by constructor.
  - intros g g' conv e He Hg. eapply Forall_impl; [|exact He]. intros p. by apply good_packet_grow.
Defined.

(** *** A host to run examples on

    It knows the time, the packets handed to the network, what the application
    took and gave, and what the network will answer to the next packets: a
    script of results, successes after it. *)
Record host : Type := mkHost {
  h_time : Z; h_sent : list (list byte); h_taken : list byte; h_given : list byte;
  h_answers : list WriteResult
}.

#[export] Instance host_notify : IPseudoTcpNotify host := {|
  env_Now e := (wrap32 (h_time e), e);
  env_TcpWritePacket p e :=
    (hd WR_SUCCESS (h_answers e),
     mkHost (h_time e) (h_sent e ++ [p]) (h_taken e) (h_given e) (tl (h_answers e)));
  env_OnTcpOpen s := Ret s;
  env_OnTcpReadable s := Ret s;
  env_OnTcpWriteable s := Ret s;
  env_OnTcpClosed _ s := Ret s;
  env_Now_range e := wrap32_range (h_time e) |}.

#[export] Instance host_log : Log host := {|
  handed := h_sent; handed_now _ := eq_refl; handed_write _ _ := eq_refl |}.

#[export] Instance host_consumer : Consumer host.
Proof.
  refine {| taken := h_taken; given := h_given;
            take_in d e := mkHost (h_time e) (h_sent e) (h_taken e ++ d) (h_given e) (h_answers e);
            give_in d e := mkHost (h_time e) (h_sent e) (h_taken e) (h_given e ++ d) (h_answers e) |};
    done.
Defined.

#[export] Instance host_user : User host.
Proof. split; intros g R [e t]; intros; cbn; by apply keeps_refl. Qed.

(** *** An application that calls back

    The eager host answers [OnTcpReadable] by calling [Recv] on the object
    that notifies it, and books what it gets. *)
Section Eager.
Context `{Heap}.

Definition eager_notify : IPseudoTcpNotify host := {|
  env_Now := @env_Now host host_notify;
  env_TcpWritePacket := @env_TcpWritePacket host host_notify;
  env_OnTcpOpen s := Ret s;
  env_OnTcpReadable s := match Receive 65536 s with Ret (_, s') => Ret s' | Crash f => Crash f end;
  env_OnTcpWriteable s := Ret s;
  env_OnTcpClosed _ s := Ret s;
  env_Now_range := @env_Now_range host host_notify |}.

Definition eager_log : @Log host eager_notify :=
  @Build_Log host eager_notify h_sent (fun _ => eq_refl) (fun _ _ => eq_refl).

Definition eager_consumer : @Consumer host eager_notify (@log_network host eager_notify eager_log).
Proof.
  refine (@Build_Consumer host eager_notify _ h_taken h_given (@take_in host _ _ _)
    (@give_in host _ _ _) _ _ _ _ _ _ _ _ _ _); done.
Defined.

Lemma eager_inv g R s :
  @tcp_inv host eager_notify _ eager_consumer g R s <-> tcp_inv g R s.
Proof. split; intros [[] ? ? ? ? ?]; constructor; try assumption; constructor; assumption. Qed.

Lemma eager_keeps g R s s' : keeps g R s s' -> @keeps host eager_notify _ eager_consumer g R s s'.
Proof. intros (g' & Hi & ?). exists g'. split; [by apply eager_inv|done]. Qed.

Lemma eager_user : @User host eager_notify _ eager_consumer.
Proof.
  split; intros g R [e t]; intros; cbn; try (apply eager_keeps, keeps_refl; by apply eager_inv).
  assert (Hi : tcp_inv g R (e, t)) by (by apply eager_inv).
  pose proof (keeps_Receive g R 65536 e t Hi ltac:(lia)) as Hw. unfold wp in Hw.
  destruct (Receive 65536 (e, t)) as [[? s']|f]; [|done]. apply eager_keeps, Hw.
Qed.
End Eager.

(** ** An example: a server, a client that says "hi" *)

Definition example_heap : Heap := filled_heap Byte.xa5.
Definition client_stream : stream :=
  mkStream [Byte.x00; Byte.x03; Byte.x01; Byte.x00; Byte.x68; Byte.x69] 4.
Definition client_syn : list byte :=
  encode 7 0 0 FLAG_CTL 61440 900 0 [Byte.x00; Byte.x03; Byte.x01; Byte.x00].
Definition client_data : list byte := encode 7 4 4 0 61440 950 1000 [Byte.x68; Byte.x69].

Section Example.
#[local] Existing Instance example_heap.

(** [answers] is what the network says after the first packet. *)
Definition server_on (answers : list WriteResult) : host * PseudoTcp :=
  (mkHost 1000 [] [] [] (WR_SUCCESS :: answers), PseudoTcp_init 7 1000).
Definition syn_on (answers : list WriteResult) : host * PseudoTcp :=
  after (CallPacket client_syn) (server_on answers).
Definition data_on (answers : list WriteResult) : host * PseudoTcp :=
  after (CallPacket client_data) (syn_on answers).

Definition server_new : host * PseudoTcp := server_on [].
Definition server_syn : host * PseudoTcp := syn_on [].
Definition server_data : host * PseudoTcp := data_on [].
Definition server_taken : host * PseudoTcp := after (CallReceive 100) server_data.

(** The network refuses the first data packet as too large and takes a smaller
    one. *)
Definition server_refused : host * PseudoTcp :=
  after (CallSend (replicate 200 Byte.x61)) (data_on [WR_TOO_LARGE; WR_SUCCESS]).

(** The packets are honest ones, so the states are reachable. *)
Lemma honest_example t seq ack flags tsval tsecr d :
  (exists k, ztake (zlen d) (zdrop seq (g_bytes client_stream)) = d /\
     seq + zlen d <= 6 /\ 0 <= seq /\ seq + zlen d + k = 6 /\ 0 < zlen d) ->
  (if flags =? 0 then 4 <= seq else seq + zlen d <= 4) -> flags = 0 \/ flags = FLAG_CTL ->
  0 <= ack < 2 ^ 32 -> 0 <= tsval < 2 ^ 32 -> 0 <= tsecr < 2 ^ 32 ->
  (flags = FLAG_CTL -> Forall small d) ->
  ack_point (m_snd_una t) (m_slist t) ack ->
  honest_packet client_stream t (encode 7 seq ack flags 61440 tsval tsecr d).
Proof.
  intros (k & Hd & Hend & Hs & Hk & Hpos) Hpart Hfl Hack Hts Hte Hsm Hap.
  exists 7, seq, ack, flags, 61440, tsval, tsecr, d. split; [done|].
  do 4 (split; [lia|]). constructor; cbn; try done; try lia.
  constructor; cbn; [lia|lia|done|right]. split; [done|]. split; [|done].
  intros i Hi. rewrite <- Hd at 1. rewrite zget_ztake by lia. apply zget_zdrop; lia.
Qed.

Lemma client_ctl : 0 <= g_ctl client_stream.
Proof. done. Qed.

Lemma client_size : zlen (g_bytes client_stream) + DEFAULT_RCV_BUF_SIZE < 2 ^ 32.
Proof. done. Qed.

Lemma reach_server_on answers : reach client_stream 7 (server_on answers).
Proof. apply (reach_new _ _ 1000); [reflexivity|by apply Forall_nil|reflexivity|reflexivity]. Qed.

Lemma ok_client_syn answers : call_ok client_stream (snd (server_on answers)) (CallPacket client_syn).
Proof.
  apply honest_example; try (done || lia).
  - exists 2. by vm_compute.
  - intros _. by repeat constructor.
  - by left.
Qed.

Lemma reach_syn_on answers : reach client_stream 7 (syn_on answers).
Proof.
  exact (reach_after _ _ _ _ client_ctl client_size (reach_server_on answers) (ok_client_syn answers)).
Qed.

Lemma ok_client_data answers : call_ok client_stream (snd (syn_on answers)) (CallPacket client_data).
Proof.
  apply honest_example; try (done || lia).
  - exists 0. by vm_compute.
  - right. exists [mkSSegment 0 4 1 true], []. split; [by vm_compute|].
    split; [by repeat constructor|by vm_compute].
Qed.

Lemma reach_data_on answers : reach client_stream 7 (data_on answers).
Proof.
  exact (reach_after _ _ _ _ client_ctl client_size (reach_syn_on answers) (ok_client_data answers)).
Qed.

Lemma reach_server_refused : reach client_stream 7 server_refused.
Proof. apply reach_after; [exact client_ctl|exact client_size|apply reach_data_on|by vm_compute]. Qed.

Lemma reach_server_data_parts : reach client_stream 7 (fst server_data, snd server_data).
Proof. pose proof (reach_data_on []) as Hr. unfold server_data. by destruct (data_on []). Qed.

Lemma reach_server_taken : reach client_stream 7 server_taken.
Proof. by apply reach_after; [| |exact (reach_data_on [])|]. Qed.
End Example.

(** ** The theorems *)

(** C4: no call that respects [call_ok] crashes in a state that such calls
    led to: no assertion of pseudo_tcp.cc fails, no copy leaves its buffer, no
    division by zero or undefined shift happens, and every loop ends.  This
    holds for every clock, every answer of [TcpWritePacket], every order, loss
    and repetition of the honest peer's packets, and for applications that
    call back into the object from its notifications.

    What [call_ok] asks: packets come from an honest peer (its data is its
    stream, it acknowledges whole segments and its window scale is small);
    fewer than 4 GiB are sent; [NotifyMTU] gets more than the 116 bytes of
    overhead; a buffer size is set in LISTEN only, as the code asserts, at
    least 4 bytes for sending, and for receiving below 64 KiB and before the
    first packet.  Other arguments are outside the theorem, and some of them
    do go wrong: see [TcpEdge]. *)
Theorem pseudo_tcp_never_crashes {E} `{User E} `{Heap} (R : stream) (conv : Z)
    (s : E * PseudoTcp) (c : call) :
  0 <= g_ctl R -> zlen (g_bytes R) + DEFAULT_RCV_BUF_SIZE < 2 ^ 32 ->
  reach R conv s -> call_ok R (snd s) c -> exists s', perform c s = Ret (tt, s').
Proof. intros Hc Hz. by apply reach_returns. Qed.

Lemma pseudo_tcp_never_crashes_witness :
  exists s', @perform host _ _ _ example_heap (CallPacket client_data) server_syn = Ret (tt, s').
Proof.
  apply (@pseudo_tcp_never_crashes host _ _ _ _ example_heap client_stream 7);
    [cbn; lia|vm_compute; reflexivity|exact (reach_syn_on [])|exact (ok_client_data [])].
Defined.



(** C6: everything the object ever handed to the network is a well-formed
    packet whose payload is the stretch of its own stream that the sequence
    number claims, with control and user data apart.  The stream is at most
    four control bytes (the connect message) and then exactly the bytes that
    [Send] accepted from the application, in order; its unacknowledged end is
    what the send buffer holds.  The environment is any one that logs the
    packets: [TcpWritePacket] may answer success, "too large" or failure at
    every packet, and the notifications may call back and send.  The calls
    are those of [call_ok]. *)
Theorem pseudo_tcp_sends_stream {E} `{Log E, !Consumer E, !User E, Heap} (R : stream) (conv : Z)
    (s : E * PseudoTcp) :
  0 <= g_ctl R -> zlen (g_bytes R) + DEFAULT_RCV_BUF_SIZE < 2 ^ 32 ->
  reach R conv s ->
  exists ctl, zlen ctl <= 4 /\
    let g := mkStream (ctl ++ given (fst s)) (zlen ctl) in
    Forall (good_packet g (m_conv (snd s))) (handed (fst s)) /\
    0 <= m_snd_una (snd s) <= m_snd_nxt (snd s) /\ m_snd_nxt (snd s) <= zlen (g_bytes g) /\
    readable (m_sbuf (snd s)) = zdrop (m_snd_una (snd s)) (g_bytes g).
Proof.
  intros Hc Hz Hr. destruct (reach_books R conv Hc Hz s Hr) as (g & Hi & Hu).
  pose proof (ti_ctl _ _ _ Hi). pose proof (ti_snd _ _ _ Hi) as [[] _ _ Hn].
  exists (ztake (g_ctl g) (g_bytes g)). rewrite zlen_ztake by lia. split; [lia|].
  rewrite <- Hu. unfold user_data. rewrite ztake_zdrop. cbv zeta. destruct g as [b c].
  cbn [g_ctl g_bytes] in *. split; [exact Hn|].
  pose proof (queue_ok_range _ _ _ _ _ so_queue). split; [lia|]. split; [lia|]. done.
Qed.

(** The network refuses the first data packet as too large. *)
Lemma pseudo_tcp_sends_stream_witness :
  map zlen (handed (fst server_refused)) = [28; 224; 204] /\
  given (fst server_refused) = replicate 200 Byte.x61 /\
  exists ctl, zlen ctl <= 4 /\
    let g := mkStream (ctl ++ given (fst server_refused)) (zlen ctl) in
    Forall (good_packet g (m_conv (snd server_refused))) (handed (fst server_refused)) /\
    0 <= m_snd_una (snd server_refused) <= m_snd_nxt (snd server_refused) /\
    m_snd_nxt (snd server_refused) <= zlen (g_bytes g) /\
    readable (m_sbuf (snd server_refused)) = zdrop (m_snd_una (snd server_refused)) (g_bytes g).
Proof.
  split; [vm_compute; reflexivity|]. split; [vm_compute; reflexivity|].
  apply (@pseudo_tcp_sends_stream host _ _ _ _ example_heap client_stream 7);
    [cbn; lia|vm_compute; reflexivity|exact reach_server_refused].
Defined.

(** After any calls that respect [call_ok] the counters are in range: the
    retransmission timeout lies between MIN_RTO and MAX_RTO, the segment size
    is positive and a full segment fits a packet, the slow-start threshold is
    positive, no more is in flight than the send buffer holds, the send queue
    is a contiguous list of segments from [m_snd_una] whose transmitted ones
    end at [m_snd_nxt], and the stored out-of-order segments lie within the
    receive window and could not yet be delivered.  [call_ok] leaves out
    [NotifyMTU] with 116 bytes or less, after which the segment size wraps
    around ([TcpEdge.small_mtu_wraps]). *)
Theorem pseudo_tcp_bounds {E} `{User E} `{Heap} (R : stream) (conv : Z) (s : E * PseudoTcp) :
  0 <= g_ctl R -> zlen (g_bytes R) + DEFAULT_RCV_BUF_SIZE < 2 ^ 32 ->
  reach R conv s ->
  let t := snd s in
  MIN_RTO <= m_rx_rto t <= MAX_RTO /\ 0 < m_mss t <= MAX_PACKET - PACKET_OVERHEAD /\
  0 < m_ssthresh t /\
  m_snd_nxt t - m_snd_una t <= data_length_ (m_sbuf t) <= buffer_length_ (m_sbuf t) /\
  (exists total c, queue_ok (m_snd_una t) (m_snd_nxt t) total c (m_slist t)) /\
  Forall (fun r => 0 < r_len r /\ r_seq r + r_len r <= window_end t) (m_rlist t) /\
  (m_shutdown t = SD_NONE -> all_ahead t).
Proof.
  intros Hc Hz Hr t. destruct (reach_inv R conv Hc Hz s Hr) as (g & Hi).
  pose proof (ti_snd _ _ _ Hi) as [[] [] _ _]. do 2 (split; [done|]). split; [subst t; lia|].
  pose proof (ok_data _ so_fifo). pose proof (queue_ok_range _ _ _ _ _ so_queue). subst t.
  split; [lia|]. split; [by eexists _, _|]. split.
  - eapply Forall_impl; [|apply (ro_rlist _ _ (rk_base _ _ (ti_rcv _ _ _ Hi)))].
    intros r (_ & ? & ? & _). done.
  - intros Hs. by apply (rk_data _ _ (ti_rcv _ _ _ Hi)).
Qed.

Lemma pseudo_tcp_bounds_witness :
  let t := snd server_data in
  MIN_RTO <= m_rx_rto t <= MAX_RTO /\ 0 < m_mss t <= MAX_PACKET - PACKET_OVERHEAD /\
  0 < m_ssthresh t /\
  m_snd_nxt t - m_snd_una t <= data_length_ (m_sbuf t) <= buffer_length_ (m_sbuf t) /\
  (exists total c, queue_ok (m_snd_una t) (m_snd_nxt t) total c (m_slist t)) /\
  Forall (fun r => 0 < r_len r /\ r_seq r + r_len r <= window_end t) (m_rlist t) /\
  (m_shutdown t = SD_NONE -> all_ahead t).
Proof.
  apply (@pseudo_tcp_bounds host _ _ _ _ example_heap client_stream 7);
    [cbn; lia|vm_compute; reflexivity|exact (reach_data_on [])].
Defined.

(** C22: [Send] accepts what fits: on an established connection it
    answers the number of bytes that the send buffer had room for and appends
    exactly these to the stream that the packets carry; with a full buffer it
    answers -1 with EWOULDBLOCK, and on a connection that is not established
    -1 with ENOTCONN, and the stream is as before. *)
Theorem Send_accepts_prefix {E} `{User E} `{Heap} (R : stream) (conv : Z) (e : E) t d :
  0 <= g_ctl R -> zlen (g_bytes R) + DEFAULT_RCV_BUF_SIZE < 2 ^ 32 ->
  reach R conv (e, t) -> call_ok R t (CallSend d) ->
  exists g, readable (m_sbuf t) = zdrop (m_snd_una t) (g_bytes g) /\
  wp (Send d) (e, t) (fun r s =>
    if decide (m_state t = TCP_ESTABLISHED) then
      let n := Z.min (zlen d) (buffer_length_ (m_sbuf t) - data_length_ (m_sbuf t)) in
      if data_length_ (m_sbuf t) =? buffer_length_ (m_sbuf t)
      then r = -1 /\ m_error (snd s) = EWOULDBLOCK /\ keeps g R (e, t) s
      else r = to_int32 n /\ keeps (mkStream (g_bytes g ++ ztake n d) (g_ctl g)) R (e, t) s
    else r = -1 /\ m_error (snd s) = ENOTCONN /\ keeps g R (e, t) s).
Proof.
  intros Hc Hz Hr Hd. destruct (reach_inv R conv Hc Hz _ Hr) as (g & Hi). exists g.
  pose proof (si_snd _ _ (ti_snd _ _ _ Hi)) as []. cbn [snd call_ok] in *.
  split; [done|]. eapply wp_mono; [apply (wp_Send g R d); [done|lia]|]. cbn beta. intros r s Hs.
  case_decide; [|done]. cbv zeta in *. destruct (_ =? _); [done|]. by destruct Hs as (? & ? & _).
Qed.

Lemma Send_accepts_prefix_witness :
  let t := snd server_data in
  m_state t = TCP_ESTABLISHED /\
  exists g, readable (m_sbuf t) = zdrop (m_snd_una t) (g_bytes g) /\
  wp (@Send host _ example_heap [Byte.x6f; Byte.x6b]) (fst server_data, t) (fun r s =>
    if decide (m_state t = TCP_ESTABLISHED) then
      let n := Z.min 2 (buffer_length_ (m_sbuf t) - data_length_ (m_sbuf t)) in
      if data_length_ (m_sbuf t) =? buffer_length_ (m_sbuf t)
      then r = -1 /\ m_error (snd s) = EWOULDBLOCK /\ keeps g client_stream (fst server_data, t) s
      else r = to_int32 n /\
        keeps (mkStream (g_bytes g ++ ztake n [Byte.x6f; Byte.x6b]) (g_ctl g)) client_stream (fst server_data, t) s
    else r = -1 /\ m_error (snd s) = ENOTCONN /\ keeps g client_stream (fst server_data, t) s).
Proof.
  split; [vm_compute; reflexivity|].
  apply (@Send_accepts_prefix host _ _ _ _ example_heap client_stream 7);
    [cbn; lia|vm_compute; reflexivity|exact reach_server_data_parts|vm_compute; reflexivity].
Defined.


