(* ===== verification/TcpEdge.v ===== *)
(** * What an honest peer must not do

    The theorems of [TcpRun] assume an honest peer and a careful owner.  Here
    one of these assumptions is left at a time: a peer that acknowledges a
    part of a segment makes the process abort, on every established
    connection; a window scale of 32 and an MTU below the overhead are shown
    by executions. *)

From Stdlib Require Import ZArith Lia.
From S2P Require Import Prelude ByteOrder ConstBuffer ByteBuffer FifoBuffer.
From S2P Require Import TcpState PseudoTcp TcpWire TcpQueue TcpSend TcpOps TcpRecv TcpOptions.
From S2P Require Import TcpSafe TcpProcess TcpApi TcpRun.

(** ** Acknowledging a part of a segment *)

Section PartialAck.
Context {E : Type} `{User E} `{Heap}.

(** A sequence crashes when its first part returns and the rest crashes. *)
Lemma crash_bind {A B} (m : M E A) (k : A -> M E B) s f :
  wp m s (fun a s' => k a s' = Crash f) -> (m ≫= k) s = Crash f.
Proof. unfold wp, mbind, M_bind. by destruct (m s) as [[a s']|]. Qed.

Lemma crash_first {A B} (m : M E A) (k : A -> M E B) s f : m s = Crash f -> (m ≫= k) s = Crash f.
Proof. unfold mbind, M_bind. by intros ->. Qed.

(** Reading behind the data of the send buffer fails the assertion. *)
Lemma packet_behind_data seq flags offset len (e : E) t :
  0 < len -> HEADER_SIZE + len <= MAX_PACKET -> data_length_ (m_sbuf t) <= offset ->
  packet seq flags offset len (e, t) = Crash AssertionFailed.
Proof.
  intros Hlen Hmax Hoff. unfold packet. apply crash_bind, wp_assert.
  { apply Z.leb_le. unfold MAX_PACKET, HEADER_SIZE in *. rewrite wrap32_small; lia. }
  apply crash_bind. unfold Now, wp. destruct (env_Now e) as [now e1]. cbn [post].
  apply crash_bind, wp_get. cbn [snd]. apply crash_bind, wp_lift.
  eapply post_mono; [apply packet_header_filled|]. intros b [Hb _].
  apply crash_bind, wp_upd. apply crash_first. unfold lift, packet_payload.
  rewrite (proj2 (Z.eqb_neq len 0)) by lia. unfold ReadOffset, ReadOffsetLocked. cbn [m_sbuf set_m_ts_lastack].
  rewrite Z.geb_leb, (proj2 (Z.leb_le _ _)) by lia. cbn [mbind outcome_bind mret outcome_ret].
  rewrite mem_write_ok by (rewrite ?zlen_nil; unfold MAX_PACKET, HEADER_SIZE in *; lia).
  rewrite bool_decide_false; [done|]. by case_decide.
Qed.

(** So does retransmitting a first segment that starts before [m_snd_una]. *)
Lemma transmit_behind_data now s l (e : E) t :
  m_slist t = s :: l -> s_xmit s < 15 -> 0 < s_len s -> 0 < m_mss t <= MAX_PACKET - PACKET_OVERHEAD ->
  data_length_ (m_sbuf t) <= wrap32 (s_seq s - m_snd_una t) ->
  transmit 0 now (e, t) = Crash AssertionFailed.
Proof.
  intros Hl Hx Hlen Hmss Hoff. unfold transmit. apply crash_bind, wp_get. cbn [snd]. unfold slist_at.
  rewrite Hl. apply crash_bind, (wp_lift_ret _ s); [done|].
  assert (Hlim : s_xmit s >=? (if decide (m_state t = TCP_ESTABLISHED) then 15 else 30) = false)
    by (rewrite Z.geb_leb; apply Z.leb_gt; case_decide; lia).
  rewrite Hlim. apply crash_first. unfold MSS_LEVELS. cbn [transmit_loop].
  apply crash_bind, wp_get. cbn [snd]. unfold slist_at. rewrite Hl.
  apply crash_bind, (wp_lift_ret _ s); [done|]. apply crash_first, packet_behind_data; [lia| |done].
  unfold MAX_PACKET, PACKET_OVERHEAD, HEADER_SIZE, UDP_HEADER_SIZE, IP_HEADER_SIZE, JINGLE_HEADER_SIZE in *.
  lia.
Qed.

(** The round-trip estimate concerns its own members only. *)
Definition rtt_only (t t' : PseudoTcp) : Prop :=
  exists var srtt rto, t' = set_m_rx_rto rto (set_m_rx_srtt srtt (set_m_rx_rttvar var t)).

Lemma wp_update_rtt_only now tsecr (e : E) t :
  wp (update_rtt now tsecr) (e, t) (fun _ '(e', t') => e' = e /\ rtt_only t t').
Proof.
  assert (Hsame : rtt_only t t) by (exists (m_rx_rttvar t), (m_rx_srtt t), (m_rx_rto t); by destruct t).
  unfold update_rtt. apply wp_if; intros _; [by wp_run|]. wp_run.
  apply wp_if; intros _; [|by wp_run]. apply wp_bind, wp_if; intros _; wp_run;
    (split; [done|]; eexists _, _, _; reflexivity).
Qed.

(** What an acknowledgement inside the first segment leaves behind. *)
Lemma partial_acked g seg now s l (e : E) t :
  snd_inv g (e, t) -> m_slist t = s :: l ->
  m_snd_una t < seg_ack seg < m_snd_una t + s_len s -> seg_ack seg < m_snd_nxt t ->
  wp (process_acked seg now) (e, t) (fun _ '(e', t') => e' = e /\
    exists wnd f, t' = set_m_largest (m_largest t) (set_m_slist
      (mkSSegment (s_seq s) (s_len s - (seg_ack seg - m_snd_una t)) (s_xmit s) (s_bCtrl s) :: l)
      (set_m_sbuf f (set_m_rto_base now (set_m_snd_una (seg_ack seg) (set_m_snd_wnd wnd t))))) /\
      data_length_ f = data_length_ (m_sbuf t) - (seg_ack seg - m_snd_una t)).
Proof.
  intros Hinv Hl Hack Hnxt. pose proof (si_snd _ _ Hinv) as [Hf _ Hcap Hs Hu Hdata _ Hq _].
  pose proof (si_num _ _ Hinv) as [_ _ _ _ _ _ Hsc _ _]. cbn [snd] in *.
  pose proof (queue_ok_range _ _ _ _ _ Hq). unfold process_acked. wp_run.
  destruct (shl32_ok (seg_wnd seg) (m_swnd_scale t) Hsc) as (y & Ey & _).
  apply (wp_lift_ret _ y); [done|]. wp_run. rewrite wrap32_small by lia.
  rewrite (proj2 (Z.eqb_neq (seg_ack seg) (m_snd_nxt t))) by lia.
  set (n := seg_ack seg - m_snd_una t).
  destruct (ConsumeReadData_spec (m_sbuf t) n Hf) as (f & Ef & _ & _ & _ & Hdf & _); [lia|lia|].
  apply (wp_lift_ret _ f); [done|]. wp_run. rewrite Hl.
  apply (wp_lift_ret _ (mkSSegment (s_seq s) (s_len s - n) (s_xmit s) (s_bCtrl s) :: l, m_largest t)).
  { cbn [free_segments]. rewrite (proj2 (Z.ltb_lt 0 n)), (proj2 (Z.ltb_lt n _)) by lia. reflexivity. }
  wp_run. split; [done|]. by exists y, f.
Qed.

(** [t1] is [t] after the bytes below [a], within the first segment, were
    acknowledged: the rest of that segment keeps its sequence number. *)
Record cut_first (t : PseudoTcp) (s : SSegment) (l : list SSegment) (a now : Z) (t1 : PseudoTcp) : Prop := {
  cf_una : m_snd_una t1 = a;
  cf_slist : m_slist t1 = mkSSegment (s_seq s) (s_len s - (a - m_snd_una t)) (s_xmit s) (s_bCtrl s) :: l;
  cf_state : m_state t1 = m_state t;
  cf_mss : m_mss t1 = m_mss t;
  cf_base : m_rto_base t1 = now;
  cf_data : data_length_ (m_sbuf t1) = data_length_ (m_sbuf t) - (a - m_snd_una t)
}.

Lemma wp_partial_ack g R seg now s l (e : E) t :
  tcp_inv g R (e, t) -> m_dup_acks t < 3 -> m_slist t = s :: l ->
  m_snd_una t < seg_ack seg < m_snd_una t + s_len s -> seg_ack seg < m_snd_nxt t ->
  wp (process_ack seg now) (e, t) (fun ok '(e', t1) =>
    ok = true /\ e' = e /\ cut_first t s l (seg_ack seg) now t1).
Proof.
  intros Hi Hdup Hl Hack Hnxt. unfold process_ack. wp_run.
  rewrite Z.gtb_ltb, (proj2 (Z.ltb_lt _ _)), (proj2 (Z.leb_le _ _)) by lia. cbn [andb].
  apply wp_bind. eapply wp_mono.
  { apply wp_and; [apply (wp_update_rtt g), Hi|apply wp_update_rtt_only]. }
  intros _ [e1 t1] [(-> & Hs1 & _) (_ & var & srtt & rto & ->)]. apply wp_bind.
  eapply wp_mono; [by apply (partial_acked g seg now s l)|].
  intros n [e2 t2] (-> & wnd & f & -> & Hdf). unfold process_congestion. wp_run. cbn [m_dup_acks
    set_m_largest set_m_slist set_m_sbuf set_m_rto_base set_m_snd_una set_m_snd_wnd set_m_rx_rto
    set_m_rx_srtt set_m_rx_rttvar] in *.
  rewrite Z.geb_leb, (proj2 (Z.leb_gt _ _)) by lia. wp_run.
  pose proof (num_ranges g R e t Hi) as (_ & Hss & _).
  apply wp_if; intros Hlt; zbool; cbn in Hlt.
  - wp_run. do 2 (split; [done|]). by constructor.
  - wp_run. apply (wp_lift_ret _ (wrap32 (m_mss t * m_mss t) / m_cwnd t)).
    { cbn. rewrite (proj2 (Z.eqb_neq _ 0)) by lia. done. }
    wp_run. do 2 (split; [done|]). by constructor.
Qed.

Lemma first_sent_range g R (e : E) t s l :
  tcp_inv g R (e, t) -> m_slist t = s :: l -> 0 < s_xmit s ->
  s_seq s = m_snd_una t /\ m_snd_una t + s_len s <= m_snd_nxt t /\
  0 <= m_snd_una t /\ m_snd_una t + data_length_ (m_sbuf t) < 2 ^ 32.
Proof.
  intros Hi Hl Hx. pose proof (si_snd _ _ (ti_snd _ _ _ Hi)) as [_ _ _ Hsz Hu Hd _ Hq _].
  cbn [snd] in *. rewrite Hl in Hq. destruct Hq as [Hc _ (pre & post & Ep & Hpre & Hpost & Hn) _].
  pose proof Hc as [Hseq _]. split; [done|]. split; [|lia]. destruct pre as [|s' pre]; cbn in Ep.
  - subst post. apply Forall_cons_1 in Hpost as [Hs _]. unfold unsent in Hs. lia.
  - injection Ep as <- ->. destruct Hc as (_ & _ & Hc). apply chain_app in Hc as [Hc _].
    apply chain_nonneg in Hc. cbn in Hn. lia.
Qed.

(** The retransmission timer on such a state. *)
Lemma clock_after_cut s l a now later g R (e : E) t t1 (e' : E) :
  tcp_inv g R (e, t) -> m_state t = TCP_ESTABLISHED -> m_slist t = s :: l -> 0 < s_xmit s < 15 ->
  m_snd_una t < a < m_snd_una t + s_len s -> now <> 0 -> cut_first t s l a now t1 ->
  TimeDiff32 (m_rto_base t1 + m_rx_rto t1) later <= 0 -> NotifyClock later (e', t1) = Crash AssertionFailed.
Proof.
  intros Hi Hst Hl Hx Ha Hnow [Hu Hl1 Hst1 Hm Hb Hd] Hdue.
  destruct (first_sent_range g R e t s l Hi Hl ltac:(lia)) as (Hseq & Hend & Hu0 & Htot).
  pose proof (snd_nxt_range g e t (ti_snd _ _ _ Hi)).
  pose proof (no_mss _ (si_num _ _ (ti_snd _ _ _ Hi))) as Hmss. cbn [snd] in Hmss.
  unfold NotifyClock. apply crash_bind, wp_get. cbn [snd].
  rewrite decide_False by (rewrite Hst1, Hst; done). apply crash_first. unfold clock_retransmit.
  apply crash_bind, wp_get. cbn [snd]. rewrite (proj2 (Z.eqb_neq (m_rto_base t1) 0)) by congruence.
  rewrite (proj2 (Z.leb_le _ 0)) by done. cbn [negb andb]. rewrite Hl1. apply crash_first.
  eapply transmit_behind_data; [exact Hl1|cbn; lia|cbn; lia|by rewrite Hm|].
  cbn [s_seq]. rewrite Hd, Hu, Hseq. unfold wrap32.
  rewrite <- (Z_mod_plus_full (m_snd_una t - a) 1 (2 ^ 32)), Z.mod_small by lia. lia.
Qed.
End PartialAck.


#[local] Existing Instance example_heap.

(** The fault of a call, if any. *)
Definition fault_of (c : call) (s : host * PseudoTcp) : option fault :=
  match perform c s with Ret _ => None | Crash f => Some f end.

(** The server of the example has sent 100 bytes (sequence numbers 4 to 103)
    and the peer acknowledges the first 50 of them. *)
Definition server_sent : host * PseudoTcp :=
  after (CallSend (replicate 100 Byte.x61)) server_data.
Definition half_ack : list byte := encode 7 6 54 0 61440 960 1000 [].
Definition half_segment : Segment := mkSegment 7 6 54 0 61440 [] 0 960 1000.
Definition server_half : host * PseudoTcp := after (CallPacket half_ack) server_sent.

Lemma reach_server_sent : reach client_stream 7 (fst server_sent, snd server_sent).
Proof.
  assert (Hr : reach client_stream 7 server_sent)
    by (apply reach_after; [exact client_ctl|exact client_size|apply reach_data_on|by vm_compute]).
  by destruct server_sent.
Qed.


(** A connect message whose window-scale option is 32. *)
Definition wide_syn : list byte :=
  encode 7 0 0 FLAG_CTL 61440 900 0 [Byte.x00; Byte.x03; Byte.x01; Byte.x20].

(** A connect message may carry any byte as its window scale; from 32 on
    the shift of the advertised window that follows is undefined, and it is
    evaluated on the very same packet. *)
Theorem wide_scale_undefined :
  fault_of (CallPacket wide_syn) server_new = Some UndefinedBehaviour.
Proof. vm_compute. done. Qed.

(** An MTU below the overhead of a packet: the segment size wraps around. *)
Definition server_small_mtu : host * PseudoTcp := after (CallMTU 100) server_data.

(** [NotifyMTU] with less than the 116 bytes of overhead leaves
    a segment size of almost 4 GiB on an established connection. *)
Lemma small_mtu_wraps :
  fault_of (CallMTU 100) server_data = None /\ m_mss (snd server_small_mtu) = 2 ^ 32 - 16.
Proof. vm_compute. done. Qed.
