(* ===== verification/BitBuffer.v ===== *)
(** * network/stun/bit_buffer.{h,cc}: reading and writing bits

    [BitBuffer] and [BitBufferWriter] share the memory and the offset, so one
    record models both.  A reading operation answers [None] where the code
    returns [false].  Fixed widths, Exponential-Golomb codes and the
    non-symmetric codes of AV1. *)

From Stdlib Require Import ZArith Lia.
From S2P Require Import Prelude.
Local Open Scope Z_scope.
Local Open Scope list_scope.

(** ** Bits of a byte *)

Definition LowestBits (b bit_count : Z) : outcome Z :=
  assert_that (bit_count <=? 8);;
  mret (wrap8 (Z.land b (Z.shiftl 1 bit_count - 1))).

Definition HighestBits (b bit_count : Z) : outcome Z :=
  assert_that (bit_count <=? 8);;
  let shift := 8 - bit_count in
  let mask := wrap8 (Z.shiftl 0xFF shift) in
  mret (Z.shiftr (Z.land b mask) shift).

Definition HighestByte (val : Z) : Z := wrap8 (Z.shiftr val 56).

Definition WritePartialByte (source source_bit_count target target_bit_offset : Z) : outcome Z :=
  assert_that (target_bit_offset <? 8);;
  assert_that (source_bit_count <? 9);;
  assert_that (source_bit_count <=? 8 - target_bit_offset);;
  let mask := Z.shiftr (wrap8 (Z.shiftl 0xFF (8 - source_bit_count))) target_bit_offset in
  mret (wrap8 (Z.lor (Z.land target (Z.lnot mask)) (Z.shiftr source target_bit_offset))).

(** 64 rounds are enough for a [uint64_t]. *)
Fixpoint CountBits_loop (fuel : nat) (val bit_count : Z) : outcome Z :=
  if val =? 0 then mret bit_count else
  match fuel with
  | O => Crash FuelExhausted
  | S fuel => CountBits_loop fuel (Z.shiftr val 1) (bit_count + 1)
  end.
Definition CountBits (val : Z) : outcome Z := CountBits_loop 64 val 0.

(** ** The class *)

Record BitBuffer : Type := mkBitBuffer {
  bytes_ : list byte; byte_count_ : Z; byte_offset_ : Z; bit_offset_ : Z
}.

Definition BitBuffer_new (bytes : list byte) (byte_count : Z) : outcome BitBuffer :=
  assert_that (byte_count <=? 2 ^ 32 - 1);;
  mret (mkBitBuffer bytes byte_count 0 0).

Definition RemainingBitCount (b : BitBuffer) : Z := wrap64 ((byte_count_ b - byte_offset_ b) * 8 - bit_offset_ b).

Definition byte_at (b : BitBuffer) (i : Z) : outcome Z :=
  bs ← mem_read (bytes_ b) i 1; mret (byte.unsigned (hd Byte.x00 bs)).

(** The loop over whole bytes: the bits so far, the position, what is left. *)
Fixpoint Peek_loop (fuel : nat) (b : BitBuffer) (bits i bit_count : Z) : outcome (Z * Z * Z) :=
  if bit_count >=? 8 then
    match fuel with
    | O => Crash FuelExhausted
    | S fuel => next ← byte_at b i; Peek_loop fuel b (Z.lor (wrap32 (Z.shiftl bits 8)) next) (i + 1) (bit_count - 8)
    end
  else mret (bits, i, bit_count).

Definition PeekBits (bit_count : Z) (b : BitBuffer) : outcome (option Z) :=
  assert_that (bit_count >? 0);;
  if (bit_count >? RemainingBitCount b) || (bit_count >? 32) then mret None else
  let remaining_bits_in_current_byte := 8 - bit_offset_ b in
  first ← byte_at b (byte_offset_ b);
  bits ← LowestBits first remaining_bits_in_current_byte;
  if bit_count <? remaining_bits_in_current_byte then
    val ← HighestBits bits (bit_offset_ b + bit_count); mret (Some val)
  else
    '(bits, i, bit_count) ← Peek_loop 4 b bits (byte_offset_ b + 1) (bit_count - remaining_bits_in_current_byte);
    if bit_count >? 0 then
      last ← byte_at b i;
      high ← HighestBits last bit_count;
      mret (Some (Z.lor (wrap32 (Z.shiftl bits bit_count)) high))
    else mret (Some bits).

Definition ConsumeBits (bit_count : Z) (b : BitBuffer) : bool * BitBuffer :=
  if bit_count >? RemainingBitCount b then (false, b) else
  (true, mkBitBuffer (bytes_ b) (byte_count_ b) (byte_offset_ b + (bit_offset_ b + bit_count) / 8) ((bit_offset_ b + bit_count) mod 8)).
Definition ConsumeBytes (byte_count : Z) (b : BitBuffer) : bool * BitBuffer := ConsumeBits (wrap64 (byte_count * 8)) b.

Definition ReadBits (bit_count : Z) (b : BitBuffer) : outcome (option Z * BitBuffer) :=
  o ← PeekBits bit_count b;
  match o with
  | None => mret (None, b)
  | Some val => let '(ok, b) := ConsumeBits bit_count b in mret (if ok then Some val else None, b)
  end.

Definition ReadUInt8 (b : BitBuffer) : outcome (option Z * BitBuffer) :=
  '(o, b) ← ReadBits 8 b;
  match o with
  | None => mret (None, b)
  | Some v => assert_that (v <=? 2 ^ 8 - 1);; mret (Some (wrap8 v), b)
  end.
Definition ReadUInt16 (b : BitBuffer) : outcome (option Z * BitBuffer) :=
  '(o, b) ← ReadBits 16 b;
  match o with
  | None => mret (None, b)
  | Some v => assert_that (v <=? 2 ^ 16 - 1);; mret (Some (wrap16 v), b)
  end.
Definition ReadUInt32 (b : BitBuffer) : outcome (option Z * BitBuffer) := ReadBits 32 b.

Definition Seek (byte_offset bit_offset : Z) (b : BitBuffer) : bool * BitBuffer :=
  if (byte_offset >? byte_count_ b) || (bit_offset >? 7) || ((byte_offset =? byte_count_ b) && (bit_offset >? 0))
  then (false, b) else (true, mkBitBuffer (bytes_ b) (byte_count_ b) byte_offset bit_offset).
Definition GetCurrentOffset (b : BitBuffer) : Z * Z := (byte_offset_ b, bit_offset_ b).

(** [uint32_t{1} << n]. *)
Definition one_shl32 (n : Z) : outcome Z := if n <? 32 then mret (Z.shiftl 1 n) else Crash UndefinedBehaviour.

(** [n = countbits(num_values)] and [k = (1 << n) - num_values]. *)
Definition min_bits_values (num_values : Z) : outcome (Z * Z) :=
  count_bits ← CountBits num_values;
  power ← one_shl32 count_bits;
  mret (count_bits, wrap32 (power - num_values)).

Definition ReadNonSymmetric (num_values : Z) (b : BitBuffer) : outcome (option Z * BitBuffer) :=
  assert_that (num_values >? 0);;
  assert_that (num_values <=? 2 ^ 31);;
  if num_values =? 1 then mret (Some 0, b) else
  '(count_bits, num_min_bits_values) ← min_bits_values num_values;
  '(o, b) ← ReadBits (count_bits - 1) b;
  match o with
  | None => mret (None, b)
  | Some val =>
      if val <? num_min_bits_values then mret (Some val, b) else
      '(o, b) ← ReadBits 1 b;
      match o with
      | None => mret (None, b)
      | Some extra_bit => mret (Some (wrap32 (wrap32 (Z.shiftl val 1) + extra_bit - num_min_bits_values)), b)
      end
  end.

(** Counting the zeroes in front, one at a time; every round consumes a bit. *)
Fixpoint zeroes_loop (fuel : nat) (zero_bit_count : Z) (b : BitBuffer) : outcome (Z * BitBuffer) :=
  match fuel with
  | O => Crash FuelExhausted
  | S fuel =>
      o ← PeekBits 1 b;
      match o with
      | Some 0 => zeroes_loop fuel (zero_bit_count + 1) (snd (ConsumeBits 1 b))
      | _ => mret (zero_bit_count, b)
      end
  end.

(** [assert(Seek(...))] moves back. *)
Definition ReadExponentialGolomb (b : BitBuffer) : outcome (option Z * BitBuffer) :=
  let '(original_byte_offset, original_bit_offset) := GetCurrentOffset b in
  '(zero_bit_count, b) ← zeroes_loop (S (Z.to_nat (RemainingBitCount b))) 0 b;
  o ← PeekBits 1 b;
  assert_that (match o with None => true | Some peeked_bit => peeked_bit =? 1 end);;
  let value_bit_count := zero_bit_count + 1 in
  '(o, b) ← (if value_bit_count >? 32 then mret (None, b) else ReadBits value_bit_count b);
  match o with
  | None =>
      let '(ok, b) := Seek original_byte_offset original_bit_offset b in
      assert_that ok;;
      mret (None, b)
  | Some val => mret (Some (wrap32 (val - 1)), b)
  end.

Definition ReadSignedExponentialGolomb (b : BitBuffer) : outcome (option Z * BitBuffer) :=
  '(o, b) ← ReadExponentialGolomb b;
  match o with
  | None => mret (None, b)
  | Some unsigned_val =>
      if Z.land unsigned_val 1 =? 0 then mret (Some (- to_int32 (unsigned_val / 2)), b)
      else mret (Some (to_int32 (wrap32 (unsigned_val + 1) / 2)), b)
  end.

(** ** Writing *)

Definition set_byte (b : BitBuffer) (i v : Z) : outcome BitBuffer :=
  bytes ← mem_write (bytes_ b) i [byte.of_Z v];
  mret (mkBitBuffer bytes (byte_count_ b) (byte_offset_ b) (bit_offset_ b)).

Fixpoint Write_loop (fuel : nat) (b : BitBuffer) (val i bit_count : Z) : outcome (BitBuffer * Z * Z * Z) :=
  if bit_count >=? 8 then
    match fuel with
    | O => Crash FuelExhausted
    | S fuel => b ← set_byte b i (HighestByte val); Write_loop fuel b (wrap64 (Z.shiftl val 8)) (i + 1) (bit_count - 8)
    end
  else mret (b, val, i, bit_count).

(** A shift of a [uint64_t]. *)
Definition shl64 (val n : Z) : outcome Z :=
  if (0 <=? n) && (n <? 64) then mret (wrap64 (Z.shiftl val n)) else Crash UndefinedBehaviour.

Definition WriteBits (val bit_count : Z) (b : BitBuffer) : outcome (bool * BitBuffer) :=
  if bit_count >? RemainingBitCount b then mret (false, b) else
  let total_bits := bit_count in
  val ← shl64 val (64 - bit_count);
  let remaining_bits_in_current_byte := 8 - bit_offset_ b in
  let bits_in_first_byte := Z.min bit_count remaining_bits_in_current_byte in
  old ← byte_at b (byte_offset_ b);
  first ← WritePartialByte (HighestByte val) bits_in_first_byte old (bit_offset_ b);
  b ← set_byte b (byte_offset_ b) first;
  if bit_count <=? remaining_bits_in_current_byte then mret (ConsumeBits total_bits b) else
  val ← shl64 val bits_in_first_byte;
  '(b, val, i, bit_count) ← Write_loop 8 b val (byte_offset_ b + 1) (bit_count - bits_in_first_byte);
  b ← (if bit_count >? 0 then
         old ← byte_at b i;
         last ← WritePartialByte (HighestByte val) bit_count old 0;
         set_byte b i last
       else mret b);
  mret (ConsumeBits total_bits b).

Definition WriteUInt8 (val : Z) (b : BitBuffer) : outcome (bool * BitBuffer) := WriteBits val 8 b.
Definition WriteUInt16 (val : Z) (b : BitBuffer) : outcome (bool * BitBuffer) := WriteBits val 16 b.
Definition WriteUInt32 (val : Z) (b : BitBuffer) : outcome (bool * BitBuffer) := WriteBits val 32 b.

Definition WriteNonSymmetric (val num_values : Z) (b : BitBuffer) : outcome (bool * BitBuffer) :=
  assert_that (val <? num_values);;
  assert_that (num_values <=? 2 ^ 31);;
  if num_values =? 1 then mret (true, b) else
  '(count_bits, num_min_bits_values) ← min_bits_values num_values;
  if val <? num_min_bits_values then WriteBits val (count_bits - 1) b
  else WriteBits (wrap32 (val + num_min_bits_values)) count_bits b.

Definition SizeNonSymmetricBits (val num_values : Z) : outcome Z :=
  assert_that (val <? num_values);;
  assert_that (num_values <=? 2 ^ 31);;
  '(count_bits, num_min_bits_values) ← min_bits_values num_values;
  mret (if val <? num_min_bits_values then count_bits - 1 else count_bits).

Definition WriteExponentialGolomb (val : Z) (b : BitBuffer) : outcome (bool * BitBuffer) :=
  if val =? 2 ^ 32 - 1 then mret (false, b) else
  let val_to_encode := val + 1 in
  n ← CountBits val_to_encode;
  WriteBits val_to_encode (n * 2 - 1) b.

Definition WriteSignedExponentialGolomb (val : Z) (b : BitBuffer) : outcome (bool * BitBuffer) :=
  if val =? 0 then WriteExponentialGolomb 0 b
  else if val >? 0 then WriteExponentialGolomb (wrap32 (wrap32 (val * 2) - 1)) b
  else if val =? - 2 ^ 31 then mret (false, b)
  else WriteExponentialGolomb (wrap32 (- val * 2)) b.

(** ** The bits of a number and of the memory, most significant first *)

Fixpoint tobits (n : nat) (z : Z) : list bool :=
  match n with
  | O => []
  | S n => Z.testbit z (Z.of_nat n) :: tobits n z
  end.
Definition bval (l : list bool) : Z := foldl (fun acc (b : bool) => 2 * acc + Z.b2z b) 0 l.
Definition bits_of (bytes : list byte) : list bool := concat (map (fun b => tobits 8 (byte.unsigned b)) bytes).

(** The offset, in bits. *)
Definition bit_pos (b : BitBuffer) : Z := 8 * byte_offset_ b + bit_offset_ b.
Definition all_bits (b : BitBuffer) : list bool := bits_of (bytes_ b).
Definition unread_bits (b : BitBuffer) : list bool := zdrop (bit_pos b) (all_bits b).
Record bb_ok (b : BitBuffer) : Prop := {
  ok_count : zlen (bytes_ b) = byte_count_ b;
  ok_limit : byte_count_ b < 2 ^ 32;
  ok_byte : 0 <= byte_offset_ b;
  ok_bit : 0 <= bit_offset_ b < 8;
  ok_pos : bit_pos b <= 8 * byte_count_ b
}.
