(* ===== verification/BitCodes.v ===== *)
(** * What a bit buffer stores and reads

    [PeekBits], [ReadBits] and [WriteBits] as operations on the list of the
    bits of the memory, most significant first. *)

From Stdlib Require Import ZArith Lia.
From S2P Require Import Prelude ByteOrder BitBuffer.
Local Open Scope Z_scope.
Local Open Scope list_scope.

(** ** Numbers and their bits *)

Lemma length_tobits n z : length (tobits n z) = n.
Proof. induction n as [|n IH]; [done|]. cbn. by rewrite IH. Qed.
Lemma zlen_tobits n z : zlen (tobits n z) = Z.of_nat n.
Proof. unfold zlen. by rewrite length_tobits. Qed.

Lemma tobits_ext n z z' : (forall i, 0 <= i < Z.of_nat n -> Z.testbit z i = Z.testbit z' i) -> tobits n z = tobits n z'.
Proof.
  induction n as [|n IH]; intros Hz; [done|]. cbn [tobits]. rewrite Hz by lia. f_equal. apply IH. intros i Hi. apply Hz. lia.
Qed.

Lemma tobits_app n k z : tobits (n + k) z = tobits n (Z.shiftr z (Z.of_nat k)) ++ tobits k z.
Proof.
  induction n as [|n IH]; [done|]. cbn [Nat.add tobits app]. rewrite IH. f_equal.
  rewrite Z.shiftr_spec by lia. f_equal. lia.
Qed.

Lemma bval_acc l a : foldl (fun acc (b : bool) => 2 * acc + Z.b2z b) a l = a * 2 ^ zlen l + bval l.
Proof.
  unfold bval. revert a. induction l as [|b l IH]; intros a; cbn [foldl]; [rewrite zlen_nil; lia|].
  rewrite IH, (IH (2 * 0 + Z.b2z b)), zlen_cons, Z.pow_add_r by (lia || apply zlen_nonneg). lia.
Qed.
Lemma bval_app l k : bval (l ++ k) = bval l * 2 ^ zlen k + bval k.
Proof. unfold bval at 1. rewrite foldl_app. apply bval_acc. Qed.
Lemma bval_cons b l : bval (b :: l) = Z.b2z b * 2 ^ zlen l + bval l.
Proof. change (b :: l) with ([b] ++ l). rewrite bval_app. unfold bval at 1. cbn [foldl]. lia. Qed.

Lemma bval_range l : 0 <= bval l < 2 ^ zlen l.
Proof.
  induction l as [|b l IH]; [done|]. rewrite bval_cons, zlen_cons, Z.pow_add_r by (lia || apply zlen_nonneg).
  destruct b; cbn [Z.b2z]; lia.
Qed.

Lemma bval_tobits n z : bval (tobits n z) = z mod 2 ^ Z.of_nat n.
Proof.
  induction n as [|n IH]; [cbn; by rewrite Z.mod_1_r|]. cbn [tobits]. rewrite bval_cons, IH, zlen_tobits.
  rewrite Nat2Z.inj_succ, Z.pow_succ_r, (Z.mul_comm 2) by lia. rewrite Z.rem_mul_r by lia.
  rewrite <- (Z.testbit_spec' z) by lia. lia.
Qed.
Lemma bval_tobits_small n z : 0 <= z < 2 ^ Z.of_nat n -> bval (tobits n z) = z.
Proof. intros Hz. rewrite bval_tobits. by apply Z.mod_small. Qed.

Lemma bits_of_app l k : bits_of (l ++ k) = bits_of l ++ bits_of k.
Proof. unfold bits_of. by rewrite map_app, concat_app. Qed.
Lemma bits_of_cons b l : bits_of (b :: l) = tobits 8 (byte.unsigned b) ++ bits_of l.
Proof. done. Qed.
Lemma zlen_bits_of l : zlen (bits_of l) = 8 * zlen l.
Proof. induction l as [|b l IH]; [done|]. rewrite bits_of_cons, zlen_app, zlen_tobits, zlen_cons, IH. lia. Qed.

(** A byte in the middle of the memory. *)
Lemma byte_split_at (l : list byte) i : 0 <= i < zlen l -> exists pre b post, l = pre ++ b :: post /\ zlen pre = i.
Proof.
  intros Hi. exists (ztake i l). destruct (zdrop i l) as [|b post] eqn:E.
  - pose proof (zlen_zdrop i l ltac:(lia)) as Hd. rewrite E, zlen_nil in Hd. lia.
  - exists b, post. rewrite <- E, ztake_zdrop. split; [done|apply zlen_ztake; lia].
Qed.

Lemma byte_at_mid b pre x post i : bytes_ b = pre ++ x :: post -> zlen pre = i -> byte_at b i = Ret (byte.unsigned x).
Proof.
  intros E <-. unfold byte_at. rewrite (mem_read_mid _ pre [x] post) by done. done.
Qed.
Lemma set_byte_mid b pre x post i v : bytes_ b = pre ++ x :: post -> zlen pre = i ->
  set_byte b i v = Ret (mkBitBuffer (pre ++ byte.of_Z v :: post) (byte_count_ b) (byte_offset_ b) (bit_offset_ b)).
Proof.
  intros E <-. unfold set_byte. rewrite E. pose proof (zlen_nonneg pre). pose proof (zlen_nonneg post).
  rewrite mem_write_ok by (rewrite ?zlen_app, ?zlen_cons, ?zlen_nil; lia). cbn [mbind outcome_bind].
  unfold splice. change (zlen [byte.of_Z v]) with 1. rewrite ztake_app.
  replace (zlen pre + 1) with (zlen (pre ++ [x])) by (rewrite zlen_app; reflexivity).
  replace (pre ++ x :: post) with ((pre ++ [x]) ++ post) by by rewrite <- app_assoc. by rewrite zdrop_app.
Qed.

(** ** The helpers on bytes *)

Definition byte_values : list Z := seqZ 0 256.
Lemma all_below (P : Z -> bool) n : forallb P (seqZ 0 n) = true -> forall v, 0 <= v < n -> P v = true.
Proof.
  intros Hall v Hv. rewrite forallb_forall in Hall. apply Hall, list_elem_of_In, elem_of_seqZ. lia.
Qed.
Lemma all_bytes (P : Z -> bool) : forallb P byte_values = true -> forall v, 0 <= v < 256 -> P v = true.
Proof. apply all_below. Qed.

Lemma LowestBits_ok v o : 0 <= v < 256 -> 0 <= o < 8 -> LowestBits v (8 - o) = Ret (bval (zdrop o (tobits 8 v))).
Proof.
  intros Hv Ho.
  assert (Hc : forallb (fun v => forallb (fun o => bool_decide (LowestBits v (8 - o) = Ret (bval (zdrop o (tobits 8 v))))) (seqZ 0 8)) byte_values = true)
    by (vm_compute; reflexivity).
  pose proof (all_bytes _ Hc v Hv) as Hb. eapply bool_decide_eq_true, (all_below _ _ Hb). lia.
Qed.
Lemma HighestBits_ok v n : 0 <= v < 256 -> 0 <= n <= 8 -> HighestBits v n = Ret (bval (ztake n (tobits 8 v))).
Proof.
  intros Hv Hn.
  assert (Hc : forallb (fun v => forallb (fun n => bool_decide (HighestBits v n = Ret (bval (ztake n (tobits 8 v))))) (seqZ 0 9)) byte_values = true)
    by (vm_compute; reflexivity).
  pose proof (all_bytes _ Hc v Hv) as Hb. eapply bool_decide_eq_true, (all_below _ _ Hb). lia.
Qed.

(** The low bits of a byte have zeroes in front. *)
Lemma low_part v o : 0 <= v < 256 -> 0 <= o < 8 ->
  tobits 8 (bval (zdrop o (tobits 8 v))) = replicate (Z.to_nat o) false ++ zdrop o (tobits 8 v).
Proof.
  intros Hv Ho.
  assert (Hc : forallb (fun v => forallb (fun o => bool_decide (tobits 8 (bval (zdrop o (tobits 8 v))) =
    replicate (Z.to_nat o) false ++ zdrop o (tobits 8 v))) (seqZ 0 8)) byte_values = true) by (vm_compute; reflexivity).
  pose proof (all_bytes _ Hc v Hv) as Hb. eapply bool_decide_eq_true, (all_below _ _ Hb). lia.
Qed.

(** ** Reading *)

Lemma push_bits acc l n : zlen l = n -> zlen acc + n <= 32 ->
  Z.lor (wrap32 (Z.shiftl (bval acc) n)) (bval l) = bval (acc ++ l).
Proof.
  intros <- Hl. pose proof (bval_range acc) as Ha. pose proof (bval_range l) as Hb. pose proof (zlen_nonneg acc). pose proof (zlen_nonneg l).
  assert (Hs : bval acc * 2 ^ zlen l < 2 ^ 32).
  { apply Z.lt_le_trans with (2 ^ zlen acc * 2 ^ zlen l); [nia|]. rewrite <- Z.pow_add_r by lia. apply Z.pow_le_mono_r; lia. }
  rewrite Z.shiftl_mul_pow2, wrap32_small by nia. rewrite <- Z.shiftl_mul_pow2, Z.lor_comm, lor_shiftl_add by lia.
  rewrite bval_app. lia.
Qed.

Lemma byte_range x : 0 <= byte.unsigned x < 256.
Proof. apply byte.unsigned_range. Qed.

Lemma byte_bits_value x : bval (tobits 8 (byte.unsigned x)) = byte.unsigned x.
Proof. apply bval_tobits_small, byte_range. Qed.

(** The front of the bits of a memory. *)
Lemma ztake_bits_cons n x post : 8 <= n -> ztake n (bits_of (x :: post)) = tobits 8 (byte.unsigned x) ++ ztake (n - 8) (bits_of post).
Proof.
  intros Hn. rewrite bits_of_cons. unfold ztake. rewrite take_app, length_tobits, take_ge by (rewrite length_tobits; lia).
  do 2 f_equal. lia.
Qed.
Lemma ztake_bits_short n x post : n <= 8 -> ztake n (bits_of (x :: post)) = ztake n (tobits 8 (byte.unsigned x)).
Proof. intros Hn. rewrite bits_of_cons. apply ztake_app_le. rewrite zlen_tobits. lia. Qed.

Lemma Peek_loop_ok fuel b acc pre post k :
  bytes_ b = pre ++ post -> 0 <= k <= 8 * zlen post -> k < 8 * (Z.of_nat fuel + 1) -> zlen acc + k <= 32 ->
  Peek_loop fuel b (bval acc) (zlen pre) k =
    Ret (bval (acc ++ ztake (8 * (k / 8)) (bits_of post)), zlen pre + k / 8, k mod 8).
Proof.
  revert acc pre post k. induction fuel as [|fuel IH]; intros acc pre post k Hb Hk Hf Ha; cbn [Peek_loop]; rewrite Z.geb_leb;
    destruct (Z.leb_spec 8 k); try lia.
  - rewrite Z.div_small, Z.mod_small, app_nil_r, Z.add_0_r by lia. done.
  - destruct post as [|x post]; [unfold zlen in Hk; cbn [length] in Hk; lia|]. rewrite zlen_cons in Hk.
    rewrite (byte_at_mid b pre x post) by done. cbn [mbind outcome_bind].
    pose proof (push_bits acc (tobits 8 (byte.unsigned x)) 8 (zlen_tobits 8 _) ltac:(lia)) as Hpush.
    rewrite byte_bits_value in Hpush. rewrite Hpush.
    replace (zlen pre + 1) with (zlen (pre ++ [x])) by (rewrite zlen_app; reflexivity).
    rewrite (IH _ (pre ++ [x]) post) by (rewrite <- ?app_assoc, ?zlen_app, ?zlen_tobits; cbn; done || lia).
    assert (Ed : (k - 8) / 8 = k / 8 - 1) by (Z.div_mod_to_equations; lia).
    assert (Em : (k - 8) mod 8 = k mod 8) by (Z.div_mod_to_equations; lia).
    rewrite Em, Ed, ztake_bits_cons by (Z.div_mod_to_equations; lia). rewrite <- app_assoc, zlen_app.
    change (zlen [x]) with 1. do 3 f_equal; [|lia]. do 4 f_equal. lia.
  - rewrite Z.div_small, Z.mod_small, app_nil_r, Z.add_0_r by lia. done.
Qed.

Section Ok.
Context {b : BitBuffer} (Hb : bb_ok b).

Lemma zlen_unread : zlen (unread_bits b) = 8 * byte_count_ b - bit_pos b.
Proof.
  destruct Hb. unfold unread_bits, all_bits. unfold bit_pos in *. rewrite zlen_zdrop; rewrite zlen_bits_of, ok_count; lia.
Qed.
Lemma Remaining_ok : RemainingBitCount b = zlen (unread_bits b).
Proof.
  rewrite zlen_unread. destruct Hb. unfold RemainingBitCount, bit_pos in *. rewrite wrap64_small by lia. lia.
Qed.

(** The byte of the offset, when a bit is left. *)
Lemma current_byte : 0 < zlen (unread_bits b) -> exists pre x post,
  bytes_ b = pre ++ x :: post /\ zlen pre = byte_offset_ b /\
  unread_bits b = zdrop (bit_offset_ b) (tobits 8 (byte.unsigned x)) ++ bits_of post.
Proof.
  rewrite zlen_unread. destruct Hb. unfold bit_pos in *. intros Hl.
  destruct (byte_split_at (bytes_ b) (byte_offset_ b)) as (pre & x & post & E & Hp); [lia|]. exists pre, x, post.
  split; [done|]. split; [done|]. unfold unread_bits, all_bits, bit_pos. rewrite E, bits_of_app, bits_of_cons.
  rewrite <- Hp. rewrite <- zdrop_zdrop by lia. rewrite <- zlen_bits_of, zdrop_app.
  unfold zdrop. rewrite drop_app_le; [done|]. rewrite length_tobits. lia.
Qed.

Lemma PeekBits_ok c : 0 < c <= 32 -> PeekBits c b =
  Ret (if c <=? zlen (unread_bits b) then Some (bval (ztake c (unread_bits b))) else None).
Proof.
  intros Hc. unfold PeekBits. rewrite (Z.gtb_ltb c 0), (proj2 (Z.ltb_lt 0 c)) by lia. cbn [assert_that mbind outcome_bind].
  rewrite Remaining_ok, !Z.gtb_ltb, (proj2 (Z.ltb_ge 32 c)), orb_false_r by lia.
  destruct (Z.leb_spec c (zlen (unread_bits b))) as [Hle|Hgt]; [|by rewrite (proj2 (Z.ltb_lt (zlen (unread_bits b)) c)) by lia].
  rewrite (proj2 (Z.ltb_ge (zlen (unread_bits b)) c)) by lia. destruct current_byte as (pre & x & post & E & Hp & Hu); [lia|].
  pose proof (byte_range x) as Hx. pose proof (ok_bit _ Hb) as Ho. set (o := bit_offset_ b) in *.
  rewrite (byte_at_mid b pre x post) by done. cbn [mbind outcome_bind]. rewrite LowestBits_ok by done. cbn [mbind outcome_bind].
  set (low := zdrop o (tobits 8 (byte.unsigned x))) in *.
  assert (Hlow : zlen low = 8 - o) by (unfold low; rewrite zlen_zdrop; rewrite zlen_tobits; lia).
  rewrite Hu, zlen_app, Hlow, zlen_bits_of in Hle. destruct (Z.ltb_spec c (8 - o)) as [Hs|Hs].
  - pose proof (bval_range low) as Hr. rewrite Hlow in Hr. assert (2 ^ (8 - o) <= 2 ^ 8) by (apply Z.pow_le_mono_r; lia).
    rewrite HighestBits_ok by lia. cbn [mbind outcome_bind]. do 2 f_equal. unfold low at 1. rewrite low_part by done. fold low.
    rewrite Hu, (ztake_app_le c low) by lia. unfold ztake. rewrite take_app, length_replicate, take_ge by (rewrite length_replicate; lia).
    replace (Z.to_nat (o + c) - Z.to_nat o)%nat with (Z.to_nat c) by lia. rewrite bval_app.
    assert (Hz : forall n, bval (replicate n false) = 0) by (induction n as [|n IH]; [done|cbn [replicate]; rewrite bval_cons, IH; cbn; lia]).
    rewrite Hz. lia.
  - set (k := c - (8 - o)). assert (Hk : k = c - (8 - o)) by done. replace (byte_offset_ b + 1) with (zlen (pre ++ [x])) by (rewrite zlen_app; change (zlen [x]) with 1; lia).
    rewrite (Peek_loop_ok 4 b low (pre ++ [x]) post k); [|by rewrite <- app_assoc|lia|lia|lia]. cbn [mbind outcome_bind].
    rewrite Hu. assert (Hfin : forall l : list bool, ztake c (low ++ l) = low ++ ztake k l).
    { intros l. unfold ztake, k. rewrite take_app. unfold zlen in Hlow. rewrite take_ge by lia. do 2 f_equal. lia. }
    rewrite Hfin. rewrite Z.gtb_ltb. assert (Hdm : k = 8 * (k / 8) + k mod 8) by (apply Z.div_mod; lia).
    pose proof (Z.mod_pos_bound k 8 ltac:(lia)). destruct (Z.ltb_spec 0 (k mod 8)) as [Hr|Hr].
    + destruct (byte_split_at post (k / 8)) as (pre2 & y & post2 & E2 & Hp2); [Z.div_mod_to_equations; lia|].
      rewrite (byte_at_mid b ((pre ++ [x]) ++ pre2) y post2); [|rewrite E, E2; by rewrite <- !app_assoc|rewrite zlen_app, Hp2; lia].
      cbn [mbind outcome_bind]. rewrite HighestBits_ok by (apply byte_range || lia). cbn [mbind outcome_bind].
      set (fin := ztake (k mod 8) (tobits 8 (byte.unsigned y))).
      assert (Hzf : zlen fin = k mod 8) by (apply zlen_ztake; rewrite zlen_tobits; lia).
      rewrite (push_bits _ fin (k mod 8) Hzf).
      * do 2 f_equal. rewrite <- app_assoc. f_equal. rewrite E2, bits_of_app, bits_of_cons.
        assert (H8 : zlen (bits_of pre2) = 8 * (k / 8)) by (rewrite zlen_bits_of, Hp2; lia).
        rewrite <- H8, ztake_app. unfold ztake. rewrite take_app. unfold zlen in H8. rewrite take_ge by lia. f_equal.
        rewrite take_app_le by (rewrite length_tobits; lia). unfold fin, ztake. do 2 f_equal. lia.
      * rewrite zlen_app, zlen_ztake by (rewrite zlen_bits_of; Z.div_mod_to_equations; lia). lia.
    + by replace (8 * (k / 8)) with k by lia.
Qed.
End Ok.

(** ** Moving *)

Definition advance (c : Z) (b : BitBuffer) : BitBuffer :=
  mkBitBuffer (bytes_ b) (byte_count_ b) (byte_offset_ b + (bit_offset_ b + c) / 8) ((bit_offset_ b + c) mod 8).

Lemma advance_pos c b : bit_pos (advance c b) = bit_pos b + c.
Proof. unfold bit_pos. cbn [byte_offset_ bit_offset_ advance]. Z.div_mod_to_equations; lia. Qed.
Lemma advance_bits_ok c b : bb_ok b -> 0 <= c <= zlen (unread_bits b) -> bb_ok (advance c b).
Proof.
  intros Hb Hc. rewrite zlen_unread in Hc by done. destruct Hb. split; cbn [bytes_ byte_count_ byte_offset_ bit_offset_ advance]; try done.
  - Z.div_mod_to_equations; lia.
  - apply Z.mod_pos_bound. lia.
  - rewrite advance_pos. lia.
Qed.
Lemma advance_unread c b : bb_ok b -> 0 <= c -> unread_bits (advance c b) = zdrop c (unread_bits b).
Proof.
  intros [] Hc. unfold unread_bits. rewrite advance_pos. unfold bit_pos in *. rewrite zdrop_zdrop by lia. done.
Qed.
Lemma ConsumeBits_ok c b : bb_ok b ->
  ConsumeBits c b = if c <=? zlen (unread_bits b) then (true, advance c b) else (false, b).
Proof.
  intros Hb. unfold ConsumeBits. rewrite Remaining_ok, Z.gtb_ltb by done. destruct (Z.leb_spec c (zlen (unread_bits b))).
  - by rewrite (proj2 (Z.ltb_ge _ _)) by lia.
  - by rewrite (proj2 (Z.ltb_lt _ _)) by lia.
Qed.
Lemma ReadBits_ok c b : bb_ok b -> 0 < c <= 32 -> ReadBits c b =
  Ret (if c <=? zlen (unread_bits b) then (Some (bval (ztake c (unread_bits b))), advance c b) else (None, b)).
Proof.
  intros Hb Hc. unfold ReadBits. rewrite PeekBits_ok by done. cbn [mbind outcome_bind].
  destruct (c <=? zlen (unread_bits b)) eqn:E; [|done]. rewrite ConsumeBits_ok, E by done. done.
Qed.

(** ** Writing *)

Lemma tobits_lor n x y : tobits n (Z.lor x y) = zip_with orb (tobits n x) (tobits n y).
Proof. induction n as [|n IH]; [done|]. cbn [tobits zip_with]. by rewrite Z.lor_spec, IH. Qed.
Lemma tobits_mod n z m : Z.of_nat n <= m -> tobits n (z mod 2 ^ m) = tobits n z.
Proof. intros Hn. apply tobits_ext. intros i Hi. apply Z.mod_pow2_bits_low. lia. Qed.

Definition no_bits (n : Z) : list bool := replicate (Z.to_nat n) false.
Lemma zlen_no_bits n : 0 <= n -> zlen (no_bits n) = n.
Proof. intros Hn. unfold no_bits, zlen. rewrite length_replicate. lia. Qed.
Lemma orb_no_bits l n : zlen l = n -> zip_with orb l (no_bits n) = l /\ zip_with orb (no_bits n) l = l.
Proof.
  intros <-. unfold no_bits, zlen. rewrite Nat2Z.id. induction l as [|x l [H1 H2]]; [done|].
  cbn [length replicate zip_with]. rewrite H1, H2. by destruct x.
Qed.

(** The three parts of the byte, checked for every byte, offset and number of bits. *)
Lemma masked_parts g o n : 0 <= g < 256 -> 0 <= o < 8 -> 0 <= n < 9 -> o + n <= 8 ->
  tobits 8 (Z.land g (Z.lnot (Z.shiftr (wrap8 (Z.shiftl 0xFF (8 - n))) o))) =
    ztake o (tobits 8 g) ++ no_bits n ++ zdrop (o + n) (tobits 8 g).
Proof.
  intros Hg Ho Hn Hon.
  assert (Hc : forallb (fun g => forallb (fun o => forallb (fun n => (8 <? o + n) ||
    bool_decide (tobits 8 (Z.land g (Z.lnot (Z.shiftr (wrap8 (Z.shiftl 0xFF (8 - n))) o))) =
      ztake o (tobits 8 g) ++ no_bits n ++ zdrop (o + n) (tobits 8 g))) (seqZ 0 9)) (seqZ 0 8)) byte_values = true)
    by (vm_compute; reflexivity).
  pose proof (all_bytes _ Hc g Hg) as Hb. pose proof (all_below _ _ (all_below _ _ Hb o Ho) n Hn) as Hcase. clear Hb. cbn beta in Hcase.
  rewrite (proj2 (Z.ltb_ge 8 (o + n))) in Hcase by lia. by apply bool_decide_eq_true in Hcase.
Qed.
Lemma shifted_part s o : 0 <= s < 256 -> 0 <= o < 8 -> tobits 8 (Z.shiftr s o) = no_bits o ++ ztake (8 - o) (tobits 8 s).
Proof.
  intros Hs Ho.
  assert (Hc : forallb (fun s => forallb (fun o => bool_decide (tobits 8 (Z.shiftr s o) = no_bits o ++ ztake (8 - o) (tobits 8 s)))
    (seqZ 0 8)) byte_values = true) by (vm_compute; reflexivity).
  pose proof (all_bytes _ Hc s Hs) as Hb. eapply bool_decide_eq_true, (all_below _ _ Hb). lia.
Qed.

(** The bits of the source that are not wanted fall off or are zero. *)
Lemma WritePartialByte_ok s n g o : 0 <= s < 256 -> 0 <= g < 256 -> 0 < n -> 0 <= o -> o + n <= 8 ->
  ztake (8 - o) (tobits 8 s) = ztake n (tobits 8 s) ++ no_bits (8 - o - n) ->
  exists v, WritePartialByte s n g o = Ret v /\ 0 <= v < 256 /\
    tobits 8 v = ztake o (tobits 8 g) ++ ztake n (tobits 8 s) ++ zdrop (o + n) (tobits 8 g).
Proof.
  intros Hs Hg Hn Ho Hon Hz. unfold WritePartialByte.
  rewrite (proj2 (Z.ltb_lt o 8)), (proj2 (Z.ltb_lt n 9)), (proj2 (Z.leb_le n (8 - o))) by lia. cbn [assert_that mbind outcome_bind].
  eexists. split; [reflexivity|]. split; [apply Z.mod_pos_bound; lia|].
  unfold wrap8 at 1. rewrite tobits_mod, tobits_lor, masked_parts, shifted_part, Hz by lia.
  assert (Hg8 : zlen (tobits 8 g) = 8) by apply zlen_tobits. assert (Hs8 : zlen (tobits 8 s) = 8) by apply zlen_tobits.
  assert (L1 : zlen (ztake o (tobits 8 g)) = o) by (apply zlen_ztake; lia).
  assert (L2 : zlen (ztake n (tobits 8 s)) = n) by (apply zlen_ztake; lia).
  assert (L3 : zlen (zdrop (o + n) (tobits 8 g)) = 8 - o - n) by (rewrite zlen_zdrop by lia; lia).
  assert (Hlen : forall (l k : list bool), zlen l = zlen k -> length l = length k) by (unfold zlen; lia).
  rewrite zip_with_app by (apply Hlen; rewrite zlen_no_bits by lia; lia).
  rewrite zip_with_app by (apply Hlen; rewrite zlen_no_bits by lia; lia).
  by rewrite (proj1 (orb_no_bits _ _ L1)), (proj2 (orb_no_bits _ _ L2)), (proj1 (orb_no_bits _ _ L3)).
Qed.

(** The bits [w] that are still to be written, in the highest bits. *)
Record aligned (v : Z) (w : list bool) : Prop := {
  aligned_range : 0 <= v < 2 ^ 64;
  aligned_size : zlen w <= 64;
  aligned_bits : tobits 64 v = w ++ no_bits (64 - zlen w)
}.

Lemma tobits_none n z : (forall i, 0 <= i < Z.of_nat n -> Z.testbit z i = false) -> tobits n z = replicate n false.
Proof.
  induction n as [|n IH]; intros Hz; [done|]. cbn [tobits replicate]. rewrite Hz by lia. f_equal. apply IH. intros i Hi. apply Hz. lia.
Qed.
Lemma tobits_shiftl (j k : nat) z : tobits (j + k) (Z.shiftl z (Z.of_nat k)) = tobits j z ++ replicate k false.
Proof.
  rewrite tobits_app, Z.shiftr_shiftl_l, Z.sub_diag, Z.shiftl_0_r by lia. f_equal. apply tobits_none.
  intros i Hi. apply Z.shiftl_spec_low. lia.
Qed.
Lemma tobits_tail (j k : nat) z : zdrop (Z.of_nat k) (tobits (k + j) z) = tobits j z.
Proof. rewrite tobits_app, <- (zlen_tobits k (Z.shiftr z (Z.of_nat j))). apply zdrop_app. Qed.

Lemma no_bits_app n m : 0 <= n -> 0 <= m -> no_bits n ++ no_bits m = no_bits (n + m).
Proof. intros Hn Hm. unfold no_bits. rewrite <- replicate_add. f_equal. lia. Qed.

(** [val <<= 64 - bit_count]. *)
Lemma aligned_start val c : 0 < c <= 64 -> aligned (wrap64 (Z.shiftl val (64 - c))) (tobits (Z.to_nat c) val).
Proof.
  intros Hc. assert (Hl : zlen (tobits (Z.to_nat c) val) = c) by (rewrite zlen_tobits; lia).
  split; [apply wrap64_range|lia|]. rewrite Hl. unfold wrap64. rewrite tobits_mod by lia.
  replace 64%nat with (Z.to_nat c + Z.to_nat (64 - c))%nat at 1 by lia.
  replace (64 - c) with (Z.of_nat (Z.to_nat (64 - c))) at 2 by lia. apply tobits_shiftl.
Qed.

Lemma aligned_shift v w n : aligned v w -> 0 <= n <= zlen w -> n < 64 -> aligned (wrap64 (Z.shiftl v n)) (zdrop n w).
Proof.
  intros [Hr Hs Hb] Hn Hn'. assert (Hl : zlen (zdrop n w) = zlen w - n) by (apply zlen_zdrop; lia).
  split; [apply wrap64_range|lia|]. rewrite Hl. unfold wrap64. rewrite tobits_mod by lia.
  pose proof (tobits_shiftl (Z.to_nat (64 - n)) (Z.to_nat n) v) as E. rewrite Z2Nat.id in E by lia.
  replace (Z.to_nat (64 - n) + Z.to_nat n)%nat with 64%nat in E by lia. rewrite E, <- (tobits_tail _ (Z.to_nat n)).
  replace (Z.to_nat n + Z.to_nat (64 - n))%nat with 64%nat by lia. rewrite Hb, Z2Nat.id by lia.
  unfold zdrop at 1. rewrite drop_app_le by (unfold zlen in Hn; lia). rewrite <- app_assoc. f_equal.
  change (replicate (Z.to_nat n) false) with (no_bits n). rewrite no_bits_app by lia. f_equal. lia.
Qed.

Lemma aligned_byte v w : aligned v w -> 0 <= HighestByte v < 256 /\
  tobits 8 (HighestByte v) = ztake 8 (w ++ no_bits (64 - zlen w)).
Proof.
  intros [Hr Hs Hb]. split; [apply Z.mod_pos_bound; lia|]. unfold HighestByte, wrap8. rewrite tobits_mod by lia. rewrite <- Hb.
  change 64%nat with (8 + 56)%nat. rewrite tobits_app. change (Z.of_nat 56) with 56.
  set (t := tobits 8 (Z.shiftr v 56)). assert (Ht : zlen t = 8) by apply zlen_tobits. rewrite <- Ht. by rewrite ztake_app.
Qed.

Lemma unsigned_of_Z_small v : 0 <= v < 256 -> byte.unsigned (byte.of_Z v) = v.
Proof. intros Hv. rewrite byte.unsigned_of_Z. apply Z.mod_small. done. Qed.

(** A whole byte of them. *)
Lemma aligned_whole v w : aligned v w -> 8 <= zlen w -> bits_of [byte.of_Z (HighestByte v)] = ztake 8 w.
Proof.
  intros Hv Hw. destruct (aligned_byte v w Hv) as [Hr Hb]. unfold bits_of. cbn [map concat]. rewrite app_nil_r.
  rewrite unsigned_of_Z_small, Hb by done. apply ztake_app_le. lia.
Qed.

Lemma Write_loop_ok fuel b v w pre post : bytes_ b = pre ++ post -> aligned v w -> zlen w <= 8 * zlen post ->
  zlen w < 8 * (Z.of_nat fuel + 1) ->
  exists v' new, let q := zlen w / 8 in
    Write_loop fuel b v (zlen pre) (zlen w) =
      Ret (mkBitBuffer (pre ++ new ++ zdrop q post) (byte_count_ b) (byte_offset_ b) (bit_offset_ b), v', zlen pre + q, zlen w mod 8) /\
    zlen new = q /\ bits_of new = ztake (8 * q) w /\ aligned v' (zdrop (8 * q) w).
Proof.
  revert b v w pre post. induction fuel as [|fuel IH]; intros b v w pre post Hb Hv Hw Hf; cbn [Write_loop]; rewrite Z.geb_leb;
    destruct (Z.leb_spec 8 (zlen w)); try lia.
  1,3: exists v, []; cbv zeta; pose proof (zlen_nonneg w); rewrite Z.div_small, Z.mod_small, zdrop_0, zdrop_0, Z.add_0_r by lia;
    cbn [app]; split; [destruct b; cbn in *; by subst|done].
  destruct post as [|x post]; [unfold zlen at 2 in Hw; cbn [length] in Hw; lia|]. rewrite zlen_cons in Hw.
  rewrite (set_byte_mid b pre x post) by done. cbn [mbind outcome_bind]. set (y := byte.of_Z (HighestByte v)).
  assert (Hw8 : zlen (zdrop 8 w) = zlen w - 8) by (apply zlen_zdrop; lia).
  replace (zlen pre + 1) with (zlen (pre ++ [y])) by (rewrite zlen_app; reflexivity). rewrite <- Hw8.
  destruct (IH (mkBitBuffer (pre ++ y :: post) (byte_count_ b) (byte_offset_ b) (bit_offset_ b)) (wrap64 (Z.shiftl v 8)) (zdrop 8 w)
    (pre ++ [y]) post) as (v' & new & E & Hl & Hbits & Ha); [by rewrite <- app_assoc|by apply aligned_shift|lia|lia|].
  cbv zeta in *. rewrite E. exists v', (y :: new). rewrite Hw8 in *. clear E.
  assert (Ed : (zlen w - 8) / 8 = zlen w / 8 - 1) by (Z.div_mod_to_equations; lia).
  assert (Em : (zlen w - 8) mod 8 = zlen w mod 8) by (Z.div_mod_to_equations; lia). rewrite Ed, Em in *.
  assert (Hq : 1 <= zlen w / 8) by (Z.div_mod_to_equations; lia). cbn [byte_count_ byte_offset_ bit_offset_].
  split; [|split; [|split]].
  - rewrite <- app_assoc. cbn [app]. rewrite zlen_app. change (zlen [y]) with 1.
    assert (Ei : zlen pre + 1 + (zlen w / 8 - 1) = zlen pre + zlen w / 8) by lia. rewrite Ei.
    assert (Ez : zdrop (zlen w / 8) (x :: post) = zdrop (zlen w / 8 - 1) post).
    { unfold zdrop. by replace (Z.to_nat (zlen w / 8)) with (S (Z.to_nat (zlen w / 8 - 1))) by lia. }
    rewrite Ez. done.
  - rewrite zlen_cons. lia.
  - change (y :: new) with ([y] ++ new). rewrite bits_of_app, Hbits. unfold y. rewrite (aligned_whole v w) by (done || lia).
    unfold ztake, zdrop. rewrite take_take_drop. f_equal. lia.
  - rewrite zdrop_zdrop in Ha by lia. by replace (8 * (zlen w / 8)) with (8 + 8 * (zlen w / 8 - 1)) by lia.
Qed.

(** [b'] is [b] with the bits at the offset replaced by [w], and the offset
    behind them. *)
Record wrote_bits (b : BitBuffer) (w : list bool) (b' : BitBuffer) : Prop := {
  wrote_ok : bb_ok b';
  wrote_count : byte_count_ b' = byte_count_ b;
  wrote_pos : bit_pos b' = bit_pos b + zlen w;
  wrote_all : exists front old back, all_bits b = front ++ old ++ back /\ zlen front = bit_pos b /\ zlen old = zlen w /\
    all_bits b' = front ++ w ++ back
}.

(** The end of [WriteBits]: the memory is replaced and the bits consumed. *)
Lemma finish_write b w bytes front old back : bb_ok b -> zlen w <= zlen (unread_bits b) -> zlen bytes = zlen (bytes_ b) ->
  all_bits b = front ++ old ++ back -> zlen front = bit_pos b -> zlen old = zlen w -> bits_of bytes = front ++ w ++ back ->
  exists b', ConsumeBits (zlen w) (mkBitBuffer bytes (byte_count_ b) (byte_offset_ b) (bit_offset_ b)) = (true, b') /\ wrote_bits b w b'.
Proof.
  intros Hb Hw Hl Hall Hf Ho Hbits. set (b1 := mkBitBuffer _ _ _ _).
  assert (Hb1 : bb_ok b1) by (destruct Hb; split; cbn; (done || lia)).
  assert (Hu : zlen (unread_bits b1) = zlen (unread_bits b)) by (rewrite !zlen_unread by done; done).
  pose proof (zlen_nonneg w). exists (advance (zlen w) b1). rewrite ConsumeBits_ok, Hu, (proj2 (Z.leb_le _ _)) by (done || lia).
  split; [done|]. split; [apply advance_bits_ok; [done|lia]|done|exact (advance_pos (zlen w) b1)|]. by exists front, old, back.
Qed.

Lemma aligned_piece v w n : aligned v w -> 0 <= n <= 8 -> n <= zlen w -> ztake n (tobits 8 (HighestByte v)) = ztake n w.
Proof.
  intros Hv Hn Hw. destruct (aligned_byte v w Hv) as [_ ->]. unfold ztake. rewrite take_take.
  replace (Z.to_nat n `min` Z.to_nat 8)%nat with (Z.to_nat n) by lia. rewrite take_app_le; [done|]. unfold zlen in Hw. lia.
Qed.
(** The last, incomplete byte has zeroes behind the bits. *)
Lemma aligned_rest v w m : aligned v w -> zlen w <= m <= 8 ->
  ztake m (tobits 8 (HighestByte v)) = ztake (zlen w) (tobits 8 (HighestByte v)) ++ no_bits (m - zlen w).
Proof.
  intros Hv Hm. pose proof (zlen_nonneg w). rewrite (aligned_piece v w (zlen w)), (ztake_all (zlen w) w) by (done || lia).
  destruct (aligned_byte v w Hv) as [_ ->]. unfold ztake. rewrite take_take.
  replace (Z.to_nat m `min` Z.to_nat 8)%nat with (Z.to_nat m) by lia. rewrite take_app, take_ge by (unfold zlen in *; lia).
  f_equal. unfold no_bits. rewrite take_replicate. f_equal. unfold zlen in *. lia.
Qed.

Lemma write_byte b pre x post v w n o : bytes_ b = pre ++ x :: post -> aligned v w -> 0 <= o -> 0 < n <= zlen w -> o + n <= 8 ->
  (n = zlen w \/ o + n = 8) ->
  exists old new y, byte_at b (zlen pre) = Ret old /\ WritePartialByte (HighestByte v) n old o = Ret new /\
    set_byte b (zlen pre) new = Ret (mkBitBuffer (pre ++ y :: post) (byte_count_ b) (byte_offset_ b) (bit_offset_ b)) /\
    tobits 8 (byte.unsigned y) = ztake o (tobits 8 (byte.unsigned x)) ++ ztake n w ++ zdrop (o + n) (tobits 8 (byte.unsigned x)).
Proof.
  intros Hb Hv Ho Hn Hon Hcase. destruct (aligned_byte v w Hv) as [Hr _]. exists (byte.unsigned x).
  destruct (WritePartialByte_ok (HighestByte v) n (byte.unsigned x) o) as (y & Ew & Hy & Ebits); [done|apply byte_range|lia|lia|lia| |].
  { destruct Hcase as [->|Hcase]; [rewrite (aligned_rest v w (8 - o)) by (done || lia); do 2 f_equal; lia|].
    replace (8 - o) with n by lia. rewrite Z.sub_diag. by rewrite app_nil_r. }
  exists y, (byte.of_Z y). split; [by apply (byte_at_mid b pre x post)|]. split; [done|]. split; [by apply (set_byte_mid b pre x post)|].
  rewrite unsigned_of_Z_small, Ebits, (aligned_piece v w n) by (done || lia). done.
Qed.

Lemma shl64_ok val n : 0 <= n < 64 -> shl64 val n = Ret (wrap64 (Z.shiftl val n)).
Proof. intros Hn. unfold shl64. by rewrite (proj2 (Z.leb_le 0 n)), (proj2 (Z.ltb_lt n 64)) by lia. Qed.

(** Everything behind the first byte. *)
Lemma write_tail b pre post v w : bytes_ b = pre ++ post -> aligned v w -> zlen w <= 8 * zlen post -> zlen w < 72 ->
  exists b2 v2 i r bytes old back,
    Write_loop 8 b v (zlen pre) (zlen w) = Ret (b2, v2, i, r) /\
    (if r >? 0 then
       old ← byte_at b2 i; last ← WritePartialByte (HighestByte v2) r old 0; set_byte b2 i last
     else mret b2) = Ret (mkBitBuffer (pre ++ bytes) (byte_count_ b) (byte_offset_ b) (bit_offset_ b)) /\
    zlen bytes = zlen post /\ bits_of post = old ++ back /\ zlen old = zlen w /\ bits_of bytes = w ++ back.
Proof.
  intros Hb Hv Hw Hf. destruct (Write_loop_ok 8 b v w pre post) as (v' & new & El & Hln & Hbn & Hv'); [done..|lia|].
  cbv zeta in El, Hln, Hbn, Hv'. set (q := zlen w / 8) in *. pose proof (zlen_nonneg w). pose proof (zlen_nonneg post).
  assert (Hq : zlen w = 8 * q + zlen w mod 8) by (apply Z.div_mod; lia).
  pose proof (Z.mod_pos_bound (zlen w) 8 ltac:(lia)) as Hm. assert (Hqp : 0 <= q <= zlen post) by lia.
  assert (Hsplit : bits_of post = bits_of (ztake q post) ++ bits_of (zdrop q post)) by by rewrite <- bits_of_app, ztake_zdrop.
  assert (Hzq : zlen (bits_of (ztake q post)) = 8 * q) by (rewrite zlen_bits_of, zlen_ztake by lia; lia).
  exists (mkBitBuffer (pre ++ new ++ zdrop q post) (byte_count_ b) (byte_offset_ b) (bit_offset_ b)), v', (zlen pre + q), (zlen w mod 8).
  rewrite Z.gtb_ltb. destruct (Z.ltb_spec 0 (zlen w mod 8)) as [Hr|Hr].
  - destruct (zdrop q post) as [|z post2] eqn:Ez.
    { pose proof (zlen_zdrop q post ltac:(lia)) as Hd. rewrite Ez in Hd. unfold zlen at 1 in Hd. cbn [length] in Hd. lia. }
    set (b2 := mkBitBuffer _ _ _ _) in *. set (w2 := zdrop (8 * q) w) in *.
    assert (Hw2 : zlen w2 = zlen w mod 8) by (unfold w2; rewrite zlen_zdrop by lia; lia).
    destruct (write_byte b2 (pre ++ new) z post2 v' w2 (zlen w mod 8) 0) as (old2 & new2 & y2 & F1 & F2 & F3 & Hy2);
      [unfold b2; cbn [bytes_]; by rewrite <- app_assoc|done|lia|lia|lia|lia|].
    rewrite zlen_app, Hln in F1, F3. rewrite (ztake_all (zlen w mod 8) w2) in Hy2 by lia.
    change (0 + zlen w mod 8) with (zlen w mod 8) in Hy2.
    set (Z2 := tobits 8 (byte.unsigned z)) in *. assert (HZ2 : zlen Z2 = 8) by apply zlen_tobits.
    exists (new ++ y2 :: post2), (bits_of (ztake q post) ++ ztake (zlen w mod 8) Z2), (zdrop (zlen w mod 8) Z2 ++ bits_of post2).
    split; [exact El|]. rewrite F1. cbn [mbind outcome_bind]. rewrite F2. cbn [mbind outcome_bind]. rewrite F3.
    split; [by rewrite <- app_assoc|]. split; [|split; [|split]].
    + rewrite <- (ztake_zdrop q post), Ez, !zlen_app, !zlen_cons, Hln, zlen_ztake by lia. done.
    + rewrite Hsplit, bits_of_cons. fold Z2. rewrite <- !app_assoc. f_equal. rewrite app_assoc. by rewrite ztake_zdrop.
    + rewrite zlen_app, Hzq, zlen_ztake by lia. lia.
    + rewrite bits_of_app, bits_of_cons, Hbn, Hy2, ztake_0. cbn [app]. rewrite <- (ztake_zdrop (8 * q) w) at 3. fold w2.
      by rewrite <- !app_assoc.
  - exists (new ++ zdrop q post), (bits_of (ztake q post)), (bits_of (zdrop q post)). split; [exact El|].
    split; [done|]. split; [|split; [|split]].
    + rewrite zlen_app, Hln, zlen_zdrop by lia. lia.
    + done.
    + lia.
    + rewrite bits_of_app, Hbn, (ztake_all (8 * q) w) by lia. done.
Qed.

Lemma WriteBits_ok val c b : bb_ok b -> 0 < c <= 64 -> c <= zlen (unread_bits b) ->
  exists b', WriteBits val c b = Ret (true, b') /\ wrote_bits b (tobits (Z.to_nat c) val) b'.
Proof.
  intros Hb Hc Hu. unfold WriteBits. rewrite Remaining_ok, Z.gtb_ltb, (proj2 (Z.ltb_ge _ _)) by (done || lia).
  rewrite (shl64_ok val (64 - c)) by lia. cbn [mbind outcome_bind].
  pose proof (aligned_start val c Hc) as Hv. set (v := wrap64 _) in *. set (w := tobits (Z.to_nat c) val) in *.
  assert (Hw : zlen w = c) by (unfold w; rewrite zlen_tobits; lia).
  destruct (current_byte Hb) as (pre & x & post & E & Hp & Hun); [lia|]. pose proof (ok_bit _ Hb) as Ho. set (o := bit_offset_ b) in *.
  set (X := tobits 8 (byte.unsigned x)) in *. assert (HX : zlen X = 8) by apply zlen_tobits.
  assert (Hpost : c <= 8 - o + 8 * zlen post).
  { rewrite Hun, zlen_app, zlen_bits_of, zlen_zdrop in Hu by lia. lia. }
  destruct (write_byte b pre x post v w (Z.min c (8 - o)) o E Hv) as (old & new & y & E1 & E2 & E3 & Hy); [lia..|].
  rewrite <- Hp, E1. cbn [mbind outcome_bind]. rewrite E2. cbn [mbind outcome_bind]. rewrite E3. cbn [mbind outcome_bind].
  assert (Hall : all_bits b = (bits_of pre ++ ztake o X) ++ zdrop o X ++ bits_of post).
  { unfold all_bits. rewrite E, bits_of_app, bits_of_cons. fold X. rewrite <- (ztake_zdrop o X) at 1. by rewrite <- !app_assoc. }
  assert (Hfront : zlen (bits_of pre ++ ztake o X) = bit_pos b).
  { rewrite zlen_app, zlen_bits_of, zlen_ztake by lia. unfold bit_pos. fold o. lia. }
  assert (HzX : zlen (zdrop o X) = 8 - o) by (rewrite zlen_zdrop by lia; lia).
  destruct (Z.leb_spec c (8 - o)) as [Hs|Hs].
  - rewrite Z.min_l in Hy by lia. rewrite (ztake_all c w) in Hy by lia.
    destruct (finish_write b w (pre ++ y :: post) (bits_of pre ++ ztake o X) (ztake c (zdrop o X)) (zdrop (o + c) X ++ bits_of post))
      as (b' & Ec & Hb'); [done|lia|rewrite E, !zlen_app, !zlen_cons; done| |done| | |].
    + rewrite Hall. f_equal. rewrite app_assoc. f_equal. rewrite <- zdrop_zdrop by lia. by rewrite ztake_zdrop.
    + rewrite zlen_ztake by lia. lia.
    + rewrite bits_of_app, bits_of_cons, Hy. by rewrite <- !app_assoc.
    + exists b'. rewrite <- Hw, Ec. done.
  - rewrite Z.min_r in Hy |- * by lia. set (n := 8 - o) in *. fold X in Hy.
    rewrite (zdrop_all (o + n) X), app_nil_r in Hy by lia. rewrite shl64_ok by lia. cbn [mbind outcome_bind byte_offset_].
    set (w1 := zdrop n w). assert (Hw1 : zlen w1 = c - n) by (unfold w1; rewrite zlen_zdrop by lia; lia).
    replace (byte_offset_ b + 1) with (zlen (pre ++ [y])) by (rewrite zlen_app; change (zlen [y]) with 1; lia). rewrite <- Hw1.
    destruct (write_tail (mkBitBuffer (pre ++ y :: post) (byte_count_ b) (byte_offset_ b) (bit_offset_ b)) (pre ++ [y]) post
      (wrap64 (Z.shiftl v n)) w1) as (b2 & v2 & i & r & bytes & old1 & back & F1 & F2 & Hl & Hold & Hlo & Hnew);
      [by rewrite <- app_assoc|apply aligned_shift; (done || lia)|lia|lia|].
    rewrite F1. cbn [mbind outcome_bind]. rewrite F2. cbn [mbind outcome_bind byte_count_ byte_offset_ bit_offset_].
    destruct (finish_write b w ((pre ++ [y]) ++ bytes) (bits_of pre ++ ztake o X) (zdrop o X ++ old1) back)
      as (b' & Ec & Hb'); [done|lia| | |done| | |].
    + rewrite E, !zlen_app, !zlen_cons, Hl. change (zlen (@nil byte)) with 0. lia.
    + rewrite Hall, Hold. by rewrite <- !app_assoc.
    + rewrite zlen_app, HzX. lia.
    + rewrite !bits_of_app, bits_of_cons, Hy, Hnew. cbn [bits_of map concat]. rewrite <- (ztake_zdrop n w) at 2. fold w1.
      by rewrite <- !app_assoc.
    + exists b'. rewrite <- Hw, Ec. done.
Qed.
