(* ===== verification/BitStream.v ===== *)
(** * Bits that are written are read back

    The codes of the bit buffer as lists of bits; every sequence of
    fixed-width, Exponential-Golomb and non-symmetric values that fits is read
    back, and a code that is cut off leaves the reader where it was. *)

From Stdlib Require Import ZArith Lia.
From S2P Require Import Prelude ByteOrder BitBuffer BitCodes.
Local Open Scope Z_scope.
Local Open Scope list_scope.

(** ** Codes *)

(** The bits of the binary representation. *)
Definition width (v : Z) : Z := if v =? 0 then 0 else Z.log2 v + 1.

Lemma CountBits_loop_ok fuel v acc : 0 <= v < 2 ^ Z.of_nat fuel -> CountBits_loop fuel v acc = Ret (acc + width v).
Proof.
  revert v acc. induction fuel as [|fuel IH]; intros v acc Hv; cbn [CountBits_loop]; unfold width; destruct (Z.eqb_spec v 0) as [->|Hn];
    try (cbn in *; by rewrite Z.add_0_r || lia).
  rewrite Nat2Z.inj_succ, Z.pow_succ_r in Hv by lia. rewrite IH by (rewrite Z.shiftr_div_pow2 by lia; Z.div_mod_to_equations; lia).
  unfold width. rewrite Z.shiftr_div_pow2 by lia. change (2 ^ 1) with 2. destruct (Z.eqb_spec (v / 2) 0) as [E|E].
  - assert (v = 1) as -> by (Z.div_mod_to_equations; lia). cbn. f_equal. lia.
  - assert (Hl : Z.log2 (v / 2) = Z.log2 v - 1).
    { pose proof (Z.log2_shiftr v 1 ltac:(lia)) as Hs. rewrite Z.shiftr_div_pow2 in Hs by lia. change (2 ^ 1) with 2 in Hs.
      assert (1 <= Z.log2 v) by (apply Z.log2_le_pow2; Z.div_mod_to_equations; lia). lia. }
    rewrite Hl. f_equal. lia.
Qed.
Lemma CountBits_ok v : 0 <= v < 2 ^ 64 -> CountBits v = Ret (width v).
Proof. apply (CountBits_loop_ok 64). Qed.

Lemma width_spec v : 0 < v -> 0 < width v /\ 2 ^ (width v - 1) <= v < 2 ^ width v.
Proof.
  intros Hv. unfold width. rewrite (proj2 (Z.eqb_neq v 0)) by lia. pose proof (Z.log2_spec v Hv). pose proof (Z.log2_nonneg v).
  replace (Z.log2 v + 1 - 1) with (Z.log2 v) by lia. change (Z.log2 v + 1) with (Z.succ (Z.log2 v)). lia.
Qed.
Lemma width_le v n : 0 < v < 2 ^ n -> width v <= n.
Proof.
  intros [Hv Hn]. pose proof (width_spec v Hv) as (H0 & H1 & H2). destruct (Z.le_gt_cases (width v) n) as [|Hgt]; [done|].
  assert (2 ^ n <= 2 ^ (width v - 1)); [|lia]. destruct (Z.lt_ge_cases n 0); [rewrite Z.pow_neg_r in Hn by done; lia|].
  apply Z.pow_le_mono_r; lia.
Qed.

Inductive item : Type :=
| Fixed (bit_count val : Z)
| Golomb (val : Z)
| SignedGolomb (val : Z)
| NonSymmetric (num_values val : Z).

Definition item_value (i : item) : Z :=
  match i with Fixed _ v | Golomb v | SignedGolomb v | NonSymmetric _ v => v end.
Definition item_ok (i : item) : Prop :=
  match i with
  | Fixed c v => 0 < c <= 32 /\ 0 <= v < 2 ^ c
  | Golomb v => 0 <= v < 2 ^ 32 - 1
  | SignedGolomb v => - 2 ^ 31 < v < 2 ^ 31
  | NonSymmetric n v => 0 <= v < n /\ n < 2 ^ 31
  end.

Definition write_item (i : item) (b : BitBuffer) : outcome (bool * BitBuffer) :=
  match i with
  | Fixed c v => WriteBits v c b
  | Golomb v => WriteExponentialGolomb v b
  | SignedGolomb v => WriteSignedExponentialGolomb v b
  | NonSymmetric n v => WriteNonSymmetric v n b
  end.
Definition read_item (i : item) (b : BitBuffer) : outcome (option Z * BitBuffer) :=
  match i with
  | Fixed c _ => ReadBits c b
  | Golomb _ => ReadExponentialGolomb b
  | SignedGolomb _ => ReadSignedExponentialGolomb b
  | NonSymmetric n _ => ReadNonSymmetric n b
  end.

(** The codes. *)
Definition zbits (n v : Z) : list bool := tobits (Z.to_nat n) v.
Definition golomb_code (v : Z) : list bool := zbits (2 * width (v + 1) - 1) (v + 1).
Definition unsigned_of (v : Z) : Z := if v >? 0 then 2 * v - 1 else - v * 2.
Definition nonsymmetric_code (n v : Z) : list bool :=
  let k := 2 ^ width n - n in
  if n =? 1 then [] else if v <? k then zbits (width n - 1) v else zbits (width n) (v + k).
Definition encode (i : item) : list bool :=
  match i with
  | Fixed c v => zbits c v
  | Golomb v => golomb_code v
  | SignedGolomb v => golomb_code (unsigned_of v)
  | NonSymmetric n v => nonsymmetric_code n v
  end.

Lemma zlen_zbits n v : 0 <= n -> zlen (zbits n v) = n.
Proof. intros Hn. unfold zbits. rewrite zlen_tobits. lia. Qed.
Lemma bval_zbits n v : 0 <= n -> 0 <= v < 2 ^ n -> bval (zbits n v) = v.
Proof. intros Hn Hv. apply bval_tobits_small. by rewrite Z2Nat.id. Qed.
Lemma zbits_app n k v : 0 <= n -> 0 <= k -> zbits (n + k) v = zbits n (Z.shiftr v k) ++ zbits k v.
Proof. intros Hn Hk. unfold zbits. rewrite Z2Nat.inj_add, tobits_app, Z2Nat.id by lia. done. Qed.

(** Zeroes and a one. *)
Lemma golomb_shape v (n := width (v + 1)) : 0 <= v -> exists rest,
  golomb_code v = no_bits (n - 1) ++ zbits n (v + 1) /\ zbits n (v + 1) = true :: rest /\ 0 < n.
Proof.
  intros Hv. destruct (width_spec (v + 1)) as (Hn & Hlo & Hhi); [lia|]. fold n in Hn, Hlo, Hhi.
  exists (zbits (n - 1) (v + 1)). split; [|split; [|done]].
  - unfold golomb_code. fold n. replace (2 * n - 1) with (n - 1 + n) by lia. rewrite zbits_app by lia. f_equal.
    unfold no_bits, zbits. apply tobits_none. intros i Hi. rewrite Z.shiftr_spec by lia.
    rewrite <- (Z.mod_small (v + 1) (2 ^ n)) by lia. apply Z.mod_pow2_bits_high. lia.
  - replace n with (1 + (n - 1)) at 1 by lia. rewrite zbits_app by lia. change (zbits 1 ?x) with [Z.testbit x 0].
    cbn [app]. f_equal. rewrite Z.shiftr_spec, Z.add_0_l by lia.
    assert (n - 1 = Z.log2 (v + 1)) as -> by (symmetry; apply (Z.log2_unique (v + 1)); [lia|]; replace (Z.succ (n - 1)) with n by lia; lia).
    apply Z.bit_log2. lia.
Qed.

(** ** Reading a code *)

Lemma advance_advance c d b : advance d (advance c b) = advance (c + d) b.
Proof.
  unfold advance. cbn [bytes_ byte_count_ byte_offset_ bit_offset_]. f_equal; Z.div_mod_to_equations; lia.
Qed.
Lemma advance_0 b : bb_ok b -> advance 0 b = b.
Proof.
  intros []. unfold advance. destruct b as [bs n o i]. cbn in *. rewrite Z.add_0_r, Z.div_small, Z.mod_small by lia. by rewrite Z.add_0_r.
Qed.

(** A reader that stands before the bits [w]. *)
Definition stands_at (b : BitBuffer) (w : list bool) : Prop := bb_ok b /\ unread_bits b = w.

Lemma stands_advance b w rest : stands_at b (w ++ rest) -> stands_at (advance (zlen w) b) rest.
Proof.
  intros [Hb Hu]. pose proof (zlen_nonneg w). pose proof (zlen_nonneg rest). split.
  - apply advance_bits_ok; [done|]. rewrite Hu, zlen_app. lia.
  - rewrite advance_unread, Hu, zdrop_app by done. done.
Qed.
Lemma stands_read b w rest : stands_at b (w ++ rest) -> 0 < zlen w <= 32 ->
  ReadBits (zlen w) b = Ret (Some (bval w), advance (zlen w) b).
Proof.
  intros [Hb Hu] Hw. pose proof (zlen_nonneg rest). rewrite ReadBits_ok, Hu by done. rewrite zlen_app, (proj2 (Z.leb_le _ _)) by lia.
  by rewrite ztake_app.
Qed.
Lemma stands_peek b x rest : stands_at b (x :: rest) -> PeekBits 1 b = Ret (Some (Z.b2z x)).
Proof.
  intros [Hb Hu]. rewrite PeekBits_ok, Hu by (done || lia). pose proof (zlen_nonneg rest). rewrite zlen_cons, (proj2 (Z.leb_le _ _)) by lia.
  cbn. by destruct x.
Qed.
Lemma stands_peek_end b : stands_at b [] -> PeekBits 1 b = Ret None.
Proof. intros [Hb Hu]. rewrite PeekBits_ok, Hu by (done || lia). done. Qed.
Lemma stands_consume b x rest : stands_at b (x :: rest) -> ConsumeBits 1 b = (true, advance 1 b) /\ stands_at (advance 1 b) rest.
Proof.
  intros Hs. split; [|by apply (stands_advance b [x])]. destruct Hs as [Hb Hu]. pose proof (zlen_nonneg rest).
  rewrite ConsumeBits_ok, Hu, zlen_cons, (proj2 (Z.leb_le _ _)) by (done || lia). done.
Qed.

(** The zeroes are counted up to the one, or to the end. *)
Lemma zeroes_loop_ok fuel k b z rest : stands_at b (replicate z false ++ rest) -> (z < fuel)%nat -> hd true rest = true ->
  zeroes_loop fuel k b = Ret (k + Z.of_nat z, advance (Z.of_nat z) b).
Proof.
  revert fuel k b. induction z as [|z IH]; intros [|fuel] k b Hs Hf Hr; try lia; cbn [zeroes_loop replicate app] in *.
  - change (Z.of_nat 0) with 0. rewrite Z.add_0_r, advance_0 by apply Hs. destruct rest as [|x rest].
    + by rewrite (stands_peek_end b Hs).
    + cbn in Hr. subst x. by rewrite (stands_peek b true rest Hs).
  - rewrite (stands_peek b false _ Hs). cbn [mbind outcome_bind Z.b2z]. destruct (stands_consume b false _ Hs) as [-> Hs1].
    cbn [snd]. rewrite (IH fuel (k + 1) _ Hs1) by (done || lia). rewrite advance_advance.
    do 2 f_equal; [lia|]. f_equal. lia.
Qed.

(** A list of bits is zeroes up to a one or to the end. *)
Lemma leading_zeroes (w : list bool) : exists z rest, w = replicate z false ++ rest /\ hd true rest = true.
Proof.
  induction w as [|x w (z & rest & -> & Hr)]; [by exists O, []|]. destruct x; [by exists O, (true :: replicate z false ++ rest)|].
  by exists (S z), rest.
Qed.

Lemma Seek_back a b : bb_ok b -> bytes_ a = bytes_ b -> byte_count_ a = byte_count_ b ->
  Seek (byte_offset_ b) (bit_offset_ b) a = (true, b).
Proof.
  intros [] Eb Ec. unfold bit_pos in *. unfold Seek. rewrite Eb, Ec. rewrite !Z.gtb_ltb.
  rewrite (proj2 (Z.ltb_ge (byte_count_ b) (byte_offset_ b))), (proj2 (Z.ltb_ge 7 (bit_offset_ b))) by lia. cbn [orb].
  destruct (Z.eqb_spec (byte_offset_ b) (byte_count_ b)); cbn [andb]; [rewrite (proj2 (Z.ltb_ge 0 (bit_offset_ b))) by lia|];
    by destruct b.
Qed.

(** What the Golomb reader does on any bits: with [z] zeroes in front, the
    [z + 1] bits after them are the value; when there are not that many, or
    more than 32, it answers false and is where it was. *)
Lemma ReadExponentialGolomb_ok b z rest : stands_at b (replicate z false ++ rest) -> hd true rest = true ->
  ReadExponentialGolomb b =
    Ret (if (Z.of_nat z <? 32) && (Z.of_nat z <? zlen rest)
         then (Some (wrap32 (bval (ztake (Z.of_nat z + 1) rest) - 1)), advance (2 * Z.of_nat z + 1) b) else (None, b)).
Proof.
  intros Hs Hr. assert (Hb := proj1 Hs). pose proof (zlen_nonneg rest). assert (Hz : zlen (replicate z false) = Z.of_nat z)
    by (unfold zlen; by rewrite length_replicate).
  assert (Hrem : RemainingBitCount b = Z.of_nat z + zlen rest) by (rewrite Remaining_ok, (proj2 Hs), zlen_app, Hz by done; lia).
  unfold ReadExponentialGolomb. cbn [GetCurrentOffset]. rewrite (zeroes_loop_ok _ 0 b z rest Hs) by (done || lia).
  cbn [mbind outcome_bind]. rewrite Z.add_0_l. pose proof (stands_advance b _ rest Hs) as Hs1. rewrite Hz in Hs1.
  assert (Hassert : exists o, PeekBits 1 (advance (Z.of_nat z) b) = Ret o /\
    (match o with None => true | Some p => p =? 1 end) = true).
  { destruct rest as [|x rest]; [rewrite (stands_peek_end _ Hs1); by exists None|]. cbn in Hr. subst x.
    rewrite (stands_peek _ true rest Hs1). by exists (Some 1). }
  destruct Hassert as (o & -> & Ho). cbn [mbind outcome_bind]. rewrite Ho. cbn [assert_that mbind outcome_bind].
  rewrite Z.gtb_ltb. destruct (Z.ltb_spec (Z.of_nat z) 32) as [H32|H32]; cbn [andb].
  - rewrite (proj2 (Z.ltb_ge 32 (Z.of_nat z + 1))) by lia. rewrite ReadBits_ok, (proj2 Hs1) by (apply Hs1 || lia).
    destruct (Z.ltb_spec (Z.of_nat z) (zlen rest)) as [Hl|Hl]; cbn [mbind outcome_bind].
    + rewrite (proj2 (Z.leb_le (Z.of_nat z + 1) (zlen rest))) by lia. cbn [mret outcome_ret mbind outcome_bind].
      rewrite advance_advance. do 3 f_equal. lia.
    + rewrite (proj2 (Z.leb_gt (Z.of_nat z + 1) (zlen rest))) by lia. cbn [mret outcome_ret mbind outcome_bind].
      by rewrite (Seek_back _ b).
  - rewrite (proj2 (Z.ltb_lt 32 (Z.of_nat z + 1))) by lia. cbn [mret outcome_ret mbind outcome_bind]. by rewrite (Seek_back _ b).
Qed.

Lemma read_golomb b v rest : stands_at b (golomb_code v ++ rest) -> 0 <= v < 2 ^ 32 - 1 ->
  ReadExponentialGolomb b = Ret (Some v, advance (zlen (golomb_code v)) b).
Proof.
  intros Hs Hv. destruct (golomb_shape v) as (tl & Hg & Ht & Hn); [lia|]. destruct (width_spec (v + 1)) as (_ & Hlo & Hhi); [lia|].
  pose proof (width_le (v + 1) 32 ltac:(lia)) as Hw. set (n := width (v + 1)) in *. rewrite Hg, <- app_assoc in Hs. unfold no_bits in Hs.
  rewrite (ReadExponentialGolomb_ok b _ _ Hs) by by rewrite Ht. rewrite Z2Nat.id, zlen_app, zlen_zbits by lia.
  pose proof (zlen_nonneg rest). rewrite (proj2 (Z.ltb_lt (n - 1) 32)), (proj2 (Z.ltb_lt (n - 1) (n + zlen rest))) by lia.
  cbn [andb]. replace (n - 1 + 1) with (zlen (zbits n (v + 1))) by (rewrite zlen_zbits; lia). rewrite ztake_app, bval_zbits by lia.
  replace (v + 1 - 1) with v by lia. rewrite wrap32_small by lia. do 3 f_equal.
  unfold golomb_code. fold n. rewrite zlen_zbits by lia. lia.
Qed.

(** The two lengths of a non-symmetric code. *)
Lemma min_bits_ok n (c := width n) (k := 2 ^ c - n) : 1 < n < 2 ^ 31 ->
  min_bits_values n = Ret (c, k) /\ 1 < c <= 31 /\ 0 < k <= 2 ^ (c - 1) /\ n = 2 ^ c - k.
Proof.
  intros Hn. destruct (width_spec n) as (H0 & Hlo & Hhi); [lia|]. pose proof (width_le n 31 ltac:(lia)) as Hc. fold c in H0, Hlo, Hhi, Hc.
  assert (1 < c). { destruct (Z.eq_dec c 1) as [E|]; [|lia]. rewrite E in Hhi. cbn in Hhi. lia. }
  assert (Hp : 2 ^ c = 2 * 2 ^ (c - 1)) by (rewrite <- Z.pow_succ_r by lia; f_equal; lia). subst k.
  assert (2 ^ c <= 2 ^ 31) by (apply Z.pow_le_mono_r; lia).
  unfold min_bits_values. rewrite CountBits_ok by lia. fold c. cbn [mbind outcome_bind]. unfold one_shl32.
  rewrite (proj2 (Z.ltb_lt c 32)) by lia. cbn [mbind outcome_bind mret outcome_ret]. rewrite Z.shiftl_1_l, wrap32_small by lia.
  split; [done|]. lia.
Qed.

Lemma read_nonsymmetric b n v rest : stands_at b (nonsymmetric_code n v ++ rest) -> 0 <= v < n -> n < 2 ^ 31 ->
  ReadNonSymmetric n b = Ret (Some v, advance (zlen (nonsymmetric_code n v)) b).
Proof.
  intros Hs Hv Hn. unfold ReadNonSymmetric. rewrite Z.gtb_ltb, (proj2 (Z.ltb_lt 0 n)), (proj2 (Z.leb_le n (2 ^ 31))) by lia.
  cbn [assert_that mbind outcome_bind]. unfold nonsymmetric_code in *. cbv zeta in *. destruct (Z.eqb_spec n 1) as [->|H1].
  - assert (v = 0) as -> by lia. unfold zlen. cbn [length]. by rewrite advance_0 by apply Hs.
  - destruct (min_bits_ok n) as (-> & Hc & Hk & _); [lia|]. cbn [mbind outcome_bind]. set (c := width n) in *. set (k := 2 ^ c - n) in *.
    assert (Hpow : 2 ^ c = 2 * 2 ^ (c - 1)) by (rewrite <- Z.pow_succ_r by lia; f_equal; lia).
    assert (Hkn : k = 2 ^ c - n) by done. destruct (Z.ltb_spec v k) as [Hvk|Hvk].
    + pose proof (stands_read b _ rest Hs) as Hr. rewrite zlen_zbits, bval_zbits in Hr by lia. rewrite Hr by lia.
      cbn [mbind outcome_bind]. rewrite (proj2 (Z.ltb_lt v k)) by lia. by rewrite zlen_zbits by lia.
    + set (x := v + k) in *. assert (Hx : x = v + k) by done. rewrite zlen_zbits by lia. replace c with (c - 1 + 1) in Hs by lia.
      rewrite zbits_app, <- app_assoc in Hs by lia. rewrite Z.shiftr_div_pow2 in Hs by lia. change (2 ^ 1) with 2 in Hs.
      pose proof (Z.div_mod x 2 ltac:(lia)) as Hdm. pose proof (Z.mod_pos_bound x 2 ltac:(lia)) as Hm.
      pose proof (stands_read b _ _ Hs) as Hr. rewrite zlen_zbits, bval_zbits in Hr by lia. rewrite Hr by lia. cbn [mbind outcome_bind].
      rewrite (proj2 (Z.ltb_ge (x / 2) k)) by lia. pose proof (stands_advance b _ _ Hs) as Hs1. rewrite zlen_zbits in Hs1 by lia.
      pose proof (stands_read _ _ _ Hs1) as Hr1. rewrite zlen_zbits in Hr1 by lia. unfold zbits in Hr1 at 1. rewrite bval_tobits in Hr1.
      change (2 ^ Z.of_nat (Z.to_nat 1)) with 2 in Hr1. rewrite Hr1 by lia. cbn [mbind outcome_bind mret outcome_ret].
      rewrite advance_advance. replace (c - 1 + 1) with c by lia. do 3 f_equal. assert (2 ^ c <= 2 ^ 31) by (apply Z.pow_le_mono_r; lia).
      rewrite Z.shiftl_mul_pow2 by lia. change (2 ^ 1) with 2. rewrite (wrap32_small (x / 2 * 2)) by lia. rewrite wrap32_small; lia.
Qed.

(** [SizeNonSymmetricBits] is the length of the code. *)
Lemma SizeNonSymmetricBits_ok v n : 0 <= v < n -> n < 2 ^ 31 -> SizeNonSymmetricBits v n = Ret (zlen (nonsymmetric_code n v)).
Proof.
  intros Hv Hn. unfold SizeNonSymmetricBits, nonsymmetric_code. cbv zeta. rewrite (proj2 (Z.ltb_lt v n)), (proj2 (Z.leb_le n (2 ^ 31))) by lia.
  cbn [assert_that mbind outcome_bind]. destruct (Z.eqb_spec n 1) as [->|H1]; [assert (v = 0) as -> by lia; reflexivity|].
  destruct (min_bits_ok n) as (-> & Hc & _ & _); [lia|]. cbn [mbind outcome_bind mret outcome_ret]. f_equal.
  destruct (v <? 2 ^ width n - n); rewrite zlen_zbits; lia.
Qed.

Lemma unsigned_of_range v : - 2 ^ 31 < v < 2 ^ 31 -> 0 <= unsigned_of v < 2 ^ 32 - 1.
Proof. intros Hv. unfold unsigned_of. rewrite Z.gtb_ltb. destruct (Z.ltb_spec 0 v); lia. Qed.

Lemma read_signed_golomb b v rest : stands_at b (golomb_code (unsigned_of v) ++ rest) -> - 2 ^ 31 < v < 2 ^ 31 ->
  ReadSignedExponentialGolomb b = Ret (Some v, advance (zlen (golomb_code (unsigned_of v))) b).
Proof.
  intros Hs Hv. unfold ReadSignedExponentialGolomb. rewrite (read_golomb b _ rest Hs) by by apply unsigned_of_range.
  cbn [mbind outcome_bind]. change 1 with (Z.ones 1) at 1. rewrite Z.land_ones by lia. change (2 ^ 1) with 2.
  set (a := advance _ b). unfold unsigned_of. rewrite Z.gtb_ltb. destruct (Z.ltb_spec 0 v) as [Hp|Hp].
  - replace ((2 * v - 1) mod 2) with 1 by (Z.div_mod_to_equations; lia). cbn [Z.eqb mret outcome_ret]. do 3 f_equal.
    replace (2 * v - 1 + 1) with (v * 2) by lia. rewrite wrap32_small, Z.div_mul by lia. apply to_int32_small. lia.
  - rewrite Z.mod_mul by lia. cbn [Z.eqb mret outcome_ret]. do 3 f_equal. rewrite Z.div_mul, to_int32_small by lia. lia.
Qed.

Lemma read_item_ok i b rest : item_ok i -> stands_at b (encode i ++ rest) ->
  read_item i b = Ret (Some (item_value i), advance (zlen (encode i)) b).
Proof.
  destruct i as [c v|v|v|n v]; cbn [item_ok encode read_item item_value]; intros Hi Hs.
  - pose proof (stands_read b _ rest Hs) as Hr. rewrite zlen_zbits, bval_zbits in * by lia. apply Hr. lia.
  - by apply read_golomb with rest.
  - by apply read_signed_golomb with rest.
  - apply read_nonsymmetric with rest; tauto.
Qed.

(** ** Writing a code *)

Lemma write_bits_zbits v c b : bb_ok b -> 0 < c <= 64 -> c <= zlen (unread_bits b) ->
  exists b', WriteBits v c b = Ret (true, b') /\ wrote_bits b (zbits c v) b'.
Proof. apply WriteBits_ok. Qed.
Lemma wrote_nothing b : bb_ok b -> wrote_bits b [] b.
Proof.
  intros Hb. split; [done|done|unfold zlen; cbn; lia|]. exists (ztake (bit_pos b) (all_bits b)), [], (zdrop (bit_pos b) (all_bits b)).
  cbn [app]. rewrite ztake_zdrop. split; [done|]. split; [|done]. destruct Hb. apply zlen_ztake. unfold all_bits. rewrite zlen_bits_of.
  unfold bit_pos in *. lia.
Qed.

Lemma write_golomb v b : bb_ok b -> 0 <= v < 2 ^ 32 - 1 -> zlen (golomb_code v) <= zlen (unread_bits b) ->
  exists b', WriteExponentialGolomb v b = Ret (true, b') /\ wrote_bits b (golomb_code v) b'.
Proof.
  intros Hb Hv Hroom. unfold WriteExponentialGolomb. rewrite (proj2 (Z.eqb_neq v (2 ^ 32 - 1))) by lia. cbv zeta.
  rewrite CountBits_ok by lia. cbn [mbind outcome_bind]. destruct (width_spec (v + 1)) as (Hn & _ & _); [lia|].
  pose proof (width_le (v + 1) 32 ltac:(lia)). rewrite (Z.mul_comm (width (v + 1)) 2). unfold golomb_code in *. rewrite zlen_zbits in Hroom by lia.
  apply write_bits_zbits; [done|lia|done].
Qed.

Lemma write_item_ok i b : bb_ok b -> item_ok i -> zlen (encode i) <= zlen (unread_bits b) ->
  exists b', write_item i b = Ret (true, b') /\ wrote_bits b (encode i) b'.
Proof.
  intros Hb. destruct i as [c v|v|v|n v]; cbn [item_ok encode write_item]; intros Hi Hroom.
  - rewrite zlen_zbits in Hroom by lia. apply write_bits_zbits; [done|lia|done].
  - by apply write_golomb.
  - pose proof (write_golomb _ b Hb (unsigned_of_range v Hi) Hroom) as Hw. unfold WriteSignedExponentialGolomb.
    unfold unsigned_of in *. rewrite !Z.gtb_ltb in *. destruct (Z.eqb_spec v 0) as [->|Hz]; [done|]. destruct (Z.ltb_spec 0 v).
    + rewrite (wrap32_small (v * 2)), wrap32_small by lia. by rewrite (Z.mul_comm v 2).
    + rewrite (proj2 (Z.eqb_neq v (- 2 ^ 31))), wrap32_small by lia. done.
  - unfold WriteNonSymmetric, nonsymmetric_code in *. rewrite (proj2 (Z.ltb_lt v n)), (proj2 (Z.leb_le n (2 ^ 31))) by lia.
    cbn [assert_that mbind outcome_bind]. destruct (Z.eqb_spec n 1) as [->|H1]; [by exists b; split; [|apply wrote_nothing]|].
    destruct (min_bits_ok n) as (-> & Hc & Hk & Hkn); [lia|]. cbn [mbind outcome_bind]. cbv zeta in Hroom. destruct (v <? 2 ^ width n - n) eqn:E.
    + rewrite zlen_zbits in Hroom by lia. apply write_bits_zbits; [done|lia|done].
    + rewrite zlen_zbits in Hroom by lia. rewrite wrap32_small; [apply write_bits_zbits; [done|lia|done]|].
      assert (2 ^ width n <= 2 ^ 31) by (apply Z.pow_le_mono_r; lia). lia.
Qed.

Lemma wrote_then b v b1 w b2 : wrote_bits b v b1 -> wrote_bits b1 w b2 -> wrote_bits b (v ++ w) b2.
Proof.
  intros [Hok1 Hc1 Hp1 (f1 & o1 & k1 & Ha & Hf1 & Ho1 & Ha1)] [Hok2 Hc2 Hp2 (f2 & o2 & k2 & Ha1' & Hf2 & Ho2 & Ha2)].
  split; [done|by rewrite Hc2|rewrite Hp2, Hp1, zlen_app; lia|]. rewrite Ha1, app_assoc in Ha1'.
  assert (length (f1 ++ v) = length f2) as Hlen.
  { apply Nat2Z.inj. pose proof (zlen_app f1 v) as Hl. unfold zlen in *. lia. }
  destruct (app_inj_1 _ _ _ _ Hlen Ha1') as [Ef Ek].
  exists f1, (o1 ++ o2), k2. rewrite Ha, Ek, Ha2, <- Ef, !zlen_app, <- !app_assoc. repeat split; lia.
Qed.

(** ** Streams of values *)

Fixpoint write_items (l : list item) (b : BitBuffer) : outcome (bool * BitBuffer) :=
  match l with
  | [] => mret (true, b)
  | i :: l => '(ok, b) ← write_item i b; match ok with true => write_items l b | false => mret (false, b) end
  end.
Fixpoint read_items (l : list item) (b : BitBuffer) : outcome (option (list Z) * BitBuffer) :=
  match l with
  | [] => mret (Some [], b)
  | i :: l =>
      '(o, b) ← read_item i b;
      match o with
      | None => mret (None, b)
      | Some v => '(o, b) ← read_items l b; mret (option_map (cons v) o, b)
      end
  end.
Definition stream (l : list item) : list bool := concat (map encode l).

Lemma wrote_room b w b' : bb_ok b -> wrote_bits b w b' -> zlen (unread_bits b') = zlen (unread_bits b) - zlen w.
Proof. intros Hb [Hok Hc Hp _]. rewrite !zlen_unread, Hc, Hp by done. lia. Qed.

Lemma write_items_ok l b : bb_ok b -> Forall item_ok l -> zlen (stream l) <= zlen (unread_bits b) ->
  exists b', write_items l b = Ret (true, b') /\ wrote_bits b (stream l) b'.
Proof.
  revert b. induction l as [|i l IH]; intros b Hb Hl Hroom; cbn [write_items stream map concat] in *.
  - exists b. split; [done|by apply wrote_nothing].
  - apply Forall_cons_1 in Hl as [Hi Hl]. fold (stream l) in *. rewrite zlen_app in Hroom. pose proof (zlen_nonneg (stream l)).
    destruct (write_item_ok i b) as (b1 & -> & H1); [done|done|lia|]. cbn [mbind outcome_bind].
    destruct (IH b1 (wrote_ok _ _ _ H1) Hl) as (b2 & -> & H2); [rewrite (wrote_room _ _ _ Hb H1); lia|].
    exists b2. split; [done|]. by apply wrote_then with b1.
Qed.

Lemma read_items_ok l b rest : Forall item_ok l -> stands_at b (stream l ++ rest) ->
  read_items l b = Ret (Some (map item_value l), advance (zlen (stream l)) b).
Proof.
  revert b. induction l as [|i l IH]; intros b Hl Hs; cbn [read_items stream map concat] in *.
  - unfold zlen. cbn [length]. by rewrite advance_0 by apply Hs.
  - apply Forall_cons_1 in Hl as [Hi Hl]. fold (stream l) in *. rewrite <- app_assoc in Hs.
    rewrite (read_item_ok i b _ Hi Hs). cbn [mbind outcome_bind]. rewrite (IH _ Hl (stands_advance _ _ _ Hs)).
    cbn [mbind outcome_bind mret outcome_ret option_map]. rewrite advance_advance, zlen_app. done.
Qed.

(** The position fixes both offsets. *)
Lemma position_fixes a c : bb_ok a -> bb_ok c -> bytes_ a = bytes_ c -> byte_count_ a = byte_count_ c -> bit_pos a = bit_pos c -> a = c.
Proof.
  intros [] [] Eb Ec Ep. destruct a, c. unfold bit_pos in *. cbn in *. subst. f_equal; lia.
Qed.

(** Going back to the start of what was written. *)
Lemma rewind b w b' : bb_ok b -> wrote_bits b w b' -> exists r rest,
  Seek (byte_offset_ b) (bit_offset_ b) b' = (true, r) /\ stands_at r (w ++ rest) /\ advance (zlen w) r = b'.
Proof.
  intros Hb [Hok Hc Hp (f & o & k & Ha & Hf & Ho & Ha')]. pose proof (zlen_nonneg w).
  set (r := mkBitBuffer (bytes_ b') (byte_count_ b') (byte_offset_ b) (bit_offset_ b)). assert (Hr : bb_ok r).
  { destruct Hb, Hok. split; cbn; try done. unfold bit_pos in *. cbn. lia. }
  assert (Hu : unread_bits r = w ++ k).
  { unfold unread_bits, all_bits. cbn [bytes_ r]. fold (all_bits b'). rewrite Ha'. change (bit_pos r) with (bit_pos b). rewrite <- Hf. apply zdrop_app. }
  exists r, k. split; [by apply (Seek_back b' r)|]. split; [done|]. apply position_fixes; try done.
  - apply advance_bits_ok; [done|]. rewrite Hu, zlen_app. pose proof (zlen_nonneg k). lia.
  - rewrite advance_pos, Hp. done.
Qed.

(** C26: every sequence of fixed-width, Exponential-Golomb, signed
    Exponential-Golomb and non-symmetric values that the codes can represent and
    that fits into the rest of the buffer is written, wherever in a byte it
    starts; only the bits of the codes change; and after a [Seek] back to the
    start, the reader returns exactly the values and ends where the writer ended. *)
Theorem bit_stream_roundtrip l b :
  bb_ok b -> Forall item_ok l -> zlen (stream l) <= zlen (unread_bits b) ->
  exists b' r front old back,
    write_items l b = Ret (true, b') /\
    all_bits b = front ++ old ++ back /\ all_bits b' = front ++ stream l ++ back /\ zlen front = bit_pos b /\ zlen old = zlen (stream l) /\
    Seek (byte_offset_ b) (bit_offset_ b) b' = (true, r) /\
    read_items l r = Ret (Some (map item_value l), b').
Proof.
  intros Hb Hl Hroom. destruct (write_items_ok l b Hb Hl Hroom) as (b' & Hw & H'). destruct (rewind b _ b' Hb H') as (r & rest & Hs & Hst & <-).
  destruct (wrote_all _ _ _ H') as (f & o & k & Ha & Hf & Ho & Ha'). exists (advance (zlen (stream l)) r), r, f, o, k.
  repeat (split; [done|]). by apply read_items_ok with rest.
Qed.

Definition sample_items : list item := [Fixed 3 5; Golomb 8; SignedGolomb (-3); NonSymmetric 5 4; Fixed 32 0xDEADBEEF].
Definition sample_buffer : BitBuffer := mkBitBuffer (replicate 12 Byte.x55) 12 1 6.
Lemma bit_stream_roundtrip_witness : exists b' r,
  write_items sample_items sample_buffer = Ret (true, b') /\ Seek 1 6 b' = (true, r) /\
  read_items sample_items r = Ret (Some [5; 8; -3; 4; 0xDEADBEEF], b').
Proof.
  destruct (bit_stream_roundtrip sample_items sample_buffer) as (b' & r & f & o & k & Hw & _ & _ & _ & _ & Hs & Hr).
  - split; cbn; lia || (vm_compute; reflexivity) || (vm_compute; discriminate).
  - unfold sample_items. repeat (apply Forall_cons_2; [cbn; lia|]). apply Forall_nil_2.
  - vm_compute. discriminate.
  - exists b', r. split; [exact Hw|]. split; [exact Hs|exact Hr].
Defined.

(** ** Reading any bits *)

Definition read_safe (b : BitBuffer) (r : outcome (option Z * BitBuffer)) : Prop :=
  exists o b', r = Ret (o, b') /\ bb_ok b' /\ bytes_ b' = bytes_ b /\ bit_pos b <= bit_pos b' /\ (o = None -> bit_pos b' = bit_pos b).

Section Safe.
Context (b : BitBuffer) (Hb : bb_ok b).

Lemma ReadBits_safe c : 0 < c <= 32 -> read_safe b (ReadBits c b).
Proof.
  intros Hc. rewrite ReadBits_ok by done. destruct (Z.leb_spec c (zlen (unread_bits b))).
  - exists (Some (bval (ztake c (unread_bits b)))), (advance c b). rewrite advance_pos. split_and!; try done; try lia. apply advance_bits_ok; [done|lia].
  - exists None, b. split_and!; done || lia.
Qed.
(** The assertion of the byte-sized reads holds. *)
Lemma ReadUInt8_bits_safe : read_safe b (ReadUInt8 b).
Proof.
  unfold ReadUInt8. destruct (ReadBits_safe 8 ltac:(lia)) as (o & b' & E & H'). pose proof (ReadBits_ok 8 b Hb ltac:(lia)) as E'.
  rewrite E in *. cbn [mbind outcome_bind]. destruct (Z.leb_spec 8 (zlen (unread_bits b))) as [Hl|]; injection E' as -> ->.
  - pose proof (bval_range (ztake 8 (unread_bits b))) as Hr. rewrite zlen_ztake in Hr by lia. rewrite (proj2 (Z.leb_le _ _)) by lia.
    eexists (Some _), _. split; [done|]. split_and!; try apply H'. done.
  - by exists None, b.
Qed.
Lemma ReadUInt16_bits_safe : read_safe b (ReadUInt16 b).
Proof.
  unfold ReadUInt16. destruct (ReadBits_safe 16 ltac:(lia)) as (o & b' & E & H'). pose proof (ReadBits_ok 16 b Hb ltac:(lia)) as E'.
  rewrite E in *. cbn [mbind outcome_bind]. destruct (Z.leb_spec 16 (zlen (unread_bits b))) as [Hl|]; injection E' as -> ->.
  - pose proof (bval_range (ztake 16 (unread_bits b))) as Hr. rewrite zlen_ztake in Hr by lia. rewrite (proj2 (Z.leb_le _ _)) by lia.
    eexists (Some _), _. split; [done|]. split_and!; try apply H'. done.
  - by exists None, b.
Qed.
Lemma ReadGolomb_safe : read_safe b (ReadExponentialGolomb b).
Proof.
  destruct (leading_zeroes (unread_bits b)) as (z & rest & Eu & Hr). rewrite (ReadExponentialGolomb_ok b z rest) by done.
  destruct (Z.ltb_spec (Z.of_nat z) 32); [destruct (Z.ltb_spec (Z.of_nat z) (zlen rest)) as [Hl|]|]; cbn [andb];
    [|exists None, b; split_and!; done || lia..].
  eexists (Some _), _. split; [done|]. rewrite advance_pos. split_and!; try done; try lia. apply advance_bits_ok; [done|].
  rewrite Eu, zlen_app. unfold zlen at 1. rewrite length_replicate. lia.
Qed.
Lemma ReadSigned_safe : read_safe b (ReadSignedExponentialGolomb b).
Proof.
  unfold ReadSignedExponentialGolomb. destruct ReadGolomb_safe as ([v|] & b' & -> & H1 & H2 & H3 & H4); cbn [mbind outcome_bind].
  - destruct (Z.land v 1 =? 0); eexists (Some _), b'; split_and!; try done.
  - exists None, b'. by split_and!; [| | | |].
Qed.
Lemma ReadNonSymmetric_safe n : 0 < n < 2 ^ 31 ->
  exists o b', ReadNonSymmetric n b = Ret (o, b') /\ bb_ok b' /\ bytes_ b' = bytes_ b /\
    bit_pos b <= bit_pos b' <= bit_pos b + width n.
Proof.
  intros Hn. unfold ReadNonSymmetric. rewrite Z.gtb_ltb, (proj2 (Z.ltb_lt 0 n)), (proj2 (Z.leb_le n (2 ^ 31))) by lia.
  cbn [assert_that mbind outcome_bind].
  destruct (Z.eqb_spec n 1) as [->|]; [exists (Some 0), b; split_and!; try done; change (width 1) with 1; lia|].
  destruct (min_bits_ok n) as (-> & Hc & _ & _); [lia|]. cbn [mbind outcome_bind].
  rewrite ReadBits_ok by (done || lia). destruct (Z.leb_spec (width n - 1) (zlen (unread_bits b))) as [Hl|Hl]; cbn [mbind outcome_bind];
    [|exists None, b; split_and!; done || lia].
  set (v := bval _). set (b1 := advance (width n - 1) b).
  assert (H1 : bb_ok b1) by (apply advance_bits_ok; [done|lia]).
  assert (Hp1 : bit_pos b1 = bit_pos b + (width n - 1)) by apply advance_pos.
  destruct (v <? 2 ^ width n - n); [exists (Some v), b1; split_and!; done || lia|].
  rewrite ReadBits_ok by (done || lia). destruct (Z.leb_spec 1 (zlen (unread_bits b1))); cbn [mbind outcome_bind].
  - eexists (Some _), _. split; [done|]. rewrite advance_pos. split_and!; try done; try lia. apply advance_bits_ok; [done|lia].
  - exists None, b1. split_and!; done || lia.
Qed.
End Safe.

(** C27: what the readers do on bits nobody wrote, cut off anywhere: reads of
    1 to 32 bits, of 8, 16 and 32 bits, Exponential-Golomb reads and
    non-symmetric reads for fewer than 2^31 values stay inside the memory,
    trip no assertion and never move backwards.  A fixed-width or
    Exponential-Golomb read that fails leaves the position where it was; a
    non-symmetric read may fail after its first part has been consumed, but
    moves by no more than the width of its code. *)
Theorem bit_reader_safe b :
  bb_ok b ->
  (forall c, 0 < c <= 32 -> read_safe b (ReadBits c b)) /\ read_safe b (ReadUInt8 b) /\ read_safe b (ReadUInt16 b) /\ read_safe b (ReadUInt32 b) /\
  read_safe b (ReadExponentialGolomb b) /\ read_safe b (ReadSignedExponentialGolomb b) /\
  (forall n, 0 < n < 2 ^ 31 -> exists o b', ReadNonSymmetric n b = Ret (o, b') /\ bb_ok b' /\ bytes_ b' = bytes_ b /\
    bit_pos b <= bit_pos b' <= bit_pos b + width n).
Proof.
  intros Hb. split_and!.
  - by apply ReadBits_safe.
  - by apply ReadUInt8_bits_safe.
  - by apply ReadUInt16_bits_safe.
  - apply (ReadBits_safe b Hb 32). lia.
  - by apply ReadGolomb_safe.
  - by apply ReadSigned_safe.
  - by apply ReadNonSymmetric_safe.
Qed.

(** A code that is cut off after its zeroes. *)
Lemma bit_reader_safe_witness : bb_ok (mkBitBuffer [Byte.x00; Byte.x01] 2 0 3) /\
  read_safe (mkBitBuffer [Byte.x00; Byte.x01] 2 0 3) (ReadExponentialGolomb (mkBitBuffer [Byte.x00; Byte.x01] 2 0 3)).
Proof.
  assert (Hb : bb_ok (mkBitBuffer [Byte.x00; Byte.x01] 2 0 3)) by (split; cbn; lia || (vm_compute; reflexivity) || (vm_compute; discriminate)).
  split; [exact Hb|]. exact (proj1 (proj2 (proj2 (proj2 (proj2 (bit_reader_safe _ Hb)))))).
Defined.
