(* ===== verification/Crc.v ===== *)
(** * base/crc.cc, crc32_sw.cc, crc32-x86.cc: the checksum

    [checksum_sw] processes a chunk of memory byte by byte up to a four-byte
    boundary of its address, then eight bytes at a time with the slicing
    tables, then the rest; the tables and the order of the bytes depend on the
    byte order of the host ([WORDS_BIGENDIAN]).  [checksum_hw] does the same
    with the CRC instructions of the processor, which are parameters.  Both
    are shown to compute the bit-serial CRC-32C. *)

From Stdlib Require Import ZArith Lia.
From S2P Require Import Prelude ByteOrder CrcTables.

(** ** crc32_sw.cc *)

Definition g_crc_slicing (e : endian) : list (list Z) :=
  match e with
  | LittleEndian => [g_crc_slicing_le_0; g_crc_slicing_le_1; g_crc_slicing_le_2; g_crc_slicing_le_3;
                     g_crc_slicing_le_4; g_crc_slicing_le_5; g_crc_slicing_le_6; g_crc_slicing_le_7]
  | BigEndian => [g_crc_slicing_be_0; g_crc_slicing_be_1; g_crc_slicing_be_2; g_crc_slicing_be_3;
                  g_crc_slicing_be_4; g_crc_slicing_be_5; g_crc_slicing_be_6; g_crc_slicing_be_7]
  end.
Definition slice (e : endian) (k : nat) (i : Z) : Z :=
  nth (Z.to_nat i) (nth k (g_crc_slicing e) []) 0.

(** One byte. *)
Definition crc_step (e : endian) (crc : Z) (p : byte) : Z :=
  match e with
  | LittleEndian =>
      Z.lxor (slice e 0 (Z.land (Z.lxor crc (byte.unsigned p)) 0xFF)) (Z.shiftr crc 8)
  | BigEndian =>
      Z.lxor (slice e 0 (Z.land (Z.lxor (Z.shiftr crc 24) (byte.unsigned p)) 0xFF))
        (wrap32 (Z.shiftl crc 8))
  end.

(** The loop to the first boundary; [addr] is the address of the chunk. *)
Fixpoint crc_head (step : Z -> byte -> Z) (addr : Z) (chunk : list byte) (crc : Z) : Z * list byte :=
  match chunk with
  | p :: rest =>
      if negb (Z.land addr 3 =? 0) then crc_head step (addr + 1) rest (step crc p) else (crc, chunk)
  | [] => (crc, [])
  end.

(** Eight bytes: [crc] is already combined with the first four. *)
Definition crc_slices (e : endian) (crc next : Z) : Z :=
  let s := slice e in
  match e with
  | LittleEndian =>
      Z.lxor (Z.lxor (Z.lxor (Z.lxor (Z.lxor (Z.lxor (Z.lxor
        (s 7%nat (Z.land crc 0xFF)) (s 6%nat (Z.land (Z.shiftr crc 8) 0xFF)))
        (s 5%nat (Z.land (Z.shiftr crc 16) 0xFF))) (s 4%nat (Z.shiftr crc 24)))
        (s 3%nat (Z.land next 0xFF))) (s 2%nat (Z.land (Z.shiftr next 8) 0xFF)))
        (s 1%nat (Z.land (Z.shiftr next 16) 0xFF))) (s 0%nat (Z.shiftr next 24))
  | BigEndian =>
      Z.lxor (Z.lxor (Z.lxor (Z.lxor (Z.lxor (Z.lxor (Z.lxor
        (s 4%nat (Z.land crc 0xFF)) (s 5%nat (Z.land (Z.shiftr crc 8) 0xFF)))
        (s 6%nat (Z.land (Z.shiftr crc 16) 0xFF))) (s 7%nat (Z.shiftr crc 24)))
        (s 0%nat (Z.land next 0xFF))) (s 1%nat (Z.land (Z.shiftr next 8) 0xFF)))
        (s 2%nat (Z.land (Z.shiftr next 16) 0xFF))) (s 3%nat (Z.shiftr next 24))
  end.

Fixpoint crc_qwords (e : endian) (nqwords : nat) (chunk : list byte) (crc : Z) : outcome (Z * list byte) :=
  match nqwords with
  | O => mret (crc, chunk)
  | S nqwords =>
      first ← mem_read chunk 0 4;
      next ← mem_read chunk 4 4;
      crc_qwords e nqwords (zdrop 8 chunk) (crc_slices e (Z.lxor crc (load e first)) (load e next))
  end.

Fixpoint crc_tail (step : Z -> byte -> Z) (len : nat) (chunk : list byte) (crc : Z) : outcome Z :=
  match len with
  | O => mret crc
  | S len =>
      match chunk with
      | p :: rest => crc_tail step len rest (step crc p)
      | [] => Crash OutOfBounds
      end
  end.

(** The final byte swap on a big-endian host. *)
Definition swap32 (crc : Z) : Z :=
  Z.lor (Z.lor (Z.lor (Z.land (wrap32 (Z.shiftl crc 24)) 0xFF000000) (Z.land (wrap32 (Z.shiftl crc 8)) 0x00FF0000))
    (Z.land (Z.shiftr crc 8) 0x0000FF00)) (Z.land (Z.shiftr crc 24) 0x000000FF).

(** [nqwords] is a [uint32_t]. *)
Definition checksum_sw (e : endian) (addr : Z) (chunk : list byte) : outcome Z :=
  let '(crc, rest) := crc_head (crc_step e) addr chunk 0xffffffff in
  let len := zlen rest in
  '(crc, rest) ← crc_qwords e (Z.to_nat (wrap32 (len / 8))) rest crc;
  crc ← crc_tail (crc_step e) (Z.to_nat (Z.land len 0x7)) rest crc;
  let crc := match e with LittleEndian => crc | BigEndian => swap32 crc end in
  mret (wrap32 (Z.lnot crc)).

(** ** crc32-x86.cc *)
Section Hardware.
(** The instructions [crc32b] and [crc32q]. *)
Variable crc32_u8 : Z -> byte -> Z.
Variable crc32_u64 : Z -> Z -> Z.

Fixpoint hw_qwords (nqwords : nat) (chunk : list byte) (crc : Z) : outcome (Z * list byte) :=
  match nqwords with
  | O => mret (crc, chunk)
  | S nqwords =>
      d ← mem_read chunk 0 8;
      hw_qwords nqwords (zdrop 8 chunk) (crc32_u64 crc (load LittleEndian d))
  end.

Definition checksum_hw (addr : Z) (chunk : list byte) : outcome Z :=
  let '(crc, rest) := crc_head crc32_u8 addr chunk 0xffffffff in
  let len := zlen rest in
  '(crc, rest) ← hw_qwords (Z.to_nat (len / 8)) rest crc;
  crc ← crc_tail crc32_u8 (Z.to_nat (Z.land len 0x7)) rest crc;
  mret (wrap32 (Z.lnot crc)).

(** [checksum_init] on x86-64: [ecx] is what [cpuid] answers. *)
Definition checksum_init (ecx : Z) : Z -> list byte -> outcome Z :=
  if negb (Z.land ecx (Z.shiftl 1 20) =? 0) then checksum_hw else checksum_sw LittleEndian.
End Hardware.

(** ** crc.cc *)

(** [g_Crc32] is empty until [checksum_init] was called. *)
Definition Crc32 (e : endian) (g_Crc32 : option (Z -> list byte -> outcome Z)) (addr : Z) (chunk : list byte)
    : outcome Z :=
  match g_Crc32 with
  | Some f => f addr chunk
  | None => checksum_sw e addr chunk
  end.

(** ** The reference: one bit at a time *)

Definition crc_bit (poly c : Z) : Z :=
  if Z.odd c then Z.lxor (Z.shiftr c 1) poly else Z.shiftr c 1.
Definition crc_bits (poly : Z) (n : nat) (c : Z) : Z := Nat.iter n (crc_bit poly) c.
Definition crc_fold (poly : Z) (l : list byte) (c : Z) : Z :=
  fold_left (fun c b => crc_bits poly 8 (Z.lxor c (byte.unsigned b))) l c.
Definition crc_reference (poly : Z) (l : list byte) : Z :=
  wrap32 (Z.lnot (crc_fold poly l 0xffffffff)).

(** The polynomials of Castagnoli and of IEEE 802.3 (ITU V.42), reflected. *)
Definition castagnoli : Z := 0x82F63B78.
Definition ieee : Z := 0xEDB88320.
Definition crc32c (l : list byte) : Z := crc_reference castagnoli l.

(** *** Linearity *)

Lemma odd_lxor x y : Z.odd (Z.lxor x y) = xorb (Z.odd x) (Z.odd y).
Proof. rewrite <- !Z.bit0_odd. apply Z.lxor_spec. Qed.

Lemma crc_bit_lxor poly x y : crc_bit poly (Z.lxor x y) = Z.lxor (crc_bit poly x) (crc_bit poly y).
Proof.
  unfold crc_bit. rewrite odd_lxor, Z.shiftr_lxor.
  destruct (Z.odd x), (Z.odd y); cbn [xorb].
  - rewrite Z.lxor_assoc, (Z.lxor_comm (Z.shiftr y 1)), <- (Z.lxor_assoc poly), Z.lxor_nilpotent, Z.lxor_0_l. done.
  - by rewrite !Z.lxor_assoc, (Z.lxor_comm (Z.shiftr y 1)).
  - by rewrite Z.lxor_assoc.
  - done.
Qed.

Lemma crc_bits_lxor poly n x y :
  crc_bits poly n (Z.lxor x y) = Z.lxor (crc_bits poly n x) (crc_bits poly n y).
Proof.
  unfold crc_bits. induction n as [|n IH]; [done|]. by rewrite !Nat.iter_succ, IH, crc_bit_lxor.
Qed.

Lemma crc_bits_add poly n m x : crc_bits poly (n + m) x = crc_bits poly n (crc_bits poly m x).
Proof. apply Nat.iter_add. Qed.

Lemma crc_bits_shiftl poly n y : crc_bits poly n (Z.shiftl y (Z.of_nat n)) = y.
Proof.
  revert y. induction n as [|n IH]; intros y; [apply Z.shiftl_0_r|].
  replace (S n) with (n + 1)%nat by lia. rewrite crc_bits_add.
  assert (E : crc_bits poly 1 (Z.shiftl y (Z.of_nat (n + 1))) = Z.shiftl y (Z.of_nat n)).
  { unfold crc_bits, crc_bit. cbn [Nat.iter nat_rect].
    replace (Z.of_nat (n + 1)) with (Z.of_nat n + 1) by lia. rewrite <- Z.shiftl_shiftl by lia.
    rewrite <- Z.bit0_odd, Z.shiftl_spec_low by lia. rewrite Z.shiftr_shiftl_l by lia. apply Z.shiftl_0_r. }
  by rewrite E.
Qed.

Lemma crc_bits_shiftl8 poly y : crc_bits poly 8 (Z.shiftl y 8) = y.
Proof. exact (crc_bits_shiftl poly 8 y). Qed.

Lemma crc_bits_shift8 poly n y : crc_bits poly (n + 8) (Z.shiftl y 8) = crc_bits poly n y.
Proof. rewrite crc_bits_add. by rewrite crc_bits_shiftl8. Qed.

(** Whole stretches of bytes at once. *)
Lemma crc_fold_combine poly l c :
  crc_fold poly l c = crc_bits poly (8 * length l) (Z.lxor c (le_combine l)).
Proof.
  revert c. induction l as [|b l IH]; intros c; [cbn; by rewrite Z.lxor_0_r|].
  change (crc_fold poly (b :: l) c) with (crc_fold poly l (crc_bits poly 8 (Z.lxor c (byte.unsigned b)))).
  rewrite IH. cbn [length]. replace (8 * S (length l))%nat with (8 * length l + 8)%nat by lia.
  rewrite crc_bits_add. f_equal.
  assert (E : le_combine (b :: l) = Z.lxor (byte.unsigned b) (Z.shiftl (le_combine l) 8)).
  { change (le_combine (b :: l)) with (Z.lor (byte.unsigned b) (Z.shiftl (le_combine l) 8)).
    pose proof (byte.unsigned_range b).
    rewrite lor_shiftl_add by lia. rewrite <- Z.shiftl_mul_pow2 by lia. apply Z.add_nocarry_lxor.
    apply Z.bits_inj'. intros i Hi. rewrite Z.land_spec, Z.bits_0.
    destruct (Z.lt_ge_cases i 8); [by rewrite Z.shiftl_spec_low, andb_false_r by lia|].
    rewrite <- (Z.mod_small (byte.unsigned b) (2 ^ 8)), Z.mod_pow2_bits_high by lia. done. }
  rewrite E, <- Z.lxor_assoc, (crc_bits_lxor poly 8 (Z.lxor c (byte.unsigned b))). by rewrite crc_bits_shiftl8.
Qed.

(** *** The tables *)

(** Entry [i] of table [k] is the checksum register after [k + 1] bytes. *)
Lemma slice_le k i : (k < 8)%nat -> 0 <= i < 256 -> slice LittleEndian k i = crc_bits castagnoli (8 * k + 8) i.
Proof.
  intros Hk Hi.
  assert (Hall : forallb (fun k => forallb (fun i => slice LittleEndian k i =? crc_bits castagnoli (8 * k + 8) i)
    (seqZ 0 256)) (seq 0 8) = true) by (vm_compute; reflexivity).
  rewrite forallb_forall in Hall. specialize (Hall k ltac:(apply in_seq; lia)).
  rewrite forallb_forall in Hall. apply Z.eqb_eq, Hall, list_elem_of_In, elem_of_seqZ. lia.
Qed.

(** The byte-reversed tables. *)
Lemma slice_be k i : (k < 8)%nat -> 0 <= i < 256 -> slice BigEndian k i = swap32 (slice LittleEndian k i).
Proof.
  intros Hk Hi.
  assert (Hall : forallb (fun k => forallb (fun i => slice BigEndian k i =? swap32 (slice LittleEndian k i))
    (seqZ 0 256)) (seq 0 8) = true) by (vm_compute; reflexivity).
  rewrite forallb_forall in Hall. specialize (Hall k ltac:(apply in_seq; lia)).
  rewrite forallb_forall in Hall. apply Z.eqb_eq, Hall, list_elem_of_In, elem_of_seqZ. lia.
Qed.

(** The lowest byte and the others. *)
Lemma low_byte x : x = Z.lxor (Z.land x 0xFF) (Z.shiftl (Z.shiftr x 8) 8).
Proof.
  rewrite land_255, Z.shiftr_div_pow2, Z.shiftl_mul_pow2 by lia. change (2 ^ 8) with 256.
  rewrite <- Z.add_nocarry_lxor; [pose proof (Z.div_mod x 256); lia|].
  change 256 with (2 ^ 8). rewrite <- Z.shiftl_mul_pow2, <- Z.land_ones by lia.
  apply Z.bits_inj'. intros i Hi. rewrite !Z.land_spec, Z.bits_0.
  destruct (Z.lt_ge_cases i 8); [rewrite Z.shiftl_spec_low by lia; apply andb_false_r|].
  by rewrite Z.ones_spec_high, andb_false_r by lia.
Qed.

Lemma crc_step_le crc b : 0 <= crc ->
  crc_step LittleEndian crc b = crc_bits castagnoli 8 (Z.lxor crc (byte.unsigned b)).
Proof.
  intros Hc. unfold crc_step. set (x := Z.lxor crc (byte.unsigned b)).
  rewrite slice_le by (lia || apply land_255_range). cbn [Nat.mul Nat.add].
  rewrite (low_byte x) at 2. rewrite crc_bits_lxor, crc_bits_shiftl8. f_equal.
  unfold x. rewrite Z.shiftr_lxor. pose proof (byte.unsigned_range b).
  rewrite (Z.shiftr_div_pow2 (byte.unsigned b)), Z.div_small, Z.lxor_0_r by lia. done.
Qed.

Lemma crc_peel k x : (k < 8)%nat ->
  crc_bits castagnoli (8 * k + 8) x =
  Z.lxor (slice LittleEndian k (Z.land x 0xFF)) (crc_bits castagnoli (8 * k) (Z.shiftr x 8)).
Proof.
  intros Hk. rewrite slice_le by (lia || apply land_255_range).
  rewrite (low_byte x) at 1. by rewrite crc_bits_lxor, crc_bits_shift8.
Qed.

Lemma crc_peel_last k x : (k < 8)%nat -> 0 <= x < 256 ->
  crc_bits castagnoli (8 * k + 8) x = slice LittleEndian k x.
Proof. intros. symmetry. by apply slice_le. Qed.

Lemma crc_shiftr_range x n : 0 <= n <= 32 -> 0 <= x < 2 ^ 32 -> 0 <= Z.shiftr x n < 2 ^ (32 - n).
Proof.
  intros Hn Hx. rewrite Z.shiftr_div_pow2 by lia. split; [apply Z.div_pos; lia|].
  apply Z.div_lt_upper_bound; [lia|]. rewrite <- Z.pow_add_r by lia. replace (n + (32 - n)) with 32 by lia. lia.
Qed.

Lemma crc_slices_le crc next : 0 <= crc < 2 ^ 32 -> 0 <= next < 2 ^ 32 ->
  crc_slices LittleEndian crc next = Z.lxor (crc_bits castagnoli 64 crc) (crc_bits castagnoli 32 next).
Proof.
  intros Hc Hn. unfold crc_slices.
  change 64%nat with (8 * 7 + 8)%nat. rewrite crc_peel by lia.
  change (8 * 7)%nat with (8 * 6 + 8)%nat. rewrite crc_peel by lia.
  change (8 * 6)%nat with (8 * 5 + 8)%nat. rewrite crc_peel by lia.
  change 32%nat with (8 * 3 + 8)%nat. rewrite (crc_peel 3) by lia.
  change (8 * 3)%nat with (8 * 2 + 8)%nat. rewrite (crc_peel 2) by lia.
  change (8 * 2)%nat with (8 * 1 + 8)%nat. rewrite (crc_peel 1) by lia.
  change (8 * 5)%nat with (8 * 4 + 8)%nat. change (8 * 1)%nat with (8 * 0 + 8)%nat.
  rewrite !Z.shiftr_shiftr by lia. cbn [Z.add Pos.add Pos.succ].
  rewrite (crc_peel_last 4), (crc_peel_last 0) by (lia || (apply (crc_shiftr_range _ 24); lia)).
  rewrite !Z.lxor_assoc. done.
Qed.

(** *** Byte reversal *)

Lemma swap32_lxor_form c :
  swap32 c = Z.lxor (Z.lxor (Z.lxor (Z.land (wrap32 (Z.shiftl c 24)) 0xFF000000)
    (Z.land (wrap32 (Z.shiftl c 8)) 0x00FF0000))
    (Z.land (Z.shiftr c 8) 0x0000FF00)) (Z.land (Z.shiftr c 24) 0x000000FF).
Proof.
  unfold swap32. rewrite !lor_disjoint; [done|..].
  all: rewrite ?Z.land_lor_distr_l, !masked_disjoint by done; done.
Qed.

Lemma swap32_lxor x y : swap32 (Z.lxor x y) = Z.lxor (swap32 x) (swap32 y).
Proof.
  rewrite !swap32_lxor_form. unfold wrap32. rewrite !Z.shiftl_lxor, !Z.shiftr_lxor, <- !lxor_mod, !land_lxor by lia.
  generalize (Z.land (Z.shiftl x 24 mod 2 ^ 32) 0xFF000000) (Z.land (Z.shiftl y 24 mod 2 ^ 32) 0xFF000000)
    (Z.land (Z.shiftl x 8 mod 2 ^ 32) 0x00FF0000) (Z.land (Z.shiftl y 8 mod 2 ^ 32) 0x00FF0000)
    (Z.land (Z.shiftr x 8) 0x0000FF00) (Z.land (Z.shiftr y 8) 0x0000FF00)
    (Z.land (Z.shiftr x 24) 0x000000FF) (Z.land (Z.shiftr y 24) 0x000000FF).
  intros a a' b b' c c' d d'. apply Z.bits_inj'. intros i _. rewrite !Z.lxor_spec.
  destruct (Z.testbit a i), (Z.testbit a' i), (Z.testbit b i), (Z.testbit b' i),
    (Z.testbit c i), (Z.testbit c' i), (Z.testbit d i), (Z.testbit d' i); done.
Qed.

(** The bytes of a 32-bit value, and the value with their order reversed. *)
Lemma swap32_bytes a b c d : 0 <= a < 256 -> 0 <= b < 256 -> 0 <= c < 256 -> 0 <= d < 256 ->
  swap32 (a + 2 ^ 8 * b + 2 ^ 16 * c + 2 ^ 24 * d) = d + 2 ^ 8 * c + 2 ^ 16 * b + 2 ^ 24 * a.
Proof.
  intros Ha Hb Hc Hd. set (v := a + _ + _ + _). rewrite swap32_lxor_form.
  change 0xFF000000 with (Z.shiftl 0xFF 24). change 0x00FF0000 with (Z.shiftl 0xFF 16).
  change 0x0000FF00 with (Z.shiftl 0xFF 8). change 0x000000FF with (Z.shiftl 0xFF 0).
  rewrite !land_mask, !Z.shiftl_mul_pow2, !Z.shiftr_div_pow2 by lia. unfold wrap32.
  assert (E1 : (v * 2 ^ 24) mod 2 ^ 32 / 2 ^ 24 mod 256 = a) by (unfold v; Z.div_mod_to_equations; lia).
  assert (E2 : (v * 2 ^ 8) mod 2 ^ 32 / 2 ^ 16 mod 256 = b) by (unfold v; Z.div_mod_to_equations; lia).
  assert (E3 : v / 2 ^ 8 / 2 ^ 8 mod 256 = c) by (unfold v; Z.div_mod_to_equations; lia).
  assert (E4 : v / 2 ^ 24 / 2 ^ 0 mod 256 = d) by (unfold v; Z.div_mod_to_equations; lia).
  rewrite E1, E2, E3, E4, Z.mul_1_r.
  rewrite (lxor_high_low a) by lia.
  replace (a * 2 ^ 24 + b * 2 ^ 16) with ((a * 2 ^ 8 + b) * 2 ^ 16) by lia. rewrite lxor_high_low by lia.
  replace ((a * 2 ^ 8 + b) * 2 ^ 16 + c * 2 ^ 8) with ((a * 2 ^ 16 + b * 2 ^ 8 + c) * 2 ^ 8) by lia.
  rewrite lxor_high_low by lia. lia.
Qed.

Lemma swap32_spec v : 0 <= v < 2 ^ 32 ->
  (0 <= swap32 v < 2 ^ 32) /\ swap32 (swap32 v) = v /\
  Z.shiftr (swap32 v) 24 = Z.land v 0xFF /\
  Z.land (Z.shiftr (swap32 v) 16) 0xFF = Z.land (Z.shiftr v 8) 0xFF /\
  Z.land (Z.shiftr (swap32 v) 8) 0xFF = Z.land (Z.shiftr v 16) 0xFF /\
  Z.land (swap32 v) 0xFF = Z.shiftr v 24 /\
  wrap32 (Z.shiftl (swap32 v) 8) = swap32 (Z.shiftr v 8).
Proof.
  intros Hv. destruct (bytes_of v Hv) as (a & b & c & d & Ha & Hb & Hc & Hd & ->).
  rewrite !land_255, !Z.shiftr_div_pow2, !Z.shiftl_mul_pow2 by lia.
  replace ((a + 2 ^ 8 * b + 2 ^ 16 * c + 2 ^ 24 * d) / 2 ^ 8) with (b + 2 ^ 8 * c + 2 ^ 16 * d + 2 ^ 24 * 0)
    by (Z.div_mod_to_equations; lia).
  rewrite !swap32_bytes by lia. unfold wrap32. repeat split; Z.div_mod_to_equations; lia.
Qed.

Lemma load_swap d : length d = 4%nat -> load BigEndian d = swap32 (load LittleEndian d).
Proof.
  intros Hd. do 4 (destruct d as [|? d]; [done|]). destruct d; [|done].
  pose proof (byte.unsigned_range b). pose proof (byte.unsigned_range b0).
  pose proof (byte.unsigned_range b1). pose proof (byte.unsigned_range b2).
  unfold load. cbn [rev app]. rewrite !le_combine4, swap32_bytes by lia. done.
Qed.

(** *** The loops *)

Lemma crc_bit_range c : 0 <= c < 2 ^ 32 -> 0 <= crc_bit castagnoli c < 2 ^ 32.
Proof.
  intros Hc. pose proof (crc_shiftr_range c 1 ltac:(lia) Hc). unfold crc_bit.
  destruct (Z.odd c); [apply lxor_range; unfold castagnoli; lia|lia].
Qed.
Lemma crc_bits_range n c : 0 <= c < 2 ^ 32 -> 0 <= crc_bits castagnoli n c < 2 ^ 32.
Proof.
  intros Hc. unfold crc_bits. induction n as [|n IH]; [done|]. rewrite Nat.iter_succ. by apply crc_bit_range.
Qed.
Lemma crc_fold_range l c : 0 <= c < 2 ^ 32 -> 0 <= crc_fold castagnoli l c < 2 ^ 32.
Proof.
  revert c. induction l as [|b l IH]; intros c Hc; [done|]. apply IH, crc_bits_range, lxor_range; [lia|done|].
  pose proof (byte.unsigned_range b). lia.
Qed.
Lemma crc_fold_app poly l k c : crc_fold poly (l ++ k) c = crc_fold poly k (crc_fold poly l c).
Proof. apply fold_left_app. Qed.

Section Loops.
(** [enc c] is how the register [c] is held, [step] one byte on it. *)
Context {step : Z -> byte -> Z} {enc : Z -> Z}
  (Hstep : forall c b, 0 <= c < 2 ^ 32 -> step (enc c) b = enc (crc_fold castagnoli [b] c)).

Lemma crc_head_ok addr l c : 0 <= c < 2 ^ 32 ->
  exists k rest, l = k ++ rest /\ crc_head step addr l (enc c) = (enc (crc_fold castagnoli k c), rest).
Proof.
  revert addr c. induction l as [|b l IH]; intros addr c Hc; cbn [crc_head]; [by exists [], []|].
  destruct (negb _); [|by exists [], (b :: l)]. rewrite Hstep by done.
  destruct (IH (addr + 1) (crc_fold castagnoli [b] c)) as (k & rest & -> & ->); [by apply crc_fold_range|].
  exists (b :: k), rest. split; [done|]. by rewrite <- crc_fold_app.
Qed.

Lemma crc_tail_ok l c : 0 <= c < 2 ^ 32 ->
  crc_tail step (length l) l (enc c) = Ret (enc (crc_fold castagnoli l c)).
Proof.
  revert c. induction l as [|b l IH]; intros c Hc; [done|]. cbn [crc_tail length].
  rewrite Hstep by done. rewrite IH by by apply crc_fold_range. by rewrite <- crc_fold_app.
Qed.
End Loops.

(** How a host holds the register. *)
Definition held (e : endian) (c : Z) : Z := match e with LittleEndian => c | BigEndian => swap32 c end.

Lemma crc_step_held e c b : 0 <= c < 2 ^ 32 ->
  crc_step e (held e c) b = held e (crc_fold castagnoli [b] c).
Proof.
  intros Hc. change (crc_fold castagnoli [b] c) with (crc_bits castagnoli 8 (Z.lxor c (byte.unsigned b))).
  rewrite <- crc_step_le by lia. destruct e; [done|]. unfold held, crc_step.
  destruct (swap32_spec c Hc) as (_ & _ & E24 & _ & _ & _ & Esh). rewrite E24, Esh, swap32_lxor.
  pose proof (byte.unsigned_range b).
  assert (E : Z.land (Z.lxor (Z.land c 0xFF) (byte.unsigned b)) 0xFF = Z.land (Z.lxor c (byte.unsigned b)) 0xFF).
  { by rewrite !land_lxor, <- Z.land_assoc. }
  rewrite E. by rewrite slice_be by (lia || apply land_255_range).
Qed.

Lemma load_range4 e d : length d = 4%nat -> 0 <= load e d < 2 ^ 32.
Proof.
  intros Hd. assert (H : 0 <= load LittleEndian d < 2 ^ 32).
  { unfold load. pose proof (le_combine_bound d) as H. by rewrite Hd in H. }
  destruct e; [done|]. rewrite load_swap by done. by apply swap32_spec.
Qed.

Lemma crc_slices_be c n : 0 <= c < 2 ^ 32 -> 0 <= n < 2 ^ 32 ->
  crc_slices BigEndian (swap32 c) (swap32 n) = swap32 (crc_slices LittleEndian c n).
Proof.
  intros Hc Hn. destruct (swap32_spec c Hc) as (_ & _ & C0 & C1 & C2 & C3 & _).
  destruct (swap32_spec n Hn) as (_ & _ & N0 & N1 & N2 & N3 & _).
  pose proof (crc_shiftr_range c 24 ltac:(lia) Hc). pose proof (crc_shiftr_range n 24 ltac:(lia) Hn).
  unfold crc_slices. rewrite C0, C1, C2, C3, N0, N1, N2, N3, !swap32_lxor.
  rewrite !slice_be by (lia || apply land_255_range).
  apply Z.bits_inj'. intros i _. rewrite !Z.lxor_spec.
  repeat match goal with |- context [Z.testbit ?x i] => destruct (Z.testbit x i) end; done.
Qed.

Lemma crc_slices_held e first next c : length first = 4%nat -> length next = 4%nat -> 0 <= c < 2 ^ 32 ->
  crc_slices e (Z.lxor (held e c) (load e first)) (load e next) = held e (crc_fold castagnoli (first ++ next) c).
Proof.
  intros Hf Hn Hc.
  assert (HL : crc_slices LittleEndian (Z.lxor c (load LittleEndian first)) (load LittleEndian next) =
    crc_fold castagnoli (first ++ next) c).
  { pose proof (load_range4 LittleEndian first Hf). pose proof (load_range4 LittleEndian next Hn).
    rewrite crc_slices_le by (done || (apply lxor_range; lia)).
    rewrite crc_fold_app, (crc_fold_combine _ next), (crc_fold_combine _ first), Hf, Hn,
      (crc_bits_lxor _ _ (crc_bits _ _ _)).
    change (8 * 4)%nat with 32%nat. rewrite <- crc_bits_add. done. }
  destruct e; [done|]. unfold held. rewrite !load_swap, <- swap32_lxor by done.
  rewrite crc_slices_be, HL; [done|apply lxor_range; [lia|done|by apply load_range4]|by apply load_range4].
Qed.

Lemma crc_qwords_ok e n l c : 8 * Z.of_nat n <= zlen l -> 0 <= c < 2 ^ 32 ->
  crc_qwords e n l (held e c) = Ret (held e (crc_fold castagnoli (ztake (8 * Z.of_nat n) l) c), zdrop (8 * Z.of_nat n) l).
Proof.
  revert l c. induction n as [|n IH]; intros l c Hn Hc; [done|]. cbn [crc_qwords].
  assert (Hsplit : exists a b r, l = a ++ b ++ r /\ length a = 4%nat /\ length b = 4%nat).
  { exists (take 4 l), (take 4 (drop 4 l)), (drop 4 (drop 4 l)). rewrite !take_drop. split; [done|].
    unfold zlen in Hn. rewrite !length_take, length_drop. lia. }
  destruct Hsplit as (a & b & r & -> & Ha & Hb).
  assert (Ea : zlen a = 4) by (unfold zlen; lia). assert (Eb : zlen b = 4) by (unfold zlen; lia).
  rewrite (mem_read_mid (a ++ b ++ r) [] a (b ++ r) 0 4) by (done || lia). cbn [mbind outcome_bind].
  rewrite (mem_read_mid (a ++ b ++ r) a b r 4 4) by (done || lia). cbn [mbind outcome_bind].
  rewrite crc_slices_held by done.
  assert (Ed : forall m, 0 <= m -> zdrop (8 + m) (a ++ b ++ r) = zdrop m r /\ ztake (8 + m) (a ++ b ++ r) = (a ++ b) ++ ztake m r).
  { intros m Hm. rewrite app_assoc. unfold zdrop, ztake. replace (Z.to_nat (8 + m)) with (length (a ++ b) + Z.to_nat m)%nat
      by (rewrite length_app; lia). rewrite drop_app_add, take_app_add. done. }
  replace (8 * Z.of_nat (S n)) with (8 + 8 * Z.of_nat n) by lia.
  destruct (Ed 0 ltac:(lia)) as [E0 _]. rewrite Z.add_0_r in E0. rewrite E0, zdrop_0.
  destruct (Ed (8 * Z.of_nat n) ltac:(lia)) as [-> ->].
  rewrite !zlen_app in Hn. rewrite IH; [|lia|by apply crc_fold_range]. by rewrite (crc_fold_app _ (a ++ b)).
Qed.

Lemma land_7 x : Z.land x 0x7 = x mod 8.
Proof. change 0x7 with (Z.ones 3). by apply Z.land_ones. Qed.

Lemma checksum_sw_ok e addr chunk : zlen chunk < 2 ^ 35 -> checksum_sw e addr chunk = Ret (crc32c chunk).
Proof.
  intros Hl. unfold checksum_sw. set (c0 := 0xffffffff).
  assert (H0 : 0 <= c0 < 2 ^ 32) by done.
  assert (E0 : c0 = held e c0) by by destruct e. rewrite E0.
  destruct (crc_head_ok (crc_step_held e) addr chunk c0 H0) as (k & rest & -> & ->).
  rewrite zlen_app in Hl. pose proof (zlen_nonneg k). pose proof (zlen_nonneg rest).
  assert (0 <= zlen rest / 8 < 2 ^ 32) by (Z.div_mod_to_equations; lia).
  rewrite wrap32_small by done.
  rewrite crc_qwords_ok; [|Z.div_mod_to_equations; lia|by apply crc_fold_range]. cbn [mbind outcome_bind].
  rewrite land_7. set (n := 8 * Z.of_nat (Z.to_nat (zlen rest / 8))).
  assert (Hn : Z.to_nat (zlen rest mod 8) = length (zdrop n rest)).
  { unfold zdrop, n. rewrite length_drop. unfold zlen in *. Z.div_mod_to_equations; lia. }
  rewrite Hn, (crc_tail_ok (crc_step_held e)) by by apply crc_fold_range, crc_fold_range.
  cbn [mbind outcome_bind]. rewrite <- (crc_fold_app _ (ztake n rest)), ztake_zdrop, <- crc_fold_app.
  destruct e; [done|]. unfold held. by rewrite (proj1 (proj2 (swap32_spec _ (crc_fold_range _ _ H0)))).
Qed.

(** *** The processor's instructions *)

(** What the manual says of [crc32b] and [crc32q]: the bit-serial CRC of the
    operand's bytes, lowest first. *)
Record crc_instructions (u8 : Z -> byte -> Z) (u64 : Z -> Z -> Z) : Prop := {
  crc32b_spec c b : 0 <= c < 2 ^ 32 -> u8 c b = crc_bits castagnoli 8 (Z.lxor c (byte.unsigned b));
  crc32q_spec c q : 0 <= c < 2 ^ 32 -> 0 <= q < 2 ^ 64 -> u64 c q = crc_bits castagnoli 64 (Z.lxor c q)
}.

Section Processor.
Context {u8 : Z -> byte -> Z} {u64 : Z -> Z -> Z} (Hcpu : crc_instructions u8 u64).

Lemma u8_step c b : 0 <= c < 2 ^ 32 -> u8 (id c) b = id (crc_fold castagnoli [b] c).
Proof. apply (crc32b_spec _ _ Hcpu). Qed.

Lemma hw_qwords_ok n l c : 8 * Z.of_nat n <= zlen l -> 0 <= c < 2 ^ 32 ->
  hw_qwords u64 n l c = Ret (crc_fold castagnoli (ztake (8 * Z.of_nat n) l) c, zdrop (8 * Z.of_nat n) l).
Proof.
  revert l c. induction n as [|n IH]; intros l c Hn Hc; [done|]. cbn [hw_qwords].
  rewrite mem_read_ok by lia. rewrite zdrop_0. cbn [mbind outcome_bind].
  set (d := ztake 8 l). assert (Hd : length d = 8%nat) by (unfold d, ztake; unfold zlen in Hn; rewrite length_take; lia).
  assert (Hr : 0 <= load LittleEndian d < 2 ^ 64).
  { unfold load. pose proof (le_combine_bound d) as H. by rewrite Hd in H. }
  assert (E : u64 c (load LittleEndian d) = crc_fold castagnoli d c).
  { rewrite (crc32q_spec _ _ Hcpu) by done. rewrite crc_fold_combine, Hd. done. }
  rewrite E, IH; [|rewrite zlen_zdrop; lia|by apply crc_fold_range].
  rewrite <- crc_fold_app, zdrop_zdrop by lia.
  replace (8 * Z.of_nat (S n)) with (8 + 8 * Z.of_nat n) by lia. do 4 f_equal.
  unfold d, ztake, zdrop. by rewrite Z2Nat.inj_add, take_take_drop by lia.
Qed.

Lemma checksum_hw_ok addr chunk : checksum_hw u8 u64 addr chunk = Ret (crc32c chunk).
Proof.
  unfold checksum_hw. set (c0 := 0xffffffff). assert (H0 : 0 <= c0 < 2 ^ 32) by done.
  destruct (crc_head_ok u8_step addr chunk c0 H0) as (k & rest & -> & E). unfold id in E. rewrite E. clear E.
  pose proof (zlen_nonneg rest).
  rewrite hw_qwords_ok; [|Z.div_mod_to_equations; lia|by apply crc_fold_range]. cbn [mbind outcome_bind].
  rewrite land_7. set (n := 8 * Z.of_nat (Z.to_nat (zlen rest / 8))).
  assert (Hn : Z.to_nat (zlen rest mod 8) = length (zdrop n rest)).
  { unfold zdrop, n. rewrite length_drop. unfold zlen in *. Z.div_mod_to_equations; lia. }
  pose proof (crc_tail_ok u8_step (zdrop n rest) (crc_fold castagnoli (ztake n rest) (crc_fold castagnoli k c0))
    ltac:(by apply crc_fold_range, crc_fold_range)) as Ht. unfold id in Ht.
  rewrite Hn, Ht. cbn [mbind outcome_bind].
  by rewrite <- (crc_fold_app _ (ztake n rest)), ztake_zdrop, <- crc_fold_app.
Qed.
End Processor.

(** ** Claims *)

(** C14: whatever [checksum_init] found, [Crc32] is the bit-serial CRC-32C of
    the chunk: the software with the slicing tables, on hosts of either byte
    order and for every alignment of the chunk, and the variant with the
    processor's instructions give the same value, without reading outside
    the chunk (chunks below 2^35 bytes, beyond which the software's counter
    of words wraps). *)
Theorem checksums_are_crc32c (e : endian) (u8 : Z -> byte -> Z) (u64 : Z -> Z -> Z)
    (ecx addr : Z) (chunk : list byte) :
  crc_instructions u8 u64 -> zlen chunk < 2 ^ 35 ->
  Crc32 e None addr chunk = Ret (crc32c chunk) /\
  Crc32 e (Some (checksum_init u8 u64 ecx)) addr chunk = Ret (crc32c chunk).
Proof.
  intros Hcpu Hl. unfold Crc32, checksum_init. split; [by apply checksum_sw_ok|].
  destruct (negb _); [by apply checksum_hw_ok|by apply checksum_sw_ok].
Qed.

Definition model_u8 (c : Z) (b : byte) : Z := crc_bits castagnoli 8 (Z.lxor c (byte.unsigned b)).
Definition model_u64 (c q : Z) : Z := crc_bits castagnoli 64 (Z.lxor c q).
Definition check_input : list byte := map byte.of_Z [49; 50; 51; 52; 53; 54; 55; 56; 57].

Lemma checksums_are_crc32c_witness :
  Crc32 BigEndian None 3 check_input = Ret (crc32c check_input) /\
  Crc32 BigEndian (Some (checksum_init model_u8 model_u64 (2 ^ 20))) 3 check_input = Ret (crc32c check_input).
Proof. apply (checksums_are_crc32c BigEndian model_u8 model_u64 (2 ^ 20) 3 check_input); [by split|done]. Defined.

(** The FINGERPRINT attribute is checked against RFC 5389, which asks for
    the CRC-32 of ITU V.42; the function the program calls computes CRC-32C
    instead: on the digits 1 to 9, whose checksums are published, it gives
    0xE3069283 and not 0xCBF43926. *)
Theorem crc32_is_not_v42 :
  Crc32 host_order None 0 check_input = Ret 0xE3069283 /\ crc_reference ieee check_input = 0xCBF43926.
Proof. split; vm_compute; reflexivity. Qed.
