(* ===== verification/Blocks.v ===== *)
(** * What the digests share: words of a block, rotation, blocks of a message

    SHA-1 and MD5 both cut the message in blocks of 64 bytes, keep the bytes
    of the incomplete block in the context and count the bits in two 32-bit
    words.  [blocks f] is the reference for that: the compression function
    [f] over the complete blocks, in order. *)

From Stdlib Require Import ZArith Lia.
From S2P Require Import Prelude ByteOrder.

Definition rol (value bits : Z) : Z :=
  Z.lor (wrap32 (Z.shiftl value bits)) (Z.shiftr value (32 - bits)).

(** The words of a block as the host loads them. *)
Definition word_at (block : list Z) (i : nat) : Z := nth i block 0.
Fixpoint words (e : endian) (n : nat) (bs : list byte) : list Z :=
  match n with
  | O => []
  | S n => load e (take 4 bs) :: words e n (drop 4 bs)
  end.

Lemma length_words e n bs : length (words e n bs) = n.
Proof. revert bs. induction n as [|n IH]; intros bs; cbn; [done|]. by rewrite IH. Qed.

Lemma word_at_words e n bs i : (i < n)%nat -> word_at (words e n bs) i = load e (take 4 (drop (4 * i) bs)).
Proof.
  unfold word_at. revert bs i. induction n as [|n IH]; intros bs i Hi; [lia|]. cbn [words].
  destruct i as [|i]; [done|]. cbn [nth]. rewrite IH by lia. rewrite drop_drop. do 3 f_equal. lia.
Qed.

Lemma words_app e n k d d' : length d = (4 * n)%nat -> words e (n + k) (d ++ d') = words e n d ++ words e k d'.
Proof.
  revert d. induction n as [|n IH]; intros d Hd; [by destruct d|]. cbn [Nat.add words app].
  rewrite take_app_le, drop_app_le by lia. rewrite IH; [done|]. rewrite length_drop. lia.
Qed.

(** ** Copies into the buffer *)

Lemma take_splice (buf d : list byte) n : (n + length d <= length buf)%nat ->
  take (n + length d) (splice buf (Z.of_nat n) d) = take n buf ++ d /\
  length (splice buf (Z.of_nat n) d) = length buf.
Proof.
  intros Hl. unfold splice, ztake, zdrop. rewrite Nat2Z.id. rewrite app_assoc.
  split.
  - rewrite take_app_le by (rewrite length_app, length_take; lia).
    apply take_ge. rewrite length_app, length_take. lia.
  - rewrite !length_app, length_take, length_drop. unfold zlen. lia.
Qed.

Lemma mem_write_at (buf d : list byte) n : (n + length d <= length buf)%nat ->
  mem_write buf (Z.of_nat n) d = Ret (splice buf (Z.of_nat n) d).
Proof. intros Hl. apply mem_write_ok; unfold zlen; lia. Qed.

(** ** Blocks of a message *)
Section Blocks.
Context {A : Type} (f : A -> list byte -> A).

Fixpoint blocks (n : nat) (st : A) (msg : list byte) : A :=
  match n with
  | O => st
  | S n => blocks n (f st (take 64 msg)) (drop 64 msg)
  end.

Lemma blocks_app k k' st full x : length full = (64 * k)%nat ->
  blocks (k + k') st (full ++ x) = blocks k' (blocks k st full) x.
Proof.
  revert st full. induction k as [|k IH]; intros st full Hl; [by destruct full|].
  cbn [Nat.add blocks]. rewrite take_app_le, drop_app_le by lia.
  apply IH. rewrite length_drop. lia.
Qed.

Lemma blocks_one st d : length d = 64%nat -> blocks 1 st d = f st d.
Proof. intros Hd. cbn [blocks]. by rewrite take_ge by lia. Qed.

(** [kept init st buf msg]: after [msg] the state is [st] and the buffer [buf]
    starts with the bytes of the incomplete block. *)
Definition kept (init st : A) (buf msg : list byte) : Prop :=
  exists k full part, msg = full ++ part /\ length full = (64 * k)%nat /\ (length part < 64)%nat /\
    st = blocks k init full /\ length buf = 64%nat /\ take (length part) buf = part.

(** The number of kept bytes is the length modulo 64. *)
Lemma kept_part init st buf msg : kept init st buf msg ->
  exists k full part, msg = full ++ part /\ length full = (64 * k)%nat /\
    Z.of_nat (length part) = zlen msg mod 64 /\ (length part < 64)%nat /\
    st = blocks k init full /\ length buf = 64%nat /\ take (length part) buf = part.
Proof.
  intros (k & full & part & -> & Hf & Hp & Hst & Hb & Ht). exists k, full, part.
  do 2 (split; [done|]). split; [|done]. unfold zlen. rewrite length_app, Hf.
  Z.div_mod_to_equations; lia.
Qed.

(** More bytes that do not complete the block. *)
Lemma kept_short init st buf msg data : kept init st buf msg -> zlen msg mod 64 + zlen data < 64 ->
  mem_write buf (zlen msg mod 64) data = Ret (splice buf (zlen msg mod 64) data) /\
  kept init st (splice buf (zlen msg mod 64) data) (msg ++ data).
Proof.
  intros Hk Hs. apply kept_part in Hk as (k & full & part & -> & Hf & Hi & Hp & Hst & Hb & Ht).
  rewrite <- Hi in *. unfold zlen in Hs. rewrite mem_write_at by lia. split; [done|].
  destruct (take_splice buf data (length part)) as [E1 E2]; [lia|].
  exists k, full, (part ++ data). rewrite length_app. split; [by rewrite app_assoc|]. split; [done|].
  split; [lia|]. split; [done|]. split; [by rewrite E2|by rewrite E1, Ht].
Qed.

(** Complete blocks from the data, when no byte is kept. *)
Lemma kept_aligned init st buf msg k full rest buf' : kept init st buf msg -> zlen msg mod 64 = 0 ->
  length full = (64 * k)%nat -> (length rest < 64)%nat -> length buf' = 64%nat -> take (length rest) buf' = rest ->
  kept init (blocks k st full) buf' (msg ++ full ++ rest).
Proof.
  intros Hk Hz Hf Hr Hb' Ht'. apply kept_part in Hk as (k0 & full0 & part & -> & Hf0 & Hi & _ & -> & _ & _).
  rewrite Hz in Hi. destruct part; [|cbn [length] in Hi; lia]. rewrite app_nil_r.
  exists (k0 + k)%nat, (full0 ++ full), rest. split; [by rewrite app_assoc|].
  split; [rewrite length_app; lia|]. split; [done|]. by rewrite blocks_app.
Qed.

(** Bytes that complete the kept block. *)
Lemma kept_complete init st buf msg d : kept init st buf msg -> zlen msg mod 64 + zlen d = 64 ->
  mem_write buf (zlen msg mod 64) d = Ret (splice buf (zlen msg mod 64) d) /\
  length (splice buf (zlen msg mod 64) d) = 64%nat /\
  kept init (f st (splice buf (zlen msg mod 64) d)) (splice buf (zlen msg mod 64) d) (msg ++ d).
Proof.
  intros Hk Hs. apply kept_part in Hk as (k & full & part & -> & Hf & Hi & Hp & Hst & Hb & Ht).
  rewrite <- Hi in *. unfold zlen in Hs. rewrite mem_write_at by lia. split; [done|].
  destruct (take_splice buf d (length part)) as [E1 E2]; [lia|]. split; [by rewrite E2|].
  rewrite take_ge, Ht in E1 by lia. rewrite E1 in E2 |- *.
  exists (k + 1)%nat, (full ++ part ++ d), []. split; [by rewrite app_nil_r, app_assoc|].
  split; [rewrite !length_app; lia|]. split; [cbn; lia|]. split; [|by rewrite E2].
  rewrite blocks_app, blocks_one, Hst by (done || lia). done.
Qed.

(** Bytes that complete the last block of a message. *)
Lemma kept_last init st buf msg d : kept init st buf msg -> zlen msg mod 64 + zlen d = 64 ->
  blocks (length (msg ++ d) / 64) init (msg ++ d) = f st (ztake (zlen msg mod 64) buf ++ d).
Proof.
  intros Hk Hs. apply kept_part in Hk as (k & full & part & -> & Hf & Hi & Hp & -> & Hb & Ht).
  rewrite <- Hi in *. unfold ztake. rewrite Nat2Z.id, Ht. unfold zlen in Hs.
  assert (Hl : length (part ++ d) = 64%nat) by (rewrite length_app; lia).
  replace (length ((full ++ part) ++ d) / 64)%nat with (k + 1)%nat.
  - by rewrite <- app_assoc, blocks_app, blocks_one.
  - rewrite <- app_assoc, length_app, Hf, Hl. replace (64 * k + 64)%nat with ((k + 1) * 64)%nat by lia.
    by rewrite Nat.div_mul.
Qed.

(** The state after complete blocks only. *)
Lemma kept_whole init st buf msg : kept init st buf msg -> zlen msg mod 64 = 0 ->
  st = blocks (length msg / 64) init msg.
Proof.
  intros Hk Hz. apply kept_part in Hk as (k & full & part & -> & Hf & Hi & _ & -> & _ & _).
  rewrite Hz in Hi. destruct part; [|cbn [length] in Hi; lia].
  rewrite app_nil_r, Hf, Nat.mul_comm, Nat.div_mul by lia. done.
Qed.
End Blocks.

Lemma kept_init {A} (f : A -> list byte -> A) init buf : length buf = 64%nat -> kept f init init buf [].
Proof. intros Hb. exists O, [], []. split; [done|]. split; [done|]. split; [cbn; lia|]. by split. Qed.

(** The message with a one bit, zeroes up to 56 bytes modulo 64 and eight
    bytes for the length. *)
Definition padded_message (len : Z -> list byte) (msg : list byte) : list byte :=
  msg ++ [byte.of_Z 128] ++ replicate (Z.to_nat ((55 - zlen msg) mod 64)) Byte.x00 ++ len (8 * zlen msg).

Lemma padded_message_length len msg : (forall n, zlen (len n) = 8) -> zlen (padded_message len msg) mod 64 = 0.
Proof.
  intros Hl. unfold padded_message. rewrite !zlen_app, zlen_replicate, Hl by (apply Z.mod_pos_bound; lia).
  change (zlen [byte.of_Z 128]) with 1. Z.div_mod_to_equations; lia.
Qed.

Lemma mem_write_front (buf d : list byte) : (length d <= length buf)%nat ->
  mem_write buf 0 d = Ret (splice buf 0 d) /\
  take (length d) (splice buf 0 d) = d /\ length (splice buf 0 d) = length buf.
Proof.
  intros Hl. change 0 with (Z.of_nat 0). rewrite mem_write_at by lia.
  destruct (take_splice buf d 0) as [E1 E2]; [lia|]. by rewrite E2.
Qed.

Lemma mem_write_twice (buf d d' : list byte) n : 0 <= n -> n + zlen d + zlen d' <= zlen buf ->
  (b ← mem_write buf n d; mem_write b (n + zlen d) d') = mem_write buf n (d ++ d').
Proof.
  intros Hn Hl. pose proof (zlen_nonneg d). pose proof (zlen_nonneg d').
  rewrite mem_write_ok by lia. cbn [mbind outcome_bind].
  rewrite !mem_write_ok by (rewrite ?zlen_splice, ?zlen_app by lia; lia). f_equal.
  unfold splice. rewrite zlen_app.
  assert (Ht : zlen (ztake n buf ++ d) = n + zlen d) by (rewrite zlen_app, zlen_ztake; lia).
  assert (Et : ztake (n + zlen d) (ztake n buf ++ d ++ zdrop (n + zlen d) buf) = ztake n buf ++ d)
    by (rewrite <- Ht at 1; rewrite app_assoc; apply ztake_app).
  assert (Ed : zdrop (n + zlen d + zlen d') (ztake n buf ++ d ++ zdrop (n + zlen d) buf) =
    zdrop (n + (zlen d + zlen d')) buf).
  { rewrite <- zdrop_zdrop by lia. rewrite <- Ht at 1. rewrite app_assoc, zdrop_app, zdrop_zdrop by lia.
    f_equal. lia. }
  by rewrite Et, Ed, <- !app_assoc.
Qed.

(** ** The count of bits in two words *)

Lemma carry_split a b : 0 <= a -> 0 <= b ->
  (a + b) / 2 ^ 32 = a / 2 ^ 32 + b / 2 ^ 32 + (if (a + b) mod 2 ^ 32 <? b mod 2 ^ 32 then 1 else 0).
Proof.
  intros Ha Hb. destruct (Z.ltb_spec ((a + b) mod 2 ^ 32) (b mod 2 ^ 32)); Z.div_mod_to_equations; lia.
Qed.

Lemma length_index n : 0 <= n -> Z.land (Z.shiftr (wrap32 (8 * n)) 3) 63 = n mod 64.
Proof.
  intros Hn. change 63 with (Z.ones 6). rewrite Z.land_ones, Z.shiftr_div_pow2 by lia. unfold wrap32.
  Z.div_mod_to_equations; lia.
Qed.
