(* ===== verification/Sha1Ok.v ===== *)
(** * base/sha1.cc computes SHA-1: the rounds against FIPS 180, the buffering
    of updates against the concatenation of the data *)

From Stdlib Require Import ZArith Lia.
From S2P Require Import Prelude ByteOrder Blocks Sha1.

(** ** The functions of the rounds *)

Lemma f_choose_Ch w x y : f_choose w x y = Ch w x y.
Proof.
  apply Z.bits_inj'. intros i Hi. unfold f_choose, Ch.
  rewrite !Z.lxor_spec, !Z.land_spec, Z.lxor_spec, Z.lnot_spec by done.
  by destruct (Z.testbit w i), (Z.testbit x i), (Z.testbit y i).
Qed.

Lemma f_majority_Maj w x y : f_majority w x y = Maj w x y.
Proof.
  apply Z.bits_inj'. intros i Hi. unfold f_majority, Maj.
  rewrite Z.lor_spec, !Z.lxor_spec, !Z.land_spec, Z.lor_spec.
  by destruct (Z.testbit w i), (Z.testbit x i), (Z.testbit y i).
Qed.

(** ** Rotation and the order of bytes *)

Lemma rol_spec v k : 0 < k < 32 -> 0 <= v < 2 ^ 32 ->
  rol v k = v mod 2 ^ (32 - k) * 2 ^ k + v / 2 ^ (32 - k) /\ 0 <= rol v k < 2 ^ 32.
Proof.
  intros Hk Hv. unfold rol, wrap32.
  assert (Hp : 2 ^ 32 = 2 ^ (32 - k) * 2 ^ k) by (rewrite <- Z.pow_add_r by lia; f_equal; lia).
  assert (0 < 2 ^ k) by lia. assert (0 < 2 ^ (32 - k)) by lia.
  rewrite Z.shiftl_mul_pow2, Z.shiftr_div_pow2 by lia.
  replace ((v * 2 ^ k) mod 2 ^ 32) with (v mod 2 ^ (32 - k) * 2 ^ k)
    by (rewrite Hp, Z.mul_mod_distr_r by lia; done).
  assert (Hq : 0 <= v / 2 ^ (32 - k) < 2 ^ k).
  { split; [apply Z.div_pos; lia|]. apply Z.div_lt_upper_bound; lia. }
  pose proof (Z.mod_pos_bound v (2 ^ (32 - k)) ltac:(lia)) as Hm.
  rewrite Z.lor_comm, <- Z.shiftl_mul_pow2, lor_shiftl_add, ?Z.shiftl_mul_pow2 by lia.
  split; [lia|]. rewrite Hp. nia.
Qed.

Lemma swap_word a b c d : 0 <= a < 256 -> 0 <= b < 256 -> 0 <= c < 256 -> 0 <= d < 256 ->
  let v := a + 2 ^ 8 * b + 2 ^ 16 * c + 2 ^ 24 * d in
  Z.lor (Z.land (rol v 24) 0xFF00FF00) (Z.land (rol v 8) 0x00FF00FF) = d + 2 ^ 8 * c + 2 ^ 16 * b + 2 ^ 24 * a.
Proof.
  intros Ha Hb Hc Hd. cbv zeta.
  assert (Hv : 0 <= a + 2 ^ 8 * b + 2 ^ 16 * c + 2 ^ 24 * d < 2 ^ 32) by lia.
  destruct (rol_spec (a + 2 ^ 8 * b + 2 ^ 16 * c + 2 ^ 24 * d) 24 ltac:(lia) Hv) as [-> _].
  destruct (rol_spec (a + 2 ^ 8 * b + 2 ^ 16 * c + 2 ^ 24 * d) 8 ltac:(lia) Hv) as [-> _].
  change (32 - 24) with 8. change (32 - 8) with 24. set (v := a + _ + _ + _).
  replace (v mod 2 ^ 8) with a by (unfold v; Z.div_mod_to_equations; lia).
  replace (v / 2 ^ 8) with (b + 2 ^ 8 * c + 2 ^ 16 * d) by (unfold v; Z.div_mod_to_equations; lia).
  replace (v mod 2 ^ 24) with (a + 2 ^ 8 * b + 2 ^ 16 * c) by (unfold v; Z.div_mod_to_equations; lia).
  replace (v / 2 ^ 24) with d by (unfold v; Z.div_mod_to_equations; lia).
  clear v Hv. set (r := a * 2 ^ 24 + _). set (q := _ * 2 ^ 8 + d).
  change 0xFF00FF00 with (Z.lor (Z.shiftl 0xFF 24) (Z.shiftl 0xFF 8)).
  change 0x00FF00FF with (Z.lor (Z.shiftl 0xFF 16) (Z.shiftl 0xFF 0)).
  rewrite !Z.land_lor_distr_r, !land_mask by lia.
  assert (E1 : r / 2 ^ 24 mod 256 = a) by (unfold r; Z.div_mod_to_equations; lia).
  assert (E2 : r / 2 ^ 8 mod 256 = c) by (unfold r; Z.div_mod_to_equations; lia).
  assert (E3 : q / 2 ^ 16 mod 256 = b) by (unfold q; Z.div_mod_to_equations; lia).
  assert (E4 : q / 2 ^ 0 mod 256 = d) by (unfold q; Z.div_mod_to_equations; lia).
  rewrite E1, E2, E3, E4. clear E1 E2 E3 E4. clearbody r q.
  rewrite <- !Z.lor_assoc, (Z.lor_assoc (c * 2 ^ 8)), (Z.lor_comm (c * 2 ^ 8) (b * 2 ^ 16)), <- Z.lor_assoc.
  assert (HL : forall y x k, 0 <= k -> 0 <= x < 2 ^ k -> Z.lor (y * 2 ^ k) x = y * 2 ^ k + x).
  { intros y x k Hk Hx. rewrite Z.lor_comm, <- Z.shiftl_mul_pow2, lor_shiftl_add, ?Z.shiftl_mul_pow2 by done. lia. }
  rewrite (HL c _ 8), (HL b _ 16), (HL a _ 24) by lia. lia.
Qed.

Lemma blk0_value e d : length d = 4%nat ->
  (match e with
   | BigEndian => load e d
   | LittleEndian => Z.lor (Z.land (rol (load e d) 24) 0xFF00FF00) (Z.land (rol (load e d) 8) 0x00FF00FF)
   end) = load BigEndian d.
Proof.
  intros Hd. destruct e; [|done]. do 4 (destruct d as [|? d]; [done|]). destruct d; [|done].
  pose proof (byte.unsigned_range b). pose proof (byte.unsigned_range b0).
  pose proof (byte.unsigned_range b1). pose proof (byte.unsigned_range b2).
  unfold load. cbn [rev app]. rewrite !le_combine4.
  by rewrite swap_word.
Qed.

(** ** The message schedule in the block *)

Lemma word_at_app_l ws ws' i : (i < length ws)%nat -> word_at (ws ++ ws') i = word_at ws i.
Proof. apply app_nth1. Qed.

Lemma schedule_spec n ws :
  length (schedule n ws) = (length ws + n)%nat /\
  (forall i, (i < length ws)%nat -> word_at (schedule n ws) i = word_at ws i) /\
  (forall t, (16 <= length ws <= t)%nat -> (t < length ws + n)%nat ->
   let W k := word_at (schedule n ws) (t - k) in
   W 0%nat = rol (Z.lxor (Z.lxor (Z.lxor (W 3%nat) (W 8%nat)) (W 14%nat)) (W 16%nat)) 1).
Proof.
  revert ws. induction n as [|n IH]; intros ws; cbn [schedule].
  - split; [lia|]. split; [done|]. intros t. lia.
  - set (w := rol _ 1). destruct (IH (ws ++ [w])) as (Hl & Hp & Hs). rewrite length_app in *. cbn [length] in *.
    split; [lia|]. split.
    + intros i Hi. rewrite Hp by lia. by apply word_at_app_l.
    + intros t Ht Ht'. destruct (decide (t = length ws)) as [->|Hne].
      * cbn zeta. rewrite Nat.sub_0_r, !Hp by lia.
        assert (E : word_at (ws ++ [w]) (length ws) = w) by (unfold word_at; by rewrite app_nth2, Nat.sub_diag by lia).
        rewrite E. by rewrite !(word_at_app_l ws) by lia.
      * apply Hs; lia.
Qed.

Lemma word_at_insert block i j v : (i < length block)%nat ->
  word_at (<[i := v]> block) j = if decide (i = j) then v else word_at block j.
Proof.
  intros Hi. unfold word_at. rewrite !nth_lookup. destruct (decide (i = j)) as [<-|Hne].
  - by rewrite list_lookup_insert_eq.
  - by rewrite list_lookup_insert_ne.
Qed.

Lemma land_15 n : Nat.land n 15 = (n mod 16)%nat.
Proof. change 15%nat with (Nat.ones 4). apply Nat.land_ones. Qed.

(** The block after [i] rounds: the last sixteen words of the schedule, or
    the first [i] and the rest as loaded. *)
Definition block_ok (ws raw : list Z) (i : nat) (block : list Z) : Prop :=
  length block = 16%nat /\
  (forall t, (i <= t + 16)%nat -> (t < i)%nat -> word_at block (t mod 16)%nat = word_at ws t) /\
  (forall j, (i <= j < 16)%nat -> word_at block j = word_at raw j).

Lemma block_ok_step ws raw i block v : block_ok ws raw i block -> v = word_at ws i ->
  block_ok ws raw (S i) (<[(i mod 16)%nat := v]> block).
Proof.
  intros (Hl & Hw & Hr) ->. assert (Hi : (i mod 16 < 16)%nat) by (apply Nat.mod_upper_bound; lia).
  split; [by rewrite length_insert|]. split.
  - intros t Ht1 Ht2. rewrite word_at_insert by lia. destruct (decide (t = i)) as [->|Hne].
    + by rewrite decide_True.
    + rewrite decide_False; [apply Hw; lia|]. intros E.
      pose proof (Nat.div_mod_eq i 16). pose proof (Nat.div_mod_eq t 16). lia.
  - intros j Hj. rewrite word_at_insert by lia. rewrite Nat.mod_small by lia.
    rewrite decide_False by lia. apply Hr. lia.
Qed.

Section Rounds.
Context {e : endian} {buf : list byte} (Hbuf : length buf = 64%nat) {raw ws : list Z}
  (raw_length : length raw = 16%nat)
  (raw_at : forall i, (i < 16)%nat -> word_at raw i = load e (take 4 (drop (4 * i) buf)))
  (ws_low : forall i, (i < 16)%nat -> word_at ws i = load BigEndian (take 4 (drop (4 * i) buf)))
  (ws_high : forall t, (16 <= t < 80)%nat ->
    word_at ws t = rol (Z.lxor (Z.lxor (Z.lxor (word_at ws (t - 3)) (word_at ws (t - 8)))
      (word_at ws (t - 14))) (word_at ws (t - 16))) 1).

Lemma blk0_ok block i : block_ok ws raw i block -> (i < 16)%nat ->
  fst (blk0 e block i) = word_at ws i /\ block_ok ws raw (S i) (snd (blk0 e block i)).
Proof.
  intros Hb Hi. unfold blk0.
  assert (E : match e with
    | BigEndian => word_at block i
    | LittleEndian => Z.lor (Z.land (rol (word_at block i) 24) 0xFF00FF00) (Z.land (rol (word_at block i) 8) 0x00FF00FF)
    end = word_at ws i).
  { rewrite ws_low, <- (blk0_value e) by (done || (rewrite length_take, length_drop; lia)).
    destruct Hb as (_ & _ & Hr). rewrite Hr by lia. by rewrite raw_at. }
  cbv zeta. cbn [fst snd]. rewrite E. split; [done|].
  pose proof (block_ok_step ws raw i block (word_at ws i) Hb eq_refl) as Hs.
  by rewrite Nat.mod_small in Hs.
Qed.

Lemma blk_ok block i : block_ok ws raw i block -> (16 <= i < 80)%nat ->
  fst (blk block i) = word_at ws i /\ block_ok ws raw (S i) (snd (blk block i)).
Proof.
  intros Hb Hi. unfold blk. cbn [fst snd].
  assert (E : rol (Z.lxor (Z.lxor (Z.lxor (word_at block (Nat.land (i + 13) 15)) (word_at block (Nat.land (i + 8) 15)))
    (word_at block (Nat.land (i + 2) 15))) (word_at block (Nat.land i 15))) 1 = word_at ws i).
  { destruct Hb as (_ & Hw & _). rewrite ws_high by done.
    assert (Hat : forall k j, (1 <= k <= 16)%nat -> (j + k = i + 16)%nat -> word_at block (Nat.land j 15) = word_at ws (i - k)).
    { intros k j Hk Hj. rewrite land_15, <- Hw by lia. f_equal.
      replace j with (i - k + 1 * 16)%nat by lia. by rewrite Nat.mod_add by lia. }
    rewrite (Hat 3%nat), (Hat 8%nat), (Hat 14%nat), (Hat 16%nat) by lia. done. }
  split; [exact E|]. rewrite (land_15 i) at 1. apply block_ok_step; [exact Hb|exact E].
Qed.

Lemma R_fips f K s b t : (forall x y z, f x y z = round_f t x y z) -> K = round_K t -> b = word_at ws t ->
  R f K s b = fips_round ws s t.
Proof.
  intros Hf -> ->. destruct s as [[[[v w] x] y] z]. unfold R, fips_round. rewrite Hf. do 4 f_equal. f_equal. lia.
Qed.

Lemma rounds_ok n s : (n <= 80)%nat ->
  let '(s', block) := fold_left (round e) (seq 0 n) (s, raw) in
  s' = fold_left (fips_round ws) (seq 0 n) s /\ block_ok ws raw n block.
Proof.
  induction n as [|n IH]; intros Hn.
  - cbn [fold_left seq]. split; [done|]. split; [done|]. split; [lia|done].
  - rewrite seq_S, !fold_left_app. cbn [fold_left plus]. specialize (IH ltac:(lia)).
    destruct (fold_left (round e) (seq 0 n) (s, raw)) as [s' block]. destruct IH as [-> Hb].
    unfold round. destruct (Nat.ltb_spec n 16).
    + destruct (blk0_ok block n Hb ltac:(lia)) as [E Hb']. destruct (blk0 e block n) as [b block'].
      cbn [fst snd] in *. split; [|done]. apply R_fips; [|unfold round_K; by rewrite (proj2 (Nat.ltb_lt n 20)) by lia|done].
      intros. unfold round_f. rewrite (proj2 (Nat.ltb_lt n 20)) by lia. apply f_choose_Ch.
    + destruct (blk_ok block n Hb ltac:(lia)) as [E Hb']. destruct (blk block n) as [b block'].
      cbn [fst snd] in *. split; [|done].
      destruct (n <? 20)%nat eqn:E20; [|destruct (n <? 40)%nat eqn:E40; [|destruct (n <? 60)%nat eqn:E60]];
        (apply R_fips; [intros x y z; unfold round_f|unfold round_K|done]); rewrite ?E20, ?E40, ?E60;
        try done; [apply f_choose_Ch|apply f_majority_Maj].
Qed.

End Rounds.

Lemma SHA1_transform_fips e st buf : length buf = 64%nat -> SHA1_transform e st buf = fips_block st buf.
Proof.
  intros Hbuf. unfold SHA1_transform, fips_block.
  destruct (schedule_spec 64 (words BigEndian 16 buf)) as (_ & Hp & Hs). rewrite length_words in Hp, Hs.
  do 5 (destruct st as [|? st]; [done|]). destruct st; [|done].
  set (ws := schedule 64 _) in *. clearbody ws.
  assert (Hr := rounds_ok Hbuf (length_words e 16 buf) (fun i => word_at_words e 16 buf i) (ws := ws)).
  specialize (Hr (fun i Hi => eq_trans (Hp i Hi) (word_at_words BigEndian 16 buf i Hi))).
  assert (Hhigh : forall t, (16 <= t < 80)%nat ->
    word_at ws t = rol (Z.lxor (Z.lxor (Z.lxor (word_at ws (t - 3)) (word_at ws (t - 8)))
      (word_at ws (t - 14))) (word_at ws (t - 16))) 1).
  { intros t Ht. specialize (Hs t ltac:(lia) ltac:(lia)). cbv zeta in Hs.
    rewrite <- (Nat.sub_0_r t) at 1. exact Hs. }
  specialize (Hr Hhigh 80%nat (z, z0, z1, z2, z3) ltac:(lia)).
  destruct (fold_left (round e) _ _) as [s' block]. destruct Hr as [-> _].
  by destruct (fold_left (fips_round ws) _ _) as [[[[? ?] ?] ?] ?].
Qed.

(** ** Updates *)

(** [absorbed ctx msg]: the context after [msg], whatever the pieces. *)
Definition absorbed (ctx : SHA1_CTX) (msg : list byte) : Prop :=
  kept fips_block H0 (state ctx) (buffer ctx) msg /\
  fst (count ctx) = wrap32 (8 * zlen msg) /\ snd (count ctx) = wrap32 (8 * zlen msg / 2 ^ 32).

Lemma absorbed_init garbage : length garbage = 64%nat -> absorbed (new_ctx garbage) [].
Proof. intros Hg. by split; [apply kept_init|]. Qed.

Lemma count_update n m : 0 <= n -> 0 <= m ->
  let added := wrap32 (Z.shiftl m 3) in
  let c0 := wrap32 (wrap32 (8 * n) + added) in
  c0 = wrap32 (8 * (n + m)) /\
  wrap32 ((if c0 <? added then wrap32 (wrap32 (8 * n / 2 ^ 32) + 1) else wrap32 (8 * n / 2 ^ 32)) +
          wrap32 (Z.shiftr m 29)) = wrap32 (8 * (n + m) / 2 ^ 32).
Proof.
  intros Hn Hm. cbv zeta. rewrite Z.shiftl_mul_pow2, Z.shiftr_div_pow2 by lia. unfold wrap32.
  change (2 ^ 3) with 8. rewrite <- Z.add_mod by lia.
  split; [f_equal; lia|].
  set (a := 8 * n). replace (8 * (n + m)) with (a + 8 * m) by lia.
  replace (m / 2 ^ 29) with (8 * m / 2 ^ 32)
    by (change (2 ^ 32) with (8 * 2 ^ 29); rewrite Z.div_mul_cancel_l by lia; done).
  replace (m * 8) with (8 * m) by lia. set (b := 8 * m). assert (0 <= a) by lia. assert (0 <= b) by lia.
  clearbody a b. clear n m Hn Hm.
  rewrite carry_split by done. destruct (_ <? _).
  - rewrite <- Z.add_mod, <- Z.add_assoc, Zplus_mod_idemp_l by lia. f_equal. lia.
  - rewrite Z.add_0_r, <- Z.add_mod by lia. done.
Qed.

Lemma update_loop_ok e fuel pre post st : (length post < fuel)%nat ->
  exists k full rest, post = full ++ rest /\ length full = (64 * k)%nat /\ (length rest < 64)%nat /\
    update_loop e fuel (pre ++ post) (zlen pre) st = Ret (zlen pre + zlen full, blocks fips_block k st full).
Proof.
  revert pre post st. induction fuel as [|fuel IH]; intros pre post st Hf; [lia|]. cbn [update_loop].
  rewrite zlen_app. destruct (Z.ltb_spec (zlen pre + 63) (zlen pre + zlen post)).
  - assert (Hl : (64 <= length post)%nat) by (unfold zlen in *; lia).
    assert (Hd : length (take 64 post) = 64%nat) by (rewrite length_take; lia).
    assert (Em : mem_read (pre ++ post) (zlen pre) 64 = Ret (take 64 post)).
    { apply (mem_read_mid _ pre _ (drop 64 post)); [by rewrite take_drop|done|unfold zlen; lia]. }
    rewrite Em.
    cbn [mbind outcome_bind]. rewrite SHA1_transform_fips by done.
    destruct (IH (pre ++ take 64 post) (drop 64 post) (fips_block st (take 64 post))) as
      (k & full & rest & E & Hfl & Hrl & Eq); [rewrite length_drop; lia|].
    exists (S k), (take 64 post ++ full), rest. split; [by rewrite <- app_assoc, <- E, take_drop|].
    split; [rewrite length_app; lia|]. split; [done|].
    rewrite <- app_assoc, take_drop, zlen_app in Eq.
    replace (zlen (take 64 post)) with 64 in Eq by (unfold zlen; lia). rewrite Eq.
    rewrite zlen_app. replace (zlen (take 64 post)) with 64 by (unfold zlen; lia).
    cbn [blocks]. rewrite take_app_length', drop_app_length' by done.
    do 2 f_equal. lia.
  - exists O, [], post. split; [done|]. split; [done|]. split; [unfold zlen in *; lia|].
    rewrite zlen_nil, Z.add_0_r. done.
Qed.

Lemma SHA1_update_ok e ctx msg data : absorbed ctx msg ->
  exists ctx', SHA1_update e ctx data = Ret ctx' /\ absorbed ctx' (msg ++ data).
Proof.
  intros [Hk [Hc0 Hc1]]. unfold SHA1_update.
  destruct (count ctx) as [c0 c1]. cbn [fst snd] in *. subst c0 c1.
  destruct (count_update (zlen msg) (zlen data)) as [E0 E1]; [apply zlen_nonneg..|].
  rewrite <- zlen_app in E0, E1. cbv zeta in E0, E1. rewrite E1, E0.
  pose proof (zlen_nonneg msg). pose proof (Z.mod_pos_bound (zlen msg) 64 ltac:(lia)).
  rewrite length_index, Z.gtb_ltb by done.
  destruct (Z.ltb_spec 63 (zlen msg mod 64 + zlen data)) as [Hbig|Hsmall].
  - set (i := 64 - zlen msg mod 64).
    assert (Hd1 : zlen (ztake i data) = i) by (apply zlen_ztake; lia).
    destruct (kept_complete _ _ _ _ _ (ztake i data) Hk) as (Ew & El & Hk1); [lia|].
    rewrite (mem_read_mid data [] (ztake i data) (zdrop i data) 0) by (done || by rewrite ?ztake_zdrop).
    cbn [mbind outcome_bind]. rewrite Ew. cbn [mbind outcome_bind]. rewrite SHA1_transform_fips by done.
    set (buf := splice _ _ _) in *.
    destruct (update_loop_ok e (S (length data)) (ztake i data) (zdrop i data) (fips_block (state ctx) buf))
      as (k2 & full2 & rest & E2 & Hf2 & Hr2 & Eq); [unfold zdrop; rewrite length_drop; lia|].
    rewrite ztake_zdrop, Hd1 in Eq. rewrite Eq. cbn [mbind outcome_bind mret outcome_ret].
    assert (Hdata : data = (ztake i data ++ full2) ++ rest) by (by rewrite <- app_assoc, <- E2, ztake_zdrop).
    assert (Hz : zlen data = i + zlen full2 + zlen rest) by (rewrite Hdata, !zlen_app, Hd1; lia).
    rewrite (mem_read_mid data (ztake i data ++ full2) rest []);
      [|by rewrite app_nil_r|rewrite zlen_app; lia|lia].
    cbn [mbind outcome_bind].
    destruct (mem_write_front buf rest) as (-> & Ets & Els); [lia|]. eexists. split; [reflexivity|].
    split; [|by split]. cbn [state buffer]. rewrite <- (ztake_zdrop i data), E2, app_assoc.
    eapply kept_aligned; [exact Hk1|rewrite zlen_app, Hd1; unfold i; Z.div_mod_to_equations; lia|done|done| |].
    + by rewrite Els.
    + exact Ets.
  - cbn [mbind outcome_bind mret outcome_ret]. rewrite Z.sub_0_r.
    rewrite (mem_read_mid data [] data []) by (done || by rewrite app_nil_r). cbn [mbind outcome_bind].
    destruct (kept_short _ _ _ _ _ data Hk) as [-> Hk']; [lia|]. cbn [mbind outcome_bind].
    eexists. split; [reflexivity|]. by split.
Qed.

(** ** Padding and the digest *)

Lemma land_504 n : 0 <= n -> Z.land (wrap32 (8 * n)) 504 = 8 * (n mod 64).
Proof.
  intros Hn. assert (E : Z.land (wrap32 (8 * n)) 504 = Z.land (8 * n) 504).
  { unfold wrap32. rewrite <- Z.land_ones, <- Z.land_assoc by lia. done. }
  rewrite E. change 504 with (Z.shiftl (Z.ones 6) 3). replace (8 * n) with (Z.shiftl n 3)
    by (rewrite Z.shiftl_mul_pow2 by lia; lia).
  rewrite <- Z.shiftl_land, Z.land_ones, Z.shiftl_mul_pow2 by lia.
  change (2 ^ 6) with 64. change (2 ^ 3) with 8. lia.
Qed.

Lemma pad_loop_ok e fuel ctx msg : absorbed ctx msg -> (56 - zlen msg) mod 64 < Z.of_nat fuel ->
  exists ctx', pad_loop e fuel ctx = Ret ctx' /\
    absorbed ctx' (msg ++ replicate (Z.to_nat ((56 - zlen msg) mod 64)) Byte.x00).
Proof.
  revert ctx msg. induction fuel as [|fuel IH]; intros ctx msg Ha Hf;
    [pose proof (Z.mod_pos_bound (56 - zlen msg) 64 ltac:(lia)); lia|].
  cbn [pad_loop]. pose proof (zlen_nonneg msg).
  assert (Hc : fst (count ctx) = wrap32 (8 * zlen msg)) by apply Ha.
  rewrite Hc, land_504 by done.
  destruct (Z.eqb_spec (8 * (zlen msg mod 64)) 448) as [E|E]; cbn [negb].
  - exists ctx. split; [done|]. replace ((56 - zlen msg) mod 64) with 0 by (Z.div_mod_to_equations; lia).
    by rewrite app_nil_r.
  - destruct (SHA1_update_ok e ctx msg [Byte.x00] Ha) as (c1 & -> & Ha1). cbn [mbind outcome_bind].
    assert (Hz : zlen (msg ++ [Byte.x00]) = zlen msg + 1) by (by rewrite zlen_app).
    assert (Hm : (56 - zlen msg) mod 64 = 1 + (56 - zlen (msg ++ [Byte.x00])) mod 64)
      by (rewrite Hz; Z.div_mod_to_equations; lia).
    destruct (IH c1 _ Ha1) as (c2 & -> & Ha2); [lia|]. exists c2. split; [done|].
    rewrite <- app_assoc in Ha2. rewrite Hm, Z2Nat.inj_add by (lia || (apply Z.mod_pos_bound; lia)). done.
Qed.

Lemma of_Z_land_255 x : byte.of_Z (Z.land x 255) = byte.of_Z x.
Proof.
  apply byte.unsigned_inj. rewrite !byte.unsigned_of_Z. unfold byte.wrap.
  change 255 with (Z.ones 8). rewrite Z.land_ones by lia. apply Z.mod_mod. lia.
Qed.

Lemma be_bytes4 v : be_bytes 4 v =
  [byte.of_Z (Z.shiftr v 24); byte.of_Z (Z.shiftr v 16); byte.of_Z (Z.shiftr v 8); byte.of_Z v].
Proof.
  unfold be_bytes. change (le_split 4 v) with [byte.of_Z v; byte.of_Z (Z.shiftr v 8);
    byte.of_Z (Z.shiftr (Z.shiftr v 8) 8); byte.of_Z (Z.shiftr (Z.shiftr (Z.shiftr v 8) 8) 8)].
  by rewrite !Z.shiftr_shiftr by lia.
Qed.

Lemma digest_bytes a b c d f :
  map (digest_byte [a; b; c; d; f]) (seqZ 0 SHA1_DIGEST_SIZE) = [a; b; c; d; f] ≫= be_bytes 4.
Proof.
  unfold digest_byte. cbn [mbind list_bind]. rewrite !be_bytes4. cbn [app].
  change (seqZ 0 SHA1_DIGEST_SIZE) with [0; 1; 2; 3; 4; 5; 6; 7; 8; 9; 10; 11; 12; 13; 14; 15; 16; 17; 18; 19].
  cbn [map]. rewrite !of_Z_land_255. done.
Qed.

Lemma finalcount_bytes n : 0 <= n < 2 ^ 64 ->
  map (finalcount (wrap32 n, wrap32 (n / 2 ^ 32))) (seqZ 0 8) = be_bytes 8 n.
Proof.
  intros Hn. assert (E : be_bytes 8 n = be_bytes 4 (n / 2 ^ 32) ++ be_bytes 4 (wrap32 n)).
  { apply be_value_inj; [by rewrite length_app, !length_be_bytes|].
    rewrite be_value_app, zlen_be_bytes, !be_value_be_bytes by (unfold wrap32; Z.div_mod_to_equations; lia).
    unfold wrap32. change (8 * Z.of_nat 4) with 32. pose proof (Z.div_mod n (2 ^ 32)). lia. }
  rewrite E, !be_bytes4. rewrite (wrap32_small (n / 2 ^ 32)) by (Z.div_mod_to_equations; lia).
  change (seqZ 0 8) with [0; 1; 2; 3; 4; 5; 6; 7]. unfold finalcount. cbn [map fst snd].
  rewrite !of_Z_land_255. cbn [app]. done.
Qed.

Lemma fips_block_shape st b : length st = 5%nat -> length (fips_block st b) = 5%nat.
Proof.
  intros Hl. do 5 (destruct st as [|? st]; [done|]). destruct st; [|done]. unfold fips_block.
  by destruct (fold_left _ _ _) as [[[[? ?] ?] ?] ?].
Qed.
Lemma fips_blocks_shape k st msg : length st = 5%nat -> length (blocks fips_block k st msg) = 5%nat.
Proof. revert st msg. induction k as [|k IH]; intros st msg Hl; [done|]. by apply IH, fips_block_shape. Qed.

Lemma SHA1_final_ok e ctx msg : absorbed ctx msg -> zlen msg < 2 ^ 61 ->
  exists ctx', SHA1_final e ctx = Ret (sha1 msg, ctx') /\ length (buffer ctx') = 64%nat.
Proof.
  intros Ha Hlen. pose proof (zlen_nonneg msg).
  assert (Hc : count ctx = (wrap32 (8 * zlen msg), wrap32 (8 * zlen msg / 2 ^ 32))).
  { rewrite (surjective_pairing (count ctx)). f_equal; apply Ha. }
  unfold SHA1_final. rewrite Hc, finalcount_bytes by lia.
  destruct (SHA1_update_ok e ctx msg [byte.of_Z 128] Ha) as (c1 & -> & Ha1). cbn [mbind outcome_bind].
  destruct (pad_loop_ok e 65 c1 _ Ha1) as (c2 & -> & Ha2).
  { pose proof (Z.mod_pos_bound (56 - zlen (msg ++ [byte.of_Z 128])) 64). lia. }
  cbn [mbind outcome_bind].
  destruct (SHA1_update_ok e c2 _ (be_bytes 8 (8 * zlen msg)) Ha2) as (c3 & -> & Ha3). cbn [mbind outcome_bind].
  assert (Hpad : ((msg ++ [byte.of_Z 128]) ++
    replicate (Z.to_nat ((56 - zlen (msg ++ [byte.of_Z 128])) mod 64)) Byte.x00) ++ be_bytes 8 (8 * zlen msg) = padded_message (be_bytes 8) msg).
  { unfold padded_message. rewrite <- !app_assoc. do 3 f_equal. rewrite zlen_app. f_equal. f_equal. f_equal.
    change (zlen [byte.of_Z 128]) with 1. lia. }
  rewrite Hpad in Ha3. destruct Ha3 as [Hk3 _].
  apply kept_whole in Hk3; [|by apply padded_message_length, (zlen_be_bytes 8)].
  cbv zeta. eexists. split; [apply (f_equal (fun d => Ret (d, _)))|apply length_replicate].
  rewrite Hk3. unfold sha1. set (m := padded_message _ _).
  pose proof (fips_blocks_shape (length m / 64) H0 m eq_refl) as Hs.
  destruct (blocks fips_block _ H0 m) as [|a [|b [|c [|d [|f [|]]]]]]; try done. apply digest_bytes.
Qed.

Fixpoint updates (e : endian) (ctx : SHA1_CTX) (chunks : list (list byte)) : outcome SHA1_CTX :=
  match chunks with
  | [] => mret ctx
  | d :: chunks => ctx ← SHA1_update e ctx d; updates e ctx chunks
  end.

(** C15: SHA-1 over a stream: started with [SHA1_init], any sequence of
    [SHA1_update] calls (of any sizes, empty ones included) followed by
    [SHA1_final] gives the digest that FIPS 180 defines for the
    concatenation of the data, on hosts of either byte order, without a copy
    outside the context's buffer or the data; what the buffer held before
    does not matter. *)
Theorem sha1_of_stream (e : endian) (garbage : list byte) (chunks : list (list byte)) :
  length garbage = 64%nat -> zlen (concat chunks) < 2 ^ 61 ->
  exists ctx, (c ← updates e (new_ctx garbage) chunks; SHA1_final e c) = Ret (sha1 (concat chunks), ctx).
Proof.
  intros Hg Hl. assert (Hu : forall cs ctx msg, absorbed ctx msg ->
    exists c, updates e ctx cs = Ret c /\ absorbed c (msg ++ concat cs)).
  { induction cs as [|d cs IH]; intros ctx msg Ha; cbn [updates concat].
    - exists ctx. by rewrite app_nil_r.
    - destruct (SHA1_update_ok e ctx msg d Ha) as (c1 & -> & Ha1). cbn [mbind outcome_bind].
      destruct (IH c1 _ Ha1) as (c & -> & Hc). exists c. by rewrite app_assoc. }
  destruct (Hu chunks _ _ (absorbed_init garbage Hg)) as (c & -> & Hc). cbn [mbind outcome_bind app] in *.
  destruct (SHA1_final_ok e c _ Hc Hl) as (ctx & -> & _). by exists ctx.
Qed.

Lemma sha1_of_stream_witness :
  exists ctx, (c ← updates LittleEndian (new_ctx (replicate 64 Byte.xa5)) [[Byte.x61]; []; [Byte.x62; Byte.x63]];
    SHA1_final LittleEndian c) = Ret (sha1 [Byte.x61; Byte.x62; Byte.x63], ctx).
Proof.
  apply (sha1_of_stream LittleEndian (replicate 64 Byte.xa5) [[Byte.x61]; []; [Byte.x62; Byte.x63]]).
  - reflexivity.
  - vm_compute. reflexivity.
Defined.
