(* ===== verification/Md5Ok.v ===== *)
(** * base/md5.cc computes MD5: the steps against RFC 1321, the buffering of
    updates against the concatenation of the data *)

From Stdlib Require Import ZArith Lia.
From S2P Require Import Prelude ByteOrder Blocks Md5.

(** ** The steps *)

Lemma F1_rfc x y z : F1 x y z = rfc_F x y z.
Proof.
  apply Z.bits_inj'. intros i Hi. unfold F1, rfc_F.
  rewrite Z.lor_spec, Z.lxor_spec, !Z.land_spec, Z.lxor_spec, Z.lnot_spec by done.
  by destruct (Z.testbit x i), (Z.testbit y i), (Z.testbit z i).
Qed.

Lemma F2_rfc x y z : F2 x y z = rfc_G x y z.
Proof.
  apply Z.bits_inj'. intros i Hi. unfold F2, F1, rfc_G.
  rewrite Z.lor_spec, Z.lxor_spec, !Z.land_spec, Z.lxor_spec, Z.lnot_spec by done.
  by destruct (Z.testbit x i), (Z.testbit y i), (Z.testbit z i).
Qed.

Definition step_agrees (row : (Z -> Z -> Z -> Z) * nat * Z * Z) (i : nat) : Prop :=
  forall ws q, MD5_step ws q row = rfc_step ws q i.

Lemma step_agrees_intro f k c s i : (forall x y z, f x y z = rfc_f i x y z) ->
  k = rfc_k i -> c = word_at rfc_T i -> s = rfc_s i -> step_agrees (f, k, c, s) i.
Proof.
  intros Hf -> -> -> ws [[[w x] y] z]. unfold MD5_step, MD5STEP, rfc_step. rewrite Hf.
  assert (E : wrap32 (w + (rfc_f i x y z + wrap32 (word_at ws (rfc_k i) + word_at rfc_T i))) =
    wrap32 (w + rfc_f i x y z + word_at ws (rfc_k i) + word_at rfc_T i)).
  { unfold wrap32. rewrite Z.add_assoc, Zplus_mod_idemp_r. f_equal. lia. }
  rewrite E, (Z.add_comm x). done.
Qed.

Lemma md5_steps_agree : Forall2 step_agrees md5_steps (seq 0 64).
Proof.
  repeat (constructor; [apply step_agrees_intro; [intros; first [apply F1_rfc|apply F2_rfc|reflexivity]|done..]|]).
  constructor.
Qed.

Lemma fold_agrees rows ix ws q : Forall2 step_agrees rows ix ->
  fold_left (MD5_step ws) rows q = fold_left (rfc_step ws) ix q.
Proof.
  intros Hf. revert q. induction Hf as [|row i rows ix Hr Hf IH]; intros q; cbn [fold_left]; [done|].
  by rewrite Hr.
Qed.

(** ** The order of bytes *)

Lemma reversed_word w : length w = 4%nat -> store BigEndian 4 (to_le BigEndian 4 (load BigEndian w)) = rev w.
Proof.
  intros Hw. unfold store, to_le, bswap, load.
  rewrite (split_le_combine' (rev w)), rev_involutive, split_le_combine' by (rewrite ?length_rev; done). done.
Qed.

Lemma byte_reverse_app e n d d' : length d = (4 * n)%nat -> byte_reverse e n (d ++ d') = byte_reverse e n d ++ d'.
Proof.
  destruct e; [by destruct n|]. revert d. induction n as [|n IH]; intros d Hd; [by destruct d|].
  cbn [byte_reverse]. rewrite take_app_le, drop_app_le by lia. rewrite IH by (rewrite length_drop; lia).
  by rewrite app_assoc.
Qed.

Lemma length_byte_reverse e n d : length d = (4 * n)%nat -> length (byte_reverse e n d) = length d.
Proof.
  destruct e; [by destruct n|]. revert d. induction n as [|n IH]; intros d Hd; [by destruct d|].
  cbn [byte_reverse]. rewrite length_app, reversed_word by (rewrite length_take; lia).
  rewrite length_rev, length_take, IH, length_drop by (rewrite length_drop; lia). lia.
Qed.

Lemma words_reversed e n d : length d = (4 * n)%nat -> words e n (byte_reverse e n d) = words LittleEndian n d.
Proof.
  destruct e; [by destruct n|]. revert d. induction n as [|n IH]; intros d Hd; [done|].
  cbn [byte_reverse words].
  assert (H4 : length (take 4 d) = 4%nat) by (rewrite length_take; lia).
  rewrite reversed_word, take_app_length', drop_app_length' by (done || by rewrite length_rev).
  rewrite IH by (rewrite length_drop; lia). f_equal. unfold load. by rewrite rev_involutive.
Qed.

Lemma MD5_transform_words e st in_ d : words e 16 in_ = words LittleEndian 16 d -> MD5_transform e st in_ = rfc_block st d.
Proof.
  intros Hw. unfold MD5_transform, rfc_block. rewrite Hw. do 4 (destruct st as [|? st]; [done|]).
  destruct st; [|done]. by rewrite (fold_agrees _ _ _ _ md5_steps_agree).
Qed.

Lemma MD5_transform_rfc e st d : length d = 64%nat -> MD5_transform e st (byte_reverse e 16 d) = rfc_block st d.
Proof. intros Hd. apply MD5_transform_words, words_reversed, Hd. Qed.

(** ** Updates *)

Definition md5_absorbed (ctx : MD5Context) (msg : list byte) : Prop :=
  kept rfc_block md5_start (md5_buf ctx) (md5_in ctx) msg /\
  md5_bits ctx = (wrap32 (8 * zlen msg), wrap32 (8 * zlen msg / 2 ^ 32)).

Lemma md5_absorbed_init garbage : length garbage = 64%nat -> md5_absorbed (new_md5 garbage) [].
Proof. intros Hg. by split; [apply kept_init|]. Qed.

Lemma md5_count n m : 0 <= n -> 0 <= m ->
  let t := wrap32 (8 * n) in
  let b0 := wrap32 (t + wrap32 (Z.shiftl (wrap32 m) 3)) in
  b0 = wrap32 (8 * (n + m)) /\
  wrap32 ((if b0 <? t then wrap32 (wrap32 (8 * n / 2 ^ 32) + 1) else wrap32 (8 * n / 2 ^ 32)) +
          wrap32 (Z.shiftr m 29)) = wrap32 (8 * (n + m) / 2 ^ 32).
Proof.
  intros Hn Hm. cbv zeta. rewrite Z.shiftl_mul_pow2, Z.shiftr_div_pow2 by lia. unfold wrap32.
  change (2 ^ 3) with 8. rewrite Zmult_mod_idemp_l, <- Z.add_mod by lia.
  replace (8 * n + m * 8) with (8 * m + 8 * n) by lia. replace (8 * (n + m)) with (8 * m + 8 * n) by lia.
  split; [done|].
  replace (m / 2 ^ 29) with (8 * m / 2 ^ 32)
    by (change (2 ^ 32) with (8 * 2 ^ 29); rewrite Z.div_mul_cancel_l by lia; done).
  rewrite carry_split by lia. destruct (_ <? _).
  - rewrite <- Z.add_mod, <- Z.add_assoc, Zplus_mod_idemp_l by lia. f_equal. lia.
  - rewrite Z.add_0_r, <- Z.add_mod by lia. f_equal. lia.
Qed.

Lemma zlen_length {A} (l : list A) n : zlen l = Z.of_nat n -> length l = n.
Proof. unfold zlen. lia. Qed.

Lemma MD5_loop_ok e fuel st in_ data : length in_ = 64%nat -> (length data < fuel)%nat ->
  exists k full rest in', data = full ++ rest /\ length full = (64 * k)%nat /\ (length rest < 64)%nat /\
    length in' = 64%nat /\ MD5_loop e fuel st in_ data = Ret (blocks rfc_block k st full, in', rest).
Proof.
  revert st in_ data. induction fuel as [|fuel IH]; intros st in_ data Hi Hf; [lia|]. cbn [MD5_loop].
  rewrite Z.geb_leb. destruct (Z.leb_spec 64 (zlen data)) as [Hb|Hs].
  - assert (Hd : length (ztake 64 data) = 64%nat) by (apply zlen_length; rewrite zlen_ztake; lia).
    destruct (mem_write_front in_ (ztake 64 data)) as (-> & Es & El); [lia|]. cbn [mbind outcome_bind].
    rewrite take_ge in Es by lia. rewrite Es, MD5_transform_rfc by done.
    destruct (IH (rfc_block st (ztake 64 data)) (byte_reverse e 16 (ztake 64 data)) (zdrop 64 data)) as
      (k & full & rest & in' & E & Hfl & Hr & Hi' & ->);
      [by rewrite length_byte_reverse|unfold zlen, zdrop in *; rewrite length_drop; lia|].
    exists (S k), (ztake 64 data ++ full), rest, in'. split; [by rewrite <- app_assoc, <- E, ztake_zdrop|].
    split; [rewrite length_app; lia|]. split; [done|]. split; [done|].
    cbn [blocks]. by rewrite take_app_length', drop_app_length'.
  - exists O, [], data, in_. unfold zlen in Hs. by repeat split; try lia.
Qed.

(** The loop and the copy of the rest, on complete blocks. *)
Lemma MD5_finish_ok e st buf in_ msg data : kept rfc_block md5_start st buf msg -> zlen msg mod 64 = 0 ->
  length in_ = 64%nat ->
  exists st' in', ('(buf, in_, data) ← MD5_loop e (S (length data)) st in_ data;
    in_ ← mem_write in_ 0 data; mret (buf, in_)) = Ret (st', in') /\
    kept rfc_block md5_start st' in' (msg ++ data).
Proof.
  intros Hk Hz Hi. destruct (MD5_loop_ok e (S (length data)) st in_ data Hi) as
    (k & full & rest & in' & E & Hf & Hr & Hi' & ->); [lia|]. cbn [mbind outcome_bind].
  destruct (mem_write_front in' rest) as (-> & Ets & Els); [lia|]. cbn [mbind outcome_bind].
  do 2 eexists. split; [reflexivity|]. rewrite E. eapply kept_aligned; [exact Hk|done..| |exact Ets]. by rewrite Els.
Qed.

Lemma MD5_update_ok e ctx msg data : md5_absorbed ctx msg ->
  exists ctx', MD5_update e ctx data = Ret ctx' /\ md5_absorbed ctx' (msg ++ data).
Proof.
  intros [Hk Hbits]. unfold MD5_update. rewrite Hbits.
  destruct (md5_count (zlen msg) (zlen data)) as [E0 E1]; [apply zlen_nonneg..|].
  rewrite <- zlen_app in E0, E1. cbv zeta in E0, E1. rewrite E1, E0.
  pose proof (zlen_nonneg msg). pose proof (Z.mod_pos_bound (zlen msg) 64 ltac:(lia)).
  change 0x3f with 63. rewrite length_index by done.
  assert (Hfin : forall st buf in_ msg1 data1 (k := fun b i => Ret (mkMd5 b (wrap32 (8 * zlen (msg ++ data)),
      wrap32 (8 * zlen (msg ++ data) / 2 ^ 32)) i)), kept rfc_block md5_start st buf msg1 ->
    zlen msg1 mod 64 = 0 -> length in_ = 64%nat -> msg1 ++ data1 = msg ++ data ->
    exists ctx', ('(b, i, d) ← MD5_loop e (S (length data1)) st in_ data1; i ← mem_write i 0 d; k b i) = Ret ctx' /\
      md5_absorbed ctx' (msg ++ data)).
  { intros st buf in_ msg1 data1 k Hk1 Hz Hi Heq.
    destruct (MD5_finish_ok e st buf in_ msg1 data1 Hk1 Hz Hi) as (st' & in' & E & Hk').
    destruct (MD5_loop e _ st in_ data1) as [[[b i] d]|]; [|done]. cbn [mbind outcome_bind] in *.
    destruct (mem_write i 0 d) as [i'|]; [|done]. cbn [mbind outcome_bind mret outcome_ret] in *.
    injection E as <- <-. eexists. split; [reflexivity|]. split; [by rewrite <- Heq|done]. }
  destruct (Z.eqb_spec (zlen msg mod 64) 0) as [Hz|Hz]; cbn [negb].
  - eapply Hfin; [exact Hk|done| |done]. by destruct Hk as (? & ? & ? & ? & ? & ? & ? & ? & ?).
  - destruct (Z.ltb_spec (zlen data) (64 - zlen msg mod 64)) as [Hs|Hb].
    + destruct (kept_short _ _ _ _ _ data Hk) as [-> Hk']; [lia|]. cbn [mbind outcome_bind].
      eexists. split; [reflexivity|]. by split.
    + set (i := 64 - zlen msg mod 64) in *.
      assert (Hd1 : zlen (ztake i data) = i) by (apply zlen_ztake; lia).
      destruct (kept_complete _ _ _ _ _ (ztake i data) Hk) as (-> & El & Hk1); [lia|]. cbn [mbind outcome_bind].
      rewrite MD5_transform_rfc by done.
      eapply Hfin; [exact Hk1|rewrite zlen_app, Hd1; unfold i; Z.div_mod_to_equations; lia| |].
      * by rewrite length_byte_reverse.
      * by rewrite <- app_assoc, ztake_zdrop.
Qed.

(** ** Padding and the digest *)

Lemma le_split8 n : 0 <= n < 2 ^ 64 -> le_split 8 n = le_split 4 (wrap32 n) ++ le_split 4 (wrap32 (n / 2 ^ 32)).
Proof.
  intros Hn. assert (Hq : 0 <= n / 2 ^ 32 < 2 ^ 32) by (Z.div_mod_to_equations; lia).
  assert (E : le_combine (le_split 4 (wrap32 n) ++ le_split 4 (wrap32 (n / 2 ^ 32))) = n).
  { rewrite le_combine_app, !le_combine_split, length_le_split. change (Z.of_nat 4 * 8) with 32.
    unfold wrap32. rewrite !Z.mod_mod, (Z.mod_small (n / _)) by lia.
    rewrite lor_shiftl_add by (try apply Z.mod_pos_bound; lia). pose proof (Z.div_mod n (2 ^ 32)). lia. }
  rewrite <- E at 1. by apply split_le_combine'.
Qed.

(** The last block: the length is stored in the order of the host behind the
    words that were turned. *)
Lemma last_block e st in_ n : length in_ = 64%nat -> 0 <= n < 2 ^ 64 ->
  exists in', (i ← mem_write (byte_reverse e 14 in_) 56 (store e 4 (wrap32 n));
               mem_write i 60 (store e 4 (wrap32 (n / 2 ^ 32)))) = Ret in' /\
    MD5_transform e st in' = rfc_block st (ztake 56 in_ ++ le_split 8 n).
Proof.
  intros Hi Hn. assert (Hs : forall v, zlen (store e 4 v) = 4).
  { intros v. unfold zlen, store. destruct e; by rewrite ?length_rev, length_le_split. }
  assert (Hx : length (take 56 in_) = 56%nat) by (rewrite length_take; lia).
  set (x := take 56 in_) in *. 
  assert (Ex : byte_reverse e 14 in_ = byte_reverse e 14 x ++ drop 56 in_)
    by (rewrite <- byte_reverse_app by done; unfold x; by rewrite take_drop).
  rewrite Ex.
  pose proof (mem_write_twice (byte_reverse e 14 x ++ drop 56 in_) (store e 4 (wrap32 n))
    (store e 4 (wrap32 (n / 2 ^ 32))) 56) as Ew. rewrite !Hs in Ew. change (56 + 4) with 60 in Ew.
  assert (Hl : zlen (byte_reverse e 14 x ++ drop 56 in_) = 64).
  { unfold zlen. rewrite length_app, length_byte_reverse, length_drop by done. lia. }
  rewrite Ew by lia. rewrite mem_write_ok by (lia || (rewrite Hl, zlen_app, !Hs; lia)).
  eexists. split; [reflexivity|]. unfold splice.
  assert (Hr : zlen (byte_reverse e 14 x) = 56) by (unfold zlen; rewrite length_byte_reverse by done; lia).
  rewrite <- Hr at 1. rewrite ztake_app, (zdrop_all (_ + _)) by (rewrite Hl, zlen_app, !Hs; lia).
  rewrite app_nil_r. change (ztake 56 in_) with x. rewrite le_split8 by done.
  apply MD5_transform_words.
  change 16%nat with (14 + 2)%nat. rewrite !words_app by (rewrite ?length_byte_reverse; done).
  rewrite words_reversed by done. f_equal.
  assert (Hw : forall v e', words e' 1 (store e' 4 v) = [v mod 2 ^ 32]).
  { intros v e'. cbn [words]. rewrite take_ge by (destruct e'; unfold store; rewrite ?length_rev, length_le_split; lia).
    f_equal. destruct e'; unfold load, store; rewrite ?rev_involutive, le_combine_split; done. }
  change 2%nat with (1 + 1)%nat. rewrite !(words_app _ 1 1) by (apply zlen_length, Hs || apply length_le_split).
  change (le_split 4) with (store LittleEndian 4). by rewrite !Hw.
Qed.

Lemma rfc_block_shape st b : length st = 4%nat -> length (rfc_block st b) = 4%nat.
Proof.
  intros Hl. do 4 (destruct st as [|? st]; [done|]). destruct st; [|done]. unfold rfc_block.
  by destruct (fold_left _ _ _) as [[[? ?] ?] ?].
Qed.
Lemma rfc_blocks_shape k st msg : length st = 4%nat -> length (blocks rfc_block k st msg) = 4%nat.
Proof. revert st msg. induction k as [|k IH]; intros st msg Hl; [done|]. by apply IH, rfc_block_shape. Qed.

Lemma md5_digest_bytes e n st : length st = n -> byte_reverse e n (st ≫= store e 4) = st ≫= le_split 4.
Proof.
  intros Hl. subst n. destruct e; [by destruct (length st)|].
  induction st as [|w st IH]; [done|].
  cbn [length mbind list_bind byte_reverse]. change (list_bind _ _ (store BigEndian 4) st) with (st ≫= store BigEndian 4).
  assert (H4 : length (store BigEndian 4 w) = 4%nat) by (unfold store; by rewrite length_rev, length_le_split).
  rewrite take_app_length', drop_app_length', reversed_word by done.
  unfold store at 1. rewrite rev_involutive. f_equal. exact IH.
Qed.

(** The two forms of padding: in this block or through the next. *)
Lemma MD5_padding_ok e ctx msg : md5_absorbed ctx msg -> let c := zlen msg mod 64 in
  exists st in_, (i ← mem_write (md5_in ctx) c [byte.of_Z 0x80];
    if 64 - 1 - c <? 8 then
      i ← mem_write i (c + 1) (replicate (Z.to_nat (64 - 1 - c)) Byte.x00);
      let i := byte_reverse e 16 i in
      let b := MD5_transform e (md5_buf ctx) i in
      i ← mem_write i 0 (replicate 56 Byte.x00);
      mret (b, i)
    else
      i ← mem_write i (c + 1) (replicate (Z.to_nat (64 - 1 - c - 8)) Byte.x00);
      mret (md5_buf ctx, i)) = Ret (st, in_) /\ length in_ = 64%nat /\
    forall d, zlen (d : list byte) = 8 -> rfc_block st (ztake 56 in_ ++ d) =
      blocks rfc_block (length (padded_message (fun _ => d) msg) / 64) md5_start (padded_message (fun _ => d) msg).
Proof.
  intros [Hk _] c. pose proof (Z.mod_pos_bound (zlen msg) 64 ltac:(lia)) as Hc. fold c in Hc.
  assert (Hb : zlen (md5_in ctx) = 64) by (destruct Hk as (? & ? & ? & ? & ? & ? & ? & E & _); unfold zlen; lia).
  assert (Hw : forall z, 0 <= z <= 63 - c -> (i ← mem_write (md5_in ctx) c [byte.of_Z 0x80];
    mem_write i (c + 1) (replicate (Z.to_nat z) Byte.x00)) =
    mem_write (md5_in ctx) c (byte.of_Z 0x80 :: replicate (Z.to_nat z) Byte.x00)).
  { intros z Hz. apply (mem_write_twice (md5_in ctx) [byte.of_Z 0x80]); [lia|].
    rewrite zlen_replicate, Hb by lia. change (zlen [byte.of_Z 0x80]) with 1. lia. }
  destruct (mem_write (md5_in ctx) c [byte.of_Z 0x80]) as [i0|] eqn:E0; cbn [mbind outcome_bind] in *.
  2: { rewrite mem_write_ok in E0 by (change (zlen [byte.of_Z 0x80]) with 1; lia). done. }
  destruct (Z.ltb_spec (64 - 1 - c) 8) as [Hlt|Hge].
  - rewrite Hw by lia. set (d1 := _ :: _).
    assert (Hd1 : zlen d1 = 64 - c) by (unfold d1; rewrite zlen_cons, zlen_replicate by lia; lia).
    destruct (kept_complete _ _ _ _ _ d1 Hk) as (Ew & El & Hk1); [unfold c in *; lia|].
    fold c in Ew, El, Hk1. rewrite Ew. cbn [mbind outcome_bind]. rewrite MD5_transform_rfc by done.
    destruct (mem_write_front (byte_reverse e 16 (splice (md5_in ctx) c d1)) (replicate 56 Byte.x00)) as (-> & Et & El2);
      [rewrite length_byte_reverse, El by done; rewrite length_replicate; lia|].
    cbn [mbind outcome_bind]. do 2 eexists. split; [reflexivity|].
    split; [rewrite El2, length_byte_reverse, El by done; done|]. intros d Hd.
    rewrite length_replicate in Et. unfold ztake. change (Z.to_nat 56) with 56%nat. rewrite Et.
    assert (Hz1 : zlen (msg ++ d1) mod 64 = 0) by (rewrite zlen_app, Hd1; unfold c; Z.div_mod_to_equations; lia).
    pose proof (kept_last _ _ _ _ _ (replicate 56 Byte.x00 ++ d) Hk1) as Hlast. rewrite Hz1 in Hlast.
    rewrite ztake_0 in Hlast. cbn [app] in Hlast. rewrite <- Hlast.
    2: { rewrite zlen_app, Hd. change (zlen (replicate 56 Byte.x00)) with 56. lia. }
    assert (Ep : (msg ++ d1) ++ replicate 56 Byte.x00 ++ d = padded_message (fun _ => d) msg).
    { unfold padded_message, d1. rewrite <- app_assoc. f_equal. cbn [app]. f_equal.
      rewrite app_assoc, <- replicate_add. do 2 f_equal. unfold c in *. Z.div_mod_to_equations; lia. }
    by rewrite Ep.
  - rewrite Hw by lia. set (d1 := _ :: _).
    assert (Hd1 : zlen d1 = 56 - c) by (unfold d1; rewrite zlen_cons, zlen_replicate by lia; lia).
    destruct (kept_short _ _ _ _ _ d1 Hk) as [Ew Hk1]; [unfold c in *; lia|]. fold c in Ew, Hk1. rewrite Ew.
    cbn [mbind outcome_bind]. do 2 eexists. split; [reflexivity|].
    split; [by destruct Hk1 as (? & ? & ? & ? & ? & ? & ? & ? & _)|]. intros d Hd.
    assert (Hz1 : zlen (msg ++ d1) mod 64 = 56) by (rewrite zlen_app, Hd1; unfold c; Z.div_mod_to_equations; lia).
    pose proof (kept_last _ _ _ _ _ d Hk1) as Hlast. rewrite Hz1 in Hlast. rewrite <- Hlast by lia.
    assert (Ep : (msg ++ d1) ++ d = padded_message (fun _ => d) msg).
    { unfold padded_message, d1. rewrite <- app_assoc. f_equal. cbn [app]. do 3 f_equal.
      unfold c in *. Z.div_mod_to_equations; lia. }
    by rewrite Ep.
Qed.

Lemma zlen_le_split n v : zlen (le_split n v) = Z.of_nat n.
Proof. unfold zlen. by rewrite length_le_split. Qed.

Lemma MD5_final_ok e ctx msg : md5_absorbed ctx msg -> zlen msg < 2 ^ 61 ->
  exists ctx', MD5_final e ctx = Ret (md5 msg, ctx') /\ length (md5_in ctx') = 64%nat.
Proof.
  intros Ha Hlen. pose proof (zlen_nonneg msg). unfold MD5_final.
  assert (Hbits : md5_bits ctx = (wrap32 (8 * zlen msg), wrap32 (8 * zlen msg / 2 ^ 32))) by apply Ha.
  rewrite Hbits. cbn [fst snd]. change 0x3F with 63. rewrite length_index by done.
  destruct (MD5_padding_ok e ctx msg Ha) as (st & in_ & E & Hi & Hlast). cbv zeta in E.
  destruct (mem_write (md5_in ctx) _ [byte.of_Z 0x80]) as [i0|]; [|done]. cbn [mbind outcome_bind] in E |- *.
  rewrite E. cbn [mbind outcome_bind].
  destruct (last_block e st in_ (8 * zlen msg) Hi ltac:(lia)) as (in' & E' & Et).
  destruct (mem_write (byte_reverse e 14 in_) 56 _) as [i1|]; [|done]. cbn [mbind outcome_bind] in E' |- *.
  rewrite E'. cbn [mbind outcome_bind]. rewrite Et, (Hlast _ (zlen_le_split 8 _)).
  eexists. split; [apply (f_equal (fun d => Ret (d, _)))|apply length_replicate].
  apply md5_digest_bytes, rfc_blocks_shape. done.
Qed.

Fixpoint md5_updates (e : endian) (ctx : MD5Context) (chunks : list (list byte)) : outcome MD5Context :=
  match chunks with
  | [] => mret ctx
  | d :: chunks => ctx ← MD5_update e ctx d; md5_updates e ctx chunks
  end.

(** C16: MD5 over a stream: started with [MD5_init], any sequence of
    [MD5_update] calls (of any sizes, empty ones included) followed by
    [MD5_final] gives the digest that RFC 1321 defines for the concatenation
    of the data, on hosts of either byte order, without a copy outside the
    sixteen words of the context; what they held before does not matter. *)
Theorem md5_of_stream (e : endian) (garbage : list byte) (chunks : list (list byte)) :
  length garbage = 64%nat -> zlen (concat chunks) < 2 ^ 61 ->
  exists ctx, (c ← md5_updates e (new_md5 garbage) chunks; MD5_final e c) = Ret (md5 (concat chunks), ctx).
Proof.
  intros Hg Hl. assert (Hu : forall cs ctx msg, md5_absorbed ctx msg ->
    exists c, md5_updates e ctx cs = Ret c /\ md5_absorbed c (msg ++ concat cs)).
  { induction cs as [|d cs IH]; intros ctx msg Ha; cbn [md5_updates concat].
    - exists ctx. by rewrite app_nil_r.
    - destruct (MD5_update_ok e ctx msg d Ha) as (c1 & -> & Ha1). cbn [mbind outcome_bind].
      destruct (IH c1 _ Ha1) as (c & -> & Hc). exists c. by rewrite app_assoc. }
  destruct (Hu chunks _ _ (md5_absorbed_init garbage Hg)) as (c & -> & Hc). cbn [mbind outcome_bind app] in *.
  destruct (MD5_final_ok e c _ Hc Hl) as (ctx & -> & _). by exists ctx.
Qed.

Lemma md5_of_stream_witness :
  exists ctx, (c ← md5_updates BigEndian (new_md5 (replicate 64 Byte.xa5)) [[Byte.x61]; []; [Byte.x62; Byte.x63]];
    MD5_final BigEndian c) = Ret (md5 [Byte.x61; Byte.x62; Byte.x63], ctx).
Proof.
  apply (md5_of_stream BigEndian (replicate 64 Byte.xa5) [[Byte.x61]; []; [Byte.x62; Byte.x63]]).
  - reflexivity.
  - vm_compute. reflexivity.
Defined.
