(* ===== verification/StringEncode.v ===== *)
(** * network/stun/string_encode.cc: hexadecimal text, splitting and joining

    Characters are bytes; a delimiter 0 stands for "no delimiter", as in the
    code.  The output arrays of the hexadecimal functions are memories with
    bounds.  Shown: decoding what was encoded gives the bytes back for every
    delimiter that is not a digit, and joining the fields that [split] finds
    gives the text back. *)

From Stdlib Require Import ZArith Lia.
From S2P Require Import Prelude ByteOrder Blocks.

(** ** Hexadecimal *)

Definition HEX : list byte :=
  map byte.of_Z [48; 49; 50; 51; 52; 53; 54; 55; 56; 57; 97; 98; 99; 100; 101; 102].

Definition hex_digit (val : Z) : outcome byte :=
  assert_that (val <? 16);;
  mret (if val <? 16 then nth (Z.to_nat val) HEX Byte.x00 else byte.of_Z 33).

(** [hex_decode] of a character; [char] is signed, so a byte from 128
    on is below every character compared with. *)
Definition hex_value (ch : byte) : option Z :=
  let c := if byte.unsigned ch <? 128 then byte.unsigned ch else byte.unsigned ch - 256 in
  if (c >=? 48) && (c <=? 57) then Some (c - 48)
  else if (c >=? 65) && (c <=? 70) then Some (c - 65 + 10)
  else if (c >=? 97) && (c <=? 102) then Some (c - 97 + 10)
  else None.

Definition is_delimited (delimiter : byte) : bool := negb (byte.unsigned delimiter =? 0).

Definition hex_encode_output_length (srclen : Z) (delimiter : byte) : Z :=
  if is_delimited delimiter && (srclen >? 0) then srclen * 3 - 1 else srclen * 2.

(** The loop over the source: one byte, two digits, a delimiter but at the end. *)
Fixpoint hex_encode_loop (delimiter : byte) (source buffer : list byte) (bufpos : Z) : outcome (list byte) :=
  match source with
  | [] => mret buffer
  | ch :: source =>
      let ch := byte.unsigned ch in
      h ← hex_digit (Z.land (Z.shiftr ch 4) 0xF);
      buffer ← mem_write buffer bufpos [h];
      l ← hex_digit (Z.land ch 0xF);
      buffer ← mem_write buffer (bufpos + 1) [l];
      if is_delimited delimiter && negb (bool_decide (source = [])) then
        buffer ← mem_write buffer (bufpos + 2) [delimiter];
        hex_encode_loop delimiter source buffer (bufpos + 3)
      else hex_encode_loop delimiter source buffer (bufpos + 2)
  end.

Definition hex_encode_with_delimiter (source : list byte) (delimiter : byte) : outcome (list byte) :=
  let s := replicate (Z.to_nat (hex_encode_output_length (zlen source) delimiter)) Byte.x00 in
  hex_encode_loop delimiter source s 0.
Definition hex_encode (source : list byte) : outcome (list byte) := hex_encode_with_delimiter source Byte.x00.

(** The loop of decoding; [None] is [return 0]. *)
Fixpoint hex_decode_loop (fuel : nat) (delimiter : byte) (source buffer : list byte) (bufpos : Z)
    : outcome (option (Z * list byte)) :=
  match fuel with
  | O => Crash FuelExhausted
  | S fuel =>
      match source with
      | [] => mret (Some (bufpos, buffer))
      | [_] => mret None
      | c1 :: c2 :: source =>
          match hex_value c1, hex_value c2 with
          | Some h1, Some h2 =>
              buffer ← mem_write buffer bufpos [byte.of_Z (Z.lor (Z.shiftl h1 4) h2)];
              if is_delimited delimiter && (zlen source >? 1) then
                match source with
                | c :: source' =>
                    if negb (bool_decide (c = delimiter)) then mret None
                    else hex_decode_loop fuel delimiter source' buffer (bufpos + 1)
                | [] => mret None
                end
              else hex_decode_loop fuel delimiter source buffer (bufpos + 1)
          | _, _ => mret None
          end
      end
  end.

(** The number of decoded bytes and the buffer; each round takes two
    characters at least. *)
Definition hex_decode_with_delimiter (cbuffer : list byte) (buflen : Z) (source : list byte) (delimiter : byte)
    : outcome (option (Z * list byte)) :=
  if buflen =? 0 then mret None else
  let srclen := zlen source in
  let needed := if is_delimited delimiter then (srclen + 1) / 3 else srclen / 2 in
  if buflen <? needed then mret None else
  hex_decode_loop (S (length source)) delimiter source cbuffer 0.

(** ** Splitting and joining *)

(** The loops over the characters of [source]: [field] holds the characters
    from [last] on. *)
Fixpoint tokenize_loop (delimiter : byte) (source field : list byte) (fields : list (list byte)) : list (list byte) :=
  match source with
  | [] => if bool_decide (field = []) then fields else fields ++ [field]
  | c :: source =>
      if bool_decide (c = delimiter)
      then tokenize_loop delimiter source [] (if bool_decide (field = []) then fields else fields ++ [field])
      else tokenize_loop delimiter source (field ++ [c]) fields
  end.
Definition tokenize (source : list byte) (delimiter : byte) : list (list byte) :=
  tokenize_loop delimiter source [] [].

Fixpoint split_loop (delimiter : byte) (source field : list byte) (fields : list (list byte)) : list (list byte) :=
  match source with
  | [] => fields ++ [field]
  | c :: source =>
      if bool_decide (c = delimiter) then split_loop delimiter source [] (fields ++ [field])
      else split_loop delimiter source (field ++ [c]) fields
  end.
Definition split (source : list byte) (delimiter : byte) : list (list byte) := split_loop delimiter source [] [].
Definition tokenize_with_empty_tokens (source : list byte) (delimiter : byte) : list (list byte) :=
  split_loop delimiter source [] [].

Definition tokenize_append (source : list byte) (delimiter : byte) (fields : list (list byte)) : list (list byte) :=
  fields ++ tokenize source delimiter.

Fixpoint join_loop (delimiter : byte) (source : list (list byte)) (joined : list byte) (first : bool) : list byte :=
  match source with
  | [] => joined
  | s :: source =>
      let joined := if first then joined else joined ++ [delimiter] in
      join_loop delimiter source (joined ++ s) false
  end.
Definition join (source : list (list byte)) (delimiter : byte) : list byte := join_loop delimiter source [] true.

(** [std::string::find] of a character: the text before and behind it. *)
Fixpoint cut_at (c : byte) (source : list byte) : option (list byte * list byte) :=
  match source with
  | [] => None
  | x :: source =>
      if bool_decide (x = c) then Some ([], source)
      else match cut_at c source with Some (l, r) => Some (x :: l, r) | None => None end
  end.
Fixpoint skip_all (c : byte) (source : list byte) : list byte :=
  match source with
  | [] => []
  | x :: rest => if bool_decide (x = c) then skip_all c rest else source
  end.
(** The character behind the last one of a [std::string] is 0. *)
Definition tokenize_first (source : list byte) (delimiter : byte) : outcome (option (list byte * list byte)) :=
  match cut_at delimiter source with
  | None => mret None
  | Some (token, rest) =>
      if is_delimited delimiter then mret (Some (token, skip_all delimiter rest))
      else if bool_decide (skip_all delimiter rest = []) then Crash OutOfBounds
      else mret (Some (token, skip_all delimiter rest))
  end.

(** [tokenize] with marks: a marked part is one field; the text before a mark
    is taken without its last character. *)
Fixpoint tokenize_marks (fuel : nat) (delimiter start_mark end_mark : byte) (remain : list byte)
    (fields : list (list byte)) : outcome (list (list byte)) :=
  match fuel with
  | O => Crash FuelExhausted
  | S fuel =>
      match cut_at start_mark remain with
      | None => mret (tokenize_append remain delimiter fields)
      | Some (pre, rest) =>
          match cut_at end_mark rest with
          | None => mret (tokenize_append remain delimiter fields)
          | Some (marked, rest) =>
              let pre_mark := removelast pre in
              tokenize_marks fuel delimiter start_mark end_mark rest
                (tokenize_append pre_mark delimiter fields ++ [marked])
          end
      end
  end.
Definition tokenize_marked (source : list byte) (delimiter start_mark end_mark : byte) : outcome (list (list byte)) :=
  tokenize_marks (S (length source)) delimiter start_mark end_mark source [].

Definition ToString_bool (b : bool) : list byte :=
  if b then map byte.of_Z [116; 114; 117; 101] else map byte.of_Z [102; 97; 108; 115; 101].

(** ** Decoding what was encoded *)

Definition digits (b : byte) : list byte :=
  [nth (Z.to_nat (byte.unsigned b / 16)) HEX Byte.x00; nth (Z.to_nat (byte.unsigned b mod 16)) HEX Byte.x00].

(** The text of the bytes. *)
Fixpoint hex_text (delimiter : byte) (source : list byte) : list byte :=
  match source with
  | [] => []
  | [b] => digits b
  | b :: source => digits b ++ (if is_delimited delimiter then [delimiter] else []) ++ hex_text delimiter source
  end.

Lemma hex_text_cons d b b' source : hex_text d (b :: b' :: source) =
  digits b ++ (if is_delimited d then [d] else []) ++ hex_text d (b' :: source).
Proof. done. Qed.

Lemma hex_digit_ok v : 0 <= v < 16 -> hex_digit v = Ret (nth (Z.to_nat v) HEX Byte.x00).
Proof. intros Hv. unfold hex_digit. rewrite (proj2 (Z.ltb_lt v 16)) by lia. done. Qed.

Lemma byte_halves b : Z.land (Z.shiftr (byte.unsigned b) 4) 0xF = byte.unsigned b / 16 /\
  Z.land (byte.unsigned b) 0xF = byte.unsigned b mod 16 /\
  0 <= byte.unsigned b / 16 < 16 /\ 0 <= byte.unsigned b mod 16 < 16.
Proof.
  pose proof (byte.unsigned_range b). change 0xF with (Z.ones 4). rewrite !Z.land_ones, Z.shiftr_div_pow2 by lia.
  change (2 ^ 4) with 16. assert (0 <= byte.unsigned b / 16 < 16) by (Z.div_mod_to_equations; lia).
  pose proof (Z.mod_pos_bound (byte.unsigned b) 16). rewrite Z.mod_small by lia. lia.
Qed.

Lemma hex_text_length d source : zlen (hex_text d source) = hex_encode_output_length (zlen source) d.
Proof.
  unfold hex_encode_output_length. induction source as [|b source IH].
  - cbn. rewrite andb_false_r. done.
  - destruct source as [|b' source].
    + destruct (is_delimited d); done.
    + rewrite hex_text_cons, !zlen_app, IH, (zlen_cons b). change (zlen (digits b)) with 2.
      assert (0 < zlen (b' :: source)) by (rewrite zlen_cons; pose proof (zlen_nonneg source); lia).
      set (n := zlen (b' :: source)) in *. rewrite !Z.gtb_ltb, !(proj2 (Z.ltb_lt _ _)) by lia.
      destruct (is_delimited d); cbn [andb]; [change (zlen [d]) with 1|rewrite zlen_nil]; lia.
Qed.

(** The three writes of a round put the characters one behind the other. *)
Lemma hex_encode_loop_ok d source pre rest : zlen rest = zlen (hex_text d source) ->
  hex_encode_loop d source (pre ++ rest) (zlen pre) = Ret (pre ++ hex_text d source).
Proof.
  assert (Hw : forall (p : list byte) x y r, mem_write (p ++ x :: r) (zlen p) [y] = Ret ((p ++ [y]) ++ r)).
  { intros p x y r. rewrite mem_write_ok; [|apply zlen_nonneg|].
    - unfold splice. rewrite ztake_app. change (zlen [y]) with (zlen [x]).
      rewrite <- zlen_app, (app_assoc p [x] r : p ++ x :: r = _), zdrop_app. by rewrite app_assoc.
    - rewrite zlen_app, (zlen_cons x). change (zlen [y]) with 1. pose proof (zlen_nonneg r). lia. }
  revert pre rest. induction source as [|b source IH]; intros pre rest Hr.
  - destruct rest as [|x rest]; [done|]. rewrite zlen_cons in Hr. pose proof (zlen_nonneg rest).
    change (zlen (hex_text d [])) with 0 in Hr. lia.
  - cbn [hex_encode_loop]. destruct (byte_halves b) as (-> & -> & H1 & H2). rewrite !hex_digit_ok by done.
    assert (Hl : exists tl, hex_text d (b :: source) = digits b ++ tl).
    { destruct source; [exists []; done|]. rewrite hex_text_cons. by eexists. }
    destruct Hl as (tl & Htl). pose proof Hr as Hr2. rewrite Htl, zlen_app in Hr2.
    change (zlen (digits b)) with 2 in Hr2. pose proof (zlen_nonneg tl).
    destruct rest as [|x [|y rest]]; [rewrite ?zlen_cons, zlen_nil in Hr2; lia..|]. rewrite !zlen_cons in Hr2.
    cbn [mbind outcome_bind]. rewrite Hw. cbn [mbind outcome_bind].
    replace (zlen pre + 1) with (zlen (pre ++ [nth (Z.to_nat (byte.unsigned b / 16)) HEX Byte.x00])) by (by rewrite zlen_app).
    rewrite Hw. cbn [mbind outcome_bind]. rewrite <- (app_assoc pre). cbn [app].
    change [nth _ HEX _; _] with (digits b).
    destruct source as [|b' source].
    + rewrite bool_decide_true by done. rewrite andb_false_r.
      change (zlen (hex_text d [b])) with 2 in Hr. rewrite !zlen_cons in Hr.
      destruct rest as [|z rest]; [by rewrite app_nil_r|].
      rewrite zlen_cons in Hr. pose proof (zlen_nonneg rest). lia.
    + rewrite bool_decide_false by done. cbn [negb]. rewrite andb_true_r. rewrite hex_text_cons in Hr |- *.
      rewrite !zlen_app, !zlen_cons in Hr. change (zlen (digits b)) with 2 in Hr.
      destruct (is_delimited d) eqn:Ed.
      * change (zlen [d]) with 1 in Hr. destruct rest as [|z rest]; [rewrite zlen_nil in Hr; pose proof (zlen_nonneg (hex_text d (b' :: source))); lia|].
        replace (zlen pre + 2) with (zlen (pre ++ digits b)) by (by rewrite zlen_app). rewrite Hw.
        cbn [mbind outcome_bind].
        replace (zlen pre + 3) with (zlen ((pre ++ digits b) ++ [d])) by
          (rewrite !zlen_app; change (zlen (digits b)) with 2; change (zlen [d]) with 1; lia).
        rewrite IH; [by rewrite <- !app_assoc|]. rewrite zlen_cons in Hr. lia.
      * replace (zlen pre + 2) with (zlen (pre ++ digits b)) by (by rewrite zlen_app).
        rewrite IH; [by rewrite <- !app_assoc|]. rewrite zlen_nil in Hr. lia.
Qed.

Lemma hex_encode_ok d source : hex_encode_with_delimiter source d = Ret (hex_text d source).
Proof.
  unfold hex_encode_with_delimiter. apply (hex_encode_loop_ok d source []).
  rewrite hex_text_length, zlen_replicate; [done|]. rewrite <- hex_text_length. apply zlen_nonneg.
Qed.

Lemma hex_value_digit n : 0 <= n < 16 -> hex_value (nth (Z.to_nat n) HEX Byte.x00) = Some n.
Proof.
  intros Hn. assert (Hall : Forall (fun k => hex_value (nth (Z.to_nat k) HEX Byte.x00) = Some k) (seqZ 0 16))
    by (repeat constructor).
  rewrite List.Forall_forall in Hall. apply Hall, list_elem_of_In, elem_of_seqZ. lia.
Qed.

Lemma halves_byte b : byte.of_Z (Z.lor (Z.shiftl (byte.unsigned b / 16) 4) (byte.unsigned b mod 16)) = b.
Proof.
  pose proof (Z.mod_pos_bound (byte.unsigned b) 16 ltac:(lia)).
  rewrite Z.lor_comm, lor_shiftl_add by (change (2 ^ 4) with 16; lia).
  replace (_ + _) with (byte.unsigned b); [apply byte.of_Z_unsigned|].
  pose proof (Z.div_mod (byte.unsigned b) 16). change (2 ^ 4) with 16. lia.
Qed.

(** Two writes one behind the other. *)
Lemma splice_next (buf : list byte) b source pos : 0 <= pos -> pos + 1 + zlen source <= zlen buf ->
  splice (splice buf pos [b]) (pos + 1) source = splice buf pos (b :: source).
Proof.
  intros Hp Hl. pose proof (zlen_nonneg source).
  pose proof (mem_write_twice buf [b] source pos) as Hw. change (zlen [b]) with 1 in Hw.
  rewrite !mem_write_ok in Hw by (rewrite ?zlen_app; change (zlen [b]) with 1; lia).
  cbn [mbind outcome_bind] in Hw. rewrite mem_write_ok in Hw
    by (rewrite ?zlen_splice by (change (zlen [b]) with 1; lia); lia).
  by injection (Hw ltac:(lia) ltac:(lia)).
Qed.

Lemma hex_decode_loop_ok d source fuel buf pos :
  0 <= pos -> pos + zlen source <= zlen buf -> (length (hex_text d source) < fuel)%nat ->
  hex_decode_loop fuel d (hex_text d source) buf pos = Ret (Some (pos + zlen source, splice buf pos source)).
Proof.
  revert fuel buf pos. induction source as [|b source IH]; intros fuel buf pos Hp Hl Hf;
    (destruct fuel as [|fuel]; [lia|]).
  - cbn [hex_text hex_decode_loop]. rewrite zlen_nil, Z.add_0_r. do 3 f_equal.
    unfold splice. cbn [app]. by rewrite Z.add_0_r, ztake_zdrop.
  - pose proof (zlen_nonneg source). rewrite zlen_cons in Hl |- *.
    destruct (byte_halves b) as (_ & _ & H1 & H2).
    assert (Hstep : forall tl, hex_decode_loop (S fuel) d (digits b ++ tl) buf pos =
      (if is_delimited d && (zlen tl >? 1) then
         match tl with
         | c :: tl' => if negb (bool_decide (c = d)) then mret None
                       else hex_decode_loop fuel d tl' (splice buf pos [b]) (pos + 1)
         | [] => mret None
         end
       else hex_decode_loop fuel d tl (splice buf pos [b]) (pos + 1))).
    { intros tl. cbn [digits app hex_decode_loop]. rewrite !hex_value_digit, halves_byte by done.
      rewrite mem_write_ok by (change (zlen [b]) with 1; lia). done. }
    pose proof (splice_next buf b source pos Hp ltac:(lia)) as Hsp.
    assert (Hls : zlen (splice buf pos [b]) = zlen buf) by (apply zlen_splice; change (zlen [b]) with 1; lia).
    destruct source as [|b' source].
    + cbn [hex_text] in *. rewrite <- (app_nil_r (digits b)), Hstep. rewrite zlen_nil.
      change (0 >? 1) with false. rewrite andb_false_r. change [] with (hex_text d []) at 1.
      rewrite IH by (rewrite ?Hls, ?zlen_nil in *; cbn in *; lia). rewrite Hsp, zlen_nil. do 3 f_equal. lia.
    + rewrite hex_text_cons in Hf |- *. rewrite Hstep. rewrite !length_app in Hf. cbn [length digits] in Hf.
      assert (H2l : 2 <= zlen (hex_text d (b' :: source))).
      { rewrite hex_text_length. unfold hex_encode_output_length. rewrite zlen_cons in *.
        pose proof (zlen_nonneg source). destruct (_ && _); lia. }
      destruct (is_delimited d) eqn:Ed; cbn [app].
      * rewrite zlen_cons, (proj2 (Z.gtb_lt _ _)) by lia. cbn [andb]. rewrite bool_decide_true by done. cbn [negb].
        rewrite IH; [rewrite Hsp; do 3 f_equal; lia|lia|rewrite Hls; lia|cbn [length] in Hf; lia].
      * cbn [andb]. rewrite IH; [rewrite Hsp; do 3 f_equal; lia|lia|rewrite Hls; lia|cbn [length] in Hf; lia].
Qed.

(** C40: bytes survive the hexadecimal text: [hex_encode_with_delimiter] never
    writes outside the string it allocates, and [hex_decode_with_delimiter]
    of the text gives exactly the bytes back, in any buffer that is large
    enough, for no delimiter (0) and for every delimiter. *)
Theorem hex_roundtrip (d : byte) (source buffer : list byte) (buflen : Z) :
  0 < buflen <= zlen buffer -> zlen source <= buflen ->
  exists text, hex_encode_with_delimiter source d = Ret text /\
    hex_decode_with_delimiter buffer buflen text d = Ret (Some (zlen source, splice buffer 0 source)).
Proof.
  intros Hb Hs. exists (hex_text d source). split; [apply hex_encode_ok|].
  unfold hex_decode_with_delimiter. rewrite (proj2 (Z.eqb_neq _ _)) by lia.
  assert (Hn : (if is_delimited d then (zlen (hex_text d source) + 1) / 3 else zlen (hex_text d source) / 2) <= zlen source).
  { rewrite hex_text_length. unfold hex_encode_output_length. pose proof (zlen_nonneg source).
    destruct (is_delimited d); cbn [andb]; [destruct (zlen source >? 0) eqn:E|]; Z.div_mod_to_equations; lia. }
  rewrite (proj2 (Z.ltb_ge _ _)) by lia. rewrite hex_decode_loop_ok by lia. done.
Qed.

Lemma hex_roundtrip_witness : exists text,
  hex_encode_with_delimiter [Byte.x0a; Byte.xff] (byte.of_Z 58) = Ret text /\
  hex_decode_with_delimiter (replicate 4 Byte.x00) 4 text (byte.of_Z 58) =
    Ret (Some (2, splice (replicate 4 Byte.x00) 0 [Byte.x0a; Byte.xff])).
Proof. apply (hex_roundtrip (byte.of_Z 58) [Byte.x0a; Byte.xff] (replicate 4 Byte.x00) 4);
  vm_compute; [split|]; congruence. Defined.

(** ** Fields *)

Lemma join_loop_false d fs acc : join_loop d fs acc false = acc ++ concat (map (fun f => d :: f) fs).
Proof.
  revert acc. induction fs as [|f fs IH]; intros acc; cbn [join_loop map concat]; [by rewrite app_nil_r|].
  rewrite IH, <- !app_assoc. done.
Qed.

Lemma join_app d fs f : fs <> [] -> join (fs ++ [f]) d = join fs d ++ d :: f.
Proof.
  destruct fs as [|g fs]; [done|]. intros _. unfold join. cbn [app join_loop].
  rewrite !join_loop_false, map_app, concat_app. cbn. by rewrite app_nil_r, app_assoc.
Qed.

(** What the loop of [split] has found so far, joined, is the text so far. *)
Lemma split_loop_join d source field fields :
  Forall (fun f => d ∉ f) fields -> d ∉ field ->
  Forall (fun f => d ∉ f) (split_loop d source field fields) /\
  join (split_loop d source field fields) d = join (fields ++ [field]) d ++ source.
Proof.
  revert field fields. induction source as [|c source IH]; intros field fields Hfs Hf; cbn [split_loop].
  - rewrite app_nil_r. split; [|done]. apply Forall_app. by split; [|constructor].
  - case_bool_decide as Hc.
    + subst c. destruct (IH [] (fields ++ [field])) as [H1 H2].
      * apply Forall_app. by split; [|constructor].
      * apply not_elem_of_nil.
      * split; [done|]. rewrite H2, join_app by (by destruct fields). by rewrite <- app_assoc.
    + destruct (IH (field ++ [c]) fields Hfs) as [H1 H2].
      * rewrite elem_of_app, list_elem_of_singleton. intros [Hin|Hin]; [done|by symmetry in Hin].
      * split; [done|]. rewrite H2. destruct fields as [|f fields].
        -- unfold join. cbn. by rewrite <- app_assoc.
        -- rewrite !join_app by done. rewrite <- !app_assoc. cbn [app]. by rewrite <- app_assoc.
Qed.

(** [split] cuts a text at every delimiter: the fields hold no delimiter
    and [join] of them is the text again; there is always a field. *)
Lemma split_join (source : list byte) (d : byte) :
  Forall (fun f => d ∉ f) (split source d) /\ join (split source d) d = source /\ split source d <> [].
Proof.
  destruct (split_loop_join d source [] [] ltac:(constructor) ltac:(apply not_elem_of_nil)) as [H1 H2].
  split; [exact H1|]. split; [exact H2|]. unfold split.
  assert (Hne : forall s f fs, split_loop d s f fs <> []).
  { intros s. induction s as [|c s IH]; intros f fs; cbn [split_loop]; [by destruct fs|].
    case_bool_decide; apply IH. }
  apply Hne.
Qed.

(** [tokenize] finds the fields of [split] that are not empty. *)
Lemma tokenize_is_split d source field fields :
  tokenize_loop d source field (List.filter (fun f => negb (bool_decide (f = []))) fields) =
  List.filter (fun f => negb (bool_decide (f = []))) (split_loop d source field fields).
Proof.
  assert (Hone : forall (f : list byte) fs, (if bool_decide (f = []) then List.filter (fun f => negb (bool_decide (f = []))) fs
    else List.filter (fun f => negb (bool_decide (f = []))) fs ++ [f]) =
    List.filter (fun f => negb (bool_decide (f = []))) (fs ++ [f])).
  { intros f fs. rewrite List.filter_app. cbn. case_bool_decide; cbn; [by rewrite app_nil_r|done]. }
  revert field fields. induction source as [|c source IH]; intros field fields; cbn [tokenize_loop split_loop].
  - apply Hone.
  - case_bool_decide; [rewrite Hone|]; apply IH.
Qed.
