(* ===== verification/Digest.v ===== *)
(** * network/stun/message_digest.{h,cc}, sha1_digest.cc, md5_digest.cc:
    the interface of a digest, its two implementations, and HMAC

    The abstract class [MessageDigest] is a type class; what its clients rely
    on is [DigestLaws], against which HMAC is verified: an object that
    computes the function [h] answers [h] of the bytes it was given since it
    was new or last finished.  [Sha1Digest] and [Md5Digest] discharge the laws
    from the theorems on the algorithms, and [any_digest], the object behind
    the pointer that [MessageDigestFactory::Create] returns, from both. *)

From Stdlib Require Import ZArith Lia String.
From S2P Require Import Prelude ByteOrder Blocks Sha1 Sha1Ok Md5 Md5Ok StringEncode.

Local Open Scope Z_scope.

(** ** The interface *)

(** [Finish d buf len]: the memory at [buf] afterwards and the result. *)
Class MessageDigest (D : Type) : Type := {
  Size : D -> Z;
  Update : D -> list byte -> outcome D;
  Finish : D -> list byte -> Z -> outcome (Z * list byte * D)
}.

(** [digesting d h n msg]: [d] computes [h], whose values have [n] bytes, and
    was given [msg]. *)
Class DigestLaws (D : Type) `{MessageDigest D} : Type := {
  digesting : D -> (list byte -> list byte) -> Z -> list byte -> Prop;
  Size_ok d h n msg : digesting d h n msg -> Size d = n /\ forall m, zlen (h m) = n;
  Update_ok d h n msg data : digesting d h n msg ->
    exists d', Update d data = Ret d' /\ digesting d' h n (msg ++ data);
  Finish_ok d h n msg buf len : digesting d h n msg -> zlen msg < 2 ^ 61 -> n <= len -> n <= zlen buf ->
    exists d', Finish d buf len = Ret (n, splice buf 0 (h msg), d') /\ digesting d' h n [];
  Finish_short d h n msg buf len : digesting d h n msg -> len < n -> Finish d buf len = Ret (0, buf, d)
}.

(** ** The implementations *)

Definition Sha1Digest_Finish (ctx : SHA1_CTX) (buf : list byte) (len : Z) : outcome (Z * list byte * SHA1_CTX) :=
  if len <? SHA1_DIGEST_SIZE then mret (0, buf, ctx) else
  '(digest, ctx) ← SHA1_final host_order ctx;
  buf ← mem_write buf 0 digest;
  mret (SHA1_DIGEST_SIZE, buf, SHA1_init ctx).
#[export] Instance Sha1Digest : MessageDigest SHA1_CTX := {
  Size _ := SHA1_DIGEST_SIZE;
  Update := SHA1_update host_order;
  Finish := Sha1Digest_Finish
}.

Definition Md5Digest_size : Z := 16.
Definition Md5Digest_Finish (ctx : MD5Context) (buf : list byte) (len : Z) : outcome (Z * list byte * MD5Context) :=
  if len <? Md5Digest_size then mret (0, buf, ctx) else
  '(digest, ctx) ← MD5_final host_order ctx;
  buf ← mem_write buf 0 digest;
  mret (Md5Digest_size, buf, MD5_init ctx).
#[export] Instance Md5Digest : MessageDigest MD5Context := {
  Size _ := Md5Digest_size;
  Update := MD5_update host_order;
  Finish := Md5Digest_Finish
}.

(** [MessageDigest*]: the virtual calls. *)
Inductive any_digest : Type := Md5Object (ctx : MD5Context) | Sha1Object (ctx : SHA1_CTX).
Definition any_map {A} (f : A -> any_digest) (o : outcome (Z * list byte * A)) : outcome (Z * list byte * any_digest) :=
  '(n, buf, d) ← o; mret (n, buf, f d).
#[export] Instance AnyDigest : MessageDigest any_digest := {
  Size d := match d with Md5Object c => Size c | Sha1Object c => Size c end;
  Update d data := match d with
    | Md5Object c => c ← Update c data; mret (Md5Object c)
    | Sha1Object c => c ← Update c data; mret (Sha1Object c)
    end;
  Finish d buf len := match d with
    | Md5Object c => any_map Md5Object (Finish c buf len)
    | Sha1Object c => any_map Sha1Object (Finish c buf len)
    end
}.

(** ** Names of algorithms *)

Definition DIGEST_MD5 : string := "md5".
Definition DIGEST_SHA_1 : string := "sha-1".
Definition DIGEST_SHA_224 : string := "sha-224".
Definition DIGEST_SHA_256 : string := "sha-256".
Definition DIGEST_SHA_384 : string := "sha-384".
Definition DIGEST_SHA_512 : string := "sha-512".
Definition kBlockSize : Z := 64.
Definition kMaxSize : Z := 64.

Section Objects.
Context `{Heap}.

(** A new object: the constructor initialises the context, the buffer in it
    holds what the memory held. *)
Definition Create_digest (alg : string) : option any_digest :=
  if String.eqb alg DIGEST_MD5 then Some (Md5Object (MD5_init (mkMd5 [] (0, 0) (fresh 64))))
  else if String.eqb alg DIGEST_SHA_1 then Some (Sha1Object (SHA1_init (mkCtx [] (0, 0) (fresh 64))))
  else None.
End Objects.

Definition IsFips180DigestAlgorithm (alg : string) : bool :=
  String.eqb alg DIGEST_SHA_1 || String.eqb alg DIGEST_SHA_224 || String.eqb alg DIGEST_SHA_256 ||
  String.eqb alg DIGEST_SHA_384 || String.eqb alg DIGEST_SHA_512.

(** ** Digests and HMAC of a buffer *)
Section Functions.
Context `{MessageDigest D} `{Heap}.

Definition ComputeDigest (digest : D) (input output : list byte) (out_len : Z) : outcome (Z * list byte * D) :=
  digest ← Update digest input;
  Finish digest output out_len.

(** The string overload: the digest as hexadecimal text. *)
Definition ComputeDigest_hex (digest : D) (input : list byte) : outcome (list byte * D) :=
  let output := fresh (Size digest) in
  '(_, output, digest) ← ComputeDigest digest input output (Size digest);
  text ← hex_encode output;
  mret (text, digest).

Definition xor_pad (c : Z) (new_key : list byte) : list byte :=
  map (fun k => byte.of_Z (Z.lxor c (byte.unsigned k))) new_key.

Definition ComputeHmac (digest : D) (key input output : list byte) (out_len : Z) : outcome (Z * list byte * D) :=
  let block_len := kBlockSize in
  if Size digest >? 32 then mret (0, output, digest) else
  let new_key := fresh block_len in
  '(new_key, digest) ←
    (if zlen key >? block_len then
       '(_, new_key, digest) ← ComputeDigest digest key new_key block_len;
       new_key ← mem_write new_key (Size digest) (replicate (Z.to_nat (block_len - Size digest)) Byte.x00);
       mret (new_key, digest)
     else
       new_key ← mem_write new_key 0 key;
       new_key ← mem_write new_key (zlen key) (replicate (Z.to_nat (block_len - zlen key)) Byte.x00);
       mret (new_key, digest));
  let o_pad := xor_pad 0x5c new_key in
  let i_pad := xor_pad 0x36 new_key in
  let inner := fresh (Size digest) in
  digest ← Update digest i_pad;
  digest ← Update digest input;
  '(_, inner, digest) ← Finish digest inner (Size digest);
  digest ← Update digest o_pad;
  digest ← Update digest inner;
  Finish digest output out_len.

Definition ComputeHmac_hex (digest : D) (key input : list byte) : outcome (list byte * D) :=
  let output := fresh (Size digest) in
  '(_, output, digest) ← ComputeHmac digest key input output (Size digest);
  text ← hex_encode output;
  mret (text, digest).
End Functions.

(** The overloads that take the name of the algorithm. *)
Section Named.
Context `{Heap}.

Definition ComputeDigest_alg (alg : string) (input output : list byte) (out_len : Z) : outcome (Z * list byte) :=
  match Create_digest alg with
  | Some digest => '(n, output, _) ← ComputeDigest digest input output out_len; mret (n, output)
  | None => mret (0, output)
  end.
Definition ComputeDigest_string (alg : string) (input : list byte) : outcome (option (list byte)) :=
  match Create_digest alg with
  | Some digest => '(text, _) ← ComputeDigest_hex digest input; mret (Some text)
  | None => mret None
  end.
Definition MD5_hex (input : list byte) : outcome (list byte) :=
  o ← ComputeDigest_string DIGEST_MD5 input; mret (default [] o).
Definition ComputeHmac_alg (alg : string) (key input output : list byte) (out_len : Z) : outcome (Z * list byte) :=
  match Create_digest alg with
  | None => mret (0, output)
  | Some digest => '(n, output, _) ← ComputeHmac digest key input output out_len; mret (n, output)
  end.
Definition ComputeHmac_string (alg : string) (key input : list byte) : outcome (option (list byte)) :=
  match Create_digest alg with
  | Some digest => '(text, _) ← ComputeHmac_hex digest key input; mret (Some text)
  | None => mret None
  end.
End Named.

(** ** RFC 2104 *)

(** The key, hashed when it is longer than a block, with zeroes behind it. *)
Definition key_block (h : list byte -> list byte) (key : list byte) : list byte :=
  let k := if zlen key >? 64 then h key else key in
  k ++ replicate (Z.to_nat (64 - zlen k)) Byte.x00.
Definition hmac (h : list byte -> list byte) (key text : list byte) : list byte :=
  h (xor_pad 0x5c (key_block h key) ++ h (xor_pad 0x36 (key_block h key) ++ text)).

(** ** The laws of the implementations *)

Lemma zlen_words (f : Z -> list byte) st : (forall v, zlen (f v) = 4) -> zlen (st ≫= f) = 4 * zlen st.
Proof.
  intros Hf. induction st as [|w st IH]; [done|]. cbn [mbind list_bind]. rewrite zlen_app, Hf, zlen_cons.
  change (list_bind _ _ f st) with (st ≫= f). lia.
Qed.

Lemma zlen_sha1 m : zlen (sha1 m) = SHA1_DIGEST_SIZE.
Proof.
  unfold sha1. rewrite zlen_words by apply (zlen_be_bytes 4). unfold zlen.
  rewrite fips_blocks_shape; done.
Qed.
Lemma zlen_md5 m : zlen (md5 m) = Md5Digest_size.
Proof.
  unfold md5. rewrite zlen_words by apply (zlen_le_split 4). unfold zlen.
  rewrite rfc_blocks_shape; done.
Qed.

Lemma SHA1_init_new ctx : SHA1_init ctx = new_ctx (buffer ctx).
Proof. done. Qed.
Lemma MD5_init_new ctx : MD5_init ctx = new_md5 (md5_in ctx).
Proof. done. Qed.

#[export] Instance Sha1Digest_laws : DigestLaws SHA1_CTX.
Proof.
  refine {| digesting ctx h n msg := h = sha1 /\ n = SHA1_DIGEST_SIZE /\ absorbed ctx msg |}.
  - intros d h n msg (-> & -> & _). split; [done|]. apply zlen_sha1.
  - intros d h n msg data (-> & -> & Ha). destruct (SHA1_update_ok host_order d msg data Ha) as (d' & E & Hd').
    by exists d'.
  - intros d h n msg buf len (-> & -> & Ha) Hm Hl Hb. cbn [Finish Sha1Digest]. unfold Sha1Digest_Finish.
    rewrite (proj2 (Z.ltb_ge _ _)) by lia.
    destruct (SHA1_final_ok host_order d msg Ha Hm) as (c & -> & Hc). cbn [mbind outcome_bind].
    rewrite mem_write_ok by (rewrite ?zlen_sha1; lia). cbn [mbind outcome_bind].
    eexists. split; [reflexivity|]. split; [done|]. split; [done|]. rewrite SHA1_init_new. by apply absorbed_init.
  - intros d h n msg buf len (-> & -> & _) Hl. cbn [Finish Sha1Digest]. unfold Sha1Digest_Finish.
    by rewrite (proj2 (Z.ltb_lt _ _)) by lia.
Defined.

#[export] Instance Md5Digest_laws : DigestLaws MD5Context.
Proof.
  refine {| digesting ctx h n msg := h = md5 /\ n = Md5Digest_size /\ md5_absorbed ctx msg |}.
  - intros d h n msg (-> & -> & _). split; [done|]. apply zlen_md5.
  - intros d h n msg data (-> & -> & Ha). destruct (MD5_update_ok host_order d msg data Ha) as (d' & E & Hd').
    by exists d'.
  - intros d h n msg buf len (-> & -> & Ha) Hm Hl Hb. cbn [Finish Md5Digest]. unfold Md5Digest_Finish.
    rewrite (proj2 (Z.ltb_ge _ _)) by lia.
    destruct (MD5_final_ok host_order d msg Ha Hm) as (c & -> & Hc). cbn [mbind outcome_bind].
    rewrite mem_write_ok by (rewrite ?zlen_md5; lia). cbn [mbind outcome_bind].
    eexists. split; [reflexivity|]. split; [done|]. split; [done|]. rewrite MD5_init_new. by apply md5_absorbed_init.
  - intros d h n msg buf len (-> & -> & _) Hl. cbn [Finish Md5Digest]. unfold Md5Digest_Finish.
    by rewrite (proj2 (Z.ltb_lt _ _)) by lia.
Defined.

#[export] Instance AnyDigest_laws : DigestLaws any_digest.
Proof.
  refine {| digesting d h n msg := match d with
            | Md5Object c => digesting c h n msg | Sha1Object c => digesting c h n msg end |}.
  - intros [c|c] h n msg Hd; exact (Size_ok c h n msg Hd).
  - intros [c|c] h n msg data Hd; destruct (Update_ok c h n msg data Hd) as (c' & E & Hc');
      cbn [Update AnyDigest]; rewrite E; eexists; (split; [reflexivity|exact Hc']).
  - intros [c|c] h n msg buf len Hd Hm Hl Hb; destruct (Finish_ok c h n msg buf len Hd Hm Hl Hb) as (c' & E & Hc');
      cbn [Finish AnyDigest]; rewrite E; eexists; (split; [reflexivity|exact Hc']).
  - intros [c|c] h n msg buf len Hd Hl; cbn [Finish AnyDigest]; by rewrite (Finish_short c h n msg buf len Hd Hl).
Defined.

(** ** HMAC *)

Lemma splice_all (buf d : list byte) : zlen buf = zlen d -> splice buf 0 d = d.
Proof. intros Hl. unfold splice. by rewrite ztake_0, zdrop_all, app_nil_r by lia. Qed.

Lemma zlen_xor_pad c k : zlen (xor_pad c k) = zlen k.
Proof. unfold zlen, xor_pad. by rewrite length_map. Qed.

(** A key written to the front of the block and zeroes behind it. *)
Lemma key_copied (buf k : list byte) : zlen buf = 64 -> zlen k <= 64 ->
  (b ← mem_write buf 0 k; mem_write b (zlen k) (replicate (Z.to_nat (64 - zlen k)) Byte.x00)) =
  Ret (k ++ replicate (Z.to_nat (64 - zlen k)) Byte.x00).
Proof.
  intros Hb Hk. pose proof (zlen_nonneg k).
  assert (Hz : zlen (k ++ replicate (Z.to_nat (64 - zlen k)) Byte.x00) = 64)
    by (rewrite zlen_app, zlen_replicate by lia; lia).
  pose proof (mem_write_twice buf k (replicate (Z.to_nat (64 - zlen k)) Byte.x00) 0) as Hw.
  rewrite zlen_replicate in Hw by lia. change (0 + zlen k) with (zlen k) in Hw. rewrite Hw by lia.
  rewrite mem_write_ok, splice_all by lia. done.
Qed.

Lemma zlen_key_block h key n : (forall m, zlen (h m) = n) -> 0 <= n <= 64 -> zlen (key_block h key) = 64.
Proof.
  intros Hh Hn. unfold key_block. pose proof (zlen_nonneg key). rewrite zlen_app.
  destruct (Z.gtb_spec (zlen key) 64); rewrite zlen_replicate by (rewrite ?Hh; lia); lia.
Qed.

Section Hmac.
Context `{HD : MessageDigest D} {HL : DigestLaws D} `{Heap}.

(** [Update] and [Finish] one after the other. *)
Lemma ComputeDigest_ok d h n msg input output out_len : digesting d h n msg ->
  zlen (msg ++ input) < 2 ^ 61 -> n <= out_len -> n <= zlen output ->
  exists d', ComputeDigest d input output out_len = Ret (n, splice output 0 (h (msg ++ input)), d') /\
    digesting d' h n [].
Proof.
  intros Hd Hm Hl Ho. unfold ComputeDigest.
  destruct (Update_ok d h n msg input Hd) as (d1 & -> & H1). cbn [mbind outcome_bind].
  destruct (Finish_ok d1 h n _ output out_len H1 Hm Hl Ho) as (d2 & -> & H2). eauto.
Qed.

(** The two loops of HMAC: everything up to the last [Finish]. *)
Lemma ComputeHmac_final d h n key input output out_len : digesting d h n [] -> 0 <= n <= 32 ->
  zlen key < 2 ^ 61 -> 64 + zlen input < 2 ^ 61 ->
  exists d', ComputeHmac d key input output out_len = Finish d' output out_len /\
    digesting d' h n (xor_pad 0x5c (key_block h key) ++ h (xor_pad 0x36 (key_block h key) ++ input)).
Proof.
  intros Hd Hn Hk Hi. destruct (Size_ok d h n [] Hd) as [Hs Hh]. unfold ComputeHmac.
  rewrite Hs, Z.gtb_ltb, (proj2 (Z.ltb_ge _ _)) by lia.
  pose proof (fresh_length 64 ltac:(lia)) as Hf. pose proof (zlen_nonneg key).
  assert (Hkey : exists d1, (if zlen key >? kBlockSize then
      '(_, new_key, digest) ← ComputeDigest d key (fresh kBlockSize) kBlockSize;
      new_key ← mem_write new_key (Size digest) (replicate (Z.to_nat (kBlockSize - Size digest)) Byte.x00);
      mret (new_key, digest)
    else
      new_key ← mem_write (fresh kBlockSize) 0 key;
      new_key ← mem_write new_key (zlen key) (replicate (Z.to_nat (kBlockSize - zlen key)) Byte.x00);
      mret (new_key, d)) = Ret (key_block h key, d1) /\ digesting d1 h n []).
  { unfold key_block. change kBlockSize with 64. destruct (Z.gtb_spec (zlen key) 64) as [Hg|Hle].
    - destruct (ComputeDigest_ok d h n [] key (fresh 64) 64 Hd) as (d1 & -> & H1); [cbn [app]; lia|lia|lia|].
      cbn [mbind outcome_bind app]. destruct (Size_ok d1 h n [] H1) as [-> _].
      pose proof (key_copied (fresh 64) (h key) Hf) as Hw. rewrite Hh in Hw. specialize (Hw ltac:(lia)).
      rewrite mem_write_ok in Hw by (rewrite ?Hh; lia). cbn [mbind outcome_bind] in Hw. rewrite Hw, Hh.
      eexists. split; [reflexivity|done].
    - pose proof (key_copied (fresh 64) key Hf ltac:(lia)) as Hw.
      destruct (mem_write (fresh 64) 0 key) as [b|]; [|done]. cbn [mbind outcome_bind] in Hw |- *.
      rewrite Hw. eexists. by split. }
  destruct Hkey as (d1 & -> & H1). cbn [mbind outcome_bind].
  pose proof (zlen_key_block h key n Hh ltac:(lia)) as Hkb.
  destruct (Size_ok d1 h n [] H1) as [-> _].
  destruct (Update_ok d1 h n [] (xor_pad 0x36 (key_block h key)) H1) as (d2 & -> & H2). cbn [mbind outcome_bind app] in *.
  destruct (Update_ok d2 h n _ input H2) as (d3 & -> & H3). cbn [mbind outcome_bind].
  destruct (Size_ok d3 h n _ H3) as [-> _].
  pose proof (fresh_length n ltac:(lia)) as Hfn.
  destruct (Finish_ok d3 h n _ (fresh n) n H3) as (d4 & -> & H4); [rewrite zlen_app, zlen_xor_pad; lia|lia|lia|].
  cbn [mbind outcome_bind]. rewrite splice_all by (rewrite Hh; lia).
  destruct (Update_ok d4 h n [] (xor_pad 0x5c (key_block h key)) H4) as (d5 & -> & H5). cbn [mbind outcome_bind app] in *.
  destruct (Update_ok d5 h n _ (h (xor_pad 0x36 (key_block h key) ++ input)) H5) as (d6 & -> & H6).
  cbn [mbind outcome_bind]. by exists d6.
Qed.

Lemma ComputeHmac_ok d h n key input output out_len : digesting d h n [] -> 0 <= n <= 32 ->
  zlen key < 2 ^ 61 -> 64 + zlen input < 2 ^ 61 -> n <= out_len -> n <= zlen output ->
  exists d', ComputeHmac d key input output out_len = Ret (n, splice output 0 (hmac h key input), d') /\
    digesting d' h n [].
Proof.
  intros Hd Hn Hk Hi Hl Ho. destruct (ComputeHmac_final d h n key input output out_len Hd Hn Hk Hi) as (d' & -> & H').
  destruct (Size_ok d h n [] Hd) as [_ Hh].
  unfold hmac. eapply Finish_ok; [done| |done|done]. rewrite zlen_app, zlen_xor_pad, (zlen_key_block h key n Hh), Hh by lia. lia.
Qed.

(** C17: HMAC against the interface: with any object that follows the laws of
    a digest of at most 32 bytes, [ComputeHmac] is the HMAC of RFC 2104 over
    the function that the object computes, for short and for long keys,
    written to the front of the output and to nothing else, and the object is
    as new afterwards; with an output of too few bytes it answers 0 and
    leaves the output alone. *)
Theorem hmac_is_rfc2104 d h n key input output out_len : digesting d h n [] -> 0 <= n <= 32 ->
  zlen key < 2 ^ 61 -> 64 + zlen input < 2 ^ 61 -> n <= zlen output ->
  exists d', ComputeHmac d key input output out_len =
    (if out_len <? n then Ret (0, output, d') else Ret (n, splice output 0 (hmac h key input), d')) /\
    (n <= out_len -> digesting d' h n []).
Proof.
  intros Hd Hn Hk Hi Ho. destruct (Z.ltb_spec out_len n) as [Hs|Hl].
  - destruct (ComputeHmac_final d h n key input output out_len Hd Hn Hk Hi) as (d' & -> & H').
    exists d'. split; [by eapply Finish_short|lia].
  - destruct (ComputeHmac_ok d h n key input output out_len Hd Hn Hk Hi Hl Ho) as (d' & -> & H'). by exists d'.
Qed.
End Hmac.

(** The new object of the factory. *)
Lemma Create_digest_ok `{Heap} :
  (exists d, Create_digest DIGEST_SHA_1 = Some d /\ digesting d sha1 20 []) /\
  (exists d, Create_digest DIGEST_MD5 = Some d /\ digesting d md5 16 []).
Proof.
  assert (Hf : length (fresh 64) = 64%nat) by (apply (zlen_length _ 64), (fresh_length 64); lia).
  split; eexists; (split; [reflexivity|]); (split; [done|]); (split; [done|]).
  - exact (absorbed_init _ Hf).
  - exact (md5_absorbed_init _ Hf).
Qed.

Lemma ComputeHmac_sha1 `{Heap} key input output : zlen key < 2 ^ 61 -> 64 + zlen input < 2 ^ 61 -> zlen output = 20 ->
  ComputeHmac_alg DIGEST_SHA_1 key input output 20 = Ret (20, hmac sha1 key input).
Proof.
  intros Hk Hi Ho. unfold ComputeHmac_alg. destruct Create_digest_ok as [(d & -> & Hd) _].
  destruct (ComputeHmac_ok d sha1 20 key input output 20 Hd) as (d' & -> & _); [lia..|].
  cbn [mbind outcome_bind]. rewrite splice_all; [done|]. unfold hmac. rewrite zlen_sha1. exact Ho.
Qed.

Lemma hmac_is_rfc2104_witness : exists d',
  ComputeHmac (H1 := filled_heap Byte.xa5) (new_ctx (replicate 64 Byte.xa5)) [Byte.x6b] [Byte.x61] (replicate 20 Byte.x00) 20 =
    Ret (20, splice (replicate 20 Byte.x00) 0 (hmac sha1 [Byte.x6b] [Byte.x61]), d') /\
  (20 <= 20 -> digesting d' sha1 20 []).
Proof.
  apply (hmac_is_rfc2104 (H := filled_heap Byte.xa5) (new_ctx (replicate 64 Byte.xa5)) sha1 20 [Byte.x6b] [Byte.x61] (replicate 20 Byte.x00) 20).
  - split; [reflexivity|]. split; [reflexivity|]. apply absorbed_init. reflexivity.
  - lia.
  - vm_compute. reflexivity.
  - vm_compute. reflexivity.
  - vm_compute. congruence.
Defined.

(** The first test of RFC 2202 for HMAC-SHA-1, by the code. *)
Example hmac_rfc2202 :
  ('(n, d) ← ComputeHmac_alg (H := filled_heap Byte.xa5) DIGEST_SHA_1 (replicate 20 Byte.x0b)
     (map byte.of_Z [72; 105; 32; 84; 104; 101; 114; 101]) (replicate 20 Byte.x00) 20;
   mret (n, be_value d)) = Ret (20, 0xb617318655057264e28bc0b6fb378c8ef146be00).
Proof. vm_compute. reflexivity. Qed.
