(* ===== verification/IpAddress.v ===== *)
(** * network/stun/ip_address.{h,cc}: IP addresses of either family

    [u_] is the memory of the union of [in_addr] and [in6_addr]: 16 bytes, of
    which an IPv4 address uses the first four.  [inet_pton] and [inet_ntop]
    belong to the C library; the functions that only wrap them are in
    [SocketAddress] with the library calls as parameters. *)

From Stdlib Require Import ZArith Lia.
From S2P Require Import Prelude ByteOrder.

Inductive address_family : Type := AF_UNSPEC | AF_INET | AF_INET6.

#[export] Instance address_family_eq_dec : EqDecision address_family.
Proof. solve_decision. Defined.

Record IPAddress : Type := mkIPAddress { family_ : address_family; u_ : list byte }.

#[export] Instance IPAddress_eq_dec : EqDecision IPAddress.
Proof. solve_decision. Defined.

(** ** Constructors and accessors *)

Definition zeroes (n : nat) : list byte := replicate n Byte.x00.

Definition IPAddress_nil : IPAddress := mkIPAddress AF_UNSPEC (zeroes 16).
Definition IPAddress_v4 (ip4 : list byte) : IPAddress := mkIPAddress AF_INET (ip4 ++ zeroes 12).
Definition IPAddress_v6 (ip6 : list byte) : IPAddress := mkIPAddress AF_INET6 ip6.
Definition IPAddress_host (ip_in_host_byte_order : Z) : IPAddress :=
  IPAddress_v4 (store host_order 4 (HostToNetwork32 host_order ip_in_host_byte_order)).

Definition ipv4_address (ip : IPAddress) : list byte := ztake 4 (u_ ip).
Definition ipv6_address (ip : IPAddress) : list byte := u_ ip.

(** [s6_addr[i]] as a number, and the four [uint32_t] words of an address. *)
Definition s6_addr (ip : IPAddress) (i : Z) : Z :=
  byte.unsigned (default Byte.x00 (zget (u_ ip) i)).
Definition word (ip6 : list byte) (i : Z) : Z := load host_order (ztake 4 (zdrop (4 * i) ip6)).

Definition v4AddressAsHostOrderInteger (ip : IPAddress) : Z :=
  match family_ ip with
  | AF_INET => NetworkToHost32 host_order (load host_order (ipv4_address ip))
  | _ => 0
  end.

Definition overhead (ip : IPAddress) : Z :=
  match family_ ip with AF_INET => 20 | AF_INET6 => 40 | AF_UNSPEC => 0 end.
Definition Size (ip : IPAddress) : Z :=
  match family_ ip with AF_INET => 4 | AF_INET6 => 16 | AF_UNSPEC => 0 end.
Definition IPIsUnspec (ip : IPAddress) : bool := bool_decide (family_ ip = AF_UNSPEC).
Definition IsNil (ip : IPAddress) : bool := IPIsUnspec ip.

(** ** Comparison *)

(** [memcmp(a, b, n)] with its sign. *)
Fixpoint memcmp (a b : list byte) (n : nat) : comparison :=
  match n, a, b with
  | S n, x :: a, y :: b =>
      match Z.compare (byte.unsigned x) (byte.unsigned y) with
      | Eq => memcmp a b n
      | c => c
      end
  | _, _, _ => Eq
  end.

Definition is_eq (c : comparison) : bool := match c with Eq => true | _ => false end.
Definition is_lt (c : comparison) : bool := match c with Lt => true | _ => false end.

Definition ip_eqb (a b : IPAddress) : bool :=
  if negb (bool_decide (family_ a = family_ b)) then false else
  match family_ a with
  | AF_INET => is_eq (memcmp (u_ a) (u_ b) 4)
  | AF_INET6 => is_eq (memcmp (u_ a) (u_ b) 16)
  | AF_UNSPEC => true
  end.

Definition ip_ltb (a b : IPAddress) : bool :=
  if negb (bool_decide (family_ a = family_ b)) then
    match family_ a, family_ b with
    | AF_UNSPEC, _ => true
    | AF_INET, AF_INET6 => true
    | _, _ => false
    end
  else
    match family_ a with
    | AF_INET => NetworkToHost32 host_order (load host_order (ipv4_address a)) <?
                 NetworkToHost32 host_order (load host_order (ipv4_address b))
    | AF_INET6 => is_lt (memcmp (u_ a) (u_ b) 16)
    | AF_UNSPEC => false
    end.

Definition ip_gtb (a b : IPAddress) : bool := negb (ip_eqb a b) && negb (ip_ltb a b).

(** ** Classification *)

Definition kV4MappedPrefix : list byte :=
  zeroes 10 ++ [Byte.xff; Byte.xff] ++ zeroes 4.
Definition k6To4Prefix : list byte := [Byte.x20; Byte.x02] ++ zeroes 14.
Definition kTeredoPrefix : list byte := [Byte.x20; Byte.x01] ++ zeroes 14.
Definition kV4CompatibilityPrefix : list byte := zeroes 16.
Definition k6BonePrefix : list byte := [Byte.x3f; Byte.xfe] ++ zeroes 14.
Definition kPrivateNetworkPrefix : list byte := [Byte.xfd] ++ zeroes 15.
Definition in6addr_any : list byte := zeroes 16.
Definition in6addr_loopback : list byte := zeroes 15 ++ [Byte.x01].
Definition INADDR_ANY : Z := 0.
Definition INADDR_LOOPBACK : Z := 0x7f000001.

Definition IPIsHelper (ip : IPAddress) (tomatch : list byte) (length : Z) : bool :=
  is_eq (memcmp (ipv6_address ip) tomatch (Z.to_nat (Z.shiftr length 3))).

Definition IPIsV4Mapped (ip : IPAddress) : bool := IPIsHelper ip kV4MappedPrefix 96.
Definition IPIs6Bone (ip : IPAddress) : bool := IPIsHelper ip k6BonePrefix 16.
Definition IPIs6To4 (ip : IPAddress) : bool := IPIsHelper ip k6To4Prefix 16.
Definition IPIsTeredo (ip : IPAddress) : bool := IPIsHelper ip kTeredoPrefix 32.
Definition IPIsV4Compatibility (ip : IPAddress) : bool := IPIsHelper ip kV4CompatibilityPrefix 96.

Definition ExtractMappedAddress (in6 : list byte) : list byte := ztake 4 (zdrop 12 in6).

Definition Normalized (ip : IPAddress) : IPAddress :=
  if negb (bool_decide (family_ ip = AF_INET6)) then ip
  else if negb (IPIsV4Mapped ip) then ip
  else IPAddress_v4 (ExtractMappedAddress (u_ ip)).

Definition AsIPv6Address (ip : IPAddress) : IPAddress :=
  if negb (bool_decide (family_ ip = AF_INET)) then ip
  else IPAddress_v6 (splice kV4MappedPrefix 12 (ipv4_address ip)).

Definition IPIsPrivateNetworkV4 (ip : IPAddress) : bool :=
  let ip_in_host_order := v4AddressAsHostOrderInteger ip in
  (Z.shiftr ip_in_host_order 24 =? 10) ||
  (Z.shiftr ip_in_host_order 20 =? Z.lor (Z.shiftl 172 4) 1) ||
  (Z.shiftr ip_in_host_order 16 =? Z.lor (Z.shiftl 192 8) 168).
Definition IPIsPrivateNetworkV6 (ip : IPAddress) : bool := IPIsHelper ip kPrivateNetworkPrefix 8.
Definition IPIsPrivateNetwork (ip : IPAddress) : bool :=
  match family_ ip with
  | AF_INET => IPIsPrivateNetworkV4 ip
  | AF_INET6 => IPIsPrivateNetworkV6 ip
  | AF_UNSPEC => false
  end.

Definition IPIsSharedNetworkV4 (ip : IPAddress) : bool :=
  Z.shiftr (v4AddressAsHostOrderInteger ip) 22 =? Z.lor (Z.shiftl 100 2) 1.
Definition IPIsSharedNetwork (ip : IPAddress) : bool :=
  match family_ ip with AF_INET => IPIsSharedNetworkV4 ip | _ => false end.

Definition IPIsAny (ip : IPAddress) : bool :=
  match family_ ip with
  | AF_INET => ip_eqb ip (IPAddress_host INADDR_ANY)
  | AF_INET6 => ip_eqb ip (IPAddress_v6 in6addr_any) || ip_eqb ip (IPAddress_v6 kV4MappedPrefix)
  | AF_UNSPEC => false
  end.

Definition IPIsLoopbackV4 (ip : IPAddress) : bool :=
  Z.shiftr (v4AddressAsHostOrderInteger ip) 24 =? 127.
Definition IPIsLoopbackV6 (ip : IPAddress) : bool := ip_eqb ip (IPAddress_v6 in6addr_loopback).
Definition IPIsLoopback (ip : IPAddress) : bool :=
  match family_ ip with
  | AF_INET => IPIsLoopbackV4 ip
  | AF_INET6 => IPIsLoopbackV6 ip
  | AF_UNSPEC => false
  end.

Definition IPIsLinkLocalV4 (ip : IPAddress) : bool :=
  Z.shiftr (v4AddressAsHostOrderInteger ip) 16 =? Z.lor (Z.shiftl 169 8) 254.
Definition IPIsLinkLocalV6 (ip : IPAddress) : bool :=
  (s6_addr ip 0 =? 0xFE) && (Z.land (s6_addr ip 1) 0xC0 =? 0x80).
Definition IPIsLinkLocal (ip : IPAddress) : bool :=
  match family_ ip with
  | AF_INET => IPIsLinkLocalV4 ip
  | AF_INET6 => IPIsLinkLocalV6 ip
  | AF_UNSPEC => false
  end.

Definition IPIsPrivate (ip : IPAddress) : bool :=
  IPIsLinkLocal ip || IPIsLoopback ip || IPIsPrivateNetwork ip || IPIsSharedNetwork ip.

Definition IPIsMacBased (ip : IPAddress) : bool :=
  negb (Z.land (s6_addr ip 8) 0x02 =? 0) && (s6_addr ip 11 =? 0xFF) && (s6_addr ip 12 =? 0xFE).
Definition IPIsSiteLocal (ip : IPAddress) : bool :=
  (s6_addr ip 0 =? 0xFE) && (Z.land (s6_addr ip 1) 0xC0 =? 0xC0).
Definition IPIsULA (ip : IPAddress) : bool := Z.land (s6_addr ip 0) 0xFE =? 0xFC.

Definition IPAddressPrecedence (ip : IPAddress) : Z :=
  match family_ ip with
  | AF_INET => 30
  | AF_INET6 =>
      if IPIsLoopback ip then 60
      else if IPIsULA ip then 50
      else if IPIsV4Mapped ip then 30
      else if IPIs6To4 ip then 20
      else if IPIsTeredo ip then 10
      else if IPIsV4Compatibility ip || IPIsSiteLocal ip || IPIs6Bone ip then 1
      else 40
  | AF_UNSPEC => 0
  end.

Definition GetLoopbackIP (family : address_family) : IPAddress :=
  match family with
  | AF_INET => IPAddress_host INADDR_LOOPBACK
  | AF_INET6 => IPAddress_v6 in6addr_loopback
  | AF_UNSPEC => IPAddress_nil
  end.
Definition GetAnyIP (family : address_family) : IPAddress :=
  match family with
  | AF_INET => IPAddress_host INADDR_ANY
  | AF_INET6 => IPAddress_v6 in6addr_any
  | AF_UNSPEC => IPAddress_nil
  end.

Definition HashIP (ip : IPAddress) : Z :=
  match family_ ip with
  | AF_INET => load host_order (ipv4_address ip)
  | AF_INET6 =>
      let v6 := ipv6_address ip in
      Z.lxor (Z.lxor (Z.lxor (word v6 0) (word v6 1)) (word v6 2)) (word v6 3)
  | AF_UNSPEC => 0
  end.

(** ** Masks *)

(** The word at index [i] of a truncated IPv6 address. *)
Definition truncate_word (v6addr : list byte) (position inner_mask i : Z) : list byte :=
  if i =? position then
    store host_order 4 (HostToNetwork32 host_order
      (Z.land (NetworkToHost32 host_order (word v6addr i)) inner_mask))
  else if i >? position then store host_order 4 0
  else store host_order 4 (word v6addr i).

Definition TruncateIP (ip : IPAddress) (length : Z) : IPAddress :=
  if length <? 0 then IPAddress_nil else
  match family_ ip with
  | AF_INET =>
      if length >? 31 then ip
      else if length =? 0 then IPAddress_host INADDR_ANY
      else
        let mask := wrap32 (Z.shiftl 0xFFFFFFFF (32 - length)) in
        let host_order_ip := NetworkToHost32 host_order (load host_order (ipv4_address ip)) in
        IPAddress_v4 (store host_order 4 (HostToNetwork32 host_order (Z.land host_order_ip mask)))
  | AF_INET6 =>
      if length >? 127 then ip
      else if length =? 0 then IPAddress_v6 in6addr_any
      else
        let position := length / 32 in
        let inner_length := 32 - (length - position * 32) in
        let inner_mask := wrap32 (Z.shiftl 0xFFFFFFFF inner_length) in
        IPAddress_v6 (truncate_word (u_ ip) position inner_mask 0 ++
          truncate_word (u_ ip) position inner_mask 1 ++
          truncate_word (u_ ip) position inner_mask 2 ++
          truncate_word (u_ ip) position inner_mask 3)
  | AF_UNSPEC => IPAddress_nil
  end.

(** The loop over the words of an IPv6 mask: the index of the first that is
    not all ones (4 if there is none). *)
Fixpoint first_partial (v6 : list byte) (fuel : nat) (i : Z) : Z :=
  match fuel with
  | O => i
  | S fuel => if negb (word v6 i =? 0xFFFFFFFF) then i else first_partial v6 fuel (i + 1)
  end.

(** The bit count of one word: 32 less its trailing zeroes. *)
Definition count_word (word_to_count : Z) : Z :=
  let w := Z.land word_to_count (wrap32 (Z.lnot word_to_count + 1)) in
  let test m n := if negb (Z.land w m =? 0) then n else 0 in
  let zeroes := 32 - test 0xFFFFFFFF 1 - test 0x0000FFFF 16 - test 0x00FF00FF 8
                - test 0x0F0F0F0F 4 - test 0x33333333 2 - test 0x55555555 1 in
  32 - zeroes.

Definition CountIPMaskBits (mask : IPAddress) : Z :=
  match family_ mask with
  | AF_INET =>
      let word_to_count := NetworkToHost32 host_order (load host_order (ipv4_address mask)) in
      if word_to_count =? 0 then 0 else count_word word_to_count
  | AF_INET6 =>
      let i := first_partial (u_ mask) 4 0 in
      let word_to_count :=
        if i <? 4 then NetworkToHost32 host_order (word (u_ mask) i) else 0 in
      let bits := i * 32 in
      if word_to_count =? 0 then bits else bits + count_word word_to_count
  | AF_UNSPEC => 0
  end.

(** ** InterfaceAddress *)

Record InterfaceAddress : Type := mkInterfaceAddress { ia_ip : IPAddress; ipv6_flags_ : Z }.

Definition interface_eqb (a b : InterfaceAddress) : bool :=
  (ipv6_flags_ a =? ipv6_flags_ b) && ip_eqb (ia_ip a) (ia_ip b).

(** ** Well-formed addresses *)

Record ip_ok (ip : IPAddress) : Prop := {
  ip_size : length (u_ ip) = 16%nat;
  ip_rest : match family_ ip with
            | AF_INET => zdrop 4 (u_ ip) = zeroes 12
            | AF_INET6 => True
            | AF_UNSPEC => u_ ip = zeroes 16
            end
}.

Lemma ip_ok_v4 a : length a = 4%nat -> ip_ok (IPAddress_v4 a).
Proof.
  intros Ha. constructor; cbn; [by rewrite length_app, Ha|].
  change 4 with (Z.of_nat 4). rewrite <- Ha. apply zdrop_app.
Qed.

Lemma ip_ok_v6 a : length a = 16%nat -> ip_ok (IPAddress_v6 a).
Proof. by constructor. Qed.

(** An address is determined by its family and the number it denotes. *)
Definition value (ip : IPAddress) : Z :=
  match family_ ip with
  | AF_INET => be_value (ipv4_address ip)
  | AF_INET6 => be_value (ipv6_address ip)
  | AF_UNSPEC => 0
  end.

Definition rank (f : address_family) : Z :=
  match f with AF_UNSPEC => 0 | AF_INET => 1 | AF_INET6 => 2 end.

Definition key (ip : IPAddress) : Z := rank (family_ ip) * 2 ^ 128 + value ip.

Lemma length_ipv4 ip : ip_ok ip -> length (ipv4_address ip) = 4%nat.
Proof. intros [Hs _]. unfold ipv4_address, ztake. rewrite length_take, Hs. done. Qed.

Lemma ipv4_v4 a : length a = 4%nat -> ipv4_address (IPAddress_v4 a) = a.
Proof.
  intros Ha. unfold ipv4_address; cbn. change 4 with (Z.of_nat 4). rewrite <- Ha. apply ztake_app.
Qed.

Lemma host_order_v4 ip :
  ip_ok ip -> NetworkToHost32 host_order (load host_order (ipv4_address ip)) = be_value (ipv4_address ip).
Proof. intros Hok. by apply to_be_load, length_ipv4. Qed.

Lemma value_range ip : ip_ok ip -> 0 <= value ip < 2 ^ 128.
Proof.
  intros Hok. unfold value. destruct (family_ ip); [done| |].
  - pose proof (be_value_range (ipv4_address ip)) as Hr. unfold zlen in Hr.
    rewrite length_ipv4 in Hr by done. cbn in Hr. lia.
  - pose proof (be_value_range (ipv6_address ip)) as Hr. unfold zlen, ipv6_address in *.
    destruct Hok as [Hs _]. rewrite Hs in Hr. cbn in Hr. lia.
Qed.

(** [memcmp] on whole blocks compares the numbers they denote. *)
Lemma memcmp_value a b : length a = length b ->
  memcmp a b (length a) = Z.compare (be_value a) (be_value b).
Proof.
  revert b. induction a as [|x a IH]; intros [|y b] Hl; try done. injection Hl as Hl.
  cbn [memcmp length]. rewrite !be_value_cons. pose proof (be_value_range a) as Ha.
  pose proof (be_value_range b) as Hb. unfold zlen in *. rewrite <- Hl in *.
  set (p := 2 ^ (8 * Z.of_nat (length a))) in *.
  destruct (Z.compare_spec (byte.unsigned x) (byte.unsigned y)) as [->|Hlt|Hgt].
  - rewrite IH by done. destruct (Z.compare_spec (be_value a) (be_value b)); symmetry.
    + apply Z.compare_eq_iff. lia.
    + apply Z.compare_lt_iff. lia.
    + apply Z.compare_gt_iff. lia.
  - symmetry. apply Z.compare_lt_iff. nia.
  - symmetry. apply Z.compare_gt_iff. nia.
Qed.

Lemma memcmp_take a b n : memcmp a b n = memcmp (take n a) (take n b) n.
Proof.
  revert a b. induction n as [|n IH]; intros [|x a] [|y b]; cbn; try done.
  by rewrite IH.
Qed.

Lemma memcmp_v4 a b : ip_ok a -> ip_ok b ->
  memcmp (u_ a) (u_ b) 4 = Z.compare (be_value (ipv4_address a)) (be_value (ipv4_address b)).
Proof.
  intros Ha Hb. rewrite memcmp_take. rewrite <- memcmp_value.
  - by rewrite length_ipv4.
  - by rewrite !length_ipv4.
Qed.

Lemma memcmp_v6 a b : ip_ok a -> ip_ok b ->
  memcmp (u_ a) (u_ b) 16 = Z.compare (be_value (u_ a)) (be_value (u_ b)).
Proof. intros [Ha _] [Hb _]. rewrite <- Ha at 1. apply memcmp_value. congruence. Qed.

Lemma ip_ltb_key a b : ip_ok a -> ip_ok b -> ip_ltb a b = (key a <? key b).
Proof.
  intros Ha Hb. pose proof (value_range a Ha). pose proof (value_range b Hb).
  symmetry. unfold ip_ltb, key. rewrite !host_order_v4, memcmp_v6 by done.
  destruct (family_ a) eqn:Ea, (family_ b) eqn:Eb; cbn [negb bool_decide rank];
    repeat (rewrite bool_decide_false by done || rewrite bool_decide_true by done); cbn [negb];
    try (apply Z.ltb_lt; lia); try (apply Z.ltb_ge; lia);
    unfold value, ipv6_address in *; rewrite ?Ea, ?Eb in *.
  - done.
  - destruct (Z.ltb_spec (be_value (ipv4_address a)) (be_value (ipv4_address b)));
      [apply Z.ltb_lt; lia|apply Z.ltb_ge; lia].
  - destruct (Z.compare_spec (be_value (u_ a)) (be_value (u_ b))); cbn;
      [apply Z.ltb_ge; lia|apply Z.ltb_lt; lia|apply Z.ltb_ge; lia].
Qed.

Lemma ip_eqb_key a b : ip_ok a -> ip_ok b -> ip_eqb a b = (key a =? key b).
Proof.
  intros Ha Hb. pose proof (value_range a Ha). pose proof (value_range b Hb).
  symmetry. unfold ip_eqb, key. rewrite memcmp_v4, memcmp_v6 by done.
  destruct (family_ a) eqn:Ea, (family_ b) eqn:Eb; cbn [negb rank];
    repeat (rewrite bool_decide_false by done || rewrite bool_decide_true by done); cbn [negb];
    try (apply Z.eqb_neq; lia); unfold value, ipv6_address in *; rewrite ?Ea, ?Eb in *.
  - done.
  - destruct (Z.compare_spec (be_value (ipv4_address a)) (be_value (ipv4_address b))); cbn;
      [apply Z.eqb_eq; lia|apply Z.eqb_neq; lia|apply Z.eqb_neq; lia].
  - destruct (Z.compare_spec (be_value (u_ a)) (be_value (u_ b))); cbn;
      [apply Z.eqb_eq; lia|apply Z.eqb_neq; lia|apply Z.eqb_neq; lia].
Qed.

Lemma key_inj a b : ip_ok a -> ip_ok b -> key a = key b -> a = b.
Proof.
  intros Ha Hb Hk. pose proof (value_range a Ha). pose proof (value_range b Hb).
  pose proof (length_ipv4 a Ha) as La. pose proof (length_ipv4 b Hb) as Lb.
  destruct Ha as [Sa Ra], Hb as [Sb Rb]. unfold key, value in *.
  destruct a as [fa ua], b as [fb ub]. cbn [family_ u_] in *.
  destruct fa, fb; cbn [rank] in Hk; try lia; f_equal.
  - congruence.
  - rewrite <- (ztake_zdrop 4 ua), <- (ztake_zdrop 4 ub), Ra, Rb. f_equal.
    unfold ipv4_address in *; cbn [u_] in *. apply be_value_inj; [congruence|lia].
  - unfold ipv6_address in *; cbn [u_] in *. apply be_value_inj; [congruence|lia].
Qed.

(** ** Masks *)

Lemma land_word_mask w k :
  0 <= w < 2 ^ 32 -> 0 <= k <= 32 ->
  Z.land w (wrap32 (Z.shiftl 0xFFFFFFFF k)) = w / 2 ^ k * 2 ^ k.
Proof.
  intros Hw Hk. rewrite <- Z.shiftr_div_pow2, <- Z.shiftl_mul_pow2 by lia.
  apply Z.bits_inj'. intros i Hi. rewrite Z.land_spec. unfold wrap32.
  change 0xFFFFFFFF with (Z.ones 32). rewrite (Z.shiftl_spec (Z.shiftr w k)) by done.
  destruct (Z.lt_ge_cases i 32) as [Hi32|Hi32].
  2:{ rewrite <- (Z.mod_small w (2 ^ 32)) by lia. rewrite Z.mod_pow2_bits_high by lia.
      rewrite Z.shiftr_spec by lia. rewrite Z.sub_add. by rewrite !Z.mod_pow2_bits_high by lia. }
  rewrite Z.mod_pow2_bits_low by lia. rewrite Z.shiftl_spec by done.
  destruct (Z.lt_ge_cases i k) as [Hlt|Hge].
  - by rewrite !(Z.testbit_neg_r _ (i - k)), andb_false_r by lia.
  - rewrite Z.shiftr_spec by lia. rewrite Z.sub_add, Z.ones_spec_low by lia. apply andb_true_r.
Qed.

(** Clearing the bits of a number below position [m + k], when its word of 32
    bits at position [m] is [w]. *)
Lemma truncate_arith A w B m k :
  0 <= w < 2 ^ 32 -> 0 <= m -> 0 <= k <= 32 -> 0 <= B < 2 ^ m ->
  (A * 2 ^ (32 + m) + w * 2 ^ m + B) / 2 ^ (m + k) * 2 ^ (m + k) =
  A * 2 ^ (32 + m) + w / 2 ^ k * 2 ^ k * 2 ^ m.
Proof.
  intros Hw Hm Hk HB. rewrite (Z.pow_add_r 2 m k), (Z.add_comm 32 m), (Z.pow_add_r 2 m 32) by lia.
  assert (H32 : 2 ^ 32 = 2 ^ k * 2 ^ (32 - k)) by (rewrite <- Z.pow_add_r by lia; f_equal; lia).
  rewrite H32. clear H32 Hw.
  set (M := 2 ^ m) in *. set (K := 2 ^ k). set (L := 2 ^ (32 - k)).
  assert (0 < M) by (apply Z.pow_pos_nonneg; lia). assert (0 < K) by (apply Z.pow_pos_nonneg; lia).
  rewrite <- Z.div_div by lia.
  replace (A * (M * (K * L)) + w * M + B) with (B + (A * L * K + w) * M) by ring.
  rewrite Z.div_add, (Z.div_small B M) by lia.
  replace (0 + (A * L * K + w)) with (w + A * L * K) by ring. rewrite Z.div_add by lia. ring.
Qed.

(** The four words of an IPv6 address, as numbers. *)
Definition be_word (a : list byte) (i : Z) : Z := be_value (ztake 4 (zdrop (4 * i) a)).

Lemma length_word_bytes (a : list byte) i : length a = 16%nat -> 0 <= i < 4 -> length (ztake 4 (zdrop (4 * i) a)) = 4%nat.
Proof. intros Ha Hi. unfold ztake, zdrop. rewrite length_take, length_drop, Ha. lia. Qed.

Lemma be_word_range a i : length a = 16%nat -> 0 <= i < 4 -> 0 <= be_word a i < 2 ^ 32.
Proof.
  intros Ha Hi. pose proof (be_value_range (ztake 4 (zdrop (4 * i) a))) as Hr. unfold zlen in Hr.
  by rewrite length_word_bytes in Hr.
Qed.

Lemma be_value_words a : length a = 16%nat ->
  be_value a = be_word a 0 * 2 ^ 96 + be_word a 1 * 2 ^ 64 + be_word a 2 * 2 ^ 32 + be_word a 3.
Proof.
  intros Ha. do 16 (destruct a as [|? a]; [done|]). destruct a; [|done].
  unfold be_word. change (4 * 0) with 0. change (4 * 1) with 4. change (4 * 2) with 8.
  change (4 * 3) with 12. unfold ztake, zdrop. cbn [Z.to_nat Pos.to_nat Pos.iter_op Nat.add take drop].
  match goal with |- be_value [?a; ?b; ?c; ?d; ?e; ?f; ?g; ?h; ?i; ?j; ?k; ?l; ?m; ?n; ?o; ?p] = _ =>
    change (be_value ([a; b; c; d] ++ [e; f; g; h] ++ [i; j; k; l] ++ [m; n; o; p]) = 
      be_value [a; b; c; d] * 2 ^ 96 + be_value [e; f; g; h] * 2 ^ 64 +
      be_value [i; j; k; l] * 2 ^ 32 + be_value [m; n; o; p])
  end.
  rewrite !be_value_app, !zlen_app. unfold zlen. cbn [length].
  change (Z.of_nat 4) with 4. cbn [Z.add Z.mul Pos.add Pos.mul]. lia.
Qed.

Lemma NetworkToHost32_word a i : length a = 16%nat -> 0 <= i < 4 ->
  NetworkToHost32 host_order (word a i) = be_word a i.
Proof. intros Ha Hi. by apply to_be_load, length_word_bytes. Qed.

(** What [truncate_word] leaves of a word. *)
Lemma truncate_word_value a p k i :
  length a = 16%nat -> 0 <= i < 4 -> 0 <= k <= 32 ->
  length (truncate_word a p (wrap32 (Z.shiftl 0xFFFFFFFF k)) i) = 4%nat /\
  be_value (truncate_word a p (wrap32 (Z.shiftl 0xFFFFFFFF k)) i) =
    if i =? p then be_word a i / 2 ^ k * 2 ^ k else if i >? p then 0 else be_word a i.
Proof.
  intros Ha Hi Hk. pose proof (be_word_range a i Ha Hi) as Hr. unfold truncate_word.
  destruct (i =? p); [|destruct (i >? p)].
  - rewrite NetworkToHost32_word, land_word_mask by done. unfold HostToNetwork32. rewrite store_to_be.
    split; [apply length_be_bytes|]. apply be_value_be_bytes.
    pose proof (Z.pow_pos_nonneg 2 k ltac:(lia) ltac:(lia)).
    pose proof (Z.mul_div_le (be_word a i) (2 ^ k) ltac:(lia)).
    pose proof (Z.div_pos (be_word a i) (2 ^ k) ltac:(lia) ltac:(lia)). cbn. nia.
  - done.
  - unfold word. cbn [store host_order load].
    rewrite (split_le_combine' (ztake 4 (zdrop (4 * i) a)) 4) by by apply length_word_bytes.
    split; [by apply length_word_bytes|done].
Qed.

(** The width of an address in bits. *)
Definition width (ip : IPAddress) : Z :=
  match family_ ip with AF_INET => 32 | AF_INET6 => 128 | AF_UNSPEC => 0 end.

Lemma truncate_v4 ip n :
  ip_ok ip -> family_ ip = AF_INET -> 0 < n <= 31 ->
  ip_ok (TruncateIP ip n) /\ family_ (TruncateIP ip n) = AF_INET /\
  value (TruncateIP ip n) = value ip / 2 ^ (32 - n) * 2 ^ (32 - n).
Proof.
  intros Hok Hf Hn. unfold TruncateIP. rewrite Hf, (proj2 (Z.ltb_ge n 0)) by lia.
  rewrite Z.gtb_ltb, (proj2 (Z.ltb_ge 31 n)), (proj2 (Z.eqb_neq n 0)) by lia. cbv zeta.
  rewrite host_order_v4 by done. pose proof (be_value_range (ipv4_address ip)) as Hr.
  unfold zlen in Hr. rewrite length_ipv4 in Hr by done. change (8 * Z.of_nat 4) with 32 in Hr.
  rewrite land_word_mask by lia. unfold HostToNetwork32. rewrite store_to_be.
  split; [apply ip_ok_v4, length_be_bytes|]. split; [done|].
  unfold value at 1; cbn [family_ IPAddress_v4]. rewrite ipv4_v4 by apply length_be_bytes.
  unfold value. rewrite Hf. apply be_value_be_bytes.
  pose proof (Z.pow_pos_nonneg 2 (32 - n) ltac:(lia) ltac:(lia)).
  pose proof (Z.mul_div_le (be_value (ipv4_address ip)) (2 ^ (32 - n)) ltac:(lia)).
  pose proof (Z.div_pos (be_value (ipv4_address ip)) (2 ^ (32 - n)) ltac:(lia) ltac:(lia)).
  change (Z.of_nat 4 * 8) with 32. nia.
Qed.

Lemma truncate_v6 ip n :
  ip_ok ip -> family_ ip = AF_INET6 -> 0 < n <= 127 ->
  ip_ok (TruncateIP ip n) /\ family_ (TruncateIP ip n) = AF_INET6 /\
  value (TruncateIP ip n) = value ip / 2 ^ (128 - n) * 2 ^ (128 - n).
Proof.
  intros [Ha _] Hf Hn. unfold TruncateIP. rewrite Hf, (proj2 (Z.ltb_ge n 0)) by lia.
  rewrite Z.gtb_ltb, (proj2 (Z.ltb_ge 127 n)), (proj2 (Z.eqb_neq n 0)) by lia. cbv zeta.
  set (p := n / 32). set (k := 32 - (n - p * 32)).
  pose proof (Z.div_mod n 32 ltac:(lia)). pose proof (Z.mod_pos_bound n 32 ltac:(lia)).
  assert (Hp : 0 <= p < 4) by (split; [apply Z.div_pos; lia|apply Z.div_lt_upper_bound; lia]).
  assert (Hk : 0 <= k <= 32) by lia.
  destruct (truncate_word_value (u_ ip) p k 0 Ha ltac:(lia) Hk) as [L0 V0].
  destruct (truncate_word_value (u_ ip) p k 1 Ha ltac:(lia) Hk) as [L1 V1].
  destruct (truncate_word_value (u_ ip) p k 2 Ha ltac:(lia) Hk) as [L2 V2].
  destruct (truncate_word_value (u_ ip) p k 3 Ha ltac:(lia) Hk) as [L3 V3].
  split; [apply ip_ok_v6; by rewrite !length_app, L0, L1, L2, L3|]. split; [done|].
  unfold value, ipv6_address. rewrite Hf. cbn [family_ u_ IPAddress_v6].
  rewrite !be_value_app, !zlen_app. unfold zlen. rewrite L1, L2, L3, V0, V1, V2, V3.
  change (Z.of_nat 4) with 4. cbn [Z.add Z.mul Pos.add Pos.mul].
  rewrite (be_value_words (u_ ip) Ha).
  pose proof (be_word_range (u_ ip) 0 Ha ltac:(lia)). pose proof (be_word_range (u_ ip) 1 Ha ltac:(lia)).
  pose proof (be_word_range (u_ ip) 2 Ha ltac:(lia)). pose proof (be_word_range (u_ ip) 3 Ha ltac:(lia)).
  set (w0 := be_word _ 0) in *. set (w1 := be_word _ 1) in *.
  set (w2 := be_word _ 2) in *. set (w3 := be_word _ 3) in *.
  assert (p = 0 \/ p = 1 \/ p = 2 \/ p = 3) as [E|[E|[E|E]]] by lia; rewrite E; cbn [Z.eqb Z.gtb Z.compare Pos.eqb Pos.compare Pos.compare_cont].
  - replace (128 - n) with (96 + k) by lia.
    replace (w0 * 2 ^ 96 + w1 * 2 ^ 64 + w2 * 2 ^ 32 + w3)
      with (0 * 2 ^ (32 + 96) + w0 * 2 ^ 96 + (w1 * 2 ^ 64 + w2 * 2 ^ 32 + w3)) by lia.
    rewrite truncate_arith by lia. lia.
  - replace (128 - n) with (64 + k) by lia.
    replace (w0 * 2 ^ 96 + w1 * 2 ^ 64 + w2 * 2 ^ 32 + w3)
      with (w0 * 2 ^ (32 + 64) + w1 * 2 ^ 64 + (w2 * 2 ^ 32 + w3)) by lia.
    rewrite truncate_arith by lia. lia.
  - replace (128 - n) with (32 + k) by lia.
    replace (w0 * 2 ^ 96 + w1 * 2 ^ 64 + w2 * 2 ^ 32 + w3)
      with ((w0 * 2 ^ 32 + w1) * 2 ^ (32 + 32) + w2 * 2 ^ 32 + w3) by lia.
    rewrite truncate_arith by lia. lia.
  - replace (128 - n) with (0 + k) by lia.
    replace (w0 * 2 ^ 96 + w1 * 2 ^ 64 + w2 * 2 ^ 32 + w3)
      with ((w0 * 2 ^ 64 + w1 * 2 ^ 32 + w2) * 2 ^ (32 + 0) + w3 * 2 ^ 0 + 0) by lia.
    rewrite truncate_arith by lia. lia.
Qed.

Lemma ip_ok_any f : ip_ok (GetAnyIP f).
Proof. destruct f; [by constructor|by apply ip_ok_v4|by constructor]. Qed.

(** C37: [TruncateIP] keeps the first [n] bits of an address and clears the
    others, for either family and every length, also across the words of an
    IPv6 address. *)
Theorem truncate_keeps_prefix (ip : IPAddress) (n : Z) :
  ip_ok ip -> family_ ip <> AF_UNSPEC -> 0 <= n <= width ip ->
  ip_ok (TruncateIP ip n) /\ family_ (TruncateIP ip n) = family_ ip /\
  value (TruncateIP ip n) = value ip / 2 ^ (width ip - n) * 2 ^ (width ip - n).
Proof.
  intros Hok Hf Hn. pose proof (value_range ip Hok) as Hv. unfold width in *.
  destruct (family_ ip) eqn:Ef; [done| |].
  - destruct (Z.eq_dec n 0) as [->|]; [|destruct (Z.eq_dec n 32) as [->|]].
    + unfold TruncateIP. rewrite Ef. cbn -[Z.pow Z.div]. split; [apply (ip_ok_any AF_INET)|].
      split; [done|]. pose proof (be_value_range (ipv4_address ip)) as Hr. unfold zlen in Hr.
      rewrite length_ipv4 in Hr by done. unfold value. rewrite Ef. by rewrite Z.div_small.
    + unfold TruncateIP. rewrite Ef. cbn -[Z.pow Z.div]. split; [done|]. split; [done|].
      rewrite Z.pow_0_r, Z.div_1_r. lia.
    + apply truncate_v4; [done|done|lia].
  - destruct (Z.eq_dec n 0) as [->|]; [|destruct (Z.eq_dec n 128) as [->|]].
    + unfold TruncateIP. rewrite Ef. cbn -[Z.pow Z.div]. split; [apply (ip_ok_any AF_INET6)|].
      split; [done|]. by rewrite Z.div_small.
    + unfold TruncateIP. rewrite Ef. cbn -[Z.pow Z.div]. split; [done|]. split; [done|].
      rewrite Z.pow_0_r, Z.div_1_r. lia.
    + apply truncate_v6; [done|done|lia].
Qed.

Lemma truncate_keeps_prefix_witness :
  let ip := IPAddress_host 0xC0A80142 in
  ip_ok (TruncateIP ip 24) /\ family_ (TruncateIP ip 24) = AF_INET /\
  value (TruncateIP ip 24) = value ip / 2 ^ (32 - 24) * 2 ^ (32 - 24).
Proof.
  apply (truncate_keeps_prefix (IPAddress_host 0xC0A80142) 24);
    [by apply ip_ok_v4|done|cbn; lia].
Defined.

Definition all_ones (f : address_family) : IPAddress :=
  match f with
  | AF_INET => IPAddress_v4 (replicate 4 Byte.xff)
  | AF_INET6 => IPAddress_v6 (replicate 16 Byte.xff)
  | AF_UNSPEC => IPAddress_nil
  end.

(** [CountIPMaskBits] is the inverse of making a netmask: the mask with
    [n] leading ones counts [n] bits, for every length of either family. *)
Theorem mask_bits_inverse (f : address_family) (n : Z) :
  0 <= n <= width (all_ones f) -> CountIPMaskBits (TruncateIP (all_ones f) n) = n.
Proof.
  assert (Hall : forallb (fun n => CountIPMaskBits (TruncateIP (all_ones AF_INET) n) =? n) (seqZ 0 33) &&
    forallb (fun n => CountIPMaskBits (TruncateIP (all_ones AF_INET6) n) =? n) (seqZ 0 129) = true)
    by (vm_compute; done).
  apply andb_true_iff in Hall as [H4 H6]. rewrite forallb_forall in H4, H6.
  intros Hn. destruct f; cbn [width all_ones family_ IPAddress_nil IPAddress_v4 IPAddress_v6] in Hn.
  - replace n with 0 by lia. done.
  - apply Z.eqb_eq, H4, list_elem_of_In, elem_of_seqZ. lia.
  - apply Z.eqb_eq, H6, list_elem_of_In, elem_of_seqZ. lia.
Qed.

Lemma mask_bits_inverse_witness : CountIPMaskBits (TruncateIP (all_ones AF_INET6) 57) = 57.
Proof. apply (mask_bits_inverse AF_INET6 57). cbn. lia. Defined.

(** On a mask with holes the count is the position of the last one bit,
    not the length of the run of leading ones: 255.0.255.0 counts 24 bits. *)
Lemma mask_bits_with_hole : CountIPMaskBits (IPAddress_host 0xFF00FF00) = 24.
Proof. done. Qed.

(** The order of addresses is a strict total order that agrees with
    equality, so that addresses may be keys of ordered containers: no address
    is below itself, the order is transitive, and of two addresses exactly
    one of less, equal, greater holds. *)
Theorem ip_order_total (a b c : IPAddress) :
  ip_ok a -> ip_ok b -> ip_ok c ->
  ip_ltb a a = false /\
  (ip_ltb a b = true -> ip_ltb b c = true -> ip_ltb a c = true) /\
  (ip_eqb a b = true <-> a = b) /\
  (if ip_ltb a b then ip_eqb a b = false /\ ip_ltb b a = false /\ ip_gtb a b = false
   else ip_gtb a b = negb (ip_eqb a b) /\ ip_ltb b a = ip_gtb a b).
Proof.
  intros Ha Hb Hc. unfold ip_gtb. rewrite !ip_ltb_key, !ip_eqb_key by done.
  split; [apply Z.ltb_irrefl|].
  split; [rewrite !Z.ltb_lt; lia|]. split.
  - rewrite Z.eqb_eq. split; [by apply key_inj|by intros ->].
  - destruct (Z.ltb_spec (key a) (key b)), (Z.eqb_spec (key a) (key b)), (Z.ltb_spec (key b) (key a));
      cbn; repeat split; lia.
Qed.

Lemma ip_order_total_witness :
  let a := IPAddress_host 0x7f000001 in
  let b := IPAddress_v6 in6addr_loopback in
  let c := IPAddress_v6 in6addr_any in
  ip_ltb a a = false /\
  (ip_ltb a b = true -> ip_ltb b c = true -> ip_ltb a c = true) /\
  (ip_eqb a b = true <-> a = b) /\
  (if ip_ltb a b then ip_eqb a b = false /\ ip_ltb b a = false /\ ip_gtb a b = false
   else ip_gtb a b = negb (ip_eqb a b) /\ ip_ltb b a = ip_gtb a b).
Proof.
  apply ip_order_total; [by apply ip_ok_v4|by apply ip_ok_v6|by apply ip_ok_v6].
Defined.

Lemma mapped_back ip : ip_ok ip -> family_ ip = AF_INET ->
  family_ (AsIPv6Address ip) = AF_INET6 /\ IPIsV4Mapped (AsIPv6Address ip) = true /\
  Normalized (AsIPv6Address ip) = ip.
Proof.
  intros [Hs Hr] Hf. destruct ip as [f u]. cbn [family_ u_] in *. subst f.
  do 16 (destruct u as [|? u]; [done|]). destruct u; [|done].
  unfold zdrop, zeroes in Hr. cbn in Hr. injection Hr as -> -> -> -> -> -> -> -> -> -> -> ->. done.
Qed.

(** Mapping an IPv4 address into IPv6 gives an address that is recognised
    as mapped, and normalising it gives the IPv4 address back. *)
Theorem mapped_roundtrip (ip : IPAddress) :
  ip_ok ip -> family_ ip = AF_INET ->
  family_ (AsIPv6Address ip) = AF_INET6 /\ IPIsV4Mapped (AsIPv6Address ip) = true /\
  Normalized (AsIPv6Address ip) = ip.
Proof. apply mapped_back. Qed.

Lemma mapped_roundtrip_witness :
  let ip := IPAddress_host 0x0A000001 in
  family_ (AsIPv6Address ip) = AF_INET6 /\ IPIsV4Mapped (AsIPv6Address ip) = true /\
  Normalized (AsIPv6Address ip) = ip.
Proof. apply (mapped_roundtrip (IPAddress_host 0x0A000001)); [by apply ip_ok_v4|done]. Defined.

Lemma shiftr_range x k a : 0 <= k -> (Z.shiftr x k =? a) = ((a * 2 ^ k <=? x) && (x <? (a + 1) * 2 ^ k)).
Proof.
  intros Hk. rewrite Z.shiftr_div_pow2 by done. pose proof (Z.pow_pos_nonneg 2 k ltac:(lia) Hk).
  pose proof (Z.div_mod x (2 ^ k) ltac:(lia)). pose proof (Z.mod_pos_bound x (2 ^ k) ltac:(lia)).
  destruct (Z.eqb_spec (x / 2 ^ k) a), (Z.leb_spec (a * 2 ^ k) x), (Z.ltb_spec x ((a + 1) * 2 ^ k));
    cbn; try done; nia.
Qed.

(** An IPv4 address counts as private exactly when it lies in one of
    169.254.0.0/16, 127.0.0.0/8, 10.0.0.0/8, 172.16.0.0/12, 192.168.0.0/16
    and 100.64.0.0/10. *)
Theorem private_v4_ranges (ip : IPAddress) :
  ip_ok ip -> family_ ip = AF_INET ->
  let x := value ip in
  IPIsPrivate ip = true <->
  0xA9FE0000 <= x <= 0xA9FEFFFF \/ 0x7F000000 <= x <= 0x7FFFFFFF \/
  0x0A000000 <= x <= 0x0AFFFFFF \/ 0xAC100000 <= x <= 0xAC1FFFFF \/
  0xC0A80000 <= x <= 0xC0A8FFFF \/ 0x64400000 <= x <= 0x647FFFFF.
Proof.
  intros Hok Hf x.
  assert (Hx : v4AddressAsHostOrderInteger ip = x).
  { unfold v4AddressAsHostOrderInteger, x, value. rewrite Hf. by apply host_order_v4. }
  unfold IPIsPrivate, IPIsLinkLocal, IPIsLoopback, IPIsPrivateNetwork, IPIsSharedNetwork,
    IPIsLinkLocalV4, IPIsLoopbackV4, IPIsPrivateNetworkV4, IPIsSharedNetworkV4.
  rewrite Hf, Hx, !shiftr_range by lia.
  rewrite !orb_true_iff, !andb_true_iff, !Z.leb_le, !Z.ltb_lt.
  change (Z.lor (Z.shiftl 169 8) 254) with 43518. change (Z.lor (Z.shiftl 172 4) 1) with 2753.
  change (Z.lor (Z.shiftl 192 8) 168) with 49320. change (Z.lor (Z.shiftl 100 2) 1) with 401. lia.
Qed.

Lemma private_v4_ranges_witness :
  let x := value (IPAddress_host 0xAC1F0001) in
  IPIsPrivate (IPAddress_host 0xAC1F0001) = true <->
  0xA9FE0000 <= x <= 0xA9FEFFFF \/ 0x7F000000 <= x <= 0x7FFFFFFF \/
  0x0A000000 <= x <= 0x0AFFFFFF \/ 0xAC100000 <= x <= 0xAC1FFFFF \/
  0xC0A80000 <= x <= 0xC0A8FFFF \/ 0x64400000 <= x <= 0x647FFFFF.
Proof. apply private_v4_ranges; [by apply ip_ok_v4|done]. Defined.
