(* ===== verification/SocketAddress.v ===== *)
(** * network/stun/socket_address.{h,cc}: an IP address or host name, and a port

    Strings are lists of bytes.  [inet_pton] and [inet_ntop] are calls of the
    C library: parameters, with what the code relies on (they are inverse on
    printed addresses) as hypotheses of the theorems that need it.
    [sockaddr_storage] is the union of the kernel's address structures. *)

From Stdlib Require Import ZArith Lia.
From S2P Require Import Prelude ByteOrder IpAddress.

(** ** Strings *)

Definition str : Type := list byte.
Definition char (n : Z) : byte := byte.of_Z n.
Definition code (c : byte) : Z := byte.unsigned c.
Definition colon : byte := char 58.
Definition lbracket : byte := char 91.
Definition rbracket : byte := char 93.

(** [operator<] of [std::string]. *)
Fixpoint str_cmp (a b : str) : comparison :=
  match a, b with
  | [], [] => Eq
  | [], _ => Lt
  | _, [] => Gt
  | x :: a, y :: b => match Z.compare (code x) (code y) with Eq => str_cmp a b | c => c end
  end.

(** [find(c)] and [rfind(c)]: the position of the first and last [c]. *)
Fixpoint find (c : byte) (s : str) : option nat :=
  match s with
  | [] => None
  | x :: s => if bool_decide (x = c) then Some 0%nat else S <$> find c s
  end.
Definition rfind (c : byte) (s : str) : option nat :=
  (fun i => pred (length s) - i)%nat <$> find c (rev s).
Definition find_from (c : byte) (s : str) (pos : nat) : option nat :=
  (fun i => pos + i)%nat <$> find c (drop pos s).

(** [strtoul(s, nullptr, 10)]: white space, a sign, digits; saturating. *)
Definition is_space (c : byte) : bool := ((9 <=? code c) && (code c <=? 13)) || (code c =? 32).
Definition is_digit (c : byte) : bool := (48 <=? code c) && (code c <=? 57).
Fixpoint skip_space (s : str) : str :=
  match s with c :: s' => if is_space c then skip_space s' else s | [] => [] end.
Fixpoint digits (s : str) (acc : Z) : Z :=
  match s with
  | c :: s' => if is_digit c then digits s' (10 * acc + (code c - 48)) else acc
  | [] => acc
  end.
Definition saturate (v : Z) : Z := Z.min v (2 ^ 64 - 1).
Definition strtoul (s : str) : Z :=
  match skip_space s with
  | c :: s' => if code c =? 45 then wrap64 (- saturate (digits s' 0))
               else if code c =? 43 then saturate (digits s' 0)
               else saturate (digits (c :: s') 0)
  | [] => 0
  end.

(** [std::to_string] on a 16-bit number. *)
Fixpoint to_decimal (fuel : nat) (n : Z) (acc : str) : str :=
  match fuel with
  | O => acc
  | S fuel =>
      let acc := char (48 + n mod 10) :: acc in
      if n / 10 =? 0 then acc else to_decimal fuel (n / 10) acc
  end.
Definition to_string (n : Z) : str := to_decimal 5 n [].

(** ** The class *)

Record SocketAddress : Type := mkSocketAddress {
  hostname_ : str; ip_ : IPAddress; port_ : Z; scope_id_ : Z; literal_ : bool
}.

Definition SocketAddress_nil : SocketAddress := mkSocketAddress [] IPAddress_nil 0 0 false.
Definition Clear (a : SocketAddress) : SocketAddress := SocketAddress_nil.
Definition SA_IsNil (a : SocketAddress) : bool :=
  bool_decide (hostname_ a = []) && IPIsUnspec (ip_ a) && (0 =? port_ a).
Definition IsComplete (a : SocketAddress) : bool := negb (IPIsAny (ip_ a)) && negb (0 =? port_ a).

Definition SetIP (ip : IPAddress) (a : SocketAddress) : SocketAddress :=
  mkSocketAddress [] ip (port_ a) 0 false.
Definition SetIP_host (n : Z) (a : SocketAddress) : SocketAddress := SetIP (IPAddress_host n) a.
Definition SetResolvedIP (ip : IPAddress) (a : SocketAddress) : SocketAddress :=
  mkSocketAddress (hostname_ a) ip (port_ a) 0 (literal_ a).
Definition SetScopeID (id : Z) (a : SocketAddress) : SocketAddress :=
  mkSocketAddress (hostname_ a) (ip_ a) (port_ a) id (literal_ a).

(** [dchecked_cast<uint16_t>] asserts that the port is in range. *)
Definition SetPort (port : Z) (a : SocketAddress) : outcome SocketAddress :=
  assert_that ((0 <=? port) && (port <=? 65535));;
  mret (mkSocketAddress (hostname_ a) (ip_ a) port (scope_id_ a) (literal_ a)).

Definition SocketAddress_ip (ip : IPAddress) (port : Z) : outcome SocketAddress :=
  SetPort port (SetIP ip SocketAddress_nil).

Definition ip_host (a : SocketAddress) : Z := v4AddressAsHostOrderInteger (ip_ a).

Section Library.
(** The C library: the address that a string denotes, and back. *)
Variable inet_pton : address_family -> str -> option (list byte).
Variable inet_ntop : address_family -> list byte -> str.

Definition IPFromString (s : str) : bool * IPAddress :=
  match inet_pton AF_INET s with
  | None =>
      match inet_pton AF_INET6 s with
      | None => (false, IPAddress_nil)
      | Some addr6 => (true, IPAddress_v6 addr6)
      end
  | Some addr => (true, IPAddress_v4 addr)
  end.

Definition IP_ToString (ip : IPAddress) : str :=
  match family_ ip with
  | AF_UNSPEC => []
  | AF_INET => inet_ntop AF_INET (ipv4_address ip)
  | AF_INET6 => inet_ntop AF_INET6 (ipv6_address ip)
  end.

Definition SetIP_string (hostname : str) (a : SocketAddress) : SocketAddress :=
  let '(literal, ip) := IPFromString hostname in
  mkSocketAddress hostname (if literal then ip else IPAddress_nil) (port_ a) 0 literal.

Definition SocketAddress_string (hostname : str) (port : Z) : outcome SocketAddress :=
  SetPort port (SetIP_string hostname SocketAddress_nil).

Definition HostAsURIString (a : SocketAddress) : str :=
  if negb (literal_ a) && negb (bool_decide (hostname_ a = [])) then hostname_ a
  else match family_ (ip_ a) with
       | AF_INET6 => [lbracket] ++ IP_ToString (ip_ a) ++ [rbracket]
       | _ => IP_ToString (ip_ a)
       end.
Definition PortAsString (a : SocketAddress) : str := to_string (port_ a).
Definition ToString (a : SocketAddress) : str := HostAsURIString a ++ [colon] ++ to_string (port_ a).

(** [FromString]: [str.at(0)] throws on the empty string. *)
Definition FromString (s : str) (a : SocketAddress) : outcome (bool * SocketAddress) :=
  match s with
  | [] => Crash OutOfBounds
  | c :: _ =>
      if bool_decide (c = lbracket) then
        match rfind rbracket s with
        | Some closebracket =>
            match find_from colon s closebracket with
            | Some pos =>
                if (closebracket <? pos)%nat then
                  a ← SetPort (to_int32 (strtoul (drop (S pos) s))) a;
                  mret (true, SetIP_string (take (closebracket - 1) (drop 1 s)) a)
                else mret (false, a)
            | None => mret (false, a)
            end
        | None => mret (true, a)
        end
      else
        match find colon s with
        | None => mret (false, a)
        | Some pos =>
            a ← SetPort (to_int32 (strtoul (drop (S pos) s))) a;
            mret (true, SetIP_string (take pos s) a)
        end
  end.
End Library.

Definition IsAnyIP (a : SocketAddress) : bool := IPIsAny (ip_ a).
(** What [strcmp] sees of a string: up to the first zero byte. *)
Fixpoint c_str (s : str) : str :=
  match s with c :: s => if code c =? 0 then [] else c :: c_str s | [] => [] end.
Definition localhost : str := map char [108; 111; 99; 97; 108; 104; 111; 115; 116].
Definition IsLoopbackIP (a : SocketAddress) : bool :=
  IPIsLoopback (ip_ a) || (IPIsAny (ip_ a) && bool_decide (c_str (hostname_ a) = localhost)).
Definition IsPrivateIP (a : SocketAddress) : bool := IPIsPrivate (ip_ a).
Definition IsUnresolvedIP (a : SocketAddress) : bool :=
  IPIsUnspec (ip_ a) && negb (literal_ a) && negb (bool_decide (hostname_ a = [])).

(** ** Comparison *)

Definition EqualIPs (a b : SocketAddress) : bool :=
  ip_eqb (ip_ a) (ip_ b) &&
  ((negb (IPIsAny (ip_ a)) && negb (IPIsUnspec (ip_ a))) || bool_decide (hostname_ a = hostname_ b)).
Definition EqualPorts (a b : SocketAddress) : bool := port_ a =? port_ b.
Definition sa_eqb (a b : SocketAddress) : bool := EqualIPs a b && EqualPorts a b.

Definition sa_ltb (a b : SocketAddress) : bool :=
  if negb (ip_eqb (ip_ a) (ip_ b)) then ip_ltb (ip_ a) (ip_ b)
  else if (IPIsAny (ip_ a) || IPIsUnspec (ip_ a)) && negb (bool_decide (hostname_ a = hostname_ b))
  then is_lt (str_cmp (hostname_ a) (hostname_ b))
  else port_ a <? port_ b.

Definition Hash (a : SocketAddress) : Z :=
  Z.lxor (HashIP (ip_ a)) (wrap64 (to_int32 (Z.lor (port_ a) (Z.shiftl (port_ a) 16)))).

(** ** The kernel's structures *)

Record sockaddr_in : Type := mkSockaddrIn {
  sin_family : address_family; sin_port : Z; sin_addr : list byte
}.

Inductive sockaddr_storage : Type :=
| SS_UNSPEC
| SS_INET (sin_port : Z) (sin_addr : list byte)
| SS_INET6 (sin6_port : Z) (sin6_addr : list byte) (sin6_scope_id : Z).

Definition ToSockAddr (a : SocketAddress) : sockaddr_in :=
  match family_ (ip_ a) with
  | AF_INET =>
      mkSockaddrIn AF_INET (HostToNetwork16 host_order (port_ a))
        (if IPIsAny (ip_ a) then store host_order 4 INADDR_ANY else ipv4_address (ip_ a))
  | _ => mkSockaddrIn AF_UNSPEC 0 (zeroes 4)
  end.

Definition FromSockAddr (saddr : sockaddr_in) (a : SocketAddress)
    : outcome (bool * SocketAddress) :=
  match sin_family saddr with
  | AF_INET =>
      let a := SetIP_host (NetworkToHost32 host_order (load host_order (sin_addr saddr))) a in
      a ← SetPort (NetworkToHost16 host_order (sin_port saddr)) a;
      mret (true, a)
  | _ => mret (false, a)
  end.

Definition ToSockAddrStorageHelper (ip : IPAddress) (port scope_id : Z) : Z * sockaddr_storage :=
  match family_ ip with
  | AF_INET6 => (28, SS_INET6 (HostToNetwork16 host_order port) (ipv6_address ip) scope_id)
  | AF_INET => (16, SS_INET (HostToNetwork16 host_order port) (ipv4_address ip))
  | AF_UNSPEC => (0, SS_UNSPEC)
  end.
Definition ToDualStackSockAddrStorage (a : SocketAddress) : Z * sockaddr_storage :=
  ToSockAddrStorageHelper (AsIPv6Address (ip_ a)) (port_ a) (scope_id_ a).
Definition ToSockAddrStorage (a : SocketAddress) : Z * sockaddr_storage :=
  ToSockAddrStorageHelper (ip_ a) (port_ a) (scope_id_ a).

Definition SocketAddressFromSockAddrStorage (addr : sockaddr_storage)
    : outcome (option SocketAddress) :=
  match addr with
  | SS_INET port a =>
      out ← SocketAddress_ip (IPAddress_v4 a) (NetworkToHost16 host_order port);
      mret (Some out)
  | SS_INET6 port a scope =>
      out ← SocketAddress_ip (IPAddress_v6 a) (NetworkToHost16 host_order port);
      mret (Some (SetScopeID scope out))
  | SS_UNSPEC => mret None
  end.

Definition EmptySocketAddressWithFamily (family : address_family) : outcome SocketAddress :=
  match family with
  | AF_INET => SocketAddress_ip (IPAddress_host INADDR_ANY) 0
  | AF_INET6 => SocketAddress_ip (IPAddress_v6 in6addr_any) 0
  | AF_UNSPEC => mret SocketAddress_nil
  end.

(** ** The order *)

Lemma str_cmp_refl a : str_cmp a a = Eq.
Proof. induction a as [|x a IH]; cbn; [done|]. by rewrite Z.compare_refl. Qed.

Lemma str_cmp_eq a b : str_cmp a b = Eq -> a = b.
Proof.
  revert b. induction a as [|x a IH]; intros [|y b]; cbn; try done.
  destruct (Z.compare_spec (code x) (code y)) as [Hc| |]; try done.
  intros E. f_equal; [by apply byte.unsigned_inj|by apply IH].
Qed.

Lemma str_cmp_antisym a b : str_cmp b a = CompOpp (str_cmp a b).
Proof.
  revert b. induction a as [|x a IH]; intros [|y b]; cbn; try done.
  rewrite (Z.compare_antisym (code x)). destruct (Z.compare (code x) (code y)); cbn; auto.
Qed.

Lemma str_cmp_trans a b c : str_cmp a b = Lt -> str_cmp b c = Lt -> str_cmp a c = Lt.
Proof.
  revert b c. induction a as [|x a IH]; intros [|y b] [|z c]; cbn; try done.
  destruct (Z.compare_spec (code x) (code y)), (Z.compare_spec (code y) (code z)),
    (Z.compare_spec (code x) (code z)); try done; try lia. by apply IH.
Qed.

(** Whether the host name takes part in the comparison. *)
Definition by_name (a : SocketAddress) : bool := IPIsAny (ip_ a) || IPIsUnspec (ip_ a).

Lemma sa_ltb_spec a b : ip_ok (ip_ a) -> ip_ok (ip_ b) ->
  sa_ltb a b = true <->
  key (ip_ a) < key (ip_ b) \/
  (ip_ a = ip_ b /\
   ((by_name a = true /\ str_cmp (hostname_ a) (hostname_ b) = Lt) \/
    ((by_name a = true -> hostname_ a = hostname_ b) /\ port_ a < port_ b))).
Proof.
  intros Ha Hb. unfold sa_ltb. fold (by_name a). rewrite ip_eqb_key, ip_ltb_key by done.
  destruct (Z.eqb_spec (key (ip_ a)) (key (ip_ b))) as [Hk|Hk]; cbn [negb].
  - assert (Hip : ip_ a = ip_ b) by by apply key_inj.
    destruct (by_name a) eqn:En; cbn [andb].
    + case_bool_decide as Hh; cbn [negb].
      * rewrite Z.ltb_lt, Hh, str_cmp_refl. naive_solver lia.
      * unfold is_lt. destruct (str_cmp (hostname_ a) (hostname_ b)); naive_solver lia.
    + rewrite Z.ltb_lt. naive_solver lia.
  - rewrite Z.ltb_lt. assert (ip_ a <> ip_ b) by congruence. naive_solver.
Qed.

Lemma sa_eqb_spec a b : ip_ok (ip_ a) -> ip_ok (ip_ b) ->
  sa_eqb a b = true <->
  ip_ a = ip_ b /\ (by_name a = true -> hostname_ a = hostname_ b) /\ port_ a = port_ b.
Proof.
  intros Ha Hb. unfold sa_eqb, EqualIPs, EqualPorts. rewrite ip_eqb_key by done.
  rewrite !andb_true_iff, orb_true_iff, bool_decide_eq_true, !Z.eqb_eq.
  rewrite <- negb_orb. fold (by_name a). rewrite negb_true_iff.
  assert (Hk : key (ip_ a) = key (ip_ b) <-> ip_ a = ip_ b)
    by (split; [by apply key_inj|congruence]).
  rewrite Hk. destruct (by_name a); naive_solver.
Qed.

(** C39: socket addresses may be keys of ordered containers: [operator<] is
    irreflexive and transitive, and two addresses of which neither is below
    the other are exactly those that [operator==] calls equal. *)
Theorem socket_order_total (a b c : SocketAddress) :
  ip_ok (ip_ a) -> ip_ok (ip_ b) -> ip_ok (ip_ c) ->
  sa_ltb a a = false /\
  (sa_ltb a b = true -> sa_ltb b c = true -> sa_ltb a c = true) /\
  (sa_ltb a b = false /\ sa_ltb b a = false <-> sa_eqb a b = true).
Proof.
  intros Ha Hb Hc. split; [|split].
  - apply not_true_iff_false. rewrite sa_ltb_spec by done. rewrite str_cmp_refl. naive_solver lia.
  - rewrite !sa_ltb_spec by done. intros [H1|[E1 H1]] [H2|[E2 H2]].
    + left. lia.
    + left. congruence.
    + left. congruence.
    + right. split; [congruence|]. assert (Hn : by_name b = by_name a) by (unfold by_name; congruence).
      rewrite Hn in H2. destruct (by_name a); [|right; naive_solver lia].
      destruct H1 as [[_ H1]|[H1 P1]], H2 as [[_ H2]|[H2 P2]].
      * left. split; [done|]. by eapply str_cmp_trans.
      * left. split; [done|]. rewrite <- H2 by done. done.
      * left. split; [done|]. rewrite H1 by done. done.
      * right. split; [|lia]. intros _. rewrite H1 by done. by apply H2.
  - rewrite <- !not_true_iff_false, sa_eqb_spec, !sa_ltb_spec by done.
    assert (Hn : ip_ a = ip_ b -> by_name b = by_name a) by (unfold by_name; congruence).
    split.
    + intros [H1 H2].
      assert (Hip : ip_ a = ip_ b).
      { apply key_inj; try done. destruct (Z.lt_trichotomy (key (ip_ a)) (key (ip_ b))) as [?|[?|?]];
          [naive_solver|done|naive_solver]. }
      split; [done|]. specialize (Hn Hip). rewrite Hn in H2.
      assert (Hh : by_name a = true -> hostname_ a = hostname_ b).
      { intros Hb'. apply str_cmp_eq. rewrite str_cmp_antisym in H2.
        destruct (str_cmp (hostname_ a) (hostname_ b)); naive_solver. }
      split; [done|]. assert (by_name a = true -> hostname_ b = hostname_ a) by naive_solver.
      destruct (Z.lt_trichotomy (port_ a) (port_ b)) as [?|[?|?]]; naive_solver.
    + intros (Hip & Hh & Hp). rewrite (Hn Hip), Hip, Hp.
      split; intros [?|[_ [[Hb' Hl]|[_ ?]]]]; try lia;
        rewrite (Hh Hb'), str_cmp_refl in Hl; done.
Qed.

Lemma socket_order_total_witness :
  let a := mkSocketAddress (map char [97]) IPAddress_nil 80 0 false in
  let b := mkSocketAddress [] (IPAddress_host 0x7f000001) 80 0 false in
  let c := mkSocketAddress [] (IPAddress_host 0x7f000001) 81 0 false in
  sa_ltb a a = false /\
  (sa_ltb a b = true -> sa_ltb b c = true -> sa_ltb a c = true) /\
  (sa_ltb a b = false /\ sa_ltb b a = false <-> sa_eqb a b = true).
Proof. apply socket_order_total; [by constructor|by apply ip_ok_v4|by apply ip_ok_v4]. Defined.

(** ** The kernel's structures and back *)

Lemma SocketAddress_ip_ok ip port :
  0 <= port < 2 ^ 16 ->
  SocketAddress_ip ip (NetworkToHost16 host_order (HostToNetwork16 host_order port)) =
  Ret (mkSocketAddress [] ip port 0 false).
Proof.
  intros Hp. unfold NetworkToHost16, HostToNetwork16. rewrite to_be_involutive by done.
  unfold SocketAddress_ip, SetPort. rewrite (proj2 (Z.leb_le 0 port)), (proj2 (Z.leb_le port 65535)) by lia.
  done.
Qed.

Lemma v4_rebuild ip : ip_ok ip -> family_ ip = AF_INET -> IPAddress_v4 (ipv4_address ip) = ip.
Proof.
  intros [_ Hr] Hf. destruct ip as [f u]. cbn [family_ u_] in *. subst f. unfold IPAddress_v4, ipv4_address.
  cbn [u_]. by rewrite <- Hr, ztake_zdrop.
Qed.

(** An address survives the kernel's structures: what is written to a
    [sockaddr_storage] is read back with the same IP address, port and scope
    (the host name is dropped); in the dual-stack form an IPv4 address comes
    back mapped into IPv6 and normalises to the original. *)
Theorem sockaddr_roundtrip (a : SocketAddress) :
  ip_ok (ip_ a) -> family_ (ip_ a) <> AF_UNSPEC -> 0 <= port_ a < 2 ^ 16 ->
  SocketAddressFromSockAddrStorage (snd (ToSockAddrStorage a)) =
    Ret (Some (mkSocketAddress [] (ip_ a) (port_ a)
      (match family_ (ip_ a) with AF_INET6 => scope_id_ a | _ => 0 end) false)) /\
  exists b, SocketAddressFromSockAddrStorage (snd (ToDualStackSockAddrStorage a)) = Ret (Some b) /\
    family_ (ip_ b) = AF_INET6 /\ Normalized (ip_ b) = Normalized (ip_ a) /\
    port_ b = port_ a /\ scope_id_ b = scope_id_ a.
Proof.
  intros Hok Hf Hp. unfold ToSockAddrStorage, ToDualStackSockAddrStorage, ToSockAddrStorageHelper.
  destruct (family_ (ip_ a)) eqn:Ef; [done| |].
  - cbn [snd SocketAddressFromSockAddrStorage]. rewrite SocketAddress_ip_ok, v4_rebuild by done.
    split; [done|]. destruct (mapped_back (ip_ a) Hok Ef) as (Hf6 & _ & Hn). rewrite Hf6.
    cbn [snd SocketAddressFromSockAddrStorage]. rewrite SocketAddress_ip_ok by done.
    eexists. split; [reflexivity|]. cbn [ip_ SetScopeID port_ scope_id_].
    assert (Hv : IPAddress_v6 (ipv6_address (AsIPv6Address (ip_ a))) = AsIPv6Address (ip_ a)).
    { unfold AsIPv6Address. by rewrite Ef. }
    rewrite Hv. split; [done|]. split; [|done]. rewrite Hn. unfold Normalized. by rewrite Ef.
  - assert (Hv : IPAddress_v6 (ipv6_address (ip_ a)) = ip_ a)
      by (destruct (ip_ a); cbn in *; by subst).
    assert (Ha : AsIPv6Address (ip_ a) = ip_ a) by (unfold AsIPv6Address; by rewrite Ef).
    cbn [snd SocketAddressFromSockAddrStorage]. rewrite SocketAddress_ip_ok, Hv by done.
    split; [done|]. rewrite Ha, Ef. cbn [snd SocketAddressFromSockAddrStorage].
    rewrite SocketAddress_ip_ok, Hv by done. eexists. by split; [reflexivity|].
Qed.

Lemma sockaddr_roundtrip_witness :
  let a := mkSocketAddress localhost (IPAddress_host 0x7f000001) 8080 3 true in
  SocketAddressFromSockAddrStorage (snd (ToSockAddrStorage a)) =
    Ret (Some (mkSocketAddress [] (ip_ a) 8080 0 false)) /\
  exists b, SocketAddressFromSockAddrStorage (snd (ToDualStackSockAddrStorage a)) = Ret (Some b) /\
    family_ (ip_ b) = AF_INET6 /\ Normalized (ip_ b) = Normalized (ip_ a) /\
    port_ b = port_ a /\ scope_id_ b = scope_id_ a.
Proof.
  apply (sockaddr_roundtrip (mkSocketAddress localhost (IPAddress_host 0x7f000001) 8080 3 true));
    [by apply ip_ok_v4|done|cbn; lia].
Defined.

(** ** Printing and parsing *)

(** What [ToString] and [FromString] rely on of the C library: an address is
    printed as digits and dots, or without brackets and not as an IPv4
    address, and the printed form is read back. *)
Record inet_library (pton : address_family -> str -> option (list byte))
    (ntop : address_family -> list byte -> str) : Prop := {
  pton_ntop4 a : length a = 4%nat -> pton AF_INET (ntop AF_INET a) = Some a;
  ntop4_chars a : length a = 4%nat ->
    ntop AF_INET a <> [] /\ Forall (fun c => is_digit c = true \/ code c = 46) (ntop AF_INET a);
  pton_ntop6 a : length a = 16%nat ->
    pton AF_INET (ntop AF_INET6 a) = None /\ pton AF_INET6 (ntop AF_INET6 a) = Some a;
  ntop6_chars a : length a = 16%nat -> rbracket ∉ ntop AF_INET6 a
}.

Lemma find_fresh c s r : c ∉ s -> find c (s ++ c :: r) = Some (length s).
Proof.
  induction s as [|x s IH]; intros Hn; cbn [app find length].
  - by rewrite bool_decide_true.
  - apply not_elem_of_cons in Hn as [Hx Hs]. rewrite bool_decide_false by done. by rewrite IH.
Qed.

Lemma rfind_fresh c s r : c ∉ r -> rfind c (s ++ c :: r) = Some (length s).
Proof.
  intros Hn. unfold rfind. rewrite rev_app_distr. cbn [rev]. rewrite <- app_assoc. cbn [app].
  rewrite find_fresh by (intros Hin; apply Hn, list_elem_of_In, in_rev, list_elem_of_In, Hin).
  cbn. f_equal. rewrite length_app, length_rev. cbn. lia.
Qed.

Lemma code_digit n : code (char (48 + n mod 10)) = 48 + n mod 10.
Proof.
  pose proof (Z.mod_pos_bound n 10 ltac:(lia)). unfold code, char.
  rewrite byte.unsigned_of_Z. unfold byte.wrap. by rewrite Z.mod_small by lia.
Qed.

Lemma is_digit_char n : is_digit (char (48 + n mod 10)) = true.
Proof.
  pose proof (Z.mod_pos_bound n 10 ltac:(lia)). unfold is_digit. rewrite code_digit.
  apply andb_true_iff. split; apply Z.leb_le; lia.
Qed.

Lemma to_string_digits n : Forall (fun c => is_digit c = true) (to_string n).
Proof.
  unfold to_string. generalize 5%nat as fuel.
  assert (forall fuel m acc, Forall (fun c => is_digit c = true) acc ->
    Forall (fun c => is_digit c = true) (to_decimal fuel m acc)) as Hgen.
  { pose proof is_digit_char. induction fuel as [|fuel IH]; intros m acc Hacc; cbn; [done|].
    case_match; [by constructor|]. apply IH. by constructor. }
  intros fuel. by apply Hgen.
Qed.

Lemma digits_to_decimal fuel n acc : (0 < fuel)%nat -> 0 <= n < 10 ^ Z.of_nat fuel ->
  digits (to_decimal fuel n acc) 0 = digits acc n.
Proof.
  revert n acc. induction fuel as [|fuel IH]; intros n acc Hf Hn; [lia|]. cbn [to_decimal].
  assert (Hd : forall a, digits (char (48 + n mod 10) :: acc) a = digits acc (10 * a + n mod 10)).
  { intros a. cbn [digits]. rewrite is_digit_char, code_digit. f_equal. lia. }
  pose proof (Z.div_mod n 10 ltac:(lia)).
  rewrite Nat2Z.inj_succ, Z.pow_succ_r in Hn by lia.
  destruct (Z.eqb_spec (n / 10) 0) as [E|E].
  - rewrite Hd. f_equal. lia.
  - assert (0 <= n / 10 < 10 ^ Z.of_nat fuel)
      by (split; [apply Z.div_pos; lia|apply Z.div_lt_upper_bound; lia]).
    rewrite IH, Hd; [f_equal; lia| |lia]. destruct fuel; [cbn in *; lia|lia].
Qed.

Lemma to_decimal_nonempty fuel n c acc : to_decimal fuel n (c :: acc) <> [].
Proof.
  revert n c acc. induction fuel as [|fuel IH]; intros n c acc; cbn; [done|].
  by case_match; [|apply IH].
Qed.

Lemma strtoul_to_string n : 0 <= n <= 65535 -> strtoul (to_string n) = n.
Proof.
  intros Hn. pose proof (digits_to_decimal 5 n [] ltac:(lia) ltac:(lia)) as Hd.
  fold (to_string n) in Hd. cbn [digits] in Hd.
  pose proof (to_string_digits n) as Hs. unfold strtoul.
  destruct (to_string n) as [|c s]; [by cbn in *|].
  apply Forall_cons_1 in Hs as [Hc _]. unfold is_digit in Hc. apply andb_true_iff in Hc as [H1 H2].
  apply Z.leb_le in H1, H2.
  assert (Hsp : is_space c = false).
  { unfold is_space. apply orb_false_iff. rewrite andb_false_iff, !Z.leb_gt, Z.eqb_neq. lia. }
  cbn [skip_space]. rewrite Hsp.
  rewrite (proj2 (Z.eqb_neq (code c) 45)), (proj2 (Z.eqb_neq (code c) 43)) by lia.
  rewrite Hd. unfold saturate. lia.
Qed.

Lemma digits_no c s : Forall (fun c => is_digit c = true) s -> is_digit c = false -> c ∉ s.
Proof. intros Hs Hc Hin. rewrite List.Forall_forall in Hs. apply list_elem_of_In, Hs in Hin. congruence. Qed.

Lemma SetPort_string n a : 0 <= n <= 65535 ->
  SetPort (to_int32 (strtoul (to_string n))) a =
  Ret (mkSocketAddress (hostname_ a) (ip_ a) n (scope_id_ a) (literal_ a)).
Proof.
  intros Hn. rewrite strtoul_to_string by done. unfold to_int32. rewrite wrap32_small by lia.
  rewrite (proj2 (Z.ltb_lt n _)) by lia. unfold SetPort.
  by rewrite (proj2 (Z.leb_le 0 n)), (proj2 (Z.leb_le n 65535)) by lia.
Qed.

(** The form in which an address with a literal host comes back. *)
Definition as_literal (host : str) (a : SocketAddress) : SocketAddress :=
  mkSocketAddress host (ip_ a) (port_ a) 0 true.

Section Printed.
Context {pton : address_family -> str -> option (list byte)} {ntop : address_family -> list byte -> str}
  (Hlib : inet_library pton ntop).

Lemma FromString_v4 a b : ip_ok (ip_ a) -> family_ (ip_ a) = AF_INET -> 0 <= port_ a <= 65535 ->
  let host := ntop AF_INET (ipv4_address (ip_ a)) in
  FromString pton (host ++ colon :: to_string (port_ a)) b = Ret (true, as_literal host a).
Proof.
  intros Hok Hf Hp host. destruct (ntop4_chars _ _ Hlib (ipv4_address (ip_ a)) (length_ipv4 _ Hok)) as [Hne Hch].
  assert (Hno : forall c, is_digit c = false -> code c <> 46 -> c ∉ host).
  { intros c Hd Hdot Hin. rewrite List.Forall_forall in Hch. apply list_elem_of_In, Hch in Hin as [?|?]; congruence. }
  pose proof (find_fresh colon host (to_string (port_ a)) (Hno colon eq_refl ltac:(done))) as Hfind.
  fold host in Hne. destruct host as [|c host'] eqn:Eh; [done|]. cbn [app FromString] in *.
  rewrite bool_decide_false by (intros ->; by eapply (Hno lbracket); [..|left]).
  rewrite Hfind. cbn [length]. change (c :: host' ++ colon :: to_string (port_ a)) with ((c :: host') ++ colon :: to_string (port_ a)).
  rewrite cons_middle, app_assoc, drop_app_length' by (rewrite length_app; cbn; lia).
  rewrite <- app_assoc, take_app_length' by done. rewrite SetPort_string by done. cbn [mbind outcome_bind].
  unfold SetIP_string, IPFromString. rewrite <- Eh. subst host.
  rewrite (pton_ntop4 _ _ Hlib) by by apply length_ipv4. rewrite v4_rebuild by done. done.
Qed.

Lemma FromString_v6 a b : ip_ok (ip_ a) -> family_ (ip_ a) = AF_INET6 -> 0 <= port_ a <= 65535 ->
  let host := ntop AF_INET6 (ipv6_address (ip_ a)) in
  FromString pton ([lbracket] ++ (host ++ [rbracket]) ++ colon :: to_string (port_ a)) b =
  Ret (true, as_literal host a).
Proof.
  intros Hok Hf Hp host. assert (Hl : length (ipv6_address (ip_ a)) = 16%nat) by apply Hok.
  pose proof (digits_no rbracket _ (to_string_digits (port_ a)) eq_refl) as Hd.
  rewrite <- app_assoc. cbn [app]. unfold FromString. rewrite bool_decide_true by done.
  rewrite (app_comm_cons host _ lbracket).
  rewrite rfind_fresh by (apply not_elem_of_cons; by split).
  unfold find_from. rewrite drop_app_length. cbn [find fmap option_fmap option_map].
  rewrite bool_decide_false, bool_decide_true by done. cbn [fmap option_fmap option_map].
  case (Nat.ltb_spec _ _); [intros _|lia].
  assert (drop (S (length (lbracket :: host) + 1))
    ((lbracket :: host) ++ rbracket :: colon :: to_string (port_ a)) = to_string (port_ a)) as ->.
  { rewrite (cons_middle rbracket), (cons_middle colon), !app_assoc. apply drop_app_length'.
    rewrite !length_app. cbn. lia. }
  rewrite SetPort_string by done. cbn [mbind outcome_bind app drop length].
  rewrite drop_0, Nat.sub_succ, Nat.sub_0_r, take_app_length.
  unfold SetIP_string, IPFromString. subst host.
  destruct (pton_ntop6 _ _ Hlib (ipv6_address (ip_ a)) Hl) as [-> ->].
  assert (Hv : IPAddress_v6 (ipv6_address (ip_ a)) = ip_ a) by (destruct (ip_ a); cbn in *; by subst).
  by rewrite Hv.
Qed.
End Printed.

(** C38: printing an address and parsing the text gives the address back: an
    address with an IP (whatever its host name, as long as the name is the
    literal or empty) is printed as [host:port], in brackets for IPv6, and
    [FromString] of that text into any address succeeds with the same IP
    address and port and the host kept as a literal. *)
Theorem string_roundtrip pton ntop (a b : SocketAddress) :
  inet_library pton ntop -> ip_ok (ip_ a) -> family_ (ip_ a) <> AF_UNSPEC -> 0 <= port_ a <= 65535 ->
  literal_ a = true \/ hostname_ a = [] ->
  FromString pton (ToString ntop a) b = Ret (true, as_literal (IP_ToString ntop (ip_ a)) a).
Proof.
  intros Hlib Hok Hf Hp Hlit. unfold ToString, HostAsURIString.
  assert (negb (literal_ a) && negb (bool_decide (hostname_ a = [])) = false) as ->.
  { destruct Hlit as [-> | ->]; [done|]. by rewrite andb_false_r. }
  unfold IP_ToString. destruct (family_ (ip_ a)) eqn:Ef; [done| |].
  - by apply FromString_v4.
  - by apply FromString_v6.
Qed.

(** A library to evaluate with: three decimal digits for each byte, IPv6
    addresses behind a colon. *)
Definition three_digits (b : byte) : str :=
  map (fun d => char (48 + d mod 10)) [code b / 100; code b / 10; code b].
Fixpoint of_three (s : str) : option (list byte) :=
  match s with
  | [] => Some []
  | x :: y :: z :: s =>
      rest ← of_three s;
      Some (byte.of_Z (100 * (code x - 48) + 10 * (code y - 48) + (code z - 48)) :: rest)
  | _ => None
  end.
Definition toy_ntop (f : address_family) (a : list byte) : str :=
  match f with AF_INET6 => colon :: (a ≫= three_digits) | _ => a ≫= three_digits end.
Definition toy_pton (f : address_family) (s : str) : option (list byte) :=
  match s with
  | c :: s' => if bool_decide (c = colon) then match f with AF_INET6 => of_three s' | _ => None end
               else of_three s
  | [] => None
  end.

Lemma of_three_digits l : of_three (l ≫= three_digits) = Some l.
Proof.
  induction l as [|b l IH]; [done|]. rewrite bind_cons. cbn [three_digits map app of_three].
  rewrite IH. cbn [mbind option_bind]. do 2 f_equal. rewrite !code_digit. apply byte.unsigned_inj.
  pose proof (byte.unsigned_range b). rewrite byte.unsigned_of_Z. unfold byte.wrap. fold (code b).
  rewrite <- (Z.mod_small (code b) (2 ^ 8)) at 4 by (unfold code; lia). f_equal.
  unfold code in *. Z.div_mod_to_equations; lia.
Qed.

Lemma three_digits_chars l : Forall (fun c => is_digit c = true) (l ≫= three_digits).
Proof.
  induction l as [|b l IH]; [constructor|]. rewrite bind_cons. apply Forall_app. split; [|done].
  repeat constructor; apply is_digit_char.
Qed.

Lemma toy_library : inet_library toy_pton toy_ntop.
Proof.
  split; intros a Ha.
  - unfold toy_ntop, toy_pton. pose proof (of_three_digits a) as Hr.
    pose proof (three_digits_chars a) as Hc. destruct (a ≫= three_digits) as [|c s].
    { cbn in Hr. injection Hr as <-. done. }
    rewrite bool_decide_false; [done|]. intros ->. by apply Forall_cons_1 in Hc as [? _].
  - split.
    + by destruct a.
    + apply (List.Forall_impl _ (fun c Hc => or_introl Hc)), three_digits_chars.
  - split; cbn [toy_ntop toy_pton]; rewrite bool_decide_true by done; [done|]. apply of_three_digits.
  - cbn [toy_ntop]. apply not_elem_of_cons. split; [done|].
    by apply (digits_no _ _ (three_digits_chars a)).
Qed.

Lemma string_roundtrip_witness :
  let a := mkSocketAddress [] (IPAddress_host 0x7f000001) 8080 0 false in
  FromString toy_pton (ToString toy_ntop a) SocketAddress_nil =
  Ret (true, as_literal (IP_ToString toy_ntop (ip_ a)) a).
Proof.
  apply (string_roundtrip toy_pton toy_ntop (mkSocketAddress [] (IPAddress_host 0x7f000001) 8080 0 false));
    [apply toy_library|by apply ip_ok_v4|done|cbn; lia|by right].
Defined.

Lemma rfind_absent c s : c ∉ s -> rfind c s = None.
Proof.
  intros Hn. unfold rfind.
  assert (Hf : forall l, c ∉ l -> find c l = None).
  { induction l as [|x l IH]; intros Hl; [done|]. apply not_elem_of_cons in Hl as [Hx Hl].
    cbn [find]. rewrite bool_decide_false by done. by rewrite IH. }
  rewrite Hf; [done|]. by rewrite list_elem_of_In, <- in_rev, <- list_elem_of_In.
Qed.

(** A bracketed host whose bracket is never closed is accepted:
    [FromString] answers [true] and leaves the address as it was, so a caller
    that trusts the answer goes on with the previous host and port. *)
Lemma unclosed_bracket_accepted pton (s : str) (a : SocketAddress) :
  rbracket ∉ s -> FromString pton (lbracket :: s) a = Ret (true, a).
Proof.
  intros Hs. unfold FromString. rewrite bool_decide_true by done.
  rewrite rfind_absent; [done|]. apply not_elem_of_cons. by split.
Qed.

Example unclosed_bracket :
  FromString toy_pton (lbracket :: map char [58; 58; 49]) SocketAddress_nil = Ret (true, SocketAddress_nil).
Proof. apply unclosed_bracket_accepted. rewrite list_elem_of_In. cbn. intuition discriminate. Defined.
