(* ===== verification/StunAttr.v ===== *)
(** * network/stun/stun.{h,cc}: the attributes of a STUN message

    The class hierarchy [StunAttribute] is a record (type and length) with a
    body that has one constructor for each derived class.  A
    [StunXorAddressAttribute] keeps a pointer to the message that owns it;
    here [owner_] says whether the pointer is set, and the operations that
    follow it take the owner's transaction identifier as their argument.
    When [Read] answers [false] every caller drops the attribute, so a
    reading operation has no result in that case. *)

From Stdlib Require Import ZArith Lia.
From S2P Require Import Prelude ByteOrder ConstBuffer ByteBuffer IpAddress SocketAddress.

(** ** Constants *)

Definition kStunMagicCookie : Z := 0x2112A442.
Definition kStunTransactionIdLength : Z := 12.
Definition kStunLegacyTransactionIdLength : Z := 16.

Inductive StunAttributeValueType : Type :=
| kStunAttrValueUnknown
| kStunAttrValueAddress
| kStunAttrValueXorAddress
| kStunAttrValueUInt32
| kStunAttrValueUInt64
| kStunAttrValueByteString
| kStunAttrValueErrorCode
| kStunAttrValueUInt16List.

#[global] Instance value_type_eq_dec : EqDecision StunAttributeValueType.
Proof. solve_decision. Defined.

(** [StunAddressFamily] as the byte on the wire. *)
Definition kStunAddressUndef : Z := 0.
Definition kStunAddressIpv4 : Z := 1.
Definition kStunAddressIpv6 : Z := 2.

Definition SIZE_UNDEF : Z := 0.
Definition SIZE_IP4 : Z := 8.
Definition SIZE_IP6 : Z := 20.
Definition UInt32_SIZE : Z := 4.
Definition UInt64_SIZE : Z := 8.
Definition MIN_SIZE : Z := 4.

(** ** The classes *)

Inductive StunAttributeBody : Type :=
| Address (address_ : SocketAddress)
| XorAddress (address_ : SocketAddress) (owner_ : bool)
| UInt32 (bits_ : Z)
| UInt64 (bits_ : Z)
| ByteString (bytes_ : option (list byte))
| ErrorCode (class_ number_ : Z) (reason_ : list byte)
| UInt16List (attr_types_ : list Z).

Record StunAttribute : Type := mkAttribute {
  attr_type : Z; attr_length : Z; attr_body : StunAttributeBody
}.

Definition with_body (a : StunAttribute) (b : StunAttributeBody) : StunAttribute :=
  mkAttribute (attr_type a) (attr_length a) b.

(** [SetLength] takes a [uint16_t]. *)
Definition SetLength (length : Z) (a : StunAttribute) : StunAttribute :=
  mkAttribute (attr_type a) (wrap16 length) (attr_body a).

Definition value_type (a : StunAttribute) : StunAttributeValueType :=
  match attr_body a with
  | Address _ => kStunAttrValueAddress
  | XorAddress _ _ => kStunAttrValueXorAddress
  | UInt32 _ => kStunAttrValueUInt32
  | UInt64 _ => kStunAttrValueUInt64
  | ByteString _ => kStunAttrValueByteString
  | ErrorCode _ _ _ => kStunAttrValueErrorCode
  | UInt16List _ => kStunAttrValueUInt16List
  end.

(** The virtual [SetOwner]: only the XOR address keeps it. *)
Definition SetOwner (owner : bool) (a : StunAttribute) : StunAttribute :=
  match attr_body a with
  | XorAddress address _ => with_body a (XorAddress address owner)
  | _ => a
  end.

(** [StunAttribute::Create]; [owner] is whether an owner was given. *)
Definition Create (value_type : StunAttributeValueType) (type length : Z) (owner : bool)
    : option StunAttribute :=
  match value_type with
  | kStunAttrValueAddress => Some (mkAttribute type length (Address SocketAddress_nil))
  | kStunAttrValueXorAddress => Some (mkAttribute type length (XorAddress SocketAddress_nil owner))
  | kStunAttrValueUInt32 => Some (mkAttribute type UInt32_SIZE (UInt32 0))
  | kStunAttrValueUInt64 => Some (mkAttribute type UInt64_SIZE (UInt64 0))
  | kStunAttrValueByteString => Some (mkAttribute type length (ByteString None))
  | kStunAttrValueErrorCode => Some (mkAttribute type length (ErrorCode 0 0 []))
  | kStunAttrValueUInt16List => Some (mkAttribute type length (UInt16List []))
  | kStunAttrValueUnknown => None
  end.

Definition CreateAddress (type : Z) : StunAttribute := mkAttribute type 0 (Address SocketAddress_nil).
Definition CreateXorAddress (type : Z) : StunAttribute :=
  mkAttribute type 0 (XorAddress SocketAddress_nil false).
Definition CreateUInt64 (type : Z) : StunAttribute := mkAttribute type UInt64_SIZE (UInt64 0).
Definition CreateUInt32 (type : Z) : StunAttribute := mkAttribute type UInt32_SIZE (UInt32 0).
Definition CreateByteString (type : Z) : StunAttribute := mkAttribute type 0 (ByteString None).
Definition CreateUInt16ListAttribute (type : Z) : StunAttribute := mkAttribute type 0 (UInt16List []).
Definition StunUInt32Attribute (type value : Z) : StunAttribute :=
  mkAttribute type UInt32_SIZE (UInt32 value).
Definition StunUInt64Attribute (type value : Z) : StunAttribute :=
  mkAttribute type UInt64_SIZE (UInt64 value).

(** *** Addresses *)

Definition stun_family (s : SocketAddress) : Z :=
  match family_ (ip_ s) with
  | AF_INET => kStunAddressIpv4
  | AF_INET6 => kStunAddressIpv6
  | AF_UNSPEC => kStunAddressUndef
  end.
Definition EnsureAddressLength (s : SocketAddress) : Z :=
  match family_ (ip_ s) with
  | AF_INET => SIZE_IP4
  | AF_INET6 => SIZE_IP6
  | AF_UNSPEC => SIZE_UNDEF
  end.

(** [SetAddress], [SetIP] and [SetPort] on both kinds of address; on another
    attribute there is no such member. *)
Definition on_address (f : SocketAddress -> SocketAddress) (a : StunAttribute) : StunAttribute :=
  match attr_body a with
  | Address s => with_body a (Address (f s))
  | XorAddress s o => with_body a (XorAddress (f s) o)
  | _ => a
  end.
Definition get_address (a : StunAttribute) : SocketAddress :=
  match attr_body a with Address s | XorAddress s _ => s | _ => SocketAddress_nil end.

Definition SetAddress (addr : SocketAddress) (a : StunAttribute) : StunAttribute :=
  SetLength (EnsureAddressLength addr) (on_address (fun _ => addr) a).
Definition Attr_SetIP (ip : IPAddress) (a : StunAttribute) : StunAttribute :=
  SetAddress (SetIP ip (get_address a)) a.
Definition Attr_SetPort (port : Z) (a : StunAttribute) : outcome StunAttribute :=
  s ← SetPort port (get_address a); mret (on_address (fun _ => s) a).

Definition StunAddressAttribute (type : Z) (addr : SocketAddress) : StunAttribute :=
  SetAddress addr (CreateAddress type).
Definition StunXorAddressAttribute (type : Z) (addr : SocketAddress) : StunAttribute :=
  SetAddress addr (CreateXorAddress type).

(** Exclusive or of the 32-bit word at an address with a value in memory. *)
Definition xor_word (bs : list byte) (v : Z) : list byte :=
  store host_order 4 (Z.lxor (load host_order bs) v).

Definition GetXoredIP (tid : list byte) (owner : bool) (ip : IPAddress) : IPAddress :=
  if owner then
    match family_ ip with
    | AF_INET =>
        IPAddress_v4 (xor_word (ipv4_address ip) (HostToNetwork32 host_order kStunMagicCookie))
    | AF_INET6 =>
        if zlen tid =? kStunTransactionIdLength then
          let w i := ztake 4 (zdrop (4 * i) (ipv6_address ip)) in
          IPAddress_v6 (xor_word (w 0) (HostToNetwork32 host_order kStunMagicCookie) ++
                        xor_word (w 1) (word tid 0) ++
                        xor_word (w 2) (word tid 1) ++
                        xor_word (w 3) (word tid 2))
        else IPAddress_nil
    | AF_UNSPEC => IPAddress_nil
    end
  else IPAddress_nil.

Definition xored_port (port : Z) : Z := wrap16 (Z.lxor port (Z.shiftr kStunMagicCookie 16)).

(** *** Integers *)

Definition SetValue (bits : Z) (a : StunAttribute) : StunAttribute :=
  match attr_body a with
  | UInt32 _ => with_body a (UInt32 bits)
  | UInt64 _ => with_body a (UInt64 bits)
  | _ => a
  end.
Definition GetBit (bits_ index : Z) : outcome bool :=
  assert_that (index <? 32);;
  mret (negb (Z.land (Z.shiftr bits_ index) 0x1 =? 0)).
Definition SetBit (bits_ index : Z) (value : bool) : outcome Z :=
  assert_that (index <? 32);;
  let bits_ := Z.land bits_ (wrap32 (Z.lnot (Z.shiftl 1 index))) in
  mret (Z.lor bits_ (if value then Z.shiftl 1 index else 0)).

(** *** Byte strings *)

Definition SetBytes (bytes : list byte) (length : Z) (a : StunAttribute) : StunAttribute :=
  SetLength length (with_body a (ByteString (Some bytes))).
Definition CopyBytes (bytes : list byte) (a : StunAttribute) : StunAttribute :=
  SetBytes bytes (zlen bytes) a.
Definition StunByteStringAttribute (type : Z) (str : list byte) : StunAttribute :=
  CopyBytes str (CreateByteString type).

(** [std::string(bytes_, length())]. *)
Definition GetString (a : StunAttribute) : outcome (list byte) :=
  match attr_body a with
  | ByteString bytes => mem_read (default [] bytes) 0 (attr_length a)
  | _ => mret []
  end.

(** [GetByte], [SetByte]: assertions on the pointer and on the index. *)
Definition GetByte (a : StunAttribute) (index : Z) : outcome Z :=
  match attr_body a with
  | ByteString (Some bytes) =>
      assert_that (index <? attr_length a);;
      d ← mem_read bytes index 1;
      mret (load host_order d)
  | _ => Crash AssertionFailed
  end.
Definition SetByte (a : StunAttribute) (index value : Z) : outcome StunAttribute :=
  match attr_body a with
  | ByteString (Some bytes) =>
      assert_that (index <? attr_length a);;
      bytes ← mem_write bytes index [byte.of_Z value];
      mret (with_body a (ByteString (Some bytes)))
  | _ => Crash AssertionFailed
  end.

(** *** Error codes *)

Definition error_code (class_ number_ : Z) : Z := class_ * 100 + number_.
Definition SetCode (code : Z) (a : StunAttribute) : StunAttribute :=
  match attr_body a with
  | ErrorCode _ _ reason =>
      with_body a (ErrorCode (wrap8 (Z.quot code 100)) (wrap8 (Z.rem code 100)) reason)
  | _ => a
  end.
Definition SetClass (eclass : Z) (a : StunAttribute) : StunAttribute :=
  match attr_body a with
  | ErrorCode _ number_ reason => with_body a (ErrorCode eclass number_ reason)
  | _ => a
  end.
Definition SetNumber (number : Z) (a : StunAttribute) : StunAttribute :=
  match attr_body a with
  | ErrorCode class_ _ reason => with_body a (ErrorCode class_ number reason)
  | _ => a
  end.
Definition SetReason (reason : list byte) (a : StunAttribute) : StunAttribute :=
  match attr_body a with
  | ErrorCode class_ number_ _ =>
      SetLength (MIN_SIZE + wrap16 (zlen reason)) (with_body a (ErrorCode class_ number_ reason))
  | _ => a
  end.
Definition StunErrorCodeAttribute (type code : Z) (reason : list byte) : StunAttribute :=
  SetReason reason (SetCode code (mkAttribute type 0 (ErrorCode 0 0 []))).

(** *** Lists of attribute types *)

Definition GetType (attr_types_ : list Z) (index : Z) : outcome Z :=
  d ← mem_read attr_types_ index 1; mret (hd 0 d).
Definition SetType (index value : Z) (a : StunAttribute) : outcome StunAttribute :=
  match attr_body a with
  | UInt16List l => l ← mem_write l index [value]; mret (with_body a (UInt16List l))
  | _ => mret a
  end.
Definition AddType (value : Z) (a : StunAttribute) : StunAttribute :=
  match attr_body a with
  | UInt16List l =>
      let l := l ++ [value] in SetLength (zlen l * 2) (with_body a (UInt16List l))
  | _ => a
  end.
(** [resize] pads with zeroes. *)
Definition AddTypeAtIndex (index value : Z) (a : StunAttribute) : outcome StunAttribute :=
  match attr_body a with
  | UInt16List l =>
      let l := if zlen l <? index + 1
               then l ++ replicate (Z.to_nat (index + 1 - zlen l)) 0 else l in
      l ← mem_write l index [value];
      mret (SetLength (zlen l * 2) (with_body a (UInt16List l)))
  | _ => mret a
  end.

(** ** Reading the body *)

(** A computation that does not touch the reader. *)
Definition pure {A} (o : outcome A) : reader A := fun r => a ← o; Ret (Some a, r).

(** [ConsumePadding] ignores the answer of [Consume]. *)
Definition ConsumePadding (length_ : Z) : reader unit := fun r =>
  let remainder := length_ mod 4 in
  if remainder >? 0 then
    match Consume (4 - remainder) r with
    | Ret (_, r') => Ret (Some tt, r')
    | Crash f => Crash f
    end
  else Ret (Some tt, r).

Definition Address_Read (a : StunAttribute) : reader StunAttribute :=
  dummy ← ReadUInt8;
  family ← ReadUInt8;
  port ← ReadUInt16;
  if family =? kStunAddressIpv4 then
    if negb (attr_length a =? SIZE_IP4) then return_false else
    v4addr ← ReadBytes 4;
    s ← pure (SocketAddress_ip (IPAddress_v4 v4addr) port);
    mret (SetAddress s a)
  else if family =? kStunAddressIpv6 then
    if negb (attr_length a =? SIZE_IP6) then return_false else
    v6addr ← ReadBytes 16;
    s ← pure (SocketAddress_ip (IPAddress_v6 v6addr) port);
    mret (SetAddress s a)
  else return_false.

Definition XorAddress_Read (tid : list byte) (owner : bool) (a : StunAttribute) : reader StunAttribute :=
  a ← Address_Read a;
  let s := get_address a in
  let xoredport := xored_port (port_ s) in
  let xored_ip := GetXoredIP tid owner (ip_ s) in
  s ← pure (SocketAddress_ip xored_ip xoredport);
  mret (SetAddress s a).

Fixpoint UInt16List_loop (n : nat) (l : list Z) : reader (list Z) :=
  match n with
  | O => mret l
  | S n => attr ← ReadUInt16; UInt16List_loop n (l ++ [attr])
  end.

Definition UInt32_Read (a : StunAttribute) : reader StunAttribute :=
  if negb (attr_length a =? UInt32_SIZE) then return_false else
  bits ← ReadUInt32; mret (with_body a (UInt32 bits)).

Definition UInt64_Read (a : StunAttribute) : reader StunAttribute :=
  if negb (attr_length a =? UInt64_SIZE) then return_false else
  bits ← ReadUInt64; mret (with_body a (UInt64 bits)).

Definition ByteString_Read (a : StunAttribute) : reader StunAttribute :=
  bytes ← ReadBytes (attr_length a);
  ConsumePadding (attr_length a);;
  mret (with_body a (ByteString (Some bytes))).

Definition ErrorCode_Read (reason : list byte) (a : StunAttribute) : reader StunAttribute :=
  if attr_length a <? MIN_SIZE then return_false else
  val ← ReadUInt32;
  reason ← ReadString reason (attr_length a - 4);
  ConsumePadding (attr_length a);;
  mret (with_body a (ErrorCode (Z.land (Z.shiftr val 8) 0x7) (Z.land val 0xff) reason)).

Definition UInt16List_Read (l : list Z) (a : StunAttribute) : reader StunAttribute :=
  if negb (attr_length a mod 2 =? 0) then return_false else
  l ← UInt16List_loop (Z.to_nat (attr_length a / 2)) l;
  ConsumePadding (attr_length a);;
  mret (with_body a (UInt16List l)).

(** The virtual [Read]; [tid] is the owner's transaction identifier. *)
Definition Attr_Read (tid : list byte) (a : StunAttribute) : reader StunAttribute :=
  match attr_body a with
  | Address _ => Address_Read a
  | XorAddress _ owner => XorAddress_Read tid owner a
  | UInt32 _ => UInt32_Read a
  | UInt64 _ => UInt64_Read a
  | ByteString _ => ByteString_Read a
  | ErrorCode _ _ reason => ErrorCode_Read reason a
  | UInt16List l => UInt16List_Read l a
  end.

(** ** Writing the body *)
Section Writing.
Context `{BufferClass B}.

(** [buf->...; return true] and [return false]. *)
Definition ending (b : bool) (o : outcome B) : outcome (bool * B) := w ← o; mret (b, w).

Definition WritePadding (length_ : Z) (w : B) : outcome B :=
  let remainder := length_ mod 4 in
  if remainder >? 0 then WriteBytes w (zeroes (Z.to_nat (4 - remainder))) else mret w.

Definition WriteAddress (family port : Z) (bytes : list byte) (w : B) : outcome B :=
  w ← WriteUInt8 w 0;
  w ← WriteUInt8 w family;
  w ← WriteUInt16 w port;
  WriteBytes w bytes.

Definition ip_bytes (ip : IPAddress) : list byte :=
  match family_ ip with
  | AF_INET => ipv4_address ip
  | AF_INET6 => ipv6_address ip
  | AF_UNSPEC => []
  end.

Fixpoint WriteTypes (l : list Z) (w : B) : outcome B :=
  match l with
  | [] => mret w
  | x :: l => w ← WriteUInt16 w x; WriteTypes l w
  end.

Definition Address_Write (s : SocketAddress) (w : B) : outcome (bool * B) :=
  if stun_family s =? kStunAddressUndef then mret (false, w) else
  ending true (WriteAddress (stun_family s) (port_ s) (ip_bytes (ip_ s)) w).

Definition XorAddress_Write (tid : list byte) (s : SocketAddress) (owner : bool) (w : B) : outcome (bool * B) :=
  if stun_family s =? kStunAddressUndef then mret (false, w) else
  let xored_ip := GetXoredIP tid owner (ip_ s) in
  if IPIsUnspec xored_ip then mret (false, w) else
  ending true (WriteAddress (stun_family s) (xored_port (port_ s)) (ip_bytes xored_ip) w).

Definition UInt32_Write (bits : Z) (w : B) : outcome (bool * B) := ending true (WriteUInt32 w bits).
Definition UInt64_Write (bits : Z) (w : B) : outcome (bool * B) := ending true (WriteUInt64 w bits).

Definition ByteString_Write (length : Z) (bytes : option (list byte)) (w : B) : outcome (bool * B) :=
  ending true (d ← mem_read (default [] bytes) 0 length; w ← WriteBytes w d; WritePadding length w).

Definition ErrorCode_Write (length class_ number_ : Z) (reason : list byte) (w : B) : outcome (bool * B) :=
  ending true (w ← WriteUInt32 w (Z.lor (Z.shiftl class_ 8) number_);
               w ← WriteString w reason; WritePadding length w).

Definition UInt16List_Write (length : Z) (l : list Z) (w : B) : outcome (bool * B) :=
  ending true (w ← WriteTypes l w; WritePadding length w).

(** The virtual [Write]. *)
Definition Attr_Write (tid : list byte) (a : StunAttribute) (w : B) : outcome (bool * B) :=
  match attr_body a with
  | Address s => Address_Write s w
  | XorAddress s owner => XorAddress_Write tid s owner w
  | UInt32 bits => UInt32_Write bits w
  | UInt64 bits => UInt64_Write bits w
  | ByteString bytes => ByteString_Write (attr_length a) bytes w
  | ErrorCode class_ number_ reason => ErrorCode_Write (attr_length a) class_ number_ reason w
  | UInt16List l => UInt16List_Write (attr_length a) l w
  end.
End Writing.

(** ** The wire format *)

(** Attributes are padded to a multiple of four bytes. *)
Definition padded (n : Z) : Z := n + (- n) mod 4.
Definition padding (n : Z) : list byte := zeroes (Z.to_nat ((- n) mod 4)).

Definition address_bytes (family port : Z) (bytes : list byte) : list byte :=
  [byte.of_Z 0] ++ [byte.of_Z family] ++ be_bytes 2 port ++ bytes.

Definition body_bytes (tid : list byte) (a : StunAttribute) : list byte :=
  match attr_body a with
  | Address s => address_bytes (stun_family s) (port_ s) (ip_bytes (ip_ s))
  | XorAddress s owner =>
      address_bytes (stun_family s) (xored_port (port_ s)) (ip_bytes (GetXoredIP tid owner (ip_ s)))
  | UInt32 bits => be_bytes 4 bits
  | UInt64 bits => be_bytes 8 bits
  | ByteString bytes => ztake (attr_length a) (default [] bytes) ++ padding (attr_length a)
  | ErrorCode class_ number_ reason =>
      be_bytes 4 (Z.lor (Z.shiftl class_ 8) number_) ++ reason ++ padding (attr_length a)
  | UInt16List l => concat (map (be_bytes 2) l) ++ padding (attr_length a)
  end.

(** An address that can be sent. *)
Record address_ok (s : SocketAddress) : Prop := {
  address_ip : ip_ok (ip_ s);
  address_family_known : family_ (ip_ s) <> AF_UNSPEC;
  address_port : 0 <= port_ s < 2 ^ 16
}.

(** What [Write] needs of a body: members in the range of their type, and the
    length that the setters keep in step with the contents. *)
Definition body_ok (tid : list byte) (a : StunAttribute) : Prop :=
  match attr_body a with
  | Address s => address_ok s /\ attr_length a = EnsureAddressLength s
  | XorAddress s owner =>
      address_ok s /\ attr_length a = EnsureAddressLength s /\ owner = true /\
      (family_ (ip_ s) = AF_INET6 -> zlen tid = kStunTransactionIdLength)
  | UInt32 bits => attr_length a = UInt32_SIZE /\ 0 <= bits < 2 ^ 32
  | UInt64 bits => attr_length a = UInt64_SIZE /\ 0 <= bits < 2 ^ 64
  | ByteString bytes => attr_length a <= zlen (default [] bytes)
  | ErrorCode class_ number_ reason =>
      0 <= class_ < 8 /\ 0 <= number_ < 256 /\ attr_length a = 4 + zlen reason
  | UInt16List l => attr_length a = 2 * zlen l /\ Forall (fun x => 0 <= x < 2 ^ 16) l
  end.

Record attr_ok (tid : list byte) (a : StunAttribute) : Prop := {
  attr_type_range : 0 <= attr_type a < 2 ^ 16;
  attr_length_range : 0 <= attr_length a < 2 ^ 16;
  attr_body_ok : body_ok tid a
}.

(** The attribute that the receiver of [a] builds: addresses without the host
    name and scope, byte strings of exactly the sent length. *)
Definition plain (s : SocketAddress) : SocketAddress := mkSocketAddress [] (ip_ s) (port_ s) 0 false.
Definition received (a : StunAttribute) : StunAttribute :=
  with_body a (match attr_body a with
  | Address s => Address (plain s)
  | XorAddress s owner => XorAddress (plain s) owner
  | ByteString bytes => ByteString (Some (ztake (attr_length a) (default [] bytes)))
  | b => b
  end).
