(* ===== verification/StunCodec.v ===== *)
(** * The wire format of STUN attributes: what [Write] sends, [Read] rebuilds

    For every class of attribute: [Attr_Write] appends [body_bytes], and
    [Attr_Read] of these bytes on the attribute that [Create] makes gives
    [received a].  Reading arbitrary bytes stays inside the buffer. *)

From Stdlib Require Import ZArith Lia.
From S2P Require Import Prelude ByteOrder ConstBuffer ByteBuffer IpAddress SocketAddress StunAttr.

(** ** The exclusive or with the cookie and the transaction identifier *)

Lemma load_store e n v : 0 <= v < 2 ^ (Z.of_nat n * 8) -> load e (store e n v) = v.
Proof.
  intros Hv. destruct e; unfold load, store; rewrite ?rev_involutive, le_combine_split; by apply Z.mod_small.
Qed.
Lemma store_load e n bs : length bs = n -> store e n (load e bs) = bs.
Proof.
  intros Hl. destruct e; unfold load, store.
  - by apply split_le_combine'.
  - rewrite split_le_combine' by by rewrite length_rev. apply rev_involutive.
Qed.
Lemma length_store e n v : length (store e n v) = n.
Proof. destruct e; unfold store; by rewrite ?length_rev, length_le_split. Qed.
Lemma load_range e bs : 0 <= load e bs < 2 ^ (Z.of_nat (length bs) * 8).
Proof.
  rewrite (Z.mul_comm _ 8). destruct e; unfold load; [apply le_combine_bound|].
  rewrite <- (length_rev bs). apply le_combine_bound.
Qed.

Lemma length_xor_word bs v : length (xor_word bs v) = 4%nat.
Proof. apply length_store. Qed.

Lemma xor_word_cancel bs v : length bs = 4%nat -> 0 <= v < 2 ^ 32 -> xor_word (xor_word bs v) v = bs.
Proof.
  intros Hl Hv. unfold xor_word. pose proof (load_range host_order bs) as Hb. rewrite Hl in Hb.
  rewrite load_store by (by apply lxor_range). rewrite lxor_cancel. by apply store_load.
Qed.

Lemma xored_port_range p : 0 <= xored_port p < 2 ^ 16.
Proof. apply wrap16_range. Qed.
Lemma xored_port_cancel p : 0 <= p < 2 ^ 16 -> xored_port (xored_port p) = p.
Proof.
  intros Hp. unfold xored_port. change (Z.shiftr kStunMagicCookie 16) with 0x2112.
  assert (0 <= Z.lxor p 0x2112 < 2 ^ 16) by (apply lxor_range; lia).
  rewrite (wrap16_small (Z.lxor p _)), lxor_cancel by done. by apply wrap16_small.
Qed.

(** The four words of an IPv6 address. *)
Definition quarter (i : Z) (l : list byte) : list byte := ztake 4 (zdrop (4 * i) l).

Lemma quarters (l : list byte) : length l = 16%nat ->
  l = quarter 0 l ++ quarter 1 l ++ quarter 2 l ++ quarter 3 l /\
  forall i, 0 <= i < 4 -> length (quarter i l) = 4%nat.
Proof.
  intros Hl. do 16 (destruct l as [|? l]; [done|]). destruct l; [|done].
  split; [done|]. intros i Hi. assert (i = 0 \/ i = 1 \/ i = 2 \/ i = 3) as [->|[->|[->| ->]]] by lia; done.
Qed.

Lemma quarter_app (a b c d : list byte) :
  length a = 4%nat -> length b = 4%nat -> length c = 4%nat -> length d = 4%nat ->
  quarter 0 (a ++ b ++ c ++ d) = a /\ quarter 1 (a ++ b ++ c ++ d) = b /\
  quarter 2 (a ++ b ++ c ++ d) = c /\ quarter 3 (a ++ b ++ c ++ d) = d.
Proof.
  do 4 (destruct a as [|? a]; [done|]). destruct a; [|done].
  do 4 (destruct b as [|? b]; [done|]). destruct b; [|done].
  do 4 (destruct c as [|? c]; [done|]). destruct c; [|done].
  do 4 (destruct d as [|? d]; [done|]). destruct d; [|done]. done.
Qed.

Lemma word_range l i : 0 <= word l i < 2 ^ 32.
Proof.
  unfold word. pose proof (load_range host_order (ztake 4 (zdrop (4 * i) l))) as H.
  assert (Hl : (length (ztake 4 (zdrop (4 * i) l)) <= 4)%nat) by (unfold ztake; rewrite length_take; lia).
  split; [lia|]. eapply Z.lt_le_trans; [apply H|]. apply Z.pow_le_mono_r; lia.
Qed.

Definition xored_v6 (tid l : list byte) : list byte :=
  xor_word (quarter 0 l) (HostToNetwork32 host_order kStunMagicCookie) ++
  xor_word (quarter 1 l) (word tid 0) ++ xor_word (quarter 2 l) (word tid 1) ++
  xor_word (quarter 3 l) (word tid 2).

Lemma GetXoredIP_v6 tid ip :
  family_ ip = AF_INET6 -> zlen tid = kStunTransactionIdLength ->
  GetXoredIP tid true ip = IPAddress_v6 (xored_v6 tid (u_ ip)).
Proof. intros Hf Ht. unfold GetXoredIP. by rewrite Hf, Ht, Z.eqb_refl. Qed.

Lemma xored_v6_cancel tid l : length l = 16%nat -> xored_v6 tid (xored_v6 tid l) = l.
Proof.
  intros Hl. destruct (quarters l Hl) as [Hq Hw]. unfold xored_v6 at 1.
  edestruct (quarter_app (xor_word (quarter 0 l) (HostToNetwork32 host_order kStunMagicCookie))
    (xor_word (quarter 1 l) (word tid 0)) (xor_word (quarter 2 l) (word tid 1))
    (xor_word (quarter 3 l) (word tid 2))) as (E0 & E1 & E2 & E3); [apply length_xor_word..|].
  fold (xored_v6 tid l) in E0, E1, E2, E3. rewrite E0, E1, E2, E3.
  rewrite !xor_word_cancel by (apply word_range || done || (apply Hw; lia)). by rewrite <- Hq.
Qed.

(** What the attribute sends in place of the address has the same family, is
    well formed, and gives the address back by the same operation. *)
Lemma GetXoredIP_spec tid ip :
  ip_ok ip -> family_ ip <> AF_UNSPEC ->
  (family_ ip = AF_INET6 -> zlen tid = kStunTransactionIdLength) ->
  let x := GetXoredIP tid true ip in
  family_ x = family_ ip /\ ip_ok x /\ GetXoredIP tid true x = ip.
Proof.
  intros Hok Hf Htid. cbn zeta. destruct (family_ ip) eqn:Ef; [done| |].
  - unfold GetXoredIP. rewrite Ef. cbn [family_ IPAddress_v4]. split; [done|].
    pose proof (length_ipv4 ip Hok) as Hl.
    split; [apply ip_ok_v4, length_xor_word|].
    assert (E : forall a, length a = 4%nat -> ipv4_address (IPAddress_v4 a) = a).
    { intros a Ha. do 4 (destruct a as [|? a]; [done|]). by destruct a. }
    rewrite E, xor_word_cancel by (done || apply length_xor_word). by apply v4_rebuild.
  - specialize (Htid eq_refl). rewrite !GetXoredIP_v6 by (done || by rewrite GetXoredIP_v6).
    pose proof (ip_size _ Hok) as Hl. split; [done|]. cbn [u_ IPAddress_v6].
    rewrite xored_v6_cancel by done. split.
    + apply ip_ok_v6. unfold xored_v6. by rewrite !length_app, !length_xor_word.
    + destruct ip; cbn in *; by subst.
Qed.

(** ** Padding *)

Lemma neg_mod4 n : (- n) mod 4 = if n mod 4 =? 0 then 0 else 4 - n mod 4.
Proof. destruct (Z.eqb_spec (n mod 4) 0); Z.div_mod_to_equations; lia. Qed.

Lemma padding_alt n : padding n = if n mod 4 >? 0 then zeroes (Z.to_nat (4 - n mod 4)) else [].
Proof.
  unfold padding. rewrite neg_mod4, Z.gtb_ltb. pose proof (Z.mod_pos_bound n 4 ltac:(lia)).
  destruct (Z.eqb_spec (n mod 4) 0), (Z.ltb_spec 0 (n mod 4)); (lia || done).
Qed.

Lemma zlen_zeroes n : 0 <= n -> zlen (zeroes (Z.to_nat n)) = n.
Proof. apply zlen_replicate. Qed.

Lemma zlen_padding n : zlen (padding n) = (- n) mod 4.
Proof. apply zlen_zeroes, Z.mod_pos_bound. lia. Qed.

Lemma padded_range n : n <= padded n < n + 4 /\ padded n mod 4 = 0.
Proof. unfold padded. Z.div_mod_to_equations; lia. Qed.

(** ** Writing *)
Section Writing.
Context `{BufferClass B}.

(** [m] answers [true] and appends [d]. *)
Definition sends (m : B -> outcome (bool * B)) (d : list byte) : Prop :=
  forall w l, wrote w l -> post (m w) (fun '(b, w') => b = true /\ wrote w' (l ++ d)).

Lemma ending_sends m d : writes m d -> sends (fun w => ending true (m w)) d.
Proof.
  intros Hm w l Hw. unfold ending. eapply post_bind, post_mono; [by apply Hm|]. done.
Qed.

Lemma WritePadding_writes n : writes (WritePadding n) (padding n).
Proof.
  rewrite padding_alt. unfold WritePadding. destruct (n mod 4 >? 0);
    [apply WriteBytes_writes|apply writes_nil].
Qed.

Lemma WriteAddress_writes f p bs : writes (WriteAddress f p bs) (address_bytes f p bs).
Proof.
  unfold WriteAddress, address_bytes.
  apply writes_bind; [apply WriteUInt8_writes|]. apply writes_bind; [apply WriteUInt8_writes|].
  apply writes_bind; [apply WriteUInt16_writes|]. apply WriteBytes_writes.
Qed.

Lemma WriteTypes_writes l : writes (WriteTypes l) (concat (map (be_bytes 2) l)).
Proof.
  induction l as [|x l IH]; [apply writes_nil|]. cbn [WriteTypes map concat].
  apply writes_bind; [apply WriteUInt16_writes|done].
Qed.

Lemma stun_family_known s : family_ (ip_ s) <> AF_UNSPEC -> stun_family s =? kStunAddressUndef = false.
Proof. unfold stun_family. by destruct (family_ (ip_ s)). Qed.

Lemma Attr_Write_sends tid a : attr_ok tid a -> sends (Attr_Write tid a) (body_bytes tid a).
Proof.
  intros [_ Hl Hb]. unfold Attr_Write, Address_Write, XorAddress_Write, UInt32_Write, UInt64_Write, ByteString_Write,
    ErrorCode_Write, UInt16List_Write, body_bytes. unfold body_ok in Hb.
  destruct (attr_body a) as [s|s o| | |bytes|c n r|l].
  - destruct Hb as [Hs _]. rewrite stun_family_known by apply Hs.
    apply ending_sends, WriteAddress_writes.
  - destruct Hb as (Hs & _ & -> & Ht). rewrite stun_family_known by apply Hs.
    destruct (GetXoredIP_spec tid (ip_ s)) as (Hf & _ & _); [apply Hs..|done|].
    unfold IPIsUnspec. rewrite bool_decide_false by (rewrite Hf; apply Hs).
    apply ending_sends, WriteAddress_writes.
  - apply ending_sends, WriteUInt32_writes.
  - apply ending_sends, WriteUInt64_writes.
  - rewrite mem_read_ok by lia. rewrite zdrop_0. cbn [mbind outcome_bind].
    apply ending_sends, writes_bind; [apply WriteBytes_writes|apply WritePadding_writes].
  - apply ending_sends, writes_bind; [apply WriteUInt32_writes|].
    apply writes_bind; [apply WriteBytes_writes|apply WritePadding_writes].
  - apply ending_sends, writes_bind; [apply WriteTypes_writes|apply WritePadding_writes].
Qed.
End Writing.

(** The body takes the padded length. *)
Lemma zlen_types l : zlen (concat (map (be_bytes 2) l)) = 2 * zlen l.
Proof.
  induction l as [|x l IH]; [done|]. cbn [map concat]. rewrite zlen_app, IH, zlen_be_bytes, zlen_cons. lia.
Qed.

Lemma zlen_ip_bytes s : address_ok s -> 4 + zlen (ip_bytes (ip_ s)) = EnsureAddressLength s.
Proof.
  intros [Hok Hf _]. unfold ip_bytes, EnsureAddressLength. destruct (family_ (ip_ s)); [done| |].
  - unfold zlen. by rewrite length_ipv4.
  - unfold zlen, ipv6_address. by rewrite (ip_size _ Hok).
Qed.

Lemma zlen_address_bytes f p bs : zlen (address_bytes f p bs) = 4 + zlen bs.
Proof. unfold address_bytes. rewrite !zlen_app, zlen_be_bytes. unfold zlen. cbn. lia. Qed.

Lemma padded_address s : padded (EnsureAddressLength s) = EnsureAddressLength s.
Proof. unfold EnsureAddressLength. by destruct (family_ (ip_ s)). Qed.

Lemma zlen_body_bytes tid a : attr_ok tid a -> zlen (body_bytes tid a) = padded (attr_length a).
Proof.
  intros [_ Hl Hb]. unfold body_bytes. unfold body_ok in Hb.
  destruct (attr_body a) as [s|s o| | |bytes|c n r|l].
  - destruct Hb as [Hs ->]. rewrite zlen_address_bytes, zlen_ip_bytes by done. by rewrite padded_address.
  - destruct Hb as (Hs & -> & -> & Ht).
    destruct (GetXoredIP_spec tid (ip_ s)) as (Hf & Hok & _); [apply Hs..|done|].
    rewrite zlen_address_bytes, padded_address.
    unfold ip_bytes. rewrite Hf. rewrite <- (zlen_ip_bytes s) by done. unfold ip_bytes.
    destruct Hs as [Hs1 Hs2 _]. destruct (family_ (ip_ s)); [done| |];
      unfold zlen; rewrite ?length_ipv4 by done; [done|].
    unfold ipv6_address. by rewrite (ip_size _ Hs1), (ip_size _ Hok).
  - destruct Hb as [-> _]. by rewrite zlen_be_bytes.
  - destruct Hb as [-> _]. by rewrite zlen_be_bytes.
  - rewrite zlen_app, zlen_padding, zlen_ztake by lia. done.
  - destruct Hb as (_ & _ & ->). rewrite !zlen_app, zlen_padding, zlen_be_bytes. unfold padded. lia.
  - destruct Hb as [-> _]. rewrite zlen_app, zlen_padding, zlen_types. done.
Qed.

(** ** Reading back *)

Lemma pure_reads {A} (o : outcome A) a : o = Ret a -> reads (pure o) [] a.
Proof. intros -> r rest Hr. by exists r. Qed.

Lemma ConsumePadding_reads n : reads (ConsumePadding n) (padding n) tt.
Proof.
  intros r rest Hr. unfold ConsumePadding. rewrite padding_alt in Hr.
  destruct (n mod 4 >? 0) eqn:E; [|by exists r].
  pose proof (Z.mod_pos_bound n 4 ltac:(lia)).
  destruct (Consume_reads (zeroes (Z.to_nat (4 - n mod 4))) r rest Hr) as (r' & E' & Hr').
  rewrite zlen_zeroes in E' by lia. rewrite E'. by exists r'.
Qed.

Lemma SocketAddress_ip_plain ip p :
  0 <= p < 2 ^ 16 -> SocketAddress_ip ip p = Ret (mkSocketAddress [] ip p 0 false).
Proof.
  intros Hp. unfold SocketAddress_ip, SetPort.
  by rewrite (proj2 (Z.leb_le 0 p)), (proj2 (Z.leb_le p 65535)) by lia.
Qed.

Lemma ip_rebuild ip : ip_ok ip -> family_ ip <> AF_UNSPEC ->
  match family_ ip with AF_INET => IPAddress_v4 (ip_bytes ip) | _ => IPAddress_v6 (ip_bytes ip) end = ip.
Proof.
  intros Hok Hf. unfold ip_bytes. destruct (family_ ip) eqn:Ef; [done|by apply v4_rebuild|].
  destruct ip; cbn in *; by subst.
Qed.

(** [Address_Read] of what [WriteAddress] wrote. *)
Lemma Address_Read_reads a s : address_ok s -> attr_length a = EnsureAddressLength s ->
  reads (Address_Read a) (address_bytes (stun_family s) (port_ s) (ip_bytes (ip_ s)))
    (SetAddress (plain s) a).
Proof.
  intros Hs Hl. pose proof (zlen_ip_bytes s Hs) as Hz. destruct Hs as [Hok Hf Hp].
  pose proof (ip_rebuild _ Hok Hf) as Hr. unfold Address_Read, address_bytes, EnsureAddressLength in *.
  eapply reads_bind; [by apply ReadUInt8_reads|].
  unfold stun_family, plain in *. destruct (family_ (ip_ s)) eqn:Ef; [done| |].
  all: eapply reads_bind; [by apply ReadUInt8_reads|];
    eapply reads_bind; [by apply ReadUInt16_reads|]; cbn [Z.eqb kStunAddressIpv4 kStunAddressIpv6];
    rewrite Hl; cbn [negb Z.eqb SIZE_IP4 SIZE_IP6 Pos.eqb].
  all: rewrite <- (app_nil_r (ip_bytes _)); eapply reads_bind;
    [apply ReadBytes_reads'; unfold SIZE_IP4, SIZE_IP6 in *; lia|].
  all: rewrite <- (app_nil_r []); eapply reads_bind; [|apply reads_ret].
  all: apply pure_reads; rewrite SocketAddress_ip_plain by done; by rewrite Hr.
Qed.

Lemma wrap16_address s : wrap16 (EnsureAddressLength s) = EnsureAddressLength s.
Proof. unfold EnsureAddressLength. by destruct (family_ (ip_ s)). Qed.

Lemma XorAddress_Read_reads tid type len s s0 : address_ok s -> len = EnsureAddressLength s ->
  (family_ (ip_ s) = AF_INET6 -> zlen tid = kStunTransactionIdLength) ->
  reads (XorAddress_Read tid true (mkAttribute type len (XorAddress s0 true)))
    (address_bytes (stun_family s) (xored_port (port_ s)) (ip_bytes (GetXoredIP tid true (ip_ s))))
    (mkAttribute type len (XorAddress (plain s) true)).
Proof.
  intros [Hok Hf Hp] Hl Ht. destruct (GetXoredIP_spec tid (ip_ s) Hok Hf Ht) as (Hxf & Hxok & Hback).
  set (x := mkSocketAddress [] (GetXoredIP tid true (ip_ s)) (xored_port (port_ s)) 0 false).
  assert (Hfam : stun_family s = stun_family x) by (unfold stun_family; cbn [ip_ x]; by rewrite Hxf).
  assert (Hlen : len = EnsureAddressLength x)
    by (rewrite Hl; unfold EnsureAddressLength; cbn [ip_ x]; by rewrite Hxf).
  rewrite Hfam. unfold XorAddress_Read. rewrite <- (app_nil_r (address_bytes _ _ _)).
  eapply reads_bind.
  - apply (Address_Read_reads _ x); [|done]. split; cbn [ip_ port_ x]; [done|by rewrite Hxf|].
    apply xored_port_range.
  - cbn [get_address SetAddress SetLength on_address with_body attr_body ip_ port_ plain x].
    rewrite Hback, xored_port_cancel by done. rewrite <- (app_nil_r []). eapply reads_bind.
    + apply pure_reads, SocketAddress_ip_plain. done.
    + rewrite Hl. change (EnsureAddressLength s) with (EnsureAddressLength (plain s)).
      rewrite <- (wrap16_address (plain s)) at 2. apply reads_ret.
Qed.

Lemma UInt16List_loop_reads l acc : Forall (fun x => 0 <= x < 2 ^ 16) l ->
  reads (UInt16List_loop (length l) acc) (concat (map (be_bytes 2) l)) (acc ++ l).
Proof.
  revert acc. induction l as [|x l IH]; intros acc Hl; cbn [UInt16List_loop length map concat].
  - rewrite app_nil_r. apply reads_ret.
  - apply Forall_cons_1 in Hl as [Hx Hl]. eapply reads_bind; [by apply ReadUInt16_reads|].
    replace (acc ++ x :: l) with ((acc ++ [x]) ++ l) by by rewrite <- app_assoc. by apply IH.
Qed.

(** The members of the error code out of the 32-bit field. *)
Lemma error_fields c n : 0 <= c < 8 -> 0 <= n < 256 ->
  let v := Z.lor (Z.shiftl c 8) n in
  0 <= v < 2 ^ 32 /\ Z.land (Z.shiftr v 8) 0x7 = c /\ Z.land v 0xff = n.
Proof.
  intros Hc Hn. cbn zeta. rewrite Z.lor_comm, lor_shiftl_add by lia.
  change 0x7 with (Z.ones 3). change 0xff with (Z.ones 8).
  rewrite !Z.land_ones, Z.shiftr_div_pow2 by lia.
  rewrite Z.div_add, Z.mod_add by lia. rewrite (Z.div_small n), (Z.mod_small n) by lia.
  rewrite Z.add_0_l, Z.mod_small by lia. lia.
Qed.

Lemma Attr_Read_reads tid a c : attr_ok tid a ->
  Create (value_type a) (attr_type a) (attr_length a) true = Some c ->
  reads (Attr_Read tid c) (body_bytes tid a) (received a).
Proof.
  destruct a as [t len body]. intros [_ Hl Hb] Hc. unfold value_type, body_ok, body_bytes, received in *.
  cbn [attr_type attr_length attr_body with_body] in *.
  destruct body as [s|s o|bits|bits|bytes|cl n r|l]; cbn [Create] in Hc; injection Hc as <-;
    unfold Attr_Read, UInt32_Read, UInt64_Read, ByteString_Read, ErrorCode_Read, UInt16List_Read;
    cbn [attr_body attr_length].
  - destruct Hb as [Hs Hlen]. rewrite Hlen at 2. change (EnsureAddressLength s) with (EnsureAddressLength (plain s)).
    rewrite <- (wrap16_address (plain s)).
    apply (Address_Read_reads (mkAttribute t len (Address SocketAddress_nil))); done.
  - destruct Hb as (Hs & Hlen & -> & Ht). by apply XorAddress_Read_reads.
  - destruct Hb as [-> Hb]. rewrite Z.eqb_refl. cbn [negb].
    rewrite <- (app_nil_r (be_bytes 4 bits)). eapply reads_bind; [by apply ReadUInt32_reads|apply reads_ret].
  - destruct Hb as [-> Hb]. rewrite Z.eqb_refl. cbn [negb].
    rewrite <- (app_nil_r (be_bytes 8 bits)). eapply reads_bind; [by apply ReadUInt64_reads|apply reads_ret].
  - eapply reads_bind; [apply ReadBytes_reads', zlen_ztake; lia|].
    rewrite <- (app_nil_r (padding len)). eapply reads_bind; [apply ConsumePadding_reads|apply reads_ret].
  - destruct Hb as (Hcl & Hn & ->). destruct (error_fields cl n Hcl Hn) as (Hv & E1 & E2).
    pose proof (zlen_nonneg r). rewrite (proj2 (Z.ltb_ge _ _)) by (unfold MIN_SIZE; lia).
    eapply reads_bind; [by apply ReadUInt32_reads|]. rewrite E1, E2.
    replace (4 + zlen r - 4) with (zlen r) by lia.
    eapply reads_bind; [apply ReadString_reads|]. rewrite <- (app_nil_r (padding _)).
    eapply reads_bind; [apply ConsumePadding_reads|apply reads_ret].
  - destruct Hb as [-> Hall]. rewrite (Z.mul_comm 2), Z.mod_mul by lia. cbn [Z.eqb negb].
    rewrite Z.div_mul by lia. assert (Z.to_nat (zlen l) = length l) as -> by (unfold zlen; lia).
    eapply reads_bind; [by apply (UInt16List_loop_reads l [])|]. rewrite <- (app_nil_r (padding _)).
    eapply reads_bind; [apply ConsumePadding_reads|apply reads_ret].
Qed.

(** ** Reading arbitrary bytes *)

(** [yields m P]: from any legal state [m] returns, stays inside the buffer,
    and a result of [m] satisfies [P]. *)
Definition yields {A} (m : reader A) (P : A -> Prop) : Prop :=
  forall r l, unread r l -> exists o r' n,
    m r = Ret (o, r') /\ 0 <= n <= zlen l /\ unread r' (zdrop n l) /\ (forall a, o = Some a -> P a).

Lemma yields_safe {A} (m : reader A) : safe m -> yields m (fun _ => True).
Proof. intros Hm r l Hr. destruct (Hm r l Hr) as (o & r' & n & ? & ? & ?). by exists o, r', n. Qed.

Lemma yields_stay {A} (m : reader A) (P : A -> Prop) :
  (forall r, exists o, m r = Ret (o, r) /\ forall a, o = Some a -> P a) -> yields m P.
Proof.
  intros Hm r l Hr. destruct (Hm r) as (o & E & HP). pose proof (zlen_nonneg l).
  exists o, r, 0. rewrite zdrop_0. by split; [|split; [lia|]].
Qed.

Lemma yields_ret {A} (a : A) (P : A -> Prop) : P a -> yields (mret a) P.
Proof. intros HP. apply yields_stay. intros r. exists (Some a). split; [done|]. by intros ? [= <-]. Qed.

Lemma yields_false {A} (P : A -> Prop) : yields return_false P.
Proof. apply yields_stay. intros r. by exists None. Qed.

Lemma yields_pure {A} (o : outcome A) a (P : A -> Prop) : o = Ret a -> P a -> yields (pure o) P.
Proof.
  intros -> HP. apply yields_stay. intros r. exists (Some a). split; [done|]. by intros ? [= <-].
Qed.

Lemma yields_bind {A B} (m : reader A) (k : A -> reader B) P Q :
  yields m P -> (forall a, P a -> yields (k a) Q) -> yields (m ≫= k) Q.
Proof.
  intros Hm Hk r l Hr. destruct (Hm r l Hr) as (o & r1 & n1 & E1 & Hn1 & H1 & HP).
  unfold mbind, reader_bind. rewrite E1. destruct o as [a|]; [|by exists None, r1, n1].
  destruct (Hk a (HP a eq_refl) r1 _ H1) as (o & r2 & n2 & E2 & Hn2 & H2 & HQ).
  rewrite zlen_zdrop in Hn2 by lia. rewrite zdrop_zdrop in H2 by lia.
  exists o, r2, (n1 + n2). by split; [|split; [lia|]].
Qed.

Lemma yields_mono {A} (m : reader A) (P Q : A -> Prop) :
  yields m P -> (forall a, P a -> Q a) -> yields m Q.
Proof.
  intros Hm HPQ r l Hr. destruct (Hm r l Hr) as (o & r' & n & ? & ? & ? & HP).
  exists o, r', n. naive_solver.
Qed.

Lemma ReadBytes_yields n : 0 <= n -> yields (ReadBytes n) (fun d => zlen d = n).
Proof.
  intros Hn r l Hr. unfold ReadBytes. rewrite Z.gtb_ltb, (unread_Length _ _ Hr).
  pose proof (zlen_nonneg l). destruct (Z.ltb_spec (zlen l) n).
  - exists None, r, 0. by split; [|split; [lia|rewrite zdrop_0]].
  - rewrite (unread_mem r l) by (done || lia). cbn.
    eexists _, _, n. split; [done|]. split; [lia|]. split; [by apply unread_advance|].
    intros a [= <-]. apply zlen_ztake. lia.
Qed.

Lemma ReadString_yields val n : 0 <= n -> yields (ReadString val n) (fun d => zlen d = zlen val + n).
Proof.
  intros Hn r l Hr. destruct (ReadBytes_yields n Hn r l Hr) as (o & r' & k & E & Hk & H & HP).
  unfold ReadBytes, ReadString in *. destruct (_ >? _); [simplify_eq; by exists None, r', k|].
  destruct (mem_read _ _ _) as [d|]; cbn in *; simplify_eq. eexists _, _, _. split; [done|].
  split; [done|]. split; [done|]. intros a [= <-]. by rewrite zlen_app, (HP d eq_refl).
Qed.

Lemma ReadInt_yields n : yields (d ← ReadBytes (Z.of_nat n); mret (to_be host_order n (load host_order d)))
  (fun v => 0 <= v < 2 ^ (8 * Z.of_nat n)).
Proof.
  eapply yields_bind; [apply ReadBytes_yields; lia|]. intros d Hd. cbn beta in Hd. apply yields_ret.
  rewrite to_be_load by (unfold zlen in Hd; lia). rewrite <- Hd. apply be_value_range.
Qed.
Lemma ReadUInt16_yields : yields ReadUInt16 (fun v => 0 <= v < 2 ^ 16).
Proof. apply (ReadInt_yields 2). Qed.
Lemma ReadUInt32_yields : yields ReadUInt32 (fun v => 0 <= v < 2 ^ 32).
Proof. apply (ReadInt_yields 4). Qed.
Lemma ReadUInt64_yields : yields ReadUInt64 (fun v => 0 <= v < 2 ^ 64).
Proof. apply (ReadInt_yields 8). Qed.

Lemma ConsumePadding_yields n : yields (ConsumePadding n) (fun _ => True).
Proof.
  intros r l Hr. unfold ConsumePadding. pose proof (zlen_nonneg l).
  pose proof (Z.mod_pos_bound n 4 ltac:(lia)).
  destruct (n mod 4 >? 0).
  - destruct (Consume_safe (4 - n mod 4) ltac:(lia) r l Hr) as (o & r' & k & E & Hk & H').
    rewrite E. by exists (Some tt), r', k.
  - exists (Some tt), r, 0. rewrite zdrop_0. by split; [|split; [lia|]].
Qed.

(** What is known of an attribute that was read: as [attr_ok], but an IPv6
    address in a message with a transaction identifier of the old length
    comes out without an address. *)
Definition parsed_body (tid : list byte) (a : StunAttribute) : Prop :=
  match attr_body a with
  | XorAddress s owner =>
      owner = true /\ attr_length a = EnsureAddressLength s /\ ip_ok (ip_ s) /\ 0 <= port_ s < 2 ^ 16 /\
      (family_ (ip_ s) = AF_INET6 -> zlen tid = kStunTransactionIdLength)
  | _ => body_ok tid a
  end.

Definition parsed (vt : StunAttributeValueType) (tid : list byte) (type : Z) (a : StunAttribute) : Prop :=
  value_type a = vt /\ attr_type a = type /\ 0 <= attr_length a < 2 ^ 16 /\ parsed_body tid a.

Lemma Address_Read_yields a :
  yields (Address_Read a) (fun b => exists s, address_ok s /\ b = SetAddress s a).
Proof.
  unfold Address_Read. eapply yields_bind; [apply yields_safe, ReadUInt8_safe|]. intros _ _.
  eapply yields_bind; [apply yields_safe, ReadUInt8_safe|]. intros family _.
  eapply yields_bind; [apply ReadUInt16_yields|]. intros port Hp. cbn beta in Hp.
  repeat case_step; try apply yields_false.
  all: eapply yields_bind; [by apply ReadBytes_yields|]; intros d Hd; cbn beta in Hd.
  all: assert (Hl : length d = Z.to_nat (zlen d)) by (unfold zlen; lia); rewrite Hd in Hl.
  all: eapply (yields_bind _ _ (fun s => address_ok s));
    [eapply yields_pure; [by apply SocketAddress_ip_plain|]; split; [|done|done]
    |intros s Hs; apply yields_ret; by exists s].
  - by apply ip_ok_v4.
  - by apply ip_ok_v6.
Qed.

Lemma ip_ok_nil : ip_ok IPAddress_nil.
Proof. split; done. Qed.

Lemma GetXoredIP_ok tid ip : ip_ok ip -> ip_ok (GetXoredIP tid true ip) /\
  (family_ (GetXoredIP tid true ip) = AF_INET6 -> zlen tid = kStunTransactionIdLength).
Proof.
  intros Hok. unfold GetXoredIP. destruct (family_ ip) eqn:Ef; [split; [apply ip_ok_nil|done]| |].
  - split; [apply ip_ok_v4, length_xor_word|done].
  - destruct (Z.eqb_spec (zlen tid) kStunTransactionIdLength) as [E|E];
      [|split; [apply ip_ok_nil|done]].
    split; [|done]. apply ip_ok_v6. by rewrite !length_app, !length_xor_word.
Qed.

Lemma UInt16List_loop_yields n l :
  yields (UInt16List_loop n l) (fun l' => exists k, l' = l ++ k /\ length k = n /\ Forall (fun x => 0 <= x < 2 ^ 16) k).
Proof.
  revert l. induction n as [|n IH]; intros l; cbn [UInt16List_loop].
  - apply yields_ret. exists []. by rewrite app_nil_r.
  - eapply yields_bind; [apply ReadUInt16_yields|]. intros x Hx. cbn beta in Hx.
    intros r u Hr. destruct (IH (l ++ [x]) r u Hr) as (o & r' & k & E & Hk & Hu & HP).
    exists o, r', k. do 3 (split; [done|]). intros a Ha. destruct (HP a Ha) as (t & -> & Ht & HF).
    exists (x :: t). rewrite <- app_assoc. split; [done|]. split; [cbn; by rewrite Ht|by constructor].
Qed.

Lemma SetAddress_length s a : attr_length (SetAddress s a) = EnsureAddressLength s.
Proof. unfold SetAddress. cbn [attr_length SetLength]. apply wrap16_address. Qed.

Lemma address_length_range s : 0 <= EnsureAddressLength s < 2 ^ 16.
Proof. unfold EnsureAddressLength. by destruct (family_ (ip_ s)). Qed.

Lemma XorAddress_Read_yields tid type len s0 :
  yields (XorAddress_Read tid true (mkAttribute type len (XorAddress s0 true)))
    (parsed kStunAttrValueXorAddress tid type).
Proof.
  unfold XorAddress_Read. eapply yields_bind; [apply Address_Read_yields|].
  intros b (s & Hs & ->). cbn [get_address SetAddress SetLength on_address with_body attr_body].
  destruct (GetXoredIP_ok tid (ip_ s)) as [Hok Ht]; [apply Hs|].
  eapply (yields_bind _ _ (fun x => x = mkSocketAddress [] (GetXoredIP tid true (ip_ s)) (xored_port (port_ s)) 0 false)).
  { eapply yields_pure; [apply SocketAddress_ip_plain, xored_port_range|done]. }
  intros x ->. apply yields_ret. split; [done|]. split; [done|].
  rewrite SetAddress_length. split; [apply address_length_range|].
  unfold parsed_body. cbn [attr_body SetAddress SetLength on_address with_body].
  split; [done|]. split; [apply SetAddress_length|]. split; [done|]. split; [apply xored_port_range|done].
Qed.

(** Reading into a new attribute never crashes, whatever the bytes, and a
    result is well formed. *)
Lemma Attr_Read_yields vt tid type len c :
  0 <= len < 2 ^ 16 -> Create vt type len true = Some c ->
  yields (Attr_Read tid c) (parsed vt tid type).
Proof.
  intros Hlen Hc. destruct vt; cbn in Hc; try discriminate; injection Hc as <-;
    unfold Attr_Read, UInt32_Read, UInt64_Read, ByteString_Read, ErrorCode_Read, UInt16List_Read;
    cbn [attr_body attr_length].
  - eapply yields_mono; [apply Address_Read_yields|].
    intros b (s & Hs & ->). split; [done|]. split; [done|].
    rewrite SetAddress_length. split; [apply address_length_range|].
    split; [done|]. apply SetAddress_length.
  - apply XorAddress_Read_yields.
  - cbn [negb Z.eqb]. eapply yields_bind; [apply ReadUInt32_yields|]. intros v Hv. by apply yields_ret.
  - cbn [negb Z.eqb]. eapply yields_bind; [apply ReadUInt64_yields|]. intros v Hv. by apply yields_ret.
  - eapply yields_bind; [apply ReadBytes_yields; lia|]. intros d Hd. cbn beta in Hd.
    eapply yields_bind; [apply ConsumePadding_yields|]. intros _ _. apply yields_ret.
    do 3 (split; [done|]). unfold parsed_body, body_ok. cbn. lia.
  - case_step; [apply yields_false|]. unfold MIN_SIZE in E. zbool.
    eapply yields_bind; [apply ReadUInt32_yields|]. intros v Hv.
    eapply yields_bind; [apply ReadString_yields; lia|]. intros d Hd. cbn beta in Hd.
    eapply yields_bind; [apply ConsumePadding_yields|]. intros _ _. apply yields_ret.
    do 3 (split; [done|]). unfold parsed_body, body_ok. cbn [attr_body attr_length with_body].
    change 0x7 with (Z.ones 3). change 0xff with (Z.ones 8). rewrite !Z.land_ones by lia.
    split; [apply Z.mod_pos_bound; lia|]. split; [apply Z.mod_pos_bound; lia|].
    rewrite zlen_nil in Hd. lia.
  - case_step; [apply yields_false|]. zbool.
    eapply yields_bind; [apply UInt16List_loop_yields|]. intros l' (k & -> & Hk & HF).
    eapply yields_bind; [apply ConsumePadding_yields|]. intros _ _. apply yields_ret.
    do 3 (split; [done|]). unfold parsed_body, body_ok. cbn [attr_body attr_length with_body app].
    split; [|done]. unfold zlen. rewrite Hk. Z.div_mod_to_equations; lia.
Qed.
