(* ===== verification/StunMessage.v ===== *)
(** * network/stun/stun.{h,cc}: messages

    [StunMessage] and its three derived classes, which differ only in the
    attributes they know ([GetAttributeValueType]); the dynamic class is the
    member [msg_class].  [Message_Read] threads the message through the
    parser, because a failing [Read] leaves what it has stored so far. *)

From Stdlib Require Import ZArith Lia.
From S2P Require Import Prelude ByteOrder ConstBuffer ByteBuffer IpAddress SocketAddress StunAttr.

(** ** Types of attributes *)

Definition kStunAttrMappedAddress : Z := 0x0001.
Definition kStunAttrUsername : Z := 0x0006.
Definition kStunAttrMessageIntegrity : Z := 0x0008.
Definition kStunAttrStunErrorCode : Z := 0x0009.
Definition kStunAttrBandwidth : Z := 0x0010.
Definition kStunAttrDestinationAddress : Z := 0x0011.
Definition kStunAttrSourceAddress2 : Z := 0x0012.
Definition kStunAttrRealm : Z := 0x0014.
Definition kStunAttrNonce : Z := 0x0015.
Definition kStunAttrUnknownAttributes : Z := 0x000a.
Definition kStunAttrChannelNumber : Z := 0x000c.
Definition kStunAttrLifetime : Z := 0x000d.
Definition kStunAttrMagicCookie : Z := 0x000f.
Definition kStunAttrXorPeerAddress : Z := 0x0012.
Definition kStunAttrData : Z := 0x0013.
Definition kStunAttrXorRelayedAddress : Z := 0x0016.
Definition kStunAttrEventPort : Z := 0x0018.
Definition kStunAttrRequestedTransport : Z := 0x0019.
Definition kStunAttrDontFragment : Z := 0x001A.
Definition kStunAttrXorMappedAddress : Z := 0x0020.
Definition kStunAttrReservationToken : Z := 0x0022.
Definition kStunAttrOptions : Z := 0x8001.
Definition kStunAttrSoftware : Z := 0x8022.
Definition kStunAttrAlternateServer : Z := 0x8023.
Definition kStunAttrFingerprint : Z := 0x8028.
Definition kStunAttrOrigin : Z := 0x802F.
Definition kStunAttrRetransmitCount : Z := 0xFF00.
Definition kStunAttrICEControlled : Z := 0x8029.
Definition kStunAttrICEControlling : Z := 0x802A.
Definition kStunAttrICEPriority : Z := 0x0024.
Definition kStunAttrICEUseCandidate : Z := 0x0025.
Definition kStunAttrICENomination : Z := 0xC001.
Definition kStunAttrICENetworkInfo : Z := 0xC057.
Definition kStunAttrLastIceCheckReceived : Z := 0xC058.
Definition kStunAttrGoodMiscInfo : Z := 0xC059.
Definition kStunAttrGoodMessageInteger32 : Z := 0xC060.

Definition kStunTypeMask : Z := 0x0110.
Definition kStunAttributeHeaderSize : Z := 4.
Definition kStunHeaderSize : Z := 20.
Definition kStunTransactionIdOffset : Z := 8.
Definition kStunMagicCookieLength : Z := 4.
Definition kStunGlobalFailure : Z := 600.

Inductive message_class : Type := Stun | Relay | Turn | Ice.

(** A [switch] over attribute types, in the order of the cases. *)
Fixpoint lookup_type (l : list (Z * StunAttributeValueType)) (d : StunAttributeValueType) (type : Z)
    : StunAttributeValueType :=
  match l with
  | [] => d
  | (t, v) :: l => if type =? t then v else lookup_type l d type
  end.

Definition Stun_GetAttributeValueType (type : Z) : StunAttributeValueType :=
  lookup_type
    [(kStunAttrMappedAddress, kStunAttrValueAddress);
     (kStunAttrUsername, kStunAttrValueByteString);
     (kStunAttrMessageIntegrity, kStunAttrValueByteString);
     (kStunAttrStunErrorCode, kStunAttrValueErrorCode);
     (kStunAttrUnknownAttributes, kStunAttrValueUInt16List);
     (kStunAttrRealm, kStunAttrValueByteString);
     (kStunAttrNonce, kStunAttrValueByteString);
     (kStunAttrXorMappedAddress, kStunAttrValueXorAddress);
     (kStunAttrSoftware, kStunAttrValueByteString);
     (kStunAttrAlternateServer, kStunAttrValueAddress);
     (kStunAttrFingerprint, kStunAttrValueUInt32);
     (kStunAttrOrigin, kStunAttrValueByteString);
     (kStunAttrRetransmitCount, kStunAttrValueUInt32);
     (kStunAttrLastIceCheckReceived, kStunAttrValueByteString);
     (kStunAttrGoodMiscInfo, kStunAttrValueUInt16List)]
    kStunAttrValueUnknown type.

Definition Relay_GetAttributeValueType (type : Z) : StunAttributeValueType :=
  lookup_type
    [(kStunAttrLifetime, kStunAttrValueUInt32);
     (kStunAttrMagicCookie, kStunAttrValueByteString);
     (kStunAttrBandwidth, kStunAttrValueUInt32);
     (kStunAttrDestinationAddress, kStunAttrValueAddress);
     (kStunAttrSourceAddress2, kStunAttrValueAddress);
     (kStunAttrData, kStunAttrValueByteString);
     (kStunAttrOptions, kStunAttrValueUInt32)]
    (Stun_GetAttributeValueType type) type.

Definition Turn_GetAttributeValueType (type : Z) : StunAttributeValueType :=
  lookup_type
    [(kStunAttrChannelNumber, kStunAttrValueUInt32);
     (kStunAttrLifetime, kStunAttrValueUInt32);
     (kStunAttrXorPeerAddress, kStunAttrValueXorAddress);
     (kStunAttrData, kStunAttrValueByteString);
     (kStunAttrXorRelayedAddress, kStunAttrValueXorAddress);
     (kStunAttrEventPort, kStunAttrValueByteString);
     (kStunAttrRequestedTransport, kStunAttrValueUInt32);
     (kStunAttrDontFragment, kStunAttrValueByteString);
     (kStunAttrReservationToken, kStunAttrValueByteString)]
    (Stun_GetAttributeValueType type) type.

Definition Ice_GetAttributeValueType (type : Z) : StunAttributeValueType :=
  lookup_type
    [(kStunAttrICEPriority, kStunAttrValueUInt32);
     (kStunAttrICENetworkInfo, kStunAttrValueUInt32);
     (kStunAttrICENomination, kStunAttrValueUInt32);
     (kStunAttrICEUseCandidate, kStunAttrValueByteString);
     (kStunAttrICEControlled, kStunAttrValueUInt64);
     (kStunAttrICEControlling, kStunAttrValueUInt64)]
    (Stun_GetAttributeValueType type) type.

(** The virtual call. *)
Definition GetAttributeValueType (c : message_class) (type : Z) : StunAttributeValueType :=
  match c with
  | Stun => Stun_GetAttributeValueType type
  | Relay => Relay_GetAttributeValueType type
  | Turn => Turn_GetAttributeValueType type
  | Ice => Ice_GetAttributeValueType type
  end.

Definition DesignatedExpertRange (attr_type : Z) : bool :=
  ((0x4000 <=? attr_type) && (attr_type <=? 0x7FFF)) ||
  ((0xC000 <=? attr_type) && (attr_type <=? 0xFFFF)).

Definition CreateErrorCode : StunAttribute :=
  mkAttribute kStunAttrStunErrorCode MIN_SIZE (ErrorCode 0 0 []).
Definition CreateUnknownAttributes : StunAttribute :=
  mkAttribute kStunAttrUnknownAttributes 0 (UInt16List []).

(** ** The class *)

Record StunMessage : Type := mkMessage {
  msg_class : message_class;
  msg_type : Z;
  msg_length : Z;
  transaction_id_ : list byte;
  reduced_transaction_id_ : Z;
  stun_magic_cookie_ : Z;
  attrs_ : list StunAttribute
}.

Definition EMPTY_TRANSACTION_ID : list byte := replicate 16 (byte.of_Z 48).

Definition IsValidTransactionId (transaction_id : list byte) : bool :=
  (zlen transaction_id =? kStunTransactionIdLength) ||
  (zlen transaction_id =? kStunLegacyTransactionIdLength).

(** The constructor leaves [reduced_transaction_id_] as the memory holds it. *)
Definition StunMessage_new (c : message_class) (uninitialised : Z) : outcome StunMessage :=
  assert_that (IsValidTransactionId EMPTY_TRANSACTION_ID);;
  mret (mkMessage c 0 0 EMPTY_TRANSACTION_ID uninitialised kStunMagicCookie []).

(** The loop of [ReduceTransactionId]: at most four words and the end. *)
Fixpoint Reduce_loop (fuel : nat) (result : Z) (r : ByteBufferReader) : outcome Z :=
  match fuel with
  | O => Crash FuelExhausted
  | S fuel =>
      match ReadUInt32 r with
      | Ret (Some next, r) => Reduce_loop fuel (Z.lxor result next) r
      | Ret (None, _) => Ret result
      | Crash f => Crash f
      end
  end.
Definition ReduceTransactionId (transaction_id : list byte) : outcome Z :=
  assert_that (IsValidTransactionId transaction_id);;
  Reduce_loop 5 0 (Reader transaction_id (zlen transaction_id)).

Definition IsLegacy (m : StunMessage) : outcome bool :=
  if zlen (transaction_id_ m) =? kStunLegacyTransactionIdLength then mret true else
  assert_that (zlen (transaction_id_ m) =? kStunTransactionIdLength);;
  mret false.

Definition set_type (type : Z) (m : StunMessage) : StunMessage :=
  mkMessage (msg_class m) type (msg_length m) (transaction_id_ m) (reduced_transaction_id_ m)
    (stun_magic_cookie_ m) (attrs_ m).
Definition set_length (length : Z) (m : StunMessage) : StunMessage :=
  mkMessage (msg_class m) (msg_type m) length (transaction_id_ m) (reduced_transaction_id_ m)
    (stun_magic_cookie_ m) (attrs_ m).
Definition set_tid (tid : list byte) (reduced : Z) (m : StunMessage) : StunMessage :=
  mkMessage (msg_class m) (msg_type m) (msg_length m) tid reduced (stun_magic_cookie_ m) (attrs_ m).
Definition set_attrs (attrs : list StunAttribute) (m : StunMessage) : StunMessage :=
  mkMessage (msg_class m) (msg_type m) (msg_length m) (transaction_id_ m) (reduced_transaction_id_ m)
    (stun_magic_cookie_ m) attrs.

Definition Msg_SetType (type : Z) (m : StunMessage) : StunMessage := set_type (wrap16 type) m.
Definition SetStunMagicCookie (val : Z) (m : StunMessage) : StunMessage :=
  mkMessage (msg_class m) (msg_type m) (msg_length m) (transaction_id_ m) (reduced_transaction_id_ m)
    val (attrs_ m).
Definition SetTransactionID (str : list byte) (m : StunMessage) : outcome (bool * StunMessage) :=
  if negb (IsValidTransactionId str) then mret (false, m) else
  reduced ← ReduceTransactionId str;
  mret (true, set_tid str reduced m).

(** *** Attributes *)

(** The space an attribute takes in the message. *)
Definition attr_space (a : StunAttribute) : Z :=
  let attr_length := attr_length a in
  let attr_length := if negb (attr_length mod 4 =? 0)
                     then attr_length + (4 - attr_length mod 4) else attr_length in
  wrap16 (attr_length + 4).

Definition AddAttribute (attr : StunAttribute) (m : StunMessage) : outcome StunMessage :=
  (if negb (DesignatedExpertRange (attr_type attr))
   then assert_that (bool_decide (value_type attr = GetAttributeValueType (msg_class m) (attr_type attr)))
   else mret tt);;
  let attr := SetOwner true attr in
  mret (set_attrs (attrs_ m ++ [attr]) (set_length (wrap16 (msg_length m + attr_space attr)) m)).

(** The last attribute of the type, and the others. *)
Fixpoint take_last (type : Z) (l : list StunAttribute) : option (StunAttribute * list StunAttribute) :=
  match l with
  | [] => None
  | a :: l =>
      match take_last type l with
      | Some (x, l') => Some (x, a :: l')
      | None => if attr_type a =? type then Some (a, l) else None
      end
  end.

Definition RemoveAttribute (type : Z) (m : StunMessage) : option StunAttribute * StunMessage :=
  match take_last type (attrs_ m) with
  | None => (None, m)
  | Some (attribute, rest) =>
      let attribute := SetOwner false attribute in
      (Some attribute,
       set_attrs rest (set_length (wrap16 (msg_length m - attr_space attribute)) m))
  end.

Definition ClearAttributes (m : StunMessage) : StunMessage := set_attrs [] (set_length 0 m).

Fixpoint GetAttribute_in (l : list StunAttribute) (type : Z) : option StunAttribute :=
  match l with
  | [] => None
  | a :: l => if attr_type a =? type then Some a else GetAttribute_in l type
  end.
Definition GetAttribute (m : StunMessage) (type : Z) : option StunAttribute :=
  GetAttribute_in (attrs_ m) type.

Definition GetNonComprehendedAttributes (m : StunMessage) : list Z :=
  map attr_type (List.filter (fun a =>
    (0 <=? attr_type a) && (attr_type a <=? 0x7FFF) &&
    bool_decide (GetAttributeValueType (msg_class m) (attr_type a) = kStunAttrValueUnknown)) (attrs_ m)).

Definition GetAddress (m : StunMessage) (type : Z) : option StunAttribute :=
  if type =? kStunAttrMappedAddress then
    match GetAttribute m kStunAttrMappedAddress with
    | Some a => Some a
    | None => GetAttribute m kStunAttrXorMappedAddress
    end
  else GetAttribute m type.

Definition GetUInt32 (m : StunMessage) (type : Z) : option StunAttribute := GetAttribute m type.
Definition GetUInt64 (m : StunMessage) (type : Z) : option StunAttribute := GetAttribute m type.
Definition GetByteString (m : StunMessage) (type : Z) : option StunAttribute := GetAttribute m type.
Definition GetUInt16List (m : StunMessage) (type : Z) : option StunAttribute := GetAttribute m type.
Definition GetErrorCode (m : StunMessage) : option StunAttribute := GetAttribute m kStunAttrStunErrorCode.
Definition GetErrorCodeValue (m : StunMessage) : Z :=
  match GetErrorCode m with
  | Some (mkAttribute _ _ (ErrorCode class_ number_ _)) => error_code class_ number_
  | _ => kStunGlobalFailure
  end.
Definition GetUnknownAttributes (m : StunMessage) : option StunAttribute :=
  GetAttribute m kStunAttrUnknownAttributes.

Definition CreateAttribute (m : StunMessage) (type length : Z) : option StunAttribute :=
  let value_type := GetAttributeValueType (msg_class m) type in
  if bool_decide (value_type <> kStunAttrValueUnknown) then Create value_type type (wrap16 length) true
  else if DesignatedExpertRange type then Create kStunAttrValueByteString type (wrap16 length) true
  else None.

(** ** Reading *)

(** [bool Read(...)] on a message: [None] is the answer [false]. *)
Definition parser (A : Type) : Type :=
  StunMessage -> ByteBufferReader -> outcome (option A * StunMessage * ByteBufferReader).

#[export] Instance parser_ret : MRet parser := fun A a m r => Ret (Some a, m, r).
#[export] Instance parser_bind : MBind parser := fun A B k p m r =>
  match p m r with
  | Ret (Some a, m', r') => k a m' r'
  | Ret (None, m', r') => Ret (None, m', r')
  | Crash f => Crash f
  end.
Definition from {A} (p : reader A) : parser A := fun m r => '(o, r') ← p r; Ret (o, m, r').
Definition calling {A} (o : outcome A) : parser A := fun m r => a ← o; Ret (Some a, m, r).
Definition modify (f : StunMessage -> StunMessage) : parser unit := fun m r => Ret (Some tt, f m, r).
Definition this : parser StunMessage := fun m r => Ret (Some m, m, r).
Definition remaining : parser Z := fun m r => Ret (Some (Length r), m, r).
Definition answer_false {A} : parser A := fun m r => Ret (None, m, r).

Definition Read_header : parser unit :=
  type ← from ReadUInt16;
  modify (set_type type);;
  if negb (Z.land type 0x8000 =? 0) then answer_false else
  length ← from ReadUInt16;
  modify (set_length length);;
  magic_cookie ← from (ReadString [] kStunMagicCookieLength);
  transaction_id ← from (ReadString [] kStunTransactionIdLength);
  let transaction_id :=
    if NetworkToHost32 host_order (load host_order magic_cookie) =? kStunMagicCookie
    then transaction_id else magic_cookie ++ transaction_id in
  calling (assert_that (IsValidTransactionId transaction_id));;
  reduced ← calling (ReduceTransactionId transaction_id);
  modify (set_tid transaction_id reduced).

Definition skip_length (attr_length : Z) : Z :=
  if negb (attr_length mod 4 =? 0) then wrap16 (attr_length + (4 - attr_length mod 4)) else attr_length.

Definition Read_attribute : parser unit :=
  type ← from ReadUInt16;
  length ← from ReadUInt16;
  m ← this;
  match CreateAttribute m type length with
  | None => from (Consume (skip_length length))
  | Some attr =>
      attr ← from (Attr_Read (transaction_id_ m) attr);
      modify (fun m => set_attrs (attrs_ m ++ [attr]) m)
  end.

Fixpoint Read_loop (fuel : nat) (rest : Z) : parser unit :=
  match fuel with
  | O => calling (Crash FuelExhausted)
  | S fuel =>
      n ← remaining;
      if n >? rest then Read_attribute;; Read_loop fuel rest
      else calling (assert_that (n =? rest))
  end.

(** Each round takes four bytes at least, so one round per byte is enough. *)
Definition Message_Read : parser unit :=
  Read_header;;
  m ← this;
  n ← remaining;
  if negb (msg_length m =? n) then answer_false else
  modify (set_attrs []);;
  Read_loop (S (Z.to_nat n)) (wrap64 (n - msg_length m)).

(** ** Writing *)
Section Writing.
Context `{BufferClass B}.

Fixpoint Write_attrs (tid : list byte) (attrs : list StunAttribute) (w : B) : outcome (bool * B) :=
  match attrs with
  | [] => mret (true, w)
  | a :: attrs =>
      w ← WriteUInt16 w (attr_type a);
      w ← WriteUInt16 w (wrap16 (attr_length a));
      '(ok, w) ← Attr_Write tid a w;
      if (ok : bool) then Write_attrs tid attrs w else mret (false, w)
  end.

Definition Message_Write (m : StunMessage) (w : B) : outcome (bool * B) :=
  w ← WriteUInt16 w (msg_type m);
  w ← WriteUInt16 w (msg_length m);
  legacy ← IsLegacy m;
  w ← (if (legacy : bool) then mret w else WriteUInt32 w (stun_magic_cookie_ m));
  w ← WriteString w (transaction_id_ m);
  Write_attrs (transaction_id_ m) (attrs_ m) w.
End Writing.

(** ** Copies and comparison

    These use temporary [ByteBufferWriter]s, whose contents are read back. *)
Section Copies.
Context `{Heap}.

Definition Msg_Clone (uninitialised : Z) (m : StunMessage) : outcome (option StunMessage) :=
  copy ← StunMessage_new (msg_class m) uninitialised;
  buf ← ByteBufferWriter;
  '(ok, buf) ← Message_Write (H := BufferT_class false) m buf;
  if negb ok then mret None else
  let data := BufferT_contents buf in
  '(o, copy, _) ← Message_Read copy (Reader data (zlen data));
  mret (match o with Some _ => Some copy | None => None end).

Definition CopyStunAttribute (tid : list byte) (attribute : StunAttribute) : outcome (option StunAttribute) :=
  match Create (value_type attribute) (attr_type attribute) (wrap16 (attr_length attribute)) false with
  | None => mret None
  | Some copy =>
      buf ← ByteBufferWriter;
      '(ok, buf) ← Attr_Write (H := BufferT_class false) tid attribute buf;
      if negb ok then mret None else
      let data := BufferT_contents buf in
      '(o, _) ← Attr_Read [] copy (Reader data (zlen data));
      mret o
  end.

(** The bytes of an attribute in a cleared temporary buffer. *)
Definition written_bytes (tid : list byte) (a : StunAttribute) : outcome (list byte) :=
  buf ← ByteBufferWriter;
  '(_, buf) ← Attr_Write (H := BufferT_class false) tid a buf;
  mret (BufferT_contents buf).

Fixpoint equal_values (tid tid' : list byte) (mask : Z -> bool) (other : StunMessage)
    (l : list StunAttribute) : outcome bool :=
  match l with
  | [] => mret true
  | a :: l =>
      if mask (attr_type a) then
        match GetAttribute other (attr_type a) with
        | None => mret false
        | Some b =>
            d ← written_bytes tid a;
            d' ← written_bytes tid' b;
            if bool_decide (d = d') then equal_values tid tid' mask other l else mret false
        end
      else equal_values tid tid' mask other l
  end.

Definition EqualAttributes (m other : StunMessage) (mask : Z -> bool) : outcome bool :=
  ok ← equal_values (transaction_id_ m) (transaction_id_ other) mask other (attrs_ m);
  if negb ok then mret false else
  mret (forallb (fun a => negb (mask (attr_type a)) ||
    match GetAttribute m (attr_type a) with Some _ => true | None => false end) (attrs_ other)).
End Copies.

(** ** Classes of message types *)

Definition IsStunRequestType (msg_type : Z) : bool := Z.land msg_type kStunTypeMask =? 0x000.
Definition IsStunIndicationType (msg_type : Z) : bool := Z.land msg_type kStunTypeMask =? 0x010.
Definition IsStunSuccessResponseType (msg_type : Z) : bool := Z.land msg_type kStunTypeMask =? 0x100.
Definition IsStunErrorResponseType (msg_type : Z) : bool := Z.land msg_type kStunTypeMask =? 0x110.
Definition GetStunSuccessResponseType (req_type : Z) : Z :=
  if IsStunRequestType req_type then Z.lor req_type 0x100 else -1.
Definition GetStunErrorResponseType (req_type : Z) : Z :=
  if IsStunRequestType req_type then Z.lor req_type 0x110 else -1.

(** ** The wire format of a message *)

Definition attr_bytes (tid : list byte) (a : StunAttribute) : list byte :=
  be_bytes 2 (attr_type a) ++ be_bytes 2 (attr_length a) ++ body_bytes tid a.
Definition attrs_bytes (tid : list byte) (l : list StunAttribute) : list byte :=
  concat (map (attr_bytes tid) l).
Definition cookie_bytes (m : StunMessage) : list byte :=
  if zlen (transaction_id_ m) =? kStunLegacyTransactionIdLength then []
  else be_bytes 4 (stun_magic_cookie_ m).
Definition message_bytes (m : StunMessage) : list byte :=
  be_bytes 2 (msg_type m) ++ be_bytes 2 (msg_length m) ++ cookie_bytes m ++ transaction_id_ m ++
  attrs_bytes (transaction_id_ m) (attrs_ m).

(** The value type under which a message of class [c] reads the type. *)
Definition read_type (c : message_class) (type : Z) : StunAttributeValueType :=
  let vt := GetAttributeValueType c type in
  if bool_decide (vt <> kStunAttrValueUnknown) then vt
  else if DesignatedExpertRange type then kStunAttrValueByteString else kStunAttrValueUnknown.

(** The space of all attributes, before any wrap-around. *)
Definition attrs_size (l : list StunAttribute) : Z :=
  foldr (fun a n => 4 + padded (attr_length a) + n) 0 l.

(** A message that can be sent and understood by the same class. *)
Record msg_ok (m : StunMessage) : Prop := {
  ok_type : 0 <= msg_type m < 2 ^ 15;
  ok_length : msg_length m = attrs_size (attrs_ m);
  ok_fits : attrs_size (attrs_ m) < 2 ^ 16;
  ok_tid : IsValidTransactionId (transaction_id_ m) = true;
  ok_cookie : zlen (transaction_id_ m) = kStunTransactionIdLength -> stun_magic_cookie_ m = kStunMagicCookie;
  ok_legacy : zlen (transaction_id_ m) = kStunLegacyTransactionIdLength ->
    be_value (ztake 4 (transaction_id_ m)) <> kStunMagicCookie;
  ok_attrs : Forall (fun a => attr_ok (transaction_id_ m) a /\
    value_type a = read_type (msg_class m) (attr_type a)) (attrs_ m)
}.

(** The reference for [ReduceTransactionId]. *)
Fixpoint xor_words (n : nat) (l : list byte) : Z :=
  match n with
  | O => 0
  | S n => Z.lxor (be_value (ztake 4 l)) (xor_words n (zdrop 4 l))
  end.
Definition reduced (tid : list byte) : Z := xor_words (Z.to_nat (zlen tid / 4)) tid.

(** The message the receiver builds. *)
Definition received_message (m : StunMessage) : StunMessage :=
  mkMessage (msg_class m) (msg_type m) (msg_length m) (transaction_id_ m)
    (reduced (transaction_id_ m)) kStunMagicCookie (map received (attrs_ m)).
