(* ===== verification/StunRead.v ===== *)
(** * STUN messages over the wire: what is written is read back, and reading
    never leaves the buffer *)

From Stdlib Require Import ZArith Lia.
From S2P Require Import Prelude ByteOrder ConstBuffer ByteBuffer IpAddress SocketAddress StunAttr StunCodec StunMessage.

(** ** Sizes *)

Lemma attrs_size_nonneg l : Forall (fun a => 0 <= attr_length a) l -> 0 <= attrs_size l.
Proof.
  induction 1 as [|a l Ha Hl IH]; cbn [attrs_size foldr]; [lia|].
  pose proof (padded_range (attr_length a)). change (foldr _ 0 l) with (attrs_size l). lia.
Qed.

Lemma zlen_attrs_bytes tid l : Forall (attr_ok tid) l -> zlen (attrs_bytes tid l) = attrs_size l.
Proof.
  induction 1 as [|a l Ha Hl IH]; [done|]. unfold attrs_bytes in *. cbn [map concat attrs_size foldr].
  change (foldr _ 0 l) with (attrs_size l). rewrite zlen_app, IH. unfold attr_bytes.
  rewrite !zlen_app, !zlen_be_bytes, zlen_body_bytes by done. lia.
Qed.

Lemma valid_tid_length tid : IsValidTransactionId tid = true ->
  zlen tid = kStunTransactionIdLength \/ zlen tid = kStunLegacyTransactionIdLength.
Proof. unfold IsValidTransactionId. rewrite orb_true_iff, !Z.eqb_eq. done. Qed.

(** ** Writing a message *)
Section Writing.
Context `{BufferClass B}.

Lemma writes_sends m (k : B -> outcome (bool * B)) d1 d2 :
  writes m d1 -> sends k d2 -> sends (fun w => m w ≫= k) (d1 ++ d2).
Proof.
  intros Hm Hk w l Hw. eapply post_bind, post_mono; [by apply Hm|].
  intros w' Hw'. rewrite app_assoc. by apply Hk.
Qed.

Lemma Write_attrs_sends tid l : Forall (attr_ok tid) l ->
  sends (Write_attrs tid l) (attrs_bytes tid l).
Proof.
  induction 1 as [|a l Ha Hl IH].
  - intros w k Hw. cbn. by rewrite app_nil_r.
  - unfold attrs_bytes. cbn [map concat Write_attrs]. fold (attrs_bytes tid l). unfold attr_bytes.
    rewrite <- !app_assoc. rewrite wrap16_small by apply Ha.
    apply writes_sends; [apply WriteUInt16_writes|]. apply writes_sends; [apply WriteUInt16_writes|].
    intros w k Hw. eapply post_bind, post_mono; [by apply Attr_Write_sends|].
    intros [b w'] [-> Hw']. rewrite app_assoc. by apply IH.
Qed.

Lemma Message_Write_sends m : msg_ok m -> sends (Message_Write m) (message_bytes m).
Proof.
  intros Hm. unfold Message_Write, message_bytes.
  apply writes_sends; [apply WriteUInt16_writes|]. apply writes_sends; [apply WriteUInt16_writes|].
  assert (Hl : IsLegacy m = Ret (zlen (transaction_id_ m) =? kStunLegacyTransactionIdLength)).
  { unfold IsLegacy. destruct (valid_tid_length _ (ok_tid _ Hm)) as [-> | ->]; done. }
  rewrite Hl. cbn [mbind outcome_bind]. unfold cookie_bytes. apply writes_sends.
  - destruct (_ =? kStunLegacyTransactionIdLength); [apply writes_nil|apply WriteUInt32_writes].
  - apply writes_sends; [apply WriteBytes_writes|]. apply Write_attrs_sends.
    eapply List.Forall_impl; [|apply (ok_attrs _ Hm)]. by intros a [? _].
Qed.
End Writing.

Lemma zlen_message_bytes m : msg_ok m -> zlen (message_bytes m) = kStunHeaderSize + msg_length m.
Proof.
  intros Hm. unfold message_bytes, cookie_bytes.
  rewrite !zlen_app, !zlen_be_bytes, zlen_attrs_bytes, (ok_length _ Hm).
  - destruct (valid_tid_length _ (ok_tid _ Hm)) as [E|E]; rewrite E; cbn [Z.eqb Pos.eqb];
      rewrite ?zlen_be_bytes, ?zlen_nil; unfold kStunHeaderSize, kStunTransactionIdLength,
      kStunLegacyTransactionIdLength in *; cbn; rewrite ?zlen_be_bytes, ?zlen_nil; lia.
  - eapply List.Forall_impl; [|apply (ok_attrs _ Hm)]. by intros a [? _].
Qed.

(** ** The reduced transaction identifier *)

Lemma ReadUInt32_reads_bytes (d : list byte) : zlen d = 4 -> reads ReadUInt32 d (be_value d).
Proof.
  intros Hd. assert (length d = 4%nat) as Hl by (unfold zlen in Hd; lia).
  rewrite <- (be_bytes_be_value d) at 1. rewrite Hl. apply ReadUInt32_reads.
  pose proof (be_value_range d) as Hr. by rewrite Hd in Hr.
Qed.

Lemma Reduce_loop_ok n fuel acc r tid :
  unread r tid -> zlen tid = 4 * Z.of_nat n -> (n < fuel)%nat ->
  Reduce_loop fuel acc r = Ret (Z.lxor acc (xor_words n tid)).
Proof.
  revert fuel acc r tid. induction n as [|n IH]; intros fuel acc r tid Hr Hl Hf;
    (destruct fuel as [|fuel]; [lia|]); cbn [Reduce_loop xor_words].
  - assert (E : ReadUInt32 r = Ret (None, r)).
    { unfold ReadUInt32, mbind, reader_bind, ReadBytes. by rewrite (unread_Length _ _ Hr), Hl. }
    rewrite E. by rewrite Z.lxor_0_r.
  - assert (Hd : zlen (ztake 4 tid) = 4) by (apply zlen_ztake; lia).
    rewrite <- (ztake_zdrop 4 tid) in Hr.
    destruct (ReadUInt32_reads_bytes _ Hd r _ Hr) as (r' & -> & Hr').
    rewrite (IH _ _ _ _ Hr'); [|rewrite zlen_zdrop; lia|lia]. by rewrite Z.lxor_assoc.
Qed.

Lemma ReduceTransactionId_ok tid : IsValidTransactionId tid = true ->
  ReduceTransactionId tid = Ret (reduced tid).
Proof.
  intros Hv. unfold ReduceTransactionId. rewrite Hv. cbn [assert_that mbind outcome_bind].
  assert (Hc : exists n, zlen tid = 4 * Z.of_nat n /\ (n < 5)%nat).
  { destruct (valid_tid_length _ Hv) as [E|E]; [exists 3%nat|exists 4%nat]; (split; [done|lia]). }
  destruct Hc as (n & Hn & Hn5). unfold reduced.
  rewrite (Reduce_loop_ok n 5 0 _ tid); [|apply unread_whole; lia|done|done].
  rewrite Z.lxor_0_l, Hn, Z.mul_comm, Z.div_mul, Nat2Z.id by lia. done.
Qed.

(** ** Reading a message that was written *)

(** [preads p d m a m']: on an input that starts with [d], [p] succeeds with
    [a], turns the message into [m'] and stops behind [d]. *)
Definition preads {A} (p : parser A) (d : list byte) (m : StunMessage) (a : A) (m' : StunMessage) : Prop :=
  forall r rest, unread r (d ++ rest) -> exists r', p m r = Ret (Some a, m', r') /\ unread r' rest.

Lemma preads_bind {A B} (p : parser A) (k : A -> parser B) d1 d2 m m1 m2 a b :
  preads p d1 m a m1 -> preads (k a) d2 m1 b m2 -> preads (p ≫= k) (d1 ++ d2) m b m2.
Proof.
  intros Hp Hk r rest Hr. rewrite <- app_assoc in Hr.
  destruct (Hp r _ Hr) as (r1 & E1 & H1). destruct (Hk r1 rest H1) as (r2 & E2 & H2).
  exists r2. split; [|done]. unfold mbind, parser_bind. by rewrite E1.
Qed.

Lemma preads_from {A} (p : reader A) d m a : reads p d a -> preads (from p) d m a m.
Proof.
  intros Hp r rest Hr. destruct (Hp r rest Hr) as (r' & E & Hr'). exists r'. unfold from. by rewrite E.
Qed.

Lemma preads_modify f m : preads (modify f) [] m tt (f m).
Proof. intros r rest Hr. by exists r. Qed.
Lemma preads_calling {A} (o : outcome A) a m : o = Ret a -> preads (calling o) [] m a m.
Proof. intros -> r rest Hr. by exists r. Qed.

(** The steps that read nothing. *)
Lemma preads_step {A B} (p : parser A) (k : A -> parser B) d m m1 m2 a b :
  preads p [] m a m1 -> preads (k a) d m1 b m2 -> preads (p ≫= k) d m b m2.
Proof. intros Hp Hk. apply (preads_bind p k [] d m m1 m2 a b Hp Hk). Qed.
Lemma preads_this {B} (k : StunMessage -> parser B) d m m2 b :
  preads (k m) d m b m2 -> preads (this ≫= k) d m b m2.
Proof. apply preads_step. intros r rest Hr. by exists r. Qed.
Lemma preads_last {A} (p : parser A) d m a m' : preads p (d ++ []) m a m' -> preads p d m a m'.
Proof. by rewrite app_nil_r. Qed.

Definition header_read (m m0 : StunMessage) : StunMessage :=
  mkMessage (msg_class m0) (msg_type m) (msg_length m) (transaction_id_ m) (reduced (transaction_id_ m))
    (stun_magic_cookie_ m0) (attrs_ m0).

(** The cookie and the identifier, in either form of header. *)
Lemma split_header m : msg_ok m -> exists c t,
  cookie_bytes m ++ transaction_id_ m = c ++ t /\ zlen c = 4 /\ zlen t = 12 /\
  (if be_value c =? kStunMagicCookie then t else c ++ t) = transaction_id_ m.
Proof.
  intros Hm. unfold cookie_bytes. destruct (valid_tid_length _ (ok_tid _ Hm)) as [E|E]; rewrite E.
  - exists (be_bytes 4 (stun_magic_cookie_ m)), (transaction_id_ m). rewrite (ok_cookie _ Hm E).
    split; [done|]. rewrite zlen_be_bytes. split; [done|]. split; [done|].
    by rewrite be_value_be_bytes.
  - exists (ztake 4 (transaction_id_ m)), (zdrop 4 (transaction_id_ m)). rewrite ztake_zdrop.
    unfold kStunLegacyTransactionIdLength in E.
    rewrite zlen_ztake, zlen_zdrop by lia. split; [done|]. split; [done|]. split; [lia|].
    by rewrite (proj2 (Z.eqb_neq _ _)) by by apply ok_legacy.
Qed.

Lemma land_0x8000 t : 0 <= t < 2 ^ 15 -> Z.land t 0x8000 = 0.
Proof.
  intros Ht. rewrite <- (Z.mod_small t (2 ^ 15)), <- Z.land_ones by lia.
  rewrite <- Z.land_assoc. by rewrite Z.land_0_r.
Qed.

Lemma Read_header_reads m m0 : msg_ok m ->
  preads Read_header (be_bytes 2 (msg_type m) ++ be_bytes 2 (msg_length m) ++
    cookie_bytes m ++ transaction_id_ m) m0 tt (header_read m m0).
Proof.
  intros Hm. pose proof (ok_type _ Hm) as Ht. pose proof (ok_fits _ Hm) as Hf.
  assert (Hl : 0 <= msg_length m < 2 ^ 16).
  { rewrite (ok_length _ Hm). split; [|done]. apply attrs_size_nonneg.
    eapply List.Forall_impl; [|apply (ok_attrs _ Hm)]. intros a [[_ Ha _] _]. lia. }
  destruct (split_header m Hm) as (c & t & -> & Hc & Htl & Htid).
  unfold Read_header. eapply preads_bind; [apply preads_from, ReadUInt16_reads; lia|].
  eapply preads_step; [apply preads_modify|]. rewrite land_0x8000 by done. cbn [Z.eqb negb].
  eapply preads_bind; [by apply preads_from, ReadUInt16_reads|].
  eapply preads_step; [apply preads_modify|].
  eapply preads_bind; [apply preads_from; change kStunMagicCookieLength with 4; rewrite <- Hc; apply ReadString_reads|].
  apply preads_last. eapply preads_bind;
    [apply preads_from; change kStunTransactionIdLength with 12; rewrite <- Htl; apply ReadString_reads|].
  cbn [app]. unfold NetworkToHost32. rewrite to_be_load by (unfold zlen in Hc; lia). rewrite Htid.
  eapply preads_step; [apply preads_calling; by rewrite (ok_tid _ Hm)|].
  eapply preads_step; [by apply preads_calling, ReduceTransactionId_ok, (ok_tid _ Hm)|].
  exact (preads_modify (set_tid _ _) (set_length _ (set_type _ m0))).
Qed.

Lemma CreateAttribute_known m type len vt : 0 <= len < 2 ^ 16 ->
  read_type (msg_class m) type = vt -> vt <> kStunAttrValueUnknown ->
  CreateAttribute m type len = Create vt type len true.
Proof.
  intros Hl <- Hk. unfold CreateAttribute, read_type in *. rewrite wrap16_small by done.
  case_bool_decide; [done|]. by destruct (DesignatedExpertRange type).
Qed.

Lemma CreateAttribute_unknown m type len :
  read_type (msg_class m) type = kStunAttrValueUnknown -> CreateAttribute m type len = None.
Proof.
  unfold CreateAttribute, read_type. case_bool_decide; [done|]. by destruct (DesignatedExpertRange type).
Qed.

Lemma Create_value_type a : exists c, Create (value_type a) (attr_type a) (attr_length a) true = Some c.
Proof. unfold value_type. destruct (attr_body a); cbn; eauto. Qed.

Lemma Read_attribute_reads m a :
  attr_ok (transaction_id_ m) a -> value_type a = read_type (msg_class m) (attr_type a) ->
  preads Read_attribute (attr_bytes (transaction_id_ m) a) m tt (set_attrs (attrs_ m ++ [received a]) m).
Proof.
  intros Ha Hv. pose proof (attr_length_range _ _ Ha) as Hl. pose proof (attr_type_range _ _ Ha) as Ht.
  unfold Read_attribute, attr_bytes. eapply preads_bind; [by apply preads_from, ReadUInt16_reads|].
  eapply preads_bind; [by apply preads_from, ReadUInt16_reads|]. apply preads_this.
  destruct (Create_value_type a) as (c & Hc).
  rewrite (CreateAttribute_known m _ _ (value_type a)), Hc; [|done|done|].
  - apply preads_last. eapply preads_bind; [by apply preads_from, Attr_Read_reads|].
    apply (preads_modify (fun m => set_attrs (attrs_ m ++ [received a]) m)).
  - unfold value_type. by destruct (attr_body a).
Qed.

Lemma set_attrs_set_attrs l k m : set_attrs l (set_attrs k m) = set_attrs l m.
Proof. done. Qed.

Lemma Read_loop_reads l fuel m r :
  Forall (fun a => attr_ok (transaction_id_ m) a /\ value_type a = read_type (msg_class m) (attr_type a)) l ->
  unread r (attrs_bytes (transaction_id_ m) l) -> (length l < fuel)%nat ->
  exists r', Read_loop fuel 0 m r = Ret (Some tt, set_attrs (attrs_ m ++ map received l) m, r') /\ unread r' [].
Proof.
  revert fuel m r. induction l as [|a l IH]; intros fuel m r Hl Hr Hf; (destruct fuel as [|fuel]; [cbn in Hf; lia|]).
  - exists r. split; [|done]. cbn [Read_loop]. unfold mbind, parser_bind, remaining.
    rewrite (unread_Length _ _ Hr). cbn. rewrite app_nil_r. by destruct m.
  - apply Forall_cons_1 in Hl as [[Ha Hv] Hl]. unfold attrs_bytes in Hr. cbn [map concat] in Hr.
    destruct (Read_attribute_reads m a Ha Hv r _ Hr) as (r1 & E1 & Hr1).
    cbn [Read_loop]. unfold mbind, parser_bind at 1, remaining.
    rewrite (unread_Length _ _ Hr). rewrite Z.gtb_ltb, (proj2 (Z.ltb_lt _ _)).
    + unfold parser_bind. rewrite E1.
      destruct (IH fuel (set_attrs (attrs_ m ++ [received a]) m) r1) as (r' & E & Hr'); [done|done|cbn in Hf; lia|].
      exists r'. split; [|done]. rewrite E, set_attrs_set_attrs. cbn [attrs_ set_attrs map].
      by rewrite <- app_assoc.
    + rewrite zlen_app. pose proof (zlen_nonneg (concat (map (attr_bytes (transaction_id_ m)) l))).
      unfold attr_bytes at 1. rewrite !zlen_app, !zlen_be_bytes.
      pose proof (zlen_nonneg (body_bytes (transaction_id_ m) a)). lia.
Qed.

Lemma attrs_size_count l : Forall (fun a => 0 <= attr_length a) l -> zlen l * 4 <= attrs_size l.
Proof.
  induction 1 as [|a l Ha Hl IH]; [done|]. cbn [attrs_size foldr]. rewrite zlen_cons.
  pose proof (padded_range (attr_length a)). change (foldr _ 0 l) with (attrs_size l). lia.
Qed.

Lemma Message_Read_reads m m0 r : msg_ok m -> msg_class m0 = msg_class m -> unread r (message_bytes m) ->
  exists r', Message_Read m0 r =
    Ret (Some tt, mkMessage (msg_class m) (msg_type m) (msg_length m) (transaction_id_ m)
      (reduced (transaction_id_ m)) (stun_magic_cookie_ m0) (map received (attrs_ m)), r') /\ unread r' [].
Proof.
  intros Hm Hc Hr. unfold message_bytes in Hr. rewrite !app_assoc in Hr. rewrite <- !(app_assoc (be_bytes 2 _)) in Hr.
  destruct (Read_header_reads m m0 Hm r _ Hr) as (r1 & E1 & Hr1).
  assert (Hnn : Forall (fun a => 0 <= attr_length a) (attrs_ m)).
  { eapply List.Forall_impl; [|apply (ok_attrs _ Hm)]. intros a [[_ Ha _] _]. lia. }
  assert (Hz : zlen (attrs_bytes (transaction_id_ m) (attrs_ m)) = msg_length m).
  { rewrite zlen_attrs_bytes, (ok_length _ Hm); [done|].
    eapply List.Forall_impl; [|apply (ok_attrs _ Hm)]. by intros a [? _]. }
  pose proof (attrs_size_count _ Hnn) as Hcnt. rewrite <- (ok_length _ Hm) in Hcnt.
  pose proof (zlen_nonneg (attrs_ m)).
  unfold Message_Read. unfold mbind, parser_bind at 1. rewrite E1.
  unfold parser_bind, this, remaining, modify. cbn [msg_length header_read].
  rewrite (unread_Length _ _ Hr1), Hz, Z.eqb_refl. cbn [negb].
  rewrite Z.sub_diag. change (wrap64 0) with 0. rewrite <- Hc.
  apply (Read_loop_reads (attrs_ m) _ (set_attrs [] (header_read m m0)) r1).
  - cbn [transaction_id_ msg_class set_attrs header_read]. rewrite Hc. apply (ok_attrs _ Hm).
  - done.
  - unfold zlen in *. lia.
Qed.

(** ** Reading arbitrary bytes *)

Definition attr_parsed (m : StunMessage) (a : StunAttribute) : Prop :=
  0 <= attr_type a < 2 ^ 16 /\
  parsed (read_type (msg_class m) (attr_type a)) (transaction_id_ m) (attr_type a) a.

(** What holds of a message that [Read] has accepted. *)
Record msg_parsed (m : StunMessage) : Prop := {
  parsed_type : 0 <= msg_type m < 2 ^ 15;
  parsed_length : 0 <= msg_length m < 2 ^ 16;
  parsed_tid : IsValidTransactionId (transaction_id_ m) = true;
  parsed_reduced : reduced_transaction_id_ m = reduced (transaction_id_ m);
  parsed_attrs : Forall (attr_parsed m) (attrs_ m)
}.

(** [ptotal Pre p Post]: in a message that satisfies [Pre], on a legal reader,
    [p] returns, stays inside the buffer, and on success takes [n] bytes and
    leaves result and message in [Post n]. *)
Definition ptotal {A} (Pre : StunMessage -> Prop) (p : parser A)
    (Post : Z -> A -> StunMessage -> Prop) : Prop :=
  forall m r l, Pre m -> unread r l -> exists o m' r' n,
    p m r = Ret (o, m', r') /\ 0 <= n <= zlen l /\ unread r' (zdrop n l) /\
    (forall a, o = Some a -> Post n a m').

Lemma ptotal_bind {A B} Pre (p : parser A) (k : A -> parser B) Mid Post :
  ptotal Pre p Mid ->
  (forall n1 a, ptotal (Mid n1 a) (k a) (fun n2 => Post (n1 + n2))) ->
  ptotal Pre (p ≫= k) Post.
Proof.
  intros Hp Hk m r l Hm Hr. destruct (Hp m r l Hm Hr) as (o & m1 & r1 & n1 & E1 & Hn1 & H1 & HQ).
  unfold mbind, parser_bind. rewrite E1. destruct o as [a|]; [|by exists None, m1, r1, n1].
  destruct (Hk n1 a m1 r1 _ (HQ a eq_refl) H1) as (o & m2 & r2 & n2 & E2 & Hn2 & H2 & HQ2).
  rewrite zlen_zdrop in Hn2 by lia. rewrite zdrop_zdrop in H2 by lia.
  exists o, m2, r2, (n1 + n2). by split; [|split; [lia|]].
Qed.

Lemma ptotal_from {A} Pre (p : reader A) (P : A -> Prop) :
  yields p P -> ptotal Pre (from p) (fun _ a m => P a /\ Pre m).
Proof.
  intros Hp m r l Hm Hr. destruct (Hp r l Hr) as (o & r' & n & E & Hn & H' & HP).
  exists o, m, r', n. unfold from. rewrite E. split; [done|]. split; [done|]. split; [done|].
  intros a ->. split; [by apply HP|done].
Qed.

Lemma ptotal_stay {A} Pre (p : parser A) Post :
  (forall m r, Pre m -> exists o m', p m r = Ret (o, m', r) /\ forall a, o = Some a -> Post 0 a m') ->
  ptotal Pre p Post.
Proof.
  intros Hp m r l Hm Hr. destruct (Hp m r Hm) as (o & m' & E & HQ). pose proof (zlen_nonneg l).
  exists o, m', r, 0. rewrite zdrop_0. by split; [|split; [lia|]].
Qed.

Lemma ptotal_false {A} Pre Post : ptotal Pre (@answer_false A) Post.
Proof. apply ptotal_stay. intros m r Hm. by exists None, m. Qed.

Lemma ptotal_modify (Pre : StunMessage -> Prop) f :
  ptotal Pre (modify f) (fun n _ m' => n = 0 /\ exists m, Pre m /\ m' = f m).
Proof.
  apply ptotal_stay. intros m r Hm. exists (Some tt), (f m). split; [done|]. intros [] _. eauto.
Qed.

Lemma ptotal_calling {A} (Pre : StunMessage -> Prop) (o : outcome A) a :
  o = Ret a -> ptotal Pre (calling o) (fun n b m => n = 0 /\ b = a /\ Pre m).
Proof.
  intros ->. apply ptotal_stay. intros m r Hm. exists (Some a), m. split; [done|]. by intros ? [= <-].
Qed.

Lemma ptotal_weaken {A} (Pre Pre' : StunMessage -> Prop) (p : parser A) (Post Post' : Z -> A -> StunMessage -> Prop) :
  ptotal Pre p Post -> (forall m, Pre' m -> Pre m) ->
  (forall n a m, 0 <= n -> Post n a m -> Post' n a m) -> ptotal Pre' p Post'.
Proof.
  intros Hp H1 H2 m r l Hm Hr. destruct (Hp m r l (H1 _ Hm) Hr) as (o & m' & r' & n & E & Hn & H' & HQ).
  exists o, m', r', n. split; [done|]. split; [done|]. split; [done|]. intros a Ha. apply H2; [lia|by apply HQ].
Qed.

Lemma ReadUInt16_takes Pre : ptotal Pre (from ReadUInt16) (fun n v m => n = 2 /\ 0 <= v < 2 ^ 16 /\ Pre m).
Proof.
  intros m r l Hm Hr. unfold from, ReadUInt16, mbind, reader_bind, ReadBytes. pose proof (zlen_nonneg l).
  rewrite (unread_Length _ _ Hr), Z.gtb_ltb. destruct (Z.ltb_spec (zlen l) 2).
  - exists None, m, r, 0. rewrite zdrop_0. by split; [|split; [lia|]].
  - rewrite (unread_mem r l) by (done || lia). cbn [mbind outcome_bind mret reader_ret].
    assert (Hv : 0 <= NetworkToHost16 host_order (load host_order (ztake 2 l)) < 2 ^ 16).
    { assert (Hd : zlen (ztake 2 l) = 2) by (apply zlen_ztake; lia).
      unfold NetworkToHost16. rewrite to_be_load by (unfold zlen in Hd; lia).
      pose proof (be_value_range (ztake 2 l)) as Hb. by rewrite Hd in Hb. }
    revert Hv. generalize (NetworkToHost16 host_order (load host_order (ztake 2 l))). intros v Hv.
    exists (Some v), m, (advance 2 r), 2. split; [done|]. split; [lia|]. split; [by apply unread_advance|].
    by intros a [= <-].
Qed.

Lemma skip_length_range n : 0 <= n -> 0 <= skip_length n.
Proof. intros. unfold skip_length. case_step; [apply wrap16_range|done]. Qed.

(** [m'] is [m] with more parsed attributes. *)
Definition extends (m m' : StunMessage) : Prop :=
  exists l, m' = set_attrs (attrs_ m ++ l) m /\ Forall (attr_parsed m) l.

Lemma extends_refl m : extends m m.
Proof. exists []. rewrite app_nil_r. by destruct m. Qed.
Lemma extends_trans m1 m2 m3 : extends m1 m2 -> extends m2 m3 -> extends m1 m3.
Proof.
  intros (l & -> & Hl) (k & -> & Hk). exists (l ++ k). split.
  - cbn [attrs_ set_attrs]. by rewrite set_attrs_set_attrs, app_assoc.
  - apply Forall_app. by split.
Qed.

Lemma Read_attribute_total m : ptotal (eq m) Read_attribute (fun n _ m' => 4 <= n /\ extends m m').
Proof.
  unfold Read_attribute.
  eapply ptotal_bind; [apply ReadUInt16_takes|]. intros n1 type.
  eapply (ptotal_bind _ _ _ (fun n v m' => n = 2 /\ n1 = 2 /\ (0 <= v < 2 ^ 16) /\ (0 <= type < 2 ^ 16) /\ m' = m)).
  { eapply ptotal_weaken; [apply (ReadUInt16_takes (fun m' => n1 = 2 /\ 0 <= type < 2 ^ 16 /\ m = m'))|done|].
    intros n a m' _ (-> & Hv & -> & Ht & <-). done. }
  intros n2 len. eapply (ptotal_bind _ _ _ (fun n x m' => n = 0 /\ n2 = 2 /\ n1 = 2 /\ (0 <= len < 2 ^ 16) /\
    (0 <= type < 2 ^ 16) /\ m' = m /\ x = m)).
  { apply ptotal_stay. intros m' r (-> & -> & Hv & Ht & ->). exists (Some m), m. split; [done|]. by intros ? [= <-]. }
  intros n3 x m' r l (-> & -> & -> & Hlen & Ht & -> & ->) Hr.
  destruct (CreateAttribute m type len) as [c|] eqn:Ec.
  - assert (Hvt : read_type (msg_class m) type <> kStunAttrValueUnknown).
    { intros E. by rewrite CreateAttribute_unknown in Ec. }
    rewrite (CreateAttribute_known m type len _ Hlen eq_refl Hvt) in Ec.
    destruct (Attr_Read_yields _ (transaction_id_ m) type len c Hlen Ec r l Hr) as (o & r' & n & E & Hn & H' & HP).
    unfold mbind, parser_bind, from, modify. rewrite E. cbn [mbind outcome_bind].
    destruct o as [a|]; [|by exists None, m, r', n].
    eexists (Some tt), _, r', n. split; [done|]. split; [done|]. split; [done|]. intros [] _. split; [lia|].
    exists [a]. split; [done|]. specialize (HP a eq_refl). constructor; [|done]. unfold attr_parsed.
    destruct HP as (H1 & H2 & H3 & H4). rewrite H2. done.
  - destruct (Consume_safe (skip_length len) (skip_length_range _ (proj1 Hlen)) r l Hr) as (o & r' & n & E & Hn & H').
    unfold from. rewrite E. exists o, m, r', n. split; [done|]. split; [done|]. split; [done|].
    intros a _. split; [lia|]. apply extends_refl.
Qed.

Lemma Read_loop_total fuel m r l : unread r l -> zlen l < Z.of_nat fuel ->
  exists o m' r', Read_loop fuel 0 m r = Ret (o, m', r') /\
    (o = Some tt -> extends m m' /\ unread r' []).
Proof.
  revert m r l. induction fuel as [|fuel IH]; intros m r l Hr Hf; [pose proof (zlen_nonneg l); lia|].
  cbn [Read_loop]. unfold mbind, parser_bind at 1, remaining. rewrite (unread_Length _ _ Hr), Z.gtb_ltb.
  destruct (Z.ltb_spec 0 (zlen l)).
  - unfold parser_bind.
    destruct (Read_attribute_total m m r l eq_refl Hr) as (o & m1 & r1 & n & E & Hn & H1 & HQ). rewrite E.
    destruct o as [[]|]; [|by eexists _, _, _]. destruct (HQ tt eq_refl) as [Hn4 Hx].
    destruct (IH m1 r1 _ H1) as (o & m2 & r2 & E2 & HQ2); [rewrite zlen_zdrop; lia|].
    exists o, m2, r2. split; [done|]. intros Ho. destruct (HQ2 Ho) as [Hx2 Hu].
    split; [by eapply extends_trans|done].
  - pose proof (zlen_nonneg l). assert (Hz : zlen l = 0) by lia. rewrite Hz. exists (Some tt), m, r.
    split; [done|]. intros _. split; [apply extends_refl|]. destruct l; [done|]. rewrite zlen_cons in Hz.
    pose proof (zlen_nonneg l). lia.
Qed.

Lemma top_bit_clear t : 0 <= t < 2 ^ 16 -> Z.land t 0x8000 = 0 -> t < 2 ^ 15.
Proof.
  intros Ht Hl. destruct (Z.lt_ge_cases t (2 ^ 15)) as [|Hge]; [done|].
  assert (Hb : Z.testbit (Z.land t 0x8000) 15 = true).
  { rewrite Z.land_spec, Z.testbit_odd, Z.shiftr_div_pow2 by lia.
    replace (t / 2 ^ 15) with 1; [done|]. apply (Z.div_unique _ _ _ (t - 2 ^ 15)); lia. }
  rewrite Hl in Hb. done.
Qed.

Definition header_parsed (m0 m : StunMessage) : Prop :=
  msg_class m = msg_class m0 /\ 0 <= msg_type m < 2 ^ 15 /\ 0 <= msg_length m < 2 ^ 16 /\
  IsValidTransactionId (transaction_id_ m) = true /\ reduced_transaction_id_ m = reduced (transaction_id_ m).

Lemma Read_header_total m0 : ptotal (eq m0) Read_header (fun _ _ m => header_parsed m0 m).
Proof.
  unfold Read_header.
  eapply ptotal_bind; [apply ReadUInt16_takes|]. intros n1 type.
  eapply ptotal_bind; [apply ptotal_modify|]. intros n2 [].
  destruct (Z.eqb_spec (Z.land type 0x8000) 0) as [Et|]; cbn [negb]; [|apply ptotal_false].
  eapply ptotal_bind; [apply ReadUInt16_takes|]. intros n3 len.
  eapply ptotal_bind; [apply ptotal_modify|]. intros n4 [].
  eapply ptotal_bind; [by apply ptotal_from, ReadString_yields|]. intros n5 cookie.
  eapply ptotal_bind; [by apply ptotal_from, ReadString_yields|]. intros n6 t.
  eapply (ptotal_weaken (fun m => zlen cookie = 4 /\ zlen t = 12 /\ msg_class m = msg_class m0 /\
    0 <= msg_type m < 2 ^ 15 /\ 0 <= msg_length m < 2 ^ 16));
    [|intros m (Ht & Hc & -> & m1 & (-> & Hlen & -> & m2 & (-> & Htype & <-) & ->) & ->);
      cbn [msg_class msg_type msg_length set_type set_length];
      pose proof (top_bit_clear type Htype Et); repeat split; try done; lia|intros n a m _ HP; exact HP].
  set (tid := if _ =? kStunMagicCookie then t else cookie ++ t).
  intros m r l (Hc & Ht & Hm) Hr.
  assert (Hv : IsValidTransactionId tid = true).
  { unfold tid, IsValidTransactionId. case_step; rewrite ?zlen_app, ?Hc, ?Ht; done. }
  unfold calling, modify, mbind, parser_bind. rewrite Hv. cbn [assert_that mbind outcome_bind].
  rewrite ReduceTransactionId_ok by done. cbn [mbind outcome_bind]. pose proof (zlen_nonneg l).
  eexists (Some tt), _, r, 0. split; [done|]. split; [lia|]. rewrite zdrop_0. split; [done|].
  intros [] _. destruct Hm as (Hc0 & Hty & Hlen). unfold header_parsed.
  cbn [msg_class msg_type msg_length transaction_id_ reduced_transaction_id_ set_tid].
  split; [done|]. split; [done|]. split; [done|]. by split.
Qed.

Lemma Message_Read_total m0 r l : unread r l ->
  exists o m r', Message_Read m0 r = Ret (o, m, r') /\
    (o = Some tt -> msg_parsed m /\ msg_class m = msg_class m0 /\ unread r' []).
Proof.
  intros Hr. destruct (Read_header_total m0 m0 r l eq_refl Hr) as (o & m1 & r1 & n & E & Hn & H1 & HQ).
  unfold Message_Read, mbind, parser_bind. rewrite E. destruct o as [[]|]; [|by eexists _, _, _].
  destruct (HQ tt eq_refl) as (Hc & Ht & Hlen & Hv & Hred).
  unfold this, remaining, modify. rewrite (unread_Length _ _ H1).
  destruct (Z.eqb_spec (msg_length m1) (zlen (zdrop n l))) as [El|El]; cbn [negb]; [|by eexists _, _, _].
  rewrite El, Z.sub_diag. change (wrap64 0) with 0.
  destruct (Read_loop_total (S (Z.to_nat (zlen (zdrop n l)))) (set_attrs [] m1) r1 _ H1) as (o & m2 & r2 & E2 & HQ2); [lia|].
  exists o, m2, r2. split; [done|]. intros Ho. destruct (HQ2 Ho) as [(k & -> & Hk) Hu].
  split; [|by split]. split; try done.
Qed.

(** ** Claims *)

(** A new message [m0] understands the bytes [d] as [m]. *)
Definition understood_as (m0 : StunMessage) (d : list byte) (m : StunMessage) : Prop :=
  forall r, unread r d -> exists r', Message_Read m0 r = Ret (Some tt, m, r') /\ unread r' [].

(** C8: a STUN message survives the wire: for a well-formed message [Write]
    answers [true] and appends its header and attributes (20 bytes and the
    length in the header, whatever the class of the message and the form of
    its transaction identifier), and [Read] of these bytes by a new message
    of the same class answers [true], consumes all of them and yields the
    same message: every field and every attribute, XOR-ed addresses
    included. *)
Theorem stun_roundtrip `{BufferClass B} (m : StunMessage) (w : B) (l : list byte) (m0 : StunMessage) :
  msg_ok m -> wrote w l -> msg_class m0 = msg_class m -> stun_magic_cookie_ m0 = kStunMagicCookie ->
  exists w' d, Message_Write m w = Ret (true, w') /\ wrote w' (l ++ d) /\
    zlen d = kStunHeaderSize + msg_length m /\ understood_as m0 d (received_message m).
Proof.
  intros Hm Hw Hc Hk. destruct (post_inv _ _ (Message_Write_sends m Hm w l Hw)) as ([b w'] & E & -> & Hw').
  exists w', (message_bytes m). split; [done|]. split; [done|]. split; [by apply zlen_message_bytes|].
  intros r Hr. destruct (Message_Read_reads m m0 r Hm Hc Hr) as (r' & E' & Hr'). exists r'.
  split; [|done]. by rewrite E', Hk.
Qed.

(** C9: [Read] never crashes, whatever the bytes: no copy outside the buffer,
    no failed assertion (the transaction identifier has a legal length, the
    port fits its type, the loop ends at the end of the message), and the
    loop over the attributes ends.  A message it accepts is well formed:
    type and length in range, a valid transaction identifier with its
    reduced form, every attribute of the class its type asks for with its
    contents in step with its length; and the buffer is used up. *)
Theorem stun_read_safe (m0 : StunMessage) (r : ByteBufferReader) (l : list byte) :
  unread r l ->
  exists answer m r', Message_Read m0 r = Ret (answer, m, r') /\
    (answer = Some tt -> msg_parsed m /\ msg_class m = msg_class m0 /\ unread r' []).
Proof. apply Message_Read_total. Qed.

(** An ICE connectivity check and the server's answer to it. *)
Definition example_tid : list byte := map byte.of_Z [1; 2; 3; 4; 5; 6; 7; 8; 9; 10; 11; 12].
Definition example_address : SocketAddress :=
  mkSocketAddress [] (IPAddress_v6 (map byte.of_Z [32; 1; 13; 184; 0; 0; 0; 0; 0; 0; 0; 0; 0; 0; 0; 1])) 3478 0 false.
Definition example_attrs : list StunAttribute :=
  [StunByteStringAttribute kStunAttrUsername (map byte.of_Z [97; 58; 98]);
   StunUInt32Attribute kStunAttrICEPriority 1853824767;
   StunUInt64Attribute kStunAttrICEControlling 0x0123456789abcdef;
   CreateByteString kStunAttrICEUseCandidate;
   SetOwner true (StunXorAddressAttribute kStunAttrXorMappedAddress example_address);
   AddType 0x8001 (AddType 0x25 (CreateUInt16ListAttribute kStunAttrUnknownAttributes));
   StunErrorCodeAttribute kStunAttrStunErrorCode 487 (map byte.of_Z [82; 111; 108; 101])].
Definition example_message : StunMessage :=
  mkMessage Ice 0x0111 (attrs_size example_attrs) example_tid 0 kStunMagicCookie example_attrs.
Definition empty_message : StunMessage := mkMessage Ice 0 0 EMPTY_TRANSACTION_ID 0 kStunMagicCookie [].

Lemma example_message_ok : msg_ok example_message.
Proof.
  split; try (vm_compute; done); try (vm_compute; split; congruence).
  cbn [attrs_ transaction_id_ msg_class example_message].
  repeat apply Forall_cons_2; [..|constructor];
    (split; [split; [vm_compute; split; congruence..|]|done]).
  - vm_compute. congruence.
  - split; [done|lia].
  - split; [done|lia].
  - vm_compute. congruence.
  - split; [split; [by apply ip_ok_v6|done|cbn; lia]|]. by split.
  - split; [done|]. repeat constructor; lia.
  - split; [vm_compute; split; congruence|]. by split; [vm_compute; split; congruence|].
Qed.

Lemma stun_roundtrip_witness :
  exists w' d,
    Message_Write (H := @BufferT_class example_heap false) example_message BufferT_empty = Ret (true, w') /\
    wrote (BufferClass := @BufferT_class example_heap false) w' ([] ++ d) /\
    zlen d = kStunHeaderSize + msg_length example_message /\
    understood_as empty_message d (received_message example_message).
Proof.
  apply (stun_roundtrip (H := @BufferT_class example_heap false) example_message BufferT_empty [] empty_message).
  - apply example_message_ok.
  - split; [apply BufferT_empty_ok|done].
  - reflexivity.
  - reflexivity.
Defined.

Lemma stun_read_safe_witness :
  exists answer m r',
    Message_Read empty_message (Reader (map byte.of_Z [0; 1; 0; 8; 33]) 5) = Ret (answer, m, r') /\
    (answer = Some tt -> msg_parsed m /\ msg_class m = Ice /\ unread r' []).
Proof.
  apply (stun_read_safe empty_message _ (map byte.of_Z [0; 1; 0; 8; 33])).
  apply unread_whole. vm_compute. reflexivity.
Defined.
