(* ===== verification/StunProps.v ===== *)
(** * STUN messages: the length that follows the attributes, copies, types *)

From Stdlib Require Import ZArith Lia.
From S2P Require Import Prelude ByteOrder ConstBuffer ByteBuffer IpAddress SocketAddress StunAttr StunCodec StunMessage StunRead.

(** ** The length of a message *)

Lemma attr_space_padded a : attr_space a = wrap16 (4 + padded (attr_length a)).
Proof.
  unfold attr_space, padded. rewrite neg_mod4. destruct (attr_length a mod 4 =? 0); cbn [negb]; f_equal; lia.
Qed.

Lemma attrs_size_app l k : attrs_size (l ++ k) = attrs_size l + attrs_size k.
Proof.
  induction l as [|a l IH]; [done|]. cbn [app attrs_size foldr].
  change (foldr _ 0 (l ++ k)) with (attrs_size (l ++ k)). change (foldr _ 0 l) with (attrs_size l). lia.
Qed.

Lemma attrs_size_one a : attrs_size [a] = 4 + padded (attr_length a).
Proof. cbn. lia. Qed.

Lemma SetOwner_length o a : attr_length (SetOwner o a) = attr_length a.
Proof. unfold SetOwner. by destruct (attr_body a). Qed.

Lemma wrap16_add x y : wrap16 (wrap16 x + wrap16 y) = wrap16 (x + y).
Proof. unfold wrap16. by rewrite <- Z.add_mod. Qed.
Lemma wrap16_sub x y : wrap16 (wrap16 x - wrap16 y) = wrap16 (x - y).
Proof. unfold wrap16. by rewrite Zminus_mod_idemp_l, Zminus_mod_idemp_r. Qed.

Lemma take_last_spec type l x l' : take_last type l = Some (x, l') ->
  exists l1 l2, l = l1 ++ x :: l2 /\ l' = l1 ++ l2 /\ attr_type x = type /\
    Forall (fun a => attr_type a <> type) l2.
Proof.
  revert x l'.
  assert (Hnone : forall l, take_last type l = None -> Forall (fun a => attr_type a <> type) l).
  { clear. induction l as [|a l IH]; [constructor|]. cbn [take_last].
    destruct (take_last type l) as [[]|]; [done|]. destruct (Z.eqb_spec (attr_type a) type); [done|].
    intros _. constructor; [done|by apply IH]. }
  induction l as [|a l IH]; intros x l'; [done|]. cbn [take_last].
  destruct (take_last type l) as [[y k]|] eqn:E.
  - intros [= <- <-]. destruct (IH y k eq_refl) as (l1 & l2 & -> & -> & Ht & Hl).
    by exists (a :: l1), l2.
  - destruct (Z.eqb_spec (attr_type a) type) as [Ht|]; [|done]. intros [= <- <-].
    exists [], l. split; [done|]. split; [done|]. split; [done|]. by apply Hnone.
Qed.

(** The editing operations of a message. *)
Inductive edit : Type :=
| EAdd (attr : StunAttribute)
| ERemove (type : Z)
| EClear.

Definition apply_edit (e : edit) (m : StunMessage) : outcome StunMessage :=
  match e with
  | EAdd attr => AddAttribute attr m
  | ERemove type => mret (snd (RemoveAttribute type m))
  | EClear => mret (ClearAttributes m)
  end.
Fixpoint edits (es : list edit) (m : StunMessage) : outcome StunMessage :=
  match es with
  | [] => mret m
  | e :: es => m ← apply_edit e m; edits es m
  end.

Definition length_tracks (m : StunMessage) : Prop := msg_length m = wrap16 (attrs_size (attrs_ m)).

Lemma apply_edit_tracks e m m' : length_tracks m -> apply_edit e m = Ret m' -> length_tracks m'.
Proof.
  unfold length_tracks. intros Hm. destruct e as [a|type|]; cbn [apply_edit].
  - unfold AddAttribute. destruct (if negb _ then _ else _) as [[]|]; [|done]. cbn [mbind outcome_bind mret outcome_ret].
    intros [= <-]. cbn [msg_length attrs_ set_attrs set_length].
    rewrite attr_space_padded, SetOwner_length, Hm, wrap16_add, attrs_size_app, attrs_size_one, SetOwner_length.
    done.
  - unfold RemoveAttribute. destruct (take_last type (attrs_ m)) as [[x k]|] eqn:E; cbn [snd]; intros [= <-]; [|done].
    destruct (take_last_spec _ _ _ _ E) as (l1 & l2 & Hl & -> & _).
    cbn [msg_length attrs_ set_attrs set_length].
    rewrite attr_space_padded, SetOwner_length, Hm, wrap16_sub, Hl. f_equal.
    rewrite (cons_middle x), !attrs_size_app, attrs_size_one. lia.
  - by intros [= <-].
Qed.

(** C23: the length in the header follows the attributes: starting from a new
    message, after any sequence of additions, removals and clearings it is
    the size of the attributes with their headers and padding, modulo 2^16
    (the width of the field); a removal takes the last attribute of its type
    and leaves the others in their order. *)
Theorem length_follows_attributes (c : message_class) (u : Z) (es : list edit) (m0 m : StunMessage) :
  StunMessage_new c u = Ret m0 -> edits es m0 = Ret m ->
  length_tracks m /\
  forall type attr m', RemoveAttribute type m = (Some attr, m') ->
    exists l1 x l2, attrs_ m = l1 ++ x :: l2 /\ attrs_ m' = l1 ++ l2 /\
      attr_type x = type /\ attr = SetOwner false x /\ Forall (fun a => attr_type a <> type) l2.
Proof.
  intros Hnew He. split.
  - assert (Hm : length_tracks m0) by (injection Hnew as <-; done). clear Hnew.
    revert m0 Hm He. induction es as [|e es IH]; intros m0 Hm; cbn [edits]; [by intros [= <-]|].
    destruct (apply_edit e m0) as [m1|] eqn:E; [|done]. cbn [mbind outcome_bind].
    apply IH. by eapply apply_edit_tracks.
  - intros type attr m'. unfold RemoveAttribute.
    destruct (take_last type (attrs_ m)) as [[x k]|] eqn:E; [|done]. intros [= <- <-].
    destruct (take_last_spec _ _ _ _ E) as (l1 & l2 & Hl & -> & Ht & Hf). by exists l1, x, l2.
Qed.

Definition example_edits : list edit :=
  [EAdd (StunByteStringAttribute kStunAttrUsername (map byte.of_Z [97; 58; 98]));
   EAdd (CreateByteString kStunAttrNonce);
   EAdd (StunUInt32Attribute kStunAttrRetransmitCount 7); ERemove kStunAttrNonce].

Lemma length_follows_attributes_witness :
  exists m0 m, StunMessage_new Turn 0 = Ret m0 /\ edits example_edits m0 = Ret m /\ msg_length m = 16 /\
  (length_tracks m /\
  forall type attr m', RemoveAttribute type m = (Some attr, m') ->
    exists l1 x l2, attrs_ m = l1 ++ x :: l2 /\ attrs_ m' = l1 ++ l2 /\
      attr_type x = type /\ attr = SetOwner false x /\ Forall (fun a => attr_type a <> type) l2).
Proof.
  eexists _, _. split; [reflexivity|]. split; [reflexivity|]. split; [reflexivity|].
  eapply (length_follows_attributes Turn 0 example_edits); reflexivity.
Defined.

(** ** Copies *)

Lemma Clone_ok `{Heap} u m : msg_ok m -> Msg_Clone u m = Ret (Some (received_message m)).
Proof.
  intros Hm. unfold Msg_Clone. cbn [StunMessage_new assert_that IsValidTransactionId mbind outcome_bind].
  change (StunMessage_new (msg_class m) u) with
    (Ret (mkMessage (msg_class m) 0 0 EMPTY_TRANSACTION_ID u kStunMagicCookie [])).
  cbn [mbind outcome_bind].
  destruct (post_inv _ _ ByteBufferWriter_ok) as (b & -> & Hb & Hc). cbn [mbind outcome_bind].
  destruct (post_inv _ _ (Message_Write_sends (H := BufferT_class false) m Hm b [] (conj Hb Hc)))
    as ([ok b'] & -> & -> & Hb' & Hc'). cbn [mbind outcome_bind negb app] in *. rewrite Hc'.
  assert (Hlen : zlen (message_bytes m) < 2 ^ 64).
  { rewrite zlen_message_bytes, (ok_length _ Hm) by done. pose proof (ok_fits _ Hm).
    unfold kStunHeaderSize. lia. }
  destruct (Message_Read_reads m (mkMessage (msg_class m) 0 0 EMPTY_TRANSACTION_ID u kStunMagicCookie [])
    _ Hm eq_refl (unread_whole _ Hlen)) as (r' & -> & _). done.
Qed.

Lemma ztake_zlen {A} (l : list A) n : 0 <= n <= zlen l -> ztake n (ztake n l) = ztake n l.
Proof. intros. by apply ztake_ztake. Qed.

Lemma received_ok tid a : attr_ok tid a -> attr_ok tid (received a) /\ body_bytes tid (received a) = body_bytes tid a.
Proof.
  destruct a as [t len body]. intros [Ht Hl Hb]. unfold body_ok in Hb. cbn [attr_body attr_length] in *.
  destruct body as [s|s o| | |bytes|c n r|l]; (split; [split; [done|done|]|]);
    unfold body_ok, body_bytes, received; cbn [attr_body attr_length with_body]; try done.
  - destruct Hb as [[] ?]. by split.
  - destruct Hb as ([] & ? & ? & ?). by split.
  - cbn [from_option id]. rewrite zlen_ztake by lia. lia.
  - cbn [from_option id]. by rewrite ztake_zlen by lia.
Qed.

Lemma written_bytes_ok `{Heap} tid a : attr_ok tid a -> written_bytes tid a = Ret (body_bytes tid a).
Proof.
  intros Ha. unfold written_bytes.
  destruct (post_inv _ _ ByteBufferWriter_ok) as (b & -> & Hb & Hc). cbn [mbind outcome_bind].
  destruct (post_inv _ _ (Attr_Write_sends (H := BufferT_class false) tid a Ha b [] (conj Hb Hc)))
    as ([ok b'] & -> & -> & Hb' & Hc'). cbn [mbind outcome_bind app] in *. by rewrite Hc'.
Qed.

Lemma GetAttribute_in_map l a : NoDup (map attr_type l) -> In a l ->
  GetAttribute_in (map received l) (attr_type a) = Some (received a).
Proof.
  induction l as [|x l IH]; [done|]. cbn [map GetAttribute_in]. intros Hnd [->|Hin].
  - by rewrite Z.eqb_refl.
  - inversion Hnd as [|? ? Hx Hnd' Eq]. subst. destruct (Z.eqb_spec (attr_type (received x)) (attr_type a)) as [E|]; [|by apply IH].
    exfalso. apply Hx. apply list_elem_of_In, in_map_iff. by exists a.
Qed.

Lemma GetAttribute_in_some l a : In a l -> GetAttribute_in l (attr_type a) <> None.
Proof.
  induction l as [|x l IH]; [done|]. cbn [GetAttribute_in]. intros [->|Hin]; [by rewrite Z.eqb_refl|].
  destruct (_ =? _); [done|by apply IH].
Qed.

Lemma equal_values_received `{Heap} tid mask m l :
  Forall (attr_ok tid) l ->
  (forall a, In a l -> GetAttribute m (attr_type a) = Some (received a)) ->
  equal_values tid tid mask m l = Ret true.
Proof.
  induction 1 as [|a l Ha Hl IH]; intros Hg; [done|]. cbn [equal_values].
  assert (IH' : equal_values tid tid mask m l = Ret true) by (apply IH; intros; apply Hg; by right).
  destruct (mask (attr_type a)); [|done]. rewrite Hg by by left.
  destruct (received_ok tid a Ha) as [Hr Hb]. rewrite !written_bytes_ok by done. cbn [mbind outcome_bind].
  by rewrite bool_decide_true by (by rewrite Hb).
Qed.

(** [Clone] copies a well-formed message: it returns a message with the
    same type, length, transaction identifier and attributes (as a receiver
    would see them), and when no attribute type occurs twice
    [EqualAttributes] finds the copy equal to the original, for every mask of
    attribute types. *)
Theorem clone_copies `{Heap} (m : StunMessage) (u : Z) :
  msg_ok m ->
  Msg_Clone u m = Ret (Some (received_message m)) /\
  (NoDup (map attr_type (attrs_ m)) ->
   forall mask, EqualAttributes m (received_message m) mask = Ret true).
Proof.
  intros Hm. split; [by apply Clone_ok|]. intros Hnd mask. unfold EqualAttributes.
  assert (Hok : Forall (attr_ok (transaction_id_ m)) (attrs_ m)).
  { eapply List.Forall_impl; [|apply (ok_attrs _ Hm)]. by intros a [? _]. }
  cbn [transaction_id_ received_message].
  rewrite equal_values_received; [|done|intros a Ha; by apply GetAttribute_in_map].
  cbn [mbind outcome_bind negb attrs_ received_message]. f_equal. apply forallb_forall.
  intros a Ha. apply in_map_iff in Ha as (x & <- & Hx). apply orb_true_iff. right.
  change (attr_type (received x)) with (attr_type x).
  unfold GetAttribute. destruct (GetAttribute_in _ _) eqn:E; [done|]. by apply GetAttribute_in_some in E.
Qed.

Lemma clone_copies_witness :
  Msg_Clone (H := example_heap) 0 example_message = Ret (Some (received_message example_message)) /\
  (NoDup (map attr_type (attrs_ example_message)) ->
   forall mask, EqualAttributes (H := example_heap) example_message (received_message example_message) mask = Ret true).
Proof. apply (clone_copies (H := example_heap) example_message 0), example_message_ok. Defined.

(** ** Where copies lose something *)

(** A binding request with a comprehension-required attribute of unknown type. *)
Definition unknown_attribute : list byte :=
  map byte.of_Z ([0; 1; 0; 8; 0x21; 0x12; 0xA4; 0x42] ++ [1; 2; 3; 4; 5; 6; 7; 8; 9; 10; 11; 12] ++
                 [0; 0x30; 0; 4; 1; 2; 3; 4]).
Definition received_unknown : StunMessage :=
  mkMessage Stun 1 8 example_tid (reduced example_tid) kStunMagicCookie [].

(** A message that [Read] accepted may have no copy: attributes of
    unknown types are skipped but stay counted in the length, so what [Write]
    sends for such a message is too short for its own header and [Clone]
    returns [nullptr]. *)
Theorem clone_of_received_fails :
  Message_Read (mkMessage Stun 0 0 EMPTY_TRANSACTION_ID 0 kStunMagicCookie [])
    (Reader unknown_attribute 28) = Ret (Some tt, received_unknown, mkReader unknown_attribute 28 28 28) /\
  Msg_Clone (H := example_heap) 0 received_unknown = Ret None /\
  ~ length_tracks received_unknown.
Proof. split; [vm_compute; reflexivity|]. split; [vm_compute; reflexivity|]. by vm_compute. Qed.

(** [CopyStunAttribute] loses the address of an XOR-ed address attribute:
    the copy is read without an owner, so it answers a copy whose address has
    no family instead of the address of the original. *)
Theorem copied_xor_address_lost :
  exists copy,
    CopyStunAttribute (H := example_heap) (transaction_id_ received_unknown)
      (SetOwner true (StunXorAddressAttribute kStunAttrXorMappedAddress example_address)) = Ret (Some copy) /\
    family_ (ip_ (get_address copy)) = AF_UNSPEC /\ attr_length copy = 0.
Proof. eexists. split; [vm_compute; reflexivity|]. by vm_compute. Qed.

(** ** Types of messages *)

Lemma land_pow2 t k : 0 <= k -> Z.land t (2 ^ k) = if Z.testbit t k then 2 ^ k else 0.
Proof.
  intros Hk. apply Z.bits_inj'. intros n Hn. rewrite Z.land_spec, Z.pow2_bits_eqb by done.
  destruct (Z.eqb_spec k n) as [<-|Hne]; [|rewrite andb_false_r];
    destruct (Z.testbit t k) eqn:E; rewrite ?Z.bits_0, ?Z.pow2_bits_true by done; try done.
  symmetry. by rewrite Z.pow2_bits_false.
Qed.

Lemma type_class t : Z.land t kStunTypeMask =
  Z.lor (if Z.testbit t 8 then 2 ^ 8 else 0) (if Z.testbit t 4 then 2 ^ 4 else 0).
Proof. change kStunTypeMask with (Z.lor (2 ^ 8) (2 ^ 4)). by rewrite Z.land_lor_distr_r, !land_pow2. Qed.

(** The class of a type, and the type as a member of that class. *)
Inductive StunClass : Type := Request | Indication | SuccessResponse | ErrorResponse.
Definition class_of (t : Z) : StunClass :=
  match Z.testbit t 8, Z.testbit t 4 with
  | false, false => Request
  | false, true => Indication
  | true, false => SuccessResponse
  | true, true => ErrorResponse
  end.
#[global] Instance class_eq_dec : EqDecision StunClass.
Proof. solve_decision. Defined.

(** Bits 4 and 8 of a message type are its class: each of the four
    predicates holds of the types of one class and of no other; a request has
    as its success and error response the types of these classes that differ
    in the two bits only, so the method is the same; what is not a request
    has no response type (-1). *)
Theorem response_types (t : Z) :
  (IsStunRequestType t = bool_decide (class_of t = Request) /\
   IsStunIndicationType t = bool_decide (class_of t = Indication) /\
   IsStunSuccessResponseType t = bool_decide (class_of t = SuccessResponse) /\
   IsStunErrorResponseType t = bool_decide (class_of t = ErrorResponse)) /\
  (if decide (class_of t = Request)
   then GetStunSuccessResponseType t = t + 0x100 /\ class_of (t + 0x100) = SuccessResponse /\
        GetStunErrorResponseType t = t + 0x110 /\ class_of (t + 0x110) = ErrorResponse
   else GetStunSuccessResponseType t = -1 /\ GetStunErrorResponseType t = -1).
Proof.
  unfold GetStunSuccessResponseType, GetStunErrorResponseType, IsStunRequestType, IsStunIndicationType,
    IsStunSuccessResponseType, IsStunErrorResponseType.
  pose proof (type_class t) as E. rewrite E. pose proof (eq_refl (class_of t)) as Hc. unfold class_of at 2 in Hc.
  destruct (Z.testbit t 8) eqn:E8, (Z.testbit t 4) eqn:E4; rewrite Hc; try (by repeat split).
  split; [by repeat split|]. rewrite decide_True by done. change (Z.lor 0 0 =? 0) with true. cbv iota.
  assert (H100 : Z.lor t 0x100 = t + 0x100).
  { symmetry. apply Z.add_nocarry_lor. change 0x100 with (2 ^ 8). by rewrite land_pow2, E8. }
  assert (H110 : Z.lor t 0x110 = t + 0x110) by (symmetry; apply Z.add_nocarry_lor, E).
  rewrite <- H100, <- H110. unfold class_of. rewrite !Z.lor_spec, E8, E4. by repeat split.
Qed.
