(* ===== verification/StunNames.v ===== *)
(** * network/stun/stun.{h,cc}: codes of errors, attributes and methods and
    their names

    The three [std::unordered_map]s are built from initialiser lists, in
    which the first of two entries with the same key stays.  Shown: what each
    name function answers, and that one error text cannot be obtained because
    two enumerators have the same value. *)

From Stdlib Require Import ZArith Lia String.
From S2P Require Import Prelude StunMessage.

Local Open Scope string_scope.
Local Open Scope Z_scope.

(** ** Enumerations *)

Inductive StunErrorCode : Type :=
| kStunTryAlteate | kStunBadRequest | kStunNotAuthorized | kStunForbidden | kStunUnknownAttribute
| kStunAllocationMismatch | kStunStaleCredentials | kStunStaleNonce | kStunAddrFamilyNotSupport
| kStunWrongCredentials | kStunUnsuppTransportProto | kStunPeerAddrFamilyMismatch
| kStunAllocationQuotaReached | kStunIntegrityCheckFailure | kStunMissingUsername | kStunUseTLS
| kStunRoleConflict | kStunServerError | kStunInsufficientCapacity | kStunGlobalFailure'
| kStunServerNotReachable | kStunConnectionFailure | kStunConnectionAlreadyExists
| kStunConnectionTimeoutOrFailure.

Definition error_number (c : StunErrorCode) : Z :=
  match c with
  | kStunTryAlteate => 300 | kStunBadRequest => 400 | kStunNotAuthorized => 401
  | kStunForbidden => 403 | kStunUnknownAttribute => 420 | kStunAllocationMismatch => 437
  | kStunStaleCredentials => 430 | kStunStaleNonce => 438 | kStunAddrFamilyNotSupport => 4
  | kStunWrongCredentials => 442 | kStunUnsuppTransportProto => 442 | kStunPeerAddrFamilyMismatch => 7
  | kStunAllocationQuotaReached => 10 | kStunIntegrityCheckFailure => 431 | kStunMissingUsername => 432
  | kStunUseTLS => 433 | kStunRoleConflict => 487 | kStunServerError => 500
  | kStunInsufficientCapacity => 11 | kStunGlobalFailure' => 600 | kStunServerNotReachable => 701
  | kStunConnectionFailure => 9 | kStunConnectionAlreadyExists => 446
  | kStunConnectionTimeoutOrFailure => 447
  end.

Inductive StunMessageType : Type :=
| kStunMessageBindingRequest | kStunMessageBindingIndication | kStunMessageBindingResponse
| kStunMessageBindingErrorResponse | kStunGoodPingRequest | kStunGoodPingResponse
| kStunGoodPingErrorResponse | kStunAllocateRequst | kStunAllocateResponse | kStunAllocateErrorResponse
| kTurnRefreshRequest | kTurnRefreshResponse | kTurnRefreshErrorResponse | kTurnSendSendIndication
| kTurnDataSendIndication | kTurnCreatePermissionRequest | kTurnCreatePermissionResonse
| kTurnCreatePermissionErrorResonse | kTurnChannelBindRequest | kTurnChannelBindResponse
| kTurnChannelBindErrorResponse | kTurnConnect | kTurnConnectionBind | kTurnConnectionAttempt.

Definition message_number (t : StunMessageType) : Z :=
  match t with
  | kStunMessageBindingRequest => 0x0001 | kStunMessageBindingIndication => 0x0011
  | kStunMessageBindingResponse => 0x0101 | kStunMessageBindingErrorResponse => 0x0111
  | kStunGoodPingRequest => 0x200 | kStunGoodPingResponse => 0x300 | kStunGoodPingErrorResponse => 0x310
  | kStunAllocateRequst => 0x0003 | kStunAllocateResponse => 0x0103 | kStunAllocateErrorResponse => 0x0113
  | kTurnRefreshRequest => 0x0004 | kTurnRefreshResponse => 0x0104 | kTurnRefreshErrorResponse => 0x0114
  | kTurnSendSendIndication => 0x0016 | kTurnDataSendIndication => 0x0017
  | kTurnCreatePermissionRequest => 0x0008 | kTurnCreatePermissionResonse => 0x0108
  | kTurnCreatePermissionErrorResonse => 0x0118 | kTurnChannelBindRequest => 0x0009
  | kTurnChannelBindResponse => 0x0109 | kTurnChannelBindErrorResponse => 0x0119
  | kTurnConnect => 0x000a | kTurnConnectionBind => 0x000b | kTurnConnectionAttempt => 0x000c
  end.

(** The attribute types that only have a name. *)
Definition kStunAttrNotExist : Z := 0.
Definition kStunAttrResponseAddress : Z := 0x0002.
Definition kStunAttrChangeRequest : Z := 0x0003.
Definition kStunAttrSourceAddress : Z := 0x0004.
Definition kStunAttrChangedAddress : Z := 0x0005.
Definition kStunAttrPassword : Z := 0x0007.
Definition kStunAttrReflectedFrom : Z := 0x000b.
Definition kStunAttrConnectionID : Z := 0x002a.

(** ** Tables *)

(** [unordered_map::find] after construction from a list of pairs. *)
Fixpoint find (l : list (Z * string)) (key : Z) : option string :=
  match l with
  | [] => None
  | (k, v) :: l => if key =? k then Some v else find l key
  end.

Definition kStunErrorCodeMap : list (Z * string) :=
  map (fun '(c, s) => (error_number c, s))
    [(kStunTryAlteate, "Try Alternate");
     (kStunBadRequest, "Bad Request");
     (kStunNotAuthorized, "Unauthorized");
     (kStunForbidden, "Forbidden");
     (kStunUnknownAttribute, "Unknown Attribute");
     (kStunAllocationMismatch, "Allocation Mismatch");
     (kStunStaleNonce, "Stale Nonce");
     (kStunMissingUsername, "Missing Username");
     (kStunUseTLS, "Use TLS");
     (kStunRoleConflict, "Role Conflict");
     (kStunAddrFamilyNotSupport, "Address Family Not Supported");
     (kStunWrongCredentials, "Wrong Credentials");
     (kStunUnsuppTransportProto, "Unsupported Transport Protocol");
     (kStunPeerAddrFamilyMismatch, "Peer Address Family Mismatch");
     (kStunConnectionAlreadyExists, "Connection Already Exists");
     (kStunConnectionFailure, "Connection Failure");
     (kStunAllocationQuotaReached, "Allocation Quota Reached");
     (kStunRoleConflict, "Role Conflict");
     (kStunServerError, "Server Error");
     (kStunGlobalFailure', "Global Failure");
     (kStunInsufficientCapacity, "Insufficient Capacity");
     (kStunConnectionTimeoutOrFailure, "Connection Timeout or Failure")].

Definition kStunAttrTypeMap : list (Z * string) :=
  [(kStunAttrNotExist, "Not Exist");
   (kStunAttrMappedAddress, "MAPPED-ADDRESS");
   (kStunAttrResponseAddress, "RESPONSE-ADDRESS");
   (kStunAttrChangeRequest, "CHANGE-REQUEST");
   (kStunAttrSourceAddress, "SOURCE-ADDRESS");
   (kStunAttrChangedAddress, "CHANGED-ADDRESS");
   (kStunAttrUsername, "USERNAME");
   (kStunAttrPassword, "PASSWORD");
   (kStunAttrMessageIntegrity, "MESSAGE-INTEGRITY");
   (kStunAttrStunErrorCode, "ERROR-CODE");
   (kStunAttrBandwidth, "BANDWIDTH");
   (kStunAttrDestinationAddress, "DESTINATION-ADDRESS");
   (kStunAttrRealm, "REALM");
   (kStunAttrNonce, "NONCE");
   (kStunAttrUnknownAttributes, "UNKNOWN-ATTRIBUTES");
   (kStunAttrReflectedFrom, "REFLECTED-FORM");
   (kStunAttrChannelNumber, "CHANNEL-NUMBER");
   (kStunAttrLifetime, "LIFETIME");
   (kStunAttrAlternateServer, "ALTERNATE-SERVER");
   (kStunAttrMagicCookie, "MAGIC-COOKIE");
   (kStunAttrXorPeerAddress, "XOR-PEER-ADDRESS");
   (kStunAttrData, "DATA");
   (kStunAttrXorRelayedAddress, "XOR-RELAYED-ADDRESS");
   (kStunAttrEventPort, "EVEN-PORT");
   (kStunAttrRequestedTransport, "REQUESTED-TRANSPORT");
   (kStunAttrDontFragment, "DONT-FRAGMENT");
   (kStunAttrXorMappedAddress, "XOR-MAPPED-ADDRESS");
   (kStunAttrReservationToken, "RESERVED-TOKEN");
   (kStunAttrOptions, "OPTIONS");
   (kStunAttrSoftware, "SOFTWARE");
   (kStunAttrAlternateServer, "ALTERNATE-SERVER");
   (kStunAttrFingerprint, "FINGERPRINT");
   (kStunAttrOrigin, "ORIGIN");
   (kStunAttrConnectionID, "CONNECTION-ID");
   (kStunAttrRetransmitCount, "RETRANSMIT-COUNT");
   (kStunAttrICEControlled, "ICE-CONTROLLED");
   (kStunAttrICEControlling, "ICE-CONTROLLING");
   (kStunAttrICEPriority, "PRIORITY");
   (kStunAttrICEUseCandidate, "USE-CANDIDATE")].

Definition kStunMethodMap : list (Z * string) :=
  map (fun '(t, s) => (message_number t, s))
    [(kStunMessageBindingRequest, "STUN BINDING request");
     (kStunMessageBindingIndication, "STUN BINDING indication");
     (kStunMessageBindingResponse, "STUN BINDING response");
     (kStunMessageBindingErrorResponse, "STUN BINDING error response");
     (kStunGoodPingRequest, "GOOG PING request");
     (kStunGoodPingResponse, "GOOG PING response");
     (kStunGoodPingErrorResponse, "GOOG PING error response");
     (kStunAllocateRequst, "TURN ALLOCATE request");
     (kStunAllocateResponse, "TURN ALLOCATE response");
     (kStunAllocateErrorResponse, "TURN ALLOCATE error respons");
     (kTurnRefreshRequest, "TURN REFRESH request");
     (kTurnRefreshResponse, "TURN REFRESH response");
     (kTurnRefreshErrorResponse, "TURN REFRESH error response");
     (kTurnSendSendIndication, "TURN SEND INDICATION");
     (kTurnDataSendIndication, "TURN DATA INDICATION");
     (kTurnCreatePermissionRequest, "TURN CREATE PERMISSION request");
     (kTurnCreatePermissionResonse, "TURN CREATE PERMISSION response");
     (kTurnCreatePermissionErrorResonse, "TURN CREATE PERMISSION error response");
     (kTurnChannelBindRequest, "TURN CHANNEL BIND request");
     (kTurnChannelBindResponse, "TURN CHANNEL BIND response");
     (kTurnChannelBindErrorResponse, "TURN CHANNEL BIND error response");
     (kTurnConnect, "TURN-CHANNEL-BIND");
     (kTurnConnectionBind, "TURN-CONNECT-BIND");
     (kTurnConnectionAttempt, "TURN-CONNECTION-ATTEMP")].

Definition StunErrorToString (code : Z) : string := default "UnknownError" (find kStunErrorCodeMap code).
Definition StunAttrToString (type : Z) : string := default "StunAttrUnknown" (find kStunAttrTypeMap type).
(** The key of the map has 16 bits, [msg_type] is an [int]. *)
Definition StunMethodToString (to_string : Z -> string) (msg_type : Z) : string :=
  default ("UNKNOWN<" ++ to_string msg_type ++ ">")%string (find kStunMethodMap (wrap16 msg_type)).

(** ** The names *)

(** No error code is reported as an unsupported transport protocol: the
    enumerators for that error and for wrong credentials are both 442, so the
    map has one entry for them, the text of the first; the error 442 that
    RFC 5766 names an unsupported transport protocol is printed as wrong
    credentials. *)
Lemma transport_error_has_no_name (code : Z) :
  StunErrorToString code <> "Unsupported Transport Protocol" /\
  StunErrorToString (error_number kStunUnsuppTransportProto) = "Wrong Credentials".
Proof.
  split; [|reflexivity]. unfold StunErrorToString. cbn [kStunErrorCodeMap map error_number find].
  repeat (case_match; [done|]). done.
Qed.
