(* ===== verification/StunAuth.v ===== *)
(** * network/stun/stun.cc: MESSAGE-INTEGRITY, FINGERPRINT and credentials

    The functions that authenticate a message work on its bytes.  Shown: a
    message to which MESSAGE-INTEGRITY was added is accepted with the same
    key, whatever attributes are added behind it, and with another key only
    when the (truncated) HMACs agree; a message with FINGERPRINT is
    recognised; the long-term key is the MD5 of RFC 5389. *)

From Stdlib Require Import ZArith Lia.
From S2P Require Import Prelude ByteOrder ConstBuffer ByteBuffer Blocks Sha1 Md5 Crc Digest IpAddress SocketAddress StunAttr StunCodec StunMessage StunRead StunProps.

Definition kStunMessageIntegritySize : Z := 20.
Definition kStunMessageIntegrity32Size : Z := 4.
Definition STUN_FINGERPRINT_XOR_VALUE : Z := 0x5354554E.

(** ** The operations *)
Section Integrity.
Context `{Heap}.

(** [GetBE16(&data[offset])] and the like. *)
Definition GetBE16_at (data : list byte) (offset : Z) : outcome Z := GetBE16 host_order (zdrop offset data).
Definition GetBE32_at (data : list byte) (offset : Z) : outcome Z := GetBE32 host_order (zdrop offset data).

(** The loop over the attributes: the position of the one wanted, or
    [return false].  Every round moves by four bytes at least. *)
Fixpoint find_integrity (fuel : nat) (mi_attr_type mi_attr_size : Z) (data : list byte) (size current_pos : Z)
    : outcome (option Z) :=
  match fuel with
  | O => Crash FuelExhausted
  | S fuel =>
      if current_pos + 4 <=? size then
        attr_type ← GetBE16_at data current_pos;
        attr_length ← GetBE16_at data (current_pos + 2);
        if attr_type =? mi_attr_type then
          if negb (attr_length =? mi_attr_size) || (current_pos + 2 + 2 + attr_length >? size) then mret None
          else mret (Some current_pos)
        else
          let current_pos := current_pos + (2 + 2 + attr_length) in
          let current_pos := if negb (attr_length mod 4 =? 0) then current_pos + (4 - attr_length mod 4)
                             else current_pos in
          find_integrity fuel mi_attr_type mi_attr_size data size current_pos
      else mret None
  end.

Definition ValidateMessageIntegrityOfType (mi_attr_type mi_attr_size : Z) (data : list byte) (size : Z)
    (password : list byte) : outcome bool :=
  assert_that (mi_attr_size <=? kStunMessageIntegritySize);;
  if negb (size mod 4 =? 0) || (size <? kStunHeaderSize) then mret false else
  msg_length ← GetBE16_at data 2;
  if negb (size =? msg_length + kStunHeaderSize) then mret false else
  found ← find_integrity (S (Z.to_nat size)) mi_attr_type mi_attr_size data size kStunHeaderSize;
  match found with
  | None => mret false
  | Some mi_pos =>
      temp_data ← mem_read data 0 mi_pos;
      temp_data ←
        (if size >? mi_pos + kStunAttributeHeaderSize + mi_attr_size then
           let extra_offset := size - (mi_pos + kStunAttributeHeaderSize + mi_attr_size) in
           let new_adjusted_len := size - extra_offset - kStunHeaderSize in
           tail ← SetBE16 host_order (zdrop 2 temp_data) (wrap16 new_adjusted_len);
           mret (ztake 2 temp_data ++ tail)
         else mret temp_data);
      '(ret, hmac) ← ComputeHmac_alg DIGEST_SHA_1 password temp_data (fresh kStunMessageIntegritySize)
                       kStunMessageIntegritySize;
      assert_that (ret =? kStunMessageIntegritySize);;
      if negb (ret =? kStunMessageIntegritySize) then mret false else
      sent ← mem_read data (mi_pos + kStunAttributeHeaderSize) mi_attr_size;
      computed ← mem_read hmac 0 mi_attr_size;
      mret (bool_decide (sent = computed))
  end.
Definition ValidateMessageIntegrity (data : list byte) (size : Z) (password : list byte) : outcome bool :=
  ValidateMessageIntegrityOfType kStunAttrMessageIntegrity kStunMessageIntegritySize data size password.
Definition ValidateMessageIntegrity32 (data : list byte) (size : Z) (password : list byte) : outcome bool :=
  ValidateMessageIntegrityOfType kStunAttrGoodMessageInteger32 kStunMessageIntegrity32Size data size password.

(** The pointer to the attribute just added: the last of the list. *)
Definition on_last (f : StunAttribute -> StunAttribute) (m : StunMessage) : StunMessage :=
  match rev (attrs_ m) with
  | a :: before => set_attrs (rev before ++ [f a]) m
  | [] => m
  end.
Definition last_length (m : StunMessage) : Z :=
  match rev (attrs_ m) with a :: _ => attr_length a | [] => 0 end.

(** The bytes of the message in a new writer. *)
Definition write_new (m : StunMessage) : outcome (bool * list byte) :=
  buf ← ByteBufferWriter;
  '(ok, buf) ← Message_Write (H := BufferT_class false) m buf;
  mret (ok, BufferT_contents buf).

Definition AddMessageIntegrityOfType (attr_type attr_size : Z) (key : list byte) (m : StunMessage)
    : outcome (bool * StunMessage) :=
  assert_that (attr_size <=? kStunMessageIntegritySize);;
  m ← AddAttribute (StunByteStringAttribute attr_type (replicate (Z.to_nat attr_size) (byte.of_Z 48))) m;
  '(ok, data) ← write_new m;
  if negb ok then mret (false, m) else
  let msg_len_for_hmac := to_int32 (zlen data - kStunAttributeHeaderSize - last_length m) in
  covered ← mem_read data 0 msg_len_for_hmac;
  '(ret, hmac) ← ComputeHmac_alg DIGEST_SHA_1 key covered (fresh kStunMessageIntegritySize) kStunMessageIntegritySize;
  assert_that (ret =? kStunMessageIntegritySize);;
  if negb (ret =? kStunMessageIntegritySize) then mret (false, m) else
  value ← mem_read hmac 0 attr_size;
  mret (true, on_last (CopyBytes value) m).
Definition AddMessageIntegrity (key : list byte) (m : StunMessage) : outcome (bool * StunMessage) :=
  AddMessageIntegrityOfType kStunAttrMessageIntegrity kStunMessageIntegritySize key m.
Definition AddMessageIntegrity32 (password : list byte) (m : StunMessage) : outcome (bool * StunMessage) :=
  AddMessageIntegrityOfType kStunAttrGoodMessageInteger32 kStunMessageIntegrity32Size password m.

(** [g_Crc32] and the address of the buffer that is checked. *)
Definition ValidateFingerprint (g_Crc32 : option (Z -> list byte -> outcome Z)) (addr : Z) (data : list byte)
    (size : Z) : outcome bool :=
  let fingerprint_attr_size := kStunAttributeHeaderSize + UInt32_SIZE in
  if negb (size mod 4 =? 0) || (size <? kStunHeaderSize + fingerprint_attr_size) then mret false else
  magic_cookie ← GetBE32_at data (kStunTransactionIdOffset - kStunMagicCookieLength);
  if negb (magic_cookie =? kStunMagicCookie) then mret false else
  let fingerprint_attr_data := size - fingerprint_attr_size in
  type ← GetBE16_at data fingerprint_attr_data;
  if negb (type =? kStunAttrFingerprint) then mret false else
  length ← GetBE16_at data (fingerprint_attr_data + 2);
  if negb (length =? UInt32_SIZE) then mret false else
  fingerprint ← GetBE32_at data (fingerprint_attr_data + kStunAttributeHeaderSize);
  chunk ← mem_read data 0 (size - fingerprint_attr_size);
  c ← Crc32 host_order g_Crc32 addr chunk;
  mret (Z.lxor fingerprint STUN_FINGERPRINT_XOR_VALUE =? c).

Definition IsStunMethod (methods : list Z) (data : list byte) (size : Z) : outcome bool :=
  if negb (size mod 4 =? 0) || (size <? kStunHeaderSize) then mret false else
  magic_cookie ← GetBE32_at data (kStunTransactionIdOffset - kStunMagicCookieLength);
  if negb (magic_cookie =? kStunMagicCookie) then mret false else
  method ← GetBE16_at data 0;
  mret (existsb (fun m => m =? method) methods).

Definition AddFingerprint (g_Crc32 : option (Z -> list byte -> outcome Z)) (addr : Z) (m : StunMessage)
    : outcome (bool * StunMessage) :=
  m ← AddAttribute (StunUInt32Attribute kStunAttrFingerprint 0) m;
  '(ok, data) ← write_new m;
  if negb ok then mret (false, m) else
  let msg_len_for_crc32 := to_int32 (zlen data - kStunAttributeHeaderSize - last_length m) in
  chunk ← mem_read data 0 msg_len_for_crc32;
  c ← Crc32 host_order g_Crc32 addr chunk;
  mret (true, on_last (SetValue (Z.lxor c STUN_FINGERPRINT_XOR_VALUE)) m).

Definition ComputeStunCredentialHash (username realm password : list byte) : outcome (option (list byte)) :=
  let input := username in
  let input := input ++ [byte.of_Z 58] in
  let input := input ++ realm in
  let input := input ++ [byte.of_Z 58] in
  let input := input ++ password in
  '(size, digest) ← ComputeDigest_alg DIGEST_MD5 input (fresh kMaxSize) kMaxSize;
  if size =? 0 then mret None else
  hash ← mem_read digest 0 size;
  mret (Some hash).
End Integrity.

(** ** Reading fields of a message *)

Lemma GetBE_at n data pre v post (get := fun memory => bs ← mem_read memory 0 (Z.of_nat n); mret (to_be host_order n (load host_order bs))) :
  data = pre ++ be_bytes n v ++ post -> 0 <= v < 2 ^ (Z.of_nat n * 8) -> get (zdrop (zlen pre) data) = Ret v.
Proof.
  intros -> Hv. unfold get. rewrite zdrop_app.
  rewrite (mem_read_mid _ [] (be_bytes n v) post) by (done || by rewrite zlen_be_bytes).
  cbn [mbind outcome_bind mret outcome_ret]. f_equal.
  rewrite to_be_load by apply length_be_bytes. by apply be_value_be_bytes.
Qed.

Lemma GetBE16_field data pos pre v post : data = pre ++ be_bytes 2 v ++ post -> zlen pre = pos -> 0 <= v < 2 ^ 16 ->
  GetBE16_at data pos = Ret v.
Proof. intros E <- Hv. by apply (GetBE_at 2 data pre v post). Qed.
Lemma GetBE32_field data pos pre v post : data = pre ++ be_bytes 4 v ++ post -> zlen pre = pos -> 0 <= v < 2 ^ 32 ->
  GetBE32_at data pos = Ret v.
Proof. intros E <- Hv. by apply (GetBE_at 4 data pre v post). Qed.

(** The 20 bytes of the header with a length field [len]. *)
Definition header_bytes (m : StunMessage) (len : Z) : list byte :=
  be_bytes 2 (msg_type m) ++ be_bytes 2 len ++ cookie_bytes m ++ transaction_id_ m.

Lemma zlen_header_bytes m len : IsValidTransactionId (transaction_id_ m) = true ->
  zlen (header_bytes m len) = kStunHeaderSize.
Proof.
  intros Hv. unfold header_bytes, cookie_bytes. rewrite !zlen_app, !zlen_be_bytes.
  destruct (valid_tid_length _ Hv) as [E|E]; rewrite E; [|done].
  change (kStunTransactionIdLength =? kStunLegacyTransactionIdLength) with false. cbv iota. by rewrite zlen_be_bytes.
Qed.

Lemma message_bytes_header m : message_bytes m =
  header_bytes m (msg_length m) ++ attrs_bytes (transaction_id_ m) (attrs_ m).
Proof. unfold message_bytes, header_bytes. by rewrite <- !app_assoc. Qed.

Lemma attrs_bytes_app tid l k : attrs_bytes tid (l ++ k) = attrs_bytes tid l ++ attrs_bytes tid k.
Proof. unfold attrs_bytes. by rewrite map_app, concat_app. Qed.

Lemma attrs_size_mod4 l : attrs_size l mod 4 = 0.
Proof.
  induction l as [|a l IH]; [done|]. cbn [attrs_size foldr]. change (foldr _ 0 l) with (attrs_size l).
  pose proof (padded_range (attr_length a)) as [_ Hp]. Z.div_mod_to_equations; lia.
Qed.

Lemma zdrop_field n v (l : list byte) : zdrop (Z.of_nat n) (be_bytes n v ++ l) = l.
Proof. rewrite <- (zlen_be_bytes n v). apply zdrop_app. Qed.
Lemma ztake_field n v (l : list byte) : ztake (Z.of_nat n) (be_bytes n v ++ l) = be_bytes n v.
Proof. rewrite <- (zlen_be_bytes n v) at 1. apply ztake_app. Qed.

(** ** Searching for an attribute *)

Lemma padded_step n : 0 <= n -> (if negb (n mod 4 =? 0) then n + (4 - n mod 4) else n) = padded n.
Proof. intros Hn. unfold padded. rewrite neg_mod4. destruct (n mod 4 =? 0); cbn [negb]; lia. Qed.

Lemma find_integrity_skip tid t n l fuel data pre post :
  Forall (attr_ok tid) l -> Forall (fun a => attr_type a <> t) l ->
  data = pre ++ attrs_bytes tid l ++ post -> (length l <= fuel)%nat ->
  find_integrity fuel t n data (zlen data) (zlen pre) =
  find_integrity (fuel - length l) t n data (zlen data) (zlen pre + attrs_size l).
Proof.
  intros Hok. revert fuel pre. induction Hok as [|a l Ha Hl IH]; intros fuel pre Ht Hd Hf.
  - cbn [length attrs_size foldr]. by rewrite Nat.sub_0_r, Z.add_0_r.
  - apply Forall_cons_1 in Ht as [Hne Ht]. destruct fuel as [|fuel]; [cbn [length] in Hf; lia|].
    unfold attrs_bytes in Hd. cbn [map concat] in Hd. fold (attrs_bytes tid l) in Hd.
    pose proof (attr_type_range _ _ Ha). pose proof (attr_length_range _ _ Ha). pose proof (zlen_body_bytes tid a Ha) as Hbz.
    pose proof (zlen_nonneg post). pose proof (zlen_nonneg (attrs_bytes tid l)).
    pose proof (padded_range (attr_length a)).
    assert (Hz : zlen data = zlen pre + (4 + padded (attr_length a)) + zlen (attrs_bytes tid l) + zlen post).
    { rewrite Hd, !zlen_app. unfold attr_bytes. rewrite !zlen_app, !zlen_be_bytes, Hbz. lia. }
    unfold attr_bytes in Hd. rewrite <- !app_assoc in Hd.
    cbn [find_integrity]. rewrite (proj2 (Z.leb_le _ _)) by lia.
    rewrite (GetBE16_field data (zlen pre) pre (attr_type a) _ Hd) by done. cbn [mbind outcome_bind].
    rewrite (GetBE16_field data _ (pre ++ be_bytes 2 (attr_type a)) (attr_length a)
      (body_bytes tid a ++ attrs_bytes tid l ++ post)); [|by rewrite <- !app_assoc|by rewrite zlen_app, zlen_be_bytes|done].
    cbn [mbind outcome_bind]. rewrite (proj2 (Z.eqb_neq _ _)) by done.
    assert (Hpos : (if negb (attr_length a mod 4 =? 0)
      then zlen pre + (2 + 2 + attr_length a) + (4 - attr_length a mod 4)
      else zlen pre + (2 + 2 + attr_length a)) = zlen (pre ++ attr_bytes tid a)).
    { unfold attr_bytes. rewrite !zlen_app, !zlen_be_bytes, Hbz, <- padded_step by lia. destruct (negb _); lia. }
    cbv zeta. rewrite Hpos, (IH fuel (pre ++ attr_bytes tid a) Ht).
    + cbn [length attrs_size foldr]. change (foldr _ 0 l) with (attrs_size l). f_equal.
      unfold attr_bytes. rewrite !zlen_app, !zlen_be_bytes, Hbz. lia.
    + unfold attr_bytes. rewrite <- !app_assoc. exact Hd.
    + cbn [length] in Hf. lia.
Qed.

(** ** Checking a message that was written *)

(** What the HMAC covers: the message up to the attribute, with the length
    that the message has when the attribute is its last. *)
Definition covered (m : StunMessage) (before : list StunAttribute) (n : Z) : list byte :=
  header_bytes m (attrs_size before + 4 + n) ++ attrs_bytes (transaction_id_ m) before.

Lemma msg_ok_attrs m : msg_ok m -> Forall (attr_ok (transaction_id_ m)) (attrs_ m).
Proof. intros Hm. eapply List.Forall_impl; [|apply (ok_attrs _ Hm)]. by intros a [? _]. Qed.

Lemma msg_length_range m : msg_ok m -> 0 <= msg_length m < 2 ^ 16.
Proof.
  intros Hm. rewrite (ok_length _ Hm). split; [|apply (ok_fits _ Hm)]. apply attrs_size_nonneg.
  eapply List.Forall_impl; [|apply (msg_ok_attrs _ Hm)]. intros a [_ Ha _]. lia.
Qed.

Section Validate.
Context {m : StunMessage} {l1 l2 : list StunAttribute} {a : StunAttribute} {t n : Z}.
Context (Hm : msg_ok m) (Hattrs : attrs_ m = l1 ++ a :: l2) (Hfirst : Forall (fun b => attr_type b <> t) l1)
  (Ht : attr_type a = t) (Hn : attr_length a = n) (Hn4 : n mod 4 = 0) (Hn20 : 0 <= n <= 20)
  {v : list byte} (Hv : attr_body a = ByteString (Some v)).

Local Notation tid := (transaction_id_ m).
Local Notation data := (message_bytes m).

Lemma parts_ok : Forall (attr_ok tid) l1 /\ attr_ok tid a /\ Forall (attr_ok tid) l2.
Proof.
  pose proof (msg_ok_attrs m Hm) as Hf. rewrite Hattrs in Hf. apply Forall_app in Hf as [? Hf].
  by apply Forall_cons_1 in Hf as [? ?].
Qed.

Lemma integrity_bytes : attr_bytes tid a = be_bytes 2 t ++ be_bytes 2 n ++ ztake n v.
Proof.
  unfold attr_bytes, body_bytes. rewrite Ht, Hn, Hv. cbn [from_option id]. do 2 f_equal.
  unfold padding. rewrite neg_mod4, Hn4. by rewrite app_nil_r.
Qed.

Lemma value_length : zlen (ztake n v) = n.
Proof.
  destruct parts_ok as (_ & Ha & _). pose proof (attr_body_ok _ _ Ha) as Hb. unfold body_ok in Hb.
  rewrite Hv, Hn in Hb. cbn [from_option id] in Hb. apply zlen_ztake. lia.
Qed.

Lemma data_parts : data = (header_bytes m (msg_length m) ++ attrs_bytes tid l1) ++
  be_bytes 2 t ++ be_bytes 2 n ++ ztake n v ++ attrs_bytes tid l2.
Proof.
  rewrite message_bytes_header, Hattrs, attrs_bytes_app. rewrite <- !app_assoc. do 2 f_equal.
  unfold attrs_bytes. cbn [map concat]. by rewrite integrity_bytes, <- !app_assoc.
Qed.

Lemma front_length : zlen (header_bytes m (msg_length m) ++ attrs_bytes tid l1) = 20 + attrs_size l1.
Proof.
  rewrite zlen_app, zlen_header_bytes by apply (ok_tid _ Hm). by rewrite zlen_attrs_bytes by apply parts_ok.
Qed.

Lemma data_length : zlen data = 20 + attrs_size l1 + 4 + n + attrs_size l2.
Proof.
  rewrite data_parts at 1. rewrite zlen_app, front_length, !zlen_app, !zlen_be_bytes, value_length.
  rewrite zlen_attrs_bytes by apply parts_ok. lia.
Qed.

Lemma sizes_range : 0 <= attrs_size l1 /\ 0 <= attrs_size l2 /\ msg_length m = attrs_size l1 + 4 + n + attrs_size l2.
Proof.
  destruct parts_ok as (H1 & _ & H2).
  split; [|split]; try (apply attrs_size_nonneg; eapply List.Forall_impl; [|eassumption]; intros b [_ Hb _]; lia).
  pose proof data_length as Hd. rewrite zlen_message_bytes in Hd by done. unfold kStunHeaderSize in Hd. lia.
Qed.

Lemma found_at : find_integrity (S (Z.to_nat (zlen data))) t n data (zlen data) kStunHeaderSize =
  Ret (Some (20 + attrs_size l1)).
Proof.
  destruct parts_ok as (H1 & Ha & H2). destruct sizes_range as (Hs1 & Hs2 & _). pose proof data_length as Hd.
  assert (Hc : zlen l1 * 4 <= attrs_size l1).
  { apply attrs_size_count. eapply List.Forall_impl; [|exact H1]. intros b [_ Hb _]. lia. }
  unfold zlen in Hc.
  pose proof (find_integrity_skip tid t n l1 (S (Z.to_nat (zlen data))) data (header_bytes m (msg_length m))
    (be_bytes 2 t ++ be_bytes 2 n ++ ztake n v ++ attrs_bytes tid l2) H1 Hfirst) as Hskip.
  rewrite zlen_header_bytes in Hskip by apply (ok_tid _ Hm). rewrite Hskip; [|by rewrite data_parts, <- !app_assoc|lia].
  change (kStunHeaderSize + attrs_size l1) with (20 + attrs_size l1).
  destruct (S (Z.to_nat (zlen data)) - length l1)%nat as [|k] eqn:Ek; [lia|]. cbn [find_integrity].
  rewrite (proj2 (Z.leb_le (20 + attrs_size l1 + 4) _)) by lia.
  pose proof (attr_type_range _ _ Ha). pose proof (attr_length_range _ _ Ha).
  rewrite (GetBE16_field data (20 + attrs_size l1) _ t _ data_parts front_length) by (subst; done).
  cbn [mbind outcome_bind].
  rewrite (GetBE16_field data (20 + attrs_size l1 + 2)
    ((header_bytes m (msg_length m) ++ attrs_bytes tid l1) ++ be_bytes 2 t) n (ztake n v ++ attrs_bytes tid l2));
    [|rewrite data_parts; by rewrite <- !app_assoc|by rewrite zlen_app, front_length, zlen_be_bytes|subst; done].
  cbn [mbind outcome_bind]. rewrite !Z.eqb_refl. cbn [negb orb].
  rewrite Z.gtb_ltb, (proj2 (Z.ltb_ge _ _)) by lia. done.
Qed.

(** The copy of the front with the adjusted length. *)
Lemma adjusted_front : 
  (temp ← mem_read data 0 (20 + attrs_size l1);
   if zlen data >? 20 + attrs_size l1 + kStunAttributeHeaderSize + n then
     let extra_offset := zlen data - (20 + attrs_size l1 + kStunAttributeHeaderSize + n) in
     let new_adjusted_len := zlen data - extra_offset - kStunHeaderSize in
     tail ← SetBE16 host_order (zdrop 2 temp) (wrap16 new_adjusted_len);
     mret (ztake 2 temp ++ tail)
   else mret temp) = Ret (covered m l1 n).
Proof.
  destruct sizes_range as (Hs1 & Hs2 & Hlen). pose proof data_length as Hd. pose proof (msg_length_range m Hm).
  rewrite (mem_read_mid data [] _ _ 0 (20 + attrs_size l1) data_parts) by (done || by rewrite front_length).
  cbn [mbind outcome_bind]. unfold kStunAttributeHeaderSize, kStunHeaderSize.
  rewrite Z.gtb_ltb. destruct (Z.ltb_spec (20 + attrs_size l1 + 4 + n) (zlen data)) as [Hgt|Hle].
  - replace (zlen data - (zlen data - (20 + attrs_size l1 + 4 + n)) - 20) with (attrs_size l1 + 4 + n) by lia.
    cbv zeta. rewrite wrap16_small by lia. unfold header_bytes at 1 2. rewrite <- !app_assoc.
    rewrite (zdrop_field 2), (ztake_field 2). unfold SetBE16.
    rewrite store_to_be. rewrite mem_write_ok; [|done|rewrite !zlen_app, !zlen_be_bytes;
      pose proof (zlen_nonneg (cookie_bytes m ++ tid ++ attrs_bytes tid l1)); rewrite !zlen_app in *; lia].
    cbn [mbind outcome_bind mret outcome_ret]. f_equal. unfold splice, covered, header_bytes.
    rewrite ztake_0. cbn [app]. by rewrite <- !app_assoc.
  - cbn [mret outcome_ret]. unfold covered. do 3 f_equal. lia.
Qed.

Lemma Validate_written `{Heap} pw : zlen pw < 2 ^ 61 ->
  ValidateMessageIntegrityOfType t n data (zlen data) pw =
  Ret (bool_decide (ztake n v = ztake n (hmac sha1 pw (covered m l1 n)))).
Proof.
  intros Hpw. unfold ValidateMessageIntegrityOfType. 
  assert (Hle : (n <=? kStunMessageIntegritySize) = true) by (apply Z.leb_le; unfold kStunMessageIntegritySize; lia).
  rewrite Hle. cbn [assert_that mbind outcome_bind].
  destruct sizes_range as (Hs1 & Hs2 & Hlen). pose proof data_length as Hd. pose proof (msg_length_range m Hm) as Hr.
  assert (H4 : zlen data mod 4 = 0).
  { rewrite Hd. pose proof (attrs_size_mod4 l1). pose proof (attrs_size_mod4 l2). Z.div_mod_to_equations; lia. }
  rewrite H4. cbn [Z.eqb negb orb]. rewrite (proj2 (Z.ltb_ge (zlen data) kStunHeaderSize)) by (unfold kStunHeaderSize; lia).
  rewrite (GetBE16_field data 2 (be_bytes 2 (msg_type m)) (msg_length m)
    (cookie_bytes m ++ tid ++ attrs_bytes tid (attrs_ m))) by (done || by rewrite zlen_be_bytes).
  cbn [mbind outcome_bind]. rewrite (proj2 (Z.eqb_eq (zlen data) (msg_length m + kStunHeaderSize))) by (unfold kStunHeaderSize; lia). cbn [negb].
  rewrite found_at. cbn [mbind outcome_bind].
  pose proof adjusted_front as Hadj.
  destruct (mem_read data 0 (20 + attrs_size l1)) as [temp|]; [|done]. cbn [mbind outcome_bind] in Hadj |- *.
  rewrite Hadj. cbn [mbind outcome_bind].
  assert (Hcl : zlen (covered m l1 n) = 20 + attrs_size l1).
  { unfold covered. rewrite zlen_app, zlen_header_bytes by apply (ok_tid _ Hm). by rewrite zlen_attrs_bytes by apply parts_ok. }
  rewrite ComputeHmac_sha1; [|done|lia|by apply (fresh_length 20)].
  cbn [mbind outcome_bind]. unfold kStunMessageIntegritySize. cbn [Z.eqb Pos.eqb assert_that mbind outcome_bind negb].
  rewrite (mem_read_mid data ((header_bytes m (msg_length m) ++ attrs_bytes tid l1) ++ be_bytes 2 t ++ be_bytes 2 n)
    (ztake n v) (attrs_bytes tid l2)); [|rewrite data_parts; by rewrite <- !app_assoc| |by rewrite value_length].
  2: { rewrite zlen_app, front_length, zlen_app, !zlen_be_bytes. done. }
  cbn [mbind outcome_bind]. rewrite mem_read_ok by (unfold hmac; rewrite ?zlen_sha1; unfold SHA1_DIGEST_SIZE; lia).
  by rewrite zdrop_0.
Qed.
End Validate.

(** ** Adding the attributes *)

(** The message with one more attribute, and its length. *)
Definition extended (m : StunMessage) (a : StunAttribute) : StunMessage :=
  set_attrs (attrs_ m ++ [a]) (set_length (msg_length m + 4 + attr_length a) m).

(** A message that goes on behind [m] with more attributes. *)
Definition continues (m m' : StunMessage) : Prop :=
  msg_class m' = msg_class m /\ msg_type m' = msg_type m /\ transaction_id_ m' = transaction_id_ m /\
  stun_magic_cookie_ m' = stun_magic_cookie_ m /\ exists extra, attrs_ m' = attrs_ m ++ extra.

Section Extend.
Context {m : StunMessage} {a : StunAttribute} (Hm : msg_ok m) (Ha : attr_ok (transaction_id_ m) a)
  (H4 : attr_length a mod 4 = 0) (Hknown : value_type a = read_type (msg_class m) (attr_type a))
  (Hroom : attrs_size (attrs_ m) + 4 + attr_length a < 2 ^ 16).

Lemma extended_ok : msg_ok (extended m a).
Proof.
  assert (Hp : padded (attr_length a) = attr_length a) by (unfold padded; rewrite neg_mod4, H4; cbn; lia).
  assert (Hs : attrs_size (attrs_ m ++ [a]) = attrs_size (attrs_ m) + 4 + attr_length a)
    by (rewrite attrs_size_app, attrs_size_one, Hp; lia).
  destruct Hm. split; try done; cbn [extended set_attrs set_length msg_length attrs_ msg_class transaction_id_].
  - by rewrite Hs, ok_length.
  - by rewrite Hs.
  - apply Forall_app. split; [done|]. by constructor.
Qed.

Lemma AddAttribute_extends : SetOwner true a = a ->
  (DesignatedExpertRange (attr_type a) = true \/ value_type a = GetAttributeValueType (msg_class m) (attr_type a)) ->
  AddAttribute a m = Ret (extended m a).
Proof.
  intros Ho Hv. unfold AddAttribute, extended. rewrite Ho, attr_space_padded.
  assert (Hp : padded (attr_length a) = attr_length a) by (unfold padded; rewrite neg_mod4, H4; cbn; lia).
  pose proof (attr_length_range _ _ Ha). pose proof (msg_length_range m Hm). pose proof (ok_length _ Hm).
  rewrite Hp, (wrap16_small (4 + _)), wrap16_small, Z.add_assoc by lia.
  destruct (DesignatedExpertRange (attr_type a)); cbn [negb]; [done|].
  destruct Hv as [Hv|Hv]; [done|]. rewrite bool_decide_true by done. done.
Qed.
End Extend.

Lemma write_new_ok `{Heap} m : msg_ok m -> write_new m = Ret (true, message_bytes m).
Proof.
  intros Hm. unfold write_new.
  destruct (post_inv _ _ ByteBufferWriter_ok) as (b & -> & Hb & Hc). cbn [mbind outcome_bind].
  destruct (post_inv _ _ (Message_Write_sends (H := BufferT_class false) m Hm b [] (conj Hb Hc)))
    as ([ok b'] & -> & -> & Hb' & Hc'). cbn [mbind outcome_bind mret outcome_ret app] in *. by rewrite Hc'.
Qed.

Lemma on_last_app f m a : on_last f (extended m a) = set_attrs (attrs_ m ++ [f a]) (extended m a).
Proof. unfold on_last, extended. cbn [attrs_ set_attrs]. rewrite rev_app_distr. cbn [rev app]. by rewrite rev_involutive. Qed.

Lemma last_length_app m a : last_length (extended m a) = attr_length a.
Proof. unfold last_length, extended. cbn [attrs_ set_attrs]. by rewrite rev_app_distr. Qed.

(** The front of a message that was extended by one attribute. *)
Lemma extended_front m a : msg_ok m -> msg_ok (extended m a) -> attr_ok (transaction_id_ m) a -> attr_length a mod 4 = 0 ->
  mem_read (message_bytes (extended m a)) 0
    (to_int32 (zlen (message_bytes (extended m a)) - kStunAttributeHeaderSize - attr_length a)) =
  Ret (covered m (attrs_ m) (attr_length a)).
Proof.
  intros Hm Hx Ha H4. rewrite zlen_message_bytes by done. cbn [extended set_attrs set_length msg_length].
  pose proof (msg_length_range m Hm). unfold kStunHeaderSize, kStunAttributeHeaderSize.
  assert (Ht : to_int32 (20 + (msg_length m + 4 + attr_length a) - 4 - attr_length a) = 20 + msg_length m).
  { unfold to_int32. rewrite wrap32_small by lia. rewrite (proj2 (Z.ltb_lt _ _)) by lia. lia. }
  rewrite Ht. apply (mem_read_mid _ [] _ (attr_bytes (transaction_id_ m) a)); [|done|].
  - rewrite message_bytes_header. cbn [extended set_attrs set_length msg_length attrs_ transaction_id_ app].
    rewrite attrs_bytes_app. unfold covered. rewrite (ok_length _ Hm), <- app_assoc. do 2 f_equal.
    unfold attrs_bytes. cbn [map concat]. by rewrite app_nil_r.
  - unfold covered. rewrite zlen_app, zlen_header_bytes, zlen_attrs_bytes by (apply (ok_tid _ Hm) || by apply msg_ok_attrs).
    by rewrite (ok_length _ Hm).
Qed.

(** The two attributes that hold an HMAC, with the size of their values. *)
Definition integrity_types : list (Z * Z) :=
  [(kStunAttrMessageIntegrity, kStunMessageIntegritySize); (kStunAttrGoodMessageInteger32, kStunMessageIntegrity32Size)].

Lemma integrity_type_cases t n c : In (t, n) integrity_types ->
  n mod 4 = 0 /\ 0 <= n <= 20 /\ 0 <= t < 2 ^ 16 /\ kStunAttrValueByteString = read_type c t /\
  (DesignatedExpertRange t = true \/ kStunAttrValueByteString = GetAttributeValueType c t).
Proof.
  intros [E|[E|[]]]; injection E as <- <-; (split; [done|]); (split; [split; done|]); (split; [done|]);
    destruct c; (split; [reflexivity|]); [by right..|by left|by left|by left|by left].
Qed.

Definition integrity_attr (t n : Z) (v : list byte) : StunAttribute := mkAttribute t n (ByteString (Some v)).

Lemma integrity_attr_ok tid t n v : 0 <= t < 2 ^ 16 -> 0 <= n <= 20 -> zlen v = n -> attr_ok tid (integrity_attr t n v).
Proof. intros Ht Hn Hv. split; [done|cbn; lia|]. unfold body_ok. cbn. lia. Qed.

Lemma AddMessageIntegrity_ok `{Heap} m t n key : msg_ok m -> In (t, n) integrity_types ->
  attrs_size (attrs_ m) + 4 + n < 2 ^ 16 -> zlen key < 2 ^ 61 ->
  let m' := extended m (integrity_attr t n (ztake n (hmac sha1 key (covered m (attrs_ m) n)))) in
  AddMessageIntegrityOfType t n key m = Ret (true, m') /\ msg_ok m'.
Proof.
  intros Hm Hin Hroom Hkey. destruct (integrity_type_cases t n (msg_class m) Hin) as (H4 & H20 & Ht & Hr & Hv).
  assert (Hok : forall v, zlen v = n -> msg_ok (extended m (integrity_attr t n v))).
  { intros v Hvl. apply extended_ok; try done. by apply integrity_attr_ok. }
  assert (Hval : zlen (ztake n (hmac sha1 key (covered m (attrs_ m) n))) = n)
    by (apply zlen_ztake; unfold hmac; rewrite zlen_sha1; unfold SHA1_DIGEST_SIZE; lia).
  set (dummy := replicate (Z.to_nat n) (byte.of_Z 48)).
  assert (Hdl : zlen dummy = n) by (apply zlen_replicate; lia).
  assert (Hattr : StunByteStringAttribute t dummy = integrity_attr t n dummy).
  { unfold StunByteStringAttribute, CopyBytes, SetBytes, SetLength, integrity_attr. cbn [attr_type attr_body with_body CreateByteString].
    rewrite Hdl, wrap16_small by lia. done. }
  cbv zeta. split; [|by apply Hok]. unfold AddMessageIntegrityOfType. fold dummy.
  assert (Hle : (n <=? kStunMessageIntegritySize) = true) by (apply Z.leb_le; unfold kStunMessageIntegritySize; lia).
  rewrite Hle. cbn [assert_that mbind outcome_bind].
  rewrite Hattr, AddAttribute_extends by (done || by apply integrity_attr_ok). cbn [mbind outcome_bind].
  rewrite write_new_ok by by apply Hok. cbn [mbind outcome_bind negb]. rewrite last_length_app.
  rewrite extended_front by (done || by apply Hok || by apply integrity_attr_ok). cbn [mbind outcome_bind].
  change (attr_length (integrity_attr t n dummy)) with n.
  assert (Hcl : 64 + zlen (covered m (attrs_ m) n) < 2 ^ 61).
  { unfold covered. rewrite zlen_app, zlen_header_bytes, zlen_attrs_bytes by (apply (ok_tid _ Hm) || by apply msg_ok_attrs).
    unfold kStunHeaderSize. lia. }
  rewrite ComputeHmac_sha1; [|done|done|by apply (fresh_length 20)].
  cbn [mbind outcome_bind]. unfold kStunMessageIntegritySize. cbn [Z.eqb Pos.eqb assert_that mbind outcome_bind negb].
  rewrite mem_read_ok by (unfold hmac; rewrite ?zlen_sha1; unfold SHA1_DIGEST_SIZE; lia). rewrite zdrop_0.
  cbn [mbind outcome_bind mret outcome_ret]. rewrite on_last_app. do 2 f_equal.
  unfold extended, integrity_attr, CopyBytes, SetBytes, SetLength. cbn [attr_type attr_length attr_body with_body].
  rewrite Hval, wrap16_small by lia. done.
Qed.

(** C10: MESSAGE-INTEGRITY (20 bytes, and its 4-byte variant) over the wire:
    [AddMessageIntegrity] answers [true] for every well-formed message with
    room for the attribute, and its bytes, with any further attributes
    written behind them, are accepted by [ValidateMessageIntegrity] under a
    password exactly when the (truncated) HMAC-SHA-1 of the covered part under
    that password is the one under the key, so always under the key itself.
    No check reads outside the message. *)
Theorem message_integrity `{Heap} (m : StunMessage) (t n : Z) (key password : list byte) :
  In (t, n) integrity_types -> msg_ok m -> Forall (fun a => attr_type a <> t) (attrs_ m) ->
  attrs_size (attrs_ m) + 4 + n < 2 ^ 16 -> zlen key < 2 ^ 61 -> zlen password < 2 ^ 61 ->
  exists m', AddMessageIntegrityOfType t n key m = Ret (true, m') /\ msg_ok m' /\
    forall sent, msg_ok sent -> continues m' sent ->
      let bytes := message_bytes sent in
      ValidateMessageIntegrityOfType t n bytes (zlen bytes) key = Ret true /\
      ValidateMessageIntegrityOfType t n bytes (zlen bytes) password =
        Ret (bool_decide (ztake n (hmac sha1 key (covered m (attrs_ m) n)) =
                          ztake n (hmac sha1 password (covered m (attrs_ m) n)))).
Proof.
  intros Hin Hm Hnew Hroom Hkey Hpw. destruct (integrity_type_cases t n (msg_class m) Hin) as (H4 & H20 & _).
  destruct (AddMessageIntegrity_ok m t n key Hm Hin Hroom Hkey) as [-> Hok]. eexists. split; [reflexivity|].
  split; [exact Hok|]. intros sent Hs (_ & Hty & Htid & Hck & extra & Hat). cbv zeta.
  cbn [extended set_attrs set_length attrs_ msg_type transaction_id_ stun_magic_cookie_] in *.
  rewrite <- app_assoc in Hat. cbn [app] in Hat.
  assert (Hcov : covered sent (attrs_ m) n = covered m (attrs_ m) n).
  { unfold covered, header_bytes, cookie_bytes. by rewrite Hty, Htid, Hck. }
  rewrite !(Validate_written (t := t) (n := n) Hs Hat Hnew eq_refl eq_refl H4 H20 eq_refl) by done.
  rewrite Hcov, ztake_ztake by lia. split; [by rewrite bool_decide_true|done].
Qed.

Definition other_password : list byte := map byte.of_Z [112; 119].
Lemma message_integrity_witness :
  exists m', AddMessageIntegrityOfType (H := example_heap) kStunAttrMessageIntegrity 20 [Byte.x6b] example_message = Ret (true, m') /\
    msg_ok m' /\ forall sent, msg_ok sent -> continues m' sent ->
      let bytes := message_bytes sent in
      ValidateMessageIntegrityOfType (H := example_heap) kStunAttrMessageIntegrity 20 bytes (zlen bytes) [Byte.x6b] = Ret true /\
      ValidateMessageIntegrityOfType (H := example_heap) kStunAttrMessageIntegrity 20 bytes (zlen bytes) other_password =
        Ret (bool_decide (ztake 20 (hmac sha1 [Byte.x6b] (covered example_message (attrs_ example_message) 20)) =
                          ztake 20 (hmac sha1 other_password (covered example_message (attrs_ example_message) 20)))).
Proof.
  apply (message_integrity (H := example_heap) example_message kStunAttrMessageIntegrity 20 [Byte.x6b] other_password).
  - left. reflexivity.
  - apply example_message_ok.
  - repeat (constructor; [vm_compute; congruence|]). constructor.
  - vm_compute. reflexivity.
  - vm_compute. reflexivity.
  - vm_compute. reflexivity.
Defined.

(** ** Fingerprints *)

(** [g_Crc32] as the program leaves it: not set, or set by [checksum_init]. *)
Definition crc_ready (g : option (Z -> list byte -> outcome Z)) : Prop :=
  g = None \/ exists u8 u64 ecx, crc_instructions u8 u64 /\ g = Some (checksum_init u8 u64 ecx).

Lemma Crc32_ready g addr chunk : crc_ready g -> zlen chunk < 2 ^ 35 -> Crc32 host_order g addr chunk = Ret (crc32c chunk).
Proof.
  intros [->|(u8 & u64 & ecx & Hcpu & ->)] Hl; unfold Crc32; [by apply checksum_sw_ok|].
  unfold checksum_init. destruct (negb _); [by apply checksum_hw_ok|by apply checksum_sw_ok].
Qed.

Lemma crc32c_range l : 0 <= crc32c l < 2 ^ 32.
Proof. apply wrap32_range. Qed.

Lemma zlen_front m before n : msg_ok m -> Forall (attr_ok (transaction_id_ m)) before ->
  zlen (covered m before n) = 20 + attrs_size before.
Proof.
  intros Hm Hb. unfold covered. rewrite zlen_app, zlen_header_bytes, zlen_attrs_bytes by (done || apply (ok_tid _ Hm)).
  done.
Qed.

(** A written message that ends with a fingerprint. *)
Lemma ValidateFingerprint_written g addr m v : msg_ok m -> 0 <= v < 2 ^ 32 -> crc_ready g ->
  attrs_size (attrs_ m) + 8 < 2 ^ 16 -> zlen (transaction_id_ m) = kStunTransactionIdLength ->
  let sent := extended m (StunUInt32Attribute kStunAttrFingerprint v) in
  ValidateFingerprint g addr (message_bytes sent) (zlen (message_bytes sent)) =
    Ret (Z.lxor v STUN_FINGERPRINT_XOR_VALUE =? crc32c (covered m (attrs_ m) 4)).
Proof.
  intros Hm Hv Hg Hroom Htid sent.
  assert (Hfp : kStunAttrValueUInt32 = read_type (msg_class m) kStunAttrFingerprint) by by destruct (msg_class m).
  assert (Ha : attr_ok (transaction_id_ m) (StunUInt32Attribute kStunAttrFingerprint v)) by (split; [done|done|by split]).
  assert (Hs : msg_ok sent) by (apply extended_ok; try done; change (attr_length _) with 4; lia).
  set (front := covered m (attrs_ m) 4).
  assert (Hd : message_bytes sent = front ++ be_bytes 2 kStunAttrFingerprint ++ be_bytes 2 4 ++ be_bytes 4 v).
  { unfold sent, front, covered. rewrite message_bytes_header.
    cbn [extended set_attrs set_length msg_length attrs_ transaction_id_].
    by rewrite attrs_bytes_app, (ok_length _ Hm), <- app_assoc. }
  assert (Hf : zlen front = 20 + attrs_size (attrs_ m)) by (apply zlen_front; [done|by apply msg_ok_attrs]).
  pose proof (msg_length_range m Hm) as Hr. rewrite (ok_length _ Hm) in Hr.
  assert (Hz : zlen (message_bytes sent) = 20 + attrs_size (attrs_ m) + 8)
    by (rewrite Hd, !zlen_app, !zlen_be_bytes, Hf; lia).
  unfold ValidateFingerprint. change (kStunAttributeHeaderSize + UInt32_SIZE) with 8. rewrite Hz.
  assert (Hmod : (20 + attrs_size (attrs_ m) + 8) mod 4 = 0)
    by (pose proof (attrs_size_mod4 (attrs_ m)); Z.div_mod_to_equations; lia).
  rewrite Hmod, (proj2 (Z.ltb_ge _ (kStunHeaderSize + 8))) by (unfold kStunHeaderSize; lia). cbn [Z.eqb negb orb].
  assert (Hck : GetBE32_at (message_bytes sent) (kStunTransactionIdOffset - kStunMagicCookieLength) = Ret kStunMagicCookie).
  { apply (GetBE32_field _ _ (be_bytes 2 (msg_type m) ++ be_bytes 2 (attrs_size (attrs_ m) + 4 + 4)) _
      (transaction_id_ m ++ attrs_bytes (transaction_id_ m) (attrs_ m) ++
       be_bytes 2 kStunAttrFingerprint ++ be_bytes 2 4 ++ be_bytes 4 v)); [|by rewrite zlen_app, !zlen_be_bytes|done].
    rewrite Hd. unfold front, covered, header_bytes, cookie_bytes. rewrite Htid.
    change (kStunTransactionIdLength =? kStunLegacyTransactionIdLength) with false. cbv iota.
    rewrite (ok_cookie _ Hm Htid). by rewrite <- !app_assoc. }
  rewrite Hck. cbn [mbind outcome_bind]. rewrite Z.eqb_refl. cbn [negb].
  replace (20 + attrs_size (attrs_ m) + 8 - 8) with (20 + attrs_size (attrs_ m)) by lia.
  rewrite (GetBE16_field _ (20 + attrs_size (attrs_ m)) front kStunAttrFingerprint _ Hd) by done.
  cbn [mbind outcome_bind]. rewrite Z.eqb_refl. cbn [negb].
  rewrite (GetBE16_field _ (20 + attrs_size (attrs_ m) + 2) (front ++ be_bytes 2 kStunAttrFingerprint) 4 (be_bytes 4 v));
    [|rewrite Hd; by rewrite <- !app_assoc|by rewrite zlen_app, Hf, zlen_be_bytes|done].
  cbn [mbind outcome_bind]. change (4 =? UInt32_SIZE) with true. cbn [negb].
  rewrite (GetBE32_field _ _ (front ++ be_bytes 2 kStunAttrFingerprint ++ be_bytes 2 4) v []);
    [|rewrite Hd; by rewrite <- !app_assoc, app_nil_r|rewrite !zlen_app, Hf, !zlen_be_bytes; done|done].
  cbn [mbind outcome_bind]. rewrite (mem_read_mid _ [] front _ 0 _ Hd) by (done || by rewrite Hf).
  cbn [mbind outcome_bind]. rewrite Crc32_ready by (done || (rewrite Hf; lia)). done.
Qed.

(** C18: FINGERPRINT over the wire: [AddFingerprint] answers [true] for every
    well-formed message with room for it, and [ValidateFingerprint] accepts
    the bytes of the message, wherever they are in memory and whatever
    checksum routine the program chose; of the messages that end with a
    fingerprint it accepts exactly the one with this value. *)
Theorem fingerprint `{Heap} (g : option (Z -> list byte -> outcome Z)) (addr addr' : Z) (m : StunMessage) (v : Z) :
  crc_ready g -> msg_ok m -> zlen (transaction_id_ m) = kStunTransactionIdLength ->
  attrs_size (attrs_ m) + 8 < 2 ^ 16 -> 0 <= v < 2 ^ 32 ->
  let crc := crc32c (covered m (attrs_ m) 4) in
  let with_value x := extended m (StunUInt32Attribute kStunAttrFingerprint x) in
  let right := Z.lxor crc STUN_FINGERPRINT_XOR_VALUE in
  AddFingerprint g addr m = Ret (true, with_value right) /\ msg_ok (with_value right) /\
  ValidateFingerprint g addr' (message_bytes (with_value v)) (zlen (message_bytes (with_value v))) = Ret (v =? right).
Proof.
  intros Hg Hm Htid Hroom Hv crc with_value right.
  assert (Hfp : kStunAttrValueUInt32 = read_type (msg_class m) kStunAttrFingerprint /\
    kStunAttrValueUInt32 = GetAttributeValueType (msg_class m) kStunAttrFingerprint) by by destruct (msg_class m).
  assert (Hattr : forall x, 0 <= x < 2 ^ 32 -> attr_ok (transaction_id_ m) (StunUInt32Attribute kStunAttrFingerprint x))
    by (intros x Hx; split; [done|done|by split]).
  assert (Hok : forall x, 0 <= x < 2 ^ 32 -> msg_ok (with_value x)).
  { intros x Hx. apply extended_ok; [done|by apply Hattr|done|apply Hfp|change (attr_length _) with 4; lia]. }
  assert (Hright : 0 <= right < 2 ^ 32) by (apply (lxor_range _ _ 32); [lia|apply crc32c_range|done]).
  split; [|split; [by apply Hok|]].
  - unfold AddFingerprint.
    rewrite AddAttribute_extends by (done || (by apply Hattr) || (by right; apply Hfp) || (change (attr_length _) with 4; lia)).
    cbn [mbind outcome_bind]. rewrite write_new_ok by by apply (Hok 0).
    cbn [mbind outcome_bind negb]. rewrite last_length_app, extended_front by (done || by apply (Hok 0) || by apply Hattr).
    cbn [mbind outcome_bind]. rewrite Crc32_ready; [|done|].
    + cbn [mbind outcome_bind mret outcome_ret]. by rewrite on_last_app.
    + rewrite zlen_front by (done || by apply msg_ok_attrs). lia.
  - unfold with_value. rewrite ValidateFingerprint_written by done. fold crc. f_equal.
    destruct (Z.eqb_spec v right) as [->|Hne].
    + apply Z.eqb_eq. unfold right. by rewrite Z.lxor_assoc, Z.lxor_nilpotent, Z.lxor_0_r.
    + apply Z.eqb_neq. intros E. apply Hne. unfold right. rewrite <- E.
      by rewrite Z.lxor_assoc, Z.lxor_nilpotent, Z.lxor_0_r.
Qed.

Definition example_crc : Z := crc32c (covered example_message (attrs_ example_message) 4).
Definition fingerprinted (x : Z) : StunMessage := extended example_message (StunUInt32Attribute kStunAttrFingerprint x).

Lemma fingerprint_witness :
  AddFingerprint (H := example_heap) None 1 example_message =
    Ret (true, fingerprinted (Z.lxor example_crc STUN_FINGERPRINT_XOR_VALUE)) /\
  msg_ok (fingerprinted (Z.lxor example_crc STUN_FINGERPRINT_XOR_VALUE)) /\
  ValidateFingerprint None 2 (message_bytes (fingerprinted 5)) (zlen (message_bytes (fingerprinted 5))) =
    Ret (5 =? Z.lxor example_crc STUN_FINGERPRINT_XOR_VALUE).
Proof.
  apply (fingerprint (H := example_heap) None 1 2 example_message 5).
  - left. reflexivity.
  - apply example_message_ok.
  - reflexivity.
  - vm_compute. reflexivity.
  - lia.
Defined.

(** ** Long-term credentials *)

(** The key of RFC 5389 section 15.4: MD5(username ":" realm ":" password). *)
Lemma ComputeStunCredentialHash_ok `{Heap} username realm password :
  zlen (username ++ realm ++ password) + 2 < 2 ^ 61 ->
  ComputeStunCredentialHash username realm password =
    Ret (Some (md5 (username ++ [byte.of_Z 58] ++ realm ++ [byte.of_Z 58] ++ password))).
Proof.
  intros Hl. unfold ComputeStunCredentialHash, ComputeDigest_alg. rewrite <- !app_assoc.
  destruct Create_digest_ok as [_ (d & -> & Hd)].
  destruct (ComputeDigest_ok d md5 16 [] (username ++ [byte.of_Z 58] ++ realm ++ [byte.of_Z 58] ++ password)
    (fresh kMaxSize) kMaxSize Hd) as (d' & -> & _).
  - cbn [app]. rewrite zlen_app, zlen_cons, zlen_app, zlen_cons. rewrite !zlen_app in Hl. lia.
  - unfold kMaxSize. lia.
  - rewrite (fresh_length kMaxSize) by (unfold kMaxSize; lia). unfold kMaxSize. lia.
  - cbn [mbind outcome_bind mret outcome_ret Z.eqb app]. set (h := md5 _). pose proof (zlen_md5 (username ++ byte.of_Z 58 :: realm ++ byte.of_Z 58 :: password)) as Hz.
    fold h in Hz. unfold Md5Digest_size in Hz. pose proof (fresh_length kMaxSize ltac:(unfold kMaxSize; lia)) as Hfr. unfold kMaxSize in *.
    rewrite mem_read_ok by (rewrite ?zlen_splice by lia; lia). rewrite zdrop_0. cbn [mbind outcome_bind mret outcome_ret].
    do 2 f_equal. unfold splice. rewrite ztake_0. cbn [app]. rewrite <- Hz at 1. apply ztake_app.
Qed.
