(* ===== verification/AsyncTcpSocket.v ===== *)
(** * network/stun/async_tcp_socket.cc and async_stun_tcp_socket.cc: packets over TCP

    [AsyncTCPSocketBase] keeps an input and an output buffer around a stream
    socket; its two subclasses cut the stream into packets, with a 16-bit
    length in front ([AsyncTCPSocket]) or by the length field of a STUN or
    ChannelData message ([AsyncStunTCPSocket]).  The stream socket below is
    the interface [AsyncSocket]: what its [Send] and [Recv] answer is a list
    of answers that are used up one by one, and it blocks when there are none.
    A call returns what it signals.  Time stamps of packets are left out.

    [NDEBUG] says whether the assertions of these files are compiled in. *)

From Stdlib Require Import ZArith Lia.
From S2P Require Import Prelude ByteOrder ConstBuffer IpAddress SocketAddress StunMessage.
Local Open Scope Z_scope.
Local Open Scope list_scope.

Definition kMaxPacketSize : Z := 64 * 1024.
Definition kPacketLenSize : Z := 2.
Definition kMinimumRecvSize : Z := 128.
Definition kPacketLenOffset : Z := 2.
Definition kTurnChannelDataHdrSize : Z := 4.
(** The two files define it differently. *)
Definition kBufSize : Z := kMaxPacketSize + kPacketLenSize.
Definition stun_kBufSize : Z := kMaxPacketSize + kStunHeaderSize.

(** <errno.h> *)
Definition EWOULDBLOCK : Z := 11.
Definition EMSGSIZE : Z := 90.
Definition ENOTCONN : Z := 107.

(** ** The stream socket *)

(** [Takes n]: the socket takes up to [n] bytes; [Claims res]: it says it took [res]. *)
Inductive send_answer : Type :=
| Takes (n : positive)
| SendFails (err : Z)
| Claims (res err : Z).
Inductive recv_answer : Type :=
| Arrives (data : list byte)
| RecvFails (err : Z).

Inductive ConnState : Type := CS_CLOSED | CS_CONNECTING | CS_CONNECTED.
Record AsyncSocket : Type := mkSocket {
  sends : list send_answer;
  arrived : list recv_answer;
  wire : list byte;
  sock_error : Z;
  sock_state : ConnState;
  remote_address : SocketAddress
}.
Definition set_error (err : Z) (s : AsyncSocket) : AsyncSocket :=
  mkSocket (sends s) (arrived s) (wire s) err (sock_state s) (remote_address s).

Definition socket_Send (data : list byte) (s : AsyncSocket) : Z * AsyncSocket :=
  match sends s with
  | [] => (-1, set_error EWOULDBLOCK s)
  | Takes n :: rest =>
      let took := ztake (Zpos n) data in
      (zlen took, mkSocket rest (arrived s) (wire s ++ took) (sock_error s) (sock_state s) (remote_address s))
  | SendFails err :: rest => (-1, mkSocket rest (arrived s) (wire s) err (sock_state s) (remote_address s))
  | Claims res err :: rest => (res, mkSocket rest (arrived s) (wire s) err (sock_state s) (remote_address s))
  end.
Definition set_arrived (l : list recv_answer) (err : Z) (s : AsyncSocket) : AsyncSocket :=
  mkSocket (sends s) l (wire s) err (sock_state s) (remote_address s).
Definition socket_Recv (length : Z) (s : AsyncSocket) : Z * list byte * AsyncSocket :=
  match arrived s with
  | [] => (-1, [], set_error EWOULDBLOCK s)
  | RecvFails err :: rest => (-1, [], set_arrived rest err s)
  | Arrives data :: rest =>
      let got := ztake length data in
      (zlen got, got, set_arrived (if length <? zlen data then Arrives (zdrop length data) :: rest else rest) (sock_error s) s)
  end.

(** ** AsyncTCPSocketBase *)

Inductive State : Type := STATE_CLOSED | STATE_BINDING | STATE_BOUND | STATE_CONNECTING | STATE_CONNECTED.
Inductive signal : Type :=
| ReadPacket (data : list byte) (remote : SocketAddress)
| SentPacket (packet_id : Z)
| ReadyToSend
| Connected
| Closed (error : Z)
| NewConnection (socket : Z)
(** [new_socket->SignalReadEvent(new_socket)] *)
| PrimeRead (socket : Z).

Record AsyncTCPSocketBase : Type := mkTcp {
  socket_ : AsyncSocket; listen_ : bool; inbuf_ : BufferT; outbuf_ : BufferT; max_insize_ : Z; max_outsize_ : Z
}.
Definition set_outbuf (s : AsyncSocket) (b : BufferT) (t : AsyncTCPSocketBase) : AsyncTCPSocketBase :=
  mkTcp s (listen_ t) (inbuf_ t) b (max_insize_ t) (max_outsize_ t).
Definition set_inbuf (s : AsyncSocket) (b : BufferT) (t : AsyncTCPSocketBase) : AsyncTCPSocketBase :=
  mkTcp s (listen_ t) b (outbuf_ t) (max_insize_ t) (max_outsize_ t).

Section Base.
Context `{Heap} (NDEBUG : bool).

Definition dcheck (b : bool) : outcome unit := if NDEBUG then mret tt else assert_that b.
Definition view_check (size : Z) : outcome unit := if NDEBUG then mret tt else ArrayView_new size.

(** The socket is destroyed when a call fails. *)
Definition ConnectSocket (socket : AsyncSocket) (bind_result connect_result : Z) : option AsyncSocket :=
  if bind_result <? 0 then None else if connect_result <? 0 then None else Some socket.

(** Without assertions the null pointer is followed. *)
Definition AsyncTCPSocketBase_new (socket : option AsyncSocket) (listen : bool) (max_packet_size : Z) : outcome AsyncTCPSocketBase :=
  inbuf ← (if negb listen then EnsureCapacity false BufferT_empty kMinimumRecvSize else mret BufferT_empty);
  dcheck (bool_decide (is_Some socket));;
  match socket with
  | None => Crash UndefinedBehaviour
  | Some s => mret (mkTcp s listen inbuf BufferT_empty max_packet_size max_packet_size)
  end.

Definition GetRemoteAddress (t : AsyncTCPSocketBase) : SocketAddress := remote_address (socket_ t).
Definition Tcp_GetState (t : AsyncTCPSocketBase) : State :=
  match sock_state (socket_ t) with
  | CS_CLOSED => STATE_CLOSED
  | CS_CONNECTING => if listen_ t then STATE_BOUND else STATE_CONNECTING
  | CS_CONNECTED => STATE_CONNECTED
  end.
Definition SetError (err : Z) (t : AsyncTCPSocketBase) : AsyncTCPSocketBase := set_outbuf (set_error err (socket_ t)) (outbuf_ t) t.

(** [view.subview(res)] *)
Definition subview (view : list byte) (offset : Z) : outcome (list byte) :=
  if offset <? zlen view then view_check (zlen view - offset);; mret (zdrop offset view) else mret [].

(** One answer is used per round, so the fuel is their number and one more. *)
Fixpoint Flush_loop (fuel : nat) (view : list byte) (res : Z) (s : AsyncSocket) : outcome (Z * list byte * AsyncSocket) :=
  if zlen view =? 0 then mret (res, view, s) else
  match fuel with
  | O => Crash FuelExhausted
  | S fuel =>
      let '(res, s) := socket_Send view s in
      if res <=? 0 then mret (res, view, s) else
      if zlen view <? res then mret (-1, view, s) else
      view ← subview view res;
      Flush_loop fuel view res s
  end.

Definition FlushOutBuffer (t : AsyncTCPSocketBase) : outcome (Z * AsyncTCPSocketBase) :=
  dcheck (negb (listen_ t));;
  dcheck (0 <? size_ (outbuf_ t));;
  view_check (size_ (outbuf_ t));;
  let b := outbuf_ t in
  if size_ b =? 0 then Crash UndefinedBehaviour else
  '(res, view, s) ← Flush_loop (S (length (sends (socket_ t)))) (BufferT_contents b) 0 (socket_ t);
  if 0 <? res then
    dcheck (zlen view =? 0);;
    b' ← BufferT_Clear false b;
    mret (size_ b, set_outbuf s b' t)
  else
    dcheck (0 <? zlen view);;
    let res := if sock_error s =? EWOULDBLOCK then size_ b - zlen view else res in
    b' ← (if zlen view <? size_ b then
            d ← mem_write (block b) 0 view;
            BufferT_SetSize false (mkBufferT (size_ b) (capacity_ b) (Some d)) (zlen view)
          else mret b);
    mret (res, set_outbuf s b' t).

Definition AppendToOutBuffer (pv : list byte) (t : AsyncTCPSocketBase) : outcome AsyncTCPSocketBase :=
  dcheck (size_ (outbuf_ t) + zlen pv <=? max_outsize_ t);;
  dcheck (negb (listen_ t));;
  b ← BufferT_AppendData false (outbuf_ t) pv;
  mret (set_outbuf (socket_ t) b t).
Definition IsOutBufferEmpty (t : AsyncTCPSocketBase) : bool := size_ (outbuf_ t) =? 0.
Definition ClearOutBuffer (t : AsyncTCPSocketBase) : outcome AsyncTCPSocketBase :=
  b ← BufferT_Clear false (outbuf_ t); mret (set_outbuf (socket_ t) b t).

Definition OnConnectEvent : list signal := [Connected].
Definition OnCloseEvent (error : Z) : list signal := [Closed error].
Definition OnWriteEvent (t : AsyncTCPSocketBase) : outcome (AsyncTCPSocketBase * list signal) :=
  t ← (if 0 <? size_ (outbuf_ t) then '(_, t) ← FlushOutBuffer t; mret t else mret t);
  mret (t, if size_ (outbuf_ t) =? 0 then [ReadyToSend] else []).

(** The reading loop: each round takes a byte or an answer. *)
Fixpoint Recv_loop (fuel : nat) (t : AsyncTCPSocketBase) (total_recv : Z) : outcome (AsyncTCPSocketBase * Z) :=
  match fuel with
  | O => Crash FuelExhausted
  | S fuel =>
      let b := inbuf_ t in
      b ← (if (capacity_ b - size_ b <? kMinimumRecvSize) && (capacity_ b <? max_insize_ t)
           then EnsureCapacity false b (Z.min (max_insize_ t) (capacity_ b * 2)) else mret b);
      let free_size := capacity_ b - size_ b in
      let '(len, got, s) := socket_Recv free_size (socket_ t) in
      if len <? 0 then mret (set_inbuf s b t, total_recv) else
      d ← mem_write (block b) (size_ b) got;
      b ← BufferT_SetSize false (mkBufferT (size_ b) (capacity_ b) (Some d)) (size_ b + len);
      let t := set_inbuf s b t in
      if (len =? 0) || (len <? free_size) then mret (t, total_recv + len)
      else Recv_loop fuel t (total_recv + len)
  end.
Definition waiting (l : list recv_answer) : list byte := concat (map (fun a => match a with Arrives d => d | RecvFails _ => [] end) l).
Definition read_fuel (l : list recv_answer) : nat := S (length l + length (waiting l)).

(** What a subclass adds. *)
Class PacketSocket : Type := {
  (** The packets it signals, the memory behind [data] and [*len] afterwards. *)
  ProcessInput : list byte -> Z -> outcome (list (list byte) * list byte * Z);
  (** [Send(pv, cb, options)] *)
  Send : list byte -> Z -> AsyncTCPSocketBase -> outcome (Z * AsyncTCPSocketBase * list signal);
  max_packet_size : Z
}.

(** [accepted]: what [Accept] answers on a listening socket. *)
Definition OnReadEvent `{PacketSocket} (accepted : option Z) (t : AsyncTCPSocketBase) : outcome (AsyncTCPSocketBase * list signal) :=
  if listen_ t then
    match accepted with
    | None => mret (t, [])
    | Some new_socket => mret (t, [NewConnection new_socket; PrimeRead new_socket])
    end
  else
    '(t, total_recv) ← Recv_loop (read_fuel (arrived (socket_ t))) t 0;
    if total_recv =? 0 then mret (t, []) else
    let b := inbuf_ t in
    '(packets, d, size) ← ProcessInput (block b) (size_ b);
    let b := mkBufferT (size_ b) (capacity_ b) (Some d) in
    b ← (if size_ b <? size then BufferT_Clear false b else BufferT_SetSize false b size);
    mret (set_inbuf (socket_ t) b t, map (fun p => ReadPacket p (GetRemoteAddress t)) packets).

Definition SendTo `{PacketSocket} (pv : list byte) (addr : SocketAddress) (packet_id : Z) (t : AsyncTCPSocketBase)
    : outcome (Z * AsyncTCPSocketBase * list signal) :=
  if sa_eqb addr (GetRemoteAddress t) then Send pv packet_id t else
  dcheck (SA_IsNil (GetRemoteAddress t));;
  mret (-1, SetError ENOTCONN t, []).

(** ** AsyncTCPSocket *)

Definition Tcp_Send (pv : list byte) (packet_id : Z) (t : AsyncTCPSocketBase) : outcome (Z * AsyncTCPSocketBase * list signal) :=
  let cb := zlen pv in
  if kBufSize <? cb then mret (-1, SetError EMSGSIZE t, []) else
  if negb (IsOutBufferEmpty t) then mret (cb, t, []) else
  let pkt_len := HostToNetwork16 host_order (wrap16 cb) in
  t ← AppendToOutBuffer (store host_order 2 pkt_len) t;
  t ← AppendToOutBuffer pv t;
  '(res, t) ← FlushOutBuffer t;
  if res <=? 0 then t ← ClearOutBuffer t; mret (res, t, []) else
  mret (cb, t, [SentPacket packet_id]).

(** The front packet is signalled and the rest moved to the front. *)
Definition shift_input (data : list byte) (off len : Z) : outcome (list byte) :=
  if 0 <? len then moved ← mem_read data off len; mem_write data 0 moved else mret data.

Fixpoint Tcp_ProcessInput_loop (fuel : nat) (data : list byte) (len : Z) : outcome (list (list byte) * list byte * Z) :=
  match fuel with
  | O => Crash FuelExhausted
  | S fuel =>
      if len <? kPacketLenSize then mret ([], data, len) else
      pkt_len ← GetBE16 host_order data;
      if len <? kPacketLenSize + pkt_len then mret ([], data, len) else
      packet ← mem_read data kPacketLenSize pkt_len;
      let len := len - (kPacketLenSize + pkt_len) in
      data ← shift_input data (kPacketLenSize + pkt_len) len;
      '(packets, data, len) ← Tcp_ProcessInput_loop fuel data len;
      mret (packet :: packets, data, len)
  end.
Definition Tcp_ProcessInput (data : list byte) (len : Z) : outcome (list (list byte) * list byte * Z) :=
  Tcp_ProcessInput_loop (S (Z.to_nat len)) data len.

Definition AsyncTCPSocket : PacketSocket := {|
  ProcessInput := Tcp_ProcessInput; Send := Tcp_Send; max_packet_size := kBufSize
|}.
Definition AsyncTCPSocket_Create (socket : AsyncSocket) (bind_result connect_result : Z) : outcome AsyncTCPSocketBase :=
  AsyncTCPSocketBase_new (ConnectSocket socket bind_result connect_result) false kBufSize.

(** ** AsyncStunTCPSocket *)

Definition IsStunMessage (msg_type : Z) : bool := Z.land msg_type 0xC000 =? 0.

(** The length and the number of padding bytes. *)
Definition GetExpectedLength (data : list byte) : outcome (Z * Z) :=
  pkt_len ← GetBE16 host_order (zdrop kPacketLenOffset data);
  msg_type ← GetBE16 host_order data;
  if IsStunMessage msg_type then mret (kStunHeaderSize + pkt_len, 0) else
  let expected_pkt_len := kTurnChannelDataHdrSize + pkt_len in
  mret (expected_pkt_len, if expected_pkt_len mod 4 =? 0 then 0 else 4 - expected_pkt_len mod 4).

Definition Stun_Send (pv : list byte) (packet_id : Z) (t : AsyncTCPSocketBase) : outcome (Z * AsyncTCPSocketBase * list signal) :=
  let cb := zlen pv in
  if (stun_kBufSize <? cb) || (cb <? kPacketLenSize + kPacketLenOffset) then mret (-1, SetError EMSGSIZE t, []) else
  if negb (IsOutBufferEmpty t) then mret (cb, t, []) else
  '(expected_pkt_len, pad_bytes) ← GetExpectedLength pv;
  if negb (cb =? expected_pkt_len) then mret (-1, t, []) else
  t ← AppendToOutBuffer pv t;
  dcheck (pad_bytes <? 4);;
  t ← AppendToOutBuffer (replicate (Z.to_nat pad_bytes) Byte.x00) t;
  '(res, t) ← FlushOutBuffer t;
  if res <=? 0 then t ← ClearOutBuffer t; mret (res, t, []) else
  mret (cb, t, [SentPacket packet_id]).

Fixpoint Stun_ProcessInput_loop (fuel : nat) (data : list byte) (len : Z) : outcome (list (list byte) * list byte * Z) :=
  match fuel with
  | O => Crash FuelExhausted
  | S fuel =>
      if len <? kPacketLenOffset + kPacketLenSize then mret ([], data, len) else
      '(expected_pkt_len, pad_bytes) ← GetExpectedLength data;
      let actual_length := expected_pkt_len + pad_bytes in
      if len <? actual_length then mret ([], data, len) else
      packet ← mem_read data 0 expected_pkt_len;
      let len := len - actual_length in
      data ← shift_input data actual_length len;
      '(packets, data, len) ← Stun_ProcessInput_loop fuel data len;
      mret (packet :: packets, data, len)
  end.
Definition Stun_ProcessInput (data : list byte) (len : Z) : outcome (list (list byte) * list byte * Z) :=
  Stun_ProcessInput_loop (S (Z.to_nat len)) data len.

Definition AsyncStunTCPSocket : PacketSocket := {|
  ProcessInput := Stun_ProcessInput; Send := Stun_Send; max_packet_size := stun_kBufSize
|}.
Definition AsyncStunTCPSocket_Create (socket : AsyncSocket) (bind_result connect_result : Z) : outcome AsyncTCPSocketBase :=
  AsyncTCPSocketBase_new (ConnectSocket socket bind_result connect_result) false stun_kBufSize.
End Base.
