(* ===== verification/AsyncFraming.v ===== *)
(** * Cutting a TCP stream into packets

    The reference: a parser that takes one packet from the front of the
    received bytes, and what it makes of a stream.  The interface [Framing]
    says that a subclass of [AsyncTCPSocketBase] follows such a parser; both
    subclasses do. *)

From Stdlib Require Import ZArith Lia.
From S2P Require Import Prelude ByteOrder ConstBuffer IpAddress SocketAddress StunMessage AsyncTcpSocket.
Local Open Scope Z_scope.
Local Open Scope list_scope.

(** ** Streams of packets *)

(** The first packet and the rest, or nothing when it is not complete. *)
Class Parser : Type := {
  next : list byte -> option (list byte * list byte);
  next_app s p r x : next s = Some (p, r) -> next (s ++ x) = Some (p, r ++ x);
  next_shorter s p r : next s = Some (p, r) -> (length r < length s)%nat
}.

Section Parse.
Context `{Parser}.

Fixpoint parse_fuel (n : nat) (s : list byte) : list (list byte) * list byte :=
  match n with
  | O => ([], s)
  | S n =>
      match next s with
      | None => ([], s)
      | Some (p, r) => let '(ps, rest) := parse_fuel n r in (p :: ps, rest)
      end
  end.
Definition split_packets (s : list byte) : list (list byte) * list byte := parse_fuel (length s) s.

Lemma parse_more n m s : (length s <= n)%nat -> (length s <= m)%nat -> parse_fuel n s = parse_fuel m s.
Proof.
  revert m s. induction n as [|n IH]; intros m s Hn Hm.
  - destruct s; [|cbn in Hn; lia]. destruct m; [done|]. cbn. destruct (next []) as [[p r]|] eqn:E; [|done].
    apply next_shorter in E. cbn in E. lia.
  - destruct m as [|m].
    + destruct s; [|cbn in Hm; lia]. cbn. destruct (next []) as [[p r]|] eqn:E; [|done]. apply next_shorter in E. cbn in E. lia.
    + cbn. destruct (next s) as [[p r]|] eqn:E; [|done]. apply next_shorter in E. by rewrite (IH m r) by lia.
Qed.
Lemma parse_next s p r : next s = Some (p, r) -> split_packets s = (p :: (split_packets r).1, (split_packets r).2).
Proof.
  intros E. unfold split_packets. pose proof (next_shorter _ _ _ E) as Hl. destruct (length s) as [|n] eqn:En; [lia|]. cbn. rewrite E.
  rewrite (parse_more n (length r) r) by lia. by destruct (parse_fuel _ _).
Qed.
Lemma parse_done s : next s = None -> split_packets s = ([], s).
Proof. intros E. unfold split_packets. destruct (length s); [done|]. cbn. by rewrite E. Qed.

(** Nothing more can be taken from what is left. *)
Lemma parse_rest s : next (split_packets s).2 = None.
Proof.
  induction s as [s IH] using (induction_ltof1 _ (@length byte)); unfold ltof in IH.
  destruct (next s) as [[p r]|] eqn:E; [|by rewrite parse_done].
  rewrite (parse_next _ _ _ E). apply IH. by apply next_shorter in E.
Qed.
(** Bytes that arrive later continue what was left. *)
Lemma parse_app s x : split_packets (s ++ x) = ((split_packets s).1 ++ (split_packets ((split_packets s).2 ++ x)).1, (split_packets ((split_packets s).2 ++ x)).2).
Proof.
  induction s as [s IH] using (induction_ltof1 _ (@length byte)); unfold ltof in IH.
  destruct (next s) as [[p r]|] eqn:E.
  - rewrite (parse_next (s ++ x) p (r ++ x)), (parse_next s p r) by (done || by apply next_app). cbn [fst snd].
    rewrite (IH r) by by apply next_shorter in E. done.
  - rewrite (parse_done s E). cbn [fst snd app]. by destruct (split_packets (s ++ x)).
Qed.

Lemma parse_shorter s : (length (split_packets s).2 <= length s)%nat.
Proof.
  induction s as [s IH] using (induction_ltof1 _ (@length byte)); unfold ltof in IH.
  destruct (next s) as [[p r]|] eqn:E; [|by rewrite parse_done].
  rewrite (parse_next _ _ _ E). apply next_shorter in E. specialize (IH r E). cbn. lia.
Qed.

(** A packet in its frame is what the parser takes. *)
Definition frames (p f : list byte) : Prop := next f = Some (p, []).

Lemma parse_frames ps fs : Forall2 frames ps fs -> split_packets (concat fs) = (ps, []).
Proof.
  induction 1 as [|p f ps fs Hf _ IH]; cbn [concat].
  - apply parse_done. destruct (next []) as [[p r]|] eqn:E; [apply next_shorter in E; cbn in E; lia|done].
  - rewrite (parse_next _ p (concat fs)), IH; [done|]. by apply (next_app f p []).
Qed.
(** A front part of the stream gives a front part of the packets. *)
Lemma parse_prefix ps fs s x : Forall2 frames ps fs -> s ++ x = concat fs -> exists more, ps = (split_packets s).1 ++ more.
Proof.
  intros Hf Hs. pose proof (parse_frames ps fs Hf) as Hp. rewrite <- Hs, parse_app in Hp. injection Hp as <- _. eauto.
Qed.
End Parse.

(** ** Packets behind a header *)

(** [sizes]: from the header, where the packet starts, its length and the length of the frame. *)
Record Header : Type := {
  header_size : Z;
  sizes : list byte -> Z * Z * Z;
  header_ok h : zlen h = header_size -> let '(off, n, total) := sizes h in 0 <= off /\ 0 <= n /\ off + n <= total /\ 0 < total;
  header_pos : 0 <= header_size
}.

Section Headers.
Variable H : Header.

Definition header_next (s : list byte) : option (list byte * list byte) :=
  if zlen s <? header_size H then None else
  let '(off, n, total) := sizes H (ztake (header_size H) s) in
  if zlen s <? total then None else Some (ztake n (zdrop off s), zdrop total s).

Lemma header_zlen (s : list byte) : header_size H <= zlen s -> zlen (ztake (header_size H) s) = header_size H.
Proof. intros Hs. apply zlen_ztake. pose proof (header_pos H). lia. Qed.

Lemma zdrop_app_le {A} n (l k : list A) : 0 <= n <= zlen l -> zdrop n (l ++ k) = zdrop n l ++ k.
Proof. intros Hn. unfold zdrop, zlen in *. apply drop_app_le. lia. Qed.

Lemma header_next_app s p r x : header_next s = Some (p, r) -> header_next (s ++ x) = Some (p, r ++ x).
Proof.
  unfold header_next. pose proof (zlen_nonneg x). destruct (Z.ltb_spec (zlen s) (header_size H)); [done|]. rewrite zlen_app.
  destruct (Z.ltb_spec (zlen s + zlen x) (header_size H)); [lia|]. rewrite ztake_app_le by lia.
  pose proof (header_ok H _ (header_zlen s ltac:(lia))) as Hok. destruct (sizes H _) as [[off n] total].
  destruct (Z.ltb_spec (zlen s) total); [done|]. destruct (Z.ltb_spec (zlen s + zlen x) total); [lia|]. intros [= <- <-].
  rewrite !zdrop_app_le by lia. rewrite ztake_app_le; [done|]. rewrite zlen_zdrop; lia.
Qed.
Lemma header_next_shorter s p r : header_next s = Some (p, r) -> (length r < length s)%nat.
Proof.
  unfold header_next. destruct (Z.ltb_spec (zlen s) (header_size H)); [done|].
  pose proof (header_ok H _ (header_zlen s ltac:(lia))) as Hok. destruct (sizes H _) as [[off n] total].
  destruct (Z.ltb_spec (zlen s) total); [done|]. intros [= _ <-]. pose proof (zlen_zdrop total s ltac:(lia)) as Hz. unfold zlen in *. lia.
Qed.
Definition header_parser : Parser := {| next := header_next; next_app := header_next_app; next_shorter := header_next_shorter |}.
End Headers.

Lemma be16_range h : zlen h = 2 -> 0 <= be_value h < 65536.
Proof. intros Hh. pose proof (be_value_range h) as Hr. by rewrite Hh in Hr. Qed.

(** A length of two bytes. *)
Definition tcp_header : Header.
Proof.
  refine {| header_size := kPacketLenSize; sizes h := (kPacketLenSize, be_value h, kPacketLenSize + be_value h) |}.
  - intros h Hh. pose proof (be16_range h Hh). unfold kPacketLenSize in *. lia.
  - done.
Defined.

(** The type and the length of a STUN or ChannelData message. *)
Definition stun_sizes (h : list byte) : Z * Z :=
  let pkt_len := be_value (zdrop 2 h) in
  if IsStunMessage (be_value (ztake 2 h)) then (kStunHeaderSize + pkt_len, 0)
  else let n := kTurnChannelDataHdrSize + pkt_len in (n, - n mod 4).
Definition stun_header : Header.
Proof.
  refine {| header_size := kPacketLenOffset + kPacketLenSize;
            sizes h := let '(n, pad) := stun_sizes h in (0, n, n + pad) |}.
  - intros h Hh. unfold kPacketLenOffset, kPacketLenSize in Hh. unfold stun_sizes.
    pose proof (be16_range (zdrop 2 h) ltac:(rewrite zlen_zdrop; lia)). unfold kStunHeaderSize, kTurnChannelDataHdrSize.
    destruct (IsStunMessage _); [lia|]. pose proof (Z.mod_pos_bound (- (4 + be_value (zdrop 2 h))) 4). lia.
  - done.
Defined.

(** ** The input loops *)

Section Input.
Variables (H : Header) (data : list byte) (len : Z).
Hypothesis Hlen : 0 <= len <= zlen data.

Lemma zlen_input : zlen (ztake len data) = len.
Proof. by apply zlen_ztake. Qed.
Lemma wait_header : len < header_size H -> header_next H (ztake len data) = None.
Proof. intros Hl. unfold header_next. rewrite zlen_input. by rewrite (proj2 (Z.ltb_lt len (header_size H))). Qed.

Context (off n total : Z).
Hypothesis Hhead : header_size H <= len.
Hypothesis Hsizes : sizes H (ztake (header_size H) data) = (off, n, total).

Lemma wait_packet : len < total -> header_next H (ztake len data) = None.
Proof.
  intros Ht. unfold header_next. rewrite zlen_input, (proj2 (Z.ltb_ge len (header_size H))) by done.
  rewrite ztake_ztake, Hsizes by done. by rewrite (proj2 (Z.ltb_lt len total)).
Qed.
Lemma sizes_ok : 0 <= off /\ 0 <= n /\ off + n <= total /\ 0 < total.
Proof. pose proof (header_ok H _ (header_zlen H data ltac:(lia))) as Hok. by rewrite Hsizes in Hok. Qed.

Lemma zdrop_ztake_comm {A} k m (l : list A) : 0 <= k <= m -> zdrop k (ztake m l) = ztake (m - k) (zdrop k l).
Proof. intros Hk. unfold zdrop, ztake. rewrite skipn_firstn_comm. f_equal. lia. Qed.

Lemma take_packet : total <= len -> exists d,
  mem_read data off n = Ret (ztake n (zdrop off data)) /\
  header_next H (ztake len data) = Some (ztake n (zdrop off data), zdrop total (ztake len data)) /\
  shift_input data total (len - total) = Ret d /\ zlen d = zlen data /\ ztake (len - total) d = zdrop total (ztake len data).
Proof.
  intros Ht. pose proof sizes_ok as (H1 & H2 & H3 & H4).
  assert (Hn : header_next H (ztake len data) = Some (ztake n (zdrop off data), zdrop total (ztake len data))).
  { unfold header_next. rewrite zlen_input, (proj2 (Z.ltb_ge len (header_size H))) by done. rewrite ztake_ztake, Hsizes by done.
    rewrite (proj2 (Z.ltb_ge len total)) by lia. do 2 f_equal. rewrite zdrop_ztake_comm by lia. apply ztake_ztake. lia. }
  assert (Hm : zdrop total (ztake len data) = ztake (len - total) (zdrop total data)) by (apply zdrop_ztake_comm; lia).
  unfold shift_input. destruct (Z.ltb_spec 0 (len - total)).
  - assert (Hz : zlen (ztake (len - total) (zdrop total data)) = len - total) by (apply zlen_ztake; rewrite zlen_zdrop; lia).
    rewrite !mem_read_ok by lia. cbn [mbind outcome_bind]. rewrite mem_write_ok by lia. eexists. split; [done|]. split; [done|]. split; [done|].
    split; [rewrite zlen_splice; lia|]. rewrite Hm. pose proof (ztake_splice data 0 (ztake (len - total) (zdrop total data)) ltac:(lia)) as Hs.
    by rewrite Hz, Z.add_0_l, ztake_0 in Hs.
  - exists data. rewrite mem_read_ok by lia. repeat (split; [done|]). rewrite Hm. by replace (len - total) with 0 by lia.
Qed.
End Input.

(** What the input method does, in terms of the parser. *)
Definition input_ok (H : Header) (loop : list byte -> Z -> outcome (list (list byte) * list byte * Z)) (data : list byte) (len : Z) : Prop :=
  let '(ps, rest) := @split_packets (header_parser H) (ztake len data) in
  exists d, loop data len = Ret (ps, d, zlen rest) /\ zlen d = zlen data /\ ztake (zlen rest) d = rest.

Lemma input_wait H (loop : list byte -> Z -> outcome (list (list byte) * list byte * Z)) data len :
  0 <= len <= zlen data -> header_next H (ztake len data) = None -> loop data len = Ret ([], data, len) -> input_ok H loop data len.
Proof.
  intros Hl Hn E. unfold input_ok. rewrite (@parse_done (header_parser H)) by done. exists data. rewrite (zlen_input data len Hl). done.
Qed.
Lemma input_take H (loop loop' : list byte -> Z -> outcome (list (list byte) * list byte * Z)) data len p d len' :
  0 <= len <= zlen data -> header_next H (ztake len data) = Some (p, ztake len' d) -> zlen d = zlen data ->
  loop data len = ('(ps, d, n) ← loop' d len'; mret (p :: ps, d, n)) -> input_ok H loop' d len' -> input_ok H loop data len.
Proof.
  intros Hl Hn Hd E. unfold input_ok. rewrite (@parse_next (header_parser H) (ztake len data) p (ztake len' d)) by exact Hn.
  destruct (split_packets (ztake len' d)) as [ps rest]. intros (d' & Eq & Hd' & Hr). exists d'. rewrite E, Eq. by rewrite Hd'.
Qed.

Lemma GetBE16_value data : 2 <= zlen data -> GetBE16 host_order data = Ret (be_value (ztake 2 data)).
Proof.
  intros Hl. unfold GetBE16. rewrite mem_read_ok by lia. cbn [mbind outcome_bind mret outcome_ret]. rewrite zdrop_0.
  rewrite to_be_load; [done|]. pose proof (zlen_ztake 2 data ltac:(lia)) as Hz. unfold zlen in Hz. lia.
Qed.

Lemma Tcp_loop_ok fuel data len : 0 <= len <= zlen data -> len < Z.of_nat fuel -> input_ok tcp_header (Tcp_ProcessInput_loop fuel) data len.
Proof.
  revert data len. induction fuel as [|fuel IH]; intros data len Hl Hf; [lia|].
  destruct (Z.ltb_spec len kPacketLenSize) as [Hs|Hs].
  { apply input_wait; [done|by apply wait_header|]. cbn [Tcp_ProcessInput_loop]. by rewrite (proj2 (Z.ltb_lt len kPacketLenSize)). }
  set (n := be_value (ztake kPacketLenSize data)).
  assert (Hz : sizes tcp_header (ztake (header_size tcp_header) data) = (kPacketLenSize, n, kPacketLenSize + n)) by done.
  assert (Hg : GetBE16 host_order data = Ret n) by (apply GetBE16_value; unfold kPacketLenSize in *; lia).
  destruct (Z.ltb_spec len (kPacketLenSize + n)) as [Ht|Ht].
  { apply input_wait; [done|by eapply wait_packet|]. cbn [Tcp_ProcessInput_loop]. rewrite (proj2 (Z.ltb_ge len kPacketLenSize)), Hg by done.
    cbn [mbind outcome_bind]. by rewrite (proj2 (Z.ltb_lt len (kPacketLenSize + n))). }
  pose proof (sizes_ok tcp_header data len Hl _ _ _ Hs Hz) as (_ & Hn & _ & Hp).
  destruct (take_packet tcp_header data len Hl _ _ _ Hs Hz Ht) as (d & Hr & Hx & Hsh & Hd & Hf').
  eapply (input_take _ _ (Tcp_ProcessInput_loop fuel)); [done|by rewrite Hf'|done| |apply IH; lia].
  cbn [Tcp_ProcessInput_loop]. rewrite (proj2 (Z.ltb_ge len kPacketLenSize)), Hg by done. cbn [mbind outcome_bind].
  rewrite (proj2 (Z.ltb_ge len (kPacketLenSize + n))), Hr by done. cbn [mbind outcome_bind]. by rewrite Hsh.
Qed.

Lemma GetExpectedLength_value data : 4 <= zlen data -> GetExpectedLength data = Ret (stun_sizes (ztake 4 data)).
Proof.
  intros Hl. unfold GetExpectedLength, kPacketLenOffset. rewrite !GetBE16_value by (rewrite ?zlen_zdrop; lia). cbn [mbind outcome_bind].
  unfold stun_sizes. rewrite ztake_ztake, zdrop_ztake_comm by lia. change (4 - 2) with 2. destruct (IsStunMessage _); [done|].
  cbn [mret outcome_ret]. set (n := kTurnChannelDataHdrSize + _). do 2 f_equal. destruct (Z.eqb_spec (n mod 4) 0) as [E|E].
  - by rewrite Z.mod_opp_l_z.
  - by rewrite Z.mod_opp_l_nz.
Qed.

Lemma Stun_loop_ok fuel data len : 0 <= len <= zlen data -> len < Z.of_nat fuel -> input_ok stun_header (Stun_ProcessInput_loop fuel) data len.
Proof.
  revert data len. induction fuel as [|fuel IH]; intros data len Hl Hf; [lia|].
  destruct (Z.ltb_spec len (kPacketLenOffset + kPacketLenSize)) as [Hs|Hs].
  { apply input_wait; [done|by apply wait_header|]. cbn [Stun_ProcessInput_loop]. by rewrite (proj2 (Z.ltb_lt len (kPacketLenOffset + kPacketLenSize))). }
  assert (Hg : GetExpectedLength data = Ret (stun_sizes (ztake 4 data)))
    by (apply GetExpectedLength_value; unfold kPacketLenOffset, kPacketLenSize in *; lia).
  destruct (stun_sizes (ztake 4 data)) as [n pad] eqn:Hsz.
  assert (Hz : sizes stun_header (ztake (header_size stun_header) data) = (0, n, n + pad)) by (change (sizes stun_header (ztake (header_size stun_header) data)) with (let (n, pad) := stun_sizes (ztake 4 data) in (0, n, n + pad)); by rewrite Hsz).
  destruct (Z.ltb_spec len (n + pad)) as [Ht|Ht].
  { apply input_wait; [done|by eapply wait_packet|]. cbn [Stun_ProcessInput_loop]. rewrite (proj2 (Z.ltb_ge len (kPacketLenOffset + kPacketLenSize))), Hg by done.
    cbn [mbind outcome_bind]. by rewrite (proj2 (Z.ltb_lt len (n + pad))). }
  pose proof (sizes_ok stun_header data len Hl _ _ _ Hs Hz) as (_ & Hn & _ & Hp).
  destruct (take_packet stun_header data len Hl _ _ _ Hs Hz Ht) as (d & Hr & Hx & Hsh & Hd & Hf').
  eapply (input_take _ _ (Stun_ProcessInput_loop fuel)); [done|by rewrite Hf'|done| |apply IH; lia].
  cbn [Stun_ProcessInput_loop]. rewrite (proj2 (Z.ltb_ge len (kPacketLenOffset + kPacketLenSize))), Hg by done. cbn [mbind outcome_bind].
  rewrite (proj2 (Z.ltb_ge len (n + pad))), Hr by done. cbn [mbind outcome_bind]. by rewrite Hsh.
Qed.
