(* ===== verification/AsyncTcpProps.v ===== *)
(** * Packets over TCP arrive as they were sent

    Receiving: whatever the chunks in which the bytes arrive, the packets that
    are signalled are those the parser finds in the stream.  Sending: the bytes
    handed to the network are those of the frames of the accepted packets.
    Both together: packets and their sizes survive the stream. *)

From Stdlib Require Import ZArith Lia.
From S2P Require Import Prelude ByteOrder ConstBuffer IpAddress SocketAddress StunMessage AsyncTcpSocket AsyncFraming.
Local Open Scope Z_scope.
Local Open Scope list_scope.

(** ** What the subclasses promise to the base *)

Class Framing (P : PacketSocket) : Type := {
  framing : Header;
  framing_fits h : zlen h = header_size framing -> let '(_, _, total) := sizes framing h in total <= @max_packet_size P;
  framing_room : kMinimumRecvSize <= @max_packet_size P /\ header_size framing <= @max_packet_size P;
  framing_input data len : 0 <= len <= zlen data -> input_ok framing (@ProcessInput P) data len
}.

Section Instances.
Context `{Heap} (NDEBUG : bool).

#[export] Instance tcp_framing : Framing (AsyncTCPSocket NDEBUG).
Proof.
  refine {| framing := tcp_header |}.
  - intros h Hh. cbn [sizes tcp_header max_packet_size AsyncTCPSocket]. pose proof (be16_range h Hh). unfold kBufSize, kMaxPacketSize, kPacketLenSize. lia.
  - split; unfold kMinimumRecvSize; cbn; unfold kBufSize, kMaxPacketSize, kPacketLenSize; lia.
  - intros data len Hl. apply (Tcp_loop_ok (S (Z.to_nat len)) data len); lia.
Defined.
#[export] Instance stun_framing : Framing (AsyncStunTCPSocket NDEBUG).
Proof.
  refine {| framing := stun_header |}.
  - intros h Hh. cbn [sizes stun_header max_packet_size AsyncStunTCPSocket]. cbn [header_size stun_header] in Hh. unfold kPacketLenOffset, kPacketLenSize in Hh.
    pose proof (be16_range (zdrop 2 h) ltac:(rewrite zlen_zdrop; lia)). unfold stun_sizes, stun_kBufSize, kMaxPacketSize, kStunHeaderSize, kTurnChannelDataHdrSize.
    destruct (IsStunMessage _); [lia|]. pose proof (Z.mod_pos_bound (- (4 + be_value (zdrop 2 h))) 4). lia.
  - split; cbn; unfold kMinimumRecvSize, stun_kBufSize, kMaxPacketSize, kStunHeaderSize, kPacketLenOffset, kPacketLenSize; lia.
  - intros data len Hl. apply (Stun_loop_ok (S (Z.to_nat len)) data len); lia.
Defined.
End Instances.

(** What is left of the input always leaves room in the buffer. *)
Lemma pending_small {P : PacketSocket} {F : Framing P} s : header_next framing s = None -> zlen s < @max_packet_size P.
Proof.
  unfold header_next. pose proof (@framing_room P F) as [_ Hh]. destruct (Z.ltb_spec (zlen s) (header_size framing)); [lia|].
  pose proof (framing_fits _ (header_zlen (@framing P F) s ltac:(lia))) as Hf. destruct (sizes _ _) as [[off n] total].
  destruct (Z.ltb_spec (zlen s) total); [lia|done].
Qed.

(** ** Receiving *)

Section Buffers.
Context `{Heap}.

Lemma SetSize_within b n : BufferT_ok b -> n <= capacity_ b -> BufferT_SetSize false b n = Ret (mkBufferT n (capacity_ b) (data_ b)).
Proof.
  intros Hb Hn. unfold BufferT_SetSize, EnsureCapacityWithHeadroom. rewrite ok_consistent by done. cbn [assert_that mbind outcome_bind].
  by rewrite (proj2 (Z.leb_le n (capacity_ b))).
Qed.
Lemma contents_size b : BufferT_ok b -> zlen (BufferT_contents b) = size_ b.
Proof. intros (? & ? & _). unfold BufferT_contents. rewrite zlen_ztake; lia. Qed.

(** The block after a write, with a new size. *)
Lemma rewrite_block b d n : BufferT_ok b -> zlen d = capacity_ b -> 0 <= n <= capacity_ b -> capacity_ b <> 0 ->
  BufferT_SetSize false (mkBufferT (size_ b) (capacity_ b) (Some d)) n = Ret (mkBufferT n (capacity_ b) (Some d)) /\
  BufferT_ok (mkBufferT n (capacity_ b) (Some d)) /\ BufferT_contents (mkBufferT n (capacity_ b) (Some d)) = ztake n d.
Proof.
  intros (Hs & Hl & Hn) Hd Hr Hc. split; [|split; [|done]].
  - apply (SetSize_within (mkBufferT (size_ b) (capacity_ b) (Some d))); [|cbn; lia]. unfold BufferT_ok. cbn. split_and!; try done; lia.
  - unfold BufferT_ok. cbn. split_and!; try done; lia.
Qed.

(** Receiving into the free part. *)
Lemma fill_block b got : BufferT_ok b -> zlen got <= capacity_ b - size_ b -> capacity_ b <> 0 -> exists d,
  mem_write (block b) (size_ b) got = Ret d /\ zlen d = capacity_ b /\ ztake (size_ b + zlen got) d = BufferT_contents b ++ got.
Proof.
  intros (Hs & Hl & Hn) Hg Hc. pose proof (zlen_nonneg got). exists (splice (block b) (size_ b) got). split; [apply mem_write_ok; lia|].
  split; [rewrite zlen_splice; lia|]. rewrite ztake_splice by lia. done.
Qed.
End Buffers.

Lemma waiting_app l k : waiting (l ++ k) = waiting l ++ waiting k.
Proof. unfold waiting. by rewrite map_app, concat_app. Qed.

Lemma Recv_spec n s : 0 <= n -> exists got s', waiting (arrived s) = got ++ waiting (arrived s') /\
  (length (arrived s') <= length (arrived s))%nat /\ wire s' = wire s /\ sends s' = sends s /\ remote_address s' = remote_address s /\
  zlen got <= n /\ (socket_Recv n s = (zlen got, got, s') \/ got = [] /\ socket_Recv n s = (-1, [], s')).
Proof.
  intros Hn. unfold socket_Recv. destruct (arrived s) as [|[d|err] rest] eqn:E.
  - exists [], (set_error EWOULDBLOCK s). cbn. rewrite E. split_and!; try done; try lia. by right.
  - exists (ztake n d), (set_arrived (if n <? zlen d then Arrives (zdrop n d) :: rest else rest) (sock_error s) s). pose proof (zlen_nonneg d).
    assert (zlen (ztake n d) <= n) by (destruct (Z.le_gt_cases n (zlen d)); [rewrite zlen_ztake; lia|rewrite ztake_all; lia]).
    split_and!; try done; [| |by left].
    + unfold waiting. cbn. destruct (Z.ltb_spec n (zlen d)); cbn; [by rewrite app_assoc, ztake_zdrop|by rewrite ztake_all].
    + cbn. destruct (n <? zlen d); cbn; lia.
  - exists [], (set_arrived rest err s). cbn. split_and!; try done; try lia. by right.
Qed.

(** What reading leaves alone. *)
Record only_reads (t t' : AsyncTCPSocketBase) : Prop := {
  same_listen : listen_ t' = listen_ t;
  same_outbuf : outbuf_ t' = outbuf_ t;
  same_insize : max_insize_ t' = max_insize_ t;
  same_outsize : max_outsize_ t' = max_outsize_ t;
  same_wire : wire (socket_ t') = wire (socket_ t);
  same_sends : sends (socket_ t') = sends (socket_ t);
  same_remote : remote_address (socket_ t') = remote_address (socket_ t)
}.
Lemma only_reads_refl t : only_reads t t.
Proof. done. Qed.
Lemma only_reads_trans t u v : only_reads t u -> only_reads u v -> only_reads t v.
Proof. intros [] []. split; congruence. Qed.

Section Reading.
Context `{Heap}.

(** Growing the buffer: there is room, and nothing is lost. *)
Lemma grow_ok b max : BufferT_ok b -> kMinimumRecvSize <= capacity_ b -> exists b',
  (if (capacity_ b - size_ b <? kMinimumRecvSize) && (capacity_ b <? max) then EnsureCapacity false b (Z.min max (capacity_ b * 2)) else mret b) = Ret b' /\
  BufferT_ok b' /\ BufferT_contents b' = BufferT_contents b /\ size_ b' = size_ b /\ kMinimumRecvSize <= capacity_ b' /\
  (size_ b < max -> size_ b' < capacity_ b').
Proof.
  intros Hb Hc. unfold kMinimumRecvSize in *. pose proof Hb as (Hs & _ & _).
  destruct (Z.ltb_spec (capacity_ b - size_ b) 128); [destruct (Z.ltb_spec (capacity_ b) max)|]; cbn [andb];
    [|exists b; split_and!; done || lia..].
  pose proof (EnsureCapacityWithHeadroom_ok false b (Z.min max (capacity_ b * 2)) false Hb) as Hp.
  apply post_inv in Hp as (b' & E & Hb' & Hs' & Hc' & Hm & Hg). exists b'. unfold EnsureCapacity. split_and!; try done; lia.
Qed.

Lemma Read_loop_ok fuel t total : BufferT_ok (inbuf_ t) -> kMinimumRecvSize <= capacity_ (inbuf_ t) ->
  (length (arrived (socket_ t)) + length (waiting (arrived (socket_ t))) < fuel)%nat ->
  exists t' got, Recv_loop fuel t total = Ret (t', total + zlen got) /\ only_reads t t' /\
    BufferT_ok (inbuf_ t') /\ kMinimumRecvSize <= capacity_ (inbuf_ t') /\
    BufferT_contents (inbuf_ t') = BufferT_contents (inbuf_ t) ++ got /\
    waiting (arrived (socket_ t)) = got ++ waiting (arrived (socket_ t')) /\
    (forall d rest, arrived (socket_ t) = Arrives d :: rest -> d <> [] -> size_ (inbuf_ t) < max_insize_ t -> got <> []).
Proof.
  revert t total. induction fuel as [|fuel IH]; intros t total Hb Hc Hf; [lia|]. cbn [Recv_loop].
  destruct (grow_ok (inbuf_ t) (max_insize_ t) Hb Hc) as (b & -> & Hbk & Hcont & Hsz & Hcap & Hfree). cbn [mbind outcome_bind].
  pose proof Hbk as (Hrange & _ & _). unfold kMinimumRecvSize in *.
  destruct (Recv_spec (capacity_ b - size_ b) (socket_ t)) as (got & s & Hw & Hlen & Hwire & Hsends & Hrem & Hgl & Hcase); [lia|].
  assert (Hprog : forall d rest, arrived (socket_ t) = Arrives d :: rest -> d <> [] -> size_ (inbuf_ t) < max_insize_ t -> got <> []).
  { intros d rest E Hd Hlt ->. assert (Hroom := Hfree Hlt). unfold socket_Recv in Hcase. rewrite E in Hcase.
    destruct d as [|x d]; [done|]. unfold ztake in Hcase. destruct (Z.to_nat (capacity_ b - size_ b)) eqn:En; [lia|].
    destruct Hcase as [Hcase|[_ Hcase]]; injection Hcase; intros; cbn in *; lia || done. }
  destruct Hcase as [-> | [-> ->]]; cbn [Z.ltb Z.compare].
  2:{ exists (set_inbuf s b t), []. split_and!; try done; cbn; rewrite ?app_nil_r; try done; unfold zlen; cbn; f_equal; f_equal; lia. }
  pose proof (zlen_nonneg got). rewrite (proj2 (Z.ltb_ge (zlen got) 0)) by lia.
  destruct (fill_block b got) as (d & -> & Hd & Hfill); [done|lia|lia|]. cbn [mbind outcome_bind].
  destruct (rewrite_block b d (size_ b + zlen got)) as (-> & Hok & Hct); [done|done|lia|lia|]. cbn [mbind outcome_bind].
  set (t1 := set_inbuf s (mkBufferT (size_ b + zlen got) (capacity_ b) (Some d)) t).
  assert (H1 : only_reads t t1) by (split; done || apply Hwire || apply Hsends || apply Hrem).
  assert (Hc1 : BufferT_contents (inbuf_ t1) = BufferT_contents (inbuf_ t) ++ got) by (cbn [inbuf_ t1 set_inbuf]; by rewrite Hct, Hfill, Hcont).
  destruct ((zlen got =? 0) || (zlen got <? capacity_ b - size_ b)) eqn:E.
  - exists t1, got. split_and!; try done.
  - apply orb_false_iff in E as [E1 E2]. apply Z.eqb_neq in E1. apply Z.ltb_ge in E2.
    assert (Hnn : (0 < length got)%nat) by (unfold zlen in *; lia).
    destruct (IH t1 (total + zlen got)) as (t' & more & E' & Ho & Hb' & Hcap' & Hct' & Hw' & _); [done|cbn; lia| |].
    { cbn [socket_ t1 set_inbuf]. rewrite Hw, length_app in Hf. lia. }
    exists t', (got ++ more). rewrite E', zlen_app. split_and!; try done; try by eapply only_reads_trans.
    + do 2 f_equal. lia.
    + by rewrite Hct', Hc1, app_assoc.
    + rewrite Hw. cbn [socket_ t1 set_inbuf] in Hw'. by rewrite Hw', app_assoc.
    + intros d0 rest E0 Hd0 Hlt Hnil. apply app_eq_nil in Hnil as [Hnil _]. by apply (Hprog d0 rest).
Qed.
End Reading.

Section Receiving.
Context `{Heap} {P : PacketSocket} {F : Framing P}.
#[local] Existing Instance header_parser.

(** The packets signalled so far and the input buffer are what the parser
    makes of the bytes taken so far. *)
Record receiving (t : AsyncTCPSocketBase) (taken : list byte) (ps : list (list byte)) : Prop := {
  recv_connected : listen_ t = false;
  recv_buffer : BufferT_ok (inbuf_ t);
  recv_capacity : kMinimumRecvSize <= capacity_ (inbuf_ t);
  recv_max : max_insize_ t = @max_packet_size P;
  recv_parse : @split_packets (header_parser framing) taken = (ps, BufferT_contents (inbuf_ t))
}.

Lemma receiving_room t taken ps : receiving t taken ps -> size_ (inbuf_ t) < max_insize_ t.
Proof.
  intros [_ Hb _ -> Hp]. rewrite <- contents_size by done. apply pending_small.
  pose proof (@parse_rest (header_parser framing) taken) as Hr. by rewrite Hp in Hr.
Qed.

Definition read_signals (t : AsyncTCPSocketBase) (ps : list (list byte)) : list signal := map (fun p => ReadPacket p (GetRemoteAddress t)) ps.

Lemma OnReadEvent_ok a t taken ps : receiving t taken ps -> exists t' got new,
  OnReadEvent a t = Ret (t', read_signals t new) /\ only_reads t t' /\ receiving t' (taken ++ got) (ps ++ new) /\
  waiting (arrived (socket_ t)) = got ++ waiting (arrived (socket_ t')) /\
  (forall d rest, arrived (socket_ t) = Arrives d :: rest -> d <> [] -> got <> []).
Proof.
  intros Hr. pose proof (receiving_room _ _ _ Hr) as Hroom. destruct Hr as [Hli Hb Hc Hm Hp]. unfold OnReadEvent. rewrite Hli.
  destruct (Read_loop_ok (read_fuel (arrived (socket_ t))) t 0) as (t1 & got & -> & Ho & Hb1 & Hc1 & Hct & Hw & Hprog); [done|done|unfold read_fuel; lia|].
  cbn [mbind outcome_bind]. rewrite Z.add_0_l. pose proof (zlen_nonneg got). destruct (Z.eqb_spec (zlen got) 0) as [Ez|Ez].
  - assert (got = []) as -> by (destruct got; [done|unfold zlen in Ez; cbn in Ez; lia]). exists t1, [], []. rewrite !app_nil_r in *.
    split; [done|]. split; [done|]. split; [|split; [done|intros d rest E Hd; by apply (Hprog d rest)]].
    destruct Ho. split; try done; try congruence.
  - pose proof Hb1 as (Hsz & Hlen & _). pose proof (framing_input (block (inbuf_ t1)) (size_ (inbuf_ t1)) ltac:(lia)) as Hin. unfold input_ok in Hin.
    fold (BufferT_contents (inbuf_ t1)) in Hin. pose proof (@parse_app (header_parser framing) taken got) as Happ. rewrite Hp in Happ. cbn [fst snd] in Happ.
    rewrite <- Hct in Happ. pose proof (@parse_shorter (header_parser framing) (BufferT_contents (inbuf_ t1))) as Hsh.
    destruct (@split_packets (header_parser framing) (BufferT_contents (inbuf_ t1))) as [new rest]. destruct Hin as (d & -> & Hd & Hrest). cbn [mbind outcome_bind fst snd size_] in *.
    pose proof (contents_size _ Hb1) as Hcs. unfold zlen in Hcs. rewrite (proj2 (Z.ltb_ge (size_ (inbuf_ t1)) (zlen rest))) by (unfold zlen; lia).
    destruct (rewrite_block (inbuf_ t1) d (zlen rest)) as (-> & Hok & Hcont); [done|lia|unfold zlen; lia|unfold kMinimumRecvSize in *; lia|].
    cbn [mbind outcome_bind mret outcome_ret]. eexists _, got, new. split; [unfold read_signals, GetRemoteAddress; by rewrite (same_remote _ _ Ho)|].
    split_and!; [by destruct Ho| |done|intros d0 r0 E Hd0; by apply (Hprog d0 r0)].
    destruct Ho. split; cbn [listen_ inbuf_ max_insize_ set_inbuf capacity_]; try done; congruence.
Qed.

(** A run: at each readable event some answers of the socket have come in. *)
Definition deliver (more : list recv_answer) (t : AsyncTCPSocketBase) : AsyncTCPSocketBase :=
  set_inbuf (set_arrived (arrived (socket_ t) ++ more) (sock_error (socket_ t)) (socket_ t)) (inbuf_ t) t.
Fixpoint read_events (events : list (list recv_answer)) (t : AsyncTCPSocketBase) : outcome (AsyncTCPSocketBase * list signal) :=
  match events with
  | [] => mret (t, [])
  | more :: events =>
      '(t, signals) ← OnReadEvent None (deliver more t);
      '(t, later) ← read_events events t;
      mret (t, signals ++ later)
  end.

Lemma read_events_ok events t taken ps : receiving t taken ps -> exists t' got new,
  read_events events t = Ret (t', read_signals t new) /\ only_reads t t' /\ receiving t' (taken ++ got) (ps ++ new) /\
  waiting (arrived (socket_ t)) ++ waiting (concat events) = got ++ waiting (arrived (socket_ t')).
Proof.
  revert t taken ps. induction events as [|more events IH]; intros t taken ps Hr; cbn [read_events concat].
  - exists t, [], []. rewrite !app_nil_r. by split_and!; try apply only_reads_refl.
  - destruct (OnReadEvent_ok None (deliver more t) taken ps) as (t1 & got & new & -> & Ho & Hr1 & Hw & _); [by destruct Hr|].
    cbn [mbind outcome_bind]. destruct (IH t1 _ _ Hr1) as (t2 & got2 & new2 & -> & Ho2 & Hr2 & Hw2). cbn [mbind outcome_bind mret outcome_ret].
    assert (Ho1 : only_reads t t1) by (destruct Ho; by split).
    exists t2, (got ++ got2), (new ++ new2). split_and!.
    + unfold read_signals, GetRemoteAddress. rewrite map_app. by rewrite (same_remote _ _ Ho1).
    + by eapply only_reads_trans.
    + by rewrite !app_assoc.
    + cbn [socket_ deliver set_inbuf arrived set_arrived] in Hw. rewrite waiting_app in Hw |- *. rewrite app_assoc, Hw, <- !app_assoc. by rewrite Hw2.
Qed.
End Receiving.

(** ** Sending *)

(** A socket that takes some bytes or would block. *)
Definition willing (a : send_answer) : Prop :=
  match a with Takes _ => True | SendFails err => err = EWOULDBLOCK | Claims _ _ => False end.

(** The next call of [Send] takes nothing. *)
Definition stuck (s : AsyncSocket) : Prop := match sends s with Takes _ :: _ => False | _ => True end.

Record only_sends (t t' : AsyncTCPSocketBase) : Prop := {
  keeps_listen : listen_ t' = listen_ t;
  keeps_inbuf : inbuf_ t' = inbuf_ t;
  keeps_remote : remote_address (socket_ t') = remote_address (socket_ t)
}.
Lemma only_sends_trans t u v : only_sends t u -> only_sends u v -> only_sends t v.
Proof. intros [] []. split; congruence. Qed.

Section Sending.
Context `{Heap}.

Lemma subview_ok view n : 0 <= n <= zlen view -> subview true view n = Ret (zdrop n view).
Proof. intros Hn. unfold subview. destruct (Z.ltb_spec n (zlen view)); [done|]. by rewrite zdrop_all. Qed.

Lemma Flush_loop_ok fuel view res s : Forall willing (sends s) -> (length (sends s) < fuel)%nat -> (view = [] -> 0 < res) ->
  exists took rest res' s', Flush_loop true fuel view res s = Ret (res', rest, s') /\ view = took ++ rest /\
    wire s' = wire s ++ took /\ Forall willing (sends s') /\ remote_address s' = remote_address s /\
    (took = [] -> view <> [] -> stuck s) /\
    (rest = [] /\ 0 < res' \/ rest <> [] /\ res' = -1 /\ sock_error s' = EWOULDBLOCK).
Proof.
  revert view res s. induction fuel as [|fuel IH]; intros view res s Hw Hf Hres; [lia|]. cbn [Flush_loop].
  destruct (Z.eqb_spec (zlen view) 0) as [Ez|Ez].
  { assert (view = []) as -> by (destruct view; [done|unfold zlen in Ez; cbn in Ez; lia]). exists [], [], res, s. split; [done|].
    split; [done|]. split; [by rewrite app_nil_r|]. split; [done|]. split; [done|]. split; [done|]. left. by split; [|apply Hres]. }
  assert (Hne : view <> []) by (intros ->; done). unfold socket_Send. destruct (sends s) as [|[n|err|r err] answers] eqn:Es; cbn [length] in Hf.
  - exists [], view, (-1), (set_error EWOULDBLOCK s). split; [done|]. cbn. rewrite app_nil_r, Es.
    do 4 (split; [done|]). split; [|by right]. intros _ _. unfold stuck. by rewrite Es.
  - apply Forall_cons_1 in Hw as [_ Hw]. set (took := ztake (Z.pos n) view).
    assert (Ht : 0 < zlen took <= zlen view /\ view = took ++ zdrop (zlen took) view).
    { pose proof (zlen_nonneg view). subst took. destruct (Z.le_gt_cases (Z.pos n) (zlen view)).
      - rewrite zlen_ztake by lia. split; [lia|by rewrite ztake_zdrop].
      - rewrite ztake_all by lia. split; [lia|]. by rewrite zdrop_all, app_nil_r. }
    destruct Ht as [Ht Hv]. rewrite (proj2 (Z.leb_gt (zlen took) 0)), (proj2 (Z.ltb_ge (zlen view) (zlen took))) by lia.
    rewrite subview_ok by lia. cbn [mbind outcome_bind].
    match goal with |- context [Flush_loop true fuel _ _ ?s1] => destruct (IH (zdrop (zlen took) view) (zlen took) s1) as (took2 & rest & res' & s' & -> & Hv2 & Hwire & Hw' & Hrem & _ & Hend) end;
      [done|cbn in *; lia|intros _; lia|]. exists (took ++ took2), rest, res', s'. cbn [wire remote_address] in *.
    split_and!; try done; [|by rewrite Hwire, app_assoc|].
    + rewrite Hv at 1. by rewrite Hv2, app_assoc.
    + intros E _. apply app_eq_nil in E as [E _]. rewrite E in Ht. unfold zlen in Ht. cbn in Ht. lia.
  - apply Forall_cons_1 in Hw as [He Hw]. cbn in He. subst err. exists [], view, (-1). eexists. split; [done|]. cbn. rewrite app_nil_r.
    split_and!; try done; [|by right]. intros _ _. unfold stuck. by rewrite Es.
  - by apply Forall_cons_1 in Hw as [[] _].
Qed.

Lemma Clear_returns b : BufferT_ok b -> exists b', BufferT_Clear false b = Ret b' /\ BufferT_ok b' /\ BufferT_contents b' = [].
Proof. intros Hb. destruct (post_inv _ _ (Clear_ok false b Hb)) as (b' & E & H1 & H2 & _). eauto. Qed.
Lemma empty_contents b : BufferT_ok b -> BufferT_contents b = [] <-> size_ b = 0.
Proof.
  intros Hb. pose proof (contents_size b Hb) as Hc. split; intros E; [by rewrite <- Hc, E|].
  rewrite E in Hc. destruct (BufferT_contents b); [done|]. unfold zlen in Hc. cbn in Hc. lia.
Qed.

(** [FlushOutBuffer] answers how many bytes went out. *)
Lemma FlushOutBuffer_ok t : BufferT_ok (outbuf_ t) -> BufferT_contents (outbuf_ t) <> [] -> Forall willing (sends (socket_ t)) ->
  exists t' took, FlushOutBuffer true t = Ret (zlen took, t') /\ only_sends t t' /\ BufferT_ok (outbuf_ t') /\ Forall willing (sends (socket_ t')) /\
    BufferT_contents (outbuf_ t) = took ++ BufferT_contents (outbuf_ t') /\ wire (socket_ t') = wire (socket_ t) ++ took /\
    (took = [] -> stuck (socket_ t)).
Proof.
  intros Hb Hne Hw. unfold FlushOutBuffer. cbn [dcheck view_check mbind outcome_bind mret outcome_ret].
  assert (Hsz : size_ (outbuf_ t) <> 0) by (intros E; by apply Hne, empty_contents). rewrite (proj2 (Z.eqb_neq _ _) Hsz).
  destruct (Flush_loop_ok (S (length (sends (socket_ t)))) (BufferT_contents (outbuf_ t)) 0 (socket_ t)) as (took & rest & res & s & -> & Hv & Hwire & Hw' & Hrem & Hstuck & Hend);
    [done|lia|done|]. cbn [mbind outcome_bind]. pose proof (contents_size _ Hb) as Hcs. rewrite Hv, zlen_app in Hcs. pose proof (zlen_nonneg took).
  destruct Hend as [[-> Hp]|(Hr & -> & He)].
  - rewrite (proj2 (Z.ltb_lt 0 res)) by done. destruct (Clear_returns _ Hb) as (b' & -> & Hb' & Hc'). cbn [mbind outcome_bind mret outcome_ret].
    exists (set_outbuf s b' t), took. replace (size_ (outbuf_ t)) with (zlen took) by (unfold zlen in *; cbn in Hcs; lia).
    split_and!; try done; [|by intros E; apply Hstuck]. cbn [outbuf_ set_outbuf]. by rewrite Hc', Hv.
  - cbn [Z.ltb Z.compare]. rewrite He, Z.eqb_refl. replace (size_ (outbuf_ t) - zlen rest) with (zlen took) by lia.
    pose proof Hb as (Hrange & Hlen & Hnull). pose proof (zlen_nonneg rest). destruct (Z.ltb_spec (zlen rest) (size_ (outbuf_ t))) as [Hl|Hl].
    + rewrite mem_write_ok by lia. cbn [mbind outcome_bind].
      destruct (rewrite_block (outbuf_ t) (splice (block (outbuf_ t)) 0 rest) (zlen rest)) as (-> & Hok & Hc); [done|rewrite zlen_splice; lia|lia|lia|].
      cbn [mbind outcome_bind mret outcome_ret]. eexists _, took. split; [done|]. split_and!; try done; [|by intros E; apply Hstuck]. cbn [outbuf_ set_outbuf]. rewrite Hc, Hv. f_equal.
      pose proof (ztake_splice (block (outbuf_ t)) 0 rest ltac:(lia)) as Hsp. by rewrite Z.add_0_l, ztake_0 in Hsp.
    + assert (took = []) as -> by (destruct took; [done|]; rewrite zlen_cons in *; pose proof (zlen_nonneg took); lia).
      exists (set_outbuf s (outbuf_ t) t), []. split_and!; try done. by intros E; apply Hstuck.
Qed.

Lemma AppendToOutBuffer_ok pv t : BufferT_ok (outbuf_ t) -> exists b, AppendToOutBuffer true pv t = Ret (set_outbuf (socket_ t) b t) /\
  BufferT_ok b /\ BufferT_contents b = BufferT_contents (outbuf_ t) ++ pv.
Proof.
  intros Hb. unfold AppendToOutBuffer. cbn [dcheck mbind outcome_bind mret outcome_ret].
  destruct (post_inv _ _ (AppendData_ok false (outbuf_ t) pv Hb)) as (b & -> & H1 & H2). eauto.
Qed.
End Sending.

(** What [Send] does: it drops the packet, because output is pending, the
    socket takes nothing or the packet is not [fit], or its frame is on the
    wire and in the output buffer. *)
Definition send_result (H : Header) (fit : Prop) (pv : list byte) (packet_id : Z) (t : AsyncTCPSocketBase) (r : outcome (Z * AsyncTCPSocketBase * list signal)) : Prop :=
  exists res t' signals, r = Ret (res, t', signals) /\ only_sends t t' /\ BufferT_ok (outbuf_ t') /\ Forall willing (sends (socket_ t')) /\
    (signals = [] /\ wire (socket_ t') = wire (socket_ t) /\ BufferT_contents (outbuf_ t') = BufferT_contents (outbuf_ t) /\
       (fit -> BufferT_contents (outbuf_ t) = [] -> stuck (socket_ t)) \/
     signals = [SentPacket packet_id] /\ BufferT_contents (outbuf_ t) = [] /\ exists took,
       wire (socket_ t') = wire (socket_ t) ++ took /\ header_next H (took ++ BufferT_contents (outbuf_ t')) = Some (pv, [])).

Class SendFraming (P : PacketSocket) {F : Framing P} : Type := {
  sendable : list byte -> Prop;
  fits_frame : list byte -> Prop;
  framing_send pv packet_id t : sendable pv -> BufferT_ok (outbuf_ t) -> Forall willing (sends (socket_ t)) ->
    send_result framing (fits_frame pv) pv packet_id t (@Send P pv packet_id t)
}.

Section SendInstances.
Context `{Heap}.

Lemma nothing_sent H0 fit pv id t res t' : BufferT_ok (outbuf_ t) -> Forall willing (sends (socket_ t)) ->
  t' = t \/ (exists err, t' = SetError err t) -> (fit -> BufferT_contents (outbuf_ t) <> []) ->
  send_result H0 fit pv id t (Ret (res, t', [])).
Proof.
  intros Hb Hw Ht Hfit. assert (Hwhy : fit -> BufferT_contents (outbuf_ t) = [] -> stuck (socket_ t)) by (intros F E; by destruct (Hfit F)).
  destruct Ht as [->|[err ->]]; eexists _, _, _; (split; [done|]); (split; [done|]); (split; [done|]); (split; [done|]); by left.
Qed.

(** The common end of both methods. *)
Lemma send_tail H0 fit pv id cb t f : BufferT_ok (outbuf_ t) -> BufferT_contents (outbuf_ t) = f -> Forall willing (sends (socket_ t)) ->
  header_next H0 f = Some (pv, []) -> f <> [] -> forall t0, only_sends t0 t -> socket_ t0 = socket_ t -> BufferT_contents (outbuf_ t0) = [] ->
  send_result H0 fit pv id t0 ('(res, t) ← FlushOutBuffer true t; if res <=? 0 then t ← ClearOutBuffer t; mret (res, t, []) else mret (cb, t, [SentPacket id])).
Proof.
  intros Hb Hc Hw Hf Hne t0 Ho Hsock Hempty. assert (Hwire : wire (socket_ t0) = wire (socket_ t)) by by rewrite Hsock.
  destruct (FlushOutBuffer_ok t) as (t1 & took & -> & Ho1 & Hb1 & Hw1 & Hsplit & Hwire1 & Hstuck); [done|by rewrite Hc|done|].
  cbn [mbind outcome_bind]. pose proof (zlen_nonneg took). destruct (Z.leb_spec (zlen took) 0).
  - assert (took = []) as -> by (destruct took; [done|]; rewrite zlen_cons in *; pose proof (zlen_nonneg took); lia).
    unfold ClearOutBuffer. destruct (Clear_returns _ Hb1) as (b & -> & Hb2 & Hc2). cbn [mbind outcome_bind mret outcome_ret].
    eexists _, _, []. split; [done|]. split; [eapply only_sends_trans; [done|]; by destruct Ho1|]. split_and!; try done. left.
    cbn [socket_ outbuf_ set_outbuf]. split_and!; try done; [|by rewrite Hc2|]; [rewrite Hwire1, app_nil_r; done|].
    intros _ _. rewrite Hsock. by apply Hstuck.
  - eexists _, _, _. split; [done|]. split; [by eapply only_sends_trans|]. split_and!; try done. right. split_and!; try done.
    exists took. split; [by rewrite Hwire1, Hwire|]. rewrite <- Hsplit, Hc. done.
Qed.

Lemma tcp_frame pv : zlen pv < 65536 -> header_next tcp_header (be_bytes 2 (zlen pv) ++ pv) = Some (pv, []).
Proof.
  intros Hl. pose proof (zlen_nonneg pv). unfold header_next. cbn [header_size tcp_header sizes]. unfold kPacketLenSize.
  rewrite zlen_app, (zlen_be_bytes 2). change (Z.of_nat 2) with 2. rewrite (proj2 (Z.ltb_ge (2 + zlen pv) 2)) by lia.
  replace (ztake 2 (be_bytes 2 (zlen pv) ++ pv)) with (be_bytes 2 (zlen pv)) by (rewrite ztake_app_le, ztake_all; rewrite ?(zlen_be_bytes 2); done || cbn; lia).
  rewrite be_value_be_bytes by (cbn; lia). rewrite (proj2 (Z.ltb_ge (2 + zlen pv) (2 + zlen pv))) by lia.
  replace (zdrop 2 (be_bytes 2 (zlen pv) ++ pv)) with pv by (change 2 with (zlen (be_bytes 2 (zlen pv))) at 1; by rewrite zdrop_app).
  rewrite ztake_all, zdrop_all by (rewrite ?zlen_app, ?(zlen_be_bytes 2); cbn; lia). done.
Qed.

#[export] Instance tcp_sends : SendFraming (AsyncTCPSocket true).
Proof.
  refine {| sendable pv := zlen pv < 65536; fits_frame pv := True |}. intros pv id t Hl Hb Hw. cbn [Send AsyncTCPSocket framing tcp_framing]. unfold Tcp_Send.
  unfold kBufSize, kMaxPacketSize, kPacketLenSize. pose proof (zlen_nonneg pv). rewrite (proj2 (Z.ltb_ge (64 * 1024 + 2) (zlen pv))) by lia.
  unfold IsOutBufferEmpty. destruct (Z.eqb_spec (size_ (outbuf_ t)) 0) as [E|E]; cbn [negb]; [|apply nothing_sent; auto; intros _ E'; by apply E, empty_contents].
  apply empty_contents in E as Hempty; [|done]. destruct (AppendToOutBuffer_ok (store host_order 2 (HostToNetwork16 host_order (wrap16 (zlen pv)))) t Hb) as (b1 & -> & Hb1 & Hc1).
  cbn [mbind outcome_bind]. set (t1 := set_outbuf (socket_ t) b1 t). destruct (AppendToOutBuffer_ok pv t1 Hb1) as (b2 & -> & Hb2 & Hc2).
  cbn [mbind outcome_bind]. rewrite Hempty in Hc1. cbn [outbuf_ t1 set_outbuf] in Hc2. rewrite Hc1 in Hc2. unfold HostToNetwork16 in Hc2.
  rewrite store_to_be, wrap16_small in Hc2 by lia. cbn [app] in Hc2. eapply send_tail; [done|exact Hc2|done|by apply tcp_frame|done|done|done|done].
Defined.

Lemma stun_frame pv n pad : 4 <= zlen pv -> stun_sizes (ztake 4 pv) = (n, pad) -> zlen pv = n -> 0 <= pad ->
  header_next stun_header (pv ++ replicate (Z.to_nat pad) Byte.x00) = Some (pv, []).
Proof.
  intros Hl Hs Hn Hp. pose proof (zlen_replicate pad Byte.x00 Hp) as Hr. unfold header_next. cbn [header_size stun_header sizes].
  change (kPacketLenOffset + kPacketLenSize) with 4. rewrite zlen_app, Hr, (proj2 (Z.ltb_ge (zlen pv + pad) 4)) by lia. rewrite ztake_app_le, Hs by lia.
  rewrite (proj2 (Z.ltb_ge (zlen pv + pad) (n + pad))), zdrop_0 by lia. subst n. rewrite ztake_app, zdrop_all by (rewrite zlen_app; lia). done.
Qed.

#[export] Instance stun_sends : SendFraming (AsyncStunTCPSocket true).
Proof.
  refine {| sendable pv := True; fits_frame pv := 4 <= zlen pv <= stun_kBufSize /\ fst (stun_sizes (ztake 4 pv)) = zlen pv |}. intros pv id t _ Hb Hw. cbn [Send AsyncStunTCPSocket framing stun_framing]. unfold Stun_Send.
  pose proof (zlen_nonneg pv). destruct ((stun_kBufSize <? zlen pv) || (zlen pv <? kPacketLenSize + kPacketLenOffset)) eqn:Eg;
    [apply nothing_sent; eauto; intros [[H4 H5] _]; exfalso; apply orb_true_iff in Eg as [Eg|Eg]; apply Z.ltb_lt in Eg; unfold kPacketLenSize, kPacketLenOffset in *; lia|].
  apply orb_false_iff in Eg as [_ Hl]. apply Z.ltb_ge in Hl. change (kPacketLenSize + kPacketLenOffset) with 4 in Hl.
  unfold IsOutBufferEmpty. destruct (Z.eqb_spec (size_ (outbuf_ t)) 0) as [E|E]; cbn [negb]; [|apply nothing_sent; auto; intros _ E'; by apply E, empty_contents].
  apply empty_contents in E as Hempty; [|done]. rewrite GetExpectedLength_value by done. cbn [mbind outcome_bind]. destruct (stun_sizes (ztake 4 pv)) as [n pad] eqn:Es.
  destruct (Z.eqb_spec (zlen pv) n) as [En|En]; cbn [negb]; [|apply nothing_sent; auto; intros [_ Hfit]; cbn in Hfit; lia].
  assert (Hpad : 0 <= pad). { pose proof (header_ok stun_header (ztake 4 pv) (zlen_ztake 4 pv (conj (Zle_0_pos 4) Hl))) as Hok.
    cbn [sizes stun_header] in Hok. rewrite Es in Hok. lia. }
  destruct (AppendToOutBuffer_ok pv t Hb) as (b1 & -> & Hb1 & Hc1).
  cbn [mbind outcome_bind dcheck mret outcome_ret]. set (t1 := set_outbuf (socket_ t) b1 t). destruct (AppendToOutBuffer_ok (replicate (Z.to_nat pad) Byte.x00) t1 Hb1) as (b2 & -> & Hb2 & Hc2).
  cbn [mbind outcome_bind]. rewrite Hempty in Hc1. cbn [outbuf_ t1 set_outbuf] in Hc2. rewrite Hc1 in Hc2. cbn [app] in Hc2.
  eapply send_tail; [done|exact Hc2|done|by eapply stun_frame| |done|done|done]. destruct pv; [unfold zlen in Hl; cbn in Hl; lia|done].
Defined.
End SendInstances.

(** ** From the sender to the receiver *)

Inductive sender_op : Type :=
| SendPacket (pv : list byte) (packet_id : Z) (answers : list send_answer)
| Writable (answers : list send_answer).
Definition op_answers (o : sender_op) : list send_answer := match o with SendPacket _ _ l | Writable l => l end.
Definition offer (answers : list send_answer) (t : AsyncTCPSocketBase) : AsyncTCPSocketBase :=
  let s := socket_ t in
  set_outbuf (mkSocket (sends s ++ answers) (arrived s) (wire s) (sock_error s) (sock_state s) (remote_address s)) (outbuf_ t) t.

Section Run.
Context `{Heap} {P : PacketSocket}.

(** The accepted packets are those for which [SignalSentPacket] was emitted. *)
Fixpoint sender_run (ops : list sender_op) (t : AsyncTCPSocketBase) : outcome (AsyncTCPSocketBase * list (list byte)) :=
  match ops with
  | [] => mret (t, [])
  | SendPacket pv packet_id answers :: ops =>
      '(_, t, signals) ← @Send P pv packet_id (offer answers t);
      '(t, later) ← sender_run ops t;
      mret (t, match signals with [] => later | _ => pv :: later end)
  | Writable answers :: ops =>
      '(t, _) ← OnWriteEvent true (offer answers t);
      sender_run ops t
  end.

Context {F : Framing P} {SF : SendFraming P}.
Definition op_ok (o : sender_op) : Prop :=
  Forall willing (op_answers o) /\ match o with SendPacket pv _ _ => sendable pv | Writable _ => True end.

Record sending (t : AsyncTCPSocketBase) (ps : list (list byte)) : Prop := {
  send_buffer : BufferT_ok (outbuf_ t);
  send_answers : Forall willing (sends (socket_ t));
  send_frames : exists fs, Forall2 (@frames (header_parser framing)) ps fs /\ wire (socket_ t) ++ BufferT_contents (outbuf_ t) = concat fs
}.

Lemma sending_offer answers t ps : sending t ps -> Forall willing answers -> sending (offer answers t) ps.
Proof. intros [] Ha. split; cbn; try done. by apply Forall_app_2. Qed.

Lemma Send_step pv id t ps : sending t ps -> sendable pv -> exists res t' signals,
  @Send P pv id t = Ret (res, t', signals) /\ sending t' (ps ++ match signals with [] => [] | _ => [pv] end).
Proof.
  intros [Hb Hw (fs & Hfs & Hwire)] Hs. destruct (framing_send pv id t Hs Hb Hw) as (res & t' & signals & -> & _ & Hb' & Hw' & Hcase).
  exists res, t', signals. split; [done|]. split; try done. destruct Hcase as [(-> & E1 & E2 & _)|(-> & E0 & took & E1 & Hf)].
  - exists fs. rewrite app_nil_r, E1, E2. done.
  - exists (fs ++ [took ++ BufferT_contents (outbuf_ t')]). split; [apply Forall2_app; [done|by apply Forall2_cons_2]|].
    rewrite E0, app_nil_r in Hwire. rewrite concat_app, <- Hwire, E1. cbn. by rewrite app_nil_r, <- app_assoc.
Qed.
(** With nothing pending and a socket that takes bytes, a packet that fits its
    frame is accepted. *)
Lemma Send_accepts pv id t ps : sending t ps -> sendable pv -> fits_frame pv -> BufferT_contents (outbuf_ t) = [] ->
  ~ stuck (socket_ t) -> exists res t', @Send P pv id t = Ret (res, t', [SentPacket id]).
Proof.
  intros [Hb Hw _] Hs Hf He Hst. destruct (framing_send pv id t Hs Hb Hw) as (res & t' & signals & -> & _ & _ & _ & Hcase).
  destruct Hcase as [(_ & _ & _ & Hwhy)|(-> & _)]; [by destruct Hst; apply Hwhy|]. by exists res, t'.
Qed.
Lemma Write_step t ps : sending t ps -> exists t' signals, OnWriteEvent true t = Ret (t', signals) /\ sending t' ps.
Proof.
  intros [Hb Hw (fs & Hfs & Hwire)]. unfold OnWriteEvent. destruct (Z.ltb_spec 0 (size_ (outbuf_ t))) as [Hp|Hp].
  - destruct (FlushOutBuffer_ok t) as (t' & took & -> & _ & Hb' & Hw' & Hsplit & Hwire' & _); [done| |done|].
    { intros E. apply empty_contents in E; [lia|done]. }
    cbn [mbind outcome_bind mret outcome_ret]. eexists _, _. split; [done|]. split; try done. exists fs. split; [done|].
    by rewrite Hwire', <- app_assoc, <- Hsplit.
  - eexists _, _. split; [done|]. split; try done. by exists fs.
Qed.

Lemma sender_run_ok ops t ps : sending t ps -> Forall op_ok ops -> exists t' new, sender_run ops t = Ret (t', new) /\ sending t' (ps ++ new).
Proof.
  revert t ps. induction ops as [|o ops IH]; intros t ps Hs Hops; cbn [sender_run].
  - exists t, []. by rewrite app_nil_r.
  - apply Forall_cons_1 in Hops as [[Ha Ho] Hops]. destruct o as [pv id answers|answers]; cbn [op_answers] in Ha.
    + destruct (Send_step pv id (offer answers t) ps) as (res & t1 & sigs & -> & Hs1); [by apply sending_offer|done|]. cbn [mbind outcome_bind].
      destruct (IH t1 _ Hs1 Hops) as (t2 & new & -> & Hs2). cbn [mbind outcome_bind mret outcome_ret]. eexists _, _. split; [done|].
      destruct sigs; [by rewrite app_nil_r in Hs2|]. by rewrite <- app_assoc in Hs2.
    + destruct (Write_step (offer answers t) ps) as (t1 & sigs & -> & Hs1); [by apply sending_offer|]. cbn [mbind outcome_bind].
      apply (IH t1 ps Hs1 Hops).
Qed.

(** A new connected socket. *)
Lemma new_socket s : exists t, AsyncTCPSocketBase_new true (Some s) false (@max_packet_size P) = Ret t /\ socket_ t = s /\
  BufferT_contents (outbuf_ t) = [] /\ (Forall willing (sends s) -> wire s = [] -> sending t []) /\ receiving t [] [].
Proof.
  unfold AsyncTCPSocketBase_new. cbn [negb].
  assert (He : BufferT_ok BufferT_empty) by (unfold BufferT_ok; cbn; by split_and!).
  destruct (post_inv _ _ (EnsureCapacityWithHeadroom_ok false BufferT_empty kMinimumRecvSize false He)) as (b & E & Hb & Hs & Hc & Hcap & _).
  unfold EnsureCapacity. rewrite E. cbn [mbind outcome_bind dcheck mret outcome_ret]. eexists. split; [done|]. split; [done|]. split; [done|].
  split; [|split; [done|exact Hb|exact Hcap|done|]].
  - intros Hw Hwire. split; try done. exists []. split; [done|]. cbn. by rewrite Hwire.
  - cbn [inbuf_]. rewrite Hc. change (BufferT_contents BufferT_empty) with (@nil byte). rewrite (@parse_done (header_parser framing)); [done|]. unfold next, header_parser, header_next.
    destruct (Z.ltb_spec (zlen (@nil byte)) (header_size framing)); [done|].
    pose proof (header_ok framing _ (header_zlen framing [] ltac:(done))) as Hok. destruct (sizes framing _) as [[off n] total].
    rewrite (proj2 (Z.ltb_lt _ _)); [done|]. unfold zlen. cbn. lia.
Qed.
End Run.

(** The two subclasses, built without assertions. *)
Definition subclass `{Heap} (stun : bool) : PacketSocket := if stun then AsyncStunTCPSocket true else AsyncTCPSocket true.
#[export] Instance subclass_framing `{Heap} stun : Framing (subclass stun) :=
  match stun with true => stun_framing true | false => tcp_framing true end.
#[export] Instance subclass_sends `{Heap} stun : SendFraming (subclass stun) :=
  match stun with true => stun_sends | false => tcp_sends end.

(** The length field of [AsyncTCPSocket] has 16 bits. *)
Definition op_fits (stun : bool) (o : sender_op) : Prop :=
  Forall willing (op_answers o) /\ match o with SendPacket pv _ _ => stun = true \/ zlen pv < 65536 | Writable _ => True end.
Lemma op_fits_ok `{Heap} stun o : op_fits stun o -> @op_ok (subclass stun) _ _ o.
Proof. intros [Hw Ho]. split; [done|]. destruct o; [|done]. destruct stun; [done|]. by destruct Ho. Qed.

(** A packet whose length fits: 16 bits for [AsyncTCPSocket]; for the STUN
    framing the length field of its own header. *)
Definition acceptable (stun : bool) (pv : list byte) : Prop :=
  if stun then 4 <= zlen pv <= stun_kBufSize /\ fst (stun_sizes (ztake 4 pv)) = zlen pv else zlen pv < 65536.
Lemma acceptable_ok `{Heap} stun pv : acceptable stun pv -> @sendable (subclass stun) _ _ pv /\ @fits_frame (subclass stun) _ _ pv.
Proof. by destruct stun. Qed.


Definition example_socket : AsyncSocket := mkSocket [] [] [] 0 CS_CONNECTED SocketAddress_nil.
(** The second packet comes while the first is still in the buffer and is dropped. *)
Definition example_ops : list sender_op :=
  [SendPacket [Byte.x41; Byte.x42] 1 [Takes 3; SendFails EWOULDBLOCK]; SendPacket [Byte.x43] 2 []; Writable [Takes 1]].
Definition example_events : list (list recv_answer) :=
  [[Arrives [Byte.x00]]; [Arrives [Byte.x02; Byte.x41]; RecvFails EWOULDBLOCK]; [Arrives [Byte.x42]]; []].


