(* ===== verification/SocketAdapters.v ===== *)
(** * network/stun/socket_adapters.cc, server_socket_adapters.cc, proxy_server.cc

    [BufferedReadAdapter] keeps the input of a stream socket to itself while a
    handshake is going on; on it the client and the server of the fake SSL
    handshake and of the SOCKS 5 protocol.  [ProxyBinding] of the proxy server
    joins two sockets with two ring buffers.  The stream socket is the one of
    AsyncTcpSocket; an operation returns what it signals.  The HTTPS proxy is
    compiled out in the source.  A [CryptString] is its characters. *)

From Stdlib Require Import ZArith Lia.
From S2P Require Import Prelude ByteOrder ConstBuffer ByteBuffer FifoBuffer IpAddress SocketAddress AsyncTcpSocket.
Local Open Scope Z_scope.
Local Open Scope list_scope.

Definition SOCKET_EACCES : Z := 13.

Inductive adapter_signal : Type :=
| ReadEvent
| ConnectEvent
| CloseEvent (error : Z)
| ConnectRequest (addr : SocketAddress).

Record BufferedReadAdapter : Type := mkAdapter {
  ad_socket : AsyncSocket; ad_buffer : list byte; ad_data_len : Z; ad_buffering : bool
}.
Definition set_state (st : ConnState) (s : AsyncSocket) : AsyncSocket :=
  mkSocket (sends s) (arrived s) (wire s) (sock_error s) st (remote_address s).

Section Adapters.
Context `{Heap} (NDEBUG : bool).
#[local] Instance writer_class : BufferClass BufferT := BufferT_class false.

Definition BufferedReadAdapter_new (socket : AsyncSocket) (size : Z) : BufferedReadAdapter := mkAdapter socket (fresh size) 0 false.
Definition buffer_size_ (a : BufferedReadAdapter) : Z := zlen (ad_buffer a).
Definition set_socket (s : AsyncSocket) (a : BufferedReadAdapter) : BufferedReadAdapter := mkAdapter s (ad_buffer a) (ad_data_len a) (ad_buffering a).
Definition set_input (buffer : list byte) (len : Z) (a : BufferedReadAdapter) : BufferedReadAdapter := mkAdapter (ad_socket a) buffer len (ad_buffering a).
Definition BufferInput (on : bool) (a : BufferedReadAdapter) : BufferedReadAdapter := mkAdapter (ad_socket a) (ad_buffer a) (ad_data_len a) on.

(** [AsyncSocketAdapter::Send], [Close] and [SetError] hand on to the socket. *)
Definition DirectSend (data : list byte) (a : BufferedReadAdapter) : Z * BufferedReadAdapter :=
  let '(res, s) := socket_Send data (ad_socket a) in (res, set_socket s a).
Definition Adapter_Close (a : BufferedReadAdapter) : BufferedReadAdapter := set_socket (set_state CS_CLOSED (ad_socket a)) a.
Definition Adapter_SetError (err : Z) (a : BufferedReadAdapter) : BufferedReadAdapter := set_socket (set_error err (ad_socket a)) a.

Definition Adapter_Send (data : list byte) (a : BufferedReadAdapter) : Z * BufferedReadAdapter :=
  if ad_buffering a then (-1, Adapter_SetError EWOULDBLOCK a) else DirectSend data a.

(** The result and the bytes copied to [pv]. *)
(** What was buffered comes first. *)
Definition Recv_buffered (cb : Z) (a : BufferedReadAdapter) : outcome (list byte * BufferedReadAdapter) :=
  if ad_data_len a =? 0 then mret ([], a) else
  let read := Z.min cb (ad_data_len a) in
  first ← mem_read (ad_buffer a) 0 read;
  let len := ad_data_len a - read in
  buffer ← (if 0 <? len then rest ← mem_read (ad_buffer a) read len; mem_write (ad_buffer a) 0 rest else mret (ad_buffer a));
  mret (first, set_input buffer len a).
Definition Adapter_Recv (cb : Z) (a : BufferedReadAdapter) : outcome (Z * list byte * BufferedReadAdapter) :=
  if ad_buffering a then mret (-1, [], Adapter_SetError EWOULDBLOCK a) else
  '(first, a) ← Recv_buffered cb a;
  let read := zlen first in
  let '(res, got, s) := socket_Recv (cb - read) (ad_socket a) in
  let a := set_socket s a in
  if 0 <=? res then mret (res + read, first ++ got, a) else
  if 0 <? read then mret (read, first, a) else mret (res, [], a).

(** The virtual [ProcessInput(buffer_, &data_len_)] of a subclass with state [T]. *)
Definition Adapter_OnReadEvent {T} (base : T -> BufferedReadAdapter) (set_base : BufferedReadAdapter -> T -> T)
    (ProcessInput : T -> outcome (T * list adapter_signal)) (t : T) : outcome (T * list adapter_signal) :=
  let a := base t in
  if negb (ad_buffering a) then mret (t, [ReadEvent]) else
  let len0 := if buffer_size_ a <=? ad_data_len a then 0 else ad_data_len a in
  let '(len, got, s) := socket_Recv (buffer_size_ a - len0) (ad_socket a) in
  if len <? 0 then mret (set_base (set_socket s (set_input (ad_buffer a) len0 a)) t, []) else
  buffer ← mem_write (ad_buffer a) len0 got;
  ProcessInput (set_base (set_socket s (set_input buffer (len0 + len) a)) t).

(** ** The fake SSL handshake *)

Definition kSslClientHello : list byte := map byte.of_Z
  [0x80; 0x46; 0x01; 0x03; 0x01; 0x00; 0x2d; 0x00; 0x00; 0x00; 0x10;
   0x01; 0x00; 0x80; 0x03; 0x00; 0x80; 0x07; 0x00; 0xc0; 0x06; 0x00; 0x40; 0x02; 0x00; 0x80; 0x04; 0x00; 0x80;
   0x00; 0x00; 0x04; 0x00; 0xfe; 0xff; 0x00; 0x00; 0x0a; 0x00; 0xfe; 0xfe; 0x00; 0x00; 0x09; 0x00; 0x00; 0x64;
   0x00; 0x00; 0x62; 0x00; 0x00; 0x03; 0x00; 0x00; 0x06;
   0x1f; 0x17; 0x0c; 0xa6; 0x2f; 0x00; 0x78; 0xfc; 0x46; 0x55; 0x2e; 0xb1; 0x83; 0x39; 0xf1; 0xea].
Definition kSslServerHello : list byte := map byte.of_Z
  [0x16; 0x03; 0x01; 0x00; 0x4a; 0x02; 0x00; 0x00; 0x46; 0x03; 0x01;
   0x42; 0x85; 0x45; 0xa7; 0x27; 0xa9; 0x5d; 0xa0; 0xb3; 0xc5; 0xe7; 0x53; 0xda; 0x48; 0x2b; 0x3f;
   0xc6; 0x5a; 0xca; 0x89; 0xc1; 0x58; 0x52; 0xa1; 0x78; 0x3c; 0x5b; 0x17; 0x46; 0x00; 0x85; 0x3f;
   0x20; 0x0e; 0xd3; 0x06; 0x72; 0x5b; 0x5b; 0x1b; 0x5f; 0x15; 0xac; 0x13; 0xf9; 0x88; 0x53; 0x9d; 0x9b;
   0xe8; 0x3d; 0x7b; 0x0c; 0x30; 0x32; 0x6e; 0x38; 0x4d; 0xa2; 0x75; 0x57; 0x41; 0x6c; 0x34; 0x5c; 0x00; 0x04; 0x00].

(** A view of an array that is not empty. *)
Definition SslClientHello : outcome (list byte) := view_check NDEBUG (zlen kSslClientHello);; mret kSslClientHello.
Definition SslServerHello : outcome (list byte) := view_check NDEBUG (zlen kSslServerHello);; mret kSslServerHello.

Definition AsyncSSLSocket_new (socket : AsyncSocket) : BufferedReadAdapter := BufferedReadAdapter_new socket 1024.
(** The result of the socket's [Connect]. *)
Definition SSL_Connect (connect_result : Z) (a : BufferedReadAdapter) : Z * BufferedReadAdapter := (connect_result, BufferInput true a).
Definition SSL_OnConnectEvent (a : BufferedReadAdapter) : outcome BufferedReadAdapter :=
  let '(res, a) := DirectSend kSslClientHello a in
  dcheck NDEBUG (zlen kSslClientHello =? res);; mret a.
Definition SSL_ProcessInput (a : BufferedReadAdapter) : outcome (BufferedReadAdapter * list adapter_signal) :=
  let n := zlen kSslServerHello in
  if ad_data_len a <? n then mret (a, []) else
  front ← mem_read (ad_buffer a) 0 n;
  if negb (bool_decide (front = kSslServerHello)) then mret (Adapter_Close a, [CloseEvent 0]) else
  let len := ad_data_len a - n in
  buffer ← (if 0 <? len then rest ← mem_read (ad_buffer a) n len; mem_write (ad_buffer a) 0 rest else mret (ad_buffer a));
  mret (BufferInput false (set_input buffer len a), ConnectEvent :: (if 0 <? len then [ReadEvent] else [])).

Definition AsyncSSLServerSocket_new (socket : AsyncSocket) : BufferedReadAdapter := BufferInput true (BufferedReadAdapter_new socket 1024).
Definition SSLServer_ProcessInput (a : BufferedReadAdapter) : outcome (BufferedReadAdapter * list adapter_signal) :=
  client_hello ← SslClientHello;
  let n := zlen client_hello in
  if ad_data_len a <? n then mret (a, []) else
  front ← mem_read (ad_buffer a) 0 n;
  if negb (bool_decide (front = client_hello)) then mret (Adapter_Close a, [CloseEvent 0]) else
  let len := ad_data_len a - n in
  dcheck NDEBUG (len =? 0);;
  server_hello ← SslServerHello;
  let a := snd (DirectSend server_hello (set_input (ad_buffer a) len a)) in
  mret (BufferInput false a, []).

(** ** The SOCKS client *)

Inductive ClientState : Type := CS_INIT | CS_HELLO | CS_AUTH | CS_CONNECT | CS_TUNNEL | CS_ERROR.
Definition ClientState_num (s : ClientState) : Z :=
  match s with CS_INIT => 0 | CS_HELLO => 1 | CS_AUTH => 2 | CS_CONNECT => 3 | CS_TUNNEL => 4 | CS_ERROR => 5 end.
Record AsyncSocksProxySocket : Type := mkClient {
  c_base : BufferedReadAdapter; c_state : ClientState; c_proxy : SocketAddress; c_dest : SocketAddress; c_user : list byte; c_pass : list byte
}.
Definition c_set_base (a : BufferedReadAdapter) (c : AsyncSocksProxySocket) : AsyncSocksProxySocket :=
  mkClient a (c_state c) (c_proxy c) (c_dest c) (c_user c) (c_pass c).
Definition c_set (a : BufferedReadAdapter) (st : ClientState) (c : AsyncSocksProxySocket) : AsyncSocksProxySocket :=
  mkClient a st (c_proxy c) (c_dest c) (c_user c) (c_pass c).

Definition AsyncSocksProxySocket_new (socket : AsyncSocket) (proxy : SocketAddress) (username password : list byte) : AsyncSocksProxySocket :=
  mkClient (BufferedReadAdapter_new socket 1024) CS_ERROR proxy SocketAddress_nil username password.

(** The socket connects to the proxy. *)
Definition Socks_Connect (addr : SocketAddress) (connect_result : Z) (c : AsyncSocksProxySocket) : Z * AsyncSocksProxySocket :=
  (connect_result, mkClient (BufferInput true (c_base c)) CS_INIT (c_proxy c) addr (c_user c) (c_pass c)).
Definition Socks_GetRemoteAddress (c : AsyncSocksProxySocket) : SocketAddress := c_dest c.
Definition Socks_Close (c : AsyncSocksProxySocket) : AsyncSocksProxySocket :=
  mkClient (Adapter_Close (c_base c)) CS_ERROR (c_proxy c) (SocketAddress.Clear (c_dest c)) (c_user c) (c_pass c).
Definition Socks_GetState (c : AsyncSocksProxySocket) : ConnState :=
  if ClientState_num (c_state c) <? ClientState_num CS_TUNNEL then CS_CONNECTING
  else match c_state c with CS_TUNNEL => CS_CONNECTED | _ => CS_CLOSED end.
Definition Socks_Error (error : Z) (c : AsyncSocksProxySocket) : AsyncSocksProxySocket * list adapter_signal :=
  let c := Socks_Close (c_set (BufferInput false (c_base c)) CS_ERROR c) in
  (c_set_base (Adapter_SetError SOCKET_EACCES (c_base c)) c, [CloseEvent error]).

Definition client_send (w : BufferT) (st : ClientState) (c : AsyncSocksProxySocket) : AsyncSocksProxySocket :=
  c_set (snd (DirectSend (BufferT_contents w) (c_base c))) st c.

Definition SendHello (c : AsyncSocksProxySocket) : outcome AsyncSocksProxySocket :=
  w ← ByteBufferWriter;
  w ← WriteUInt8 w 5;
  w ← (if bool_decide (c_user c = []) then w ← WriteUInt8 w 1; WriteUInt8 w 0
       else w ← WriteUInt8 w 2; w ← WriteUInt8 w 0; WriteUInt8 w 2);
  mret (client_send w CS_HELLO c).
(** The buffer of the password is zeroed when it is freed. *)
Definition SendAuth (c : AsyncSocksProxySocket) : outcome AsyncSocksProxySocket :=
  w ← EnsureCapacity true BufferT_empty kDefaultCapacity;
  w ← @WriteUInt8 _ (BufferT_class true) w 1;
  w ← @WriteUInt8 _ (BufferT_class true) w (wrap8 (zlen (c_user c)));
  w ← @WriteString _ (BufferT_class true) w (c_user c);
  w ← @WriteUInt8 _ (BufferT_class true) w (wrap8 (zlen (c_pass c)));
  w ← @WriteBytes _ (BufferT_class true) w (c_pass c);
  mret (client_send w CS_AUTH c).
Definition SendConnect (c : AsyncSocksProxySocket) : outcome AsyncSocksProxySocket :=
  w ← ByteBufferWriter;
  w ← WriteUInt8 w 5;
  w ← WriteUInt8 w 1;
  w ← WriteUInt8 w 0;
  w ← (if IsUnresolvedIP (c_dest c) then
         w ← WriteUInt8 w 3; w ← WriteUInt8 w (wrap8 (zlen (hostname_ (c_dest c)))); WriteString w (hostname_ (c_dest c))
       else w ← WriteUInt8 w 1; WriteUInt32 w (ip_host (c_dest c)));
  w ← WriteUInt16 w (port_ (c_dest c));
  mret (client_send w CS_CONNECT c).
Definition Socks_OnConnectEvent (c : AsyncSocksProxySocket) : outcome AsyncSocksProxySocket := SendHello c.

(** [*len = response.Length(); memmove(data, response.Data(), *len)] *)
Definition consume_parsed (response : ByteBufferReader) (a : BufferedReadAdapter) : outcome BufferedReadAdapter :=
  let len := Length response in
  rest ← mem_read (bytes_ response) (start_ response) len;
  buffer ← mem_write (ad_buffer a) 0 rest;
  mret (set_input buffer len a).

Definition Socks_finish (response : ByteBufferReader) (c : AsyncSocksProxySocket) : outcome (AsyncSocksProxySocket * list adapter_signal) :=
  a ← consume_parsed response (c_base c);
  match c_state c with
  | CS_TUNNEL =>
      mret (c_set_base (BufferInput false a) c, ConnectEvent :: (if 0 <? ad_data_len a then [ReadEvent] else []))
  | _ => mret (c_set_base a c, [])
  end.

(** The bound address of the reply: [None] for an unknown type of address. *)
Definition read_bound (atyp : Z) : option (reader unit) :=
  if atyp =? 1 then Some (addr ← ReadUInt32; port ← ReadUInt16; mret tt)
  else if atyp =? 3 then Some (len ← ReadUInt8; addr ← ReadString [] len; port ← ReadUInt16; mret tt)
  else if atyp =? 4 then Some (addr ← ReadString [] 16; port ← ReadUInt16; mret tt)
  else None.

Definition Socks_ProcessInput (c : AsyncSocksProxySocket) : outcome (AsyncSocksProxySocket * list adapter_signal) :=
  dcheck NDEBUG (ClientState_num (c_state c) <? ClientState_num CS_TUNNEL);;
  let response := Reader (ad_buffer (c_base c)) (ad_data_len (c_base c)) in
  match c_state c with
  | CS_HELLO =>
      '(o, response) ← (ver ← ReadUInt8; method ← ReadUInt8; mret (ver, method) : reader (Z * Z)) response;
      match o with
      | None => mret (c, [])
      | Some (ver, method) =>
          if negb (ver =? 5) then mret (Socks_Error 0 c) else
          if method =? 0 then c ← SendConnect c; Socks_finish response c else
          if method =? 2 then c ← SendAuth c; Socks_finish response c else
          mret (Socks_Error 0 c)
      end
  | CS_AUTH =>
      '(o, response) ← (ver ← ReadUInt8; status ← ReadUInt8; mret (ver, status) : reader (Z * Z)) response;
      match o with
      | None => mret (c, [])
      | Some (ver, status) =>
          if negb (ver =? 1) || negb (status =? 0) then mret (Socks_Error SOCKET_EACCES c) else
          c ← SendConnect c; Socks_finish response c
      end
  | CS_CONNECT =>
      '(o, response) ← (ver ← ReadUInt8; rep ← ReadUInt8; rsv ← ReadUInt8; atyp ← ReadUInt8; mret (ver, rep, atyp) : reader (Z * Z * Z)) response;
      match o with
      | None => mret (c, [])
      | Some (ver, rep, atyp) =>
          if negb (ver =? 5) || negb (rep =? 0) then mret (Socks_Error 0 c) else
          match read_bound atyp with
          | None => mret (Socks_Error 0 c)
          | Some m =>
              '(o, response) ← m response;
              match o with
              | None => mret (c, [])
              | Some _ => Socks_finish response (c_set (c_base c) CS_TUNNEL c)
              end
          end
      end
  | _ => Socks_finish response c
  end.
Definition Socks_OnReadEvent : AsyncSocksProxySocket -> outcome (AsyncSocksProxySocket * list adapter_signal) :=
  Adapter_OnReadEvent c_base c_set_base Socks_ProcessInput.

(** ** The SOCKS server *)

Inductive ServerState : Type := SV_HELLO | SV_AUTH | SV_CONNECT | SV_CONNECT_PENDING | SV_TUNNEL | SV_ERROR.
Definition ServerState_num (s : ServerState) : Z :=
  match s with SV_HELLO => 0 | SV_AUTH => 1 | SV_CONNECT => 2 | SV_CONNECT_PENDING => 3 | SV_TUNNEL => 4 | SV_ERROR => 5 end.
Record AsyncSocksProxyServerSocket : Type := mkProxyServer { v_base : BufferedReadAdapter; v_state : ServerState }.
Definition v_set_base (a : BufferedReadAdapter) (v : AsyncSocksProxyServerSocket) : AsyncSocksProxyServerSocket := mkProxyServer a (v_state v).

Definition AsyncSocksProxyServerSocket_new (socket : AsyncSocket) : AsyncSocksProxyServerSocket :=
  mkProxyServer (BufferInput true (BufferedReadAdapter_new socket 1024)) SV_HELLO.

Definition Server_Error (error : Z) (v : AsyncSocksProxyServerSocket) : AsyncSocksProxyServerSocket * list adapter_signal :=
  (mkProxyServer (Adapter_SetError SOCKET_EACCES (Adapter_Close (BufferInput false (v_base v)))) SV_ERROR, [CloseEvent error]).
Definition Server_DirectSend (w : BufferT) (v : AsyncSocksProxyServerSocket) : AsyncSocksProxyServerSocket :=
  v_set_base (snd (DirectSend (BufferT_contents w) (v_base v))) v.

Definition SendHelloReply (method : Z) (v : AsyncSocksProxyServerSocket) : outcome AsyncSocksProxyServerSocket :=
  w ← ByteBufferWriter; w ← WriteUInt8 w 5; w ← WriteUInt8 w method; mret (Server_DirectSend w v).
Definition SendAuthReply (result : Z) (v : AsyncSocksProxyServerSocket) : outcome AsyncSocksProxyServerSocket :=
  w ← ByteBufferWriter; w ← WriteUInt8 w 1; w ← WriteUInt8 w result; mret (Server_DirectSend w v).

(** A handler reads from the request and returns where it stopped. *)
Definition HandleHello (request : ByteBufferReader) (v : AsyncSocksProxyServerSocket)
    : outcome (AsyncSocksProxyServerSocket * list adapter_signal * ByteBufferReader) :=
  '(o, request) ← (ver ← ReadUInt8; num_methods ← ReadUInt8; mret (ver, num_methods) : reader (Z * Z)) request;
  match o with
  | None => mret (Server_Error 0 v, request)
  | Some (ver, num_methods) =>
      if negb (ver =? 5) then mret (Server_Error 0 v, request) else
      '(o, request) ← (if 0 <? num_methods then ReadUInt8 request else mret (Some 0xFF, request));
      match o with
      | None => mret (Server_Error 0 v, request)
      | Some method =>
          v ← SendHelloReply method v;
          let st := if method =? 0 then SV_CONNECT else if method =? 2 then SV_AUTH else SV_ERROR in
          mret (mkProxyServer (v_base v) st, [], request)
      end
  end.
Definition HandleAuth (request : ByteBufferReader) (v : AsyncSocksProxyServerSocket)
    : outcome (AsyncSocksProxyServerSocket * list adapter_signal * ByteBufferReader) :=
  '(o, request) ← (ver ← ReadUInt8; user_len ← ReadUInt8; user ← ReadString [] user_len; pass_len ← ReadUInt8;
                   pass ← ReadString [] pass_len; mret tt : reader unit) request;
  match o with
  | None => mret (Server_Error 0 v, request)
  | Some _ => v ← SendAuthReply 0 v; mret (mkProxyServer (v_base v) SV_CONNECT, [], request)
  end.
(** The signal is emitted before the state changes; it is answered here, so
    that its receiver ([OnConnectRequest], which starts to connect the other
    socket and does not look at this one) runs after. *)
Definition HandleConnect (request : ByteBufferReader) (v : AsyncSocksProxyServerSocket)
    : outcome (AsyncSocksProxyServerSocket * list adapter_signal * ByteBufferReader) :=
  '(o, request) ← (ver ← ReadUInt8; command ← ReadUInt8; reserved ← ReadUInt8; addr_type ← ReadUInt8; ip ← ReadUInt32; port ← ReadUInt16;
                   mret (ver, command, reserved, addr_type, ip, port) : reader (Z * Z * Z * Z * Z * Z)) request;
  match o with
  | None => mret (Server_Error 0 v, request)
  | Some (ver, command, reserved, addr_type, ip, port) =>
      if negb (ver =? 5) || negb (command =? 1) || negb (reserved =? 0) || negb (addr_type =? 1) then mret (Server_Error 0 v, request) else
      addr ← SocketAddress_ip (IPAddress_host ip) port;
      mret (mkProxyServer (v_base v) SV_CONNECT_PENDING, [ConnectRequest addr], request)
  end.

Definition Server_ProcessInput (v : AsyncSocksProxyServerSocket) : outcome (AsyncSocksProxyServerSocket * list adapter_signal) :=
  dcheck NDEBUG (ServerState_num (v_state v) <? ServerState_num SV_CONNECT_PENDING);;
  let response := Reader (ad_buffer (v_base v)) (ad_data_len (v_base v)) in
  '(v, signals, response) ←
    match v_state v with
    | SV_HELLO => HandleHello response v
    | SV_AUTH => HandleAuth response v
    | SV_CONNECT => HandleConnect response v
    | _ => mret (v, [], response)
    end;
  a ← consume_parsed response (v_base v);
  mret (v_set_base a v, signals).
Definition Server_OnReadEvent : AsyncSocksProxyServerSocket -> outcome (AsyncSocksProxyServerSocket * list adapter_signal) :=
  Adapter_OnReadEvent v_base v_set_base Server_ProcessInput.

Definition SendConnectResult (result : Z) (addr : SocketAddress) (v : AsyncSocksProxyServerSocket) : outcome AsyncSocksProxyServerSocket :=
  match v_state v with
  | SV_CONNECT_PENDING =>
      w ← ByteBufferWriter;
      w ← WriteUInt8 w 5;
      w ← WriteUInt8 w (if result =? 0 then 0 else 1);
      w ← WriteUInt8 w 0;
      w ← WriteUInt8 w 1;
      w ← WriteUInt32 w (ip_host addr);
      w ← WriteUInt16 w (port_ addr);
      let v := Server_DirectSend w v in
      mret (mkProxyServer (BufferInput false (v_base v)) SV_TUNNEL)
  | _ => mret v
  end.

(** ** The proxy: two sockets and two ring buffers *)

Definition kBufferSize : Z := 4096.
Record ProxyBinding : Type := mkBinding {
  int_socket_ : AsyncSocksProxyServerSocket; ext_socket_ : AsyncSocket; connected_ : bool; out_buffer_ : FifoBuffer; in_buffer_ : FifoBuffer
}.
Definition ProxyBinding_new (int_socket : AsyncSocksProxyServerSocket) (ext_socket : AsyncSocket) : ProxyBinding :=
  mkBinding int_socket ext_socket false (FifoBuffer_new kBufferSize) (FifoBuffer_new kBufferSize).

Definition Int_Recv (n : Z) (v : AsyncSocksProxyServerSocket) : outcome (Z * list byte * AsyncSocksProxyServerSocket) :=
  '(res, got, a) ← Adapter_Recv n (v_base v); mret (res, got, v_set_base a v).
Definition Int_Send (data : list byte) (v : AsyncSocksProxyServerSocket) : Z * AsyncSocksProxyServerSocket :=
  let '(res, a) := Adapter_Send data (v_base v) in (res, v_set_base a v).
Definition Ext_Recv (n : Z) (s : AsyncSocket) : outcome (Z * list byte * AsyncSocket) := mret (socket_Recv n s).

(** [Read(socket, buffer)], for either socket. *)
Definition Binding_Read {S} (recv : Z -> S -> outcome (Z * list byte * S)) (s : S) (buffer : FifoBuffer) : outcome (S * FifoBuffer) :=
  if GetBuffered buffer =? 0 then
    '(o, buffer) ← GetWriteBuffer buffer;
    let '(pos, size) := default (0, 0) o in
    '(read, got, s) ← recv size s;
    d ← mem_write (buffer_ buffer) pos got;
    buffer ← ConsumeWriteBuffer (mkFifo (state_ buffer) d (buffer_length_ buffer) (data_length_ buffer) (read_position_ buffer)) (Z.max read 0);
    mret (s, buffer)
  else mret (s, buffer).
Definition Binding_Write {S} (send : list byte -> S -> Z * S) (s : S) (buffer : FifoBuffer) : outcome (S * FifoBuffer) :=
  let '(pos, size) := GetReadData buffer in
  data ← mem_read (buffer_ buffer) pos size;
  let '(written, s) := send data s in
  buffer ← ConsumeReadData buffer (Z.max written 0);
  mret (s, buffer).

(** The socket's [Connect] is told the address. *)
Definition OnConnectRequest (addr : SocketAddress) (b : ProxyBinding) : outcome SocketAddress :=
  dcheck NDEBUG (negb (connected_ b));; mret addr.
Definition OnInternalRead (b : ProxyBinding) : outcome ProxyBinding :=
  '(v, out) ← Binding_Read Int_Recv (int_socket_ b) (out_buffer_ b);
  '(e, out) ← Binding_Write socket_Send (ext_socket_ b) out;
  mret (mkBinding v e (connected_ b) out (in_buffer_ b)).
Definition OnInternalWrite (b : ProxyBinding) : outcome ProxyBinding :=
  '(v, inb) ← Binding_Write Int_Send (int_socket_ b) (in_buffer_ b);
  mret (mkBinding v (ext_socket_ b) (connected_ b) (out_buffer_ b) inb).
Definition OnExternalConnect (b : ProxyBinding) : outcome ProxyBinding :=
  v ← SendConnectResult 0 (remote_address (ext_socket_ b)) (int_socket_ b);
  mret (mkBinding v (ext_socket_ b) true (out_buffer_ b) (in_buffer_ b)).
Definition OnExternalRead (b : ProxyBinding) : outcome ProxyBinding :=
  '(e, inb) ← Binding_Read Ext_Recv (ext_socket_ b) (in_buffer_ b);
  '(v, inb) ← Binding_Write Int_Send (int_socket_ b) inb;
  mret (mkBinding v e (connected_ b) (out_buffer_ b) inb).
Definition OnExternalWrite (b : ProxyBinding) : outcome ProxyBinding :=
  '(e, out) ← Binding_Write socket_Send (ext_socket_ b) (out_buffer_ b);
  mret (mkBinding (int_socket_ b) e (connected_ b) out (in_buffer_ b)).
(** It ends with [SignalDestroyed]. *)
Definition OnExternalClose (err : Z) (b : ProxyBinding) : outcome ProxyBinding :=
  if connected_ b then mret b else
  v ← SendConnectResult err SocketAddress_nil (int_socket_ b);
  mret (mkBinding v (ext_socket_ b) (connected_ b) (out_buffer_ b) (in_buffer_ b)).
End Adapters.
