(* ===== verification/SocksProps.v ===== *)
(** * The SOCKS client and server together

    The handshake of a client without user name ends in a tunnel, however the
    answers of the server are cut; what goes wrong with a user name, and how a
    client makes the server fail an assertion. *)

From Stdlib Require Import ZArith Lia.
From S2P Require Import Prelude ByteOrder ConstBuffer ByteBuffer FifoBuffer IpAddress SocketAddress StunAttr StunCodec AsyncTcpSocket SocketAdapters.
Local Open Scope Z_scope.
Local Open Scope list_scope.

(** ** Reading what is there and what is not *)

Lemma read_byte r (b : byte) l : unread r (b :: l) -> exists r', ReadUInt8 r = Ret (Some (byte.unsigned b), r') /\ unread r' l.
Proof. intros Hr. apply (ReadUInt8_reads_byte b r l). exact Hr. Qed.
Lemma read_short n r l : unread r l -> zlen l < n -> ReadBytes n r = Ret (None, r).
Proof. intros Hr Hn. unfold ReadBytes. rewrite (unread_Length r l Hr), Z.gtb_ltb, (proj2 (Z.ltb_lt (zlen l) n)) by lia. done. Qed.
Lemma read_u8_short r : unread r [] -> ReadUInt8 r = Ret (None, r).
Proof. intros Hr. unfold ReadUInt8, mbind, reader_bind. by rewrite (read_short 1 r []) by done. Qed.
Lemma read_u16_short r l : unread r l -> zlen l < 2 -> ReadUInt16 r = Ret (None, r).
Proof. intros Hr Hl. unfold ReadUInt16, mbind, reader_bind. by rewrite (read_short 2 r l). Qed.
Lemma read_u32_short r l : unread r l -> zlen l < 4 -> ReadUInt32 r = Ret (None, r).
Proof. intros Hr Hl. unfold ReadUInt32, mbind, reader_bind. by rewrite (read_short 4 r l). Qed.

(** One step of a sequence of reads. *)
Lemma reader_some {A B} (m : reader A) (k : A -> reader B) r a r' : m r = Ret (Some a, r') -> (m ≫= k) r = k a r'.
Proof. intros E. unfold mbind, reader_bind. by rewrite E. Qed.
Lemma reader_none {A B} (m : reader A) (k : A -> reader B) r r' : m r = Ret (None, r') -> (m ≫= k) r = Ret (None, r').
Proof. intros E. unfold mbind, reader_bind. by rewrite E. Qed.

(** ** The input of an adapter *)

(** The adapter is buffering and holds [d]. *)
Record holds (a : BufferedReadAdapter) (d : list byte) : Prop := {
  holds_size : zlen (ad_buffer a) = 1024;
  holds_len : ad_data_len a = zlen d;
  holds_data : ztake (zlen d) (ad_buffer a) = d
}.
Lemma holds_room a d : holds a d -> zlen d <= 1024.
Proof.
  intros [Hs Hl Hd]. destruct (Z.le_gt_cases (zlen d) 1024); [done|]. rewrite ztake_all in Hd by lia. rewrite Hd in Hs. lia.
Qed.
Lemma holds_reader a d : holds a d -> unread (Reader (ad_buffer a) (ad_data_len a)) d.
Proof.
  intros Hh. pose proof (holds_room a d Hh). pose proof (zlen_nonneg d). destruct Hh as [Hs Hl Hd].
  pose proof (unread_Reader (ad_buffer a) (zlen d)) as Hu. rewrite Hd in Hu. rewrite Hl. apply Hu; lia.
Qed.
Lemma holds_same a a' d : ad_buffer a' = ad_buffer a -> ad_data_len a' = ad_data_len a -> holds a d -> holds a' d.
Proof. intros E1 E2 []. by split; rewrite ?E1, ?E2. Qed.

Lemma consume_parsed_ok r a rest : unread r rest -> zlen rest <= 1024 -> zlen (ad_buffer a) = 1024 -> exists a',
  consume_parsed r a = Ret a' /\ holds a' rest /\ ad_socket a' = ad_socket a /\ ad_buffering a' = ad_buffering a.
Proof.
  intros Hr Hl Hs. pose proof (zlen_nonneg rest). unfold consume_parsed. rewrite (unread_Length r rest Hr).
  rewrite (unread_mem r rest (zlen rest) Hr) by lia. cbn [mbind outcome_bind]. rewrite (ztake_all (zlen rest) rest) by lia.
  rewrite mem_write_ok by lia. cbn [mbind outcome_bind mret outcome_ret]. eexists. split; [done|]. split; [|done]. split; cbn [ad_buffer ad_data_len set_input].
  - rewrite zlen_splice; lia.
  - done.
  - pose proof (ztake_splice (ad_buffer a) 0 rest ltac:(lia)) as Hsp. by rewrite Z.add_0_l, ztake_0 in Hsp.
Qed.

(** Bytes arrive in one piece. *)
Definition arrive (x : list byte) (s : AsyncSocket) : AsyncSocket := set_arrived [Arrives x] (sock_error s) s.

Lemma event_ok {T} (base : T -> BufferedReadAdapter) set_base process t d x :
  holds (base t) d -> ad_buffering (base t) = true -> arrived (ad_socket (base t)) = [Arrives x] -> zlen d + zlen x <= 1024 -> zlen d < 1024 ->
  exists a, holds a (d ++ x) /\ ad_buffering a = true /\ arrived (ad_socket a) = [] /\ sends (ad_socket a) = sends (ad_socket (base t)) /\
    wire (ad_socket a) = wire (ad_socket (base t)) /\ Adapter_OnReadEvent base set_base process t = process (set_base a t).
Proof.
  intros [Hs Hl Hd] Hbuf Harr Hroom Hlt. unfold Adapter_OnReadEvent. rewrite Hbuf. cbn [negb]. unfold buffer_size_. rewrite Hs, Hl.
  rewrite (proj2 (Z.leb_gt 1024 (zlen d))) by lia. unfold socket_Recv. rewrite Harr. pose proof (zlen_nonneg x). pose proof (zlen_nonneg d).
  rewrite (ztake_all (1024 - zlen d) x) by lia. rewrite (proj2 (Z.ltb_ge (1024 - zlen d) (zlen x))), (proj2 (Z.ltb_ge (zlen x) 0)) by lia.
  rewrite mem_write_ok by lia. cbn [mbind outcome_bind]. eexists. split; [|split; [|split; [|split; [|split; [|reflexivity]]]]]; try done.
  split; cbn [ad_buffer ad_data_len set_socket set_input].
  - rewrite zlen_splice; lia.
  - by rewrite zlen_app.
  - rewrite zlen_app, ztake_splice by lia. by rewrite Hd.
Qed.

(** ** Sending *)

(** The next [Send] takes everything. *)
Lemma direct_send data n rest a : sends (ad_socket a) = Takes n :: rest -> zlen data <= Z.pos n -> exists a',
  DirectSend data a = (zlen data, a') /\ wire (ad_socket a') = wire (ad_socket a) ++ data /\ sends (ad_socket a') = rest /\
  ad_buffer a' = ad_buffer a /\ ad_data_len a' = ad_data_len a /\ ad_buffering a' = ad_buffering a.
Proof.
  intros Hs Hn. unfold DirectSend, socket_Send. rewrite Hs, (ztake_all (Z.pos n) data) by done. eexists. by split_and!.
Qed.

Section Writers.
Context `{Heap}.
#[local] Existing Instance writer_class.

Lemma writer_new : exists w, ByteBufferWriter = Ret w /\ wrote w [].
Proof. destruct (post_inv _ _ ByteBufferWriter_ok) as (w & -> & Hw & Hc). by exists w. Qed.
Lemma writer_step (m : BufferT -> outcome BufferT) d w l : writes m d -> wrote w l -> exists w', m w = Ret w' /\ wrote w' (l ++ d).
Proof. intros Hm Hw. by apply post_inv, Hm. Qed.
Lemma write_u8 v w l : wrote w l -> exists w', WriteUInt8 w v = Ret w' /\ wrote w' (l ++ [byte.of_Z v]).
Proof. apply (writer_step (fun w => WriteUInt8 w v)), WriteUInt8_writes. Qed.
Lemma write_u16 v w l : wrote w l -> exists w', WriteUInt16 w v = Ret w' /\ wrote w' (l ++ be_bytes 2 v).
Proof. apply (writer_step (fun w => WriteUInt16 w v)), WriteUInt16_writes. Qed.
Lemma write_u32 v w l : wrote w l -> exists w', WriteUInt32 w v = Ret w' /\ wrote w' (l ++ be_bytes 4 v).
Proof. apply (writer_step (fun w => WriteUInt32 w v)), WriteUInt32_writes. Qed.

(** Write the fields one after the other. *)
Ltac write_field :=
  let w' := fresh "w" in let Hw' := fresh "Hw" in
  lazymatch goal with
  | Hw : wrote ?w ?l |- context [WriteUInt8 ?w ?v] => destruct (write_u8 v w l Hw) as (w' & -> & Hw'); clear Hw
  | Hw : wrote ?w ?l |- context [WriteUInt16 ?w ?v] => destruct (write_u16 v w l Hw) as (w' & -> & Hw'); clear Hw
  | Hw : wrote ?w ?l |- context [WriteUInt32 ?w ?v] => destruct (write_u32 v w l Hw) as (w' & -> & Hw'); clear Hw
  end; cbn [mbind outcome_bind].
Ltac write_message :=
  let w := fresh "w" in let Hw := fresh "Hw" in
  destruct writer_new as (w & -> & Hw); cbn [mbind outcome_bind]; repeat write_field.

(** What is sent: the messages of the protocol. *)
Definition hello (user : list byte) : list byte := map byte.of_Z (if bool_decide (user = []) then [5; 1; 0] else [5; 2; 0; 2]).
Definition connect_request (dest : SocketAddress) : list byte := map byte.of_Z [5; 1; 0; 1] ++ be_bytes 4 (ip_host dest) ++ be_bytes 2 (port_ dest).
Definition connect_reply (bound : SocketAddress) : list byte := map byte.of_Z [5; 0; 0; 1] ++ be_bytes 4 (ip_host bound) ++ be_bytes 2 (port_ bound).

Lemma SendHello_ok c : exists w, SendHello c = Ret (client_send w CS_HELLO c) /\ BufferT_contents w = hello (c_user c).
Proof.
  unfold SendHello, hello. destruct (bool_decide (c_user c = [])); write_message.
  all: eexists; split; [done|]; match goal with Hw : wrote _ _ |- _ => apply Hw end.
Qed.
Lemma SendConnect_ok c : IsUnresolvedIP (c_dest c) = false ->
  exists w, SendConnect c = Ret (client_send w CS_CONNECT c) /\ BufferT_contents w = connect_request (c_dest c).
Proof.
  intros Hd. unfold SendConnect. rewrite Hd. write_message.
  eexists. split; [done|]. match goal with Hw : wrote _ _ |- _ => destruct Hw as [_ ->] end. unfold connect_request. by rewrite <- !app_assoc.
Qed.
Lemma SendHelloReply_ok method v : exists w, SendHelloReply method v = Ret (Server_DirectSend w v) /\ BufferT_contents w = map byte.of_Z [5; method].
Proof.
  unfold SendHelloReply. write_message.
  eexists. split; [done|]. match goal with Hw : wrote _ _ |- _ => apply Hw end.
Qed.
Lemma SendConnectResult_ok bound v : v_state v = SV_CONNECT_PENDING -> exists w,
  SendConnectResult 0 bound v = Ret (mkProxyServer (BufferInput false (v_base (Server_DirectSend w v))) SV_TUNNEL) /\ BufferT_contents w = connect_reply bound.
Proof.
  intros Hv. unfold SendConnectResult. rewrite Hv. cbn [Z.eqb]. write_message.
  eexists. split; [done|]. match goal with Hw : wrote _ _ |- _ => destruct Hw as [_ ->] end. unfold connect_reply. by rewrite <- !app_assoc.
Qed.

(** ** One step of the client *)

Lemma dcheck_true N : dcheck N true = Ret tt.
Proof. by destruct N. Qed.

Ltac read_next :=
  let r' := fresh "r" in let E := fresh "E" in let Hr' := fresh "Hr" in
  lazymatch goal with
  | Hr : unread ?r (?b :: ?l) |- context [(ReadUInt8 ≫= ?k) ?r] =>
      destruct (read_byte r b l Hr) as (r' & E & Hr'); rewrite (reader_some ReadUInt8 k r _ r' E); clear E Hr; cbn beta
  | Hr : unread ?r (be_bytes 4 ?v ++ ?l) |- context [(ReadUInt32 ≫= ?k) ?r] =>
      destruct (ReadUInt32_reads v ltac:(lia) r l Hr) as (r' & E & Hr'); rewrite (reader_some ReadUInt32 k r _ r' E); clear E Hr; cbn beta
  | Hr : unread ?r (be_bytes 2 ?v ++ ?l) |- context [(ReadUInt16 ≫= ?k) ?r] =>
      destruct (ReadUInt16_reads v ltac:(lia) r l Hr) as (r' & E & Hr'); rewrite (reader_some ReadUInt16 k r _ r' E); clear E Hr; cbn beta
  end.
Ltac read_fails :=
  lazymatch goal with
  | Hr : unread ?r [] |- context [(ReadUInt8 ≫= ?k) ?r] => rewrite (reader_none ReadUInt8 k r r (read_u8_short r Hr))
  | Hr : unread ?r ?l |- context [(ReadUInt32 ≫= ?k) ?r] => rewrite (reader_none ReadUInt32 k r r (read_u32_short r l Hr ltac:(unfold zlen; cbn; lia)))
  | Hr : unread ?r ?l |- context [(ReadUInt16 ≫= ?k) ?r] => rewrite (reader_none ReadUInt16 k r r (read_u16_short r l Hr ltac:(unfold zlen; cbn; lia)))
  end.

Section Client.
Variables (NDEBUG : bool) (c : AsyncSocksProxySocket).

Lemma client_hello_wait d : c_state c = CS_HELLO -> holds (c_base c) d -> zlen d < 2 -> Socks_ProcessInput NDEBUG c = Ret (c, []).
Proof.
  intros Hst Hh Hl. unfold Socks_ProcessInput. rewrite Hst, dcheck_true. cbn [mbind outcome_bind]. pose proof (holds_reader _ _ Hh) as Hr.
  destruct d as [|x [|y d]]; [|read_next|unfold zlen in Hl; cbn in Hl; lia]; by read_fails.
Qed.

Lemma client_hello_reply rest n l : c_state c = CS_HELLO -> holds (c_base c) (map byte.of_Z [5; 0] ++ rest) -> IsUnresolvedIP (c_dest c) = false ->
  sends (ad_socket (c_base c)) = Takes n :: l -> 10 <= Z.pos n -> exists c',
  Socks_ProcessInput NDEBUG c = Ret (c', []) /\ c_state c' = CS_CONNECT /\ holds (c_base c') rest /\ ad_buffering (c_base c') = ad_buffering (c_base c) /\
  wire (ad_socket (c_base c')) = wire (ad_socket (c_base c)) ++ connect_request (c_dest c) /\ sends (ad_socket (c_base c')) = l /\ c_dest c' = c_dest c.
Proof.
  intros Hst Hh Hd Hs Hn. unfold Socks_ProcessInput. rewrite Hst, dcheck_true. cbn [mbind outcome_bind]. pose proof (holds_reader _ _ Hh) as Hr. cbn [map app] in Hr.
  do 2 read_next. cbn [mret reader_ret mbind outcome_bind]. change (negb (byte.unsigned (byte.of_Z 5) =? 5)) with false. cbv iota.
  change (byte.unsigned (byte.of_Z 0) =? 0) with true. cbv iota. destruct (SendConnect_ok c Hd) as (w & -> & Hw). cbn [mbind outcome_bind].
  destruct (direct_send (BufferT_contents w) n l (c_base c) Hs) as (a & Ea & Hwire & Hs' & Eb & El & Ebuf).
  { rewrite Hw. unfold connect_request. rewrite !zlen_app, (zlen_be_bytes 4), (zlen_be_bytes 2). change (zlen (map byte.of_Z [5; 1; 0; 1])) with 4. lia. }
  unfold client_send. rewrite Ea. cbn [snd]. unfold Socks_finish. cbn [c_base c_set c_state].
  pose proof (holds_room _ _ Hh) as Hroom. rewrite zlen_app in Hroom. destruct Hh as [Hsz _ _].
  match goal with Hr : unread ?r rest |- _ => destruct (consume_parsed_ok r a rest Hr) as (a' & -> & Hh' & Es & Ebf) end;
    [cbn in Hroom; unfold zlen in *; lia|by rewrite Eb|].
  cbn [mbind outcome_bind mret outcome_ret]. eexists. split; [done|]. split_and!; try done; cbn [c_base c_set_base].
  - by rewrite Ebf.
  - by rewrite Es, Hwire, Hw.
  - by rewrite Es.
Qed.

(** The answer to the connect request: the whole of it, and less. *)
Variable bound : SocketAddress.
Hypothesis Hip : 0 <= ip_host bound < 2 ^ 32.
Hypothesis Hport : 0 <= port_ bound < 2 ^ 16.

Lemma client_connect_wait d z : c_state c = CS_CONNECT -> holds (c_base c) d -> d ++ z = connect_reply bound -> z <> [] ->
  Socks_ProcessInput NDEBUG c = Ret (c, []).
Proof.
  intros Hst Hh Hd Hz. unfold Socks_ProcessInput. rewrite Hst, dcheck_true. cbn [mbind outcome_bind]. pose proof (holds_reader _ _ Hh) as Hr. clear Hh.
  destruct d as [|x0 [|x1 [|x2 [|x3 l]]]]; [read_fails|read_next; read_fails|do 2 read_next; read_fails|do 3 read_next; read_fails|]; try done.
  do 4 read_next. unfold connect_reply in Hd. cbn [map app] in Hd.
  assert (Hl : l ++ z = be_bytes 4 (ip_host bound) ++ be_bytes 2 (port_ bound)) by (injection Hd; intros; done). injection Hd as -> -> -> -> _. cbn [mret reader_ret mbind outcome_bind].
  change (negb (byte.unsigned (byte.of_Z 5) =? 5) || negb (byte.unsigned (byte.of_Z 0) =? 0)) with false. cbv iota.
  change (read_bound (byte.unsigned (byte.of_Z 1))) with (Some (addr ← ReadUInt32; port ← ReadUInt16; mret tt : reader unit)). cbv iota.
  assert (Hlz : zlen l < 6).
  { pose proof (f_equal (@zlen byte) Hl) as Hll. rewrite !zlen_app, (zlen_be_bytes 4), (zlen_be_bytes 2) in Hll. destruct z; [done|].
    rewrite zlen_cons in Hll. pose proof (zlen_nonneg z). lia. }
  destruct (Z.lt_ge_cases (zlen l) 4) as [H4|H4].
  - match goal with Hr : unread ?r l |- _ => rewrite (reader_none ReadUInt32 _ r r (read_u32_short r l Hr H4)) end. done.
  - rewrite <- (ztake_zdrop 4 l), <- app_assoc in Hl. apply app_inj_1 in Hl as [Ht _].
    2:{ rewrite length_be_bytes. pose proof (zlen_ztake 4 l ltac:(lia)) as Hz4. unfold zlen in Hz4. lia. }
    match goal with Hr : unread ?r l |- _ => rewrite <- (ztake_zdrop 4 l), Ht in Hr end. read_next.
    match goal with Hr : unread ?r (zdrop 4 l) |- _ => rewrite (reader_none ReadUInt16 _ r r (read_u16_short r _ Hr ltac:(rewrite zlen_zdrop; lia))) end. done.
Qed.

Lemma client_connect_done rest : c_state c = CS_CONNECT -> holds (c_base c) (connect_reply bound ++ rest) -> exists c',
  Socks_ProcessInput NDEBUG c = Ret (c', ConnectEvent :: (if 0 <? zlen rest then [ReadEvent] else [])) /\
  c_state c' = CS_TUNNEL /\ holds (c_base c') rest /\ ad_buffering (c_base c') = false /\ c_dest c' = c_dest c.
Proof.
  intros Hst Hh. unfold Socks_ProcessInput. rewrite Hst, dcheck_true. cbn [mbind outcome_bind]. pose proof (holds_reader _ _ Hh) as Hr.
  unfold connect_reply in Hr. rewrite <- !app_assoc in Hr. cbn [map app] in Hr. do 4 read_next. cbn [mret reader_ret mbind outcome_bind].
  change (negb (byte.unsigned (byte.of_Z 5) =? 5) || negb (byte.unsigned (byte.of_Z 0) =? 0)) with false. cbv iota.
  change (read_bound (byte.unsigned (byte.of_Z 1))) with (Some (addr ← ReadUInt32; port ← ReadUInt16; mret tt : reader unit)). cbv iota.
  do 2 read_next. cbn [mret reader_ret mbind outcome_bind]. unfold Socks_finish. cbn [c_base c_set c_state].
  pose proof (holds_room _ _ Hh) as Hroom. rewrite zlen_app in Hroom. pose proof (zlen_nonneg (connect_reply bound)). destruct Hh as [Hsz _ _].
  match goal with Hr : unread ?r rest |- _ => destruct (consume_parsed_ok r (c_base c) rest Hr) as (a & -> & Hh' & _ & _) end; [lia|done|].
  cbn [mbind outcome_bind mret outcome_ret]. rewrite (holds_len _ _ Hh'). eexists. split; [done|]. split_and!; try done.
  by apply (holds_same a).
Qed.
End Client.

(** ** One step of the server *)

Section Server.
Variables (NDEBUG : bool) (v : AsyncSocksProxyServerSocket).

(** The first method decides; the others stay in the buffer. *)
Lemma server_hello k m rest n l : v_state v = SV_HELLO -> 0 < byte.unsigned k -> holds (v_base v) (byte.of_Z 5 :: k :: m :: rest) ->
  sends (ad_socket (v_base v)) = Takes n :: l -> 2 <= Z.pos n -> exists v',
  Server_ProcessInput NDEBUG v = Ret (v', []) /\
  v_state v' = (if byte.unsigned m =? 0 then SV_CONNECT else if byte.unsigned m =? 2 then SV_AUTH else SV_ERROR) /\
  holds (v_base v') rest /\ ad_buffering (v_base v') = ad_buffering (v_base v) /\
  wire (ad_socket (v_base v')) = wire (ad_socket (v_base v)) ++ [byte.of_Z 5; m] /\ sends (ad_socket (v_base v')) = l.
Proof.
  intros Hst Hk Hh Hs Hn. unfold Server_ProcessInput. rewrite Hst, dcheck_true. cbn [mbind outcome_bind]. pose proof (holds_reader _ _ Hh) as Hr.
  unfold HandleHello. do 2 read_next. cbn [mret reader_ret mbind outcome_bind]. change (negb (byte.unsigned (byte.of_Z 5) =? 5)) with false. cbv iota.
  rewrite (proj2 (Z.ltb_lt 0 (byte.unsigned k))) by done. match goal with Hr : unread ?r (m :: rest) |- _ => destruct (read_byte r m rest Hr) as (r3 & -> & Hr3) end.
  cbn [mbind outcome_bind]. destruct (SendHelloReply_ok (byte.unsigned m) v) as (w & -> & Hw). cbn [mbind outcome_bind mret outcome_ret].
  destruct (direct_send (BufferT_contents w) n l (v_base v) Hs) as (a & Ea & Hwire & Hs' & Eb & El & Ebuf); [rewrite Hw; change (zlen _) with 2; lia|].
  unfold Server_DirectSend. rewrite Ea. cbn [snd v_base v_set_base]. pose proof (holds_room _ _ Hh) as Hroom. rewrite !zlen_cons in Hroom. destruct Hh as [Hsz _ _].
  destruct (consume_parsed_ok r3 a rest Hr3) as (a' & -> & Hh' & Es & Ebf); [lia|by rewrite Eb|]. cbn [mbind outcome_bind mret outcome_ret].
  eexists. split; [done|]. split; [done|]. cbn [v_base v_set_base]. split_and!; try done.
  - by rewrite Ebf.
  - rewrite Es, Hwire, Hw. cbn [map]. by rewrite byte.of_Z_unsigned.
  - by rewrite Es.
Qed.

Lemma server_connect dest addr rest : v_state v = SV_CONNECT -> holds (v_base v) (connect_request dest ++ rest) ->
  0 <= ip_host dest < 2 ^ 32 -> 0 <= port_ dest < 2 ^ 16 -> SocketAddress_ip (IPAddress_host (ip_host dest)) (port_ dest) = Ret addr -> exists v',
  Server_ProcessInput NDEBUG v = Ret (v', [ConnectRequest addr]) /\ v_state v' = SV_CONNECT_PENDING /\ holds (v_base v') rest /\
  ad_buffering (v_base v') = ad_buffering (v_base v) /\ ad_socket (v_base v') = ad_socket (v_base v).
Proof.
  intros Hst Hh Hip Hport Haddr. unfold Server_ProcessInput. rewrite Hst, dcheck_true. cbn [mbind outcome_bind]. pose proof (holds_reader _ _ Hh) as Hr.
  unfold connect_request in Hr. rewrite <- !app_assoc in Hr. cbn [map app] in Hr. unfold HandleConnect. do 6 read_next. cbn [mret reader_ret mbind outcome_bind].
  change (negb (byte.unsigned (byte.of_Z 5) =? 5) || negb (byte.unsigned (byte.of_Z 1) =? 1) || negb (byte.unsigned (byte.of_Z 0) =? 0) ||
    negb (byte.unsigned (byte.of_Z 1) =? 1)) with false. cbv iota. rewrite Haddr. cbn [mbind outcome_bind mret outcome_ret v_base].
  pose proof (holds_room _ _ Hh) as Hroom. rewrite zlen_app in Hroom. pose proof (zlen_nonneg (connect_request dest)). destruct Hh as [Hsz _ _].
  match goal with Hr : unread ?r rest |- _ => destruct (consume_parsed_ok r (v_base v) rest Hr) as (a & -> & Hh' & Es & Ebf) end; [lia|done|].
  cbn [mbind outcome_bind mret outcome_ret]. eexists. by split_and!.
Qed.

(** A request that starts with something else. *)
Lemma server_connect_bad x rest : v_state v = SV_CONNECT -> holds (v_base v) (x :: rest) -> byte.unsigned x <> 5 -> exists v',
  Server_ProcessInput NDEBUG v = Ret (v', [CloseEvent 0]) /\ v_state v' = SV_ERROR /\ sock_state (ad_socket (v_base v')) = CS_CLOSED.
Proof.
  intros Hst Hh Hx. unfold Server_ProcessInput. rewrite Hst, dcheck_true. cbn [mbind outcome_bind]. pose proof (holds_reader _ _ Hh) as Hr.
  unfold HandleConnect. read_next.
  match goal with Hr : unread ?r rest |- context [mbind ?k ReadUInt8 ?r] =>
    assert (Hy : yields (ReadUInt8 ≫= k) (fun a => let '(ver, _, _, _, _, _) := a in ver = byte.unsigned x)) by
      (repeat (eapply yields_bind; [apply yields_safe; (apply ReadUInt8_safe || apply ReadUInt16_safe || apply ReadUInt32_safe)|intros ? _]); by apply yields_ret);
    destruct (Hy r rest Hr) as (o & r' & n & -> & Hn & Hr' & Ho) end.
  pose proof (holds_room _ _ Hh) as Hroom. rewrite zlen_cons in Hroom. destruct Hh as [Hsz _ _].
  assert (Hfin : exists a, consume_parsed r' (v_base (Server_Error 0 v).1) = Ret a /\ ad_socket a = ad_socket (v_base (Server_Error 0 v).1)).
  { destruct (consume_parsed_ok r' (v_base (Server_Error 0 v).1) _ Hr') as (a & -> & _ & Es & _); [rewrite zlen_zdrop; lia|done|by exists a]. }
  destruct Hfin as (a & Ea & Es). exists (v_set_base a (Server_Error 0 v).1). split; [|split; [done|cbn [v_base v_set_base]; by rewrite Es]].
  destruct o as [[[[[[ver cmd] rsv] aty] ip] port]|]; cbn [mbind outcome_bind mret outcome_ret].
  - rewrite (Ho _ eq_refl), (proj2 (Z.eqb_neq (byte.unsigned x) 5)) by done. cbn [negb orb mret outcome_ret mbind outcome_bind]. unfold Server_Error in *. cbn [fst v_base] in *. by rewrite Ea.
  - unfold Server_Error in *. cbn [fst v_base] in *. by rewrite Ea.
Qed.

(** No byte may arrive while the connection is made, or after a method the server does not know. *)
Lemma server_late v0 : NDEBUG = false -> v_state v0 = SV_CONNECT_PENDING \/ v_state v0 = SV_ERROR -> Server_ProcessInput NDEBUG v0 = Crash AssertionFailed.
Proof. intros -> [E|E]; unfold Server_ProcessInput; by rewrite E. Qed.
End Server.
End Writers.

(** ** Runs *)

Definition client_gets (x : list byte) (c : AsyncSocksProxySocket) : AsyncSocksProxySocket :=
  c_set_base (set_socket (arrive x (ad_socket (c_base c))) (c_base c)) c.
Definition server_gets (x : list byte) (v : AsyncSocksProxyServerSocket) : AsyncSocksProxyServerSocket :=
  v_set_base (set_socket (arrive x (ad_socket (v_base v))) (v_base v)) v.

Section Runs.
Context `{Heap} (NDEBUG : bool).

(** The pieces arrive one by one. *)
Fixpoint client_reads (pieces : list (list byte)) (c : AsyncSocksProxySocket) : outcome (AsyncSocksProxySocket * list adapter_signal) :=
  match pieces with
  | [] => mret (c, [])
  | x :: pieces =>
      '(c, signals) ← Socks_OnReadEvent NDEBUG (client_gets x c);
      '(c, later) ← client_reads pieces c;
      mret (c, signals ++ later)
  end.

(** A client that waits with [d] in its buffer. *)
Record client_at (st : ClientState) (dest : SocketAddress) (answers : list send_answer) (out d : list byte) (c : AsyncSocksProxySocket) : Prop := {
  at_state : c_state c = st;
  at_dest : c_dest c = dest;
  at_sends : sends (ad_socket (c_base c)) = answers;
  at_wire : wire (ad_socket (c_base c)) = out;
  at_holds : holds (c_base c) d;
  at_buffering : ad_buffering (c_base c) = true
}.

Lemma client_event st dest answers out d x c : client_at st dest answers out d c -> zlen d + zlen x <= 1024 -> zlen d < 1024 -> exists c',
  Socks_OnReadEvent NDEBUG (client_gets x c) = Socks_ProcessInput NDEBUG c' /\ client_at st dest answers out (d ++ x) c'.
Proof.
  intros [] Hl Hlt. destruct (event_ok c_base c_set_base (Socks_ProcessInput NDEBUG) (client_gets x c) d x) as (a & Ha & Hb & _ & Hs & Hw & E);
    [by apply (holds_same (c_base c))|done|done|done|done|]. exists (c_set_base a (client_gets x c)). split; [exact E|]. split; cbn; try done.
  - by rewrite Hs.
  - by rewrite Hw.
Qed.

(** A message that comes in pieces is handled when its last piece is there. *)
Lemma client_reads_message st dest answers out msg signals (R : AsyncSocksProxySocket -> Prop) :
  zlen msg < 1024 ->
  (forall c d z, client_at st dest answers out d c -> d ++ z = msg -> z <> [] -> Socks_ProcessInput NDEBUG c = Ret (c, [])) ->
  (forall c, client_at st dest answers out msg c -> exists c', Socks_ProcessInput NDEBUG c = Ret (c', signals) /\ R c') ->
  forall pieces c d, client_at st dest answers out d c -> d ++ concat pieces = msg -> Forall (fun p => p <> []) pieces -> pieces <> [] ->
  exists c', client_reads pieces c = Ret (c', signals) /\ R c'.
Proof.
  intros Hlen Hwait Hdone. induction pieces as [|x pieces IH]; intros c d Hc Hd Hne Hp; [done|]. apply Forall_cons_1 in Hne as [_ Hne]. cbn [client_reads concat] in *.
  pose proof (f_equal (@zlen byte) Hd) as Hz. rewrite !zlen_app in Hz. pose proof (zlen_nonneg (concat pieces)). pose proof (zlen_nonneg x).
  destruct (client_event st dest answers out d x c Hc) as (c1 & -> & Hc1); [lia|lia|]. destruct pieces as [|y pieces].
  - cbn [concat] in Hd. rewrite app_nil_r in Hd. rewrite Hd in Hc1. destruct (Hdone c1 Hc1) as (c2 & -> & HR). exists c2. cbn. by rewrite app_nil_r.
  - rewrite (Hwait c1 (d ++ x) (concat (y :: pieces))); [|done|by rewrite <- app_assoc|].
    + cbn [mbind outcome_bind]. destruct (IH c1 (d ++ x)) as (c2 & -> & HR); [done|by rewrite <- app_assoc|done|done|]. by exists c2.
    + apply Forall_cons_1 in Hne as [Hy _]. cbn [concat]. intros E. by apply app_eq_nil in E as [-> _].
Qed.

Lemma client_start cs proxy dest user pass n l : sends cs = Takes n :: l -> wire cs = [] -> 4 <= Z.pos n -> exists c,
  Socks_OnConnectEvent (snd (Socks_Connect dest 0 (AsyncSocksProxySocket_new cs proxy user pass))) = Ret c /\
  client_at CS_HELLO dest l (hello user) [] c.
Proof.
  intros Hs Hw Hn. set (c0 := snd _). destruct (SendHello_ok c0) as (w & E & Hc). unfold Socks_OnConnectEvent. rewrite E. eexists. split; [done|].
  destruct (direct_send (BufferT_contents w) n l (c_base c0) Hs) as (a & Ea & Hwire & Hs' & Eb & El & Ebuf).
  { rewrite Hc. unfold hello. destruct (bool_decide _); unfold zlen; cbn; lia. }
  unfold client_send. rewrite Ea. split; cbn [c_state c_set c_dest c_base snd]; try done.
  - rewrite Hwire, Hc. cbn [c0 snd Socks_Connect c_base ad_socket BufferInput AsyncSocksProxySocket_new BufferedReadAdapter_new c_user]. by rewrite Hw.
  - split; [rewrite Eb; by apply fresh_length|by rewrite El|done].
Qed.
Lemma server_start ss : holds (v_base (AsyncSocksProxyServerSocket_new ss)) [].
Proof. split; [by apply fresh_length|done|done]. Qed.

Lemma server_event v d x : holds (v_base v) d -> ad_buffering (v_base v) = true -> zlen d + zlen x <= 1024 -> zlen d < 1024 -> exists v',
  Server_OnReadEvent NDEBUG (server_gets x v) = Server_ProcessInput NDEBUG v' /\ v_state v' = v_state v /\ holds (v_base v') (d ++ x) /\
  ad_buffering (v_base v') = true /\ sends (ad_socket (v_base v')) = sends (ad_socket (v_base v)) /\ wire (ad_socket (v_base v')) = wire (ad_socket (v_base v)).
Proof.
  intros Hh Hb Hl Hlt. destruct (event_ok v_base v_set_base (Server_ProcessInput NDEBUG) (server_gets x v) d x) as (a & Ha & Hb' & _ & Hs & Hw & E);
    [by apply (holds_same (v_base v))|done|done|done|done|]. exists (v_set_base a (server_gets x v)). split; [exact E|]. by split_and!.
Qed.
End Runs.

(** What can be asked for and answered: an IPv4 address and a port. *)
Record ipv4_target (a : SocketAddress) : Prop := {
  target_ip : 0 <= ip_host a < 2 ^ 32;
  target_port : 0 <= port_ a < 2 ^ 16;
  target_resolved : IsUnresolvedIP a = false
}.

Lemma zlen_request a : zlen (connect_request a) = 10 /\ zlen (connect_reply a) = 10.
Proof. unfold connect_request, connect_reply. rewrite !zlen_app, (zlen_be_bytes 4), (zlen_be_bytes 2). done. Qed.

Lemma target_addr ip port : 0 <= ip < 2 ^ 32 -> 0 <= port < 2 ^ 16 ->
  exists addr, SocketAddress_ip (IPAddress_host ip) port = Ret addr /\ ip_host addr = ip /\ port_ addr = port.
Proof.
  intros Hip Hport. unfold SocketAddress_ip, SetPort. rewrite (proj2 (Z.leb_le 0 port)), (proj2 (Z.leb_le port 65535)) by lia. cbn [andb assert_that mbind outcome_bind mret outcome_ret].
  eexists. split; [done|]. split; [|done]. 
  change (NetworkToHost32 host_order (load host_order (ztake 4 (store host_order 4 (HostToNetwork32 host_order ip) ++ zeroes 12))) = ip).
  unfold HostToNetwork32, NetworkToHost32. rewrite store_to_be.
  rewrite ztake_app_le, ztake_all by (rewrite (zlen_be_bytes 4); lia). rewrite to_be_load by apply length_be_bytes. by apply be_value_be_bytes.
Qed.

Section Handshake.
Context `{Heap} (NDEBUG : bool) (dest bound : SocketAddress) (Hdest : ipv4_target dest) (Hbound : ipv4_target bound).

(** The hello and its answer. *)
Lemma hello_step cs ss proxy user pass n1 l k : sends cs = Takes n1 :: l -> wire cs = [] -> 4 <= Z.pos n1 ->
  sends ss = Takes k :: [Takes k] -> wire ss = [] -> 10 <= Z.pos k -> exists c v,
  Socks_OnConnectEvent (snd (Socks_Connect dest 0 (AsyncSocksProxySocket_new cs proxy user pass))) = Ret c /\
  client_at CS_HELLO dest l (hello user) [] c /\
  Server_OnReadEvent NDEBUG (server_gets (hello user) (AsyncSocksProxyServerSocket_new ss)) = Ret (v, []) /\
  v_state v = SV_CONNECT /\ holds (v_base v) (if bool_decide (user = []) then [] else [byte.of_Z 2]) /\ ad_buffering (v_base v) = true /\
  sends (ad_socket (v_base v)) = [Takes k] /\ wire (ad_socket (v_base v)) = map byte.of_Z [5; 0].
Proof.
  intros Hs Hw Hn Hss Hws Hk. destruct (client_start cs proxy dest user pass n1 l Hs Hw Hn) as (c & Ec & Hc). exists c.
  destruct (server_event NDEBUG (AsyncSocksProxyServerSocket_new ss) [] (hello user)) as (v0 & -> & Est & Hh & Hb & Hs0 & Hw0);
    [apply server_start|done|unfold hello; destruct (bool_decide _); unfold zlen; cbn; lia|done|].
  cbn [app] in Hh. unfold hello in Hh. set (rest := if bool_decide (user = []) then [] else [byte.of_Z 2]).
  destruct (server_hello NDEBUG v0 (if bool_decide (user = []) then byte.of_Z 1 else byte.of_Z 2) (byte.of_Z 0) rest k [Takes k]) as (v1 & -> & Est1 & Hh1 & Hb1 & Hw1 & Hs1);
    [by rewrite Est|destruct (bool_decide _); done|subst rest; destruct (bool_decide _); exact Hh|rewrite Hs0; exact Hss|lia|].
  exists v1. split_and!; try done; try (by rewrite Hb1). rewrite Hw1, Hw0. cbn. by rewrite Hws.
Qed.

Lemma reply_step l n pieces c out : client_at CS_HELLO dest (Takes n :: l) out [] c -> 10 <= Z.pos n -> concat pieces = map byte.of_Z [5; 0] ->
  Forall (fun p => p <> []) pieces -> exists c',
  client_reads NDEBUG pieces c = Ret (c', []) /\ client_at CS_CONNECT dest l (out ++ connect_request dest) [] c'.
Proof.
  intros Hc Hn Hp Hne.
  apply (client_reads_message NDEBUG CS_HELLO dest (Takes n :: l) out (map byte.of_Z [5; 0]) []) with (d := []); [done| | |done|done|done|by intros ->].
  - intros c1 d z [] Hd Hz. apply (client_hello_wait NDEBUG c1 d); [done|done|]. pose proof (f_equal (@zlen byte) Hd) as Hl. rewrite zlen_app in Hl.
    change (zlen (map byte.of_Z [5; 0])) with 2 in Hl. destruct z; [done|]. rewrite zlen_cons in Hl. pose proof (zlen_nonneg z). lia.
  - intros c1 [E1 E2 E3 E4 E5 E6]. destruct (client_hello_reply NDEBUG c1 [] n l) as (c2 & -> & H1 & H2 & H3 & H4 & H5 & H6);
      [done|by rewrite app_nil_r|rewrite E2; apply Hdest|done|done|].
    exists c2. split; [done|]. split; congruence.
Qed.

Lemma bound_step l pieces c out : client_at CS_CONNECT dest l out [] c -> concat pieces = connect_reply bound -> Forall (fun p => p <> []) pieces -> exists c',
  client_reads NDEBUG pieces c = Ret (c', [ConnectEvent]) /\ c_state c' = CS_TUNNEL /\ ad_buffering (c_base c') = false /\ c_dest c' = dest /\ holds (c_base c') [].
Proof.
  intros Hc Hp Hne. destruct Hbound.
  apply (client_reads_message NDEBUG CS_CONNECT dest l out (connect_reply bound) [ConnectEvent]) with (d := []); [rewrite (proj2 (zlen_request bound)); lia| | |done|done|done|].
  - intros c1 d z [] Hd Hz. by eapply (client_connect_wait NDEBUG c1 bound).
  - intros c1 [E1 E2 E3 E4 E5 E6]. destruct (client_connect_done NDEBUG c1 bound target_ip0 target_port0 []) as (c2 & E & H1 & H2 & H3 & H4); [done|by rewrite app_nil_r|].
    exists c2. split; [exact E|]. split_and!; try done. congruence.
  - intros ->. pose proof (proj2 (zlen_request bound)) as Hz. rewrite <- Hp in Hz. unfold zlen in Hz. cbn in Hz. lia.
Qed.
End Handshake.

(** C30: the SOCKS handshake for an IPv4 destination.  A client without user
    name that connects to an IPv4 address through the proxy server of the
    library ends in a tunnel: the server asks for exactly that address and
    port, answers with an IPv4 address of its own, and the client signals the
    connection once, whatever the pieces in which it receives the answers.
    The sockets take each message (at most ten bytes) in one call of [Send]
    and the server gets each request in one piece.  Other destinations are
    outside the theorem: the server refuses a host name, and an IPv6 address
    is sent to it as 0.0.0.0. *)
Theorem socks_handshake `{Heap} (NDEBUG : bool) (cs ss : AsyncSocket) (proxy dest bound : SocketAddress) (pass : list byte) (n k : positive) :
  ipv4_target dest -> ipv4_target bound -> 10 <= Z.pos n -> 10 <= Z.pos k ->
  sends cs = [Takes n; Takes n] -> wire cs = [] -> sends ss = [Takes k; Takes k] -> wire ss = [] ->
  exists c1 v1, 
    Socks_OnConnectEvent (snd (Socks_Connect dest 0 (AsyncSocksProxySocket_new cs proxy [] pass))) = Ret c1 /\
    Server_OnReadEvent NDEBUG (server_gets (wire (ad_socket (c_base c1))) (AsyncSocksProxyServerSocket_new ss)) = Ret (v1, []) /\
    forall pieces, concat pieces = wire (ad_socket (v_base v1)) -> Forall (fun p => p <> []) pieces ->
    exists c2 request v2 v3 addr reply,
      client_reads NDEBUG pieces c1 = Ret (c2, []) /\ wire (ad_socket (c_base c2)) = wire (ad_socket (c_base c1)) ++ request /\
      Server_OnReadEvent NDEBUG (server_gets request v1) = Ret (v2, [ConnectRequest addr]) /\
      ip_host addr = ip_host dest /\ port_ addr = port_ dest /\
      SendConnectResult 0 bound v2 = Ret v3 /\ v_state v3 = SV_TUNNEL /\ ad_buffering (v_base v3) = false /\
      wire (ad_socket (v_base v3)) = wire (ad_socket (v_base v1)) ++ reply /\
      forall pieces, concat pieces = reply -> Forall (fun p => p <> []) pieces -> exists c3,
        client_reads NDEBUG pieces c2 = Ret (c3, [ConnectEvent]) /\ c_state c3 = CS_TUNNEL /\ ad_buffering (c_base c3) = false /\ Socks_GetRemoteAddress c3 = dest.
Proof.
  intros Hd Hb Hn Hk Hcs Hwc Hss Hws.
  destruct (hello_step NDEBUG dest cs ss proxy [] pass n [Takes n] k) as (c1 & v1 & Ec1 & Hc1 & Ev1 & Hst1 & Hh1 & Hb1 & Hs1 & Hw1); [done|done|lia|done|done|done|].
  exists c1, v1. rewrite (at_wire _ _ _ _ _ _ Hc1). split; [done|]. split; [done|]. intros pieces Hp Hne. rewrite Hw1 in Hp.
  destruct (reply_step NDEBUG dest Hd [] n pieces c1 (hello []) Hc1) as (c2 & Ec2 & Hc2); [lia|done|done|].
  destruct (server_event NDEBUG v1 [] (connect_request dest)) as (v1' & Ev & Est & Hh & Hbuf & Hs & Hw); [exact Hh1|done|rewrite (proj1 (zlen_request dest)); done|done|].
  assert (Haddr : exists addr, SocketAddress_ip (IPAddress_host (ip_host dest)) (port_ dest) = Ret addr /\ ip_host addr = ip_host dest /\ port_ addr = port_ dest).
  { apply target_addr; apply Hd. }
  destruct Haddr as (addr & Eaddr & Hip & Hport). cbn [app] in Hh.
  destruct (server_connect NDEBUG v1' dest addr []) as (v2 & Ev2 & Hst2 & Hh2 & Hb2 & Hsock2); [by rewrite Est|by rewrite app_nil_r|apply Hd|apply Hd|done|].
  destruct (SendConnectResult_ok bound v2 Hst2) as (w & Ew & Hwc2).
  destruct (direct_send (BufferT_contents w) k [] (v_base v2)) as (a & Ea & Hwa & _ & _ & _ & _); [rewrite Hsock2, Hs; exact Hs1|rewrite Hwc2, (proj2 (zlen_request bound)); lia|].
  exists c2, (connect_request dest), v2. eexists. exists addr, (connect_reply bound). rewrite Ev.
  split; [done|]. split; [apply (at_wire _ _ _ _ _ _ Hc2)|]. split; [done|]. split; [done|]. split; [done|]. split; [exact Ew|]. split; [done|]. split; [done|].
  split.
  - unfold Server_DirectSend. rewrite Ea. cbn. by rewrite Hwa, Hwc2, Hsock2, Hw.
  - intros pieces2 Hp2 Hne2. destruct (bound_step NDEBUG dest bound Hb [] pieces2 c2 _ Hc2 Hp2 Hne2) as (c3 & E3 & H31 & H32 & H33 & _). by exists c3.
Qed.

Definition sample_socket : AsyncSocket := mkSocket [Takes 10; Takes 10] [] [] 0 CS_CONNECTED SocketAddress_nil.
Definition sample_target : SocketAddress := mkSocketAddress [] (IPAddress_host 0x0A000001) 80 0 false.
Lemma sample_target_ok : ipv4_target sample_target.
Proof. split; vm_compute; done. Qed.

Lemma socks_handshake_witness : exists c1 v1,
  @Socks_OnConnectEvent (filled_heap Byte.x00) (snd (Socks_Connect sample_target 0 (@AsyncSocksProxySocket_new (filled_heap Byte.x00) sample_socket SocketAddress_nil [] []))) = Ret c1 /\
  @Server_OnReadEvent (filled_heap Byte.x00) false (server_gets (wire (ad_socket (c_base c1))) (@AsyncSocksProxyServerSocket_new (filled_heap Byte.x00) sample_socket)) = Ret (v1, []).
Proof.
  destruct (@socks_handshake (filled_heap Byte.x00) false sample_socket sample_socket SocketAddress_nil sample_target sample_target [] 10 10 sample_target_ok sample_target_ok)
    as (c1 & v1 & E1 & E2 & _); [lia|lia|reflexivity|reflexivity|reflexivity|reflexivity|]. exists c1, v1. split; [exact E1|exact E2].
Defined.

(** A client with a user name is turned away by the server of the same library:
    it offers two methods, the server reads one of them, and the other is taken
    for the first byte of the next request. *)
Lemma socks_user_name_fails `{Heap} (NDEBUG : bool) (cs ss : AsyncSocket) (proxy dest : SocketAddress) (user pass : list byte) (n k : positive) :
  user <> [] -> ipv4_target dest -> 10 <= Z.pos n -> 10 <= Z.pos k ->
  sends cs = [Takes n; Takes n] -> wire cs = [] -> sends ss = [Takes k; Takes k] -> wire ss = [] ->
  exists c1 v1 c2 request v2,
    Socks_OnConnectEvent (snd (Socks_Connect dest 0 (AsyncSocksProxySocket_new cs proxy user pass))) = Ret c1 /\
    Server_OnReadEvent NDEBUG (server_gets (wire (ad_socket (c_base c1))) (AsyncSocksProxyServerSocket_new ss)) = Ret (v1, []) /\
    client_reads NDEBUG [wire (ad_socket (v_base v1))] c1 = Ret (c2, []) /\ wire (ad_socket (c_base c2)) = wire (ad_socket (c_base c1)) ++ request /\
    Server_OnReadEvent NDEBUG (server_gets request v1) = Ret (v2, [CloseEvent 0]) /\ v_state v2 = SV_ERROR.
Proof.
  intros Hu Hd Hn Hk Hcs Hwc Hss Hws.
  destruct (hello_step NDEBUG dest cs ss proxy user pass n [Takes n] k) as (c1 & v1 & Ec1 & Hc1 & Ev1 & Hst1 & Hh1 & Hb1 & Hs1 & Hw1); [done|done|lia|done|done|done|].
  rewrite (bool_decide_eq_false_2 _ Hu) in Hh1. exists c1, v1. rewrite (at_wire _ _ _ _ _ _ Hc1), Hw1.
  destruct (reply_step NDEBUG dest Hd [] n [map byte.of_Z [5; 0]] c1 (hello user) Hc1) as (c2 & Ec2 & Hc2); [lia|done|by repeat constructor|].
  destruct (server_event NDEBUG v1 [byte.of_Z 2] (connect_request dest)) as (v1' & Ev & Est & Hh & _);
    [exact Hh1|done|rewrite (proj1 (zlen_request dest)); done|done|].
  destruct (server_connect_bad NDEBUG v1' (byte.of_Z 2) (connect_request dest)) as (v2 & E2 & H2 & _); [by rewrite Est|exact Hh|done|].
  exists c2, (connect_request dest), v2. rewrite Ev. split_and!; try done. apply (at_wire _ _ _ _ _ _ Hc2).
Qed.

(** C34: a client stops the SOCKS server (assertions on) with two messages: a
    hello whose first method is neither 0 nor 2, or a hello and a connect
    request, and then anything at all, since the server keeps handing input to
    [ProcessInput], which asserts that neither an error has happened nor a
    connection is being made. *)
Theorem socks_server_aborts `{Heap} (ss : AsyncSocket) (k : positive) (methods method : byte) (dest : SocketAddress) (x : list byte) :
  sends ss = [Takes k; Takes k] -> 10 <= Z.pos k -> 0 < byte.unsigned methods -> zlen x <= 1000 -> ipv4_target dest ->
  (byte.unsigned method <> 0 -> byte.unsigned method <> 2 -> exists v,
     Server_OnReadEvent false (server_gets [byte.of_Z 5; methods; method] (AsyncSocksProxyServerSocket_new ss)) = Ret (v, []) /\
     Server_OnReadEvent false (server_gets x v) = Crash AssertionFailed) /\
  exists v1 v2 addr,
     Server_OnReadEvent false (server_gets (hello []) (AsyncSocksProxyServerSocket_new ss)) = Ret (v1, []) /\
     Server_OnReadEvent false (server_gets (connect_request dest) v1) = Ret (v2, [ConnectRequest addr]) /\
     Server_OnReadEvent false (server_gets x v2) = Crash AssertionFailed.
Proof.
  intros Hs Hk Hm Hx Hd. pose proof (server_start ss) as H0. split.
  - intros Hm0 Hm2. destruct (server_event false _ [] [byte.of_Z 5; methods; method] H0) as (v0 & -> & Est & Hh & Hb & Hs0 & _); [done|unfold zlen; cbn; lia|done|].
    destruct (server_hello false v0 methods method [] k [Takes k]) as (v1 & -> & Est1 & Hh1 & Hb1 & _); [by rewrite Est|done|exact Hh|rewrite Hs0; exact Hs|lia|].
    rewrite (proj2 (Z.eqb_neq _ 0) Hm0), (proj2 (Z.eqb_neq _ 2) Hm2) in Est1. exists v1. split; [done|].
    destruct (server_event false v1 [] x Hh1) as (v2 & -> & Est2 & _); [by rewrite Hb1|unfold zlen in *; cbn; lia|done|].
    apply server_late; [done|right; by rewrite Est2].
  - destruct (server_event false _ [] (hello []) H0) as (v0 & -> & Est & Hh & Hb & Hs0 & _); [done|unfold zlen; cbn; lia|done|].
    destruct (server_hello false v0 (byte.of_Z 1) (byte.of_Z 0) [] k [Takes k]) as (v1 & -> & Est1 & Hh1 & Hb1 & _); [by rewrite Est|done|exact Hh|rewrite Hs0; exact Hs|lia|].
    destruct (server_event false v1 [] (connect_request dest) Hh1) as (v1' & Ev & Est' & Hh' & Hb' & _); [by rewrite Hb1|rewrite (proj1 (zlen_request dest)); done|done|].
    destruct (target_addr (ip_host dest) (port_ dest)) as (addr & Ea & _); [apply Hd|apply Hd|].
    destruct (server_connect false v1' dest addr []) as (v2 & E2 & Est2 & Hh2 & Hb2 & _); [by rewrite Est', Est1|by rewrite app_nil_r|apply Hd|apply Hd|done|].
    exists v1, v2, addr. split; [done|]. split; [by rewrite Ev|]. destruct (server_event false v2 [] x Hh2) as (v3 & -> & Est3 & _); [by rewrite Hb2|unfold zlen in *; cbn; lia|done|].
    apply server_late; [done|left; by rewrite Est3].
Qed.
Lemma socks_server_aborts_witness : exists v,
  @Server_OnReadEvent (filled_heap Byte.x00) false (server_gets [Byte.x05; Byte.x01; Byte.x01] (@AsyncSocksProxyServerSocket_new (filled_heap Byte.x00) sample_socket)) = Ret (v, []) /\
  @Server_OnReadEvent (filled_heap Byte.x00) false (server_gets [Byte.x2a] v) = Crash AssertionFailed.
Proof.
  destruct (@socks_server_aborts (filled_heap Byte.x00) sample_socket 10 Byte.x01 Byte.x01 sample_target [Byte.x2a]) as [Ha _];
    [reflexivity|lia|vm_compute; reflexivity|vm_compute; discriminate|exact sample_target_ok|]. apply Ha; vm_compute; discriminate.
Defined.
