(* ===== verification/ProxyProps.v ===== *)
(** * The proxy hands bytes on

    [Endpoint] is what the two sockets of a [ProxyBinding] promise: the stream
    they still deliver and the stream they have taken.  Reading and writing
    through the ring buffer keeps the order of the bytes, so that nothing is
    lost, doubled or reordered in either direction. *)

From Stdlib Require Import ZArith Lia.
From S2P Require Import Prelude ByteOrder ConstBuffer ByteBuffer FifoBuffer IpAddress SocketAddress StunAttr StunCodec AsyncTcpSocket AsyncFraming AsyncTcpProps SocketAdapters SocksProps.
Local Open Scope Z_scope.
Local Open Scope list_scope.

(** ** Endpoints *)

Class Endpoint (S : Type) (recv : Z -> S -> outcome (Z * list byte * S)) (send : list byte -> S -> Z * S) : Type := {
  live : S -> Prop;
  coming : S -> list byte;
  taken : S -> list byte;
  recv_ok n s : live s -> 0 <= n -> exists res got s', recv n s = Ret (res, got, s') /\ live s' /\
    coming s = got ++ coming s' /\ taken s' = taken s /\ zlen got <= n /\ Z.max res 0 = zlen got;
  send_ok data s : live s -> exists res s' took rest, send data s = (res, s') /\ live s' /\
    data = took ++ rest /\ taken s' = taken s ++ took /\ coming s' = coming s /\ Z.max res 0 = zlen took
}.

(** A socket that does not claim to have taken what it was not given. *)
Definition truthful (a : send_answer) : Prop := match a with Claims _ _ => False | _ => True end.

Lemma socket_Send_spec data s : Forall truthful (sends s) -> exists res s' took rest, socket_Send data s = (res, s') /\ Forall truthful (sends s') /\
  data = took ++ rest /\ wire s' = wire s ++ took /\ arrived s' = arrived s /\ Z.max res 0 = zlen took.
Proof.
  intros Ht. unfold socket_Send. destruct (sends s) as [|[n|err|r err] l] eqn:E.
  - exists (-1), (set_error EWOULDBLOCK s), [], data. cbn. rewrite E, app_nil_r. by split_and!.
  - apply Forall_cons_1 in Ht as [_ Ht]. eexists _, _, (ztake (Z.pos n) data), (zdrop (Z.pos n) data). split; [done|]. cbn. rewrite ztake_zdrop.
    pose proof (zlen_nonneg (ztake (Z.pos n) data)). split_and!; try done. lia.
  - apply Forall_cons_1 in Ht as [_ Ht]. eexists (-1), _, [], data. split; [done|]. cbn. rewrite app_nil_r. by split_and!.
  - by apply Forall_cons_1 in Ht as [[] _].
Qed.

#[export] Instance socket_endpoint : Endpoint AsyncSocket Ext_Recv socket_Send.
Proof.
  refine {| live s := Forall truthful (sends s); coming s := waiting (arrived s); taken := wire |}.
  - intros n s Hs Hn. destruct (Recv_spec n s Hn) as (got & s' & Hw & _ & Hwire & Hsends & _ & Hl & Hcase). unfold Ext_Recv.
    pose proof (zlen_nonneg got). destruct Hcase as [->|[-> ->]]; eexists _, _, s'; (split; [done|]); rewrite Hsends; split_and!; try done; lia.
  - intros data s Hs. destruct (socket_Send_spec data s Hs) as (res & s' & took & rest & E & H1 & H2 & H3 & H4 & H5). exists res, s', took, rest. rewrite H4. by split_and!.
Defined.

(** The buffered part comes first. *)
Definition adapter_live (a : BufferedReadAdapter) : Prop := Forall truthful (sends (ad_socket a)) /\ 0 <= ad_data_len a <= zlen (ad_buffer a).
Definition adapter_coming (a : BufferedReadAdapter) : list byte := ztake (ad_data_len a) (ad_buffer a) ++ waiting (arrived (ad_socket a)).

Lemma front_taken cb a : adapter_live a -> 0 <= cb -> exists first a',
  Recv_buffered cb a = Ret (first, a') /\ adapter_live a' /\ ad_socket a' = ad_socket a /\
  ztake (ad_data_len a) (ad_buffer a) = first ++ ztake (ad_data_len a') (ad_buffer a') /\ zlen first <= cb /\
  (ad_data_len a' = 0 \/ zlen first = cb).
Proof.
  intros [Ht Hd] Hcb. unfold Recv_buffered. destruct (Z.eqb_spec (ad_data_len a) 0) as [E|E]; [exists [], a; split_and!; try done; try (by left); unfold zlen; cbn; lia|]. cbv zeta. set (read := Z.min cb (ad_data_len a)).
  assert (Hread : read = Z.min cb (ad_data_len a)) by done. clearbody read.
  rewrite (mem_read_ok (ad_buffer a) 0 read), zdrop_0 by lia. cbn [mbind outcome_bind]. assert (Hf : zlen (ztake read (ad_buffer a)) = read) by (apply zlen_ztake; lia).
  assert (Hsplit : ztake (ad_data_len a) (ad_buffer a) = ztake read (ad_buffer a) ++ ztake (ad_data_len a - read) (zdrop read (ad_buffer a))).
  { rewrite <- (ztake_zdrop read (ztake (ad_data_len a) (ad_buffer a))). f_equal; [apply ztake_ztake; lia|apply zdrop_ztake_comm; lia]. }
  destruct (Z.ltb_spec 0 (ad_data_len a - read)) as [Hl|Hl].
  - assert (Hz : zlen (ztake (ad_data_len a - read) (zdrop read (ad_buffer a))) = ad_data_len a - read) by (apply zlen_ztake; rewrite zlen_zdrop; lia).
    rewrite mem_read_ok by lia. cbn [mbind outcome_bind]. rewrite mem_write_ok by lia. cbn [mbind outcome_bind mret outcome_ret]. eexists _, _. split; [done|].
    split; [split; [done|]; cbn [ad_data_len ad_buffer set_input]; rewrite zlen_splice; lia|]. split; [done|]. split; [|split; [lia|right; lia]]. cbn [ad_data_len ad_buffer set_input]. rewrite Hsplit. f_equal.
    pose proof (ztake_splice (ad_buffer a) 0 (ztake (ad_data_len a - read) (zdrop read (ad_buffer a))) ltac:(lia)) as Hsp. by rewrite Hz, Z.add_0_l, ztake_0 in Hsp.
  - cbn [mbind outcome_bind mret outcome_ret]. eexists _, _. split; [done|]. split; [split; [done|]; cbn; lia|]. split; [done|]. split; [|split; [lia|left; cbn; lia]].
    cbn [ad_data_len ad_buffer set_input]. rewrite Hsplit. f_equal. by replace (ad_data_len a - read) with 0 by lia.
Qed.

Lemma Adapter_Recv_spec cb a : adapter_live a -> 0 <= cb -> exists res got a', Adapter_Recv cb a = Ret (res, got, a') /\ adapter_live a' /\
  adapter_coming a = got ++ adapter_coming a' /\ wire (ad_socket a') = wire (ad_socket a) /\ zlen got <= cb /\ Z.max res 0 = zlen got.
Proof.
  intros Ha Hcb. unfold Adapter_Recv. destruct (ad_buffering a); [eexists (-1), [], _; by split_and!|].
  destruct (front_taken cb a Ha Hcb) as (first & a1 & -> & [Ht1 Hd1] & Es & Hfront & Hfl & Hrest). cbn [mbind outcome_bind]. pose proof (zlen_nonneg first).
  destruct (Recv_spec (cb - zlen first) (ad_socket a1)) as (got & s & Hw & _ & Hwire & Hsends & _ & Hl & Hcase); [lia|]. pose proof (zlen_nonneg got).
  assert (Hlive : adapter_live (set_socket s a1)) by (split; [cbn; by rewrite Hsends|done]).
  assert (Hcome : adapter_coming a = (first ++ got) ++ adapter_coming (set_socket s a1)).
  { unfold adapter_coming. cbn [ad_data_len ad_buffer ad_socket set_socket]. rewrite Hfront, <- Es, Hw, <- !app_assoc. f_equal. destruct Hrest as [E|E].
    - by rewrite E, ztake_0.
    - assert (got = []) as -> by (destruct got; [done|]; rewrite zlen_cons in *; pose proof (zlen_nonneg got); lia). done. }
  rewrite <- Es. destruct Hcase as [->|[-> ->]].
  - rewrite (proj2 (Z.leb_le 0 (zlen got))) by lia. eexists _, _, _. split; [done|]. rewrite zlen_app. split_and!; try done; try lia.
  - rewrite app_nil_r in Hcome. cbn [Z.leb Z.compare]. destruct (Z.ltb_spec 0 (zlen first)).
    + eexists _, _, _. split; [done|]. split_and!; try done; lia.
    + assert (first = []) as -> by (destruct first; [done|]; rewrite zlen_cons in *; pose proof (zlen_nonneg first); lia).
      eexists _, [], _. split; [done|]. by split_and!.
Qed.

#[export] Instance proxy_endpoint : Endpoint AsyncSocksProxyServerSocket Int_Recv Int_Send.
Proof.
  refine {| live v := adapter_live (v_base v); coming v := adapter_coming (v_base v); taken v := wire (ad_socket (v_base v)) |}.
  - intros n v Hv Hn. destruct (Adapter_Recv_spec n (v_base v) Hv Hn) as (res & got & a & E & H1 & H2 & H3 & H4 & H5). unfold Int_Recv. rewrite E.
    eexists res, got, _. by split_and!.
  - intros data v [Ht Hd]. unfold Int_Send, Adapter_Send, DirectSend. destruct (ad_buffering (v_base v)).
    + eexists (-1), _, [], data. split; [done|]. cbn. rewrite app_nil_r. by split_and!.
    + destruct (socket_Send_spec data (ad_socket (v_base v)) Ht) as (res & s & took & rest & -> & H1 & H2 & H3 & H4 & H5).
      eexists res, _, took, rest. split; [done|]. split_and!; try done. unfold adapter_coming. cbn. by rewrite H4.
Defined.

(** ** Through the ring buffer *)

Definition open_ring (f : FifoBuffer) : Prop := fifo_ok f /\ state_ f = SS_OPEN /\ 0 < buffer_length_ f.

Section Relay.
Context {S : Type} {recv : Z -> S -> outcome (Z * list byte * S)} {send : list byte -> S -> Z * S} `{E : !Endpoint S recv send}.

Lemma Binding_Read_ok s f : live s -> open_ring f -> exists s' f', Binding_Read recv s f = Ret (s', f') /\ live s' /\ open_ring f' /\
  readable f ++ coming s = readable f' ++ coming s' /\ taken s' = taken s /\
  (readable f = [] -> read_position_ f' = 0 /\ exists res, recv (buffer_length_ f) s = Ret (res, readable f', s')).
Proof.
  intros Hs (Hok & Hst & Hlen). unfold Binding_Read, GetBuffered. destruct (Z.eqb_spec (data_length_ f) 0) as [Ed|Ed]; [|exists s, f; split_and!; try done; intros Hn; by apply (Queue.readable_nil f Hok) in Hn].
  pose proof Hok as [_ _ Hb Hc]. unfold GetWriteBuffer. rewrite Hst, Ed. cbn [decide]. rewrite decide_False by done. cbn [Z.eqb read_position_ data_length_ buffer_length_].
  rewrite size_mod_ok by lia. rewrite Z.add_0_l, Z.mod_0_l by lia. cbn [mbind outcome_bind mret outcome_ret]. rewrite orb_true_r, Z.sub_0_r, wrap64_small by lia.
  cbn [default from_option id state_ buffer_ buffer_length_ data_length_ read_position_]. destruct (recv_ok (buffer_length_ f) s Hs) as (res & got & s' & Erecv & Hs' & Hc' & Ht' & Hl & Hr); [lia|]. rewrite Erecv. cbn [mbind outcome_bind buffer_].
  pose proof (zlen_nonneg got). rewrite mem_write_ok by lia. cbn [mbind outcome_bind]. rewrite Hr.
  set (f1 := mkFifo _ _ _ _ _). assert (Hok1 : fifo_ok f1) by (constructor; cbn; try lia; rewrite zlen_splice; lia).
  destruct (ConsumeWriteBuffer_spec f1 (zlen got) Hok1) as (f2 & Econs & Hok2 & Hst2 & Hlen2 & Hd2 & Hv2); [cbn; lia|]. rewrite Econs. cbn [mbind outcome_bind mret outcome_ret].
  assert (open_ring f2) by (split; [done|rewrite Hst2, Hlen2; done]).
  assert (Hgot : readable f2 = got).
  { unfold readable. rewrite Hd2, Hv2. unfold view. cbn [f1 data_length_ read_position_ buffer_]. rewrite zdrop_0, ztake_0, app_nil_r.
    pose proof (ztake_splice (buffer_ f) 0 got ltac:(lia)) as Hsp. rewrite Z.add_0_l in *. by rewrite Hsp, ztake_0. }
  exists s', f2. do 3 (split; [done|]). rewrite (proj2 (Queue.readable_nil f Hok) Ed), Hgot. split; [done|]. split; [done|]. intros _. split; [|by exists res].
  revert Econs. unfold ConsumeWriteBuffer, assert_that. case_match; [|done]. by intros [= <-].
Qed.

Lemma Binding_Write_ok s f : live s -> open_ring f -> exists s' f', Binding_Write send s f = Ret (s', f') /\ live s' /\ open_ring f' /\
  taken s ++ readable f = taken s' ++ readable f' /\ coming s' = coming s /\
  (read_position_ f = 0 -> exists res, send (readable f) s = (res, s')).
Proof.
  intros Hs (Hok & Hst & Hlen). pose proof Hok as [Hd Hp Hb Hc]. unfold Binding_Write, GetReadData. rewrite wrap64_small by lia.
  set (size := if _ <=? _ then _ else _). assert (Hsz : size = Z.min (data_length_ f) (buffer_length_ f - read_position_ f)).
  { subst size. destruct (Z.leb_spec (read_position_ f + data_length_ f) (buffer_length_ f)); [lia|]. rewrite wrap64_small by lia. lia. }
  clearbody size. rewrite mem_read_ok by lia. cbn [mbind outcome_bind]. set (data := ztake size _).
  destruct (send_ok data s Hs) as (res & s' & took & rest & Esend & Hs' & Hdata & Ht & Hcom & Hr). rewrite Esend. cbn [mbind outcome_bind]. rewrite Hr. pose proof (zlen_nonneg took). pose proof (zlen_nonneg rest).
  assert (Hfront : readable f = data ++ zdrop size (readable f)).
  { rewrite <- (ztake_zdrop size (readable f)) at 1. f_equal. unfold data, readable, view. rewrite ztake_ztake by lia. rewrite ztake_app_le; [done|]. rewrite zlen_zdrop; lia. }
  assert (Hdl : zlen data = size) by (apply zlen_ztake; rewrite zlen_zdrop; lia). rewrite Hdata, zlen_app in Hdl.
  destruct (ConsumeReadData_spec f (zlen took) Hok) as (f' & -> & Hok' & Hst' & Hlen' & Hd' & Hv'); [lia|lia|]. cbn [mbind outcome_bind mret outcome_ret].
  assert (open_ring f') by (split; [done|rewrite Hst', Hlen'; done]).
  exists s', f'. do 3 (split; [done|]). split; [|split; [done|]].
  - rewrite (Queue.readable_rotate f f' (zlen took)) by (done || lia).
    rewrite Ht, <- app_assoc. f_equal. rewrite <- (ztake_zdrop (zlen took) (readable f)) at 1. f_equal. by rewrite Hfront, Hdata, <- app_assoc, ztake_app.
  - intros Hz. exists res. rewrite Hfront, (zdrop_all size (readable f)), app_nil_r by (rewrite zlen_readable by done; lia). done.
Qed.
End Relay.

(** ** A run of the proxy *)

Inductive proxy_event : Type := InternalRead | InternalWrite | ExternalRead | ExternalWrite.
Definition handle (e : proxy_event) : ProxyBinding -> outcome ProxyBinding :=
  match e with InternalRead => OnInternalRead | InternalWrite => OnInternalWrite | ExternalRead => OnExternalRead | ExternalWrite => OnExternalWrite end.

(** Before an event either network has brought bytes, and says how much the
    next calls of [Send] take. *)
Record proxy_round : Type := mkRound {
  event : proxy_event; int_news : list recv_answer; ext_news : list recv_answer; int_room : list send_answer; ext_room : list send_answer
}.
Definition socket_news (news : list recv_answer) (room : list send_answer) (s : AsyncSocket) : AsyncSocket :=
  mkSocket (sends s ++ room) (arrived s ++ news) (wire s) (sock_error s) (sock_state s) (remote_address s).
Definition with_news (r : proxy_round) (b : ProxyBinding) : ProxyBinding :=
  let a := v_base (int_socket_ b) in
  mkBinding (v_set_base (set_socket (socket_news (int_news r) (int_room r) (ad_socket a)) a) (int_socket_ b))
    (socket_news (ext_news r) (ext_room r) (ext_socket_ b)) (connected_ b) (out_buffer_ b) (in_buffer_ b).
Fixpoint run_proxy (rounds : list proxy_round) (b : ProxyBinding) : outcome ProxyBinding :=
  match rounds with
  | [] => mret b
  | r :: rounds => b ← handle (event r) (with_news r b); run_proxy rounds b
  end.

Definition binding_ok (b : ProxyBinding) : Prop :=
  live (int_socket_ b) /\ live (ext_socket_ b) /\ open_ring (out_buffer_ b) /\ open_ring (in_buffer_ b).
Definition round_ok (r : proxy_round) : Prop := Forall truthful (int_room r) /\ Forall truthful (ext_room r).

(** Sent on, in the ring, not yet read. *)
Definition out_stream (b : ProxyBinding) : list byte := taken (ext_socket_ b) ++ readable (out_buffer_ b) ++ coming (int_socket_ b).
Definition in_stream (b : ProxyBinding) : list byte := taken (int_socket_ b) ++ readable (in_buffer_ b) ++ coming (ext_socket_ b).

Lemma with_news_ok r b : round_ok r -> binding_ok b -> binding_ok (with_news r b) /\
  out_stream (with_news r b) = out_stream b ++ waiting (int_news r) /\ in_stream (with_news r b) = in_stream b ++ waiting (ext_news r).
Proof.
  intros [Hi He] ((Ht & Hd) & Hext & Ho & Hin). split.
  - split; [|split; [|done]].
    + split; [|done]. cbn. by apply Forall_app.
    + cbn. by apply Forall_app.
  - unfold out_stream, in_stream. cbn -[waiting]. unfold adapter_coming. cbn -[waiting ztake]. rewrite !waiting_app, <- !app_assoc. done.
Qed.

Lemma handle_ok e b : binding_ok b -> exists b', handle e b = Ret b' /\ binding_ok b' /\ out_stream b' = out_stream b /\ in_stream b' = in_stream b.
Proof.
  intros (Hi & He & Ho & Hin). destruct e; cbn [handle]; unfold OnInternalRead, OnInternalWrite, OnExternalRead, OnExternalWrite, out_stream, in_stream.
  - destruct (Binding_Read_ok (int_socket_ b) (out_buffer_ b) Hi Ho) as (v & out & -> & Hi' & Ho' & Hs & Ht & _). cbn [mbind outcome_bind].
    destruct (Binding_Write_ok (ext_socket_ b) out He Ho') as (e & out' & -> & He' & Ho'' & Hs' & Hc' & _). eexists. split; [done|]. cbn [int_socket_ ext_socket_ out_buffer_ in_buffer_]. split; [done|].
    rewrite Hs, Ht, Hc'. split; [|done]. by rewrite !app_assoc, <- Hs'.
  - destruct (Binding_Write_ok (int_socket_ b) (in_buffer_ b) Hi Hin) as (v & inb & -> & Hi' & Hin' & Hs & Hc & _). eexists. split; [done|]. cbn [int_socket_ ext_socket_ out_buffer_ in_buffer_]. split; [done|].
    rewrite Hc. split; [done|]. by rewrite !app_assoc, <- Hs.
  - destruct (Binding_Read_ok (ext_socket_ b) (in_buffer_ b) He Hin) as (e & inb & -> & He' & Hin' & Hs & Ht & _). cbn [mbind outcome_bind].
    destruct (Binding_Write_ok (int_socket_ b) inb Hi Hin') as (v & inb' & -> & Hi' & Hin'' & Hs' & Hc' & _). eexists. split; [done|]. cbn [int_socket_ ext_socket_ out_buffer_ in_buffer_]. split; [done|].
    rewrite Hs, Ht, Hc'. split; [done|]. by rewrite !app_assoc, <- Hs'.
  - destruct (Binding_Write_ok (ext_socket_ b) (out_buffer_ b) He Ho) as (e & out & -> & He' & Ho' & Hs & Hc & _). eexists. split; [done|]. cbn [int_socket_ ext_socket_ out_buffer_ in_buffer_]. split; [done|].
    rewrite Hc. split; [|done]. by rewrite !app_assoc, <- Hs.
Qed.

Lemma run_proxy_ok rounds b : binding_ok b -> Forall round_ok rounds -> exists b', run_proxy rounds b = Ret b' /\ binding_ok b' /\
  out_stream b' = out_stream b ++ waiting (concat (map int_news rounds)) /\ in_stream b' = in_stream b ++ waiting (concat (map ext_news rounds)).
Proof.
  revert b. induction rounds as [|r rounds IH]; intros b Hb Hr.
  - exists b. rewrite !app_nil_r. by split_and!.
  - apply Forall_cons_1 in Hr as [Hr Hrs]. destruct (with_news_ok r b Hr Hb) as (H1 & H2 & H3). destruct (handle_ok (event r) _ H1) as (b1 & E & Hb1 & H4 & H5).
    cbn [run_proxy map concat]. rewrite E. cbn [mbind outcome_bind]. destruct (IH b1 Hb1 Hrs) as (b' & E' & Hb' & H6 & H7). exists b'. do 2 (split; [done|]).
    rewrite !waiting_app, H6, H7, H4, H5, H2, H3, <- !app_assoc. done.
Qed.

(** With room on the other side everything read is handed on at once. *)
Lemma OnInternalRead_forwards b res got v n room : binding_ok b -> readable (out_buffer_ b) = [] ->
  Int_Recv (buffer_length_ (out_buffer_ b)) (int_socket_ b) = Ret (res, got, v) -> sends (ext_socket_ b) = Takes n :: room -> zlen got <= Z.pos n ->
  exists b', OnInternalRead b = Ret b' /\ wire (ext_socket_ b') = wire (ext_socket_ b) ++ got /\ readable (out_buffer_ b') = [].
Proof.
  intros (Hi & He & Ho & Hin) Hempty Hrecv Hs Hn. unfold OnInternalRead.
  destruct (Binding_Read_ok (int_socket_ b) (out_buffer_ b) Hi Ho) as (v' & out & -> & Hi' & Ho' & _ & _ & Hfull). destruct (Hfull Hempty) as (Hz & res' & E). cbn [mbind outcome_bind].
  rewrite Hrecv in E. injection E as <- -> <-.
  destruct (Binding_Write_ok (ext_socket_ b) out He Ho') as (e & out' & -> & He' & Ho'' & Hst & _ & Hsend). destruct (Hsend Hz) as [res'' E']. eexists. split; [done|]. cbn in *.
  unfold socket_Send in E'. rewrite Hs in E'. injection E' as _ <-. cbn in *. rewrite ztake_all in * by done. split; [done|].
  assert (Hl : (wire (ext_socket_ b) ++ readable out) ++ [] = (wire (ext_socket_ b) ++ readable out) ++ readable out') by by rewrite app_nil_r at 1. by apply app_inv_head in Hl.
Qed.

Lemma OnExternalRead_forwards b res got e n room : binding_ok b -> readable (in_buffer_ b) = [] ->
  ad_buffering (v_base (int_socket_ b)) = false ->
  Ext_Recv (buffer_length_ (in_buffer_ b)) (ext_socket_ b) = Ret (res, got, e) ->
  sends (ad_socket (v_base (int_socket_ b))) = Takes n :: room -> zlen got <= Z.pos n ->
  exists b', OnExternalRead b = Ret b' /\
    wire (ad_socket (v_base (int_socket_ b'))) = wire (ad_socket (v_base (int_socket_ b))) ++ got /\ readable (in_buffer_ b') = [].
Proof.
  intros (Hi & He & Ho & Hin) Hempty Hbuf Hrecv Hs Hn. unfold OnExternalRead.
  destruct (Binding_Read_ok (ext_socket_ b) (in_buffer_ b) He Hin) as (e' & inb & -> & He' & Hin' & _ & _ & Hfull). destruct (Hfull Hempty) as (Hz & res' & E). cbn [mbind outcome_bind].
  rewrite Hrecv in E. injection E as <- -> <-.
  destruct (Binding_Write_ok (int_socket_ b) inb Hi Hin') as (v & inb' & -> & Hi' & Hin'' & Hst & _ & Hsend). destruct (Hsend Hz) as [res'' E']. eexists. split; [done|]. cbn in *.
  unfold Int_Send, Adapter_Send, DirectSend, socket_Send in E'. rewrite Hbuf, Hs in E'. injection E' as _ <-. cbn in *. rewrite ztake_all in * by done. split; [done|].
  set (w := wire (ad_socket (v_base (int_socket_ b)))) in *.
  assert (Hl : (w ++ readable inb) ++ [] = (w ++ readable inb) ++ readable inb') by by rewrite app_nil_r at 1. by apply app_inv_head in Hl.
Qed.

Lemma fresh_ring `{Heap} n : 0 < n < 2 ^ 63 -> open_ring (FifoBuffer_new n) /\ readable (FifoBuffer_new n) = [].
Proof.
  intros Hn. assert (Hok : fifo_ok (FifoBuffer_new n)) by (apply Queue.fresh_ok; lia). split; [split; [done|split; [done|cbn; lia]]|]. by apply Queue.readable_nil.
Qed.

(** C29: a proxy relays.  Between the reply to the connect request and the end
    of the connection, however the readable and writable events of its two
    sockets come, in whatever chunks bytes arrive and however little [Send]
    takes or how often it fails, the proxy does not crash and neither loses,
    doubles, changes nor reorders a byte: what one side has been sent, then
    what waits in the ring buffer, then what has not yet been read, is what
    the other side sent, in both directions.  And it makes progress, in both
    directions: with an empty ring buffer and room on the other side, what it
    reads is sent on at once (to the client, when the SOCKS handshake no
    longer buffers).  The connect and close events are not part of the
    sequence. *)
Theorem proxy_relays `{Heap} (v : AsyncSocksProxyServerSocket) (e : AsyncSocket) (rounds : list proxy_round) :
  adapter_live (v_base v) -> Forall truthful (sends e) -> Forall round_ok rounds ->
  exists b, run_proxy rounds (ProxyBinding_new v e) = Ret b /\
    wire (ext_socket_ b) ++ readable (out_buffer_ b) ++ adapter_coming (v_base (int_socket_ b)) =
      wire e ++ adapter_coming (v_base v) ++ waiting (concat (map int_news rounds)) /\
    wire (ad_socket (v_base (int_socket_ b))) ++ readable (in_buffer_ b) ++ waiting (arrived (ext_socket_ b)) =
      wire (ad_socket (v_base v)) ++ waiting (arrived e) ++ waiting (concat (map ext_news rounds)) /\
    (readable (out_buffer_ b) = [] -> forall res got v' n room,
       Int_Recv (buffer_length_ (out_buffer_ b)) (int_socket_ b) = Ret (res, got, v') -> sends (ext_socket_ b) = Takes n :: room -> zlen got <= Z.pos n ->
       exists b', OnInternalRead b = Ret b' /\ wire (ext_socket_ b') = wire (ext_socket_ b) ++ got /\ readable (out_buffer_ b') = []) /\
    (readable (in_buffer_ b) = [] -> ad_buffering (v_base (int_socket_ b)) = false -> forall res got e' n room,
       Ext_Recv (buffer_length_ (in_buffer_ b)) (ext_socket_ b) = Ret (res, got, e') ->
       sends (ad_socket (v_base (int_socket_ b))) = Takes n :: room -> zlen got <= Z.pos n ->
       exists b', OnExternalRead b = Ret b' /\
         wire (ad_socket (v_base (int_socket_ b'))) = wire (ad_socket (v_base (int_socket_ b))) ++ got /\ readable (in_buffer_ b') = []).
Proof.
  intros Hv He Hr. destruct (fresh_ring kBufferSize) as [Hring Hnil]; [unfold kBufferSize; lia|].
  destruct (run_proxy_ok rounds (ProxyBinding_new v e)) as (b & E & Hb & Ho & Hi); [by split_and!|done|].
  exists b. split; [done|]. split; [|split; [|split]].
  - etransitivity; [exact Ho|]. unfold out_stream, ProxyBinding_new. cbn [ext_socket_ int_socket_ out_buffer_]. by rewrite Hnil, <- !app_assoc.
  - etransitivity; [exact Hi|]. unfold in_stream, ProxyBinding_new. cbn [ext_socket_ int_socket_ in_buffer_]. by rewrite Hnil, <- !app_assoc.
  - intros Hempty res got v' n room. by apply OnInternalRead_forwards.
  - intros Hempty Hbuf res got e' n room. by apply OnExternalRead_forwards.
Qed.

(** Two bytes wait in the adapter, three arrive, and [Send] takes one, then all. *)
Definition sample_proxy : AsyncSocksProxyServerSocket :=
  mkProxyServer (mkAdapter (mkSocket [] [] [] 0 CS_CONNECTED SocketAddress_nil) [Byte.x01; Byte.x02] 2 false) SV_TUNNEL.
Definition sample_rounds : list proxy_round :=
  [mkRound InternalRead [Arrives [Byte.x03; Byte.x04; Byte.x05]] [] [] [Takes 1; Takes 9]; mkRound ExternalWrite [] [] [] []].
Lemma proxy_relays_witness : exists b, run_proxy sample_rounds (@ProxyBinding_new (filled_heap Byte.x00) sample_proxy sample_socket) = Ret b /\
  wire (ext_socket_ b) ++ readable (out_buffer_ b) ++ adapter_coming (v_base (int_socket_ b)) = [Byte.x01; Byte.x02; Byte.x03; Byte.x04; Byte.x05].
Proof.
  destruct (@proxy_relays (filled_heap Byte.x00) sample_proxy sample_socket sample_rounds) as (b & E & Ho & _).
  - split; [constructor|vm_compute; split; discriminate].
  - repeat constructor.
  - repeat constructor.
  - exists b. split; [exact E|]. etransitivity; [exact Ho|]. reflexivity.
Defined.
