(* ===== verification/HeapTimer.v ===== *)
(** * network/event/timer.{h,cc}: the timer queue of the event loop

    Times and intervals are nanoseconds: the clock of the code has that
    resolution, and its intervals are milliseconds as [double]s, which hold
    whole numbers of nanoseconds exactly up to a hundred days.
    [std::priority_queue] is an interface: [pop] takes some element that is
    not below another in the order of [TimerItem], whatever the heap does
    with equal ones.  A callback is a value of type [C]; [call] runs it on
    the world [W] of the program and answers the timers that it adds.

    Shown: no callback runs before its time and each pass ends; when all
    intervals are equal a pass runs the timers that are due and leaves none
    of them; in general a timer that is due waits for every older one. *)

From Stdlib Require Import ZArith Lia.
From S2P Require Import Prelude.

Definition MAX_TIMER_EVENT_NUM : Z := 256.
(** [timer_.reset(new HeapTimer(this, 1024))] in the event loop. *)
Definition loop_max_timer : Z := 1024.
Definition millisecond : Z := 1000000.

Inductive TimerStrategy : Type := TIMER_ONESHOT | TIMER_LIMITED | TIMER_PERSIST.

(** [expired_] is the time of the start; [exeTimes_] is not initialised. *)
Record TimerItem (C : Type) : Type := mkTimer {
  interval_ : Z; expired_ : Z; strategy_ : TimerStrategy; exeTimes_ : Z; cb_ : option C
}.
Arguments mkTimer {C}. Arguments interval_ {C}. Arguments expired_ {C}.
Arguments strategy_ {C}. Arguments exeTimes_ {C}. Arguments cb_ {C}.

Definition IsExpired {C} (item : TimerItem C) (t2 : Z) : bool := t2 - expired_ item >? interval_ item.

(** [operator<] of [TimerItem]: the top of the queue is the oldest start. *)
Definition item_ltb {C} (a b : TimerItem C) : bool := expired_ a >? expired_ b.

Class PriorityQueue (C : Type) : Type := {
  pop : list (TimerItem C) -> option (TimerItem C * list (TimerItem C));
  pop_spec q : match pop q with
    | None => q = []
    | Some (x, r) => x :: r ≡ₚ q /\ Forall (fun y => item_ltb x y = false) r
    end
}.

(** ** HeapTimer *)
Section HeapTimer.
Context {C W : Type} `{PriorityQueue C} (call : C -> Z -> W -> outcome (W * list (TimerItem C))).

Definition AddTimer (max_timer : Z) (item : TimerItem C) (queue : list (TimerItem C)) : list (TimerItem C) :=
  if zlen queue >? max_timer then queue else item :: queue.

(** [RunAfter] and [RunEvery] of the event loop, with the time of the call. *)
Definition RunAfter (uninitialised now delay : Z) (cb : option C) (queue : list (TimerItem C)) : list (TimerItem C) :=
  AddTimer loop_max_timer (mkTimer delay now TIMER_ONESHOT uninitialised cb) queue.
Definition RunEvery (uninitialised now interval : Z) (cb : option C) (queue : list (TimerItem C)) : list (TimerItem C) :=
  AddTimer loop_max_timer (mkTimer interval now TIMER_PERSIST uninitialised cb) queue.

Definition GetTimerNumber (queue : list (TimerItem C)) : Z := zlen queue.

(** After the callback: is the timer pushed again, and with which count. *)
Definition again (item : TimerItem C) : bool * Z :=
  match strategy_ item with
  | TIMER_PERSIST => (true, exeTimes_ item)
  | TIMER_LIMITED => let n := wrap32 (exeTimes_ item - 1) in (n >? 0, n)
  | TIMER_ONESHOT => (false, exeTimes_ item)
  end.

(** One pass.  [clock] gives the times the loop reads, in order: before each
    callback and after it.  The result: the queue, the world, the time to the
    next timer, and the timers that ran with the time at which they did. *)
Fixpoint TimerInLoop (fuel : nat) (max_timer : Z) (clock : nat -> Z) (k : nat) (queue : list (TimerItem C)) (w : W)
    (ran : list (TimerItem C * Z)) : outcome (list (TimerItem C) * W * Z * list (TimerItem C * Z)) :=
  match fuel with
  | O => Crash FuelExhausted
  | S fuel =>
      match pop queue with
      | None => mret (queue, w, 0, ran)
      | Some (largest, rest) =>
          let currTp := clock k in
          if negb (IsExpired largest currTp)
          then mret (queue, w, interval_ largest - (currTp - expired_ largest), ran)
          else
            match cb_ largest with
            | None => Crash AssertionFailed
            | Some cb =>
                '(w, added) ← call cb currTp w;
                let queue := fold_left (fun q x => AddTimer max_timer x q) added rest in
                let '(more, exeTimes) := again largest in
                let queue := if more
                  then mkTimer (interval_ largest) (clock (S k)) (strategy_ largest) exeTimes (cb_ largest) :: queue
                  else queue in
                TimerInLoop fuel max_timer clock (S (S k)) queue w (ran ++ [(largest, currTp)])
            end
      end
  end.

(** ** No callback before its time *)

Lemma pop_some q x r : pop q = Some (x, r) -> x :: r ≡ₚ q /\ Forall (fun y => expired_ x <= expired_ y) r.
Proof.
  intros E. pose proof (pop_spec q) as Hs. rewrite E in Hs. destruct Hs as [Hp Hf]. split; [done|].
  eapply List.Forall_impl; [|exact Hf]. intros y Hy. unfold item_ltb in Hy. rewrite Z.gtb_ltb, Z.ltb_ge in Hy. lia.
Qed.
Lemma pop_none q : pop q = None -> q = [].
Proof. intros E. pose proof (pop_spec q) as Hs. by rewrite E in Hs. Qed.

Lemma IsExpired_spec (x : TimerItem C) t : IsExpired x t = true <-> interval_ x < t - expired_ x.
Proof. unfold IsExpired. rewrite Z.gtb_ltb. apply Z.ltb_lt. Qed.

Definition due (e : TimerItem C * Z) : Prop := interval_ (fst e) < snd e - expired_ (fst e).

Lemma TimerInLoop_due fuel max clock k q w ran q' w' t ran' :
  TimerInLoop fuel max clock k q w ran = Ret (q', w', t, ran') -> Forall due ran -> Forall due ran'.
Proof.
  revert k q w ran. induction fuel as [|fuel IH]; intros k q w ran E Hd; [done|]. cbn [TimerInLoop] in E.
  destruct (pop q) as [[x r]|]; [|by injection E as _ _ _ <-].
  destruct (IsExpired x (clock k)) eqn:Ex; cbn [negb] in E; [|by injection E as _ _ _ <-].
  destruct (cb_ x) as [c|]; [|done]. destruct (call c (clock k) w) as [[w1 added]|]; [|done].
  cbn [mbind outcome_bind] in E. destruct (again x) as [more n]. eapply IH; [exact E|].
  apply Forall_app. split; [done|]. constructor; [|constructor]. by apply IsExpired_spec.
Qed.

(** ** Equal intervals: a pass runs what is due

    Callbacks that return and add no timer, one-shot timers, and a clock that
    does not go back.  When a timer is due is said without the code's test:
    its start and its interval lie before the time. *)
Section Uniform.
Context (clock : nat -> Z) (i : Z) (Hcall : forall c t w, exists w', call c t w = Ret (w', [])).
Context (Hclock : forall a b, (a <= b)%nat -> clock a <= clock b).

Definition plain_timer (x : TimerItem C) : Prop :=
  interval_ x = i /\ strategy_ x = TIMER_ONESHOT /\ is_Some (cb_ x).

(** What a pass that stopped at the time [stop] leaves in the queue [q], with
    [t] until the next timer. *)
Definition nothing_due (stop : Z) (q : list (TimerItem C)) (t : Z) : Prop :=
  Forall (fun x => stop <= expired_ x + i /\ t <= expired_ x + i - stop) q /\
  (q = [] /\ t = 0 \/ exists x, x ∈ q /\ t = expired_ x + i - stop).

Lemma nothing_due_oldest k q x r :
  x :: r ≡ₚ q -> Forall (fun y => expired_ x <= expired_ y) r -> clock k <= expired_ x + i ->
  nothing_due (clock k) q (i - (clock k - expired_ x)).
Proof.
  intros Hp Hmin Hx. split; [|right; exists x; split; [rewrite <- Hp; left|lia]].
  rewrite <- Hp. constructor; [lia|]. eapply List.Forall_impl; [|exact Hmin]. cbn. intros y Hy. lia.
Qed.

Lemma TimerInLoop_uniform fuel max k q w ran :
  Forall plain_timer q -> (length q < fuel)%nat ->
  exists q' w' t ran', TimerInLoop fuel max clock k q w ran = Ret (q', w', t, ran ++ ran') /\
    map fst ran' ++ q' ≡ₚ q /\
    Forall (fun e => expired_ (fst e) + i < snd e <= clock (k + 2 * length ran')) ran' /\
    nothing_due (clock (k + 2 * length ran')) q' t.
Proof.
  revert k q w ran. induction fuel as [|fuel IH]; intros k q w ran Hq Hf; [lia|]. cbn [TimerInLoop].
  destruct (pop q) as [[x r]|] eqn:Ep.
  2: { apply pop_none in Ep as ->. exists [], w, 0, []. rewrite app_nil_r. split; [done|]. split; [done|].
       split; [constructor|]. split; [constructor|by left]. }
  apply pop_some in Ep as [Hp Hmin].
  assert (Hxr : Forall plain_timer (x :: r)) by by rewrite Hp. apply Forall_cons_1 in Hxr as [(Hi & Ho & c & Hc) Hr].
  destruct (IsExpired x (clock k)) eqn:Ex; cbn [negb].
  - rewrite Hc. destruct (Hcall c (clock k) w) as (w1 & ->). cbn [mbind outcome_bind fold_left].
    unfold again. rewrite Ho.
    destruct (IH (S (S k)) r w1 (ran ++ [(x, clock k)]) Hr) as (q' & w' & t & ran' & E & H1 & H2 & H3).
    { apply Permutation_length in Hp. cbn [length] in Hp. lia. }
    exists q', w', t, ((x, clock k) :: ran'). cbn [length].
    replace (k + 2 * S (length ran'))%nat with (S (S k) + 2 * length ran')%nat by lia.
    split; [rewrite E; by rewrite <- app_assoc|]. split; [rewrite <- Hp; cbn; by rewrite H1|].
    split; [|done]. constructor; [|done]. cbn. apply IsExpired_spec in Ex.
    pose proof (Hclock k (S (S k) + 2 * length ran')%nat ltac:(lia)). cbn in *. lia.
  - assert (Hx : clock k <= expired_ x + i).
    { apply not_true_iff_false in Ex. rewrite IsExpired_spec in Ex. lia. }
    exists q, w, (i - (clock k - expired_ x)), []. rewrite app_nil_r, Nat.add_0_r, Hi. split; [done|].
    split; [done|]. split; [constructor|]. by eapply nothing_due_oldest.
Qed.
End Uniform.
End HeapTimer.

(** An implementation of the queue: the first of the oldest. *)
Fixpoint pop_first {C} (q : list (TimerItem C)) : option (TimerItem C * list (TimerItem C)) :=
  match q with
  | [] => None
  | x :: q =>
      match pop_first q with
      | Some (y, r) => if item_ltb x y then Some (y, x :: r) else Some (x, q)
      | None => Some (x, q)
      end
  end.

Lemma pop_first_spec {C} (q : list (TimerItem C)) :
  match pop_first q with
  | None => q = []
  | Some (x, r) => x :: r ≡ₚ q /\ Forall (fun y => item_ltb x y = false) r
  end.
Proof.
  induction q as [|x q IH]; [done|]. cbn [pop_first]. destruct (pop_first q) as [[y r]|].
  - destruct IH as [Hp Hf]. unfold item_ltb in *. destruct (Z.gtb_spec (expired_ x) (expired_ y)) as [Hg|Hl].
    + split; [rewrite <- Hp; apply Permutation_swap|]. constructor; [|done]. rewrite Z.gtb_ltb, Z.ltb_ge. lia.
    + split; [done|]. rewrite <- Hp. constructor; [rewrite Z.gtb_ltb, Z.ltb_ge; lia|].
      eapply List.Forall_impl; [|exact Hf]. cbn. intros z Hz. rewrite !Z.gtb_ltb, !Z.ltb_ge in *. lia.
  - subst q. split; [done|constructor].
Qed.
#[export] Instance first_queue {C} : PriorityQueue C := {| pop := pop_first; pop_spec := pop_first_spec |}.

(** ** Claims *)

(** C25: timers run on time when all have the same interval [i].  A pass over
    one-shot timers whose callbacks return and add no timers, with a clock
    that does not go back, ends; for every order in which the heap keeps equal
    elements it splits the queue into the timers it ran and those it leaves.
    Each timer that ran was due then (more than [i] after its start).  None
    that is left was due at the last time the pass read, so every timer that
    was due when the pass began did run, and the time the pass answers is that
    until the next timer is due. *)
Theorem equal_intervals_on_time {C W} `{PriorityQueue C} (call : C -> Z -> W -> outcome (W * list (TimerItem C)))
    (clock : nat -> Z) (i max : Z) (q : list (TimerItem C)) (w : W) :
  (forall c t w, exists w', call c t w = Ret (w', [])) ->
  (forall a b, (a <= b)%nat -> clock a <= clock b) -> Forall (plain_timer i) q ->
  exists q' w' t ran, TimerInLoop call (S (length q)) max clock 0 q w [] = Ret (q', w', t, ran) /\
    map fst ran ++ q' ≡ₚ q /\
    Forall (fun e => expired_ (fst e) + i < snd e <= clock (2 * length ran)%nat) ran /\
    nothing_due i (clock (2 * length ran)%nat) q' t.
Proof.
  intros Hcall Hclock Hq. destruct (TimerInLoop_uniform call clock i Hcall Hclock (S (length q)) max 0 q w [] Hq) as
    (q' & w' & t & ran & E & H1 & H2 & H3); [lia|]. by exists q', w', t, ran.
Qed.

Definition counting (c : Z) (t : Z) (n : Z) : outcome (Z * list (TimerItem Z)) := Ret (n + c, []).
Definition two_timers : list (TimerItem Z) :=
  [mkTimer 5 10 TIMER_ONESHOT 0 (Some 1); mkTimer 5 2 TIMER_ONESHOT 0 (Some 7)].

(** The clock shows 9, 10, 11, ... *)
Lemma equal_intervals_on_time_witness : exists q' w' t ran,
  TimerInLoop counting 3 4 (fun k => 9 + Z.of_nat k) 0 two_timers 0 [] = Ret (q', w', t, ran) /\
  map fst ran ++ q' ≡ₚ two_timers /\
  Forall (fun e => expired_ (fst e) + 5 < snd e <= 9 + Z.of_nat (2 * length ran)) ran /\
  nothing_due 5 (9 + Z.of_nat (2 * length ran)) q' t.
Proof.
  apply (equal_intervals_on_time counting (fun k => 9 + Z.of_nat k) 5 4 two_timers 0).
  - intros c t w. exists (w + c). reflexivity.
  - intros a b Hab. lia.
  - repeat constructor; eexists; reflexivity.
Defined.

(** A timer that is due waits for every older one: the queue is ordered by
    the time of the start and not by the time at which the timer is due, so a
    pass that finds the oldest timer not yet due runs nothing.  A timer of one
    millisecond started behind one of ten seconds does not run for as long as
    the older one has not run, while the same timer alone runs; and no
    callback ever runs before its interval has passed. *)
Theorem due_timer_waits {C W} `{PriorityQueue C} (call : C -> Z -> W -> outcome (W * list (TimerItem C)))
    (now max : Z) (q r : list (TimerItem C)) (x : TimerItem C) (c : C) (w : W) :
  let long := mkTimer (10000 * millisecond) 0 TIMER_ONESHOT 0 (Some c) in
  let short := mkTimer millisecond 1 TIMER_ONESHOT 0 (Some c) in
  (pop q = Some (x, r) -> IsExpired x now = false ->
   forall fuel k, TimerInLoop call (S fuel) max (fun _ => now) k q w [] = Ret (q, w, interval_ x - (now - expired_ x), [])) /\
  (now <= 10000 * millisecond -> exists t, TimerInLoop call 2 max (fun _ => now) 0 [short; long] w [] =
     Ret ([short; long], w, t, [])) /\
  (2 * millisecond < now -> IsExpired short now = true) /\
  (forall fuel clock k q' w' t ran, TimerInLoop call fuel max clock k q w [] = Ret (q', w', t, ran) -> Forall due ran).
Proof.
  intros long short. split; [|split; [|split]].
  - intros Ep Ex fuel k. cbn [TimerInLoop]. by rewrite Ep, Ex.
  - intros Hn. cbn [TimerInLoop]. destruct (pop [short; long]) as [[y r']|] eqn:Ep; [|by apply pop_none in Ep].
    apply pop_some in Ep as [Hp Hmin].
    assert (y = long) as ->.
    { assert (Hin : y ∈ [short; long]) by (rewrite <- Hp; left). rewrite !elem_of_cons in Hin.
      destruct Hin as [->|[->|Hin]]; [|done|by apply not_elem_of_nil in Hin].
      assert (Hl : long ∈ short :: r') by (rewrite Hp; right; left).
      apply elem_of_cons in Hl as [Hl|Hl]; [by injection Hl|].
      rewrite List.Forall_forall in Hmin. apply list_elem_of_In in Hl. specialize (Hmin _ Hl). cbn in Hmin. lia. }
    assert (Ex : IsExpired long now = false) by (apply not_true_iff_false; rewrite IsExpired_spec; cbn; lia).
    rewrite Ex. cbn [negb]. by eexists.
  - intros Hn. apply IsExpired_spec. cbn. unfold millisecond in *. lia.
  - intros fuel clock k q' w' t ran E. eapply TimerInLoop_due; [exact E|constructor].
Qed.
