(* ===== verification/StunSafe.v ===== *)
(** * Messages that were not built to be read

    [write_new] and the two operations on MESSAGE-INTEGRITY return on every
    message that a program can build with the setters and on every packet:
    an attribute that cannot be sent makes [Write] answer [false].  A [draft]
    is a message under construction. *)

From Stdlib Require Import ZArith Lia.
From S2P Require Import Prelude ByteOrder ConstBuffer ByteBuffer Blocks Sha1 Digest IpAddress SocketAddress StunAttr StunCodec StunMessage StunRead StunProps StunAuth.
Local Open Scope Z_scope.
Local Open Scope list_scope.

(** ** Writing *)

(** A byte string holds what its length says. *)
Definition writable (a : StunAttribute) : Prop :=
  match attr_body a with
  | ByteString bytes => 0 <= attr_length a <= zlen (default [] bytes)
  | _ => True
  end.

(** The most that the body takes. *)
Definition body_room (a : StunAttribute) : Z :=
  match attr_body a with
  | Address s => 4 + zlen (ip_bytes (ip_ s))
  | XorAddress _ _ => 20
  | UInt32 _ => 4
  | UInt64 _ => 8
  | ByteString _ => attr_length a + 4
  | ErrorCode _ _ reason => 4 + zlen reason + 4
  | UInt16List l => 2 * zlen l + 4
  end.
Definition room (l : list StunAttribute) : Z := foldr (fun a n => 4 + body_room a + n) 0 l.

Lemma room_app l k : room (l ++ k) = room l + room k.
Proof.
  induction l as [|a l IH]; [done|]. cbn [app room foldr]. change (foldr _ 0 (l ++ k)) with (room (l ++ k)).
  change (foldr _ 0 l) with (room l). lia.
Qed.

Lemma zlen_padding_le n : zlen (padding n) <= 4.
Proof. rewrite zlen_padding. pose proof (Z.mod_pos_bound (- n) 4 ltac:(lia)). lia. Qed.

Lemma zlen_xored tid ip o : zlen (ip_bytes (GetXoredIP tid o ip)) <= 16.
Proof.
  unfold GetXoredIP. destruct o; [|done]. destruct (family_ ip); [done| |].
  - unfold ip_bytes. cbn [family_ IPAddress_v4]. unfold ipv4_address, ztake, zlen. rewrite length_take. lia.
  - destruct (_ =? _); [|done]. cbn [ip_bytes family_ IPAddress_v6 ipv6_address u_]. unfold zlen.
    rewrite !length_app, !length_xor_word. done.
Qed.

Section Writing.
Context `{BufferClass B}.

(** [m] returns and appends at most [n] bytes. *)
Definition appends (m : B -> outcome (bool * B)) (n : Z) : Prop :=
  forall w l, wrote w l -> post (m w) (fun '(_, w') => exists d, wrote w' (l ++ d) /\ zlen d <= n).

Lemma appends_none b n : 0 <= n -> appends (fun w => mret (b, w)) n.
Proof. intros Hn w l Hw. exists []. by rewrite app_nil_r. Qed.
Lemma appends_ending b m d n : writes m d -> zlen d <= n -> appends (fun w => ending b (m w)) n.
Proof.
  intros Hm Hn w l Hw. unfold ending. eapply post_bind, post_mono; [by apply Hm|]. intros w' Hw'. by exists d.
Qed.

Lemma Attr_Write_appends tid a : writable a -> appends (Attr_Write tid a) (body_room a).
Proof.
  unfold writable, Attr_Write, Address_Write, XorAddress_Write, UInt32_Write, UInt64_Write, ByteString_Write,
    ErrorCode_Write, UInt16List_Write, body_room. intros Ha.
  destruct (attr_body a) as [s|s o| | |bytes|c n r|l].
  - pose proof (zlen_nonneg (ip_bytes (ip_ s))). destruct (_ =? _); [apply appends_none; lia|].
    eapply appends_ending; [apply WriteAddress_writes|]. rewrite zlen_address_bytes. lia.
  - pose proof (zlen_xored tid (ip_ s) o). destruct (_ =? _); [by apply appends_none|].
    destruct (IPIsUnspec _); [by apply appends_none|].
    eapply appends_ending; [apply WriteAddress_writes|]. rewrite zlen_address_bytes. lia.
  - eapply appends_ending; [apply WriteUInt32_writes|by rewrite zlen_be_bytes].
  - eapply appends_ending; [apply WriteUInt64_writes|by rewrite zlen_be_bytes].
  - rewrite mem_read_ok by lia. cbn [mbind outcome_bind].
    eapply appends_ending; [apply writes_bind; [apply WriteBytes_writes|apply WritePadding_writes]|].
    rewrite zdrop_0, zlen_app, zlen_ztake by lia. pose proof (zlen_padding_le (attr_length a)). lia.
  - eapply appends_ending.
    { apply writes_bind; [apply WriteUInt32_writes|]. apply writes_bind; [apply WriteBytes_writes|apply WritePadding_writes]. }
    rewrite !zlen_app, zlen_be_bytes. pose proof (zlen_padding_le (attr_length a)). lia.
  - eapply appends_ending; [apply writes_bind; [apply WriteTypes_writes|apply WritePadding_writes]|].
    rewrite zlen_app, zlen_types. pose proof (zlen_padding_le (attr_length a)). lia.
Qed.

Lemma body_room_nonneg a : writable a -> 0 <= body_room a.
Proof.
  unfold writable, body_room. destruct (attr_body a) as [s| | | |bytes|c n r|l]; try lia.
  - pose proof (zlen_nonneg (ip_bytes (ip_ s))). lia.
  - pose proof (zlen_nonneg r). lia.
  - pose proof (zlen_nonneg l). lia.
Qed.
Lemma room_nonneg l : Forall writable l -> 0 <= room l.
Proof.
  induction 1 as [|a l Ha Hl IH]; [done|]. cbn [room foldr]. change (foldr _ 0 l) with (room l).
  pose proof (body_room_nonneg a Ha). lia.
Qed.

Lemma Write_attrs_appends tid l w k : Forall writable l -> wrote w k ->
  post (Write_attrs tid l w) (fun '(_, w') => exists d, wrote w' (k ++ d) /\ zlen d <= room l /\ (l <> [] -> 4 <= zlen d)).
Proof.
  intros Hl. revert w k. induction Hl as [|a l Ha Hl IH]; intros w k Hw.
  - exists []. by rewrite app_nil_r.
  - cbn [Write_attrs room foldr]. change (foldr _ 0 l) with (room l). pose proof (room_nonneg l Hl).
    eapply post_bind, post_mono; [exact (WriteUInt16_writes _ _ _ Hw)|]. intros w1 Hw1.
    eapply post_bind, post_mono; [exact (WriteUInt16_writes _ _ _ Hw1)|]. intros w2 Hw2.
    eapply post_bind, post_mono; [exact (Attr_Write_appends tid a Ha _ _ Hw2)|]. intros [ok w3] (d & Hd & Hn).
    rewrite <- !app_assoc in Hd. pose proof (zlen_nonneg d). destruct ok.
    + eapply post_mono; [by apply IH|]. intros [ok w4] (d' & Hd' & Hn' & _). rewrite <- !app_assoc in Hd'.
      eexists. split; [exact Hd'|]. rewrite !zlen_app, !zlen_be_bytes. pose proof (zlen_nonneg d'). lia.
    + eexists. split; [exact Hd|]. rewrite !zlen_app, !zlen_be_bytes. lia.
Qed.

Lemma Message_Write_appends m w k : IsValidTransactionId (transaction_id_ m) = true -> Forall writable (attrs_ m) -> wrote w k ->
  post (Message_Write m w) (fun '(_, w') => exists d, wrote w' (k ++ d) /\ zlen d <= 20 + room (attrs_ m) /\
    20 <= zlen d /\ (attrs_ m <> [] -> 24 <= zlen d) /\ exists rest, d = be_bytes 2 (msg_type m) ++ rest).
Proof.
  intros Ht Ha Hw. unfold Message_Write.
  eapply post_bind, post_mono; [exact (WriteUInt16_writes _ _ _ Hw)|]. intros w1 Hw1.
  eapply post_bind, post_mono; [exact (WriteUInt16_writes _ _ _ Hw1)|]. intros w2 Hw2.
  assert (Hl : IsLegacy m = Ret (zlen (transaction_id_ m) =? kStunLegacyTransactionIdLength)).
  { unfold IsLegacy. destruct (valid_tid_length _ Ht) as [-> | ->]; done. }
  rewrite Hl. cbn [mbind outcome_bind].
  assert (Hc : post (if zlen (transaction_id_ m) =? kStunLegacyTransactionIdLength then mret w2
    else WriteUInt32 w2 (stun_magic_cookie_ m)) (fun w3 => exists c, wrote w3 (((k ++ be_bytes 2 (msg_type m)) ++ be_bytes 2 (msg_length m)) ++ c) /\
      zlen c + zlen (transaction_id_ m) = 16)).
  { destruct (valid_tid_length _ Ht) as [E|E]; rewrite E.
    - eapply post_mono; [exact (WriteUInt32_writes _ _ _ Hw2)|]. intros w3 Hw3. eexists. split; [exact Hw3|]. by rewrite zlen_be_bytes.
    - exists []. by rewrite app_nil_r. }
  eapply post_bind, post_mono; [exact Hc|]. intros w3 (c & Hw3 & Hlen).
  eapply post_bind, post_mono; [exact (WriteBytes_writes _ _ _ Hw3)|]. intros w4 Hw4.
  eapply post_mono; [exact (Write_attrs_appends _ _ _ _ Ha Hw4)|]. intros [ok w5] (d & Hw5 & Hd & Hd'). rewrite <- !app_assoc in Hw5.
  eexists. split; [exact Hw5|]. rewrite !zlen_app, !zlen_be_bytes. pose proof (zlen_nonneg d). split; [lia|]. split; [lia|].
  split; [intros Hne; specialize (Hd' Hne); lia|]. by eexists.
Qed.
End Writing.

(** ** Drafts *)

(** A message of class [c] that [Write] can be called on; its attributes take
    at most [n] bytes. *)
Record draft (c : message_class) (n : Z) (m : StunMessage) : Prop := {
  draft_class : msg_class m = c;
  draft_tid : IsValidTransactionId (transaction_id_ m) = true;
  draft_attrs : Forall writable (attrs_ m);
  draft_room : room (attrs_ m) <= n
}.

Lemma draft_new c u : exists m, StunMessage_new c u = Ret m /\ draft c 0 m.
Proof. eexists. split; [reflexivity|]. by split. Qed.

Lemma draft_SetTransactionID c n tid m : draft c n m ->
  exists ok m', SetTransactionID tid m = Ret (ok, m') /\ draft c n m'.
Proof.
  intros Hm. unfold SetTransactionID. destruct (IsValidTransactionId tid) eqn:E; cbn [negb]; [|by eexists _, _].
  rewrite ReduceTransactionId_ok by done. cbn [mbind outcome_bind mret outcome_ret].
  eexists _, _. split; [reflexivity|]. destruct Hm. by split.
Qed.

(** The attribute fits the class of the message. *)
Definition fits (c : message_class) (a : StunAttribute) : Prop :=
  writable a /\ value_type a = GetAttributeValueType c (attr_type a).

Lemma SetOwner_writable a : writable a -> writable (SetOwner true a).
Proof. unfold writable, SetOwner. by destruct (attr_body a) eqn:E; cbn; rewrite ?E. Qed.
Lemma SetOwner_room a : body_room (SetOwner true a) = body_room a.
Proof. unfold body_room, SetOwner. by destruct (attr_body a) eqn:E; cbn; rewrite ?E. Qed.

Lemma draft_add c n a m : draft c n m -> fits c a ->
  exists m', AddAttribute a m = Ret m' /\ draft c (n + 4 + body_room a) m' /\ attrs_ m' = attrs_ m ++ [SetOwner true a].
Proof.
  intros [Hc Ht Ha Hr] [Hw Hv]. unfold AddAttribute. rewrite Hc. rewrite (bool_decide_true _ Hv).
  eexists. split; [by destruct (negb _)|]. split; [|done]. split; cbn; try done.
  - apply Forall_app. split; [done|]. constructor; [by apply SetOwner_writable|constructor].
  - rewrite room_app. cbn. rewrite SetOwner_room. lia.
Qed.

Lemma writable_string type s : writable (StunByteStringAttribute type s).
Proof.
  unfold writable. cbn [attr_body attr_length StunByteStringAttribute CopyBytes SetBytes SetLength with_body default from_option id].
  pose proof (wrap16_range (zlen s)). pose proof (zlen_nonneg s). unfold wrap16 in *. pose proof (Z.mod_le (zlen s) (2 ^ 16)). lia.
Qed.
Lemma writable_address type s : writable (StunAddressAttribute type s).
Proof. done. Qed.
Lemma writable_xor_address type s : writable (StunXorAddressAttribute type s).
Proof. done. Qed.
Lemma writable_uint32 type v : writable (StunUInt32Attribute type v).
Proof. done. Qed.
Lemma writable_error type code reason : writable (StunErrorCodeAttribute type code reason).
Proof. done. Qed.

Section Heap.
Context `{Heap}.

Lemma draft_write c n m : draft c n m -> exists ok data, write_new m = Ret (ok, data) /\ zlen data <= 20 + n /\
  20 <= zlen data /\ (attrs_ m <> [] -> 24 <= zlen data) /\ exists rest, data = be_bytes 2 (msg_type m) ++ rest.
Proof.
  intros [Hc Ht Ha Hr]. unfold write_new.
  destruct (post_inv _ _ ByteBufferWriter_ok) as (b & -> & Hb & Hcn). cbn [mbind outcome_bind].
  destruct (post_inv _ _ (Message_Write_appends (H := BufferT_class false) m b [] Ht Ha (conj Hb Hcn)))
    as ([ok b'] & -> & d & [Hb' Hc'] & H1 & H2 & H3). cbn [mbind outcome_bind mret outcome_ret app] in *. rewrite Hc'.
  exists ok, d. split; [done|]. split; [lia|done].
Qed.

Lemma draft_on_last c n f m l a : draft c n m -> attrs_ m = l ++ [a] -> writable (f a) -> body_room (f a) <= body_room a ->
  draft c n (on_last f m).
Proof.
  intros [Hc Ht Ha Hr] E Hw Hf. unfold on_last. rewrite E, rev_app_distr. cbn [rev app]. rewrite rev_involutive.
  rewrite E in Ha, Hr. apply Forall_app in Ha as [H1 H2]. split; cbn; try done.
  - apply Forall_app. split; [done|]. by constructor.
  - rewrite room_app in *. cbn in *. lia.
Qed.

(** MESSAGE-INTEGRITY on any draft of a reasonable size. *)
Lemma draft_AddMessageIntegrity c n key m : draft c n m -> n < 2 ^ 20 -> zlen key < 2 ^ 61 ->
  exists ok m', AddMessageIntegrity key m = Ret (ok, m') /\ draft c (n + 28) m'.
Proof.
  intros Hm Hn Hk. unfold AddMessageIntegrity, AddMessageIntegrityOfType.
  change (kStunMessageIntegritySize <=? kStunMessageIntegritySize) with true. cbn [assert_that mbind outcome_bind].
  set (a := StunByteStringAttribute _ _). destruct (draft_add c n a m Hm) as (m1 & E1 & Hd1 & Ha1).
  { split; [apply writable_string|by destruct c]. }
  change (n + 4 + body_room a) with (n + 4 + (20 + 4)) in Hd1. replace (n + 4 + (20 + 4)) with (n + 28) in Hd1 by lia.
  rewrite E1. cbn [mbind outcome_bind]. destruct (draft_write _ _ _ Hd1) as (ok & data & E2 & Hl & _ & Hl' & _).
  rewrite E2. cbn [mbind outcome_bind]. destruct ok; cbn [negb]; [|by eexists _, _].
  assert (Hlast : last_length m1 = 20) by (unfold last_length; rewrite Ha1, rev_app_distr; done). rewrite Hlast.
  assert (24 <= zlen data) by (apply Hl'; rewrite Ha1; by destruct (attrs_ m)).
  pose proof (room_nonneg _ (draft_attrs _ _ _ Hm)). pose proof (draft_room _ _ _ Hm). unfold kStunAttributeHeaderSize.
  assert (E3 : to_int32 (zlen data - 4 - 20) = zlen data - 24) by (unfold to_int32; rewrite wrap32_small by lia; rewrite (proj2 (Z.ltb_lt _ _)) by lia; lia).
  rewrite E3, mem_read_ok by lia. rewrite zdrop_0. cbn [mbind outcome_bind].
  pose proof (fresh_length 20 ltac:(lia)) as Hf.
  rewrite ComputeHmac_sha1; [|done|rewrite zlen_ztake by lia; lia|exact Hf]. cbn [mbind outcome_bind].
  change (20 =? kStunMessageIntegritySize) with true. cbn [assert_that mbind outcome_bind negb].
  set (mac := hmac _ _ _). assert (Hmac : zlen mac = 20) by apply zlen_sha1. unfold kStunMessageIntegritySize.
  rewrite mem_read_ok by lia.
  cbn [mbind outcome_bind mret outcome_ret]. eexists _, _. split; [reflexivity|]. eapply draft_on_last; [done|exact Ha1|exact (writable_string kStunAttrMessageIntegrity (ztake 20 (zdrop 0 mac)))|].
  rewrite SetOwner_room. unfold body_room.
  cbn [attr_body attr_length CopyBytes SetBytes SetLength with_body StunByteStringAttribute].
  rewrite zlen_ztake by (rewrite zdrop_0, Hmac; done). done.
Qed.

(** ** Checking any packet *)

Lemma GetBE16_inside data pos : 0 <= pos -> pos + 2 <= zlen data -> exists v, GetBE16_at data pos = Ret v /\ 0 <= v < 2 ^ 16.
Proof.
  intros Hp Hl. unfold GetBE16_at, GetBE16. assert (Hd : zlen (zdrop pos data) = zlen data - pos) by (apply zlen_zdrop; lia).
  rewrite mem_read_ok by lia. cbn [mbind outcome_bind mret outcome_ret]. eexists. split; [reflexivity|].
  set (two := ztake 2 _). assert (Ht : zlen two = 2) by (apply zlen_ztake; rewrite zdrop_0; lia).
  rewrite to_be_load by (unfold zlen in Ht; lia). pose proof (be_value_range two) as Hr. by rewrite Ht in Hr.
Qed.

Lemma find_integrity_total fuel t n data pos : 0 <= pos -> Z.max 0 (zlen data - pos) < Z.of_nat fuel -> 0 <= n ->
  exists o, find_integrity fuel t n data (zlen data) pos = Ret o /\
    forall p, o = Some p -> pos <= p /\ p + 4 + n <= zlen data.
Proof.
  revert pos. induction fuel as [|fuel IH]; intros pos Hp Hf Hn; cbn [find_integrity].
  - lia.
  - destruct (Z.leb_spec (pos + 4) (zlen data)); [|by exists None].
    destruct (GetBE16_inside data pos) as (ty & -> & Hty); [lia..|].
    destruct (GetBE16_inside data (pos + 2)) as (len & -> & Hlen); [lia..|]. cbn [mbind outcome_bind].
    destruct (ty =? t).
    + destruct (Z.eqb_spec len n) as [->|]; cbn [negb orb]; [|by exists None].
      rewrite Z.gtb_ltb. destruct (Z.ltb_spec (zlen data) (pos + 2 + 2 + n)); [by exists None|].
      exists (Some pos). split; [done|]. intros p [= <-]. lia.
    + set (next := if negb _ then _ else _).
      assert (pos + 4 <= next) by (unfold next; pose proof (Z.mod_pos_bound len 4 ltac:(lia)); destruct (negb _); lia).
      destruct (IH next) as (o & E & Ho); [lia..|]. exists o. split; [done|]. intros p Hp'. specialize (Ho p Hp'). lia.
Qed.

Lemma ValidateMessageIntegrity_total data key : zlen key < 2 ^ 61 ->
  exists b, ValidateMessageIntegrity data (zlen data) key = Ret b.
Proof.
  intros Hk. unfold ValidateMessageIntegrity, ValidateMessageIntegrityOfType, kStunMessageIntegritySize, kStunHeaderSize, kStunAttributeHeaderSize.
  change (20 <=? 20) with true. cbn [assert_that mbind outcome_bind].
  destruct (negb (zlen data mod 4 =? 0)); cbn [orb]; [by exists false|].
  destruct (Z.ltb_spec (zlen data) 20) as [Hs|Hs]; [by exists false|].
  destruct (GetBE16_inside data 2) as (len & -> & Hlen); [lia..|]. cbn [mbind outcome_bind].
  destruct (Z.eqb_spec (zlen data) (len + 20)) as [Hd|]; cbn [negb]; [|by exists false].
  destruct (find_integrity_total (S (Z.to_nat (zlen data))) kStunAttrMessageIntegrity 20 data 20) as (o & -> & Ho); [lia..|].
  cbn [mbind outcome_bind]. destruct o as [p|]; [|by exists false]. destruct (Ho p eq_refl) as [Hp1 Hp2].
  rewrite (mem_read_ok data 0 p) by lia. rewrite zdrop_0. cbn [mbind outcome_bind].
  assert (Ht : zlen (ztake p data) = p) by (apply zlen_ztake; lia).
  match goal with |- exists b, (?o ≫= ?k) = Ret b =>
    assert (Hadj : exists temp, o = Ret temp /\ zlen temp = p) end.
  { rewrite Z.gtb_ltb. destruct (_ <? _); [|by eexists]. unfold SetBE16.
    assert (Hz : zlen (zdrop 2 (ztake p data)) = p - 2) by (rewrite zlen_zdrop by lia; lia).
    set (v := store _ _ _). assert (Hv : zlen v = 2) by (unfold v, zlen; by rewrite length_store).
    rewrite mem_write_ok by lia. cbn [mbind outcome_bind mret outcome_ret]. eexists. split; [reflexivity|].
    rewrite zlen_app, zlen_ztake, zlen_splice by lia. lia. }
  destruct Hadj as (temp & -> & Htemp). cbn [mbind outcome_bind]. pose proof (fresh_length 20 ltac:(lia)) as Hf.
  rewrite ComputeHmac_sha1 by (done || lia). cbn [mbind outcome_bind]. change (20 =? 20) with true.
  cbn [assert_that mbind outcome_bind negb].
  set (mac := hmac _ _ _). assert (Hmac : zlen mac = 20) by apply zlen_sha1.
  rewrite mem_read_ok by lia. rewrite mem_read_ok by lia. cbn [mbind outcome_bind]. by eexists.
Qed.
End Heap.

(** ** What a parsed message holds *)

Lemma GetAttribute_in_found l t a : GetAttribute_in l t = Some a -> a ∈ l /\ attr_type a = t.
Proof.
  induction l as [|b l IH]; cbn [GetAttribute_in]; [done|].
  destruct (Z.eqb_spec (attr_type b) t); [intros [= ->]; split; [left|done]|].
  intros Hl. destruct (IH Hl) as [H1 H2]. split; [by right|done].
Qed.

Lemma GetAttribute_parsed m t a : msg_parsed m -> GetAttribute m t = Some a ->
  value_type a = read_type (msg_class m) t /\ 0 <= attr_length a < 2 ^ 16 /\ parsed_body (transaction_id_ m) a.
Proof.
  intros Hm Ha. apply GetAttribute_in_found in Ha as [Hin <-]. pose proof (parsed_attrs _ Hm) as Hf.
  rewrite List.Forall_forall in Hf. apply list_elem_of_In, Hf in Hin. by destruct Hin as (_ & Hv & _ & Hl & Hb).
Qed.
