(* ===== verification/StunServer.v ===== *)
(** * network/stun/stun_server.cc and async_udp_socket.cc: the STUN server

    The server reads datagrams from a UDP socket and tells a client the address
    its request came from.  What [SendTo] is given is the result of a handler;
    the operating system's answer to it is only logged. *)

From Stdlib Require Import ZArith Lia String.
From S2P Require Import Prelude ByteOrder ConstBuffer ByteBuffer IpAddress SocketAddress StunAttr StunCodec StunMessage StunRead StunNames StunProps StunAuth StunSafe.
Local Open Scope Z_scope.
Local Open Scope list_scope.

(** ** The UDP socket *)

Definition UDP_BUF_SIZE : Z := 64 * 1024.

(** What [RecvFrom] finds: nothing, or a datagram, cut to the buffer. *)
Definition Udp_OnReadEvent {A} (arrival : option (list byte * SocketAddress))
    (SignalReadPacket : list byte -> SocketAddress -> outcome (list A)) : outcome (list A) :=
  match arrival with
  | None => mret []
  | Some (data, remote_addr) => SignalReadPacket (ztake UDP_BUF_SIZE data) remote_addr
  end.

(** ** The server *)
Section Server.
Context `{Heap} (uninitialised : Z).

Definition Server_SendResponse (msg : StunMessage) (addr : SocketAddress) : outcome (list (list byte * SocketAddress)) :=
  '(_, data) ← write_new msg;
  mret [(data, addr)].

Definition Server_SendErrorResponse (msg : StunMessage) (addr : SocketAddress) (error_code : Z) (error_desc : string)
    : outcome (list (list byte * SocketAddress)) :=
  err_msg ← StunMessage_new Stun uninitialised;
  let err_msg := Msg_SetType (GetStunErrorResponseType (msg_type msg)) err_msg in
  '(_, err_msg) ← SetTransactionID (transaction_id_ msg) err_msg;
  let err_code := SetReason (list_byte_of_string error_desc) (SetCode error_code CreateErrorCode) in
  err_msg ← AddAttribute err_code err_msg;
  Server_SendResponse err_msg addr.

Definition mapped_addr (legacy : bool) (remote_addr : SocketAddress) : StunAttribute :=
  SetAddress remote_addr
    (if legacy then CreateAddress kStunAttrMappedAddress else CreateXorAddress kStunAttrXorMappedAddress).
Definition GetStunBindResponse (request : StunMessage) (remote_addr : SocketAddress) (response : StunMessage) : outcome StunMessage :=
  let response := Msg_SetType (message_number kStunMessageBindingResponse) response in
  '(_, response) ← SetTransactionID (transaction_id_ request) response;
  legacy ← IsLegacy request;
  AddAttribute (mapped_addr legacy remote_addr) response.

Definition OnBindingRequest (msg : StunMessage) (remote_addr : SocketAddress) : outcome (list (list byte * SocketAddress)) :=
  response ← StunMessage_new Stun uninitialised;
  response ← GetStunBindResponse msg remote_addr response;
  Server_SendResponse response remote_addr.

Definition OnPacket (buf : list byte) (remote_addr : SocketAddress) : outcome (list (list byte * SocketAddress)) :=
  msg ← StunMessage_new Stun uninitialised;
  '(ok, msg, _) ← Message_Read msg (Reader buf (zlen buf));
  match ok with
  | None => mret []
  | Some _ =>
      if msg_type msg =? message_number kStunMessageBindingRequest then OnBindingRequest msg remote_addr
      else Server_SendErrorResponse msg remote_addr 600 "Operation Not Supported"
  end.

(** The server on its socket. *)
Definition Server_event (arrival : option (list byte * SocketAddress)) : outcome (list (list byte * SocketAddress)) :=
  Udp_OnReadEvent arrival OnPacket.
End Server.

(** ** The type of a message that was read *)

Definition keeps_type {A} (p : parser A) : Prop := forall m r a m' r', p m r = Ret (Some a, m', r') -> msg_type m' = msg_type m.

Lemma keeps_bind {A B} (p : parser A) (k : A -> parser B) : keeps_type p -> (forall a, keeps_type (k a)) -> keeps_type (p ≫= k).
Proof.
  intros Hp Hk m r b m' r'. unfold mbind, parser_bind. destruct (p m r) as [[[[a|] m1] r1]|] eqn:E; [|done..].
  intros E'. by rewrite (Hk a _ _ _ _ _ E'), (Hp _ _ _ _ _ E).
Qed.
Lemma keeps_from {A} (p : reader A) : keeps_type (from p).
Proof. intros m r a m' r'. unfold from. destruct (p r) as [[o r1]|]; [|done]. by intros [= -> <- <-]. Qed.
Lemma keeps_calling {A} (o : outcome A) : keeps_type (calling o).
Proof. intros m r a m' r'. unfold calling. destruct o as [x|]; [|done]. by intros [= <- <- <-]. Qed.
Lemma keeps_modify f : (forall m, msg_type (f m) = msg_type m) -> keeps_type (modify f).
Proof. intros Hf m r a m' r' [= <- <- <-]. apply Hf. Qed.
Lemma keeps_this : keeps_type this.
Proof. by intros m r a m' r' [= <- <- <-]. Qed.
Lemma keeps_remaining : keeps_type remaining.
Proof. by intros m r a m' r' [= <- <- <-]. Qed.
Lemma keeps_false {A} : keeps_type (@answer_false A).
Proof. done. Qed.
Create HintDb keeps_type.
#[local] Hint Resolve keeps_from keeps_calling keeps_this keeps_remaining keeps_false : keeps_type.
Ltac keeps_type := repeat first [progress auto with keeps_type | apply keeps_bind; [|intros] | by apply keeps_modify | match goal with |- keeps_type (match ?x with _ => _ end) => destruct x end].

Lemma keeps_Read_loop fuel rest : keeps_type (Read_loop fuel rest).
Proof. induction fuel as [|fuel IH]; cbn [Read_loop]; keeps_type. Qed.

Lemma bind_run {A B} (p : parser A) (k : A -> parser B) m r b m' r' : (p ≫= k) m r = Ret (Some b, m', r') ->
  exists a m1 r1, p m r = Ret (Some a, m1, r1) /\ k a m1 r1 = Ret (Some b, m', r').
Proof. unfold mbind, parser_bind. destruct (p m r) as [[[[a|] m1] r1]|]; [|done..]. intros E. by exists a, m1, r1. Qed.

Lemma keeps_run {A} (p : parser A) m r a m' r' : p m r = Ret (Some a, m', r') -> keeps_type p -> msg_type m' = msg_type m.
Proof. intros E Hp. by apply Hp in E. Qed.

Lemma Message_Read_type t rest m0 r m r' : 0 <= t < 2 ^ 16 -> unread r (be_bytes 2 t ++ rest) ->
  Message_Read m0 r = Ret (Some tt, m, r') -> msg_type m = t.
Proof.
  intros Ht Hr E. destruct (ReadUInt16_reads t Ht r rest Hr) as (r1 & E1 & _).
  apply bind_run in E as ([] & m1 & r2 & EH & E). apply bind_run in EH as (t' & m2 & r3 & Et & EH).
  unfold from in Et. rewrite E1 in Et. injection Et as <- <- <-. apply bind_run in EH as ([] & m3 & r4 & [= <- <-] & EH).
  assert (H1 : msg_type m = msg_type m1) by (refine (keeps_run _ _ _ _ _ _ E _); keeps_type; apply keeps_Read_loop).
  assert (H2 : msg_type m1 = msg_type (set_type t m0)) by (refine (keeps_run _ _ _ _ _ _ EH _); keeps_type).
  by rewrite H1, H2.
Qed.

(** ** Every answer *)
Section Answers.
Context `{Heap} (u : Z).

(** At most one datagram, short, to the sender, of a message type in [P]. *)
Definition short_answer (addr : SocketAddress) (P : Z -> Prop) (out : list (list byte * SocketAddress)) : Prop :=
  out = [] \/ exists d t rest, out = [(d, addr)] /\ zlen d <= 55 /\ d = be_bytes 2 t ++ rest /\ 0 <= t < 2 ^ 16 /\ P t.

Lemma short_answer_mono addr (P Q : Z -> Prop) out : (forall t, P t -> Q t) -> short_answer addr P out -> short_answer addr Q out.
Proof. intros HPQ [->|(d & t & rest & H1 & H2 & H3 & H4 & H5)]; [by left|right]. exists d, t, rest. split_and!; try done; try lia. by apply HPQ. Qed.

Lemma SendResponse_short n m addr : draft Stun n m -> n <= 35 -> 0 <= msg_type m < 2 ^ 16 ->
  exists out, Server_SendResponse m addr = Ret out /\ short_answer addr (eq (msg_type m)) out.
Proof.
  intros Hm Hn Ht. destruct (draft_write Stun n m Hm) as (ok & data & E & Hl & _ & _ & rest & Hd). unfold Server_SendResponse. rewrite E.
  eexists. split; [done|]. right. exists data, (msg_type m), rest. split_and!; try done; lia.
Qed.

Lemma AddAttribute_type a m m' : AddAttribute a m = Ret m' -> msg_type m' = msg_type m.
Proof. unfold AddAttribute. destruct (negb _); [|by intros [= <-]]. unfold assert_that. case_bool_decide; [by intros [= <-]|done]. Qed.
Lemma SetTransactionID_type tid m ok m' : SetTransactionID tid m = Ret (ok, m') -> msg_type m' = msg_type m.
Proof. unfold SetTransactionID. destruct (negb _); [by intros [= _ <-]|]. destruct (ReduceTransactionId tid); [by intros [= _ <-]|done]. Qed.

Lemma SendErrorResponse_short msg addr : exists out,
  Server_SendErrorResponse u msg addr 600 "Operation Not Supported" = Ret out /\ short_answer addr (eq (wrap16 (GetStunErrorResponseType (msg_type msg)))) out.
Proof.
  unfold Server_SendErrorResponse. destruct (draft_new Stun u) as (m0 & -> & H0). cbn [mbind outcome_bind].
  assert (Ht : draft Stun 0 (Msg_SetType (GetStunErrorResponseType (msg_type msg)) m0)) by (destruct H0; by split).
  destruct (draft_SetTransactionID Stun 0 (transaction_id_ msg) _ Ht) as (ok & m1 & E1 & H1). rewrite E1. cbn [mbind outcome_bind].
  match goal with |- context [AddAttribute ?x m1] => destruct (draft_add Stun 0 x m1 H1) as (m2 & E2 & H2 & _); [done|] end.
  rewrite E2. cbn [mbind outcome_bind].
  assert (Ety : msg_type m2 = wrap16 (GetStunErrorResponseType (msg_type msg))) by (by rewrite (AddAttribute_type _ _ _ E2), (SetTransactionID_type _ _ _ _ E1)).
  rewrite <- Ety. eapply SendResponse_short; [exact H2|done|]. rewrite Ety. apply wrap16_range.
Qed.

Lemma ip_bytes_short ip : ip_ok ip -> zlen (ip_bytes ip) <= 16.
Proof.
  intros Hip. unfold ip_bytes, zlen. destruct (family_ ip); [cbn; lia| |].
  - rewrite length_ipv4 by done. lia.
  - unfold ipv6_address. destruct Hip. lia.
Qed.

Lemma OnBindingRequest_short msg addr : IsValidTransactionId (transaction_id_ msg) = true -> ip_ok (ip_ addr) ->
  exists out, OnBindingRequest u msg addr = Ret out /\ short_answer addr (eq (message_number kStunMessageBindingResponse)) out.
Proof.
  intros Hv Hip. unfold OnBindingRequest, GetStunBindResponse. destruct (draft_new Stun u) as (m0 & -> & H0). cbn [mbind outcome_bind].
  assert (Ht : draft Stun 0 (Msg_SetType (message_number kStunMessageBindingResponse) m0)) by (destruct H0; by split).
  destruct (draft_SetTransactionID Stun 0 (transaction_id_ msg) _ Ht) as (ok & m1 & E1 & H1). rewrite E1. cbn [mbind outcome_bind].
  assert (Hl : IsLegacy msg = Ret (zlen (transaction_id_ msg) =? kStunLegacyTransactionIdLength)).
  { unfold IsLegacy. destruct (valid_tid_length _ Hv) as [-> | ->]; done. }
  rewrite Hl. cbn [mbind outcome_bind]. pose proof (ip_bytes_short _ Hip) as Hlen. set (a := mapped_addr _ addr).
  assert (Hr : body_room a <= 20) by (subst a; unfold mapped_addr; destruct (_ =? _); cbn; lia).
  destruct (draft_add Stun 0 a m1 H1) as (m2 & E2 & H2 & _); [split; subst a; by destruct (_ =? _)|]. rewrite E2. cbn [mbind outcome_bind].
  assert (Ety : msg_type m2 = message_number kStunMessageBindingResponse) by (by rewrite (AddAttribute_type _ _ _ E2), (SetTransactionID_type _ _ _ _ E1)).
  rewrite <- Ety. eapply SendResponse_short; [exact H2|lia|]. by rewrite Ety.
Qed.

Lemma not_request t : GetStunErrorResponseType (wrap16 (GetStunErrorResponseType t)) = -1.
Proof.
  unfold GetStunErrorResponseType at 2. destruct (IsStunRequestType t); [|done].
  unfold GetStunErrorResponseType, IsStunRequestType, kStunTypeMask.
  assert (Hz : Z.land (wrap16 (Z.lor t 0x110)) 0x110 = 0x110); [|by rewrite Hz].
  unfold wrap16. rewrite <- Z.land_ones, <- Z.land_assoc by done. change (Z.land (Z.ones 16) 0x110) with 0x110.
  apply Z.bits_inj'. intros k Hk. rewrite Z.land_spec, Z.lor_spec. destruct (Z.testbit t k), (Z.testbit 0x110 k); done.
Qed.

Lemma OnPacket_short data addr : zlen data < 2 ^ 64 -> ip_ok (ip_ addr) -> exists out, OnPacket u data addr = Ret out /\
  short_answer addr (fun t => GetStunErrorResponseType t = -1) out /\
  forall t rest, data = be_bytes 2 t ++ rest -> 0 <= t < 2 ^ 16 ->
    (2 ^ 15 <= t -> out = []) /\ (GetStunErrorResponseType t = -1 -> short_answer addr (eq (2 ^ 16 - 1)) out).
Proof.
  intros Hd Hip. unfold OnPacket. destruct (draft_new Stun u) as (m0 & -> & _). cbn [mbind outcome_bind].
  destruct (Message_Read_total m0 (Reader data (zlen data)) data) as (o & m & r' & E & Ho); [by apply unread_whole|]. rewrite E. cbn [mbind outcome_bind].
  destruct o as [[]|]; [|eexists; split; [done|]; split; [by left|]; intros; split; [done|by left]].
  destruct (Ho eq_refl) as (Hp & _). pose proof (parsed_type _ Hp) as Hty.
  assert (Htype : forall t rest, data = be_bytes 2 t ++ rest -> 0 <= t < 2 ^ 16 -> msg_type m = t).
  { intros t rest -> Ht. eapply Message_Read_type; [exact Ht|by apply unread_whole|exact E]. }
  destruct (Z.eqb_spec (msg_type m) (message_number kStunMessageBindingRequest)) as [Eb|Eb].
  - destruct (OnBindingRequest_short m addr (parsed_tid _ Hp) Hip) as (out & E' & Hs). exists out. split; [done|].
    split; [by eapply short_answer_mono; [|exact Hs]; intros t <-|]. intros t rest Edata Ht. specialize (Htype t rest Edata Ht). split; [lia|]. rewrite <- Htype, Eb. done.
  - destruct (SendErrorResponse_short m addr) as (out & E' & Hs). exists out. split; [done|].
    split; [eapply short_answer_mono; [|exact Hs]; intros t <-; apply not_request|]. intros t rest Edata Ht. specialize (Htype t rest Edata Ht). split; [lia|].
    rewrite <- Htype. intros E1. by rewrite E1 in Hs.
Qed.
End Answers.

(** ** Claims *)

(** The answer to a binding request. *)
Definition bind_response (request : StunMessage) (addr : SocketAddress) : StunMessage :=
  let legacy := zlen (transaction_id_ request) =? kStunLegacyTransactionIdLength in
  mkMessage Stun (message_number kStunMessageBindingResponse) (4 + EnsureAddressLength addr) (transaction_id_ request)
    (reduced (transaction_id_ request)) kStunMagicCookie [SetOwner true (mapped_addr legacy addr)].

Lemma address_length addr : 0 <= EnsureAddressLength addr <= 20.
Proof. unfold EnsureAddressLength, SIZE_IP4, SIZE_IP6, SIZE_UNDEF. destruct (family_ (ip_ addr)); lia. Qed.

Lemma padded_length addr : padded (EnsureAddressLength addr) = EnsureAddressLength addr.
Proof. unfold EnsureAddressLength. by destruct (family_ (ip_ addr)). Qed.
Lemma mapped_length legacy addr : attr_length (mapped_addr legacy addr) = EnsureAddressLength addr.
Proof. pose proof (address_length addr). destruct legacy; apply wrap16_small; lia. Qed.

Lemma bind_response_ok m addr : msg_ok m -> address_ok addr -> msg_ok (bind_response m addr).
Proof.
  intros Hm Ha. pose proof (address_length addr) as Hl. pose proof (ok_tid _ Hm) as Hv.
  assert (Hsz : attrs_size [SetOwner true (mapped_addr (zlen (transaction_id_ m) =? kStunLegacyTransactionIdLength) addr)] = 4 + EnsureAddressLength addr).
  { rewrite attrs_size_one, SetOwner_length, mapped_length. by rewrite padded_length. }
  split; cbn [bind_response msg_type msg_length transaction_id_ stun_magic_cookie_ attrs_ msg_class]; try done.
  - lia.
  - apply (ok_legacy _ Hm).
  - constructor; [|constructor]. destruct (valid_tid_length _ Hv) as [E|E]; rewrite E.
    + change (kStunTransactionIdLength =? kStunLegacyTransactionIdLength) with false. split; [|done]. split; [done|rewrite SetOwner_length, mapped_length; lia|].
      split; [done|]. split; [exact (mapped_length false addr)|]. by split.
    + change (kStunLegacyTransactionIdLength =? kStunLegacyTransactionIdLength) with true. split; [|done]. split; [done|rewrite SetOwner_length, mapped_length; lia|].
      split; [done|exact (mapped_length true addr)].
Qed.

Lemma GetStunBindResponse_is u m addr m0 : IsValidTransactionId (transaction_id_ m) = true -> StunMessage_new Stun u = Ret m0 -> GetStunBindResponse m addr m0 = Ret (bind_response m addr).
Proof.
  intros Hv [= <-]. unfold GetStunBindResponse, SetTransactionID. rewrite Hv. cbn [negb].
  rewrite ReduceTransactionId_ok by done. cbn [mbind outcome_bind mret outcome_ret].
  assert (Hl : IsLegacy m = Ret (zlen (transaction_id_ m) =? kStunLegacyTransactionIdLength)).
  { unfold IsLegacy. destruct (valid_tid_length _ Hv) as [-> | ->]; done. }
  rewrite Hl. cbn [mbind outcome_bind]. unfold bind_response. pose proof (address_length addr) as Ha. set (legacy := zlen _ =? _).
  unfold AddAttribute. assert (Hexp : DesignatedExpertRange (attr_type (mapped_addr legacy addr)) = false) by (by destruct legacy). rewrite Hexp. cbn [negb].
  rewrite bool_decide_true by (by destruct legacy). cbn [assert_that mbind outcome_bind mret outcome_ret]. do 2 f_equal.
  unfold set_length, set_attrs. cbn. rewrite attr_space_padded, SetOwner_length, mapped_length, Z.add_0_l, padded_length. rewrite !wrap16_small by (try (cbn; lia); rewrite ?wrap16_small; lia). done.
Qed.

(** C31: a binding request is answered with the address it came from: whatever
    attributes a well-formed request has, the server sends one datagram, back to
    the sender, which any reader understands as a binding response with the
    transaction identifier of the request and the address of the sender, IPv4
    or IPv6, as XOR-MAPPED-ADDRESS, and as MAPPED-ADDRESS for a client whose
    identifier has the old form. *)
Theorem stun_server_answers `{Heap} (u : Z) (m : StunMessage) (addr : SocketAddress) :
  msg_ok m -> msg_class m = Stun -> msg_type m = message_number kStunMessageBindingRequest -> address_ok addr ->
  kStunHeaderSize + msg_length m <= UDP_BUF_SIZE ->
  exists d response a, Server_event u (Some (message_bytes m, addr)) = Ret [(d, addr)] /\
    (forall m0, msg_class m0 = Stun -> stun_magic_cookie_ m0 = kStunMagicCookie -> understood_as m0 d response) /\
    msg_type response = message_number kStunMessageBindingResponse /\ transaction_id_ response = transaction_id_ m /\
    GetAddress response kStunAttrMappedAddress = Some a /\ get_address a = plain addr.
Proof.
  intros Hm Hc Ht Ha Hl. pose proof (bind_response_ok m addr Hm Ha) as Hr. pose proof (zlen_message_bytes m Hm) as Hz.
  assert (Hsmall : zlen (message_bytes m) < 2 ^ 64) by (rewrite Hz; unfold UDP_BUF_SIZE in Hl; lia).
  exists (message_bytes (bind_response m addr)), (received_message (bind_response m addr)).
  exists (received (SetOwner true (mapped_addr (zlen (transaction_id_ m) =? kStunLegacyTransactionIdLength) addr))).
  split; [|split; [|split; [done|split; [done|split]]]].
  - unfold Server_event, Udp_OnReadEvent, OnPacket. rewrite ztake_all by lia.
    destruct (draft_new Stun u) as (m0 & E0 & Hd0). rewrite E0. cbn [mbind outcome_bind].
    destruct (Message_Read_reads m m0 (Reader (message_bytes m) (zlen (message_bytes m))) Hm) as (r' & -> & _);
      [by rewrite (draft_class _ _ _ Hd0)|by apply unread_whole|]. cbn [mbind outcome_bind msg_type].
    rewrite Ht, Z.eqb_refl. unfold OnBindingRequest. rewrite E0. cbn [mbind outcome_bind].
    rewrite (GetStunBindResponse_is u _ addr m0) by (done || apply (ok_tid _ Hm)). cbn [mbind outcome_bind]. unfold Server_SendResponse.
    change (bind_response _ addr) with (bind_response m addr). by rewrite write_new_ok.
  - intros m0 Hc0 Hk r Hu. destruct (Message_Read_reads (bind_response m addr) m0 r Hr Hc0 Hu) as (r' & E & Hr'). exists r'. split; [|done]. by rewrite E, Hk.
  - unfold received_message, bind_response, GetAddress, GetAttribute. cbn [attrs_ map]. by destruct (_ =? kStunLegacyTransactionIdLength).
  - by destruct (_ =? kStunLegacyTransactionIdLength).
Qed.

Definition sample_request : StunMessage :=
  mkMessage Stun (message_number kStunMessageBindingRequest) (attrs_size [StunByteStringAttribute kStunAttrSoftware (map byte.of_Z [109; 115; 102])])
    example_tid 0 kStunMagicCookie [StunByteStringAttribute kStunAttrSoftware (map byte.of_Z [109; 115; 102])].
Lemma sample_request_ok : msg_ok sample_request.
Proof.
  split; try (vm_compute; done); try (vm_compute; split; congruence).
  apply Forall_cons_2; [|constructor]. split; [split; [vm_compute; split; congruence..|]|done]. vm_compute. congruence.
Qed.
Lemma example_address_ok : address_ok example_address.
Proof. split; [by apply ip_ok_v6|done|cbn; lia]. Qed.

Lemma stun_server_answers_witness : exists d response a,
  @Server_event (filled_heap Byte.x00) 0 (Some (message_bytes sample_request, example_address)) = Ret [(d, example_address)] /\
  transaction_id_ response = example_tid /\ GetAddress response kStunAttrMappedAddress = Some a /\ get_address a = plain example_address.
Proof.
  destruct (@stun_server_answers (filled_heap Byte.x00) 0 sample_request example_address) as (d & response & a & E & _ & _ & Ht & Ha & Hg).
  - exact sample_request_ok.
  - reflexivity.
  - reflexivity.
  - exact example_address_ok.
  - vm_compute. discriminate.
  - exists d, response, a. split; [exact E|]. split; [exact Ht|]. split; [exact Ha|exact Hg].
Defined.

(** C32: the server is safe and quiet.  No datagram makes it crash, and it sends
    at most one datagram for one, of at most 55 bytes and to the sender.  Its
    answers cannot be used to keep servers busy with each other: an answer that
    is brought back to a server, under any address, is answered at most once
    more, and the answer to that answer is ignored. *)
Theorem stun_server_quiet `{Heap} (u : Z) (data : list byte) (addr : SocketAddress) : ip_ok (ip_ addr) ->
  exists out, Server_event u (Some (data, addr)) = Ret out /\
  (out = [] \/ exists d, out = [(d, addr)] /\ zlen d <= 55 /\ forall addr', ip_ok (ip_ addr') ->
     exists out', Server_event u (Some (d, addr')) = Ret out' /\
     (out' = [] \/ exists d', out' = [(d', addr')] /\ zlen d' <= 55 /\ forall addr'', ip_ok (ip_ addr'') -> Server_event u (Some (d', addr'')) = Ret [])).
Proof.
  intros Hip. unfold Server_event, Udp_OnReadEvent.
  assert (Hcut : zlen (ztake UDP_BUF_SIZE data) < 2 ^ 64) by (unfold ztake, zlen, UDP_BUF_SIZE; rewrite length_take; lia).
  destruct (OnPacket_short u _ addr Hcut Hip) as (out & -> & Hs & _). exists out. split; [done|].
  destruct Hs as [->|(d & t & rest & -> & Hd & Ed & Ht & Hreq)]; [by left|right]. exists d. do 2 (split; [done|]). intros addr' Hip'.
  rewrite (ztake_all UDP_BUF_SIZE d) by (unfold UDP_BUF_SIZE; lia).
  destruct (OnPacket_short u d addr') as (out' & -> & _ & Hs'); [lia|done|]. exists out'. split; [done|].
  destruct (Hs' t rest Ed Ht) as [_ Hs2]. destruct (Hs2 Hreq) as [->|(d' & t' & rest' & -> & Hd' & Ed' & Ht' & Hff)]; [by left|right]. exists d'. do 2 (split; [done|]). intros addr'' Hip''.
  rewrite (ztake_all UDP_BUF_SIZE d') by (unfold UDP_BUF_SIZE; lia).
  destruct (OnPacket_short u d' addr'') as (out'' & -> & _ & Hs3); [lia|done|]. destruct (Hs3 t' rest' Ed' Ht') as [Hn _]. by rewrite Hn by lia.
Qed.

Lemma stun_server_quiet_witness : exists out,
  @Server_event (filled_heap Byte.x00) 0 (Some (map byte.of_Z [0; 1; 0; 0; 33; 18; 164; 66; 1; 2; 3; 4; 5; 6; 7; 8; 9; 10; 11; 12], example_address)) = Ret out.
Proof.
  destruct (@stun_server_quiet (filled_heap Byte.x00) 0 (map byte.of_Z [0; 1; 0; 0; 33; 18; 164; 66; 1; 2; 3; 4; 5; 6; 7; 8; 9; 10; 11; 12]) example_address) as (out & E & _).
  - apply ip_ok_v6. reflexivity.
  - exists out. exact E.
Defined.
