(* ===== verification/StunRequest.v ===== *)
(** * network/stun/stun_request.{h,cc}: requests, retransmission, responses

    Requests are objects in memory: [objects] maps the addresses of the live
    ones to their members, and following the address of a deleted one is
    undefined behaviour.  The manager's [requests_] maps transaction
    identifiers to addresses.  [SignalSendPacket] and the virtual callbacks
    that this class leaves empty are recorded in the order in which they
    happen; [Prepare] of the derived class is a parameter.  A request's timer
    is a callback of the event loop: its address, run by
    [send_stun_message].

    Shown: a request without a response is sent nine times and then given up;
    a response is handed to its request; and the timer of a request that was
    answered runs on a deleted object. *)

From Stdlib Require Import ZArith Lia.
From stdpp Require Import gmap.
From S2P Require Import Prelude ByteOrder ConstBuffer ByteBuffer StunAttr StunCodec StunMessage StunRead StunProps Digest StunAuth HeapTimer.

#[export] Instance byte_countable : Countable byte.
Proof. refine (inj_countable' byte.unsigned byte.of_Z _). apply byte.of_Z_unsigned. Defined.

Definition STUN_INITIAL_RTO : Z := 250.
Definition STUN_MAX_RETRANSMISSIONS : Z := 8.
Definition STUN_MAX_RTO : Z := 8000.
Definition STUN_TOTAL_TIMEOUT : Z := 39750.
Definition kAllRequests : Z := 0.

(** ** State *)

Record StunRequest : Type := mkRequest {
  req_msg : StunMessage; count_ : Z; timeout_ : bool; manager_ : bool; req_origin : list byte; tstamp_ : Z
}.

Inductive event : Type :=
| SignalSendPacket (request : Z) (data : list byte)
| OnResponse (request : Z) (response : StunMessage)
| OnErrorResponse (request : Z) (response : StunMessage)
| OnTimeout (request : Z).

Record world : Type := mkWorld {
  objects : gmap Z StunRequest; requests_ : gmap (list byte) Z; origin_ : list byte; events : list event
}.

Definition set_object (p : Z) (r : StunRequest) (w : world) : world :=
  mkWorld (<[p := r]> (objects w)) (requests_ w) (origin_ w) (events w).
Definition happens (e : event) (w : world) : world :=
  mkWorld (objects w) (requests_ w) (origin_ w) (events w ++ [e]).

(** Following the pointer [p]. *)
Definition deref (p : Z) (w : world) : outcome StunRequest :=
  match objects w !! p with Some r => Ret r | None => Crash UndefinedBehaviour end.

Definition id (r : StunRequest) : list byte := transaction_id_ (req_msg r).
Definition type (r : StunRequest) : Z := msg_type (req_msg r).

Section Requests.
Context `{Heap} `{PriorityQueue Z} (Prepare : StunMessage -> StunMessage) (uninitialised : Z).

(** ** StunRequest *)

(** The constructors; the identifier is what [CreateRandomString] answers. *)
Definition StunRequest_new (msg : StunMessage) (random : list byte) : outcome StunRequest :=
  '(_, msg) ← SetTransactionID random msg;
  mret (mkRequest msg 0 false false [] 0).

Definition resend_delay (r : StunRequest) : outcome Z :=
  if count_ r =? 0 then mret 0 else
  let retransmissions := count_ r - 1 in
  if 31 <? retransmissions then Crash UndefinedBehaviour else
  let rto := to_int32 (Z.shiftl STUN_INITIAL_RTO retransmissions) in
  mret (Z.min rto STUN_MAX_RTO).

Definition OnSent (r : StunRequest) : StunRequest :=
  let count := count_ r + 1 in
  let retransmissions := count - 1 in
  mkRequest (req_msg r) count (if retransmissions >=? STUN_MAX_RETRANSMISSIONS then true else timeout_ r)
    (manager_ r) (req_origin r) (tstamp_ r).

Definition set_msg (m : StunMessage) (r : StunRequest) : StunRequest :=
  mkRequest m (count_ r) (timeout_ r) (manager_ r) (req_origin r) (tstamp_ r).

Definition Construct_request (r : StunRequest) : outcome StunRequest :=
  if type r =? 0 then
    msg ← (if bool_decide (req_origin r = []) then mret (req_msg r)
           else AddAttribute (StunByteStringAttribute kStunAttrOrigin (req_origin r)) (req_msg r));
    let msg := Prepare msg in
    assert_that (negb (msg_type msg =? 0));;
    mret (set_msg msg r)
  else mret r.

Definition Elapsed (now : Z) (r : StunRequest) : Z := to_int32 (now - tstamp_ r).

(** ** Removal *)

Definition Remove (p : Z) (w : world) : outcome world :=
  r ← deref p w;
  assert_that (manager_ r);;
  match requests_ w !! id r with
  | Some q =>
      assert_that (q =? p);;
      mret (mkWorld (objects w) (delete (id r) (requests_ w)) (origin_ w) (events w))
  | None => mret w
  end.

(** [delete request]: the destructor, then the memory is free. *)
Definition delete_request (p : Z) (w : world) : outcome world :=
  r ← deref p w;
  assert_that (manager_ r);;
  w ← Remove p w;
  mret (mkWorld (delete p (objects w)) (requests_ w) (origin_ w) (events w)).

(** ** Sending *)

(** The world and the timers that are added.  The interval is
    [resend_delay() / 1000.0] milliseconds. *)
Definition send_stun_message (p now : Z) (w : world) : outcome (world * list (TimerItem Z)) :=
  r ← deref p w;
  assert_that (manager_ r);;
  if timeout_ r then
    let w := happens (OnTimeout p) w in
    w ← delete_request p w;
    mret (w, [])
  else
    let r := mkRequest (req_msg r) (count_ r) (timeout_ r) (manager_ r) (req_origin r) (now / millisecond) in
    '(_, data) ← write_new (req_msg r);
    let w := happens (SignalSendPacket p data) w in
    let r := OnSent r in
    delay ← resend_delay r;
    mret (set_object p r w, [mkTimer (delay * millisecond / 1000) now TIMER_ONESHOT uninitialised (Some p)]).

(** With a delay the request is registered and nothing else happens. *)
Definition SendDelayed (p delay now : Z) (w : world) : outcome (world * list (TimerItem Z)) :=
  r ← deref p w;
  assert_that (negb (manager_ r));;
  let r := mkRequest (req_msg r) (count_ r) (timeout_ r) true (req_origin r) (tstamp_ r) in
  let w := set_object p r w in
  match requests_ w !! id r with
  | Some _ => mret (w, [])
  | None =>
      let r := mkRequest (req_msg r) (count_ r) (timeout_ r) true (origin_ w) (tstamp_ r) in
      r ← Construct_request r;
      let w := set_object p r w in
      let w := mkWorld (objects w) (<[id r := p]> (requests_ w)) (origin_ w) (events w) in
      if delay >? 0 then mret (w, []) else send_stun_message p now w
  end.
Definition Send (p now : Z) (w : world) : outcome (world * list (TimerItem Z)) := SendDelayed p 0 now w.

(** The calls that [Flush] would make are commented out. *)
Definition Flush (msg_type : Z) (w : world) : world := w.

Definition HasRequest (msg_type : Z) (w : world) : outcome bool :=
  types ← mapM (fun p => r ← deref p w; mret (type r)) (map snd (map_to_list (requests_ w)));
  mret (existsb (fun t => (msg_type =? kAllRequests) || (msg_type =? t)) types).

Fixpoint delete_all (ps : list Z) (w : world) : outcome world :=
  match ps with
  | [] => mret w
  | p :: ps => w ← delete_request p w; delete_all ps w
  end.
Definition Clear_requests (w : world) : outcome world := delete_all (map snd (map_to_list (requests_ w))) w.

(** [~StunRequestManager]: each entry is erased before its request is deleted. *)
Fixpoint erase_all (entries : list (list byte * Z)) (w : world) : outcome world :=
  match entries with
  | [] => mret w
  | (id, p) :: entries =>
      let w := mkWorld (objects w) (delete id (requests_ w)) (origin_ w) (events w) in
      w ← delete_request p w; erase_all entries w
  end.
Definition delete_manager (w : world) : outcome world := erase_all (map_to_list (requests_ w)) w.

(** ** Responses *)

Definition CheckResponse (msg : StunMessage) (w : world) : outcome (bool * world) :=
  match requests_ w !! transaction_id_ msg with
  | None => mret (false, w)
  | Some p =>
      r ← deref p w;
      if negb (bool_decide (GetNonComprehendedAttributes msg = [])) then
        w ← delete_request p w; mret (false, w)
      else if msg_type msg =? GetStunSuccessResponseType (type r) then
        w ← delete_request p (happens (OnResponse p msg) w); mret (true, w)
      else if msg_type msg =? GetStunErrorResponseType (type r) then
        w ← delete_request p (happens (OnErrorResponse p msg) w); mret (true, w)
      else mret (false, w)
  end.

Definition CheckResponse_bytes (data : list byte) (size : Z) (w : world) : outcome (bool * world) :=
  if size <? 20 then mret (false, w) else
  id ← mem_read data kStunTransactionIdOffset kStunTransactionIdLength;
  match requests_ w !! id with
  | None => mret (false, w)
  | Some p =>
      r ← deref p w;
      response ← StunMessage_new (msg_class (req_msg r)) uninitialised;
      '(ok, response, _) ← Message_Read response (Reader data size);
      match ok with
      | None => mret (false, w)
      | Some _ => CheckResponse response w
      end
  end.

(** ** The event loop with the requests *)

(** A pass of the timers at the time [now]. *)
Definition pass (fuel : nat) (now : Z) (q : list (TimerItem Z)) (w : world) : outcome (list (TimerItem Z) * world) :=
  '(q, w, _, _) ← TimerInLoop send_stun_message fuel loop_max_timer (fun _ => now) 0 q w [];
  mret (q, w).
Fixpoint passes (times : list Z) (q : list (TimerItem Z)) (w : world) : outcome (list (TimerItem Z) * world) :=
  match times with
  | [] => mret (q, w)
  | t :: times => '(q, w) ← pass 2 t q w; passes times q w
  end.

Lemma delete_request_ok p r w : objects w !! p = Some r -> manager_ r = true -> requests_ w !! id r = Some p ->
  delete_request p w = Ret (mkWorld (delete p (objects w)) (delete (id r) (requests_ w)) (origin_ w) (events w)).
Proof.
  intros Ho Hman Hreq. unfold delete_request, Remove, deref. rewrite Ho. cbn [mbind outcome_bind].
  rewrite Hman. cbn [assert_that mbind outcome_bind]. rewrite Hreq, Z.eqb_refl. done.
Qed.

(** ** A request without a response *)
Section Retransmission.
Context (p : Z) (m : StunMessage) (w0 : world).
Context (Hm : msg_ok m) (Hfresh : requests_ w0 !! transaction_id_ m = None).

(** Milliseconds between send number [k] and the next, as it is meant. *)
Definition rto (k : Z) : Z := Z.min (STUN_INITIAL_RTO * 2 ^ (k - 1)) STUN_MAX_RTO.

Definition sent_request (k t : Z) : StunRequest :=
  mkRequest m k (k >=? 9) true (origin_ w0) (t / millisecond).
Definition sent_world (k : nat) (t : Z) : world :=
  mkWorld (<[p := sent_request (Z.of_nat k) t]> (objects w0)) (<[transaction_id_ m := p]> (requests_ w0)) (origin_ w0)
    (events w0 ++ replicate k (SignalSendPacket p (message_bytes m))).
Definition resend_timer (k : nat) (t : Z) : TimerItem Z :=
  mkTimer (rto (Z.of_nat k) * 1000) t TIMER_ONESHOT uninitialised (Some p).

Lemma resend_delay_ok r : 1 <= count_ r <= 9 -> resend_delay r = Ret (rto (count_ r)).
Proof.
  intros Hr. unfold resend_delay, rto.
  destruct (Z.eqb_spec (count_ r) 0) as [?|_]; [lia|]. destruct (Z.ltb_spec 31 (count_ r - 1)) as [?|_]; [lia|].
  rewrite Z.shiftl_mul_pow2 by lia. f_equal. f_equal. unfold STUN_INITIAL_RTO.
  assert (2 ^ (count_ r - 1) <= 2 ^ 8) by (apply Z.pow_le_mono_r; lia).
  assert (0 < 2 ^ (count_ r - 1)) by (apply Z.pow_pos_nonneg; lia).
  unfold to_int32. rewrite wrap32_small by lia. match goal with |- context [?a <? ?b] => destruct (Z.ltb_spec a b) end; [done|lia].
Qed.

Lemma pop_single (x : TimerItem Z) : pop [x] = Some (x, []).
Proof.
  destruct (pop [x]) as [[y r]|] eqn:E; [|by apply pop_none in E].
  apply pop_some in E as [Hp _]. apply Permutation_length in Hp as Hl. destruct r; [|cbn in Hl; lia].
  apply Permutation_singleton_inj in Hp. by subst.
Qed.

(** What one transmission does to a world in which the request is live. *)
Lemma send_again (k : nat) t w : (k < 9)%nat ->
  (exists t0 o, objects w = <[p := mkRequest m (Z.of_nat k) false true o t0]> (objects w0) /\ o = origin_ w0) ->
  requests_ w = <[transaction_id_ m := p]> (requests_ w0) -> origin_ w = origin_ w0 ->
  events w = events w0 ++ replicate k (SignalSendPacket p (message_bytes m)) ->
  send_stun_message p t w = Ret (sent_world (S k) t, [resend_timer (S k) t]).
Proof.
  intros Hk (t0 & o & Ho & ->) Hr Hor He. unfold send_stun_message, deref. rewrite Ho, lookup_insert_eq.
  cbn [mbind outcome_bind manager_ assert_that timeout_ req_msg count_ req_origin tstamp_].
  rewrite write_new_ok by done. cbn [mbind outcome_bind]. unfold OnSent.
  cbn [mbind outcome_bind manager_ assert_that timeout_ req_msg count_ req_origin tstamp_].
  rewrite resend_delay_ok by (cbn [count_]; lia). cbn [mbind outcome_bind mret outcome_ret count_].
  replace (Z.of_nat k + 1) with (Z.of_nat (S k)) by lia. f_equal. f_equal.
  - unfold sent_world, set_object, happens, sent_request. cbn [objects requests_ origin_ events].
    rewrite Ho, Hr, Hor, He, insert_insert_eq, <- app_assoc. f_equal.
    + f_equal. f_equal. unfold STUN_MAX_RETRANSMISSIONS. rewrite !Z.geb_leb.
      destruct (Z.leb_spec 8 (Z.of_nat (S k) - 1)), (Z.leb_spec 9 (Z.of_nat (S k))); (done || lia).
    + rewrite replicate_S_end. done.
  - unfold resend_timer, millisecond. f_equal. f_equal. symmetry. apply Z.div_unique_exact; lia.
Qed.

Lemma pass_again (k : nat) t t' : (0 < k < 9)%nat -> rto (Z.of_nat k) * 1000 < t' - t ->
  pass 2 t' [resend_timer k t] (sent_world k t) = Ret ([resend_timer (S k) t'], sent_world (S k) t').
Proof.
  intros Hk Hgap. unfold pass. cbn [TimerInLoop]. rewrite pop_single.
  assert (Ex : IsExpired (resend_timer k t) t' = true) by by apply IsExpired_spec.
  rewrite Ex. cbn [negb cb_ resend_timer mbind outcome_bind].
  rewrite (send_again k t' (sent_world k t)); [|lia| |done..].
  - cbn [mbind outcome_bind fold_left again strategy_ resend_timer AddTimer].
    change (AddTimer loop_max_timer (resend_timer (S k) t') []) with [resend_timer (S k) t'].
    rewrite pop_single.
    assert (Ex' : IsExpired (resend_timer (S k) t') t' = false).
    { apply not_true_iff_false. rewrite IsExpired_spec. cbn [interval_ expired_ resend_timer].
      assert (0 < rto (Z.of_nat (S k))); [|lia]. unfold rto, STUN_INITIAL_RTO, STUN_MAX_RTO.
      assert (0 < 2 ^ (Z.of_nat (S k) - 1)) by (apply Z.pow_pos_nonneg; lia). lia. }
    rewrite Ex'. done.
  - eexists _, _. split; [|done]. unfold sent_world, sent_request. cbn [objects].
    rewrite Z.geb_leb. destruct (Z.leb_spec 9 (Z.of_nat k)); [lia|done].
Qed.

Lemma send_gives_up t t' : send_stun_message p t' (sent_world 9 t) =
  Ret (mkWorld (delete p (objects w0)) (requests_ w0) (origin_ w0)
         (events w0 ++ replicate 9 (SignalSendPacket p (message_bytes m)) ++ [OnTimeout p]), []).
Proof.
  assert (Ho : objects (sent_world 9 t) !! p = Some (sent_request 9 t)) by apply lookup_insert_eq.
  unfold send_stun_message, deref. rewrite Ho. cbn [mbind outcome_bind manager_ timeout_ assert_that sent_request].
  change (Z.of_nat 9 >=? 9) with true. cbv iota.
  rewrite (delete_request_ok p (sent_request 9 t)).
  - unfold sent_world, happens, id. cbn [objects requests_ origin_ events req_msg sent_request mbind outcome_bind].
    rewrite !delete_insert_eq, (delete_id (requests_ w0)), <- app_assoc by done. done.
  - apply lookup_insert_eq.
  - done.
  - apply lookup_insert_eq.
Qed.

(** Without a response the tenth run of the timer gives the request up. *)
Lemma pass_last t t' : rto 9 * 1000 < t' - t ->
  pass 2 t' [resend_timer 9 t] (sent_world 9 t) =
    Ret ([], mkWorld (delete p (objects w0)) (requests_ w0) (origin_ w0)
               (events w0 ++ replicate 9 (SignalSendPacket p (message_bytes m)) ++ [OnTimeout p])).
Proof.
  intros Hgap. unfold pass. cbn [TimerInLoop]. rewrite pop_single.
  assert (Ex : IsExpired (resend_timer 9 t) t' = true) by by apply IsExpired_spec.
  rewrite Ex. cbn [negb cb_ resend_timer mbind outcome_bind].
  rewrite send_gives_up. cbn [mbind outcome_bind fold_left again strategy_ resend_timer].
  assert (En : @pop Z _ [] = None).
  { destruct (pop []) as [[y r]|] eqn:E; [|done]. apply pop_some in E as [Hp _].
    apply Permutation_length in Hp. cbn in Hp. lia. }
  rewrite En. done.
Qed.

(** The passes of the event loop run late enough for the timers. *)
Fixpoint spaced (k : nat) (t : Z) (times : list Z) : Prop :=
  match times with
  | [] => True
  | t' :: times => rto (Z.of_nat k) * 1000 < t' - t /\ spaced (S k) t' times
  end.

Lemma passes_give_up times k t : (0 < k)%nat -> (k + length times = 10)%nat -> spaced k t times ->
  times <> [] ->
  passes times [resend_timer k t] (sent_world k t) =
    Ret ([], mkWorld (delete p (objects w0)) (requests_ w0) (origin_ w0)
               (events w0 ++ replicate 9 (SignalSendPacket p (message_bytes m)) ++ [OnTimeout p])).
Proof.
  revert k t. induction times as [|t' times IH]; intros k t Hk Hl Hsp Hne; [done|].
  destruct Hsp as [Hgap Hs]. cbn [passes length] in *.
  destruct times as [|t'' times].
  - cbn [length] in Hl. replace k with 9%nat in * by lia. by rewrite pass_last.
  - cbn [length] in Hl. rewrite pass_again by (done || lia). cbn [mbind outcome_bind].
    apply IH; (done || (cbn [length]; lia)).
Qed.

Lemma Send_first t (r : StunRequest) : objects w0 !! p = Some r -> manager_ r = false -> count_ r = 0 ->
  timeout_ r = false -> req_msg r = m -> msg_type m <> 0 ->
  Send p t w0 = Ret (sent_world 1 t, [resend_timer 1 t]).
Proof.
  intros Ho Hman Hc Ht Hmsg Hty. unfold Send, SendDelayed, deref. rewrite Ho. cbn [mbind outcome_bind].
  rewrite Hman. cbn [negb assert_that mbind outcome_bind set_object requests_ origin_]. unfold id. cbn [req_msg].
  rewrite Hmsg, Hfresh. unfold Construct_request, type. cbn [req_msg].
  destruct (Z.eqb_spec (msg_type m) 0) as [?|_]; [done|].
  cbn [mbind outcome_bind mret outcome_ret objects requests_ origin_ events set_object req_msg].
  rewrite Hc, Ht. apply (send_again 0); [lia| |done|done|by rewrite app_nil_r].
  eexists _, _. cbn [objects]. by rewrite insert_insert_eq.
Qed.
End Retransmission.

(** ** A response *)

Lemma CheckResponse_success p r (w : world) (response : StunMessage) :
  objects w !! p = Some r -> manager_ r = true -> requests_ w !! id r = Some p ->
  transaction_id_ response = id r -> GetNonComprehendedAttributes response = [] ->
  msg_type response = GetStunSuccessResponseType (type r) ->
  CheckResponse response w = Ret (true, mkWorld (delete p (objects w)) (delete (id r) (requests_ w)) (origin_ w)
                                          (events w ++ [OnResponse p response])).
Proof.
  intros Ho Hman Hreq Hid Hnc Hty. unfold CheckResponse, deref. rewrite Hid, Hreq, Ho. cbn [mbind outcome_bind].
  rewrite Hnc, bool_decide_true by done. cbn [negb]. rewrite Hty, Z.eqb_refl.
  by rewrite (delete_request_ok p r) by done.
Qed.

Lemma pass_dangling p x t w : cb_ x = Some p -> IsExpired x t = true -> objects w !! p = None ->
  pass 2 t [x] w = Crash UndefinedBehaviour.
Proof.
  intros Hc Ex Ho. unfold pass. cbn [TimerInLoop]. rewrite pop_single, Ex, Hc. cbn [negb mbind outcome_bind].
  unfold send_stun_message, deref. by rewrite Ho.
Qed.
End Requests.

(** ** Claims *)

(** C11: a request that gets no response is sent nine times and then given up.
    [Send] of a new request with a well-formed message of type other than
    zero and a fresh identifier sends it at once; if the event loop then runs
    its timers nine times, each time after the delay that belongs to the
    number of sends, every run but the last sends the same bytes again and
    the last calls [OnTimeout], after which the request is neither in memory
    nor registered and no timer is left.  The nine delays are 250, 500, 1000,
    2000, 4000 and four times 8000, [STUN_TOTAL_TIMEOUT] together, but the
    loop waits microseconds where milliseconds are meant: the times
    [t0 + 1000 * sum] in nanoseconds are late enough. *)
Theorem request_gives_up `{Heap} `{PriorityQueue Z} (Prepare : StunMessage -> StunMessage) (uninitialised p t0 : Z)
    (m : StunMessage) (w : world) (times : list Z) :
  msg_ok m -> msg_type m <> 0 -> requests_ w !! transaction_id_ m = None ->
  objects w !! p = Some (mkRequest m 0 false false [] 0) ->
  length times = 9%nat -> spaced 1 t0 times ->
  (exists w1 q, Send Prepare uninitialised p t0 w = Ret (w1, q) /\
     events w1 = events w ++ [SignalSendPacket p (message_bytes m)] /\
     passes uninitialised times q w1 =
       Ret ([], mkWorld (delete p (objects w)) (requests_ w) (origin_ w)
                  (events w ++ replicate 9 (SignalSendPacket p (message_bytes m)) ++ [OnTimeout p]))) /\
  foldr Z.add 0 (map (fun k => rto (Z.of_nat k)) (seq 1 9)) = STUN_TOTAL_TIMEOUT /\
  (forall t, spaced 1 t (map (fun n => t + 1000 * foldr Z.add 0 (map (fun k => rto (Z.of_nat k)) (seq 1 n)) + Z.of_nat n) (seq 1 9))).
Proof.
  intros Hm Hty Hfr Ho Hl Hs. split; [|split; [done|]].
  - exists (sent_world p m w 1 t0), [resend_timer uninitialised p 1 t0].
    split; [by apply (Send_first Prepare uninitialised p m w Hm Hfr t0 _ Ho)|]. split; [done|].
    apply passes_give_up; (done || lia || by destruct times).
  - intros t. cbn [seq map spaced foldr]. cbv [rto STUN_INITIAL_RTO STUN_MAX_RTO]. cbn. lia.
Qed.

Definition example_request : StunMessage := mkMessage Ice 0x0001 0 example_tid 0 kStunMagicCookie [].
Lemma example_request_ok : msg_ok example_request.
Proof. split; try (vm_compute; done); try (vm_compute; split; congruence). Qed.
Definition example_world : world := mkWorld {[1 := mkRequest example_request 0 false false [] 0]} ∅ [] [].
Definition late_times : list Z := map (fun k => 1000000000 * Z.of_nat k) (seq 1 9).

Lemma request_gives_up_witness :
  (exists w1 q, Send (H := example_heap) (fun m => m) 0 1 0 example_world = Ret (w1, q) /\
     events w1 = [] ++ [SignalSendPacket 1 (message_bytes example_request)] /\
     passes (H := example_heap) 0 late_times q w1 =
       Ret ([], mkWorld (delete 1 (objects example_world)) ∅ []
                  ([] ++ replicate 9 (SignalSendPacket 1 (message_bytes example_request)) ++ [OnTimeout 1]))) /\
  foldr Z.add 0 (map (fun k => rto (Z.of_nat k)) (seq 1 9)) = STUN_TOTAL_TIMEOUT /\
  (forall t, spaced 1 t (map (fun n => t + 1000 * foldr Z.add 0 (map (fun k => rto (Z.of_nat k)) (seq 1 n)) + Z.of_nat n) (seq 1 9))).
Proof.
  apply (request_gives_up (H := example_heap) (fun m => m) 0 1 0 example_request example_world late_times).
  - apply example_request_ok.
  - vm_compute. congruence.
  - reflexivity.
  - reflexivity.
  - reflexivity.
  - vm_compute. repeat split.
Defined.

(** C24: the timer of a request that was answered runs on a deleted object.  A
    success response to a request that was sent once is accepted: it is
    handed to [OnResponse], and the request is deleted and forgotten.  Nothing
    cancels its timer, and the first pass of the event loop after the delay
    calls [send_stun_message] through the dead pointer. *)
Theorem late_timer_use_after_free `{Heap} `{PriorityQueue Z} (Prepare : StunMessage -> StunMessage)
    (uninitialised p t0 t1 : Z) (m response : StunMessage) (w : world) :
  msg_ok m -> msg_type m <> 0 -> requests_ w !! transaction_id_ m = None ->
  objects w !! p = Some (mkRequest m 0 false false [] 0) ->
  transaction_id_ response = transaction_id_ m -> msg_type response = GetStunSuccessResponseType (msg_type m) ->
  GetNonComprehendedAttributes response = [] -> 1000 * STUN_INITIAL_RTO < t1 - t0 ->
  exists w1 q w2, Send Prepare uninitialised p t0 w = Ret (w1, q) /\
    CheckResponse response w1 = Ret (true, w2) /\
    events w2 = events w1 ++ [OnResponse p response] /\ requests_ w2 = requests_ w /\ objects w2 = delete p (objects w) /\
    pass uninitialised 2 t1 q w2 = Crash UndefinedBehaviour.
Proof.
  intros Hm Hty Hfr Ho Hid Hr Hnc Ht.
  exists (sent_world p m w 1 t0), [resend_timer uninitialised p 1 t0].
  eexists. split; [by apply (Send_first Prepare uninitialised p m w Hm Hfr t0 _ Ho)|].
  split; [apply (CheckResponse_success p (sent_request m w 1 t0)); try done; apply lookup_insert_eq|].
  unfold sent_world, id. cbn [objects requests_ origin_ events req_msg sent_request].
  rewrite !delete_insert_eq, (delete_id (requests_ w)) by done. split_and!; try done.
  apply (pass_dangling uninitialised p); [done| |apply lookup_delete_eq].
  apply IsExpired_spec. cbn [interval_ expired_ resend_timer]. change (rto (Z.of_nat 1)) with STUN_INITIAL_RTO. lia.
Qed.

Definition example_response : StunMessage := mkMessage Ice 0x0101 0 example_tid 0 kStunMagicCookie [].

Lemma late_timer_use_after_free_witness :
  exists w1 q w2, Send (H := example_heap) (fun m => m) 0 1 0 example_world = Ret (w1, q) /\
    CheckResponse example_response w1 = Ret (true, w2) /\
    events w2 = events w1 ++ [OnResponse 1 example_response] /\
    requests_ w2 = requests_ example_world /\ objects w2 = delete 1 (objects example_world) /\
    pass (H := example_heap) 0 2 250001 q w2 = Crash UndefinedBehaviour.
Proof.
  apply (late_timer_use_after_free (H := example_heap) (fun m => m) 0 1 0 250001 example_request example_response example_world).
  - apply example_request_ok.
  - vm_compute. congruence.
  - reflexivity.
  - reflexivity.
  - reflexivity.
  - reflexivity.
  - reflexivity.
  - vm_compute. reflexivity.
Defined.
