(* ===== verification/IceCandidate.v ===== *)
(** * network/stun/candidate.{h,cc}, p2p_constants.cc: candidates of ICE

    A candidate is an address at which an agent may be reached, with its
    credentials and priority.  Strings are lists of bytes.  [Network] holds
    what the code asks a network for; which of its addresses is the best one is
    decided in network.cc and given here as [net_ip]. *)

From Stdlib Require Import ZArith Lia String.
From S2P Require Import Prelude IpAddress SocketAddress.
Local Open Scope Z_scope.
Local Open Scope list_scope.

Definition text (s : string) : list byte := list_byte_of_string s.

(** ** Constants *)

Definition LOCAL_PORT_TYPE : list byte := text "local".
Definition STUN_PORT_TYPE : list byte := text "stun".
Definition PRFLX_PORT_TYPE : list byte := text "prflx".
Definition RELAY_PORT_TYPE : list byte := text "relay".
Definition UDP_PROTOCOL_NAME : list byte := text "udp".
Definition TCP_PROTOCOL_NAME : list byte := text "tcp".

Definition ICE_TYPE_PREFERENCE_PRFLX_TCP : Z := 80.
Definition ICE_TYPE_PREFERENCE_PRFLX : Z := 110.
Definition ICE_TYPE_PREFERENCE_HOST : Z := 126.

Definition ICE_CANDIDATE_COMPONENT_DEFAULT : Z := 1.
Definition MIN_CHECK_RECEIVING_INTERVAL : Z := 50.
Definition RECEIVING_TIMEOUT : Z := MIN_CHECK_RECEIVING_INTERVAL * 50.
Definition RECEIVING_SWITCHING_DELAY : Z := 1000.
Definition BACKUP_CONNECTION_PING_INTERVAL : Z := 25 * 1000.
Definition STUN_PING_PACKET_SIZE : Z := 60 * 8.
Definition STRONG_PING_INTERVAL : Z := 1000 * STUN_PING_PACKET_SIZE / 1000.
Definition WEAK_PING_INTERVAL : Z := 1000 * STUN_PING_PACKET_SIZE / 10000.
Definition WEAK_OR_STABILIZING_WRITABLE_CONNECTION_PING_INTERVAL : Z := 900.
Definition STRONG_AND_STABLE_WRITABLE_CONNECTION_PING_INTERVAL : Z := 2500.
Definition CONNECTION_WRITE_CONNECT_TIMEOUT : Z := 5 * 1000.
Definition CONNECTION_WRITE_CONNECT_FAILURES : Z := 5.
Definition MIN_CONNECTION_LIFETIME : Z := 10 * 1000.
Definition DEAD_CONNECTION_RECEIVE_TIMEOUT : Z := 30 * 1000.
Definition WEAK_CONNECTION_RECEIVE_TIMEOUT : Z := 2500.
Definition CONNECTION_WRITE_TIMEOUT : Z := 15 * 1000.
Definition CONNECTION_RESPONSE_TIMEOUT : Z := 60 * 1000.

(** ** Networks *)

Inductive AdapterType : Type :=
| ADAPTER_TYPE_UNKNOWN | ADAPTER_TYPE_ETHERNET | ADAPTER_TYPE_WIFI | ADAPTER_TYPE_CELLULAR | ADAPTER_TYPE_VPN
| ADAPTER_TYPE_LOOPBACK | ADAPTER_TYPE_ANY | ADAPTER_TYPE_CELLULAR_2G | ADAPTER_TYPE_CELLULAR_3G
| ADAPTER_TYPE_CELLULAR_4G | ADAPTER_TYPE_CELLULAR_5G.
#[export] Instance AdapterType_eq_dec : EqDecision AdapterType.
Proof. solve_decision. Defined.

Definition kNetworkCostMax : Z := 999.
Definition kNetworkCostCellular2G : Z := 980.
Definition kNetworkCostCellular3G : Z := 910.
Definition kNetworkCostCellular : Z := 900.
Definition kNetworkCostCellular4G : Z := 500.
Definition kNetworkCostCellular5G : Z := 250.
Definition kNetworkCostUnknown : Z := 50.
Definition kNetworkCostLow : Z := 10.
Definition kNetworkCostMin : Z := 0.

Definition ComputeNetworkCostByType (type : AdapterType) (use_differentiated_cellular_costs : bool) : Z :=
  let cellular c := if use_differentiated_cellular_costs then c else kNetworkCostCellular in
  match type with
  | ADAPTER_TYPE_ETHERNET | ADAPTER_TYPE_LOOPBACK => kNetworkCostMin
  | ADAPTER_TYPE_WIFI => kNetworkCostLow
  | ADAPTER_TYPE_CELLULAR => kNetworkCostCellular
  | ADAPTER_TYPE_CELLULAR_2G => cellular kNetworkCostCellular2G
  | ADAPTER_TYPE_CELLULAR_3G => cellular kNetworkCostCellular3G
  | ADAPTER_TYPE_CELLULAR_4G => cellular kNetworkCostCellular4G
  | ADAPTER_TYPE_CELLULAR_5G => cellular kNetworkCostCellular5G
  | ADAPTER_TYPE_ANY => kNetworkCostMax
  | ADAPTER_TYPE_VPN | ADAPTER_TYPE_UNKNOWN => kNetworkCostUnknown
  end.

Record Network : Type := mkNetwork {
  net_ptr : Z; net_id : Z; net_name : list byte; net_type : AdapterType; underlying_type_for_vpn : AdapterType;
  use_differentiated_cellular_costs : bool; net_preference : Z; net_ip : IPAddress
}.
Definition IsVpn (n : Network) : bool := bool_decide (net_type n = ADAPTER_TYPE_VPN).
Definition GetCost (n : Network) : Z :=
  ComputeNetworkCostByType (if IsVpn n then underlying_type_for_vpn n else net_type n) (use_differentiated_cellular_costs n).

(** ** Candidates *)

Record Candidate : Type := mkCandidate {
  cand_id : list byte; cand_component : Z; cand_protocol : list byte; cand_relay_protocol : list byte;
  cand_address : SocketAddress; cand_priority : Z; cand_username : list byte; cand_password : list byte;
  cand_type : list byte; cand_network_name : list byte; cand_network_type : AdapterType; cand_generation : Z;
  cand_foundation : list byte; cand_related_address : SocketAddress; cand_tcptype : list byte;
  cand_transport_name : list byte; cand_network_id : Z; cand_network_cost : Z; cand_url : list byte
}.

(** The constructors; the identifier is random. *)
Definition Candidate_empty (random : list byte) : Candidate :=
  mkCandidate random 0 [] [] SocketAddress_nil 0 [] [] [] [] ADAPTER_TYPE_UNKNOWN 0 [] SocketAddress_nil [] [] 0 0 [].
Definition Candidate_new (random : list byte) (component : Z) (protocol : list byte) (address : SocketAddress) (priority : Z)
    (username password type : list byte) (generation : Z) (foundation : list byte) (network_id network_cost : Z) : Candidate :=
  mkCandidate random component protocol [] address priority username password type [] ADAPTER_TYPE_UNKNOWN generation
    foundation SocketAddress_nil [] [] network_id network_cost [].

Definition set_address (a : SocketAddress) (c : Candidate) : Candidate :=
  mkCandidate (cand_id c) (cand_component c) (cand_protocol c) (cand_relay_protocol c) a (cand_priority c) (cand_username c)
    (cand_password c) (cand_type c) (cand_network_name c) (cand_network_type c) (cand_generation c) (cand_foundation c)
    (cand_related_address c) (cand_tcptype c) (cand_transport_name c) (cand_network_id c) (cand_network_cost c) (cand_url c).
Definition set_related_address (a : SocketAddress) (c : Candidate) : Candidate :=
  mkCandidate (cand_id c) (cand_component c) (cand_protocol c) (cand_relay_protocol c) (cand_address c) (cand_priority c)
    (cand_username c) (cand_password c) (cand_type c) (cand_network_name c) (cand_network_type c) (cand_generation c)
    (cand_foundation c) a (cand_tcptype c) (cand_transport_name c) (cand_network_id c) (cand_network_cost c) (cand_url c).
Definition set_priority (p : Z) (c : Candidate) : Candidate :=
  mkCandidate (cand_id c) (cand_component c) (cand_protocol c) (cand_relay_protocol c) (cand_address c) p (cand_username c)
    (cand_password c) (cand_type c) (cand_network_name c) (cand_network_type c) (cand_generation c) (cand_foundation c)
    (cand_related_address c) (cand_tcptype c) (cand_transport_name c) (cand_network_id c) (cand_network_cost c) (cand_url c).
(** The remaining setters of [AddAddress], at once. *)
Definition set_origin (relay_protocol tcptype network_name : list byte) (network_type : AdapterType) (url : list byte)
    (related : SocketAddress) (c : Candidate) : Candidate :=
  mkCandidate (cand_id c) (cand_component c) (cand_protocol c) relay_protocol (cand_address c) (cand_priority c)
    (cand_username c) (cand_password c) (cand_type c) network_name network_type (cand_generation c)
    (cand_foundation c) related tcptype (cand_transport_name c) (cand_network_id c) (cand_network_cost c) url.
Definition set_credentials (component : Z) (username password : list byte) (c : Candidate) : Candidate :=
  mkCandidate (cand_id c) component (cand_protocol c) (cand_relay_protocol c) (cand_address c) (cand_priority c) username
    password (cand_type c) (cand_network_name c) (cand_network_type c) (cand_generation c) (cand_foundation c)
    (cand_related_address c) (cand_tcptype c) (cand_transport_name c) (cand_network_id c) (cand_network_cost c) (cand_url c).
Definition set_generation (g : Z) (c : Candidate) : Candidate :=
  mkCandidate (cand_id c) (cand_component c) (cand_protocol c) (cand_relay_protocol c) (cand_address c) (cand_priority c)
    (cand_username c) (cand_password c) (cand_type c) (cand_network_name c) (cand_network_type c) g
    (cand_foundation c) (cand_related_address c) (cand_tcptype c) (cand_transport_name c) (cand_network_id c)
    (cand_network_cost c) (cand_url c).
(** [set_id], [set_type] and [set_foundation]. *)
Definition set_prflx (id type foundation : list byte) (c : Candidate) : Candidate :=
  mkCandidate id (cand_component c) (cand_protocol c) (cand_relay_protocol c) (cand_address c) (cand_priority c)
    (cand_username c) (cand_password c) type (cand_network_name c) (cand_network_type c) (cand_generation c)
    foundation (cand_related_address c) (cand_tcptype c) (cand_transport_name c) (cand_network_id c)
    (cand_network_cost c) (cand_url c).
Definition set_network_cost (network_cost : Z) (c : Candidate) : outcome Candidate :=
  assert_that (network_cost <=? kNetworkCostMax);;
  mret (mkCandidate (cand_id c) (cand_component c) (cand_protocol c) (cand_relay_protocol c) (cand_address c) (cand_priority c)
    (cand_username c) (cand_password c) (cand_type c) (cand_network_name c) (cand_network_type c) (cand_generation c)
    (cand_foundation c) (cand_related_address c) (cand_tcptype c) (cand_transport_name c) (cand_network_id c)
    network_cost (cand_url c)).

Definition str_eqb (a b : list byte) : bool := bool_decide (a = b).

Definition IsEquivalent (a c : Candidate) : bool :=
  (cand_component a =? cand_component c) && str_eqb (cand_protocol a) (cand_protocol c) &&
  sa_eqb (cand_address a) (cand_address c) && str_eqb (cand_username a) (cand_username c) &&
  str_eqb (cand_password a) (cand_password c) && str_eqb (cand_type a) (cand_type c) &&
  (cand_generation a =? cand_generation c) && str_eqb (cand_foundation a) (cand_foundation c) &&
  sa_eqb (cand_related_address a) (cand_related_address c) && (cand_network_id a =? cand_network_id c).

Definition MatchesForRemoval (a c : Candidate) : bool :=
  (cand_component a =? cand_component c) && str_eqb (cand_protocol a) (cand_protocol c) &&
  sa_eqb (cand_address a) (cand_address c).

(** [int] shifted into an [uint32_t]. *)
Definition GetPriority (type_preference network_adapter_preference relay_preference : Z) (c : Candidate) : Z :=
  let addr_pref := IPAddressPrecedence (ip_ (cand_address c)) in
  let local_preference := Z.lor (Z.shiftl network_adapter_preference 8) addr_pref + relay_preference in
  wrap32 (Z.lor (Z.lor (Z.shiftl type_preference 24) (Z.shiftl local_preference 8)) (256 - cand_component c)).

Definition Candidate_eqb (a o : Candidate) : bool :=
  str_eqb (cand_id a) (cand_id o) && (cand_component a =? cand_component o) && str_eqb (cand_protocol a) (cand_protocol o) &&
  str_eqb (cand_relay_protocol a) (cand_relay_protocol o) && sa_eqb (cand_address a) (cand_address o) &&
  (cand_priority a =? cand_priority o) && str_eqb (cand_username a) (cand_username o) &&
  str_eqb (cand_password a) (cand_password o) && str_eqb (cand_type a) (cand_type o) &&
  str_eqb (cand_network_name a) (cand_network_name o) && bool_decide (cand_network_type a = cand_network_type o) &&
  (cand_generation a =? cand_generation o) && str_eqb (cand_foundation a) (cand_foundation o) &&
  sa_eqb (cand_related_address a) (cand_related_address o) && str_eqb (cand_tcptype a) (cand_tcptype o) &&
  str_eqb (cand_transport_name a) (cand_transport_name o) && (cand_network_id a =? cand_network_id o).

(** [SocketAddress(hostname, port)] takes the text for an address if [inet_pton] does. *)
Definition ToSanitizedCopy (inet_pton : address_family -> list byte -> option (list byte)) (use_hostname_address filter_related_address : bool) (c : Candidate) : outcome Candidate :=
  copy ← (if use_hostname_address
          then a ← SocketAddress_string inet_pton (hostname_ (cand_address c)) (port_ (cand_address c)); mret (set_address a c)
          else mret c);
  if filter_related_address
  then a ← EmptySocketAddressWithFamily (family_ (ip_ (cand_address copy))); mret (set_related_address a copy)
  else mret copy.
