(* ===== verification/IcePort.v ===== *)
(** * network/stun/port.{h,cc}: a local port of ICE

    [Port] is the state of the class; an operation runs in a monad that keeps
    it and collects what the port tells others: datagrams given to the virtual
    [SendTo] and signals.  A connection is known to the port by its address in
    memory, a number; [connections_] is kept in the order of its keys.
    What depends on the host are parameters: [inet_ntop], the checksum
    routine and the random source. *)

From Stdlib Require Import ZArith Lia String.
From S2P Require Import Prelude ByteOrder ConstBuffer ByteBuffer Crc IpAddress SocketAddress StunAttr StunMessage StunNames StunAuth IceCandidate.
Local Open Scope Z_scope.
Local Open Scope list_scope.

(** ** Actions: a state, events, and the crashes of [outcome] *)

Definition act (S E A : Type) : Type := S -> outcome (A * S * list E).
#[export] Instance act_ret {S E} : MRet (act S E) := fun A a s => Ret (a, s, []).
#[export] Instance act_bind {S E} : MBind (act S E) := fun A B k m s =>
  match m s with
  | Ret (a, s', out) =>
      match k a s' with Ret (b, s'', out') => Ret (b, s'', out ++ out') | Crash f => Crash f end
  | Crash f => Crash f
  end.
Definition get {S E} : act S E S := fun s => Ret (s, s, []).
Definition put {S E} (s : S) : act S E unit := fun _ => Ret (tt, s, []).
Definition tell {S E} (e : E) : act S E unit := fun s => Ret (tt, s, [e]).
Definition run_outcome {S E A} (o : outcome A) : act S E A := fun s => match o with Ret a => Ret (a, s, []) | Crash f => Crash f end.
Definition when {S E} (b : bool) (m : act S E unit) : act S E unit := if b then m else mret tt.

(** ** The state *)

Inductive IceRole : Type := ICEROLE_CONTROLLING | ICEROLE_CONTROLLED | ICEROLE_UNKNOWN.
#[export] Instance IceRole_eq_dec : EqDecision IceRole.
Proof. solve_decision. Defined.
Inductive PortState : Type := PORT_INIT | KEEP_ALIVE_UNTIL_PRUNED | PORT_PRUNED.
#[export] Instance PortState_eq_dec : EqDecision PortState.
Proof. solve_decision. Defined.

Definition STUN_TOTAL_TIMEOUT_MS : Z := 39750.
Definition kPortTimeoutDelay : Z := STUN_TOTAL_TIMEOUT_MS + 5000.

Record Port : Type := mkPort {
  port_type : list byte; send_retransmit_count_attribute_ : bool; network_ : Network; component_ : Z; generation_ : Z;
  ice_username_fragment_ : list byte; port_password : list byte; candidates_ : list Candidate;
  connections_ : list (SocketAddress * Z); timeout_delay_ : Z; enable_port_packets_ : bool; ice_role_ : IceRole;
  tiebreaker_ : Z; network_cost_ : Z; port_state : PortState; last_time_all_connections_removed_ : Z
}.

Inductive port_event : Type :=
| Sends (data : list byte) (addr : SocketAddress)
| CandidateReady (c : Candidate)
| PortComplete
| UnknownAddress (addr : SocketAddress) (proto : Z) (msg : StunMessage) (remote_username : list byte)
| RoleConflict
| PortPacket (data : list byte) (addr : SocketAddress)
| ConnectionCreated (conn : Z)
| DestroyConnection (conn : Z)
| ReadyConnection (conn : Z)
| StateChanged (conn : Z)
| PortDestroyed.

Definition porting (A : Type) : Type := act Port port_event A.

Definition with_candidates (l : list Candidate) (p : Port) : Port :=
  mkPort (port_type p) (send_retransmit_count_attribute_ p) (network_ p) (component_ p) (generation_ p) (ice_username_fragment_ p)
    (port_password p) l (connections_ p) (timeout_delay_ p) (enable_port_packets_ p) (ice_role_ p) (tiebreaker_ p)
    (network_cost_ p) (port_state p) (last_time_all_connections_removed_ p).
Definition with_connections (l : list (SocketAddress * Z)) (removed : Z) (p : Port) : Port :=
  mkPort (port_type p) (send_retransmit_count_attribute_ p) (network_ p) (component_ p) (generation_ p) (ice_username_fragment_ p)
    (port_password p) (candidates_ p) l (timeout_delay_ p) (enable_port_packets_ p) (ice_role_ p) (tiebreaker_ p)
    (network_cost_ p) (port_state p) removed.
Definition with_cost (cost : Z) (p : Port) : Port :=
  mkPort (port_type p) (send_retransmit_count_attribute_ p) (network_ p) (component_ p) (generation_ p) (ice_username_fragment_ p)
    (port_password p) (candidates_ p) (connections_ p) (timeout_delay_ p) (enable_port_packets_ p) (ice_role_ p) (tiebreaker_ p)
    cost (port_state p) (last_time_all_connections_removed_ p).
Definition with_state (st : PortState) (p : Port) : Port :=
  mkPort (port_type p) (send_retransmit_count_attribute_ p) (network_ p) (component_ p) (generation_ p) (ice_username_fragment_ p)
    (port_password p) (candidates_ p) (connections_ p) (timeout_delay_ p) (enable_port_packets_ p) (ice_role_ p) (tiebreaker_ p)
    (network_cost_ p) st (last_time_all_connections_removed_ p).
Definition SetIceRole (role : IceRole) (p : Port) : Port :=
  mkPort (port_type p) (send_retransmit_count_attribute_ p) (network_ p) (component_ p) (generation_ p) (ice_username_fragment_ p)
    (port_password p) (candidates_ p) (connections_ p) (timeout_delay_ p) (enable_port_packets_ p) role (tiebreaker_ p)
    (network_cost_ p) (port_state p) (last_time_all_connections_removed_ p).
Definition SetIceTiebreaker (tiebreaker : Z) (p : Port) : Port :=
  mkPort (port_type p) (send_retransmit_count_attribute_ p) (network_ p) (component_ p) (generation_ p) (ice_username_fragment_ p)
    (port_password p) (candidates_ p) (connections_ p) (timeout_delay_ p) (enable_port_packets_ p) (ice_role_ p) tiebreaker
    (network_cost_ p) (port_state p) (last_time_all_connections_removed_ p).
Definition EnablePortPackets (p : Port) : Port :=
  mkPort (port_type p) (send_retransmit_count_attribute_ p) (network_ p) (component_ p) (generation_ p) (ice_username_fragment_ p)
    (port_password p) (candidates_ p) (connections_ p) (timeout_delay_ p) true (ice_role_ p) (tiebreaker_ p)
    (network_cost_ p) (port_state p) (last_time_all_connections_removed_ p).
Definition SetIceParameters (component : Z) (username_fragment password : list byte) (p : Port) : Port :=
  mkPort (port_type p) (send_retransmit_count_attribute_ p) (network_ p) component (generation_ p) username_fragment
    password (map (set_credentials component username_fragment password) (candidates_ p)) (connections_ p) (timeout_delay_ p)
    (enable_port_packets_ p) (ice_role_ p) (tiebreaker_ p) (network_cost_ p) (port_state p) (last_time_all_connections_removed_ p).

(** Both constructors; [ufrag] and [pwd] are what the random source gives. *)
Definition Port_new (type : list byte) (network : Network) (username_fragment password ufrag pwd : list byte) : outcome Port :=
  '(u, w) ← (if bool_decide (username_fragment = [])
             then assert_that (bool_decide (password = []));; mret (ufrag, pwd)
             else mret (username_fragment, password));
  mret (mkPort type false network ICE_CANDIDATE_COMPONENT_DEFAULT 0 u w [] [] kPortTimeoutDelay false ICEROLE_UNKNOWN 0
          (GetCost network) PORT_INIT 0).

(** ** The map of connections: neither key is below the other *)

Definition same_key (a b : SocketAddress) : bool := negb (sa_ltb a b) && negb (sa_ltb b a).
Fixpoint map_find (k : SocketAddress) (l : list (SocketAddress * Z)) : option Z :=
  match l with
  | [] => None
  | (k', c) :: l => if same_key k' k then Some c else map_find k l
  end.
Fixpoint map_set (k : SocketAddress) (c : Z) (l : list (SocketAddress * Z)) : list (SocketAddress * Z) :=
  match l with
  | [] => [(k, c)]
  | (k', c') :: l => if same_key k' k then (k', c) :: l else if sa_ltb k k' then (k, c) :: (k', c') :: l else (k', c') :: map_set k c l
  end.
Fixpoint map_erase (k : SocketAddress) (l : list (SocketAddress * Z)) : list (SocketAddress * Z) :=
  match l with
  | [] => []
  | (k', c) :: l => if same_key k' k then l else (k', c) :: map_erase k l
  end.
Definition GetConnection (remote_addr : SocketAddress) (p : Port) : option Z := map_find remote_addr (connections_ p).

Section Port.
Context `{Heap} (inet_ntop : address_family -> list byte -> list byte).
Context (g_Crc32 : option (Z -> list byte -> outcome Z)) (crc_addr uninitialised : Z).

(** ** Candidates *)

(** [ToString] of an [uint32_t]. *)
Definition ComputeFoundation (type protocol relay_protocol : list byte) (base_address : SocketAddress) : outcome (list byte) :=
  crc ← Crc32 host_order g_Crc32 crc_addr (type ++ IP_ToString inet_ntop (ip_ base_address) ++ protocol ++ relay_protocol);
  mret (to_decimal 10 crc []).

Definition PostAddAddress (is_final : bool) : porting unit := when is_final (tell PortComplete).
Definition FinishAddingAddress (c : Candidate) (is_final : bool) : porting unit :=
  p ← get;
  put (with_candidates (candidates_ p ++ [c]) p);;
  tell (CandidateReady c);;
  PostAddAddress is_final.
(** The call that would register a name is compiled out. *)
Definition MaybeObfuscateAddress (type : list byte) : bool := str_eqb type LOCAL_PORT_TYPE.
Definition AddAddress (random : list byte) (address base_address related_address : SocketAddress)
    (protocol relay_protocol tcptype type : list byte) (type_preference relay_preference : Z) (url : list byte)
    (is_final : bool) : porting unit :=
  run_outcome (if str_eqb protocol TCP_PROTOCOL_NAME && str_eqb type LOCAL_PORT_TYPE
               then assert_that (negb (bool_decide (tcptype = []))) else mret tt);;
  foundation ← run_outcome (ComputeFoundation type protocol relay_protocol base_address);
  p ← get;
  let c := Candidate_new random (component_ p) protocol address 0 (ice_username_fragment_ p) (port_password p) type
             (generation_ p) foundation (net_id (network_ p)) (network_cost_ p) in
  let c := set_priority (GetPriority type_preference (net_preference (network_ p)) relay_preference c) c in
  let c := set_origin relay_protocol tcptype (net_name (network_ p)) (net_type (network_ p)) url related_address c in
  if MaybeObfuscateAddress type then mret tt else FinishAddingAddress c is_final.

Definition AddPrflxCandidate (local : Candidate) : porting Z :=
  p ← get;
  put (with_candidates (candidates_ p ++ [local]) p);;
  mret (zlen (candidates_ p)).

(** ** Connections *)

Definition AddOrReplaceConnection (remote_addr : SocketAddress) (conn : Z) : porting unit :=
  p ← get;
  (match map_find remote_addr (connections_ p) with
   | Some old => when (negb (old =? conn)) (tell (DestroyConnection old))
   | None => mret tt
   end);;
  put (with_connections (map_set remote_addr conn (connections_ p)) (last_time_all_connections_removed_ p) p);;
  tell (ConnectionCreated conn).
Definition OnConnectionDestroyed (now : Z) (remote_addr : SocketAddress) : porting unit :=
  p ← get;
  run_outcome (assert_that (bool_decide (is_Some (map_find remote_addr (connections_ p)))));;
  let rest := map_erase remote_addr (connections_ p) in
  put (with_connections rest (if bool_decide (rest = []) then now else last_time_all_connections_removed_ p) p).
Fixpoint tell_all (l : list port_event) : porting unit := match l with [] => mret tt | e :: l => tell e;; tell_all l end.
Definition Port_OnReadyToSend : porting unit :=
  p ← get; tell_all (map (fun kv => ReadyConnection (snd kv)) (connections_ p)).
Fixpoint set_costs (cost : Z) (l : list Candidate) : outcome (list Candidate) :=
  match l with
  | [] => mret []
  | c :: l => c ← set_network_cost cost c; l ← set_costs cost l; mret (c :: l)
  end.
Definition UpdateNetworkCost : porting unit :=
  p ← get;
  let new_cost := GetCost (network_ p) in
  if network_cost_ p =? new_cost then mret tt else
  cs ← run_outcome (set_costs new_cost (candidates_ p));
  put (with_candidates cs (with_cost new_cost p));;
  tell_all (map (fun kv => StateChanged (snd kv)) (connections_ p)).
Definition KeepAliveUntilPruned (p : Port) : Port :=
  match port_state p with PORT_INIT => with_state KEEP_ALIVE_UNTIL_PRUNED p | _ => p end.
Definition Port_Prune (p : Port) : Port := with_state PORT_PRUNED p.
(** [OnMessage(MSG_DESTROY_IF_DEAD)] *)
Definition Port_OnMessage (now : Z) : porting unit :=
  p ← get;
  when (negb (bool_decide (port_state p = KEEP_ALIVE_UNTIL_PRUNED)) && bool_decide (connections_ p = []) &&
        (timeout_delay_ p <=? now - last_time_all_connections_removed_ p)) (tell PortDestroyed).
Definition IsCompatibleAddress (addr : SocketAddress) (p : Port) : bool :=
  let ip := net_ip (network_ p) in
  if negb (bool_decide (family_ (ip_ addr) = family_ ip)) then false else
  if bool_decide (family_ ip = AF_INET6) && negb (Bool.eqb (IPIsLinkLocal ip) (IPIsLinkLocal (ip_ addr))) then false else true.

(** ** Answers *)

Definition send_message (m : StunMessage) (addr : SocketAddress) : porting unit :=
  '(_, data) ← run_outcome (write_new m);
  tell (Sends data addr).
Definition AddMI (key : list byte) (m : StunMessage) : porting StunMessage :=
  '(_, m) ← run_outcome (AddMessageIntegrity key m); mret m.
Definition AddFP (m : StunMessage) : porting StunMessage :=
  '(_, m) ← run_outcome (AddFingerprint g_Crc32 crc_addr m); mret m.

Definition is_type (t : StunMessageType) (m : StunMessage) : bool := msg_type m =? message_number t.
Definition SendBindingErrorResponse (request : StunMessage) (addr : SocketAddress) (error_code : Z) (reason : list byte) : porting unit :=
  run_outcome (assert_that (is_type kStunMessageBindingRequest request || is_type kStunGoodPingRequest request));;
  p ← get;
  response ← run_outcome (StunMessage_new Stun uninitialised);
  let response := Msg_SetType (message_number (if is_type kStunMessageBindingRequest request
                                               then kStunMessageBindingErrorResponse else kStunGoodPingErrorResponse)) response in
  '(_, response) ← run_outcome (SetTransactionID (transaction_id_ request) response);
  response ← run_outcome (AddAttribute (SetReason reason (SetCode error_code CreateErrorCode)) response);
  response ← (if negb (error_code =? error_number kStunBadRequest) && negb (error_code =? error_number kStunNotAuthorized) &&
                 negb (is_type kStunGoodPingRequest request)
              then AddMI (port_password p) response else mret response);
  response ← (if is_type kStunMessageBindingRequest request then AddFP response else mret response);
  send_message response addr.
Definition SendError (request : StunMessage) (addr : SocketAddress) (code : StunErrorCode) : porting unit :=
  SendBindingErrorResponse request addr (error_number code) (text (StunErrorToString (error_number code))).

Definition SendUnknownAttributesErrorResponse (request : StunMessage) (addr : SocketAddress) (unknown_types : list Z) : porting unit :=
  run_outcome (assert_that (is_type kStunMessageBindingRequest request));;
  p ← get;
  response ← run_outcome (StunMessage_new Stun uninitialised);
  let response := Msg_SetType (message_number kStunMessageBindingErrorResponse) response in
  '(_, response) ← run_outcome (SetTransactionID (transaction_id_ request) response);
  let error := error_number kStunUnknownAttribute in
  response ← run_outcome (AddAttribute (SetReason (text (StunErrorToString error)) (SetCode error CreateErrorCode)) response);
  response ← run_outcome (AddAttribute (fold_left (fun a t => AddType t a) unknown_types CreateUnknownAttributes) response);
  response ← AddMI (port_password p) response;
  response ← AddFP response;
  send_message response addr.

(** ** Messages that arrive *)

(** The local and the remote fragment, around the first colon. *)
Definition ParseStunUsername (stun_msg : StunMessage) : outcome (option (list byte * list byte)) :=
  match GetByteString stun_msg kStunAttrUsername with
  | None => mret None
  | Some attr =>
      username ← GetString attr;
      match SocketAddress.find colon username with
      | None => mret None
      | Some i => mret (Some (take i username, drop (S i) username))
      end
  end.
Definition CreateStunUsername (remote_username : list byte) (p : Port) : list byte :=
  remote_username ++ [colon] ++ ice_username_fragment_ p.

Definition uint64_of (a : StunAttribute) : Z := match attr_body a with UInt64 v => v | _ => 0 end.

(** [false]: the request is refused. *)
Definition MaybeIceRoleConflict (addr : SocketAddress) (stun_msg : StunMessage) (remote_ufrag : list byte) : porting bool :=
  p ← get;
  let controlling := GetUInt64 stun_msg kStunAttrICEControlling in
  let controlled := GetUInt64 stun_msg kStunAttrICEControlled in
  let loopback := match controlling with
    | Some a => str_eqb (ice_username_fragment_ p) remote_ufrag && (uint64_of a =? tiebreaker_ p) | None => false end in
  if loopback then mret true else
  let '(remote_ice_role, remote_tiebreaker) :=
    match controlled with
    | Some a => (ICEROLE_CONTROLLED, uint64_of a)
    | None => match controlling with Some a => (ICEROLE_CONTROLLING, uint64_of a) | None => (ICEROLE_UNKNOWN, 0) end
    end in
  match ice_role_ p, remote_ice_role with
  | ICEROLE_CONTROLLING, ICEROLE_CONTROLLING =>
      if tiebreaker_ p <=? remote_tiebreaker then tell RoleConflict;; mret true
      else SendError stun_msg addr kStunRoleConflict;; mret false
  | ICEROLE_CONTROLLED, ICEROLE_CONTROLLED =>
      if remote_tiebreaker <? tiebreaker_ p then tell RoleConflict;; mret true
      else SendError stun_msg addr kStunRoleConflict;; mret false
  | _, _ => mret true
  end.

Definition has_error (m : StunMessage) : bool := match GetErrorCode m with Some _ => true | None => false end.
Inductive stun_result : Type := NotStun | Handled | Accepted (msg : StunMessage) (remote_ufrag : list byte).

Definition GetStunMessage (data : list byte) (addr : SocketAddress) : porting stun_result :=
  let size := zlen data in
  p ← get;
  method ← run_outcome (IsStunMethod (map message_number [kStunGoodPingRequest; kStunGoodPingResponse; kStunGoodPingErrorResponse]) data size);
  stun ← (if (method : bool) then mret true else run_outcome (ValidateFingerprint g_Crc32 crc_addr data size));
  if negb stun then mret NotStun else
  stun_msg ← run_outcome (StunMessage_new Ice uninitialised);
  '(ok, stun_msg, buf) ← run_outcome (Message_Read stun_msg (Reader data size));
  if negb (match ok with Some _ => true | None => false end) || (Length buf >? 0) then mret NotStun else
  let unknown_attributes := GetNonComprehendedAttributes stun_msg in
  let known := bool_decide (unknown_attributes = []) in
  if is_type kStunMessageBindingRequest stun_msg then
    match GetByteString stun_msg kStunAttrUsername, GetByteString stun_msg kStunAttrMessageIntegrity with
    | Some _, Some _ =>
        names ← run_outcome (ParseStunUsername stun_msg);
        match names with
        | Some (local_ufrag, remote_ufrag) =>
            if negb (str_eqb local_ufrag (ice_username_fragment_ p)) then SendError stun_msg addr kStunNotAuthorized;; mret Handled else
            valid ← run_outcome (ValidateMessageIntegrity data size (port_password p));
            if negb valid then SendError stun_msg addr kStunNotAuthorized;; mret Handled else
            if negb known then SendUnknownAttributesErrorResponse stun_msg addr unknown_attributes;; mret Handled else
            mret (Accepted stun_msg remote_ufrag)
        | None => SendError stun_msg addr kStunNotAuthorized;; mret Handled
        end
    | _, _ => SendError stun_msg addr kStunBadRequest;; mret Handled
    end
  else if is_type kStunMessageBindingResponse stun_msg || is_type kStunMessageBindingErrorResponse stun_msg then
    if is_type kStunMessageBindingErrorResponse stun_msg && negb (has_error stun_msg) then mret Handled else
    if negb known then mret Handled else mret (Accepted stun_msg [])
  else if is_type kStunMessageBindingIndication stun_msg then
    if negb known then mret Handled else mret (Accepted stun_msg [])
  else if is_type kStunGoodPingRequest stun_msg then
    valid ← run_outcome (ValidateMessageIntegrity32 data size (port_password p));
    if negb valid then SendError stun_msg addr kStunNotAuthorized;; mret Handled else mret (Accepted stun_msg [])
  else if is_type kStunGoodPingResponse stun_msg || is_type kStunGoodPingErrorResponse stun_msg then mret (Accepted stun_msg [])
  else mret Handled.

(** A packet from an address without a connection. *)
Definition Port_OnReadPacket (data : list byte) (addr : SocketAddress) (proto : Z) : porting unit :=
  p ← get;
  if enable_port_packets_ p then tell (PortPacket data addr) else
  r ← GetStunMessage data addr;
  match r with
  | NotStun | Handled => mret tt
  | Accepted msg remote_username =>
      if is_type kStunMessageBindingRequest msg then
        tell (UnknownAddress addr proto msg remote_username);;
        MaybeIceRoleConflict addr msg remote_username;; mret tt
      else if is_type kStunGoodPingRequest msg then SendError msg addr kStunBadRequest
      else mret tt
  end.
End Port.
