(* ===== verification/IceConnState.v ===== *)
(** * network/stun/connection.h: the members of a connection

    A connection is a local port, one of its candidates and a remote candidate.
    [Connection] holds the members of the class but three: the identifier and
    the two rate trackers with the average of round-trip times, which are
    only reported as statistics.  Times are milliseconds. *)

From Stdlib Require Import ZArith Lia String.
From stdpp Require Import gmap.
From S2P Require Import Prelude StunAttr StunMessage StunRequest IpAddress SocketAddress IceCandidate IcePort.
Local Open Scope Z_scope.
Local Open Scope list_scope.

Inductive WriteState : Type := STATE_WRITABLE | STATE_WRITE_UNRELIABLE | STATE_WRITE_INIT | STATE_WRITE_TIMEOUT.
#[export] Instance WriteState_eq_dec : EqDecision WriteState.
Proof. solve_decision. Defined.
Definition write_number (w : WriteState) : Z :=
  match w with STATE_WRITABLE => 0 | STATE_WRITE_UNRELIABLE => 1 | STATE_WRITE_INIT => 2 | STATE_WRITE_TIMEOUT => 3 end.
Inductive IceCandidatePairState : Type := WAITING | IN_PROGRESS | SUCCEEDED | FAILED.
#[export] Instance pair_state_eq_dec : EqDecision IceCandidatePairState.
Proof. solve_decision. Defined.
Inductive IceMode : Type := ICEMODE_FULL | ICEMODE_LITE.
#[export] Instance IceMode_eq_dec : EqDecision IceMode.
Proof. solve_decision. Defined.

Record SentPing : Type := mkPing { ping_id : list byte; sent_time : Z; ping_nomination : Z }.

Record IceFieldTrials : Type := mkTrials {
  skip_relay_to_non_relay_connections : bool; max_outstanding_pings : option Z; initial_select_dampening : option Z;
  initial_select_dampening_ping_received : option Z; announce_goog_ping : bool; enable_goog_ping : bool;
  rtt_estimate_halftime_ms : Z; send_ping_on_switch_ice_controlling : bool; send_ping_on_nomination_ice_controlled : bool;
  dead_connection_timeout_ms : Z
}.
Definition kDefaultFieldTrials : IceFieldTrials := mkTrials false None None None true false 500 false false 30000.

(** The counters of [ConnectionInfo]; the other members are filled in by [stats]. *)
Record ConnectionInfo : Type := mkInfo {
  sent_discarded_packets : Z; sent_total_packets : Z; sent_ping_requests_total : Z; sent_ping_requests_before_first_response : Z;
  sent_ping_responses : Z; packets_received : Z; recv_ping_requests : Z; recv_ping_responses : Z
}.
Definition ConnectionInfo_new : ConnectionInfo := mkInfo 0 0 0 0 0 0 0 0.

Record Connection : Type := mkConn {
  local_candidate_index_ : Z; remote_candidate_ : Candidate; stats_ : ConnectionInfo; write_state_ : WriteState;
  receiving_ : bool; conn_connected_ : bool; pruned_ : bool; selected_ : bool; use_candidate_attr_ : bool;
  nomination_ : Z; acked_nomination_ : Z; remote_nomination_ : Z; remote_ice_mode_ : IceMode; conn_requests_ : world;
  rtt_ : Z; rtt_samples_ : Z; total_round_trip_time_ms_ : Z; current_round_trip_time_ms_ : option Z;
  last_ping_sent_ : Z; last_ping_received_ : Z; last_data_received_ : Z; last_ping_response_received_ : Z;
  receiving_unchanged_since_ : Z; pings_since_last_response_ : list SentPing;
  last_ping_id_received_ : option (list byte); unwritable_timeout_ : option Z; unwritable_min_checks_ : option Z;
  inactive_timeout_ : option Z; reported_ : bool; pair_state_ : IceCandidatePairState; receiving_timeout_ : option Z;
  time_created_ms_ : Z; num_pings_sent_ : Z; remote_support_goog_ping_ : option bool;
  cached_stun_binding_ : option StunMessage; field_trials_ : IceFieldTrials
}.

(** Assignment to a member. *)
Definition with_local_candidate_index (v : Z) (c : Connection) : Connection :=
  mkConn v (remote_candidate_ c) (stats_ c) (write_state_ c) (receiving_ c) (conn_connected_ c) (pruned_ c)
    (selected_ c) (use_candidate_attr_ c) (nomination_ c) (acked_nomination_ c) (remote_nomination_ c)
    (remote_ice_mode_ c) (conn_requests_ c) (rtt_ c) (rtt_samples_ c) (total_round_trip_time_ms_ c)
    (current_round_trip_time_ms_ c) (last_ping_sent_ c) (last_ping_received_ c) (last_data_received_ c)
    (last_ping_response_received_ c) (receiving_unchanged_since_ c) (pings_since_last_response_ c)
    (last_ping_id_received_ c) (unwritable_timeout_ c) (unwritable_min_checks_ c) (inactive_timeout_ c) (reported_ c)
    (pair_state_ c) (receiving_timeout_ c) (time_created_ms_ c) (num_pings_sent_ c) (remote_support_goog_ping_ c)
    (cached_stun_binding_ c) (field_trials_ c).
Definition with_remote_candidate (v : Candidate) (c : Connection) : Connection :=
  mkConn (local_candidate_index_ c) v (stats_ c) (write_state_ c) (receiving_ c) (conn_connected_ c) (pruned_ c)
    (selected_ c) (use_candidate_attr_ c) (nomination_ c) (acked_nomination_ c) (remote_nomination_ c)
    (remote_ice_mode_ c) (conn_requests_ c) (rtt_ c) (rtt_samples_ c) (total_round_trip_time_ms_ c)
    (current_round_trip_time_ms_ c) (last_ping_sent_ c) (last_ping_received_ c) (last_data_received_ c)
    (last_ping_response_received_ c) (receiving_unchanged_since_ c) (pings_since_last_response_ c)
    (last_ping_id_received_ c) (unwritable_timeout_ c) (unwritable_min_checks_ c) (inactive_timeout_ c) (reported_ c)
    (pair_state_ c) (receiving_timeout_ c) (time_created_ms_ c) (num_pings_sent_ c) (remote_support_goog_ping_ c)
    (cached_stun_binding_ c) (field_trials_ c).
Definition with_stats (v : ConnectionInfo) (c : Connection) : Connection :=
  mkConn (local_candidate_index_ c) (remote_candidate_ c) v (write_state_ c) (receiving_ c) (conn_connected_ c)
    (pruned_ c) (selected_ c) (use_candidate_attr_ c) (nomination_ c) (acked_nomination_ c) (remote_nomination_ c)
    (remote_ice_mode_ c) (conn_requests_ c) (rtt_ c) (rtt_samples_ c) (total_round_trip_time_ms_ c)
    (current_round_trip_time_ms_ c) (last_ping_sent_ c) (last_ping_received_ c) (last_data_received_ c)
    (last_ping_response_received_ c) (receiving_unchanged_since_ c) (pings_since_last_response_ c)
    (last_ping_id_received_ c) (unwritable_timeout_ c) (unwritable_min_checks_ c) (inactive_timeout_ c) (reported_ c)
    (pair_state_ c) (receiving_timeout_ c) (time_created_ms_ c) (num_pings_sent_ c) (remote_support_goog_ping_ c)
    (cached_stun_binding_ c) (field_trials_ c).
Definition with_write_state (v : WriteState) (c : Connection) : Connection :=
  mkConn (local_candidate_index_ c) (remote_candidate_ c) (stats_ c) v (receiving_ c) (conn_connected_ c) (pruned_ c)
    (selected_ c) (use_candidate_attr_ c) (nomination_ c) (acked_nomination_ c) (remote_nomination_ c)
    (remote_ice_mode_ c) (conn_requests_ c) (rtt_ c) (rtt_samples_ c) (total_round_trip_time_ms_ c)
    (current_round_trip_time_ms_ c) (last_ping_sent_ c) (last_ping_received_ c) (last_data_received_ c)
    (last_ping_response_received_ c) (receiving_unchanged_since_ c) (pings_since_last_response_ c)
    (last_ping_id_received_ c) (unwritable_timeout_ c) (unwritable_min_checks_ c) (inactive_timeout_ c) (reported_ c)
    (pair_state_ c) (receiving_timeout_ c) (time_created_ms_ c) (num_pings_sent_ c) (remote_support_goog_ping_ c)
    (cached_stun_binding_ c) (field_trials_ c).
Definition with_receiving (v : bool) (c : Connection) : Connection :=
  mkConn (local_candidate_index_ c) (remote_candidate_ c) (stats_ c) (write_state_ c) v (conn_connected_ c)
    (pruned_ c) (selected_ c) (use_candidate_attr_ c) (nomination_ c) (acked_nomination_ c) (remote_nomination_ c)
    (remote_ice_mode_ c) (conn_requests_ c) (rtt_ c) (rtt_samples_ c) (total_round_trip_time_ms_ c)
    (current_round_trip_time_ms_ c) (last_ping_sent_ c) (last_ping_received_ c) (last_data_received_ c)
    (last_ping_response_received_ c) (receiving_unchanged_since_ c) (pings_since_last_response_ c)
    (last_ping_id_received_ c) (unwritable_timeout_ c) (unwritable_min_checks_ c) (inactive_timeout_ c) (reported_ c)
    (pair_state_ c) (receiving_timeout_ c) (time_created_ms_ c) (num_pings_sent_ c) (remote_support_goog_ping_ c)
    (cached_stun_binding_ c) (field_trials_ c).
Definition with_receiving_unchanged_since (v : Z) (c : Connection) : Connection :=
  mkConn (local_candidate_index_ c) (remote_candidate_ c) (stats_ c) (write_state_ c) (receiving_ c)
    (conn_connected_ c) (pruned_ c) (selected_ c) (use_candidate_attr_ c) (nomination_ c) (acked_nomination_ c)
    (remote_nomination_ c) (remote_ice_mode_ c) (conn_requests_ c) (rtt_ c) (rtt_samples_ c)
    (total_round_trip_time_ms_ c) (current_round_trip_time_ms_ c) (last_ping_sent_ c) (last_ping_received_ c)
    (last_data_received_ c) (last_ping_response_received_ c) v (pings_since_last_response_ c)
    (last_ping_id_received_ c) (unwritable_timeout_ c) (unwritable_min_checks_ c) (inactive_timeout_ c) (reported_ c)
    (pair_state_ c) (receiving_timeout_ c) (time_created_ms_ c) (num_pings_sent_ c) (remote_support_goog_ping_ c)
    (cached_stun_binding_ c) (field_trials_ c).
Definition with_conn_connected (v : bool) (c : Connection) : Connection :=
  mkConn (local_candidate_index_ c) (remote_candidate_ c) (stats_ c) (write_state_ c) (receiving_ c) v (pruned_ c)
    (selected_ c) (use_candidate_attr_ c) (nomination_ c) (acked_nomination_ c) (remote_nomination_ c)
    (remote_ice_mode_ c) (conn_requests_ c) (rtt_ c) (rtt_samples_ c) (total_round_trip_time_ms_ c)
    (current_round_trip_time_ms_ c) (last_ping_sent_ c) (last_ping_received_ c) (last_data_received_ c)
    (last_ping_response_received_ c) (receiving_unchanged_since_ c) (pings_since_last_response_ c)
    (last_ping_id_received_ c) (unwritable_timeout_ c) (unwritable_min_checks_ c) (inactive_timeout_ c) (reported_ c)
    (pair_state_ c) (receiving_timeout_ c) (time_created_ms_ c) (num_pings_sent_ c) (remote_support_goog_ping_ c)
    (cached_stun_binding_ c) (field_trials_ c).
Definition with_pruned (v : bool) (c : Connection) : Connection :=
  mkConn (local_candidate_index_ c) (remote_candidate_ c) (stats_ c) (write_state_ c) (receiving_ c)
    (conn_connected_ c) v (selected_ c) (use_candidate_attr_ c) (nomination_ c) (acked_nomination_ c)
    (remote_nomination_ c) (remote_ice_mode_ c) (conn_requests_ c) (rtt_ c) (rtt_samples_ c)
    (total_round_trip_time_ms_ c) (current_round_trip_time_ms_ c) (last_ping_sent_ c) (last_ping_received_ c)
    (last_data_received_ c) (last_ping_response_received_ c) (receiving_unchanged_since_ c)
    (pings_since_last_response_ c) (last_ping_id_received_ c) (unwritable_timeout_ c) (unwritable_min_checks_ c)
    (inactive_timeout_ c) (reported_ c) (pair_state_ c) (receiving_timeout_ c) (time_created_ms_ c)
    (num_pings_sent_ c) (remote_support_goog_ping_ c) (cached_stun_binding_ c) (field_trials_ c).
Definition with_selected (v : bool) (c : Connection) : Connection :=
  mkConn (local_candidate_index_ c) (remote_candidate_ c) (stats_ c) (write_state_ c) (receiving_ c)
    (conn_connected_ c) (pruned_ c) v (use_candidate_attr_ c) (nomination_ c) (acked_nomination_ c)
    (remote_nomination_ c) (remote_ice_mode_ c) (conn_requests_ c) (rtt_ c) (rtt_samples_ c)
    (total_round_trip_time_ms_ c) (current_round_trip_time_ms_ c) (last_ping_sent_ c) (last_ping_received_ c)
    (last_data_received_ c) (last_ping_response_received_ c) (receiving_unchanged_since_ c)
    (pings_since_last_response_ c) (last_ping_id_received_ c) (unwritable_timeout_ c) (unwritable_min_checks_ c)
    (inactive_timeout_ c) (reported_ c) (pair_state_ c) (receiving_timeout_ c) (time_created_ms_ c)
    (num_pings_sent_ c) (remote_support_goog_ping_ c) (cached_stun_binding_ c) (field_trials_ c).
Definition with_use_candidate_attr (v : bool) (c : Connection) : Connection :=
  mkConn (local_candidate_index_ c) (remote_candidate_ c) (stats_ c) (write_state_ c) (receiving_ c)
    (conn_connected_ c) (pruned_ c) (selected_ c) v (nomination_ c) (acked_nomination_ c) (remote_nomination_ c)
    (remote_ice_mode_ c) (conn_requests_ c) (rtt_ c) (rtt_samples_ c) (total_round_trip_time_ms_ c)
    (current_round_trip_time_ms_ c) (last_ping_sent_ c) (last_ping_received_ c) (last_data_received_ c)
    (last_ping_response_received_ c) (receiving_unchanged_since_ c) (pings_since_last_response_ c)
    (last_ping_id_received_ c) (unwritable_timeout_ c) (unwritable_min_checks_ c) (inactive_timeout_ c) (reported_ c)
    (pair_state_ c) (receiving_timeout_ c) (time_created_ms_ c) (num_pings_sent_ c) (remote_support_goog_ping_ c)
    (cached_stun_binding_ c) (field_trials_ c).
Definition with_nomination (v : Z) (c : Connection) : Connection :=
  mkConn (local_candidate_index_ c) (remote_candidate_ c) (stats_ c) (write_state_ c) (receiving_ c)
    (conn_connected_ c) (pruned_ c) (selected_ c) (use_candidate_attr_ c) v (acked_nomination_ c)
    (remote_nomination_ c) (remote_ice_mode_ c) (conn_requests_ c) (rtt_ c) (rtt_samples_ c)
    (total_round_trip_time_ms_ c) (current_round_trip_time_ms_ c) (last_ping_sent_ c) (last_ping_received_ c)
    (last_data_received_ c) (last_ping_response_received_ c) (receiving_unchanged_since_ c)
    (pings_since_last_response_ c) (last_ping_id_received_ c) (unwritable_timeout_ c) (unwritable_min_checks_ c)
    (inactive_timeout_ c) (reported_ c) (pair_state_ c) (receiving_timeout_ c) (time_created_ms_ c)
    (num_pings_sent_ c) (remote_support_goog_ping_ c) (cached_stun_binding_ c) (field_trials_ c).
Definition with_acked_nomination (v : Z) (c : Connection) : Connection :=
  mkConn (local_candidate_index_ c) (remote_candidate_ c) (stats_ c) (write_state_ c) (receiving_ c)
    (conn_connected_ c) (pruned_ c) (selected_ c) (use_candidate_attr_ c) (nomination_ c) v (remote_nomination_ c)
    (remote_ice_mode_ c) (conn_requests_ c) (rtt_ c) (rtt_samples_ c) (total_round_trip_time_ms_ c)
    (current_round_trip_time_ms_ c) (last_ping_sent_ c) (last_ping_received_ c) (last_data_received_ c)
    (last_ping_response_received_ c) (receiving_unchanged_since_ c) (pings_since_last_response_ c)
    (last_ping_id_received_ c) (unwritable_timeout_ c) (unwritable_min_checks_ c) (inactive_timeout_ c) (reported_ c)
    (pair_state_ c) (receiving_timeout_ c) (time_created_ms_ c) (num_pings_sent_ c) (remote_support_goog_ping_ c)
    (cached_stun_binding_ c) (field_trials_ c).
Definition with_remote_nomination (v : Z) (c : Connection) : Connection :=
  mkConn (local_candidate_index_ c) (remote_candidate_ c) (stats_ c) (write_state_ c) (receiving_ c)
    (conn_connected_ c) (pruned_ c) (selected_ c) (use_candidate_attr_ c) (nomination_ c) (acked_nomination_ c) v
    (remote_ice_mode_ c) (conn_requests_ c) (rtt_ c) (rtt_samples_ c) (total_round_trip_time_ms_ c)
    (current_round_trip_time_ms_ c) (last_ping_sent_ c) (last_ping_received_ c) (last_data_received_ c)
    (last_ping_response_received_ c) (receiving_unchanged_since_ c) (pings_since_last_response_ c)
    (last_ping_id_received_ c) (unwritable_timeout_ c) (unwritable_min_checks_ c) (inactive_timeout_ c) (reported_ c)
    (pair_state_ c) (receiving_timeout_ c) (time_created_ms_ c) (num_pings_sent_ c) (remote_support_goog_ping_ c)
    (cached_stun_binding_ c) (field_trials_ c).
Definition with_remote_ice_mode (v : IceMode) (c : Connection) : Connection :=
  mkConn (local_candidate_index_ c) (remote_candidate_ c) (stats_ c) (write_state_ c) (receiving_ c)
    (conn_connected_ c) (pruned_ c) (selected_ c) (use_candidate_attr_ c) (nomination_ c) (acked_nomination_ c)
    (remote_nomination_ c) v (conn_requests_ c) (rtt_ c) (rtt_samples_ c) (total_round_trip_time_ms_ c)
    (current_round_trip_time_ms_ c) (last_ping_sent_ c) (last_ping_received_ c) (last_data_received_ c)
    (last_ping_response_received_ c) (receiving_unchanged_since_ c) (pings_since_last_response_ c)
    (last_ping_id_received_ c) (unwritable_timeout_ c) (unwritable_min_checks_ c) (inactive_timeout_ c) (reported_ c)
    (pair_state_ c) (receiving_timeout_ c) (time_created_ms_ c) (num_pings_sent_ c) (remote_support_goog_ping_ c)
    (cached_stun_binding_ c) (field_trials_ c).
Definition with_conn_requests (v : world) (c : Connection) : Connection :=
  mkConn (local_candidate_index_ c) (remote_candidate_ c) (stats_ c) (write_state_ c) (receiving_ c)
    (conn_connected_ c) (pruned_ c) (selected_ c) (use_candidate_attr_ c) (nomination_ c) (acked_nomination_ c)
    (remote_nomination_ c) (remote_ice_mode_ c) v (rtt_ c) (rtt_samples_ c) (total_round_trip_time_ms_ c)
    (current_round_trip_time_ms_ c) (last_ping_sent_ c) (last_ping_received_ c) (last_data_received_ c)
    (last_ping_response_received_ c) (receiving_unchanged_since_ c) (pings_since_last_response_ c)
    (last_ping_id_received_ c) (unwritable_timeout_ c) (unwritable_min_checks_ c) (inactive_timeout_ c) (reported_ c)
    (pair_state_ c) (receiving_timeout_ c) (time_created_ms_ c) (num_pings_sent_ c) (remote_support_goog_ping_ c)
    (cached_stun_binding_ c) (field_trials_ c).
Definition with_rtt (v : Z) (c : Connection) : Connection :=
  mkConn (local_candidate_index_ c) (remote_candidate_ c) (stats_ c) (write_state_ c) (receiving_ c)
    (conn_connected_ c) (pruned_ c) (selected_ c) (use_candidate_attr_ c) (nomination_ c) (acked_nomination_ c)
    (remote_nomination_ c) (remote_ice_mode_ c) (conn_requests_ c) v (rtt_samples_ c) (total_round_trip_time_ms_ c)
    (current_round_trip_time_ms_ c) (last_ping_sent_ c) (last_ping_received_ c) (last_data_received_ c)
    (last_ping_response_received_ c) (receiving_unchanged_since_ c) (pings_since_last_response_ c)
    (last_ping_id_received_ c) (unwritable_timeout_ c) (unwritable_min_checks_ c) (inactive_timeout_ c) (reported_ c)
    (pair_state_ c) (receiving_timeout_ c) (time_created_ms_ c) (num_pings_sent_ c) (remote_support_goog_ping_ c)
    (cached_stun_binding_ c) (field_trials_ c).
Definition with_rtt_samples (v : Z) (c : Connection) : Connection :=
  mkConn (local_candidate_index_ c) (remote_candidate_ c) (stats_ c) (write_state_ c) (receiving_ c)
    (conn_connected_ c) (pruned_ c) (selected_ c) (use_candidate_attr_ c) (nomination_ c) (acked_nomination_ c)
    (remote_nomination_ c) (remote_ice_mode_ c) (conn_requests_ c) (rtt_ c) v (total_round_trip_time_ms_ c)
    (current_round_trip_time_ms_ c) (last_ping_sent_ c) (last_ping_received_ c) (last_data_received_ c)
    (last_ping_response_received_ c) (receiving_unchanged_since_ c) (pings_since_last_response_ c)
    (last_ping_id_received_ c) (unwritable_timeout_ c) (unwritable_min_checks_ c) (inactive_timeout_ c) (reported_ c)
    (pair_state_ c) (receiving_timeout_ c) (time_created_ms_ c) (num_pings_sent_ c) (remote_support_goog_ping_ c)
    (cached_stun_binding_ c) (field_trials_ c).
Definition with_total_round_trip_time_ms (v : Z) (c : Connection) : Connection :=
  mkConn (local_candidate_index_ c) (remote_candidate_ c) (stats_ c) (write_state_ c) (receiving_ c)
    (conn_connected_ c) (pruned_ c) (selected_ c) (use_candidate_attr_ c) (nomination_ c) (acked_nomination_ c)
    (remote_nomination_ c) (remote_ice_mode_ c) (conn_requests_ c) (rtt_ c) (rtt_samples_ c) v
    (current_round_trip_time_ms_ c) (last_ping_sent_ c) (last_ping_received_ c) (last_data_received_ c)
    (last_ping_response_received_ c) (receiving_unchanged_since_ c) (pings_since_last_response_ c)
    (last_ping_id_received_ c) (unwritable_timeout_ c) (unwritable_min_checks_ c) (inactive_timeout_ c) (reported_ c)
    (pair_state_ c) (receiving_timeout_ c) (time_created_ms_ c) (num_pings_sent_ c) (remote_support_goog_ping_ c)
    (cached_stun_binding_ c) (field_trials_ c).
Definition with_current_round_trip_time_ms (v : option Z) (c : Connection) : Connection :=
  mkConn (local_candidate_index_ c) (remote_candidate_ c) (stats_ c) (write_state_ c) (receiving_ c)
    (conn_connected_ c) (pruned_ c) (selected_ c) (use_candidate_attr_ c) (nomination_ c) (acked_nomination_ c)
    (remote_nomination_ c) (remote_ice_mode_ c) (conn_requests_ c) (rtt_ c) (rtt_samples_ c)
    (total_round_trip_time_ms_ c) v (last_ping_sent_ c) (last_ping_received_ c) (last_data_received_ c)
    (last_ping_response_received_ c) (receiving_unchanged_since_ c) (pings_since_last_response_ c)
    (last_ping_id_received_ c) (unwritable_timeout_ c) (unwritable_min_checks_ c) (inactive_timeout_ c) (reported_ c)
    (pair_state_ c) (receiving_timeout_ c) (time_created_ms_ c) (num_pings_sent_ c) (remote_support_goog_ping_ c)
    (cached_stun_binding_ c) (field_trials_ c).
Definition with_last_ping_received (v : Z) (c : Connection) : Connection :=
  mkConn (local_candidate_index_ c) (remote_candidate_ c) (stats_ c) (write_state_ c) (receiving_ c)
    (conn_connected_ c) (pruned_ c) (selected_ c) (use_candidate_attr_ c) (nomination_ c) (acked_nomination_ c)
    (remote_nomination_ c) (remote_ice_mode_ c) (conn_requests_ c) (rtt_ c) (rtt_samples_ c)
    (total_round_trip_time_ms_ c) (current_round_trip_time_ms_ c) (last_ping_sent_ c) v (last_data_received_ c)
    (last_ping_response_received_ c) (receiving_unchanged_since_ c) (pings_since_last_response_ c)
    (last_ping_id_received_ c) (unwritable_timeout_ c) (unwritable_min_checks_ c) (inactive_timeout_ c) (reported_ c)
    (pair_state_ c) (receiving_timeout_ c) (time_created_ms_ c) (num_pings_sent_ c) (remote_support_goog_ping_ c)
    (cached_stun_binding_ c) (field_trials_ c).
Definition with_last_data_received (v : Z) (c : Connection) : Connection :=
  mkConn (local_candidate_index_ c) (remote_candidate_ c) (stats_ c) (write_state_ c) (receiving_ c)
    (conn_connected_ c) (pruned_ c) (selected_ c) (use_candidate_attr_ c) (nomination_ c) (acked_nomination_ c)
    (remote_nomination_ c) (remote_ice_mode_ c) (conn_requests_ c) (rtt_ c) (rtt_samples_ c)
    (total_round_trip_time_ms_ c) (current_round_trip_time_ms_ c) (last_ping_sent_ c) (last_ping_received_ c) v
    (last_ping_response_received_ c) (receiving_unchanged_since_ c) (pings_since_last_response_ c)
    (last_ping_id_received_ c) (unwritable_timeout_ c) (unwritable_min_checks_ c) (inactive_timeout_ c) (reported_ c)
    (pair_state_ c) (receiving_timeout_ c) (time_created_ms_ c) (num_pings_sent_ c) (remote_support_goog_ping_ c)
    (cached_stun_binding_ c) (field_trials_ c).
Definition with_last_ping_response_received (v : Z) (c : Connection) : Connection :=
  mkConn (local_candidate_index_ c) (remote_candidate_ c) (stats_ c) (write_state_ c) (receiving_ c)
    (conn_connected_ c) (pruned_ c) (selected_ c) (use_candidate_attr_ c) (nomination_ c) (acked_nomination_ c)
    (remote_nomination_ c) (remote_ice_mode_ c) (conn_requests_ c) (rtt_ c) (rtt_samples_ c)
    (total_round_trip_time_ms_ c) (current_round_trip_time_ms_ c) (last_ping_sent_ c) (last_ping_received_ c)
    (last_data_received_ c) v (receiving_unchanged_since_ c) (pings_since_last_response_ c) (last_ping_id_received_ c)
    (unwritable_timeout_ c) (unwritable_min_checks_ c) (inactive_timeout_ c) (reported_ c) (pair_state_ c)
    (receiving_timeout_ c) (time_created_ms_ c) (num_pings_sent_ c) (remote_support_goog_ping_ c)
    (cached_stun_binding_ c) (field_trials_ c).
Definition with_pings_since_last_response (v : list SentPing) (c : Connection) : Connection :=
  mkConn (local_candidate_index_ c) (remote_candidate_ c) (stats_ c) (write_state_ c) (receiving_ c)
    (conn_connected_ c) (pruned_ c) (selected_ c) (use_candidate_attr_ c) (nomination_ c) (acked_nomination_ c)
    (remote_nomination_ c) (remote_ice_mode_ c) (conn_requests_ c) (rtt_ c) (rtt_samples_ c)
    (total_round_trip_time_ms_ c) (current_round_trip_time_ms_ c) (last_ping_sent_ c) (last_ping_received_ c)
    (last_data_received_ c) (last_ping_response_received_ c) (receiving_unchanged_since_ c) v
    (last_ping_id_received_ c) (unwritable_timeout_ c) (unwritable_min_checks_ c) (inactive_timeout_ c) (reported_ c)
    (pair_state_ c) (receiving_timeout_ c) (time_created_ms_ c) (num_pings_sent_ c) (remote_support_goog_ping_ c)
    (cached_stun_binding_ c) (field_trials_ c).
Definition with_last_ping_id_received (v : option (list byte)) (c : Connection) : Connection :=
  mkConn (local_candidate_index_ c) (remote_candidate_ c) (stats_ c) (write_state_ c) (receiving_ c)
    (conn_connected_ c) (pruned_ c) (selected_ c) (use_candidate_attr_ c) (nomination_ c) (acked_nomination_ c)
    (remote_nomination_ c) (remote_ice_mode_ c) (conn_requests_ c) (rtt_ c) (rtt_samples_ c)
    (total_round_trip_time_ms_ c) (current_round_trip_time_ms_ c) (last_ping_sent_ c) (last_ping_received_ c)
    (last_data_received_ c) (last_ping_response_received_ c) (receiving_unchanged_since_ c)
    (pings_since_last_response_ c) v (unwritable_timeout_ c) (unwritable_min_checks_ c) (inactive_timeout_ c)
    (reported_ c) (pair_state_ c) (receiving_timeout_ c) (time_created_ms_ c) (num_pings_sent_ c)
    (remote_support_goog_ping_ c) (cached_stun_binding_ c) (field_trials_ c).
Definition with_unwritable_timeout (v : option Z) (c : Connection) : Connection :=
  mkConn (local_candidate_index_ c) (remote_candidate_ c) (stats_ c) (write_state_ c) (receiving_ c)
    (conn_connected_ c) (pruned_ c) (selected_ c) (use_candidate_attr_ c) (nomination_ c) (acked_nomination_ c)
    (remote_nomination_ c) (remote_ice_mode_ c) (conn_requests_ c) (rtt_ c) (rtt_samples_ c)
    (total_round_trip_time_ms_ c) (current_round_trip_time_ms_ c) (last_ping_sent_ c) (last_ping_received_ c)
    (last_data_received_ c) (last_ping_response_received_ c) (receiving_unchanged_since_ c)
    (pings_since_last_response_ c) (last_ping_id_received_ c) v (unwritable_min_checks_ c) (inactive_timeout_ c)
    (reported_ c) (pair_state_ c) (receiving_timeout_ c) (time_created_ms_ c) (num_pings_sent_ c)
    (remote_support_goog_ping_ c) (cached_stun_binding_ c) (field_trials_ c).
Definition with_unwritable_min_checks (v : option Z) (c : Connection) : Connection :=
  mkConn (local_candidate_index_ c) (remote_candidate_ c) (stats_ c) (write_state_ c) (receiving_ c)
    (conn_connected_ c) (pruned_ c) (selected_ c) (use_candidate_attr_ c) (nomination_ c) (acked_nomination_ c)
    (remote_nomination_ c) (remote_ice_mode_ c) (conn_requests_ c) (rtt_ c) (rtt_samples_ c)
    (total_round_trip_time_ms_ c) (current_round_trip_time_ms_ c) (last_ping_sent_ c) (last_ping_received_ c)
    (last_data_received_ c) (last_ping_response_received_ c) (receiving_unchanged_since_ c)
    (pings_since_last_response_ c) (last_ping_id_received_ c) (unwritable_timeout_ c) v (inactive_timeout_ c)
    (reported_ c) (pair_state_ c) (receiving_timeout_ c) (time_created_ms_ c) (num_pings_sent_ c)
    (remote_support_goog_ping_ c) (cached_stun_binding_ c) (field_trials_ c).
Definition with_inactive_timeout (v : option Z) (c : Connection) : Connection :=
  mkConn (local_candidate_index_ c) (remote_candidate_ c) (stats_ c) (write_state_ c) (receiving_ c)
    (conn_connected_ c) (pruned_ c) (selected_ c) (use_candidate_attr_ c) (nomination_ c) (acked_nomination_ c)
    (remote_nomination_ c) (remote_ice_mode_ c) (conn_requests_ c) (rtt_ c) (rtt_samples_ c)
    (total_round_trip_time_ms_ c) (current_round_trip_time_ms_ c) (last_ping_sent_ c) (last_ping_received_ c)
    (last_data_received_ c) (last_ping_response_received_ c) (receiving_unchanged_since_ c)
    (pings_since_last_response_ c) (last_ping_id_received_ c) (unwritable_timeout_ c) (unwritable_min_checks_ c) v
    (reported_ c) (pair_state_ c) (receiving_timeout_ c) (time_created_ms_ c) (num_pings_sent_ c)
    (remote_support_goog_ping_ c) (cached_stun_binding_ c) (field_trials_ c).
Definition with_reported (v : bool) (c : Connection) : Connection :=
  mkConn (local_candidate_index_ c) (remote_candidate_ c) (stats_ c) (write_state_ c) (receiving_ c)
    (conn_connected_ c) (pruned_ c) (selected_ c) (use_candidate_attr_ c) (nomination_ c) (acked_nomination_ c)
    (remote_nomination_ c) (remote_ice_mode_ c) (conn_requests_ c) (rtt_ c) (rtt_samples_ c)
    (total_round_trip_time_ms_ c) (current_round_trip_time_ms_ c) (last_ping_sent_ c) (last_ping_received_ c)
    (last_data_received_ c) (last_ping_response_received_ c) (receiving_unchanged_since_ c)
    (pings_since_last_response_ c) (last_ping_id_received_ c) (unwritable_timeout_ c) (unwritable_min_checks_ c)
    (inactive_timeout_ c) v (pair_state_ c) (receiving_timeout_ c) (time_created_ms_ c) (num_pings_sent_ c)
    (remote_support_goog_ping_ c) (cached_stun_binding_ c) (field_trials_ c).
Definition with_pair_state (v : IceCandidatePairState) (c : Connection) : Connection :=
  mkConn (local_candidate_index_ c) (remote_candidate_ c) (stats_ c) (write_state_ c) (receiving_ c)
    (conn_connected_ c) (pruned_ c) (selected_ c) (use_candidate_attr_ c) (nomination_ c) (acked_nomination_ c)
    (remote_nomination_ c) (remote_ice_mode_ c) (conn_requests_ c) (rtt_ c) (rtt_samples_ c)
    (total_round_trip_time_ms_ c) (current_round_trip_time_ms_ c) (last_ping_sent_ c) (last_ping_received_ c)
    (last_data_received_ c) (last_ping_response_received_ c) (receiving_unchanged_since_ c)
    (pings_since_last_response_ c) (last_ping_id_received_ c) (unwritable_timeout_ c) (unwritable_min_checks_ c)
    (inactive_timeout_ c) (reported_ c) v (receiving_timeout_ c) (time_created_ms_ c) (num_pings_sent_ c)
    (remote_support_goog_ping_ c) (cached_stun_binding_ c) (field_trials_ c).
Definition with_receiving_timeout (v : option Z) (c : Connection) : Connection :=
  mkConn (local_candidate_index_ c) (remote_candidate_ c) (stats_ c) (write_state_ c) (receiving_ c)
    (conn_connected_ c) (pruned_ c) (selected_ c) (use_candidate_attr_ c) (nomination_ c) (acked_nomination_ c)
    (remote_nomination_ c) (remote_ice_mode_ c) (conn_requests_ c) (rtt_ c) (rtt_samples_ c)
    (total_round_trip_time_ms_ c) (current_round_trip_time_ms_ c) (last_ping_sent_ c) (last_ping_received_ c)
    (last_data_received_ c) (last_ping_response_received_ c) (receiving_unchanged_since_ c)
    (pings_since_last_response_ c) (last_ping_id_received_ c) (unwritable_timeout_ c) (unwritable_min_checks_ c)
    (inactive_timeout_ c) (reported_ c) (pair_state_ c) v (time_created_ms_ c) (num_pings_sent_ c)
    (remote_support_goog_ping_ c) (cached_stun_binding_ c) (field_trials_ c).
Definition with_remote_support_goog_ping (v : option bool) (c : Connection) : Connection :=
  mkConn (local_candidate_index_ c) (remote_candidate_ c) (stats_ c) (write_state_ c) (receiving_ c)
    (conn_connected_ c) (pruned_ c) (selected_ c) (use_candidate_attr_ c) (nomination_ c) (acked_nomination_ c)
    (remote_nomination_ c) (remote_ice_mode_ c) (conn_requests_ c) (rtt_ c) (rtt_samples_ c)
    (total_round_trip_time_ms_ c) (current_round_trip_time_ms_ c) (last_ping_sent_ c) (last_ping_received_ c)
    (last_data_received_ c) (last_ping_response_received_ c) (receiving_unchanged_since_ c)
    (pings_since_last_response_ c) (last_ping_id_received_ c) (unwritable_timeout_ c) (unwritable_min_checks_ c)
    (inactive_timeout_ c) (reported_ c) (pair_state_ c) (receiving_timeout_ c) (time_created_ms_ c)
    (num_pings_sent_ c) v (cached_stun_binding_ c) (field_trials_ c).
Definition with_cached_stun_binding (v : option StunMessage) (c : Connection) : Connection :=
  mkConn (local_candidate_index_ c) (remote_candidate_ c) (stats_ c) (write_state_ c) (receiving_ c)
    (conn_connected_ c) (pruned_ c) (selected_ c) (use_candidate_attr_ c) (nomination_ c) (acked_nomination_ c)
    (remote_nomination_ c) (remote_ice_mode_ c) (conn_requests_ c) (rtt_ c) (rtt_samples_ c)
    (total_round_trip_time_ms_ c) (current_round_trip_time_ms_ c) (last_ping_sent_ c) (last_ping_received_ c)
    (last_data_received_ c) (last_ping_response_received_ c) (receiving_unchanged_since_ c)
    (pings_since_last_response_ c) (last_ping_id_received_ c) (unwritable_timeout_ c) (unwritable_min_checks_ c)
    (inactive_timeout_ c) (reported_ c) (pair_state_ c) (receiving_timeout_ c) (time_created_ms_ c)
    (num_pings_sent_ c) (remote_support_goog_ping_ c) v (field_trials_ c).
Definition with_field_trials (v : IceFieldTrials) (c : Connection) : Connection :=
  mkConn (local_candidate_index_ c) (remote_candidate_ c) (stats_ c) (write_state_ c) (receiving_ c)
    (conn_connected_ c) (pruned_ c) (selected_ c) (use_candidate_attr_ c) (nomination_ c) (acked_nomination_ c)
    (remote_nomination_ c) (remote_ice_mode_ c) (conn_requests_ c) (rtt_ c) (rtt_samples_ c)
    (total_round_trip_time_ms_ c) (current_round_trip_time_ms_ c) (last_ping_sent_ c) (last_ping_received_ c)
    (last_data_received_ c) (last_ping_response_received_ c) (receiving_unchanged_since_ c)
    (pings_since_last_response_ c) (last_ping_id_received_ c) (unwritable_timeout_ c) (unwritable_min_checks_ c)
    (inactive_timeout_ c) (reported_ c) (pair_state_ c) (receiving_timeout_ c) (time_created_ms_ c)
    (num_pings_sent_ c) (remote_support_goog_ping_ c) (cached_stun_binding_ c) v.
