(* ===== verification/IceConnection.v ===== *)
(** * network/stun/connection.cc: connectivity of a pair of candidates

    An [Agent] is a port with one of its connections; the operations run in
    the monad of [IcePort] over it.  [now] is the clock.  Logging is left out;
    [Destroy] only logs, since the message that would delete the connection
    is commented out, and [Ping] does nothing, since its body is compiled
    out. *)

From Stdlib Require Import ZArith Lia String.
From stdpp Require Import gmap.
From S2P Require Import Prelude ByteOrder ConstBuffer ByteBuffer IpAddress SocketAddress StunAttr StunMessage StunNames StunAuth StunRequest IceCandidate IcePort IceConnState.
Local Open Scope Z_scope.
Local Open Scope list_scope.

Definition DEFAULT_RTT : Z := 3000.
Definition MINIMUM_RTT : Z := 100.
Definition MAXIMUM_RTT : Z := 60000.
Definition RTT_RATIO : Z := 3.
Definition kSupportGoogPingVersionRequestIndex : Z := 0.
Definition kSupportGoogPingVersionResponseIndex : Z := 0.
Definition kGoogPingVersion : Z := 1.

(** ** Pure functions of a connection *)

(** The index is an unsigned number. *)
Definition TooManyFailures (pings : list SentPing) (maximum_failures rtt_estimate now : Z) : outcome bool :=
  if zlen pings <? maximum_failures then mret false else
  match pings !! Z.to_nat (wrap32 (maximum_failures - 1)) with
  | Some p => mret (sent_time p + rtt_estimate <? now)
  | None => Crash OutOfBounds
  end.
Definition TooLongWithoutResponse (pings : list SentPing) (maximum_time now : Z) : bool :=
  match pings with [] => false | first :: _ => sent_time first + maximum_time <? now end.
Definition ConservativeRTTEstimate (rtt : Z) : Z :=
  if 2 * rtt <=? MINIMUM_RTT then MINIMUM_RTT else if MAXIMUM_RTT <=? 2 * rtt then MAXIMUM_RTT else 2 * rtt.

(** [uint32_t] arithmetic inside the sum. *)
Definition pair_priority (role : IceRole) (local remote : Z) : Z :=
  let formula g d := Z.shiftl (Z.min g d) 32 + wrap32 (2 * Z.max g d + (if d <? g then 1 else 0)) in
  match role with
  | ICEROLE_UNKNOWN => 0
  | ICEROLE_CONTROLLING => formula local remote
  | ICEROLE_CONTROLLED => formula remote local
  end.

Definition writable (c : Connection) : bool := bool_decide (write_state_ c = STATE_WRITABLE).
Definition weak (c : Connection) : bool := negb (writable c && receiving_ c && conn_connected_ c).
Definition active (c : Connection) : bool := negb (bool_decide (write_state_ c = STATE_WRITE_TIMEOUT)).
Definition nominated (c : Connection) : bool := negb (acked_nomination_ c =? 0) || negb (remote_nomination_ c =? 0).
Definition last_received (c : Connection) : Z :=
  Z.max (last_data_received_ c) (Z.max (last_ping_received_ c) (last_ping_response_received_ c)).
Definition unwritable_timeout (c : Connection) : Z := default CONNECTION_WRITE_CONNECT_TIMEOUT (unwritable_timeout_ c).
Definition unwritable_min_checks (c : Connection) : Z := default CONNECTION_WRITE_CONNECT_FAILURES (unwritable_min_checks_ c).
Definition inactive_timeout (c : Connection) : Z := default CONNECTION_WRITE_TIMEOUT (inactive_timeout_ c).
Definition receiving_timeout (c : Connection) : Z := default WEAK_CONNECTION_RECEIVE_TIMEOUT (receiving_timeout_ c).

Definition dead (now : Z) (c : Connection) : bool :=
  if 0 <? last_received c then
    if now <=? last_received c + DEAD_CONNECTION_RECEIVE_TIMEOUT then false else
    match pings_since_last_response_ c with
    | first :: _ => sent_time first + DEAD_CONNECTION_RECEIVE_TIMEOUT <? now
    | [] => last_received c + dead_connection_timeout_ms (field_trials_ c) <? now
    end
  else if active c then false
  else time_created_ms_ c + MIN_CONNECTION_LIFETIME <? now.
Definition rtt_converged (c : Connection) : bool := RTT_RATIO + 1 <? rtt_samples_ c.
Definition missing_responses (now : Z) (c : Connection) : bool :=
  match pings_since_last_response_ c with [] => false | first :: _ => 2 * rtt_ c <? now - sent_time first end.
Definition stable (now : Z) (c : Connection) : bool := rtt_converged c && negb (missing_responses now c).
Definition TooManyOutstandingPings (max : option Z) (c : Connection) : bool :=
  match max with None => false | Some m => negb (zlen (pings_since_last_response_ c) <? m) end.
Definition ComputeNetworkCost (p : Port) (c : Connection) : Z := network_cost_ p + cand_network_cost (remote_candidate_ c).

(** ** Agents *)

Record Agent : Type := mkAgent { port_ : Port; self : Connection }.
Inductive conn_event : Type :=
| FromPort (e : port_event)
| SignalStateChange
| SignalNominated
| SignalReadPacket (data : list byte)
| SignalReadyToSend.
Definition conning (A : Type) : Type := act Agent conn_event A.

Definition on_port {A} (m : porting A) : conning A := fun s =>
  match m (port_ s) with
  | Ret (a, p, out) => Ret (a, mkAgent p (self s), map FromPort out)
  | Crash f => Crash f
  end.
Definition this : conning Connection := s ← get; mret (self s).
Definition change (f : Connection -> Connection) : conning unit := s ← get; put (mkAgent (port_ s) (f (self s))).
Definition count (f : ConnectionInfo -> ConnectionInfo) : conning unit := change (fun c => with_stats (f (stats_ c)) c).

Definition local_candidate : conning Candidate :=
  s ← get;
  match candidates_ (port_ s) !! Z.to_nat (local_candidate_index_ (self s)) with
  | Some c => mret c
  | None => run_outcome (Crash AssertionFailed)
  end.
Definition priority : conning Z :=
  s ← get;
  match ice_role_ (port_ s) with
  | ICEROLE_UNKNOWN => mret 0
  | role => l ← local_candidate; mret (pair_priority role (cand_priority l) (cand_priority (remote_candidate_ (self s))))
  end.

(** ** States *)

Definition set_write_state (value : WriteState) : conning unit :=
  c ← this;
  change (with_write_state value);;
  when (negb (bool_decide (value = write_state_ c))) (tell SignalStateChange).
Definition UpdateReceiving (now : Z) : conning unit :=
  c ← this;
  let receiving :=
    if last_ping_sent_ c <? last_ping_response_received_ c then true
    else (0 <? last_received c) && (now <=? last_received c + receiving_timeout c) in
  if Bool.eqb (receiving_ c) receiving then mret tt else
  change (fun c => with_receiving_unchanged_since now (with_receiving receiving c));;
  tell SignalStateChange.
Definition set_connected (value : bool) : conning unit :=
  c ← this;
  change (with_conn_connected value);;
  when (negb (Bool.eqb value (conn_connected_ c))) (tell SignalStateChange).

Definition requests_Clear : conning unit :=
  c ← this; w ← run_outcome (Clear_requests (conn_requests_ c)); change (with_conn_requests w).
Definition Prune : conning unit :=
  c ← this;
  when (negb (pruned_ c) || active c)
    (change (with_pruned true);; requests_Clear;; set_write_state STATE_WRITE_TIMEOUT).
Definition Destroy : conning unit := mret tt.
Definition FailAndDestroy : conning unit := change (with_pair_state FAILED);; Destroy.
Definition FailAndPrune : conning unit := change (with_pair_state FAILED);; Prune.

Definition UpdateState (now : Z) : conning unit :=
  c ← this;
  let rtt := ConservativeRTTEstimate (rtt_ c) in
  unwritable ← (if writable c then
      many ← run_outcome (TooManyFailures (pings_since_last_response_ c) (wrap32 (unwritable_min_checks c)) rtt now);
      mret (many && TooLongWithoutResponse (pings_since_last_response_ c) (unwritable_timeout c) now)
    else mret false);
  when unwritable (set_write_state STATE_WRITE_UNRELIABLE);;
  c ← this;
  when ((bool_decide (write_state_ c = STATE_WRITE_UNRELIABLE) || bool_decide (write_state_ c = STATE_WRITE_INIT)) &&
        TooLongWithoutResponse (pings_since_last_response_ c) (inactive_timeout c) now)
    (set_write_state STATE_WRITE_TIMEOUT);;
  UpdateReceiving now;;
  c ← this;
  when (dead now c) Destroy.

Definition Ping (now : Z) : conning unit := mret tt.
Definition ReceivedPing (now : Z) (request_id : option (list byte)) : conning unit :=
  change (fun c => with_last_ping_id_received request_id (with_last_ping_received now c));;
  UpdateReceiving now.

(** [GetNextMovingAverage] is exact on these numbers; the result is cut to an [int]. *)
Definition next_average (prev_average cur ratio : Z) : Z := Z.quot (ratio * prev_average + cur) (ratio + 1).
Definition ReceivedPingResponse (now rtt : Z) (request_id : list byte) (nomination : option Z) : conning unit :=
  run_outcome (assert_that (0 <? rtt));;
  change (fun c => match nomination with
    | Some n => if acked_nomination_ c <? n then with_acked_nomination n c else c | None => c end);;
  change (fun c => with_total_round_trip_time_ms (wrap64 (total_round_trip_time_ms_ c + rtt)) c);;
  change (with_current_round_trip_time_ms (Some (wrap32 rtt)));;
  change (with_pings_since_last_response []);;
  change (with_last_ping_response_received now);;
  UpdateReceiving now;;
  set_write_state STATE_WRITABLE;;
  change (with_pair_state SUCCEEDED);;
  change (fun c => with_rtt (if 0 <? rtt_samples_ c then next_average (rtt_ c) rtt RTT_RATIO else rtt) c);;
  change (fun c => with_rtt_samples (rtt_samples_ c + 1) c).

Definition ForgetLearnedState : conning unit :=
  requests_Clear;;
  change (with_receiving false);;
  change (with_write_state STATE_WRITE_INIT);;
  change (with_pings_since_last_response []).

Definition MaybeSetRemoteIceParametersAndGeneration (ufrag pwd : list byte) (generation : Z) : conning unit :=
  change (fun c =>
    let r := remote_candidate_ c in
    let r := if str_eqb (cand_username r) ufrag && bool_decide (cand_password r = [])
             then set_credentials (cand_component r) (cand_username r) pwd r else r in
    let r := if str_eqb (cand_username r) ufrag && str_eqb (cand_password r) pwd && (cand_generation r =? 0)
             then set_generation generation r else r in
    with_remote_candidate r c).
Definition MaybeUpdatePeerReflexiveCandidate (new_candidate : Candidate) : conning unit :=
  change (fun c =>
    let r := remote_candidate_ c in
    if str_eqb (cand_type r) PRFLX_PORT_TYPE && negb (str_eqb (cand_type new_candidate) PRFLX_PORT_TYPE) &&
       str_eqb (cand_protocol r) (cand_protocol new_candidate) && sa_eqb (cand_address r) (cand_address new_candidate) &&
       str_eqb (cand_username r) (cand_username new_candidate) && str_eqb (cand_password r) (cand_password new_candidate) &&
       (cand_generation r =? cand_generation new_candidate)
    then with_remote_candidate new_candidate c else c).

(** The constructor. *)
Definition Connection_new (index : Z) (remote_candidate : Candidate) (now : Z) : Connection :=
  mkConn index remote_candidate ConnectionInfo_new STATE_WRITE_INIT false true false false false 0 0 0 ICEMODE_FULL
    (mkWorld ∅ ∅ [] []) DEFAULT_RTT 0 0 None 0 0 0 0 0 [] None None None None false WAITING None now 0 None None kDefaultFieldTrials.
