(* ===== verification/IceCheck.v ===== *)
(** * network/stun/connection.cc: connectivity checks

    The request that a check sends ([Prepare]), what a connection does with a
    packet ([OnReadPacket]) and with the answers to its requests, and the
    responses it sends.  [SendTo] is the virtual call of the port with its
    result. *)

From Stdlib Require Import ZArith Lia String.
From stdpp Require Import gmap.
From S2P Require Import Prelude ByteOrder ConstBuffer ByteBuffer IpAddress SocketAddress StunAttr StunMessage StunNames StunAuth StunRequest IceCandidate IcePort IceConnState IceConnection.
Local Open Scope Z_scope.
Local Open Scope list_scope.

Definition uint32_of (a : StunAttribute) : Z := match attr_body a with UInt32 v => v | _ => 0 end.
Definition types_of (a : StunAttribute) : list Z := match attr_body a with UInt16List l => l | _ => [] end.

Section Checks.
Context `{Heap} (inet_ntop : address_family -> list byte -> list byte).
Context (g_Crc32 : option (Z -> list byte -> outcome Z)) (crc_addr uninitialised : Z).
Context (SendTo : list byte -> SocketAddress -> Z).

(** ** The request *)

(** What the cached request must agree with. *)
Definition ping_mask (type : Z) : bool :=
  negb (type =? kStunAttrFingerprint) && negb (type =? kStunAttrMessageIntegrity) &&
  negb (type =? kStunAttrRetransmitCount) && negb (type =? kStunAttrGoodMiscInfo).
Definition ShouldSendGoogPing (message : StunMessage) (c : Connection) : outcome bool :=
  match remote_support_goog_ping_ c, cached_stun_binding_ c with
  | Some true, Some cached => EqualAttributes cached message ping_mask
  | _, _ => mret false
  end.

Definition AddUInt32 (type value : Z) (m : StunMessage) : outcome StunMessage := AddAttribute (StunUInt32Attribute type value) m.
Definition prflx_priority (local : Candidate) : Z :=
  let type_preference := if str_eqb (cand_protocol local) TCP_PROTOCOL_NAME then ICE_TYPE_PREFERENCE_PRFLX_TCP else ICE_TYPE_PREFERENCE_PRFLX in
  Z.lor (Z.shiftl type_preference 24) (Z.land (cand_priority local) 0x00FFFFFF).
Definition network_info (p : Port) : Z := wrap32 (Z.lor (Z.shiftl (net_id (network_ p)) 16) (network_cost_ p)).
Definition role_attributes (p : Port) (c : Connection) (request : StunMessage) : outcome StunMessage :=
  match ice_role_ p with
  | ICEROLE_CONTROLLING =>
      request ← AddAttribute (StunUInt64Attribute kStunAttrICEControlling (tiebreaker_ p)) request;
      request ← (if use_candidate_attr_ c then AddAttribute (CreateByteString kStunAttrICEUseCandidate) request else mret request);
      if negb (nomination_ c =? 0) && negb (nomination_ c =? acked_nomination_ c)
      then AddUInt32 kStunAttrICENomination (nomination_ c) request else mret request
  | ICEROLE_CONTROLLED => AddAttribute (StunUInt64Attribute kStunAttrICEControlled (tiebreaker_ p)) request
  | ICEROLE_UNKNOWN => mret request
  end.
Definition Prepare (local : Candidate) (p : Port) (c : Connection) (request : StunMessage) : outcome StunMessage :=
  let request := Msg_SetType (message_number kStunMessageBindingRequest) request in
  let username := CreateStunUsername (cand_username (remote_candidate_ c)) p in
  request ← AddAttribute (StunByteStringAttribute kStunAttrUsername username) request;
  request ← (if send_retransmit_count_attribute_ p
             then AddUInt32 kStunAttrRetransmitCount (wrap32 (zlen (pings_since_last_response_ c) - 1)) request else mret request);
  request ← AddUInt32 kStunAttrICENetworkInfo (network_info p) request;
  request ← role_attributes p c request;
  request ← AddUInt32 kStunAttrICEPriority (prflx_priority local) request;
  request ← (if enable_goog_ping (field_trials_ c) && bool_decide (remote_support_goog_ping_ c = None) then
               list ← AddTypeAtIndex kSupportGoogPingVersionRequestIndex kGoogPingVersion (CreateUInt16ListAttribute kStunAttrGoodMiscInfo);
               AddAttribute list request
             else mret request);
  goog ← ShouldSendGoogPing request c;
  if (goog : bool) then
    let request := ClearAttributes (Msg_SetType (message_number kStunGoodPingRequest) request) in
    '(_, request) ← AddMessageIntegrity32 (cand_password (remote_candidate_ c)) request;
    mret request
  else
    '(_, request) ← AddMessageIntegrity (cand_password (remote_candidate_ c)) request;
    '(_, request) ← AddFingerprint g_Crc32 crc_addr request;
    mret request.

(** ** Responses that are sent *)

Definition SendResponseMessage (response : StunMessage) : conning unit :=
  c ← this;
  let addr := cand_address (remote_candidate_ c) in
  '(_, data) ← run_outcome (write_new response);
  tell (FromPort (Sends data addr));;
  when (0 <=? SendTo data addr) (count (fun i => mkInfo (sent_discarded_packets i) (sent_total_packets i) (sent_ping_requests_total i)
    (sent_ping_requests_before_first_response i) (sent_ping_responses i + 1) (packets_received i) (recv_ping_requests i) (recv_ping_responses i))).

Definition announce (request response : StunMessage) : outcome StunMessage :=
  match GetUInt16List request kStunAttrGoodMiscInfo with
  | None => mret response
  | Some goog_misc =>
      if zlen (types_of goog_misc) <? kSupportGoogPingVersionRequestIndex then mret response else
      version ← GetType (types_of goog_misc) kSupportGoogPingVersionRequestIndex;
      if version <? 1 then mret response else
      list ← AddTypeAtIndex kSupportGoogPingVersionResponseIndex kGoogPingVersion (CreateUInt16ListAttribute kStunAttrGoodMiscInfo);
      AddAttribute list response
  end.
(** The response, before the integrity attributes. *)
Definition binding_response (request : StunMessage) (c : Connection) : outcome StunMessage :=
  response ← StunMessage_new Stun uninitialised;
  let response := Msg_SetType (message_number kStunMessageBindingResponse) response in
  '(_, response) ← SetTransactionID (transaction_id_ request) response;
  response ← (match GetUInt32 request kStunAttrRetransmitCount with
              | Some a => AddUInt32 kStunAttrRetransmitCount (uint32_of a) response
              | None => mret response
              end);
  response ← AddAttribute (StunXorAddressAttribute kStunAttrXorMappedAddress (cand_address (remote_candidate_ c))) response;
  if announce_goog_ping (field_trials_ c) then announce request response else mret response.
Definition SendStunBindingResponse (request : StunMessage) : conning unit :=
  run_outcome (assert_that (is_type kStunMessageBindingRequest request));;
  match GetByteString request kStunAttrUsername with
  | None => run_outcome (Crash AssertionFailed)
  | Some _ =>
      c ← this;
      response ← run_outcome (binding_response request c);
      local ← local_candidate;
      '(_, response) ← run_outcome (AddMessageIntegrity (cand_password local) response);
      '(_, response) ← run_outcome (AddFingerprint g_Crc32 crc_addr response);
      SendResponseMessage response
  end.
Definition SendGoogPingResponse (request : StunMessage) : conning unit :=
  run_outcome (assert_that (is_type kStunGoodPingRequest request));;
  response ← run_outcome (StunMessage_new Stun uninitialised);
  let response := Msg_SetType (message_number kStunGoodPingResponse) response in
  '(_, response) ← run_outcome (SetTransactionID (transaction_id_ request) response);
  local ← local_candidate;
  '(_, response) ← run_outcome (AddMessageIntegrity32 (cand_password local) response);
  SendResponseMessage response.

(** ** Requests that arrive *)

Definition requested_nomination (msg : StunMessage) : Z :=
  match GetUInt32 msg kStunAttrICENomination with
  | Some a => uint32_of a
  | None => match GetByteString msg kStunAttrICEUseCandidate with Some _ => 1 | None => 0 end
  end.
Definition HandleStunBindingOrGoogPingRequest (now : Z) (msg : StunMessage) : conning unit :=
  ReceivedPing now (Some (transaction_id_ msg));;
  c ← this;
  let remote := remote_candidate_ c in
  go_on ← (if is_type kStunMessageBindingRequest msg
           then on_port (MaybeIceRoleConflict g_Crc32 crc_addr uninitialised (cand_address remote) msg (cand_username remote)) else mret true);
  if negb go_on then mret tt else
  count (fun i => mkInfo (sent_discarded_packets i) (sent_total_packets i) (sent_ping_requests_total i)
    (sent_ping_requests_before_first_response i) (sent_ping_responses i) (packets_received i) (recv_ping_requests i + 1) (recv_ping_responses i));;
  (if is_type kStunMessageBindingRequest msg then SendStunBindingResponse msg else SendGoogPingResponse msg);;
  c ← this;
  when (negb (pruned_ c) && bool_decide (write_state_ c = STATE_WRITE_TIMEOUT)) (set_write_state STATE_WRITE_INIT);;
  s ← get;
  when (bool_decide (ice_role_ (port_ s) = ICEROLE_CONTROLLED) && (remote_nomination_ (self s) <? requested_nomination msg))
    (change (with_remote_nomination (requested_nomination msg));; tell SignalNominated);;
  match GetUInt32 msg kStunAttrICENetworkInfo with
  | None => mret tt
  | Some a =>
      let network_cost := wrap16 (uint32_of a) in
      c ← this;
      when (negb (network_cost =? cand_network_cost (remote_candidate_ c)))
        (remote ← run_outcome (set_network_cost network_cost (remote_candidate_ c));
         change (with_remote_candidate remote);; tell SignalStateChange)
  end.

(** ** Responses that arrive *)

Fixpoint candidate_at (l : list Candidate) (addr : SocketAddress) (i : Z) : option Z :=
  match l with [] => None | c :: l => if sa_eqb (cand_address c) addr then Some i else candidate_at l addr (i + 1) end.
Definition MaybeUpdateLocalCandidate (random : list byte) (request response : StunMessage) : conning unit :=
  match GetAddress response kStunAttrXorPeerAddress with
  | None => mret tt
  | Some addr =>
      s ← get;
      match candidate_at (candidates_ (port_ s)) (get_address addr) 0 with
      | Some i =>
          when (negb (local_candidate_index_ (self s) =? i)) (change (with_local_candidate_index i);; tell SignalStateChange)
      | None =>
          match GetUInt32 request kStunAttrICEPriority with
          | None => mret tt
          | Some priority_attr =>
              local ← local_candidate;
              foundation ← run_outcome (ComputeFoundation inet_ntop g_Crc32 crc_addr PRFLX_PORT_TYPE (cand_protocol local)
                                          (cand_relay_protocol local) (cand_address local));
              let c := set_prflx random PRFLX_PORT_TYPE foundation local in
              let c := set_related_address (cand_address local) (set_priority (uint32_of priority_attr) (set_address (get_address addr) c)) in
              i ← on_port (AddPrflxCandidate c);
              change (with_local_candidate_index i);;
              tell SignalStateChange
          end
      end
  end.

Definition sent_nomination (id : list byte) (pings : list SentPing) : option Z :=
  ping_nomination <$> List.find (fun p => str_eqb (ping_id p) id) pings.
Definition OnConnectionRequestResponse (now : Z) (random : list byte) (request : StunRequest) (response : StunMessage) : conning unit :=
  c ← this;
  ReceivedPingResponse now (Elapsed now request) (StunRequest.id request) (sent_nomination (StunRequest.id request) (pings_since_last_response_ c));;
  count (fun i => mkInfo (sent_discarded_packets i) (sent_total_packets i) (sent_ping_requests_total i)
    (sent_ping_requests_before_first_response i) (sent_ping_responses i) (packets_received i) (recv_ping_requests i) (recv_ping_responses i + 1));;
  if negb (is_type kStunMessageBindingRequest (req_msg request)) then mret tt else
  c ← this;
  (match remote_support_goog_ping_ c with
   | Some _ => mret tt
   | None =>
       match GetUInt16List response kStunAttrGoodMiscInfo with
       | Some goog_misc =>
           if zlen (types_of goog_misc) <? kSupportGoogPingVersionResponseIndex then change (with_remote_support_goog_ping (Some false)) else
           version ← run_outcome (GetType (types_of goog_misc) kSupportGoogPingVersionResponseIndex);
           change (with_remote_support_goog_ping (Some (kGoogPingVersion <=? version)))
       | None => change (with_remote_support_goog_ping (Some false))
       end
   end);;
  MaybeUpdateLocalCandidate random (req_msg request) response;;
  c ← this;
  (* an [optional<bool>] is true when it holds a value *)
  if enable_goog_ping (field_trials_ c) && bool_decide (is_Some (remote_support_goog_ping_ c)) then
    copy ← run_outcome (Msg_Clone uninitialised (req_msg request));
    change (with_cached_stun_binding copy)
  else mret tt.
Definition OnConnectionRequestErrorResponse (request : StunRequest) (response : StunMessage) : conning unit :=
  let error_code := GetErrorCodeValue response in
  change (with_cached_stun_binding None);;
  if (error_code =? kStunAttrUnknownAttributes) || (error_code =? error_number kStunServerError) || (error_code =? error_number kStunNotAuthorized)
  then mret tt
  else if error_code =? error_number kStunStaleCredentials then mret tt
  else if error_code =? error_number kStunRoleConflict then tell (FromPort RoleConflict)
  else if is_type kStunGoodPingRequest (req_msg request) then mret tt
  else FailAndDestroy.
Definition OnConnectionRequestSent : conning unit :=
  count (fun i => mkInfo (sent_discarded_packets i) (sent_total_packets i) (sent_ping_requests_total i + 1)
    (if recv_ping_responses i =? 0 then sent_ping_requests_before_first_response i + 1 else sent_ping_requests_before_first_response i)
    (sent_ping_responses i) (packets_received i) (recv_ping_requests i) (recv_ping_responses i)).

(** The manager finds the request, and calls back before it deletes it. *)
Definition requests_CheckResponse (now : Z) (random : list byte) (msg : StunMessage) : conning unit :=
  c ← this;
  let w := conn_requests_ c in
  match StunRequest.requests_ w !! transaction_id_ msg with
  | None => mret tt
  | Some p =>
      request ← run_outcome (deref p w);
      '(_, w') ← run_outcome (CheckResponse msg w);
      change (with_conn_requests w');;
      match drop (length (events w)) (events w') with
      | OnResponse _ response :: _ => OnConnectionRequestResponse now random request response
      | OnErrorResponse _ response :: _ => OnConnectionRequestErrorResponse request response
      | _ => mret tt
      end
  end.

(** ** A packet on this connection *)

Definition OnReadPacket (now : Z) (random data : list byte) : conning unit :=
  c ← this;
  let remote := remote_candidate_ c in
  r ← on_port (GetStunMessage g_Crc32 crc_addr uninitialised data (cand_address remote));
  match r with
  | NotStun =>
      change (with_last_data_received now);;
      UpdateReceiving now;;
      count (fun i => mkInfo (sent_discarded_packets i) (sent_total_packets i) (sent_ping_requests_total i)
        (sent_ping_requests_before_first_response i) (sent_ping_responses i) (packets_received i + 1) (recv_ping_requests i) (recv_ping_responses i));;
      tell (SignalReadPacket data);;
      c ← this;
      when (negb (pruned_ c) && bool_decide (write_state_ c = STATE_WRITE_TIMEOUT)) (set_write_state STATE_WRITE_INIT)
  | Handled => mret tt
  | Accepted msg remote_ufrag =>
      if is_type kStunMessageBindingRequest msg then
        if str_eqb remote_ufrag (cand_username remote) then HandleStunBindingOrGoogPingRequest now msg
        else on_port (SendBindingErrorResponse g_Crc32 crc_addr uninitialised msg (cand_address remote)
                        (error_number kStunNotAuthorized) (text "Not Authorized"))
      else if is_type kStunMessageBindingResponse msg || is_type kStunMessageBindingErrorResponse msg then
        ok ← run_outcome (ValidateMessageIntegrity data (zlen data) (cand_password remote));
        if (ok : bool) then requests_CheckResponse now random msg else mret tt
      else if is_type kStunMessageBindingIndication msg then ReceivedPing now (Some (transaction_id_ msg))
      else if is_type kStunGoodPingRequest msg then HandleStunBindingOrGoogPingRequest now msg
      else if is_type kStunGoodPingResponse msg || is_type kStunGoodPingErrorResponse msg then
        ok ← run_outcome (ValidateMessageIntegrity32 data (zlen data) (cand_password remote));
        if (ok : bool) then requests_CheckResponse now random msg else mret tt
      else mret tt
  end.
Definition OnReadyToSend : conning unit := tell SignalReadyToSend.

(** [ProxyConnection::Send] *)
Definition Proxy_Send (data : list byte) : conning Z :=
  c ← this;
  let sent := SendTo data (cand_address (remote_candidate_ c)) in
  tell (FromPort (Sends data (cand_address (remote_candidate_ c))));;
  run_outcome (if sent <=? 0 then assert_that (sent <? 0) else mret tt);;
  count (fun i => mkInfo (if sent <=? 0 then sent_discarded_packets i + 1 else sent_discarded_packets i) (sent_total_packets i + 1)
    (sent_ping_requests_total i) (sent_ping_requests_before_first_response i) (sent_ping_responses i) (packets_received i)
    (recv_ping_requests i) (recv_ping_responses i));;
  mret sent.
End Checks.
