(* ===== verification/IceController.v ===== *)
(** * network/stun/basic_ice_controller.{h,cc}: which connection to ping, use and prune

    The controller keeps pointers to connections, which are numbers here;
    [at_] is the memory behind them, which the controller reads only.  A
    [std::set] or [std::map] of pointers is a list in increasing order.  The
    functions that the channel passes to the constructor (the state of the
    transport, the role, whether a connection is pruned) are parameters, as
    are the field trials and the clock [now]. *)

From Stdlib Require Import ZArith Lia String.
From S2P Require Import Prelude IpAddress SocketAddress IceCandidate IcePort IceConnState IceConnection.
Local Open Scope Z_scope.
Local Open Scope list_scope.

(** ** Configuration (ice_transport_internal.h): the members that are read here *)

Record IceConfig : Type := mkConfig {
  cfg_receiving_timeout : option Z; backup_connection_ping_interval : option Z; prioritize_most_likely_candidate_pairs : bool;
  stable_writable_connection_ping_interval : option Z; presume_writable_when_fully_relayed : bool;
  receiving_switching_delay : option Z; ice_check_interval_strong_connectivity : option Z;
  ice_check_interval_weak_connectivity : option Z; ice_check_min_interval : option Z; network_preference : option AdapterType
}.
Definition IceConfig_new : IceConfig := mkConfig None None false None false None None None None None.
Definition receiving_timeout_or_default (c : IceConfig) : Z := default RECEIVING_TIMEOUT (cfg_receiving_timeout c).
Definition backup_connection_ping_interval_or_default (c : IceConfig) : Z :=
  default BACKUP_CONNECTION_PING_INTERVAL (backup_connection_ping_interval c).
Definition stable_writable_connection_ping_interval_or_default (c : IceConfig) : Z :=
  default STRONG_AND_STABLE_WRITABLE_CONNECTION_PING_INTERVAL (stable_writable_connection_ping_interval c).
Definition receiving_switching_delay_or_default (c : IceConfig) : Z := default RECEIVING_SWITCHING_DELAY (receiving_switching_delay c).
Definition ice_check_interval_strong_connectivity_or_default (c : IceConfig) : Z :=
  default STRONG_PING_INTERVAL (ice_check_interval_strong_connectivity c).
Definition ice_check_interval_weak_connectivity_or_default (c : IceConfig) : Z :=
  default WEAK_PING_INTERVAL (ice_check_interval_weak_connectivity c).
Definition ice_check_min_interval_or_default (c : IceConfig) : Z := default (-1) (ice_check_min_interval c).

Inductive EventType : Type :=
| REMOTE_CANDIDATE_GENERATION_CHANGE | NETWORK_PREFERENCE_CHANGE | NEW_CONNECTION_FROM_LOCAL_CANDIDATE
| NEW_CONNECTION_FROM_REMOTE_CANDIDATE | NEW_CONNECTION_FROM_UNKNOWN_REMOTE_ADDRESS | NOMINATION_ON_CONTROLLED_SIDE
| DATA_RECEIVED | CONNECT_STATE_CHANGE | SELECTED_CONNECTION_DESTROYED | ICE_CONTROLLER_RECHECK.
Record IceControllerEvent : Type := mkEvent { event_type : EventType; recheck_delay_ms : Z }.
Record SwitchResult : Type := mkSwitch { switch_to : option Z; recheck_event : option IceControllerEvent }.
Record PingResult : Type := mkPingResult { ping_connection : option Z; ping_recheck_delay_ms : Z }.
Inductive NominationMode : Type := REGULAR | AGGRESSIVE | SEMI_AGGRESSIVE.

Record BasicIceController : Type := mkController {
  config_ : IceConfig; selected_connection_ : option Z; connections : list Z; pinged_connections_ : list Z;
  unpinged_connections_ : list Z; initial_select_timestamp_ms_ : Z
}.
Definition BasicIceController_new : BasicIceController := mkController IceConfig_new None [] [] [] 0.

(** ** Ordered sets and maps of pointers, and algorithms *)

Fixpoint set_insert (x : Z) (s : list Z) : list Z :=
  match s with
  | [] => [x]
  | y :: s' => if x <? y then x :: s else if y =? x then s else y :: set_insert x s'
  end.
Definition set_erase (x : Z) (s : list Z) : list Z := List.filter (fun y => negb (y =? x)) s.
Definition in_set (x : Z) (s : list Z) : bool := existsb (Z.eqb x) s.
(** [insert] keeps the old value, [put] is [m[k] = v]. *)
Fixpoint pmap_insert (k v : Z) (m : list (Z * Z)) : list (Z * Z) :=
  match m with
  | [] => [(k, v)]
  | (k', v') :: m' => if k <? k' then (k, v) :: m else if k' =? k then m else (k', v') :: pmap_insert k v m'
  end.
Fixpoint pmap_find (k : Z) (m : list (Z * Z)) : option Z :=
  match m with [] => None | (k', v) :: m => if k' =? k then Some v else pmap_find k m end.

Fixpoint any_of (f : Z -> outcome bool) (l : list Z) : outcome bool :=
  match l with [] => mret false | x :: l => b ← f x; if (b : bool) then mret true else any_of f l end.
Fixpoint copy_if (f : Z -> outcome bool) (l : list Z) : outcome (list Z) :=
  match l with [] => mret [] | x :: l => b ← f x; l ← copy_if f l; mret (if (b : bool) then x :: l else l) end.
(** The first element that no later one is below; the first that is below no later one. *)
Definition min_element (lt : Z -> Z -> bool) (l : list Z) : option Z :=
  match l with [] => None | x :: l => Some (fold_left (fun m y => if lt y m then y else m) l x) end.
Definition max_element (lt : Z -> Z -> bool) (l : list Z) : option Z :=
  match l with [] => None | x :: l => Some (fold_left (fun m y => if lt m y then y else m) l x) end.
Fixpoint insert_stable (lt : Z -> Z -> bool) (x : Z) (l : list Z) : list Z :=
  match l with [] => [x] | y :: l' => if lt x y then x :: l else y :: insert_stable lt x l' end.
Definition stable_sort (lt : Z -> Z -> bool) (l : list Z) : list Z := fold_left (fun s x => insert_stable lt x s) l [].

(** ** The class *)

Definition MIN_PINGS_AT_WEAK_PING_INTERVAL : Z := 3.
Definition kMinImprovement : Z := 10.
Definition a_is_better : Z := 1.
Definition b_is_better : Z := -1.
Definition a_and_b_equal : Z := 0.

Section Controller.
Context (at_ : Z -> Agent) (transport_completed : bool) (ice_role : IceRole) (is_connection_pruned : Z -> bool).
Context (trials : IceFieldTrials) (now : Z).

Definition conn (i : Z) : Connection := self (at_ i).
(** The candidate of the connection among those of its port. *)
Definition local (i : Z) : Candidate :=
  default (Candidate_empty []) (candidates_ (port_ (at_ i)) !! Z.to_nat (local_candidate_index_ (conn i))).
Definition remote (i : Z) : Candidate := remote_candidate_ (conn i).
Definition network (i : Z) : Network := network_ (port_ (at_ i)).
Definition conn_priority (i : Z) : Z := pair_priority (ice_role_ (port_ (at_ i))) (cand_priority (local i)) (cand_priority (remote i)).
Definition conn_cost (i : Z) : Z := ComputeNetworkCost (port_ (at_ i)) (conn i).

Definition IsRelayRelay (i : Z) : bool := str_eqb (cand_type (local i)) RELAY_PORT_TYPE && str_eqb (cand_type (remote i)) RELAY_PORT_TYPE.
Definition IsUdp (i : Z) : bool := str_eqb (cand_relay_protocol (local i)) UDP_PROTOCOL_NAME.
Definition LocalCandidateUsesPreferredNetwork (i : Z) (preference : option AdapterType) : bool :=
  match preference with None => false | Some t => bool_decide (net_type (network i) = t) end.
Definition CompareCandidatePairsByNetworkPreference (a b : Z) (preference : option AdapterType) : Z :=
  let a_uses := LocalCandidateUsesPreferredNetwork a preference in
  let b_uses := LocalCandidateUsesPreferredNetwork b preference in
  if a_uses && negb b_uses then a_is_better else if negb a_uses && b_uses then b_is_better else a_and_b_equal.

(** *** Membership *)

Definition SetIceConfig (config : IceConfig) (t : BasicIceController) : BasicIceController :=
  mkController config (selected_connection_ t) (connections t) (pinged_connections_ t) (unpinged_connections_ t) (initial_select_timestamp_ms_ t).
Definition SetSelectedConnection (selected : option Z) (t : BasicIceController) : BasicIceController :=
  mkController (config_ t) selected (connections t) (pinged_connections_ t) (unpinged_connections_ t) (initial_select_timestamp_ms_ t).
Definition AddConnection (c : Z) (t : BasicIceController) : BasicIceController :=
  mkController (config_ t) (selected_connection_ t) (connections t ++ [c]) (pinged_connections_ t) (set_insert c (unpinged_connections_ t))
    (initial_select_timestamp_ms_ t).
Fixpoint erase_first (c : Z) (l : list Z) : outcome (list Z) :=
  match l with
  | [] => Crash UndefinedBehaviour
  | x :: l => if x =? c then mret l else l ← erase_first c l; mret (x :: l)
  end.
Definition OnConnectionDestroyed (c : Z) (t : BasicIceController) : outcome BasicIceController :=
  l ← erase_first c (connections t);
  mret (mkController (config_ t) (selected_connection_ t) l (set_erase c (pinged_connections_ t)) (set_erase c (unpinged_connections_ t))
          (initial_select_timestamp_ms_ t)).
Definition MarkConnectionPinged (c : option Z) (t : BasicIceController) : BasicIceController :=
  match c with
  | None => t
  | Some c =>
      if in_set c (pinged_connections_ t) then t else
      mkController (config_ t) (selected_connection_ t) (connections t) (set_insert c (pinged_connections_ t))
        (set_erase c (unpinged_connections_ t)) (initial_select_timestamp_ms_ t)
  end.

(** *** Intervals *)

Definition channel_weak (t : BasicIceController) : bool := match selected_connection_ t with None => true | Some s => weak (conn s) end.
Definition weak_ping_interval (t : BasicIceController) : Z :=
  Z.max (ice_check_interval_weak_connectivity_or_default (config_ t)) (ice_check_min_interval_or_default (config_ t)).
Definition strong_ping_interval (t : BasicIceController) : Z :=
  Z.max (ice_check_interval_strong_connectivity_or_default (config_ t)) (ice_check_min_interval_or_default (config_ t)).
Definition check_receiving_interval (t : BasicIceController) : Z :=
  Z.max MIN_CHECK_RECEIVING_INTERVAL (Z.quot (receiving_timeout_or_default (config_ t)) 10).
Definition CalculateActiveWritablePingInterval (c : Z) (t : BasicIceController) : Z :=
  if num_pings_sent_ (conn c) <? MIN_PINGS_AT_WEAK_PING_INTERVAL then weak_ping_interval t else
  let stable_interval := stable_writable_connection_ping_interval_or_default (config_ t) in
  if negb (channel_weak t) && stable now (conn c) then stable_interval
  else Z.min stable_interval WEAK_OR_STABILIZING_WRITABLE_CONNECTION_PING_INTERVAL.
Definition WritableConnectionPastPingInterval (c : Z) (t : BasicIceController) : bool :=
  last_ping_sent_ (conn c) + CalculateActiveWritablePingInterval c t <=? now.

(** *** What to ping *)

Definition is_selected (c : Z) (t : BasicIceController) : bool := bool_decide (selected_connection_ t = Some c).
Definition IsBackupConnection (c : Z) (t : BasicIceController) : bool := transport_completed && negb (is_selected c t) && active (conn c).
Definition IsPingable (t : BasicIceController) (c : Z) : outcome bool :=
  assert_that (negb (bool_decide (cand_username (remote c) = [])));;
  mret (if bool_decide (cand_password (remote c) = []) then false else
        if bool_decide (pair_state_ (conn c) = FAILED) then false else
        if negb (conn_connected_ (conn c)) && negb (writable (conn c)) then false else
        if TooManyOutstandingPings (max_outstanding_pings trials) (conn c) then false else
        if channel_weak t then true else
        if IsBackupConnection c t then
          (rtt_samples_ (conn c) =? 0) ||
          (last_ping_response_received_ (conn c) + backup_connection_ping_interval_or_default (config_ t) <=? now) else
        if negb (active (conn c)) then false else
        if negb (writable (conn c)) then true else WritableConnectionPastPingInterval c t).
Definition HasPingableConnection (t : BasicIceController) : outcome bool := any_of (IsPingable t) (connections t).

Definition MostLikelyToWork (conn1 conn2 : Z) : option Z :=
  let rr1 := IsRelayRelay conn1 in
  let rr2 := IsRelayRelay conn2 in
  if rr1 && negb rr2 then Some conn1 else if rr2 && negb rr1 then Some conn2 else
  if rr1 && rr2 then
    let udp1 := IsUdp conn1 in
    let udp2 := IsUdp conn2 in
    if udp1 && negb udp2 then Some conn1 else if udp2 && udp1 then Some conn2 else None
  else None.
Definition LeastRecentlyPinged (conn1 conn2 : Z) : option Z :=
  if last_ping_sent_ (conn conn1) <? last_ping_sent_ (conn conn2) then Some conn1 else
  if last_ping_sent_ (conn conn2) <? last_ping_sent_ (conn conn1) then Some conn2 else None.
(** [None]: the iterator behind the last connection is followed. *)
Definition MorePingable (t : BasicIceController) (conn1 conn2 : Z) : option Z :=
  match (if prioritize_most_likely_candidate_pairs (config_ t) then MostLikelyToWork conn1 conn2 else None) with
  | Some c => Some c
  | None =>
      match LeastRecentlyPinged conn1 conn2 with
      | Some c => Some c
      | None => List.find (fun c => (c =? conn1) || (c =? conn2)) (connections t)
      end
  end.
Definition less_pingable (t : BasicIceController) (conn1 conn2 : Z) : bool :=
  if conn1 =? conn2 then false else bool_decide (MorePingable t conn1 conn2 = Some conn2).

Definition GetBestConnectionByNetwork (t : BasicIceController) : list (Z * Z) :=
  let best := match selected_connection_ t with Some s => [(net_ptr (network s), s)] | None => [] end in
  fold_left (fun m c => pmap_insert (net_ptr (network c)) c m) (connections t) best.
Definition GetBestWritableConnectionPerNetwork (t : BasicIceController) : list Z :=
  List.filter (fun c => writable (conn c) && conn_connected_ (conn c)) (map snd (GetBestConnectionByNetwork t)).

Fixpoint oldest_triggered (t : BasicIceController) (l : list Z) (oldest : option Z) : outcome (option Z) :=
  match l with
  | [] => mret oldest
  | c :: l =>
      pingable ← IsPingable t c;
      let needs := negb (writable (conn c)) && (last_ping_sent_ (conn c) <? last_ping_received_ (conn c)) in
      let older := match oldest with None => true | Some o => last_ping_received_ (conn c) <? last_ping_received_ (conn o) end in
      oldest_triggered t l (if (pingable : bool) && needs && older then Some c else oldest)
  end.
Definition FindOldestConnectionNeedingTriggeredCheck (t : BasicIceController) : outcome (option Z) :=
  oldest_triggered t (connections t) None.

(** Rule 4, with the sets as they were found. *)
Definition ping_unpinged (t : BasicIceController) : outcome (option Z * BasicIceController) :=
  assert_that (zlen (connections t) =? zlen (pinged_connections_ t) + zlen (unpinged_connections_ t));;
  some ← any_of (IsPingable t) (unpinged_connections_ t);
  let t := if (some : bool) then t else
    mkController (config_ t) (selected_connection_ t) (connections t) []
      (fold_left (fun s c => set_insert c s) (pinged_connections_ t) (unpinged_connections_ t)) (initial_select_timestamp_ms_ t) in
  pingable_connections ← copy_if (IsPingable t) (unpinged_connections_ t);
  mret (max_element (less_pingable t) pingable_connections, t).
Definition FindNextPingableConnection (t : BasicIceController) : outcome (option Z * BasicIceController) :=
  let selected_due := match selected_connection_ t with
    | Some s => conn_connected_ (conn s) && writable (conn s) && WritableConnectionPastPingInterval s t | None => false end in
  if selected_due then mret (selected_connection_ t, t) else
  let per_network := if channel_weak t then
      min_element (fun c1 c2 => last_ping_sent_ (conn c1) <? last_ping_sent_ (conn c2))
        (List.filter (fun c => WritableConnectionPastPingInterval c t) (GetBestWritableConnectionPerNetwork t))
    else None in
  match per_network with
  | Some c => mret (Some c, t)
  | None =>
      triggered ← FindOldestConnectionNeedingTriggeredCheck t;
      match triggered with
      | Some c => mret (Some c, t)
      | None => ping_unpinged t
      end
  end.
Definition SelectConnectionToPing (last_ping_sent_ms : Z) (t : BasicIceController) : outcome (PingResult * BasicIceController) :=
  let need_more := existsb (fun c => active (conn c) && (num_pings_sent_ (conn c) <? MIN_PINGS_AT_WEAK_PING_INTERVAL)) (connections t) in
  let ping_interval := if channel_weak t || need_more then weak_ping_interval t else strong_ping_interval t in
  '(c, t) ← (if last_ping_sent_ms + ping_interval <=? now then FindNextPingableConnection t else mret (None, t));
  mret (mkPingResult c (Z.min ping_interval (check_receiving_interval t)), t).

(** *** What to use *)

Definition PresumedWritable (c : Z) (t : BasicIceController) : bool :=
  bool_decide (write_state_ (conn c) = STATE_WRITE_INIT) && presume_writable_when_fully_relayed (config_ t) &&
  str_eqb (cand_type (local c)) RELAY_PORT_TYPE &&
  (str_eqb (cand_type (remote c)) RELAY_PORT_TYPE || str_eqb (cand_type (remote c)) PRFLX_PORT_TYPE).
Definition ReadyToSend (c : option Z) (t : BasicIceController) : bool :=
  match c with
  | None => false
  | Some c => writable (conn c) || bool_decide (write_state_ (conn c) = STATE_WRITE_UNRELIABLE) || PresumedWritable c t
  end.

(** With the flag [missed_receiving_unchanged_threshold]. *)
Definition CompareConnectionStates (t : BasicIceController) (a b : Z) (threshold : option Z) : Z * bool :=
  let a_writable := writable (conn a) || PresumedWritable a t in
  let b_writable := writable (conn b) || PresumedWritable b t in
  if a_writable && negb b_writable then (a_is_better, false) else
  if negb a_writable && b_writable then (b_is_better, false) else
  if write_number (write_state_ (conn a)) <? write_number (write_state_ (conn b)) then (a_is_better, false) else
  if write_number (write_state_ (conn b)) <? write_number (write_state_ (conn a)) then (b_is_better, false) else
  if receiving_ (conn a) && negb (receiving_ (conn b)) then (a_is_better, false) else
  let b_receives := negb (receiving_ (conn a)) && receiving_ (conn b) in
  let long_enough := match threshold with
    | None => true
    | Some s => (receiving_unchanged_since_ (conn a) <=? s) && (receiving_unchanged_since_ (conn b) <=? s) end in
  if b_receives && long_enough then (b_is_better, false) else
  if writable (conn a) && writable (conn b) then
    if conn_connected_ (conn a) && negb (conn_connected_ (conn b)) then (a_is_better, b_receives) else
    if negb (conn_connected_ (conn a)) && conn_connected_ (conn b) then (b_is_better, b_receives) else (0, b_receives)
  else (0, b_receives).

Definition CompareCandidatePairNetworks (t : BasicIceController) (a b : Z) : Z :=
  let by_preference := CompareCandidatePairsByNetworkPreference a b (network_preference (config_ t)) in
  if negb (by_preference =? a_and_b_equal) then by_preference else
  if conn_cost a <? conn_cost b then a_is_better else if conn_cost b <? conn_cost a then b_is_better else a_and_b_equal.

(** [uint32_t] sums, whose difference becomes an [int]. *)
Definition generations (c : Z) : Z := wrap32 (cand_generation (remote c) + generation_ (port_ (at_ c))).
Definition CompareConnectionCandidates (t : BasicIceController) (a b : Z) : Z :=
  let by_networks := CompareCandidatePairNetworks t a b in
  if negb (by_networks =? a_and_b_equal) then by_networks else
  if conn_priority b <? conn_priority a then a_is_better else
  if conn_priority a <? conn_priority b then b_is_better else
  let cmp := to_int32 (generations a - generations b) in
  if negb (cmp =? 0) then cmp else
  if negb (is_connection_pruned a) && is_connection_pruned b then a_is_better else
  if is_connection_pruned a && negb (is_connection_pruned b) then b_is_better else 0.

Definition CompareConnections (t : BasicIceController) (a b : Z) (threshold : option Z) : Z * bool :=
  let '(state_cmp, missed) := CompareConnectionStates t a b threshold in
  if negb (state_cmp =? 0) then (state_cmp, missed) else
  let by_nomination := if bool_decide (ice_role = ICEROLE_CONTROLLED) then
      if remote_nomination_ (conn b) <? remote_nomination_ (conn a) then a_is_better else
      if remote_nomination_ (conn a) <? remote_nomination_ (conn b) then b_is_better else
      if last_data_received_ (conn b) <? last_data_received_ (conn a) then a_is_better else
      if last_data_received_ (conn a) <? last_data_received_ (conn b) then b_is_better else 0
    else 0 in
  if negb (by_nomination =? 0) then (by_nomination, missed) else (CompareConnectionCandidates t a b, missed).

Definition with_timestamp (ts : Z) (t : BasicIceController) : BasicIceController :=
  mkController (config_ t) (selected_connection_ t) (connections t) (pinged_connections_ t) (unpinged_connections_ t) ts.
Definition HandleInitialSelectDampening (new_connection : Z) (t : BasicIceController) : SwitchResult * BasicIceController :=
  match initial_select_dampening trials, initial_select_dampening_ping_received trials with
  | None, None => (mkSwitch (Some new_connection) None, t)
  | dampening, received =>
      let max_delay := match (if 0 <? last_ping_received_ (conn new_connection) then received else None) with
        | Some d => d
        | None => default 0 dampening end in
      let start_wait := if initial_select_timestamp_ms_ t =? 0 then now else initial_select_timestamp_ms_ t in
      if start_wait + max_delay <=? now then (mkSwitch (Some new_connection) None, with_timestamp 0 t) else
      let t := if initial_select_timestamp_ms_ t =? 0 then with_timestamp now t else t in
      let min_delay := match dampening with Some d => Z.min max_delay d | None => max_delay end in
      let min_delay := match received with Some d => Z.min min_delay d | None => min_delay end in
      (mkSwitch None (Some (mkEvent ICE_CONTROLLER_RECHECK min_delay)), t)
  end.
Definition ShouldSwitchConnection (reason : IceControllerEvent) (new_connection : option Z) (t : BasicIceController)
    : SwitchResult * BasicIceController :=
  match new_connection with
  | None => (mkSwitch None None, t)
  | Some n =>
      if negb (ReadyToSend new_connection t) || is_selected n t then (mkSwitch None None, t) else
      match selected_connection_ t with
      | None => HandleInitialSelectDampening n t
      | Some s =>
          if (CompareCandidatePairNetworks t n s =? b_is_better) && negb (receiving_ (conn n)) then (mkSwitch None None, t) else
          let delay := receiving_switching_delay_or_default (config_ t) in
          let '(cmp, missed) := CompareConnections t s n (Some (now - delay)) in
          let recheck := if missed && negb (delay =? 0) then Some (mkEvent (event_type reason) delay) else None in
          if cmp <? 0 then (mkSwitch (Some n) None, t) else
          if 0 <? cmp then (mkSwitch None recheck, t) else
          if rtt_ (conn n) <=? rtt_ (conn s) - kMinImprovement then (mkSwitch (Some n) None, t) else (mkSwitch None recheck, t)
      end
  end.
Definition better (t : BasicIceController) (a b : Z) : bool :=
  let cmp := fst (CompareConnections t a b None) in
  if negb (cmp =? 0) then 0 <? cmp else rtt_ (conn a) <? rtt_ (conn b).
Definition sorted (t : BasicIceController) : BasicIceController :=
  mkController (config_ t) (selected_connection_ t) (stable_sort (better t) (connections t)) (pinged_connections_ t)
    (unpinged_connections_ t) (initial_select_timestamp_ms_ t).
Definition SortAndSwitchConnection (reason : IceControllerEvent) (t : BasicIceController) : SwitchResult * BasicIceController :=
  let t := sorted t in ShouldSwitchConnection reason (head (connections t)) t.

(** *** What to prune and to nominate *)

Definition PruneConnections (t : BasicIceController) : list Z :=
  let best_connection_by_network := GetBestConnectionByNetwork t in
  List.filter (fun c =>
    let best := if IPIsAny (net_ip (network c)) then selected_connection_ t else pmap_find (net_ptr (network c)) best_connection_by_network in
    match best with
    | None => false
    | Some best => negb (c =? best) && negb (weak (conn best)) && (0 <=? CompareConnectionCandidates t best c)
    end) (connections t).

Definition GetUseCandidateAttr (c : Z) (mode : NominationMode) (remote_ice_mode : IceMode) (t : BasicIceController) : bool :=
  match mode with
  | REGULAR => false
  | AGGRESSIVE => match remote_ice_mode with ICEMODE_LITE => false | ICEMODE_FULL => true end
  | SEMI_AGGRESSIVE =>
      let selected := is_selected c t in
      match remote_ice_mode with
      | ICEMODE_LITE => selected && writable (conn c)
      | ICEMODE_FULL =>
          let better_than_selected := match selected_connection_ t with
            | None => true
            | Some s => negb (writable (conn s)) || (CompareConnectionCandidates t s c <? 0) end in
          selected || better_than_selected
      end
  end.
End Controller.
