(* ===== verification/IceOrder.v ===== *)
(** * The order of connections, and which one is used

    [CompareConnections] is the lexicographic order of a vector of numbers,
    the rank of a connection.  So the sort of [SortAndSwitchConnection] is by
    decreasing rank, and a switch is to a connection of the highest rank. *)

From Stdlib Require Import ZArith Lia String Sorting.Sorted.
From S2P Require Import Prelude IpAddress SocketAddress IceCandidate IcePort IceConnState IceConnection IceController.
Local Open Scope Z_scope.
Local Open Scope list_scope.

(** ** Lexicographic comparison: positive, zero or negative *)

Definition compare_Z (x y : Z) : Z := if y <? x then 1 else if x <? y then -1 else 0.
Fixpoint lex (u v : list Z) : Z :=
  match u, v with
  | x :: u, y :: v => let c := compare_Z x y in if c =? 0 then lex u v else c
  | _, _ => 0
  end.

Ltac compare_cases :=
  unfold compare_Z in *;
  repeat match goal with
  | |- context [?a <? ?b] => destruct (Z.ltb_spec a b)
  | |- context [?a =? ?b] => destruct (Z.eqb_spec a b)
  | H : context [?a <? ?b] |- _ => destruct (Z.ltb_spec a b)
  | H : context [?a =? ?b] |- _ => destruct (Z.eqb_spec a b)
  end; try lia.

Lemma lex_refl u : lex u u = 0.
Proof. induction u as [|x u IH]; [done|]. cbn. rewrite IH. compare_cases. Qed.
Lemma lex_sym u v : lex u v = - lex v u.
Proof. revert v. induction u as [|x u IH]; intros [|y v]; cbn; try done. rewrite (IH v). compare_cases. Qed.
Lemma lex_trans n u v w : length u = n -> length v = n -> length w = n -> 0 <= lex u v -> 0 <= lex v w -> 0 <= lex u w.
Proof.
  revert u v w. induction n as [|n IH]; intros [|x u] [|y v] [|z w]; cbn; try done. intros [= Hu] [= Hv] [= Hw].
  specialize (IH u v w Hu Hv Hw). compare_cases; auto.
Qed.
Lemma lex_app u u' v v' : length u = length v -> lex (u ++ u') (v ++ v') = if lex u v =? 0 then lex u' v' else lex u v.
Proof.
  revert v. induction u as [|x u IH]; intros [|y v]; cbn; try done. intros [= Hl].
  destruct (compare_Z x y =? 0) eqn:Hc; [by rewrite (IH v Hl)|by rewrite Hc].
Qed.

(** ** [stable_sort] for a total preorder *)

Section Sort.
Context (lt : Z -> Z -> bool) (Hsym : forall a b, lt a b = true -> lt b a = false).
Context (Htrans : forall a b c, lt b a = false -> lt c b = false -> lt c a = false).

Definition at_most (a b : Z) : Prop := lt b a = false.
Lemma insert_stable_perm x l : Permutation (insert_stable lt x l) (x :: l).
Proof.
  induction l as [|y l IH]; [done|]. cbn. destruct (lt x y); [done|]. rewrite IH. apply Permutation_swap.
Qed.
Lemma insert_stable_sorted x l : StronglySorted at_most l -> StronglySorted at_most (insert_stable lt x l).
Proof.
  induction l as [|y l IH]; cbn; intros Hs; [repeat constructor|]. inversion_clear Hs as [|? ? Hs' Hall].
  destruct (lt x y) eqn:Hlt.
  - constructor; [by constructor|]. constructor; [by apply Hsym|].
    eapply List.Forall_impl; [|exact Hall]. intros z Hz. eapply Htrans; [by apply Hsym|exact Hz].
  - constructor; [by apply IH|]. rewrite (insert_stable_perm x l). by constructor.
Qed.
Lemma insert_stable_filter f x l : (forall a, f a = true -> lt a x = false) -> (forall a, f a = true -> lt x a = false) ->
  StronglySorted at_most l -> f x = true ->
  List.filter f (insert_stable lt x l) = List.filter f l ++ [x].
Proof.
  intros Hge Hle Hs Hx. induction l as [|y l IH]; cbn; [by rewrite Hx|]. inversion_clear Hs as [|? ? Hs' Hall].
  destruct (lt x y) eqn:Hlt.
  - cbn. rewrite Hx. destruct (f y) eqn:Hy; [by rewrite (Hle y Hy) in Hlt|].
    assert (List.filter f l = []) as ->; [|done].
    clear IH Hs'. induction Hall as [|z l' Hz Hall IH]; [done|]. cbn. destruct (f z) eqn:Hf; [|done].
    exfalso. enough (lt x y = false) by congruence. eapply Htrans; [exact Hz|]. by apply Hle.
  - cbn. destruct (f y); cbn; by rewrite IH.
Qed.
Lemma insert_stable_skip f x l : f x = false -> List.filter f (insert_stable lt x l) = List.filter f l.
Proof.
  intros Hx. induction l as [|y l IH]; cbn; [by rewrite Hx|]. destruct (lt x y); cbn; [by rewrite Hx|]. by rewrite IH.
Qed.

Lemma sort_loop l : forall s, StronglySorted at_most s ->
  let r := fold_left (fun s x => insert_stable lt x s) l s in
  Permutation r (s ++ l) /\ StronglySorted at_most r /\
  forall f, (forall a b, f a = true -> f b = true -> lt a b = false) -> List.filter f r = List.filter f (s ++ l).
Proof.
  induction l as [|x l IH]; intros s Hs; cbn.
  { rewrite app_nil_r. auto. }
  destruct (IH _ (insert_stable_sorted x s Hs)) as (Hp & Hr & Hf). split; [|split; [exact Hr|]].
  - rewrite Hp, (insert_stable_perm x s). cbn. by apply Permutation_middle.
  - intros f Heq. rewrite (Hf f Heq), !List.filter_app. cbn. destruct (f x) eqn:Hx.
    + rewrite (insert_stable_filter f x s); auto. by rewrite <- app_assoc.
    + by rewrite insert_stable_skip.
Qed.
Lemma stable_sort_ok l : Permutation (stable_sort lt l) l /\ StronglySorted at_most (stable_sort lt l) /\
  forall f, (forall a b, f a = true -> f b = true -> lt a b = false) -> List.filter f (stable_sort lt l) = List.filter f l.
Proof. apply (sort_loop l []). constructor. Qed.

Lemma insert_stable_last x s : Forall (fun y => at_most y x) s -> insert_stable lt x s = s ++ [x].
Proof. induction 1 as [|y s Hy _ IH]; [done|]. cbn. by rewrite Hy, IH. Qed.
Lemma sort_loop_sorted l : forall s, StronglySorted at_most l -> Forall (fun y => Forall (at_most y) l) s ->
  fold_left (fun s x => insert_stable lt x s) l s = s ++ l.
Proof.
  induction l as [|x l IH]; intros s Hl Hs; cbn; [by rewrite app_nil_r|]. inversion_clear Hl as [|? ? Hl' Hall].
  rewrite insert_stable_last.
  2: { eapply List.Forall_impl; [|exact Hs]. intros y Hy. by inversion Hy. }
  rewrite IH; [by rewrite <- app_assoc|done|]. apply Forall_app. split; [|by constructor].
  eapply List.Forall_impl; [|exact Hs]. intros y Hy. by inversion Hy.
Qed.
Lemma stable_sort_sorted l : StronglySorted at_most l -> stable_sort lt l = l.
Proof. intros Hl. by apply (sort_loop_sorted l []). Qed.
End Sort.

(** ** Ranks *)

Section Rank.
Context (at_ : Z -> Agent) (ice_role : IceRole) (is_connection_pruned : Z -> bool).
Notation better := (better at_ ice_role is_connection_pruned).
Notation CompareConnections := (CompareConnections at_ ice_role is_connection_pruned).
Notation CompareConnectionCandidates := (CompareConnectionCandidates at_ is_connection_pruned).
Notation conn := (conn at_).

Definition state_rank (t : BasicIceController) (c : Z) : list Z :=
  [Z.b2z (writable (conn c) || PresumedWritable at_ c t); - write_number (write_state_ (conn c)); Z.b2z (receiving_ (conn c));
   Z.b2z (writable (conn c) && conn_connected_ (conn c))].
Definition nomination_rank (c : Z) : list Z :=
  if bool_decide (ice_role = ICEROLE_CONTROLLED) then [remote_nomination_ (conn c); last_data_received_ (conn c)] else [].
Definition network_rank (t : BasicIceController) (c : Z) : list Z :=
  [Z.b2z (LocalCandidateUsesPreferredNetwork at_ c (network_preference (config_ t))); - conn_cost at_ c].
Definition candidate_rank (t : BasicIceController) (c : Z) : list Z :=
  network_rank t c ++ [conn_priority at_ c; generations at_ c; Z.b2z (negb (is_connection_pruned c))].
Definition rank (t : BasicIceController) (c : Z) : list Z :=
  state_rank t c ++ nomination_rank c ++ candidate_rank t c ++ [- rtt_ (conn c)].

(** The sum of the generations of a pair is an [int]. *)
Definition generation_ok (c : Z) : Prop := generations at_ c < 2 ^ 31.

Lemma write_number_writable c : writable (conn c) = (write_number (write_state_ (conn c)) =? 0).
Proof. unfold writable. by destruct (write_state_ (conn c)). Qed.
Lemma compare_opp x y : compare_Z (- x) (- y) = compare_Z y x.
Proof. compare_cases. Qed.

Lemma state_rank_ok t a b : fst (CompareConnectionStates at_ t a b None) = lex (state_rank t a) (state_rank t b).
Proof.
  unfold CompareConnectionStates, state_rank. cbn [lex]. rewrite !compare_opp, andb_true_r, !write_number_writable.
  generalize (write_number (write_state_ (conn a))), (write_number (write_state_ (conn b))). intros x y.
  destruct (x =? 0) eqn:Hx, (y =? 0) eqn:Hy, (PresumedWritable at_ a t), (PresumedWritable at_ b t),
    (receiving_ (conn a)), (receiving_ (conn b)); cbn; try done; unfold compare_Z;
    destruct (Z.ltb_spec x y), (Z.ltb_spec y x); cbn; try lia; try done;
    destruct (conn_connected_ (conn a)), (conn_connected_ (conn b)); done.
Qed.
Lemma network_rank_ok t a b : CompareCandidatePairNetworks at_ t a b = lex (network_rank t a) (network_rank t b).
Proof.
  unfold CompareCandidatePairNetworks, CompareCandidatePairsByNetworkPreference, network_rank, a_and_b_equal, a_is_better, b_is_better.
  cbn [lex]. rewrite compare_opp. unfold compare_Z.
  destruct (LocalCandidateUsesPreferredNetwork at_ a _), (LocalCandidateUsesPreferredNetwork at_ b _); cbn; try done; compare_cases.
Qed.
Lemma generations_range c : 0 <= generations at_ c.
Proof. apply Z.mod_pos_bound. lia. Qed.
Lemma candidate_rank_ok t a b : generation_ok a -> generation_ok b ->
  Z.sgn (CompareConnectionCandidates t a b) = lex (candidate_rank t a) (candidate_rank t b).
Proof.
  unfold generation_ok. intros Ha Hb. pose proof (generations_range a) as Ha'. pose proof (generations_range b) as Hb'.
  unfold CompareConnectionCandidates, candidate_rank. rewrite lex_app by done. rewrite (network_rank_ok t a b).
  unfold a_and_b_equal, a_is_better, b_is_better. rewrite to_int32_small by lia.
  generalize (lex (network_rank t a) (network_rank t b)) (network_rank_ok t a b). intros n Hn.
  assert (Z.sgn n = n) as Hsgn.
  { rewrite <- Hn. unfold CompareCandidatePairNetworks, CompareCandidatePairsByNetworkPreference.
    repeat match goal with |- context [if ?b then _ else _] => destruct b end; done. }
  destruct (Z.eqb_spec n 0) as [->|Hne]; cbn; [|done].
  destruct (is_connection_pruned a), (is_connection_pruned b); cbn; compare_cases; cbn [negb]; try done;
    (rewrite Z.sgn_pos by lia; done) || (rewrite Z.sgn_neg by lia; done).
Qed.

Lemma nomination_rank_ok a b :
  (if bool_decide (ice_role = ICEROLE_CONTROLLED) then
     if remote_nomination_ (conn b) <? remote_nomination_ (conn a) then a_is_better else
     if remote_nomination_ (conn a) <? remote_nomination_ (conn b) then b_is_better else
     if last_data_received_ (conn b) <? last_data_received_ (conn a) then a_is_better else
     if last_data_received_ (conn a) <? last_data_received_ (conn b) then b_is_better else 0
   else 0) = lex (nomination_rank a) (nomination_rank b).
Proof. unfold nomination_rank, a_is_better, b_is_better. case_bool_decide; [|done]. cbn [lex]. compare_cases. Qed.
Lemma nomination_length a b : length (nomination_rank a) = length (nomination_rank b).
Proof. unfold nomination_rank. by case_bool_decide. Qed.

(** The comparison of the code, up to the round-trip time, is that of the ranks. *)
Lemma CompareConnections_rank t a b : generation_ok a -> generation_ok b ->
  Z.sgn (fst (CompareConnections t a b None)) =
  lex (state_rank t a ++ nomination_rank a ++ candidate_rank t a) (state_rank t b ++ nomination_rank b ++ candidate_rank t b).
Proof.
  intros Ha Hb. rewrite lex_app by done. rewrite lex_app by apply nomination_length.
  rewrite <- (candidate_rank_ok t a b Ha Hb), <- (nomination_rank_ok a b), <- (state_rank_ok t a b).
  unfold CompareConnections, IceController.CompareConnections.
  destruct (CompareConnectionStates at_ t a b None) as [s missed] eqn:Hs. cbn [fst].
  assert (Z.sgn s = s) as Hsgn.
  { replace s with (fst (CompareConnectionStates at_ t a b None)) by (by rewrite Hs).
    unfold CompareConnectionStates. repeat match goal with |- context [if ?b then _ else _] => destruct b end; done. }
  destruct (Z.eqb_spec s 0) as [->|Hne]; cbn [negb fst]; [|done].
  unfold a_is_better, b_is_better.
  repeat match goal with |- context [if ?a <? ?b then _ else _] => destruct (a <? b) end; case_bool_decide; done.
Qed.
Lemma better_rank t a b : generation_ok a -> generation_ok b -> better t a b = (0 <? lex (rank t a) (rank t b)).
Proof.
  intros Ha Hb. pose proof (CompareConnections_rank t a b Ha Hb) as Hc. unfold rank. rewrite !app_assoc.
  rewrite lex_app by (rewrite !length_app; f_equal; f_equal; apply nomination_length). rewrite <- !app_assoc, <- Hc.
  unfold better, IceController.better. generalize (fst (CompareConnections t a b None)). intros x. cbn [lex]. rewrite compare_opp.
  destruct (Z.eqb_spec x 0) as [->|Hne]; cbn; [compare_cases|]. destruct x; done.
Qed.
Lemma rank_length t a b : length (rank t a) = length (rank t b).
Proof. unfold rank. rewrite !length_app. f_equal. f_equal. apply nomination_length. Qed.
End Rank.

(** ** The sort of the connections *)

Lemma insert_stable_ext f g x l : (forall y, In y l -> f x y = g x y) -> insert_stable f x l = insert_stable g x l.
Proof.
  induction l as [|y l IH]; intros Hfg; [done|]. cbn. rewrite Hfg by (by left). rewrite IH; [done|]. intros z Hz. apply Hfg. by right.
Qed.
Lemma stable_sort_ext f g l : (forall x y, In x l -> In y l -> f x y = g x y) -> stable_sort f l = stable_sort g l.
Proof.
  unfold stable_sort. enough (forall k s, (forall x y, In x (s ++ k) -> In y (s ++ k) -> f x y = g x y) ->
    fold_left (fun s x => insert_stable f x s) k s = fold_left (fun s x => insert_stable g x s) k s) as Hk by (apply (Hk l [])).
  induction k as [|x k IH]; intros s Hfg; [done|]. cbn. rewrite (insert_stable_ext f g x s).
  2: { intros y Hy. apply Hfg; apply in_app_iff; [right; by left|by left]. }
  apply IH. intros y z Hy Hz.
  assert (forall w, In w (insert_stable g x s ++ k) -> In w (s ++ x :: k)) as Hin.
  { intros w. rewrite !in_app_iff. intros [Hw|Hw]; [|right; by right].
    apply (Permutation_in _ (insert_stable_perm g x s)) in Hw. destruct Hw as [<-|Hw]; [right; by left|by left]. }
  apply Hfg; by apply Hin.
Qed.

Section Switch.
Context (at_ : Z -> Agent) (ice_role : IceRole) (is_connection_pruned : Z -> bool) (trials : IceFieldTrials).
Notation rank := (rank at_ ice_role is_connection_pruned).
Notation sorted := (sorted at_ ice_role is_connection_pruned).
Notation SortAndSwitchConnection := (SortAndSwitchConnection at_ ice_role is_connection_pruned trials).

Definition generations_ok (t : BasicIceController) : Prop := forall c, In c (connections t) -> generation_ok at_ c.
Definition above (t : BasicIceController) (a b : Z) : bool := 0 <? lex (rank t a) (rank t b).

Lemma above_sym t a b : above t a b = true -> above t b a = false.
Proof. unfold above. rewrite (lex_sym (rank t b)). rewrite Z.ltb_lt, Z.ltb_ge. lia. Qed.
Lemma above_trans t a b c : above t b a = false -> above t c b = false -> above t c a = false.
Proof.
  unfold above. rewrite !Z.ltb_ge. rewrite (lex_sym (rank t b) (rank t a)), (lex_sym (rank t c) (rank t b)), (lex_sym (rank t c) (rank t a)).
  intros Hab Hbc. enough (0 <= lex (rank t a) (rank t c)) by lia.
  apply (lex_trans _ (rank t a) (rank t b) (rank t c) eq_refl); [apply rank_length..|lia|lia].
Qed.
Lemma sorted_above t : generations_ok t -> connections (sorted t) = stable_sort (above t) (connections t).
Proof. intros Hg. apply stable_sort_ext. intros x y Hx Hy. apply better_rank; by apply Hg. Qed.
Lemma sorted_ok t : generations_ok t ->
  Permutation (connections (sorted t)) (connections t) /\ StronglySorted (at_most (above t)) (connections (sorted t)) /\
  forall f, (forall a b, f a = true -> f b = true -> above t a b = false) ->
    List.filter f (connections (sorted t)) = List.filter f (connections t).
Proof. intros Hg. rewrite sorted_above by done. apply stable_sort_ok; [apply above_sym|apply above_trans]. Qed.
Lemma at_most_above t a b : at_most (above t) a b <-> 0 <= lex (rank t a) (rank t b).
Proof. unfold at_most, above. rewrite (lex_sym (rank t b)), Z.ltb_ge. lia. Qed.

(** Sorting the connections of the controller ([stable_sort] with the code's comparison of write state,
    receiving and connected state, nomination, network preference and cost, priority, generation, pruning and
    round-trip time) gives a permutation of them that is in decreasing lexicographic order of their ranks, in
    which connections of equal rank stay in the order in which they were. *)
Theorem connections_sorted_by_rank (t : BasicIceController) : generations_ok t ->
  Permutation (connections (sorted t)) (connections t) /\
  StronglySorted (fun a b => 0 <= lex (rank t a) (rank t b)) (connections (sorted t)) /\
  forall r, List.filter (fun c => bool_decide (rank t c = r)) (connections (sorted t)) =
            List.filter (fun c => bool_decide (rank t c = r)) (connections t).
Proof.
  intros Hg. destruct (sorted_ok t Hg) as (Hp & Hs & Hf). split; [exact Hp|]. split.
  - clear Hp Hf. induction Hs as [|x l _ IH Hall]; constructor; [exact IH|]. eapply List.Forall_impl; [|exact Hall].
    intros y. apply at_most_above.
  - intros r. apply Hf. intros a b Ha%bool_decide_eq_true Hb%bool_decide_eq_true. unfold above. rewrite Ha, Hb, lex_refl. done.
Qed.

(** ** Switching *)

Lemma head_best t n : generations_ok t -> head (connections (sorted t)) = Some n ->
  In n (connections t) /\ forall c, In c (connections t) -> 0 <= lex (rank t n) (rank t c).
Proof.
  intros Hg Hn. destruct (sorted_ok t Hg) as (Hp & Hs & _). destruct (connections (sorted t)) as [|x l]; [done|].
  cbn in Hn. injection Hn as ->. inversion_clear Hs as [|? ? _ Hall].
  split; [apply (Permutation_in n Hp); by left|]. intros c Hc. apply (Permutation_in c (Permutation_sym Hp)) in Hc.
  destruct Hc as [<-|Hc]; [by rewrite lex_refl|]. apply at_most_above. by apply (proj1 (List.Forall_forall _ _) Hall).
Qed.
(** Sorting twice is sorting once, whichever connection is selected and whenever. *)
Lemma sorted_again t s ts : generations_ok t ->
  connections (sorted (with_timestamp ts (SetSelectedConnection s (sorted t)))) = connections (sorted t).
Proof.
  intros Hg. destruct (sorted_ok t Hg) as (Hp & Hs & _). rewrite sorted_above.
  2: { intros c Hc. apply Hg. by apply (Permutation_in c Hp). }
  apply stable_sort_sorted. exact Hs.
Qed.
Lemma ShouldSwitch_state now reason new t :
  snd (ShouldSwitchConnection at_ ice_role is_connection_pruned trials now reason new t) = t \/
  exists ts, snd (ShouldSwitchConnection at_ ice_role is_connection_pruned trials now reason new t) = with_timestamp ts t.
Proof.
  unfold ShouldSwitchConnection, HandleInitialSelectDampening.
  repeat match goal with |- context [match ?x with _ => _ end] => destruct x end; cbn; eauto.
Qed.
Lemma with_timestamp_same t : with_timestamp (initial_select_timestamp_ms_ t) t = t.
Proof. by destruct t. Qed.
Lemma SortAndSwitch_state now reason t :
  exists ts, snd (SortAndSwitchConnection now reason t) = with_timestamp ts (sorted t).
Proof.
  unfold SortAndSwitchConnection, IceController.SortAndSwitchConnection.
  destruct (ShouldSwitch_state now reason (head (connections (sorted t))) (sorted t)) as [Hs|[ts Hs]]; rewrite Hs; [|by exists ts].
  exists (initial_select_timestamp_ms_ (sorted t)). by rewrite with_timestamp_same.
Qed.
Lemma ShouldSwitch_target now reason new t n :
  switch_to (fst (ShouldSwitchConnection at_ ice_role is_connection_pruned trials now reason new t)) = Some n ->
  new = Some n /\ ReadyToSend at_ (Some n) t = true /\ selected_connection_ t <> Some n.
Proof.
  unfold ShouldSwitchConnection. destruct new as [m|]; [|done].
  destruct (ReadyToSend at_ (Some m) t) eqn:Hr; [|done]. unfold is_selected. case_bool_decide as Hsel; [done|]. cbn [negb orb].
  intros Hn. enough (m = n) as <- by done. revert Hn. unfold HandleInitialSelectDampening.
  repeat match goal with |- context [match ?x with _ => _ end] => destruct x end; cbn; congruence.
Qed.

(** C19: when the controller decides to switch, the new connection is one of its connections, is not the selected
    one, can be sent on, and no connection ranks above it; and once it is selected, asking again, at any later
    time and for any reason, while the connections are as they were, gives no further switch. *)
Theorem switch_is_to_best (now : Z) (reason : IceControllerEvent) (t t' : BasicIceController) (r : SwitchResult) (n : Z) :
  generations_ok t -> SortAndSwitchConnection now reason t = (r, t') -> switch_to r = Some n ->
  In n (connections t) /\ selected_connection_ t <> Some n /\ ReadyToSend at_ (Some n) t = true /\
  (forall c, In c (connections t) -> 0 <= lex (rank t n) (rank t c)) /\
  forall now' reason', switch_to (fst (SortAndSwitchConnection now' reason' (SetSelectedConnection (Some n) t'))) = None.
Proof.
  intros Hg Hr Hn. assert (r = fst (SortAndSwitchConnection now reason t)) as -> by (by rewrite Hr).
  assert (t' = snd (SortAndSwitchConnection now reason t)) as -> by (by rewrite Hr). clear Hr.
  apply ShouldSwitch_target in Hn. destruct Hn as (Hhd & Hready & Hsel). destruct (head_best t n Hg Hhd) as (Hin & Hbest).
  do 3 (split; [done|]). split; [exact Hbest|]. intros now' reason'.
  destruct (SortAndSwitch_state now reason t) as [ts ->].
  change (SetSelectedConnection (Some n) (with_timestamp ts (sorted t))) with
    (with_timestamp ts (SetSelectedConnection (Some n) (sorted t))).
  unfold SortAndSwitchConnection, IceController.SortAndSwitchConnection. rewrite sorted_again by done. rewrite Hhd.
  unfold ShouldSwitchConnection, is_selected. cbn [selected_connection_ sorted with_timestamp SetSelectedConnection].
  rewrite bool_decide_eq_true_2 by done. by rewrite orb_true_r.
Qed.

(** A ready connection ranks above one that is not. *)
Lemma ready_ranks_above t a b : ReadyToSend at_ (Some a) t = true -> 0 <= lex (rank t b) (rank t a) -> ReadyToSend at_ (Some b) t = true.
Proof.
  unfold ReadyToSend, IceOrder.rank. rewrite lex_app by done. unfold state_rank, writable.
  destruct (PresumedWritable at_ a t) eqn:Ha, (PresumedWritable at_ b t) eqn:Hb; cbn [lex app]; try (by rewrite orb_true_r);
    destruct (write_state_ (conn at_ a)), (write_state_ (conn at_ b)); cbn; try done; intros ? Hx; exfalso; exact (Hx eq_refl).
Qed.
Lemma head_ready t c : generations_ok t -> In c (connections t) -> ReadyToSend at_ (Some c) t = true ->
  exists n, head (connections (sorted t)) = Some n /\ ReadyToSend at_ (Some n) t = true.
Proof.
  intros Hg Hc Hr. destruct (sorted_ok t Hg) as (Hp & _). destruct (head (connections (sorted t))) as [n|] eqn:Hn.
  - exists n. split; [done|]. destruct (head_best t n Hg Hn) as (_ & Hbest). by apply (ready_ranks_above t c n), Hbest.
  - destruct (connections (sorted t)); [|done]. by apply Permutation_nil in Hp; rewrite Hp in Hc.
Qed.

(** The longest delay that the field trials ask for before the first selection. *)
Definition dampening : Z := Z.max (default 0 (initial_select_dampening trials)) (default 0 (initial_select_dampening_ping_received trials)).
Lemma Dampening_over now n t : 0 <= default 0 (initial_select_dampening trials) -> initial_select_timestamp_ms_ t <> 0 ->
  initial_select_timestamp_ms_ t + dampening <= now ->
  switch_to (fst (HandleInitialSelectDampening at_ trials now n t)) = Some n.
Proof.
  unfold HandleInitialSelectDampening, dampening. intros Hd Hts Hnow. rewrite (proj2 (Z.eqb_neq _ 0) Hts).
  destruct (initial_select_dampening trials) as [d|], (initial_select_dampening_ping_received trials) as [p|], (0 <? last_ping_received_ (conn at_ n));
    cbn in *; try done; rewrite (proj2 (Z.leb_le _ _)) by lia; done.
Qed.
Lemma Dampening_waits now n t : 0 < now -> 0 <= initial_select_timestamp_ms_ t ->
  switch_to (fst (HandleInitialSelectDampening at_ trials now n t)) = Some n \/
  let t' := snd (HandleInitialSelectDampening at_ trials now n t) in
  (exists d, recheck_event (fst (HandleInitialSelectDampening at_ trials now n t)) = Some (mkEvent ICE_CONTROLLER_RECHECK d)) /\
  t' = with_timestamp (initial_select_timestamp_ms_ t') t /\ 0 < initial_select_timestamp_ms_ t' /\
  initial_select_timestamp_ms_ t' <= Z.max now (initial_select_timestamp_ms_ t).
Proof.
  intros Hnow Hts. unfold HandleInitialSelectDampening. cbv zeta.
  destruct (initial_select_dampening trials) as [d|], (initial_select_dampening_ping_received trials) as [p|]; [| | |by left];
    match goal with |- context [if ?b <=? now then _ else _] => destruct (b <=? now) end; cbn; try (by left); right;
    (destruct (Z.eqb_spec (initial_select_timestamp_ms_ t) 0); cbn; repeat split; try lia; eauto; by rewrite with_timestamp_same).
Qed.

Lemma SortAndSwitch_first now reason t n : selected_connection_ t = None -> head (connections (sorted t)) = Some n ->
  ReadyToSend at_ (Some n) t = true -> SortAndSwitchConnection now reason t = HandleInitialSelectDampening at_ trials now n (sorted t).
Proof.
  intros Hsel Hn Hr. unfold SortAndSwitchConnection, IceController.SortAndSwitchConnection. rewrite Hn. unfold ShouldSwitchConnection.
  change (ReadyToSend at_ (Some n) (sorted t)) with (ReadyToSend at_ (Some n) t). rewrite Hr. unfold is_selected.
  cbn [selected_connection_ IceController.sorted]. rewrite Hsel. done.
Qed.

(** While no connection is selected, the controller selects one as soon as one can be sent on: the sort puts it
    first, and it is selected at once or, when the field trials dampen the first selection, a recheck is scheduled
    and the selection happens at the first call after the dampening period; and it selects none while none can be
    sent on. *)
Theorem first_selection_happens (now : Z) (reason : IceControllerEvent) (t : BasicIceController) :
  generations_ok t -> selected_connection_ t = None -> 0 < now -> 0 <= initial_select_timestamp_ms_ t <= now ->
  0 <= default 0 (initial_select_dampening trials) ->
  let '(r, t') := SortAndSwitchConnection now reason t in
  ((exists c, In c (connections t) /\ ReadyToSend at_ (Some c) t = true) ->
   (exists n, switch_to r = Some n) \/
   (exists d, recheck_event r = Some (mkEvent ICE_CONTROLLER_RECHECK d)) /\
   forall now' reason', now + dampening <= now' -> exists n, switch_to (fst (SortAndSwitchConnection now' reason' t')) = Some n) /\
  ((forall c, In c (connections t) -> ReadyToSend at_ (Some c) t = false) -> r = mkSwitch None None).
Proof.
  intros Hg Hsel Hnow Hts Hd. destruct (SortAndSwitchConnection now reason t) as [r t'] eqn:Hrun. split.
  - intros (c & Hc & Hready). destruct (head_ready t c Hg Hc Hready) as (n & Hn & Hnr).
    rewrite (SortAndSwitch_first now reason t n Hsel Hn Hnr) in Hrun.
    pose proof (Dampening_waits now n (sorted t) Hnow (proj1 Hts)) as Hwait. rewrite Hrun in Hwait. cbn [fst snd] in Hwait.
    destruct Hwait as [Hsw|(Hre & Ht' & Hpos & Hle)]; [left; by exists n|right]. split; [exact Hre|]. intros now' reason' Hnow'.
    exists n. assert (sorted t' = with_timestamp (initial_select_timestamp_ms_ t') (sorted t)) as Hs.
    { rewrite Ht'. apply (f_equal (fun l => mkController _ _ l _ _ _)). exact (sorted_again t (selected_connection_ t) _ Hg). }
    rewrite (SortAndSwitch_first now' reason' t' n); [| |by rewrite Hs|].
    + rewrite Hs. apply Dampening_over; cbn in *; [done|lia|lia].
    + by rewrite Ht'.
    + by rewrite Ht'.
  - intros Hno. unfold SortAndSwitchConnection, IceController.SortAndSwitchConnection, ShouldSwitchConnection in Hrun.
    destruct (head (connections (sorted t))) as [n|] eqn:Hn; [|by injection Hrun as <- <-].
    change (ReadyToSend at_ (Some n) (sorted t)) with (ReadyToSend at_ (Some n) t) in Hrun.
    rewrite (Hno n (proj1 (head_best t n Hg Hn))) in Hrun. by injection Hrun as <- <-.
Qed.
End Switch.

(** ** Samples: a relayed pair that is writable, a direct one that is, and one that is not *)

Definition sample_network (i : Z) : Network :=
  mkNetwork i i (text "eth") ADAPTER_TYPE_ETHERNET ADAPTER_TYPE_UNKNOWN false 0 (IPAddress_v4 [Byte.x0a; Byte.x00; Byte.x00; Byte.x01]).
Definition sample_candidate (type : list byte) (priority : Z) : Candidate :=
  Candidate_new [] 1 UDP_PROTOCOL_NAME SocketAddress_nil priority (text "ufrag") (text "pwd") type 0 [] 0 0.
Definition sample_pair (network : Z) (type : list byte) (priority : Z) (state : WriteState) : Agent :=
  mkAgent (mkPort type false (sample_network network) 1 0 (text "ufrag") (text "pwd") [sample_candidate type priority] [] 0 false
             ICEROLE_CONTROLLING 7 0 PORT_INIT 0)
    (with_receiving true (with_write_state state (Connection_new 0 (sample_candidate type priority) 0))).
Definition sample_memory (i : Z) : Agent :=
  if i =? 1 then sample_pair 1 RELAY_PORT_TYPE 2 STATE_WRITABLE else
  if i =? 2 then sample_pair 1 LOCAL_PORT_TYPE 9 STATE_WRITABLE else sample_pair 2 LOCAL_PORT_TYPE 5 STATE_WRITE_INIT.
Definition sample_controller (selected : option Z) : BasicIceController := mkController IceConfig_new selected [3; 1; 2] [] [1; 2; 3] 0.
Definition sample_event : IceControllerEvent := mkEvent CONNECT_STATE_CHANGE 0.

Lemma sample_generations s : generations_ok sample_memory (sample_controller s).
Proof. intros c [<-|[<-|[<-|[]]]]; reflexivity. Qed.

Lemma connections_sorted_by_rank_witness :
  let rank := rank sample_memory ICEROLE_CONTROLLING (fun _ => false) (sample_controller None) in
  StronglySorted (fun a b => 0 <= lex (rank a) (rank b)) [2; 1; 3].
Proof. exact (proj1 (proj2 (connections_sorted_by_rank sample_memory ICEROLE_CONTROLLING (fun _ => false) (sample_controller None) (sample_generations None)))). Defined.
Lemma switch_is_to_best_witness :
  let run := SortAndSwitchConnection sample_memory ICEROLE_CONTROLLING (fun _ => false) kDefaultFieldTrials in
  switch_to (fst (run 100 sample_event (sample_controller (Some 1)))) = Some 2 /\
  switch_to (fst (run 101 sample_event (SetSelectedConnection (Some 2) (snd (run 100 sample_event (sample_controller (Some 1))))))) = None.
Proof.
  split; [reflexivity|].
  exact (proj2 (proj2 (proj2 (proj2 (switch_is_to_best sample_memory ICEROLE_CONTROLLING (fun _ => false) kDefaultFieldTrials 100 sample_event
    (sample_controller (Some 1)) _ _ 2 (sample_generations _) eq_refl eq_refl)))) 101 sample_event).
Defined.
Definition dampened_trials : IceFieldTrials := mkTrials false None (Some 20) None true false 500 false false 30000.
Lemma first_selection_happens_witness :
  let run := SortAndSwitchConnection sample_memory ICEROLE_CONTROLLING (fun _ => false) dampened_trials in
  switch_to (fst (run 100 sample_event (sample_controller None))) = None /\
  exists n, switch_to (fst (run 120 sample_event (snd (run 100 sample_event (sample_controller None))))) = Some n.
Proof.
  split; [reflexivity|].
  destruct (first_selection_happens sample_memory ICEROLE_CONTROLLING (fun _ => false) dampened_trials 100 sample_event (sample_controller None)
    (sample_generations _) eq_refl eq_refl ltac:(cbn; lia) ltac:(cbn; lia)) as [Hready _].
  destruct Hready as [[n Hn]|[_ Hnext]].
  - exists 1. split; [right; left; reflexivity|reflexivity].
  - vm_compute in Hn. discriminate Hn.
  - exact (Hnext 120 sample_event ltac:(vm_compute; discriminate)).
Defined.

(** ** Priorities of pairs *)

(** RFC 5245, section 5.7.2. *)
Definition rfc_pair_priority (g d : Z) : Z := 2 ^ 32 * Z.min g d + 2 * Z.max g d + (if d <? g then 1 else 0).
Lemma pair_priority_formula g d : 0 <= g < 2 ^ 31 -> 0 <= d < 2 ^ 31 -> pair_priority ICEROLE_CONTROLLING g d = rfc_pair_priority g d.
Proof.
  intros Hg Hd. unfold pair_priority, rfc_pair_priority. rewrite Z.shiftl_mul_pow2 by lia.
  rewrite wrap32_small by (destruct (d <? g); lia). lia.
Qed.
Lemma rfc_pair_priority_inj g d g' d' : 0 <= g < 2 ^ 31 -> 0 <= d < 2 ^ 31 -> 0 <= g' < 2 ^ 31 -> 0 <= d' < 2 ^ 31 ->
  rfc_pair_priority g d = rfc_pair_priority g' d' -> g = g' /\ d = d'.
Proof. intros. unfold rfc_pair_priority in *. destruct (Z.ltb_spec d g), (Z.ltb_spec d' g'); lia. Qed.

(** The priority of a pair of candidates with priorities below 2^31 is that of RFC 5245, both ends of the pair,
    one controlling and one controlled, compute the same number, and different pairs have different numbers, so
    that both ends order their pairs alike. *)
Theorem pair_priority_rfc5245 (g d : Z) : 0 <= g < 2 ^ 31 -> 0 <= d < 2 ^ 31 ->
  pair_priority ICEROLE_CONTROLLING g d = rfc_pair_priority g d /\
  pair_priority ICEROLE_CONTROLLED d g = rfc_pair_priority g d /\
  forall g' d', 0 <= g' < 2 ^ 31 -> 0 <= d' < 2 ^ 31 ->
    pair_priority ICEROLE_CONTROLLING g d = pair_priority ICEROLE_CONTROLLED d' g' -> g = g' /\ d = d'.
Proof.
  intros Hg Hd. pose proof (pair_priority_formula g d Hg Hd) as Hf. split; [exact Hf|]. split; [exact Hf|].
  intros g' d' Hg' Hd' He. apply rfc_pair_priority_inj; try done. rewrite <- Hf, He. by apply pair_priority_formula.
Qed.
Lemma pair_priority_rfc5245_witness : pair_priority ICEROLE_CONTROLLING 5 3 = 2 ^ 32 * 3 + 11 /\ pair_priority ICEROLE_CONTROLLED 3 5 = 2 ^ 32 * 3 + 11.
Proof. destruct (pair_priority_rfc5245 5 3) as (H1 & H2 & _); [lia|lia|]. split; [exact H1|exact H2]. Defined.
