(* ===== verification/IcePing.v ===== *)
(** * Which connections are pruned and pinged

    Pruning keeps the selected connection and one good connection per
    network.  The sets of pinged and unpinged connections split the
    connections in every reachable state, so [SelectConnectionToPing] does not
    fail, and a round of pings covers every connection that can be pinged. *)

From Stdlib Require Import ZArith Lia String Sorting.Sorted.
From S2P Require Import Prelude IpAddress SocketAddress IceCandidate IcePort IceConnState IceConnection IceController IceOrder.
Local Open Scope Z_scope.
Local Open Scope list_scope.

(** ** Maps of pointers *)

Definition keys_sorted (m : list (Z * Z)) : Prop := StronglySorted Z.lt (map fst m).
Lemma pmap_find_below k m : Forall (Z.lt k) (map fst m) -> pmap_find k m = None.
Proof.
  induction m as [|[k' v] m IH]; [done|]. cbn. intros Hk. inversion_clear Hk as [|? ? Hlt Hk'].
  rewrite (proj2 (Z.eqb_neq _ _)) by lia. by apply IH.
Qed.
Lemma pmap_insert_keys k v m k' : In k' (map fst (pmap_insert k v m)) -> k' = k \/ In k' (map fst m).
Proof.
  induction m as [|[j w] m IH]; cbn; [intuition congruence|]. destruct (k <? j); cbn; [intuition congruence|].
  destruct (j =? k); cbn; intuition.
Qed.
Lemma pmap_insert_sorted k v m : keys_sorted m -> keys_sorted (pmap_insert k v m).
Proof.
  unfold keys_sorted. induction m as [|[j w] m IH]; cbn; intros Hs; [repeat constructor|]. inversion_clear Hs as [|? ? Hs' Hall].
  destruct (Z.ltb_spec k j); cbn.
  - constructor; [by constructor|]. constructor; [done|]. eapply List.Forall_impl; [|exact Hall]. intros z Hz. lia.
  - destruct (Z.eqb_spec j k); cbn; [by constructor|]. constructor; [by apply IH|]. apply List.Forall_forall.
    intros z Hz%pmap_insert_keys. destruct Hz as [->|Hz]; [lia|]. by apply (proj1 (List.Forall_forall _ _) Hall).
Qed.
Lemma pmap_find_insert k v m j : keys_sorted m ->
  pmap_find j (pmap_insert k v m) = if j =? k then Some (default v (pmap_find k m)) else pmap_find j m.
Proof.
  unfold keys_sorted. induction m as [|[i w] m IH]; cbn; intros Hs; [rewrite (Z.eqb_sym k j); by destruct (j =? k)|].
  inversion_clear Hs as [|? ? Hs' Hall]. destruct (Z.ltb_spec k i) as [Hlt|Hge]; cbn.
  - rewrite (Z.eqb_sym k j), (proj2 (Z.eqb_neq i k)) by lia. rewrite (pmap_find_below k m); [done|].
    eapply List.Forall_impl; [|exact Hall]. intros z Hz. lia.
  - destruct (Z.eqb_spec i k) as [->|Hne]; cbn.
    + rewrite (Z.eqb_sym j k). by destruct (Z.eqb_spec k j) as [->|].
    + rewrite (IH Hs'). destruct (Z.eqb_spec i j) as [->|]; [|done]. by rewrite (proj2 (Z.eqb_neq j k)) by lia.
Qed.

(** ** Pruning *)

Section Prune.
Context (at_ : Z -> Agent) (is_connection_pruned : Z -> bool).
Notation network := (network at_).
Notation PruneConnections := (PruneConnections at_ is_connection_pruned).

Definition known (t : BasicIceController) (c : Z) : Prop := selected_connection_ t = Some c \/ In c (connections t).
(** A pointer to a network is the network. *)
Definition networks_ok (t : BasicIceController) : Prop :=
  forall a b, known t a -> known t b -> net_ptr (network a) = net_ptr (network b) -> network a = network b.

Lemma best_loop P l : forall m, keys_sorted m -> (forall j b, pmap_find j m = Some b -> P b /\ net_ptr (network b) = j) ->
  (forall c, In c l -> P c) ->
  let r := fold_left (fun m c => pmap_insert (net_ptr (network c)) c m) l m in
  (forall j b, pmap_find j r = Some b -> P b /\ net_ptr (network b) = j) /\
  (forall j b, pmap_find j m = Some b -> pmap_find j r = Some b).
Proof.
  induction l as [|c l IH]; intros m Hs Hm Hl; cbn; [done|].
  destruct (IH (pmap_insert (net_ptr (network c)) c m)) as [Hr Hk].
  - by apply pmap_insert_sorted.
  - intros j b. rewrite pmap_find_insert by done. destruct (Z.eqb_spec j (net_ptr (network c))) as [->|]; [|apply Hm].
    destruct (pmap_find (net_ptr (network c)) m) as [b'|] eqn:Hf; cbn; intros [= <-]; [by apply Hm|].
    split; [apply Hl; by left|done].
  - intros c' Hc'. apply Hl. by right.
  - split; [exact Hr|]. intros j b Hf. apply Hk. rewrite pmap_find_insert by done.
    destruct (Z.eqb_spec j (net_ptr (network c))) as [->|]; [by rewrite Hf|done].
Qed.
Lemma GetBest_ok t :
  (forall j b, pmap_find j (GetBestConnectionByNetwork at_ t) = Some b -> known t b /\ net_ptr (network b) = j) /\
  (forall s, selected_connection_ t = Some s -> pmap_find (net_ptr (network s)) (GetBestConnectionByNetwork at_ t) = Some s).
Proof.
  unfold GetBestConnectionByNetwork.
  set (m := match selected_connection_ t with Some s => _ | None => _ end).
  destruct (best_loop (known t) (connections t) m) as [Hr Hk].
  - unfold m, keys_sorted. destruct (selected_connection_ t); repeat constructor.
  - unfold m, known. destruct (selected_connection_ t) as [s|]; cbn; intros j b; [|done].
    destruct (Z.eqb_spec (net_ptr (network s)) j) as [<-|]; [|done]. intros [= <-]. auto.
  - intros c Hc. by right.
  - split; [exact Hr|]. intros s Hs. apply Hk. unfold m. rewrite Hs. cbn. by rewrite Z.eqb_refl.
Qed.
Lemma pmap_insert_in k v m kv : In kv (pmap_insert k v m) -> kv = (k, v) \/ In kv m.
Proof.
  induction m as [|[j w] m IH]; cbn; [intuition congruence|]. destruct (k <? j); cbn; [intuition congruence|].
  destruct (j =? k); cbn; intuition.
Qed.
Lemma GetBest_known t kv : In kv (GetBestConnectionByNetwork at_ t) -> known t (snd kv).
Proof.
  unfold GetBestConnectionByNetwork. enough (forall l m, (forall kv, In kv m -> known t (snd kv)) -> (forall c, In c l -> known t c) ->
    In kv (fold_left (fun m c => pmap_insert (net_ptr (network c)) c m) l m) -> known t (snd kv)) as Hk.
  { apply Hk; [|intros c Hc; by right]. intros kv' Hkv. destruct (selected_connection_ t) eqn:Hs; [|done].
    destruct Hkv as [<-|[]]. by left. }
  induction l as [|c l IH]; intros m Hm Hl; [apply Hm|]. apply IH; [|intros c' Hc'; apply Hl; by right].
  intros kv' [->|Hkv]%pmap_insert_in; [apply Hl; by left|by apply Hm].
Qed.

(** The connection that [c] is compared with. *)
Definition premier (t : BasicIceController) (c : Z) : option Z :=
  if IPIsAny (net_ip (network c)) then selected_connection_ t else pmap_find (net_ptr (network c)) (GetBestConnectionByNetwork at_ t).
Lemma in_Prune t c : In c (PruneConnections t) <-> In c (connections t) /\ exists b, premier t c = Some b /\ c <> b /\
  weak (conn at_ b) = false /\ 0 <= CompareConnectionCandidates at_ is_connection_pruned t b c.
Proof.
  unfold PruneConnections, IceController.PruneConnections. rewrite List.filter_In. unfold premier. apply and_iff_compat_l.
  destruct (if IPIsAny _ then _ else _) as [b|]; [|split; [done|by intros (? & ? & ?)]].
  rewrite !andb_true_iff, !negb_true_iff, Z.eqb_neq, Z.leb_le. split.
  - intros [[? ?] ?]. eauto.
  - by intros (b' & [= ->] & ? & ? & ?).
Qed.
Lemma premier_premier t c b : networks_ok t -> In c (connections t) -> premier t c = Some b -> known t b /\ premier t b = Some b.
Proof.
  intros Hn Hc Hb. destruct (GetBest_ok t) as [Hf Hs]. unfold premier in *. destruct (IPIsAny (net_ip (network c))) eqn:Hany.
  - split; [by left|]. destruct (IPIsAny (net_ip (network b))); [done|]. by apply Hs.
  - destruct (Hf _ _ Hb) as [Hk Hp]. split; [done|]. rewrite (Hn b c Hk (or_intror Hc) Hp), Hany. done.
Qed.

(** Pruning never removes the selected connection, and every connection that is pruned leaves another one that
    is not pruned, is writable, receiving and connected, compares no worse, and is on the same network, unless the
    network of the pruned one is the wildcard, when it is the selected one. *)
Theorem prune_keeps_a_better_one (t : BasicIceController) (c : Z) : networks_ok t -> In c (PruneConnections t) ->
  In c (connections t) /\ selected_connection_ t <> Some c /\
  exists b, known t b /\ ~ In b (PruneConnections t) /\ weak (conn at_ b) = false /\
    0 <= CompareConnectionCandidates at_ is_connection_pruned t b c /\
    (if IPIsAny (net_ip (network c)) then selected_connection_ t = Some b else net_ptr (network b) = net_ptr (network c)).
Proof.
  intros Hn Hc. apply in_Prune in Hc. destruct Hc as (Hin & b & Hb & Hne & Hweak & Hcmp). split; [done|]. split.
  - intros Hs. destruct (GetBest_ok t) as [_ Hsel]. specialize (Hsel c Hs). unfold premier in Hb.
    destruct (IPIsAny (net_ip (network c))); congruence.
  - destruct (premier_premier t c b Hn Hin Hb) as [Hk Hbb]. exists b. split; [done|]. split.
    + rewrite in_Prune. intros (_ & b' & Hb' & Hne' & _). congruence.
    + split; [done|]. split; [done|]. unfold premier in Hb. destruct (IPIsAny (net_ip (network c))); [done|].
      by apply (proj1 (GetBest_ok t)).
Qed.
End Prune.

Lemma sample_networks s : s = Some 1 \/ s = Some 2 -> networks_ok sample_memory (sample_controller s).
Proof.
  intros Hs a b [Ha|Ha] [Hb|Hb]; cbn in Ha, Hb; destruct Hs as [-> | ->];
    repeat match goal with H : Some _ = Some _ |- _ => injection H as <- | H : _ \/ _ |- _ => destruct H as [<-|H] | H : False |- _ => destruct H end;
    cbn; try done; congruence.
Qed.
Lemma prune_keeps_a_better_one_witness :
  PruneConnections sample_memory (fun _ => false) (sample_controller (Some 2)) = [1] /\
  exists b, known (sample_controller (Some 2)) b /\ weak (conn sample_memory b) = false.
Proof.
  split; [reflexivity|].
  destruct (prune_keeps_a_better_one sample_memory (fun _ => false) (sample_controller (Some 2)) 1) as (_ & _ & b & Hk & _ & Hw & _).
  - apply sample_networks. by right.
  - left. reflexivity.
  - exists b. exact (conj Hk Hw).
Defined.

(** ** The sets of pinged and unpinged connections *)

Lemma set_insert_perm x s : ~ In x s -> Permutation (set_insert x s) (x :: s).
Proof.
  induction s as [|y s IH]; [done|]. cbn. intros Hx. destruct (x <? y); [done|].
  rewrite (proj2 (Z.eqb_neq y x)) by (intros ->; apply Hx; by left). rewrite IH by (intros H; apply Hx; by right).
  apply Permutation_swap.
Qed.
Lemma set_erase_cons x y s : set_erase x (y :: s) = if y =? x then set_erase x s else y :: set_erase x s.
Proof. unfold set_erase. cbn. by destruct (y =? x). Qed.
Lemma set_erase_out x s : ~ In x s -> set_erase x s = s.
Proof.
  intros Hx. induction s as [|y s IH]; [done|]. rewrite set_erase_cons, (proj2 (Z.eqb_neq y x)) by (intros ->; apply Hx; by left).
  f_equal. apply IH. intros H. apply Hx. by right.
Qed.
Lemma set_erase_perm x s : NoDup s -> In x s -> Permutation s (x :: set_erase x s).
Proof.
  induction 1 as [|y s Hy _ IH]; [done|]. rewrite set_erase_cons. destruct (Z.eqb_spec y x) as [->|Hne]; cbn [In].
  - intros _. rewrite set_erase_out; [done|]. by rewrite <- list_elem_of_In.
  - intros [->|Hx]; [done|]. rewrite (IH Hx) at 1. apply Permutation_swap.
Qed.
Lemma in_set_In x s : in_set x s = true <-> In x s.
Proof.
  unfold in_set. rewrite existsb_exists. split; [intros (y & Hy & ->%Z.eqb_eq); done|]. intros Hx. exists x. by rewrite Z.eqb_refl.
Qed.
Lemma erase_first_in c l : In c l -> exists l', erase_first c l = Ret l' /\ Permutation l (c :: l').
Proof.
  induction l as [|x l IH]; [done|]. cbn. destruct (Z.eqb_spec x c) as [->|Hne]; [intros _; by exists l|].
  intros [->|Hc]; [done|]. destruct (IH Hc) as (l' & -> & Hp). exists (x :: l'). split; [done|]. rewrite Hp. apply Permutation_swap.
Qed.
Lemma erase_first_not c l : ~ In c l -> erase_first c l = Crash UndefinedBehaviour.
Proof.
  induction l as [|x l IH]; [done|]. cbn. intros Hc. rewrite (proj2 (Z.eqb_neq x c)) by (intros ->; apply Hc; by left).
  by rewrite IH by (intros H; apply Hc; by right).
Qed.
Lemma insert_all_perm l : forall s, NoDup (l ++ s) -> Permutation (fold_left (fun s c => set_insert c s) l s) (l ++ s).
Proof.
  induction l as [|x l IH]; intros s Hnd; [done|]. cbn in *. inversion_clear Hnd as [|? ? Hx Hnd'].
  assert (~ In x s) as Hxs. { rewrite <- list_elem_of_In. rewrite elem_of_app in Hx. tauto. }
  rewrite IH; rewrite (set_insert_perm x s Hxs); [by rewrite Permutation_middle|].
  rewrite <- Permutation_middle. by constructor.
Qed.

(** The invariant. *)
Definition sets_ok (t : BasicIceController) : Prop :=
  NoDup (connections t) /\ Permutation (pinged_connections_ t ++ unpinged_connections_ t) (connections t).
Lemma sets_nodup t : sets_ok t -> NoDup (pinged_connections_ t ++ unpinged_connections_ t).
Proof. intros [Hnd ->]. done. Qed.
Lemma sets_in t c : sets_ok t -> (In c (connections t) <-> In c (pinged_connections_ t) \/ In c (unpinged_connections_ t)).
Proof.
  intros [_ Hp]. rewrite <- in_app_iff. split; apply Permutation_in; [by symmetry|done].
Qed.
Lemma AddConnection_sets c t : ~ In c (connections t) -> sets_ok t -> sets_ok (AddConnection c t).
Proof.
  intros Hc Hs. pose proof (sets_in t c Hs) as Hin. destruct Hs as [Hnd Hp]. split; cbn.
  - rewrite <- Permutation_cons_append. constructor; [by rewrite list_elem_of_In|done].
  - rewrite set_insert_perm by tauto. rewrite <- Permutation_cons_append, <- Permutation_middle. by constructor.
Qed.
Lemma OnConnectionDestroyed_sets c t t' : OnConnectionDestroyed c t = Ret t' -> sets_ok t -> sets_ok t'.
Proof.
  intros Hrun Hs. pose proof (sets_nodup t Hs) as Hnd'. apply list.NoDup_app in Hnd'. destruct Hnd' as (Hn1 & Hdis & Hn2).
  unfold OnConnectionDestroyed in Hrun. destruct (in_dec Z.eq_dec c (connections t)) as [Hc|Hc].
  2: { by rewrite (erase_first_not c _ Hc) in Hrun. }
  destruct (erase_first_in c _ Hc) as (l & Hl & Hpl). rewrite Hl in Hrun. injection Hrun as <-.
  apply (sets_in t c Hs) in Hc. destruct Hs as [Hnd Hp]. split; cbn.
  - rewrite Hpl in Hnd. by inversion_clear Hnd.
  - apply (Permutation_cons_inv (a := c)). rewrite <- Hpl, <- Hp. destruct Hc as [Hc|Hc].
    + rewrite (set_erase_out c (unpinged_connections_ t)).
      2: { rewrite <- list_elem_of_In in Hc |- *. by apply Hdis. }
      rewrite (set_erase_perm c (pinged_connections_ t)) at 2 by done. done.
    + rewrite (set_erase_out c (pinged_connections_ t)).
      2: { intros H. apply (Hdis c); by rewrite list_elem_of_In. }
      rewrite (set_erase_perm c (unpinged_connections_ t)) at 2 by done. by rewrite Permutation_middle.
Qed.
Lemma Mark_sets c t : In c (connections t) -> sets_ok t -> sets_ok (MarkConnectionPinged (Some c) t).
Proof.
  intros Hc Hs. cbn. destruct (in_set c (pinged_connections_ t)) eqn:Hin; [done|].
  assert (~ In c (pinged_connections_ t)) as Hout. { rewrite <- in_set_In. by rewrite Hin. }
  pose proof (sets_nodup t Hs) as Hnd'. apply list.NoDup_app in Hnd'. destruct Hnd' as (_ & _ & Hn2).
  apply (sets_in t c Hs) in Hc. destruct Hs as [Hnd Hp]. split; [done|]. cbn. rewrite set_insert_perm by done. rewrite <- Hp.
  rewrite (set_erase_perm c (unpinged_connections_ t)) at 2 by tauto. by rewrite <- Permutation_middle.
Qed.

(** ** Selecting the connection to ping *)

Section Select.
Context (at_ : Z -> Agent) (completed : bool) (trials : IceFieldTrials) (now : Z).
Notation IsPingable := (IsPingable at_ completed trials now).
Notation ping_unpinged := (ping_unpinged at_ completed trials now).

(** The candidates of the remote side have names. *)
Definition named (c : Z) : Prop := cand_username (remote at_ c) <> [].

(** What [IsPingable] answers then. *)
Definition pingable (t : BasicIceController) (c : Z) : bool :=
  match IsPingable t c with Ret b => b | Crash _ => false end.
Lemma IsPingable_total t c : named c -> IsPingable t c = Ret (pingable t c).
Proof.
  unfold named, pingable, IsPingable, IceController.IsPingable. intros Hc.
  rewrite (bool_decide_eq_false_2 (cand_username (remote at_ c) = [])) by done. done.
Qed.
Lemma any_of_total t l : Forall named l -> any_of (IsPingable t) l = Ret (existsb (pingable t) l).
Proof.
  induction 1 as [|c l Hc _ IH]; [done|]. cbn [any_of existsb]. rewrite (IsPingable_total t c Hc). cbn [mbind outcome_bind].
  rewrite IH. by destruct (pingable t c).
Qed.
Lemma copy_if_total t l : Forall named l -> copy_if (IsPingable t) l = Ret (List.filter (pingable t) l).
Proof.
  induction 1 as [|c l Hc _ IH]; [done|]. cbn [copy_if List.filter]. rewrite (IsPingable_total t c Hc). cbn [mbind outcome_bind].
  rewrite IH. by destruct (pingable t c).
Qed.
Lemma oldest_triggered_total t l : forall o, Forall named l ->
  exists r, oldest_triggered at_ completed trials now t l o = Ret r /\ (r = o \/ exists c, r = Some c /\ In c l).
Proof.
  induction l as [|c l IH]; intros o Hl; [exists o; auto|]. inversion_clear Hl as [|? ? Hc Hl']. cbn [oldest_triggered].
  rewrite (IsPingable_total t c Hc). cbn [mbind outcome_bind].
  match goal with |- context [oldest_triggered _ _ _ _ t l ?x] => destruct (IH x Hl') as (r & Hr & Ho) end. exists r. split; [exact Hr|].
  destruct Ho as [->|(c' & -> & Hc')]; [|right; exists c'; split; [done|by right]].
  match goal with |- context [if ?b then _ else _] => destruct b end; [right; exists c; split; [done|by left]|by left].
Qed.
Lemma max_element_in lt l : match max_element lt l with Some c => In c l | None => l = [] end.
Proof.
  destruct l as [|x l]; [done|]. cbn. revert x. induction l as [|y l IH]; intros x; cbn; [by left|].
  destruct (lt x y); destruct (IH y) as [Hy|Hy], (IH x) as [Hx|Hx]; auto.
Qed.
Lemma min_element_in lt l c : min_element lt l = Some c -> In c l.
Proof.
  destruct l as [|x l]; [done|]. cbn. intros [= <-]. revert x. induction l as [|y l IH]; intros x; cbn; [by left|].
  destruct (lt y x); destruct (IH y) as [Hy|Hy], (IH x) as [Hx|Hx]; auto.
Qed.

(** The sets after the test for a new round. *)
Definition new_round (t : BasicIceController) : BasicIceController :=
  if existsb (pingable t) (unpinged_connections_ t) then t else
  mkController (config_ t) (selected_connection_ t) (connections t) []
    (fold_left (fun s c => set_insert c s) (pinged_connections_ t) (unpinged_connections_ t)) (initial_select_timestamp_ms_ t).
Lemma new_round_sets t : sets_ok t -> sets_ok (new_round t).
Proof.
  intros Hs. unfold new_round. destruct (existsb _ _); [done|]. pose proof (sets_nodup t Hs) as Hnd. destruct Hs as [Hn Hp].
  split; [done|]. cbn. rewrite insert_all_perm by done. done.
Qed.
Lemma sets_named t : sets_ok t -> Forall named (connections t) -> Forall named (unpinged_connections_ t).
Proof. intros [_ Hp] Hn. rewrite <- Hp in Hn. apply Forall_app in Hn. tauto. Qed.
Lemma ping_unpinged_is t : sets_ok t -> Forall named (connections t) ->
  ping_unpinged t = Ret (max_element (less_pingable at_ (new_round t)) (List.filter (pingable (new_round t)) (unpinged_connections_ (new_round t))),
    new_round t).
Proof.
  intros Hs Hn. unfold ping_unpinged, IceController.ping_unpinged.
  assert (zlen (connections t) =? zlen (pinged_connections_ t) + zlen (unpinged_connections_ t) = true) as ->.
  { apply Z.eqb_eq. destruct Hs as [_ Hp]. unfold zlen. rewrite <- (Permutation_length Hp), length_app. lia. }
  cbn [assert_that mbind outcome_bind]. rewrite any_of_total by (by apply sets_named). cbn [mbind outcome_bind].
  change (if existsb (pingable t) (unpinged_connections_ t) then t else _) with (new_round t).
  rewrite copy_if_total; [done|]. apply sets_named; [by apply new_round_sets|]. unfold new_round. by destruct (existsb _ _).
Qed.

Lemma FindNext_total t : sets_ok t -> Forall named (connections t) -> exists c t',
  FindNextPingableConnection at_ completed trials now t = Ret (c, t') /\ (t' = t \/ t' = new_round t) /\
  (forall i, c = Some i -> known t i).
Proof.
  intros Hs Hn. unfold FindNextPingableConnection. destruct (match selected_connection_ t with Some s => _ | None => _ end).
  { exists (selected_connection_ t), t. split; [done|]. split; [by left|]. intros i Hi. by left. }
  match goal with |- context [match ?o with Some _ => _ | None => _ end] => destruct o as [c|] eqn:Hper end.
  { exists (Some c), t. split; [done|]. split; [by left|]. intros i [= <-]. destruct (channel_weak at_ t); [|done].
    apply min_element_in, List.filter_In in Hper. destruct Hper as [Hper _]. apply List.filter_In in Hper.
    destruct Hper as [(kv & <- & Hkv)%in_map_iff _]. by apply (GetBest_known at_ (fun _ => false) t). }
  unfold FindOldestConnectionNeedingTriggeredCheck.
  destruct (oldest_triggered_total t (connections t) None Hn) as (o & -> & Ho). cbn [mbind outcome_bind].
  destruct o as [c|].
  { exists (Some c), t. split; [done|]. split; [by left|]. intros i [= <-]. right. by destruct Ho as [|(c' & [= <-] & Hc')]. }
  rewrite ping_unpinged_is by done. eexists _, _. split; [done|]. split; [by right|]. intros i Hi. right.
  match type of Hi with max_element ?lt ?l = _ => pose proof (max_element_in lt l) as Hm; rewrite Hi in Hm end.
  apply List.filter_In in Hm. destruct Hm as [Hm _].
  assert (In i (connections (new_round t))) as Hc by (apply (sets_in _ i (new_round_sets t Hs)); by right).
  unfold new_round in Hc. by destruct (existsb _ _).
Qed.
End Select.

(** ** Reachable states: the calls of the channel, with any states of the connections in between *)

Inductive step (t : BasicIceController) : BasicIceController -> Prop :=
| step_config config : step t (SetIceConfig config t)
| step_selected s : step t (SetSelectedConnection s t)
| step_add c : ~ In c (connections t) -> step t (AddConnection c t)
| step_destroyed c t' : OnConnectionDestroyed c t = Ret t' -> step t t'
| step_pinged c : In c (connections t) -> step t (MarkConnectionPinged (Some c) t)
| step_find at_ completed trials now last r t' : Forall (named at_) (connections t) ->
    SelectConnectionToPing at_ completed trials now last t = Ret (r, t') -> step t t'
| step_sort at_ role is_pruned trials now reason : generations_ok at_ t ->
    step t (snd (SortAndSwitchConnection at_ role is_pruned trials now reason t)).
Inductive reachable : BasicIceController -> Prop :=
| reachable_new : reachable BasicIceController_new
| reachable_step t t' : reachable t -> step t t' -> reachable t'.

Lemma SelectConnectionToPing_total at_ completed trials now last t : sets_ok t -> Forall (named at_) (connections t) ->
  exists r t', SelectConnectionToPing at_ completed trials now last t = Ret (r, t') /\ sets_ok t' /\
    (forall c, ping_connection r = Some c -> known t c).
Proof.
  intros Hs Hn. unfold SelectConnectionToPing. destruct (last + _ <=? now).
  - destruct (FindNext_total at_ completed trials now t Hs Hn) as (c & t' & -> & Ht' & Hc). cbn [mbind outcome_bind].
    eexists _, _. split; [done|]. split; [|exact Hc]. destruct Ht' as [->| ->]; [done|by apply new_round_sets].
  - cbn [mbind outcome_bind]. eexists _, _. split; [done|]. done.
Qed.
Lemma reachable_sets t : reachable t -> sets_ok t.
Proof.
  induction 1 as [|t t' _ IH Hstep]; [split; [constructor|done]|].
  destruct Hstep as [config|s|c Hc|c t' Hd|c Hc|at_ completed trials now last r t' Hn Hrun|at_ role is_pruned trials now reason Hg].
  - exact IH.
  - exact IH.
  - by apply AddConnection_sets.
  - by apply (OnConnectionDestroyed_sets c t).
  - by apply Mark_sets.
  - destruct (SelectConnectionToPing_total at_ completed trials now last t IH Hn) as (r0 & t0 & Hrun0 & Hs & _).
    rewrite Hrun in Hrun0. by injection Hrun0 as _ <-.
  - destruct (SortAndSwitch_state at_ role is_pruned trials now reason t) as [ts ->]. destruct IH as [Hnd Hp].
    destruct (sorted_ok at_ role is_pruned t Hg) as (Hsort & _). split; cbn -[sorted]; [by rewrite Hsort|]. rewrite Hsort. exact Hp.
Qed.

(** In every state that the controller can reach, the pinged and the unpinged connections split its
    connections, without repetition; so selecting the connection to ping, at any time and whatever has become of
    the connections, never fails an assertion, and what it selects is one of the connections or the selected one. *)
Theorem ping_selection_safe (t : BasicIceController) (at_ : Z -> Agent) (completed : bool) (trials : IceFieldTrials) (now last : Z) :
  reachable t -> Forall (named at_) (connections t) ->
  NoDup (connections t) /\ Permutation (pinged_connections_ t ++ unpinged_connections_ t) (connections t) /\
  exists r t', SelectConnectionToPing at_ completed trials now last t = Ret (r, t') /\
    (forall c, ping_connection r = Some c -> selected_connection_ t = Some c \/ In c (connections t)).
Proof.
  intros Hr Hn. pose proof (reachable_sets t Hr) as Hs. destruct (SelectConnectionToPing_total at_ completed trials now last t Hs Hn)
    as (r & t' & Hrun & _ & Hk). destruct Hs. eauto 6.
Qed.

Lemma sample_named l : Forall (named sample_memory) l.
Proof.
  apply List.Forall_forall. intros c _. unfold named, remote, conn, sample_memory. destruct (c =? 1); [discriminate|].
  destruct (c =? 2); discriminate.
Qed.
Lemma ping_selection_safe_witness : exists r t',
  SelectConnectionToPing sample_memory false kDefaultFieldTrials 10000 0
    (MarkConnectionPinged (Some 3) (AddConnection 3 (AddConnection 1 BasicIceController_new))) = Ret (r, t') /\
  ping_connection r = Some 1.
Proof.
  destruct (ping_selection_safe (MarkConnectionPinged (Some 3) (AddConnection 3 (AddConnection 1 BasicIceController_new)))
    sample_memory false kDefaultFieldTrials 10000 0) as (_ & _ & r & t' & Hrun & _).
  - eapply reachable_step; [|apply step_pinged; right; left; reflexivity].
    eapply reachable_step; [|apply step_add; intros [H|[]]; discriminate H].
    eapply reachable_step; [apply reachable_new|apply step_add; intros []].
  - apply sample_named.
  - exists r, t'. split; [exact Hrun|]. vm_compute in Hrun. injection Hrun as <- <-. reflexivity.
Defined.

(** ** A round of pings *)

(** [SelectConnectionToPing] by its last rule and [MarkConnectionPinged], once for each state of the connections. *)
Fixpoint ping_each (completed : bool) (trials : IceFieldTrials) (moments : list ((Z -> Agent) * Z)) (t : BasicIceController)
    : outcome (list Z * BasicIceController) :=
  match moments with
  | [] => mret ([], t)
  | (at_, now) :: moments =>
      '(c, t) ← ping_unpinged at_ completed trials now t;
      '(pings, t) ← ping_each completed trials moments (MarkConnectionPinged c t);
      mret (option_list c ++ pings, t)
  end.

Lemma filter_perm (f : Z -> bool) l k : Permutation l k -> Permutation (List.filter f l) (List.filter f k).
Proof.
  induction 1 as [|x l k _ IH|x y l|l k j _ IH1 _ IH2]; cbn; [done| | |by rewrite IH1].
  - by destruct (f x); rewrite IH.
  - destruct (f x), (f y); try done. apply Permutation_swap.
Qed.
Lemma Mark_pingable at_ completed trials now c t i :
  pingable at_ completed trials now (MarkConnectionPinged c t) i = pingable at_ completed trials now t i.
Proof. destruct c as [c|]; [|done]. cbn. by destruct (in_set c (pinged_connections_ t)). Qed.
Lemma Mark_connections c t : connections (MarkConnectionPinged c t) = connections t.
Proof. destruct c as [c|]; [|done]. cbn. by destruct (in_set c (pinged_connections_ t)). Qed.
Lemma Mark_unpinged P c t : sets_ok t -> In c (unpinged_connections_ t) -> P c = true ->
  Permutation (List.filter P (unpinged_connections_ t)) (c :: List.filter P (unpinged_connections_ (MarkConnectionPinged (Some c) t))).
Proof.
  intros Hs Hc HP. pose proof (sets_nodup t Hs) as Hnd. apply list.NoDup_app in Hnd. destruct Hnd as (_ & Hdis & Hn).
  cbn. destruct (in_set c (pinged_connections_ t)) eqn:Hin.
  { apply in_set_In in Hin. exfalso. apply (Hdis c); by rewrite list_elem_of_In. }
  cbn. rewrite (filter_perm P _ _ (set_erase_perm c _ Hn Hc)). cbn. by rewrite HP.
Qed.

(** One turn, while a connection is still to be pinged in this round. *)
Lemma ping_turn at_ completed trials now P t : sets_ok t -> Forall (named at_) (connections t) ->
  (forall c, In c (connections t) -> pingable at_ completed trials now t c = P c) -> List.filter P (unpinged_connections_ t) <> [] ->
  exists c, ping_unpinged at_ completed trials now t = Ret (Some c, t) /\ In c (unpinged_connections_ t) /\ P c = true.
Proof.
  intros Hs Hn HP Hne. assert (List.filter (pingable at_ completed trials now t) (unpinged_connections_ t) = List.filter P (unpinged_connections_ t)) as Hf.
  { apply filter_ext_in. intros c Hc. apply HP. apply (sets_in t c Hs). by right. }
  rewrite ping_unpinged_is by done.
  assert (new_round at_ completed trials now t = t) as ->.
  { unfold new_round. rewrite (proj2 (existsb_exists _ _)); [done|]. destruct (List.filter P (unpinged_connections_ t)) as [|c l] eqn:Hl; [done|].
    exists c. apply List.filter_In. rewrite Hf. by left. }
  rewrite Hf. pose proof (max_element_in (less_pingable at_ t) (List.filter P (unpinged_connections_ t))) as Hm.
  destruct (max_element _ _) as [c|]; [|done]. exists c. split; [done|]. by apply List.filter_In in Hm.
Qed.

(** Pings go round: as long as the same connections can be pinged, however their other states change, as many
    turns as there are such connections left in this round select each of them exactly once, before any connection
    is pinged again. *)
Theorem ping_round (completed : bool) (trials : IceFieldTrials) (P : Z -> bool) (moments : list ((Z -> Agent) * Z)) : forall (t : BasicIceController),
  reachable t ->
  Forall (fun '(at_, now) => Forall (named at_) (connections t) /\
    forall c, In c (connections t) -> pingable at_ completed trials now t c = P c) moments ->
  length moments = length (List.filter P (unpinged_connections_ t)) ->
  exists pings t', ping_each completed trials moments t = Ret (pings, t') /\ Permutation pings (List.filter P (unpinged_connections_ t)).
Proof.
  induction moments as [|[at_ now] moments IH]; intros t Hr Hm Hlen.
  - exists [], t. destruct (List.filter P (unpinged_connections_ t)); done.
  - apply Forall_cons_1 in Hm. destruct Hm as [[Hn HP] Hm']. pose proof (reachable_sets t Hr) as Hs.
    destruct (ping_turn at_ completed trials now P t Hs Hn HP) as (c & Hrun & Hc & HPc).
    { intros He. by rewrite He in Hlen. }
    cbn [ping_each]. rewrite Hrun. cbn [mbind outcome_bind]. pose proof (Mark_unpinged P c t Hs Hc HPc) as Hp.
    destruct (IH (MarkConnectionPinged (Some c) t)) as (pings & t' & Hrest & Hpings).
    + apply (reachable_step t); [done|]. apply step_pinged. apply (sets_in t c Hs). by right.
    + rewrite Mark_connections. eapply List.Forall_impl; [|exact Hm']. intros [at' now'] [Hn' HP']. split; [done|].
      intros i Hi. rewrite Mark_pingable. by apply HP'.
    + apply Permutation_length in Hp. rewrite <- Hlen in Hp. cbn in Hp |- *. lia.
    + rewrite Hrest. cbn [mbind outcome_bind option_list app]. eexists _, t'. split; [done|]. by rewrite Hp, <- Hpings.
Qed.

Lemma ping_round_witness : exists pings t',
  ping_each false kDefaultFieldTrials [(sample_memory, 5); (sample_memory, 6)] (AddConnection 3 (AddConnection 1 BasicIceController_new)) = Ret (pings, t') /\
  Permutation pings [1; 3].
Proof.
  apply (ping_round false kDefaultFieldTrials (fun _ => true) [(sample_memory, 5); (sample_memory, 6)]
    (AddConnection 3 (AddConnection 1 BasicIceController_new))).
  - eapply reachable_step; [|apply step_add; intros [H|[]]; discriminate H].
    eapply reachable_step; [apply reachable_new|apply step_add; intros []].
  - assert (forall now c, In c [1; 3] -> pingable sample_memory false kDefaultFieldTrials now
      (AddConnection 3 (AddConnection 1 BasicIceController_new)) c = true) as Hp by (intros now c [<-|[<-|[]]]; reflexivity).
    apply Forall_cons_2; [exact (conj (sample_named _) (Hp 5))|].
    apply Forall_cons_2; [exact (conj (sample_named _) (Hp 6))|]. apply Forall_nil_2.
  - reflexivity.
Defined.
