(* ===== verification/TurnServer.v ===== *)
(** * network/stun/turn_server.{h,cc}: the TURN server

    [TurnServer] with its allocations, each with its permissions and channels.
    The operations run in a monad whose state is the server and which
    collects the datagrams handed to the sockets: to clients ([ToClient]) and
    to peers ([ToPeer]).  A socket is a number; what the operating system
    answers about it, the clock, the random source and the socket factory are
    the environment [env] of a call, the authentication and redirect hooks are
    parameters (their classes are abstract).

    [allocations_] is an ordered map: a connection is found when neither it
    nor the key is below the other.  A pointer to an allocation is its key in
    the map, a pointer to a permission or channel its position in the list.
    The calls that would post or cancel a timeout are commented out in the
    code, so nothing here starts a timer; [OnMessage] of the three classes is
    what a timeout would do.

    What a socket does with a datagram is not part of the server: a UDP socket
    hands it to the system, an accepted TCP socket is the [AsyncStunTCPSocket]
    of AsyncTcpSocket, whose [Send] has assertions of its own.  The observer
    [stun_message_observer_], which is told of every STUN message, is left out:
    it is application code without an answer. *)

From Stdlib Require Import ZArith Lia String.
From stdpp Require Import gmap.
From S2P Require Import Prelude ByteOrder ConstBuffer ByteBuffer StringEncode Digest IpAddress SocketAddress StunAttr StunMessage StunNames StunAuth.
Local Open Scope Z_scope.
Local Open Scope list_scope.

Definition kNonceTimeout : Z := 60 * 60 * 1000.
Definition kDefaultAllocationTimeout : Z := 10 * 60 * 1000.
Definition kMinChannelNumber : Z := 0x4000.
Definition kMaxChannelNumber : Z := 0x7FFF.
Definition kNonceKeySize : Z := 16.
Definition kNonceSize : Z := 48.
Definition TURN_CHANNEL_HEADER_SIZE : Z := 4.
Definition IPPROTO_UDP : Z := 17.

Definition TURN_REFRESH_REQUEST : Z := 0x0004.
Definition TURN_SEND_INDICATION : Z := 0x0016.
Definition TURN_CREATE_PERMISSION_REQUEST : Z := 0x0008.
Definition TURN_CHANNEL_BIND_REQUEST : Z := 0x0009.

Definition IsTurnChannelData (msg_type : Z) : bool := Z.land msg_type 0xC000 =? 0x4000.

(** ** State *)

Inductive ProtocolType : Type := PROTO_UDP | PROTO_TCP | PROTO_SSLTCP | PROTO_TLS.
#[export] Instance ProtocolType_eq_dec : EqDecision ProtocolType.
Proof. solve_decision. Defined.
Definition proto_number (p : ProtocolType) : Z :=
  match p with PROTO_UDP => 0 | PROTO_TCP => 1 | PROTO_SSLTCP => 2 | PROTO_TLS => 3 end.

Record TurnServerConnection : Type := mkConnection {
  src_ : SocketAddress; dst_ : SocketAddress; proto_ : ProtocolType; socket_ : Z
}.

(** [operator<]: [std::tie] compares the members in order. *)
Definition conn_ltb (a b : TurnServerConnection) : bool :=
  sa_ltb (src_ a) (src_ b) ||
  (negb (sa_ltb (src_ b) (src_ a)) &&
   (sa_ltb (dst_ a) (dst_ b) ||
    (negb (sa_ltb (dst_ b) (dst_ a)) && (proto_number (proto_ a) <? proto_number (proto_ b))))).
Definition conn_eqb (a b : TurnServerConnection) : bool :=
  sa_eqb (src_ a) (src_ b) && sa_eqb (dst_ a) (dst_ b) && bool_decide (proto_ a = proto_ b).

(** What the ordered map takes for the same key. *)
Definition conn_same (a b : TurnServerConnection) : bool := negb (conn_ltb a b) && negb (conn_ltb b a).

Record Permission : Type := mkPermission { perm_peer : IPAddress }.
Record Channel : Type := mkChannel { channel_id : Z; channel_peer : SocketAddress }.

Record TurnServerAllocation : Type := mkAllocation {
  conn_ : TurnServerConnection;
  external_socket_ : Z;
  key_ : list byte;
  alloc_transaction_id_ : list byte;
  username_ : list byte;
  origin_ : list byte;
  last_nonce_ : list byte;
  perms_ : list Permission;
  channels_ : list Channel
}.

Record TurnServer : Type := mkServer {
  nonce_key_ : list byte;
  realm_ : list byte;
  software_ : list byte;
  enable_otu_nonce_ : bool;
  reject_private_addresses_ : bool;
  enable_permission_checks_ : bool;
  server_sockets_ : gmap Z ProtocolType;
  server_listen_sockets_ : gmap Z ProtocolType;
  sockets_to_delete_ : list Z;
  external_socket_factory_ : bool;
  external_addr_ : SocketAddress;
  allocations_ : list (TurnServerConnection * TurnServerAllocation);
  ts_for_next_nonce_ : Z
}.

(** The constructor; the key of the nonces is random. *)
Definition TurnServer_new (random : list byte) : TurnServer :=
  mkServer random [] [] false false true ∅ ∅ [] false SocketAddress_nil [] 0.

Definition set_allocations (l : list (TurnServerConnection * TurnServerAllocation)) (s : TurnServer) : TurnServer :=
  mkServer (nonce_key_ s) (realm_ s) (software_ s) (enable_otu_nonce_ s) (reject_private_addresses_ s)
    (enable_permission_checks_ s) (server_sockets_ s) (server_listen_sockets_ s) (sockets_to_delete_ s)
    (external_socket_factory_ s) (external_addr_ s) l (ts_for_next_nonce_ s).
Definition set_sockets (m : gmap Z ProtocolType) (s : TurnServer) : TurnServer :=
  mkServer (nonce_key_ s) (realm_ s) (software_ s) (enable_otu_nonce_ s) (reject_private_addresses_ s)
    (enable_permission_checks_ s) m (server_listen_sockets_ s) (sockets_to_delete_ s)
    (external_socket_factory_ s) (external_addr_ s) (allocations_ s) (ts_for_next_nonce_ s).
Definition set_listen_sockets (m : gmap Z ProtocolType) (s : TurnServer) : TurnServer :=
  mkServer (nonce_key_ s) (realm_ s) (software_ s) (enable_otu_nonce_ s) (reject_private_addresses_ s)
    (enable_permission_checks_ s) (server_sockets_ s) m (sockets_to_delete_ s)
    (external_socket_factory_ s) (external_addr_ s) (allocations_ s) (ts_for_next_nonce_ s).
Definition set_to_delete (l : list Z) (s : TurnServer) : TurnServer :=
  mkServer (nonce_key_ s) (realm_ s) (software_ s) (enable_otu_nonce_ s) (reject_private_addresses_ s)
    (enable_permission_checks_ s) (server_sockets_ s) (server_listen_sockets_ s) l
    (external_socket_factory_ s) (external_addr_ s) (allocations_ s) (ts_for_next_nonce_ s).
Definition set_factory (b : bool) (addr : SocketAddress) (s : TurnServer) : TurnServer :=
  mkServer (nonce_key_ s) (realm_ s) (software_ s) (enable_otu_nonce_ s) (reject_private_addresses_ s)
    (enable_permission_checks_ s) (server_sockets_ s) (server_listen_sockets_ s) (sockets_to_delete_ s)
    b addr (allocations_ s) (ts_for_next_nonce_ s).
Definition set_ts (ts : Z) (s : TurnServer) : TurnServer :=
  mkServer (nonce_key_ s) (realm_ s) (software_ s) (enable_otu_nonce_ s) (reject_private_addresses_ s)
    (enable_permission_checks_ s) (server_sockets_ s) (server_listen_sockets_ s) (sockets_to_delete_ s)
    (external_socket_factory_ s) (external_addr_ s) (allocations_ s) ts.

Definition set_last_nonce (nonce : list byte) (a : TurnServerAllocation) : TurnServerAllocation :=
  mkAllocation (conn_ a) (external_socket_ a) (key_ a) (alloc_transaction_id_ a) (username_ a) (origin_ a) nonce
    (perms_ a) (channels_ a).
Definition set_identity (tid username origin : list byte) (a : TurnServerAllocation) : TurnServerAllocation :=
  mkAllocation (conn_ a) (external_socket_ a) (key_ a) tid username origin (last_nonce_ a) (perms_ a) (channels_ a).
Definition set_perms (l : list Permission) (a : TurnServerAllocation) : TurnServerAllocation :=
  mkAllocation (conn_ a) (external_socket_ a) (key_ a) (alloc_transaction_id_ a) (username_ a) (origin_ a)
    (last_nonce_ a) l (channels_ a).
Definition set_channels (l : list Channel) (a : TurnServerAllocation) : TurnServerAllocation :=
  mkAllocation (conn_ a) (external_socket_ a) (key_ a) (alloc_transaction_id_ a) (username_ a) (origin_ a)
    (last_nonce_ a) (perms_ a) l.

(** ** The monad *)

Inductive datagram : Type :=
| ToClient (socket : Z) (data : list byte) (addr : SocketAddress)
| ToPeer (socket : Z) (data : list byte) (addr : SocketAddress).

Definition serving (A : Type) : Type := TurnServer -> outcome (A * TurnServer * list datagram).
#[export] Instance serving_ret : MRet serving := fun A a s => Ret (a, s, []).
#[export] Instance serving_bind : MBind serving := fun A B k m s =>
  match m s with
  | Ret (a, s', out) =>
      match k a s' with
      | Ret (b, s'', out') => Ret (b, s'', out ++ out')
      | Crash f => Crash f
      end
  | Crash f => Crash f
  end.
Definition server : serving TurnServer := fun s => Ret (s, s, []).
Definition update (f : TurnServer -> TurnServer) : serving unit := fun s => Ret (tt, f s, []).
Definition emit (d : datagram) : serving unit := fun s => Ret (tt, s, [d]).
Definition lift {A} (o : outcome A) : serving A := fun s => a ← o; Ret (a, s, []).

(** The derived class to which the code casts an attribute. *)
Definition attr_string (a : StunAttribute) : outcome (list byte) :=
  match attr_body a with ByteString _ => GetString a | _ => Crash UndefinedBehaviour end.
Definition attr_value (a : StunAttribute) : outcome Z :=
  match attr_body a with UInt32 v => Ret v | _ => Crash UndefinedBehaviour end.
Definition attr_address (a : StunAttribute) : outcome SocketAddress :=
  match attr_body a with Address s | XorAddress s _ => Ret s | _ => Crash UndefinedBehaviour end.

(** ** Responses *)

Definition InitResponse (req resp : StunMessage) : outcome StunMessage :=
  let resp_type := GetStunSuccessResponseType (msg_type req) in
  if resp_type =? -1 then mret resp else
  let resp := Msg_SetType resp_type resp in
  '(_, resp) ← SetTransactionID (transaction_id_ req) resp;
  mret resp.

Definition reason_bytes (reason : string) : list byte := list_byte_of_string reason.

Definition InitErrorResponse (req : StunMessage) (code : Z) (reason : string) (resp : StunMessage) : outcome StunMessage :=
  let resp_type := GetStunErrorResponseType (msg_type req) in
  if resp_type =? -1 then mret resp else
  let resp := Msg_SetType resp_type resp in
  '(_, resp) ← SetTransactionID (transaction_id_ req) resp;
  AddAttribute (StunErrorCodeAttribute kStunAttrStunErrorCode code (reason_bytes reason)) resp.

(** ** The environment *)

(** [uninitialised]: what a member holds that a constructor leaves out. *)
Record env : Type := mkEnv {
  TimeMillis : Z; new_socket : option Z; accepted : option Z; random_string : list byte; uninitialised : Z
}.

(** [to_int64]: the bits of an [int64_t]. *)
Definition to_int64 (z : Z) : Z := let u := wrap64 z in if u <? 2 ^ 63 then u else u - 2 ^ 64.
Definition int64_sub (a b : Z) : outcome Z :=
  let d := a - b in if (- 2 ^ 63 <=? d) && (d <? 2 ^ 63) then Ret d else Crash UndefinedBehaviour.

Section Server.
Context `{Heap}.

(** The sockets: the addresses the operating system knows. *)
Context (GetRemoteAddress GetLocalAddress : Z -> SocketAddress).

(** [TurnAuthInterface::GetKey] takes the user, the realm and the contents of
    [*key], and answers with the new contents; [TurnRedirectInterface]. *)
Context (auth_hook_ : option (list byte -> list byte -> list byte -> bool * list byte)).
Context (redirect_hook_ : option (SocketAddress -> bool * SocketAddress)).

(** *** The map of allocations *)

Fixpoint find_allocation (c : TurnServerConnection) (l : list (TurnServerConnection * TurnServerAllocation))
    : option TurnServerAllocation :=
  match l with
  | [] => None
  | (k, a) :: l => if conn_same k c then Some a else find_allocation c l
  end.
Definition FindAllocation (c : TurnServerConnection) : serving (option TurnServerAllocation) :=
  s ← server; mret (find_allocation c (allocations_ s)).

(** The object behind a pointer, and a change of it. *)
Definition this_allocation (c : TurnServerConnection) : serving TurnServerAllocation :=
  o ← FindAllocation c;
  match o with Some a => mret a | None => lift (Crash UndefinedBehaviour) end.
Fixpoint change_in (c : TurnServerConnection) (f : TurnServerAllocation -> TurnServerAllocation)
    (l : list (TurnServerConnection * TurnServerAllocation)) : list (TurnServerConnection * TurnServerAllocation) :=
  match l with
  | [] => []
  | (k, a) :: l => if conn_same k c then (k, f a) :: l else (k, a) :: change_in c f l
  end.
Fixpoint erase_in (c : TurnServerConnection) (l : list (TurnServerConnection * TurnServerAllocation))
    : list (TurnServerConnection * TurnServerAllocation) :=
  match l with
  | [] => []
  | (k, a) :: l => if conn_same k c then l else (k, a) :: erase_in c l
  end.
Definition change (c : TurnServerConnection) (f : TurnServerAllocation -> TurnServerAllocation) : serving unit :=
  update (fun s => set_allocations (change_in c f (allocations_ s)) s).

(** *** Sending *)

Definition Send (conn : TurnServerConnection) (data : list byte) : serving unit :=
  emit (ToClient (socket_ conn) data (src_ conn)).

Definition SendStun (conn : TurnServerConnection) (msg : StunMessage) : serving unit :=
  s ← server;
  msg ← lift (if bool_decide (software_ s = []) then mret msg
              else AddAttribute (StunByteStringAttribute kStunAttrSoftware (software_ s)) msg);
  '(_, data) ← lift (write_new msg);
  Send conn data.

Definition SendErrorResponse (e : env) (conn : TurnServerConnection) (req : StunMessage) (code : Z) (reason : string)
    : serving unit :=
  resp ← lift (StunMessage_new Turn (uninitialised e));
  resp ← lift (InitErrorResponse req code reason resp);
  SendStun conn resp.

(** An error code with its own name. *)
Definition SendError (e : env) (conn : TurnServerConnection) (req : StunMessage) (c : StunErrorCode) : serving unit :=
  SendErrorResponse e conn req (error_number c) (StunErrorToString (error_number c)).

(** *** Nonces *)

Definition GenerateNonce (nonce_key : list byte) (now : Z) : outcome (list byte) :=
  let input := store host_order 8 (wrap64 now) in
  nonce ← hex_encode input;
  mac ← ComputeHmac_string DIGEST_MD5 nonce_key input;
  let nonce := nonce ++ default [] mac in
  assert_that (zlen nonce =? kNonceSize);;
  mret nonce.

Definition ValidateNonce (nonce_key : list byte) (now : Z) (nonce : list byte) : outcome bool :=
  if negb (zlen nonce =? kNonceSize) then mret false else
  decoded ← hex_decode_with_delimiter (fresh 8) 8 (ztake 16 nonce) Byte.x00;
  match decoded with
  | None => mret false
  | Some (len, p) =>
      if negb (len =? 8) then mret false else
      mac ← ComputeHmac_string DIGEST_MD5 nonce_key (ztake 8 p);
      if negb (bool_decide (zdrop 16 nonce = default [] mac)) then mret false else
      age ← int64_sub now (to_int64 (load host_order (ztake 8 p)));
      mret (age <? kNonceTimeout)
  end.

Definition SendErrorResponseWithRealmAndNonce (e : env) (conn : TurnServerConnection) (msg : StunMessage)
    (c : StunErrorCode) : serving unit :=
  resp ← lift (StunMessage_new Turn (uninitialised e));
  resp ← lift (InitErrorResponse msg (error_number c) (StunErrorToString (error_number c)) resp);
  s ← server;
  let timestamp := if negb (ts_for_next_nonce_ s =? 0) then ts_for_next_nonce_ s else TimeMillis e in
  update (fun s => if negb (ts_for_next_nonce_ s =? 0) then set_ts 0 s else s);;
  nonce ← lift (GenerateNonce (nonce_key_ s) timestamp);
  resp ← lift (AddAttribute (StunByteStringAttribute kStunAttrNonce nonce) resp);
  resp ← lift (AddAttribute (StunByteStringAttribute kStunAttrRealm (realm_ s)) resp);
  SendStun conn resp.

Definition SendErrorResponseWithAlternateServer (e : env) (conn : TurnServerConnection) (msg : StunMessage)
    (addr : SocketAddress) : serving unit :=
  resp ← lift (StunMessage_new Turn (uninitialised e));
  resp ← lift (InitErrorResponse msg (error_number kStunTryAlteate) (StunErrorToString (error_number kStunTryAlteate)) resp);
  resp ← lift (AddAttribute (StunAddressAttribute kStunAttrAlternateServer addr) resp);
  SendStun conn resp.

(** *** An allocation *)

Fixpoint find_at {A} (p : A -> bool) (l : list A) (i : nat) : option (nat * A) :=
  match l with
  | [] => None
  | x :: l => if p x then Some (i, x) else find_at p l (S i)
  end.
Definition FindPermission (a : TurnServerAllocation) (addr : IPAddress) : option (nat * Permission) :=
  find_at (fun p => ip_eqb (perm_peer p) addr) (perms_ a) 0.
Definition FindChannel_id (a : TurnServerAllocation) (id : Z) : option (nat * Channel) :=
  find_at (fun c => channel_id c =? id) (channels_ a) 0.
Definition FindChannel_peer (a : TurnServerAllocation) (addr : SocketAddress) : option (nat * Channel) :=
  find_at (fun c => sa_eqb (channel_peer c) addr) (channels_ a) 0.
Definition HasPermission (a : TurnServerAllocation) (addr : IPAddress) : bool :=
  match FindPermission a addr with Some _ => true | None => false end.

(** A permission that exists is refreshed: nothing. *)
Definition AddPermission (addr : IPAddress) (a : TurnServerAllocation) : TurnServerAllocation :=
  match FindPermission a addr with
  | None => set_perms (perms_ a ++ [mkPermission addr]) a
  | Some _ => a
  end.

Definition SendExternal (c : TurnServerConnection) (data : list byte) (peer : SocketAddress) : serving unit :=
  a ← this_allocation c;
  emit (ToPeer (external_socket_ a) data peer).

(** Success responses always have M-I. *)
Definition SendResponse (c : TurnServerConnection) (msg : StunMessage) : serving unit :=
  a ← this_allocation c;
  '(_, msg) ← lift (AddMessageIntegrity (key_ a) msg);
  SendStun (conn_ a) msg.
Definition Alloc_SendError (e : env) (c : TurnServerConnection) (req : StunMessage) (code : StunErrorCode) : serving unit :=
  a ← this_allocation c;
  SendError e (conn_ a) req code.

(** The smaller of the default and the requested lifetime, as [int]s. *)
Definition ComputeLifetime (msg : StunMessage) : outcome Z :=
  let lifetime := kDefaultAllocationTimeout / 1000 in
  match GetUInt32 msg kStunAttrLifetime with
  | None => mret lifetime
  | Some attr =>
      v ← attr_value attr;
      if to_int32 v <? lifetime then mret (to_int32 v) else mret lifetime
  end.

Definition Alloc_HandleAllocateRequest (e : env) (c : TurnServerConnection) (msg : StunMessage) : serving unit :=
  username_attr ← (match GetByteString msg kStunAttrUsername with
                   | Some a => mret a | None => lift (Crash AssertionFailed) end);
  username ← lift (attr_string username_attr);
  a ← this_allocation c;
  origin ← (match GetByteString msg kStunAttrOrigin with
            | Some o => lift (attr_string o) | None => mret (origin_ a) end);
  change c (set_identity (transaction_id_ msg) username origin);;
  lifetime_secs ← lift (ComputeLifetime msg);
  response ← lift (StunMessage_new Turn (uninitialised e));
  response ← lift (InitResponse msg response);
  response ← lift (AddAttribute (StunXorAddressAttribute kStunAttrXorMappedAddress (src_ (conn_ a))) response);
  response ← lift (AddAttribute (StunXorAddressAttribute kStunAttrXorRelayedAddress
                                   (GetLocalAddress (external_socket_ a))) response);
  response ← lift (AddAttribute (StunUInt32Attribute kStunAttrLifetime (wrap32 lifetime_secs)) response);
  SendResponse c response.

Definition HandleRefreshRequest (e : env) (c : TurnServerConnection) (msg : StunMessage) : serving unit :=
  lifetime_secs ← lift (ComputeLifetime msg);
  response ← lift (StunMessage_new Turn (uninitialised e));
  response ← lift (InitResponse msg response);
  response ← lift (AddAttribute (StunUInt32Attribute kStunAttrLifetime (wrap32 lifetime_secs)) response);
  SendResponse c response.

Definition HandleSendIndication (c : TurnServerConnection) (msg : StunMessage) : serving unit :=
  match GetByteString msg kStunAttrData, GetAddress msg kStunAttrXorPeerAddress with
  | Some data_attr, Some peer_attr =>
      a ← this_allocation c;
      peer ← lift (attr_address peer_attr);
      if HasPermission a (ip_ peer) then
        data ← lift (attr_string data_attr);
        SendExternal c data peer
      else mret tt
  | _, _ => mret tt
  end.

Definition HandleCreatePermissionRequest (e : env) (c : TurnServerConnection) (msg : StunMessage) : serving unit :=
  match GetAddress msg kStunAttrXorPeerAddress with
  | None => Alloc_SendError e c msg kStunBadRequest
  | Some peer_attr =>
      s ← server;
      peer ← lift (attr_address peer_attr);
      if reject_private_addresses_ s && IPIsPrivate (ip_ peer) then Alloc_SendError e c msg kStunForbidden
      else
        change c (AddPermission (ip_ peer));;
        response ← lift (StunMessage_new Turn (uninitialised e));
        response ← lift (InitResponse msg response);
        SendResponse c response
  end.

Definition HandleChannelBindRequest (e : env) (c : TurnServerConnection) (msg : StunMessage) : serving unit :=
  match GetUInt32 msg kStunAttrChannelNumber, GetAddress msg kStunAttrXorPeerAddress with
  | Some channel_attr, Some peer_attr =>
      value ← lift (attr_value channel_attr);
      let id := Z.shiftr value 16 in
      if (id <? kMinChannelNumber) || (id >? kMaxChannelNumber) then Alloc_SendError e c msg kStunBadRequest else
      peer ← lift (attr_address peer_attr);
      a ← this_allocation c;
      let channel1 := FindChannel_id a id in
      let channel2 := FindChannel_peer a peer in
      if negb (bool_decide (fst <$> channel1 = fst <$> channel2)) then Alloc_SendError e c msg kStunBadRequest else
      (match channel1 with
       | None => change c (fun a => set_channels (channels_ a ++ [mkChannel id peer]) a)
       | Some _ => mret tt
       end);;
      change c (AddPermission (ip_ peer));;
      response ← lift (StunMessage_new Turn (uninitialised e));
      response ← lift (InitResponse msg response);
      SendResponse c response
  | _, _ => Alloc_SendError e c msg kStunBadRequest
  end.

Definition HandleTurnMessage (e : env) (c : TurnServerConnection) (msg : StunMessage) : serving unit :=
  if msg_type msg =? message_number kStunAllocateRequst then Alloc_HandleAllocateRequest e c msg
  else if msg_type msg =? TURN_REFRESH_REQUEST then HandleRefreshRequest e c msg
  else if msg_type msg =? TURN_SEND_INDICATION then HandleSendIndication c msg
  else if msg_type msg =? TURN_CREATE_PERMISSION_REQUEST then HandleCreatePermissionRequest e c msg
  else if msg_type msg =? TURN_CHANNEL_BIND_REQUEST then HandleChannelBindRequest e c msg
  else mret tt.

(** The length field of the message is not looked at. *)
Definition HandleChannelData (c : TurnServerConnection) (data : list byte) : serving unit :=
  id ← lift (GetBE16 host_order data);
  a ← this_allocation c;
  match FindChannel_id a id with
  | Some (_, channel) =>
      payload ← lift (mem_read data TURN_CHANNEL_HEADER_SIZE (zlen data - TURN_CHANNEL_HEADER_SIZE));
      SendExternal c payload (channel_peer channel)
  | None => mret tt
  end.

(** A packet of a peer on the relayed address. *)
Definition OnExternalPacket (e : env) (c : TurnServerConnection) (socket : Z) (data : list byte) (addr : SocketAddress)
    : serving unit :=
  a ← this_allocation c;
  lift (assert_that (external_socket_ a =? socket));;
  s ← server;
  match FindChannel_peer a addr with
  | Some (_, channel) =>
      buf ← lift (buf ← ByteBufferWriter;
                  buf ← WriteUInt16 (H := BufferT_class false) buf (wrap16 (channel_id channel));
                  buf ← WriteUInt16 (H := BufferT_class false) buf (wrap16 (zlen data));
                  WriteBytes (H := BufferT_class false) buf data);
      Send (conn_ a) (BufferT_contents buf)
  | None =>
      if negb (enable_permission_checks_ s) || HasPermission a (ip_ addr) then
        msg ← lift (StunMessage_new Turn (uninitialised e));
        let msg := Msg_SetType (message_number kTurnDataSendIndication) msg in
        '(_, msg) ← lift (SetTransactionID (random_string e) msg);
        msg ← lift (AddAttribute (StunXorAddressAttribute kStunAttrXorPeerAddress addr) msg);
        msg ← lift (AddAttribute (StunByteStringAttribute kStunAttrData data) msg);
        SendStun (conn_ a) msg
      else mret tt
  end.

(** *** The server *)

(** The contents of [*key] afterwards; the answer is not used. *)
Definition GetKey (msg : StunMessage) (key : list byte) : serving (list byte) :=
  match GetByteString msg kStunAttrUsername with
  | None => mret key
  | Some username_attr =>
      username ← lift (attr_string username_attr);
      s ← server;
      match auth_hook_ with
      | None => mret key
      | Some hook => mret (snd (hook username (realm_ s) key))
      end
  end.

Definition CheckAuthorization (e : env) (conn : TurnServerConnection) (msg : StunMessage) (data key : list byte)
    : serving bool :=
  lift (assert_that (IsStunRequestType (msg_type msg)));;
  match GetByteString msg kStunAttrMessageIntegrity with
  | None => SendErrorResponseWithRealmAndNonce e conn msg kStunNotAuthorized;; mret false
  | Some _ =>
      match GetByteString msg kStunAttrUsername, GetByteString msg kStunAttrRealm, GetByteString msg kStunAttrNonce with
      | Some _, Some _, Some nonce_attr =>
          nonce ← lift (attr_string nonce_attr);
          s ← server;
          valid ← lift (ValidateNonce (nonce_key_ s) (TimeMillis e) nonce);
          if negb valid then SendErrorResponseWithRealmAndNonce e conn msg kStunStaleNonce;; mret false else
          sound ← lift (if bool_decide (key = []) then mret false else ValidateMessageIntegrity data (zlen data) key);
          if negb sound then SendErrorResponseWithRealmAndNonce e conn msg kStunNotAuthorized;; mret false else
          allocation ← FindAllocation conn;
          match allocation with
          | Some a =>
              if enable_otu_nonce_ s && bool_decide (last_nonce_ a = nonce)
              then SendErrorResponseWithRealmAndNonce e conn msg kStunStaleNonce;; mret false
              else change conn (set_last_nonce nonce);; mret true
          | None => mret true
          end
      | _, _, _ => SendError e conn msg kStunBadRequest;; mret false
      end
  end.

Definition HandleBindingRequest (e : env) (conn : TurnServerConnection) (req : StunMessage) : serving unit :=
  response ← lift (StunMessage_new Stun (uninitialised e));
  response ← lift (InitResponse req response);
  response ← lift (AddAttribute (StunXorAddressAttribute kStunAttrXorMappedAddress (src_ conn)) response);
  SendStun conn response.

(** [allocations_[*conn].reset(allocation)]. *)
Definition put_allocation (c : TurnServerConnection) (a : TurnServerAllocation)
    (l : list (TurnServerConnection * TurnServerAllocation)) : list (TurnServerConnection * TurnServerAllocation) :=
  match find_allocation c l with
  | Some _ => change_in c (fun _ => a) l
  | None => l ++ [(c, a)]
  end.
Definition CreateAllocation (e : env) (conn : TurnServerConnection) (key : list byte) : serving bool :=
  s ← server;
  match (if external_socket_factory_ s then new_socket e else None) with
  | None => mret false
  | Some external_socket =>
      let allocation := mkAllocation conn external_socket key [] [] [] [] [] [] in
      update (fun s => set_allocations (put_allocation conn allocation (allocations_ s)) s);;
      mret true
  end.

Definition HandleAllocateRequest (e : env) (conn : TurnServerConnection) (msg : StunMessage) (key : list byte)
    : serving unit :=
  match GetUInt32 msg kStunAttrRequestedTransport with
  | None => SendError e conn msg kStunBadRequest
  | Some transport_attr =>
      value ← lift (attr_value transport_attr);
      if negb (Z.shiftr value 24 =? IPPROTO_UDP) then SendError e conn msg kStunUnsuppTransportProto else
      created ← CreateAllocation e conn key;
      if (created : bool) then HandleTurnMessage e conn msg
      else SendErrorResponse e conn msg (error_number kStunServerError) "Failed to allocate socket"
  end.

(** The body of [HandleStunMessage] behind the checks, from the line that
    looks at the allocation on. *)
Definition dispatch (e : env) (conn : TurnServerConnection) (msg : StunMessage) (key : list byte)
    (allocation : option TurnServerAllocation) : serving unit :=
  match allocation with
  | None =>
      if msg_type msg =? message_number kStunAllocateRequst then HandleAllocateRequest e conn msg key
      else SendError e conn msg kStunAllocationMismatch
  | Some a =>
      if negb (msg_type msg =? message_number kStunAllocateRequst) ||
         bool_decide (transaction_id_ msg = alloc_transaction_id_ a) then
        wrong_user ← (if IsStunRequestType (msg_type msg) then
            match GetByteString msg kStunAttrUsername with
            | None => lift (Crash UndefinedBehaviour)
            | Some username_attr =>
                username ← lift (attr_string username_attr);
                mret (negb (bool_decide (username = username_ a)))
            end
          else mret false);
        if (wrong_user : bool) then SendError e conn msg kStunWrongCredentials
        else HandleTurnMessage e conn msg
      else SendError e conn msg kStunAllocationMismatch
  end.

Definition HandleStunMessage (e : env) (conn : TurnServerConnection) (data : list byte) : serving unit :=
  msg ← lift (StunMessage_new Turn (uninitialised e));
  '(ok, msg, buf) ← lift (Message_Read msg (Reader data (zlen data)));
  match ok with
  | None => mret tt
  | Some _ =>
      if Length buf >? 0 then mret tt else
      if msg_type msg =? message_number kStunMessageBindingRequest then HandleBindingRequest e conn msg else
      let redirect := match redirect_hook_ with
        | Some hook => if msg_type msg =? message_number kStunAllocateRequst then hook (src_ conn) else (false, SocketAddress_nil)
        | None => (false, SocketAddress_nil)
        end in
      if fst redirect then SendErrorResponseWithAlternateServer e conn msg (snd redirect) else
      allocation ← FindAllocation conn;
      key ← (match allocation with None => GetKey msg [] | Some a => mret (key_ a) end);
      authorized ← (if IsStunRequestType (msg_type msg) then CheckAuthorization e conn msg data key else mret true);
      if negb authorized then mret tt else
      dispatch e conn msg key allocation
  end.

Definition OnInternalPacket (e : env) (socket : Z) (data : list byte) (addr : SocketAddress) : serving unit :=
  if zlen data <? TURN_CHANNEL_HEADER_SIZE then mret tt else
  s ← server;
  match server_sockets_ s !! socket with
  | None => lift (Crash AssertionFailed)
  | Some proto =>
      let conn := mkConnection addr (GetRemoteAddress socket) proto socket in
      msg_type ← lift (GetBE16 host_order data);
      if negb (IsTurnChannelData msg_type) then HandleStunMessage e conn data
      else
        allocation ← FindAllocation conn;
        match allocation with
        | Some _ => HandleChannelData conn data
        | None => mret tt
        end
  end.

(** *** Sockets *)

Definition AddInternalSocket (socket : Z) (proto : ProtocolType) : serving unit :=
  s ← server;
  lift (assert_that (bool_decide (server_sockets_ s !! socket = None)));;
  update (fun s => set_sockets (<[socket := proto]> (server_sockets_ s)) s).
Definition AddInternalServerSocket (socket : Z) (proto : ProtocolType) : serving unit :=
  s ← server;
  lift (assert_that (bool_decide (server_listen_sockets_ s !! socket = None)));;
  update (fun s => set_listen_sockets (<[socket := proto]> (server_listen_sockets_ s)) s).
Definition SetExternalSocketFactory (factory : bool) (external_addr : SocketAddress) : serving unit :=
  update (set_factory factory external_addr).

(** [server_listen_sockets_[server_socket]] adds an entry when there is none. *)
Definition AcceptConnection (e : env) (server_socket : Z) : serving unit :=
  match accepted e with
  | None => mret tt
  | Some tcp_socket =>
      s ← server;
      let proto := default PROTO_UDP (server_listen_sockets_ s !! server_socket) in
      update (fun s => set_listen_sockets (<[server_socket := proto]> (server_listen_sockets_ s)) s);;
      AddInternalSocket tcp_socket proto
  end.
Definition OnNewInternalConnection (e : env) (socket : Z) : serving unit :=
  s ← server;
  lift (assert_that (bool_decide (server_listen_sockets_ s !! socket <> None)));;
  AcceptConnection e socket.

Definition DestroyInternalSocket (socket : Z) : serving unit :=
  s ← server;
  match server_sockets_ s !! socket with
  | None => mret tt
  | Some _ =>
      update (fun s => set_to_delete (sockets_to_delete_ s ++ [socket]) (set_sockets (delete socket (server_sockets_ s)) s))
  end.
Definition OnInternalSocketClose (socket : Z) : serving unit := DestroyInternalSocket socket.
Definition FreeSockets : serving unit := update (set_to_delete []).

(** *** Timeouts *)

Definition OnAllocationDestroyed (allocation : TurnServerAllocation) : serving unit :=
  let socket := socket_ (conn_ allocation) in
  s ← server;
  (match server_sockets_ s !! socket with
   | Some proto => if bool_decide (proto <> PROTO_UDP) then DestroyInternalSocket socket else mret tt
   | None => mret tt
   end);;
  update (fun s => set_allocations (erase_in (conn_ allocation) (allocations_ s)) s).
Definition Alloc_OnMessage (c : TurnServerConnection) : serving unit :=
  a ← this_allocation c; OnAllocationDestroyed a.

(** A permission or channel is taken out of its list. *)
Definition OnPermissionDestroyed (c : TurnServerConnection) (perm : nat) : serving unit :=
  a ← this_allocation c;
  lift (assert_that (bool_decide (perm < length (perms_ a))%nat));;
  change c (fun a => set_perms (delete perm (perms_ a)) a).
Definition OnChannelDestroyed (c : TurnServerConnection) (channel : nat) : serving unit :=
  a ← this_allocation c;
  lift (assert_that (bool_decide (channel < length (channels_ a))%nat));;
  change c (fun a => set_channels (delete channel (channels_ a)) a).
End Server.

(** [SetTimestampForNextNonce]. *)
Definition SetTimestampForNextNonce `{Heap} (timestamp : Z) : serving (list byte) :=
  update (set_ts timestamp);;
  s ← server;
  lift (GenerateNonce (nonce_key_ s) timestamp).

(** ** Executions *)

Inductive input : Type :=
| Internal (socket : Z) (data : list byte) (addr : SocketAddress)
| External (socket : Z) (data : list byte) (addr : SocketAddress)
| SocketClosed (socket : Z)
| NewConnection (socket : Z)
| AllocationTimeout (c : TurnServerConnection)
| PermissionTimeout (c : TurnServerConnection) (perm : nat)
| ChannelTimeout (c : TurnServerConnection) (channel : nat).

Section Run.
Context `{Heap} (GetRemoteAddress GetLocalAddress : Z -> SocketAddress)
  (auth_hook_ : option (list byte -> list byte -> list byte -> bool * list byte))
  (redirect_hook_ : option (SocketAddress -> bool * SocketAddress)).

(** The server and an allocation are called through the signals of the
    sockets they are connected to: a packet on any other socket reaches
    nobody, and so does the timeout of an object that is gone. *)
Definition perform (e : env) (i : input) : serving unit :=
  s ← server;
  match i with
  | Internal socket data addr =>
      match server_sockets_ s !! socket with
      | None => mret tt
      | Some _ => OnInternalPacket GetRemoteAddress GetLocalAddress auth_hook_ redirect_hook_ e socket data addr
      end
  | External socket data addr =>
      match List.find (fun '(_, a) => external_socket_ a =? socket) (allocations_ s) with
      | None => mret tt
      | Some (c, _) => OnExternalPacket e c socket data addr
      end
  | SocketClosed socket => OnInternalSocketClose socket
  | NewConnection socket =>
      match server_listen_sockets_ s !! socket with None => mret tt | Some _ => OnNewInternalConnection e socket end
  | AllocationTimeout c =>
      match find_allocation c (allocations_ s) with None => mret tt | Some _ => Alloc_OnMessage c end
  | PermissionTimeout c perm =>
      match find_allocation c (allocations_ s) with
      | None => mret tt
      | Some a => if bool_decide (perm < length (perms_ a))%nat then OnPermissionDestroyed c perm else mret tt
      end
  | ChannelTimeout c channel =>
      match find_allocation c (allocations_ s) with
      | None => mret tt
      | Some a => if bool_decide (channel < length (channels_ a))%nat then OnChannelDestroyed c channel else mret tt
      end
  end.

(** The states that inputs lead to, with the inputs so far. *)
Inductive reach (s0 : TurnServer) : list (env * input) -> TurnServer -> Prop :=
| reach_start : reach s0 [] s0
| reach_step h s e i s' out : reach s0 h s -> perform e i s = Ret (tt, s', out) -> reach s0 (h ++ [(e, i)]) s'.
End Run.
