(* ===== verification/TurnNonce.v ===== *)
(** * The nonces of the TURN server

    A nonce is the time of its making and a MAC over it, both as hexadecimal
    text.  Shown: a nonce is accepted for an hour, and only what carries the
    MAC of its time is accepted. *)

From Stdlib Require Import ZArith Lia String.
From stdpp Require Import gmap.
From S2P Require Import Prelude ByteOrder ConstBuffer ByteBuffer Blocks Md5 StringEncode Digest IpAddress SocketAddress StunAttr StunCodec TurnServer.
Local Open Scope Z_scope.
Local Open Scope list_scope.

(** ** Decoding any text *)

(** The characters are the hexadecimal digits, of either case, of the bytes. *)
Fixpoint hex_of (text t : list byte) : Prop :=
  match text, t with
  | [], [] => True
  | c1 :: c2 :: text, b :: t =>
      hex_value c1 = Some (byte.unsigned b / 16) /\ hex_value c2 = Some (byte.unsigned b mod 16) /\ hex_of text t
  | _, _ => False
  end.

Lemma hex_value_range c v : hex_value c = Some v -> 0 <= v < 16.
Proof.
  unfold hex_value. pose proof (byte.unsigned_range c). case_match; case_match; try case_match; try case_match; intros E;
    (try discriminate); injection E as <-; rewrite ?andb_true_iff, ?Z.geb_le, ?Z.leb_le in *; lia.
Qed.

Lemma of_halves h1 h2 (b := byte.of_Z (Z.lor (Z.shiftl h1 4) h2)) : 0 <= h1 < 16 -> 0 <= h2 < 16 ->
  byte.unsigned b / 16 = h1 /\ byte.unsigned b mod 16 = h2.
Proof.
  intros H1 H2. unfold b. rewrite Z.lor_comm, lor_shiftl_add by (change (2 ^ 4) with 16; lia).
  rewrite byte.unsigned_of_Z. unfold byte.wrap. change (2 ^ 4) with 16. rewrite Z.mod_small by lia.
  split; [symmetry; apply (Z.div_unique _ _ _ h2); lia|symmetry; apply (Z.mod_unique _ _ h1); lia].
Qed.

Lemma hex_of_inj text t t' : hex_of text t -> hex_of text t' -> t = t'.
Proof.
  revert t t'. induction text as [text IH] using (well_founded_induction (Wf_nat.well_founded_ltof _ (@length byte))).
  destruct text as [|c1 [|c2 text]]; intros [|b t] [|b' t']; cbn [hex_of]; try done.
  intros (H1 & H2 & H3) (H1' & H2' & H3'). f_equal.
  - rewrite H1 in H1'. rewrite H2 in H2'. injection H1' as E1. injection H2' as E2.
    apply byte.unsigned_inj. rewrite (Z.div_mod (byte.unsigned b) 16), (Z.div_mod (byte.unsigned b') 16) by lia. lia.
  - apply (IH text); [unfold Wf_nat.ltof; cbn; lia|done|done].
Qed.

Lemma hex_decode_any fuel text buf pos : 0 <= pos -> zlen text <= 2 * (zlen buf - pos) -> (length text < fuel)%nat ->
  hex_decode_loop fuel Byte.x00 text buf pos = Ret None \/
  exists t, hex_of text t /\ zlen text = 2 * zlen t /\
    hex_decode_loop fuel Byte.x00 text buf pos = Ret (Some (pos + zlen t, splice buf pos t)).
Proof.
  revert text buf pos. induction fuel as [|fuel IH]; intros text buf pos Hp Hl Hf; [lia|].
  destruct text as [|c1 [|c2 text]]; cbn [hex_decode_loop].
  - right. exists []. split; [done|]. split; [done|]. rewrite zlen_nil, Z.add_0_r. do 3 f_equal.
    unfold splice. cbn [app]. by rewrite Z.add_0_r, ztake_zdrop.
  - by left.
  - destruct (hex_value c1) as [h1|] eqn:E1; [|by left]. destruct (hex_value c2) as [h2|] eqn:E2; [|by left].
    apply hex_value_range in E1 as R1. apply hex_value_range in E2 as R2.
    rewrite !zlen_cons in Hl. pose proof (zlen_nonneg text). cbn [length] in Hf.
    set (b := byte.of_Z _). assert (Hb : byte.unsigned b / 16 = h1 /\ byte.unsigned b mod 16 = h2) by by apply of_halves.
    change (zlen [b]) with 1 in *. rewrite mem_write_ok by (change (zlen [b]) with 1; lia). cbn [mbind outcome_bind].
    change (is_delimited Byte.x00) with false. cbn [andb].
    assert (Hls : zlen (splice buf pos [b]) = zlen buf) by (apply zlen_splice; change (zlen [b]) with 1; lia).
    destruct (IH text (splice buf pos [b]) (pos + 1)) as [->|(t & Ht & Hlen & ->)]; [lia|rewrite Hls; lia|lia|by left|].
    right. exists (b :: t). rewrite !zlen_cons, Hlen. split; [cbn [hex_of]; destruct Hb as [-> ->]; done|]. split; [lia|].
    do 3 f_equal; [lia|]. by rewrite splice_next by lia.
Qed.

(** ** Making a nonce *)

Lemma zlen_hex_plain t : zlen (hex_text Byte.x00 t) = 2 * zlen t.
Proof. rewrite hex_text_length. unfold hex_encode_output_length. cbn. lia. Qed.

Section Nonce.
Context `{Heap} (nonce_key : list byte) (Hkey : zlen nonce_key < 2 ^ 61).

Definition nonce_mac (t : list byte) : list byte := hex_text Byte.x00 (hmac md5 nonce_key t).

Lemma zlen_nonce_mac t : zlen (nonce_mac t) = 32.
Proof. unfold nonce_mac, hmac. by rewrite zlen_hex_plain, zlen_md5. Qed.

Lemma ComputeHmac_md5_hex t : zlen t = 8 -> ComputeHmac_string DIGEST_MD5 nonce_key t = Ret (Some (nonce_mac t)).
Proof.
  intros Ht. unfold ComputeHmac_string. destruct Create_digest_ok as [_ (d & -> & Hd)]. unfold ComputeHmac_hex.
  destruct (Size_ok d md5 16 [] Hd) as [-> _]. pose proof (fresh_length 16 ltac:(lia)) as Hf.
  destruct (ComputeHmac_ok d md5 16 nonce_key t (fresh 16) 16 Hd) as (d' & -> & _); [lia..|].
  cbn [mbind outcome_bind]. rewrite splice_all by (unfold hmac; rewrite zlen_md5; exact Hf).
  unfold hex_encode. by rewrite hex_encode_ok.
Qed.

Lemma zlen_store e n v : zlen (store e n v) = Z.of_nat n.
Proof. unfold zlen. by rewrite length_store. Qed.

Lemma GenerateNonce_ok now (t := store host_order 8 (wrap64 now)) :
  GenerateNonce nonce_key now = Ret (hex_text Byte.x00 t ++ nonce_mac t).
Proof.
  unfold GenerateNonce, hex_encode. fold t. rewrite hex_encode_ok. cbn [mbind outcome_bind].
  rewrite ComputeHmac_md5_hex by apply zlen_store. cbn [mbind outcome_bind default from_option id].
  rewrite zlen_app, zlen_hex_plain, zlen_nonce_mac. unfold t. by rewrite zlen_store.
Qed.

(** ** Checking a nonce *)

(** What [ValidateNonce] finds in any text. *)
Definition nonce_time (t : list byte) : Z := to_int64 (load host_order t).

Lemma ValidateNonce_cases now nonce :
  ValidateNonce nonce_key now nonce = Ret false \/
  exists t, zlen t = 8 /\ zlen nonce = 48 /\ hex_of (ztake 16 nonce) t /\ zdrop 16 nonce = nonce_mac t /\
    ValidateNonce nonce_key now nonce = (age ← int64_sub now (nonce_time t); mret (age <? kNonceTimeout)).
Proof.
  unfold ValidateNonce. destruct (Z.eqb_spec (zlen nonce) kNonceSize) as [Hn|Hn]; cbn [negb]; [|by left].
  unfold kNonceSize in Hn. assert (H16 : zlen (ztake 16 nonce) = 16) by (apply zlen_ztake; lia).
  unfold hex_decode_with_delimiter. cbn [Z.eqb]. rewrite H16. change (is_delimited Byte.x00) with false. cbv iota.
  change (8 <? 16 / 2) with false. cbv iota. pose proof (fresh_length 8 ltac:(lia)) as Hf.
  destruct (hex_decode_any (S (length (ztake 16 nonce))) (ztake 16 nonce) (fresh 8) 0) as [->|(t & Ht & Hl & ->)];
    [lia|lia|lia|by left|]. assert (Ht8 : zlen t = 8) by lia.
  cbn [mbind outcome_bind]. rewrite Ht8. change (negb (0 + 8 =? 8)) with false. cbv iota.
  rewrite splice_all by lia. rewrite (ztake_all 8 t) by lia.
  rewrite ComputeHmac_md5_hex by done. cbn [mbind outcome_bind default from_option id].
  case_bool_decide as Hm; cbn [negb]; [|by left]. right. by exists t.
Qed.
(** The nonce that was made of [t]. *)
Lemma ValidateNonce_own now t : zlen t = 8 ->
  ValidateNonce nonce_key now (hex_text Byte.x00 t ++ nonce_mac t) =
    (age ← int64_sub now (nonce_time t); mret (age <? kNonceTimeout)).
Proof.
  intros Ht. assert (H16 : zlen (hex_text Byte.x00 t) = 16) by (rewrite zlen_hex_plain; lia).
  unfold ValidateNonce. rewrite zlen_app, H16, zlen_nonce_mac. change (negb (16 + 32 =? kNonceSize)) with false. cbv iota.
  rewrite <- H16, ztake_app, zdrop_app. pose proof (fresh_length 8 ltac:(lia)) as Hf.
  unfold hex_decode_with_delimiter. cbn [Z.eqb]. change (is_delimited Byte.x00) with false. cbv iota.
  rewrite H16. change (8 <? 16 / 2) with false. cbv iota.
  rewrite hex_decode_loop_ok by lia. cbn [mbind outcome_bind]. rewrite Ht. change (negb (0 + 8 =? 8)) with false. cbv iota.
  rewrite splice_all, (ztake_all 8 t) by lia. rewrite ComputeHmac_md5_hex by done. cbn [mbind outcome_bind default from_option id].
  by rewrite bool_decide_true.
Qed.
End Nonce.

(** The digits that the server writes are digits of the bytes. *)
Lemma hex_of_text t : hex_of (hex_text Byte.x00 t) t.
Proof.
  induction t as [|b t IH]; [done|].
  assert (E : hex_text Byte.x00 (b :: t) = StringEncode.digits b ++ hex_text Byte.x00 t).
  { destruct t as [|b' t]; [by rewrite app_nil_r|]. by rewrite hex_text_cons. }
  rewrite E. unfold StringEncode.digits. cbn [app hex_of]. destruct (byte_halves b) as (_ & _ & H1 & H2).
  by rewrite !hex_value_digit by done.
Qed.

Lemma to_int64_wrap z : - 2 ^ 63 <= z < 2 ^ 63 -> to_int64 (wrap64 z) = z.
Proof.
  intros Hz. unfold to_int64, wrap64. rewrite Z.mod_mod by lia.
  destruct (Z.lt_ge_cases z 0) as [Hn|Hn].
  - replace (z mod 2 ^ 64) with (z + 2 ^ 64) by (symmetry; rewrite <- (Z_mod_plus_full z 1), Z.mod_small by lia; lia).
    rewrite (proj2 (Z.ltb_ge _ _)) by lia. lia.
  - rewrite Z.mod_small by lia. by rewrite (proj2 (Z.ltb_lt _ _)) by lia.
Qed.

(** C13: nonces of the TURN server: one made at the time [ts] has 48 characters
    and is accepted exactly while it is younger than an hour; and whatever
    text is accepted consists of the hexadecimal digits (of either case) of
    eight bytes and the text of their HMAC-MD5 under the key of the server,
    with a time that is less than an hour old. *)
Theorem nonce_valid_for_an_hour `{Heap} (nonce_key : list byte) (ts now : Z) (text : list byte) :
  zlen nonce_key < 2 ^ 61 -> 0 <= ts < 2 ^ 63 -> 0 <= now < 2 ^ 63 ->
  (exists nonce, GenerateNonce nonce_key ts = Ret nonce /\ zlen nonce = kNonceSize /\
     ValidateNonce nonce_key now nonce = Ret (now - ts <? kNonceTimeout)) /\
  (ValidateNonce nonce_key now text = Ret true ->
     exists t, zlen t = 8 /\ hex_of (ztake 16 text) t /\
       zdrop 16 text = hex_text Byte.x00 (hmac md5 nonce_key t) /\ now - nonce_time t < kNonceTimeout).
Proof.
  intros Hk Hts Hnow. split.
  - exists (hex_text Byte.x00 (store host_order 8 (wrap64 ts)) ++ nonce_mac nonce_key (store host_order 8 (wrap64 ts))).
    split; [by apply GenerateNonce_ok|]. split; [by rewrite zlen_app, zlen_hex_plain, zlen_store, zlen_nonce_mac|].
    rewrite ValidateNonce_own by (done || apply zlen_store). unfold nonce_time. rewrite load_store by (apply Z.mod_pos_bound; lia).
    rewrite (to_int64_wrap ts) by lia. unfold int64_sub.
    rewrite (proj2 (Z.leb_le _ _)), (proj2 (Z.ltb_lt _ _)) by lia. done.
  - intros E. destruct (ValidateNonce_cases nonce_key Hk now text) as [E'|(t & H1 & H2 & H3 & H4 & E')]; [congruence|].
    exists t. split; [done|]. split; [done|]. split; [done|]. rewrite E' in E. unfold int64_sub in E.
    destruct (_ && _); cbn in E; [|done]. injection E as E. by apply Z.ltb_lt.
Qed.

Lemma nonce_valid_for_an_hour_witness :
  exists nonce, GenerateNonce (H := example_heap) [Byte.x01; Byte.x02] 1000 = Ret nonce /\ zlen nonce = kNonceSize /\
    ValidateNonce (H := example_heap) [Byte.x01; Byte.x02] 3600999 nonce = Ret true.
Proof. apply (nonce_valid_for_an_hour (H := example_heap) [Byte.x01; Byte.x02] 1000 3600999 []); first [lia|done]. Defined.
