(* ===== verification/TurnProps.v ===== *)
(** * The TURN server relays only what was authorised

    [runs m s Q]: if [m] returns in [s], then [Q] of what it returns.  The
    functions that only answer the client are [quiet]: they leave the
    allocations alone and send nothing to a peer.  The invariant of an
    execution names, for each allocation, permission and channel, the
    authenticated request that created it. *)

From Stdlib Require Import ZArith Lia String.
From stdpp Require Import gmap.
From S2P Require Import Prelude ByteOrder ConstBuffer ByteBuffer StringEncode Digest IpAddress SocketAddress StunAttr StunMessage StunNames StunAuth TurnServer.
Local Open Scope Z_scope.
Local Open Scope list_scope.

(** ** Partial correctness of a handler *)

Definition runs {A} (m : serving A) (s : TurnServer) (Q : A -> TurnServer -> list datagram -> Prop) : Prop :=
  forall a s' out, m s = Ret (a, s', out) -> Q a s' out.

Lemma runs_ret {A} (a : A) s (Q : A -> TurnServer -> list datagram -> Prop) : Q a s [] -> runs (mret a) s Q.
Proof. intros HQ b s' out [= <- <- <-]. done. Qed.

Lemma runs_bind {A B} (m : serving A) (k : A -> serving B) s Q :
  runs m s (fun a s' out => runs (k a) s' (fun b s'' out' => Q b s'' (out ++ out'))) -> runs (m ≫= k) s Q.
Proof.
  intros Hm b s'' o. unfold mbind, serving_bind. destruct (m s) as [[[a s'] out]|] eqn:E; [|done].
  specialize (Hm a s' out E). destruct (k a s') as [[[b' s3] out']|] eqn:E'; [|done].
  intros [= <- <- <-]. by apply Hm.
Qed.

Lemma runs_mono {A} (m : serving A) s (P Q : A -> TurnServer -> list datagram -> Prop) :
  runs m s P -> (forall a s' out, P a s' out -> Q a s' out) -> runs m s Q.
Proof. intros Hm HPQ a s' out E. by apply HPQ, Hm. Qed.

Lemma runs_server {B} (k : TurnServer -> serving B) s Q : runs (k s) s Q -> runs (server ≫= k) s Q.
Proof. intros Hk. apply runs_bind. intros a s' out [= <- <- <-]. exact Hk. Qed.
Lemma runs_pure {A B} (a : A) (k : A -> serving B) s Q : runs (k a) s Q -> runs (mret a ≫= k) s Q.
Proof. intros Hk. by apply runs_bind, runs_ret. Qed.
Lemma runs_lift {A B} (o : outcome A) (k : A -> serving B) s Q :
  (forall a, o = Ret a -> runs (k a) s Q) -> runs (lift o ≫= k) s Q.
Proof.
  intros Hk. apply runs_bind. intros a s' out. unfold lift. destruct o as [b|]; cbn; [|done].
  intros [= <- <- <-]. by apply Hk.
Qed.
Lemma runs_update {B} f (k : unit -> serving B) s Q : runs (k tt) (f s) Q -> runs (update f ≫= k) s Q.
Proof. intros Hk. apply runs_bind. intros a s' out [= <- <- <-]. exact Hk. Qed.

Lemma runs_FindAllocation {B} c (k : option TurnServerAllocation -> serving B) s Q :
  runs (k (find_allocation c (allocations_ s))) s Q -> runs (FindAllocation c ≫= k) s Q.
Proof. intros Hk. apply runs_bind. intros a s' out [= <- <- <-]. exact Hk. Qed.
Lemma runs_this {B} c (k : TurnServerAllocation -> serving B) s Q :
  (forall a, find_allocation c (allocations_ s) = Some a -> runs (k a) s Q) -> runs (this_allocation c ≫= k) s Q.
Proof.
  intros Hk. apply runs_bind. intros a s' out E. unfold this_allocation, FindAllocation, server in E.
  unfold mbind, serving_bind in E. cbn in E. destruct (find_allocation c (allocations_ s)) as [b|] eqn:Ef; cbn in E; [|done].
  injection E as <- <- <-. by apply Hk.
Qed.

(** ** Answers to the client *)

Definition is_reply (d : datagram) : Prop := match d with ToClient _ _ _ => True | ToPeer _ _ _ => False end.

(** Everything but the time stamp for tests stays. *)
Definition same_state (s s' : TurnServer) : Prop := s' = set_ts (ts_for_next_nonce_ s') s.
Lemma same_state_refl s : same_state s s.
Proof. by destruct s. Qed.
Lemma same_state_trans s1 s2 s3 : same_state s1 s2 -> same_state s2 s3 -> same_state s1 s3.
Proof. unfold same_state. intros -> ->. done. Qed.
Lemma same_allocations s s' : same_state s s' -> allocations_ s' = allocations_ s.
Proof. by intros ->. Qed.

Definition quiet {A} (m : serving A) : Prop :=
  forall s, runs m s (fun _ s' out => same_state s s' /\ Forall is_reply out).

Lemma quiet_ret {A} (a : A) : quiet (mret a).
Proof. intros s. apply runs_ret. split; [apply same_state_refl|constructor]. Qed.
Lemma quiet_bind {A B} (m : serving A) (k : A -> serving B) : quiet m -> (forall a, quiet (k a)) -> quiet (m ≫= k).
Proof.
  intros Hm Hk s. apply runs_bind. eapply runs_mono; [apply Hm|]. intros a s1 o1 [Hs1 Ho1].
  eapply runs_mono; [apply Hk|]. intros b s2 o2 [Hs2 Ho2].
  split; [by eapply same_state_trans|]. apply Forall_app. by split.
Qed.
Lemma quiet_server : quiet server.
Proof. intros s a s' out [= <- <- <-]. split; [apply same_state_refl|constructor]. Qed.
Lemma quiet_lift {A} (o : outcome A) : quiet (lift o).
Proof.
  intros s a s' out. unfold lift. destruct o; cbn; [|done]. intros [= <- <- <-].
  split; [apply same_state_refl|constructor].
Qed.
Lemma quiet_this c : quiet (this_allocation c).
Proof.
  unfold this_allocation, FindAllocation. apply quiet_bind; [apply quiet_bind; [apply quiet_server|intros; apply quiet_ret]|].
  intros [a|]; [apply quiet_ret|apply quiet_lift].
Qed.
Lemma quiet_Send conn data : quiet (Send conn data).
Proof.
  intros s a s' out [= <- <- <-]. split; [apply same_state_refl|]. by constructor.
Qed.
Create HintDb quiet.
#[export] Hint Resolve quiet_ret quiet_server quiet_lift quiet_this quiet_Send : quiet.

Ltac quiet := repeat first
  [ solve [auto with quiet]
  | apply quiet_bind; [|intros ?]
  | match goal with |- quiet (match ?x with _ => _ end) => destruct x end ].

Section Quiet.
Context `{Heap}.

Lemma quiet_SendStun conn msg : quiet (SendStun conn msg).
Proof. unfold SendStun. quiet. Qed.
Hint Resolve quiet_SendStun : quiet.
Lemma quiet_SendErrorResponse e conn req code reason : quiet (SendErrorResponse e conn req code reason).
Proof. unfold SendErrorResponse. quiet. Qed.
Hint Resolve quiet_SendErrorResponse : quiet.
Lemma quiet_SendError e conn req code : quiet (SendError e conn req code).
Proof. unfold SendError. quiet. Qed.
Lemma quiet_realm_nonce e conn msg c : quiet (SendErrorResponseWithRealmAndNonce e conn msg c).
Proof.
  unfold SendErrorResponseWithRealmAndNonce. quiet.
  intros s a' s' out [= <- <- <-]. split; [|constructor]. by destruct (ts_for_next_nonce_ s =? 0), s.
Qed.
Lemma quiet_alternate e conn msg addr : quiet (SendErrorResponseWithAlternateServer e conn msg addr).
Proof. unfold SendErrorResponseWithAlternateServer. quiet. Qed.
Lemma quiet_SendResponse c msg : quiet (SendResponse c msg).
Proof. unfold SendResponse. quiet. Qed.
Lemma quiet_Alloc_SendError e c msg code : quiet (Alloc_SendError e c msg code).
Proof. unfold Alloc_SendError. quiet. Qed.
Lemma quiet_binding e conn msg : quiet (HandleBindingRequest e conn msg).
Proof. unfold HandleBindingRequest. quiet. Qed.
Lemma quiet_refresh e c msg : quiet (HandleRefreshRequest e c msg).
Proof. unfold HandleRefreshRequest. quiet. Qed.
Lemma quiet_external e c socket data addr : quiet (OnExternalPacket e c socket data addr).
Proof. unfold OnExternalPacket. quiet. Qed.
Lemma quiet_GetKey hook msg key : quiet (GetKey hook msg key).
Proof. unfold GetKey. quiet. Qed.
End Quiet.
#[export] Hint Resolve quiet_SendStun quiet_SendErrorResponse quiet_SendError quiet_realm_nonce quiet_alternate
  quiet_SendResponse quiet_Alloc_SendError quiet_binding quiet_refresh quiet_external quiet_GetKey : quiet.

(** ** What a request may add to an allocation *)

(** Channels have different numbers, in range, and different peers;
    permissions have different peers. *)
Definition distinct {A} (same : A -> A -> bool) (l : list A) : Prop :=
  forall i j x y, l !! i = Some x -> l !! j = Some y -> (i < j)%nat -> same x y = false.
Record alloc_ok (a : TurnServerAllocation) : Prop := {
  ok_ids : distinct (fun x y => channel_id x =? channel_id y) (channels_ a);
  ok_peers : distinct (fun x y => sa_eqb (channel_peer x) (channel_peer y)) (channels_ a);
  ok_range : Forall (fun x => kMinChannelNumber <= channel_id x <= kMaxChannelNumber) (channels_ a);
  ok_perms : distinct (fun x y => ip_eqb (perm_peer x) (perm_peer y)) (perms_ a)
}.

(** [P] are the peers that may be added, [C] the channels. *)
Record grows (P : IPAddress -> Prop) (C : Channel -> Prop) (a a' : TurnServerAllocation) : Prop := {
  grows_key : key_ a' = key_ a;
  grows_conn : conn_ a' = conn_ a;
  grows_socket : external_socket_ a' = external_socket_ a;
  grows_perms p : p ∈ perms_ a' -> p ∈ perms_ a \/ P (perm_peer p);
  grows_channels ch : ch ∈ channels_ a' -> ch ∈ channels_ a \/ C ch;
  grows_ok : alloc_ok a -> alloc_ok a'
}.

Lemma grows_refl P C a : grows P C a a.
Proof. split; auto. Qed.
Lemma grows_trans P C a b c : grows P C a b -> grows P C b c -> grows P C a c.
Proof.
  intros [K1 N1 S1 P1 C1 O1] [K2 N2 S2 P2 C2 O2]. split; try congruence; [| |auto].
  - intros p Hp. destruct (P2 p Hp) as [H|H]; auto.
  - intros p Hp. destruct (C2 p Hp) as [H|H]; auto.
Qed.

Section Distinct.
Context {A : Type} (same : A -> A -> bool).

Lemma find_at_none (f : A -> bool) l i : find_at f l i = None -> Forall (fun x => f x = false) l.
Proof.
  revert i. induction l as [|x l IH]; intros i; cbn [find_at]; [constructor|].
  destruct (f x) eqn:E; [done|]. intros Hl. constructor; [done|by apply (IH (S i))].
Qed.
Lemma find_at_some (f : A -> bool) l i j x : find_at f l i = Some (j, x) -> x ∈ l /\ f x = true.
Proof.
  revert i. induction l as [|y l IH]; intros i; cbn [find_at]; [done|].
  destruct (f y) eqn:E; [intros [= _ <-]; split; [left|done]|].
  intros Hl. destruct (IH _ Hl) as [H1 H2]. split; [by right|done].
Qed.

Lemma distinct_nil : distinct same [].
Proof. by intros [|i]. Qed.

(** A new element at the end. *)
Lemma distinct_snoc l x : distinct same l -> Forall (fun y => same y x = false) l -> distinct same (l ++ [x]).
Proof.
  intros Hl Hx i j a b Hi Hj Hij. rewrite Forall_lookup in Hx.
  apply lookup_app_Some in Hi as [Hi|[Hi Hi']], Hj as [Hj|[Hj Hj']].
  - by eapply Hl.
  - apply list_lookup_singleton_Some in Hj' as [Hj' <-]. by apply (Hx i).
  - apply lookup_lt_Some in Hj. lia.
  - apply list_lookup_singleton_Some in Hi' as [Hi' <-], Hj' as [Hj' <-]. lia.
Qed.

Lemma distinct_delete l i : distinct same l -> distinct same (delete i l).
Proof.
  intros Hl j k x y Hj Hk Hjk.
  assert (Hd : forall n, delete i l !! n = l !! (if decide (n < i)%nat then n else S n)).
  { intros n. case_decide; [by apply list_lookup_delete_lt|apply list_lookup_delete_ge; lia]. }
  rewrite Hd in Hj, Hk. eapply Hl; [exact Hj|exact Hk|]. repeat case_decide; lia.
Qed.
End Distinct.


Lemma AddPermission_grows P C addr a : P addr -> grows P C a (AddPermission addr a).
Proof.
  intros HP. unfold AddPermission, FindPermission. destruct (find_at _ _ _) as [x|] eqn:E; [apply grows_refl|].
  split; try done; cbn [perms_ channels_ set_perms].
  - intros p. rewrite elem_of_app, list_elem_of_singleton. intros [Hp| ->]; [by left|by right].
  - by left.
  - intros [H1 H2 H3 H4]. split; try done. cbn [perms_ set_perms]. apply distinct_snoc; [done|].
    by apply (find_at_none _ _ 0%nat).
Qed.

Lemma add_channel_grows (P : IPAddress -> Prop) (C : Channel -> Prop) ch a :
  C ch -> kMinChannelNumber <= channel_id ch <= kMaxChannelNumber ->
  FindChannel_id a (channel_id ch) = None -> FindChannel_peer a (channel_peer ch) = None ->
  grows P C a (set_channels (channels_ a ++ [ch]) a).
Proof.
  intros HC Hr H1 H2. split; try done; cbn [perms_ channels_ set_channels].
  - by left.
  - intros p. rewrite elem_of_app, list_elem_of_singleton. intros [Hp| ->]; [by left|by right].
  - intros [O1 O2 O3 O4]. split; try done; cbn [channels_ set_channels].
    + apply distinct_snoc; [done|]. by apply (find_at_none _ _ 0%nat).
    + apply distinct_snoc; [done|]. by apply (find_at_none _ _ 0%nat).
    + apply Forall_app. split; [done|]. by constructor.
Qed.

(** ** What a handler does to the map of allocations *)

(** The entry that the map finds for [c]. *)
Definition found (c : TurnServerConnection) (l l1 : list (TurnServerConnection * TurnServerAllocation))
    (k : TurnServerConnection) (a : TurnServerAllocation) (l2 : list (TurnServerConnection * TurnServerAllocation)) : Prop :=
  l = l1 ++ (k, a) :: l2 /\ Forall (fun x => conn_same (fst x) c = false) l1 /\ conn_same k c = true.

Lemma find_found c l a : find_allocation c l = Some a -> exists l1 k l2, found c l l1 k a l2.
Proof.
  induction l as [|[k b] l IH]; cbn [find_allocation]; [done|].
  destruct (conn_same k c) eqn:E; [intros [= ->]; by exists [], k, l|].
  intros Hl. destruct (IH Hl) as (l1 & k' & l2 & -> & Hf & Hk). exists ((k, b) :: l1), k', l2.
  split; [done|]. split; [by constructor|done].
Qed.
Lemma found_find c l l1 k a l2 : found c l l1 k a l2 -> find_allocation c l = Some a.
Proof.
  intros (-> & Hf & Hk). induction Hf as [|[k' b] l1 Hx Hf IH]; cbn [app find_allocation]; [by rewrite Hk|].
  cbn in Hx. by rewrite Hx.
Qed.
Lemma change_found c f l l1 k a l2 : found c l l1 k a l2 -> change_in c f l = l1 ++ (k, f a) :: l2.
Proof.
  intros (-> & Hf & Hk). induction Hf as [|[k' b] l1 Hx Hf IH]; cbn [app change_in]; [by rewrite Hk|].
  cbn in Hx. by rewrite Hx, IH.
Qed.
Lemma found_again c l1 k a a' l2 l1' k' b l2' :
  found c (l1 ++ (k, a) :: l2) l1 k a l2 -> found c (l1 ++ (k, a') :: l2) l1' k' b l2' ->
  l1' = l1 /\ k' = k /\ b = a' /\ l2' = l2.
Proof.
  intros (_ & Hf & Hk) (E & Hf' & Hk'). revert l1' E Hf'. induction Hf as [|x l1 Hx Hf IH]; intros [|y l1'] E Hf';
    cbn [app] in E; injection E as E1 E2.
  - by simplify_eq.
  - subst y. apply Forall_cons_1 in Hf' as [Hf' _]. cbn in Hf'. congruence.
  - subst x. cbn in Hx. congruence.
  - subst y. apply Forall_cons_1 in Hf' as [_ Hf']. destruct (IH _ E2 Hf') as (-> & ?). done.
Qed.

(** Only the entry of [c] changes, and it grows. *)
Definition allocs_step (c : TurnServerConnection) (P : IPAddress -> Prop) (C : Channel -> Prop)
    (l l' : list (TurnServerConnection * TurnServerAllocation)) : Prop :=
  l' = l \/ exists l1 k a l2 a', found c l l1 k a l2 /\ l' = l1 ++ (k, a') :: l2 /\ grows P C a a'.

Lemma allocs_step_refl c P C l : allocs_step c P C l l.
Proof. by left. Qed.
Lemma allocs_step_trans c P C l1 l2 l3 :
  allocs_step c P C l1 l2 -> allocs_step c P C l2 l3 -> allocs_step c P C l1 l3.
Proof.
  intros [->|(p & k & a & q & a' & Hf & -> & Hg)]; [done|].
  intros [->|(p' & k' & b & q' & b' & Hf' & -> & Hg')]; [right; eauto 10|].
  pose proof Hf as (El & _). subst l1. destruct (found_again _ _ _ _ _ _ _ _ _ _ Hf Hf') as (-> & -> & -> & ->).
  right. exists p, k, a, q, b'. split; [done|]. split; [done|]. by eapply grows_trans.
Qed.
Lemma change_in_step c P C f l :
  (forall a, find_allocation c l = Some a -> grows P C a (f a)) -> allocs_step c P C l (change_in c f l).
Proof.
  intros Hf. destruct (find_allocation c l) as [a|] eqn:E.
  - destruct (find_found _ _ _ E) as (l1 & k & l2 & Hl). right. exists l1, k, a, l2, (f a).
    split; [done|]. split; [by apply change_found|auto].
  - left. clear Hf. induction l as [|[k b] l IH]; [done|]. cbn [find_allocation change_in] in *.
    destruct (conn_same k c); [done|]. by rewrite IH.
Qed.

(** Sockets, keys and options stay; allocations may grow. *)
Definition same_config (s s' : TurnServer) : Prop :=
  s' = set_allocations (allocations_ s') (set_ts (ts_for_next_nonce_ s') s).
Lemma same_config_trans s1 s2 s3 : same_config s1 s2 -> same_config s2 s3 -> same_config s1 s3.
Proof. unfold same_config. intros -> ->. done. Qed.
Lemma same_state_config s s' : same_state s s' -> same_config s s'.
Proof. unfold same_state, same_config. intros ->. by destruct s. Qed.

Definition effect {A} (c : TurnServerConnection) (P : IPAddress -> Prop) (C : Channel -> Prop) (m : serving A)
    (s : TurnServer) : Prop :=
  runs m s (fun _ s' out => same_config s s' /\ allocs_step c P C (allocations_ s) (allocations_ s') /\ Forall is_reply out).

Lemma quiet_effect {A} c P C (m : serving A) s : quiet m -> effect c P C m s.
Proof.
  intros Hm. eapply runs_mono; [apply Hm|]. intros a s' out [Hs Ho].
  split; [by apply same_state_config|]. rewrite (same_allocations _ _ Hs). split; [apply allocs_step_refl|done].
Qed.
Lemma effect_change {B} c P C f (k : unit -> serving B) s :
  (forall a, find_allocation c (allocations_ s) = Some a -> grows P C a (f a)) ->
  effect c P C (k tt) (set_allocations (change_in c f (allocations_ s)) s) -> effect c P C (change c f ≫= k) s.
Proof.
  intros Hf Hk. apply runs_update. eapply runs_mono; [exact Hk|]. intros b s2 o2 (Hc & Ha & Ho).
  split; [eapply same_config_trans; [|exact Hc]; by destruct s|]. split; [|done].
  eapply allocs_step_trans; [|exact Ha]. by apply change_in_step.
Qed.

Section Handlers.
Context `{Heap} (GetRemoteAddress GetLocalAddress : Z -> SocketAddress)
  (auth_hook_ : option (list byte -> list byte -> list byte -> bool * list byte))
  (redirect_hook_ : option (SocketAddress -> bool * SocketAddress)).

(** The peer address that a request names. *)
Definition names_peer (msg : StunMessage) (peer : SocketAddress) : Prop :=
  exists attr, GetAddress msg kStunAttrXorPeerAddress = Some attr /\ attr_address attr = Ret peer.
Definition names_channel (msg : StunMessage) (id : Z) : Prop :=
  exists attr v, GetUInt32 msg kStunAttrChannelNumber = Some attr /\ attr_value attr = Ret v /\ id = Z.shiftr v 16.

(** What the message asks for. *)
Definition asks_permission (msg : StunMessage) (ip : IPAddress) : Prop :=
  (msg_type msg = TURN_CREATE_PERMISSION_REQUEST \/ msg_type msg = TURN_CHANNEL_BIND_REQUEST) /\
  exists peer, names_peer msg peer /\ ip = ip_ peer.
Definition asks_channel (msg : StunMessage) (ch : Channel) : Prop :=
  msg_type msg = TURN_CHANNEL_BIND_REQUEST /\ names_channel msg (channel_id ch) /\ names_peer msg (channel_peer ch).

Lemma effect_lift {A B} c P C (o : outcome A) (k : A -> serving B) s :
  (forall a, o = Ret a -> effect c P C (k a) s) -> effect c P C (lift o ≫= k) s.
Proof. apply runs_lift. Qed.
Lemma effect_server {B} c P C (k : TurnServer -> serving B) s : effect c P C (k s) s -> effect c P C (server ≫= k) s.
Proof. apply runs_server. Qed.
Lemma effect_this {B} c P C d (k : TurnServerAllocation -> serving B) s :
  (forall a, find_allocation d (allocations_ s) = Some a -> effect c P C (k a) s) -> effect c P C (this_allocation d ≫= k) s.
Proof. apply runs_this. Qed.

Lemma effect_CreatePermission e c msg s : msg_type msg = TURN_CREATE_PERMISSION_REQUEST ->
  effect c (asks_permission msg) (asks_channel msg) (HandleCreatePermissionRequest e c msg) s.
Proof.
  intros Ht. unfold HandleCreatePermissionRequest. destruct (GetAddress msg kStunAttrXorPeerAddress) as [attr|] eqn:Ea;
    [|apply quiet_effect; quiet].
  apply effect_server, effect_lift. intros peer Hp. case_match; [apply quiet_effect; quiet|].
  apply effect_change; [|apply quiet_effect; quiet]. intros a _. apply AddPermission_grows.
  split; [by left|]. exists peer. split; [by exists attr|done].
Qed.

Lemma effect_ChannelBind e c msg s : msg_type msg = TURN_CHANNEL_BIND_REQUEST ->
  effect c (asks_permission msg) (asks_channel msg) (HandleChannelBindRequest e c msg) s.
Proof.
  intros Ht. unfold HandleChannelBindRequest. destruct (GetUInt32 msg kStunAttrChannelNumber) as [cattr|] eqn:Ec;
    [|apply quiet_effect; quiet].
  destruct (GetAddress msg kStunAttrXorPeerAddress) as [attr|] eqn:Ea; [|apply quiet_effect; quiet].
  apply effect_lift. intros v Hv. case_match eqn:Er; [apply quiet_effect; quiet|].
  apply orb_false_iff in Er as [Er1 Er2]. rewrite Z.gtb_ltb in Er2. apply Z.ltb_ge in Er1, Er2.
  apply effect_lift. intros peer Hp. apply effect_this. intros a Hfa.
  case_bool_decide as Hsame; cbn [negb]; [|apply quiet_effect; quiet].
  assert (Hpeer : names_peer msg peer) by by exists attr.
  assert (Hgrant : forall b, grows (asks_permission msg) (asks_channel msg) b (AddPermission (ip_ peer) b)).
  { intros b. apply AddPermission_grows. split; [by right|]. by exists peer. }
  assert (Hrest : forall t, effect c (asks_permission msg) (asks_channel msg)
    (change c (AddPermission (ip_ peer));; response ← lift (StunMessage_new Turn (uninitialised e));
     response ← lift (InitResponse msg response); SendResponse c response) t).
  { intros t. apply effect_change; [by intros|apply quiet_effect; quiet]. }
  destruct (FindChannel_id a (Z.shiftr v 16)) as [[i ch]|] eqn:E1.
  - apply (runs_pure tt). apply Hrest.
  - destruct (FindChannel_peer a peer) eqn:E2; [done|].
    apply effect_change; [|apply Hrest]. intros b Hb. rewrite Hfa in Hb. injection Hb as <-.
    apply add_channel_grows; [|done..]. split; [done|]. split; [|done]. by exists cattr, v.
Qed.

Lemma grows_identity P C tid username origin a : grows P C a (set_identity tid username origin a).
Proof. split; try done; try by left. by intros [? ? ? ?]. Qed.
Lemma grows_nonce P C nonce a : grows P C a (set_last_nonce nonce a).
Proof. split; try done; try by left. by intros [? ? ? ?]. Qed.

Lemma effect_Allocate e c msg P C s : effect c P C (Alloc_HandleAllocateRequest GetLocalAddress e c msg) s.
Proof.
  unfold Alloc_HandleAllocateRequest. destruct (GetByteString msg kStunAttrUsername) as [u|]; [|by intros a s' out].
  apply (runs_pure u), effect_lift. intros username _. apply effect_this. intros a _.
  destruct (GetByteString msg kStunAttrOrigin) as [o|].
  - apply effect_lift. intros origin _. apply effect_change; [intros; apply grows_identity|apply quiet_effect; quiet].
  - apply (runs_pure (origin_ a)). apply effect_change; [intros; apply grows_identity|apply quiet_effect; quiet].
Qed.

(** A datagram for a peer comes from an allocation that has a permission or
    a channel for it. *)
Definition relays (s : TurnServer) (c : TurnServerConnection) (d : datagram) : Prop :=
  match d with
  | ToClient _ _ _ => True
  | ToPeer socket data peer =>
      exists a, find_allocation c (allocations_ s) = Some a /\ socket = external_socket_ a /\
        ((exists p, p ∈ perms_ a /\ ip_eqb (perm_peer p) (ip_ peer) = true) \/
         (exists ch, ch ∈ channels_ a /\ channel_peer ch = peer))
  end.
Lemma reply_relays s c d : is_reply d -> relays s c d.
Proof. by destruct d. Qed.

Lemma SendIndication_relays c msg s :
  runs (HandleSendIndication c msg) s (fun _ s' out => same_state s s' /\ Forall (relays s c) out).
Proof.
  assert (Hno : same_state s s /\ Forall (relays s c) []) by (split; [apply same_state_refl|constructor]).
  unfold HandleSendIndication. destruct (GetByteString msg kStunAttrData) as [d|]; [|by apply runs_ret].
  destruct (GetAddress msg kStunAttrXorPeerAddress) as [attr|]; [|by apply runs_ret].
  apply runs_this. intros a Ha. apply runs_lift. intros peer _. destruct (HasPermission a (ip_ peer)) eqn:Ep; [|by apply runs_ret].
  apply runs_lift. intros data _. unfold SendExternal. apply runs_this. intros a' Ha' u s' out [= <- <- <-].
  split; [apply same_state_refl|]. constructor; [|constructor]. exists a'. split; [done|]. split; [done|]. left.
  rewrite Ha in Ha'. injection Ha' as <-. unfold HasPermission, FindPermission in Ep.
  destruct (find_at _ _ _) as [[i p]|] eqn:Ef; [|done]. exists p. by apply find_at_some in Ef.
Qed.

Lemma ChannelData_relays c data s :
  runs (HandleChannelData c data) s (fun _ s' out => same_state s s' /\ Forall (relays s c) out).
Proof.
  unfold HandleChannelData. apply runs_lift. intros id _. apply runs_this. intros a Ha.
  destruct (FindChannel_id a id) as [[i ch]|] eqn:Ef; [|apply runs_ret; split; [apply same_state_refl|constructor]].
  apply runs_lift. intros payload _. unfold SendExternal. apply runs_this. intros a' Ha' u s' out [= <- <- <-].
  split; [apply same_state_refl|]. constructor; [|constructor]. exists a'. split; [done|]. split; [done|]. right.
  rewrite Ha in Ha'. injection Ha' as <-. exists ch. by apply find_at_some in Ef as [? _].
Qed.

(** The whole of [HandleTurnMessage]. *)
Lemma HandleTurnMessage_effect e c msg s :
  runs (HandleTurnMessage GetLocalAddress e c msg) s (fun _ s' out =>
    same_config s s' /\ allocs_step c (asks_permission msg) (asks_channel msg) (allocations_ s) (allocations_ s') /\
    Forall (relays s c) out).
Proof.
  assert (Hw : forall m : serving unit, effect c (asks_permission msg) (asks_channel msg) m s -> runs m s (fun _ s' out =>
    same_config s s' /\ allocs_step c (asks_permission msg) (asks_channel msg) (allocations_ s) (allocations_ s') /\
    Forall (relays s c) out)).
  { intros m Hm. eapply runs_mono; [exact Hm|]. intros a s' out (H1 & H2 & H3). split_and!; try done.
    eapply List.Forall_impl; [|exact H3]. apply reply_relays. }
  unfold HandleTurnMessage. case_match; [apply Hw, effect_Allocate|]. case_match; [apply Hw, quiet_effect; quiet|].
  case_match.
  { eapply runs_mono; [apply SendIndication_relays|]. intros a s' out [Hs Ho].
    split; [by apply same_state_config|]. rewrite (same_allocations _ _ Hs). split; [apply allocs_step_refl|done]. }
  case_match eqn:E1; [apply Hw, effect_CreatePermission; by apply Z.eqb_eq|].
  case_match eqn:E2; [apply Hw, effect_ChannelBind; by apply Z.eqb_eq|apply Hw, quiet_effect; quiet].
Qed.
End Handlers.
