(* ===== verification/TurnRun.v ===== *)
(** * Executions of the TURN server

    Every allocation, permission and channel goes back to a request that
    carried a valid nonce and a MESSAGE-INTEGRITY under the key of the
    allocation, and everything that is sent to a peer to such a permission or
    channel. *)

From Stdlib Require Import ZArith Lia String.
From stdpp Require Import gmap.
From S2P Require Import Prelude ByteOrder ConstBuffer ByteBuffer StringEncode Digest IpAddress SocketAddress StunAttr StunMessage StunNames StunAuth TurnServer TurnProps.
Local Open Scope Z_scope.
Local Open Scope list_scope.

Definition nobody : IPAddress -> Prop := fun _ => False.
Definition no_channel : Channel -> Prop := fun _ => False.

Lemma grows_mono (P P' : IPAddress -> Prop) (C C' : Channel -> Prop) a a' :
  (forall ip, P ip -> P' ip) -> (forall ch, C ch -> C' ch) -> grows P C a a' -> grows P' C' a a'.
Proof.
  intros HP HC [K N S Hp Hc O]. split; try done.
  - intros p Hin. destruct (Hp p Hin); auto.
  - intros ch Hin. destruct (Hc ch Hin); auto.
Qed.
Lemma allocs_step_mono c (P P' : IPAddress -> Prop) (C C' : Channel -> Prop) l l' :
  (forall ip, P ip -> P' ip) -> (forall ch, C ch -> C' ch) -> allocs_step c P C l l' -> allocs_step c P' C' l l'.
Proof.
  intros HP HC [->|(l1 & k & a & l2 & a' & Hf & -> & Hg)]; [by left|]. right.
  exists l1, k, a, l2, a'. split; [done|]. split; [done|]. by eapply grows_mono.
Qed.

(** After a step that grants nothing, the same datagrams are covered. *)
Lemma relays_before c s s' d : allocs_step c nobody no_channel (allocations_ s) (allocations_ s') ->
  relays s' c d -> relays s c d.
Proof.
  destruct d as [|sock data peer]; [done|]. intros Hst (a' & Ha' & -> & Hd).
  destruct Hst as [E|(l1 & k & a & l2 & b & Hf & E & [Hk Hc Hs Hp Hch _])]; rewrite E in Ha'; [by exists a'|].
  exists a. split; [by eapply found_find|].
  assert (b = a') as ->.
  { pose proof Hf as (_ & H1 & H2). assert (Hf' : found c (l1 ++ (k, b) :: l2) l1 k b l2) by done.
    apply found_find in Hf'. congruence. }
  split; [done|]. destruct Hd as [(p & Hin & He)|(ch & Hin & He)].
  - left. exists p. destruct (Hp p Hin); done.
  - right. exists ch. destruct (Hch ch Hin); done.
Qed.

Section Auth.
Context `{Heap} (GetRemoteAddress GetLocalAddress : Z -> SocketAddress)
  (auth_hook_ : option (list byte -> list byte -> list byte -> bool * list byte))
  (redirect_hook_ : option (SocketAddress -> bool * SocketAddress)).

Definition reads_as (data : list byte) (msg : StunMessage) : Prop :=
  exists u m0 r, StunMessage_new Turn u = Ret m0 /\ Message_Read m0 (Reader data (zlen data)) = Ret (Some tt, msg, r).

(** The packet [data] is the request [msg], with a nonce that is valid when
    it arrives and a MESSAGE-INTEGRITY under [key]. *)
Record authentic (nonce_key : list byte) (e : env) (data : list byte) (msg : StunMessage) (key : list byte) : Prop := {
  auth_read : reads_as data msg;
  auth_request : IsStunRequestType (msg_type msg) = true;
  auth_key : key <> [];
  auth_mac : ValidateMessageIntegrity data (zlen data) key = Ret true;
  auth_nonce : exists attr nonce, GetByteString msg kStunAttrNonce = Some attr /\ attr_string attr = Ret nonce /\
    ValidateNonce nonce_key (TimeMillis e) nonce = Ret true
}.

Lemma effect_then {A B} c P C (m : serving A) (k : A -> serving B) s :
  quiet m -> (forall a s', same_state s s' -> effect c P C (k a) s') -> effect c P C (m ≫= k) s.
Proof.
  intros Hm Hk. apply runs_bind. eapply runs_mono; [apply Hm|]. intros a s1 o1 [Hs1 Ho1].
  eapply runs_mono; [by apply Hk|]. intros b s2 o2 (Hc & Ha & Ho). rewrite (same_allocations _ _ Hs1) in Ha.
  split; [eapply same_config_trans; [by apply same_state_config|exact Hc]|]. split; [done|]. apply Forall_app. by split.
Qed.

Lemma CheckAuthorization_authentic e conn msg data key s : reads_as data msg ->
  runs (CheckAuthorization e conn msg data key) s (fun b _ _ => b = true -> authentic (nonce_key_ s) e data msg key).
Proof.
  intros Hr. unfold CheckAuthorization. apply runs_lift. intros [] Hreq.
  assert (Hrej : forall m : serving unit, runs (m;; mret false) s (fun b _ _ => b = true -> authentic (nonce_key_ s) e data msg key)).
  { intros m. apply runs_bind. intros a s1 o1 _. by apply runs_ret. }
  destruct (GetByteString msg kStunAttrMessageIntegrity) as [mi|]; [|apply Hrej].
  destruct (GetByteString msg kStunAttrUsername) as [u|]; [|apply Hrej].
  destruct (GetByteString msg kStunAttrRealm) as [r|]; [|apply Hrej].
  destruct (GetByteString msg kStunAttrNonce) as [na|] eqn:En; [|apply Hrej].
  apply runs_lift. intros nonce Hn. apply runs_server, runs_lift. intros [] Hv; cbn [negb]; [|apply Hrej].
  apply runs_lift. intros [] Hs; cbn [negb]; [|apply Hrej].
  assert (Ha : authentic (nonce_key_ s) e data msg key).
  { case_bool_decide as Hk; [done|]. split; [done| |done|done|by exists na, nonce].
    by destruct (IsStunRequestType (msg_type msg)). }
  intros b s' out _ _. exact Ha.
Qed.

Lemma CheckAuthorization_effect e conn msg data key s :
  effect conn nobody no_channel (CheckAuthorization e conn msg data key) s.
Proof.
  unfold CheckAuthorization. apply effect_lift. intros [] _.
  destruct (GetByteString msg kStunAttrMessageIntegrity) as [mi|]; [|apply quiet_effect; quiet].
  destruct (GetByteString msg kStunAttrUsername) as [u|]; [|apply quiet_effect; quiet].
  destruct (GetByteString msg kStunAttrRealm) as [r|]; [|apply quiet_effect; quiet].
  destruct (GetByteString msg kStunAttrNonce) as [na|]; [|apply quiet_effect; quiet].
  apply effect_lift. intros nonce _. apply effect_server, effect_lift. intros [] _; cbn [negb]; [|apply quiet_effect; quiet].
  apply effect_lift. intros [] _; cbn [negb]; [|apply quiet_effect; quiet].
  apply runs_FindAllocation. destruct (find_allocation conn (allocations_ s)) as [a|]; [|apply quiet_effect; quiet].
  case_match; [apply quiet_effect; quiet|].
  apply effect_change; [intros b _; apply grows_nonce|apply quiet_effect; quiet].
Qed.

(** ** A packet of a client *)

(** The key that the hook answers for the user of the message. *)
Definition key_of_user (realm : list byte) (msg : StunMessage) (key : list byte) : Prop :=
  exists hook attr user, auth_hook_ = Some hook /\ GetByteString msg kStunAttrUsername = Some attr /\
    attr_string attr = Ret user /\ key = snd (hook user realm []).

(** A new allocation: nothing granted yet. *)
Definition newborn (conn : TurnServerConnection) (key : list byte) (a : TurnServerAllocation) : Prop :=
  conn_ a = conn /\ key_ a = key /\ perms_ a = [] /\ channels_ a = [].

(** What a STUN message may do to the server. *)
Inductive stun_step (e : env) (conn : TurnServerConnection) (data : list byte) (s s' : TurnServer) : Prop :=
| Step_nothing : allocs_step conn nobody no_channel (allocations_ s) (allocations_ s') -> stun_step e conn data s s'
| Step_granted a msg :
    find_allocation conn (allocations_ s) = Some a -> authentic (nonce_key_ s) e data msg (key_ a) ->
    allocs_step conn (asks_permission msg) (asks_channel msg) (allocations_ s) (allocations_ s') -> stun_step e conn data s s'
| Step_allocated msg key a :
    find_allocation conn (allocations_ s) = None -> authentic (nonce_key_ s) e data msg key ->
    msg_type msg = message_number kStunAllocateRequst -> key_of_user (realm_ s) msg key ->
    newborn conn key a -> allocations_ s' = allocations_ s ++ [(conn, a)] -> stun_step e conn data s s'.

Definition stun_effect (e : env) (conn : TurnServerConnection) (data : list byte) (m : serving unit) (s : TurnServer) : Prop :=
  runs m s (fun _ s' out => same_config s s' /\ stun_step e conn data s s' /\ Forall (relays s conn) out).

Lemma effect_stun e conn data m s : effect conn nobody no_channel m s -> stun_effect e conn data m s.
Proof.
  intros Hm. eapply runs_mono; [exact Hm|]. intros a s' out (H1 & H2 & H3). split; [done|]. split; [by apply Step_nothing|].
  eapply List.Forall_impl; [|exact H3]. apply reply_relays.
Qed.
Lemma quiet_stun e conn data m s : quiet m -> stun_effect e conn data m s.
Proof. intros Hm. by apply effect_stun, quiet_effect. Qed.

(** Requests for permissions and channels are requests. *)
Lemma asks_request msg : (exists ip, asks_permission msg ip) \/ (exists ch, asks_channel msg ch) ->
  IsStunRequestType (msg_type msg) = true.
Proof. intros [(ip & [E|E] & _)|(ch & E & _)]; by rewrite E. Qed.

(** The second half of [HandleStunMessage] for an existing allocation, after
    a check that left the grants as they were. *)
Lemma granted_after e conn data msg s s1 a :
  find_allocation conn (allocations_ s) = Some a -> same_config s s1 ->
  allocs_step conn nobody no_channel (allocations_ s) (allocations_ s1) ->
  (IsStunRequestType (msg_type msg) = true -> authentic (nonce_key_ s) e data msg (key_ a)) ->
  runs (HandleTurnMessage GetLocalAddress e conn msg) s1 (fun _ s' out =>
    same_config s s' /\ stun_step e conn data s s' /\ Forall (relays s conn) out).
Proof.
  intros Ha Hc1 Hst1 Hau. eapply runs_mono; [apply HandleTurnMessage_effect|]. intros u s' out (Hc & Hst & Ho).
  split; [by eapply same_config_trans|]. split.
  - destruct (IsStunRequestType (msg_type msg)) eqn:Er.
    + eapply (Step_granted _ _ _ _ _ a msg); [done|auto|]. eapply allocs_step_trans; [|exact Hst].
      eapply allocs_step_mono; [| |exact Hst1]; done.
    + apply Step_nothing. eapply allocs_step_trans; [exact Hst1|]. eapply allocs_step_mono; [| |exact Hst].
      * intros ip Hip. enough (IsStunRequestType (msg_type msg) = true) by congruence. apply asks_request. eauto.
      * intros ch Hch. enough (IsStunRequestType (msg_type msg) = true) by congruence. apply asks_request. eauto.
  - eapply List.Forall_impl; [|exact Ho]. intros d. by apply relays_before.
Qed.

Lemma put_new c a l : find_allocation c l = None -> put_allocation c a l = l ++ [(c, a)].
Proof. unfold put_allocation. by intros ->. Qed.

Lemma found_last c l b l1 k a l2 : find_allocation c l = None -> found c (l ++ [(c, b)]) l1 k a l2 ->
  l1 = l /\ k = c /\ a = b /\ l2 = [].
Proof.
  intros Hn (E & Hf & Hk). revert l1 E Hf. induction l as [|[k' x] l IH]; intros [|y l1] E Hf; cbn [app] in E.
  - by simplify_eq.
  - injection E as _ E. by destruct l1.
  - injection E as <- <- _. cbn [find_allocation] in Hn. by rewrite Hk in Hn.
  - injection E as <- E. cbn [find_allocation] in Hn. destruct (conn_same k' c); [done|].
    apply Forall_cons_1 in Hf as [_ Hf]. destruct (IH Hn l1 E Hf) as (-> & ?). done.
Qed.

Lemma grows_newborn c key a a' : newborn c key a -> grows nobody no_channel a a' -> newborn c key a'.
Proof.
  intros (<- & <- & Hp & Hc) [K N S P C O]. split; [done|]. split; [done|]. split.
  - destruct (perms_ a') as [|p l]; [done|]. destruct (P p) as [Hi|[]]; [left|]. rewrite Hp in Hi. by apply not_elem_of_nil in Hi.
  - destruct (channels_ a') as [|p l]; [done|]. destruct (C p) as [Hi|[]]; [left|]. rewrite Hc in Hi. by apply not_elem_of_nil in Hi.
Qed.

(** A step that grants nothing, from a map with a new entry. *)
Lemma newborn_step c key b l l' : find_allocation c l = None -> newborn c key b ->
  allocs_step c nobody no_channel (l ++ [(c, b)]) l' -> exists a, newborn c key a /\ l' = l ++ [(c, a)].
Proof.
  intros Hn Hb [->|(l1 & k & a & l2 & a' & Hf & -> & Hg)]; [by exists b|].
  destruct (found_last _ _ _ _ _ _ _ Hn Hf) as (-> & -> & -> & ->). exists a'. split; [|done]. by eapply grows_newborn.
Qed.

(** The same without an allocation, in the state [s1] after the check. *)
Lemma allocated_after e conn data msg key s s1 :
  find_allocation conn (allocations_ s) = None -> same_config s s1 -> allocations_ s1 = allocations_ s ->
  authentic (nonce_key_ s) e data msg key -> key_of_user (realm_ s) msg key ->
  msg_type msg = message_number kStunAllocateRequst ->
  runs (HandleAllocateRequest GetLocalAddress e conn msg key) s1 (fun _ s' out =>
    same_config s s' /\ stun_step e conn data s s' /\ Forall is_reply out).
Proof.
  intros Hn Hc1 Hal Hau Hku Hty.
  assert (Hq : forall m : serving unit, quiet m -> runs m s1 (fun _ s' out =>
    same_config s s' /\ stun_step e conn data s s' /\ Forall is_reply out)).
  { intros m Hm. eapply runs_mono; [apply Hm|]. intros u s' out [Hs Ho].
    split; [eapply same_config_trans; [exact Hc1|by apply same_state_config]|]. split; [|done].
    apply Step_nothing. rewrite (same_allocations _ _ Hs), Hal. apply allocs_step_refl. }
  unfold HandleAllocateRequest. destruct (GetUInt32 msg kStunAttrRequestedTransport) as [t|]; [|apply Hq; quiet].
  apply runs_lift. intros v _. case_match; [apply Hq; quiet|].
  unfold CreateAllocation. apply runs_bind, runs_server. case_match; [|apply runs_ret, Hq; quiet].
  apply runs_update, runs_ret. cbn [app]. unfold HandleTurnMessage. rewrite Hty. cbn [Z.eqb Pos.eqb].
  rewrite Hal, put_new by done. set (b := mkAllocation conn _ key [] [] [] [] [] []).
  eapply runs_mono; [apply (effect_Allocate GetLocalAddress e conn msg nobody no_channel)|].
  intros u s' out (Hc & Hst & Ho). split; [eapply same_config_trans; [exact Hc1|]; eapply same_config_trans; [|exact Hc]; by destruct s1|].
  split; [|done]. cbn [allocations_ set_allocations] in Hst.
  destruct (newborn_step conn key b (allocations_ s) (allocations_ s') Hn) as (a & Ha & E); [done|done|].
  by eapply (Step_allocated _ _ _ _ _ msg key a).
Qed.

Lemma GetKey_user msg s : runs (GetKey auth_hook_ msg []) s (fun key s' out =>
  s' = s /\ out = [] /\ (key <> [] -> key_of_user (realm_ s) msg key)).
Proof.
  unfold GetKey. destruct (GetByteString msg kStunAttrUsername) as [attr|] eqn:Ea; [|by apply runs_ret].
  apply runs_lift. intros user Hu. apply runs_server. destruct auth_hook_ as [hook|] eqn:Eh; [|by apply runs_ret].
  apply runs_ret. split; [done|]. split; [done|]. intros _. exists hook, attr, user. by rewrite Eh.
Qed.

(** The check of a message that may be a request. *)
Lemma check_effect e conn msg data key s : reads_as data msg ->
  runs (if IsStunRequestType (msg_type msg) then CheckAuthorization e conn msg data key else mret true) s
    (fun b s' out => same_config s s' /\ allocs_step conn nobody no_channel (allocations_ s) (allocations_ s') /\
       Forall is_reply out /\ (b = true -> IsStunRequestType (msg_type msg) = true -> authentic (nonce_key_ s) e data msg key)).
Proof.
  intros Hr. destruct (IsStunRequestType (msg_type msg)) eqn:Er.
  - intros b s' out E. destruct (CheckAuthorization_effect e conn msg data key s b s' out E) as (H1 & H2 & H3).
    split_and!; try done. intros Hb _. by apply (CheckAuthorization_authentic e conn msg data key s Hr b s' out E).
  - apply runs_ret. split; [by destruct s|]. split; [apply allocs_step_refl|]. by split; [constructor|].
Qed.

Lemma no_allocation_step conn l l' : find_allocation conn l = None -> allocs_step conn nobody no_channel l l' -> l' = l.
Proof.
  intros Hn [->|(l1 & k & a & l2 & a' & Hf & _)]; [done|]. apply found_find in Hf. congruence.
Qed.

(** Behind the check: an answer to the client. *)
Lemma quiet_after e conn data (m : serving unit) s s1 o1 :
  same_config s s1 -> allocs_step conn nobody no_channel (allocations_ s) (allocations_ s1) -> Forall is_reply o1 -> quiet m ->
  runs m s1 (fun _ s' out => same_config s s' /\ stun_step e conn data s s' /\ Forall (relays s conn) (o1 ++ out)).
Proof.
  intros Hc1 Hst1 Ho1 Hm. eapply runs_mono; [apply Hm|]. intros u s' out [Hs Ho].
  split; [eapply same_config_trans; [exact Hc1|by apply same_state_config]|].
  split; [apply Step_nothing; by rewrite (same_allocations _ _ Hs)|].
  apply Forall_app. split; (eapply List.Forall_impl; [|done]); apply reply_relays.
Qed.

Lemma dispatch_existing e conn data msg a s s1 o1 :
  find_allocation conn (allocations_ s) = Some a -> same_config s s1 ->
  allocs_step conn nobody no_channel (allocations_ s) (allocations_ s1) -> Forall is_reply o1 ->
  (IsStunRequestType (msg_type msg) = true -> authentic (nonce_key_ s) e data msg (key_ a)) ->
  runs (dispatch GetLocalAddress e conn msg (key_ a) (Some a)) s1 (fun _ s' out =>
    same_config s s' /\ stun_step e conn data s s' /\ Forall (relays s conn) (o1 ++ out)).
Proof.
  intros Ea Hc1 Hst1 Ho1 Hau. unfold dispatch. destruct (_ || _); [|apply quiet_after; (done || quiet)].
  apply runs_bind.
  assert (Hturn : runs (HandleTurnMessage GetLocalAddress e conn msg) s1 (fun _ s' out =>
    same_config s s' /\ stun_step e conn data s s' /\ Forall (relays s conn) (o1 ++ out))).
  { eapply runs_mono; [by apply (granted_after e conn data msg s s1 a Ea Hc1 Hst1)|].
    intros u s' out (H1 & H2 & H3). split_and!; try done. apply Forall_app. split; [|done].
    eapply List.Forall_impl; [|exact Ho1]. apply reply_relays. }
  destruct (IsStunRequestType (msg_type msg)); [|by apply runs_ret].
  destruct (GetByteString msg kStunAttrUsername) as [ua|]; [|by intros ? ? ?].
  apply runs_lift. intros user _. apply runs_ret. destruct (bool_decide (user = username_ a)); cbn [negb];
    [exact Hturn|apply quiet_after; (done || quiet)].
Qed.

Lemma dispatch_new e conn data msg key s s1 o1 :
  find_allocation conn (allocations_ s) = None -> same_config s s1 -> allocations_ s1 = allocations_ s -> Forall is_reply o1 ->
  (IsStunRequestType (msg_type msg) = true -> authentic (nonce_key_ s) e data msg key) ->
  (key <> [] -> key_of_user (realm_ s) msg key) ->
  runs (dispatch GetLocalAddress e conn msg key None) s1 (fun _ s' out =>
    same_config s s' /\ stun_step e conn data s s' /\ Forall (relays s conn) (o1 ++ out)).
Proof.
  intros Ea Hc1 Hal Ho1 Hau Hku. unfold dispatch. case_match eqn:Et.
  - apply Z.eqb_eq in Et. assert (Hreq : IsStunRequestType (msg_type msg) = true) by by rewrite Et.
    specialize (Hau Hreq).
    eapply runs_mono; [apply (allocated_after e conn data msg key s s1 Ea Hc1 Hal Hau); [|done]|].
    + apply Hku. apply (auth_key _ _ _ _ _ Hau).
    + intros u s' out (H1 & H2 & H3). split_and!; try done. apply Forall_app.
      split; (eapply List.Forall_impl; [|done]); apply reply_relays.
  - apply quiet_after; [done| |done|quiet]. rewrite Hal. apply allocs_step_refl.
Qed.

Lemma HandleStunMessage_effect e conn data s :
  stun_effect e conn data (HandleStunMessage GetLocalAddress auth_hook_ redirect_hook_ e conn data) s.
Proof.
  unfold stun_effect, HandleStunMessage. apply runs_lift. intros m0 Hm0. apply runs_lift. intros [[ok msg] buf] Hread.
  destruct ok as [[]|]; [|apply quiet_stun; quiet].
  assert (Hr : reads_as data msg) by (exists (uninitialised e), m0, buf; by split).
  destruct (Length buf >? 0); [apply quiet_stun; quiet|].
  destruct (msg_type msg =? message_number kStunMessageBindingRequest); [apply quiet_stun; quiet|].
  match goal with |- runs (if fst ?r then _ else _) _ _ => destruct (fst r) end; [apply quiet_stun; quiet|].
  apply runs_FindAllocation. destruct (find_allocation conn (allocations_ s)) as [a|] eqn:Ea.
  - apply (runs_pure (key_ a)), runs_bind. eapply runs_mono; [by apply check_effect|].
    intros b s1 o1 (Hc1 & Hst1 & Ho1 & Hau).
    destruct b; cbn [negb]; [apply dispatch_existing; auto|apply quiet_after; (done || quiet)].
  - apply runs_bind. eapply runs_mono; [apply GetKey_user|]. intros key s1 o1 (-> & -> & Hku). cbn [app]. apply runs_bind.
    eapply runs_mono; [by apply check_effect|]. intros b s1 o1 (Hc1 & Hst1 & Ho1 & Hau).
    destruct b; cbn [negb]; [|apply quiet_after; (done || quiet)].
    apply dispatch_new; auto. by eapply no_allocation_step.
Qed.

Lemma OnInternalPacket_effect e socket data addr s :
  runs (OnInternalPacket GetRemoteAddress GetLocalAddress auth_hook_ redirect_hook_ e socket data addr) s (fun _ s' out =>
    same_config s s' /\ exists proto, let conn := mkConnection addr (GetRemoteAddress socket) proto socket in
      stun_step e conn data s s' /\ Forall (relays s conn) out).
Proof.
  unfold OnInternalPacket.
  assert (Hno : same_config s s /\ exists proto, let conn := mkConnection addr (GetRemoteAddress socket) proto socket in
      stun_step e conn data s s /\ Forall (relays s conn) []).
  { split; [by destruct s|]. exists PROTO_UDP. split; [apply Step_nothing, allocs_step_refl|constructor]. }
  case_match; [by apply runs_ret|]. apply runs_server. case_match; [|by intros ? ? ?].
  apply runs_lift. intros ty _. destruct (IsTurnChannelData ty); cbn [negb].
  - apply runs_FindAllocation. case_match; [|by apply runs_ret].
    eapply runs_mono; [apply ChannelData_relays|]. intros u s' out [Hs Ho].
    split; [by apply same_state_config|]. eexists. split; [|exact Ho]. apply Step_nothing.
    rewrite (same_allocations _ _ Hs). apply allocs_step_refl.
  - eapply runs_mono; [apply HandleStunMessage_effect|]. intros u s' out (Hc & Hst & Ho). split; [done|]. eexists. by split.
Qed.

(** ** Executions *)

(** A request in the history, on the connection of the allocation. *)
Definition request_in (nonce_key : list byte) (h : list (env * input)) (k : TurnServerConnection) (key : list byte)
    (Q : StunMessage -> Prop) : Prop :=
  exists e socket data addr proto msg, (e, Internal socket data addr) ∈ h /\
    conn_same k (mkConnection addr (GetRemoteAddress socket) proto socket) = true /\
    authentic nonce_key e data msg key /\ Q msg.

(** The allocate request that created the allocation. *)
Definition created_in (nonce_key realm : list byte) (h : list (env * input)) (k : TurnServerConnection) (key : list byte) : Prop :=
  exists e data msg, (e, Internal (socket_ k) data (src_ k)) ∈ h /\ dst_ k = GetRemoteAddress (socket_ k) /\
    authentic nonce_key e data msg key /\ msg_type msg = message_number kStunAllocateRequst /\ key_of_user realm msg key.

Record entry_ok (nonce_key realm : list byte) (h : list (env * input)) (x : TurnServerConnection * TurnServerAllocation) : Prop := {
  entry_shape : alloc_ok (snd x);
  entry_created : created_in nonce_key realm h (fst x) (key_ (snd x));
  entry_perms p : p ∈ perms_ (snd x) ->
    request_in nonce_key h (fst x) (key_ (snd x)) (fun m => asks_permission m (perm_peer p));
  entry_channels ch : ch ∈ channels_ (snd x) ->
    request_in nonce_key h (fst x) (key_ (snd x)) (fun m => asks_channel m ch)
}.

Definition server_inv (nonce_key realm : list byte) (h : list (env * input)) (s : TurnServer) : Prop :=
  nonce_key_ s = nonce_key /\ realm_ s = realm /\ Forall (entry_ok nonce_key realm h) (allocations_ s).

Lemma request_in_app nk h h' k key Q : request_in nk h k key Q -> request_in nk (h ++ h') k key Q.
Proof.
  intros (e & socket & data & addr & proto & msg & Hin & Hr). exists e, socket, data, addr, proto, msg.
  split; [rewrite elem_of_app; by left|done].
Qed.
Lemma entry_ok_app nk realm h h' x : entry_ok nk realm h x -> entry_ok nk realm (h ++ h') x.
Proof.
  intros [Hs (e & data & msg & Hin & Hc) Hp Hch]. split; [done| | |].
  - exists e, data, msg. split; [rewrite elem_of_app; by left|done].
  - intros p Hin'. by apply request_in_app, Hp.
  - intros ch Hin'. by apply request_in_app, Hch.
Qed.

(** An entry that lost some of its permissions or channels. *)
Lemma entry_ok_less nk realm h k a a' : entry_ok nk realm h (k, a) -> key_ a' = key_ a -> alloc_ok a' ->
  perms_ a' ⊆ perms_ a -> channels_ a' ⊆ channels_ a -> entry_ok nk realm h (k, a').
Proof.
  intros [Hs Hc Hp Hch] Hk Hok Hsp Hsc. split; cbn [fst snd] in *; rewrite ?Hk; try done.
  - intros p Hin. by apply Hp, Hsp.
  - intros ch Hin. by apply Hch, Hsc.
Qed.

Lemma entry_ok_grown nk realm h k a a' e socket data addr proto msg (c := mkConnection addr (GetRemoteAddress socket) proto socket) :
  conn_same k c = true -> entry_ok nk realm h (k, a) -> authentic nk e data msg (key_ a) ->
  (e, Internal socket data addr) ∈ h -> grows (asks_permission msg) (asks_channel msg) a a' -> entry_ok nk realm h (k, a').
Proof.
  intros Hk [Hs Hc Hp Hch] Hau Hin [Gk Gc Gs Gp Gch Gok]. cbn [fst snd] in *. split; cbn [fst snd]; rewrite ?Gk; [auto|done| |].
  - intros p Hp'. destruct (Gp p Hp') as [Hp''|Hp'']; [auto|]. by exists e, socket, data, addr, proto, msg.
  - intros ch Hc'. destruct (Gch ch Hc') as [Hc''|Hc'']; [auto|]. by exists e, socket, data, addr, proto, msg.
Qed.

Lemma entry_ok_kept nk realm h k a a' : entry_ok nk realm h (k, a) -> grows nobody no_channel a a' -> entry_ok nk realm h (k, a').
Proof.
  intros Hx [Gk Gc Gs Gp Gch Gok]. apply (entry_ok_less _ _ _ _ a); try done.
  - apply Gok, (entry_shape _ _ _ _ Hx).
  - intros p Hp. by destruct (Gp p Hp) as [|[]].
  - intros p Hp. by destruct (Gch p Hp) as [|[]].
Qed.

Lemma newborn_ok c key a : newborn c key a -> alloc_ok a.
Proof. intros (_ & _ & Hp & Hc). split; rewrite ?Hp, ?Hc; try apply distinct_nil; constructor. Qed.

Lemma stun_step_inv nk realm h e socket data addr proto s s' (c := mkConnection addr (GetRemoteAddress socket) proto socket) :
  server_inv nk realm h s -> same_config s s' -> (e, Internal socket data addr) ∈ h -> stun_step e c data s s' ->
  server_inv nk realm h s'.
Proof.
  intros (Hn & Hr & Hf) Hc Hin Hst. split; [by rewrite Hc|]. split; [by rewrite Hc|].
  destruct Hst as [[->|(l1 & k & a & l2 & a' & (E & _ & Hk) & -> & Hg)]
    |a msg Ha Hau [->|(l1 & k & b & l2 & b' & Hfo & -> & Hg)]|msg key a Hno Hau Ht Hu Hb E]; try done.
  - rewrite E in Hf. apply Forall_app in Hf as [Hf1 Hf2]. apply Forall_cons_1 in Hf2 as [Hx Hf2].
    apply Forall_app. split; [done|]. constructor; [|done]. by apply (entry_ok_kept _ _ _ _ a).
  - assert (b = a) as -> by (apply found_find in Hfo; congruence). destruct Hfo as (E & _ & Hk).
    rewrite E in Hf. apply Forall_app in Hf as [Hf1 Hf2]. apply Forall_cons_1 in Hf2 as [Hx Hf2].
    apply Forall_app. split; [done|]. constructor; [|done]. rewrite Hn in Hau.
    by apply (entry_ok_grown nk realm h k a b' e socket data addr proto msg).
  - rewrite E. apply Forall_app. split; [done|]. constructor; [|constructor].
    pose proof Hb as (Hca & Hka & Hp & Hch). rewrite Hn in Hau. rewrite Hr in Hu. split; cbn [fst snd].
    + by apply (newborn_ok c key).
    + rewrite Hka. exists e, data, msg. unfold c. cbn [socket_ src_ dst_]. done.
    + rewrite Hp. intros p Hp'. by apply not_elem_of_nil in Hp'.
    + rewrite Hch. intros p Hp'. by apply not_elem_of_nil in Hp'.
Qed.

(** The operations on sockets. *)
Definition sockets_only (s s' : TurnServer) : Prop :=
  nonce_key_ s' = nonce_key_ s /\ realm_ s' = realm_ s /\ allocations_ s' = allocations_ s.
Lemma Destroy_sockets socket s : runs (DestroyInternalSocket socket) s (fun _ s' out => sockets_only s s' /\ out = []).
Proof.
  unfold DestroyInternalSocket. apply runs_server. case_match; [|by apply runs_ret].
  intros u s' out [= <- <- <-]. by destruct s.
Qed.
Lemma NewConnection_sockets e socket s : runs (OnNewInternalConnection e socket) s (fun _ s' out => sockets_only s s' /\ out = []).
Proof.
  unfold OnNewInternalConnection, AcceptConnection. apply runs_server, runs_lift. intros [] _. case_match; [|by apply runs_ret].
  apply runs_server, runs_update. unfold AddInternalSocket. apply runs_server, runs_lift. intros [] _.
  intros u s' out [= <- <- <-]. by destruct s.
Qed.

Lemma erase_incl c l : forall x, x ∈ erase_in c l -> x ∈ l.
Proof.
  induction l as [|[k a] l IH]; intros x; cbn [erase_in]; [done|]. destruct (conn_same k c); [by right|].
  rewrite !elem_of_cons. intros [->|Hx]; [by left|right; auto].
Qed.

Lemma change_less nk realm h c f l a : Forall (entry_ok nk realm h) l -> find_allocation c l = Some a ->
  (forall k, entry_ok nk realm h (k, a) -> entry_ok nk realm h (k, f a)) -> Forall (entry_ok nk realm h) (change_in c f l).
Proof.
  intros Hl Ha Hf. destruct (find_found _ _ _ Ha) as (l1 & k & l2 & Hfo). rewrite (change_found _ _ _ _ _ _ _ Hfo).
  destruct Hfo as (-> & _). apply Forall_app in Hl as [H1 H2]. apply Forall_cons_1 in H2 as [Hx H2].
  apply Forall_app. split; [done|]. constructor; auto.
Qed.

Lemma Timeout_inv nk realm h c s : server_inv nk realm h s -> runs (Alloc_OnMessage c) s (fun _ s' out => server_inv nk realm h s' /\ out = []).
Proof.
  intros (Hn & Hr & Hf). unfold Alloc_OnMessage, OnAllocationDestroyed. apply runs_this. intros a _. apply runs_server, runs_bind.
  assert (Hm : runs (match server_sockets_ s !! socket_ (conn_ a) with
    | Some proto => if bool_decide (proto <> PROTO_UDP) then DestroyInternalSocket (socket_ (conn_ a)) else mret tt
    | None => mret tt end) s (fun _ s' out => sockets_only s s' /\ out = [])).
  { case_match; [|by apply runs_ret]. case_match; [apply Destroy_sockets|by apply runs_ret]. }
  eapply runs_mono; [exact Hm|]. intros u s1 o1 [(En & Er & El) ->] v s' out [= <- <- <-].
  split; [|done]. split; [by rewrite <- Hn|]. split; [by rewrite <- Hr|]. cbn [allocations_ set_allocations].
  rewrite El. rewrite List.Forall_forall in *. intros x Hx. apply Hf. rewrite <- list_elem_of_In in *. by eapply erase_incl.
Qed.

Lemma PermissionTimeout_inv nk realm h c i s : server_inv nk realm h s ->
  runs (OnPermissionDestroyed c i) s (fun _ s' out => server_inv nk realm h s' /\ out = []).
Proof.
  intros (Hn & Hr & Hf). unfold OnPermissionDestroyed. apply runs_this. intros a Ha. apply runs_lift. intros [] _.
  intros u s' out [= <- <- <-]. split; [|done]. split; [done|]. split; [done|]. apply (change_less _ _ _ _ _ _ a Hf Ha).
  intros k Hx. apply (entry_ok_less _ _ _ _ a); try done; cbn [perms_ set_perms].
  - destruct (entry_shape _ _ _ _ Hx) as [H1 H2 H3 H4]. split; try done. by apply distinct_delete.
  - apply list_subseteq_delete.
Qed.
Lemma ChannelTimeout_inv nk realm h c i s : server_inv nk realm h s ->
  runs (OnChannelDestroyed c i) s (fun _ s' out => server_inv nk realm h s' /\ out = []).
Proof.
  intros (Hn & Hr & Hf). unfold OnChannelDestroyed. apply runs_this. intros a Ha. apply runs_lift. intros [] _.
  intros u s' out [= <- <- <-]. split; [|done]. split; [done|]. split; [done|]. apply (change_less _ _ _ _ _ _ a Hf Ha).
  intros k Hx. apply (entry_ok_less _ _ _ _ a); try done; cbn [channels_ set_channels].
  - destruct (entry_shape _ _ _ _ Hx) as [H1 H2 H3 H4]. split; cbn [channels_ perms_ set_channels]; try done; try by apply distinct_delete.
    by apply Forall_delete.
  - apply list_subseteq_delete.
Qed.

Lemma sockets_inv nk realm h s s' : server_inv nk realm h s -> sockets_only s s' -> server_inv nk realm h s'.
Proof. intros (Hn & Hr & Hf) (En & Er & El). split; [congruence|]. split; [congruence|]. by rewrite El. Qed.

Notation perform := (perform GetRemoteAddress GetLocalAddress auth_hook_ redirect_hook_).
Notation reach := (reach GetRemoteAddress GetLocalAddress auth_hook_ redirect_hook_).

Lemma server_inv_app nk realm h h' s : server_inv nk realm h s -> server_inv nk realm (h ++ h') s.
Proof.
  intros (Hn & Hr & Hf). split; [done|]. split; [done|]. eapply List.Forall_impl; [|exact Hf]. intros x. apply entry_ok_app.
Qed.

(** One input: the invariant, and what is sent to peers. *)
Lemma perform_inv nk realm h e i s : server_inv nk realm h s ->
  runs (perform e i) s (fun _ s' out => server_inv nk realm (h ++ [(e, i)]) s' /\
    forall socket data peer, ToPeer socket data peer ∈ out -> exists sock packet addr proto,
      i = Internal sock packet addr /\ relays s (mkConnection addr (GetRemoteAddress sock) proto sock) (ToPeer socket data peer)).
Proof.
  intros Hi0. pose proof (server_inv_app nk realm h [(e, i)] s Hi0) as Hi. unfold TurnServer.perform. apply runs_server.
  assert (Hnone : forall (m : serving unit), runs m s (fun _ s' out => server_inv nk realm (h ++ [(e, i)]) s' /\ out = []) ->
    runs m s (fun _ s' out => server_inv nk realm (h ++ [(e, i)]) s' /\
    forall socket data peer, ToPeer socket data peer ∈ out -> exists sock packet addr proto,
      i = Internal sock packet addr /\ relays s (mkConnection addr (GetRemoteAddress sock) proto sock) (ToPeer socket data peer))).
  { intros m Hm. eapply runs_mono; [exact Hm|]. intros u s' out [Hs ->]. split; [done|].
    intros socket data peer Hin. by apply not_elem_of_nil in Hin. }
  destruct i as [socket data addr|socket data addr|socket|socket|c|c p|c p].
  - case_match; [|apply Hnone; by apply runs_ret].
    eapply runs_mono; [apply OnInternalPacket_effect|]. intros u s' out (Hc & proto & Hst & Ho). split.
    + eapply (stun_step_inv _ _ _ e socket data addr proto s); try done. rewrite elem_of_app. right. left.
    + intros sock d peer Hin. exists socket, data, addr, proto. split; [done|].
      rewrite List.Forall_forall in Ho. apply Ho. by apply list_elem_of_In.
  - case_match; [|apply Hnone; by apply runs_ret]. case_match. eapply runs_mono; [apply quiet_external|].
    intros u s' out [Hs Ho]. split.
    + destruct Hi as (Hn & Hr & Hf). split; [by rewrite Hs|]. split; [by rewrite Hs|]. by rewrite (same_allocations _ _ Hs).
    + intros sock d peer Hin. rewrite List.Forall_forall in Ho. apply list_elem_of_In, Ho in Hin. done.
  - apply Hnone. eapply runs_mono; [apply Destroy_sockets|]. intros u s' out [Hs ->]. split; [by eapply sockets_inv|done].
  - apply Hnone. case_match; [|by apply runs_ret]. eapply runs_mono; [apply NewConnection_sockets|].
    intros u s' out [Hs ->]. split; [by eapply sockets_inv|done].
  - apply Hnone. case_match; [by apply Timeout_inv|by apply runs_ret].
  - apply Hnone. case_match; [|by apply runs_ret]. case_match; [by apply PermissionTimeout_inv|by apply runs_ret].
  - apply Hnone. case_match; [|by apply runs_ret]. case_match; [by apply ChannelTimeout_inv|by apply runs_ret].
Qed.

Lemma turn_reach_inv s0 h s : allocations_ s0 = [] -> reach s0 h s -> server_inv (nonce_key_ s0) (realm_ s0) h s.
Proof.
  intros H0. induction 1 as [|h s e i s' out Hr IH E]; [split; [done|]; split; [done|]; by rewrite H0|].
  by destruct (perform_inv _ _ _ e i s IH tt s' out E).
Qed.
End Auth.
