(* ===== verification/TurnSafe.v ===== *)
(** * The handlers of the TURN server never crash

    [returns m s Q]: the handler returns in [s], with [Q] of its result.  From
    any state with sound keys and distinct connections every input is handled
    without a failed assertion, without a read outside a buffer and without
    undefined behaviour, and leads to such a state again. *)

From Stdlib Require Import ZArith Lia String.
From stdpp Require Import gmap.
From S2P Require Import Prelude ByteOrder ConstBuffer ByteBuffer Blocks Md5 StringEncode Digest IpAddress SocketAddress StunAttr StunCodec StunMessage StunRead StunNames StunAuth StunSafe TurnServer TurnNonce TurnProps TurnRun.
Local Open Scope Z_scope.
Local Open Scope list_scope.

(** ** Connections *)

Lemma memcmp_refl l n : memcmp l l n = Eq.
Proof. revert l. induction n as [|n IH]; intros [|x l]; cbn; try done. by rewrite Z.compare_refl. Qed.
Lemma ip_eqb_refl ip : ip_eqb ip ip = true.
Proof. unfold ip_eqb. rewrite bool_decide_true by done. cbn [negb]. destruct (family_ ip); by rewrite ?memcmp_refl. Qed.
Lemma sa_ltb_irrefl a : sa_ltb a a = false.
Proof.
  unfold sa_ltb. rewrite ip_eqb_refl. rewrite (bool_decide_true (hostname_ a = hostname_ a)) by done.
  cbn [negb]. rewrite andb_false_r. apply Z.ltb_irrefl.
Qed.
Lemma conn_same_refl c : conn_same c c = true.
Proof. unfold conn_same, conn_ltb. rewrite !sa_ltb_irrefl, Z.ltb_irrefl. done. Qed.

(** ** The states *)

Notation entry := (TurnServerConnection * TurnServerAllocation)%type.

Definition keys_distinct (l : list entry) : Prop := distinct conn_same (map fst l).

Record ready (s : TurnServer) : Prop := {
  ready_nonce : zlen (nonce_key_ s) < 2 ^ 61;
  ready_keys : Forall (fun x => zlen (key_ (snd x)) < 2 ^ 61) (allocations_ s);
  ready_distinct : keys_distinct (allocations_ s)
}.

(** ** Total correctness of a handler *)

Definition returns {A} (m : serving A) (s : TurnServer) (Q : A -> TurnServer -> Prop) : Prop :=
  exists a s' out, m s = Ret (a, s', out) /\ Q a s'.

Lemma returns_ret {A} (a : A) s (Q : A -> TurnServer -> Prop) : Q a s -> returns (mret a) s Q.
Proof. intros HQ. by exists a, s, []. Qed.
Lemma returns_bind {A B} (m : serving A) (k : A -> serving B) s Q :
  returns m s (fun a s' => returns (k a) s' Q) -> returns (m ≫= k) s Q.
Proof.
  intros (a & s' & out & E & b & s'' & out' & E' & HQ). exists b, s'', (out ++ out').
  unfold mbind, serving_bind. by rewrite E, E'.
Qed.
Lemma returns_mono {A} (m : serving A) s (P Q : A -> TurnServer -> Prop) :
  returns m s P -> (forall a s', P a s' -> Q a s') -> returns m s Q.
Proof. intros (a & s' & out & E & HP) HPQ. exists a, s', out. auto. Qed.
Lemma returns_server {B} (k : TurnServer -> serving B) s Q : returns (k s) s Q -> returns (server ≫= k) s Q.
Proof. intros Hk. apply returns_bind. by exists s, s, []. Qed.
Lemma returns_lift {A B} (o : outcome A) a (k : A -> serving B) s Q : o = Ret a -> returns (k a) s Q -> returns (lift o ≫= k) s Q.
Proof. intros -> Hk. apply returns_bind. by exists a, s, []. Qed.
Lemma returns_update {B} f (k : unit -> serving B) s Q : returns (k tt) (f s) Q -> returns (update f ≫= k) s Q.
Proof. intros Hk. apply returns_bind. by exists tt, (f s), []. Qed.
Lemma returns_FindAllocation {B} c (k : option TurnServerAllocation -> serving B) s Q :
  returns (k (find_allocation c (allocations_ s))) s Q -> returns (FindAllocation c ≫= k) s Q.
Proof. intros Hk. apply returns_bind. by exists (find_allocation c (allocations_ s)), s, []. Qed.
Lemma returns_this {B} c a (k : TurnServerAllocation -> serving B) s Q :
  find_allocation c (allocations_ s) = Some a -> returns (k a) s Q -> returns (this_allocation c ≫= k) s Q.
Proof.
  intros Ha Hk. apply returns_bind. unfold this_allocation. apply returns_FindAllocation. rewrite Ha. by apply returns_ret.
Qed.

(** A handler that only answers the client. *)
Definition answers {A} (m : serving A) (s : TurnServer) : Prop := returns m s (fun _ _ => True).
Lemma answers_quiet {A} (m : serving A) s : quiet m -> answers m s -> returns m s (fun _ s' => same_state s s').
Proof. intros Hq (a & s' & out & E & _). exists a, s', out. split; [done|]. by destruct (Hq s a s' out E). Qed.

Lemma ready_same s s' : ready s -> same_state s s' -> ready s'.
Proof. by intros [H1 H2 H3] ->. Qed.

(** ** The answers *)
Section Answers.
Context `{Heap}.

Lemma answers_SendStun conn c n m s : draft c n m -> answers (SendStun conn m) s.
Proof.
  intros Hm. unfold SendStun. apply returns_server.
  assert (Hsw : exists n' m', (if bool_decide (software_ s = []) then mret m
    else AddAttribute (StunByteStringAttribute kStunAttrSoftware (software_ s)) m) = Ret m' /\ draft c n' m').
  { case_bool_decide; [by exists n, m|].
    destruct (draft_add c n (StunByteStringAttribute kStunAttrSoftware (software_ s)) m) as (m' & E & Hd & _);
      [done|split; [apply writable_string|by destruct c]|]. by eexists _, m'. }
  destruct Hsw as (n' & m' & E & Hd). eapply returns_lift; [exact E|].
  destruct (draft_write c n' m' Hd) as (ok & data & E' & _). eapply returns_lift; [exact E'|].
  by eexists _, _, _.
Qed.

(** One more attribute. *)
Lemma returns_add {B} c n a m (k : StunMessage -> serving B) s Q : draft c n m -> fits c a ->
  (forall m', draft c (n + 4 + body_room a) m' -> returns (k m') s Q) -> returns (lift (AddAttribute a m) ≫= k) s Q.
Proof.
  intros Hm Ha Hk. destruct (draft_add c n a m Hm Ha) as (m' & E & Hd & _). eapply returns_lift; [exact E|]. by apply Hk.
Qed.

Lemma draft_InitErrorResponse n req code reason m : draft Turn n m ->
  exists n' m', InitErrorResponse req code reason m = Ret m' /\ draft Turn n' m'.
Proof.
  intros Hm. unfold InitErrorResponse. destruct (_ =? -1); [by exists n, m|].
  assert (Ht : draft Turn n (Msg_SetType (GetStunErrorResponseType (msg_type req)) m)) by (destruct Hm; by split).
  destruct (draft_SetTransactionID Turn n (transaction_id_ req) _ Ht) as (ok & m1 & -> & H1). cbn [mbind outcome_bind].
  destruct (draft_add Turn n (StunErrorCodeAttribute kStunAttrStunErrorCode code (reason_bytes reason)) m1)
    as (m2 & -> & H2 & _); [done|by split|]. by eexists _, m2.
Qed.
Lemma draft_InitResponse c n req m : draft c n m -> exists m', InitResponse req m = Ret m' /\ draft c n m'.
Proof.
  intros Hm. unfold InitResponse. destruct (_ =? -1); [by exists m|].
  assert (Ht : draft c n (Msg_SetType (GetStunSuccessResponseType (msg_type req)) m)) by (destruct Hm; by split).
  destruct (draft_SetTransactionID c n (transaction_id_ req) _ Ht) as (ok & m1 & -> & H1). by exists m1.
Qed.

(** A new response to [req], and an error response. *)
Lemma returns_response {B} e c req (k : StunMessage -> serving B) s Q :
  (forall m, draft c 0 m -> returns (k m) s Q) ->
  returns (m ← lift (StunMessage_new c (uninitialised e)); m ← lift (InitResponse req m); k m) s Q.
Proof.
  intros Hk. destruct (draft_new c (uninitialised e)) as (m & E & Hm). eapply returns_lift; [exact E|].
  destruct (draft_InitResponse c 0 req m Hm) as (m' & E' & Hm'). eapply returns_lift; [exact E'|]. by apply Hk.
Qed.
Lemma returns_error {B} e req code reason (k : StunMessage -> serving B) s Q :
  (forall n m, draft Turn n m -> returns (k m) s Q) ->
  returns (m ← lift (StunMessage_new Turn (uninitialised e)); m ← lift (InitErrorResponse req code reason m); k m) s Q.
Proof.
  intros Hk. destruct (draft_new Turn (uninitialised e)) as (m & E & Hm). eapply returns_lift; [exact E|].
  destruct (draft_InitErrorResponse 0 req code reason m Hm) as (n' & m' & E' & Hm'). eapply returns_lift; [exact E'|]. by eapply Hk.
Qed.

Lemma answers_SendErrorResponse e conn req code reason s : answers (SendErrorResponse e conn req code reason) s.
Proof. unfold SendErrorResponse. apply returns_error. intros n m Hm. by eapply answers_SendStun. Qed.
Lemma answers_SendError e conn req code s : answers (SendError e conn req code) s.
Proof. apply answers_SendErrorResponse. Qed.

Lemma answers_realm_nonce e conn msg code s : ready s -> answers (SendErrorResponseWithRealmAndNonce e conn msg code) s.
Proof.
  intros Hs. unfold SendErrorResponseWithRealmAndNonce. apply returns_error. intros n m Hm.
  apply returns_server, returns_update. eapply returns_lift; [apply GenerateNonce_ok, Hs|].
  eapply returns_add; [exact Hm|split; [apply writable_string|done]|]. intros m1 H1.
  eapply returns_add; [exact H1|split; [apply writable_string|done]|]. intros m2 H2. by eapply answers_SendStun.
Qed.
Lemma answers_alternate e conn msg addr s : answers (SendErrorResponseWithAlternateServer e conn msg addr) s.
Proof.
  unfold SendErrorResponseWithAlternateServer. apply returns_error. intros n m Hm.
  eapply returns_add; [exact Hm|by split|]. intros m1 H1. by eapply answers_SendStun.
Qed.
Lemma answers_binding e conn req s : answers (HandleBindingRequest e conn req) s.
Proof.
  unfold HandleBindingRequest. apply returns_response. intros m Hm.
  eapply returns_add; [exact Hm|by split|]. intros m1 H1. by eapply answers_SendStun.
Qed.

(** ** Answers of an allocation *)

Lemma find_key c l a : Forall (fun x : entry => zlen (key_ (snd x)) < 2 ^ 61) l -> find_allocation c l = Some a -> zlen (key_ a) < 2 ^ 61.
Proof.
  intros Hf Ha. destruct (find_found _ _ _ Ha) as (l1 & k & l2 & -> & _). apply Forall_app in Hf as [_ Hf].
  by apply Forall_cons_1 in Hf as [Hf _].
Qed.

Lemma answers_SendResponse c n m a s : ready s -> find_allocation c (allocations_ s) = Some a -> draft Turn n m -> n < 2 ^ 20 ->
  answers (SendResponse c m) s.
Proof.
  intros Hs Ha Hm Hn. unfold SendResponse. eapply returns_this; [exact Ha|].
  destruct (draft_AddMessageIntegrity Turn n (key_ a) m Hm Hn) as (ok & m' & E & Hm'); [by eapply find_key; [apply Hs|]|].
  eapply returns_lift; [exact E|]. by eapply answers_SendStun.
Qed.
Lemma answers_Alloc_SendError e c msg code a s : find_allocation c (allocations_ s) = Some a ->
  answers (Alloc_SendError e c msg code) s.
Proof. intros Ha. unfold Alloc_SendError. eapply returns_this; [exact Ha|]. apply answers_SendError. Qed.
End Answers.

(** ** Changes of an allocation *)

Lemma change_in_fst c f l : map fst (change_in c f l) = map fst l.
Proof.
  induction l as [|[k a] l IH]; [done|]. cbn [change_in]. destruct (conn_same k c); [done|]. cbn [map fst]. by rewrite IH.
Qed.
Lemma find_change c f l a : find_allocation c l = Some a -> find_allocation c (change_in c f l) = Some (f a).
Proof.
  intros Ha. destruct (find_found _ _ _ Ha) as (l1 & k & l2 & Hf). rewrite (change_found _ _ _ _ _ _ _ Hf).
  destruct Hf as (_ & H1 & H2). by apply (found_find _ _ l1 k (f a) l2).
Qed.
Lemma ready_change c f s : (forall a, key_ (f a) = key_ a) -> ready s ->
  ready (set_allocations (change_in c f (allocations_ s)) s).
Proof.
  intros Hf [H1 H2 H3]. split; cbn [nonce_key_ allocations_ set_allocations]; [done| |unfold keys_distinct; by rewrite change_in_fst].
  clear -Hf H2. induction H2 as [|[k a] l Hx Hl IH]; cbn [change_in]; [constructor|].
  destruct (conn_same k c); constructor; cbn in *; by rewrite ?Hf.
Qed.
Lemma AddPermission_key addr a : key_ (AddPermission addr a) = key_ a.
Proof. unfold AddPermission. by destruct (FindPermission a addr). Qed.

(** ** What the handlers read from a message *)

Section Reads.
Context {m : StunMessage} (Hm : msg_parsed m) (Hc : msg_class m = Turn).

Lemma parsed_string t a : GetByteString m t = Some a -> read_type Turn t = kStunAttrValueByteString ->
  exists str, attr_string a = Ret str.
Proof.
  intros Ha Ht. destruct (GetAttribute_parsed m t a Hm Ha) as (Hv & Hl & Hb). rewrite Hc, Ht in Hv.
  unfold value_type in Hv. unfold parsed_body, body_ok in Hb. unfold attr_string, GetString.
  destruct (attr_body a); try discriminate. rewrite mem_read_ok by lia. by eexists.
Qed.
Lemma parsed_value t a : GetUInt32 m t = Some a -> read_type Turn t = kStunAttrValueUInt32 -> exists v, attr_value a = Ret v.
Proof.
  intros Ha Ht. destruct (GetAttribute_parsed m t a Hm Ha) as (Hv & _). rewrite Hc, Ht in Hv.
  unfold value_type in Hv. unfold attr_value. destruct (attr_body a); try discriminate. by eexists.
Qed.
Lemma parsed_peer a : GetAddress m kStunAttrXorPeerAddress = Some a -> exists peer, attr_address a = Ret peer.
Proof.
  intros Ha. destruct (GetAttribute_parsed m kStunAttrXorPeerAddress a Hm Ha) as (Hv & _). rewrite Hc in Hv.
  change (read_type _ _) with kStunAttrValueXorAddress in Hv.
  unfold value_type in Hv. unfold attr_address. destruct (attr_body a); try discriminate. by eexists.
Qed.
Lemma lifetime_total : exists v, ComputeLifetime m = Ret v.
Proof.
  unfold ComputeLifetime. destruct (GetUInt32 m kStunAttrLifetime) as [a|] eqn:E; [|by eexists].
  destruct (parsed_value _ _ E eq_refl) as (v & ->). cbn [mbind outcome_bind]. destruct (_ <? _); by eexists.
Qed.
End Reads.

(** ** The handlers of an allocation *)
Section Handlers.
Context `{Heap} (GetRemoteAddress GetLocalAddress : Z -> SocketAddress).
Context (msg : StunMessage) (Hm : msg_parsed msg) (Hc : msg_class msg = Turn).
Context (c : TurnServerConnection).

Definition keeps {A} (m : serving A) (s : TurnServer) : Prop := returns m s (fun _ s' => ready s').

Lemma quiet_keeps {A} (m : serving A) s : ready s -> quiet m -> answers m s -> keeps m s.
Proof.
  intros Hs Hq Ha. eapply returns_mono; [by apply answers_quiet|]. intros a s' Hs'. by eapply ready_same.
Qed.
Lemma keeps_change {B} f (k : unit -> serving B) s : ready s -> (forall a, key_ (f a) = key_ a) ->
  keeps (k tt) (set_allocations (change_in c f (allocations_ s)) s) -> keeps (change c f ≫= k) s.
Proof. intros Hs Hf Hk. by apply returns_update. Qed.

Lemma keeps_SendResponse n m a s : ready s -> find_allocation c (allocations_ s) = Some a -> draft Turn n m -> n < 2 ^ 20 ->
  keeps (SendResponse c m) s.
Proof. intros Hs Ha Hd Hn. apply quiet_keeps; [done|quiet|]. by eapply answers_SendResponse. Qed.
Lemma keeps_Alloc_SendError e code a s : ready s -> find_allocation c (allocations_ s) = Some a ->
  keeps (Alloc_SendError e c msg code) s.
Proof. intros Hs Ha. apply quiet_keeps; [done|quiet|]. by eapply answers_Alloc_SendError. Qed.

(** The answer to a request, with no attribute of its own. *)
Lemma keeps_plain e a s : ready s -> find_allocation c (allocations_ s) = Some a ->
  keeps (m ← lift (StunMessage_new Turn (uninitialised e)); m ← lift (InitResponse msg m); SendResponse c m) s.
Proof. intros Hs Ha. apply returns_response. intros m Hd. by eapply keeps_SendResponse. Qed.

Lemma keeps_Allocate e a s : ready s -> find_allocation c (allocations_ s) = Some a -> GetByteString msg kStunAttrUsername <> None ->
  keeps (Alloc_HandleAllocateRequest GetLocalAddress e c msg) s.
Proof.
  intros Hs Ha Hu. unfold Alloc_HandleAllocateRequest.
  destruct (GetByteString msg kStunAttrUsername) as [u|] eqn:Eu; [|done]. apply returns_bind, returns_ret.
  destruct (parsed_string Hm Hc _ _ Eu eq_refl) as (user & Eus). eapply returns_lift; [exact Eus|].
  eapply returns_this; [exact Ha|]. apply returns_bind.
  assert (Ho : returns (match GetByteString msg kStunAttrOrigin with
    | Some o => lift (attr_string o) | None => mret (origin_ a) end) s (fun _ s' => s' = s)).
  { destruct (GetByteString msg kStunAttrOrigin) as [o|] eqn:Eo; [|by apply returns_ret].
    destruct (parsed_string Hm Hc _ _ Eo eq_refl) as (org & ->). by eexists _, _, _. }
  eapply returns_mono; [exact Ho|]. intros origin s' ->. apply keeps_change; [done|done|].
  destruct (lifetime_total Hm Hc) as (v & Ev). eapply returns_lift; [exact Ev|]. apply returns_response. intros m0 H0.
  eapply returns_add; [exact H0|by split|]. intros m1 H1. eapply returns_add; [exact H1|by split|]. intros m2 H2.
  eapply returns_add; [exact H2|by split|]. intros m3 H3. eapply keeps_SendResponse; [by apply ready_change|by apply find_change|exact H3|done].
Qed.

Lemma keeps_Refresh e a s : ready s -> find_allocation c (allocations_ s) = Some a -> keeps (HandleRefreshRequest e c msg) s.
Proof.
  intros Hs Ha. unfold HandleRefreshRequest. destruct (lifetime_total Hm Hc) as (v & Ev). eapply returns_lift; [exact Ev|].
  apply returns_response. intros m0 H0. eapply returns_add; [exact H0|by split|]. intros m1 H1. by eapply keeps_SendResponse.
Qed.

Lemma keeps_Send a s : ready s -> find_allocation c (allocations_ s) = Some a -> keeps (HandleSendIndication c msg) s.
Proof.
  intros Hs Ha. unfold HandleSendIndication. destruct (GetByteString msg kStunAttrData) as [d|] eqn:Ed; [|by apply returns_ret].
  destruct (GetAddress msg kStunAttrXorPeerAddress) as [p|] eqn:Ep; [|by apply returns_ret].
  eapply returns_this; [exact Ha|]. destruct (parsed_peer Hm Hc _ Ep) as (peer & Ep'). eapply returns_lift; [exact Ep'|].
  destruct (HasPermission a (ip_ peer)); [|by apply returns_ret].
  destruct (parsed_string Hm Hc _ _ Ed eq_refl) as (data & Ed'). eapply returns_lift; [exact Ed'|].
  unfold SendExternal. eapply returns_this; [exact Ha|]. by eexists _, _, _.
Qed.

Lemma keeps_CreatePermission e a s : ready s -> find_allocation c (allocations_ s) = Some a ->
  keeps (HandleCreatePermissionRequest e c msg) s.
Proof.
  intros Hs Ha. unfold HandleCreatePermissionRequest.
  destruct (GetAddress msg kStunAttrXorPeerAddress) as [p|] eqn:Ep; [|by eapply keeps_Alloc_SendError].
  apply returns_server. destruct (parsed_peer Hm Hc _ Ep) as (peer & Ep'). eapply returns_lift; [exact Ep'|].
  destruct (_ && _); [by eapply keeps_Alloc_SendError|]. apply keeps_change; [done|apply AddPermission_key|].
  eapply keeps_plain; [apply ready_change; [apply AddPermission_key|done]|by apply find_change].
Qed.

Lemma keeps_ChannelBind e a s : ready s -> find_allocation c (allocations_ s) = Some a ->
  keeps (HandleChannelBindRequest e c msg) s.
Proof.
  intros Hs Ha. unfold HandleChannelBindRequest.
  destruct (GetUInt32 msg kStunAttrChannelNumber) as [ch|] eqn:Ech; [|by eapply keeps_Alloc_SendError].
  destruct (GetAddress msg kStunAttrXorPeerAddress) as [p|] eqn:Ep; [|by eapply keeps_Alloc_SendError].
  destruct (parsed_value Hm Hc _ _ Ech eq_refl) as (v & Ev). eapply returns_lift; [exact Ev|].
  destruct (_ || _); [by eapply keeps_Alloc_SendError|].
  destruct (parsed_peer Hm Hc _ Ep) as (peer & Ep'). eapply returns_lift; [exact Ep'|]. eapply returns_this; [exact Ha|].
  destruct (negb _); [by eapply keeps_Alloc_SendError|]. apply returns_bind.
  assert (Hch : returns (match FindChannel_id a (Z.shiftr v 16) with
    | None => change c (fun a => set_channels (channels_ a ++ [mkChannel (Z.shiftr v 16) peer]) a)
    | Some _ => mret tt end) s (fun _ s' => ready s' /\ exists a', find_allocation c (allocations_ s') = Some a')).
  { destruct (FindChannel_id a (Z.shiftr v 16)); [apply returns_ret; by eauto|].
    eexists _, _, _. split; [reflexivity|]. split; [by apply ready_change|]. eexists. by apply find_change. }
  eapply returns_mono; [exact Hch|]. intros _ s' (Hs' & a' & Ha'). apply keeps_change; [done|apply AddPermission_key|].
  eapply keeps_plain; [apply ready_change; [apply AddPermission_key|done]|by apply find_change].
Qed.

Lemma keeps_HandleTurnMessage e a s : ready s -> find_allocation c (allocations_ s) = Some a ->
  (msg_type msg = message_number kStunAllocateRequst -> GetByteString msg kStunAttrUsername <> None) ->
  keeps (HandleTurnMessage GetLocalAddress e c msg) s.
Proof.
  intros Hs Ha Hu. unfold HandleTurnMessage. destruct (Z.eqb_spec (msg_type msg) (message_number kStunAllocateRequst)).
  - eapply keeps_Allocate; eauto.
  - destruct (_ =? _); [by eapply keeps_Refresh|]. destruct (_ =? _); [by eapply keeps_Send|].
    destruct (_ =? _); [by eapply keeps_CreatePermission|]. destruct (_ =? _); [by eapply keeps_ChannelBind|by apply returns_ret].
Qed.
End Handlers.

(** ** Packets *)

(** What the network is trusted with: no packet carries the MAC of a time
    before 1970 (the server makes none). *)
Definition unforged (nonce_key nonce : list byte) : Prop :=
  forall t, zlen t = 8 -> hex_of (ztake 16 nonce) t -> zdrop 16 nonce = nonce_mac nonce_key t -> 0 <= nonce_time t.
Definition honest (nonce_key data : list byte) : Prop :=
  zlen data < 2 ^ 64 /\
  forall msg attr nonce, reads_as data msg -> GetByteString msg kStunAttrNonce = Some attr -> attr_string attr = Ret nonce ->
    unforged nonce_key nonce.

Lemma nonce_time_range t : zlen t = 8 -> - 2 ^ 63 <= nonce_time t < 2 ^ 63.
Proof.
  intros Ht. unfold nonce_time, to_int64. pose proof (wrap64_range (load host_order t)).
  destruct (Z.ltb_spec (wrap64 (load host_order t)) (2 ^ 63)); lia.
Qed.

Section Packets.
Context `{Heap} (GetRemoteAddress GetLocalAddress : Z -> SocketAddress)
  (auth_hook_ : option (list byte -> list byte -> list byte -> bool * list byte))
  (redirect_hook_ : option (SocketAddress -> bool * SocketAddress)).
Context (Hhook : forall hook user realm key, auth_hook_ = Some hook -> zlen (snd (hook user realm key)) < 2 ^ 61).

Lemma ValidateNonce_total key now nonce : zlen key < 2 ^ 61 -> 0 <= now < 2 ^ 63 -> unforged key nonce ->
  exists b, ValidateNonce key now nonce = Ret b.
Proof.
  intros Hk Hn Hu. destruct (ValidateNonce_cases key Hk now nonce) as [->|(t & Ht & _ & Hh & Hmac & ->)]; [by exists false|].
  pose proof (Hu t Ht Hh Hmac). pose proof (nonce_time_range t Ht). unfold int64_sub.
  rewrite (proj2 (Z.leb_le _ _)), (proj2 (Z.ltb_lt _ _)) by lia. by eexists.
Qed.

(** The check of a request: it answers, the allocation stays where it is, and
    a message that passes has a user name. *)
Definition checked (conn : TurnServerConnection) (msg : StunMessage) (s : TurnServer) (b : bool) (s' : TurnServer) : Prop :=
  ready s' /\ (forall a, find_allocation conn (allocations_ s) = Some a -> exists a', find_allocation conn (allocations_ s') = Some a') /\
  (b = true -> GetByteString msg kStunAttrUsername <> None).

Lemma checked_reject conn msg (m : serving unit) s : ready s -> quiet m -> answers m s ->
  returns (m;; mret false) s (checked conn msg s).
Proof.
  intros Hs Hq Ha. apply returns_bind. eapply returns_mono; [by apply answers_quiet|]. intros [] s' Hs'.
  apply returns_ret. split; [by eapply ready_same|]. rewrite (same_allocations _ _ Hs'). split; [eauto|done].
Qed.

Lemma CheckAuthorization_returns e conn msg data key s : ready s -> msg_parsed msg -> msg_class msg = Turn -> reads_as data msg ->
  honest (nonce_key_ s) data -> zlen key < 2 ^ 61 -> 0 <= TimeMillis e < 2 ^ 63 -> IsStunRequestType (msg_type msg) = true ->
  returns (CheckAuthorization e conn msg data key) s (checked conn msg s).
Proof.
  intros Hs Hm Hc Hr [_ Hh] Hk Ht Hreq. unfold CheckAuthorization. rewrite Hreq. eapply returns_lift; [reflexivity|].
  assert (Hrn : forall code, returns (SendErrorResponseWithRealmAndNonce e conn msg code;; mret false) s (checked conn msg s))
    by (intros code; apply checked_reject; [done|quiet|by apply answers_realm_nonce]).
  assert (Hbad : returns (SendError e conn msg kStunBadRequest;; mret false) s (checked conn msg s))
    by (apply checked_reject; [done|quiet|apply answers_SendError]).
  destruct (GetByteString msg kStunAttrMessageIntegrity) as [mi|]; [|apply Hrn].
  destruct (GetByteString msg kStunAttrUsername) as [u|] eqn:Eu; [|apply Hbad].
  destruct (GetByteString msg kStunAttrRealm) as [r|]; [|apply Hbad].
  destruct (GetByteString msg kStunAttrNonce) as [na|] eqn:En; [|apply Hbad].
  destruct (parsed_string Hm Hc _ _ En eq_refl) as (nonce & Enc). eapply returns_lift; [exact Enc|]. apply returns_server.
  destruct (ValidateNonce_total (nonce_key_ s) (TimeMillis e) nonce) as (valid & Ev); [apply Hs|done|by eapply Hh|].
  eapply returns_lift; [exact Ev|]. destruct valid; cbn [negb]; [|apply Hrn].
  assert (Hi : exists sound, (if bool_decide (key = []) then mret false else ValidateMessageIntegrity data (zlen data) key) = Ret sound).
  { case_bool_decide; [by exists false|by apply ValidateMessageIntegrity_total]. }
  destruct Hi as (sound & Ei). eapply returns_lift; [exact Ei|]. destruct sound; cbn [negb]; [|apply Hrn].
  apply returns_FindAllocation. destruct (find_allocation conn (allocations_ s)) as [a|] eqn:Ea.
  - destruct (_ && _); [apply Hrn|]. apply returns_update, returns_ret. split; [by apply ready_change|].
    split; [|by rewrite Eu]. intros b Hb. eexists. by apply find_change.
  - apply returns_ret. split; [done|]. rewrite Ea, Eu. done.
Qed.

Lemma keeps_SendErrorResponse e conn msg code reason s : ready s -> keeps (SendErrorResponse e conn msg code reason) s.
Proof. intros Hs. apply quiet_keeps; [done|quiet|apply answers_SendErrorResponse]. Qed.

(** A new allocation goes to the end of the list. *)
Lemma find_none_same c l : find_allocation c l = None -> Forall (fun k => conn_same k c = false) (map fst l).
Proof.
  induction l as [|[k a] l IH]; cbn [find_allocation map fst]; [constructor|]. destruct (conn_same k c) eqn:E; [done|].
  intros Hl. constructor; auto.
Qed.
Lemma find_last c a l : find_allocation c l = None -> find_allocation c (l ++ [(c, a)]) = Some a.
Proof.
  induction l as [|[k b] l IH]; cbn [find_allocation app]; [by rewrite conn_same_refl|]. by destruct (conn_same k c).
Qed.
Lemma ready_put c a s : ready s -> zlen (key_ a) < 2 ^ 61 -> find_allocation c (allocations_ s) = None ->
  ready (set_allocations (put_allocation c a (allocations_ s)) s).
Proof.
  intros [H1 H2 H3] Hk Hn. rewrite put_new by done. split; cbn [nonce_key_ allocations_ set_allocations]; [done| |].
  - apply Forall_app. split; [done|]. by constructor.
  - unfold keys_distinct. rewrite map_app. apply distinct_snoc; [done|by apply find_none_same].
Qed.

Lemma keeps_HandleAllocateRequest e conn msg key s : ready s -> msg_parsed msg -> msg_class msg = Turn -> zlen key < 2 ^ 61 ->
  find_allocation conn (allocations_ s) = None -> GetByteString msg kStunAttrUsername <> None ->
  keeps (HandleAllocateRequest GetLocalAddress e conn msg key) s.
Proof.
  intros Hs Hm Hc Hk Hn Hu. unfold HandleAllocateRequest.
  destruct (GetUInt32 msg kStunAttrRequestedTransport) as [t|] eqn:Et; [|by apply keeps_SendErrorResponse].
  destruct (parsed_value Hm Hc _ _ Et eq_refl) as (v & Ev). eapply returns_lift; [exact Ev|].
  destruct (negb _); [by apply keeps_SendErrorResponse|]. unfold CreateAllocation. apply returns_bind, returns_server.
  destruct (if external_socket_factory_ s then new_socket e else None) as [sock|];
    [|apply returns_ret; by apply keeps_SendErrorResponse].
  apply returns_update, returns_ret. eapply keeps_HandleTurnMessage; [done|done|by apply ready_put| |done].
  cbn [allocations_ set_allocations]. rewrite put_new by done. by apply find_last.
Qed.

Lemma keeps_dispatch e conn msg key allocation s s' : ready s' -> msg_parsed msg -> msg_class msg = Turn -> zlen key < 2 ^ 61 ->
  allocation = find_allocation conn (allocations_ s) ->
  (forall a, allocation = Some a -> exists a', find_allocation conn (allocations_ s') = Some a') ->
  (allocation = None -> find_allocation conn (allocations_ s') = None) ->
  (IsStunRequestType (msg_type msg) = true -> GetByteString msg kStunAttrUsername <> None) ->
  keeps (dispatch GetLocalAddress e conn msg key allocation) s'.
Proof.
  intros Hs Hm Hc Hk Eal Hsome Hnone Hu.
  assert (Hua : msg_type msg = message_number kStunAllocateRequst -> GetByteString msg kStunAttrUsername <> None)
    by (intros E; apply Hu; by rewrite E).
  unfold dispatch. destruct allocation as [a|].
  - destruct (_ || _); [|by apply keeps_SendErrorResponse]. destruct (Hsome a eq_refl) as (a' & Ha').
    assert (Hw : returns (if IsStunRequestType (msg_type msg) then
            match GetByteString msg kStunAttrUsername with
            | None => lift (Crash UndefinedBehaviour)
            | Some username_attr =>
                username ← lift (attr_string username_attr); mret (negb (bool_decide (username = username_ a)))
            end else mret false) s' (fun _ s'' => s'' = s')).
    { destruct (IsStunRequestType (msg_type msg)); [|by apply returns_ret]. specialize (Hu eq_refl).
      destruct (GetByteString msg kStunAttrUsername) as [u|] eqn:Eu; [|done].
      destruct (parsed_string Hm Hc _ _ Eu eq_refl) as (user & Eus). eapply returns_lift; [exact Eus|]. by apply returns_ret. }
    apply returns_bind. eapply returns_mono; [exact Hw|]. intros wrong s'' ->.
    destruct wrong; [by apply keeps_SendErrorResponse|]. by eapply keeps_HandleTurnMessage.
  - destruct (Z.eqb_spec (msg_type msg) (message_number kStunAllocateRequst)); [|by apply keeps_SendErrorResponse].
    apply keeps_HandleAllocateRequest; auto.
Qed.

Lemma GetKey_returns msg s : msg_parsed msg -> msg_class msg = Turn ->
  returns (GetKey auth_hook_ msg []) s (fun key s' => s' = s /\ zlen key < 2 ^ 61).
Proof.
  intros Hm Hc. unfold GetKey. destruct (GetByteString msg kStunAttrUsername) as [u|] eqn:Eu; [|by apply returns_ret].
  destruct (parsed_string Hm Hc _ _ Eu eq_refl) as (user & Eus). eapply returns_lift; [exact Eus|]. apply returns_server.
  destruct auth_hook_ as [hook|] eqn:Eh; [|by apply returns_ret]. apply returns_ret. split; [done|]. by apply Hhook.
Qed.

Lemma keeps_HandleStunMessage e conn data s : ready s -> honest (nonce_key_ s) data -> 0 <= TimeMillis e < 2 ^ 63 ->
  keeps (HandleStunMessage GetLocalAddress auth_hook_ redirect_hook_ e conn data) s.
Proof.
  intros Hs Hh Ht. unfold HandleStunMessage.
  assert (Em : StunMessage_new Turn (uninitialised e) = Ret (mkMessage Turn 0 0 EMPTY_TRANSACTION_ID (uninitialised e) kStunMagicCookie []))
    by reflexivity.
  set (m0 := mkMessage _ _ _ _ _ _ _) in Em. eapply returns_lift; [exact Em|].
  assert (Hun : unread (Reader data (zlen data)) data).
  { pose proof (zlen_nonneg data). destruct Hh as [Hl _]. rewrite <- (ztake_all (zlen data) data) at 3 by lia. apply unread_Reader; lia. }
  destruct (Message_Read_total m0 _ _ Hun) as (o & msg & buf & Er & Hp). eapply returns_lift; [exact Er|]. cbv iota beta.
  destruct o as [[]|]; [|by apply returns_ret]. destruct (Hp eq_refl) as (Hm & Hc & _). change (msg_class m0) with Turn in Hc.
  assert (Hra : reads_as data msg) by (by exists (uninitialised e), m0, buf).
  destruct (Length buf >? 0); [by apply returns_ret|].
  destruct (_ =? _); [apply quiet_keeps; [done|quiet|apply answers_binding]|].
  match goal with |- returns (if fst ?r then _ else _) _ _ => destruct (fst r) end;
    [apply quiet_keeps; [done|quiet|apply answers_alternate]|].
  apply returns_FindAllocation. set (al := find_allocation conn (allocations_ s)).
  assert (Hkey : returns (match al with None => GetKey auth_hook_ msg [] | Some a => mret (key_ a) end) s
    (fun key s' => s' = s /\ zlen key < 2 ^ 61)).
  { destruct al as [a|] eqn:Ea; [|by apply GetKey_returns]. apply returns_ret. split; [done|]. by eapply find_key; [apply Hs|]. }
  apply returns_bind. eapply returns_mono; [exact Hkey|]. intros key s' [-> Hk]. apply returns_bind.
  assert (Hck : returns (if IsStunRequestType (msg_type msg) then CheckAuthorization e conn msg data key else mret true) s
    (fun b s' => checked conn msg s (IsStunRequestType (msg_type msg) && b) s' /\
       (al = None -> find_allocation conn (allocations_ s') = None))).
  { destruct (IsStunRequestType (msg_type msg)) eqn:Ereq.
    - destruct (CheckAuthorization_returns e conn msg data key s) as (b & s' & out & E & Hb); try done.
      exists b, s', out. split; [done|]. split; [exact Hb|]. intros Hal.
      destruct (CheckAuthorization_effect e conn msg data key s b s' out E) as (_ & Hst & _).
      by rewrite (no_allocation_step _ _ _ Hal Hst).
    - apply returns_ret. split; [|done]. split; [done|]. split; [eauto|done]. }
  eapply returns_mono; [exact Hck|]. intros b s' ((Hs' & Hsome & Hu) & Hnone). destruct b; cbn [negb]; [|by apply returns_ret].
  eapply (keeps_dispatch e conn msg key al s s'); try done. intros Hreq. apply Hu. by rewrite Hreq.
Qed.

Lemma GetBE16_total data : 4 <= zlen data -> exists v, GetBE16 host_order data = Ret v.
Proof. intros Hl. destruct (GetBE16_inside data 0) as (v & E & _); [lia..|]. exists v. by rewrite <- E. Qed.

Lemma keeps_ChannelData c a data s : ready s -> find_allocation c (allocations_ s) = Some a -> 4 <= zlen data ->
  keeps (HandleChannelData c data) s.
Proof.
  intros Hs Ha Hl. unfold HandleChannelData. destruct (GetBE16_total data Hl) as (id & E). eapply returns_lift; [exact E|].
  eapply returns_this; [exact Ha|]. destruct (FindChannel_id a id) as [[n ch]|]; [|by apply returns_ret].
  eapply returns_lift; [apply mem_read_ok; unfold TURN_CHANNEL_HEADER_SIZE; lia|].
  unfold SendExternal. eapply returns_this; [exact Ha|]. by eexists _, _, _.
Qed.

Lemma keeps_OnInternalPacket e socket data addr s : ready s -> is_Some (server_sockets_ s !! socket) -> honest (nonce_key_ s) data ->
  0 <= TimeMillis e < 2 ^ 63 ->
  keeps (OnInternalPacket GetRemoteAddress GetLocalAddress auth_hook_ redirect_hook_ e socket data addr) s.
Proof.
  intros Hs [proto Hp] Hh Ht. unfold OnInternalPacket. destruct (Z.ltb_spec (zlen data) TURN_CHANNEL_HEADER_SIZE) as [|Hl];
    [by apply returns_ret|]. unfold TURN_CHANNEL_HEADER_SIZE in Hl. apply returns_server. rewrite Hp.
  destruct (GetBE16_total data Hl) as (ty & E). eapply returns_lift; [exact E|].
  destruct (IsTurnChannelData ty); cbn [negb]; [|by apply keeps_HandleStunMessage].
  apply returns_FindAllocation. destruct (find_allocation _ (allocations_ s)) as [a|] eqn:Ea; [|by apply returns_ret].
  by eapply keeps_ChannelData.
Qed.

(** The allocation that owns a socket is found under its own connection. *)
Lemma find_own l c a : keys_distinct l -> (c, a) ∈ l -> find_allocation c l = Some a.
Proof.
  intros Hd Hin. apply list_elem_of_lookup in Hin as [i Hi].
  enough (Hg : forall l1 l2, l = l1 ++ l2 -> (length l1 <= i)%nat -> find_allocation c l2 = Some a) by (apply (Hg [] l); [done|cbn; lia]).
  intros l1 l2. revert l1. induction l2 as [|[k b] l2 IH]; intros l1 El Hlen.
  - rewrite app_nil_r in El. subst. apply lookup_lt_Some in Hi. lia.
  - cbn [find_allocation]. destruct (decide (i = length l1)) as [->|Hne].
    + rewrite El, list_lookup_middle in Hi by done. injection Hi as -> ->. by rewrite conn_same_refl.
    + assert (Hk : l !! length l1 = Some (k, b)) by (rewrite El; by apply list_lookup_middle).
      assert (Hsame : conn_same k c = false).
      { apply (Hd (length l1) i); [| |lia]; change (map fst l) with (fst <$> l); rewrite list_lookup_fmap; [by rewrite Hk|by rewrite Hi]. }
      rewrite Hsame. apply (IH (l1 ++ [(k, b)])); [by rewrite <- app_assoc|rewrite length_app; cbn; lia].
Qed.

Lemma channel_data_written id data : exists b,
  (buf ← ByteBufferWriter; buf ← WriteUInt16 (H := BufferT_class false) buf id;
   buf ← WriteUInt16 (H := BufferT_class false) buf (wrap16 (zlen data)); WriteBytes (H := BufferT_class false) buf data) = Ret b /\
  BufferT_contents b = be_bytes 2 id ++ be_bytes 2 (wrap16 (zlen data)) ++ data.
Proof.
  destruct (post_inv _ _ ByteBufferWriter_ok) as (b & -> & Hb & Hcn). cbn [mbind outcome_bind].
  destruct (post_inv _ _ (WriteUInt16_writes (H := BufferT_class false) id b [] (conj Hb Hcn))) as (b1 & -> & H1). cbn [mbind outcome_bind].
  destruct (post_inv _ _ (WriteUInt16_writes (H := BufferT_class false) (wrap16 (zlen data)) b1 _ H1)) as (b2 & -> & H2). cbn [mbind outcome_bind].
  destruct (post_inv _ _ (WriteBytes_writes (H := BufferT_class false) data b2 _ H2)) as (b3 & -> & H3).
  exists b3. split; [done|]. destruct H3 as [_ ->]. by rewrite <- app_assoc.
Qed.

Lemma keeps_OnExternalPacket e c a socket data addr s : ready s -> find_allocation c (allocations_ s) = Some a ->
  external_socket_ a = socket -> keeps (OnExternalPacket e c socket data addr) s.
Proof.
  intros Hs Ha Hsock. apply quiet_keeps; [done|quiet|]. unfold OnExternalPacket. eapply returns_this; [exact Ha|].
  rewrite Hsock, Z.eqb_refl. eapply returns_lift; [reflexivity|]. apply returns_server.
  destruct (FindChannel_peer a addr) as [[n ch]|].
  - destruct (channel_data_written (wrap16 (channel_id ch)) data) as (b & E & _). eapply returns_lift; [exact E|]. by eexists _, _, _.
  - destruct (_ || _); [|by apply returns_ret]. destruct (draft_new Turn (uninitialised e)) as (m & E & Hm).
    eapply returns_lift; [exact E|].
    assert (Ht : draft Turn 0 (Msg_SetType (message_number kTurnDataSendIndication) m)) by (destruct Hm; by split).
    destruct (draft_SetTransactionID Turn 0 (random_string e) _ Ht) as (ok & m1 & E1 & H1). eapply returns_lift; [exact E1|].
    eapply returns_add; [exact H1|by split|]. intros m2 H2.
    eapply returns_add; [exact H2|split; [apply writable_string|done]|]. intros m3 H3. by eapply answers_SendStun.
Qed.

(** ** Sockets and timeouts *)

Lemma ready_sockets s s' : ready s -> sockets_only s s' -> ready s'.
Proof. intros [H1 H2 H3] (En & _ & El). split; by rewrite ?En, ?El. Qed.

Lemma keeps_Destroy socket s : ready s -> keeps (DestroyInternalSocket socket) s.
Proof.
  intros Hs. assert (Hr : answers (DestroyInternalSocket socket) s).
  { unfold DestroyInternalSocket. apply returns_server. case_match; [by eexists _, _, _|by apply returns_ret]. }
  destruct Hr as (u & s' & out & E & _). exists u, s', out. split; [done|].
  destruct (Destroy_sockets socket s u s' out E) as [Hso _]. by eapply ready_sockets.
Qed.

Lemma keeps_NewConnection e socket s : ready s -> is_Some (server_listen_sockets_ s !! socket) ->
  (forall x, accepted e = Some x -> server_sockets_ s !! x = None) -> keeps (OnNewInternalConnection e socket) s.
Proof.
  intros Hs [p Hp] Hfresh. assert (Hr : answers (OnNewInternalConnection e socket) s).
  { unfold OnNewInternalConnection, AcceptConnection. apply returns_server.
    eapply returns_lift; [by rewrite bool_decide_true by (by rewrite Hp)|].
    destruct (accepted e) as [x|]; [|by apply returns_ret]. apply returns_server, returns_update. unfold AddInternalSocket.
    apply returns_server. eapply returns_lift; [|by eexists _, _, _].
    cbn [server_sockets_ set_listen_sockets]. rewrite bool_decide_true by by apply Hfresh. done. }
  destruct Hr as (u & s' & out & E & _). exists u, s', out. split; [done|].
  destruct (NewConnection_sockets e socket s u s' out E) as [Hso _]. by eapply ready_sockets.
Qed.

Lemma ready_erase c s : ready s -> ready (set_allocations (erase_in c (allocations_ s)) s).
Proof.
  intros [H1 H2 H3]. split; cbn [nonce_key_ allocations_ set_allocations]; [done| |].
  - rewrite List.Forall_forall in *. intros x Hx. apply H2. rewrite <- list_elem_of_In in *. by eapply erase_incl.
  - assert (Hd : exists i, erase_in c (allocations_ s) = delete i (allocations_ s)).
    { clear. induction (allocations_ s) as [|[k a] l [i IH]]; [by exists 0%nat|]. cbn [erase_in].
      destruct (conn_same k c); [by exists 0%nat|]. exists (S i). cbn. by rewrite IH. }
    destruct Hd as [i ->]. unfold keys_distinct. change (map fst (delete i (allocations_ s))) with (fst <$> delete i (allocations_ s)).
    rewrite list_fmap_delete. by apply distinct_delete.
Qed.
Lemma keeps_AllocationTimeout c a s : ready s -> find_allocation c (allocations_ s) = Some a -> keeps (Alloc_OnMessage c) s.
Proof.
  intros Hs Ha. unfold Alloc_OnMessage. eapply returns_this; [exact Ha|]. unfold OnAllocationDestroyed. apply returns_server, returns_bind.
  apply (returns_mono _ _ (fun _ s' => ready s')); [|intros [] s' Hs'; eexists _, _, _; split; [reflexivity|by apply ready_erase]].
  destruct (server_sockets_ s !! socket_ (conn_ a)) as [proto|]; [|by apply returns_ret].
  case_bool_decide; [by apply keeps_Destroy|by apply returns_ret].
Qed.
Lemma keeps_PermissionTimeout c a i s : ready s -> find_allocation c (allocations_ s) = Some a -> (i < length (perms_ a))%nat ->
  keeps (OnPermissionDestroyed c i) s.
Proof.
  intros Hs Ha Hi. unfold OnPermissionDestroyed. eapply returns_this; [exact Ha|]. rewrite bool_decide_true by done.
  eapply returns_lift; [reflexivity|]. eexists _, _, _. split; [reflexivity|]. by apply ready_change.
Qed.
Lemma keeps_ChannelTimeout c a i s : ready s -> find_allocation c (allocations_ s) = Some a -> (i < length (channels_ a))%nat ->
  keeps (OnChannelDestroyed c i) s.
Proof.
  intros Hs Ha Hi. unfold OnChannelDestroyed. eapply returns_this; [exact Ha|]. rewrite bool_decide_true by done.
  eapply returns_lift; [reflexivity|]. eexists _, _, _. split; [reflexivity|]. by apply ready_change.
Qed.

(** ** Every input *)

(** What is assumed of the environment of an input: the clock shows a time
    since 1970, the socket that [Accept] returns is new, and the packet carries
    no forged nonce (see [unforged]). *)
Definition admissible (s : TurnServer) (e : env) (i : input) : Prop :=
  0 <= TimeMillis e < 2 ^ 63 /\
  match i with
  | Internal _ data _ => honest (nonce_key_ s) data
  | NewConnection _ => forall x, accepted e = Some x -> server_sockets_ s !! x = None
  | _ => True
  end.

Notation perform := (perform GetRemoteAddress GetLocalAddress auth_hook_ redirect_hook_).

Lemma keeps_turn_step e i s : ready s -> admissible s e i -> keeps (perform e i) s.
Proof.
  intros Hs [Ht Hi]. unfold TurnServer.perform. apply returns_server.
  destruct i as [socket data addr|socket data addr|socket|socket|c|c p|c p].
  - destruct (server_sockets_ s !! socket) as [p|] eqn:E; [|by apply returns_ret]. by apply keeps_OnInternalPacket; [|rewrite E| |].
  - destruct (List.find _ _) as [[c a]|] eqn:E; [|by apply returns_ret]. apply List.find_some in E as [Hin Hsock].
    apply Z.eqb_eq in Hsock. apply list_elem_of_In in Hin. eapply keeps_OnExternalPacket; [done|by apply find_own; [apply Hs|]|done].
  - by apply keeps_Destroy.
  - destruct (server_listen_sockets_ s !! socket) as [p|] eqn:E; [|by apply returns_ret]. by apply keeps_NewConnection; [|rewrite E|].
  - destruct (find_allocation c (allocations_ s)) as [a|] eqn:E; [|by apply returns_ret]. by eapply keeps_AllocationTimeout.
  - destruct (find_allocation c (allocations_ s)) as [a|] eqn:E; [|by apply returns_ret].
    case_bool_decide; [by eapply keeps_PermissionTimeout|by apply returns_ret].
  - destruct (find_allocation c (allocations_ s)) as [a|] eqn:E; [|by apply returns_ret].
    case_bool_decide; [by eapply keeps_ChannelTimeout|by apply returns_ret].
Qed.

(** A sequence of inputs. *)
Fixpoint serve (l : list (env * input)) : serving unit :=
  match l with
  | [] => mret tt
  | (e, i) :: l => perform e i;; serve l
  end.
Fixpoint admissible_all (s : TurnServer) (l : list (env * input)) : Prop :=
  match l with
  | [] => True
  | (e, i) :: l => admissible s e i /\ forall s' out, perform e i s = Ret (tt, s', out) -> admissible_all s' l
  end.

Lemma keeps_serve l s : ready s -> admissible_all s l -> keeps (serve l) s.
Proof.
  revert s. induction l as [|[e i] l IH]; intros s Hs Hl; cbn [serve]; [by apply returns_ret|]. destruct Hl as [Hi Hl].
  apply returns_bind. destruct (keeps_turn_step e i s Hs Hi) as ([] & s' & out & E & Hs'). exists tt, s', out. split; [done|].
  apply IH; [done|]. by eapply Hl.
Qed.
End Packets.
