(* ===== verification/TurnSession.v ===== *)
(** * A client of the TURN server

    The other half of the guarantee of [TurnRun]: a client that signs its
    requests with its key and presents a nonce of the server gets its
    allocation and its permission, and what it then sends to the peer leaves
    from its relayed address.  The messages go through [Write], the bytes and
    [Read]. *)

From Stdlib Require Import ZArith Lia String.
From stdpp Require Import gmap.
From S2P Require Import Prelude ByteOrder ConstBuffer ByteBuffer Blocks Sha1 Md5 StringEncode Digest IpAddress SocketAddress StunAttr StunCodec StunMessage StunRead StunProps StunNames StunAuth StunSafe TurnServer TurnNonce TurnProps TurnRun TurnSafe.
Local Open Scope Z_scope.
Local Open Scope list_scope.

(** ** Signed messages *)

Definition signature (key : list byte) (m : StunMessage) : StunAttribute :=
  integrity_attr kStunAttrMessageIntegrity 20 (ztake 20 (hmac sha1 key (covered m (attrs_ m) 20))).
Definition signed (key : list byte) (m : StunMessage) : StunMessage := extended m (signature key m).

Section Signed.
Context `{Heap} (key : list byte) (m : StunMessage).
Context (Hm : msg_ok m) (Hroom : attrs_size (attrs_ m) + 24 < 2 ^ 16) (Hkey : zlen key < 2 ^ 61).
Context (Hnew : Forall (fun a => attr_type a <> kStunAttrMessageIntegrity) (attrs_ m)).

Lemma signed_ok : AddMessageIntegrity key m = Ret (true, signed key m) /\ msg_ok (signed key m).
Proof. apply AddMessageIntegrity_ok; [done|by left|unfold kStunMessageIntegritySize; lia|done]. Qed.

Lemma signed_valid : ValidateMessageIntegrity (message_bytes (signed key m)) (zlen (message_bytes (signed key m))) key = Ret true.
Proof.
  destruct signed_ok as [_ Hs]. unfold ValidateMessageIntegrity.
  rewrite (Validate_written (l1 := attrs_ m) (l2 := []) (a := signature key m) (t := kStunAttrMessageIntegrity) (n := 20)
    Hs eq_refl Hnew eq_refl eq_refl eq_refl ltac:(lia) eq_refl key Hkey).
  f_equal. apply bool_decide_true. rewrite ztake_ztake by lia. done.
Qed.
End Signed.

(** ** What the server reads *)

Lemma GetAttribute_received m t : GetAttribute (received_message m) t = received <$> GetAttribute m t.
Proof.
  unfold GetAttribute. cbn [attrs_ received_message]. induction (attrs_ m) as [|a l IH]; [done|].
  cbn [map GetAttribute_in]. change (attr_type (received a)) with (attr_type a). destruct (_ =? _); [done|exact IH].
Qed.
Lemma GetAttribute_extended m a t : attr_type a <> t -> GetAttribute (extended m a) t = GetAttribute m t.
Proof.
  intros Ha. unfold GetAttribute. cbn [attrs_ extended set_attrs]. induction (attrs_ m) as [|b l IH]; cbn [app GetAttribute_in].
  - by destruct (Z.eqb_spec (attr_type a) t).
  - destruct (_ =? _); [done|exact IH].
Qed.
Lemma GetAttribute_new m a t : attr_type a = t -> Forall (fun b => attr_type b <> t) (attrs_ m) ->
  GetAttribute (extended m a) t = Some a.
Proof.
  intros Ha Hf. unfold GetAttribute. cbn [attrs_ extended set_attrs]. induction Hf as [|b l Hb Hl IH]; cbn [app GetAttribute_in].
  - by rewrite Ha, Z.eqb_refl.
  - by destruct (Z.eqb_spec (attr_type b) t).
Qed.

Lemma receive m u m0 r : msg_ok m -> msg_class m = Turn -> StunMessage_new Turn u = Ret m0 ->
  unread r (message_bytes m) -> exists r', Message_Read m0 r = Ret (Some tt, received_message m, r') /\ Length r' = 0.
Proof.
  intros Hm Hc [= <-] Hr. set (m0 := mkMessage _ _ _ _ _ _ _).
  destruct (Message_Read_reads m m0 r Hm (eq_sym Hc) Hr) as (r' & E & Hr'). exists r'. split; [exact E|]. by apply (unread_Length r' []).
Qed.

Lemma unread_message m : msg_ok m -> unread (Reader (message_bytes m) (zlen (message_bytes m))) (message_bytes m).
Proof.
  intros Hm. pose proof (zlen_nonneg (message_bytes m)). pose proof (msg_length_range m Hm).
  pose proof (zlen_message_bytes m Hm) as Hl. unfold kStunHeaderSize in Hl.
  rewrite <- (ztake_all (zlen (message_bytes m)) (message_bytes m)) at 3 by lia. apply unread_Reader; lia.
Qed.
Lemma reads_received m msg : msg_ok m -> msg_class m = Turn -> reads_as (message_bytes m) msg -> msg = received_message m.
Proof.
  intros Hm Hc (u & m0 & r & E0 & Er). destruct (receive m u m0 _ Hm Hc E0 (unread_message m Hm)) as (r' & E & _). congruence.
Qed.

(** The message carries the string, or the peer. *)
Definition carries (m : StunMessage) (t : Z) (str : list byte) : Prop :=
  GetAttribute m t = Some (StunByteStringAttribute t str) /\ zlen str < 2 ^ 16.
Definition names (m : StunMessage) (peer : SocketAddress) : Prop :=
  exists len, GetAttribute m kStunAttrXorPeerAddress = Some (mkAttribute kStunAttrXorPeerAddress len (XorAddress peer true)).

Lemma carries_received m t str : carries m t str ->
  exists a, GetByteString (received_message m) t = Some a /\ attr_string a = Ret str.
Proof.
  intros [Ha Hl]. eexists. unfold GetByteString. rewrite GetAttribute_received, Ha. split; [reflexivity|].
  unfold attr_string, GetString. pose proof (zlen_nonneg str).
  cbn [received attr_body attr_length with_body StunByteStringAttribute CopyBytes SetBytes SetLength default from_option id].
  rewrite wrap16_small by lia. rewrite ztake_all by lia. rewrite mem_read_ok by lia. by rewrite zdrop_0, ztake_all by lia.
Qed.
Lemma names_received m peer : names m peer ->
  exists a, GetAddress (received_message m) kStunAttrXorPeerAddress = Some a /\ attr_address a = Ret (plain peer).
Proof.
  intros [len Ha]. eexists. unfold GetAddress. change (kStunAttrXorPeerAddress =? kStunAttrMappedAddress) with false. cbv iota.
  rewrite GetAttribute_received, Ha. split; reflexivity.
Qed.

Lemma Ret_inj {A} (a b : A) : Ret a = Ret b -> a = b.
Proof. by intros [= ->]. Qed.

Section Session.
Context `{Heap} (GetRemoteAddress GetLocalAddress : Z -> SocketAddress)
  (auth_hook_ : option (list byte -> list byte -> list byte -> bool * list byte))
  (redirect_hook_ : option (SocketAddress -> bool * SocketAddress)).

(** The request of a client that knows [key] and a nonce of the server. *)
Record client_request (nonce_key : list byte) (now : Z) (key user nonce : list byte) (m : StunMessage) : Prop := {
  rq_ok : msg_ok m;
  rq_class : msg_class m = Turn;
  rq_type : IsStunRequestType (msg_type m) = true;
  rq_room : attrs_size (attrs_ m) + 24 < 2 ^ 16;
  rq_unsigned : Forall (fun a => attr_type a <> kStunAttrMessageIntegrity) (attrs_ m);
  rq_user : carries m kStunAttrUsername user;
  rq_realm : exists realm, carries m kStunAttrRealm realm;
  rq_nonce : carries m kStunAttrNonce nonce;
  rq_fresh : exists ts, GenerateNonce nonce_key ts = Ret nonce /\ 0 <= ts < 2 ^ 63 /\ now - ts < kNonceTimeout
}.

(** The nonce is accepted, and is the only text of its time. *)
Lemma issued nonce_key ts nonce : zlen nonce_key < 2 ^ 61 -> GenerateNonce nonce_key ts = Ret nonce -> 0 <= ts < 2 ^ 63 ->
  unforged nonce_key nonce /\
  forall now, 0 <= now < 2 ^ 63 -> ValidateNonce nonce_key now nonce = Ret (now - ts <? kNonceTimeout).
Proof.
  intros Hk E Hts. rewrite GenerateNonce_ok in E by done. apply Ret_inj in E as <-. set (t := store host_order 8 (wrap64 ts)).
  assert (Ht : zlen t = 8) by apply zlen_store. assert (H16 : zlen (hex_text Byte.x00 t) = 16) by (rewrite zlen_hex_plain; lia).
  assert (Etime : nonce_time t = ts).
  { unfold nonce_time, t. rewrite load_store by (apply Z.mod_pos_bound; lia). apply to_int64_wrap. lia. }
  split.
  - intros t' _ Hh _. rewrite <- H16, ztake_app in Hh. rewrite (hex_of_inj _ t' t Hh (hex_of_text t)). lia.
  - intros now Hn. rewrite ValidateNonce_own by done. rewrite Etime. unfold int64_sub.
    rewrite (proj2 (Z.leb_le _ _)), (proj2 (Z.ltb_lt _ _)) by lia. done.
Qed.

Section Request.
Context {nonce_key : list byte} {now : Z} {key user nonce : list byte} {m : StunMessage}.
Context (Hrq : client_request nonce_key now key user nonce m) (Hkey : zlen key < 2 ^ 61) (Hnk : zlen nonce_key < 2 ^ 61).
Context (Hnow : 0 <= now < 2 ^ 63).

Local Notation msg := (received_message (signed key m)).
Local Notation data := (message_bytes (signed key m)).

Lemma request_ok : msg_ok (signed key m) /\ msg_class (signed key m) = Turn.
Proof. destruct (signed_ok key m) as [_ Hok]; [apply Hrq..|done|]. split; [done|apply Hrq]. Qed.

Lemma request_string t str : t <> kStunAttrMessageIntegrity -> carries m t str ->
  exists a, GetByteString msg t = Some a /\ attr_string a = Ret str.
Proof. intros Ht [Hc Hl]. apply carries_received. split; [|done]. unfold signed. rewrite GetAttribute_extended by (cbn; congruence). done. Qed.

Lemma request_honest : honest nonce_key data.
Proof.
  destruct request_ok as [Hok Hc]. split.
  - rewrite zlen_message_bytes by done. pose proof (msg_length_range _ Hok). unfold kStunHeaderSize. lia.
  - intros msg' attr text Hr Ha Htext. apply reads_received in Hr as ->; [|done|done].
    destruct (request_string kStunAttrNonce nonce) as (a & Ea & Es); [done|apply Hrq|]. rewrite Ea in Ha. injection Ha as <-.
    rewrite Es in Htext. apply Ret_inj in Htext as <-. destruct (rq_fresh _ _ _ _ _ _ Hrq) as (ts & Eg & Hts & _).
    by destruct (issued nonce_key ts nonce Hnk Eg Hts).
Qed.

(** The state after the check: the nonce is noted. *)
Definition noted (conn : TurnServerConnection) (nonce : list byte) (s : TurnServer) : TurnServer :=
  set_allocations (change_in conn (set_last_nonce nonce) (allocations_ s)) s.

Lemma noted_none conn s : find_allocation conn (allocations_ s) = None -> noted conn nonce s = s.
Proof.
  intros Hn. unfold noted. assert (E : change_in conn (set_last_nonce nonce) (allocations_ s) = allocations_ s).
  { induction (allocations_ s) as [|[k a] l IH]; [done|]. cbn [find_allocation change_in] in *.
    destruct (conn_same k conn); [done|]. by rewrite IH. }
  rewrite E. by destruct s.
Qed.

Lemma check_passes e conn s : nonce_key_ s = nonce_key -> TimeMillis e = now -> enable_otu_nonce_ s = false -> key <> [] ->
  runs (CheckAuthorization e conn msg data key) s (fun b s' out => b = true /\ out = [] /\ s' = noted conn nonce s).
Proof.
  intros En Et Eo Hne. unfold CheckAuthorization. apply runs_lift. intros [] _.
  assert (Emi : exists mi, GetByteString msg kStunAttrMessageIntegrity = Some mi).
  { eexists. unfold GetByteString. rewrite GetAttribute_received. unfold signed. rewrite GetAttribute_new; [reflexivity|done|apply Hrq]. }
  destruct Emi as [mi ->].
  destruct (request_string kStunAttrUsername user) as (u & -> & Eu); [done|apply Hrq|].
  destruct (rq_realm _ _ _ _ _ _ Hrq) as [realm Hrealm].
  destruct (request_string kStunAttrRealm realm) as (r & -> & Er); [done|done|].
  destruct (request_string kStunAttrNonce nonce) as (na & -> & Ena); [done|apply Hrq|].
  apply runs_lift. intros text Etext. rewrite Ena in Etext. apply Ret_inj in Etext as <-.
  apply runs_server, runs_lift. intros valid Ev. destruct (rq_fresh _ _ _ _ _ _ Hrq) as (ts & Eg & Hts & Hage).
  destruct (issued nonce_key ts nonce Hnk Eg Hts) as [_ Hval]. rewrite En, Et, Hval in Ev by done. apply Ret_inj in Ev as <-.
  rewrite (proj2 (Z.ltb_lt _ _)) by done. cbn [negb]. apply runs_lift. intros sound Es. rewrite bool_decide_false in Es by done.
  rewrite signed_valid in Es; [|apply Hrq..|done|apply Hrq]. apply Ret_inj in Es as <-. cbn [negb]. apply runs_FindAllocation.
  destruct (find_allocation conn (allocations_ s)) as [a|] eqn:Ea.
  - rewrite Eo. cbn [andb]. apply runs_update, runs_ret. done.
  - apply runs_ret. split; [done|]. split; [done|]. by rewrite noted_none.
Qed.

(** The key that the server has for the client. *)
Definition key_known (conn : TurnServerConnection) (s : TurnServer) : Prop :=
  match find_allocation conn (allocations_ s) with
  | Some a => key_ a = key /\ username_ a = user
  | None => exists hook, auth_hook_ = Some hook /\ snd (hook user (realm_ s) []) = key
  end.

Record serves (e : env) (conn : TurnServerConnection) (s : TurnServer) : Prop := {
  sv_nonce : nonce_key_ s = nonce_key;
  sv_now : TimeMillis e = now;
  sv_otu : enable_otu_nonce_ s = false;
  sv_redirect : redirect_hook_ = None;
  sv_key : key <> [];
  sv_known : key_known conn s
}.

(** A signed request reaches [dispatch]. *)
Lemma request_flow e conn s Q : serves e conn s -> msg_type m <> message_number kStunMessageBindingRequest ->
  runs (dispatch GetLocalAddress e conn msg key (find_allocation conn (allocations_ s))) (noted conn nonce s) Q ->
  runs (HandleStunMessage GetLocalAddress auth_hook_ redirect_hook_ e conn data) s Q.
Proof.
  intros [En Et Eo Er Hne Hk] Hty Hd. destruct request_ok as [Hok Hc]. unfold HandleStunMessage. apply runs_lift. intros m0 E0.
  apply runs_lift. intros [[o got] buf] Eread.
  destruct (receive _ _ _ _ Hok Hc E0 (unread_message _ Hok)) as (r' & Er' & Hlen). rewrite Er' in Eread.
  apply Ret_inj in Eread. injection Eread as <- <- <-. rewrite Hlen. change (0 >? 0) with false. cbv iota.
  change (msg_type msg) with (msg_type m). rewrite (proj2 (Z.eqb_neq _ _) Hty). rewrite Er. cbn [fst]. apply runs_FindAllocation.
  assert (Hkey' : runs (match find_allocation conn (allocations_ s) with None => GetKey auth_hook_ msg [] | Some a => mret (key_ a) end) s
    (fun k s' out => k = key /\ s' = s /\ out = [])).
  { unfold key_known in Hk. destruct (find_allocation conn (allocations_ s)) as [a|]; [apply runs_ret; by destruct Hk as [-> _]|].
    destruct Hk as (hook & Eh & Ek). unfold GetKey.
    destruct (request_string kStunAttrUsername user) as (u & -> & Eu); [done|apply Hrq|].
    apply runs_lift. intros text Etext. rewrite Eu in Etext. apply Ret_inj in Etext as <-. apply runs_server. rewrite Eh.
    apply runs_ret. by rewrite Ek. }
  apply runs_bind. eapply runs_mono; [exact Hkey'|]. intros k s' out (-> & -> & ->). apply runs_bind.
  rewrite (rq_type _ _ _ _ _ _ Hrq). eapply runs_mono; [by apply check_passes|]. intros b s' out (-> & -> & ->). cbn [negb app].
  exact Hd.
Qed.

Lemma noted_find conn s a : find_allocation conn (allocations_ s) = Some a ->
  find_allocation conn (allocations_ (noted conn nonce s)) = Some (set_last_nonce nonce a).
Proof. intros Ha. unfold noted. cbn [allocations_ set_allocations]. by apply (find_change conn (set_last_nonce nonce)). Qed.

(** A request other than Allocate on an allocation of the user. *)
Lemma request_of_user e conn s a Q : serves e conn s -> find_allocation conn (allocations_ s) = Some a ->
  msg_type m <> message_number kStunMessageBindingRequest -> msg_type m <> message_number kStunAllocateRequst ->
  runs (HandleTurnMessage GetLocalAddress e conn msg) (noted conn nonce s) Q ->
  runs (HandleStunMessage GetLocalAddress auth_hook_ redirect_hook_ e conn data) s Q.
Proof.
  intros Hsv Ha Hty1 Hty2 HQ. apply request_flow; [done|done|]. pose proof (sv_known _ _ _ Hsv) as Hk. unfold key_known in Hk.
  rewrite Ha in *. destruct Hk as [Hk Hu]. unfold dispatch. change (msg_type msg) with (msg_type m).
  rewrite (proj2 (Z.eqb_neq _ _) Hty2), (rq_type _ _ _ _ _ _ Hrq). cbn [negb orb].
  destruct (request_string kStunAttrUsername user) as (u & -> & Eu); [done|apply Hrq|].
  apply runs_bind, runs_lift. intros text Etext. rewrite Eu in Etext. apply Ret_inj in Etext as <-. apply runs_ret.
  rewrite Hu, bool_decide_true by done. cbn [negb app]. exact HQ.
Qed.
End Request.

Lemma AddPermission_has ip a : HasPermission (AddPermission ip a) ip = true.
Proof.
  unfold AddPermission, HasPermission. destruct (FindPermission a ip) as [x|] eqn:E; [by rewrite E|].
  unfold FindPermission. cbn [perms_ set_perms]. generalize 0%nat. induction (perms_ a) as [|p l IH]; intros i; cbn [app find_at].
  - cbn [perm_peer]. by rewrite ip_eqb_refl.
  - destruct (ip_eqb (perm_peer p) ip); [done|apply IH].
Qed.

(** ** The steps of a session *)

Definition same_client (a a' : TurnServerAllocation) : Prop :=
  key_ a' = key_ a /\ username_ a' = username_ a /\ external_socket_ a' = external_socket_ a.

Lemma permission_granted nonce_key now key user nonce m e conn s a peer :
  client_request nonce_key now key user nonce m -> zlen key < 2 ^ 61 -> zlen nonce_key < 2 ^ 61 -> 0 <= now < 2 ^ 63 ->
  serves (nonce_key := nonce_key) (now := now) (key := key) (user := user) e conn s ->
  find_allocation conn (allocations_ s) = Some a -> msg_type m = TURN_CREATE_PERMISSION_REQUEST -> names m peer ->
  reject_private_addresses_ s && IPIsPrivate (ip_ peer) = false ->
  runs (HandleStunMessage GetLocalAddress auth_hook_ redirect_hook_ e conn (message_bytes (signed key m))) s (fun _ s' _ =>
    same_config s s' /\ exists a', find_allocation conn (allocations_ s') = Some a' /\ same_client a a' /\
      HasPermission a' (ip_ peer) = true).
Proof.
  intros Hrq Hk Hnk Hnow Hsv Ha Hty Hp Hpriv. apply (request_of_user Hrq Hk Hnk Hnow e conn s a); [done|done|by rewrite Hty..|].
  unfold HandleTurnMessage. change (msg_type (received_message (signed key m))) with (msg_type m). rewrite Hty. cbn [Z.eqb].
  change (TURN_CREATE_PERMISSION_REQUEST =? message_number kStunAllocateRequst) with false.
  change (TURN_CREATE_PERMISSION_REQUEST =? TURN_REFRESH_REQUEST) with false.
  change (TURN_CREATE_PERMISSION_REQUEST =? TURN_SEND_INDICATION) with false.
  change (TURN_CREATE_PERMISSION_REQUEST =? TURN_CREATE_PERMISSION_REQUEST) with true. cbv iota.
  unfold HandleCreatePermissionRequest.
  assert (Hns : names (signed key m) peer).
  { destruct Hp as [len Hp]. exists len. unfold signed. by rewrite GetAttribute_extended. }
  destruct (names_received _ _ Hns) as (attr & -> & Eat). apply runs_server, runs_lift. intros p Ep. rewrite Eat in Ep.
  apply Ret_inj in Ep as <-. change (ip_ (plain peer)) with (ip_ peer).
  change (reject_private_addresses_ (noted conn nonce s)) with (reject_private_addresses_ s). rewrite Hpriv.
  apply runs_update. set (s1 := set_allocations _ _).
  match goal with |- runs ?k _ _ => assert (Hqk : quiet k) by quiet end.
  eapply runs_mono; [apply Hqk|]. intros u s' out [Hs' _]. split.
  - eapply same_config_trans; [|by apply same_state_config]. unfold s1, noted. by destruct s.
  - rewrite (same_allocations _ _ Hs'). eexists. split; [apply find_change, noted_find, Ha|]. split; [|apply AddPermission_has].
    unfold AddPermission, same_client. by destruct (FindPermission _ _).
Qed.

Lemma indication_relayed m e conn s a payload peer : msg_ok m -> msg_class m = Turn -> msg_type m = TURN_SEND_INDICATION ->
  carries m kStunAttrData payload -> names m peer -> redirect_hook_ = None ->
  find_allocation conn (allocations_ s) = Some a -> HasPermission a (ip_ peer) = true ->
  runs (HandleStunMessage GetLocalAddress auth_hook_ redirect_hook_ e conn (message_bytes m)) s (fun _ s' out =>
    s' = s /\ out = [ToPeer (external_socket_ a) payload (plain peer)]).
Proof.
  intros Hok Hc Hty Hd Hp Er Ha Hperm. unfold HandleStunMessage. apply runs_lift. intros m0 E0.
  apply runs_lift. intros [[o got] buf] Eread.
  destruct (receive _ _ _ _ Hok Hc E0 (unread_message _ Hok)) as (r' & Er' & Hlen). rewrite Er' in Eread.
  apply Ret_inj in Eread. injection Eread as <- <- <-. rewrite Hlen. change (0 >? 0) with false. cbv iota.
  change (msg_type (received_message m)) with (msg_type m). rewrite Hty, Er. cbn [fst].
  change (TURN_SEND_INDICATION =? message_number kStunMessageBindingRequest) with false. cbv iota.
  apply runs_FindAllocation. rewrite Ha. apply (runs_pure (key_ a)).
  change (IsStunRequestType TURN_SEND_INDICATION) with false. cbv iota. apply (runs_pure true). cbn [negb]. unfold dispatch.
  change (msg_type (received_message m)) with (msg_type m). rewrite Hty.
  change (negb (TURN_SEND_INDICATION =? message_number kStunAllocateRequst) || _) with true. cbv iota.
  change (IsStunRequestType TURN_SEND_INDICATION) with false. cbv iota. apply (runs_pure false).
  unfold HandleTurnMessage. change (msg_type (received_message m)) with (msg_type m). rewrite Hty.
  change (TURN_SEND_INDICATION =? message_number kStunAllocateRequst) with false.
  change (TURN_SEND_INDICATION =? TURN_REFRESH_REQUEST) with false.
  change (TURN_SEND_INDICATION =? TURN_SEND_INDICATION) with true. cbv iota. unfold HandleSendIndication.
  destruct (carries_received _ _ _ Hd) as (da & -> & Eda). destruct (names_received _ _ Hp) as (attr & -> & Eat).
  apply runs_this. intros a' Ha'. rewrite Ha in Ha'. injection Ha' as <-. apply runs_lift. intros p Ep. rewrite Eat in Ep.
  apply Ret_inj in Ep as <-. change (ip_ (plain peer)) with (ip_ peer). rewrite Hperm. apply runs_lift. intros text Et.
  rewrite Eda in Et. apply Ret_inj in Et as <-. unfold SendExternal. apply runs_this. intros a' Ha'. rewrite Ha in Ha'.
  injection Ha' as <-. intros u s' out [= <- <- <-]. done.
Qed.

Lemma allocation_granted nonce_key now key user nonce m e conn s v sock :
  client_request nonce_key now key user nonce m -> zlen key < 2 ^ 61 -> zlen nonce_key < 2 ^ 61 -> 0 <= now < 2 ^ 63 ->
  serves (nonce_key := nonce_key) (now := now) (key := key) (user := user) e conn s ->
  find_allocation conn (allocations_ s) = None -> msg_type m = message_number kStunAllocateRequst ->
  GetAttribute m kStunAttrRequestedTransport = Some (StunUInt32Attribute kStunAttrRequestedTransport v) ->
  Z.shiftr v 24 = IPPROTO_UDP -> external_socket_factory_ s = true -> new_socket e = Some sock ->
  runs (HandleStunMessage GetLocalAddress auth_hook_ redirect_hook_ e conn (message_bytes (signed key m))) s (fun _ s' _ =>
    same_config s s' /\ exists a, find_allocation conn (allocations_ s') = Some a /\ key_ a = key /\ username_ a = user /\
      external_socket_ a = sock).
Proof.
  intros Hrq Hk Hnk Hnow Hsv Hn Hty Htr Hudp Hf Hnew. apply (request_flow Hrq Hk Hnk Hnow e conn s); [done|by rewrite Hty|].
  rewrite Hn, noted_none by done. unfold dispatch, HandleAllocateRequest.
  change (msg_type (received_message (signed key m))) with (msg_type m). rewrite Hty, Z.eqb_refl. unfold GetUInt32.
  rewrite GetAttribute_received. change (GetAttribute (signed key m) kStunAttrRequestedTransport)
    with (GetAttribute (extended m (signature key m)) kStunAttrRequestedTransport). rewrite GetAttribute_extended, Htr by done. cbn [fmap option_fmap option_map].
  apply runs_lift. intros v' Ev. apply Ret_inj in Ev as <-. rewrite Hudp. change (negb (IPPROTO_UDP =? IPPROTO_UDP)) with false. cbv iota.
  unfold CreateAllocation. apply runs_bind, runs_server. rewrite Hf, Hnew. apply runs_update, runs_ret. cbn [app].
  rewrite put_new by done. set (fresh_alloc := mkAllocation conn sock key [] [] [] [] [] []).
  set (s1 := set_allocations _ _). assert (H1 : find_allocation conn (allocations_ s1) = Some fresh_alloc) by by apply find_last.
  unfold HandleTurnMessage. change (msg_type (received_message (signed key m))) with (msg_type m). rewrite Hty, Z.eqb_refl.
  unfold Alloc_HandleAllocateRequest.
  destruct (request_string (key := key) (m := m) kStunAttrUsername user) as (ua & -> & Eu); [done|apply Hrq|]. apply (runs_pure ua).
  apply runs_lift. intros text Etext. rewrite Eu in Etext. apply Ret_inj in Etext as <-. apply runs_this. intros a0 Ha0.
  rewrite H1 in Ha0. injection Ha0 as <-. apply runs_bind.
  match goal with |- runs ?k _ _ => assert (Hqk : runs k s1 (fun _ s' out => s' = s1 /\ out = [])) end.
  { destruct (GetByteString _ kStunAttrOrigin) as [o|]; [|by apply runs_ret]. intros x s' out. unfold lift.
    destruct (attr_string o); cbn; [|done]. by intros [= <- <- <-]. }
  eapply runs_mono; [exact Hqk|]. intros origin s' out (-> & ->). cbn [app]. apply runs_update.
  match goal with |- runs ?k _ _ => assert (Hq : quiet k) by quiet end.
  eapply runs_mono; [apply Hq|]. intros u s' out [Hs' _]. split.
  - eapply same_config_trans; [|by apply same_state_config]. unfold s1. by destruct s.
  - rewrite (same_allocations _ _ Hs'). eexists. split; [by apply find_change|]. done.
Qed.

(** ** Packets of the client *)

Notation perform := (perform GetRemoteAddress GetLocalAddress auth_hook_ redirect_hook_).

Context (Hhook : forall hook user realm key, auth_hook_ = Some hook -> zlen (snd (hook user realm key)) < 2 ^ 61).

(** A packet with a STUN message, from a socket of the server. *)
Lemma packet_step m e socket addr proto s Q (conn := mkConnection addr (GetRemoteAddress socket) proto socket) :
  msg_ok m -> IsTurnChannelData (msg_type m) = false -> server_sockets_ s !! socket = Some proto -> ready s ->
  honest (nonce_key_ s) (message_bytes m) -> 0 <= TimeMillis e < 2 ^ 63 ->
  runs (HandleStunMessage GetLocalAddress auth_hook_ redirect_hook_ e conn (message_bytes m)) s Q ->
  exists s' out, perform e (Internal socket (message_bytes m) addr) s = Ret (tt, s', out) /\ ready s' /\ Q tt s' out.
Proof.
  intros Hok Hch Hsock Hs Hh Ht HQ.
  destruct (keeps_turn_step GetRemoteAddress GetLocalAddress auth_hook_ redirect_hook_ Hhook e (Internal socket (message_bytes m) addr) s Hs (conj Ht Hh))
    as ([] & s' & out & E & Hs'). exists s', out. split; [done|]. split; [done|]. revert E.
  apply (fun H : runs (perform e (Internal socket (message_bytes m) addr)) s Q => H tt s' out).
  unfold TurnServer.perform. apply runs_server. rewrite Hsock. unfold OnInternalPacket.
  assert (Hl : zlen (message_bytes m) = 20 + msg_length m) by by apply zlen_message_bytes.
  pose proof (msg_length_range m Hok). rewrite (proj2 (Z.ltb_ge _ _)) by (unfold TURN_CHANNEL_HEADER_SIZE; lia).
  apply runs_server. rewrite Hsock. apply runs_lift. intros ty Ety.
  assert (E16 : GetBE16 host_order (message_bytes m) = Ret (msg_type m)).
  { pose proof (ok_type _ Hok). change (GetBE16 host_order (message_bytes m)) with (GetBE16_at (message_bytes m) 0).
    eapply (GetBE16_field _ 0 [] (msg_type m)); [reflexivity|done|lia]. }
  rewrite E16 in Ety. apply Ret_inj in Ety as <-. rewrite Hch. exact HQ.
Qed.

Lemma noted_config s s' : same_config s s' -> nonce_key_ s' = nonce_key_ s /\ realm_ s' = realm_ s /\
  enable_otu_nonce_ s' = enable_otu_nonce_ s /\ reject_private_addresses_ s' = reject_private_addresses_ s /\
  server_sockets_ s' = server_sockets_ s.
Proof. by intros ->. Qed.
End Session.

(** A whole session. *)
Lemma session_served `{Heap} (GetRemoteAddress GetLocalAddress : Z -> SocketAddress)
    (hook : list byte -> list byte -> list byte -> bool * list byte) (s : TurnServer) (socket sock : Z) (proto : ProtocolType)
    (addr peer : SocketAddress) (e0 e1 e2 : env) (m0 m1 m2 : StunMessage) (key user n0 n1 payload : list byte) (v : Z) :
  (forall u r k, zlen (snd (hook u r k)) < 2 ^ 61) -> snd (hook user (realm_ s) []) = key -> key <> [] ->
  ready s -> enable_otu_nonce_ s = false -> external_socket_factory_ s = true ->
  server_sockets_ s !! socket = Some proto ->
  find_allocation (mkConnection addr (GetRemoteAddress socket) proto socket) (allocations_ s) = None ->
  0 <= TimeMillis e0 < 2 ^ 63 -> 0 <= TimeMillis e1 < 2 ^ 63 -> 0 <= TimeMillis e2 < 2 ^ 63 ->
  new_socket e0 = Some sock ->
  client_request (nonce_key_ s) (TimeMillis e0) key user n0 m0 -> msg_type m0 = message_number kStunAllocateRequst ->
  GetAttribute m0 kStunAttrRequestedTransport = Some (StunUInt32Attribute kStunAttrRequestedTransport v) ->
  Z.shiftr v 24 = IPPROTO_UDP ->
  client_request (nonce_key_ s) (TimeMillis e1) key user n1 m1 -> msg_type m1 = TURN_CREATE_PERMISSION_REQUEST ->
  names m1 peer -> reject_private_addresses_ s && IPIsPrivate (ip_ peer) = false ->
  msg_ok m2 -> msg_class m2 = Turn -> msg_type m2 = TURN_SEND_INDICATION -> GetAttribute m2 kStunAttrNonce = None ->
  carries m2 kStunAttrData payload -> names m2 peer ->
  let run := perform GetRemoteAddress GetLocalAddress (Some hook) None in
  exists s1 out1 s2 out2,
    run e0 (Internal socket (message_bytes (signed key m0)) addr) s = Ret (tt, s1, out1) /\
    run e1 (Internal socket (message_bytes (signed key m1)) addr) s1 = Ret (tt, s2, out2) /\
    run e2 (Internal socket (message_bytes m2) addr) s2 = Ret (tt, s2, [ToPeer sock payload (plain peer)]).
Proof.
  intros Hhook Hkey Hne Hs Hotu Hfac Hsock Hnone Ht0 Ht1 Ht2 Hnew R0 T0 Htr Hudp R1 T1 N1 Hpriv O2 C2 T2 Nn2 D2 N2 run.
  assert (Hbound : forall h u r k, Some hook = Some h -> zlen (snd (h u r k)) < 2 ^ 61) by (intros h u r k [= <-]; apply Hhook).
  assert (Hk : zlen key < 2 ^ 61) by (rewrite <- Hkey; apply Hhook). pose proof (ready_nonce _ Hs) as Hnk.
  destruct (request_ok R0 Hk) as [O0 _]. destruct (request_ok R1 Hk) as [O1 _].
  set (conn := mkConnection addr (GetRemoteAddress socket) proto socket) in *.
  assert (S0 : serves (Some hook) None (nonce_key := nonce_key_ s) (now := TimeMillis e0) (key := key) (user := user) e0 conn s).
  { split; try done. unfold key_known. rewrite Hnone. by exists hook. }
  destruct (packet_step GetRemoteAddress GetLocalAddress (Some hook) None Hbound (signed key m0) e0 socket addr proto s _ O0
    ltac:(change (msg_type (signed key m0)) with (msg_type m0); by rewrite T0) Hsock Hs (request_honest R0 Hk Hnk) Ht0
    (allocation_granted GetLocalAddress (Some hook) None _ _ key user n0 m0 e0 conn s v sock R0 Hk Hnk Ht0 S0 Hnone T0 Htr Hudp Hfac Hnew))
    as (s1 & out1 & E1 & Hs1 & Hc1 & a & Ha & Hka & Hua & Hsa).
  destruct (noted_config _ _ Hc1) as (En1 & Er1 & Eo1 & Ep1 & Ek1). rewrite <- En1 in R1.
  assert (S1 : serves (Some hook) None (nonce_key := nonce_key_ s1) (now := TimeMillis e1) (key := key) (user := user) e1 conn s1).
  { split; try done; [by rewrite Eo1|]. unfold key_known. by rewrite Ha. }
  rewrite <- Ep1 in Hpriv. rewrite <- Ek1 in Hsock.
  destruct (packet_step GetRemoteAddress GetLocalAddress (Some hook) None Hbound (signed key m1) e1 socket addr proto s1 _ O1
    ltac:(change (msg_type (signed key m1)) with (msg_type m1); by rewrite T1) Hsock Hs1 (request_honest R1 Hk (ready_nonce _ Hs1)) Ht1
    (permission_granted GetLocalAddress (Some hook) None _ _ key user n1 m1 e1 conn s1 a peer R1 Hk (ready_nonce _ Hs1) Ht1 S1 Ha T1 N1 Hpriv))
    as (s2 & out2 & E2 & Hs2 & Hc2 & a2 & Ha2 & (_ & _ & Hsa2) & Hp2).
  destruct (noted_config _ _ Hc2) as (En2 & _ & _ & _ & Ek2). rewrite <- Ek2 in Hsock.
  assert (Hh2 : honest (nonce_key_ s2) (message_bytes m2)).
  { split; [rewrite zlen_message_bytes by done; pose proof (msg_length_range _ O2); unfold kStunHeaderSize; lia|].
    intros msg attr nonce Hr Hg. apply reads_received in Hr as ->; [|done|done]. unfold GetByteString in Hg.
    by rewrite GetAttribute_received, Nn2 in Hg. }
  destruct (packet_step GetRemoteAddress GetLocalAddress (Some hook) None Hbound m2 e2 socket addr proto s2 _ O2
    ltac:(by rewrite T2) Hsock Hs2 Hh2 Ht2
    (indication_relayed GetLocalAddress (Some hook) None m2 e2 conn s2 a2 payload peer O2 C2 T2 D2 N2 eq_refl Ha2 Hp2))
    as (s3 & out3 & E3 & _ & -> & ->).
  exists s1, out1, s2, out2. split; [done|]. split; [done|]. unfold run. rewrite E3. by rewrite Hsa2, Hsa.
Qed.

(** C5: a client of the TURN server that knows its key is served: with a
    nonce of the server that is less than an hour old and MESSAGE-INTEGRITY
    under its key, its Allocate request on a new connection creates an
    allocation (on the socket that the factory returned), its
    CreatePermission request installs the permission unless private
    addresses are refused, and the data of its Send indication then leaves from the
    relayed socket to the peer, unchanged, and nothing else is sent. *)
Theorem authorised_client_is_served `{Heap} (GetRemoteAddress GetLocalAddress : Z -> SocketAddress)
    (hook : list byte -> list byte -> list byte -> bool * list byte) (s : TurnServer) (socket sock : Z) (proto : ProtocolType)
    (addr peer : SocketAddress) (e0 e1 e2 : env) (m0 m1 m2 : StunMessage) (key user n0 n1 payload : list byte) (v : Z) :
  (forall u r k, zlen (snd (hook u r k)) < 2 ^ 61) -> snd (hook user (realm_ s) []) = key -> key <> [] ->
  ready s -> enable_otu_nonce_ s = false -> external_socket_factory_ s = true ->
  server_sockets_ s !! socket = Some proto ->
  find_allocation (mkConnection addr (GetRemoteAddress socket) proto socket) (allocations_ s) = None ->
  0 <= TimeMillis e0 < 2 ^ 63 -> 0 <= TimeMillis e1 < 2 ^ 63 -> 0 <= TimeMillis e2 < 2 ^ 63 ->
  new_socket e0 = Some sock ->
  client_request (nonce_key_ s) (TimeMillis e0) key user n0 m0 -> msg_type m0 = message_number kStunAllocateRequst ->
  GetAttribute m0 kStunAttrRequestedTransport = Some (StunUInt32Attribute kStunAttrRequestedTransport v) ->
  Z.shiftr v 24 = IPPROTO_UDP ->
  client_request (nonce_key_ s) (TimeMillis e1) key user n1 m1 -> msg_type m1 = TURN_CREATE_PERMISSION_REQUEST ->
  names m1 peer -> reject_private_addresses_ s && IPIsPrivate (ip_ peer) = false ->
  msg_ok m2 -> msg_class m2 = Turn -> msg_type m2 = TURN_SEND_INDICATION -> GetAttribute m2 kStunAttrNonce = None ->
  carries m2 kStunAttrData payload -> names m2 peer ->
  let run := perform GetRemoteAddress GetLocalAddress (Some hook) None in
  exists s1 out1 s2 out2,
    run e0 (Internal socket (message_bytes (signed key m0)) addr) s = Ret (tt, s1, out1) /\
    run e1 (Internal socket (message_bytes (signed key m1)) addr) s1 = Ret (tt, s2, out2) /\
    run e2 (Internal socket (message_bytes m2) addr) s2 = Ret (tt, s2, [ToPeer sock payload (plain peer)]).
Proof. exact (session_served GetRemoteAddress GetLocalAddress hook s socket sock proto addr peer e0 e1 e2 m0 m1 m2 key user n0 n1 payload v). Qed.

(** *** A session *)

Definition ex_key : list byte := replicate 16 Byte.x42.
Definition ex_nonce_key : list byte := replicate 16 Byte.x41.
Definition ex_hook (user realm key : list byte) : bool * list byte := (true, ex_key).
Definition ex_server : TurnServer :=
  mkServer ex_nonce_key [Byte.x72] [] false false true {[7 := PROTO_UDP]} ∅ [] true SocketAddress_nil [] 0.
Definition ex_address (n : Z) : SocketAddress :=
  mkSocketAddress [] (IPAddress_v4 (map byte.of_Z [192; 0; 2; n])) 5000 0 false.
Definition ex_remote (socket : Z) : SocketAddress := ex_address 1.
Definition ex_local (socket : Z) : SocketAddress := ex_address 2.
Definition ex_env : env := mkEnv 2000 (Some 9) None [] 0.
Definition ex_nonce : list byte :=
  hex_text Byte.x00 (store host_order 8 (wrap64 1000)) ++ nonce_mac ex_nonce_key (store host_order 8 (wrap64 1000)).
Definition ex_peer : StunAttribute := SetOwner true (StunXorAddressAttribute kStunAttrXorPeerAddress (ex_address 3)).

Definition ex_message (type : Z) (attrs : list StunAttribute) : StunMessage :=
  mkMessage Turn type (attrs_size attrs) example_tid 0 kStunMagicCookie attrs.
Definition ex_request (nonce : list byte) (type : Z) (extra : StunAttribute) : StunMessage :=
  ex_message type [StunByteStringAttribute kStunAttrUsername [Byte.x75]; StunByteStringAttribute kStunAttrRealm [Byte.x72];
                   StunByteStringAttribute kStunAttrNonce nonce; extra].
Definition ex_transport : StunAttribute := StunUInt32Attribute kStunAttrRequestedTransport 0x11000000.
Definition ex_indication : StunMessage :=
  ex_message TURN_SEND_INDICATION [ex_peer; StunByteStringAttribute kStunAttrData [Byte.x68; Byte.x69]].

Lemma ex_nonce_length : zlen ex_nonce = 48.
Proof. unfold ex_nonce. by rewrite zlen_app, zlen_hex_plain, zlen_store, zlen_nonce_mac. Qed.

Section Example.
Context (nonce : list byte) (Hn : zlen nonce = 48).

Lemma ex_nonce_attr : StunByteStringAttribute kStunAttrNonce nonce = mkAttribute kStunAttrNonce 48 (ByteString (Some nonce)).
Proof. unfold StunByteStringAttribute, CopyBytes, SetBytes, SetLength. by rewrite Hn. Qed.

Lemma ex_request_ok type extra : 0 <= type < 2 ^ 15 -> attr_ok example_tid extra -> attr_length extra <= 20 ->
  value_type extra = read_type Turn (attr_type extra) ->
  attrs_size (attrs_ (ex_request nonce type extra)) < 2 ^ 10 /\ msg_ok (ex_request nonce type extra).
Proof.
  intros Ht Ha Hl Hv. pose proof (attr_length_range _ _ Ha). pose proof (padded_range (attr_length extra)) as [Hp _].
  assert (Hsz : attrs_size (attrs_ (ex_request nonce type extra)) < 2 ^ 10).
  { unfold ex_request. rewrite ex_nonce_attr. unfold attrs_size. cbn [attrs_ ex_message foldr attr_length].
    change (padded (attr_length (StunByteStringAttribute kStunAttrUsername [Byte.x75]))) with 4.
    change (padded (attr_length (StunByteStringAttribute kStunAttrRealm [Byte.x72]))) with 4.
    change (padded 48) with 48. lia. }
  split; [done|]. split; try done; [lia|]. unfold ex_request. cbn [attrs_ ex_message transaction_id_ msg_class].
  rewrite ex_nonce_attr. repeat apply Forall_cons_2; [..|constructor].
  - split; [split; [vm_compute; split; congruence..|]|done]. done.
  - split; [split; [vm_compute; split; congruence..|]|done]. done.
  - split; [|done]. split; [vm_compute; split; congruence|cbn; lia|]. unfold body_ok.
    cbn [attr_body attr_length default from_option id]. rewrite Hn. done.
  - by split.
Qed.

Lemma ex_client type extra ts now : 0 <= type < 2 ^ 15 -> IsStunRequestType type = true ->
  attr_ok example_tid extra -> attr_length extra <= 20 -> value_type extra = read_type Turn (attr_type extra) ->
  attr_type extra <> kStunAttrMessageIntegrity -> GenerateNonce (H := example_heap) ex_nonce_key ts = Ret nonce ->
  0 <= ts < 2 ^ 63 -> now - ts < kNonceTimeout ->
  client_request (H := example_heap) ex_nonce_key now ex_key [Byte.x75] nonce (ex_request nonce type extra).
Proof.
  intros Ht Hr Ha Hl Hv Hx Hg Hts Hnow. destruct (ex_request_ok type extra Ht Ha Hl Hv) as [Hsz Hok].
  split; try done; [lia| | | |].
  - unfold ex_request. cbn [attrs_ ex_message]. by repeat constructor.
  - exists [Byte.x72]. done.
  - split; [done|]. lia.
  - exists ts. done.
Qed.
End Example.

Lemma ex_peer_ok : attr_ok example_tid ex_peer.
Proof. split; [vm_compute; split; congruence..|]. split; [|by split; [|split]]. by split. Qed.
Lemma ex_transport_ok : attr_ok example_tid ex_transport.
Proof. split; [vm_compute; split; congruence..|]. split; [done|]. vm_compute; split; congruence. Qed.
Lemma ex_indication_ok : msg_ok ex_indication.
Proof.
  split; try done. cbn [attrs_ ex_indication ex_message transaction_id_ msg_class]. repeat apply Forall_cons_2; [..|constructor].
  - split; [apply ex_peer_ok|done].
  - split; [split; [vm_compute; split; congruence..|]|done]. done.
Qed.
Lemma ex_ready : ready ex_server.
Proof. split; [done|constructor|]. intros [|i] j x y; cbn; done. Qed.
Lemma ex_GenerateNonce : GenerateNonce (H := example_heap) ex_nonce_key 1000 = Ret ex_nonce.
Proof. by apply GenerateNonce_ok. Qed.

Definition ex_run : env -> input -> serving unit := perform (H := example_heap) ex_remote ex_local (Some ex_hook) None.
Definition ex_packet (m : StunMessage) : input := Internal 7 (message_bytes m) (ex_address 9).
Definition ex_allocate : StunMessage := ex_request ex_nonce (message_number kStunAllocateRequst) ex_transport.
Definition ex_permission : StunMessage := ex_request ex_nonce TURN_CREATE_PERMISSION_REQUEST ex_peer.

Lemma ex_client_allocate : client_request (H := example_heap) ex_nonce_key 2000 ex_key [Byte.x75] ex_nonce ex_allocate.
Proof. apply (ex_client ex_nonce ex_nonce_length _ _ 1000 2000); [done|done|apply ex_transport_ok|done|done|done|apply ex_GenerateNonce|done|done]. Qed.
Lemma ex_client_permission : client_request (H := example_heap) ex_nonce_key 2000 ex_key [Byte.x75] ex_nonce ex_permission.
Proof. apply (ex_client ex_nonce ex_nonce_length _ _ 1000 2000); [done|done|apply ex_peer_ok|done|done|done|apply ex_GenerateNonce|done|done]. Qed.

Lemma authorised_client_is_served_witness : exists s1 out1 s2 out2,
  ex_run ex_env (ex_packet (signed ex_key ex_allocate)) ex_server = Ret (tt, s1, out1) /\
  ex_run ex_env (ex_packet (signed ex_key ex_permission)) s1 = Ret (tt, s2, out2) /\
  ex_run ex_env (ex_packet ex_indication) s2 = Ret (tt, s2, [ToPeer 9 [Byte.x68; Byte.x69] (plain (ex_address 3))]).
Proof.
  apply (authorised_client_is_served (H := example_heap) ex_remote ex_local ex_hook ex_server 7 9 PROTO_UDP (ex_address 9) (ex_address 3)
    ex_env ex_env ex_env ex_allocate ex_permission ex_indication ex_key [Byte.x75] ex_nonce ex_nonce [Byte.x68; Byte.x69] 0x11000000);
    [done|done|done|apply ex_ready|done|done|done|done|done|done|done|done|apply ex_client_allocate|done|done|done|
     apply ex_client_permission|done|by eexists|done|apply ex_indication_ok|done|done|done|done|by eexists].
Defined.

Lemma ex_session : exists s1 out1 s2 out2,
  ex_run ex_env (ex_packet (signed ex_key ex_allocate)) ex_server = Ret (tt, s1, out1) /\
  ex_run ex_env (ex_packet (signed ex_key ex_permission)) s1 = Ret (tt, s2, out2) /\
  ex_run ex_env (ex_packet ex_indication) s2 = Ret (tt, s2, [ToPeer 9 [Byte.x68; Byte.x69] (plain (ex_address 3))]).
Proof.
  apply (session_served (H := example_heap) ex_remote ex_local ex_hook ex_server 7 9 PROTO_UDP (ex_address 9) (ex_address 3)
    ex_env ex_env ex_env ex_allocate ex_permission ex_indication ex_key [Byte.x75] ex_nonce ex_nonce [Byte.x68; Byte.x69] 0x11000000);
    [done|done|done|apply ex_ready|done|done|done|done|done|done|done|done|apply ex_client_allocate|done|done|done|
     apply ex_client_permission|done|by eexists|done|apply ex_indication_ok|done|done|done|done|by eexists].
Qed.

(** ** Nothing is relayed without authorisation *)

Section Authorised.
Context `{Heap} (GetRemoteAddress GetLocalAddress : Z -> SocketAddress)
  (auth_hook_ : option (list byte -> list byte -> list byte -> bool * list byte))
  (redirect_hook_ : option (SocketAddress -> bool * SocketAddress)).

(** The history [h] entitles the sender of the packet [i] to reach [peer]
    from [socket]: an Allocate request created the allocation of its
    connection, with the key that the hook has for the user, and a
    CreatePermission or ChannelBind request on the same connection asked for
    the address of the peer, both authentic under that key. *)
Definition entitled (s0 : TurnServer) (h : list (env * input)) (s : TurnServer) (i : input) (socket : Z) (peer : SocketAddress) : Prop :=
  exists sock packet addr proto k a,
    i = Internal sock packet addr /\ (k, a) ∈ allocations_ s /\ external_socket_ a = socket /\
    conn_same k (mkConnection addr (GetRemoteAddress sock) proto sock) = true /\
    created_in GetRemoteAddress auth_hook_ (nonce_key_ s0) (realm_ s0) h k (key_ a) /\
    request_in GetRemoteAddress (nonce_key_ s0) h k (key_ a)
      (fun m => exists ip, asks_permission m ip /\ ip_eqb ip (ip_ peer) = true).

Notation perform := (perform GetRemoteAddress GetLocalAddress auth_hook_ redirect_hook_).
Notation reach := (reach GetRemoteAddress GetLocalAddress auth_hook_ redirect_hook_).

Lemma request_in_mono nk h k key (P Q : StunMessage -> Prop) : (forall m, P m -> Q m) ->
  request_in GetRemoteAddress nk h k key P -> request_in GetRemoteAddress nk h k key Q.
Proof.
  intros HPQ (e & socket & data & addr & proto & msg & H1 & H2 & H3 & H4).
  exists e, socket, data, addr, proto, msg. auto.
Qed.

Lemma relay_entitled s0 h s e i s' out socket data peer : allocations_ s0 = [] -> reach s0 h s ->
  perform e i s = Ret (tt, s', out) -> ToPeer socket data peer ∈ out -> entitled s0 h s i socket peer.
Proof.
  intros H0 Hr E Hin. pose proof (turn_reach_inv _ _ _ _ s0 h s H0 Hr) as Hi.
  destruct (perform_inv _ _ _ _ _ _ _ e i s Hi tt s' out E) as [_ Hp].
  destruct (Hp socket data peer Hin) as (sock & packet & addr & proto & -> & a & Ha & -> & Hd).
  destruct (find_found _ _ _ Ha) as (l1 & k & l2 & El & _ & Hk). destruct Hi as (_ & _ & Hf).
  assert (Hka : (k, a) ∈ allocations_ s) by (rewrite El; apply elem_of_app; right; left).
  rewrite List.Forall_forall in Hf. pose proof (Hf (k, a) (proj1 (list_elem_of_In _ _) Hka)) as [_ Hc Hperm Hch]. cbn [fst snd] in *.
  exists sock, packet, addr, proto, k, a. do 5 (split; [done|]).
  destruct Hd as [(p & Hp' & Hip)|(ch & Hch' & <-)].
  - eapply request_in_mono; [|by apply Hperm]. intros m Hm. by exists (perm_peer p).
  - eapply request_in_mono; [|by apply Hch]. intros m (Ht & _ & Hn). exists (ip_ (channel_peer ch)).
    split; [|apply ip_eqb_refl]. split; [by right|]. by exists (channel_peer ch).
Qed.
End Authorised.

(** C2: the TURN server is not an open relay: in every state that any
    sequence of packets, closed and accepted sockets and timeouts leads to
    from a server without allocations, whatever the server sends to a peer is
    sent on behalf of a client whose connection has an allocation, created
    by an Allocate request with a valid nonce and a MESSAGE-INTEGRITY under
    the key of its user, and only to an address that a CreatePermission or
    ChannelBind request named on the same connection, authentic under the
    same key. *)
Theorem relay_needs_authorisation `{Heap} (GetRemoteAddress GetLocalAddress : Z -> SocketAddress)
    (auth_hook_ : option (list byte -> list byte -> list byte -> bool * list byte))
    (redirect_hook_ : option (SocketAddress -> bool * SocketAddress))
    (s0 : TurnServer) (h : list (env * input)) (s : TurnServer) (e : env) (i : input) (s' : TurnServer)
    (out : list datagram) (socket : Z) (data : list byte) (peer : SocketAddress) :
  allocations_ s0 = [] -> reach GetRemoteAddress GetLocalAddress auth_hook_ redirect_hook_ s0 h s ->
  perform GetRemoteAddress GetLocalAddress auth_hook_ redirect_hook_ e i s = Ret (tt, s', out) ->
  ToPeer socket data peer ∈ out ->
  entitled GetRemoteAddress auth_hook_ s0 h s i socket peer.
Proof. apply relay_entitled. Qed.

Lemma relay_needs_authorisation_witness : exists s,
  ex_run ex_env (ex_packet ex_indication) s = Ret (tt, s, [ToPeer 9 [Byte.x68; Byte.x69] (plain (ex_address 3))]) /\
  entitled (H := example_heap) ex_remote (Some ex_hook) ex_server
    ([(ex_env, ex_packet (signed ex_key ex_allocate))] ++ [(ex_env, ex_packet (signed ex_key ex_permission))])
    s (ex_packet ex_indication) 9 (plain (ex_address 3)).
Proof.
  destruct ex_session as (s1 & out1 & s2 & out2 & E1 & E2 & E3). exists s2. split; [exact E3|].
  eapply (relay_needs_authorisation (H := example_heap) ex_remote ex_local (Some ex_hook) None ex_server); [done| |exact E3|left].
  eapply reach_step; [|exact E2]. eapply (reach_step _ _ _ _ _ []); [apply reach_start|exact E1].
Defined.

(** C12: in every reachable state of the TURN server, the channels of each
    allocation have numbers from 0x4000 to 0x7FFF, no two of them the same
    number and no two the same peer, and no two of its permissions are for the
    same address, whatever requests, indications and timeouts came in. *)
Theorem channels_stay_distinct `{Heap} (GetRemoteAddress GetLocalAddress : Z -> SocketAddress)
    (auth_hook_ : option (list byte -> list byte -> list byte -> bool * list byte))
    (redirect_hook_ : option (SocketAddress -> bool * SocketAddress)) (s0 : TurnServer) (h : list (env * input)) (s : TurnServer) :
  allocations_ s0 = [] -> reach GetRemoteAddress GetLocalAddress auth_hook_ redirect_hook_ s0 h s ->
  Forall (fun x => alloc_ok (snd x)) (allocations_ s).
Proof.
  intros H0 Hr. destruct (turn_reach_inv _ _ _ _ s0 h s H0 Hr) as (_ & _ & Hf). eapply List.Forall_impl; [|exact Hf].
  intros x [Hx _ _ _]. exact Hx.
Qed.

Lemma channels_stay_distinct_witness : exists s,
  reach (H := example_heap) ex_remote ex_local (Some ex_hook) None ex_server
    ([(ex_env, ex_packet (signed ex_key ex_allocate))] ++ [(ex_env, ex_packet (signed ex_key ex_permission))]) s /\
  Forall (fun x => alloc_ok (snd x)) (allocations_ s).
Proof.
  destruct ex_session as (s1 & out1 & s2 & out2 & E1 & E2 & _). exists s2.
  assert (Hr : reach (H := example_heap) ex_remote ex_local (Some ex_hook) None ex_server
    ([(ex_env, ex_packet (signed ex_key ex_allocate))] ++ [(ex_env, ex_packet (signed ex_key ex_permission))]) s2).
  { eapply reach_step; [|exact E2]. eapply (reach_step _ _ _ _ _ []); [apply reach_start|exact E1]. }
  split; [exact Hr|]. exact (channels_stay_distinct (H := example_heap) ex_remote ex_local (Some ex_hook) None ex_server _ s2 eq_refl Hr).
Defined.

(** C3: a TURN server whose clients come over UDP (its internal sockets are
    UDP sockets and it listens on none) survives every sequence of packets
    from clients and peers, closed sockets and timeouts: its handlers fail no
    assertion, read and write inside their buffers, follow no stale pointer
    and run into no undefined behaviour, and it goes on.  A datagram that it
    sends is handed to the socket, which for UDP checks nothing.  Assumed of
    the environment ([admissible_all]): the hook's keys and the nonce key are
    shorter than 2^61 bytes, the clock shows a time since 1970, and no packet
    carries a nonce with the right MAC for a time before 1970.  Not covered:
    clients over accepted TCP sockets (there [AsyncStunTCPSocket::Send] aborts
    when assertions are compiled in, see [AsyncTcpProps]) and a
    [stun_message_observer_], which is application code. *)
Theorem turn_server_never_crashes `{Heap} (GetRemoteAddress GetLocalAddress : Z -> SocketAddress)
    (auth_hook_ : option (list byte -> list byte -> list byte -> bool * list byte))
    (redirect_hook_ : option (SocketAddress -> bool * SocketAddress)) (s : TurnServer) (l : list (env * input)) :
  (forall hook user realm key, auth_hook_ = Some hook -> zlen (snd (hook user realm key)) < 2 ^ 61) ->
  zlen (nonce_key_ s) < 2 ^ 61 -> allocations_ s = [] ->
  map_Forall (fun _ proto => proto = PROTO_UDP) (server_sockets_ s) -> server_listen_sockets_ s = ∅ ->
  admissible_all GetRemoteAddress GetLocalAddress auth_hook_ redirect_hook_ s l ->
  exists s' out, serve GetRemoteAddress GetLocalAddress auth_hook_ redirect_hook_ l s = Ret (tt, s', out).
Proof.
  intros Hhook Hn Ha _ _ Hl. destruct (keeps_serve GetRemoteAddress GetLocalAddress auth_hook_ redirect_hook_ Hhook l s) as ([] & s' & out & E & _).
  - split; [done|by rewrite Ha|]. unfold keys_distinct. rewrite Ha. apply distinct_nil.
  - done.
  - by exists s', out.
Qed.

Definition ex_inputs : list (env * input) :=
  [(ex_env, ex_packet (signed ex_key ex_allocate)); (ex_env, External 9 [Byte.x70] (ex_address 3));
   (ex_env, ChannelTimeout (mkConnection (ex_address 9) (ex_address 1) PROTO_UDP 7) 0);
   (ex_env, AllocationTimeout (mkConnection (ex_address 9) (ex_address 1) PROTO_UDP 7)); (ex_env, SocketClosed 7)].

Lemma turn_server_never_crashes_witness :
  exists s' out, serve (H := example_heap) ex_remote ex_local (Some ex_hook) None ex_inputs ex_server = Ret (tt, s', out).
Proof.
  apply (turn_server_never_crashes (H := example_heap) ex_remote ex_local (Some ex_hook) None ex_server ex_inputs).
  - intros hook user realm key [= <-]. done.
  - done.
  - done.
  - intros i proto Hi. unfold ex_server in Hi. cbn in Hi. apply lookup_singleton_Some in Hi as [_ <-]. done.
  - done.
  - unfold ex_inputs. cbn [admissible_all]. split.
    + split; [done|]. apply (request_honest (H := example_heap) ex_client_allocate); done.
    + intros s1 out1 _. do 4 (split; [done|intros ? ? _]). done.
Defined.
